(* ===== verification/_CoqProject ===== *)
-Q . S2P
Prelude.v
Libc.v
Eff.v
Qmi.v
QmiClient.v
Requests.v
Dms.v
Services.v
Gsm7.v
Pdu.v
Sms.v
SmsFilter.v
Config.v
Helpers.v
Oqticonf.v
Timesync.v
Call.v
Audio.v
Mixer.v
Storage.v
Replies.v
Thermal.v
Cells.v
NasClient.v
CellLog.v
Wds.v
Scheduler.v
Tracking.v
Proxy.v
Gps.v
CommandTable.v
Ipc.v
Device.v
Chat.v
Reminders.v
Commands.v
Daemon.v
Invariant.v
Internal.v
Atfwd.v
System.v
Startup.v
Hash.v
Md5.v
Mkbootimg.v
Dtbtool.v
