(* ===== verification/Prelude.v ===== *)
(** * OpenQTI, verified

    This library models the core of OpenQTI, the userspace daemon that replaces
    the manufacturer's software on the modem of the PinePhone
    (src/recipes-modem/openqti/files), and proves what makes it correct, and
    where it is not. File names below are under that directory.

    ** The program

    The daemon sits between the host (ModemManager or oFono on the phone) and
    the baseband processor. Both speak QMI, a binary protocol of small packets
    with headers and type-length-value fields. The daemon carries the packets,
    looks into some of them, answers some itself, and is a QMI client of its own.
    On top of that it pretends to be a correspondent: texts sent to a reserved
    number are commands, its answers are texts it queues and delivers to the host
    as if they came from the network, and it can hold a simulated voice call.

    ** Files

    - Prelude: machine integers, results of C computations, byte buffers, the
      tactics and the lemmas every file uses. Libc: the C library calls. Eff: the
      monad of the stateful parts, its reasoning rules, and the interface through
      which a component acts as a part of a larger state ([Part], [zoom]).
    - Qmi (src/qmi.c, inc/qmi.h): headers, the walkers over the fields, builders
      of requests, error names.
    - QmiClient (src/qmi.c): the internal client, its table of one message per
      service, the wait for a free slot, the send pass and the answers.
    - Requests: the requests of the service clients over Qmi, and the answers they
      read. Dms (src/dms_client.c): the texts and versions of the modem and the
      lock of the SIM. Services: the clients that keep no state (src/pdc_client.c,
      src/ims_client.c, src/mdm_fs_client.c, src/voice_client.c).
    - Gsm7 (src/sms.c, inc/sms.h): the 7-bit alphabet, packing and unpacking,
      phone numbers. Pdu (src/sms.c): the decoder of received messages.
    - Sms (src/sms.c): the store of texts for the host and the conversation that
      delivers them. SmsFilter (src/sms.c): the filters the text service's packets
      pass. They share the store's state.
    - Call (src/call.c; mask_phone_number of src/logger.c; add_message_to_queue of
      src/helpers.c): the simulated call, the queue of its voice, and the filter of
      the voice service. Its state [phone] contains the store.
    - Tracking (src/tracking.c): the table of the host's QMI clients.
    - Proxy (src/proxy.c): routing of every packet and one turn of the thread
      that carries them; its state contains the phone and the clients.
    - Gps (src/proxy.c, gps_proxy): the thread that carries the GPS port; it
      shares the proxy's state.
    - Config (src/config.c): the settings, their file and its parser.
    - Helpers (src/helpers.c, inc/adspfw.h): the flags of the misc partition, the
      USB stack, the ring line, the second AT port, the power key and the version
      of the ADSP firmware. Oqticonf (src/oqticonf.c): the tool that tells the boot
      scripts a setting, and the effect of each of its runs on the settings' files.
      Timesync (src/timesync.c): the thread that asks the
      network for the time and sets the clock. Their states are a board and a clock
      on it.
    - Audio (src/audio.c, src/pcm.c): the voice path of a call, with the mixer's
      controls and the PCMs on a heap. Mixer (src/mixer.c; set_mixer_ctl and
      set_gain_ctl of src/audio.c): the mixer behind those controls, its memory, the
      search for a control and the values written to the card, against the driver as
      a class with laws. Storage (src/space_mon.c, and the names and
      the watch of recordings in src/audio.c): free space and clean-ups.
    - Scheduler (src/scheduler.c): tasks, their file, and the turn of the thread
      that runs them; its state contains the phone and the settings.
    - Replies (add_message_to_queue of src/helpers.c): what a text of the daemon
      does to the phone, for every component that answers or warns. Thermal
      (src/thermal.c): the watch of the temperatures and its warnings.
    - Cells (src/nas_client.c): the table of cells the modem has met, its file, the
      OpenCellid database, and what a cell leads to in each tracking mode.
      NasClient (src/nas_client.c): the requests of the network client and what
      the messages of the network service do. Their state [network] contains the
      phone and the settings. CellLog (src/nas_client.c; dump_to_file of
      src/logger.c): the tables of cells kept for debugging, which NasClient leaves
      as the action [DumpCellTables].
    - Wds (src/wds_client.c): the data session of the modem. Its state [data_session]
      contains the phone and the settings.
    - CommandTable (inc/command.h, inc/chat_helpers.h): the table of the chat's
      commands. Device: the states of all components side by side; every
      component's state is a part of it. Chat (src/chat_helpers.c) and Reminders
      (its scheduling commands): what the commands do. Commands (src/command.c):
      the interpreter.
    - Ipc (src/ipc.c, inc/ipc.h): the lookups of the baseband's services, the
      addresses of its sockets, and the requests that open the data channels.
    - Daemon (src/proxy.c, src/sms.c): the packets' thread on the whole state, with
      the texts for the modem run as commands. Invariant: the step relation of all
      threads and what they keep. Internal (src/qmi.c): the thread of the internal
      client over the whole device: what it reads goes to the handler of the
      service, and what the handler asks for is queued and sent.
    - Atfwd (src/atfwd.c, inc/atfwd.h): the AT commands the baseband hands over,
      their table, registration and answers, and the thread. Its state holds the
      device, the board and the sound.
    - System (src/openqti.c): the threads main starts, on one state. What the
      other files leave as an action of a component (a message about a call for
      the sound, the USB stack to restart, a ring, a command on the AT port) is
      carried out here. Startup (main of src/openqti.c): the start, from the zeroed
      process to the state the threads of System run from.
    - Hash: digests over blocks of 64 bytes, as a class. Md5 (src/md5sum.c): the
      digest that tells the firmwares of the baseband apart, and the reading of the
      file. Mkbootimg (src/recipes-devtools/mkbootimg/files): the tool that builds
      the boot image, with its SHA-1. They prove their contexts against Hash.
    - Dtbtool (src/recipes-devtools/dtbtool/files): the tool that combines the device
      trees of the kernel, with its linked list on a heap.

    Each operation of the C code is a definition of the same name, composed the
    way the code composes it.

    ** Conventions

    Integers are [Z]; [u8], [u16], [u32] and [i32] are written where the code
    converts or may wrap. The target is 32-bit ARM: size_t and time_t have 32 bits,
    plain char is unsigned. A buffer is the list of its bytes, of the size the code
    gives it, and every access is checked: a computation returns a value ([Ret]),
    touches memory outside its object or through NULL ([Oob]), or is still in a
    loop when the fuel of the loop is used up ([Spin]). A stateful operation is a
    function from the state to a result, the new state and the actions in order
    (writes to descriptors, pulses of the RING IN line, mounts, threads started).
    The answers of the outside are arguments: an environment record holds the
    results of write(2), the clocks, the bytes of the stack behind a short array, the contents of fresh memory and the settings
    a component reads, and is constant while a handler runs. Global variables
    start at zero. Logging and packet dumps are left out, except that reads made
    only for a log line are kept where they can leave a buffer. The elapsed time
    the code computes as a double is exact up to 2^53 ns.

    Fuel: the walkers of QMI fields have 65537 steps, one more than the 16-bit
    position has values, so [Spin] is a loop that never ends, which
    [tlv_walkers_endless] shows to happen; the walker of a message's user data
    header, the loop that lowers a command and the one that lists the history have
    257 for their 8-bit positions; loops over numbers have 256. A loop that tries a
    device again has the outcomes of its tries as a list, and is [Spin] when they
    all fail. Every other loop is bounded by its array.

    ** Theorems

    - Qmi: the lookup of a field, the result and the count are right on every
      message of well-formed fields; built requests read back; truncated fields,
      arbitrary bytes and the endless walks are described exactly.
    - QmiClient: an invariant of every reachable table; the send pass transmits
      each message of a registered service once; a queued message is delivered
      with its instance and transaction; a busy slot is reported after 25 seconds.
    - Gsm7, Pdu: packing and unpacking against a bit-level specification, their
      round trip, and the decoding of a delivered message, with the number of its
      sender as the decoder reads it, and the overflows the decoder has.
    - Sms: an invariant of every reachable store; the whole conversation that
      delivers a text; a queue the host ignores is given up in bounded time.
      SmsFilter: which texts are kept from the network and run as commands.
    - Call: what a dialled number and a status message do, on every branch and
      for every number; the time limit of an unanswered call.
    - Proxy: a packet is forwarded at most once and verbatim, and a read that fails
      forwards nothing; services the proxy does not handle pass with no other effect;
      a call the modem wants to make rings after the texts queued before it, at the
      pace of the thread's half second. Gps: any run of the GPS thread
      refines a contract on its events alone.
    - Scheduler: a turn with its nested clean-ups refines a single pass over the
      due tasks; the table survives a reboot; adding a task on every branch; a call
      postponed once is never made. Config: the settings survive a reboot, but for
      the log that is kept after four of them.
      Tracking: how the table of clients loses one.
    - Cells, NasClient: in the learning modes the table refines an abstract tracker
      of cells (in mode 0 from the bytes of the reports on, in mode 2 but for the
      notice of a cell the database lists); what the strict modes lock and
      when; the notices that do not fit their buffers; the table after a reboot.
      CellLog: which tables keep the columns of their headers, on any message whose
      counts stay in its array.
    - Wds: the life of a data session from the bytes of the messages, with all that
      the user is told of it, the request for a connection from the settings, a
      refused start, and the size of the IMS request. Dms: the versions in an answer
      are kept, wherever its fields are, over what an earlier answer left; a section
      the client does not know stops the thread.
    - Helpers: what is stored on the misc partition is what a restart of the USB
      stack applies; which firmware is told from its digest. Timesync: the date in
      an answer of the network sets the clock; the thread ends, after how many
      attempts, and when it cannot fault. Thermal: the warnings refine a rule on the
      readings alone.
    - Audio: no freed PCM is used whatever the card refuses and whatever calls come;
      with a card that does as asked the mixer and the PCMs follow a model of one
      voice session. Mixer: opening it gives back all it took wherever it fails, but
      for one descriptor, and its writes give the card the values Audio keeps by name.
      Storage: what a clean-up removes, against a rule of its own, and that it removes
      the recording it is to spare.
    - Chat, Reminders, Commands: the interpreter picks the last row whose words the
      text is; a reminder in words is scheduled for its time; an unknown text is
      answered; the commands that set one setting; the history's endless loop.
    - Daemon, Invariant: from the bytes of a host's packet to the changed setting
      and the queued answer; the shape of every state all threads can reach, from
      which the theorems on turns start.
      Internal: the same with the internal client's thread, and that all it queues
      are requests for their service; the request a handler loses.
    - Atfwd: a command is answered once, by its name, before it acts, three odd ones
      apart; all are registered, in buffers that hold them; a log is sent whole.
    - Md5, Mkbootimg: bytes in any pieces have the digest of the standard; from the
      file of a firmware to its version; the image reads back by its page layout,
      and is left exactly when nothing failed.
    - Dtbtool: the linked list refines insertion in an ordered list; a file the tool
      reports as written leads from its table to every tree it lists, and which trees
      and chips are left out; the tool always ends.
    - Ipc: the request for a channel is sent until it is taken and reads back as the
      channel; the listing of the services and its stale entries.
    - System: what any run of all the threads keeps; from the bytes of a message
      about a call to the sound; from a text to the flags on the partition and the
      USB stack that follows them. Startup: main leaves the state those runs begin
      with, or ends without a thread for a reason its status tells.

    Where the code has a defect the theorem states the behaviour it has.

    ** Not modelled

    The SHA-256 and the second copy of SHA-1 beside mkbootimg are called by nothing.
    The threads of src/audio.c that play the alerting tone and record a call are
    actions. The parameters of the PCMs (the rest of src/pcm.c), speech
    (src/pico2aud.c, src/audio2text.c), logging and the small daemons are input and
    output; what the modelled parts call of them is an action or a value of the
    environment. Threads share the components' states;
    the operations of a component are modelled one at a time, not their data
    races, except that the wait for a slot in QmiClient sees any sequence of
    tables. The third-party code (speech) is not part of the program. *)

From stdpp Require Import base list numbers option.
From Stdlib Require Import ZArith Lia.

#[global] Open Scope Z_scope.

(** * Integers at their machine width *)

Definition u8 (x : Z) : Z := x mod 256.
Definition u16 (x : Z) : Z := x mod 65536.
Definition u32 (x : Z) : Z := x mod 4294967296.
Definition u64 (x : Z) : Z := x mod 18446744073709551616.
Definition i16 (x : Z) : Z := (x + 32768) mod 65536 - 32768.
Definition i32 (x : Z) : Z := (x + 2147483648) mod 4294967296 - 2147483648.

(** Linux error numbers used by the sources. *)
Definition EIO : Z := 5.
Definition EAGAIN : Z := 11.
Definition ENOMEM : Z := 12.
Definition EINVAL : Z := 22.
Definition EBUSY : Z := 16.
Definition ENOSPC : Z := 28.

(** * Outcome of a C computation

    [Ret a]: the computation returns [a].
    [Oob]: it accesses memory outside the object it points into (undefined
    behaviour in C), dereferences NULL included.
    [Spin]: a loop is still running when its fuel is used up. *)

Inductive cres (A : Type) : Type :=
| Ret (a : A)
| Oob
| Spin.
Arguments Ret {A} a.
Arguments Oob {A}.
Arguments Spin {A}.

Definition cbind {A B} (m : cres A) (k : A -> cres B) : cres B :=
  match m with
  | Ret a => k a
  | Oob => Oob
  | Spin => Spin
  end.

Declare Scope cres_scope.
Delimit Scope cres_scope with cres.
#[global] Open Scope cres_scope.
Notation "'let*' x ':=' m 'in' k" := (cbind m (fun x => k))
  (at level 10, x name, m at level 100, k at level 200) : cres_scope.
Notation "'let*' ' p ':=' m 'in' k" := (cbind m (fun x => match x with p => k end))
  (at level 10, p strict pattern, m at level 100, k at level 200) : cres_scope.

(** The computation ends with a value: no fault and no endless loop. *)
Definition safe {A} (m : cres A) : Prop := exists a, m = Ret a.

(** * Byte buffers *)

Definition zlen {A} (b : list A) : Z := Z.of_nat (length b).
Definition byte_ok (x : Z) : Prop := 0 <= x < 256.
Definition bytes_ok (b : list Z) : Prop := Forall byte_ok b.

(** Array element read and write, by a C index. *)
Definition rdA {A} (b : list A) (i : Z) : cres A :=
  if i <? 0 then Oob
  else match b !! Z.to_nat i with Some x => Ret x | None => Oob end.
Definition wrA {A} (b : list A) (i : Z) (x : A) : cres (list A) :=
  if (0 <=? i) && (i <? zlen b) then Ret (<[Z.to_nat i := x]> b) else Oob.

Abbreviation rd := (@rdA Z).
Abbreviation wr := (@wrA Z).

(** Little-endian fields of a packed struct. *)
Fixpoint le (n : nat) (x : Z) : list Z :=
  match n with
  | O => []
  | S n => x mod 256 :: le n (x / 256)
  end.
Fixpoint unle (b : list Z) : Z :=
  match b with
  | [] => 0
  | x :: b => x + 256 * unle b
  end.

Definition rd16 (b : list Z) (i : Z) : cres Z :=
  let* x0 := rd b i in
  let* x1 := rd b (i + 1) in
  Ret (x0 + 256 * x1).
Definition rd32 (b : list Z) (i : Z) : cres Z :=
  let* x0 := rd16 b i in
  let* x1 := rd16 b (i + 2) in
  Ret (x0 + 65536 * x1).

(** [memcpy(dst + i, src, length src)] into the buffer [b]. *)
Fixpoint wrn (b : list Z) (i : Z) (src : list Z) : cres (list Z) :=
  match src with
  | [] => Ret b
  | x :: src => let* b := wr b i x in wrn b (i + 1) src
  end.
(** [n] bytes of the buffer [b] from offset [i]. *)
Fixpoint rdn (b : list Z) (i : Z) (n : nat) : cres (list Z) :=
  match n with
  | O => Ret []
  | S n => let* x := rd b i in let* r := rdn b (i + 1) n in Ret (x :: r)
  end.

Definition wr16 (b : list Z) (i x : Z) : cres (list Z) := wrn b i (le 2 x).
Definition wr32 (b : list Z) (i x : Z) : cres (list Z) := wrn b i (le 4 x).

(** C strings in a buffer: the length up to the first NUL. *)
Fixpoint strlen (b : list Z) : cres Z :=
  match b with
  | [] => Oob
  | x :: b => if x =? 0 then Ret 0 else let* n := strlen b in Ret (n + 1)
  end.
(** The text of a C string without its NUL. *)
Fixpoint cstr (b : list Z) : cres (list Z) :=
  match b with
  | [] => Oob
  | x :: b => if x =? 0 then Ret [] else let* s := cstr b in Ret (x :: s)
  end.

(** * Automation *)

Create HintDb oqti.
Create Rewrite HintDb oqti_len.

(** Turn the boolean tests of the code into propositions. *)
Ltac b2p :=
  repeat match goal with
  | H : (_ && _)%bool = true |- _ => apply andb_prop in H as [? ?]
  | H : (_ || _)%bool = false |- _ => apply orb_false_elim in H as [? ?]
  | H : negb _ = true |- _ => apply negb_true_iff in H
  | H : negb _ = false |- _ => apply negb_false_iff in H
  | H : (_ <? _) = true |- _ => apply Z.ltb_lt in H
  | H : (_ <? _) = false |- _ => apply Z.ltb_ge in H
  | H : (_ <=? _) = true |- _ => apply Z.leb_le in H
  | H : (_ <=? _) = false |- _ => apply Z.leb_gt in H
  | H : (_ =? _) = true |- _ => apply Z.eqb_eq in H
  | H : (_ =? _) = false |- _ => apply Z.eqb_neq in H
  end.

(** Case analysis on the conditional the goal is blocked on. *)
Ltac csplit :=
  match goal with
  | |- context [if ?c then _ else _] =>
      lazymatch c with
      | context [if _ then _ else _] => fail
      | _ => let E := fresh "E" in destruct c eqn:E; b2p
      end
  end.

(** Reduce an arithmetic conditional that the context decides. *)
Ltac cdec c v := replace c with v by (symmetry; first
  [ apply Z.ltb_lt; lia | apply Z.ltb_ge; lia | apply Z.leb_le; lia | apply Z.leb_gt; lia
  | apply Z.eqb_eq; lia | apply Z.eqb_neq; lia ]).
Ltac ifdec :=
  repeat match goal with
  | |- context [?a <? ?b] => first [cdec (a <? b) true | cdec (a <? b) false]
  | |- context [?a <=? ?b] => first [cdec (a <=? b) true | cdec (a <=? b) false]
  | |- context [?a =? ?b] => first [cdec (a =? b) true | cdec (a =? b) false]
  end; cbn [andb orb negb].

(** Evaluate reads and writes at literal offsets of an explicit buffer. *)
Ltac natc :=
  repeat match goal with
  | |- context [Z.to_nat ?k] =>
      is_ground k; let v := eval vm_compute in (Z.to_nat k) in change (Z.to_nat k) with v
  | |- context [?a <? ?b] =>
      is_ground a; is_ground b; let v := eval vm_compute in (a <? b) in change (a <? b) with v
  end.
Ltac rdc := unfold rd32, rd16, rdA; natc; cbn [cbind lookup list_lookup app le].

(** [lia] with division and remainder by constants. *)
Ltac dlia := Z.div_mod_to_equations; lia.

(** Arithmetic facts about literals. *)
Ltac zlit := vm_compute; repeat split; congruence.

(** * Generic lemmas *)

Lemma cbind_ret {A B} (a : A) (k : A -> cres B) : cbind (Ret a) k = k a.
Proof. reflexivity. Qed.

Lemma cbind_assoc {A B C} (m : cres A) (k : A -> cres B) (h : B -> cres C) :
  cbind (cbind m k) h = cbind m (fun a => cbind (k a) h).
Proof. by destruct m. Qed.

Lemma cbind_Ret_inv {A B} (m : cres A) (k : A -> cres B) b :
  cbind m k = Ret b -> exists a, m = Ret a /\ k a = Ret b.
Proof. destruct m; simpl; intros H; try discriminate; eauto. Qed.

Lemma Ret_inj {A} (a b : A) : Ret a = Ret b -> a = b.
Proof. congruence. Qed.

Lemma u8_range x : byte_ok (u8 x).
Proof. apply Z.mod_pos_bound; lia. Qed.
Lemma u16_range x : 0 <= u16 x < 65536.
Proof. apply Z.mod_pos_bound; lia. Qed.
Lemma u8_small x : 0 <= x < 256 -> u8 x = x.
Proof. apply Z.mod_small. Qed.
Lemma u16_small x : 0 <= x < 65536 -> u16 x = x.
Proof. apply Z.mod_small. Qed.
Lemma u32_small x : 0 <= x < 4294967296 -> u32 x = x.
Proof. apply Z.mod_small. Qed.
Lemma i32_small x : -2147483648 <= x < 2147483648 -> i32 x = x.
Proof. intros. unfold i32. rewrite Z.mod_small; lia. Qed.
#[export] Hint Resolve u8_range u16_range : oqti.

Lemma zlen_nonneg {A} (b : list A) : 0 <= zlen b.
Proof. unfold zlen; lia. Qed.
Lemma zlen_nil {A} : zlen (@nil A) = 0.
Proof. reflexivity. Qed.
Lemma zlen_cons {A} (x : A) b : zlen (x :: b) = 1 + zlen b.
Proof. unfold zlen; simpl length; lia. Qed.
Lemma zlen_app {A} (a b : list A) : zlen (a ++ b) = zlen a + zlen b.
Proof. unfold zlen. rewrite length_app. lia. Qed.
Lemma zlen_insert {A} (b : list A) i x : zlen (<[i:=x]> b) = zlen b.
Proof. unfold zlen. by rewrite length_insert. Qed.
Lemma zlen_replicate {A} n (x : A) : zlen (replicate n x) = Z.of_nat n.
Proof. unfold zlen. by rewrite length_replicate. Qed.

Lemma length_le n x : length (le n x) = n.
Proof. revert x; induction n; intros; simpl; auto. Qed.
Lemma zlen_le n x : zlen (le n x) = Z.of_nat n.
Proof. unfold zlen. by rewrite length_le. Qed.
#[export] Hint Rewrite @zlen_nil @zlen_cons @zlen_app @zlen_insert @zlen_replicate zlen_le
  : oqti_len.
Ltac zl := autorewrite with oqti_len in *.

Lemma le_bytes n x : bytes_ok (le n x).
Proof.
  revert x; induction n; intros x; simpl; constructor.
  - apply Z.mod_pos_bound; lia.
  - apply IHn.
Qed.
#[export] Hint Resolve le_bytes : oqti.

(** Decoding an encoded field gives the value at the field's width. *)
Lemma unle_le n x : unle (le n x) = x mod 256 ^ Z.of_nat n.
Proof.
  revert x; induction n; intros x.
  - simpl. by rewrite Z.mod_1_r.
  - cbn [le unle]. rewrite IHn, Nat2Z.inj_succ, Z.pow_succ_r by lia.
    rewrite Z.rem_mul_r; lia.
Qed.

Lemma rdA_lookup {A} (b : list A) i x :
  rdA b i = Ret x <-> 0 <= i /\ b !! Z.to_nat i = Some x.
Proof.
  unfold rdA. destruct (Z.ltb_spec i 0); [split; [done|lia]|].
  destruct (b !! Z.to_nat i) eqn:E; split; [intros; simplify_eq; auto|
    intros [_ ?]; simplify_eq; auto|done|intros [_ ?]; done].
Qed.

Lemma rdA_in {A} (b : list A) i : 0 <= i < zlen b -> exists x, rdA b i = Ret x.
Proof.
  intros Hi. unfold zlen in Hi.
  destruct (lookup_lt_is_Some_2 b (Z.to_nat i)) as [x Hx]; [lia|].
  exists x. apply rdA_lookup. auto with lia.
Qed.

Lemma rdA_bounds {A} (b : list A) i x : rdA b i = Ret x -> 0 <= i < zlen b.
Proof.
  intros [Hi Hx]%rdA_lookup. apply lookup_lt_Some in Hx. unfold zlen. lia.
Qed.

Lemma rdA_out {A} (b : list A) i : zlen b <= i -> rdA b i = Oob.
Proof.
  intros Hi. unfold rdA, zlen in *. destruct (Z.ltb_spec i 0); [done|].
  by rewrite lookup_ge_None_2 by lia.
Qed.

Lemma rdA_app_r {A} (a b : list A) i : zlen a <= i -> rdA (a ++ b) i = rdA b (i - zlen a).
Proof.
  intros Hi. unfold rdA, zlen in *.
  destruct (Z.ltb_spec i 0), (Z.ltb_spec (i - Z.of_nat (length a)) 0); try lia; [done..|].
  rewrite lookup_app_r by lia.
  by replace (Z.to_nat i - length a)%nat with (Z.to_nat (i - Z.of_nat (length a))) by lia.
Qed.

Lemma rdA_app_l {A} (a b : list A) i : i < zlen a -> rdA (a ++ b) i = rdA a i.
Proof.
  intros Hi. unfold rdA, zlen in *. destruct (Z.ltb_spec i 0); [done|].
  by rewrite lookup_app_l by lia.
Qed.

Lemma rdA_byte b i x : bytes_ok b -> rd b i = Ret x -> byte_ok x.
Proof.
  intros Hb [_ Hx]%rdA_lookup. eapply Forall_lookup_1 in Hx; eauto.
Qed.

Lemma wrA_ok {A} (b : list A) i x :
  0 <= i < zlen b -> wrA b i x = Ret (<[Z.to_nat i := x]> b).
Proof. intros Hi. unfold wrA. by ifdec. Qed.

Lemma wrA_inv {A} (b : list A) i x b' :
  wrA b i x = Ret b' -> 0 <= i < zlen b /\ b' = <[Z.to_nat i := x]> b.
Proof. unfold wrA. csplit; intros; simplify_eq. auto. Qed.

Lemma wrA_out {A} (b : list A) i x : zlen b <= i -> wrA b i x = Oob.
Proof. intros Hi. unfold wrA. pose proof (zlen_nonneg b). by ifdec. Qed.

Lemma wrA_cases {A} (b : list A) i x :
  wrA b i x = Oob \/ exists b', 0 <= i < zlen b /\ wrA b i x = Ret b' /\ zlen b' = zlen b.
Proof.
  unfold wrA. csplit; [right|by left]. eexists. split; [lia|]. split; [done|]. by zl.
Qed.

Lemma rdA_insert {A} (b : list A) i j x :
  0 <= i < zlen b -> 0 <= j ->
  rdA (<[Z.to_nat i := x]> b) j = if i =? j then Ret x else rdA b j.
Proof.
  intros Hi Hj. unfold zlen in Hi. destruct (Z.eqb_spec i j) as [->|Hne].
  - apply rdA_lookup. split; [lia|]. apply list_lookup_insert_eq. lia.
  - unfold rdA. destruct (Z.ltb_spec j 0); [done|].
    by rewrite list_lookup_insert_ne by lia.
Qed.

(** A copy replaces exactly the bytes it covers. *)
Lemma wrn_app a b c src :
  length b = length src -> wrn (a ++ b ++ c) (zlen a) src = Ret (a ++ src ++ c).
Proof.
  revert a b; induction src as [|x src IH]; intros a [|y b] Hl; try discriminate; [done|].
  injection Hl as Hl. cbn [wrn]. rewrite wrA_ok.
  2: { pose proof (zlen_nonneg b). pose proof (zlen_nonneg a). pose proof (zlen_nonneg c).
       cbn [app]. zl. lia. }
  cbn [cbind]. replace (Z.to_nat (zlen a)) with (length a + 0)%nat by (unfold zlen; lia).
  rewrite insert_app_r. cbn [app]. specialize (IH (a ++ [x]) b Hl).
  rewrite <- !app_assoc in IH. cbn [app] in IH.
  replace (zlen (a ++ [x])) with (zlen a + 1) in IH by (zl; lia). exact IH.
Qed.

Lemma wrn_ok b i src :
  0 <= i -> i + zlen src <= zlen b ->
  wrn b i src = Ret (take (Z.to_nat i) b ++ src ++ drop (Z.to_nat i + length src) b).
Proof.
  intros Hi Hle. unfold zlen in Hle. set (a := take (Z.to_nat i) b).
  pose proof (wrn_app a (take (length src) (drop (Z.to_nat i) b))
    (drop (length src) (drop (Z.to_nat i) b)) src) as H.
  unfold a in H. rewrite !take_drop, drop_drop in H.
  replace (zlen (take (Z.to_nat i) b)) with i in H
    by (unfold zlen; rewrite length_take; lia).
  apply H. rewrite length_take, length_drop. lia.
Qed.

(** Two adjacent copies are one copy. *)
Lemma wrn_concat b i s1 s2 :
  wrn b i (s1 ++ s2) = let* b' := wrn b i s1 in wrn b' (i + zlen s1) s2.
Proof.
  revert b i; induction s1 as [|x s1 IH]; intros b i.
  - cbn. by rewrite Z.add_0_r.
  - cbn [app wrn]. rewrite cbind_assoc. destruct (wr b i x); cbn [cbind]; [|done..].
    rewrite IH. zl. by replace (i + 1 + zlen s1) with (i + (1 + zlen s1)) by lia.
Qed.

Lemma wrn_one b i x : wrn b i [x] = wr b i x.
Proof. cbn. by destruct (wr b i x). Qed.

Lemma wrn_no_spin b i src : wrn b i src <> Spin.
Proof.
  revert b i; induction src as [|x src IH]; intros b i; [done|]. cbn [wrn].
  destruct (wrA_cases b i x) as [->|(b' & _ & -> & _)]; [done|apply IH].
Qed.

Lemma wrn_zlen b i src b' : wrn b i src = Ret b' -> zlen b' = zlen b.
Proof.
  revert b i; induction src as [|x src IH]; intros b i; cbn [wrn].
  - intros; simplify_eq; done.
  - intros (b1 & [_ ->]%wrA_inv & H2)%cbind_Ret_inv. apply IH in H2. by zl.
Qed.

Lemma rdn_app a b c : rdn (a ++ b ++ c) (zlen a) (length b) = Ret b.
Proof.
  revert a; induction b as [|x b IH]; intros a; [done|].
  cbn [rdn length]. rewrite rdA_app_r, Z.sub_diag by lia.
  change (rd ((x :: b) ++ c) 0) with (Ret x). cbn [cbind].
  specialize (IH (a ++ [x])). rewrite <- app_assoc in IH. cbn [app] in IH |- *.
  replace (zlen (a ++ [x])) with (zlen a + 1) in IH by (zl; lia).
  by rewrite IH.
Qed.
Lemma rdn_head b n : (n <= length b)%nat -> rdn b 0 n = Ret (take n b).
Proof.
  intros Hn. pose proof (rdn_app [] (take n b) (drop n b)) as H. cbn [app] in H.
  rewrite take_drop, length_take_le in H by done. exact H.
Qed.

Lemma strlen_app s r : Forall (fun x => x <> 0) s -> strlen (s ++ 0 :: r) = Ret (zlen s).
Proof.
  induction 1 as [|x s Hx _ IH]; [done|]. cbn [strlen app].
  rewrite (proj2 (Z.eqb_neq x 0) Hx), IH. cbn [cbind]. zl. f_equal. lia.
Qed.

Lemma cstr_app s r : Forall (fun x => x <> 0) s -> cstr (s ++ 0 :: r) = Ret s.
Proof.
  induction 1 as [|x s Hx _ IH]; [done|]. cbn [cstr app].
  rewrite (proj2 (Z.eqb_neq x 0) Hx), IH. done.
Qed.

(** A buffer with a NUL holds a string, of at most the bytes before it. *)
Lemma cstr_nul b : In 0 b -> exists s, cstr b = Ret s.
Proof.
  induction b as [|x b IH]; [done|]. cbn [cstr In]. intros Hin.
  destruct (Z.eqb_spec x 0) as [|Hx]; [eauto|]. destruct Hin as [|Hb]; [done|].
  destruct (IH Hb) as (s & ->). by eexists.
Qed.
Lemma strlen_nul a r : exists n, strlen (a ++ 0 :: r) = Ret n /\ 0 <= n <= zlen a.
Proof.
  induction a as [|x a (n & IH & Hn)]; [by exists 0|]. cbn [strlen app]. destruct (x =? 0).
  - exists 0. split; [done|]. pose proof (zlen_nonneg (x :: a)). lia.
  - rewrite IH. exists (n + 1). split; [done|]. zl. lia.
Qed.

Lemma cstr_no_nul b : Forall (fun x => x <> 0) b -> cstr b = Oob.
Proof.
  induction 1 as [|x s Hx _ IH]; [done|]. cbn [cstr].
  by rewrite (proj2 (Z.eqb_neq x 0) Hx), IH.
Qed.

Lemma strlen_no_nul b : Forall (fun x => x <> 0) b -> strlen b = Oob.
Proof.
  induction 1 as [|x s Hx _ IH]; [done|]. cbn [strlen].
  by rewrite (proj2 (Z.eqb_neq x 0) Hx), IH.
Qed.

(** Access to the element a prefix is followed by. *)
Lemma rdA_middle {A} (pre : list A) x rest : rdA (pre ++ x :: rest) (zlen pre) = Ret x.
Proof. rewrite rdA_app_r by lia. by rewrite Z.sub_diag. Qed.

Lemma wrA_middle {A} (pre : list A) x y rest :
  wrA (pre ++ x :: rest) (zlen pre) y = Ret (pre ++ y :: rest).
Proof.
  pose proof (zlen_nonneg pre). pose proof (zlen_nonneg rest).
  rewrite wrA_ok by (zl; lia).
  replace (Z.to_nat (zlen pre)) with (length pre + 0)%nat by (unfold zlen; lia).
  by rewrite insert_app_r.
Qed.

Lemma rdA_at {A} (pre : list A) x rest i : zlen pre = i -> rdA (pre ++ x :: rest) i = Ret x.
Proof. intros <-. apply rdA_middle. Qed.
Lemma wrA_at {A} (pre : list A) x y rest i :
  zlen pre = i -> wrA (pre ++ x :: rest) i y = Ret (pre ++ y :: rest).
Proof. intros <-. apply wrA_middle. Qed.

Lemma wrA_0 {A} (x y : A) b : wrA (x :: b) 0 y = Ret (y :: b).
Proof. exact (wrA_middle [] x y b). Qed.

(** The next byte of a little-endian field. *)
Lemma le_snoc n x : le (S n) x = le n x ++ [x / 256 ^ Z.of_nat n mod 256].
Proof.
  revert x; induction n as [|n IH]; intros x.
  - cbn. by rewrite Z.div_1_r.
  - change (le (S (S n)) x) with (x mod 256 :: le (S n) (x / 256)). rewrite IH. cbn [le app].
    rewrite Z.div_div by lia. by rewrite Nat2Z.inj_succ, Z.pow_succ_r by lia.
Qed.

(** Bytes above the field do not show in it. *)
Lemma le_add_high n x k : le n (x + k * 256 ^ Z.of_nat n) = le n x.
Proof.
  revert x k; induction n as [|n IH]; intros x k; [done|]. cbn [le].
  rewrite Nat2Z.inj_succ, Z.pow_succ_r by lia.
  replace (x + k * (256 * 256 ^ Z.of_nat n)) with (x + k * 256 ^ Z.of_nat n * 256) by lia.
  by rewrite Z.mod_add, Z.div_add, IH by lia.
Qed.

Lemma lor_shift_disjoint h v r : 0 <= r -> 0 <= h < 2 ^ r -> Z.land h (Z.shiftl v r) = 0.
Proof.
  intros Hr Hh. apply Z.bits_inj'. intros k Hk. rewrite Z.land_spec, Z.bits_0.
  destruct (Z.ltb_spec k r).
  - rewrite Z.shiftl_spec_low by lia. apply andb_false_r.
  - rewrite <- (Z.mod_small h (2 ^ r)) by lia. by rewrite Z.mod_pow2_bits_high by lia.
Qed.

(** A copy longer than its place leaves the buffer. *)
Lemma wrn_overflow b i src :
  0 <= i <= zlen b -> zlen b < i + zlen src -> wrn b i src = Oob.
Proof.
  revert b i; induction src as [|x src IH]; intros b i Hi Hl; zl; [lia|]. cbn [wrn].
  destruct (wrA_cases b i x) as [->|(b' & Hb & -> & Hz)]; [done|].
  cbn [cbind]. apply IH; lia.
Qed.

(** Reads past a prefix. *)
Lemma rd_shift (pre b : list Z) i : 0 <= i -> rd (pre ++ b) (zlen pre + i) = rd b i.
Proof. intros Hi. rewrite rdA_app_r by lia. f_equal. lia. Qed.
Lemma rdn_shift (pre b : list Z) i n : 0 <= i -> rdn (pre ++ b) (zlen pre + i) n = rdn b i n.
Proof.
  revert i. induction n as [|n IH]; intros i Hi; [done|]. cbn [rdn].
  rewrite rd_shift by done. by rewrite <- Z.add_assoc, IH by lia.
Qed.
Lemma rd16_shift (pre b : list Z) i : 0 <= i -> rd16 (pre ++ b) (zlen pre + i) = rd16 b i.
Proof. intros Hi. unfold rd16. rewrite <- Z.add_assoc, !rd_shift by lia. done. Qed.
Lemma rd32_shift (pre b : list Z) i : 0 <= i -> rd32 (pre ++ b) (zlen pre + i) = rd32 b i.
Proof. intros Hi. unfold rd32. rewrite <- Z.add_assoc, !rd16_shift by lia. done. Qed.

Lemma rdn_cases b i n : rdn b i n = Oob \/ exists s, rdn b i n = Ret s /\ length s = n.
Proof.
  revert i; induction n as [|n IH]; intros i; [right; by exists []|]. cbn [rdn]. unfold rdA.
  destruct (i <? 0); [by left|]. destruct (b !! Z.to_nat i) as [x|]; [|by left]. cbn [cbind].
  destruct (IH (i + 1)) as [->|(s & -> & Hs)]; [by left|]. right. eexists. split; [done|].
  cbn. lia.
Qed.

Lemma rdn_out b i n : 0 <= i -> zlen b < i + Z.of_nat n -> (0 < n)%nat -> rdn b i n = Oob.
Proof.
  revert i; induction n as [|n IH]; intros i Hi Hl Hn; [lia|]. cbn [rdn].
  destruct (rd b i) eqn:E; [|done|].
  - apply rdA_bounds in E. cbn [cbind]. rewrite IH by lia. done.
  - unfold rdA in E. destruct (i <? 0); [done|]. by destruct (b !! Z.to_nat i).
Qed.
