(* ===== verification/Libc.v ===== *)
(** The C library calls the sources build on, over byte buffers: string
    literals, decimal formatting and parsing, bounded copies. *)

From stdpp Require Import base list numbers option strings.
From Stdlib Require Import ZArith Lia.
From S2P Require Import Prelude.

(** The bytes of a string literal, without its NUL. *)
Fixpoint zs (s : string) : list Z :=
  match s with
  | EmptyString => []
  | String a s => Z.of_N (Ascii.N_of_ascii a) :: zs s
  end.

(** * Decimal numbers *)

Fixpoint dec_go (fuel : nat) (x : Z) : list Z :=
  match fuel with
  | O => []
  | S fuel => if x <? 10 then [48 + x] else dec_go fuel (x / 10) ++ [48 + x mod 10]
  end.
(** [%u]: 20 digits print any 64-bit number. *)
Definition fmt_u (x : Z) : list Z := dec_go 20 x.
(** [%i] *)
Definition fmt_i (x : Z) : list Z := if x <? 0 then 45 :: fmt_u (- x) else fmt_u x.
(** [%.<n>u] and [%.<n>i]: at least [n] digits. *)
Definition fmt_prec (n : nat) (x : Z) : list Z :=
  let d := fmt_u (Z.abs x) in
  (if x <? 0 then [45] else []) ++ replicate (n - length d) 48 ++ d.

Definition isdigit (c : Z) : bool := (48 <=? c) && (c <=? 57).
Definition isspace (c : Z) : bool := (c =? 32) || ((9 <=? c) && (c <=? 13)).

Fixpoint digits_val (acc : Z) (s : list Z) : Z :=
  match s with
  | c :: s => if isdigit c then digits_val (10 * acc + (c - 48)) s else acc
  | [] => acc
  end.
Fixpoint skip_space (s : list Z) : list Z :=
  match s with
  | c :: s' => if isspace c then skip_space s' else s
  | [] => []
  end.
(** [atoi] of a C string given without its NUL: blanks, a sign, digits; the
    value saturates at the width of a 32-bit long. *)
Definition atoi (s : list Z) : Z :=
  let v := match skip_space s with
    | 45 :: r => - digits_val 0 r
    | 43 :: r => digits_val 0 r
    | r => digits_val 0 r
    end in
  Z.max (-2147483648) (Z.min 2147483647 v).

(** The bytes of an array up to its first NUL or its end. *)
Fixpoint until_nul (b : list Z) : list Z :=
  match b with
  | [] => []
  | x :: b => if x =? 0 then [] else x :: until_nul b
  end.

(** * Bounded copies *)

(** [snprintf(buf, n, ...)] of the formatted [text]: the buffer and the
    length the text has. *)
Definition snprintf (buf : list Z) (n : Z) (text : list Z) : cres (list Z * Z) :=
  if n <=? 0 then Ret (buf, zlen text)
  else let* b := wrn buf 0 (take (Z.to_nat (n - 1)) text ++ [0]) in Ret (b, zlen text).

(** [strncpy(buf, src, n)] of the C string [src] (given without its NUL):
    at most [n] bytes, padded with NULs, and no NUL when it fills them. *)
Definition strncpy (buf : list Z) (src : list Z) (n : nat) : cres (list Z) :=
  wrn buf 0 (take n src ++ replicate (n - length src) 0).

(** [memset(buf, v, n)] *)
Definition memset (buf : list Z) (v : Z) (n : nat) : cres (list Z) :=
  wrn buf 0 (replicate n v).

(** * Lemmas *)

Lemma skip_space_digit c r : isdigit c = true -> skip_space (c :: r) = c :: r.
Proof. intros Hd. unfold isdigit in Hd. b2p. cbn. unfold isspace. by ifdec. Qed.

Lemma dec_go_digits fuel x :
  0 <= x -> Forall (fun c => isdigit c = true) (dec_go fuel x).
Proof.
  revert x; induction fuel as [|fuel IH]; intros x Hx; [constructor|].
  cbn [dec_go]. csplit.
  - constructor; [|constructor]. unfold isdigit. by ifdec.
  - apply Forall_app. split; [apply IH; apply Z.div_pos; lia|].
    pose proof (Z.mod_pos_bound x 10). constructor; [|constructor]. unfold isdigit. by ifdec.
Qed.

Lemma digits_val_app acc s t :
  Forall (fun c => isdigit c = true) s -> digits_val acc (s ++ t) = digits_val (digits_val acc s) t.
Proof.
  intros Hs; revert acc; induction Hs as [|c s Hc _ IH]; intros acc; [done|].
  cbn [digits_val app]. rewrite Hc. apply IH.
Qed.

Lemma digits_val_dec fuel x :
  0 <= x < 10 ^ Z.of_nat fuel -> digits_val 0 (dec_go fuel x) = x.
Proof.
  revert x; induction fuel as [|fuel IH]; intros x Hx; [cbn in *; lia|].
  rewrite Nat2Z.inj_succ, Z.pow_succ_r in Hx by lia. cbn [dec_go]. csplit.
  - cbn. unfold isdigit. ifdec. lia.
  - pose proof (Z.div_mod x 10). pose proof (Z.mod_pos_bound x 10).
    assert (0 <= x / 10 < 10 ^ Z.of_nat fuel)
      by (split; [apply Z.div_pos; lia|apply Z.div_lt_upper_bound; lia]).
    rewrite digits_val_app by (apply dec_go_digits; lia).
    rewrite IH by done. cbn. unfold isdigit. ifdec. lia.
Qed.

Lemma dec_go_cons fuel x : 0 <= x -> exists c r, dec_go (S fuel) x = c :: r /\ isdigit c = true.
Proof.
  intros Hx. pose proof (dec_go_digits (S fuel) x Hx) as Hd.
  cbn [dec_go] in *. destruct (x <? 10); [inversion Hd; eauto|].
  destruct (dec_go fuel (x / 10)) as [|c r]; cbn [app] in *; inversion Hd; eauto.
Qed.

(** Parsing what [%i] prints gives the number back. *)
Lemma atoi_fmt_i x : -2147483648 <= x < 2147483648 -> atoi (fmt_i x) = x.
Proof.
  intros Hx. assert (Hp : forall y, 0 <= y <= 2147483648 ->
    digits_val 0 (fmt_u y) = y /\ exists c r, fmt_u y = c :: r /\ isdigit c = true).
  { intros y Hy. split; [apply digits_val_dec; lia|apply dec_go_cons; lia]. }
  unfold fmt_i. destruct (Z.ltb_spec x 0).
  - destruct (Hp (- x)) as [Hv _]; [lia|]. unfold atoi.
    change (skip_space (45 :: fmt_u (- x))) with (45 :: fmt_u (- x)).
    cbn match beta iota. rewrite Hv. lia.
  - destruct (Hp x) as [Hv (c & r & E & Hd)]; [lia|]. unfold atoi. rewrite E in *.
    rewrite skip_space_digit by done. unfold isdigit in Hd. b2p.
    assert (match c :: r with 45 :: r0 => - digits_val 0 r0 | 43 :: r0 => digits_val 0 r0
            | r0 => digits_val 0 r0 end = digits_val 0 (c :: r)) as ->.
    { assert (c = 48 \/ c = 49 \/ c = 50 \/ c = 51 \/ c = 52 \/ c = 53 \/ c = 54 \/ c = 55 \/
              c = 56 \/ c = 57) as Hc by lia.
      by repeat (destruct Hc as [->|Hc]); subst. }
    rewrite Hv. lia.
Qed.

Lemma fmt_u_digits x : 0 <= x -> Forall (fun c => isdigit c = true) (fmt_u x).
Proof. apply dec_go_digits. Qed.

(** A character of a printed number is a digit or the sign. *)
Lemma fmt_i_chars x : Forall (fun c => 45 <= c <= 57) (fmt_i x).
Proof.
  unfold fmt_i. csplit; [constructor; [lia|]|].
  all: (eapply Forall_impl; [apply fmt_u_digits; lia|]);
    intros c Hc; unfold isdigit in Hc; b2p; lia.
Qed.

Lemma length_dec_go fuel x : (length (dec_go fuel x) <= fuel)%nat.
Proof.
  revert x; induction fuel as [|fuel IH]; intros x; [done|]. cbn [dec_go].
  csplit; [cbn; lia|]. rewrite length_app. cbn. specialize (IH (x / 10)). lia.
Qed.

Lemma snprintf_fits text buf n :
  zlen text < n -> n <= zlen buf ->
  snprintf buf n text = Ret (text ++ 0 :: drop (S (length text)) buf, zlen text).
Proof.
  intros H1 H2. pose proof (zlen_nonneg text). unfold snprintf. ifdec.
  rewrite take_ge by (unfold zlen in *; lia). rewrite wrn_ok by (zl; lia).
  cbn [cbind take app Z.to_nat Nat.add]. rewrite length_app. cbn [length].
  rewrite Nat.add_1_r, <- app_assoc. done.
Qed.

(** * More formats *)

Definition hex_char (x : Z) : Z := if x <? 10 then 48 + x else 87 + x.
Fixpoint hex_go (fuel : nat) (x : Z) : list Z :=
  match fuel with
  | O => []
  | S fuel => if x <? 16 then [hex_char x] else hex_go fuel (x / 16) ++ [hex_char (x mod 16)]
  end.
(** [%.<n>x] of an unsigned number of up to 64 bits: at least [n] digits. *)
Definition fmt_x (n : nat) (x : Z) : list Z :=
  let d := hex_go 16 x in replicate (n - length d) 48 ++ d.
(** [%<n>u], padded with blanks. *)
Definition fmt_width (n : nat) (x : Z) : list Z :=
  let d := fmt_u x in replicate (n - length d) 32 ++ d.

(** [%f] of a float, given by its bits and promoted to double: six decimals, a
    half rounded to even. *)
Definition round_shift (x n : Z) : Z :=
  let q := x / 2 ^ n in
  let r := 2 * (x mod 2 ^ n) in
  if (2 ^ n <? r) || ((2 ^ n =? r) && Z.odd q) then q + 1 else q.
Definition fmt_f (w : Z) : list Z :=
  let sign := if 2147483648 <=? w then [45] else [] in
  let e := (w / 8388608) mod 256 in
  let m := w mod 8388608 in
  if e =? 255 then sign ++ (if m =? 0 then zs "inf" else zs "nan")
  else
    let significand := if e =? 0 then m else m + 8388608 in
    let shift := Z.max 1 e - 150 in
    let micro := if 0 <=? shift then 1000000 * significand * 2 ^ shift
                 else round_shift (1000000 * significand) (- shift) in
    sign ++ dec_go 40 (micro / 1000000) ++ [46] ++ fmt_prec 6 (micro mod 1000000).

(** tolower(3) in the C locale. *)
Definition tolower (c : Z) : Z := if (65 <=? c) && (c <=? 90) then c + 32 else c.

(** strchr(3) of a C string given without its NUL: what follows from the
    first [c] on. *)
Fixpoint strchr (s : list Z) (c : Z) : option (list Z) :=
  match s with
  | [] => None
  | x :: r => if x =? c then Some s else strchr r c
  end.

(** strstr(3): what follows from the first place [key] occurs in the text. *)
Fixpoint is_prefix (key s : list Z) : bool :=
  match key, s with
  | [], _ => true
  | k :: key, c :: s => (k =? c) && is_prefix key s
  | _, [] => false
  end.
Fixpoint strstr (s key : list Z) : option (list Z) :=
  if is_prefix key s then Some s
  else match s with [] => None | _ :: s => strstr s key end.

(** The tokens strtok(3) yields, one after the other, for one separator. *)
Fixpoint tokens_from (sep : Z) (tok s : list Z) : list (list Z) :=
  match s with
  | [] => match tok with [] => [] | _ => [tok] end
  | c :: s =>
      if c =? sep then
        match tok with [] => tokens_from sep [] s | _ => tok :: tokens_from sep [] s end
      else tokens_from sep (tok ++ [c]) s
  end.
Definition tokens (sep : Z) (s : list Z) : list (list Z) := tokens_from sep [] s.

(** The array after strtok(3) was called for the separator [sep] until it had
    no more tokens: the separator that ends a token is a NUL. *)
Fixpoint strtok_all (sep : Z) (in_token : bool) (s : list Z) : list Z :=
  match s with
  | [] => []
  | c :: s =>
      if c =? sep then (if in_token then 0 else c) :: strtok_all sep false s
      else c :: strtok_all sep true s
  end.

(** [snprintf(buf + at, cap - at, ...)], appending to what [buf] of [cap] bytes
    already holds: the buffer and the length the whole text has. A place past
    the end of the buffer is outside the object. *)
Definition append (cap : Z) (r : list Z * Z) (text : list Z) : cres (list Z * Z) :=
  let '(buf, at_) := r in
  if cap <? at_ then Oob
  else if at_ =? cap then Ret (buf, at_ + zlen text)
  else
    let* b := wrn buf at_ (take (Z.to_nat (cap - at_ - 1)) text ++ [0]) in
    Ret (b, at_ + zlen text).

(** strstr(3) finds a text exactly when it is there. *)
Definition contains (s key : list Z) : Prop := exists a b, s = a ++ key ++ b.

Lemma is_prefix_spec key s : is_prefix key s = true <-> exists b, s = key ++ b.
Proof.
  revert s; induction key as [|k key IH]; intros s; cbn [is_prefix app]; [split; eauto|].
  destruct s as [|c s]; [split; [done|by intros []]|].
  rewrite andb_true_iff, Z.eqb_eq, IH. split.
  - intros [-> [b ->]]. by exists b.
  - intros [b [= -> ->]]. eauto.
Qed.

Lemma strstr_contains s key : strstr s key <> None <-> contains s key.
Proof.
  induction s as [|c s IH]; cbn [strstr].
  - destruct (is_prefix key []) eqn:E.
    + apply is_prefix_spec in E as [b E]. split; [by intros; exists [], b|done].
    + split; [done|]. intros (a & b & H). destruct a; [|done].
      assert (is_prefix key [] = true) as E2 by (apply is_prefix_spec; by exists b).
      by rewrite E2 in E.
  - destruct (is_prefix key (c :: s)) eqn:E.
    + apply is_prefix_spec in E as [b E]. split; [by intros; exists [], b|done].
    + rewrite IH. split; intros (a & b & H).
      * exists (c :: a), b. by rewrite H.
      * destruct a as [|x a].
        { assert (is_prefix key (c :: s) = true) as E2 by (apply is_prefix_spec; by exists b).
          by rewrite E2 in E. }
        injection H as -> ->. by exists a, b.
Qed.
#[export] Instance contains_dec s key : Decision (contains s key).
Proof.
  refine (match strstr s key as o return strstr s key = o -> _ with
          | Some _ => fun E => left _ | None => fun E => right _ end eq_refl).
  - apply strstr_contains. by rewrite E.
  - intros H. apply strstr_contains in H. by rewrite E in H.
Defined.

Lemma tolower_nonzero c : c <> 0 -> tolower c <> 0.
Proof. unfold tolower. csplit; lia. Qed.
Lemma tolower_idem c : tolower (tolower c) = tolower c.
Proof. unfold tolower. repeat csplit; lia. Qed.

Lemma append_cap cap b at_ text :
  zlen b = cap -> 0 <= at_ < cap ->
  exists b', append cap (b, at_) text = Ret (b', at_ + zlen text) /\ zlen b' = cap /\
    (at_ + zlen text < cap -> take (Z.to_nat (at_ + zlen text)) b' = take (Z.to_nat at_) b ++ text).
Proof.
  intros Hb Ha. unfold append. ifdec.
  pose proof (zlen_nonneg text).
  set (src := take (Z.to_nat (cap - at_ - 1)) text ++ [0]).
  assert (Hl : at_ + zlen src <= cap) by (unfold src; zl; unfold zlen in *; rewrite length_take; lia).
  rewrite wrn_ok by lia. cbn [cbind]. eexists. split; [reflexivity|]. split.
  - pose proof (wrn_ok b at_ src ltac:(lia) ltac:(lia)) as Hw. apply wrn_zlen in Hw. lia.
  - intros Ht. unfold src. rewrite (take_ge text) by (unfold zlen in *; lia).
    rewrite <- !app_assoc, app_assoc. apply take_app_length'.
    rewrite length_app, length_take. unfold zlen in *. lia.
Qed.

(** * Lengths *)

Lemma fmt_x_length n x : Z.of_nat n <= zlen (fmt_x n x) <= Z.max (Z.of_nat n) 16.
Proof.
  assert (forall fuel y, (length (hex_go fuel y) <= fuel)%nat) as Hl.
  { induction fuel as [|fuel IH]; intros y; cbn [hex_go]; [done|]. csplit; [cbn; lia|].
    rewrite length_app. specialize (IH (y / 16)). cbn. lia. }
  specialize (Hl 16%nat x). unfold fmt_x, zlen. rewrite length_app, length_replicate. lia.
Qed.
(** A number with up to [k] digits. *)
Lemma hex_go_length fuel k x : 0 <= x < 16 ^ Z.of_nat k -> (1 <= k)%nat -> (length (hex_go fuel x) <= k)%nat.
Proof.
  revert k x. induction fuel as [|fuel IH]; intros k x Hx Hk; cbn [hex_go length]; [lia|]. csplit; [cbn; lia|].
  destruct k as [|[|k]]; [lia| |].
  - change (16 ^ Z.of_nat 1) with 16 in Hx. lia.
  - rewrite length_app. cbn [length]. rewrite (Nat2Z.inj_succ (S k)), Z.pow_succ_r in Hx by lia.
    assert (0 <= x / 16 < 16 ^ Z.of_nat (S k)) by (split; [dlia|apply Z.div_lt_upper_bound; lia]).
    specialize (IH (S k) (x / 16)). lia.
Qed.
Lemma fmt_x_exact n x : (1 <= n)%nat -> 0 <= x < 16 ^ Z.of_nat n -> zlen (fmt_x n x) = Z.of_nat n.
Proof.
  intros Hn Hx. pose proof (hex_go_length 16 n x Hx Hn). unfold fmt_x, zlen.
  rewrite length_app, length_replicate. lia.
Qed.
(** A finite float prints a digit, the point and six decimals at least. *)
Lemma fmt_f_length w : (w / 8388608) mod 256 <> 255 -> 8 <= zlen (fmt_f w).
Proof.
  intros Hw. unfold fmt_f. ifdec.
  match goal with |- context [dec_go 40 (?m / 1000000)] => set (micro := m) end.
  assert (Hd : forall fuel y, 1 <= zlen (dec_go (S fuel) y)).
  { intros fuel y. cbn [dec_go]. csplit; zl; pose proof (zlen_nonneg (dec_go fuel (y / 10))); lia. }
  specialize (Hd 39%nat (micro / 1000000)).
  assert (6 <= zlen (fmt_prec 6 (micro mod 1000000))).
  { unfold fmt_prec, zlen. rewrite !length_app, length_replicate. lia. }
  pose proof (zlen_nonneg (if 2147483648 <=? w then [45] else [])). zl. lia.
Qed.

(** * Numbers in memory

    [strtol] of what lies from a pointer on: blanks, a sign and digits, up to the
    first byte that is none; the value saturates at the width of a long. *)
Fixpoint spaces_in (mem : list Z) : cres (list Z) :=
  match mem with
  | [] => Oob
  | c :: r => if isspace c then spaces_in r else Ret mem
  end.
Fixpoint digits_in (acc : Z) (mem : list Z) : cres Z :=
  match mem with
  | [] => Oob
  | c :: r => if isdigit c then digits_in (10 * acc + (c - 48)) r else Ret acc
  end.
Definition strtol (mem : list Z) : cres Z :=
  let* m := spaces_in mem in
  let* c := rd m 0 in
  let* v := digits_in 0 (if (c =? 45) || (c =? 43) then drop 1 m else m) in
  Ret (Z.max (-2147483648) (Z.min 2147483647 (if c =? 45 then - v else v))).

(** A number the text spells, with what follows it. *)
Lemma digits_in_run acc ds x rest :
  Forall (fun c => isdigit c = true) ds -> isdigit x = false ->
  digits_in acc (ds ++ x :: rest) = Ret (digits_val acc ds).
Proof.
  intros Hd Hx. revert acc. induction Hd as [|c ds Hc _ IH]; intros acc; cbn [digits_in app digits_val].
  - by rewrite Hx.
  - by rewrite Hc, IH.
Qed.
Lemma strtol_digits c ds x rest :
  Forall (fun c => isdigit c = true) (c :: ds) -> isdigit x = false ->
  strtol ((c :: ds) ++ x :: rest) = Ret (Z.min 2147483647 (digits_val 0 (c :: ds))).
Proof.
  intros Hd Hx. assert (Hc : isdigit c = true) by by inversion Hd.
  assert (Hp : forall l, Forall (fun c => isdigit c = true) l -> forall acc, 0 <= acc -> 0 <= digits_val acc l).
  { induction 1 as [|d l Hdd _ IH]; intros acc Ha; cbn [digits_val]; [done|]. rewrite Hdd. apply IH.
    unfold isdigit in Hdd. b2p. lia. }
  unfold strtol. pose proof (digits_in_run 0 (c :: ds) x rest Hd Hx) as Hrun.
  pose proof (Hp _ Hd 0 ltac:(lia)) as Hv.
  assert (Hs : spaces_in ((c :: ds) ++ x :: rest) = Ret ((c :: ds) ++ x :: rest)).
  { cbn [spaces_in app]. unfold isdigit in Hc. unfold isspace. b2p. by ifdec. }
  rewrite Hs. cbn [cbind]. change (rd ((c :: ds) ++ x :: rest) 0) with (Ret c). cbn [cbind].
  assert (48 <= c <= 57) by (unfold isdigit in Hc; b2p; lia). ifdec.
  rewrite Hrun. cbn [cbind]. f_equal. lia.
Qed.

(** [strtoul] of a text given without its NUL, in base 8, 10 or 16, or in the base
    its prefix says when [base] is 0; the value saturates at [max], the largest
    unsigned long, and a sign negates it modulo its width. *)
Definition digit_of (c : Z) : Z :=
  if (48 <=? c) && (c <=? 57) then c - 48
  else if (97 <=? c) && (c <=? 122) then c - 87
  else if (65 <=? c) && (c <=? 90) then c - 55 else 99.
Fixpoint value_of (base acc : Z) (s : list Z) : Z :=
  match s with
  | [] => acc
  | c :: s => if digit_of c <? base then value_of base (acc * base + digit_of c) s else acc
  end.
Fixpoint skip_spaces (s : list Z) : list Z :=
  match s with [] => [] | c :: r => if isspace c then skip_spaces r else s end.
(** Whether a hexadecimal prefix with a digit behind it starts the text. *)
Definition hex_prefix (s : list Z) : bool :=
  match s with
  | z :: x :: d :: _ => (z =? 48) && ((x =? 120) || (x =? 88)) && (digit_of d <? 16)
  | _ => false
  end.
Definition strtoul (max base : Z) (s : list Z) : Z :=
  let s := skip_spaces s in
  let negative := match s with c :: _ => c =? 45 | [] => false end in
  let s := match s with c :: r => if (c =? 45) || (c =? 43) then r else s | [] => [] end in
  let hex := ((base =? 0) || (base =? 16)) && hex_prefix s in
  let octal := match s with c :: _ => c =? 48 | [] => false end in
  let b := if base =? 0 then (if hex then 16 else if octal then 8 else 10) else base in
  let v := value_of b 0 (if hex then drop 2 s else s) in
  if max <? v then max else if negative then - v mod (max + 1) else v.
