(* ===== verification/Eff.v ===== *)
(** The monad the stateful components are written in: a handler maps the
    state it owns to a result, the state after it and the actions it takes in
    order, or faults. *)

From stdpp Require Import base list numbers option strings.
From Stdlib Require Import ZArith Lia.
From S2P Require Import Prelude.

Definition M (S E A : Type) : Type := S -> cres (A * S * list E).

Section Ops.
Context {S E : Type}.

Definition ret {A} (a : A) : M S E A := fun s => Ret (a, s, []).
Definition bind {A B} (m : M S E A) (k : A -> M S E B) : M S E B := fun s =>
  let* '(a, s', t) := m s in
  let* '(b, s'', t') := k a s' in
  Ret (b, s'', t ++ t').
Definition get : M S E S := fun s => Ret (s, s, []).
Definition modify (f : S -> S) : M S E unit := fun s => Ret (tt, f s, []).
Definition emit (e : E) : M S E unit := fun s => Ret (tt, s, [e]).
(** A computation that only reads or writes memory. *)
Definition lift {A} (c : cres A) : M S E A := fun s => let* a := c in Ret (a, s, []).
Definition when (b : bool) (m : M S E unit) : M S E unit := if b then m else ret tt.
Definition modifyM (f : S -> cres S) : M S E unit := fun s => let* s' := f s in Ret (tt, s', []).
End Ops.

Declare Scope eff_scope.
Delimit Scope eff_scope with eff.
#[global] Open Scope eff_scope.
Notation "'do*' x ':=' m 'in' k" := (bind m (fun x => k))
  (at level 10, x name, m at level 100, k at level 200) : eff_scope.
Notation "'do*' ' p ':=' m 'in' k" := (bind m (fun x => match x with p => k end))
  (at level 10, p strict pattern, m at level 100, k at level 200) : eff_scope.
Notation "m ;> k" := (bind m (fun _ => k)) (at level 100, right associativity) : eff_scope.

(** * Reasoning about handlers *)

Section Logic.
Context {S E : Type}.

(** Every run of [m] that ends keeps [I]. *)
Definition keeps (I : S -> Prop) {A} (m : M S E A) : Prop :=
  forall s a s' t, I s -> m s = Ret (a, s', t) -> I s'.

(** [m] ends without a fault, with [Q] of its result and keeping [I]. *)
Definition safely (I : S -> Prop) {A} (m : M S E A) (Q : A -> Prop) : Prop :=
  forall s, I s -> exists a s' t, m s = Ret (a, s', t) /\ I s' /\ Q a.

Lemma bind_run {A B} (m : M S E A) (k : A -> M S E B) s a s' t :
  m s = Ret (a, s', t) ->
  bind m k s = let* '(b, s'', t') := k a s' in Ret (b, s'', t ++ t').
Proof. intros H. unfold bind. by rewrite H. Qed.

Lemma bind_ret_run {A B} (m : M S E A) (k : A -> M S E B) s a s' t b s'' t' :
  m s = Ret (a, s', t) -> k a s' = Ret (b, s'', t') -> bind m k s = Ret (b, s'', t ++ t').
Proof. intros H1 H2. unfold bind. by rewrite H1; cbn [cbind]; rewrite H2. Qed.

Lemma bind_inv {A B} (m : M S E A) (k : A -> M S E B) s b s'' u :
  bind m k s = Ret (b, s'', u) ->
  exists a s' t t', m s = Ret (a, s', t) /\ k a s' = Ret (b, s'', t') /\ u = t ++ t'.
Proof.
  unfold bind. destruct (m s) as [[[a s'] t]| |]; cbn [cbind]; try done.
  destruct (k a s') as [[[b' s3] t']| |] eqn:E2; cbn [cbind]; intros H; simplify_eq; eauto 10.
Qed.

Lemma keeps_ret I {A} (a : A) : keeps I (ret a).
Proof. intros s a' s' t HI [= <- <- <-]. done. Qed.
Lemma keeps_get I : keeps I (@get S E).
Proof. intros s a' s' t HI [= <- <- <-]. done. Qed.
Lemma keeps_emit I e : keeps I (@emit S E e).
Proof. intros s a' s' t HI [= <- <- <-]. done. Qed.
Lemma keeps_lift I {A} (c : cres A) : keeps I (@lift S E A c).
Proof. intros s a s' t HI. unfold lift. destruct c; intros [= <- <- <-]. done. Qed.
Lemma keeps_modify (I : S -> Prop) f : (forall s, I s -> I (f s)) -> keeps I (@modify S E f).
Proof. intros Hf s a s' t HI [= <- <- <-]. auto. Qed.
Lemma keeps_modifyM (I : S -> Prop) f :
  (forall s s', I s -> f s = Ret s' -> I s') -> keeps I (@modifyM S E f).
Proof.
  intros Hf s a s' t HI. unfold modifyM. destruct (f s) eqn:E1; intros [= <- <- <-]. eauto.
Qed.
Lemma keeps_bind I {A B} (m : M S E A) (k : A -> M S E B) :
  keeps I m -> (forall a, keeps I (k a)) -> keeps I (bind m k).
Proof. intros Hm Hk s b s'' u HI (a & s' & t & t' & H1 & H2 & _)%bind_inv. eapply Hk, H2. by eapply Hm. Qed.
(** The continuation of a reading sees what was read. *)
Lemma keeps_lift_bind I {A B} (c : cres A) (k : A -> M S E B) :
  (forall a, c = Ret a -> keeps I (k a)) -> keeps I (bind (lift c) k).
Proof.
  intros Hk s b s'' u HI (a & s' & t & t' & H1 & H2 & _)%bind_inv. unfold lift in H1.
  destruct c as [x| |]; [|done..]. injection H1 as <- <- <-. by eapply Hk.
Qed.
Lemma keeps_if I {A} (b : bool) (m n : M S E A) :
  keeps I m -> keeps I n -> keeps I (if b then m else n).
Proof. by destruct b. Qed.
Lemma keeps_when I b (m : M S E unit) : keeps I m -> keeps I (when b m).
Proof. intros. destruct b; [done|apply keeps_ret]. Qed.
(** ** Symbolic runs: how each step rewrites the state of its continuation *)

(** The run [c] after the actions [t]. *)
Definition after {A} (t : list E) (c : cres (A * S * list E)) : cres (A * S * list E) :=
  let* '(a, s, t') := c in Ret (a, s, t ++ t').

Lemma after_nil {A} (c : cres (A * S * list E)) : after [] c = c.
Proof. by destruct c as [[[]]| |]. Qed.
Lemma after_Ret {A} t (a : A) s t' : after t (Ret (a, s, t')) = Ret (a, s, t ++ t').
Proof. done. Qed.
Lemma after_after {A} t t' (c : cres (A * S * list E)) : after t (after t' c) = after (t ++ t') c.
Proof. destruct c as [[[]]| |]; try done. cbn. by rewrite app_assoc. Qed.
Lemma bind_after {A B} (m : M S E A) (k : A -> M S E B) s a s' t :
  m s = Ret (a, s', t) -> bind m k s = after t (k a s').
Proof. intros H. unfold bind. by rewrite H. Qed.
Lemma bind_step {A B} (m : M S E A) (k : A -> M S E B) s a s' :
  m s = Ret (a, s', []) -> bind m k s = k a s'.
Proof. intros H. by rewrite (bind_after _ _ _ _ _ _ H), after_nil. Qed.
Lemma bind_get {B} (k : S -> M S E B) s : bind get k s = k s s.
Proof. by apply bind_step. Qed.
Lemma bind_modify {B} f (k : unit -> M S E B) s : bind (modify f) k s = k tt (f s).
Proof. by apply bind_step. Qed.
Lemma bind_emit {B} e (k : unit -> M S E B) s : bind (emit e) k s = after [e] (k tt s).
Proof. by apply bind_after. Qed.
Lemma bind_ret {A B} (a : A) (k : A -> M S E B) s : bind (ret a) k s = k a s.
Proof. by apply bind_step. Qed.
Lemma bind_lift {A B} c (a : A) (k : A -> M S E B) s : c = Ret a -> bind (lift c) k s = k a s.
Proof. intros ->. by apply bind_step. Qed.
Lemma bind_assoc {A B C} (m : M S E A) (k : A -> M S E B) (h : B -> M S E C) s :
  bind (bind m k) h s = bind m (fun a => bind (k a) h) s.
Proof.
  unfold bind. destruct (m s) as [[[a s'] t]| |]; try done. cbn [cbind].
  destruct (k a s') as [[[b s''] t']| |]; try done. cbn [cbind].
  destruct (h b s'') as [[[c s3] t'']| |]; try done. cbn [cbind]. by rewrite app_assoc.
Qed.

(** A partial-correctness triple; its actions are left open. *)
Definition triple (P : S -> Prop) {A} (m : M S E A) (Q : A -> S -> Prop) : Prop :=
  forall s a s' t, P s -> m s = Ret (a, s', t) -> Q a s'.
Lemma triple_bind P {A B} (m : M S E A) (k : A -> M S E B) Q R :
  triple P m Q -> (forall a, triple (Q a) (k a) R) -> triple P (bind m k) R.
Proof. intros Hm Hk s b s'' u HP (a & s' & t & t' & H1 & H2 & _)%bind_inv. eapply Hk, H2. by eapply Hm. Qed.
Lemma triple_get_bind (P : S -> Prop) {B} (k : S -> M S E B) Q :
  (forall s, P s -> triple (fun s' => s' = s) (k s) Q) -> triple P (bind get k) Q.
Proof.
  intros Hk s b s'' u HP (a & s' & t & t' & [= <- <- <-] & H2 & _)%bind_inv. by eapply Hk.
Qed.

(** The continuation of a [get] sees a state with [I]. *)
Lemma keeps_get_bind (I : S -> Prop) {B} (k : S -> M S E B) :
  (forall s, I s -> keeps I (k s)) -> keeps I (bind get k).
Proof.
  intros Hk s b s'' u HI (a & s' & t & t' & [= <- <- <-] & H2 & _)%bind_inv. by eapply Hk.
Qed.
End Logic.

(** * Components as parts of a larger state *)

(** [T] is a part of the state [S]: the interface a component's operations
    are used through where several components meet. *)
Class Part (T S : Type) := {
  part : S -> T;
  with_part : T -> S -> S;
  part_with t s : part (with_part t s) = t;
  with_part_part s : with_part (part s) s = s;
  with_part_with t u s : with_part t (with_part u s) = with_part t s
}.

(** A component's operation on the whole state, its actions read as [f] says. *)
Definition zoom {T S E F A} `{Part T S} (f : E -> F) (m : M T E A) : M S F A := fun s =>
  let* '(a, t, l) := m (part s) in Ret (a, with_part t s, map f l).

Section Zoom.
Context {T S E F : Type} `{Part T S} (f : E -> F).

Lemma zoom_run {A} (m : M T E A) s a t l :
  m (part s) = Ret (a, t, l) -> zoom f m s = Ret (a, with_part t s, map f l).
Proof. intros H1. unfold zoom. by rewrite H1. Qed.
(** A run that leaves the part as it was leaves the state as it was. *)
Lemma zoom_same {A} (m : M T E A) s a l :
  m (part s) = Ret (a, part s, l) -> zoom f m s = Ret (a, s, map f l).
Proof. intros H1. by rewrite (zoom_run _ _ _ _ _ H1), with_part_part. Qed.
Lemma zoom_fault {A} (m : M T E A) s : m (part s) = Oob -> zoom f m s = Oob.
Proof. intros H1. unfold zoom. by rewrite H1. Qed.
Lemma keeps_zoom (I : T -> Prop) {A} (m : M T E A) :
  keeps I m -> keeps (fun s => I (part s)) (zoom f m).
Proof.
  intros Hm s a s' l HI. unfold zoom. destruct (m (part s)) as [[[b t] u]| |] eqn:E1; [|done..].
  cbn [cbind]. intros [= -> <- <-]. rewrite part_with. by eapply Hm.
Qed.
Lemma keeps_zoom_other (I : S -> Prop) {A} (m : M T E A) :
  (forall t s, I s -> I (with_part t s)) -> keeps I (zoom f m).
Proof.
  intros HI s a s' l Hs. unfold zoom. destruct (m (part s)) as [[[b t] u]| |]; [|done..].
  cbn [cbind]. intros [= -> <- <-]. by apply HI.
Qed.
End Zoom.

(** Every action of a run of [m] has [P]. *)
Definition emits {S E : Type} (P : E -> Prop) {A} (m : M S E A) : Prop :=
  forall s a s' t, m s = Ret (a, s', t) -> Forall P t.

Section Emits.
Context {S E : Type} (P : E -> Prop).

Lemma emits_ret {A} (a : A) : emits P (@ret S E A a).
Proof. by intros s a' s' t [= <- <- <-]. Qed.
Lemma emits_get : emits P (@get S E).
Proof. by intros s a' s' t [= <- <- <-]. Qed.
Lemma emits_modify f : emits P (@modify S E f).
Proof. by intros s a' s' t [= <- <- <-]. Qed.
Lemma emits_modifyM f : emits P (@modifyM S E f).
Proof. intros s a s' t. unfold modifyM. by destruct (f s); intros [= <- <- <-]. Qed.
Lemma emits_lift {A} (c : cres A) : emits P (@lift S E A c).
Proof. intros s a s' t. unfold lift. by destruct c; intros [= <- <- <-]. Qed.
Lemma emits_emit e : P e -> emits P (@emit S E e).
Proof. intros He s a s' t [= <- <- <-]. by constructor. Qed.
Lemma emits_bind {A B} (m : M S E A) (k : A -> M S E B) :
  emits P m -> (forall a, emits P (k a)) -> emits P (bind m k).
Proof.
  intros Hm Hk s b s'' u (a & s' & t & t' & H1 & H2 & ->)%bind_inv.
  apply Forall_app. split; [by eapply Hm|by eapply Hk].
Qed.
Lemma emits_when b (m : M S E unit) : emits P m -> emits P (when b m).
Proof. intros. destruct b; [done|apply emits_ret]. Qed.
(** A zoom's actions, when their readings have [P]. *)
Lemma emits_zoom {T F A} `{Part T S} (f : F -> E) (m : M T F A) :
  (forall a, P (f a)) -> emits P (zoom f m).
Proof.
  intros Hf s a s' t. unfold zoom. destruct (m (part s)) as [[[b t'] u]| |]; [|done..].
  cbn [cbind]. intros [= <- <- <-]. apply Forall_map. by apply list.Forall_forall.
Qed.
Lemma emits_zoom_of {T F A} `{Part T S} (f : F -> E) (m : M T F A) :
  emits (fun a => P (f a)) m -> emits P (zoom f m).
Proof.
  intros Hm s a s' t. unfold zoom. destruct (m (part s)) as [[[b t'] u]| |] eqn:E1; [|done..].
  cbn [cbind]. intros [= <- <- <-]. apply Forall_map. by eapply Hm.
Qed.
Lemma emits_if {A} (b : bool) (m n : M S E A) : emits P m -> emits P n -> emits P (if b then m else n).
Proof. by destruct b. Qed.
End Emits.

#[export] Hint Resolve keeps_ret keeps_get keeps_emit keeps_lift keeps_when : oqti.

(** Split a handler at its binds and branches, and close the plain steps. *)
Ltac keeps_step :=
  match goal with
  | |- keeps _ (bind get _) => apply keeps_get_bind; intros ? ?
  | |- keeps _ (bind _ _) => apply keeps_bind; [|intros ?]
  | |- keeps _ (if ?c then _ else _) => let E := fresh "E" in destruct c eqn:E
  | |- keeps _ (when _ _) => apply keeps_when
  | |- keeps _ (match ?x with _ => _ end) => destruct x
  | |- keeps _ _ => solve [auto with oqti]
  end.
Ltac keeps_auto := repeat keeps_step.

#[export] Hint Resolve emits_ret emits_get emits_modify emits_modifyM emits_lift emits_when : oqti.
Ltac emits_step :=
  match goal with
  | |- emits _ (bind _ _) => apply emits_bind; [|intros ?]
  | |- emits _ (if ?c then _ else _) => destruct c
  | |- emits _ (when _ _) => apply emits_when
  | |- emits _ (emit _) => apply emits_emit
  | |- emits _ (match ?x with _ => _ end) => destruct x
  | |- emits _ _ => solve [auto with oqti]
  end.
Ltac emits_auto := repeat emits_step; try done.

(** Rewrite with the steps that need no side condition. *)
Create Rewrite HintDb eff.
#[export] Hint Rewrite @bind_get @bind_modify @bind_emit @bind_ret @bind_assoc @after_after
  @after_nil @after_Ret : eff.
