(* ===== verification/Qmi.v ===== *)
(** QMI framing (recipes-modem/openqti/files/src/qmi.c, inc/qmi.h): the packed
    QMUX/QMI headers, the header getters and builders, and the three walkers
    over a message's TLVs. The walkers are proved against a list of TLVs and
    its encoding; the getters against the packed headers. *)

From stdpp Require Import base list numbers option strings.
From Stdlib Require Import ZArith Lia.
From S2P Require Import Prelude.

(** * Packed headers *)

(** A packed struct: its size, its bytes in memory, and the reader that
    recovers it from the front of a buffer. *)
Class Packed (A : Type) := {
  psize : nat;
  pwf : A -> Prop;
  pack : A -> list Z;
  unpack : list Z -> option A;
  pack_size : forall a, length (pack a) = psize;
  pack_bytes : forall a, bytes_ok (pack a);
  unpack_pack : forall a rest, pwf a -> unpack (pack a ++ rest) = Some a
}.

Record qmux_packet := {
  version : Z;        (* uint8_t *)
  packet_length : Z;  (* uint16_t *)
  control : Z;        (* uint8_t *)
  service : Z;        (* uint8_t *)
  instance_id : Z     (* uint8_t *)
}.

Record qmi_packet := {
  ctlid : Z;           (* uint8_t *)
  transaction_id : Z;  (* uint16_t *)
  msgid : Z;           (* uint16_t *)
  qmi_length : Z       (* uint16_t *)
}.

Record ctl_qmi_packet := {
  ctl_ctlid : Z;           (* uint8_t *)
  ctl_transaction_id : Z;  (* uint8_t *)
  ctl_msgid : Z;           (* uint16_t *)
  ctl_length : Z           (* uint16_t *)
}.

Record qmi_generic_result_ind := {
  result_code_type : Z;     (* uint8_t *)
  generic_result_size : Z;  (* uint16_t *)
  result : Z;               (* uint16_t *)
  response : Z              (* uint16_t *)
}.

Definition SZ_QMUX : Z := 6.
Definition SZ_QMI : Z := 7.
Definition SZ_CTL : Z := 6.
Definition SZ_RESULT : Z := 7.
Definition SZ_ENCAP : Z := SZ_QMUX + SZ_QMI.

Definition enc_qmux (h : qmux_packet) : list Z :=
  le 1 (version h) ++ le 2 (packet_length h) ++ le 1 (control h) ++
  le 1 (service h) ++ le 1 (instance_id h).
Definition enc_qmi (h : qmi_packet) : list Z :=
  le 1 (ctlid h) ++ le 2 (transaction_id h) ++ le 2 (msgid h) ++ le 2 (qmi_length h).
Definition enc_ctl (h : ctl_qmi_packet) : list Z :=
  le 1 (ctl_ctlid h) ++ le 1 (ctl_transaction_id h) ++ le 2 (ctl_msgid h) ++ le 2 (ctl_length h).
Definition enc_result (h : qmi_generic_result_ind) : list Z :=
  le 1 (result_code_type h) ++ le 2 (generic_result_size h) ++ le 2 (result h) ++ le 2 (response h).

(** * Header getters *)

Definition get_qmux_service_id (bytes : list Z) : cres Z := rd bytes 4.
Definition get_qmux_instance_id (bytes : list Z) : cres Z := rd bytes 5.
Definition get_control_message_id (bytes : list Z) : cres Z := rd16 bytes (SZ_QMUX + 2).
Definition get_qmi_message_id (bytes : list Z) : cres Z := rd16 bytes (SZ_QMUX + 3).
Definition get_qmi_message_type (bytes : list Z) : cres Z := rd bytes SZ_QMUX.
Definition get_qmi_transaction_id (bytes : list Z) : cres Z := rd16 bytes (SZ_QMUX + 1).
Definition get_transaction_id (bytes : list Z) : cres Z := rd16 bytes (SZ_QMUX + 1).

(** * TLV walkers *)

(** One run of the [while] loop of [get_tlv_offset_by_id]. The matching branch
    also reads the length field, for its log line. *)
Fixpoint tlv_walk (fuel : nat) (arr : list Z) (len tlvid cur_byte : Z) : cres Z :=
  match fuel with
  | O => Spin
  | S fuel =>
      if cur_byte <? len then
        let* id := rd arr cur_byte in
        let* tlen := rd16 arr (cur_byte + 1) in
        if id =? tlvid then Ret cur_byte
        else
          let cur_byte := u16 (cur_byte + (tlen + 1 + 2)) in
          if (cur_byte <=? 0) || (len <? cur_byte) then Ret (u16 (- EINVAL))
          else tlv_walk fuel arr len tlvid cur_byte
      else Ret 0
  end.

(** [cur_byte] has 65536 values, so a longer run of the loop repeats itself. *)
Definition tlv_fuel : nat := Z.to_nat 65537.

Definition get_tlv_offset_by_id (bytes : list Z) (len tlvid : Z) : cres Z :=
  if len <? SZ_ENCAP + 4 then Ret 0
  else tlv_walk tlv_fuel bytes len tlvid SZ_ENCAP.

Definition QMI_RESULT_SUCCESS : Z := 0.
Definition QMI_RESULT_FAILURE : Z := 1.
Definition QMI_RESULT_UNKNOWN : Z := 2.

Fixpoint result_walk (fuel : nat) (arr : list Z) (len cur_byte : Z) : cres Z :=
  match fuel with
  | O => Spin
  | S fuel =>
      if cur_byte <? len then
        let* ty := rd arr cur_byte in
        let* sz := rd16 arr (cur_byte + 1) in
        if (ty =? 0x02) && (sz =? 0x04) then
          let* result := rd16 arr (cur_byte + 3) in
          let* _ := rd16 arr (cur_byte + 5) in
          Ret result
        else
          let cur_byte := u16 (cur_byte + (sz + 1 + 2)) in
          if (cur_byte <=? 0) || (len <? cur_byte) then Ret QMI_RESULT_FAILURE
          else result_walk fuel arr len cur_byte
      else Ret QMI_RESULT_UNKNOWN
  end.

Definition did_qmi_op_fail (bytes : list Z) (len : Z) : cres Z :=
  if len <? SZ_ENCAP + 4 then Ret QMI_RESULT_FAILURE
  else result_walk tlv_fuel bytes len SZ_ENCAP.

Fixpoint count_walk (fuel : nat) (arr : list Z) (len cur_byte num_tlvs : Z) : cres Z :=
  match fuel with
  | O => Spin
  | S fuel =>
      if cur_byte <? len then
        let num_tlvs := u16 (num_tlvs + 1) in
        let* tlen := rd16 arr (cur_byte + 1) in
        let cur_byte := u16 (cur_byte + (tlen + 1 + 2)) in
        if (cur_byte <=? 0) || (len <? cur_byte) then Ret num_tlvs
        else count_walk fuel arr len cur_byte num_tlvs
      else Ret num_tlvs
  end.

Definition count_tlvs_in_message (bytes : list Z) (len : Z) : cres Z :=
  if len <? SZ_ENCAP + 4 then Ret 0
  else count_walk tlv_fuel bytes len SZ_ENCAP 0.

(** * Error names *)

Definition qmi_error_codes : list (Z * string) := [
   (0x0000, "none"); (0x0001, "malformed_msg"); (0x0002, "no_memory");
   (0x0003, "internal"); (0x0004, "aborted"); (0x0005, "client_ids_exhausted");
   (0x0006, "unabortable_transaction"); (0x0007, "invalid_client_id"); (0x0008, "no_thresholds");
   (0x0009, "invalid_handle"); (0x000A, "invalid_profile"); (0x000B, "invalid_pinid");
   (0x000C, "incorrect_pin"); (0x000D, "no_network_found"); (0x000E, "call_failed");
   (0x000F, "out_of_call"); (0x0010, "not_provisioned"); (0x0011, "missing_arg");
   (0x0013, "arg_too_long"); (0x0016, "invalid_tx_id"); (0x0017, "device_in_use");
   (0x0018, "op_network_unsupported"); (0x0019, "op_device_unsupported"); (0x001A, "no_effect");
   (0x001B, "no_free_profile"); (0x001C, "invalid_pdp_type"); (0x001D, "invalid_tech_pref");
   (0x001E, "invalid_profile_type"); (0x001F, "invalid_service_type"); (0x0020, "invalid_register_action");
   (0x0021, "invalid_ps_attach_action"); (0x0022, "authentication_failed"); (0x0023, "pin_blocked");
   (0x0024, "pin_perm_blocked"); (0x0025, "sim_not_initialized"); (0x0026, "max_qos_requests_in_use");
   (0x0027, "incorrect_flow_filter"); (0x0028, "network_qos_unaware"); (0x0029, "invalid_id");
   (0x0029, "invalid_qos_id"); (0x002A, "requested_num_unsupported"); (0x002B, "interface_not_found");
   (0x002C, "flow_suspended"); (0x002D, "invalid_data_format"); (0x002E, "general");
   (0x002F, "unknown"); (0x0030, "invalid_arg"); (0x0031, "invalid_index");
   (0x0032, "no_entry"); (0x0033, "device_storage_full"); (0x0034, "device_not_ready");
   (0x0035, "network_not_ready"); (0x0036, "cause_code"); (0x0037, "message_not_sent");
   (0x0038, "message_delivery_failure"); (0x0039, "invalid_message_id"); (0x003A, "encoding");
   (0x003B, "authentication_lock"); (0x003C, "invalid_transition"); (0x003D, "not_a_mcast_iface");
   (0x003E, "max_mcast_requests_in_use"); (0x003F, "invalid_mcast_handle"); (0x0040, "invalid_ip_family_pref");
   (0x0041, "session_inactive"); (0x0042, "session_invalid"); (0x0043, "session_ownership");
   (0x0044, "insufficient_resources"); (0x0045, "disabled"); (0x0046, "invalid_operation");
   (0x0047, "invalid_qmi_cmd"); (0x0048, "tpdu_type"); (0x0049, "smsc_addr");
   (0x004A, "info_unavailable"); (0x004B, "segment_too_long"); (0x004C, "segment_order");
   (0x004D, "bundling_not_supported"); (0x004E, "op_partial_failure"); (0x004F, "policy_mismatch");
   (0x0050, "sim_file_not_found"); (0x0051, "extended_internal"); (0x0052, "access_denied");
   (0x0053, "hardware_restricted"); (0x0054, "ack_not_sent"); (0x0055, "inject_timeout");
   (0x005A, "incompatible_state"); (0x005B, "fdn_restrict"); (0x005C, "sups_failure_cause");
   (0x005D, "no_radio"); (0x005E, "not_supported"); (0x005F, "no_subscription");
   (0x0060, "card_call_control_failed"); (0x0061, "network_aborted"); (0x0062, "msg_blocked");
   (0x0064, "invalid_session_type"); (0x0065, "invalid_pb_type"); (0x0066, "no_sim");
   (0x0067, "pb_not_ready"); (0x0068, "pin_restriction"); (0x0069, "pin2_restriction");
   (0x006A, "puk_restriction"); (0x006B, "puk2_restriction"); (0x006C, "pb_access_restricted");
   (0x006D, "pb_delete_in_prog"); (0x006E, "pb_text_too_long"); (0x006F, "pb_number_too_long");
   (0x0070, "pb_hidden_key_restriction"); (0x0071, "pb_not_available"); (0x0072, "device_memory_error");
   (0x0073, "no_permission"); (0x0074, "too_soon"); (0x0075, "time_not_acquired");
   (0x0076, "op_in_progress"); (0x0101, "eperm"); (0x0102, "enoent");
   (0x0103, "esrch"); (0x0104, "eintr"); (0x0105, "eio");
   (0x0106, "enxio"); (0x0107, "e2big"); (0x0108, "enoexec");
   (0x0109, "ebadf"); (0x010A, "echild"); (0x010B, "eagain");
   (0x010C, "enomem"); (0x010D, "eacces"); (0x010E, "efault");
   (0x010F, "enotblk"); (0x0110, "ebusy"); (0x0111, "eexist");
   (0x0112, "exdev"); (0x0113, "enodev"); (0x0114, "enotdir");
   (0x0115, "eisdir"); (0x0116, "einval"); (0x0117, "enfile");
   (0x0118, "emfile"); (0x0119, "enotty"); (0x011A, "etxtbsy");
   (0x011B, "efbig"); (0x011C, "enospc"); (0x011D, "espipe");
   (0x011E, "erofs"); (0x011F, "emlink"); (0x0120, "epipe");
   (0x0121, "edom"); (0x0122, "erange"); (0x0123, "edeadlk");
   (0x0124, "enametoolong"); (0x0125, "enolck"); (0x0126, "enosys");
   (0x0127, "enotempty"); (0x0128, "eloop"); (0x010B, "ewouldblock");
   (0x012A, "enomsg"); (0x012B, "eidrm"); (0x012C, "echrng");
   (0x012D, "el2nsync"); (0x012E, "el3hlt"); (0x012F, "el3rst");
   (0x0130, "elnrng"); (0x0131, "eunatch"); (0x0132, "enocsi");
   (0x0133, "el2hlt"); (0x0134, "ebade"); (0x0135, "ebadr");
   (0x0136, "exfull"); (0x0137, "enoano"); (0x0138, "ebadrqc");
   (0x0139, "ebadslt"); (0x0123, "edeadlock"); (0x013B, "ebfont");
   (0x013C, "enostr"); (0x013D, "enodata"); (0x013E, "etime");
   (0x013F, "enosr"); (0x0140, "enonet"); (0x0141, "enopkg");
   (0x0142, "eremote"); (0x0143, "enolink"); (0x0144, "eadv");
   (0x0145, "esrmnt"); (0x0146, "ecomm"); (0x0147, "eproto");
   (0x0148, "emultihop"); (0x0149, "edotdot"); (0x014A, "ebadmsg");
   (0x014B, "eoverflow"); (0x014C, "enotuniq"); (0x014D, "ebadfd");
   (0x014E, "eremchg"); (0x014F, "elibacc"); (0x0150, "elibbad");
   (0x0151, "elibscn"); (0x0152, "elibmax"); (0x0153, "elibexec");
   (0x0154, "eilseq"); (0x0155, "erestart"); (0x0156, "estrpipe");
   (0x0157, "eusers"); (0x0158, "enotsock"); (0x0159, "edestaddrreq");
   (0x015A, "emsgsize"); (0x015B, "eprototype"); (0x015C, "enoprotoopt");
   (0x015D, "eprotonosupport"); (0x015E, "esocktnosupport"); (0x015F, "eopnotsupp");
   (0x0160, "epfnosupport"); (0x0161, "eafnosupport"); (0x0162, "eaddrinuse");
   (0x0163, "eaddrnotavail"); (0x0164, "enetdown"); (0x0165, "enetunreach");
   (0x0166, "enetreset"); (0x0167, "econnaborted"); (0x0168, "econnreset");
   (0x0169, "enobufs"); (0x016A, "eisconn"); (0x016B, "enotconn");
   (0x016C, "eshutdown"); (0x016D, "etoomanyrefs"); (0x016E, "etimedout");
   (0x016F, "econnrefused"); (0x0170, "ehostdown"); (0x0171, "ehostunreach");
   (0x0172, "ealready"); (0x0173, "einprogress"); (0x0174, "estale");
   (0x0175, "euclean"); (0x0176, "enotnam"); (0x0177, "enavail");
   (0x0178, "eisnam"); (0x0179, "eremoteio"); (0x017A, "edquot");
   (0x017B, "enomedium"); (0x017C, "emediumtype"); (0x017D, "ecanceled");
   (0x017E, "enokey"); (0x017F, "ekeyexpired"); (0x0180, "ekeyrevoked");
   (0x0181, "ekeyrejected"); (0x0182, "eownerdead"); (0x0183, "enotrecoverable")
  ]%string.

Fixpoint error_name_from (tbl : list (Z * string)) (result_code : Z) : string :=
  match tbl with
  | [] => "Unknown error"
  | (code, error_name) :: tbl =>
      if code =? result_code then error_name else error_name_from tbl result_code
  end.
Definition get_qmi_error_string (result_code : Z) : string :=
  error_name_from qmi_error_codes result_code.

(** * Builders

    [output] is the caller's buffer; each builder returns its status and the
    buffer after the writes. *)

Definition build_qmux_header (output : list Z) (output_len ctl svc inst : Z)
  : cres (Z * list Z) :=
  if output_len <? SZ_QMUX then Ret (- ENOMEM, output)
  else
    let* o := wr output 0 0x01 in
    let* o := wr16 o 1 (output_len - 1) in
    let* o := wr o 3 (u8 ctl) in
    let* o := wr o 4 (u8 svc) in
    let* o := wr o 5 (u8 inst) in
    Ret (0, o).

Definition build_qmi_header (output : list Z) (output_len ctl tid message_id : Z)
  : cres (Z * list Z) :=
  if output_len <? SZ_QMUX + SZ_QMI then Ret (- ENOMEM, output)
  else
    let* o := wr output SZ_QMUX (u8 ctl) in
    let* o := wr16 o (SZ_QMUX + 1) tid in
    let* o := wr16 o (SZ_QMUX + 3) message_id in
    let* o := wr16 o (SZ_QMUX + 5) (output_len - SZ_QMUX - SZ_QMI) in
    Ret (0, o).

Definition SZ_U8_TLV : Z := 4.

Definition build_u8_tlv (output : list Z) (output_len offset id data : Z)
  : cres (Z * list Z) :=
  if output_len <? offset + SZ_U8_TLV then Ret (- ENOMEM, output)
  else
    let* o := wr output offset (u8 id) in
    let* o := wr16 o (offset + 1) 0x01 in
    let* o := wr o (offset + 3) (u8 data) in
    Ret (0, o).

(** The bound of this one is the size of the 8-bit TLV, as in the source. *)
Definition build_u32_tlv (output : list Z) (output_len offset id data : Z)
  : cres (Z * list Z) :=
  if output_len <? offset + SZ_U8_TLV then Ret (- ENOMEM, output)
  else
    let* o := wr output offset (u8 id) in
    let* o := wr16 o (offset + 1) 0x04 in
    let* o := wr32 o (offset + 3) data in
    Ret (0, o).

(** * The headers as packed structs *)

Lemma enc_qmux_len h : zlen (enc_qmux h) = SZ_QMUX.
Proof. reflexivity. Qed.
Lemma enc_qmi_len h : zlen (enc_qmi h) = SZ_QMI.
Proof. reflexivity. Qed.
Lemma enc_ctl_len h : zlen (enc_ctl h) = SZ_CTL.
Proof. reflexivity. Qed.
Lemma enc_result_len h : zlen (enc_result h) = SZ_RESULT.
Proof. reflexivity. Qed.
#[export] Hint Rewrite enc_qmux_len enc_qmi_len enc_ctl_len enc_result_len : oqti_len.

Lemma bytes_ok_app a b : bytes_ok a -> bytes_ok b -> bytes_ok (a ++ b).
Proof. intros; by apply Forall_app_2. Qed.
#[export] Hint Resolve bytes_ok_app : oqti.

Lemma byte_le1 x : byte_ok x -> x mod 256 = x.
Proof. apply Z.mod_small. Qed.
Lemma word_le2 x : 0 <= x < 65536 -> x mod 256 + 256 * (x / 256 mod 256) = x.
Proof.
  intros. rewrite (Z.mod_small (x / 256)).
  - pose proof (Z.div_mod x 256). lia.
  - split; [apply Z.div_pos; lia|apply Z.div_lt_upper_bound; lia].
Qed.
Lemma word_le2_u16 x : x mod 256 + 256 * (x / 256 mod 256) = u16 x.
Proof. unfold u16. change 65536 with (256 * 256). rewrite Z.rem_mul_r; lia. Qed.

Definition unpack_qmux (b : list Z) : option qmux_packet :=
  match b with
  | v :: l0 :: l1 :: c :: s :: i :: _ => Some (Build_qmux_packet v (l0 + 256 * l1) c s i)
  | _ => None
  end.
Definition wf_qmux (h : qmux_packet) : Prop :=
  byte_ok (version h) /\ 0 <= packet_length h < 65536 /\ byte_ok (control h) /\
  byte_ok (service h) /\ byte_ok (instance_id h).
Lemma enc_qmux_bytes h : bytes_ok (enc_qmux h).
Proof. unfold enc_qmux. auto 10 with oqti. Qed.
Lemma unpack_enc_qmux h rest : wf_qmux h -> unpack_qmux (enc_qmux h ++ rest) = Some h.
Proof.
  destruct h as [v l c s i]. intros (Hv & Hl & Hc & Hs & Hi). cbn in *.
  by rewrite word_le2, !byte_le1 by assumption.
Qed.
#[export] Instance packed_qmux : Packed qmux_packet := {|
  psize := 6; pwf := wf_qmux; pack := enc_qmux; unpack := unpack_qmux;
  pack_size h := eq_refl; pack_bytes := enc_qmux_bytes; unpack_pack := unpack_enc_qmux
|}.

Definition unpack_qmi (b : list Z) : option qmi_packet :=
  match b with
  | c :: t0 :: t1 :: m0 :: m1 :: l0 :: l1 :: _ =>
      Some (Build_qmi_packet c (t0 + 256 * t1) (m0 + 256 * m1) (l0 + 256 * l1))
  | _ => None
  end.
Definition wf_qmi (h : qmi_packet) : Prop :=
  byte_ok (ctlid h) /\ 0 <= transaction_id h < 65536 /\ 0 <= msgid h < 65536 /\
  0 <= qmi_length h < 65536.
Lemma enc_qmi_bytes h : bytes_ok (enc_qmi h).
Proof. unfold enc_qmi. auto 10 with oqti. Qed.
Lemma unpack_enc_qmi h rest : wf_qmi h -> unpack_qmi (enc_qmi h ++ rest) = Some h.
Proof.
  destruct h as [c t m l]. intros (Hc & Ht & Hm & Hl). cbn in *.
  by rewrite !word_le2, byte_le1 by assumption.
Qed.
#[export] Instance packed_qmi : Packed qmi_packet := {|
  psize := 7; pwf := wf_qmi; pack := enc_qmi; unpack := unpack_qmi;
  pack_size h := eq_refl; pack_bytes := enc_qmi_bytes; unpack_pack := unpack_enc_qmi
|}.

Definition unpack_result (b : list Z) : option qmi_generic_result_ind :=
  match b with
  | c :: t0 :: t1 :: m0 :: m1 :: l0 :: l1 :: _ =>
      Some (Build_qmi_generic_result_ind c (t0 + 256 * t1) (m0 + 256 * m1) (l0 + 256 * l1))
  | _ => None
  end.
Definition wf_result (h : qmi_generic_result_ind) : Prop :=
  byte_ok (result_code_type h) /\ 0 <= generic_result_size h < 65536 /\
  0 <= result h < 65536 /\ 0 <= response h < 65536.
Lemma enc_result_bytes h : bytes_ok (enc_result h).
Proof. unfold enc_result. auto 10 with oqti. Qed.
Lemma unpack_enc_result h rest : wf_result h -> unpack_result (enc_result h ++ rest) = Some h.
Proof.
  destruct h as [c t m l]. intros (Hc & Ht & Hm & Hl). cbn in *.
  by rewrite !word_le2, byte_le1 by assumption.
Qed.
#[export] Instance packed_result : Packed qmi_generic_result_ind := {|
  psize := 7; pwf := wf_result; pack := enc_result; unpack := unpack_result;
  pack_size h := eq_refl; pack_bytes := enc_result_bytes; unpack_pack := unpack_enc_result
|}.

(** The getters read the fields of the packed headers. *)
Lemma getters_spec qx qi rest :
  pwf qx -> pwf qi ->
  let b := enc_qmux qx ++ enc_qmi qi ++ rest in
  get_qmux_service_id b = Ret (service qx) /\ get_qmux_instance_id b = Ret (instance_id qx) /\
  get_qmi_message_id b = Ret (msgid qi) /\ get_qmi_message_type b = Ret (ctlid qi) /\
  get_qmi_transaction_id b = Ret (transaction_id qi) /\
  get_transaction_id b = Ret (transaction_id qi).
Proof.
  destruct qx as [v l c s i], qi as [c' t m l'].
  intros (Hv & Hl & Hc & Hs & Hi) (Hc' & Ht & Hm & Hl'). intros b.
  unfold get_qmux_service_id, get_qmux_instance_id, get_qmi_message_id, get_qmi_message_type,
    get_qmi_transaction_id, get_transaction_id, b. rdc. cbn in *.
  by rewrite !word_le2, !byte_le1 by assumption.
Qed.

(** * Specification: a message as a list of TLVs *)

Record tlv := { t_id : Z; t_val : list Z }.

Definition tlv_ok (t : tlv) : Prop := byte_ok (t_id t) /\ zlen (t_val t) < 65536.
Definition enc_tlv (t : tlv) : list Z := t_id t :: le 2 (zlen (t_val t)) ++ t_val t.
Definition enc_tlvs (ts : list tlv) : list Z := concat (map enc_tlv ts).

(** Offset of the first TLV with identifier [id] when the TLVs start at [off]. *)
Fixpoint tlv_find (ts : list tlv) (id off : Z) : option Z :=
  match ts with
  | [] => None
  | t :: ts => if t_id t =? id then Some off else tlv_find ts id (off + zlen (enc_tlv t))
  end.

(** The operation's result: the first 4-byte TLV with identifier 2. *)
Fixpoint tlv_result (ts : list tlv) : Z :=
  match ts with
  | [] => QMI_RESULT_UNKNOWN
  | t :: ts => if (t_id t =? 2) && (zlen (t_val t) =? 4) then unle (take 2 (t_val t))
               else tlv_result ts
  end.

Lemma enc_tlv_len t : zlen (enc_tlv t) = 3 + zlen (t_val t).
Proof. unfold enc_tlv. zl. lia. Qed.
Lemma enc_tlvs_cons t ts : enc_tlvs (t :: ts) = enc_tlv t ++ enc_tlvs ts.
Proof. reflexivity. Qed.
#[export] Hint Rewrite enc_tlv_len : oqti_len.

(** What a walker reads at a TLV boundary. *)
Lemma tlv_read pre t tl :
  tlv_ok t ->
  rd (pre ++ enc_tlv t ++ tl) (zlen pre) = Ret (t_id t) /\
  rd16 (pre ++ enc_tlv t ++ tl) (zlen pre + 1) = Ret (zlen (t_val t)).
Proof.
  intros [_ Ht]. pose proof (zlen_nonneg (t_val t)). unfold rd16.
  rewrite !(rdA_app_r pre) by lia. rewrite Z.sub_diag.
  replace (zlen pre + 1 - zlen pre) with 1 by lia.
  replace (zlen pre + 1 + 1 - zlen pre) with 2 by lia.
  split; [reflexivity|]. unfold enc_tlv. rdc. f_equal. apply word_le2. lia.
Qed.

(** The walkers' position after a TLV is the next boundary. *)
Lemma tlv_next pre t :
  zlen pre + zlen (enc_tlv t) < 65536 ->
  u16 (zlen pre + (zlen (t_val t) + 1 + 2)) = zlen (pre ++ enc_tlv t).
Proof.
  intros H. pose proof (zlen_nonneg (t_val t)). pose proof (zlen_nonneg pre).
  zl. rewrite u16_small by lia. lia.
Qed.

Section Walkers.
Context (slack : list Z) (len : Z) (Hlen : len < 65536).

(** The guard after a step lets the walk go on inside the message. *)
Lemma tlv_guard cur : 0 < cur <= len -> ((cur <=? 0) || (len <? cur))%bool = false.
Proof. intros. apply orb_false_intro; [apply Z.leb_gt|apply Z.ltb_ge]; lia. Qed.

Lemma enc_tlvs_pos ts : 0 <= zlen (enc_tlvs ts).
Proof. apply zlen_nonneg. Qed.

Lemma tlv_walk_spec id ts pre fuel :
  Forall tlv_ok ts -> 0 < zlen pre -> len = zlen pre + zlen (enc_tlvs ts) ->
  (length ts < fuel)%nat ->
  tlv_walk fuel (pre ++ enc_tlvs ts ++ slack) len id (zlen pre) =
    Ret (default 0 (tlv_find ts id (zlen pre))).
Proof.
  intros Hok. revert pre fuel; induction Hok as [|t ts Ht Hok IH]; intros pre fuel Hp Hl Hf;
    (destruct fuel as [|fuel]; [simpl in Hf; lia|]); cbn [tlv_walk tlv_find].
  - change (zlen (enc_tlvs [])) with 0 in Hl. by ifdec.
  - rewrite enc_tlvs_cons, <- app_assoc. rewrite enc_tlvs_cons in Hl.
    pose proof (zlen_nonneg (t_val t)). pose proof (enc_tlvs_pos ts). zl.
    destruct (tlv_read pre t (enc_tlvs ts ++ slack) Ht) as [-> ->]. ifdec. cbn [cbind].
    destruct (t_id t =? id) eqn:E; [done|].
    rewrite tlv_next by (zl; lia).
    rewrite tlv_guard by (zl; lia).
    rewrite app_assoc, IH by (zl; simpl in Hf; lia). by zl.
Qed.

Lemma count_walk_spec ts pre fuel n :
  Forall tlv_ok ts -> 0 < zlen pre -> len = zlen pre + zlen (enc_tlvs ts) ->
  (length ts < fuel)%nat -> 0 <= n -> n + zlen ts < 65536 ->
  count_walk fuel (pre ++ enc_tlvs ts ++ slack) len (zlen pre) n = Ret (n + zlen ts).
Proof.
  intros Hok. revert pre fuel n; induction Hok as [|t ts Ht Hok IH];
    intros pre fuel n Hp Hl Hf Hn Hb;
    (destruct fuel as [|fuel]; [simpl in Hf; lia|]); cbn [count_walk].
  - change (zlen (enc_tlvs [])) with 0 in Hl. ifdec. zl. f_equal. lia.
  - rewrite enc_tlvs_cons, <- app_assoc. rewrite enc_tlvs_cons in Hl.
    pose proof (zlen_nonneg (t_val t)). pose proof (enc_tlvs_pos ts).
    pose proof (zlen_nonneg ts). zl.
    destruct (tlv_read pre t (enc_tlvs ts ++ slack) Ht) as [_ ->]. ifdec. cbn [cbind].
    rewrite (u16_small (n + 1)) by lia. rewrite tlv_next by (zl; lia).
    rewrite tlv_guard by (zl; lia).
    rewrite app_assoc, IH by (zl; simpl in Hf; lia). f_equal. zl. lia.
Qed.

Lemma result_read pre t tl :
  tlv_ok t -> zlen (t_val t) = 4 ->
  rd16 (pre ++ enc_tlv t ++ tl) (zlen pre + 3) = Ret (unle (take 2 (t_val t))) /\
  safe (rd16 (pre ++ enc_tlv t ++ tl) (zlen pre + 5)).
Proof.
  intros _ H4. unfold rd16, safe. rewrite !(rdA_app_r pre) by lia.
  replace (zlen pre + 3 - zlen pre) with 3 by lia.
  replace (zlen pre + 3 + 1 - zlen pre) with 4 by lia.
  replace (zlen pre + 5 - zlen pre) with 5 by lia.
  replace (zlen pre + 5 + 1 - zlen pre) with 6 by lia.
  unfold zlen in H4. destruct t as [i [|a [|b [|c [|d [|]]]]]]; cbn in H4; try lia.
  unfold enc_tlv. cbn [t_id t_val]. rdc. cbn [take unle]. split; [f_equal; lia|eauto].
Qed.

Lemma result_walk_spec ts pre fuel :
  Forall tlv_ok ts -> 0 < zlen pre -> len = zlen pre + zlen (enc_tlvs ts) ->
  (length ts < fuel)%nat ->
  result_walk fuel (pre ++ enc_tlvs ts ++ slack) len (zlen pre) = Ret (tlv_result ts).
Proof.
  intros Hok. revert pre fuel; induction Hok as [|t ts Ht Hok IH]; intros pre fuel Hp Hl Hf;
    (destruct fuel as [|fuel]; [simpl in Hf; lia|]); cbn [result_walk tlv_result].
  - change (zlen (enc_tlvs [])) with 0 in Hl. by ifdec.
  - rewrite enc_tlvs_cons, <- app_assoc. rewrite enc_tlvs_cons in Hl.
    pose proof (zlen_nonneg (t_val t)). pose proof (enc_tlvs_pos ts). zl.
    destruct (tlv_read pre t (enc_tlvs ts ++ slack) Ht) as [-> ->]. ifdec. cbn [cbind].
    destruct ((t_id t =? 2) && (zlen (t_val t) =? 4))%bool eqn:E.
    + b2p. destruct (result_read pre t (enc_tlvs ts ++ slack) Ht) as [-> [? ->]]; done.
    + rewrite tlv_next by (zl; lia).
      rewrite tlv_guard by (zl; lia).
      rewrite app_assoc, IH by (zl; simpl in Hf; lia). done.
Qed.
End Walkers.

Lemma enc_tlvs_app ts1 ts2 : enc_tlvs (ts1 ++ ts2) = enc_tlvs ts1 ++ enc_tlvs ts2.
Proof. unfold enc_tlvs. by rewrite map_app, concat_app. Qed.

Lemma tlvs_count_bound ts : 3 * zlen ts <= zlen (enc_tlvs ts).
Proof.
  induction ts as [|t ts IH]; [done|]. rewrite enc_tlvs_cons.
  pose proof (zlen_nonneg (t_val t)). zl. lia.
Qed.

Lemma tlv_fuel_enough ts : zlen (enc_tlvs ts) < 65536 -> (length ts < tlv_fuel)%nat.
Proof. pose proof (tlvs_count_bound ts). unfold zlen, tlv_fuel in *. lia. Qed.

Lemma tlv_fuel_pos : exists f, tlv_fuel = S f.
Proof. exists (pred tlv_fuel). unfold tlv_fuel. lia. Qed.

Lemma tlv_find_first ts1 t ts2 off :
  Forall (fun t' => t_id t' <> t_id t) ts1 ->
  tlv_find (ts1 ++ t :: ts2) (t_id t) off = Some (off + zlen (enc_tlvs ts1)).
Proof.
  intros Hne. revert off; induction Hne as [|t' ts1 Ht' _ IH]; intros off; cbn [app tlv_find].
  - rewrite Z.eqb_refl. f_equal. change (zlen (enc_tlvs [])) with 0. lia.
  - rewrite (proj2 (Z.eqb_neq _ _) Ht'), IH, enc_tlvs_cons. f_equal. zl. lia.
Qed.

Lemma tlv_find_none ts id off : Forall (fun t => t_id t <> id) ts -> tlv_find ts id off = None.
Proof.
  intros Hne. revert off; induction Hne as [|t ts Ht _ IH]; intros off; [done|].
  cbn [tlv_find]. by rewrite (proj2 (Z.eqb_neq _ _) Ht), IH.
Qed.

(** The message of a header and a list of TLVs, with whatever follows it in
    the receive buffer. *)
Section Message.
Context (hdr : list Z) (ts : list tlv) (slack : list Z) (len : Z).
Context (Hhdr : zlen hdr = SZ_ENCAP) (Hok : Forall tlv_ok ts).
Context (Hlen : len = zlen (hdr ++ enc_tlvs ts)) (Hmin : SZ_ENCAP + 4 <= len)
        (Hmax : len < 65536).
Let buf := hdr ++ enc_tlvs ts ++ slack.

Lemma message_len : len = zlen hdr + zlen (enc_tlvs ts).
Proof. by rewrite Hlen, zlen_app. Qed.

Lemma message_fuel : (length ts < tlv_fuel)%nat.
Proof.
  apply tlv_fuel_enough. pose proof message_len. unfold SZ_ENCAP, SZ_QMUX, SZ_QMI in *. lia.
Qed.

Lemma lookup_spec id : get_tlv_offset_by_id buf len id = Ret (default 0 (tlv_find ts id SZ_ENCAP)).
Proof.
  unfold get_tlv_offset_by_id. ifdec. rewrite <- Hhdr. unfold buf.
  apply tlv_walk_spec; auto using message_len, message_fuel.
  rewrite Hhdr. done.
Qed.

Lemma result_spec : did_qmi_op_fail buf len = Ret (tlv_result ts).
Proof.
  unfold did_qmi_op_fail. ifdec. rewrite <- Hhdr. unfold buf.
  apply result_walk_spec; auto using message_len, message_fuel.
  rewrite Hhdr. done.
Qed.

Lemma count_spec : count_tlvs_in_message buf len = Ret (zlen ts).
Proof.
  unfold count_tlvs_in_message. ifdec. rewrite <- Hhdr. unfold buf.
  pose proof (tlvs_count_bound ts). pose proof message_len. pose proof (zlen_nonneg ts).
  unfold SZ_ENCAP, SZ_QMUX, SZ_QMI in *.
  rewrite count_walk_spec; auto using message_len, message_fuel; lia.
Qed.
End Message.

(** C33: in a message made of a 13-byte header and well-formed TLVs (17 to
    65535 bytes), whatever bytes follow it in the buffer,
    [get_tlv_offset_by_id] returns the offset of the first TLV with the
    requested identifier, and 0 when there is none. *)
Theorem get_tlv_offset_by_id_correct hdr ts slack id :
  zlen hdr = SZ_ENCAP -> Forall tlv_ok ts ->
  SZ_ENCAP + 4 <= zlen (hdr ++ enc_tlvs ts) < 65536 ->
  (forall ts1 t ts2, ts = ts1 ++ t :: ts2 -> t_id t = id ->
     Forall (fun t' => t_id t' <> id) ts1 ->
     get_tlv_offset_by_id (hdr ++ enc_tlvs ts ++ slack) (zlen (hdr ++ enc_tlvs ts)) id =
       Ret (zlen (hdr ++ enc_tlvs ts1))) /\
  (Forall (fun t => t_id t <> id) ts ->
     get_tlv_offset_by_id (hdr ++ enc_tlvs ts ++ slack) (zlen (hdr ++ enc_tlvs ts)) id = Ret 0).
Proof.
  intros Hhdr Hok Hlen. split.
  - intros ts1 t ts2 Hts <- Hne. rewrite lookup_spec by (auto; lia).
    rewrite Hts at 1. rewrite tlv_find_first by done. cbn. by rewrite zlen_app, Hhdr.
  - intros Hne. rewrite lookup_spec by (auto; lia). by rewrite tlv_find_none.
Qed.

Definition sample_hdr : list Z :=
  enc_qmux (Build_qmux_packet 1 27 0x80 5 1) ++ enc_qmi (Build_qmi_packet 2 7 0x22 15).
Definition sample_tlvs : list tlv :=
  [Build_tlv 2 [0; 0; 0; 0]; Build_tlv 1 [1; 3; 0; 0; 0]].

Lemma sample_tlvs_ok : Forall tlv_ok sample_tlvs.
Proof. repeat constructor; cbn; lia. Qed.

Lemma get_tlv_offset_by_id_correct_witness :
  get_tlv_offset_by_id (sample_hdr ++ enc_tlvs sample_tlvs ++ [9; 9])
    (zlen (sample_hdr ++ enc_tlvs sample_tlvs)) 1 = Ret 20.
Proof.
  apply (proj1 (get_tlv_offset_by_id_correct sample_hdr sample_tlvs [9; 9] 1
    eq_refl sample_tlvs_ok ltac:(split; vm_compute; congruence))
    [Build_tlv 2 [0; 0; 0; 0]] (Build_tlv 1 [1; 3; 0; 0; 0]) []); [reflexivity..|].
  repeat constructor. cbn. lia.
Defined.

(** On the same messages [did_qmi_op_fail] returns the result word of the
    first 4-byte result TLV, and [QMI_RESULT_UNKNOWN] when there is none. *)
Theorem did_qmi_op_fail_correct hdr ts slack :
  zlen hdr = SZ_ENCAP -> Forall tlv_ok ts ->
  SZ_ENCAP + 4 <= zlen (hdr ++ enc_tlvs ts) < 65536 ->
  did_qmi_op_fail (hdr ++ enc_tlvs ts ++ slack) (zlen (hdr ++ enc_tlvs ts)) = Ret (tlv_result ts) /\
  count_tlvs_in_message (hdr ++ enc_tlvs ts ++ slack) (zlen (hdr ++ enc_tlvs ts)) = Ret (zlen ts).
Proof. intros. split; [apply result_spec|apply count_spec]; auto; lia. Qed.

Lemma did_qmi_op_fail_correct_witness :
  did_qmi_op_fail (sample_hdr ++ enc_tlvs sample_tlvs ++ [])
    (zlen (sample_hdr ++ enc_tlvs sample_tlvs)) = Ret QMI_RESULT_SUCCESS.
Proof.
  apply (did_qmi_op_fail_correct sample_hdr sample_tlvs [] eq_refl sample_tlvs_ok).
  split; vm_compute; congruence.
Defined.

(** * Arbitrary input *)

Lemma rd16_no_oob (arr : list Z) i : 0 <= i -> i + 1 < zlen arr -> exists x, rd16 arr i = Ret x.
Proof.
  intros. unfold rd16.
  destruct (rdA_in arr i) as [x ->]; [lia|]. destruct (rdA_in arr (i + 1)) as [y ->]; [lia|].
  cbn. eauto.
Qed.

Lemma tlv_walk_no_oob fuel arr len id cur :
  0 <= cur -> len + 2 <= zlen arr -> tlv_walk fuel arr len id cur <> Oob.
Proof.
  revert cur; induction fuel as [|fuel IH]; intros cur Hc Hl; [done|]. cbn [tlv_walk].
  csplit; [|done].
  destruct (rdA_in arr cur) as [x ->]; [lia|].
  destruct (rd16_no_oob arr (cur + 1)) as [y ->]; [lia..|]. cbn [cbind].
  csplit; [done|]. csplit; [done|]. apply IH; [apply u16_range|lia].
Qed.

(** For every content of the buffer, [get_tlv_offset_by_id] reads only
    inside it as soon as the buffer has two bytes of room after the message;
    and with no room at all a message whose last byte starts a TLV makes it
    read past the end. *)
Theorem get_tlv_offset_by_id_reads bytes len tlvid :
  (len + 2 <= zlen bytes -> get_tlv_offset_by_id bytes len tlvid <> Oob) /\
  get_tlv_offset_by_id (replicate 13 0 ++ [1; 1; 0; 0; 5]) 18 7 = Oob.
Proof.
  split; [|reflexivity]. intros Hl. unfold get_tlv_offset_by_id. csplit; [done|].
  apply tlv_walk_no_oob; [done|lia].
Qed.

Lemma get_tlv_offset_by_id_reads_witness :
  get_tlv_offset_by_id (replicate 32 0) 30 7 <> Oob.
Proof. apply (proj1 (get_tlv_offset_by_id_reads (replicate 32 0) 30 7)). vm_compute. congruence. Defined.

(** A TLV whose length field is 0xfffd moves the 16-bit position by
    65536, that is not at all: on such a message each of the three walkers
    is still running after any number of iterations (unless the first TLV is
    the one looked for). *)
Theorem tlv_walkers_endless hdr t rest len id fuel :
  zlen hdr = SZ_ENCAP -> SZ_ENCAP + 4 <= len < 65536 -> t <> id ->
  let msg := hdr ++ [t; 0xfd; 0xff] ++ rest in
  tlv_walk fuel msg len id SZ_ENCAP = Spin /\
  result_walk fuel msg len SZ_ENCAP = Spin /\
  (forall n, count_walk fuel msg len SZ_ENCAP n = Spin).
Proof.
  intros Hhdr Hlen Hne msg.
  assert (R0 : rd msg SZ_ENCAP = Ret t) by (unfold msg; rewrite rdA_app_r, Hhdr by lia; done).
  assert (R1 : rd16 msg (SZ_ENCAP + 1) = Ret 0xfffd).
  { unfold msg, rd16. rewrite !(rdA_app_r hdr), Hhdr by lia. reflexivity. }
  assert (W : u16 (SZ_ENCAP + (0xfffd + 1 + 2)) = SZ_ENCAP) by reflexivity.
  assert (C : ((SZ_ENCAP <=? 0) || (len <? SZ_ENCAP))%bool = false)
    by (apply orb_false_intro; [done|apply Z.ltb_ge; lia]).
  assert (G : (SZ_ENCAP <? len) = true) by (apply Z.ltb_lt; lia).
  induction fuel as [|fuel [IH1 [IH2 IH3]]]; [done|].
  cbn [tlv_walk result_walk count_walk]. rewrite G, R0, R1. cbn [cbind].
  rewrite W, C, (proj2 (Z.eqb_neq t id) Hne).
  replace ((t =? 2) && (65533 =? 4))%bool with false by (by rewrite andb_false_r).
  auto.
Qed.

Lemma tlv_walkers_endless_witness :
  tlv_walk 50 (replicate 13 0 ++ [0x10; 0xfd; 0xff] ++ replicate 20 0) 36 1 SZ_ENCAP = Spin.
Proof.
  refine (proj1 (tlv_walkers_endless (replicate 13 0) 0x10 (replicate 20 0) 36 1 50 eq_refl _ _));
    [vm_compute; split; congruence|lia].
Defined.

(** When the first TLV claims more bytes than the message holds,
    [get_tlv_offset_by_id] returns 65514 (-EINVAL as an unsigned 16-bit
    value), never the documented 0; every caller's [offset > 0] test then
    takes it for a valid offset. *)
Theorem get_tlv_offset_by_id_truncated hdr t n rest len id :
  zlen hdr = SZ_ENCAP -> SZ_ENCAP + 4 <= len -> t <> id -> 0 <= n ->
  len < SZ_ENCAP + 3 + n < 65536 ->
  get_tlv_offset_by_id (hdr ++ t :: le 2 n ++ rest) len id = Ret 65514.
Proof.
  intros Hhdr Hmin Hne Hn0 Hn. unfold get_tlv_offset_by_id. ifdec.
  destruct tlv_fuel_pos as [f ->]. cbn [tlv_walk]. ifdec.
  assert (R0 : rd (hdr ++ t :: le 2 n ++ rest) SZ_ENCAP = Ret t)
    by (rewrite rdA_app_r, Hhdr by lia; done).
  assert (R1 : rd16 (hdr ++ t :: le 2 n ++ rest) (SZ_ENCAP + 1) = Ret n).
  { unfold rd16. rewrite !(rdA_app_r hdr), Hhdr by lia. rdc. f_equal. apply word_le2.
    unfold SZ_ENCAP, SZ_QMUX, SZ_QMI in *. lia. }
  rewrite R0, R1. cbn [cbind]. rewrite (proj2 (Z.eqb_neq t id) Hne).
  unfold SZ_ENCAP, SZ_QMUX, SZ_QMI in *. rewrite u16_small by lia.
  replace (len <? 6 + 7 + (n + 1 + 2)) with true by (symmetry; apply Z.ltb_lt; lia).
  by rewrite orb_true_r.
Qed.

Lemma get_tlv_offset_by_id_truncated_witness :
  get_tlv_offset_by_id (replicate 13 0 ++ 0x10 :: le 2 200 ++ replicate 20 0) 36 1 = Ret 65514.
Proof.
  apply (get_tlv_offset_by_id_truncated (replicate 13 0) 0x10 200 (replicate 20 0) 36 1);
    vm_compute; intuition congruence.
Defined.

(** * The builders *)

(** Open the first bytes of a buffer known to be long enough. *)
Ltac open_buf o n :=
  lazymatch n with
  | O => idtac
  | S ?n => destruct o as [|? o]; [unfold zlen in *; cbn in *; lia|]; open_buf o n
  end.

Lemma wrA_cons0 {A} (y : A) b x : wrA (y :: b) 0 x = Ret (x :: b).
Proof. rewrite wrA_ok; [done|]. pose proof (zlen_nonneg b). zl. lia. Qed.
Lemma wrA_consS {A} (y : A) b i x :
  0 < i -> wrA (y :: b) i x = let* b := wrA b (i - 1) x in Ret (y :: b).
Proof.
  intros Hi. unfold wrA. zl. pose proof (zlen_nonneg b).
  destruct (i <? 1 + zlen b) eqn:E; b2p; ifdec; [|done].
  cbn [cbind]. replace (Z.to_nat i) with (S (Z.to_nat (i - 1))) by lia. done.
Qed.

(** Writing at literal offsets of an explicit buffer. *)
Ltac wrc :=
  repeat (first
    [ rewrite wrA_cons0
    | rewrite wrA_consS by (unfold SZ_QMUX, SZ_QMI; lia)
    | progress cbn [cbind wrn wr16 le Z.sub Z.add Z.opp Z.pos_sub Pos.pred_double Pos.add Pos.succ] ]).

Lemma build_qmux_header_spec o len c s i :
  zlen o = len -> SZ_QMUX <= len ->
  build_qmux_header o len c s i =
    Ret (0, enc_qmux (Build_qmux_packet 1 (len - 1) c s i) ++ drop 6 o).
Proof.
  intros Ho Hl. unfold build_qmux_header. ifdec. unfold SZ_QMUX in *.
  open_buf o 6%nat. unfold wr16. wrc. done.
Qed.

Lemma build_qmi_header_spec h o len c t m :
  zlen h = SZ_QMUX -> zlen (h ++ o) = len -> SZ_QMUX + SZ_QMI <= len ->
  build_qmi_header (h ++ o) len c t m =
    Ret (0, h ++ enc_qmi (Build_qmi_packet c t m (len - SZ_QMUX - SZ_QMI)) ++ drop 7 o).
Proof.
  intros Hh Ho Hl. unfold build_qmi_header. ifdec. zl. unfold SZ_QMUX, SZ_QMI in *.
  open_buf h 6%nat. destruct h as [|? h]; [|unfold zlen in *; cbn in *; lia].
  open_buf o 7%nat. unfold wr16. cbn [app]. wrc. done.
Qed.

Lemma build_u8_tlv_spec h o len id d :
  zlen (h ++ o) = len -> zlen h + SZ_U8_TLV <= len ->
  build_u8_tlv (h ++ o) len (zlen h) id d =
    Ret (0, h ++ enc_tlv (Build_tlv (u8 id) [u8 d]) ++ drop 4 o).
Proof.
  intros Ho Hl. unfold build_u8_tlv. ifdec. unfold SZ_U8_TLV in Hl. zl.
  open_buf o 4%nat. unfold wr16.
  pose proof (wrn_app h [z; z0; z1; z2] o ([u8 id] ++ le 2 1 ++ [u8 d]) eq_refl) as W.
  rewrite !wrn_concat, wrn_one in W. cbn [app] in W |- *.
  rewrite <- (wrn_one _ (zlen h)). cbn [wrn] in *.
  revert W. destruct (wr (h ++ z :: z0 :: z1 :: z2 :: o) (zlen h) (u8 id)) as [b'| |]; try done.
  cbn [cbind]. replace (zlen h + zlen [u8 id]) with (zlen h + 1) by (zl; lia).
  rewrite wrn_concat. destruct (wrn b' (zlen h + 1) (le 2 1)) as [b''| |]; try done.
  cbn [cbind]. replace (zlen h + 1 + zlen (le 2 1)) with (zlen h + 3) by (zl; lia).
  rewrite wrn_one. intros ->. done.
Qed.

(** Building a request in a large enough buffer: the QMUX header, the QMI
    header and an 8-bit TLV at offset 13 give exactly the packed headers and
    the TLV, in that order, with the lengths of the QMUX and QMI headers
    counting the bytes after them; the getters and [get_tlv_offset_by_id]
    read back what was asked for. *)
Theorem build_request_roundtrip o len c s i c' t m id d :
  zlen o = len -> SZ_ENCAP + SZ_U8_TLV <= len < 65536 ->
  byte_ok s -> byte_ok i -> byte_ok id -> byte_ok d -> 0 <= t < 65536 -> 0 <= m < 65536 ->
  exists o1 o2 o3,
    build_qmux_header o len c s i = Ret (0, o1) /\
    build_qmi_header o1 len c' t m = Ret (0, o2) /\
    build_u8_tlv o2 len SZ_ENCAP id d = Ret (0, o3) /\
    o3 = enc_qmux (Build_qmux_packet 1 (len - 1) c s i) ++
         enc_qmi (Build_qmi_packet c' t m (len - SZ_ENCAP)) ++
         enc_tlv (Build_tlv id [d]) ++ drop 17 o /\
    get_qmux_service_id o3 = Ret s /\ get_qmux_instance_id o3 = Ret i /\
    get_qmi_transaction_id o3 = Ret t /\ get_qmi_message_id o3 = Ret m /\
    get_tlv_offset_by_id o3 (SZ_ENCAP + SZ_U8_TLV) id = Ret SZ_ENCAP.
Proof.
  intros Ho Hl Hs Hi Hid Hd Ht Hm.
  assert (H6 : SZ_QMUX <= len) by (unfold SZ_ENCAP, SZ_QMUX, SZ_QMI, SZ_U8_TLV in *; lia).
  set (qx := Build_qmux_packet 1 (len - 1) c s i).
  set (qi := Build_qmi_packet c' t m (len - SZ_ENCAP)).
  exists (enc_qmux qx ++ drop 6 o), (enc_qmux qx ++ enc_qmi qi ++ drop 13 o),
    (enc_qmux qx ++ enc_qmi qi ++ enc_tlv (Build_tlv id [d]) ++ drop 17 o).
  assert (Hdrop : forall n, Z.of_nat n <= len -> zlen (drop n o) = len - Z.of_nat n).
  { intros n Hn. unfold zlen in *. rewrite length_drop. lia. }
  unfold SZ_ENCAP, SZ_QMUX, SZ_QMI, SZ_U8_TLV in *.
  split; [by apply build_qmux_header_spec|]. split.
  { rewrite build_qmi_header_spec; [|done|zl; rewrite Hdrop by lia; unfold SZ_QMUX; lia|
      unfold SZ_QMUX, SZ_QMI; lia].
    rewrite drop_drop. unfold qi. by replace (len - (6 + 7)) with (len - SZ_QMUX - SZ_QMI)
      by (unfold SZ_QMUX, SZ_QMI; lia). }
  split.
  { rewrite app_assoc.
    change (6 + 7) with (zlen (enc_qmux qx ++ enc_qmi qi)) at 1.
    rewrite build_u8_tlv_spec by (zl; rewrite ?Hdrop by lia; unfold SZ_QMUX, SZ_QMI, SZ_U8_TLV; lia).
    rewrite drop_drop, !u8_small by done. by rewrite <- app_assoc. }
  split; [done|].
  split; [|split; [|split; [|split]]].
  1-4: unfold get_qmux_service_id, get_qmux_instance_id, get_qmi_transaction_id,
    get_qmi_message_id, enc_qmux, enc_qmi, qx, qi; rdc;
    cbn [service instance_id transaction_id msgid]; by rewrite ?word_le2, ?byte_le1 by done.
  pose proof (lookup_spec (enc_qmux qx ++ enc_qmi qi) [Build_tlv id [d]] (drop 17 o) 17 eq_refl)
    as L.
  rewrite <- app_assoc in L. cbn [enc_tlvs map concat] in L. rewrite app_nil_r in L.
  change (6 + 7 + 4) with 17. rewrite L; try done.
  - cbn. by rewrite Z.eqb_refl.
  - repeat constructor; apply Hid.
Qed.

Lemma build_request_roundtrip_witness :
  exists o1 o2 o3,
    build_qmux_header (replicate 17 0) 17 0 5 1 = Ret (0, o1) /\
    build_qmi_header o1 17 0 3 0x22 = Ret (0, o2) /\
    build_u8_tlv o2 17 SZ_ENCAP 0x10 1 = Ret (0, o3) /\
    get_tlv_offset_by_id o3 17 0x10 = Ret 13.
Proof.
  destruct (build_request_roundtrip (replicate 17 0) 17 0 5 1 0 3 0x22 0x10 1 eq_refl
    ltac:(zlit) ltac:(zlit) ltac:(zlit) ltac:(zlit) ltac:(zlit) ltac:(zlit) ltac:(zlit))
    as (o1 & o2 & o3 & H1 & H2 & H3 & _ & _ & _ & _ & _ & H4).
  exists o1, o2, o3. split; [exact H1|split; [exact H2|split; [exact H3|exact H4]]].
Defined.

(** [build_u32_tlv] accepts a buffer with 4 to 6 bytes left at the
    offset, although it writes 7: the write goes past the end. *)
Theorem build_u32_tlv_overflow o len offset id data :
  0 <= offset -> zlen o = len -> offset + 4 <= len < offset + 7 ->
  build_u32_tlv o len offset id data = Oob.
Proof.
  intros Hoff Ho Hlen. unfold build_u32_tlv, SZ_U8_TLV, wr16, wr32. ifdec.
  rewrite wrA_ok by lia. cbn [cbind].
  destruct (wrn _ (offset + 1) (le 2 4)) as [b| |] eqn:E; cbn [cbind].
  - apply wrn_zlen in E. zl. cbn [le wrn].
    repeat match goal with
    | |- cbind (cbind (wr ?b0 ?i ?x) _) _ = _ =>
        destruct (wrA_cases b0 i x) as [->|(? & ? & -> & ?)]; [done|cbn [cbind]]
    end.
    exfalso. lia.
  - done.
  - exfalso. by eapply wrn_no_spin.
Qed.

Lemma build_u32_tlv_overflow_witness : build_u32_tlv (replicate 17 0) 17 13 0x10 1 = Oob.
Proof. exact (build_u32_tlv_overflow (replicate 17 0) 17 13 0x10 1 ltac:(lia) eq_refl ltac:(lia)). Defined.
