(* ===== verification/QmiClient.v ===== *)
(** The internal QMI client (recipes-modem/openqti/files/src/qmi.c, from
    "INTERNAL QMI CLIENT" on): the table of service bindings with one pending
    message each, the pass that sends pending messages to the modem's control
    port, the replies that allocate clients, and the reader's dispatch.

    The port is a trace of the buffers handed to write(2); what write(2)
    returns is the parameter [port_ret]. *)

From stdpp Require Import base list numbers option.
From Stdlib Require Import ZArith Lia.
From S2P Require Import Prelude Qmi.

(** * State *)

Record qmi_service_bindings := {
  sb_service : Z;              (* uint8_t *)
  sb_instance : Z;             (* uint8_t *)
  sb_is_initialized : Z;       (* uint8_t *)
  sb_has_pending_message : Z;  (* uint8_t *)
  sb_message : option (list Z);  (* NULL or a malloc'd block *)
  sb_message_len : Z;          (* size_t *)
  sb_transaction_id : Z        (* uint16_t *)
}.

Record internal_qmi_client := {
  qc_is_initialized : Z;
  qc_has_pending_message : Z;
  qc_fd : Z;
  qc_services : list qmi_service_bindings
}.

Definition QMI_SERVICE_CONTROL : Z := 0x00.
Definition QMI_SERVICE_WDS : Z := 0x01.
Definition QMI_SERVICE_DMS : Z := 0x02.
Definition QMI_SERVICE_NAS : Z := 0x03.
Definition QMI_SERVICE_VOICE : Z := 0x09.
Definition QMI_SERVICE_IMS_SETTINGS : Z := 0x12.
Definition QMI_SERVICE_MDMFS : Z := 0x15.
Definition QMI_SERVICE_PDC : Z := 0x24.
Definition QMI_SERVICES_LAST : Z := 0xff.

(** Zero-initialised static storage. *)
Definition binding0 : qmi_service_bindings := Build_qmi_service_bindings 0 0 0 0 None 0 0.
Definition client0 : internal_qmi_client :=
  Build_internal_qmi_client 0 0 0 (replicate (Z.to_nat QMI_SERVICES_LAST) binding0).

Definition set_services (c : internal_qmi_client) (s : list qmi_service_bindings) :=
  Build_internal_qmi_client (qc_is_initialized c) (qc_has_pending_message c) (qc_fd c) s.
Definition set_client_pending (c : internal_qmi_client) (p : Z) :=
  Build_internal_qmi_client (qc_is_initialized c) p (qc_fd c) (qc_services c).

Definition set_pending (sb : qmi_service_bindings) (p : Z) :=
  Build_qmi_service_bindings (sb_service sb) (sb_instance sb) (sb_is_initialized sb) p
    (sb_message sb) (sb_message_len sb) (sb_transaction_id sb).
Definition set_message (sb : qmi_service_bindings) (m : option (list Z)) (len : Z) :=
  Build_qmi_service_bindings (sb_service sb) (sb_instance sb) (sb_is_initialized sb)
    (sb_has_pending_message sb) m len (sb_transaction_id sb).
Definition set_initialized (sb : qmi_service_bindings) (i : Z) :=
  Build_qmi_service_bindings (sb_service sb) (sb_instance sb) i (sb_has_pending_message sb)
    (sb_message sb) (sb_message_len sb) (sb_transaction_id sb).
Definition set_tid (sb : qmi_service_bindings) (t : Z) :=
  Build_qmi_service_bindings (sb_service sb) (sb_instance sb) (sb_is_initialized sb)
    (sb_has_pending_message sb) (sb_message sb) (sb_message_len sb) t.

(** [internal_qmi_client.services[i]] read, and updated by [f]. *)
Definition get_binding (c : internal_qmi_client) (i : Z) : cres qmi_service_bindings :=
  rdA (qc_services c) i.
Definition upd_binding (c : internal_qmi_client) (i : Z)
    (f : qmi_service_bindings -> qmi_service_bindings) : cres internal_qmi_client :=
  let* sb := rdA (qc_services c) i in
  let* s := wrA (qc_services c) i (f sb) in
  Ret (set_services c s).

(** * Operations *)

Definition prepare_internal_pkt (c : internal_qmi_client) (bytes : list Z) : cres (list Z) :=
  let* svc := rd bytes 4 in
  let* sb := get_binding c svc in
  let* bytes := wr bytes 5 (u8 (sb_instance sb)) in
  let* svc := rd bytes 4 in
  let* sb := get_binding c svc in
  wr16 bytes (SZ_QMUX + 1) (sb_transaction_id sb).

Definition set_pending_message (c : internal_qmi_client) (svc : Z) : cres internal_qmi_client :=
  let* c := upd_binding c svc (fun sb => set_pending sb 1) in
  Ret (set_client_pending c 1).

(** The port's buffers, as written. *)
Definition port_trace := list (list Z).

Section Client.
(** What write(2) on the control port returns for a buffer: the number of
    bytes taken, or -1. *)
Variable port_ret : list Z -> Z.

(** [bytes_written] is a 32-bit size_t: an error -1 becomes 4294967295. *)
Definition write_to_qmi_port (buff : list Z) (bufsz : Z) : cres (Z * port_trace) :=
  let* out := rdn buff 0 (Z.to_nat bufsz) in
  Ret (u32 (port_ret out), [out]).

(** struct client_alloc_request as filled by [allocate_qmi_client]: the
    7-byte QMUX header of allocations, the control header and the TLV. *)
Definition client_alloc_request (svc : Z) : list Z :=
  le 1 0x01 ++ le 2 0x0f ++ le 2 0x00 ++ le 2 0x00 ++
  le 1 0x06 ++ le 2 0x0022 ++ le 2 0x04 ++
  le 1 0x01 ++ le 2 0x01 ++ le 1 svc.

Definition allocate_qmi_client (svc : Z) : cres (Z * port_trace) :=
  let request := client_alloc_request svc in
  let* '(bytes_written, out) := write_to_qmi_port request 16 in
  if bytes_written <? 16 then Ret (- ENOMEM, out) else Ret (0, out).

Definition is_internal_qmi_message_pending (c : internal_qmi_client) : Z :=
  if qc_has_pending_message c =? 0 then 0 else 1.

Definition clear_message_for_service (c : internal_qmi_client) (svc : Z)
  : cres internal_qmi_client :=
  if QMI_SERVICES_LAST <? svc then Ret c
  else
    let* sb := get_binding c svc in
    match sb_message sb with
    | None => Ret c
    | Some _ => upd_binding c svc (fun sb => set_pending (set_message sb None 0) 0)
    end.

Definition set_transaction_id_for_service (c : internal_qmi_client) (svc tid : Z)
  : cres internal_qmi_client :=
  if QMI_SERVICES_LAST <? svc then Ret c
  else upd_binding c svc (fun sb => set_tid sb (u16 tid)).

Definition clear_current_transaction_id (c : internal_qmi_client) (svc : Z)
  : cres internal_qmi_client :=
  if QMI_SERVICES_LAST <? svc then Ret c
  else upd_binding c svc (fun sb => set_tid sb 0).

Definition get_transaction_id_for_service (c : internal_qmi_client) (svc : Z) : cres Z :=
  if QMI_SERVICES_LAST <? svc then Ret 0
  else let* sb := get_binding c svc in Ret (sb_transaction_id sb).

(** The services with a case of their own in the send switch. *)
Definition known_service (i : Z) : bool :=
  (i =? QMI_SERVICE_WDS) || (i =? QMI_SERVICE_DMS) || (i =? QMI_SERVICE_VOICE) ||
  (i =? QMI_SERVICE_NAS) || (i =? QMI_SERVICE_PDC) || (i =? QMI_SERVICE_MDMFS) ||
  (i =? QMI_SERVICE_IMS_SETTINGS).

(** Body of the first loop of [send_pending_internal_qmi_messages]. The
    packet is stamped in the block the table points to, then written. *)
Definition send_service (c : internal_qmi_client) (i : Z)
  : cres (internal_qmi_client * port_trace) :=
  let* sb := get_binding c i in
  if sb_has_pending_message sb =? 0 then Ret (c, [])
  else if sb_is_initialized sb =? 0 then
    let* '(_, out) := allocate_qmi_client i in Ret (c, out)
  else if known_service i then
    match sb_message sb with
    | None => Oob
    | Some m =>
        let* m := prepare_internal_pkt c m in
        let* c := upd_binding c i (fun sb => set_message sb (Some m) (sb_message_len sb)) in
        let* '(_, out) := write_to_qmi_port m (sb_message_len sb) in
        let* c := clear_message_for_service c i in
        Ret (c, out)
    end
  else
    let* c := upd_binding c i (fun sb => set_pending sb 0) in
    Ret (c, []).

Fixpoint send_loop (n : nat) (c : internal_qmi_client) (i : Z)
  : cres (internal_qmi_client * port_trace) :=
  match n with
  | O => Ret (c, [])
  | S n =>
      let* '(c, out) := send_service c i in
      let* '(c, outs) := send_loop n c (i + 1) in
      Ret (c, out ++ outs)
  end.

(** The second loop: does any service still have its flag at 1? *)
Fixpoint still_pending (n : nat) (c : internal_qmi_client) (i : Z) : cres bool :=
  match n with
  | O => Ret false
  | S n =>
      let* sb := get_binding c i in
      let* r := still_pending n c (i + 1) in
      Ret ((sb_has_pending_message sb =? 1) || r)
  end.

Definition send_pending_internal_qmi_messages (c : internal_qmi_client)
  : cres (Z * internal_qmi_client * port_trace) :=
  if qc_has_pending_message c =? 0 then Ret (- EINVAL, c, [])
  else
    let* '(c, out) := send_loop (Z.to_nat QMI_SERVICES_LAST) c 0 in
    let* pending := still_pending (Z.to_nat QMI_SERVICES_LAST) c 0 in
    if pending then Ret (0, c, out) else Ret (0, set_client_pending c 0, out).

(** The wait of [add_pending_message]: [obs k] is the shared table as it is
    after [k] seconds of sleep; the result is the second the loop ends. *)
Fixpoint wait_slot (retries : nat) (obs : nat -> internal_qmi_client) (k : nat) (svc : Z)
  : cres nat :=
  let* sb := get_binding (obs k) svc in
  match retries with
  | O => Ret k
  | S retries => if sb_has_pending_message sb =? 0 then Ret k
                 else wait_slot retries obs (S k) svc
  end.

Definition add_pending_message (obs : nat -> internal_qmi_client) (svc : Z) (buf : list Z)
  : cres (Z * internal_qmi_client) :=
  if QMI_SERVICES_LAST <? svc then Ret (- EINVAL, obs O)
  else
    let* k := wait_slot 25 obs O svc in
    let c := obs k in
    let* sb := get_binding c svc in
    if sb_has_pending_message sb =? 0 then
      let* c := upd_binding c svc
        (fun sb => set_pending (set_message sb (Some buf) (zlen buf)) 1) in
      Ret (0, set_client_pending c 1)
    else Ret (- EINVAL, c).

Definition CLIENT_REGISTER_REQ : Z := 0x0022.
Definition SZ_ALLOC_RESPONSE : Z := 24.

(** struct client_alloc_response: control header at 6, result at 12, the
    service and instance pair at 19. *)
Definition handle_incoming_qmi_control_message (c : internal_qmi_client) (buf : list Z)
    (buf_len : Z) : cres (Z * internal_qmi_client) :=
  let* id := get_control_message_id buf in
  if id =? CLIENT_REGISTER_REQ then
    if SZ_ALLOC_RESPONSE <=? buf_len then
      let* response := rd16 buf 17 in
      let* result := rd16 buf 15 in
      if (response =? 0) && (result =? 0) then
        let* service_id := rd buf 22 in
        let* inst := rd buf 23 in
        let* tid := rd buf 7 in
        let* c := upd_binding c service_id (fun sb =>
          Build_qmi_service_bindings service_id inst 1 (sb_has_pending_message sb)
            (sb_message sb) (sb_message_len sb) tid) in
        Ret (0, c)
      else Ret (0, c)
    else
      let* c := upd_binding c QMI_SERVICE_MDMFS (fun sb => set_initialized sb 1) in
      Ret (0, c)
  else Ret (0, c).

(** The service client a message is handed to. *)
Inductive handler :=
| HNone | HDms | HWds | HVoice | HNas | HPdc | HIms | HMdmfs.

Definition service_handler (svc : Z) : handler :=
  if svc =? QMI_SERVICE_CONTROL then HNone
  else if svc =? QMI_SERVICE_DMS then HDms
  else if svc =? QMI_SERVICE_WDS then HWds
  else if svc =? QMI_SERVICE_VOICE then HVoice
  else if svc =? QMI_SERVICE_NAS then HNas
  else if svc =? QMI_SERVICE_PDC then HPdc
  else if svc =? QMI_SERVICE_IMS_SETTINGS then HIms
  else if svc =? QMI_SERVICE_MDMFS then HMdmfs
  else HNone.

Definition dispatch_incoming_qmi_message (c : internal_qmi_client) (buf : list Z)
  : cres (internal_qmi_client * handler) :=
  let* svc := get_qmux_service_id buf in
  let* tid := get_transaction_id buf in
  let* c := set_transaction_id_for_service c svc (tid + 1) in
  Ret (c, service_handler svc).

(** One turn of the reader loop of [init_internal_qmi_client]: send what is
    pending, then take the [buf_len] bytes read into [buf], if any. *)
Definition client_turn (c : internal_qmi_client) (input : option (list Z * Z))
  : cres (internal_qmi_client * port_trace * handler) :=
  let* '(c, out) :=
    (if is_internal_qmi_message_pending c =? 0 then Ret (c, [])
     else let* '(_, c, out) := send_pending_internal_qmi_messages c in Ret (c, out)) in
  match input with
  | None => Ret (c, out, HNone)
  | Some (buf, buf_len) =>
      if SZ_QMUX <? buf_len then
        let* svc := get_qmux_service_id buf in
        if svc =? 0 then
          if SZ_QMUX + SZ_CTL <? buf_len then
            let* '(_, c) := handle_incoming_qmi_control_message c buf buf_len in
            Ret (c, out, HNone)
          else Ret (c, out, HNone)
        else if SZ_QMUX + SZ_QMI <? buf_len then
          let* '(c, h) := dispatch_incoming_qmi_message c buf in
          Ret (c, out, h)
        else Ret (c, out, HNone)
      else Ret (c, out, HNone)
  end.
End Client.

(** * Specification of a send pass *)

(** A message for service [i] in the pool: packed headers for that service. *)
Definition is_request (i : Z) (m : list Z) : Prop :=
  exists qx qi body, m = enc_qmux qx ++ enc_qmi qi ++ body /\ service qx = i.

(** The packet with the client's instance and transaction stamped in. *)
Definition stamp (sb : qmi_service_bindings) (m : list Z) : list Z :=
  take 5 m ++ le 1 (sb_instance sb) ++ take 1 (drop 6 m) ++ le 2 (sb_transaction_id sb) ++ drop 9 m.

(** A binding after a pass, and what the pass writes for it. *)
Definition sent (i : Z) (sb : qmi_service_bindings) : qmi_service_bindings :=
  if (sb_has_pending_message sb =? 0) || (sb_is_initialized sb =? 0) then sb
  else if known_service i then set_pending (set_message sb None 0) 0
  else set_pending sb 0.
Definition emitted (i : Z) (sb : qmi_service_bindings) : port_trace :=
  if sb_has_pending_message sb =? 0 then []
  else if sb_is_initialized sb =? 0 then [client_alloc_request i]
  else if known_service i then
    match sb_message sb with Some m => [stamp sb m] | None => [] end
  else [].

Fixpoint sent_all (i : Z) (l : list qmi_service_bindings) : list qmi_service_bindings :=
  match l with [] => [] | sb :: l => sent i sb :: sent_all (i + 1) l end.
Fixpoint emitted_all (i : Z) (l : list qmi_service_bindings) : port_trace :=
  match l with [] => [] | sb :: l => emitted i sb ++ emitted_all (i + 1) l end.

Definition pendingb (sb : qmi_service_bindings) : bool := sb_has_pending_message sb =? 1.

(** * Invariant of the table *)

Definition binding_ok (i : Z) (sb : qmi_service_bindings) : Prop :=
  (sb_has_pending_message sb = 0 \/ sb_has_pending_message sb = 1) /\
  (sb_has_pending_message sb = 1 ->
     exists m, sb_message sb = Some m /\ is_request i m /\ sb_message_len sb = zlen m).

Record client_ok (c : internal_qmi_client) : Prop := {
  ok_size : zlen (qc_services c) = QMI_SERVICES_LAST;
  ok_bindings : forall i sb, rdA (qc_services c) i = Ret sb -> binding_ok i sb;
  ok_flag : forall i sb, rdA (qc_services c) i = Ret sb ->
              sb_has_pending_message sb = 1 -> qc_has_pending_message c <> 0
}.

(** * Lemmas *)

Lemma get_upd_binding c i sb f :
  rdA (qc_services c) i = Ret sb ->
  upd_binding c i f = Ret (set_services c (<[Z.to_nat i := f sb]> (qc_services c))).
Proof.
  intros H. unfold upd_binding. rewrite H. cbn [cbind].
  rewrite wrA_ok by (by eapply rdA_bounds). done.
Qed.

Lemma stamp_request sb qx qi body :
  stamp sb (enc_qmux qx ++ enc_qmi qi ++ body) =
  enc_qmux (Build_qmux_packet (version qx) (packet_length qx) (control qx) (service qx)
    (sb_instance sb)) ++
  enc_qmi (Build_qmi_packet (ctlid qi) (sb_transaction_id sb) (msgid qi) (qmi_length qi)) ++ body.
Proof. reflexivity. Qed.

Lemma prepare_spec c i sb m :
  byte_ok i -> rdA (qc_services c) i = Ret sb -> is_request i m ->
  prepare_internal_pkt c m = Ret (stamp sb m).
Proof.
  intros Hi Hsb (qx & qi & body & -> & Hs). unfold prepare_internal_pkt, get_binding.
  replace (rd (enc_qmux qx ++ enc_qmi qi ++ body) 4) with (@Ret Z i).
  2: { unfold enc_qmux. rdc. by rewrite Hs, byte_le1. }
  cbn [cbind]. rewrite Hsb. cbn [cbind].
  unfold enc_qmux, enc_qmi. cbn [app le]. rewrite !wrA_consS, !wrA_cons0 by lia. cbn [cbind].
  rdc. rewrite Hs, byte_le1 by done. fold (@rdA qmi_service_bindings (qc_services c) i).
  change (if i <? 0 then Oob else
    match qc_services c !! Z.to_nat i with Some x => Ret x | None => Oob end)
    with (rdA (qc_services c) i).
  rewrite Hsb. cbn [cbind]. unfold wr16, SZ_QMUX. wrc. unfold stamp, u8. cbn.
  done.
Qed.

Lemma rdn_all m : rdn m 0 (Z.to_nat (zlen m)) = Ret m.
Proof.
  pose proof (rdn_app [] m []) as H. cbn [app] in H. rewrite app_nil_r in H.
  unfold zlen in *. by rewrite Nat2Z.id.
Qed.

Lemma set_services_id c : set_services c (qc_services c) = c.
Proof. by destruct c. Qed.

Lemma insert_self {A} (l : list A) i x : rdA l i = Ret x -> <[Z.to_nat i := x]> l = l.
Proof. intros [_ H]%rdA_lookup. by apply list_insert_id. Qed.

Section SendPass.
Variable port_ret : list Z -> Z.

Lemma allocate_trace i : exists r, allocate_qmi_client port_ret i = Ret (r, [client_alloc_request i]).
Proof.
  unfold allocate_qmi_client, write_to_qmi_port.
  change (rdn (client_alloc_request i) 0 (Z.to_nat 16)) with (Ret (client_alloc_request i)).
  cbn [cbind]. destruct (_ <? 16); eauto.
Qed.

Lemma send_service_spec c i sb :
  byte_ok i -> rdA (qc_services c) i = Ret sb -> binding_ok i sb ->
  send_service port_ret c i =
    Ret (set_services c (<[Z.to_nat i := sent i sb]> (qc_services c)), emitted i sb).
Proof.
  intros Hi Hsb [Hp Hm]. unfold send_service, sent, emitted, get_binding. rewrite Hsb.
  cbn [cbind]. destruct (sb_has_pending_message sb =? 0) eqn:E0; b2p; cbn [orb].
  { by rewrite insert_self, set_services_id. }
  destruct (sb_is_initialized sb =? 0) eqn:E1.
  { destruct (allocate_trace i) as [r ->]. cbn [cbind].
    by rewrite insert_self, set_services_id. }
  destruct Hm as (m & Hmsg & Hreq & Hlen); [lia|].
  destruct (known_service i) eqn:Ek.
  - rewrite Hmsg, (prepare_spec c i sb m) by done. cbn [cbind].
    rewrite (get_upd_binding c i sb) by done. cbn [cbind].
    assert (Hz : zlen (stamp sb m) = zlen m).
    { destruct Hreq as (qx & qi & body & -> & _). rewrite stamp_request. by zl. }
    unfold write_to_qmi_port. rewrite Hlen, <- Hz, rdn_all. cbn [cbind].
    pose proof (rdA_bounds _ _ _ Hsb) as Hb.
    unfold clear_message_for_service, get_binding. cbn [qc_services set_services].
    replace (QMI_SERVICES_LAST <? i) with false
      by (symmetry; apply Z.ltb_ge; destruct Hi; unfold QMI_SERVICES_LAST; lia).
    rewrite rdA_insert, Z.eqb_refl by lia. cbn [cbind sb_message set_message].
    erewrite get_upd_binding by (cbn [qc_services set_services]; rewrite rdA_insert, Z.eqb_refl
      by lia; reflexivity).
    cbn [cbind qc_services set_services]. rewrite list_insert_insert.
    by rewrite decide_True by done.
  - by rewrite (get_upd_binding c i sb) by done.
Qed.

Lemma insert_middle {A} (pre : list A) x y rest :
  <[Z.to_nat (zlen pre) := y]> (pre ++ x :: rest) = pre ++ y :: rest.
Proof.
  unfold zlen. rewrite Nat2Z.id. rewrite insert_app_r_alt by lia.
  by rewrite Nat.sub_diag.
Qed.

Lemma send_loop_spec rest pre c :
  qc_services c = pre ++ rest -> zlen pre + zlen rest <= QMI_SERVICES_LAST ->
  (forall i sb, rdA (qc_services c) i = Ret sb -> zlen pre <= i -> binding_ok i sb) ->
  send_loop port_ret (length rest) c (zlen pre) =
    Ret (set_services c (pre ++ sent_all (zlen pre) rest), emitted_all (zlen pre) rest).
Proof.
  revert pre c; induction rest as [|sb rest IH]; intros pre c Hs Hl Hok.
  - cbn. rewrite app_nil_r in Hs. rewrite app_nil_r, <- Hs. by rewrite set_services_id.
  - cbn [length send_loop sent_all emitted_all].
    pose proof (zlen_nonneg pre). pose proof (zlen_nonneg rest).
    unfold QMI_SERVICES_LAST in *. zl.
    assert (Hsb : rdA (qc_services c) (zlen pre) = Ret sb) by (rewrite Hs; apply rdA_middle).
    rewrite (send_service_spec c (zlen pre) sb);
      [|unfold byte_ok; lia|done|apply Hok; [done|lia]].
    cbn [cbind]. rewrite Hs, insert_middle.
    specialize (IH (pre ++ [sent (zlen pre) sb])
      (set_services c (pre ++ sent (zlen pre) sb :: rest))).
    replace (zlen (pre ++ [sent (zlen pre) sb])) with (zlen pre + 1) in IH by (zl; lia).
    rewrite IH.
    + cbn [cbind]. by rewrite <- app_assoc.
    + cbn [qc_services set_services]. by rewrite <- app_assoc.
    + lia.
    + intros j sb' Hj Hge. cbn [qc_services set_services] in Hj. apply Hok; [|lia].
      rewrite Hs. revert Hj.
      rewrite !(rdA_app_r pre) by lia.
      change (?a :: rest) with ([a] ++ rest). rewrite !rdA_app_r by (zl; lia). done.
Qed.

Lemma still_pending_spec rest pre c :
  qc_services c = pre ++ rest ->
  still_pending (length rest) c (zlen pre) = Ret (existsb pendingb rest).
Proof.
  revert pre; induction rest as [|sb rest IH]; intros pre Hs; [done|].
  cbn [length still_pending existsb]. unfold get_binding. rewrite Hs, rdA_middle. cbn [cbind].
  specialize (IH (pre ++ [sb])).
  replace (zlen (pre ++ [sb])) with (zlen pre + 1) in IH by (zl; lia).
  rewrite IH by (by rewrite <- app_assoc). done.
Qed.

Lemma length_sent_all i l : length (sent_all i l) = length l.
Proof. revert i; induction l; intros; cbn; auto. Qed.

(** The pass, in closed form. *)
Definition after_pass (c : internal_qmi_client) : internal_qmi_client :=
  let c' := set_services c (sent_all 0 (qc_services c)) in
  if existsb pendingb (qc_services c') then c' else set_client_pending c' 0.

Lemma send_pass_spec c :
  client_ok c -> qc_has_pending_message c <> 0 ->
  send_pending_internal_qmi_messages port_ret c =
    Ret (0, after_pass c, emitted_all 0 (qc_services c)).
Proof.
  intros [Hsz Hb _] Hp. unfold send_pending_internal_qmi_messages.
  rewrite (proj2 (Z.eqb_neq _ 0) Hp).
  replace (Z.to_nat QMI_SERVICES_LAST) with (length (qc_services c)) by (rewrite <- Hsz; unfold zlen; lia).
  pose proof (send_loop_spec (qc_services c) [] c eq_refl) as L. change (zlen (@nil qmi_service_bindings)) with 0 in L.
  rewrite L by (auto; lia). cbn [cbind app].
  rewrite <- (length_sent_all 0 (qc_services c)).
  rewrite (still_pending_spec (sent_all 0 (qc_services c)) []) by done.
  cbn [cbind]. unfold after_pass. cbn [qc_services set_services].
  by destruct (existsb pendingb (sent_all 0 (qc_services c))).
Qed.
End SendPass.

Lemma rdA_sent_all l i j sb' :
  rdA (sent_all i l) j = Ret sb' -> exists sb, rdA l j = Ret sb /\ sb' = sent (i + j) sb.
Proof.
  revert i j; induction l as [|sb l IH]; intros i j Hr.
  - apply rdA_lookup in Hr as [_ Hr]. done.
  - pose proof (rdA_bounds _ _ _ Hr) as Hb.
    destruct (Z.eq_dec j 0) as [->|Hne].
    + change (Ret (sent i sb) = Ret sb') in Hr. injection Hr as <-.
      exists sb. split; [done|]. by rewrite Z.add_0_r.
    + cbn [sent_all] in Hr. change (sent i sb :: ?l') with ([sent i sb] ++ l') in Hr.
      rewrite rdA_app_r in Hr by (zl; lia).
      destruct (IH (i + 1) (j - 1)) as (sb0 & H0 & ->).
      { replace (j - 1) with (j - zlen [sent i sb]) by (zl; lia). done. }
      exists sb0. split; [|f_equal; lia].
      change (sb :: l) with ([sb] ++ l). rewrite rdA_app_r by (zl; lia).
      replace (j - zlen [sb]) with (j - 1) by (zl; lia). done.
Qed.

Lemma sent_ok i sb : binding_ok i sb -> binding_ok i (sent i sb).
Proof.
  intros [Hp Hm]. unfold sent. destruct (_ || _)%bool; [by split|].
  destruct (known_service i); split; cbn; auto; lia.
Qed.

Lemma existsb_pending c :
  existsb pendingb (qc_services c) = false <->
  forall i sb, rdA (qc_services c) i = Ret sb -> sb_has_pending_message sb <> 1.
Proof.
  split.
  - intros He i sb [_ Hr]%rdA_lookup Hp. apply not_true_iff_false in He. apply He.
    apply existsb_exists. exists sb. split; [apply list_elem_of_In; by eapply list_elem_of_lookup_2|].
    unfold pendingb. by apply Z.eqb_eq.
  - intros H. apply not_true_iff_false. intros (sb & Hin & Hp)%existsb_exists.
    unfold pendingb in Hp. b2p. apply list_elem_of_In, list_elem_of_lookup in Hin as [i Hi].
    apply (H (Z.of_nat i) sb); [|done]. apply rdA_lookup. rewrite Nat2Z.id. auto with lia.
Qed.

Lemma after_pass_ok c : client_ok c -> qc_has_pending_message c <> 0 -> client_ok (after_pass c).
Proof.
  intros [Hsz Hb Hf] Hp. unfold after_pass. cbn zeta.
  set (c' := set_services c (sent_all 0 (qc_services c))).
  assert (Hsz' : zlen (qc_services c') = QMI_SERVICES_LAST)
    by (rewrite <- Hsz; unfold zlen, c'; cbn; by rewrite length_sent_all).
  assert (Hb' : forall i sb, rdA (qc_services c') i = Ret sb -> binding_ok i sb).
  { intros i sb (sb0 & H0 & ->)%rdA_sent_all. apply sent_ok. auto. }
  destruct (existsb pendingb (qc_services c')) eqn:E.
  - split; auto.
  - split; cbn [qc_services set_client_pending]; auto.
    intros i sb Hr Hp1. by eapply (proj1 (existsb_pending c')) in E.
Qed.

(** An update of one binding keeps the invariant if the new binding does. *)
Lemma upd_ok c i sb sb' :
  client_ok c -> rdA (qc_services c) i = Ret sb -> binding_ok i sb' ->
  (sb_has_pending_message sb' = 1 -> qc_has_pending_message c <> 0) ->
  client_ok (set_services c (<[Z.to_nat i := sb']> (qc_services c))).
Proof.
  intros [Hsz Hb Hf] Hr Hok Hp. pose proof (rdA_bounds _ _ _ Hr) as Hi.
  split; cbn [qc_services set_services qc_has_pending_message].
  - by rewrite zlen_insert.
  - intros j sbj Hj. pose proof (rdA_bounds _ _ _ Hj) as Hjb.
    rewrite rdA_insert in Hj by lia. destruct (Z.eqb_spec i j); simplify_eq; auto.
  - intros j sbj Hj. pose proof (rdA_bounds _ _ _ Hj) as Hjb.
    rewrite rdA_insert in Hj by lia. destruct (Z.eqb_spec i j); simplify_eq; eauto.
Qed.

Lemma upd_binding_ok c i f c' :
  client_ok c -> upd_binding c i f = Ret c' ->
  (forall sb, binding_ok i sb -> binding_ok i (f sb)) ->
  (forall sb, sb_has_pending_message (f sb) = sb_has_pending_message sb) ->
  client_ok c'.
Proof.
  intros Hc Hu Hok Hp. destruct (rdA (qc_services c) i) as [sb| |] eqn:Hr.
  2-3: unfold upd_binding in Hu; rewrite Hr in Hu; discriminate.
  rewrite (get_upd_binding c i sb f Hr) in Hu. injection Hu as <-.
  eapply upd_ok; eauto.
  - apply Hok. by eapply ok_bindings.
  - rewrite Hp. by eapply ok_flag.
Qed.

Lemma set_flag_ok c : client_ok c -> client_ok (set_client_pending c 1).
Proof. intros [Hsz Hb Hf]. split; cbn; auto. Qed.

Lemma add_pending_ok obs svc buf r c :
  (forall k, client_ok (obs k)) -> is_request svc buf ->
  add_pending_message obs svc buf = Ret (r, c) -> client_ok c.
Proof.
  intros Hobs Hreq. unfold add_pending_message. csplit; [intros; simplify_eq; auto|].
  intros (k & _ & H)%cbind_Ret_inv. unfold get_binding in H.
  apply cbind_Ret_inv in H as (sb & Hr & H). destruct (_ =? 0); [|simplify_eq; auto].
  rewrite (get_upd_binding _ _ _ _ Hr) in H. cbn [cbind] in H. injection H as _ <-.
  change (set_client_pending (set_services ?c ?s) 1) with (set_services (set_client_pending c 1) s).
  change (qc_services (obs k)) with (qc_services (set_client_pending (obs k) 1)).
  eapply upd_ok; [by apply set_flag_ok|exact Hr| |done].
  split; [by right|]. intros _. exists buf. auto.
Qed.

Lemma set_tid_ok i t sb : binding_ok i sb -> binding_ok i (set_tid sb t).
Proof. by intros. Qed.

Lemma control_ok c buf n r c' :
  client_ok c -> handle_incoming_qmi_control_message c buf n = Ret (r, c') -> client_ok c'.
Proof.
  intros Hc. unfold handle_incoming_qmi_control_message.
  intros (id & _ & H)%cbind_Ret_inv. destruct (_ =? _) in H; [|simplify_eq; done].
  destruct (_ <=? _) in H.
  - apply cbind_Ret_inv in H as (x & _ & H). apply cbind_Ret_inv in H as (y & _ & H).
    destruct (_ && _)%bool in H; [|simplify_eq; done].
    apply cbind_Ret_inv in H as (s & _ & H). apply cbind_Ret_inv in H as (i & _ & H).
    apply cbind_Ret_inv in H as (t & _ & H). apply cbind_Ret_inv in H as (c1 & Hu & H).
    simplify_eq. eapply upd_binding_ok; eauto.
  - apply cbind_Ret_inv in H as (c1 & Hu & H). simplify_eq. eapply upd_binding_ok; eauto.
Qed.

Lemma dispatch_ok c buf c' h :
  client_ok c -> dispatch_incoming_qmi_message c buf = Ret (c', h) -> client_ok c'.
Proof.
  intros Hc. unfold dispatch_incoming_qmi_message, set_transaction_id_for_service.
  intros (s & _ & H)%cbind_Ret_inv. apply cbind_Ret_inv in H as (t & _ & H).
  apply cbind_Ret_inv in H as (c1 & Hu & H). simplify_eq.
  destruct (_ <? _) in Hu; [by simplify_eq|]. eapply upd_binding_ok; eauto.
Qed.

Lemma client_turn_ok port_ret c input c' out h :
  client_ok c -> client_turn port_ret c input = Ret (c', out, h) -> client_ok c'.
Proof.
  intros Hc. unfold client_turn, is_internal_qmi_message_pending.
  intros ([c1 o1] & H1 & H)%cbind_Ret_inv.
  assert (Hc1 : client_ok c1).
  { destruct (qc_has_pending_message c =? 0) eqn:E; cbn in H1; [by simplify_eq|]. b2p.
    rewrite send_pass_spec in H1 by done. cbn [cbind] in H1. simplify_eq.
    by apply after_pass_ok. }
  clear H1. destruct input as [[buf n]|]; [|by simplify_eq].
  destruct (_ <? _) in H; [|by simplify_eq].
  apply cbind_Ret_inv in H as (s & _ & H). destruct (s =? 0).
  - destruct (_ <? _) in H; [|by simplify_eq].
    apply cbind_Ret_inv in H as ([r c2] & H2 & H). simplify_eq. by eapply control_ok.
  - destruct (_ <? _) in H; [|by simplify_eq].
    apply cbind_Ret_inv in H as ([c2 h2] & H2 & H). simplify_eq. by eapply dispatch_ok.
Qed.

Lemma client0_ok : client_ok client0.
Proof.
  assert (Hall : forall i sb, rdA (qc_services client0) i = Ret sb -> sb = binding0).
  { intros i sb [_ H]%rdA_lookup. cbn [qc_services client0] in H.
    by apply lookup_replicate_1 in H as [-> _]. }
  split; [reflexivity| |].
  - intros i sb ->%Hall. split; [by left|done].
  - intros i sb ->%Hall. done.
Qed.

(** * Reachable tables

    Turns of the reader thread and [add_pending_message] calls of the service
    clients, in any order; an [add_pending_message] call sleeps, so each
    second it may see another reachable table. *)
Inductive reachable : internal_qmi_client -> Prop :=
| reach_init : reachable client0
| reach_turn port_ret c input c' out h :
    reachable c -> client_turn port_ret c input = Ret (c', out, h) -> reachable c'
| reach_add obs svc buf r c' :
    (forall k, reachable (obs k)) -> is_request svc buf ->
    add_pending_message obs svc buf = Ret (r, c') -> reachable c'.

(** In every reachable table, a raised flag belongs to a stored message
    for that very service whose recorded length is its size, the table has
    its 255 entries, and the client's global flag is up while any service's
    is. *)
Theorem reachable_client_ok c : reachable c -> client_ok c.
Proof.
  induction 1 as [| port_ret c input c' out h _ IH Ht | obs svc buf r c' _ IH Hr Ha].
  - apply client0_ok.
  - by eapply client_turn_ok.
  - by eapply add_pending_ok.
Qed.

Definition sample_request : list Z :=
  enc_qmux (Build_qmux_packet 1 16 0 2 0) ++ enc_qmi (Build_qmi_packet 0 0 0x20 4) ++
  enc_tlv (Build_tlv 1 [7]).

Definition sample_pending : internal_qmi_client :=
  match add_pending_message (fun _ => client0) QMI_SERVICE_DMS sample_request with
  | Ret (_, c) => c | _ => client0 end.

Lemma sample_request_ok : is_request QMI_SERVICE_DMS sample_request.
Proof. eexists _, _, _. split; reflexivity. Qed.

Lemma reachable_client_ok_witness : client_ok sample_pending.
Proof.
  apply reachable_client_ok.
  apply (reach_add (fun _ => client0) QMI_SERVICE_DMS sample_request 0).
  - intros _. exact reach_init.
  - exact sample_request_ok.
  - vm_compute. reflexivity.
Defined.

(** A send pass over a table that satisfies the invariant never faults.
    It writes, in service order, one allocation request for each pending
    service without a client and the stamped packet of each pending service
    with a client; afterwards every service with a client has no message
    pending, the services without one are unchanged, and the global flag is
    down exactly when no service is pending. *)
Theorem send_pending_correct port_ret c :
  client_ok c -> qc_has_pending_message c <> 0 ->
  exists c',
    send_pending_internal_qmi_messages port_ret c = Ret (0, c', emitted_all 0 (qc_services c)) /\
    client_ok c' /\
    (forall i sb, rdA (qc_services c) i = Ret sb -> exists sb',
       rdA (qc_services c') i = Ret sb' /\
       (sb_is_initialized sb = 0 -> sb' = sb) /\
       (sb_is_initialized sb <> 0 -> sb_has_pending_message sb' = 0)) /\
    (qc_has_pending_message c' = 0 <->
       forall i sb, rdA (qc_services c') i = Ret sb -> sb_has_pending_message sb = 0).
Proof.
  intros Hc Hp. exists (after_pass c). pose proof (after_pass_ok c Hc Hp) as Hok.
  split; [by apply send_pass_spec|]. split; [done|].
  assert (Hs : qc_services (after_pass c) = sent_all 0 (qc_services c))
    by (unfold after_pass; cbn zeta; by destruct (existsb _ _)).
  split.
  - intros i sb Hr. rewrite Hs. pose proof (rdA_bounds _ _ _ Hr) as Hb.
    destruct (rdA_in (sent_all 0 (qc_services c)) i) as [sb' Hr'].
    { unfold zlen in *. by rewrite length_sent_all. }
    exists sb'. split; [done|]. apply rdA_sent_all in Hr' as (sb0 & H0 & ->).
    rewrite Hr in H0. injection H0 as <-. unfold sent. split.
    + intros ->. by rewrite orb_true_r.
    + intros Hi. rewrite (proj2 (Z.eqb_neq _ 0) Hi), orb_false_r.
      destruct (sb_has_pending_message sb =? 0) eqn:E; b2p; [done|].
      by destruct (known_service (0 + i)).
  - split.
    + intros Hz i sb Hr. destruct (ok_bindings _ Hok _ _ Hr) as [[?|Hp1] _]; [done|].
      by destruct (ok_flag _ Hok _ _ Hr Hp1).
    + intros Hall. unfold after_pass. cbn zeta.
      destruct (existsb _ _) eqn:E; [|done].
      exfalso. apply not_false_iff_true in E. apply E, existsb_pending.
      intros i sb Hr. cbn [qc_services set_services] in Hr.
      rewrite <- Hs in Hr. rewrite (Hall i sb Hr). done.
Qed.

Lemma send_pending_correct_witness :
  exists c', send_pending_internal_qmi_messages (fun b => zlen b) sample_pending =
    Ret (0, c', [client_alloc_request QMI_SERVICE_DMS]).
Proof.
  destruct (send_pending_correct (fun b => zlen b) sample_pending) as (c' & H & _).
  - apply (add_pending_ok (fun _ => client0) QMI_SERVICE_DMS sample_request 0).
    + intros _. exact client0_ok.
    + exact sample_request_ok.
    + vm_compute. reflexivity.
  - vm_compute. congruence.
  - exists c'. exact H.
Defined.

Lemma emitted_all_app i l1 l2 :
  emitted_all i (l1 ++ l2) = emitted_all i l1 ++ emitted_all (i + zlen l1) l2.
Proof.
  revert i; induction l1 as [|sb l1 IH]; intros i.
  - cbn. by rewrite Z.add_0_r.
  - cbn [app emitted_all]. rewrite IH, <- app_assoc. zl. do 3 f_equal. lia.
Qed.

Lemma add_pending_free c i sb buf :
  i <= QMI_SERVICES_LAST -> rdA (qc_services c) i = Ret sb -> sb_has_pending_message sb = 0 ->
  add_pending_message (fun _ => c) i buf =
    Ret (0, set_client_pending (set_services c (<[Z.to_nat i :=
      set_pending (set_message sb (Some buf) (zlen buf)) 1]> (qc_services c))) 1).
Proof.
  intros Hi Hr Hp. unfold add_pending_message. ifdec. cbn [wait_slot]. unfold get_binding.
  rewrite ?Hr. cbn [cbind]. rewrite ?Hp. cbn [Z.eqb cbind]. rewrite ?Hr. cbn [cbind].
  rewrite ?Hp. cbn [Z.eqb]. by rewrite (get_upd_binding c i sb) by done.
Qed.

(** C6: delivery. A message queued for a service that has a client and no
    message pending is accepted at once, and the next send pass writes it
    exactly once to the port, with the client's instance and transaction
    identifiers stamped into its headers and every other byte as queued; the
    slot is free again afterwards. *)
Theorem queued_message_is_delivered port_ret c i sb qx qi body :
  client_ok c -> rdA (qc_services c) i = Ret sb -> known_service i = true ->
  sb_is_initialized sb <> 0 -> sb_has_pending_message sb = 0 -> service qx = i ->
  exists c1 c2 before after sb2,
    add_pending_message (fun _ => c) i (enc_qmux qx ++ enc_qmi qi ++ body) = Ret (0, c1) /\
    send_pending_internal_qmi_messages port_ret c1 =
      Ret (0, c2, before ++
        [enc_qmux (Build_qmux_packet (version qx) (packet_length qx) (control qx) (service qx)
           (sb_instance sb)) ++
         enc_qmi (Build_qmi_packet (ctlid qi) (sb_transaction_id sb) (msgid qi) (qmi_length qi)) ++
         body] ++ after) /\
    before = emitted_all 0 (take (Z.to_nat i) (qc_services c)) /\
    after = emitted_all (i + 1) (drop (S (Z.to_nat i)) (qc_services c)) /\
    rdA (qc_services c2) i = Ret sb2 /\
    sb_has_pending_message sb2 = 0 /\ sb_message sb2 = None.
Proof.
  intros Hc Hr Hk Hin Hp Hs. pose proof (rdA_bounds _ _ _ Hr) as Hb.
  set (m := enc_qmux qx ++ enc_qmi qi ++ body).
  set (sb1 := set_pending (set_message sb (Some m) (zlen m)) 1).
  set (c1 := set_client_pending (set_services c (<[Z.to_nat i := sb1]> (qc_services c))) 1).
  assert (Hadd : add_pending_message (fun _ => c) i m = Ret (0, c1)).
  { apply add_pending_free; auto. pose proof (ok_size _ Hc). lia. }
  assert (Hc1 : client_ok c1).
  { eapply (add_pending_ok (fun _ => c)); eauto. by exists qx, qi, body. }
  assert (Hl : qc_services c1 = take (Z.to_nat i) (qc_services c) ++ sb1 ::
                                drop (S (Z.to_nat i)) (qc_services c)).
  { cbn. apply insert_take_drop. unfold zlen in Hb. lia. }
  assert (Ht : zlen (take (Z.to_nat i) (qc_services c)) = i).
  { unfold zlen in *. rewrite length_take. lia. }
  assert (Hsent : sent i sb1 = set_pending (set_message sb1 None 0) 0).
  { unfold sent, sb1. cbn. by rewrite (proj2 (Z.eqb_neq _ 0) Hin), Hk. }
  assert (Hr1 : rdA (qc_services c1) i = Ret sb1).
  { cbn. by rewrite rdA_insert, Z.eqb_refl by lia. }
  exists c1, (after_pass c1), (emitted_all 0 (take (Z.to_nat i) (qc_services c))),
    (emitted_all (i + 1) (drop (S (Z.to_nat i)) (qc_services c))), (sent i sb1).
  split; [done|]. split.
  { rewrite send_pass_spec by done.
    assert (He : emitted i sb1 = [stamp sb m]).
    { unfold emitted, sb1. cbn [set_pending set_message sb_has_pending_message sb_is_initialized
        sb_message Z.eqb]. by rewrite (proj2 (Z.eqb_neq _ 0) Hin), Hk. }
    rewrite Hl, emitted_all_app. cbn [emitted_all]. rewrite Ht, Z.add_0_l, He.
    unfold m. by rewrite stamp_request. }
  do 2 (split; [done|]). rewrite Hsent. split; [|done].
  assert (Hs2 : qc_services (after_pass c1) = sent_all 0 (qc_services c1))
    by (unfold after_pass; cbn zeta; by destruct (existsb _ _)).
  rewrite Hs2. destruct (rdA_in (sent_all 0 (qc_services c1)) i) as [sb' Hr'].
  { unfold zlen in *. rewrite length_sent_all. cbn. rewrite length_insert. lia. }
  rewrite Hr'. apply rdA_sent_all in Hr' as (sb0 & H0 & ->).
  rewrite Hr1 in H0. injection H0 as <-. by rewrite Z.add_0_l, Hsent.
Qed.

(** A table whose DMS client is allocated. *)
Definition sample_ready : internal_qmi_client :=
  match upd_binding client0 QMI_SERVICE_DMS
          (fun _ => Build_qmi_service_bindings 2 0x0b 1 0 None 0 0x31) with
  | Ret c => c | _ => client0 end.

Lemma sample_ready_ok : client_ok sample_ready.
Proof.
  apply (upd_ok client0 QMI_SERVICE_DMS binding0); [exact client0_ok|reflexivity| |done].
  split; [by left|done].
Qed.

Lemma queued_message_is_delivered_witness :
  exists c1 c2 before after,
    add_pending_message (fun _ => sample_ready) QMI_SERVICE_DMS sample_request = Ret (0, c1) /\
    send_pending_internal_qmi_messages (fun _ => 0) c1 =
      Ret (0, c2, before ++
        [enc_qmux (Build_qmux_packet 1 16 0 2 0x0b) ++ enc_qmi (Build_qmi_packet 0 0x31 0x20 4) ++
         enc_tlv (Build_tlv 1 [7])] ++ after).
Proof.
  destruct (queued_message_is_delivered (fun _ => 0) sample_ready QMI_SERVICE_DMS
    (Build_qmi_service_bindings 2 0x0b 1 0 None 0 0x31)
    (Build_qmux_packet 1 16 0 2 0) (Build_qmi_packet 0 0 0x20 4) (enc_tlv (Build_tlv 1 [7]))
    sample_ready_ok eq_refl eq_refl ltac:(cbn; lia) eq_refl eq_refl)
    as (c1 & c2 & before & after & sb2 & H1 & H2 & _).
  exists c1, c2, before, after. split; [exact H1|exact H2].
Defined.

(** The table has 255 entries, but the guards of its users let service
    255 through: queueing a message for it, clearing it and receiving a
    packet from it all index past the end of the table. *)
Theorem service_255_out_of_bounds c buf msg t :
  client_ok c -> get_qmux_service_id buf = Ret 255 -> get_transaction_id buf = Ret t ->
  dispatch_incoming_qmi_message c buf = Oob /\
  add_pending_message (fun _ => c) 255 msg = Oob /\
  clear_message_for_service c 255 = Oob.
Proof.
  intros Hc Hs Ht. pose proof (ok_size _ Hc) as Hz.
  assert (Ho : rdA (qc_services c) 255 = Oob) by (apply rdA_out; rewrite Hz; done).
  unfold dispatch_incoming_qmi_message, set_transaction_id_for_service, add_pending_message,
    clear_message_for_service, upd_binding. cbn [wait_slot]. unfold get_binding.
  rewrite Hs, Ht. cbn [cbind]. rewrite Ho. done.
Qed.

Lemma service_255_out_of_bounds_witness :
  add_pending_message (fun _ => client0) 255 [] = Oob.
Proof.
  exact (proj1 (proj2 (service_255_out_of_bounds client0 [1; 0; 0; 0; 255; 0; 0; 1; 0] [] 1
    client0_ok eq_refl eq_refl))).
Defined.

Lemma wait_slot_busy obs svc n k :
  (forall j, (k <= j <= k + n)%nat -> exists sb,
     rdA (qc_services (obs j)) svc = Ret sb /\ sb_has_pending_message sb <> 0) ->
  wait_slot n obs k svc = Ret (k + n)%nat.
Proof.
  revert k; induction n as [|n IH]; intros k Hb;
    (destruct (Hb k ltac:(lia)) as (sb & Hr & Hp)); cbn [wait_slot]; unfold get_binding;
    rewrite Hr; cbn [cbind].
  - f_equal. lia.
  - rewrite (proj2 (Z.eqb_neq _ 0) Hp), IH; [f_equal; lia|]. intros j Hj. apply Hb. lia.
Qed.

(** While a service keeps its message pending for 25 seconds,
    [add_pending_message] gives up with -EINVAL and leaves the table as it
    finds it, so no queued message is ever overwritten. *)
Theorem add_pending_message_busy obs svc buf :
  svc <= QMI_SERVICES_LAST ->
  (forall k, (k <= 25)%nat -> exists sb,
     rdA (qc_services (obs k)) svc = Ret sb /\ sb_has_pending_message sb <> 0) ->
  add_pending_message obs svc buf = Ret (- EINVAL, obs 25%nat).
Proof.
  intros Hs Hb. unfold add_pending_message. ifdec.
  rewrite wait_slot_busy by (intros; apply Hb; lia). cbn [cbind Nat.add].
  destruct (Hb 25%nat) as (sb & Hr & Hp); [lia|]. unfold get_binding. rewrite Hr. cbn [cbind].
  by rewrite (proj2 (Z.eqb_neq _ 0) Hp).
Qed.

Lemma add_pending_message_busy_witness :
  add_pending_message (fun _ => sample_pending) QMI_SERVICE_DMS [1; 2; 3] =
    Ret (- EINVAL, sample_pending).
Proof.
  apply add_pending_message_busy; [vm_compute; congruence|].
  intros k _. eexists. split; [reflexivity|vm_compute; congruence].
Defined.
