(* ===== verification/Requests.v ===== *)
(** The requests the service clients queue for the baseband (src/nas_client.c,
    src/dms_client.c, src/wds_client.c and their kin): a packet of the size the
    client computes, its two headers, its fields, and add_pending_message, which
    is an action of the client's own type. *)

From stdpp Require Import base list numbers option.
From Stdlib Require Import ZArith Lia.
From S2P Require Import Prelude Eff Qmi QmiClient.

(** The headers of a request in a fresh packet; a header that does not fit ends
    the request. *)
Definition start_request (svc pkt_len msgid : Z) : cres (option (list Z)) :=
  let* '(r, pkt) := build_qmux_header (replicate (Z.to_nat pkt_len) 0) pkt_len 0x00 svc 0 in
  if r <? 0 then Ret None
  else
    let* '(r, pkt) := build_qmi_header pkt pkt_len 0 0 msgid in
    Ret (if r <? 0 then None else Some pkt).
(** One 8-bit field after the other. *)
Fixpoint add_u8_tlvs (ids : list Z) (pkt : list Z) (pkt_len curr_offset : Z) : cres (option (list Z)) :=
  match ids with
  | [] => Ret (Some pkt)
  | id :: ids =>
      let* '(r, pkt) := build_u8_tlv pkt pkt_len curr_offset id 1 in
      if r <? 0 then Ret None else add_u8_tlvs ids pkt pkt_len (curr_offset + SZ_U8_TLV)
  end.

(** A field the client lays into the packet itself. *)
Definition put_field (pkt : list Z) (offset id : Z) (value : list Z) : cres (list Z) :=
  wrn pkt offset (id :: le 2 (zlen value) ++ value).
(** ... and several of them. *)
Fixpoint lay (fields : list tlv) (pkt : list Z) (offset : Z) : cres (list Z) :=
  match fields with
  | [] => Ret pkt
  | f :: fields =>
      let* pkt := put_field pkt offset (t_id f) (t_val f) in
      lay fields pkt (offset + 3 + zlen (t_val f))
  end.

Section Queue.
Context {S E : Type} (pending : Z -> list Z -> E) (svc : Z).

Definition queue_request (pkt : option (list Z)) : M S E Z :=
  match pkt with
  | None => ret (- EINVAL)
  | Some pkt => emit (pending svc pkt) ;> ret 0
  end.
Definition plain_request (msgid : Z) : M S E Z :=
  do* pkt := lift (start_request svc SZ_ENCAP msgid) in queue_request pkt.
(** A request with 8-bit fields of value 1 in a packet with room for [n]. *)
Definition u8_request (n msgid : Z) (ids : list Z) : M S E Z :=
  let pkt_len := SZ_ENCAP + n * SZ_U8_TLV in
  do* pkt := lift (start_request svc pkt_len msgid) in
  match pkt with
  | None => ret (- EINVAL)
  | Some pkt =>
      do* pkt := lift (add_u8_tlvs ids pkt pkt_len SZ_ENCAP) in
      queue_request pkt
  end.
End Queue.

(** * Lemmas *)

Lemma start_request_run svc n msgid :
  SZ_ENCAP <= n -> byte_ok svc ->
  start_request svc n msgid =
  Ret (Some (enc_qmux (Build_qmux_packet 1 (n - 1) 0 svc 0) ++
             enc_qmi (Build_qmi_packet 0 0 msgid (n - SZ_ENCAP)) ++ replicate (Z.to_nat (n - SZ_ENCAP)) 0)).
Proof.
  intros Hn Hs. unfold SZ_ENCAP, SZ_QMUX, SZ_QMI in *. unfold start_request.
  rewrite build_qmux_header_spec by (zl; unfold SZ_QMUX; lia). cbn [cbind].
  change (0 <? 0) with false. cbn match. rewrite drop_replicate.
  rewrite build_qmi_header_spec; [|done|rewrite zlen_app, enc_qmux_len; zl; unfold SZ_QMUX; lia|unfold SZ_QMUX, SZ_QMI; lia].
  cbn [cbind]. change (0 <? 0) with false. cbn match. rewrite drop_replicate.
  replace (Z.to_nat n - 6 - 7)%nat with (Z.to_nat (n - (6 + 7))) by lia.
  unfold SZ_QMUX, SZ_QMI. by replace (n - 6 - 7) with (n - (6 + 7)) by lia.
Qed.

Lemma enc_tlv_put f : t_id f :: le 2 (zlen (t_val f)) ++ t_val f = enc_tlv f.
Proof. done. Qed.
(** Fields that fit are laid one after the other; fields that do not leave the
    packet. *)
Lemma lay_run fields h o :
  zlen (enc_tlvs fields) <= zlen o ->
  lay fields (h ++ o) (zlen h) = Ret (h ++ enc_tlvs fields ++ drop (length (enc_tlvs fields)) o).
Proof.
  revert h o. induction fields as [|f fields IH]; intros h o Ho; cbn [lay].
  { by rewrite drop_0. }
  rewrite enc_tlvs_cons, zlen_app in Ho. pose proof (zlen_nonneg (enc_tlvs fields)).
  unfold put_field. rewrite enc_tlv_put.
  rewrite <- (take_drop (length (enc_tlv f)) o) at 1.
  rewrite wrn_app by (rewrite length_take; unfold zlen in *; lia). cbn [cbind].
  rewrite app_assoc. replace (zlen h + 3 + zlen (t_val f)) with (zlen (h ++ enc_tlv f))
    by (rewrite zlen_app, enc_tlv_len; lia).
  rewrite IH by (unfold zlen in *; rewrite length_drop; lia).
  rewrite enc_tlvs_cons, drop_drop, length_app, <- !app_assoc. done.
Qed.
Lemma lay_overflow fields h o :
  zlen o < zlen (enc_tlvs fields) -> lay fields (h ++ o) (zlen h) = Oob.
Proof.
  revert h o. induction fields as [|f fields IH]; intros h o Ho; cbn [lay].
  { change (zlen (enc_tlvs [])) with 0 in Ho. pose proof (zlen_nonneg o). lia. }
  rewrite enc_tlvs_cons, zlen_app in Ho. unfold put_field. rewrite enc_tlv_put.
  destruct (decide (zlen (enc_tlv f) <= zlen o)) as [Hle|Hgt].
  - rewrite <- (take_drop (length (enc_tlv f)) o) at 1.
    rewrite wrn_app by (rewrite length_take; unfold zlen in *; lia). cbn [cbind].
    rewrite app_assoc. replace (zlen h + 3 + zlen (t_val f)) with (zlen (h ++ enc_tlv f))
      by (rewrite zlen_app, enc_tlv_len; lia).
    apply IH. unfold zlen in *. rewrite length_drop. lia.
  - pose proof (zlen_nonneg h). pose proof (zlen_nonneg o). rewrite wrn_overflow; [done|rewrite zlen_app; lia..].
Qed.
Lemma add_u8_tlvs_run ids h o len :
  zlen (h ++ o) = len -> 4 * zlen ids <= zlen o -> Forall byte_ok ids ->
  add_u8_tlvs ids (h ++ o) len (zlen h) =
  Ret (Some (h ++ enc_tlvs (map (fun id => Build_tlv id [1]) ids) ++ drop (4 * length ids) o)).
Proof.
  intros Hl Ho Hb. revert h o Hl Ho. induction Hb as [|id ids Hid _ IH]; intros h o Hl Ho; cbn [add_u8_tlvs map].
  { by rewrite drop_0. }
  zl. pose proof (zlen_nonneg ids).
  rewrite build_u8_tlv_spec by (zl; unfold SZ_U8_TLV; lia). cbn [cbind].
  change (0 <? 0) with false. cbn match. rewrite u8_small by done. change (u8 1) with 1.
  rewrite app_assoc. replace (zlen h + SZ_U8_TLV) with (zlen (h ++ enc_tlv (Build_tlv id [1])))
    by (rewrite zlen_app, enc_tlv_len; cbn [t_val]; zl; unfold SZ_U8_TLV; lia).
  assert (Hd : zlen (drop 4 o) = zlen o - 4) by (unfold zlen in *; rewrite length_drop; lia).
  rewrite IH; [|rewrite !zlen_app, enc_tlv_len, Hd; cbn [t_val]; zl; lia|lia].
  rewrite enc_tlvs_cons, drop_drop, <- !app_assoc. cbn [length]. by replace (4 * S (length ids))%nat with (4 + 4 * length ids)%nat by lia.
Qed.

(** ** Queued requests *)

(** The packet of [n] bytes that starts with the headers of a request. *)
Definition request_of (svc n msgid : Z) (body : list Z) : list Z :=
  enc_qmux (Build_qmux_packet 1 (n - 1) 0 svc 0) ++ enc_qmi (Build_qmi_packet 0 0 msgid (n - SZ_ENCAP)) ++ body.
Lemma request_of_ok svc n msgid body : is_request svc (request_of svc n msgid body).
Proof. by eexists _, _, body. Qed.

Section Queued.
Context {S E : Type} (pending : Z -> list Z -> E) (svc : Z) (Hsvc : byte_ok svc).

Lemma start_bind {A} n msgid (k : _ -> M S E A) s :
  SZ_ENCAP <= n ->
  bind (lift (start_request svc n msgid)) k s =
  k (Some (request_of svc n msgid (replicate (Z.to_nat (n - SZ_ENCAP)) 0))) s.
Proof using Hsvc. intros Hn. apply bind_lift. by rewrite start_request_run. Qed.
Lemma plain_request_run msgid (s : S) :
  (plain_request pending svc msgid : M S E Z) s = Ret (0, s, [pending svc (request_of svc SZ_ENCAP msgid [])]).
Proof using Hsvc. unfold plain_request. by rewrite start_bind by done. Qed.
Lemma u8_request_run n msgid ids (s : S) :
  zlen ids <= n -> Forall byte_ok ids ->
  (u8_request pending svc n msgid ids : M S E Z) s =
  Ret (0, s, [pending svc (request_of svc (SZ_ENCAP + n * SZ_U8_TLV) msgid
    (enc_tlvs (map (fun id => Build_tlv id [1]) ids) ++ replicate (Z.to_nat (4 * (n - zlen ids))) 0))]).
Proof using Hsvc.
  intros Hn Hi. pose proof (zlen_nonneg ids). unfold u8_request. cbv zeta. unfold SZ_U8_TLV.
  rewrite start_bind by lia. unfold request_of. rewrite app_assoc.
  set (h := enc_qmux _ ++ _).
  assert (Hh : zlen h = SZ_ENCAP) by (unfold h; by rewrite zlen_app, enc_qmux_len, enc_qmi_len).
  pose proof (add_u8_tlvs_run ids h (replicate (Z.to_nat (SZ_ENCAP + n * 4 - SZ_ENCAP)) 0) (SZ_ENCAP + n * 4)
    ltac:(zl; lia) ltac:(zl; lia) Hi) as Hr.
  rewrite Hh in Hr. rewrite (bind_lift _ _ _ _ Hr).
  unfold queue_request. autorewrite with eff. unfold ret. rewrite after_Ret, app_nil_r.
  rewrite drop_replicate. unfold h. rewrite <- app_assoc. do 9 f_equal. unfold zlen. lia.
Qed.

Context (P : E -> Prop) (HP : forall pkt, is_request svc pkt -> P (pending svc pkt)).

Lemma emits_plain msgid : emits P (plain_request pending svc msgid : M S E Z).
Proof using Hsvc HP.
  intros s a s' t. rewrite plain_request_run. intros [= <- <- <-]. repeat constructor. apply HP, request_of_ok.
Qed.
Lemma emits_u8 n msgid ids :
  zlen ids <= n -> Forall byte_ok ids -> emits P (u8_request pending svc n msgid ids : M S E Z).
Proof using Hsvc HP.
  intros Hn Hi s a s' t. rewrite u8_request_run by done. intros [= <- <- <-]. repeat constructor.
  apply HP, request_of_ok.
Qed.
End Queued.

(** ** Reading a field back *)

(** A reader of the message finds [f] by its identifier and reads its value. *)
Definition has_field (buf : list Z) (len : Z) (f : tlv) : Prop :=
  exists off, get_tlv_offset_by_id buf len (t_id f) = Ret off /\ 0 < off /\
    rd16 buf (off + 1) = Ret (zlen (t_val f)) /\
    rdn buf (off + 3) (length (t_val f)) = Ret (t_val f).

Lemma enc_tlv_read pre f rest :
  zlen (t_val f) < 65536 ->
  rd16 (pre ++ enc_tlv f ++ rest) (zlen pre + 1) = Ret (zlen (t_val f)) /\
  rdn (pre ++ enc_tlv f ++ rest) (zlen pre + 3) (length (t_val f)) = Ret (t_val f).
Proof.
  intros Hf. pose proof (zlen_nonneg (t_val f)). rewrite rd16_shift by lia. split.
  { unfold enc_tlv. rdc. by rewrite word_le2 by lia. }
  rewrite rdn_shift by lia. pose proof (rdn_app (t_id f :: le 2 (zlen (t_val f))) (t_val f) rest) as H1.
  change (zlen (t_id f :: le 2 (zlen (t_val f)))) with 3 in H1. rewrite <- H1. by f_equal.
Qed.
Lemma fields_readable hdr ts slack :
  zlen hdr = SZ_ENCAP -> Forall tlv_ok ts -> NoDup (map t_id ts) ->
  SZ_ENCAP + 4 <= zlen (hdr ++ enc_tlvs ts) < 65536 ->
  Forall (has_field (hdr ++ enc_tlvs ts ++ slack) (zlen (hdr ++ enc_tlvs ts))) ts.
Proof.
  intros Hh Hok Hnd Hlen. apply list.Forall_forall. intros f Hf.
  pose proof (proj1 (list.Forall_forall _ _) Hok f Hf) as [_ Hfv].
  destruct (list_elem_of_split _ _ Hf) as (ts1 & ts2 & ->).
  rewrite map_app in Hnd. cbn [map] in Hnd. apply list.NoDup_app in Hnd as (_ & Hnd & _).
  exists (zlen (hdr ++ enc_tlvs ts1)).
  rewrite lookup_spec by (done || lia). rewrite tlv_find_first.
  2: { apply list.Forall_forall. intros g Hg Hid. apply (Hnd (t_id g)); [by apply list_elem_of_fmap_2|].
       rewrite Hid. by left. }
  cbn [default]. unfold id. rewrite <- Hh, <- zlen_app. split; [done|].
  rewrite enc_tlvs_app, enc_tlvs_cons, <- !app_assoc, (app_assoc hdr).
  split; [rewrite zlen_app, Hh; pose proof (zlen_nonneg (enc_tlvs ts1)); unfold SZ_ENCAP, SZ_QMUX, SZ_QMI; lia|].
  by apply enc_tlv_read.
Qed.

(** * Messages of the baseband *)

(** A message of a service: its headers, its fields, and what follows it
    in the receive buffer. *)
Record answer := { a_qmux : qmux_packet; a_qmi : qmi_packet; a_fields : list tlv; a_slack : list Z }.
Definition a_head (m : answer) : list Z := enc_qmux (a_qmux m) ++ enc_qmi (a_qmi m).
Definition a_bytes (m : answer) : list Z := a_head m ++ enc_tlvs (a_fields m) ++ a_slack m.
Definition a_len (m : answer) : Z := zlen (a_head m ++ enc_tlvs (a_fields m)).
Definition answer_ok (m : answer) : Prop :=
  wf_qmux (a_qmux m) /\ wf_qmi (a_qmi m) /\ Forall tlv_ok (a_fields m) /\ SZ_ENCAP + 4 <= a_len m < 65536.

Section Answer.
Context (m : answer) (Hm : answer_ok m).

Lemma a_head_len : zlen (a_head m) = SZ_ENCAP.
Proof. unfold a_head. by rewrite zlen_app, enc_qmux_len, enc_qmi_len. Qed.
Lemma a_id : get_qmi_message_id (a_bytes m) = Ret (msgid (a_qmi m)).
Proof using Hm.
  destruct Hm as (Hx & Hi & _). unfold a_bytes, a_head. rewrite <- app_assoc.
  by destruct (getters_spec _ _ (enc_tlvs (a_fields m) ++ a_slack m) Hx Hi) as (_ & _ & H & _).
Qed.
Lemma a_result : did_qmi_op_fail (a_bytes m) (a_len m) = Ret (tlv_result (a_fields m)).
Proof using Hm. destruct Hm as (_ & _ & Hf & Hl). apply result_spec; [exact a_head_len|done|done|lia..]. Qed.
Lemma a_lookup id : get_tlv_offset_by_id (a_bytes m) (a_len m) id = Ret (default 0 (tlv_find (a_fields m) id SZ_ENCAP)).
Proof using Hm. destruct Hm as (_ & _ & Hf & Hl). apply lookup_spec; [exact a_head_len|done|done|lia..]. Qed.
(** The first field with its identifier lies at the offset the reader finds. *)
Lemma a_field ts1 f ts2 :
  a_fields m = ts1 ++ f :: ts2 -> Forall (fun g => t_id g <> t_id f) ts1 ->
  get_tlv_offset_by_id (a_bytes m) (a_len m) (t_id f) = Ret (zlen (a_head m ++ enc_tlvs ts1)) /\
  0 < zlen (a_head m ++ enc_tlvs ts1) /\
  a_bytes m = (a_head m ++ enc_tlvs ts1) ++ enc_tlv f ++ enc_tlvs ts2 ++ a_slack m.
Proof using Hm.
  intros Hts Hne. pose proof (zlen_nonneg (enc_tlvs ts1)). rewrite zlen_app, a_head_len. split; [|split].
  - by rewrite a_lookup, Hts, tlv_find_first.
  - unfold SZ_ENCAP, SZ_QMUX, SZ_QMI. lia.
  - unfold a_bytes. by rewrite Hts, enc_tlvs_app, enc_tlvs_cons, <- !app_assoc.
Qed.
End Answer.

Definition sample_answer (id : Z) (fields : list tlv) : answer :=
  {| a_qmux := Build_qmux_packet 1 40 0 1 1; a_qmi := Build_qmi_packet 0 3 id 20; a_fields := fields; a_slack := [0; 0] |}.
Definition done_tlv : tlv := Build_tlv 2 [0; 0; 0; 0].
Lemma sample_answer_ok id fields :
  0 <= id < 65536 -> Forall tlv_ok fields -> SZ_ENCAP + 4 <= a_len (sample_answer id fields) < 65536 ->
  answer_ok (sample_answer id fields).
Proof. intros Hi Hf Hl. split; [by vm_compute|]. split; [|by split]. unfold wf_qmi, byte_ok. cbn. lia. Qed.
