(* ===== verification/Dms.v ===== *)
(** The device management client (src/dms_client.c): what the modem says of
    itself and of the SIM's lock, the requests for it, and the answers. The log
    matters where it reads: a text printed with %s is read up to its NUL. *)

From stdpp Require Import base list numbers option strings.
From Stdlib Require Import ZArith Lia.
From S2P Require Import Prelude Libc Eff Qmi QmiClient Requests.

(** * State *)

Definition DMS_MODEM_INFO_MAX_STR_LEN : Z := 256.
Record fw_parts := {
  primary : list Z;   (* char[256], as the others *)
  sbl : list Z;
  tz : list Z;
  tz_sec : list Z;
  rpm : list Z;
  aboot : list Z;
  apps : list Z;
  mpss : list Z;
  adsp : list Z
}.
Record dms_runtime := {
  modem_revision : list Z;
  modem_serial_num : list Z;
  modem_hw_rev : list Z;
  modem_model : list Z;
  modem_sw_ver : list Z;
  firmware_sections : fw_parts;
  sim_lock_status : Z
}.

Definition DMS_EVENT_REPORT : Z := 0x0001.
Definition DMS_REGISTER_INDICATIONS : Z := 0x0003.
Definition DMS_GET_MODEL : Z := 0x0022.
Definition DMS_GET_REVISION : Z := 0x0023.
Definition DMS_GET_IDS : Z := 0x0025.
Definition DMS_GET_HARDWARE_REVISION : Z := 0x002C.
Definition DMS_GET_SOFTWARE_VERSION : Z := 0x0051.

Definition FIRMWARE_STR_SBL : Z := 1.
Definition FIRMWARE_STR_TZ : Z := 2.
Definition FIRMWARE_STR_TZ_SEC : Z := 3.
Definition FIRMWARE_STR_RPM : Z := 4.
Definition FIRMWARE_STR_BOOTLOADER : Z := 7.
Definition FIRMWARE_STR_APPS : Z := 8.
Definition FIRMWARE_STR_MPSS : Z := 9.
Definition FIRMWARE_STR_ADSP : Z := 10.

(** The field the answer [msgid] is kept in. *)
Definition info_field (msgid : Z) (r : dms_runtime) : list Z :=
  if msgid =? DMS_GET_MODEL then modem_model r
  else if msgid =? DMS_GET_REVISION then modem_revision r
  else if msgid =? DMS_GET_IDS then modem_serial_num r
  else modem_hw_rev r.
Definition set_info (msgid : Z) (v : list Z) (r : dms_runtime) : dms_runtime :=
  {| modem_revision := if msgid =? DMS_GET_REVISION then v else modem_revision r;
     modem_serial_num := if msgid =? DMS_GET_IDS then v else modem_serial_num r;
     modem_hw_rev := if msgid =? DMS_GET_HARDWARE_REVISION then v else modem_hw_rev r;
     modem_model := if msgid =? DMS_GET_MODEL then v else modem_model r;
     modem_sw_ver := modem_sw_ver r; firmware_sections := firmware_sections r;
     sim_lock_status := sim_lock_status r |}.
Definition set_firmware (v : fw_parts) (r : dms_runtime) : dms_runtime :=
  {| modem_revision := modem_revision r; modem_serial_num := modem_serial_num r;
     modem_hw_rev := modem_hw_rev r; modem_model := modem_model r; modem_sw_ver := modem_sw_ver r;
     firmware_sections := v; sim_lock_status := sim_lock_status r |}.
Definition set_sim_lock (v : Z) (r : dms_runtime) : dms_runtime :=
  {| modem_revision := modem_revision r; modem_serial_num := modem_serial_num r;
     modem_hw_rev := modem_hw_rev r; modem_model := modem_model r; modem_sw_ver := modem_sw_ver r;
     firmware_sections := firmware_sections r; sim_lock_status := v |}.
Definition set_primary (v : list Z) (f : fw_parts) : fw_parts :=
  {| primary := v; sbl := sbl f; tz := tz f; tz_sec := tz_sec f; rpm := rpm f; aboot := aboot f;
     apps := apps f; mpss := mpss f; adsp := adsp f |}.

(** The text of a section of the firmware, where it is one of those kept. *)
Definition section_text (section : Z) (f : fw_parts) : option (list Z) :=
  if section =? FIRMWARE_STR_SBL then Some (sbl f)
  else if section =? FIRMWARE_STR_TZ then Some (tz f)
  else if section =? FIRMWARE_STR_TZ_SEC then Some (tz_sec f)
  else if section =? FIRMWARE_STR_RPM then Some (rpm f)
  else if section =? FIRMWARE_STR_BOOTLOADER then Some (aboot f)
  else if section =? FIRMWARE_STR_APPS then Some (apps f)
  else if section =? FIRMWARE_STR_MPSS then Some (mpss f)
  else if section =? FIRMWARE_STR_ADSP then Some (adsp f)
  else None.
Definition set_section (section : Z) (v : list Z) (f : fw_parts) : fw_parts :=
  let put s old := if section =? s then v else old in
  {| primary := primary f; sbl := put FIRMWARE_STR_SBL (sbl f); tz := put FIRMWARE_STR_TZ (tz f);
     tz_sec := put FIRMWARE_STR_TZ_SEC (tz_sec f); rpm := put FIRMWARE_STR_RPM (rpm f);
     aboot := put FIRMWARE_STR_BOOTLOADER (aboot f); apps := put FIRMWARE_STR_APPS (apps f);
     mpss := put FIRMWARE_STR_MPSS (mpss f); adsp := put FIRMWARE_STR_ADSP (adsp f) |}.

(** The requests, queued for the internal client. *)
Inductive dms_action := Ask (svc : Z) (pkt : list Z).   (* add_pending_message, qmi.c *)
Definition MD (A : Type) : Type := M dms_runtime dms_action A.

(** * Log *)

Definition MSG_DEBUG : Z := 0.
Definition MSG_INFO : Z := 1.
Definition MSG_WARN : Z := 2.
Definition MSG_ERROR : Z := 3.

Section Handlers.
(** log_level, src/logger.c *)
Variable log_level : Z.

(** A line of the log with the text at [b] in it. *)
Definition log_text (level : Z) (b : list Z) : cres unit :=
  if log_level <=? level then let* _ := cstr b in Ret tt else Ret tt.
(** A line whose format has a %s without a text for it: what is read is not
    known. *)
Definition log_missing (level : Z) : cres unit := if log_level <=? level then Oob else Ret tt.

Fixpoint log_texts (l : list (Z * list Z)) : cres unit :=
  match l with
  | [] => Ret tt
  | (level, b) :: l => let* _ := log_text level b in log_texts l
  end.
Definition print_modem_information (r : dms_runtime) : cres unit :=
  let f := firmware_sections r in
  log_texts
    [(MSG_INFO, modem_model r); (MSG_DEBUG, modem_serial_num r); (MSG_INFO, modem_hw_rev r);
     (MSG_INFO, modem_revision r); (MSG_INFO, modem_sw_ver r); (MSG_INFO, primary f); (MSG_INFO, sbl f);
     (MSG_INFO, tz f); (MSG_DEBUG, tz_sec f); (MSG_INFO, rpm f); (MSG_DEBUG, aboot f); (MSG_DEBUG, apps f);
     (MSG_INFO, mpss f); (MSG_DEBUG, adsp f)].
Definition print_information : MD unit := do* r := get in lift (print_modem_information r).

(** * Requests *)

Definition dms_request_model : MD Z := plain_request Ask QMI_SERVICE_DMS DMS_GET_MODEL.
Definition dms_request_serial_number : MD Z := plain_request Ask QMI_SERVICE_DMS DMS_GET_IDS.
Definition dms_request_revision : MD Z := plain_request Ask QMI_SERVICE_DMS DMS_GET_REVISION.
Definition dms_request_hw_rev : MD Z := plain_request Ask QMI_SERVICE_DMS DMS_GET_HARDWARE_REVISION.
Definition dms_request_sw_ver : MD Z := plain_request Ask QMI_SERVICE_DMS DMS_GET_SOFTWARE_VERSION.

(** One request for each event, up to one that cannot be built. *)
Fixpoint register_each (ids : list Z) : MD Z :=
  match ids with
  | [] => ret 0
  | id :: ids =>
      do* r := u8_request Ask QMI_SERVICE_DMS 1 DMS_EVENT_REPORT [id] in
      if r <? 0 then ret r else register_each ids
  end.
Definition dms_register_to_events : MD Z := register_each [0x10; 0x12; 0x13; 0x14].
Definition dms_register_to_indications : MD Z :=
  u8_request Ask QMI_SERVICE_DMS 3 DMS_REGISTER_INDICATIONS [0x10; 0x11; 0x12].
Definition dms_retrieve_modem_info : MD unit :=
  do* _ := dms_request_model in
  do* _ := dms_request_hw_rev in
  do* _ := dms_request_revision in
  do* _ := dms_request_serial_number in
  do* _ := dms_request_sw_ver in
  ret tt.

(** * Answers *)

Definition DMS_EVENT_PIN_STATUS : Z := 0x11.
Fixpoint event_loop (events : list Z) (buf : list Z) (buf_len : Z) : MD unit :=
  match events with
  | [] => ret tt
  | event :: events =>
      do* offset := lift (get_tlv_offset_by_id buf buf_len event) in
      when ((0 <? offset) && (event =? DMS_EVENT_PIN_STATUS))
        (do* pin_state := lift (rd buf (offset + 3)) in
         modify (set_sim_lock pin_state) ;>
         do* _ := lift (rd buf (offset + 4)) in
         do* _ := lift (rd buf (offset + 5)) in
         ret tt) ;>
      event_loop events buf buf_len
  end.
Definition parse_dms_event_report (buf : list Z) (buf_len : Z) : MD unit :=
  do* result_tlv := lift (get_tlv_offset_by_id buf buf_len 0x02) in
  if 0 <? result_tlv then do* _ := lift (did_qmi_op_fail buf buf_len) in ret tt
  else
    do* _ := lift (count_tlvs_in_message buf buf_len) in
    event_loop [0x10; 0x11; 0x12; 0x13; 0x14; 0x1c] buf buf_len.

(** The text of the field [tlvid] copied over [target], without a NUL. *)
Definition check_and_set_fw_string (buf : list Z) (buf_len tlvid : Z) (target : list Z) : cres (list Z) :=
  let* failed := did_qmi_op_fail buf buf_len in
  if negb (failed =? QMI_RESULT_SUCCESS) then Ret target
  else
    let* offset := get_tlv_offset_by_id buf buf_len tlvid in
    if 0 <? offset then
      let* len := rd16 buf (offset + 1) in
      if len <? DMS_MODEM_INFO_MAX_STR_LEN then
        let* data := rdn buf (offset + 3) (Z.to_nat len) in
        wrn target 0 data
      else Ret target
    else Ret target.
Definition take_info (msgid tlvid : Z) (buf : list Z) (buf_len : Z) : MD unit :=
  modifyM (fun r =>
    let* v := check_and_set_fw_string buf buf_len tlvid (info_field msgid r) in
    Ret (set_info msgid v r)).

(** The characters [strncpy] reads at [i]: up to a NUL, [n] at most. *)
Fixpoint strn_at (buf : list Z) (i : Z) (n : nat) : cres (list Z) :=
  match n with
  | O => Ret []
  | S n =>
      let* c := rd buf i in
      if c =? 0 then Ret [] else let* s := strn_at buf (i + 1) n in Ret (c :: s)
  end.
Definition strncpy_at (target buf : list Z) (i n : Z) : cres (list Z) :=
  let* s := strn_at buf i (Z.to_nat n) in strncpy target s (Z.to_nat n).

Definition take_primary (buf : list Z) (buf_len : Z) : MD unit :=
  do* offset := lift (get_tlv_offset_by_id buf buf_len 0x01) in
  when (0 <? offset)
    (do* len := lift (rd16 buf (offset + 1)) in
     when (len <=? DMS_MODEM_INFO_MAX_STR_LEN)
       (modifyM (fun r =>
          let* v := strncpy_at (primary (firmware_sections r)) buf (offset + 3) len in
          Ret (set_firmware (set_primary v (firmware_sections r)) r)))).

(** The version of a section that is not empty. *)
Definition take_version (section : Z) (buf : list Z) (at_ len : Z) : MD unit :=
  do* _ := lift (log_text MSG_INFO (drop (Z.to_nat at_) buf)) in
  do* r := get in
  match section_text section (firmware_sections r) with
  | Some target =>
      do* v := lift (strncpy_at target buf at_ len) in
      modify (fun r => set_firmware (set_section section v (firmware_sections r)) r)
  | None => lift (log_missing MSG_WARN)
  end.
(** The versions from [curr] on; true when the end of the message was passed. *)
Fixpoint version_loop (n : nat) (buf : list Z) (buf_len offset curr : Z) : MD bool :=
  match n with
  | O => ret false
  | S n =>
      if buf_len <? curr + offset then
        do* _ := lift (log_missing MSG_ERROR) in ret true
      else
        let rel := curr + offset + 4 in
        do* section := lift (rd32 buf rel) in
        do* version_length := lift (rd buf (rel + 4)) in
        when (0 <? version_length) (take_version section buf (rel + 5) version_length) ;>
        version_loop n buf buf_len offset (curr + version_length + 5)
  end.
Definition take_sections (buf : list Z) (buf_len : Z) : MD bool :=
  do* offset := lift (get_tlv_offset_by_id buf buf_len 0x10) in
  if 0 <? offset then
    do* version_count := lift (rd buf (offset + 3)) in
    version_loop (Z.to_nat version_count) buf buf_len offset 0
  else ret false.
Definition take_software_version (buf : list Z) (buf_len : Z) : MD Z :=
  do* failed := lift (did_qmi_op_fail buf buf_len) in
  do* passed :=
    if failed =? QMI_RESULT_SUCCESS then take_primary buf buf_len ;> take_sections buf buf_len
    else ret false in
  if passed then ret (- ENOMEM) else print_information ;> ret 0.

Definition handle_incoming_dms_message (buf : list Z) (buf_len : Z) : MD Z :=
  do* id := lift (get_qmi_message_id buf) in
  if id =? DMS_EVENT_REPORT then parse_dms_event_report buf buf_len ;> ret 0
  else if id =? DMS_GET_MODEL then take_info DMS_GET_MODEL 0x01 buf buf_len ;> ret 0
  else if id =? DMS_GET_REVISION then take_info DMS_GET_REVISION 0x01 buf buf_len ;> ret 0
  else if id =? DMS_GET_IDS then take_info DMS_GET_IDS 0x12 buf buf_len ;> print_information ;> ret 0
  else if id =? DMS_GET_HARDWARE_REVISION then
    take_info DMS_GET_HARDWARE_REVISION 0x01 buf buf_len ;> print_information ;> ret 0
  else if id =? DMS_GET_SOFTWARE_VERSION then take_software_version buf buf_len
  else ret 0.
End Handlers.

(** * Fields and texts *)

(** A field of the runtime: 256 bytes, the last of them a NUL. *)
Definition field_ok (b : list Z) : Prop := length b = 256%nat /\ b !! 255%nat = Some 0.
Definition fw_ok (f : fw_parts) : Prop :=
  length (primary f) = 256%nat /\
  Forall field_ok [sbl f; tz f; tz_sec f; rpm f; aboot f; apps f; mpss f; adsp f].
(** Every text but the first version is terminated. *)
Definition dms_ok (r : dms_runtime) : Prop :=
  Forall field_ok [modem_revision r; modem_serial_num r; modem_hw_rev r; modem_model r; modem_sw_ver r] /\
  fw_ok (firmware_sections r).

(** A text laid over an older one. *)
Definition over (s old : list Z) : list Z := s ++ drop (length s) old.

Lemma over_ok s old : field_ok old -> (length s <= 255)%nat -> field_ok (over s old).
Proof.
  intros [Hl Hn] Hs. unfold field_ok, over. rewrite length_app, length_drop. split; [lia|].
  rewrite lookup_app_r, lookup_drop by lia. by replace (length s + (255 - length s))%nat with 255%nat by lia.
Qed.
Lemma wrn_over s old : (length s <= length old)%nat -> wrn old 0 s = Ret (over s old).
Proof. intros Hs. by rewrite wrn_ok by (unfold zlen; lia). Qed.
Lemma strncpy_over s old n : (n <= length old)%nat ->
  strncpy old s n = Ret (over (take n s ++ replicate (n - length s) 0) old).
Proof.
  intros Hn. unfold strncpy. rewrite wrn_over; [done|]. rewrite length_app, length_take, length_replicate. lia.
Qed.
Lemma field_nul b : field_ok b -> In 0 b.
Proof. intros [_ H]. apply list_elem_of_In. by eapply list_elem_of_lookup_2. Qed.
Lemma strn_at_text pre s rest :
  Forall (fun c => c <> 0) s -> strn_at (pre ++ s ++ rest) (zlen pre) (length s) = Ret s.
Proof.
  intros Hs. revert pre. induction Hs as [|c s Hc _ IH]; intros pre; [done|]. cbn [length strn_at app].
  rewrite rdA_app_r, Z.sub_diag by lia. change (rd (c :: s ++ rest) 0) with (Ret c). cbn [cbind].
  rewrite (proj2 (Z.eqb_neq _ _) Hc). specialize (IH (pre ++ [c])). rewrite zlen_app, <- app_assoc in IH.
  change (zlen [c]) with 1 in IH. cbn [app] in IH. by rewrite IH.
Qed.
Lemma strncpy_at_text pre s rest old :
  Forall (fun c => c <> 0) s -> (length s <= length old)%nat ->
  strncpy_at old (pre ++ s ++ rest) (zlen pre) (zlen s) = Ret (over s old).
Proof.
  intros Hs Hl. unfold strncpy_at. replace (Z.to_nat (zlen s)) with (length s) by (unfold zlen; lia).
  rewrite strn_at_text by done. cbn [cbind]. rewrite strncpy_over by done.
  by rewrite take_ge, Nat.sub_diag, app_nil_r by lia.
Qed.

(** The sections of the firmware. *)
Lemma section_ok section f old : fw_ok f -> section_text section f = Some old -> field_ok old.
Proof.
  intros [_ Hf] Hs. rewrite list.Forall_forall in Hf. apply Hf. unfold section_text in Hs.
  repeat match goal with H : (if ?c then _ else _) = _ |- _ => destruct c; [injection H as <-; apply list_elem_of_In; cbn; tauto|] end. done.
Qed.
Lemma set_section_ok section v f : fw_ok f -> field_ok v -> fw_ok (set_section section v f).
Proof.
  intros [Hp Hf] Hv. split; [exact Hp|]. repeat match goal with H : Forall _ (_ :: _) |- _ => inversion_clear H end.
  unfold set_section. cbn. repeat apply Forall_cons_2; try apply Forall_nil_2; by case_match.
Qed.
Lemma set_primary_ok v f : fw_ok f -> length v = 256%nat -> fw_ok (set_primary v f).
Proof. intros [_ Hf] Hv. by split. Qed.

(** * The fields stay terminated *)

Section Keeps.
Variable log_level : Z.
Context (buf : list Z) (Hbuf : bytes_ok buf).

Lemma byte_at i x : rd buf i = Ret x -> byte_ok x.
Proof using Hbuf.
  intros [_ H]%rdA_lookup. by eapply (proj1 (list.Forall_lookup _ _) Hbuf).
Qed.
Lemma strn_at_length i n s : strn_at buf i n = Ret s -> (length s <= n)%nat.
Proof using.
  revert i s. induction n as [|n IH]; intros i s; cbn [strn_at]; [by intros [= <-]|].
  intros (c & _ & H)%cbind_Ret_inv. destruct (c =? 0); [injection H as <-; cbn; lia|].
  apply cbind_Ret_inv in H as (s' & H' & [= <-]). apply IH in H'. cbn. lia.
Qed.
Lemma strncpy_at_ok old i n v : field_ok old -> 0 <= n <= 255 -> strncpy_at old buf i n = Ret v -> field_ok v.
Proof using.
  intros Ho Hn. unfold strncpy_at. intros (s & Hs%strn_at_length & H)%cbind_Ret_inv.
  rewrite strncpy_over in H by (destruct Ho; lia). injection H as <-. apply over_ok; [done|].
  rewrite length_app, length_take, length_replicate. lia.
Qed.
Lemma strncpy_at_length old i n v : strncpy_at old buf i n = Ret v -> length v = length old.
Proof using.
  unfold strncpy_at. intros (s & _ & H)%cbind_Ret_inv. apply wrn_zlen in H. unfold zlen in H. lia.
Qed.
Lemma check_and_set_ok len id old v :
  field_ok old -> check_and_set_fw_string buf len id old = Ret v -> field_ok v.
Proof using.
  intros Ho. unfold check_and_set_fw_string. intros (f & _ & H)%cbind_Ret_inv.
  case_match; [by simplify_eq|]. apply cbind_Ret_inv in H as (off & _ & H).
  case_match; [|by simplify_eq]. apply cbind_Ret_inv in H as (n & _ & H). case_match; [|by simplify_eq].
  apply cbind_Ret_inv in H as (d & Hd & H). unfold DMS_MODEM_INFO_MAX_STR_LEN in *. b2p.
  assert (length d = Z.to_nat n) as Hl.
  { destruct (rdn_cases buf (off + 3) (Z.to_nat n)) as [Hc|(s & Hc & Hs)]; rewrite Hc in Hd; by simplify_eq. }
  rewrite wrn_over in H by (destruct Ho; lia). injection H as <-. apply over_ok; [done|lia].
Qed.
Lemma info_ok msgid r : dms_ok r -> field_ok (info_field msgid r).
Proof using.
  intros [H _]. repeat match goal with H : Forall _ (_ :: _) |- _ => inversion_clear H end.
  unfold info_field. repeat case_match; done.
Qed.
Lemma set_info_ok msgid v r : dms_ok r -> field_ok v -> dms_ok (set_info msgid v r).
Proof using.
  intros [H Hf] Hv. split; [|exact Hf]. repeat match goal with H : Forall _ (_ :: _) |- _ => inversion_clear H end.
  unfold set_info. cbn. repeat apply Forall_cons_2; try apply Forall_nil_2; try case_match; done.
Qed.

Lemma keeps_take_info msgid id len : keeps dms_ok (take_info msgid id buf len).
Proof using.
  unfold take_info. apply keeps_modifyM. intros r r' Hr (v & Hv & [= <-])%cbind_Ret_inv.
  apply set_info_ok; [done|]. eapply check_and_set_ok, Hv. by apply info_ok.
Qed.
Lemma keeps_set_firmware f :
  (forall fw, fw_ok fw -> fw_ok (f fw)) -> keeps dms_ok (@modify _ dms_action (fun r => set_firmware (f (firmware_sections r)) r)).
Proof using. intros Hf. apply keeps_modify. intros r [Hr Hw]. split; [done|]. by apply Hf. Qed.
Lemma keeps_take_primary len : keeps dms_ok (take_primary buf len).
Proof using.
  unfold take_primary. keeps_auto. apply keeps_modifyM. intros r r' [Hr Hw] (v & Hv & [= <-])%cbind_Ret_inv.
  split; [done|]. apply set_primary_ok; [done|]. apply strncpy_at_length in Hv. destruct Hw. cbn. lia.
Qed.
Lemma keeps_take_version section i n : 0 <= n <= 255 -> keeps dms_ok (take_version log_level section buf i n).
Proof using.
  intros Hn. unfold take_version. apply keeps_bind; [auto with oqti|]. intros _.
  apply keeps_get_bind. intros r [_ Hr]. destruct (section_text _ _) as [old|] eqn:Hs; [|auto with oqti].
  apply keeps_lift_bind. intros v Hv. apply keeps_set_firmware. intros fw Hfw.
  apply set_section_ok; [done|]. eapply strncpy_at_ok; [exact (section_ok _ _ _ Hr Hs)|exact Hn|exact Hv].
Qed.
Lemma keeps_version_loop n len off curr : keeps dms_ok (version_loop log_level n buf len off curr).
Proof using Hbuf.
  revert curr. induction n as [|n IH]; intros curr; cbn [version_loop]; [auto with oqti|].
  case_match; [keeps_auto|]. apply keeps_bind; [auto with oqti|]. intros section.
  apply keeps_lift_bind. intros v Hv%byte_at. apply keeps_bind; [|auto]. apply keeps_when.
  intros. apply keeps_take_version. unfold byte_ok in Hv. lia.
Qed.
Lemma keeps_dms len : keeps dms_ok (handle_incoming_dms_message log_level buf len).
Proof using Hbuf.
  assert (keeps dms_ok (print_information log_level)) by (unfold print_information; keeps_auto).
  assert (forall e, keeps dms_ok (event_loop e buf len)) as He.
  { induction e as [|e es IH]; cbn [event_loop]; [auto with oqti|]. keeps_auto. by apply keeps_modify. }
  pose proof (keeps_take_primary len). pose proof keeps_version_loop.
  pose proof keeps_take_info.
  unfold handle_incoming_dms_message, parse_dms_event_report, take_software_version, take_sections. keeps_auto.
Qed.
End Keeps.

(** * The versions of the firmware *)

Record version := { v_section : Z; v_text : list Z }.
Definition enc_version (v : version) : list Z := le 4 (v_section v) ++ zlen (v_text v) :: v_text v.
Definition enc_versions (vs : list version) : list Z := concat (map enc_version vs).
Definition version_fits (v : version) : Prop :=
  0 <= v_section v < 4294967296 /\ zlen (v_text v) < 256 /\ Forall (fun c => c <> 0) (v_text v).
(** A section that is kept, or one without a text. *)
Definition kept_section (v : version) : Prop :=
  v_text v = [] \/ v_section v ∈ [FIRMWARE_STR_SBL; FIRMWARE_STR_TZ; FIRMWARE_STR_TZ_SEC; FIRMWARE_STR_RPM;
    FIRMWARE_STR_BOOTLOADER; FIRMWARE_STR_APPS; FIRMWARE_STR_MPSS; FIRMWARE_STR_ADSP].

(** What a version leaves in the fields. *)
Definition store_version (f : fw_parts) (v : version) : fw_parts :=
  match v_text v, section_text (v_section v) f with
  | _ :: _, Some old => set_section (v_section v) (over (v_text v) old) f
  | _, _ => f
  end.

Lemma set_firmware_same r : set_firmware (firmware_sections r) r = r.
Proof. by destruct r. Qed.
Lemma log_text_run level l b : In 0 b -> log_text level l b = Ret tt.
Proof. intros Hb. unfold log_text. destruct (cstr_nul b Hb) as (s & ->). by case_match. Qed.
Lemma store_ok f v : fw_ok f -> version_fits v -> fw_ok (store_version f v).
Proof.
  intros Hf (_ & Hl & _). unfold store_version. destruct (v_text v) eqn:Ht; [done|].
  case_match eqn:Hs; [|done]. apply set_section_ok; [done|]. apply over_ok; [by eapply section_ok|].
  rewrite <- Ht in *. unfold zlen in Hl. lia.
Qed.
Lemma kept_text section f :
  section ∈ [FIRMWARE_STR_SBL; FIRMWARE_STR_TZ; FIRMWARE_STR_TZ_SEC; FIRMWARE_STR_RPM;
    FIRMWARE_STR_BOOTLOADER; FIRMWARE_STR_APPS; FIRMWARE_STR_MPSS; FIRMWARE_STR_ADSP] ->
  exists old, section_text section f = Some old.
Proof.
  rewrite list_elem_of_In. cbn [In]. intros H.
  repeat destruct H as [<-|H]; try (eexists; reflexivity). done.
Qed.

Section Versions.
Variable log_level : Z.
Context (len off : Z) (rest : list Z) (Hrest : In 0 rest).

(** One version at the place the loop has come to. *)
Lemma version_step n v b tail curr r :
  version_fits v -> In 0 tail -> zlen b = curr + off + 4 -> curr + off <= len -> fw_ok (firmware_sections r) ->
  version_loop log_level (S n) (b ++ enc_version v ++ tail) len off curr r =
  match v_text v, section_text (v_section v) (firmware_sections r) with
  | _ :: _, None =>
      (do* _ := lift (log_missing log_level MSG_WARN) in
       version_loop log_level n (b ++ enc_version v ++ tail) len off (curr + zlen (v_text v) + 5)) r
  | _, _ =>
      version_loop log_level n (b ++ enc_version v ++ tail) len off (curr + zlen (v_text v) + 5)
        (set_firmware (store_version (firmware_sections r) v) r)
  end.
Proof using.
  intros (Hsec & Htl & Htx) Htail Hb Hlen Hr. cbn [version_loop].
  rewrite (proj2 (Z.ltb_ge _ _)) by lia.
  assert (Hs : rd32 (b ++ enc_version v ++ tail) (curr + off + 4) = Ret (v_section v)).
  { rewrite <- Hb, <- (Z.add_0_r (zlen b)), rd32_shift by lia. unfold enc_version. rewrite <- app_assoc. rdc.
    f_equal. dlia. }
  assert (Hn : rd (b ++ enc_version v ++ tail) (curr + off + 4 + 4) = Ret (zlen (v_text v))).
  { rewrite <- Hb, rd_shift by lia. unfold enc_version. rewrite <- app_assoc. by rdc. }
  rewrite (bind_lift _ _ _ _ Hs), (bind_lift _ _ _ _ Hn).
  assert (Hsplit : b ++ enc_version v ++ tail = (b ++ le 4 (v_section v) ++ [zlen (v_text v)]) ++ v_text v ++ tail)
    by (unfold enc_version; rewrite <- !app_assoc; done).
  assert (Hat : curr + off + 4 + 5 = zlen (b ++ le 4 (v_section v) ++ [zlen (v_text v)])) by (zl; lia).
  unfold store_version. destruct (v_text v) as [|c text] eqn:Ht.
  { change (0 <? zlen []) with false. cbn [when]. rewrite bind_ret, set_firmware_same. done. }
  rewrite <- Ht in *. assert (0 < zlen (v_text v)) by (rewrite Ht; zl; pose proof (zlen_nonneg text); lia).
  rewrite (proj2 (Z.ltb_lt _ _)) by done. cbn [when]. unfold take_version. rewrite bind_assoc.
  rewrite (bind_lift _ tt).
  2: { apply log_text_run. rewrite Hat, Hsplit. unfold zlen. rewrite Nat2Z.id, drop_app_length.
       apply in_or_app. by right. }
  rewrite bind_assoc, bind_get.
  destruct (section_text (v_section v) (firmware_sections r)) as [old|] eqn:Hold; [|done].
  pose proof (section_ok _ _ _ Hr Hold) as [Hol _].
  rewrite bind_assoc, (bind_lift _ (over (v_text v) old)); [by rewrite bind_modify|].
  rewrite Hat, Hsplit. apply strncpy_at_text; [done|unfold zlen in Htl; lia].
Qed.

Lemma version_loop_run vs n b curr r :
  Forall version_fits vs -> Forall kept_section vs -> zlen b = curr + off + 4 ->
  zlen b + zlen (enc_versions vs) <= len -> fw_ok (firmware_sections r) ->
  version_loop log_level (length vs + n) (b ++ enc_versions vs ++ rest) len off curr r =
  version_loop log_level n (b ++ enc_versions vs ++ rest) len off (curr + zlen (enc_versions vs))
    (set_firmware (fold_left store_version vs (firmware_sections r)) r).
Proof using Hrest.
  intros Hf. revert b curr r. induction Hf as [|v vs Hv Hf IH]; intros b curr r Hk Hb Hlen Hr.
  { cbn [length Nat.add fold_left]. change (zlen (enc_versions [])) with 0. by rewrite Z.add_0_r, set_firmware_same. }
  inversion_clear Hk as [|? ? Hkv Hk']. cbn [length Nat.add].
  change (enc_versions (v :: vs)) with (enc_version v ++ enc_versions vs) in *. rewrite <- app_assoc.
  rewrite zlen_app in Hlen. pose proof (zlen_nonneg (enc_version v)). pose proof (zlen_nonneg (enc_versions vs)).
  rewrite version_step by (done || lia || (apply in_or_app; by right)).
  assert (Hev : zlen (enc_version v) = 5 + zlen (v_text v)) by (unfold enc_version; zl; lia).
  specialize (IH (b ++ enc_version v) (curr + zlen (v_text v) + 5) (set_firmware (store_version (firmware_sections r) v) r)).
  rewrite <- app_assoc in IH. rewrite IH; [| |zl; lia|zl; lia|by apply store_ok].
  2: exact Hk'.
  assert (forall (x y : cres (bool * dms_runtime * list dms_action)), x = y ->
    match v_text v, section_text (v_section v) (firmware_sections r) with
    | _ :: _, None => (do* _ := lift (log_missing log_level MSG_WARN) in
       version_loop log_level (length vs + n) (b ++ enc_version v ++ enc_versions vs ++ rest) len off (curr + zlen (v_text v) + 5)) r
    | _, _ => x end = y) as Hm.
  { intros x y ->. destruct (v_text v) eqn:Ht; [done|]. destruct Hkv as [Hkv|Hkv]; [congruence|].
    by destruct (kept_text _ (firmware_sections r) Hkv) as (old & ->). }
  apply Hm. cbn [fold_left firmware_sections set_firmware]. f_equal. zl. lia.
Qed.
End Versions.

(** ** The message *)

Definition first_field (ts : list tlv) (f : tlv) : Prop :=
  exists ts1 ts2, ts = ts1 ++ f :: ts2 /\ Forall (fun g => t_id g <> t_id f) ts1.
Definition versions_tlv (vs : list version) : tlv := Build_tlv 0x10 (zlen vs :: enc_versions vs).
(** A successful answer with the first version [p] and the sections [vs]; some
    byte of the buffer after it is a zero. *)
Record version_answer (m : answer) (p : list Z) (vs : list version) : Prop := {
  va_message : answer_ok m;
  va_id : msgid (a_qmi m) = DMS_GET_SOFTWARE_VERSION;
  va_result : tlv_result (a_fields m) = QMI_RESULT_SUCCESS;
  va_primary : first_field (a_fields m) (Build_tlv 0x01 p);
  va_sections : first_field (a_fields m) (versions_tlv vs);
  va_count : zlen vs < 256;
  va_texts : Forall (fun c => c <> 0) p;
  va_fits : Forall version_fits vs;
  va_zero : In 0 (a_slack m)
}.
Definition receive_dms (log_level : Z) (m : answer) : MD Z :=
  handle_incoming_dms_message log_level (a_bytes m) (a_len m).

Lemma log_texts_run level l : Forall (fun x => In 0 (snd x)) l -> log_texts level l = Ret tt.
Proof. induction 1 as [|[n b] l Hb _ IH]; [done|]. cbn [log_texts]. by rewrite log_text_run. Qed.
Lemma print_run level r :
  dms_ok r -> In 0 (primary (firmware_sections r)) -> print_information level r = Ret (tt, r, []).
Proof.
  intros [Hr [_ Hf]] Hp. unfold print_information. rewrite bind_get. unfold lift, print_modem_information.
  repeat match goal with H : Forall _ (_ :: _) |- _ => inversion_clear H end.
  rewrite log_texts_run; [done|]. repeat apply Forall_cons_2; try apply Forall_nil_2; cbn [snd]; auto using field_nul.
Qed.

Section Answers.
Variable log_level : Z.
Context (m : answer) (p : list Z) (vs : list version) (Hm : version_answer m p vs).

Lemma take_primary_run r :
  zlen p <= 256 -> length (primary (firmware_sections r)) = 256%nat ->
  take_primary (a_bytes m) (a_len m) r =
  Ret (tt, set_firmware (set_primary (over p (primary (firmware_sections r))) (firmware_sections r)) r, []).
Proof using Hm.
  intros Hp Hl. destruct Hm as [Hok _ _ (ts1 & ts2 & Hts & Hne) _ _ Hx _ _].
  destruct (a_field m Hok _ _ _ Hts Hne) as (Ho & Hpos & Hb). cbn [t_id] in Ho.
  set (pre := a_head m ++ enc_tlvs ts1) in *. unfold take_primary. rewrite (bind_lift _ _ _ _ Ho).
  rewrite (proj2 (Z.ltb_lt _ _)) by done. cbn [when].
  pose proof (zlen_nonneg p).
  assert (Hlen : rd16 (a_bytes m) (zlen pre + 1) = Ret (zlen p)).
  { rewrite Hb. apply (enc_tlv_read pre (Build_tlv 0x01 p)). cbn. lia. }
  rewrite (bind_lift _ _ _ _ Hlen). unfold DMS_MODEM_INFO_MAX_STR_LEN.
  rewrite (proj2 (Z.leb_le _ _)) by lia. cbn [when]. unfold modifyM.
  assert (a_bytes m = (pre ++ 0x01 :: le 2 (zlen p)) ++ p ++ enc_tlvs ts2 ++ a_slack m) as Hs.
  { rewrite Hb. unfold enc_tlv. cbn [t_id t_val]. by rewrite <- !app_assoc. }
  replace (zlen pre + 3) with (zlen (pre ++ 0x01 :: le 2 (zlen p))) by (zl; lia).
  rewrite Hs, strncpy_at_text; [done|done|unfold zlen in Hp; lia].
Qed.
(** The sections are read from the field [0x10] on. *)
Lemma take_sections_run r :
  fw_ok (firmware_sections r) ->
  exists b rest off, zlen b = 0 + off + 4 /\ In 0 rest /\ a_bytes m = b ++ enc_versions vs ++ rest /\
    zlen b + zlen (enc_versions vs) <= a_len m /\
    take_sections log_level (a_bytes m) (a_len m) r =
    version_loop log_level (length vs) (b ++ enc_versions vs ++ rest) (a_len m) off 0 r.
Proof using Hm.
  intros Hr. destruct Hm as [Hok _ _ _ (ts1 & ts2 & Hts & Hne) Hc _ _ Hz].
  destruct (a_field m Hok _ _ _ Hts Hne) as (Ho & Hpos & Hb). cbn [t_id versions_tlv] in Ho.
  set (pre := a_head m ++ enc_tlvs ts1) in *.
  exists (pre ++ 0x10 :: le 2 (1 + zlen (enc_versions vs)) ++ [zlen vs]), (enc_tlvs ts2 ++ a_slack m), (zlen pre).
  assert (Hs : a_bytes m = (pre ++ 0x10 :: le 2 (1 + zlen (enc_versions vs)) ++ [zlen vs]) ++
    enc_versions vs ++ enc_tlvs ts2 ++ a_slack m).
  { rewrite Hb. unfold versions_tlv, enc_tlv. cbn [t_id t_val]. rewrite zlen_cons, <- !app_assoc. done. }
  split; [zl; lia|]. split; [apply in_or_app; by right|]. split; [exact Hs|]. split.
  { unfold a_len. rewrite Hts, enc_tlvs_app, enc_tlvs_cons, app_assoc. fold pre.
    pose proof (zlen_nonneg (enc_tlvs ts2)). rewrite !zlen_app, enc_tlv_len. cbn [t_val versions_tlv]. zl. lia. }
  unfold take_sections. rewrite (bind_lift _ _ _ _ Ho), (proj2 (Z.ltb_lt _ _)) by done.
  assert (Hn : rd (a_bytes m) (zlen pre + 3) = Ret (zlen vs)).
  { rewrite Hb, rd_shift by lia. unfold versions_tlv, enc_tlv. cbn [t_id t_val]. by rdc. }
  rewrite (bind_lift _ _ _ _ Hn), Hs. by replace (Z.to_nat (zlen vs)) with (length vs) by (unfold zlen; lia).
Qed.
Lemma version_start r :
  receive_dms log_level m r =
  (do* passed := take_primary (a_bytes m) (a_len m) ;> take_sections log_level (a_bytes m) (a_len m) in
   if passed then ret (- ENOMEM) else print_information log_level ;> ret 0) r.
Proof using Hm.
  unfold receive_dms, handle_incoming_dms_message. rewrite (bind_lift _ _ _ _ (a_id m (va_message _ _ _ Hm))).
  rewrite (va_id _ _ _ Hm). unfold take_software_version.
  change (DMS_GET_SOFTWARE_VERSION =? DMS_EVENT_REPORT) with false.
  change (DMS_GET_SOFTWARE_VERSION =? DMS_GET_MODEL) with false.
  change (DMS_GET_SOFTWARE_VERSION =? DMS_GET_REVISION) with false.
  change (DMS_GET_SOFTWARE_VERSION =? DMS_GET_IDS) with false.
  change (DMS_GET_SOFTWARE_VERSION =? DMS_GET_HARDWARE_REVISION) with false.
  change (DMS_GET_SOFTWARE_VERSION =? DMS_GET_SOFTWARE_VERSION) with true. cbn match.
  by rewrite (bind_lift _ _ _ _ (a_result m (va_message _ _ _ Hm))), (va_result _ _ _ Hm).
Qed.
End Answers.

(** The fields after a version message. *)
Definition versions_in (p : list Z) (vs : list version) (f : fw_parts) : fw_parts :=
  fold_left store_version vs (set_primary (over p (primary f)) f).
Lemma fold_store_ok vs f : Forall version_fits vs -> fw_ok f -> fw_ok (fold_left store_version vs f).
Proof.
  intros Hvs. revert f. induction Hvs as [|v vs Hv _ IH]; intros f Hf; [done|]. cbn [fold_left].
  by apply IH, store_ok.
Qed.
Lemma primary_store vs f : primary (fold_left store_version vs f) = primary f.
Proof.
  revert f. induction vs as [|v vs IH]; intros f; [done|]. cbn [fold_left]. rewrite IH. unfold store_version.
  repeat case_match; done.
Qed.
Lemma versions_run log_level m p vs r :
  version_answer m p vs -> Forall kept_section vs -> zlen p < 256 ->
  dms_ok r -> field_ok (primary (firmware_sections r)) ->
  receive_dms log_level m r = Ret (0, set_firmware (versions_in p vs (firmware_sections r)) r, []).
Proof.
  intros Hm Hk Hp [Hr Hf] Hpr. rewrite (version_start _ _ _ _ Hm). rewrite bind_assoc.
  rewrite (bind_step _ _ _ _ _ (take_primary_run m p vs Hm r ltac:(lia) (proj1 Hpr))).
  set (f1 := set_primary (over p (primary (firmware_sections r))) (firmware_sections r)).
  assert (field_ok (over p (primary (firmware_sections r)))) as Hp1
    by (apply over_ok; [done|unfold zlen in Hp; lia]).
  assert (fw_ok f1) as Hf1 by (apply set_primary_ok; [done|apply Hp1]).
  destruct (take_sections_run log_level m p vs Hm (set_firmware f1 r) Hf1) as (b & rest & off & Hb & Hz & _ & Hl & Hrun).
  rewrite (bind_step _ _ (set_firmware f1 r) false (set_firmware (fold_left store_version vs f1) r)).
  2: { rewrite Hrun. rewrite <- (Nat.add_0_r (length vs)), version_loop_run by (done || exact (va_fits _ _ _ Hm)).
       by destruct r. }
  cbn match. rewrite (bind_step _ _ _ _ _ (print_run log_level (set_firmware (fold_left store_version vs f1) r)
    ltac:(split; [by destruct r|cbn [firmware_sections set_firmware]; apply fold_store_ok; [exact (va_fits _ _ _ Hm)|done]])
    ltac:(cbn [firmware_sections set_firmware]; rewrite primary_store; by apply field_nul))).
  by destruct r.
Qed.

Lemma section_set_same s v f : is_Some (section_text s f) -> section_text s (set_section s v f) = Some v.
Proof.
  intros [old Hs]. unfold section_text, set_section in *. cbn.
  repeat match goal with
  | |- context [?a =? ?b] => destruct (a =? b) eqn:?; [reflexivity|]
  end. done.
Qed.
Lemma section_set_other s s' v f : s <> s' -> section_text s (set_section s' v f) = section_text s f.
Proof.
  intros Hne. unfold section_text, set_section. cbn.
  repeat match goal with
  | |- context [s =? ?b] => destruct (Z.eqb_spec s b) as [->|];
      [by rewrite (proj2 (Z.eqb_neq _ _)) by congruence|]
  end. done.
Qed.
(** A section's text is the one version of it that came. *)
Lemma stored_text vs v f old :
  Forall kept_section vs -> NoDup (map v_section vs) -> v ∈ vs -> v_text v <> [] ->
  section_text (v_section v) f = Some old ->
  section_text (v_section v) (fold_left store_version vs f) = Some (over (v_text v) old).
Proof.
  assert (forall vs f x, ~ x ∈ map v_section vs ->
    section_text x (fold_left store_version vs f) = section_text x f) as Hout.
  { induction vs0 as [|w ws IH]; intros g x Hx; [done|]. cbn [fold_left map] in *.
    apply not_elem_of_cons in Hx as [Hne Hx]. rewrite IH by done. unfold store_version.
    repeat case_match; try done. by apply section_set_other. }
  intros Hk. revert f. induction Hk as [|w ws Hw Hws IH]; intros f Hnd Hin Ht Hold; [by apply not_elem_of_nil in Hin|].
  cbn [map] in Hnd. apply NoDup_cons in Hnd as [Hw1 Hnd]. cbn [fold_left]. apply elem_of_cons in Hin as [->|Hin].
  - rewrite Hout by done. unfold store_version. destruct (v_text w) eqn:Htw; [done|]. rewrite Hold.
    apply section_set_same. by rewrite Hold.
  - apply IH; try done. unfold store_version. repeat case_match; try done. rewrite section_set_other; [done|].
    intros Heq. apply Hw1. rewrite <- Heq. by apply list_elem_of_fmap_2.
Qed.
(** The version [s] laid over the field [old]: [strncpy] is given the length of
    the text, and ends it with no NUL, so that what the field held from there on
    follows it. *)
Definition reads_over (s old new : list Z) : Prop :=
  exists tail, cstr (drop (length s) old) = Ret tail /\ cstr new = Ret (s ++ tail).
Lemma over_reads s old :
  Forall (fun c => c <> 0) s -> zlen s < 256 -> field_ok old -> reads_over s old (over s old).
Proof.
  intros Hs Hl [Ho Hn]. unfold zlen in Hl.
  assert (In 0 (drop (length s) old)) as Hz.
  { apply list_elem_of_In, (list_elem_of_lookup_2 _ (255 - length s)). rewrite lookup_drop.
    by replace (length s + (255 - length s))%nat with 255%nat by lia. }
  destruct (cstr_nul _ Hz) as (t & Ht). exists t. split; [done|]. clear -Hs Ht. unfold over.
  remember (drop (length s) old) as d eqn:Hd. clear Hd.
  induction Hs as [|c s Hc _ IH]; [done|]. cbn [app cstr]. by rewrite (proj2 (Z.eqb_neq _ _) Hc), IH.
Qed.
(** In a field that held nothing from there on it is read as it was sent. *)
Lemma reads_over_fresh s n new : reads_over s (replicate n 0) new -> cstr new = Ret s.
Proof.
  intros (t & Ht & ->). rewrite drop_replicate in Ht.
  destruct (n - length s)%nat; cbn in Ht; [done|]. injection Ht as <-. by rewrite app_nil_r.
Qed.
(** A section without a text of its own is left as it was. *)
Lemma unnamed_text vs f s :
  (forall v, v ∈ vs -> v_section v = s -> v_text v = []) ->
  section_text s (fold_left store_version vs f) = section_text s f.
Proof.
  revert f. induction vs as [|w ws IH]; intros f Hs; [done|]. cbn [fold_left].
  rewrite IH by (intros v Hv; apply Hs; by right). unfold store_version. repeat case_match; try done.
  apply section_set_other. intros ->. rewrite (Hs w) in * by (done || by left). done.
Qed.
Lemma primary_section s v f : section_text s (set_primary v f) = section_text s f.
Proof. done. Qed.

(** * Properties *)

Definition no_text : list Z := replicate 256 0.
Definition no_firmware : fw_parts :=
  {| primary := no_text; sbl := no_text; tz := no_text; tz_sec := no_text; rpm := no_text; aboot := no_text;
     apps := no_text; mpss := no_text; adsp := no_text |}.

(** C17: the versions of the firmware, over whatever an earlier answer left:
    a successful answer brings a first version of up to 255 characters and any
    number of versions of different known sections, each of up to 255
    characters, in fields anywhere in the message. At any level of the log, the
    field of the first version and of every section that has a text are then
    read back as the text that was sent followed by what the field held from
    there to its next NUL: nothing where it was fresh, the tail of the older
    text where that was longer, since no NUL is stored behind a version. The
    sections without a text and everything else of the runtime are as before.
    (A first version of 256 characters is taken too, and read past its field:
    [primary_256_unterminated]; a section that is not known faults:
    [unknown_section_faults].) *)
Theorem versions_stored log_level m p vs r :
  version_answer m p vs -> Forall kept_section vs -> NoDup (map v_section vs) -> zlen p < 256 ->
  dms_ok r -> field_ok (primary (firmware_sections r)) ->
  exists f, receive_dms log_level m r = Ret (0, set_firmware f r, []) /\
    reads_over p (primary (firmware_sections r)) (primary f) /\
    (forall v, v ∈ vs -> v_text v <> [] ->
       exists old new, section_text (v_section v) (firmware_sections r) = Some old /\
         section_text (v_section v) f = Some new /\ reads_over (v_text v) old new) /\
    (forall s, (forall v, v ∈ vs -> v_section v = s -> v_text v = []) ->
       section_text s f = section_text s (firmware_sections r)).
Proof.
  intros Hm Hk Hnd Hp Hr Hf. exists (versions_in p vs (firmware_sections r)).
  split; [exact (versions_run _ _ _ _ _ Hm Hk Hp Hr Hf)|]. unfold versions_in. split; [|split].
  { rewrite primary_store. apply over_reads; [exact (va_texts _ _ _ Hm)|done|done]. }
  - intros v Hv Ht. pose proof (proj1 (list.Forall_forall _ _) Hk v Hv) as [|Hsec]; [done|].
    pose proof (proj1 (list.Forall_forall _ _) (va_fits _ _ _ Hm) v Hv) as (_ & Hl & Hx).
    destruct (kept_text _ (firmware_sections r) Hsec) as (old & Hold). exists old, (over (v_text v) old).
    split; [done|]. split; [by apply stored_text|].
    apply over_reads; [done|done|]. exact (section_ok _ _ _ (proj2 Hr) Hold).
  - intros s Hs. by rewrite unnamed_text.
Qed.

Definition sample_versions : list version :=
  [{| v_section := 1; v_text := zs "BOOT.BF.3.1.2" |}; {| v_section := 2; v_text := zs "TZ.BF.4.0.5" |};
   {| v_section := 9; v_text := zs "MPSS.JO.2.0.2" |}].
Definition version_message (p : list Z) (vs : list version) : answer :=
  sample_answer DMS_GET_SOFTWARE_VERSION [done_tlv; Build_tlv 0x01 p; versions_tlv vs].
Definition idle_dms : dms_runtime :=
  {| modem_revision := no_text; modem_serial_num := no_text; modem_hw_rev := no_text; modem_model := no_text;
     modem_sw_ver := no_text; firmware_sections := no_firmware; sim_lock_status := 0 |}.
Lemma idle_dms_ok : dms_ok idle_dms.
Proof. repeat split; repeat apply Forall_cons_2; try apply Forall_nil_2; by split. Qed.
Lemma version_message_ok p vs :
  Forall (fun c => c <> 0) p -> Forall version_fits vs -> zlen vs < 256 -> zlen p < 30000 ->
  zlen (enc_versions vs) < 30000 -> version_answer (version_message p vs) p vs.
Proof.
  intros Hp Hvs Hn Hl Hv. pose proof (zlen_nonneg p). pose proof (zlen_nonneg (enc_versions vs)).
  assert (zlen (t_val (versions_tlv vs)) = 1 + zlen (enc_versions vs)) as Ht by (cbn [versions_tlv t_val]; zl; lia).
  split; try done.
  - apply sample_answer_ok; [done| |].
    + repeat apply Forall_cons_2; try apply Forall_nil_2; split; try (by split); [|rewrite Ht]; cbn [t_val]; lia.
    + unfold a_len, version_message. cbn [a_fields sample_answer]. rewrite !enc_tlvs_cons, !zlen_app, !enc_tlv_len, a_head_len, Ht.
      change (zlen (enc_tlvs [])) with 0. cbn [t_val done_tlv]. zl. unfold SZ_ENCAP, SZ_QMUX, SZ_QMI. lia.
  - exists [done_tlv], [versions_tlv vs]. split; [done|]. by repeat constructor.
  - exists [done_tlv; Build_tlv 0x01 p], []. split; [done|]. by repeat constructor.
  - by left.
Qed.
Lemma sample_versions_fit : Forall version_fits sample_versions.
Proof. repeat apply Forall_cons_2; try apply Forall_nil_2; (split; [cbn; lia|split; [by vm_compute|repeat constructor; discriminate]]). Qed.
(** A runtime that holds the versions of an earlier answer. *)
Definition flashed_dms : dms_runtime :=
  set_firmware (versions_in (zs "EG25GGBR07A08M2G_30.004") [{| v_section := 1; v_text := zs "BOOT.BF.3" |}] no_firmware)
    idle_dms.
Lemma versions_stored_witness :
  exists f, receive_dms 1 (version_message (zs "EG25GGBR07A08M2G") sample_versions) flashed_dms =
      Ret (0, set_firmware f flashed_dms, []) /\
    reads_over (zs "EG25GGBR07A08M2G") (primary (firmware_sections flashed_dms)) (primary f) /\
    (forall v, v ∈ sample_versions -> v_text v <> [] ->
       exists old new, section_text (v_section v) (firmware_sections flashed_dms) = Some old /\
         section_text (v_section v) f = Some new /\ reads_over (v_text v) old new) /\
    (forall s, (forall v, v ∈ sample_versions -> v_section v = s -> v_text v = []) ->
       section_text s f = section_text s (firmware_sections flashed_dms)).
Proof.
  apply versions_stored.
  - apply version_message_ok; try done; [repeat constructor; discriminate|exact sample_versions_fit].
  - repeat apply Forall_cons_2; try apply Forall_nil_2; right; apply (bool_decide_unpack _); vm_compute; exact I.
  - apply (bool_decide_unpack _). vm_compute. exact I.
  - done.
  - repeat split; repeat apply Forall_cons_2; try apply Forall_nil_2; by split.
  - by split.
Defined.
(** The tail of the longer version of the earlier answer is read behind the new
    one. *)
Example older_tail_stays :
  match receive_dms 1 (version_message (zs "EG25GGBR07A08M2G") sample_versions) flashed_dms with
  | Ret (_, r, _) => cstr (primary (firmware_sections r)) = Ret (zs "EG25GGBR07A08M2G_30.004")
  | _ => False
  end.
Proof. vm_compute. reflexivity. Qed.

Lemma unknown_section vs1 v vs2 log_level m p r :
  version_answer m p (vs1 ++ v :: vs2) -> Forall kept_section vs1 -> zlen p <= 256 -> dms_ok r ->
  (forall f, section_text (v_section v) f = None) -> v_text v <> [] -> log_level <= MSG_WARN ->
  receive_dms log_level m r = Oob.
Proof.
  intros Hm Hk Hp [Hr Hf] Hu Ht Hlog. rewrite (version_start _ _ _ _ Hm), bind_assoc.
  rewrite (bind_step _ _ _ _ _ (take_primary_run m p _ Hm r Hp (proj1 Hf))).
  set (f1 := set_primary (over p (primary (firmware_sections r))) (firmware_sections r)).
  assert (fw_ok f1) as Hf1.
  { apply set_primary_ok; [done|]. destruct Hf as [Hl _]. unfold over. rewrite length_app, length_drop.
    unfold zlen in Hp. lia. }
  destruct (take_sections_run log_level m p _ Hm (set_firmware f1 r) Hf1) as (b & rest & off & Hb & Hz & _ & Hl & Hrun).
  pose proof (va_fits _ _ _ Hm) as [Hv1 Hv2]%Forall_app. inversion_clear Hv2 as [|? ? Hv Hv2'].
  assert (enc_versions (vs1 ++ v :: vs2) = enc_versions vs1 ++ enc_version v ++ enc_versions vs2) as Henc
    by (unfold enc_versions; by rewrite map_app, concat_app).
  assert (take_sections log_level (a_bytes m) (a_len m) (set_firmware f1 r) = Oob) as Ho.
  { rewrite Hrun, length_app, Henc, <- app_assoc. cbn [length].
    rewrite Henc in Hl. rewrite !zlen_app in Hl. pose proof (zlen_nonneg (enc_version v)).
    pose proof (zlen_nonneg (enc_versions vs2)). pose proof (zlen_nonneg (enc_versions vs1)).
    rewrite version_loop_run; [|apply in_or_app; by right|done|done|done|zl; lia|done].
    rewrite app_assoc, <- (app_assoc (enc_version v)).
    rewrite version_step; [|done|apply in_or_app; by right|zl; lia|lia|by apply fold_store_ok].
    rewrite Hu. destruct (v_text v); [done|]. unfold log_missing. rewrite (proj2 (Z.leb_le _ _)) by done. done. }
  unfold bind at 1. by rewrite Ho.
Qed.

(** A version of a section the client does not know stops the daemon's
    thread at every level the log can be set to: the line of the log that
    reports it has no text for its first conversion. The versions before it do
    not matter. *)
Theorem unknown_section_faults log_level m p vs1 v vs2 r :
  version_answer m p (vs1 ++ v :: vs2) -> Forall kept_section vs1 -> zlen p <= 256 -> dms_ok r ->
  ~ v_section v ∈ [1; 2; 3; 4; 7; 8; 9; 10] -> v_text v <> [] -> log_level <= MSG_WARN ->
  receive_dms log_level m r = Oob.
Proof.
  intros Hm Hk Hp Hr Hu Ht Hl. eapply unknown_section; try done. intros f. rewrite list_elem_of_In in Hu.
  cbn [In] in Hu. unfold section_text.
  repeat (rewrite (proj2 (Z.eqb_neq _ _)) by (intros Heq; apply Hu; rewrite Heq; unfold FIRMWARE_STR_SBL,
    FIRMWARE_STR_TZ, FIRMWARE_STR_TZ_SEC, FIRMWARE_STR_RPM, FIRMWARE_STR_BOOTLOADER, FIRMWARE_STR_APPS,
    FIRMWARE_STR_MPSS, FIRMWARE_STR_ADSP; tauto)). done.
Qed.
Lemma unknown_section_faults_witness :
  receive_dms 1 (version_message (zs "EG25") (sample_versions ++ {| v_section := 0x0b; v_text := zs "CNSS" |} :: []))
    idle_dms = Oob.
Proof.
  apply (unknown_section_faults 1 _ (zs "EG25") sample_versions {| v_section := 0x0b; v_text := zs "CNSS" |} []).
  - apply version_message_ok; try done; [repeat constructor; discriminate|]. apply Forall_app. split; [exact sample_versions_fit|].
    repeat apply Forall_cons_2; try apply Forall_nil_2; (split; [cbn; lia|split; [by vm_compute|repeat constructor; discriminate]]).
  - repeat apply Forall_cons_2; try apply Forall_nil_2; right; apply (bool_decide_unpack _); vm_compute; exact I.
  - by vm_compute.
  - exact idle_dms_ok.
  - apply (bool_decide_unpack _). vm_compute. exact I.
  - done.
  - by vm_compute.
Defined.

(** A first version of 256 characters is taken, fills its field and is then
    printed past it. *)
Theorem primary_256_unterminated log_level m p r :
  version_answer m p [] -> zlen p = 256 -> dms_ok r -> log_level <= MSG_INFO ->
  receive_dms log_level m r = Oob.
Proof.
  intros Hm Hp [Hr Hf] Hl. rewrite (version_start _ _ _ _ Hm), bind_assoc.
  rewrite (bind_step _ _ _ _ _ (take_primary_run m p _ Hm r ltac:(lia) (proj1 Hf))).
  set (f1 := set_primary _ _).
  assert (over p (primary (firmware_sections r)) = p) as Hov
    by (unfold over; rewrite drop_ge, app_nil_r; [done|destruct Hf as [-> _]; unfold zlen in Hp; lia]).
  assert (fw_ok f1) as Hf1 by (apply set_primary_ok; [done|rewrite Hov; unfold zlen in Hp; lia]).
  destruct (take_sections_run log_level m p _ Hm (set_firmware f1 r) Hf1) as (b & rest & off & _ & _ & _ & _ & Hrun).
  rewrite (bind_step _ _ _ false (set_firmware f1 r) Hrun).
  unfold print_information. rewrite bind_assoc, bind_get. unfold bind, lift, print_modem_information, log_texts.
  repeat match goal with H : Forall _ (_ :: _) |- _ => inversion_clear H end.
  cbn [modem_model modem_serial_num modem_hw_rev modem_revision modem_sw_ver firmware_sections set_firmware].
  rewrite !log_text_run by auto using field_nul. cbn [cbind]. unfold f1 at 1. cbn [primary set_primary].
  rewrite Hov. unfold log_text at 1. rewrite (proj2 (Z.leb_le _ _)) by done. by rewrite cstr_no_nul by exact (va_texts _ _ _ Hm).
Qed.
Lemma primary_256_unterminated_witness : receive_dms 1 (version_message (replicate 256 65) []) idle_dms = Oob.
Proof.
  apply (primary_256_unterminated 1 _ (replicate 256 65)); [|done|exact idle_dms_ok|done].
  apply version_message_ok; try done; by apply Forall_replicate.
Defined.
(** A text laid over a longer one keeps its tail. *)
Example shorter_model_mixed :
  check_and_set_fw_string (a_bytes (sample_answer DMS_GET_MODEL [done_tlv; Build_tlv 0x01 (zs "EC2")])) 33 0x01
    (zs "EG25-G" ++ replicate 250 0) = Ret (zs "EC25-G" ++ replicate 250 0).
Proof. vm_compute. reflexivity. Qed.
