(* ===== verification/Services.v ===== *)
(** The clients without a state of their own: configurations of the modem
    (src/pdc_client.c), IMS settings (src/ims_client.c), files of the modem
    (src/mdm_fs_client.c) and voice (src/voice_client.c). They queue requests and
    read the answers for the log. *)

From stdpp Require Import base list numbers option strings.
From Stdlib Require Import ZArith Lia.
From S2P Require Import Prelude Libc Eff Qmi QmiClient Requests.

(** add_pending_message, qmi.c *)
Inductive service_action := Request (svc : Z) (pkt : list Z).

Definition PERSISTENT_DEVICE_CONFIG_INDICATION_REGISTER : Z := 0x0020.
Definition PERSISTENT_DEVICE_CONFIG_CONFIG_CHANGE_IND : Z := 0x0021.
Definition PERSISTENT_DEVICE_CONFIG_LIST_CONFIGS : Z := 0x0024.
Definition PDC_CONFIG_SW : Z := 0x01.
Definition QMI_IMS_SETTINGS_GET_SIP_CONFIG : Z := 0x0025.
Definition QMI_IMS_GET_ACTIVE_SUBSCRIPTION_STATUS : Z := 0x009A.
Definition MODEM_FS_READ : Z := 0x0021.
Definition VOICE_INDICATION_REGISTER : Z := 0x0003.

Section Clients.
Context {T : Type}.
#[local] Abbreviation MS := (M T service_action).

(** A request with the fields [fields], in a packet of their size. *)
Definition fields_request (svc msgid : Z) (fields : list tlv) : MS Z :=
  do* pkt := lift (start_request svc (SZ_ENCAP + zlen (enc_tlvs fields)) msgid) in
  match pkt with
  | None => ret (- EINVAL)
  | Some pkt =>
      do* pkt := lift (lay fields pkt SZ_ENCAP) in
      queue_request Request svc (Some pkt)
  end.

(** * Configurations *)

Definition pdc_register_to_events : MS Z :=
  u8_request Request QMI_SERVICE_PDC 2 PERSISTENT_DEVICE_CONFIG_INDICATION_REGISTER [0x10; 0x11].
Definition pdc_request_config_list : MS Z :=
  fields_request QMI_SERVICE_PDC PERSISTENT_DEVICE_CONFIG_LIST_CONFIGS
    [Build_tlv 0x10 (le 4 0xdeadbeef); Build_tlv 0x11 (le 4 PDC_CONFIG_SW)].

(** The entries from [pktoffset] on: the type, the length of the identifier, and
    the end of the message after each. *)
Fixpoint config_loop (n : nat) (buf : list Z) (buf_len pktoffset : Z) : cres Z :=
  match n with
  | O => Ret 0
  | S n =>
      let* config_type := rd32 buf pktoffset in
      let* config_id_size := rd buf (pktoffset + 4) in
      let pktoffset := pktoffset + 5 + config_id_size in
      if buf_len <? pktoffset then Ret (- ENOMEM) else config_loop n buf buf_len pktoffset
  end.
Definition pdc_read_config_list (buf : list Z) (buf_len : Z) : cres Z :=
  let* qmi_err := did_qmi_op_fail buf buf_len in
  let* offset := get_tlv_offset_by_id buf buf_len 0x11 in
  if 0 <? offset then
    let* num_elements := rd buf (offset + 3) in
    config_loop (Z.to_nat num_elements) buf buf_len (offset + 4)
  else Ret 0.
(** The four messages from the change indication to the list are read as
    lists. *)
Definition handle_incoming_pdc_message (buf : list Z) (buf_len : Z) : MS Z :=
  do* id := lift (get_qmi_message_id buf) in
  if id =? PERSISTENT_DEVICE_CONFIG_INDICATION_REGISTER then do* _ := pdc_request_config_list in ret 0
  else if (PERSISTENT_DEVICE_CONFIG_CONFIG_CHANGE_IND <=? id) && (id <=? PERSISTENT_DEVICE_CONFIG_LIST_CONFIGS) then
    do* _ := lift (pdc_read_config_list buf buf_len) in ret 0
  else ret 0.
Definition register_to_pdc_service : MS unit := do* _ := pdc_register_to_events in ret tt.

(** * IMS settings *)

Definition ims_request_sip_config : MS Z :=
  plain_request Request QMI_SERVICE_IMS_SETTINGS QMI_IMS_SETTINGS_GET_SIP_CONFIG.
Definition ims_get_subscription : MS Z :=
  plain_request Request QMI_SERVICE_IMS_SETTINGS QMI_IMS_GET_ACTIVE_SUBSCRIPTION_STATUS.
(** The settings that are read: the field and its bytes. *)
Definition ims_settings : list (Z * nat) :=
  [(0x10, 1%nat); (0x11, 2%nat); (0x12, 4%nat); (0x13, 4%nat); (0x14, 4%nat); (0x15, 4%nat); (0x16, 2%nat);
   (0x17, 1%nat); (0x18, 2%nat); (0x19, 4%nat); (0x1a, 1%nat); (0x1b, 4%nat); (0x1c, 4%nat)].
Fixpoint read_settings (l : list (Z * nat)) (buf : list Z) (buf_len : Z) : cres Z :=
  match l with
  | [] => Ret 0
  | (id, n) :: l =>
      let* offset := get_tlv_offset_by_id buf buf_len id in
      let* _ := if 0 <? offset then rdn buf (offset + 3) n else Ret [] in
      read_settings l buf buf_len
  end.
Definition ims_process_config_response (buf : list Z) (buf_len : Z) : cres Z :=
  read_settings ims_settings buf buf_len.
Definition ims_process_active_subscription_status (buf : list Z) (buf_len : Z) : cres Z :=
  read_settings [(0x10, 1%nat); (0x11, 1%nat); (0x12, 1%nat)] buf buf_len.
Definition handle_incoming_ims_message (buf : list Z) (buf_len : Z) : MS Z :=
  do* id := lift (get_qmi_message_id buf) in
  if id =? QMI_IMS_SETTINGS_GET_SIP_CONFIG then
    do* _ := lift (ims_process_config_response buf buf_len) in ret 0
  else if id =? QMI_IMS_GET_ACTIVE_SUBSCRIPTION_STATUS then
    do* _ := lift (ims_process_active_subscription_status buf buf_len) in ret 0
  else ret 0.
Definition register_to_ims_service : MS unit :=
  do* _ := ims_request_sip_config in
  do* _ := ims_get_subscription in ret tt.

(** * Files of the modem *)

Definition mdmfs_request_read_file (path : list Z) : MS Z :=
  fields_request QMI_SERVICE_MDMFS MODEM_FS_READ [Build_tlv 0x01 path].
Definition mdmfs_demo_read : MS Z :=
  do* _ := mdmfs_request_read_file (zs "/nv/item_files/modem/mmode/sms_domain_pref") in ret 0.
Definition handle_incoming_mdmfs_message (buf : list Z) (buf_len : Z) : MS Z :=
  do* _ := lift (get_qmi_message_id buf) in ret 0.
Definition register_to_mdmfs_service : MS unit := do* _ := mdmfs_demo_read in ret tt.

(** * Voice *)

Definition voice_register_to_events : MS Z :=
  u8_request Request QMI_SERVICE_VOICE 19 VOICE_INDICATION_REGISTER
    [0x10; 0x11; 0x12; 0x13; 0x14; 0x15; 0x16; 0x18; 0x19; 0x1a; 0x1b; 0x1e; 0x1f; 0x21; 0x24; 0x25; 0x26; 0x28; 0x29].
Definition handle_incoming_voice_message (buf : list Z) (buf_len : Z) : MS Z :=
  do* _ := lift (get_qmi_message_id buf) in ret 0.
Definition register_to_voice_service : MS unit := do* _ := voice_register_to_events in ret tt.
End Clients.
