(* ===== verification/Gsm7.v ===== *)
(** SMS text and number codecs (src/sms.c, inc/sms.h): the GSM 7-bit packing
    and unpacking, the semi-octet numbers and dates, the data coding scheme.
    The packed buffer is specified as one number in base 128, laid out in
    little-endian bytes. *)

From stdpp Require Import base list numbers option strings.
From Stdlib Require Import ZArith Lia.
From S2P Require Import Prelude Libc.

(** * Tables and constants *)

Definition Ascii8to7 : list Z := [
   63; 63; 63; 63; 63; 63; 63; 63; 63; 63; 10; 63; 138; 13; 63; 63;
   63; 63; 63; 63; 63; 63; 63; 63; 63; 63; 63; 63; 63; 63; 63; 63;
   32; 33; 34; 35; 2; 37; 38; 39; 40; 41; 42; 43; 44; 45; 46; 47;
   48; 49; 50; 51; 52; 53; 54; 55; 56; 57; 58; 59; 60; 61; 62; 63;
   0; 65; 66; 67; 68; 69; 70; 71; 72; 73; 74; 75; 76; 77; 78; 79;
   80; 81; 82; 83; 84; 85; 86; 87; 88; 89; 90; 188; 175; 190; 148; 17;
   217; 97; 98; 99; 100; 101; 102; 103; 104; 105; 106; 107; 108; 109; 110; 111;
   112; 113; 114; 115; 116; 117; 118; 119; 120; 121; 122; 168; 192; 169; 189; 63;
   63; 63; 39; 102; 34; 63; 63; 63; 63; 63; 83; 39; 214; 63; 63; 63;
   63; 39; 39; 34; 34; 42; 45; 45; 39; 63; 115; 39; 111; 63; 63; 89;
   32; 64; 99; 1; 36; 3; 33; 95; 34; 63; 63; 60; 63; 45; 63; 63;
   63; 63; 50; 51; 39; 117; 63; 63; 63; 49; 63; 62; 63; 63; 63; 96;
   65; 65; 65; 65; 91; 14; 28; 9; 31; 31; 31; 31; 73; 73; 73; 73;
   68; 93; 79; 79; 79; 79; 92; 42; 11; 85; 85; 85; 94; 89; 63; 30;
   127; 97; 97; 97; 123; 15; 29; 9; 4; 5; 101; 101; 7; 7; 105; 105;
   63; 125; 8; 111; 111; 111; 24; 47; 12; 6; 117; 117; 126; 121; 63; 121].

Definition SMS_NUMBER_TYPE_MASK : Z := 0x70.
Definition SMS_NUMBER_TYPE_ALPHA : Z := 0x50.

(** enum MMSmsEncoding *)
Definition MM_SMS_ENCODING_UNKNOWN : Z := 0.
Definition MM_SMS_ENCODING_GSM7 : Z := 1.
Definition MM_SMS_ENCODING_8BIT : Z := 2.
Definition MM_SMS_ENCODING_UCS2 : Z := 3.

(** * Unpacking *)

(** The body of the loop of [gsm7_to_ascii]: the character that starts at the
    bit [start_bit] of the buffer. *)
Definition gsm7_char (buffer : list Z) (start_bit : Z) : cres Z :=
  let offset := start_bit mod 8 in
  let bits_here := if negb (offset =? 0) then 8 - offset else 7 in
  let bits_in_next := 7 - bits_here in
  let* octet := rd buffer (start_bit / 8) in
  let c := Z.land (Z.shiftr octet offset) (Z.shiftr 0xFF (8 - bits_here)) in
  if negb (bits_in_next =? 0) then
    let* octet := rd buffer (start_bit / 8 + 1) in
    Ret (u8 (Z.lor c (Z.shiftl (Z.land octet (Z.shiftr 0xFF (8 - bits_in_next))) bits_here)))
  else Ret c.

Fixpoint gsm7_loop (n : nat) (i : Z) (buffer out : list Z) (bit_offset : Z) : cres (list Z) :=
  match n with
  | O => Ret out
  | S n =>
      let* c := gsm7_char buffer (u32 (bit_offset + i * 7)) in
      let* out := wr out i c in
      gsm7_loop n (i + 1) buffer out bit_offset
  end.

(** The returned count is [buffer_length]; [sms_text_length] is not used. *)
Definition gsm7_to_ascii (buffer : list Z) (buffer_length : Z) (output_sms_text : list Z)
    (bit_offset : Z) : cres (Z * list Z) :=
  let* out := gsm7_loop (Z.to_nat buffer_length) 0 buffer output_sms_text bit_offset in
  Ret (Z.max 0 buffer_length, out).

(** * Packing *)

Definition Write7Bits (buffer : list Z) (val pos : Z) : cres (list Z) :=
  let val := Z.land val 0x7F in
  let idx := u8 (pos / 8) in
  if Z.land pos 7 =? 0 then wr buffer idx val
  else if Z.land pos 7 =? 1 then
    let* b := rd buffer idx in
    wr buffer idx (u8 (Z.lor b (Z.shiftl val 1)))
  else
    let* b := rd buffer idx in
    let* buffer := wr buffer idx (u8 (Z.lor b (Z.shiftl val (Z.land pos 7)))) in
    wr buffer (idx + 1) (Z.shiftr val (8 - Z.land pos 7)).

(** One turn of the loop of [ascii_to_gsm7], for the character [c]. *)
Definition gsm7_put (buf : list Z) (write c : Z) : cres (list Z * Z) :=
  let* byte := rd Ascii8to7 c in
  if 128 <=? byte then
    let* buf := Write7Bits buf 0x1B (write * 7) in
    let* buf := Write7Bits buf (byte - 128) ((write + 1) * 7) in
    Ret (buf, write + 2)
  else
    let* buf := Write7Bits buf byte (write * 7) in
    Ret (buf, write + 1).

Fixpoint gsm7_put_all (s buf : list Z) (write : Z) : cres (list Z * Z) :=
  match s with
  | [] => Ret (buf, write)
  | c :: s => let* '(buf, write) := gsm7_put buf write c in gsm7_put_all s buf write
  end.

(** The C string [a8bit] packed into [a7bit]; the count is a uint8_t. *)
Definition ascii_to_gsm7 (a8bit a7bit : list Z) : cres (Z * list Z) :=
  let* s := cstr a8bit in
  let* '(buf, write) := gsm7_put_all s a7bit 0 in
  Ret (u8 write, buf).

(** * Numbers and dates *)

Definition swap_byte (source : Z) : Z := u8 (u8 (source mod 10) * 16 + source / 10).

(** A date octet of a received PDU: the digits in swapped nibbles. *)
Definition semi_octet (x : Z) : Z := Z.land x 0xf * 10 + Z.land (Z.shiftr x 4) 0xf.

(** snprintf's 128 bytes hold the 23 the format needs. *)
Definition sms_decode_timestamp (timestamp output : list Z) : cres (list Z) :=
  let* t0 := rd timestamp 0 in
  let* t1 := rd timestamp 1 in
  let* t2 := rd timestamp 2 in
  let* t3 := rd timestamp 3 in
  let* t4 := rd timestamp 4 in
  let* t5 := rd timestamp 5 in
  let* _ := rd timestamp 6 in
  let text := fmt_prec 4 (2000 + semi_octet t0) ++ zs "-" ++ fmt_prec 2 (semi_octet t1) ++
    zs "-" ++ fmt_prec 2 (semi_octet t2) ++ zs " " ++ fmt_prec 2 (semi_octet t3) ++
    zs ":" ++ fmt_prec 2 (semi_octet t4) ++ zs ":" ++ fmt_prec 2 (semi_octet t5) in
  let* '(output, _) := snprintf output 128 text in
  Ret output.

(** [data] points at the type-of-address octet. The counter [count] is a
    uint8_t; [len] is one as well. *)
Fixpoint number_loop (n : nat) (i len count : Z) (data number : list Z) : cres (list Z) :=
  match n with
  | O => Spin
  | S n =>
      if i <? len then
        let* d := rd data i in
        let* number := wr number count (Z.land d 0x0f + 48) in
        let* number := wr number (count + 1) (Z.shiftr (Z.land d 0xf0) 4 + 48) in
        let count := u8 (count + 2) in
        if 0xf0 <? d then wr number (count - 1) 0
        else number_loop n (u8 (i + 1)) len count data number
      else Ret number
  end.

Definition decode_number (data : list Z) (len : Z) (number : list Z) : cres (Z * list Z) :=
  let* d0 := rd data 0 in
  let num_type := Z.land d0 SMS_NUMBER_TYPE_MASK in
  if len <? 1 then
    let* number := wr number 0 69 in
    Ret (- EINVAL, number)
  else if num_type =? SMS_NUMBER_TYPE_ALPHA then
    let* '(_, number) := gsm7_to_ascii (drop 1 data) (len - 1) number 0 in
    Ret (0, number)
  else if d0 =? 0x91 then
    let* number := wr number 0 43 in
    let* number := number_loop 256 1 len 1 data number in
    Ret (0, number)
  else
    let* number := number_loop 256 0 len 0 data number in
    Ret (0, number).

(** The nibbles of a stored phone number, from position [j], into the local
    127-byte [output]. *)
Fixpoint phone_loop (n : nat) (i j : Z) (buffer output : list Z) : cres (list Z) :=
  match n with
  | O => Ret output
  | S n =>
      let* b := rd buffer j in
      if i mod 2 =? 0 then
        let* output := wr output i (Z.land b 0x0f + 48) in
        phone_loop n (i + 1) j buffer output
      else
        let* output := wr output i (Z.shiftr (Z.land b 0xf0) 4 + 48) in
        phone_loop n (i + 1) (j + 1) buffer output
  end.

(** [output] is a local array, unset until written. *)
Definition decode_phone_number (buffer : list Z) (len : Z) (output out : list Z)
  : cres (Z * list Z) :=
  let* is_international :=
    (if 0 <? len then let* b := rd buffer 0 in Ret (b =? 0x91) else Ret false) in
  let j := if is_international : bool then 1 else 0 in
  let* output := phone_loop (Z.to_nat len) 0 j buffer output in
  let* output := wr output len 0 in
  let* text := cstr output in
  let* '(out, _) := snprintf out 128 (if is_international then 43 :: text else text) in
  Ret (len, out).

(** * Data coding scheme *)

Definition sms_encoding_type (dcs : Z) : Z :=
  let group := Z.land (Z.shiftr dcs 4) 0xf in
  if group <=? 3 then
    let alphabet := Z.land dcs 0x0c in
    if alphabet =? 0x08 then MM_SMS_ENCODING_UCS2
    else if (alphabet =? 0x00) || (alphabet =? 0x0c) then MM_SMS_ENCODING_GSM7
    else if alphabet =? 0x04 then MM_SMS_ENCODING_8BIT
    else MM_SMS_ENCODING_UNKNOWN
  else if (group =? 0xc) || (group =? 0xd) then MM_SMS_ENCODING_GSM7
  else if group =? 0xe then MM_SMS_ENCODING_UCS2
  else if group =? 0xf then
    if Z.land dcs 0x04 =? 0 then MM_SMS_ENCODING_GSM7 else MM_SMS_ENCODING_8BIT
  else MM_SMS_ENCODING_GSM7.

(** * Specification: a text of septets is one number in base 128 *)

Fixpoint b128 (vs : list Z) : Z :=
  match vs with
  | [] => 0
  | v :: vs => v + 128 * b128 vs
  end.

(** Bytes that [n] septets take. *)
Definition packed_size (n : nat) : nat := Z.to_nat ((7 * Z.of_nat n + 7) / 8).

Definition septet_ok (v : Z) : Prop := 0 <= v < 128.

(** The septets of a character: one, or an escape and one. *)
Definition char_septets (c : Z) : list Z :=
  let byte := nth (Z.to_nat c) Ascii8to7 0 in
  if 128 <=? byte then [0x1B; byte - 128] else [byte].
Definition text_septets (s : list Z) : list Z := concat (map char_septets s).

(** A character the table leaves alone, printable and not NUL. *)
Definition plain_char (c : Z) : Prop := 0 < c < 128 /\ nth (Z.to_nat c) Ascii8to7 0 = c.

(** ** Lemmas on the numbers *)

Lemma b128_bound vs : Forall septet_ok vs -> 0 <= b128 vs < 2 ^ (7 * zlen vs).
Proof.
  induction 1 as [|v vs Hv _ IH]; [vm_compute; split; congruence|]. unfold septet_ok in Hv. pose proof (zlen_nonneg vs).
  cbn [b128]. zl. replace (7 * (1 + zlen vs)) with (7 + 7 * zlen vs) by lia.
  rewrite Z.pow_add_r by lia. change (2 ^ 7) with 128. lia.
Qed.

Lemma b128_app vs ws : b128 (vs ++ ws) = b128 vs + 2 ^ (7 * zlen vs) * b128 ws.
Proof.
  induction vs as [|v vs IH]; [change (2 ^ (7 * zlen (@nil Z))) with 1; cbn [b128 app]; lia|]. pose proof (zlen_nonneg vs).
  cbn [b128 app]. rewrite IH. zl. replace (7 * (1 + zlen vs)) with (7 + 7 * zlen vs) by lia.
  rewrite Z.pow_add_r by lia. change (2 ^ 7) with 128. lia.
Qed.

Lemma b128_digit vs ws v : Forall septet_ok (vs ++ v :: ws) ->
  b128 (vs ++ v :: ws) / 2 ^ (7 * zlen vs) mod 128 = v.
Proof.
  intros [Hvs Hv]%Forall_app. inversion Hv as [|? ? Hv1 Hws]; subst.
  pose proof (b128_bound _ Hvs). pose proof (zlen_nonneg vs). unfold septet_ok in Hv1.
  rewrite b128_app, (Z.mul_comm (2 ^ _)), Z.div_add by lia.
  rewrite (Z.div_small (b128 vs)) by lia. cbn [b128].
  rewrite Z.add_0_l, (Z.mul_comm 128), Z.mod_add by lia. apply Z.mod_small. lia.
Qed.

Lemma packed_size_0 n : Z.of_nat (packed_size n) = (7 * Z.of_nat n + 7) / 8.
Proof. unfold packed_size. dlia. Qed.

(** ** Packing *)

(** Where a septet lands when [r] bits, of value [h], of its first byte are
    taken: the bits that stay in the byte and those that go over to the next. *)
Lemma septet_low h v r : 0 <= r < 8 -> 0 <= h < 2 ^ r -> Z.lor h (Z.shiftl v r) = h + v * 2 ^ r.
Proof.
  intros Hr Hh. rewrite <- Z.shiftl_mul_pow2 by lia. symmetry.
  apply Z.add_nocarry_lor, lor_shift_disjoint; lia.
Qed.
Lemma septet_high h v r :
  0 <= r < 8 -> 0 <= h < 2 ^ r -> 0 <= v < 128 ->
  ((h + v * 2 ^ r) / 256) mod 256 = Z.shiftr v (8 - r).
Proof.
  intros Hr Hh Hv. rewrite Z.shiftr_div_pow2 by lia.
  assert (256 = 2 ^ r * 2 ^ (8 - r)) as E
    by (rewrite <- Z.pow_add_r by lia; by replace (r + (8 - r)) with 8 by lia).
  assert ((h + v * 2 ^ r) / 256 = v / 2 ^ (8 - r)) as ->.
  { rewrite E at 1. rewrite <- Z.div_div by lia. rewrite Z.div_add by lia.
    by rewrite (Z.div_small h) by lia. }
  pose proof (Z.pow_pos_nonneg 2 (8 - r)). apply Z.mod_small. split; [apply Z.div_pos; lia|].
  apply Z.div_lt_upper_bound; [lia|]. nia.
Qed.
Lemma packed_size_bits n q r :
  7 * Z.of_nat n = 8 * Z.of_nat q + r -> 0 <= r < 8 ->
  packed_size n = (if (r =? 0)%Z then q else S q) /\
  packed_size (S n) = (if (r <=? 1)%Z then S q else S (S q)).
Proof.
  intros Hq Hr. unfold packed_size. split; [destruct (Z.eqb_spec r 0)|destruct (Z.leb_spec r 1)]; dlia.
Qed.

(** One septet appended to a packed text. *)
Lemma Write7Bits_spec vs v b0 :
  Forall septet_ok vs -> septet_ok v ->
  (packed_size (S (length vs)) <= length b0)%nat -> 7 * zlen vs < 2048 ->
  Write7Bits (le (packed_size (length vs)) (b128 vs) ++ drop (packed_size (length vs)) b0)
    v (zlen vs * 7) =
  Ret (le (packed_size (S (length vs))) (b128 (vs ++ [v])) ++
       drop (packed_size (S (length vs))) b0).
Proof.
  intros Hvs Hv Hfit Hlim. pose proof (b128_bound _ Hvs) as Hb. unfold septet_ok in Hv.
  pose proof (zlen_nonneg vs) as Hn.
  rewrite b128_app. cbn [b128]. rewrite Z.mul_0_r, Z.add_0_r.
  set (V := b128 vs) in *. set (n := zlen vs) in *.
  set (q := Z.to_nat (7 * n / 8)). set (r := 7 * n mod 8).
  assert (Hqr : 7 * n = 8 * Z.of_nat q + r) by (unfold q, r; dlia).
  assert (Hr : 0 <= r < 8) by (unfold r; dlia).
  destruct (packed_size_bits (length vs) q r Hqr Hr) as [Hsz Hsz'].
  unfold Write7Bits. rewrite (Z.mul_comm n 7).
  assert (Z.land (7 * n) 7 = r) as -> by (apply (Z.land_ones _ 3); lia).
  assert (Z.land v 0x7F = v) as ->.
  { change 0x7F with (Z.ones 7). rewrite Z.land_ones by lia. apply Z.mod_small. lia. }
  replace (u8 (7 * n / 8)) with (Z.of_nat q) by (unfold u8, q; dlia).
  assert (HV' : V + 2 ^ (7 * n) * v = V + v * 2 ^ r * 256 ^ Z.of_nat q).
  { rewrite Hqr, Z.pow_add_r, Z.pow_mul_r by lia. change (2 ^ 8) with 256. lia. }
  rewrite HV'.
  assert (Hlow : forall k, le q (V + k * 256 ^ Z.of_nat q) = le q V) by (intros; apply le_add_high).
  assert (Hdiv : forall k, (V + k * 256 ^ Z.of_nat q) / 256 ^ Z.of_nat q = V / 256 ^ Z.of_nat q + k)
    by (intros; apply Z.div_add; lia).
  set (h := V / 256 ^ Z.of_nat q) in *.
  assert (Hh : 0 <= h < 2 ^ r).
  { unfold h. split; [apply Z.div_pos; lia|]. apply Z.div_lt_upper_bound; [lia|].
    rewrite Hqr, Z.pow_add_r, Z.pow_mul_r in Hb by lia. change (2 ^ 8) with 256 in Hb. lia. }
  assert (Hq : zlen (le q V) = Z.of_nat q) by apply zlen_le.
  rewrite Hsz, Hsz' in *.
  assert (Hfit1 : (q < length b0)%nat) by (destruct (r <=? 1); lia).
  destruct (Z.eqb_spec r 0) as [Hr0|Hr0].
  - (* the septet starts a byte *)
    ifdec. destruct (lookup_lt_is_Some_2 b0 q) as [y Hy]; [lia|].
    rewrite (drop_S _ _ _ Hy). rewrite (wrA_at _ _ _ _ _ Hq).
    rewrite le_snoc, <- app_assoc. f_equal. cbn [app]. rewrite Hlow, Hdiv. repeat f_equal.
    rewrite Hr0 in Hh |- *. change (2 ^ 0) with 1 in *.
    rewrite Z.mod_small; lia.
  - pose proof (septet_low h v r Hr Hh) as Hor.
    rewrite le_snoc, <- app_assoc. cbn [app]. fold h.
    rewrite (Z.mod_small h).
    2: { pose proof (Z.pow_le_mono_r 2 r 7). lia. }
    destruct (Z.eqb_spec r 1) as [Hr1|Hr1].
    + ifdec. rewrite (rdA_at _ _ _ _ Hq). cbn [cbind]. rewrite (wrA_at _ _ _ _ _ Hq).
      rewrite le_snoc, <- app_assoc. cbn [app]. rewrite Hlow, Hdiv.
      rewrite Hr1 in Hor |- *. by rewrite Hor.
    + assert (Hr2 : (r <=? 1) = false) by (apply Z.leb_gt; lia). rewrite Hr2 in *.
      ifdec. rewrite (rdA_at _ _ _ _ Hq). cbn [cbind]. rewrite (wrA_at _ _ _ _ _ Hq). cbn [cbind].
      destruct (lookup_lt_is_Some_2 b0 (S q)) as [y Hy]; [lia|].
      rewrite (drop_S _ _ _ Hy).
      replace (Z.of_nat q + 1) with (zlen (le q V ++ [u8 (Z.lor h (Z.shiftl v r))])) by (zl; lia).
      rewrite cons_middle, app_assoc. rewrite wrA_middle.
      rewrite !le_snoc, <- !app_assoc. cbn [app]. rewrite Hlow, Hdiv, Hor.
      rewrite Nat2Z.inj_succ, Z.pow_succ_r, (Z.mul_comm 256), <- Z.div_div by lia.
      rewrite Hdiv. repeat f_equal. symmetry. apply septet_high; lia.
Qed.

(** A septet that does not fit is written past the end of the buffer. *)
Lemma Write7Bits_full vs v b0 :
  (packed_size (length vs) <= length b0 < packed_size (S (length vs)))%nat ->
  7 * zlen vs < 2048 ->
  Write7Bits (le (packed_size (length vs)) (b128 vs) ++ drop (packed_size (length vs)) b0)
    v (zlen vs * 7) = Oob.
Proof.
  intros [H1 H2] Hlim. rewrite (drop_ge b0) by (unfold packed_size in *; dlia).
  rewrite app_nil_r. set (m := le _ _).
  assert (Hm : zlen m = Z.of_nat (packed_size (length vs))) by apply zlen_le.
  rewrite packed_size_0 in Hm. fold (zlen vs) in Hm. pose proof (zlen_nonneg vs).
  assert (Hs : Z.of_nat (packed_size (length vs)) < Z.of_nat (packed_size (S (length vs)))) by lia.
  rewrite !packed_size_0, Nat2Z.inj_succ in Hs. fold (zlen vs) in Hs.
  set (n := zlen vs) in *.
  unfold Write7Bits. rewrite (Z.mul_comm n).
  assert (Z.land (7 * n) 7 = 7 * n mod 8) as -> by (apply (Z.land_ones _ 3); lia).
  replace (u8 (7 * n / 8)) with (7 * n / 8) by (unfold u8; dlia).
  destruct (Z.eqb_spec (7 * n mod 8) 0); [apply wrA_out; dlia|].
  destruct (Z.eqb_spec (7 * n mod 8) 1); [dlia|].
  destruct (rdA_in m (7 * n / 8)) as [x ->]; [dlia|]. cbn [cbind].
  rewrite wrA_ok by dlia. cbn [cbind]. apply wrA_out. zl. dlia.
Qed.

Fixpoint write_septets (vs buf : list Z) (write : Z) : cres (list Z) :=
  match vs with
  | [] => Ret buf
  | v :: vs => let* buf := Write7Bits buf v (write * 7) in write_septets vs buf (write + 1)
  end.

Lemma packed_size_mono n m : (n <= m)%nat -> (packed_size n <= packed_size m)%nat.
Proof. intros. pose proof (packed_size_0 n). pose proof (packed_size_0 m). dlia. Qed.

Lemma write_septets_spec ws vs b0 :
  Forall septet_ok (vs ++ ws) -> zlen b0 <= 256 ->
  (packed_size (length vs) <= length b0)%nat ->
  write_septets ws (le (packed_size (length vs)) (b128 vs) ++ drop (packed_size (length vs)) b0)
    (zlen vs) =
  if decide (packed_size (length (vs ++ ws)) <= length b0)%nat
  then Ret (le (packed_size (length (vs ++ ws))) (b128 (vs ++ ws)) ++
            drop (packed_size (length (vs ++ ws))) b0)
  else Oob.
Proof.
  revert vs; induction ws as [|w ws IH]; intros vs Hok Hb Hfit.
  - rewrite !app_nil_r. by rewrite decide_True.
  - rewrite cons_middle, app_assoc in Hok |- *. cbn [write_septets].
    pose proof (packed_size_0 (length vs)) as Hp. pose proof (packed_size_0 (S (length vs))) as Hp'.
    assert (Hlen : length (vs ++ [w]) = S (length vs)) by (rewrite length_app; cbn; lia).
    destruct (decide (packed_size (S (length vs)) <= length b0)%nat) as [Hnext|Hnext].
    + pose proof Hok as [[Hvs Hw]%Forall_app _]%Forall_app. inversion Hw; subst.
      rewrite Write7Bits_spec by (try done; unfold zlen in *; dlia). cbn [cbind].
      rewrite <- Hlen. replace (zlen vs + 1) with (zlen (vs ++ [w])) by (zl; lia).
      apply IH; [done..|]. by rewrite Hlen.
    + assert (Hl : 7 * zlen vs < 2048).
      { unfold zlen in *. dlia. }
      rewrite Write7Bits_full by (done || lia). cbn [cbind]. symmetry. apply decide_False.
      intros H. apply Hnext. etransitivity; [apply packed_size_mono|exact H].
      rewrite length_app. lia.
Qed.

Lemma char_septets_ok c : 0 <= c < 256 -> Forall septet_ok (char_septets c).
Proof.
  intros Hc. assert (Forall (fun b => 0 <= b < 256) Ascii8to7) as Ht
    by (apply Forall_forall; intros b Hb; repeat (apply elem_of_cons in Hb as [->|Hb]; [lia|]);
        by apply not_elem_of_nil in Hb).
  unfold char_septets, septet_ok.
  assert (0 <= nth (Z.to_nat c) Ascii8to7 0 < 256).
  { rewrite nth_lookup. destruct (lookup_lt_is_Some_2 Ascii8to7 (Z.to_nat c)) as [b Hb];
      [change (length Ascii8to7) with 256%nat; lia|].
    rewrite Hb. cbn. by eapply Forall_lookup_1 in Ht. }
  csplit; repeat constructor; lia.
Qed.

Lemma gsm7_put_septets buf write c :
  0 <= c < 256 ->
  gsm7_put buf write c =
  let* buf := write_septets (char_septets c) buf write in Ret (buf, write + zlen (char_septets c)).
Proof.
  intros Hc. unfold gsm7_put, char_septets. rewrite nth_lookup.
  destruct (lookup_lt_is_Some_2 Ascii8to7 (Z.to_nat c)) as [b Hb];
    [change (length Ascii8to7) with 256%nat; lia|].
  rewrite (proj2 (rdA_lookup _ _ _) (conj (proj1 Hc) Hb)), Hb. cbn [cbind].
  change (default 0 (Some b)) with b. csplit; cbn [write_septets]; destruct (Write7Bits _ _ _); try done; cbn [cbind].
  by destruct (Write7Bits _ _ _).
Qed.

Lemma write_septets_app vs ws buf w :
  write_septets (vs ++ ws) buf w = let* buf := write_septets vs buf w in write_septets ws buf (w + zlen vs).
Proof.
  revert buf w; induction vs as [|v vs IH]; intros buf w.
  - cbn. by rewrite Z.add_0_r.
  - cbn [app write_septets]. destruct (Write7Bits _ _ _); try done. cbn [cbind]. rewrite IH. zl.
    by replace (w + 1 + zlen vs) with (w + (1 + zlen vs)) by lia.
Qed.

Lemma gsm7_put_all_septets s buf write :
  bytes_ok s ->
  gsm7_put_all s buf write =
  let* buf := write_septets (text_septets s) buf write in Ret (buf, write + zlen (text_septets s)).
Proof.
  intros Hs; revert buf write; induction Hs as [|c s Hc _ IH]; intros buf write.
  - cbn. by rewrite Z.add_0_r.
  - cbn [gsm7_put_all]. rewrite gsm7_put_septets by done.
    change (text_septets (c :: s)) with (char_septets c ++ text_septets s).
    rewrite write_septets_app. destruct (write_septets _ _ _); try done. cbn [cbind].
    rewrite IH. zl. by rewrite Z.add_assoc.
Qed.

Lemma text_septets_ok s : bytes_ok s -> Forall septet_ok (text_septets s).
Proof.
  induction 1 as [|c s Hc _ IH]; [constructor|].
  apply Forall_app. auto using char_septets_ok.
Qed.

(** The text of a C string is packed as its septets (an escape and one for
    the marked characters), seven bits each, least significant first: the
    buffer starts with the little-endian bytes of the base-128 number of the
    septets and keeps its other bytes. When the septets need more bytes than
    the buffer has, the packer writes past its end. *)
Theorem ascii_to_gsm7_correct s r buf :
  Forall (fun c => 0 < c < 256) s -> zlen buf <= 256 ->
  let n := length (text_septets s) in
  ascii_to_gsm7 (s ++ 0 :: r) buf =
  if decide (packed_size n <= length buf)%nat
  then Ret (u8 (Z.of_nat n), le (packed_size n) (b128 (text_septets s)) ++ drop (packed_size n) buf)
  else Oob.
Proof.
  intros Hs Hb. cbv zeta. unfold ascii_to_gsm7.
  assert (bytes_ok s) by (eapply Forall_impl; [exact Hs|]; unfold byte_ok; cbn; lia).
  rewrite cstr_app by (eapply Forall_impl; [exact Hs|]; cbn; lia). cbn [cbind].
  rewrite gsm7_put_all_septets by done.
  pose proof (write_septets_spec (text_septets s) [] buf (text_septets_ok s H) Hb) as E.
  cbn [length app] in E. change (packed_size 0) with 0%nat in E. cbn [le drop app] in E.
  rewrite drop_0 in E. change (zlen []) with 0 in E. rewrite E by lia. by case_decide.
Qed.
Lemma ascii_to_gsm7_correct_witness :
  ascii_to_gsm7 (zs "hi{" ++ [0]) (replicate 5 9) = Ret (4, le 4 (b128 [104; 105; 27; 40]) ++ [9]).
Proof.
  etransitivity; [apply (ascii_to_gsm7_correct (zs "hi{") [] (replicate 5 9))|].
  - repeat constructor.
  - vm_compute; congruence.
  - reflexivity.
Defined.

(** ** Unpacking *)

Lemma unle_app a b : unle (a ++ b) = unle a + 256 ^ zlen a * unle b.
Proof.
  induction a as [|x a IH]; [change (256 ^ zlen (@nil Z)) with 1; cbn [unle app]; lia|].
  pose proof (zlen_nonneg a). cbn [unle app]. rewrite IH. zl.
  rewrite Z.pow_add_r by lia. change (256 ^ 1) with 256. lia.
Qed.

Lemma unle_bound b : bytes_ok b -> 0 <= unle b < 256 ^ zlen b.
Proof.
  induction 1 as [|x b Hx _ IH]; [vm_compute; split; congruence|]. unfold byte_ok in Hx.
  pose proof (zlen_nonneg b). cbn [unle]. zl. rewrite Z.pow_add_r by lia.
  change (256 ^ 1) with 256. lia.
Qed.

(** The bits from [s] on, as a number, start in the byte [s / 8]. *)
Lemma unle_from_bit a rest off :
  bytes_ok a -> 0 <= off -> unle (a ++ rest) / 2 ^ (8 * zlen a + off) = unle rest / 2 ^ off.
Proof.
  intros Ha Hoff. pose proof (unle_bound a Ha). pose proof (zlen_nonneg a).
  rewrite unle_app, Z.pow_add_r, <- Z.div_div, Z.pow_mul_r by lia. change (2 ^ 8) with 256.
  rewrite (Z.mul_comm (256 ^ _) (unle rest)), Z.div_add by lia.
  by rewrite (Z.div_small (unle a)) by lia.
Qed.

Lemma lor_add h v r : 0 <= r -> 0 <= h < 2 ^ r -> Z.lor h (Z.shiftl v r) = h + v * 2 ^ r.
Proof.
  intros. rewrite <- Z.shiftl_mul_pow2 by lia. symmetry.
  apply Z.add_nocarry_lor, lor_shift_disjoint; lia.
Qed.

Lemma low_bits y j : 0 <= j -> Z.land y (Z.ones j) = y mod 2 ^ j.
Proof. intros. by apply Z.land_ones. Qed.

(** The septet across two bytes [x] and [y], for each bit offset. *)
Lemma septet_two_bytes x y t off :
  0 <= x < 256 -> 0 <= y < 256 -> 2 <= off < 8 ->
  u8 (Z.lor (Z.land (Z.shiftr x off) (Z.shiftr 0xFF (8 - (8 - off))))
            (Z.shiftl (Z.land y (Z.shiftr 0xFF (8 - (7 - (8 - off))))) (8 - off))) =
  (x + 256 * (y + 256 * t)) / 2 ^ off mod 128.
Proof.
  intros Hx Hy Hoff.
  assert (Hmask : forall k, 0 <= k <= 8 -> Z.shiftr 0xFF k = Z.ones (8 - k)).
  { intros k Hk. assert (k = 0 \/ k = 1 \/ k = 2 \/ k = 3 \/ k = 4 \/ k = 5 \/ k = 6 \/ k = 7 \/ k = 8)
      as Hc by lia. by repeat (destruct Hc as [->|Hc]); try subst k. }
  rewrite !Hmask, !low_bits, Z.shiftr_div_pow2 by lia.
  replace (8 - (8 - (8 - off))) with (8 - off) by lia.
  replace (8 - (8 - (7 - (8 - off)))) with (off - 1) by lia.
  assert (off = 2 \/ off = 3 \/ off = 4 \/ off = 5 \/ off = 6 \/ off = 7) as Ho by lia.
  repeat (destruct Ho as [->|Ho]); try subst off;
    (rewrite lor_add by (cbn -[Z.div Z.modulo]; dlia); unfold u8; cbn -[Z.div Z.modulo]; dlia).
Qed.

Lemma septet_one_byte x t off :
  0 <= x < 256 -> 0 <= off <= 1 ->
  Z.land (Z.shiftr x off) (Z.shiftr 0xFF 1) = (x + 256 * t) / 2 ^ off mod 128.
Proof.
  intros Hx Hoff. change (Z.shiftr 0xFF 1) with (Z.ones 7).
  rewrite Z.land_ones, Z.shiftr_div_pow2 by lia.
  assert (off = 0 \/ off = 1) as [->| ->] by lia; cbn -[Z.div Z.modulo]; dlia.
Qed.

Lemma gsm7_char_spec buffer s :
  bytes_ok buffer -> 0 <= s -> s + 7 <= 8 * zlen buffer ->
  gsm7_char buffer s = Ret (unle buffer / 2 ^ s mod 128).
Proof.
  intros Hb Hs Hlen. set (q := Z.to_nat (s / 8)). set (off := s mod 8).
  assert (Hq : Z.of_nat q = s / 8) by (unfold q; dlia).
  assert (Hsplit : s = 8 * Z.of_nat q + off) by (unfold off; dlia).
  assert (Hoff : 0 <= off < 8) by (unfold off; dlia).
  destruct (lookup_lt_is_Some_2 buffer q) as [x Hx]; [unfold zlen in *; lia|].
  pose proof (take_drop_middle _ _ _ Hx) as Hmid. pose proof Hb as Hb'.
  rewrite <- Hmid in Hb'. apply Forall_app in Hb' as [Ha Hxr].
  apply Forall_cons in Hxr as [Hxb Hr].
  set (a := take q buffer) in *. set (rest := drop (S q) buffer) in *.
  assert (Hza : zlen a = s / 8) by (unfold a, zlen in *; rewrite length_take; lia).
  rewrite <- Hmid in Hlen |- *. unfold gsm7_char. fold off.
  rewrite (rdA_at _ _ _ _ Hza). cbn [cbind].
  replace (2 ^ s) with (2 ^ (8 * zlen a + off)) by (f_equal; lia).
  rewrite unle_from_bit by lia || done. cbn [unle]. unfold byte_ok in Hxb.
  destruct (Z.leb_spec off 1).
  - assert ((if negb (off =? 0) then 8 - off else 7) = 7) as ->
      by (destruct (Z.eqb_spec off 0); cbn; lia).
    cbn [negb Z.sub Z.eqb Z.add Z.opp Pos.eqb Z.pos_sub Pos.pred_double].
    change (8 - 7) with 1. by rewrite (septet_one_byte x (unle rest)) by lia.
  - assert ((if negb (off =? 0) then 8 - off else 7) = 8 - off) as -> by by ifdec.
    replace (7 - (8 - off) =? 0) with false by (symmetry; apply Z.eqb_neq; lia). cbn [negb].
    destruct rest as [|y rest'] eqn:Er; [zl; lia|]. apply Forall_cons in Hr as [Hyb Hr'].
    rewrite cons_middle, app_assoc, (rdA_at (a ++ [x])) by (zl; lia). cbn [cbind unle].
    by rewrite <- (septet_two_bytes x y (unle rest')) by (done || lia).
Qed.

(** The [n] septets of a packed text from the bit [off]. *)
Definition septets_at (buffer : list Z) (off : Z) (i : Z) (n : nat) : list Z :=
  map (fun k => unle buffer / 2 ^ (off + 7 * k) mod 128) (seqZ i (Z.of_nat n)).

Lemma septets_at_S buffer off i n :
  septets_at buffer off i (S n) =
  unle buffer / 2 ^ (off + 7 * i) mod 128 :: septets_at buffer off (i + 1) n.
Proof.
  unfold septets_at. rewrite seqZ_cons by lia. cbn [map]. f_equal.
  replace (Z.pred (Z.of_nat (S n))) with (Z.of_nat n) by lia. done.
Qed.

Lemma gsm7_loop_spec buffer off n a b :
  bytes_ok buffer -> 0 <= off -> zlen buffer < 536870912 ->
  off + 7 * (zlen a + Z.of_nat n) <= 8 * zlen buffer -> (n <= length b)%nat ->
  gsm7_loop n (zlen a) buffer (a ++ b) off =
  Ret (a ++ septets_at buffer off (zlen a) n ++ drop n b).
Proof.
  intros Hb Hoff Hsz. revert a b; induction n as [|n IH]; intros a b Hlen Hfit.
  - done.
  - destruct b as [|y b]; cbn [length] in Hfit; [lia|]. cbn [gsm7_loop].
    pose proof (zlen_nonneg a). rewrite u32_small by lia.
    rewrite gsm7_char_spec by (done || lia). cbn [cbind]. rewrite wrA_middle. cbn [cbind].
    rewrite cons_middle, app_assoc.
    set (c := _ / _ mod 128). replace (zlen a + 1) with (zlen (a ++ [c])) by (zl; lia).
    rewrite IH by (zl; lia). rewrite <- !app_assoc, septets_at_S. cbn [app drop]. zl.
    unfold c. rewrite (Z.mul_comm (zlen a)). repeat f_equal.
Qed.

(** Unpacking reads the text as the base-128 digits of the packed number:
    the [i]-th character is seven bits of the little-endian buffer from the bit
    [bit_offset + 7 * i], for every bit offset and whatever the bytes before
    and after are, and only the output's first [n] bytes change. *)
Theorem gsm7_to_ascii_correct buffer n out bit_offset :
  bytes_ok buffer -> 0 <= bit_offset -> 0 <= n <= zlen out ->
  bit_offset + 7 * n <= 8 * zlen buffer -> zlen buffer < 536870912 ->
  gsm7_to_ascii buffer n out bit_offset =
  Ret (n, map (fun i => unle buffer / 2 ^ (bit_offset + 7 * i) mod 128) (seqZ 0 n) ++
          drop (Z.to_nat n) out).
Proof.
  intros Hb Hoff Hn Hlen Hsz. unfold gsm7_to_ascii.
  pose proof (gsm7_loop_spec buffer bit_offset (Z.to_nat n) [] out Hb Hoff Hsz) as E.
  cbn [app] in E. change (zlen []) with 0 in E. unfold zlen in Hn.
  rewrite E by (rewrite ?Z2Nat.id; lia). cbn [cbind]. rewrite Z.max_r by lia.
  unfold septets_at. by rewrite Z2Nat.id by lia.
Qed.
Lemma gsm7_to_ascii_correct_witness :
  gsm7_to_ascii [0xe8; 0x32; 0x9b; 0xfd; 0x06] 5 (replicate 6 0) 0 = Ret (5, zs "hello" ++ [0]).
Proof.
  etransitivity; [apply gsm7_to_ascii_correct|reflexivity].
  - repeat constructor; vm_compute; congruence.
  - lia.
  - vm_compute; split; congruence.
  - vm_compute; congruence.
  - reflexivity.
Defined.

Lemma text_septets_plain s : Forall plain_char s -> text_septets s = s.
Proof.
  induction 1 as [|c s [Hc Ht] _ IH]; [done|].
  change (text_septets (c :: s)) with (char_septets c ++ text_septets s). rewrite IH.
  unfold char_septets. rewrite Ht. by ifdec.
Qed.

(** The digits of a packed text are its septets. *)
Lemma packed_digits vs rest : Forall septet_ok vs ->
  septets_at (le (packed_size (length vs)) (b128 vs) ++ rest) 0 0 (length vs) = vs.
Proof.
  intros Hvs. apply list_eq. intros i. unfold septets_at. rewrite list_lookup_fmap.
  destruct (decide (i < length vs)%nat) as [Hi|Hi].
  2: { rewrite lookup_ge_None_2 by (rewrite length_seqZ; lia).
       by rewrite lookup_ge_None_2 by lia. }
  rewrite lookup_seqZ_lt by lia. cbn [fmap option_fmap option_map].
  destruct (lookup_lt_is_Some_2 vs i Hi) as [v Hv]. rewrite Hv. f_equal.
  rewrite !Z.add_0_l. pose proof (b128_bound _ Hvs) as Hb.
  set (p := packed_size (length vs)).
  assert (Hp : 7 * zlen vs <= 8 * Z.of_nat p) by (unfold p; rewrite packed_size_0; unfold zlen; dlia).
  rewrite unle_app, unle_le, zlen_le.
  assert (H256 : forall k, 0 <= k -> 256 ^ k = 2 ^ (8 * k))
    by (intros; rewrite (Z.pow_mul_r 2 8) by lia; done).
  rewrite H256 by lia. rewrite (Z.mod_small (b128 vs)).
  2: { assert (2 ^ (7 * zlen vs) <= 2 ^ (8 * Z.of_nat p)) by (apply Z.pow_le_mono_r; lia). lia. }
  unfold zlen in *.
  replace (8 * Z.of_nat p) with (7 * Z.of_nat i + 7 + (8 * Z.of_nat p - 7 * Z.of_nat i - 7)) by lia.
  rewrite !Z.pow_add_r, <- !Z.mul_assoc, (Z.mul_comm (2 ^ (7 * Z.of_nat i))), Z.div_add by lia.
  change (2 ^ 7) with 128. rewrite (Z.mul_comm 128), Z.mod_add by lia.
  pose proof (take_drop_middle vs i v Hv) as Hm. rewrite <- Hm.
  replace (Z.of_nat i) with (zlen (take i vs)) by (unfold zlen; rewrite length_take; lia).
  apply b128_digit. by rewrite Hm.
Qed.

(** Packing and unpacking a text of plain characters. *)
Lemma ascii_to_gsm7_plain s r buf :
  Forall plain_char s -> zlen s < 256 -> zlen buf <= 256 -> 7 * zlen s <= 8 * zlen buf ->
  ascii_to_gsm7 (s ++ 0 :: r) buf =
  Ret (zlen s, le (packed_size (length s)) (b128 s) ++ drop (packed_size (length s)) buf).
Proof.
  intros Hs H256 Hb Hfit. pose proof (text_septets_plain s Hs) as Ht.
  assert (Hok : Forall septet_ok s) by (eapply Forall_impl; [exact Hs|];
    intros c [Hc _]; unfold septet_ok; lia).
  pose proof (packed_size_0 (length s)) as Hp. fold (zlen s) in Hp. pose proof (zlen_nonneg s).
  pose proof (write_septets_spec s [] buf Hok Hb) as E.
  cbn [length app] in E. change (packed_size 0) with 0%nat in E. cbn [le app] in E.
  rewrite drop_0 in E. change (zlen []) with 0 in E.
  unfold ascii_to_gsm7. rewrite cstr_app by (eapply Forall_impl; [exact Hs|]; intros c [Hc _]; lia).
  cbn [cbind]. rewrite gsm7_put_all_septets
    by (eapply Forall_impl; [exact Hs|]; intros c [Hc _]; unfold byte_ok; lia).
  rewrite Ht, E by lia. rewrite decide_True by (unfold zlen in *; dlia). cbn [cbind].
  by rewrite Z.add_0_l, u8_small by lia.
Qed.

Lemma gsm7_unpack_plain s rest out :
  Forall plain_char s -> zlen s < 65536 -> bytes_ok rest -> zlen rest < 65536 ->
  zlen s <= zlen out ->
  gsm7_to_ascii (le (packed_size (length s)) (b128 s) ++ rest) (zlen s) out 0 =
  Ret (zlen s, s ++ drop (length s) out).
Proof.
  intros Hs Hl Hrest Hrl Hout.
  assert (Hok : Forall septet_ok s) by (eapply Forall_impl; [exact Hs|];
    intros c [Hc _]; unfold septet_ok; lia).
  pose proof (packed_size_0 (length s)) as Hp. fold (zlen s) in Hp.
  pose proof (zlen_nonneg s). pose proof (zlen_nonneg rest).
  unfold gsm7_to_ascii. set (packed := _ ++ _).
  pose proof (gsm7_loop_spec packed 0 (length s) [] out) as E.
  cbn [app] in E. change (zlen []) with 0 in E.
  assert (Hlen : zlen packed = (7 * zlen s + 7) / 8 + zlen rest) by (unfold packed; zl; lia).
  replace (Z.to_nat (zlen s)) with (length s) by (unfold zlen; lia).
  rewrite E; [|apply Forall_app; split; [apply le_bytes|done]|lia|dlia|
    unfold zlen in *; dlia|unfold zlen in *; lia].
  cbn [cbind]. rewrite Z.max_r by lia. unfold packed. by rewrite packed_digits.
Qed.

(** C38: a text of plain characters packed and unpacked is the same text,
    whatever the two buffers held. *)
Theorem gsm7_roundtrip s r buf out :
  Forall plain_char s -> zlen s < 256 -> zlen buf <= 256 ->
  7 * zlen s <= 8 * zlen buf -> zlen s <= zlen out -> bytes_ok buf ->
  exists packed,
    ascii_to_gsm7 (s ++ 0 :: r) buf = Ret (zlen s, packed) /\
    gsm7_to_ascii packed (zlen s) out 0 = Ret (zlen s, s ++ drop (length s) out).
Proof.
  intros Hs H256 Hb Hfit Hout Hbuf. eexists. split; [by apply ascii_to_gsm7_plain|].
  apply gsm7_unpack_plain; try done; [lia|by apply Forall_drop|].
  unfold zlen in *. rewrite length_drop. lia.
Qed.
Lemma gsm7_roundtrip_witness :
  exists packed,
    ascii_to_gsm7 (zs "Help me" ++ [0]) (replicate 160 0) = Ret (7, packed) /\
    gsm7_to_ascii packed 7 (replicate 160 0) 0 = Ret (7, zs "Help me" ++ replicate 153 0).
Proof.
  apply (gsm7_roundtrip (zs "Help me") [] (replicate 160 0) (replicate 160 0)).
  - repeat constructor; vm_compute; congruence.
  - reflexivity.
  - vm_compute; congruence.
  - vm_compute; congruence.
  - vm_compute; congruence.
  - apply Forall_replicate. unfold byte_ok. lia.
Defined.

(** ** Numbers *)

(** The semi-octets of a phone number; an odd last digit has a filler 0xf. *)
Fixpoint semi_octets (ds : list Z) : list Z :=
  match ds with
  | a :: b :: r => a + 16 * b :: semi_octets r
  | [a] => [a + 0xf0]
  | [] => []
  end.
Definition digit_ok (d : Z) : Prop := 0 <= d <= 9.

Lemma nibbles a b : 0 <= a < 16 -> 0 <= b < 16 ->
  Z.land (a + 16 * b) 0x0f = a /\ Z.shiftr (Z.land (a + 16 * b) 0xf0) 4 = b.
Proof.
  intros Ha Hb. split.
  - change 0x0f with (Z.ones 4). rewrite low_bits by lia. change (2 ^ 4) with 16. dlia.
  - change 0xf0 with (Z.shiftl 15 4). rewrite Z.shiftr_land, Z.shiftr_shiftl_l by lia.
    change (Z.shiftl 15 (4 - 4)) with (Z.ones 4). rewrite low_bits, Z.shiftr_div_pow2 by lia.
    change (2 ^ 4) with 16. dlia.
Qed.

(** The digit loop ends within its octets and keeps the size of the array. *)
Lemma number_loop_total n i len count data number :
  len - i < Z.of_nat n -> len <= 255 -> 0 <= i <= len -> 0 <= count -> len <= zlen data ->
  count + 2 * (len - i) <= zlen number -> count + 2 * (len - i) <= 255 ->
  exists number', number_loop n i len count data number = Ret number' /\
                  zlen number' = zlen number.
Proof.
  revert i count number; induction n as [|n IH]; intros i count number Hn Hl Hi Hc Hd Hb1 Hb2; [lia|].
  cbn [number_loop]. destruct (Z.ltb_spec i len); [|eauto].
  destruct (rdA_in data i) as [d ->]; [lia|]. cbn [cbind].
  rewrite wrA_ok by lia. cbn [cbind]. rewrite wrA_ok by (zl; lia). cbn [cbind].
  rewrite !u8_small by lia. csplit.
  - rewrite wrA_ok by (zl; lia). eexists. split; [done|]. by zl.
  - match goal with |- context [number_loop n _ _ _ _ ?m] => set (num := m) end.
    destruct (IH (i + 1) (count + 2) num) as (r & -> & Hr); try lia.
    { unfold num. zl. lia. }
    exists r. split; [done|]. rewrite Hr. unfold num. by zl.
Qed.

Lemma number_loop_digits n ds dpre rest pre b len :
  Forall digit_ok ds -> Nat.odd (length ds) = true -> last ds <> Some 0 ->
  zlen (semi_octets ds) < Z.of_nat n -> zlen dpre + zlen (semi_octets ds) <= len <= 255 ->
  zlen pre + zlen ds < 255 -> (length ds < length b)%nat ->
  number_loop n (zlen dpre) len (zlen pre) (dpre ++ semi_octets ds ++ rest) (pre ++ b) =
  Ret (pre ++ map (Z.add 48) ds ++ 0 :: drop (S (length ds)) b).
Proof.
  revert ds dpre pre b; induction n as [|n IH]; intros ds dpre pre b Hds Hodd Hlast Hn Hlen Hcnt Hb;
    [pose proof (zlen_nonneg (semi_octets ds)); lia|].
  pose proof (zlen_nonneg dpre). pose proof (zlen_nonneg pre). pose proof (zlen_nonneg rest).
  destruct ds as [|a [|c ds]]; [done| |].
  - (* the last digit *)
    destruct b as [|x [|y b]]; cbn [length] in Hb; [lia..|]. apply Forall_cons in Hds as [Ha _].
    unfold digit_ok in Ha. cbn [semi_octets app] in *. zl. cbn [number_loop]. ifdec.
    rewrite rdA_middle. cbn [cbind].
    destruct (nibbles a 15) as [Hlo Hhi]; [lia..|]. change (16 * 15) with 0xf0 in *.
    rewrite Hlo, Hhi, wrA_middle. cbn [cbind].
    rewrite (cons_middle (a + 48)), app_assoc, wrA_at by (zl; lia). cbn [cbind].
    rewrite u8_small by lia. destruct (Z.ltb_spec 0xf0 (a + 0xf0)).
    + rewrite wrA_at by (zl; lia). rewrite <- app_assoc. cbn [app map drop length].
      by rewrite (Z.add_comm a).
    + replace a with 0 in Hlast by lia. done.
  - destruct b as [|x [|y b]]; cbn [length] in Hb; [lia..|].
    apply Forall_cons in Hds as [Ha Hds]. apply Forall_cons in Hds as [Hc Hds].
    unfold digit_ok in Ha, Hc. cbn [semi_octets app] in *. zl. cbn [number_loop]. 
    pose proof (zlen_nonneg (semi_octets ds)). pose proof (zlen_nonneg ds). ifdec.
    rewrite rdA_middle. cbn [cbind].
    destruct (nibbles a c) as [Hlo Hhi]; [lia..|].
    rewrite Hlo, Hhi, wrA_middle. cbn [cbind].
    rewrite (cons_middle (a + 48)), app_assoc, wrA_at by (zl; lia). cbn [cbind].
    rewrite !u8_small by lia. ifdec.
    specialize (IH ds (dpre ++ [a + 16 * c]) ((pre ++ [a + 48]) ++ [c + 48]) b).
    zl. rewrite <- !app_assoc in IH. cbn [app] in IH.
    rewrite <- !app_assoc. cbn [app].
    replace (zlen dpre + (1 + 0)) with (zlen dpre + 1) in IH by lia.
    replace (zlen pre + (1 + 0) + (1 + 0)) with (zlen pre + 2) in IH by lia.
    rewrite IH; try done; try lia.
    + by rewrite (Z.add_comm a), (Z.add_comm c).
    + destruct ds; done.
Qed.

(** The decoder reads an international number of an odd number of digits
    (the last one not 0) from its semi-octets, behind a plus sign and with a
    NUL behind it, when the count it gets covers the octets. *)
Lemma decode_number_international ds rest len number :
  Forall digit_ok ds -> Nat.odd (length ds) = true -> last ds <> Some 0 ->
  1 + zlen (semi_octets ds) <= len <= 255 -> zlen ds + 2 <= zlen number -> zlen ds < 254 ->
  decode_number (0x91 :: semi_octets ds ++ rest) len number =
  Ret (0, 43 :: map (Z.add 48) ds ++ 0 :: drop (2 + length ds) number).
Proof.
  intros Hds Hodd Hlast Hlen Hnum Hcnt. pose proof (zlen_nonneg (semi_octets ds)).
  unfold decode_number. change (rd (0x91 :: _) 0) with (Ret 0x91). cbn [cbind].
  change (Z.land 0x91 SMS_NUMBER_TYPE_MASK =? SMS_NUMBER_TYPE_ALPHA) with false.
  change (0x91 =? 0x91) with true. ifdec.
  destruct number as [|x b]; [zl; pose proof (zlen_nonneg ds); lia|].
  rewrite wrA_0. cbn [cbind].
  pose proof (number_loop_digits 256 ds [0x91] rest [43] b len) as E.
  cbn [app] in E. zl. change (1 + 0) with 1 in E.
  rewrite E; try done; try lia. unfold zlen in Hnum. lia.
Qed.
Lemma zlen_semi_octets ds : zlen (semi_octets ds) = (zlen ds + 1) / 2.
Proof.
  cut (forall n ds, (length ds <= n)%nat -> zlen (semi_octets ds) = (zlen ds + 1) / 2); [eauto|].
  clear ds. induction n as [|n IH]; intros [|a [|b ds]] Hn; cbn [length] in Hn; try lia; try done.
  cbn [semi_octets]. zl. rewrite IH by lia. dlia.
Qed.

(** An international number that ends at the count is read whatever its
    octets are. *)
Lemma decode_number_total octets rest number :
  zlen octets <= 30 -> 64 <= zlen number ->
  exists number', decode_number (0x91 :: octets ++ rest) (1 + zlen octets) number = Ret (0, number').
Proof.
  intros Ho Hn. pose proof (zlen_nonneg octets). pose proof (zlen_nonneg rest).
  unfold decode_number. change (rd (0x91 :: _) 0) with (Ret 0x91). cbn [cbind].
  change (Z.land 0x91 SMS_NUMBER_TYPE_MASK =? SMS_NUMBER_TYPE_ALPHA) with false.
  change (0x91 =? 0x91) with true. ifdec. rewrite wrA_ok by lia. cbn [cbind].
  match goal with |- context [number_loop _ _ _ _ ?d ?b] =>
    destruct (number_loop_total 256 1 (1 + zlen octets) 1 d b) as (r & -> & _) end;
    try (zl; lia). cbn [cbind]. eauto.
Qed.
