(* ===== verification/Pdu.v ===== *)
(** The SMS PDU decoder (src/sms.c, [pdu_decode]): a WMS read-message reply
    with a raw message is parsed into the sender's number, the data coding
    scheme and the text. Its locals are uint8_t and wrap; every access is to
    the packet or to one of the fixed arrays. Reads that only feed a log line
    are kept, as the code performs them. *)

From stdpp Require Import base list numbers option strings.
From Stdlib Require Import ZArith Lia.
From S2P Require Import Prelude Libc Gsm7.

(** struct message_data *)
Record message_data := {
  md_smsc : list Z;          (* char[64] *)
  md_phone_number : list Z;  (* char[64] *)
  md_dcs : Z;
  md_raw_message : bool;
  md_message : list Z        (* char[160] *)
}.

Definition md_set_smsc (m : message_data) (n : list Z) : message_data :=
  {| md_smsc := n; md_phone_number := md_phone_number m; md_dcs := md_dcs m;
     md_raw_message := md_raw_message m; md_message := md_message m |}.
Definition md_set_phone (m : message_data) (n : list Z) : message_data :=
  {| md_smsc := md_smsc m; md_phone_number := n; md_dcs := md_dcs m;
     md_raw_message := md_raw_message m; md_message := md_message m |}.
Definition md_set_dcs (m : message_data) (d : Z) : message_data :=
  {| md_smsc := md_smsc m; md_phone_number := md_phone_number m; md_dcs := d;
     md_raw_message := md_raw_message m; md_message := md_message m |}.
Definition md_set_raw (m : message_data) (r : bool) : message_data :=
  {| md_smsc := md_smsc m; md_phone_number := md_phone_number m; md_dcs := md_dcs m;
     md_raw_message := r; md_message := md_message m |}.
Definition md_set_message (m : message_data) (t : list Z) : message_data :=
  {| md_smsc := md_smsc m; md_phone_number := md_phone_number m; md_dcs := md_dcs m;
     md_raw_message := md_raw_message m; md_message := t |}.

(** Offsets in struct incoming_message: the headers take 20 bytes, the raw
    message header 7 more. *)
Definition RAW_LEN_OFFSET : Z := 25.
Definition PDU_OFFSET : Z := 27.

Definition SMS_TP_MTI_SMS_DELIVER : Z := 0.
Definition SMS_TP_MTI_SMS_SUBMIT : Z := 1.
Definition SMS_TP_MTI_SMS_STATUS_REPORT : Z := 2.

Section Decode.
(** The packet, and the size the caller gives for it. *)
Variable buffer : list Z.
Variable size : Z.

(** [msg->msg.data[i]] *)
Definition data (i : Z) : cres Z := rd buffer (PDU_OFFSET + i).
Definition data_from (i : Z) : list Z := drop (Z.to_nat (PDU_OFFSET + i)) buffer.

(** Bodies of the information-element [switch]: the part numbers are read to
    be logged and compared. *)
Definition read_ie (ie_id offset ende : Z) : cres unit :=
  if ie_id =? 0x00 then
    if ende <=? offset + 2 then Ret tt
    else
      let* _ := data (offset + 2) in
      let* _ := data (offset + 1) in
      let* _ := data (offset + 3) in
      Ret tt
  else if ie_id =? 0x08 then
    if ende <=? offset + 3 then Ret tt
    else
      let* part := data (offset + 3) in
      let* total := data (offset + 2) in
      if (part =? 0) || (total <? part) then Ret tt
      else
        let* _ := data offset in
        let* _ := data (offset + 1) in
        Ret tt
  else Ret tt.

(** The loop over the information elements of a user data header. *)
Fixpoint udh_loop (fuel : nat) (offset ende : Z) : cres Z :=
  match fuel with
  | O => Spin
  | S fuel =>
      if offset + 1 <? ende then
        let* ie_id := data offset in
        let* ie_len := data (u8 (offset + 1)) in
        let offset := u8 (u8 (offset + 1) + 1) in
        let* _ := read_ie ie_id offset ende in
        udh_loop fuel (u8 (offset + ie_len)) ende
      else Ret offset
  end.
(** [offset] has 256 values, so a longer run of the loop repeats itself. *)
Definition udh_fuel : nat := 257.

(** The result: the return code, the message and the caller's dcs. *)
Definition outcome : Type := Z * message_data * Z.

(** The text, once its place, length in elements and bytes are known. *)
Definition pdu_text (encoding elements size_bytes ud_offset bit_offset : Z)
    (m : message_data) (dcs : Z) : cres outcome :=
  if encoding =? MM_SMS_ENCODING_GSM7 then
    let* '(_, text) := gsm7_to_ascii (data_from ud_offset) elements (replicate 160 0) bit_offset in
    let* out := strncpy (md_message m) (until_nul text) 160 in
    Ret (0, md_set_raw (md_set_message m out) false, dcs)
  else if 160 <? size_bytes then Ret (0, m, dcs)
  else
    let* _ := rdn buffer (PDU_OFFSET + ud_offset) (Z.to_nat size_bytes) in
    Ret (0, md_set_raw m true, dcs).

(** The user data from its length octet on. *)
Definition pdu_user_data (udl_offset encoding : Z) (has_udh : bool)
    (m : message_data) (dcs : Z) : cres outcome :=
  let* elements := data udl_offset in
  if negb (0 <? udl_offset) then Ret (0, m, dcs)
  else if size <? udl_offset + 1 then Ret (- ENOMEM, m, dcs)
  else
    let size_bytes := u8 (if encoding =? MM_SMS_ENCODING_GSM7 then 7 * (elements + 1) / 8
                          else elements) in
    let ud_offset := u8 (udl_offset + 1) in
    if size <? ud_offset + 1 then Ret (- ENOMEM, m, dcs)
    else if has_udh then
      let* d := data ud_offset in
      let udhl := u8 (d + 1) in
      let ende := u8 (ud_offset + udhl) in
      let* _ := data (ud_offset + udhl) in
      if size <? ud_offset + udhl then Ret (- ENOMEM, m, dcs)
      else
        let* offset := udh_loop udh_fuel (u8 (ud_offset + 1)) ende in
        let* _ := data offset in
        let ud_offset := u8 (ud_offset + udhl) in
        let size_bytes := u8 (size_bytes - udhl) in
        if encoding =? MM_SMS_ENCODING_GSM7 then
          let bit_offset := (7 - udhl mod 7) mod 7 in
          pdu_text encoding (u8 (elements - (udhl * 8 + bit_offset) / 7)) size_bytes ud_offset
            bit_offset m dcs
        else pdu_text encoding (u8 (elements - udhl)) size_bytes ud_offset 0 m dcs
    else pdu_text encoding elements size_bytes ud_offset 0 m dcs.

(** The protocol id and data coding scheme checks. *)
Definition pdu_dcs (tp_pid_offset tp_dcs_offset udl_offset : Z) (has_udh : bool)
    (m : message_data) (dcs : Z) : cres outcome :=
  if (0 <? tp_pid_offset) && (size <? tp_pid_offset + 1) then Ret (- ENOMEM, m, dcs)
  else
    let* _ := (if 0 <? tp_pid_offset then data tp_pid_offset else Ret 0) in
    if 0 <? tp_dcs_offset then
      if size <? tp_dcs_offset + 1 then Ret (- ENOMEM, m, dcs)
      else
        let* d := data tp_dcs_offset in
        pdu_user_data udl_offset (sms_encoding_type d) has_udh (md_set_dcs m d) d
    else pdu_user_data udl_offset MM_SMS_ENCODING_UNKNOWN has_udh m dcs.

(** Where the protocol id, the dcs and the user data length are, by type of
    PDU; [inr] is a packet that is too short. *)
Definition pdu_fields (pdu_type offset validity_format : Z) : cres ((Z * Z * Z) + Z) :=
  if pdu_type =? SMS_TP_MTI_SMS_DELIVER then
    if size <? offset + 9 then Ret (inr (- ENOMEM))
    else
      let* _ := sms_decode_timestamp (data_from (u8 (offset + 2))) (replicate 128 0) in
      let udl := u8 (offset + 9) in
      let* _ := data udl in
      let* _ := data (udl + 1) in
      Ret (inl (offset, u8 (offset + 1), udl))
  else if pdu_type =? SMS_TP_MTI_SMS_SUBMIT then
    if size <? offset + 2 + (if validity_format =? 0 then 0 else 1) then Ret (inr (- ENOMEM))
    else
      let after := u8 (offset + 2) in
      let udl :=
        if validity_format =? 0x10 then u8 (after + 1)
        else if (validity_format =? 0x08) || (validity_format =? 0x18) then u8 (after + 7)
        else after in
      Ret (inl (offset, u8 (offset + 1), udl))
  else
    if size <? offset + 15 then Ret (inr (- ENOMEM))
    else
      let* _ := sms_decode_timestamp (data_from offset) (replicate 128 0) in
      let* _ := sms_decode_timestamp (data_from (u8 (offset + 7))) (replicate 128 0) in
      let* _ := data (u8 (offset + 14)) in
      let offset := u8 (offset + 15) in
      let* raw_message_len := rd16 buffer RAW_LEN_OFFSET in
      if offset <? raw_message_len then
        let next := u8 (offset + 1) in
        let* fields := data offset in
        let pid := if negb (Z.land fields 0x01 =? 0) then next else 0 in
        let next := if negb (Z.land fields 0x01 =? 0) then u8 (next + 1) else next in
        let dcs := if negb (Z.land fields 0x02 =? 0) then next else 0 in
        let next := if negb (Z.land fields 0x02 =? 0) then u8 (next + 1) else next in
        let udl := if negb (Z.land fields 0x04 =? 0) then next else 0 in
        Ret (inl (pid, dcs, udl))
      else Ret (inl (0, 0, 0)).

(** The address, from its length in digits on. *)
Definition pdu_address (pdu_type offset validity_format : Z) (has_udh : bool)
    (m : message_data) (dcs : Z) : cres outcome :=
  let* digits := data offset in
  let offset := u8 (offset + 1) in
  let addr_bytes := Z.shiftr (digits + 1) 1 in
  if size <? offset + addr_bytes then Ret (- ENOMEM, m, dcs)
  else
    let* '(_, number) := decode_number (data_from offset) digits (md_phone_number m) in
    let m := md_set_phone m number in
    let* fields := pdu_fields pdu_type (u8 (offset + (1 + addr_bytes))) validity_format in
    match fields with
    | inl (pid, tp_dcs, udl) => pdu_dcs pid tp_dcs udl has_udh m dcs
    | inr e => Ret (e, m, dcs)
    end.

Definition pdu_decode (m : message_data) (dcs : Z) : cres outcome :=
  let* smsc_len := data 0 in
  let* '(offset, m) :=
    (if 0 <? smsc_len then
       let* '(_, number) := decode_number (data_from 1) smsc_len (md_smsc m) in
       Ret (u8 (smsc_len + 1), md_set_smsc m number)
     else Ret (0, m)) in
  let* first := data offset in
  let pdu_type := Z.land first 0x03 in
  if 2 <? pdu_type then Ret (-1, m, dcs)
  else
    let validity_format :=
      if pdu_type =? SMS_TP_MTI_SMS_SUBMIT then Z.land first 0x18 else 0 in
    let has_udh := negb (Z.land first 0x40 =? 0) in
    let offset := u8 (offset + 1) in
    if negb (pdu_type =? SMS_TP_MTI_SMS_DELIVER) then
      if size <? offset + 1 then Ret (- ENOMEM, m, dcs)
      else
        let* _ := data offset in
        pdu_address pdu_type (u8 (offset + 1)) validity_format has_udh m dcs
    else pdu_address pdu_type offset validity_format has_udh m dcs.
End Decode.

(** * Specification: the parts of a DELIVER PDU *)

(** A 27-byte prefix (the QMI headers), the service centre [smsc] in octets,
    the sender's digits, the protocol id, the date, and the packed text. *)
Definition deliver_pdu (smsc ds : list Z) (first pid : Z) (date s : list Z) : list Z :=
  [1 + zlen smsc; 0x91] ++ smsc ++ [first; zlen ds; 0x91] ++ semi_octets ds ++ [pid; 0] ++
  date ++ zlen s :: le (packed_size (length s)) (b128 s).

Lemma data_at hdr a x r i :
  zlen hdr = PDU_OFFSET -> zlen a = i -> data (hdr ++ a ++ x :: r) i = Ret x.
Proof.
  intros Hh Ha. unfold data. rewrite app_assoc. apply rdA_at. zl. by rewrite Hh, Ha.
Qed.

Lemma data_from_at hdr a r i :
  zlen hdr = PDU_OFFSET -> zlen a = i -> data_from (hdr ++ a ++ r) i = r.
Proof.
  intros Hh Ha. unfold data_from. rewrite app_assoc, <- Hh, <- Ha.
  rewrite drop_app_length'; [done|]. rewrite length_app. unfold zlen. lia.
Qed.

Lemma timestamp_total t0 t1 t2 t3 t4 t5 t6 r out :
  zlen out = 128 -> exists out', sms_decode_timestamp (t0 :: t1 :: t2 :: t3 :: t4 :: t5 :: t6 :: r) out = Ret out'.
Proof.
  intros Ho. unfold sms_decode_timestamp.
  repeat match goal with |- context [rd ?l ?k] =>
    let v := eval cbv in (nth_error l (Z.to_nat k)) in
    match v with Some ?x => change (rd l k) with (Ret x) end end. cbn [cbind].
  match goal with |- context [snprintf out 128 ?t] => set (text := t) end.
  unfold snprintf. ifdec. rewrite wrn_ok; [cbn [cbind]; eauto|lia|].
  rewrite zlen_app. change (zlen [0]) with 1. unfold zlen in *. rewrite length_take. lia.
Qed.

Lemma until_nul_text s n : Forall (fun c => c <> 0) s -> until_nul (s ++ replicate n 0) = s.
Proof.
  induction 1 as [|c s Hc _ IH]; [by destruct n|]. cbn [until_nul app].
  by rewrite (proj2 (Z.eqb_neq c 0) Hc), IH.
Qed.

(** The decoder's text stage on a packed plain text. *)
Lemma pdu_text_plain hdr a s rest m dcs ud size_bytes :
  zlen hdr = PDU_OFFSET -> zlen a = ud -> Forall plain_char s -> zlen s <= 160 ->
  bytes_ok rest -> zlen rest < 65536 -> zlen (md_message m) = 160 ->
  pdu_text (hdr ++ a ++ le (packed_size (length s)) (b128 s) ++ rest) MM_SMS_ENCODING_GSM7
    (zlen s) size_bytes ud 0 m dcs =
  Ret (0, md_set_raw (md_set_message m (s ++ replicate (160 - length s) 0)) false, dcs).
Proof.
  intros Hh Ha Hs Hlen Hrest Hsz Hm. unfold pdu_text. rewrite Z.eqb_refl.
  rewrite data_from_at by done. pose proof (zlen_nonneg s).
  rewrite gsm7_unpack_plain by (done || lia || (zl; lia)). cbn [cbind]. rewrite drop_replicate.
  rewrite until_nul_text by (eapply Forall_impl; [exact Hs|]; intros c [Hc _]; lia).
  unfold strncpy. rewrite take_ge by (unfold zlen in *; lia).
  rewrite wrn_ok by (zl; unfold zlen in *; lia). cbn [cbind Z.to_nat take app].
  rewrite drop_ge by (rewrite length_app, length_replicate; unfold zlen in *; lia).
  by rewrite app_nil_r.
Qed.

(** Shape a packet around the octet or the tail an access is to. *)
Ltac shape := rewrite <- ?app_assoc; cbn [app]; rewrite <- ?app_assoc; reflexivity.

Lemma data_shape buffer hdr a x r i :
  buffer = hdr ++ a ++ x :: r -> zlen hdr = PDU_OFFSET -> zlen a = i -> data buffer i = Ret x.
Proof. intros ->. apply data_at. Qed.
Lemma data_from_shape buffer hdr a r i :
  buffer = hdr ++ a ++ r -> zlen hdr = PDU_OFFSET -> zlen a = i -> data_from buffer i = r.
Proof. intros ->. apply data_from_at. Qed.

(** Where the decoder finds each part of a DELIVER PDU. *)
Lemma deliver_reads hdr smsc ds first pid date n x tail :
  let L := zlen smsc + 5 + (zlen ds + 1) / 2 in
  let buffer := hdr ++ ((([1 + zlen smsc; 0x91] ++ smsc) ++ [first; zlen ds]) ++
                        0x91 :: semi_octets ds) ++ [pid; 0] ++ date ++ n :: x :: tail in
  zlen hdr = PDU_OFFSET -> zlen date = 7 ->
  data buffer 0 = Ret (1 + zlen smsc) /\
  data_from buffer 1 = 0x91 :: smsc ++ [first; zlen ds] ++ (0x91 :: semi_octets ds) ++
                       [pid; 0] ++ date ++ n :: x :: tail /\
  data buffer (zlen smsc + 2) = Ret first /\ data buffer (zlen smsc + 3) = Ret (zlen ds) /\
  data_from buffer (zlen smsc + 4) =
    0x91 :: semi_octets ds ++ [pid; 0] ++ date ++ n :: x :: tail /\
  data buffer L = Ret pid /\ data buffer (L + 1) = Ret 0 /\
  data_from buffer (L + 2) = date ++ n :: x :: tail /\
  data buffer (L + 9) = Ret n /\ data buffer (L + 9 + 1) = Ret x.
Proof.
  intros L buffer Hh Hdate. pose proof (zlen_semi_octets ds) as Hsemi.
  set (A1 := [1 + zlen smsc; 0x91] ++ smsc) in *.
  set (A2 := A1 ++ [first; zlen ds]) in *.
  set (A3 := A2 ++ 0x91 :: semi_octets ds) in *.
  assert (HA1 : zlen A1 = zlen smsc + 2) by (unfold A1; zl; lia).
  assert (HA2 : zlen A2 = zlen smsc + 4) by (unfold A2; zl; lia).
  assert (HA3 : zlen A3 = L) by (unfold A3, L; zl; lia).
  split_and!.
  - eapply (data_shape _ hdr []); [unfold buffer, A3, A2, A1; shape|done..].
  - eapply (data_from_shape _ hdr [1 + zlen smsc]); [unfold buffer, A3, A2, A1; shape|done..].
  - eapply (data_shape _ hdr A1); [unfold buffer, A3, A2; shape|done..].
  - eapply (data_shape _ hdr (A1 ++ [first])); [unfold buffer, A3, A2; shape|done|zl; lia].
  - eapply (data_from_shape _ hdr A2); [unfold buffer, A3; shape|done..].
  - eapply (data_shape _ hdr A3); [unfold buffer; shape|done..].
  - eapply (data_shape _ hdr (A3 ++ [pid])); [unfold buffer; shape|done|zl; lia].
  - eapply (data_from_shape _ hdr (A3 ++ [pid; 0])); [unfold buffer; shape|done|zl; lia].
  - eapply (data_shape _ hdr (A3 ++ [pid; 0] ++ date)); [unfold buffer; shape|done|zl; lia].
  - eapply (data_shape _ hdr (A3 ++ [pid; 0] ++ date ++ [n])); [unfold buffer; shape|done|zl; lia].
Qed.

(** ** The sender's number

    The decoder is given the count of digits as the length in octets of the address
    with its type, and stops at an octet above 0xf0, which only an odd number of
    digits ends with. *)

(** The two characters an octet is printed as. *)
Definition octet_text (l : list Z) : list Z :=
  concat (map (fun o => [Z.land o 0x0f + 48; Z.shiftr (Z.land o 0xf0) 4 + 48]) l).
(** The octets behind the digits that are taken for digits too. *)
Definition overread (ds follow : list Z) : list Z :=
  if Nat.odd (length ds) then [] else take (length ds - 1 - length ds / 2) follow.
(** The field of the sender with the digits [ds], the octets [follow] behind them: an
    odd number of digits is ended by a NUL, an even one is followed by what was read
    too far and by what the field held before. *)
Definition sender_field (ds follow old : list Z) : list Z :=
  43 :: map (Z.add 48) ds ++
  if Nat.odd (length ds) then 0 :: drop (2 + length ds) old
  else octet_text (overread ds follow) ++ drop (1 + length ds + 2 * length (overread ds follow)) old.
(** A sender whose field is that one: the last of an odd number of digits is not 0,
    and none of the octets read too far ends the number. *)
Definition sender_ok (ds follow : list Z) : Prop :=
  Forall digit_ok ds /\ 2 <= zlen ds <= 19 /\ (Nat.odd (length ds) = true -> last ds <> Some 0) /\
  Forall (fun o => o <= 0xf0) (overread ds follow).

Lemma number_loop_octets n os dpre rest pre b :
  Forall (fun o => o <= 0xf0) os -> zlen os < Z.of_nat n -> zlen dpre + zlen os <= 255 ->
  zlen pre + 2 * zlen os <= 255 -> (2 * length os <= length b)%nat ->
  number_loop n (zlen dpre) (zlen dpre + zlen os) (zlen pre) (dpre ++ os ++ rest) (pre ++ b) =
  Ret (pre ++ octet_text os ++ drop (2 * length os) b).
Proof.
  intros Hos. revert n dpre pre b. induction Hos as [|o os Ho _ IH]; intros n dpre pre b Hn Hl Hc Hb;
    (destruct n as [|n]; [exfalso; match type of Hn with zlen ?l < _ => pose proof (zlen_nonneg l); lia end|]); cbn [number_loop].
  { zl. by ifdec. }
  pose proof (zlen_nonneg dpre). pose proof (zlen_nonneg pre). pose proof (zlen_nonneg os). zl.
  destruct b as [|x [|y b]]; cbn [length] in Hb; [lia..|]. ifdec.
  change ((o :: os) ++ rest) with (o :: os ++ rest). rewrite rdA_middle. cbn [cbind].
  rewrite wrA_middle. cbn [cbind]. rewrite (cons_middle (Z.land o 15 + 48)), app_assoc, wrA_at by (zl; lia). cbn [cbind].
  rewrite !u8_small by lia. ifdec.
  specialize (IH n (dpre ++ [o]) ((pre ++ [Z.land o 15 + 48]) ++ [Z.shiftr (Z.land o 0xf0) 4 + 48]) b).
  zl. rewrite <- !app_assoc in IH. cbn [app] in IH. rewrite <- !app_assoc. cbn [app].
  replace (zlen dpre + (1 + 0)) with (zlen dpre + 1) in IH by lia.
  replace (zlen pre + (1 + 0) + (1 + 0)) with (zlen pre + 2) in IH by lia.
  replace (zlen dpre + (1 + zlen os)) with (zlen dpre + 1 + zlen os) by lia.
  rewrite IH by lia. unfold octet_text. cbn [map concat app].
  by replace (2 * length (o :: os))%nat with (S (S (2 * length os))) by (cbn [length]; lia).
Qed.
Lemma semi_octets_text ds : Nat.odd (length ds) = false -> Forall digit_ok ds ->
  octet_text (semi_octets ds) = map (Z.add 48) ds /\ Forall (fun o => o <= 0xf0) (semi_octets ds).
Proof.
  cut (forall n ds, (length ds <= n)%nat -> Nat.odd (length ds) = false -> Forall digit_ok ds ->
    octet_text (semi_octets ds) = map (Z.add 48) ds /\ Forall (fun o => o <= 0xf0) (semi_octets ds)); [eauto|].
  clear ds. induction n as [|n IH]; intros [|a [|c ds]] Hl Hodd Hds; cbn [length] in Hl; try lia; try done.
  apply Forall_cons in Hds as [Ha Hds]. apply Forall_cons in Hds as [Hc Hds]. unfold digit_ok in Ha, Hc.
  destruct (IH ds) as [E Hf]; [lia|done|done|]. destruct (nibbles a c) as [Hlo Hhi]; [lia..|].
  cbn [semi_octets octet_text map concat app] in *. unfold octet_text in E. rewrite Hlo, Hhi, E.
  split; [by rewrite (Z.add_comm a), (Z.add_comm c)|]. constructor; [lia|done].
Qed.
(** The sender's number, of either kind. *)
Lemma decode_number_sender ds follow tail number :
  sender_ok ds follow -> 9 <= zlen follow -> 64 <= zlen number ->
  decode_number (0x91 :: semi_octets ds ++ follow ++ tail) (zlen ds) number = Ret (0, sender_field ds follow number).
Proof.
  intros (Hds & Hn & Hlast & Hover) Hfollow Hnum. pose proof (zlen_semi_octets ds) as Hsemi. unfold sender_field, overread in *.
  destruct (Nat.odd (length ds)) eqn:Hodd.
  - assert (zlen ds <> 2) by (intros H; unfold zlen in H; assert (length ds = 2)%nat as H' by lia; by rewrite H' in Hodd).
    rewrite decode_number_international by (auto; dlia). done.
  - unfold decode_number. change (rd (0x91 :: _) 0) with (Ret 0x91). cbn [cbind].
    change (Z.land 0x91 SMS_NUMBER_TYPE_MASK =? SMS_NUMBER_TYPE_ALPHA) with false.
    change (0x91 =? 0x91) with true. ifdec.
    destruct number as [|x b]; [zl; lia|]. rewrite wrA_0. cbn [cbind].
    set (more := take (length ds - 1 - length ds / 2) follow) in *.
    destruct (semi_octets_text ds Hodd Hds) as [Etext Hsem].
    assert (exists k, length ds = (2 * k)%nat) as [k Hk].
    { apply Nat.even_spec. by rewrite <- Nat.negb_odd, Hodd. }
    assert (length ds / 2 = k)%nat as Hhalf by (rewrite Hk, Nat.mul_comm; by apply Nat.div_mul).
    assert (length more = k - 1)%nat as Hmore by (unfold more; rewrite length_take; unfold zlen in *; lia).
    assert (length (semi_octets ds) = k) as Hsl by (unfold zlen in Hsemi; rewrite Hk in Hsemi; dlia).
    pose proof (number_loop_octets 256 (semi_octets ds ++ more) [0x91] (drop (k - 1) follow ++ tail) [43] b) as E.
    assert (zlen (semi_octets ds ++ more) = zlen ds - 1) as Hz by (zl; unfold zlen in *; lia).
    change (zlen [0x91]) with 1 in E. change (zlen [43]) with 1 in E. rewrite Hz in E. rewrite zlen_cons in Hnum.
    replace (1 + (zlen ds - 1)) with (zlen ds) in E by lia. cbn [app] in E.
    assert ((semi_octets ds ++ more) ++ drop (k - 1) follow ++ tail = semi_octets ds ++ follow ++ tail) as Hsplit.
    { unfold more. rewrite Hhalf, Hk. replace (2 * k - 1 - k)%nat with (k - 1)%nat by lia.
      rewrite <- !app_assoc. f_equal. by rewrite app_assoc, take_drop. }
    rewrite Hsplit in E. rewrite E; clear E; [|by apply Forall_app|lia|lia|lia|rewrite length_app; unfold zlen in *; lia].
    cbn [cbind]. rewrite length_app, Hsl, Hmore, Hk. f_equal. f_equal. f_equal.
    unfold octet_text in *. rewrite map_app, concat_app, Etext, <- app_assoc. f_equal. f_equal.
    replace (1 + 2 * k + 2 * (k - 1))%nat with (S (2 * (k + (k - 1)))) by lia. done.
Qed.

(** ** The decoder *)

(** The decoder behind the service centre. *)
Lemma pdu_address_deliver hdr smsc ds first pid date s rest m dcs0 :
  let buffer := hdr ++ deliver_pdu smsc ds first pid date s ++ rest in
  zlen hdr = PDU_OFFSET -> zlen smsc <= 30 -> sender_ok ds (pid :: 0 :: date) -> zlen date = 7 ->
  Forall plain_char s -> 0 < zlen s <= 160 -> bytes_ok rest -> zlen rest < 65536 ->
  zlen (md_phone_number m) = 64 -> zlen (md_message m) = 160 ->
  pdu_address buffer (zlen buffer) SMS_TP_MTI_SMS_DELIVER (zlen smsc + 3) 0 false m dcs0 =
  Ret (0, {| md_smsc := md_smsc m; md_phone_number := sender_field ds (pid :: 0 :: date) (md_phone_number m);
             md_dcs := 0; md_raw_message := false;
             md_message := s ++ replicate (160 - length s) 0 |}, 0).
Proof.
  intros buffer Hh Hsmsc Hsender Hdate Hs Hslen Hrest Hrl Hm2 Hm3. pose proof Hsender as (Hds & Hn & _).
  pose proof (zlen_semi_octets ds) as Hsemi. pose proof (zlen_nonneg smsc). pose proof (zlen_nonneg rest).
  assert (Hp : zlen (le (packed_size (length s)) (b128 s)) = (7 * zlen s + 7) / 8)
    by (rewrite zlen_le, packed_size_0; done).
  destruct (le (packed_size (length s)) (b128 s)) as [|x packed] eqn:Epk; [zl; dlia|].
  destruct (deliver_reads hdr smsc ds first pid date (zlen s) x (packed ++ rest) Hh Hdate)
    as (_ & _ & _ & D3 & D4 & D5 & D6 & D7 & D8 & D9).
  set (A4 := (([1 + zlen smsc; 0x91] ++ smsc ++ [first; zlen ds]) ++ 0x91 :: semi_octets ds) ++
             [pid; 0] ++ date).
  set (L := zlen smsc + 5 + (zlen ds + 1) / 2) in *.
  assert (HA4 : zlen A4 = L + 9) by (unfold A4, L; zl; lia).
  assert (Hbuf : buffer = hdr ++ A4 ++ zlen s :: (x :: packed) ++ rest)
    by (unfold buffer, deliver_pdu, A4; rewrite Epk; shape).
  match type of D3 with data ?b _ = _ => replace b with buffer in * by (rewrite Hbuf; unfold A4; shape) end.
  clearbody buffer.
  assert (Hsize : zlen buffer = 27 + (zlen A4 + 1 + ((7 * zlen s + 7) / 8) + zlen rest))
    by (rewrite Hbuf; unfold PDU_OFFSET in Hh; zl; lia).
  assert (Hdiv : 0 <= (zlen ds + 1) / 2 <= 10) by dlia.
  assert (Hdiv8 : 1 <= (7 * zlen s + 7) / 8 <= 140) by dlia.
  unfold pdu_address. rewrite D3. cbn [cbind]. rewrite (u8_small (zlen smsc + 3 + 1)) by lia.
  replace (zlen smsc + 3 + 1) with (zlen smsc + 4) by lia.
  rewrite Z.shiftr_div_pow2 by lia. change (2 ^ 1) with 2. ifdec. rewrite D4.
  change (0x91 :: semi_octets ds ++ [pid; 0] ++ date ++ zlen s :: x :: packed ++ rest)
    with (0x91 :: semi_octets ds ++ (pid :: 0 :: date) ++ zlen s :: x :: packed ++ rest).
  rewrite decode_number_sender by (done || (zl; lia)). cbn [cbind].
  rewrite (u8_small (zlen smsc + 4 + _)) by lia.
  replace (zlen smsc + 4 + (1 + (zlen ds + 1) / 2)) with (L) by lia.
  unfold pdu_fields. rewrite Z.eqb_refl. ifdec.
  rewrite !(u8_small (L + _)) by lia. rewrite D7.
  assert (Hdl : length date = 7%nat) by (unfold zlen in Hdate; lia).
  destruct date as [|t0 [|t1 [|t2 [|t3 [|t4 [|t5 [|t6 [|]]]]]]]]; try discriminate Hdl.
  cbn [app].
  destruct (timestamp_total t0 t1 t2 t3 t4 t5 t6 (zlen s :: x :: packed ++ rest) (replicate 128 0))
    as [out' ->]; [done|].
  cbn [cbind]. rewrite D8, D9. cbn [cbind].
  unfold pdu_dcs. ifdec. rewrite D5, D6. cbn [cbind].
  change (sms_encoding_type 0) with MM_SMS_ENCODING_GSM7.
  unfold pdu_user_data. rewrite D8. cbn [cbind]. ifdec.
  rewrite !u8_small by lia. ifdec.
  rewrite Hbuf, cons_middle, (app_assoc A4), <- Epk, pdu_text_plain; try done; try (zl; lia).
Qed.

Definition sample_message_data : message_data :=
  {| md_smsc := replicate 64 0; md_phone_number := replicate 64 0; md_dcs := 9;
     md_raw_message := true; md_message := replicate 160 7 |}.

(** Of five digits the field has the number; of eleven (the usual length with the
    country) too; of ten it goes on with the scheme and the date. *)
Example sender_fields :
  cstr (sender_field [3; 4; 6; 0; 9] [0; 0; 0x22; 0x10; 0x51; 0; 0; 0; 0] (replicate 64 0)) = Ret (zs "+34609") /\
  cstr (sender_field [3; 4; 6; 0; 9; 1; 1; 2; 2; 3; 3] [0; 0; 0x22; 0x10; 0x51; 0; 0; 0; 0] (replicate 64 0)) =
    Ret (zs "+34609112233") /\
  cstr (sender_field [3; 4; 6; 0; 9; 1; 1; 2; 2; 3] [0; 0; 0x22; 0x10; 0x51; 0; 0; 0; 0] (replicate 64 0)) =
    Ret (zs "+346091122300002201").
Proof. vm_compute. by repeat split. Qed.

(** ** What the decoder does not check *)

Lemma gsm7_char_no_spin buffer s : gsm7_char buffer s <> Spin.
Proof.
  unfold gsm7_char, rdA. repeat (csplit || (destruct (buffer !! _); cbn [cbind]) || done).
Qed.

Lemma gsm7_loop_overflow n i buffer out off :
  0 <= i <= zlen out -> zlen out < i + Z.of_nat n -> gsm7_loop n i buffer out off = Oob.
Proof.
  revert i out; induction n as [|n IH]; intros i out Hi Hn.
  { lia. }
  cbn [gsm7_loop]. destruct (gsm7_char buffer _) as [c| |] eqn:E; [|done|].
  2: { by apply gsm7_char_no_spin in E. }
  cbn [cbind]. destruct (wrA_cases out i c) as [->|(out' & Hr & -> & Hl)]; [done|].
  cbn [cbind]. apply IH; lia.
Qed.

(** A GSM7 text of more than 160 septets (the length octet allows 255) is
    unpacked past the end of the 160-byte local it is decoded into. *)
Theorem pdu_text_overflow buffer elements size_bytes ud_offset bit_offset m dcs :
  160 < elements ->
  pdu_text buffer MM_SMS_ENCODING_GSM7 elements size_bytes ud_offset bit_offset m dcs = Oob.
Proof.
  intros He. unfold pdu_text. rewrite Z.eqb_refl. unfold gsm7_to_ascii.
  rewrite gsm7_loop_overflow; [done|zl; lia|]. zl. lia.
Qed.
Lemma pdu_text_overflow_witness :
  160 < 161 /\
  pdu_text (replicate 400 0) MM_SMS_ENCODING_GSM7 161 141 20 0 sample_message_data 0 = Oob.
Proof. split; [lia|]. apply pdu_text_overflow. lia. Defined.

(** An information element of 254 octets moves the 8-bit offset by 256, to
    where it was: the loop over the user data header never ends. *)
Theorem udh_loop_endless fuel buffer offset ende ie_id :
  0 <= offset < 254 -> offset + 1 < ende ->
  data buffer offset = Ret ie_id -> ie_id <> 0x00 -> ie_id <> 0x08 ->
  data buffer (offset + 1) = Ret 254 ->
  udh_loop buffer fuel offset ende = Spin.
Proof.
  intros Ho He Hid H0 H8 Hl. induction fuel as [|fuel IH]; [done|].
  cbn [udh_loop]. rewrite (proj2 (Z.ltb_lt _ _) He), Hid. cbn [cbind].
  rewrite (u8_small (offset + 1)) by lia. rewrite Hl. cbn [cbind].
  unfold read_ie. rewrite (proj2 (Z.eqb_neq _ _) H0), (proj2 (Z.eqb_neq _ _) H8). cbn [cbind].
  rewrite (u8_small (offset + 1 + 1)) by lia.
  replace (u8 (offset + 1 + 1 + 254)) with offset by (unfold u8; dlia). exact IH.
Qed.
Lemma udh_loop_endless_witness :
  udh_loop (replicate 32 0 ++ [5; 254; 0; 0]) udh_fuel 5 20 = Spin.
Proof. eapply (udh_loop_endless _ _ 5 20 5); try reflexivity; try lia. Defined.
