(* ===== verification/Sms.v ===== *)
(** The simulated message store (src/sms.c): the queue of texts the modem
    itself sends to the host, the notify / read / delete conversation with the
    host, and the retries. The filters that work on it are in SmsFilter.v.
    File descriptors, the clock and the local time come from the environment;
    writes and calls into other components are actions. *)

From stdpp Require Import base list numbers option strings.
From Stdlib Require Import ZArith Lia.
From S2P Require Import Prelude Libc Eff Qmi Gsm7 Pdu.

(** * State *)

Definition MAX_MESSAGE_SIZE : Z := 160.
Definition QUEUE_SIZE : Z := 256.

Definition MSG_NONE : Z := -1.
Definition MSG_EXTERNAL : Z := 0.
Definition MSG_INTERNAL : Z := 1.

Definition WMS_EVENT_REPORT : Z := 0x0001.
Definition WMS_RAW_SEND : Z := 0x0020.
Definition WMS_READ_MESSAGE : Z := 0x0022.
Definition WMS_DELETE : Z := 0x0024.
Definition WMS_LIST_ALL_MESSAGES : Z := 0x0031.

Definition TLV_QMI_RESULT : Z := 0x02.
Definition TLV_TRANSFER_MT_MESSAGE : Z := 0x11.
Definition TLV_MESSAGE_TYPE : Z := 0x10.
Definition TLV_MESSAGE_MODE : Z := 0x12.
Definition TLV_SMS_OVER_IMS : Z := 0x16.

(** struct timespec *)
Record timespec := { tv_sec : Z; tv_nsec : Z }.

Record message := {
  m_pkt : list Z;  (* char[MAX_MESSAGE_SIZE] *)
  m_len : Z;
  m_message_id : Z;
  m_is_raw : Z;
  m_is_cb : Z;
  m_tp_dcs : Z;
  m_state : Z;
  m_retries : Z;
  m_timestamp : timespec
}.

Record sms_runtime := {
  notif_pending : bool;
  source : Z;                      (* uint8_t *)
  current_message_id : Z;          (* uint32_t *)
  curr_transaction_id : Z;         (* uint16_t *)
  pending_messages_from_adsp : Z;  (* uint32_t *)
  lock_queue : bool;
  queue_pos : Z;                   (* int *)
  msg : list message;              (* [QUEUE_SIZE] *)
  stuck_message_data : option (list Z);
  stuck_message_data_pending : bool
}.

(** ** Field updates *)

Definition set_pkt v m := {| m_pkt := v; m_len := m_len m; m_message_id := m_message_id m;
  m_is_raw := m_is_raw m; m_is_cb := m_is_cb m; m_tp_dcs := m_tp_dcs m; m_state := m_state m;
  m_retries := m_retries m; m_timestamp := m_timestamp m |}.
Definition set_len v m := {| m_pkt := m_pkt m; m_len := v; m_message_id := m_message_id m;
  m_is_raw := m_is_raw m; m_is_cb := m_is_cb m; m_tp_dcs := m_tp_dcs m; m_state := m_state m;
  m_retries := m_retries m; m_timestamp := m_timestamp m |}.
Definition set_message_id v m := {| m_pkt := m_pkt m; m_len := m_len m; m_message_id := v;
  m_is_raw := m_is_raw m; m_is_cb := m_is_cb m; m_tp_dcs := m_tp_dcs m; m_state := m_state m;
  m_retries := m_retries m; m_timestamp := m_timestamp m |}.
Definition set_is_raw v m := {| m_pkt := m_pkt m; m_len := m_len m; m_message_id := m_message_id m;
  m_is_raw := v; m_is_cb := m_is_cb m; m_tp_dcs := m_tp_dcs m; m_state := m_state m;
  m_retries := m_retries m; m_timestamp := m_timestamp m |}.
Definition set_is_cb v m := {| m_pkt := m_pkt m; m_len := m_len m; m_message_id := m_message_id m;
  m_is_raw := m_is_raw m; m_is_cb := v; m_tp_dcs := m_tp_dcs m; m_state := m_state m;
  m_retries := m_retries m; m_timestamp := m_timestamp m |}.
Definition set_tp_dcs v m := {| m_pkt := m_pkt m; m_len := m_len m; m_message_id := m_message_id m;
  m_is_raw := m_is_raw m; m_is_cb := m_is_cb m; m_tp_dcs := v; m_state := m_state m;
  m_retries := m_retries m; m_timestamp := m_timestamp m |}.
Definition set_state v m := {| m_pkt := m_pkt m; m_len := m_len m; m_message_id := m_message_id m;
  m_is_raw := m_is_raw m; m_is_cb := m_is_cb m; m_tp_dcs := m_tp_dcs m; m_state := v;
  m_retries := m_retries m; m_timestamp := m_timestamp m |}.
Definition set_retries v m := {| m_pkt := m_pkt m; m_len := m_len m; m_message_id := m_message_id m;
  m_is_raw := m_is_raw m; m_is_cb := m_is_cb m; m_tp_dcs := m_tp_dcs m; m_state := m_state m;
  m_retries := v; m_timestamp := m_timestamp m |}.
Definition set_timestamp v m := {| m_pkt := m_pkt m; m_len := m_len m; m_message_id := m_message_id m;
  m_is_raw := m_is_raw m; m_is_cb := m_is_cb m; m_tp_dcs := m_tp_dcs m; m_state := m_state m;
  m_retries := m_retries m; m_timestamp := v |}.

Definition upd_notif v r := {| notif_pending := v; source := source r;
  current_message_id := current_message_id r; curr_transaction_id := curr_transaction_id r;
  pending_messages_from_adsp := pending_messages_from_adsp r; lock_queue := lock_queue r;
  queue_pos := queue_pos r; msg := msg r; stuck_message_data := stuck_message_data r;
  stuck_message_data_pending := stuck_message_data_pending r |}.
Definition upd_source v r := {| notif_pending := notif_pending r; source := v;
  current_message_id := current_message_id r; curr_transaction_id := curr_transaction_id r;
  pending_messages_from_adsp := pending_messages_from_adsp r; lock_queue := lock_queue r;
  queue_pos := queue_pos r; msg := msg r; stuck_message_data := stuck_message_data r;
  stuck_message_data_pending := stuck_message_data_pending r |}.
Definition upd_current v r := {| notif_pending := notif_pending r; source := source r;
  current_message_id := v; curr_transaction_id := curr_transaction_id r;
  pending_messages_from_adsp := pending_messages_from_adsp r; lock_queue := lock_queue r;
  queue_pos := queue_pos r; msg := msg r; stuck_message_data := stuck_message_data r;
  stuck_message_data_pending := stuck_message_data_pending r |}.
Definition upd_tid v r := {| notif_pending := notif_pending r; source := source r;
  current_message_id := current_message_id r; curr_transaction_id := v;
  pending_messages_from_adsp := pending_messages_from_adsp r; lock_queue := lock_queue r;
  queue_pos := queue_pos r; msg := msg r; stuck_message_data := stuck_message_data r;
  stuck_message_data_pending := stuck_message_data_pending r |}.
Definition upd_adsp v r := {| notif_pending := notif_pending r; source := source r;
  current_message_id := current_message_id r; curr_transaction_id := curr_transaction_id r;
  pending_messages_from_adsp := v; lock_queue := lock_queue r;
  queue_pos := queue_pos r; msg := msg r; stuck_message_data := stuck_message_data r;
  stuck_message_data_pending := stuck_message_data_pending r |}.
Definition upd_lock v r := {| notif_pending := notif_pending r; source := source r;
  current_message_id := current_message_id r; curr_transaction_id := curr_transaction_id r;
  pending_messages_from_adsp := pending_messages_from_adsp r; lock_queue := v;
  queue_pos := queue_pos r; msg := msg r; stuck_message_data := stuck_message_data r;
  stuck_message_data_pending := stuck_message_data_pending r |}.
Definition upd_pos v r := {| notif_pending := notif_pending r; source := source r;
  current_message_id := current_message_id r; curr_transaction_id := curr_transaction_id r;
  pending_messages_from_adsp := pending_messages_from_adsp r; lock_queue := lock_queue r;
  queue_pos := v; msg := msg r; stuck_message_data := stuck_message_data r;
  stuck_message_data_pending := stuck_message_data_pending r |}.
Definition upd_msgs v r := {| notif_pending := notif_pending r; source := source r;
  current_message_id := current_message_id r; curr_transaction_id := curr_transaction_id r;
  pending_messages_from_adsp := pending_messages_from_adsp r; lock_queue := lock_queue r;
  queue_pos := queue_pos r; msg := v; stuck_message_data := stuck_message_data r;
  stuck_message_data_pending := stuck_message_data_pending r |}.
Definition upd_stuck d p r := {| notif_pending := notif_pending r; source := source r;
  current_message_id := current_message_id r; curr_transaction_id := curr_transaction_id r;
  pending_messages_from_adsp := pending_messages_from_adsp r; lock_queue := lock_queue r;
  queue_pos := queue_pos r; msg := msg r; stuck_message_data := d;
  stuck_message_data_pending := p |}.

(** * Environment and actions *)

(** struct tm, the fields used. *)
Record tm := { tm_year : Z; tm_mon : Z; tm_mday : Z; tm_hour : Z; tm_min : Z; tm_sec : Z }.

(** What a handler sees of the outside while it runs: the result of write(2)
    by descriptor and buffer, the monotonic clock, the local time, and the
    timezone kept by timesync.c. *)
Record sms_env := {
  e_write : Z -> list Z -> Z;
  e_now : timespec;
  e_tm : tm;
  e_timezone : Z;
  e_tz_negative : bool
}.

Inductive action :=
| Write (fd : Z) (data : list Z)      (* write(2) *)
| PulseRingIn                         (* pulse_ring_in, helpers.c *)
| ParseCommand (text : list Z)        (* parse_command, command.c *)
| HostNotified (en : bool)            (* set_sms_notification_pending_state, atfwd.c *)
| AddVoiceMessage (text : list Z).    (* add_voice_message_to_queue, call.c *)

Definition MS (A : Type) : Type := M sms_runtime action A.

(** [sms_runtime.queue.msg[i]] read and updated. *)
Definition get_msg (i : Z) : MS message := do* r := get in lift (rdA (msg r) i).
Definition on_msg (i : Z) (f : message -> message) : MS unit :=
  modifyM (fun r => let* m := rdA (msg r) i in let* l := wrA (msg r) i (f m) in Ret (upd_msgs l r)).

(** * Simple operations *)

Definition reset_sms_runtime : MS unit :=
  modify (fun r => {| notif_pending := false; source := u8 (-1); current_message_id := 0;
    curr_transaction_id := 0; pending_messages_from_adsp := 0; lock_queue := false;
    queue_pos := -1; msg := msg r; stuck_message_data := None;
    stuck_message_data_pending := false |}).

Definition set_notif_pending (pending : bool) : MS unit := modify (upd_notif pending).
Definition set_queue_lock (lock : bool) : MS unit := modify (upd_lock lock).
Definition set_pending_notification_source (s : Z) : MS unit := modify (upd_source (u8 s)).
Definition get_notification_source (r : sms_runtime) : Z := source r.
Definition get_pending_messages_in_adsp (r : sms_runtime) : Z := pending_messages_from_adsp r.
Definition is_stuck_message_retrieve_pending (r : sms_runtime) : bool := stuck_message_data_pending r.
Definition set_pending_messages_in_adsp (index : Z) : MS unit := modify (upd_adsp index).
Definition get_internal_pending_messages (r : sms_runtime) : Z := current_message_id r.
Definition is_message_pending (r : sms_runtime) : bool := notif_pending r.

(** * Packets *)

Definition wms_qmux (packet_len : Z) : qmux_packet :=
  {| version := 0x01; packet_length := packet_len; control := 0x80; service := 0x05;
     instance_id := 0x01 |}.

(** struct wms_message_indication_packet, as filled for a notification. *)
Definition notification_packet (message_id : Z) : list Z :=
  enc_qmux (wms_qmux (29 - 1)) ++
  enc_qmi {| ctlid := 0x04; transaction_id := 2; msgid := WMS_EVENT_REPORT;
             qmi_length := 8 + 4 + 4 |} ++
  le 1 TLV_MESSAGE_TYPE ++ le 2 5 ++ le 1 0x01 ++ le 4 message_id ++
  le 1 TLV_MESSAGE_MODE ++ le 2 1 ++ le 1 0x01 ++
  le 1 TLV_SMS_OVER_IMS ++ le 2 1 ++ le 1 0x00.

Definition generate_message_notification (fd message_id : Z) : MS unit :=
  modify (upd_tid 0) ;>
  emit (Write fd (notification_packet message_id)).

(** struct wms_message_delete_packet *)
Definition deletion_packet (tid indication : Z) : list Z :=
  enc_qmux (wms_qmux (20 - 1)) ++
  enc_qmi {| ctlid := 0x02; transaction_id := tid; msgid := WMS_DELETE; qmi_length := 0x07 |} ++
  enc_result {| result_code_type := TLV_QMI_RESULT; generic_result_size := 0x04;
    result := if indication =? 0 then 0x01 else 0x00;
    response := if indication =? 0 then 0x32 else 0x00 |}.

Definition process_message_deletion (fd message_id indication : Z) : MS unit :=
  do* r := get in
  emit (Write fd (deletion_packet (curr_transaction_id r) indication)).

Definition fill_sender_phone_number (alternate_num : bool) : list Z :=
  [0x22; 0x33; 0x44; 0x55; 0x66; if alternate_num then 0x87 else 0x77].

(** struct wms_build_message up to the [count] bytes of contents it sends. *)
Definition sms_packet (tid : Z) (cb : bool) (dcs : Z) (date : list Z) (content_sz count : Z)
    (contents : list Z) : list Z :=
  let qmi_len := 7 + 4 + 190 - MAX_MESSAGE_SIZE + count in
  enc_qmux (wms_qmux (6 + 7 + 7 + 4 + 190 - MAX_MESSAGE_SIZE + count - 1)) ++
  enc_qmi {| ctlid := 0x02; transaction_id := tid; msgid := WMS_READ_MESSAGE;
             qmi_length := qmi_len |} ++
  enc_result {| result_code_type := TLV_QMI_RESULT; generic_result_size := 0x04;
                result := 0x00; response := 0x00 |} ++
  le 1 0x01 ++ le 2 (qmi_len - 7 - 3) ++ le 1 0x01 ++
  le 1 0x06 ++ le 2 (qmi_len - 7 - 4 - 3) ++
  [0x07; 0x91] ++ fill_sender_phone_number cb ++ [0x04] ++
  [0x0c; 0x91] ++ fill_sender_phone_number cb ++ [0x00; dcs] ++
  date ++ le 1 content_sz ++ contents.

Section Handlers.
(** The environment of the handler's run. *)
Variable env : sms_env.

(** struct wms_datetime; before 2001 the year is replaced. *)
Definition packet_date (fallback : Z) : list Z :=
  let t := e_tm env in
  let tmpyear := u8 (if 100 <? tm_year t then tm_year t - 100 else fallback) in
  let timezone := swap_byte (u8 (e_timezone env * 4)) in
  [swap_byte tmpyear; swap_byte (u8 (tm_mon t + 1)); swap_byte (u8 (tm_mday t));
   swap_byte (u8 (tm_hour t)); swap_byte (u8 (tm_min t)); swap_byte (u8 (tm_sec t));
   if e_tz_negative env then Z.lor timezone (Z.shiftl 1 3) else timezone].

Definition build_and_send_message (fd message_id : Z) : MS Z :=
  do* m := get_msg message_id in
  do* '(n, msgoutput) := lift (ascii_to_gsm7 (m_pkt m) (replicate 160 0)) in
  let count := if MAX_MESSAGE_SIZE <? n then 160 else n in
  do* r := get in
  do* contents := lift (rdn msgoutput 0 (Z.to_nat count)) in
  do* text_len := lift (strlen (m_pkt m)) in
  let this_sms := sms_packet (curr_transaction_id r) (negb (m_is_cb m =? 0)) 0x00
    (packet_date 24) text_len count contents in
  emit (Write fd this_sms) ;>
  ret (e_write env fd this_sms).

Definition build_and_send_raw_message (fd message_id : Z) : MS Z :=
  do* m := get_msg message_id in
  (if negb (m_tp_dcs m =? 0x00) && (m_len m <? MAX_MESSAGE_SIZE) && negb (m_len m mod 2 =? 0)
   then on_msg message_id (set_len (m_len m + 1)) else ret tt) ;>
  do* m := get_msg message_id in
  do* _ := lift (wrn (replicate 160 0) 0 (replicate (Z.to_nat (m_len m)) 0)) in
  do* contents := lift (rdn (m_pkt m) 0 (Z.to_nat (m_len m))) in
  do* r := get in
  let content_sz := if m_tp_dcs m =? 0x00 then m_len m * 8 / 7 else m_len m in
  let this_sms := sms_packet (curr_transaction_id r) (negb (m_is_cb m =? 0)) (m_tp_dcs m)
    (packet_date 22) content_sz (m_len m) contents in
  emit (Write fd this_sms) ;>
  ret (e_write env fd this_sms).

(** * The conversation with the host *)

Definition handle_message_state (fd message_id : Z) : MS unit :=
  if QUEUE_SIZE <=? message_id then ret tt
  else
    do* m := get_msg message_id in
    if m_state m =? 0 then
      emit PulseRingIn ;>
      generate_message_notification fd message_id ;>
      on_msg message_id (set_timestamp (e_now env)) ;>
      on_msg message_id (set_state 1) ;>
      do* m := get_msg message_id in
      modify (upd_current (m_message_id m))
    else if m_state m =? 2 then
      (if m_is_raw m =? 0 then
         do* n := build_and_send_message fd message_id in
         when (0 <? n) (on_msg message_id (set_state 3))
       else
         do* n := build_and_send_raw_message fd message_id in
         when (0 <? n) (on_msg message_id (set_state 3))) ;>
      on_msg message_id (set_timestamp (e_now env))
    else if m_state m =? 4 then
      (if 0 <? m_len m then process_message_deletion fd 0 0
       else process_message_deletion fd 0 1) ;>
      on_msg message_id (set_timestamp (e_now env)) ;>
      on_msg message_id (set_state 9) ;>
      on_msg message_id (set_pkt (replicate 160 0)) ;>
      on_msg message_id (set_len 0) ;>
      modify (fun r => upd_current (u32 (current_message_id r + 1)) r)
    else ret tt.

(** The loop of [wipe_queue] over the first [n] messages, from [i]. *)
Fixpoint wipe_loop (n : nat) (i : Z) : MS unit :=
  match n with
  | O => ret tt
  | S n =>
      on_msg i (set_state 0) ;>
      on_msg i (set_retries 0) ;>
      wipe_loop n (i + 1)
  end.

Definition wipe_queue : MS unit :=
  do* r := get in
  wipe_loop (Z.to_nat (queue_pos r + 1)) 0 ;>
  set_notif_pending false ;>
  set_pending_notification_source MSG_NONE ;>
  modify (upd_pos (-1)) ;>
  modify (upd_current 0).

Definition notify_wms_event (bytes : list Z) (len fd : Z) : MS unit :=
  do* tid := lift (rd16 bytes 7) in
  modify (upd_tid tid) ;>
  do* r := get in
  if queue_pos r <? 0 then ret tt
  else
    do* msgid := lift (rd16 bytes 9) in
    if msgid =? WMS_READ_MESSAGE then
      do* offset := lift (get_tlv_offset_by_id bytes len 0x01) in
      if 0 <? offset then
        do* id := lift (rd32 bytes (offset + 4)) in
        modify (upd_current id) ;>
        on_msg id (set_state 2) ;>
        handle_message_state fd id ;>
        do* r := get in
        on_msg (current_message_id r) (set_timestamp (e_now env))
      else ret tt
    else if msgid =? WMS_DELETE then
      do* m := get_msg (current_message_id r) in
      (if negb (m_state m =? 3) then
         when (0 <? current_message_id r) (modify (upd_current (current_message_id r - 1)))
       else ret tt) ;>
      do* r := get in
      on_msg (current_message_id r) (set_state 4) ;>
      handle_message_state fd (current_message_id r) ;>
      do* r := get in
      on_msg (current_message_id r) (set_timestamp (e_now env))
    else ret tt.

(** [elapsed_time > 5] and [elapsed_time < 0], in nanoseconds: the double the
    code computes is exact up to 2^53 ns, 104 days. *)
Definition elapsed_ns (m : message) : Z :=
  (tv_sec (e_now env) - tv_sec (m_timestamp m)) * 1000000000 +
  (tv_nsec (e_now env) - tv_nsec (m_timestamp m)).

(** The pass over the queue: the first message that is not finished decides,
    and the handler returns there; [true] when all were finished. *)
Fixpoint queue_loop (n : nat) (i fd : Z) : MS bool :=
  match n with
  | O => ret true
  | S n =>
      do* m := get_msg i in
      let elapsed := elapsed_ns m in
      when (elapsed <? 0) (on_msg i (set_timestamp (e_now env))) ;>
      if m_state m =? 0 then
        modify (upd_current (m_message_id m)) ;>
        handle_message_state fd (m_message_id m) ;>
        ret false
      else if (m_state m =? 2) || (m_state m =? 4) then
        do* r := get in
        handle_message_state fd (current_message_id r) ;>
        ret false
      else if (m_state m =? 1) || (m_state m =? 3) then
        (if (5000000000 <? elapsed) && (m_retries m <? 3) then
           on_msg i (set_retries (u8 (m_retries m + 1))) ;>
           on_msg i (set_state (u8 (m_state m - 1)))
         else if (5000000000 <? elapsed) && (3 <=? m_retries m) then
           on_msg i (set_pkt (replicate 160 0)) ;>
           on_msg i (set_state 9) ;>
           on_msg i (set_retries 0) ;>
           on_msg i (set_len 0) ;>
           modify (fun r => upd_current (u32 (current_message_id r + 1)) r)
         else ret tt) ;>
        ret false
      else queue_loop n (i + 1) fd
  end.

Definition process_message_queue (fd : Z) : MS unit :=
  do* r := get in
  if lock_queue r then ret tt
  else if queue_pos r <? 0 then ret tt
  else
    do* finished := queue_loop (Z.to_nat (queue_pos r + 1)) 0 fd in
    when finished wipe_queue.

(** * Adding messages *)

(** [memcpy(msg[i].pkt, message, len)] *)
Definition copy_text (i : Z) (message : list Z) (len : Z) : MS unit :=
  do* text := lift (rdn message 0 (Z.to_nat len)) in
  do* m := get_msg i in
  do* pkt := lift (wrn (m_pkt m) 0 text) in
  on_msg i (set_pkt pkt).

Definition add_sms_to_queue (message : list Z) (len : Z) : MS unit :=
  do* r := get in
  if QUEUE_SIZE - 2 <? queue_pos r then ret tt
  else if 0 <? len then
    set_notif_pending true ;>
    set_pending_notification_source MSG_INTERNAL ;>
    let pos := queue_pos r + 1 in
    modify (upd_pos pos) ;>
    copy_text pos message len ;>
    on_msg pos (set_message_id (u32 pos)) ;>
    on_msg pos (set_tp_dcs 0x00) ;>
    on_msg pos (set_is_raw 0) ;>
    on_msg pos (set_is_cb 0)
  else ret tt.

Definition add_raw_sms_to_queue (message : list Z) (len tp_dcs : Z) (is_cb : bool) : MS unit :=
  do* r := get in
  if QUEUE_SIZE - 2 <? queue_pos r then ret tt
  else if 0 <? len then
    set_notif_pending true ;>
    set_pending_notification_source MSG_INTERNAL ;>
    let pos := queue_pos r + 1 in
    modify (upd_pos pos) ;>
    copy_text pos message len ;>
    on_msg pos (set_message_id (u32 pos)) ;>
    on_msg pos (set_len (i32 len)) ;>
    on_msg pos (set_tp_dcs tp_dcs) ;>
    on_msg pos (set_is_raw 1) ;>
    when is_cb (on_msg pos (set_is_cb 1))
  else ret tt.

Definition do_inject_notification (fd : Z) : MS unit :=
  set_notif_pending false ;>
  set_pending_notification_source MSG_NONE ;>
  generate_message_notification fd 0.
End Handlers.

(** * Operations of the store, and what it reaches *)

Inductive sms_op :=
| OpReset
| OpLock (b : bool)
| OpAdd (message : list Z) (len : Z)
| OpAddRaw (message : list Z) (len tp_dcs : Z) (is_cb : bool)
| OpNotify (bytes : list Z) (len fd : Z)
| OpProcess (fd : Z)
| OpInject (fd : Z).

Definition run_op (env : sms_env) (op : sms_op) : MS unit :=
  match op with
  | OpReset => reset_sms_runtime
  | OpLock b => set_queue_lock b
  | OpAdd message len => add_sms_to_queue message len
  | OpAddRaw message len dcs cb => add_raw_sms_to_queue message len dcs cb
  | OpNotify bytes len fd => notify_wms_event env bytes len fd
  | OpProcess fd => process_message_queue env fd
  | OpInject fd => do_inject_notification fd
  end.

(** Static storage is zero when the program starts. *)
Definition zero_message : message :=
  {| m_pkt := replicate 160 0; m_len := 0; m_message_id := 0; m_is_raw := 0; m_is_cb := 0;
     m_tp_dcs := 0; m_state := 0; m_retries := 0; m_timestamp := {| tv_sec := 0; tv_nsec := 0 |} |}.
Definition initial_runtime : sms_runtime :=
  {| notif_pending := false; source := 255; current_message_id := 0; curr_transaction_id := 0;
     pending_messages_from_adsp := 0; lock_queue := false; queue_pos := -1;
     msg := replicate 256 zero_message; stuck_message_data := None;
     stuck_message_data_pending := false |}.

Inductive sms_reachable : sms_runtime -> Prop :=
| sms_start : sms_reachable initial_runtime
| sms_step r env op r' t :
    sms_reachable r -> run_op env op r = Ret (tt, r', t) -> sms_reachable r'.

(** * The store's invariant *)

Definition state_ok (s : Z) : Prop := 0 <= s <= 4 \/ s = 9.
Definition msg_ok (m : message) : Prop := zlen (m_pkt m) = 160 /\ state_ok (m_state m).

(** The fields every step keeps, with the identifiers known below [n]. *)
Definition store_ok (n : Z) (r : sms_runtime) : Prop :=
  zlen (msg r) = QUEUE_SIZE /\ Forall msg_ok (msg r) /\
  (forall i m, 0 <= i < n -> rdA (msg r) i = Ret m -> m_message_id m = i).

Definition runtime_ok (r : sms_runtime) : Prop :=
  -1 <= queue_pos r < QUEUE_SIZE /\ store_ok (queue_pos r + 1) r.

Definition at_pos (p n : Z) (r : sms_runtime) : Prop := queue_pos r = p /\ store_ok n r.

Lemma rdA_insert_inv {A} (l : list A) i j x y :
  0 <= i < zlen l -> rdA (<[Z.to_nat i := x]> l) j = Ret y ->
  (i = j /\ y = x) \/ rdA l j = Ret y.
Proof.
  intros Hi H. pose proof (rdA_bounds _ _ _ H) as Hj. rewrite rdA_insert in H by lia.
  destruct (Z.eqb_spec i j); [left; by simplify_eq|by right].
Qed.

(** One update of a message's fields. *)
Lemma store_ok_update n r i m f :
  store_ok n r -> rdA (msg r) i = Ret m ->
  (msg_ok m -> msg_ok (f m)) -> (0 <= i < n -> m_message_id (f m) = i) ->
  store_ok n (upd_msgs (<[Z.to_nat i := f m]> (msg r)) r).
Proof.
  intros (Hl & Hall & Hid) Hm Hf Hi. pose proof (rdA_bounds _ _ _ Hm) as Hb.
  split; [cbn; by zl|]. split; cbn [msg upd_msgs].
  - apply Forall_insert; [done|]. apply Hf. apply rdA_lookup in Hm as [_ Hm].
    by eapply Forall_lookup_1 in Hm.
  - intros j m' Hj [[-> ->]|H]%rdA_insert_inv; [auto|by eapply Hid|done].
Qed.

Lemma on_msg_inv i f r s' t :
  on_msg i f r = Ret (tt, s', t) ->
  exists m, rdA (msg r) i = Ret m /\ s' = upd_msgs (<[Z.to_nat i := f m]> (msg r)) r /\ t = [].
Proof.
  unfold on_msg, modifyM. destruct (rdA (msg r) i) as [m| |] eqn:E; try done. cbn [cbind].
  rewrite wrA_ok by (by eapply rdA_bounds). cbn [cbind]. intros [= <- <-]. eauto.
Qed.

Lemma on_msg_run i f r m :
  rdA (msg r) i = Ret m -> on_msg i f r = Ret (tt, upd_msgs (<[Z.to_nat i := f m]> (msg r)) r, []).
Proof.
  intros E. unfold on_msg, modifyM. rewrite E. cbn [cbind].
  by rewrite wrA_ok by (by eapply rdA_bounds).
Qed.

Lemma keeps_on_msg i f :
  (forall m, msg_ok m -> msg_ok (f m)) -> (forall m, m_message_id (f m) = m_message_id m) ->
  keeps runtime_ok (on_msg i f).
Proof.
  intros Hf Hid r [] s' t [Hp Hs] (m & Hm & -> & ->)%on_msg_inv. split; [done|].
  apply store_ok_update; [done..|auto|]. intros Hi. rewrite Hid. destruct Hs as (_ & _ & H).
  by eapply H.
Qed.

Ltac msg_ok_tac := intros [] [? ?]; split; cbn in *; unfold state_ok in *; zl; lia || done.
#[local] Hint Extern 1 (keeps runtime_ok (on_msg _ _)) =>
  apply keeps_on_msg; [msg_ok_tac | by intros []] : oqti.
#[local] Hint Extern 1 (keeps runtime_ok (modify _)) =>
  apply keeps_modify; intros ? (? & ? & ? & ?); repeat split; cbn in *; done || lia : oqti.
#[local] Hint Extern 1 (keeps runtime_ok (get_msg _)) => unfold get_msg; keeps_auto : oqti.

Lemma keeps_set_source s : keeps runtime_ok (set_pending_notification_source s).
Proof. unfold set_pending_notification_source. auto with oqti. Qed.
Lemma keeps_set_notif b : keeps runtime_ok (set_notif_pending b).
Proof. unfold set_notif_pending. auto with oqti. Qed.
#[local] Hint Resolve keeps_set_source keeps_set_notif : oqti.

Lemma keeps_notification fd id : keeps runtime_ok (generate_message_notification fd id).
Proof. unfold generate_message_notification. keeps_auto. Qed.
Lemma keeps_deletion fd id ind : keeps runtime_ok (process_message_deletion fd id ind).
Proof. unfold process_message_deletion. keeps_auto. Qed.
Lemma keeps_build env fd id : keeps runtime_ok (build_and_send_message env fd id).
Proof. unfold build_and_send_message. keeps_auto. Qed.
Lemma keeps_build_raw env fd id : keeps runtime_ok (build_and_send_raw_message env fd id).
Proof. unfold build_and_send_raw_message. keeps_auto. Qed.
#[local] Hint Resolve keeps_notification keeps_deletion keeps_build keeps_build_raw : oqti.

Lemma keeps_handle env fd id : keeps runtime_ok (handle_message_state env fd id).
Proof. unfold handle_message_state. keeps_auto. Qed.
#[local] Hint Resolve keeps_handle : oqti.

Lemma keeps_wipe_loop n i : keeps runtime_ok (wipe_loop n i).
Proof. revert i; induction n as [|n IH]; intros i; cbn [wipe_loop]; keeps_auto. Qed.
#[local] Hint Resolve keeps_wipe_loop : oqti.

Lemma keeps_wipe_queue : keeps runtime_ok wipe_queue.
Proof. unfold wipe_queue. keeps_auto. Qed.
#[local] Hint Resolve keeps_wipe_queue : oqti.

Lemma keeps_notify env bytes len fd : keeps runtime_ok (notify_wms_event env bytes len fd).
Proof. unfold notify_wms_event. keeps_auto. Qed.

Lemma keeps_queue_loop env n i fd : keeps runtime_ok (queue_loop env n i fd).
Proof.
  revert i; induction n as [|n IH]; intros i; cbn [queue_loop]; keeps_auto.
  apply keeps_on_msg; [|by intros []]. intros m' [Hp Hs]. split; [done|]. cbn.
  unfold state_ok. apply orb_prop in E1 as [E1|E1]; b2p; rewrite E1; left; vm_compute; split; congruence.
Qed.
#[local] Hint Resolve keeps_queue_loop : oqti.

Lemma keeps_process env fd : keeps runtime_ok (process_message_queue env fd).
Proof. unfold process_message_queue. keeps_auto. Qed.

(** ** Adding: the identifier is set after the position moves *)

Lemma at_pos_on_msg p n i f :
  (forall m, msg_ok m -> msg_ok (f m)) -> (forall m, m_message_id (f m) = m_message_id m) ->
  keeps (at_pos p n) (on_msg i f).
Proof.
  intros Hf Hid r [] s' t [Hp Hs] (m & Hm & -> & ->)%on_msg_inv. split; [done|].
  apply store_ok_update; [done..|auto|]. intros Hi. rewrite Hid. destruct Hs as (_ & _ & H).
  by eapply H.
Qed.
#[local] Hint Extern 1 (keeps (at_pos _ _) (on_msg _ _)) =>
  apply at_pos_on_msg; [msg_ok_tac | by intros []] : oqti.

Lemma at_pos_copy_text p n i message len : keeps (at_pos p n) (copy_text i message len).
Proof.
  intros r a s' t HI. unfold copy_text.
  intros (text & s1 & t1 & t1' & H1 & H2 & ->)%bind_inv.
  unfold lift in H1. destruct (rdn message 0 _) as [text'| |]; cbn [cbind] in H1; simplify_eq.
  apply bind_inv in H2 as (m & s2 & t2 & t2' & H2 & H3 & ->).
  unfold get_msg, bind, get, lift in H2. cbn [cbind] in H2.
  destruct (rdA (msg s1) i) as [m'| |] eqn:Em; cbn [cbind] in H2; simplify_eq.
  apply bind_inv in H3 as (pkt & s3 & t3 & t3' & H3 & H4 & ->).
  unfold lift in H3. destruct (wrn _ _ _) as [pkt'| |] eqn:Ew; cbn [cbind] in H3; simplify_eq.
  eapply at_pos_on_msg; [| |exact HI|exact H4]; [|by intros []].
  intros m' [_ Hs]. split; [|done]. cbn. apply wrn_zlen in Ew. rewrite Ew.
  destruct HI as (_ & _ & Hall & _). apply rdA_lookup in Em as [_ Em].
  eapply Forall_lookup_1 in Em; [|done]. by destruct Em.
Qed.

Lemma at_pos_new_id p r s' t :
  0 <= p < QUEUE_SIZE -> at_pos p p r ->
  on_msg p (set_message_id (u32 p)) r = Ret (tt, s', t) -> at_pos p (p + 1) s'.
Proof.
  intros Hr [Hp (Hl & Ha & Hid)] (m & Hm & -> & ->)%on_msg_inv. split; [done|].
  unfold QUEUE_SIZE in *. split; [cbn; by zl|]. cbn [msg upd_msgs]. split.
  - apply Forall_insert; [done|]. apply rdA_lookup in Hm as [_ Hm].
    eapply Forall_lookup_1 in Hm; [|done]. by destruct m.
  - intros i m' Hi H. rewrite rdA_insert in H by lia.
    destruct (Z.eqb_spec p i) as [<-|]; [simplify_eq; cbn; apply u32_small; lia|].
    eapply Hid; [lia|done].
Qed.

(** From the moved position to the finished message. *)
Lemma add_message_keeps p text len (rest : MS unit) :
  keeps (at_pos p (p + 1)) rest -> 0 <= p < QUEUE_SIZE ->
  triple (at_pos p p) (copy_text p text len ;> on_msg p (set_message_id (u32 p)) ;> rest)
    (fun _ => runtime_ok).
Proof.
  intros Hrest Hp r a s' t HI H. apply bind_inv in H as ([] & s1 & t1 & t1' & H1 & H2 & _).
  apply bind_inv in H2 as ([] & s2 & t2 & t2' & H2 & H3 & _).
  pose proof (at_pos_copy_text p p _ _ _ _ _ _ _ HI H1) as HI1.
  pose proof (at_pos_new_id _ _ _ _ Hp HI1 H2) as HI2.
  destruct (Hrest _ _ _ _ HI2 H3) as [<- Hs]. split; [lia|done].
Qed.

Lemma add_prefix_ok r p :
  runtime_ok r -> p = queue_pos r + 1 ->
  at_pos p p (upd_pos p (upd_source (u8 MSG_INTERNAL) (upd_notif true r))).
Proof. intros [Hp Hs] ->. by split. Qed.

Lemma keeps_add p message len (rest : MS unit) r a s' t :
  runtime_ok r -> p = queue_pos r + 1 -> p < QUEUE_SIZE -> keeps (at_pos p (p + 1)) rest ->
  (set_notif_pending true ;> set_pending_notification_source MSG_INTERNAL ;>
   modify (upd_pos p) ;> copy_text p message len ;> on_msg p (set_message_id (u32 p)) ;> rest) r
  = Ret (a, s', t) -> runtime_ok s'.
Proof.
  intros HI Hp Hlt Hrest H. pose proof (add_prefix_ok r p HI Hp) as Hpre.
  apply bind_inv in H as (? & ? & ? & ? & [= <- <- <-] & H & _).
  apply bind_inv in H as (? & ? & ? & ? & [= <- <- <-] & H & _).
  apply bind_inv in H as (? & ? & ? & ? & [= <- <- <-] & H & _).
  destruct HI as [Hq _]. by eapply (add_message_keeps p message len rest Hrest); [lia|exact Hpre|].
Qed.

Lemma keeps_add_sms message len : keeps runtime_ok (add_sms_to_queue message len).
Proof.
  intros r a s' t HI. unfold add_sms_to_queue. rewrite (bind_run _ _ _ _ _ _ eq_refl).
  destruct HI as [Hq Hs]. unfold QUEUE_SIZE in *. csplit; [by intros [= <- <- <-]|].
  csplit; [|by intros [= <- <- <-]].
  intros H. apply cbind_Ret_inv in H as ([[? ?] ?] & H & [= <- <- <-]).
  eapply keeps_add, H; [done..|unfold QUEUE_SIZE; lia|]. keeps_auto.
Qed.

Lemma keeps_add_raw message len dcs cb : keeps runtime_ok (add_raw_sms_to_queue message len dcs cb).
Proof.
  intros r a s' t HI. unfold add_raw_sms_to_queue. rewrite (bind_run _ _ _ _ _ _ eq_refl).
  destruct HI as [Hq Hs]. unfold QUEUE_SIZE in *. csplit; [by intros [= <- <- <-]|].
  csplit; [|by intros [= <- <- <-]].
  intros H. apply cbind_Ret_inv in H as ([[? ?] ?] & H & [= <- <- <-]).
  eapply keeps_add, H; [done..|unfold QUEUE_SIZE; lia|]. keeps_auto.
Qed.

Lemma initial_runtime_ok : runtime_ok initial_runtime.
Proof.
  split; [vm_compute; split; congruence|]. split; [done|]. split.
  - apply Forall_replicate. split; [done|]. left. cbn. lia.
  - cbn. lia.
Qed.

(** In every state the store reaches, by any operations with any arguments,
    host packets and clocks, the queue position is -1 to 255, the 256 slots
    keep their 160-byte texts, each queued message carries the identifier of
    its slot, and its state is one of notify, wait, send, wait, delete or
    finished. *)
Theorem sms_reachable_ok r : sms_reachable r -> runtime_ok r.
Proof.
  induction 1 as [|r env op r' t _ IH Hrun]; [exact initial_runtime_ok|].
  destruct op; cbn [run_op] in Hrun.
  - injection Hrun as <- <-. destruct IH as (_ & Hl & Ha & _).
    split; [cbn; unfold QUEUE_SIZE; lia|]. split; [done|]. split; [done|]. cbn. lia.
  - unfold set_queue_lock in Hrun. by injection Hrun as <- <-.
  - by eapply keeps_add_sms.
  - by eapply keeps_add_raw.
  - by eapply keeps_notify.
  - by eapply keeps_process.
  - eapply (keeps_bind runtime_ok) in Hrun; [done|auto with oqti| |done]. intros ?.
    keeps_auto.
Qed.
Lemma sms_reachable_ok_witness :
  runtime_ok (upd_lock true initial_runtime).
Proof.
  apply sms_reachable_ok.
  apply (sms_step initial_runtime
    {| e_write := fun _ b => zlen b; e_now := {| tv_sec := 0; tv_nsec := 0 |};
       e_tm := {| tm_year := 0; tm_mon := 0; tm_mday := 0; tm_hour := 0; tm_min := 0; tm_sec := 0 |};
       e_timezone := 0; e_tz_negative := false |} (OpLock true) _ []).
  - apply sms_start.
  - reflexivity.
Defined.

(** * Runs of the handlers *)

Lemma bind_get_msg {B} i m (k : message -> MS B) r :
  rdA (msg r) i = Ret m -> bind (get_msg i) k r = k m r.
Proof. intros H. apply bind_step. unfold get_msg. rewrite bind_get. unfold lift. by rewrite H. Qed.

Lemma bind_on_msg {B} i f m (k : unit -> MS B) r :
  rdA (msg r) i = Ret m ->
  bind (on_msg i f) k r = k tt (upd_msgs (<[Z.to_nat i := f m]> (msg r)) r).
Proof. intros H. apply bind_step. by apply on_msg_run. Qed.

Lemma rdA_set {A} (l : list A) i x y : rdA l i = Ret y -> rdA (<[Z.to_nat i := x]> l) i = Ret x.
Proof.
  intros H. pose proof (rdA_bounds _ _ _ H). rewrite rdA_insert by lia. by rewrite Z.eqb_refl.
Qed.

#[local] Arguments notification_packet : simpl never.
#[local] Arguments deletion_packet : simpl never.
#[local] Arguments sms_packet : simpl never.

(** Run a handler symbolically; [H] gives the message at the slot it uses. *)
Ltac msg_at H :=
  cbn [msg upd_msgs upd_tid upd_current upd_pos upd_notif upd_source];
  repeat (eapply rdA_set); exact H.
Ltac mrun H :=
  repeat (autorewrite with eff; first
    [ rewrite (bind_get_msg _ _ _ _ H)
    | erewrite bind_get_msg by msg_at H
    | erewrite bind_on_msg by msg_at H ]);
  autorewrite with eff.

Lemma handle_notify_run env fd i r m :
  rdA (msg r) i = Ret m -> i < QUEUE_SIZE -> m_state m = 0 ->
  handle_message_state env fd i r =
  Ret (tt,
       upd_current (m_message_id m)
         (upd_msgs (<[Z.to_nat i := set_state 1 (set_timestamp (e_now env) m)]> (msg r))
           (upd_tid 0 r)),
       [PulseRingIn; Write fd (notification_packet i)]).
Proof.
  intros Hm Hi Hs. unfold handle_message_state. ifdec. mrun Hm. rewrite Hs.
  change (0 =? 0) with true. cbn match. unfold generate_message_notification. mrun Hm.
  cbn [msg upd_msgs upd_tid]. rewrite list_insert_insert_eq. unfold modify. by rewrite after_Ret.
Qed.

(** * An unanswered queue is given up *)

Definition ts_ns (t : timespec) : Z := tv_sec t * 1000000000 + tv_nsec t.

(** A message the host has not asked for: to be notified, waiting, finished. *)
Definition quiet_msg (t : Z) (m : message) : Prop :=
  (m_state m = 0 \/ m_state m = 1 \/ m_state m = 9) /\ 0 <= m_retries m <= 3 /\
  ts_ns (m_timestamp m) <= t.
Definition quiet (t : Z) (r : sms_runtime) : Prop :=
  lock_queue r = false /\ 0 <= queue_pos r < QUEUE_SIZE /\ zlen (msg r) = QUEUE_SIZE /\
  (forall i m, 0 <= i <= queue_pos r -> rdA (msg r) i = Ret m ->
     m_message_id m = i /\ quiet_msg t m).

(** The steps a message still takes before it is finished. *)
Definition weight (m : message) : Z :=
  if m_state m =? 9 then 0
  else if m_state m =? 1 then 1 + 2 * (3 - m_retries m)
  else 2 + 2 * (3 - m_retries m).

Definition wsum (l : list message) : Z := foldr (fun m a => weight m + a) 0 l.
Definition queue_weight (r : sms_runtime) : Z :=
  wsum (take (Z.to_nat (queue_pos r + 1)) (msg r)).

Lemma wsum_insert l i m m' :
  l !! i = Some m -> wsum (<[i := m']> l) = wsum l - weight m + weight m'.
Proof.
  revert i; induction l as [|x l IH]; intros [|i] H; try done.
  - cbn in *. simplify_eq. lia.
  - change (weight x + wsum (<[i := m']> l) = weight x + wsum l - weight m + weight m').
    rewrite (IH i) by done. lia.
Qed.

Lemma queue_weight_insert r r' i m m' :
  rdA (msg r) i = Ret m -> i <= queue_pos r -> queue_pos r' = queue_pos r ->
  msg r' = <[Z.to_nat i := m']> (msg r) ->
  queue_weight r' = queue_weight r - weight m + weight m'.
Proof.
  intros [Hi Hm]%rdA_lookup Hle Hp Hr'. unfold queue_weight. rewrite Hp, Hr'.
  rewrite take_insert_lt by lia. apply wsum_insert. rewrite lookup_take_lt by lia. done.
Qed.

Lemma elapsed_ts env m : elapsed_ns env m = ts_ns (e_now env) - ts_ns (m_timestamp m).
Proof. unfold elapsed_ns, ts_ns. lia. Qed.

(** What one poll does to the first unfinished message. *)
Definition poll_msg (now : timespec) (m : message) : message :=
  if m_state m =? 0 then set_state 1 (set_timestamp now m)
  else if m_retries m <? 3 then set_state (u8 (m_state m - 1)) (set_retries (u8 (m_retries m + 1)) m)
  else set_len 0 (set_retries 0 (set_state 9 (set_pkt (replicate 160 0) m))).

Lemma poll_msg_ok now t m :
  quiet_msg t m -> t <= ts_ns now -> m_state m <> 9 ->
  quiet_msg (ts_ns now) (poll_msg now m) /\ weight (poll_msg now m) = weight m - 1 /\
  m_message_id (poll_msg now m) = m_message_id m.
Proof.
  intros ([Hs|[Hs|Hs]] & Hr & Ht) Hnow H9; [| |done]; unfold poll_msg, weight, quiet_msg.
  - rewrite Hs. change (0 =? 0) with true. cbn -[Z.mul].
    repeat split; try lia.
  - rewrite Hs. change (1 =? 0) with false. cbn match. csplit.
    + cbn -[Z.mul Z.sub Z.add u8]. change (u8 (1 - 1)) with 0. rewrite u8_small by lia.
      cbn -[Z.mul]. repeat split; try lia.
    + cbn -[Z.mul]. repeat split; try lia.
Qed.

Lemma queue_loop_poll env fd t n i r :
  lock_queue r = false -> i + Z.of_nat n <= QUEUE_SIZE -> 0 <= i -> zlen (msg r) = QUEUE_SIZE ->
  t + 5000000000 < ts_ns (e_now env) ->
  (forall j m, i <= j < i + Z.of_nat n -> rdA (msg r) j = Ret m ->
     m_message_id m = j /\ quiet_msg t m) ->
  queue_loop env n i fd r = Ret (true, r, []) \/
  exists j m r' tr,
    i <= j < i + Z.of_nat n /\ rdA (msg r) j = Ret m /\ m_state m <> 9 /\
    queue_loop env n i fd r = Ret (false, r', tr) /\
    msg r' = <[Z.to_nat j := poll_msg (e_now env) m]> (msg r) /\
    queue_pos r' = queue_pos r /\ lock_queue r' = lock_queue r.
Proof.
  intros Hlock Hn Hi Hlen Ht. unfold QUEUE_SIZE in *. revert i Hn Hi; induction n as [|n IH]; intros i Hn Hi Hq; [by left|].
  destruct (rdA_in (msg r) i) as [m Hm]; [lia|].
  destruct (Hq i m) as (Hid & Hstate & Hret & Hts); [lia|done|].
  cbn [queue_loop]. rewrite (bind_get_msg _ _ _ _ Hm). rewrite elapsed_ts.
  destruct (Z.ltb_spec (ts_ns (e_now env) - ts_ns (m_timestamp m)) 0); [lia|].
  cbn [when]. rewrite bind_ret.
  destruct Hstate as [Hs|[Hs|Hs]]; rewrite Hs; cbn match.
  - right. eexists i, m, _, _. split; [lia|]. split; [done|]. split; [lia|].
    change (0 =? 0) with true. cbn match. rewrite bind_modify, Hid.
    rewrite (bind_after _ _ _ _ _ _ (handle_notify_run env fd i (upd_current i r) m Hm ltac:(unfold QUEUE_SIZE; lia) Hs)).
    unfold ret. rewrite after_Ret. split; [done|]. unfold poll_msg. rewrite Hs. done.
  - right. exists i, m.
    change (1 =? 0) with false. change ((1 =? 2) || (1 =? 4)) with false.
    change ((1 =? 1) || (1 =? 3)) with true. cbn match. ifdec. unfold poll_msg. rewrite Hs.
    change (1 =? 0) with false. cbn match.
    destruct (Z.ltb_spec (m_retries m) 3); ifdec; mrun Hm; cbn [msg upd_msgs upd_current];
      rewrite !list_insert_insert_eq; unfold ret; eexists _, _;
      (split; [lia|]); (split; [done|]); (split; [lia|]); by (split; [reflexivity|]).
  - change ((9 =? 0)) with false. change ((9 =? 2) || (9 =? 4)) with false.
    change ((9 =? 1) || (9 =? 3)) with false. cbn match.
    destruct (IH (i + 1)) as [->|(j & m' & r' & tr & Hj & Hrest)]; [lia|lia| |by left|].
    + intros j m' Hj. apply Hq. lia.
    + right. exists j, m', r', tr. split; [lia|exact Hrest].
Qed.

Lemma wipe_loop_run n i r :
  0 <= i -> i + Z.of_nat n <= zlen (msg r) ->
  exists l, wipe_loop n i r = Ret (tt, upd_msgs l r, []).
Proof.
  revert i r; induction n as [|n IH]; intros i r Hi Hn.
  - exists (msg r). by destruct r.
  - destruct (rdA_in (msg r) i) as [m Hm]; [lia|]. cbn [wipe_loop]. mrun Hm.
    match goal with |- context [wipe_loop n _ ?r'] => destruct (IH (i + 1) r') as [l ->] end;
      [lia|cbn; zl; lia|]. by eexists.
Qed.

Lemma wipe_queue_run r :
  -1 <= queue_pos r -> queue_pos r < zlen (msg r) ->
  exists r', wipe_queue r = Ret (tt, r', []) /\ queue_pos r' = -1 /\ notif_pending r' = false.
Proof.
  intros H1 H2. unfold wipe_queue. rewrite bind_get.
  destruct (wipe_loop_run (Z.to_nat (queue_pos r + 1)) 0 r) as [l Hl]; [lia|lia|].
  rewrite (bind_step _ _ _ _ _ Hl). by eexists.
Qed.

(** One poll of a quiet queue: everything was finished and the queue is empty
    now, or one message took a step. *)
Lemma process_poll env fd t r :
  quiet t r -> t + 5000000000 < ts_ns (e_now env) ->
  exists r' tr, process_message_queue env fd r = Ret (tt, r', tr) /\
    ((queue_pos r' = -1 /\ notif_pending r' = false) \/
     (quiet (ts_ns (e_now env)) r' /\ queue_pos r' = queue_pos r /\
      queue_weight r' = queue_weight r - 1)).
Proof.
  intros (Hlock & Hpos & Hlen & Hq) Ht. unfold QUEUE_SIZE in *.
  unfold process_message_queue. rewrite bind_get, Hlock. ifdec.
  destruct (queue_loop_poll env fd t (Z.to_nat (queue_pos r + 1)) 0 r)
    as [E|(j & m & r' & tr & Hj & Hm & H9 & E & Hmsg & Hp & Hl)]; unfold QUEUE_SIZE; try done; try lia.
  { intros j m Hj. apply Hq. lia. }
  - rewrite (bind_step _ _ _ _ _ E). cbn [when].
    destruct (wipe_queue_run r) as (r' & -> & Hr'); [lia..|]. eauto 10.
  - rewrite (bind_after _ _ _ _ _ _ E). cbn [when]. unfold ret. rewrite after_Ret.
    eexists _, _. split; [done|]. right.
    destruct (Hq j m) as [Hid Hqm]; [lia|done|].
    destruct (poll_msg_ok (e_now env) t m Hqm) as (Hqm' & Hw & Hid'); [lia|done|].
    split_and!; [|done|].
    + split; [congruence|]. unfold QUEUE_SIZE. rewrite Hp, Hmsg. split; [lia|]. split; [by zl|].
      intros i m' Hi [[<- ->]|H']%rdA_insert_inv; [split; congruence| |lia].
      destruct (Hq i m' Hi H') as (Hi1 & Hi2 & Hi3 & Hi4). repeat split; try done; lia.
    + rewrite (queue_weight_insert r r' j m (poll_msg (e_now env) m)) by (done || lia). lia.
Qed.

(** The queue polled at the times of [envs], with no packet from the host. *)
Fixpoint polls (envs : list sms_env) (fd : Z) : MS unit :=
  match envs with
  | [] => ret tt
  | env :: envs => process_message_queue env fd ;> polls envs fd
  end.
(** Polls more than five seconds apart, the first one after [t]. *)
Fixpoint spaced (t : Z) (envs : list sms_env) : Prop :=
  match envs with
  | [] => True
  | env :: envs => t + 5000000000 < ts_ns (e_now env) /\ spaced (ts_ns (e_now env)) envs
  end.

Lemma weight_bounds m t : quiet_msg t m -> 0 <= weight m <= 8.
Proof. intros (Hs & Hr & _). unfold weight. repeat csplit; lia. Qed.

Lemma wsum_bounds l : Forall (fun m => 0 <= weight m <= 8) l -> 0 <= wsum l <= 8 * zlen l.
Proof.
  induction 1 as [|m l Hm _ IH]; [vm_compute; split; congruence|]. change (wsum (m :: l)) with (weight m + wsum l). zl. lia.
Qed.

Lemma queue_weight_bounds t r : quiet t r -> 0 <= queue_weight r <= 8 * (queue_pos r + 1).
Proof.
  intros (_ & Hpos & Hlen & Hq). unfold queue_weight, QUEUE_SIZE in *.
  set (l := take _ _). assert (Hl : zlen l = queue_pos r + 1)
    by (unfold l, zlen in *; rewrite length_take; lia).
  rewrite <- Hl. apply wsum_bounds. apply Forall_lookup. intros i m Hm.
  pose proof (lookup_lt_Some _ _ _ Hm) as Hi. unfold l in Hm.
  unfold zlen in Hl. rewrite lookup_take_lt in Hm by lia.
  eapply weight_bounds, (Hq (Z.of_nat i)); [lia|]. apply rdA_lookup. split; [lia|by rewrite Nat2Z.id].
Qed.

Lemma polls_empty envs fd r :
  queue_pos r = -1 -> exists r' tr, polls envs fd r = Ret (tt, r', tr) /\ r' = r.
Proof.
  intros Hp. induction envs as [|env envs IH]; [by eexists _, _|]. cbn [polls].
  rewrite (bind_step _ _ _ tt r); [exact IH|]. unfold process_message_queue.
  rewrite bind_get, Hp. by destruct (lock_queue r).
Qed.

(** C35: when the host never answers, each message is notified, waited for and
    retried three times and then dropped, one step per poll: after at most
    eight polls per queued message, and one to clear up, polls more than five
    seconds apart leave the queue empty with no notification pending. *)
Theorem unanswered_queue_drains envs fd t r :
  quiet t r -> spaced t envs -> 8 * (queue_pos r + 1) < zlen envs ->
  exists r' tr, polls envs fd r = Ret (tt, r', tr) /\
                queue_pos r' = -1 /\ notif_pending r' = false.
Proof.
  intros Hq Hsp Hn. pose proof (queue_weight_bounds t r Hq) as Hw.
  assert (Hlt : queue_weight r < zlen envs) by lia. clear Hw Hn.
  revert t r Hq Hsp Hlt; induction envs as [|env envs IH]; intros t r Hq Hsp Hlt.
  - pose proof (queue_weight_bounds t r Hq). zl. lia.
  - destruct Hsp as [Ht Hsp]. cbn [polls]. zl.
    destruct (process_poll env fd t r Hq Ht) as (r' & tr & E & [[Hp Hn]|(Hq' & Hp & Hw)]).
    + rewrite (bind_after _ _ _ _ _ _ E).
      destruct (polls_empty envs fd r' Hp) as (r2 & tr2 & -> & ->). rewrite after_Ret. eauto.
    + rewrite (bind_after _ _ _ _ _ _ E).
      destruct (IH (ts_ns (e_now env)) r' Hq' Hsp) as (r2 & tr2 & -> & H2); [lia|].
      rewrite after_Ret. eauto.
Qed.
Definition env_at (sec : Z) : sms_env :=
  {| e_write := fun _ b => Z.max 1 (zlen b); e_now := {| tv_sec := sec; tv_nsec := 0 |};
     e_tm := {| tm_year := 124; tm_mon := 0; tm_mday := 31; tm_hour := 10; tm_min := 59; tm_sec := 7 |};
     e_timezone := 2; e_tz_negative := false |}.
(** A store with the one message "ping" queued. *)
Definition one_queued : sms_runtime :=
  match add_sms_to_queue (zs "ping") 4 initial_runtime with
  | Ret (_, r, _) => r
  | _ => initial_runtime
  end.
Lemma unanswered_queue_drains_witness :
  exists r' tr, polls (map env_at [10; 20; 30; 40; 50; 60; 70; 80; 90]) 3 one_queued = Ret (tt, r', tr) /\
                queue_pos r' = -1 /\ notif_pending r' = false.
Proof.
  apply (unanswered_queue_drains _ _ 0).
  - split; [reflexivity|]. split; [vm_compute; split; congruence|]. split; [reflexivity|].
    intros i m Hi Hm. change (queue_pos one_queued) with 0 in Hi.
    assert (i = 0) as -> by lia. vm_compute in Hm. injection Hm as <-.
    split; [reflexivity|]. split; [left; reflexivity|]. vm_compute. repeat split; congruence.
  - vm_compute. repeat split; congruence.
  - vm_compute. congruence.
Defined.

(** ** Polls at the pace of select(2)

    The thread of the packets polls when nothing came for half a second. Measured in
    polls at least that far apart, a message that waits has at most eleven left
    before more than five seconds are over. *)

Definition HALF_SECOND : Z := 500000000.
Definition polls_left (t : Z) (m : message) : Z := 11 - Z.min 10 ((t - ts_ns (m_timestamp m)) / HALF_SECOND).
Definition pace_weight (t : Z) (m : message) : Z :=
  if m_state m =? 9 then 0
  else if m_state m =? 1 then 12 * (3 - m_retries m) + polls_left t m
  else 12 * (3 - m_retries m) + 12.
Definition pace_sum (t : Z) (l : list message) : Z := foldr (fun m a => pace_weight t m + a) 0 l.
Definition pace_queue (t : Z) (r : sms_runtime) : Z := pace_sum t (take (Z.to_nat (queue_pos r + 1)) (msg r)).

Lemma polls_left_bounds t m : ts_ns (m_timestamp m) <= t -> 1 <= polls_left t m <= 11.
Proof. unfold polls_left, HALF_SECOND. intros H. pose proof (Z.div_pos (t - ts_ns (m_timestamp m)) 500000000). lia. Qed.
Lemma pace_weight_bounds t m : quiet_msg t m -> 0 <= pace_weight t m <= 48.
Proof.
  intros (_ & Hr & Ht). pose proof (polls_left_bounds t m Ht). unfold pace_weight. repeat csplit; lia.
Qed.
Lemma pace_weight_mono t u m : t <= u -> pace_weight u m <= pace_weight t m.
Proof.
  intros H. unfold pace_weight, polls_left, HALF_SECOND. repeat csplit; try lia.
  pose proof (Z.div_le_mono (t - ts_ns (m_timestamp m)) (u - ts_ns (m_timestamp m)) 500000000). lia.
Qed.
Lemma pace_sum_mono t u l : t <= u -> pace_sum u l <= pace_sum t l.
Proof.
  intros H. induction l as [|m l IH]; [done|].
  change (pace_weight u m + pace_sum u l <= pace_weight t m + pace_sum t l). pose proof (pace_weight_mono t u m H). lia.
Qed.
Lemma pace_sum_step t u l i m m' :
  t <= u -> l !! i = Some m -> pace_weight u m' <= pace_weight t m - 1 ->
  pace_sum u (<[i := m']> l) <= pace_sum t l - 1.
Proof.
  intros Htu. revert i. induction l as [|x l IH]; intros [|i] H Hw; try done.
  - cbn in H. simplify_eq. change (pace_weight u m' + pace_sum u l <= pace_weight t m + pace_sum t l - 1).
    pose proof (pace_sum_mono t u l Htu). lia.
  - change (pace_weight u x + pace_sum u (<[i := m']> l) <= pace_weight t x + pace_sum t l - 1).
    pose proof (IH i H Hw). pose proof (pace_weight_mono t u x Htu). lia.
Qed.
Lemma pace_queue_bounds t r : quiet t r -> 0 <= pace_queue t r <= 48 * (queue_pos r + 1).
Proof.
  intros (_ & Hpos & Hlen & Hq). unfold pace_queue, QUEUE_SIZE in *.
  set (l := take _ _). assert (Hl : zlen l = queue_pos r + 1)
    by (unfold l, zlen in *; rewrite length_take; lia).
  assert (Hall : Forall (fun m => 0 <= pace_weight t m <= 48) l).
  { apply Forall_lookup. intros i m Hm. pose proof (lookup_lt_Some _ _ _ Hm) as Hi. unfold l in Hm.
    unfold zlen in Hl. rewrite lookup_take_lt in Hm by lia.
    apply pace_weight_bounds, (Hq (Z.of_nat i)); [lia|]. apply rdA_lookup. split; [lia|by rewrite Nat2Z.id]. }
  rewrite <- Hl. clear - Hall. induction Hall as [|m l Hm _ IH]; [vm_compute; split; congruence|].
  change (0 <= pace_weight t m + pace_sum t l <= 48 * zlen (m :: l)). zl. lia.
Qed.

(** What a poll does to the first unfinished message: it takes its step, or waits on. *)
Definition paced_msg (now : timespec) (m : message) : message :=
  if (m_state m =? 1) && (ts_ns now - ts_ns (m_timestamp m) <=? 5000000000) then m else poll_msg now m.
Lemma paced_msg_ok now t m :
  quiet_msg t m -> t + HALF_SECOND <= ts_ns now -> m_state m <> 9 ->
  quiet_msg (ts_ns now) (paced_msg now m) /\ pace_weight (ts_ns now) (paced_msg now m) <= pace_weight t m - 1 /\
  m_message_id (paced_msg now m) = m_message_id m.
Proof.
  intros Hq Hnow H9. pose proof Hq as (Hs & Hr & Ht). unfold HALF_SECOND in Hnow.
  destruct (poll_msg_ok now t m Hq ltac:(lia) H9) as (Hq' & _ & Hid).
  pose proof (polls_left_bounds t m Ht) as Hleft. unfold paced_msg.
  destruct ((m_state m =? 1) && (ts_ns now - ts_ns (m_timestamp m) <=? 5000000000)) eqn:Hwait.
  - b2p. split; [split_and!; try done; lia|]. split; [|done].
    unfold pace_weight, polls_left, HALF_SECOND in *. ifdec.
    pose proof (Z.div_le_mono (t - ts_ns (m_timestamp m) + 1 * 500000000) (ts_ns now - ts_ns (m_timestamp m)) 500000000).
    pose proof (Z.div_le_upper_bound (ts_ns now - ts_ns (m_timestamp m)) 500000000 10).
    rewrite Z.div_add in * by lia. lia.
  - split; [done|]. split; [|done]. clear Hwait. unfold poll_msg, pace_weight, polls_left, HALF_SECOND in *.
    destruct Hs as [Hs|[Hs|Hs]]; rewrite Hs; [| |done].
    + cbn -[Z.mul Z.div]. rewrite Z.sub_diag. change (0 / 500000000) with 0. lia.
    + cbn [Z.eqb Pos.eqb]. csplit; cbn -[Z.mul Z.div u8 Z.sub Z.add].
      * change (u8 (1 - 1)) with 0. rewrite u8_small by lia. cbn [Z.eqb]. lia.
      * lia.
Qed.

Lemma queue_loop_paced env fd t n i r :
  lock_queue r = false -> i + Z.of_nat n <= QUEUE_SIZE -> 0 <= i -> zlen (msg r) = QUEUE_SIZE ->
  t <= ts_ns (e_now env) ->
  (forall j m, i <= j < i + Z.of_nat n -> rdA (msg r) j = Ret m ->
     m_message_id m = j /\ quiet_msg t m) ->
  queue_loop env n i fd r = Ret (true, r, []) \/
  exists j m r' tr,
    i <= j < i + Z.of_nat n /\ rdA (msg r) j = Ret m /\ m_state m <> 9 /\
    queue_loop env n i fd r = Ret (false, r', tr) /\
    msg r' = <[Z.to_nat j := paced_msg (e_now env) m]> (msg r) /\
    queue_pos r' = queue_pos r /\ lock_queue r' = lock_queue r.
Proof.
  intros Hlock Hn Hi Hlen Ht. unfold QUEUE_SIZE in *. revert i Hn Hi; induction n as [|n IH]; intros i Hn Hi Hq; [by left|].
  destruct (rdA_in (msg r) i) as [m Hm]; [lia|].
  destruct (Hq i m) as (Hid & Hstate & Hret & Hts); [lia|done|].
  cbn [queue_loop]. rewrite (bind_get_msg _ _ _ _ Hm). rewrite elapsed_ts.
  destruct (Z.ltb_spec (ts_ns (e_now env) - ts_ns (m_timestamp m)) 0); [lia|].
  cbn [when]. rewrite bind_ret. unfold paced_msg, poll_msg.
  destruct Hstate as [Hs|[Hs|Hs]]; rewrite Hs; cbn match.
  - right. eexists i, m, _, _. split; [lia|]. split; [done|]. split; [lia|]. rewrite Hs.
    change (0 =? 0) with true. change (0 =? 1) with false. cbn match. rewrite bind_modify, Hid.
    by rewrite (bind_after _ _ _ _ _ _ (handle_notify_run env fd i (upd_current i r) m Hm ltac:(unfold QUEUE_SIZE; lia) Hs)).
  - right. exists i, m. rewrite Hs.
    change (1 =? 0) with false. change ((1 =? 2) || (1 =? 4)) with false.
    change ((1 =? 1) || (1 =? 3)) with true. change (1 =? 1) with true. cbn match. cbn [andb].
    destruct (Z.leb_spec (ts_ns (e_now env) - ts_ns (m_timestamp m)) 5000000000).
    + rewrite (proj2 (Z.ltb_ge 5000000000 _)) by lia. cbn [andb]. rewrite bind_ret. eexists _, _.
      split; [lia|]. split; [done|]. split; [lia|]. split; [reflexivity|]. split; [|done].
      apply rdA_lookup in Hm as [_ Hm]. by rewrite list_insert_id.
    + rewrite (proj2 (Z.ltb_lt 5000000000 _)) by lia. cbn [andb].
      destruct (Z.ltb_spec (m_retries m) 3); ifdec; mrun Hm; cbn [msg upd_msgs upd_current];
        rewrite !list_insert_insert_eq; unfold ret; eexists _, _;
        (split; [lia|]); (split; [done|]); (split; [lia|]); by (split; [reflexivity|]).
  - change ((9 =? 0)) with false. change ((9 =? 2) || (9 =? 4)) with false.
    change ((9 =? 1) || (9 =? 3)) with false. cbn match.
    destruct (IH (i + 1)) as [->|(j & m' & r' & tr & Hj & Hrest)]; [lia|lia| |by left|].
    + intros j m' Hj. apply Hq. lia.
    + right. exists j, m', r', tr. split; [lia|exact Hrest].
Qed.

(** One poll of a quiet queue, half a second or more after the time [t]. *)
Lemma paced_poll env fd t r :
  quiet t r -> t + HALF_SECOND <= ts_ns (e_now env) ->
  exists r' tr, process_message_queue env fd r = Ret (tt, r', tr) /\
    ((queue_pos r' = -1 /\ notif_pending r' = false) \/
     (quiet (ts_ns (e_now env)) r' /\ queue_pos r' = queue_pos r /\
      pace_queue (ts_ns (e_now env)) r' <= pace_queue t r - 1)).
Proof.
  intros (Hlock & Hpos & Hlen & Hq) Ht. pose proof Ht as Ht'. unfold HALF_SECOND in Ht'. unfold QUEUE_SIZE in *.
  unfold process_message_queue. rewrite bind_get, Hlock. ifdec.
  destruct (queue_loop_paced env fd t (Z.to_nat (queue_pos r + 1)) 0 r)
    as [E|(j & m & r' & tr & Hj & Hm & H9 & E & Hmsg & Hp & Hl)]; unfold QUEUE_SIZE; try done; try lia.
  { intros j m Hj. apply Hq. lia. }
  - rewrite (bind_step _ _ _ _ _ E). cbn [when].
    destruct (wipe_queue_run r) as (r' & -> & Hr'); [lia..|]. eauto 10.
  - rewrite (bind_after _ _ _ _ _ _ E). cbn [when]. unfold ret. rewrite after_Ret.
    eexists _, _. split; [done|]. right.
    destruct (Hq j m) as [Hid Hqm]; [lia|done|].
    destruct (paced_msg_ok (e_now env) t m Hqm Ht H9) as (Hqm' & Hw & Hid').
    split_and!; [|done|].
    + split; [congruence|]. unfold QUEUE_SIZE. rewrite Hp, Hmsg. split; [lia|]. split; [by zl|].
      intros i m' Hi [[<- ->]|H']%rdA_insert_inv; [split; congruence| |lia].
      destruct (Hq i m' Hi H') as (Hi1 & Hi2 & Hi3 & Hi4). repeat split; try done; lia.
    + unfold pace_queue. rewrite Hp, Hmsg. apply rdA_lookup in Hm as [_ Hm].
      rewrite take_insert_lt by lia. apply (pace_sum_step t _ _ _ m); [lia| |exact Hw].
      by rewrite lookup_take_lt by lia.
Qed.
(** Polls at least half a second apart, the first one after [t]. *)
Fixpoint paced (t : Z) (envs : list sms_env) : Prop :=
  match envs with
  | [] => True
  | env :: envs => t + HALF_SECOND <= ts_ns (e_now env) /\ paced (ts_ns (e_now env)) envs
  end.

(** * The whole conversation with the host *)

Lemma handle_send_run env fd i r m n out contents text_len :
  rdA (msg r) i = Ret m -> i < QUEUE_SIZE -> m_state m = 2 -> m_is_raw m = 0 ->
  ascii_to_gsm7 (m_pkt m) (replicate 160 0) = Ret (n, out) -> 0 <= n <= 160 ->
  rdn out 0 (Z.to_nat n) = Ret contents -> strlen (m_pkt m) = Ret text_len ->
  let packet := sms_packet (curr_transaction_id r) (negb (m_is_cb m =? 0)) 0x00
    (packet_date env 24) text_len n contents in
  0 < e_write env fd packet ->
  handle_message_state env fd i r =
  Ret (tt, upd_msgs (<[Z.to_nat i := set_timestamp (e_now env) (set_state 3 m)]> (msg r)) r,
       [Write fd packet]).
Proof.
  intros Hm Hi Hs Hraw Hpack Hn Hc Hl packet Hw. unfold handle_message_state. ifdec. mrun Hm.
  rewrite Hs. change (2 =? 0) with false. change (2 =? 2) with true. cbn match. rewrite Hraw.
  change (0 =? 0) with true. cbn match. unfold build_and_send_message. mrun Hm.
  rewrite (bind_lift _ _ _ _ Hpack). cbv beta iota.
  change MAX_MESSAGE_SIZE with 160. ifdec. autorewrite with eff.
  rewrite (bind_lift _ _ _ _ Hc). autorewrite with eff.
  rewrite (bind_lift _ _ _ _ Hl). fold packet. mrun Hm. ifdec. cbn [when].
  rewrite (bind_after _ _ _ _ _ _ (on_msg_run _ _ _ _ Hm)), after_nil.
  erewrite on_msg_run by msg_at Hm. cbn [msg upd_msgs]. by rewrite list_insert_insert_eq, after_Ret.
Qed.

Lemma handle_delete_run env fd i r m :
  rdA (msg r) i = Ret m -> i < QUEUE_SIZE -> m_state m = 4 -> m_len m <= 0 ->
  handle_message_state env fd i r =
  Ret (tt,
       upd_current (u32 (current_message_id r + 1))
         (upd_msgs (<[Z.to_nat i := set_len 0 (set_pkt (replicate 160 0)
            (set_state 9 (set_timestamp (e_now env) m)))]> (msg r)) r),
       [Write fd (deletion_packet (curr_transaction_id r) 1)]).
Proof.
  intros Hm Hi Hs Hl. unfold handle_message_state. ifdec. mrun Hm. rewrite Hs.
  change (4 =? 0) with false. change (4 =? 2) with false. change (4 =? 4) with true. cbn match.
  ifdec. unfold process_message_deletion. mrun Hm. cbn [msg upd_msgs].
  rewrite !list_insert_insert_eq. unfold modify. by rewrite after_Ret.
Qed.

(** A request of the host: its transaction, message and, for a read, the
    identifier behind the storage TLV. *)
Definition host_request (bytes : list Z) (tid mid : Z) : Prop :=
  rd16 bytes 7 = Ret tid /\ rd16 bytes 9 = Ret mid.
Definition read_of (bytes : list Z) (len id : Z) : Prop :=
  exists offset, get_tlv_offset_by_id bytes len 0x01 = Ret offset /\ 0 < offset /\
                 rd32 bytes (offset + 4) = Ret id.

(** A read request moves the message to the host. *)
Lemma notify_read_run env fd r m bytes len tid id n out contents text_len :
  0 <= queue_pos r -> host_request bytes tid WMS_READ_MESSAGE -> read_of bytes len id ->
  rdA (msg r) id = Ret m -> id < QUEUE_SIZE -> m_is_raw m = 0 ->
  ascii_to_gsm7 (m_pkt m) (replicate 160 0) = Ret (n, out) -> 0 <= n <= 160 ->
  rdn out 0 (Z.to_nat n) = Ret contents -> strlen (m_pkt m) = Ret text_len ->
  let packet := sms_packet tid (negb (m_is_cb m =? 0)) 0x00 (packet_date env 24) text_len n contents in
  0 < e_write env fd packet ->
  notify_wms_event env bytes len fd r =
  Ret (tt,
       upd_msgs (<[Z.to_nat id := set_timestamp (e_now env) (set_state 3 m)]> (msg r))
         (upd_current id (upd_tid tid r)),
       [Write fd packet]).
Proof.
  intros Hp [Ht Hmid] (offset & Hoff & Hpos & Hid) Hm Hlt Hraw Hpack Hn Hc Hl packet Hw.
  unfold notify_wms_event. rewrite (bind_lift _ _ _ _ Ht). rewrite bind_modify, bind_get.
  cbn [queue_pos upd_tid]. ifdec. rewrite (bind_lift _ _ _ _ Hmid), Z.eqb_refl.
  rewrite (bind_lift _ _ _ _ Hoff). ifdec. rewrite (bind_lift _ _ _ _ Hid). rewrite bind_modify.
  erewrite bind_on_msg by msg_at Hm.
  erewrite bind_after; [|eapply (handle_send_run env fd id _ (set_state 2 m)); try done; try msg_at Hm].
  rewrite bind_get. erewrite on_msg_run by (cbn [current_message_id upd_msgs upd_current]; msg_at Hm).
  cbn [msg upd_msgs current_message_id upd_current upd_tid]. rewrite after_Ret, !list_insert_insert_eq.
  repeat f_equal.
Qed.

(** A delete request for the message being delivered finishes it. *)
Lemma notify_delete_run env fd r m m' bytes len tid :
  let id := current_message_id r in
  0 <= queue_pos r -> host_request bytes tid WMS_DELETE ->
  rdA (msg r) id = Ret m -> id + 1 < QUEUE_SIZE -> rdA (msg r) (id + 1) = Ret m' ->
  m_state m = 3 -> m_len m <= 0 ->
  notify_wms_event env bytes len fd r =
  Ret (tt,
       upd_msgs (<[Z.to_nat (id + 1) := set_timestamp (e_now env) m']>
         (<[Z.to_nat id := set_len 0 (set_pkt (replicate 160 0)
            (set_state 9 (set_timestamp (e_now env) m)))]> (msg r)))
         (upd_current (id + 1) (upd_tid tid r)),
       [Write fd (deletion_packet tid 1)]).
Proof.
  intros id Hp [Ht Hmid] Hm Hlt Hm' Hs Hl. pose proof (rdA_bounds _ _ _ Hm) as Hb.
  unfold QUEUE_SIZE in *.
  unfold notify_wms_event. rewrite (bind_lift _ _ _ _ Ht). rewrite bind_modify, bind_get.
  cbn [queue_pos upd_tid]. ifdec. rewrite (bind_lift _ _ _ _ Hmid).
  change (WMS_DELETE =? WMS_READ_MESSAGE) with false. rewrite Z.eqb_refl.
  cbn [current_message_id upd_tid]. fold id.
  erewrite bind_get_msg by msg_at Hm. rewrite Hs. change (negb (3 =? 3)) with false. cbn match.
  rewrite bind_ret, bind_get. cbn [current_message_id upd_tid]. fold id.
  erewrite bind_on_msg by msg_at Hm. cbn [current_message_id upd_tid]. fold id.
  erewrite bind_after; [|eapply (handle_delete_run env fd id _ (set_state 4 m)); try done;
    solve [msg_at Hm | unfold QUEUE_SIZE; lia]].
  rewrite bind_get. cbn [current_message_id upd_tid upd_msgs upd_current]. fold id.
  rewrite (u32_small (id + 1)) by lia.
  erewrite on_msg_run.
  2: { cbn [msg upd_msgs upd_current upd_tid]. rewrite !list_insert_insert_eq, rdA_insert by lia.
       ifdec. exact Hm'. }
  cbn [msg upd_msgs upd_current upd_tid]. rewrite after_Ret, !list_insert_insert_eq. repeat f_equal.
Qed.

(** Adding a text to a clean slot. *)
Lemma copy_text_run i s r m :
  rdA (msg r) i = Ret m -> m_pkt m = replicate 160 0 -> zlen s <= 160 ->
  copy_text i s (zlen s) r =
  Ret (tt, upd_msgs (<[Z.to_nat i := set_pkt (s ++ replicate (160 - length s) 0) m]> (msg r)) r, []).
Proof.
  intros Hm Hp Hl. unfold copy_text. pose proof (rdn_app [] s []) as Hr. cbn [app] in Hr.
  rewrite app_nil_r in Hr. change (zlen []) with 0 in Hr.
  replace (Z.to_nat (zlen s)) with (length s) by (unfold zlen; lia).
  rewrite (bind_lift _ _ _ _ Hr), (bind_get_msg _ _ _ _ Hm), Hp.
  pose proof (wrn_ok (replicate 160 0) 0 s) as Hw. rewrite zlen_replicate in Hw.
  rewrite (bind_lift _ _ _ _ (Hw ltac:(lia) ltac:(lia))). rewrite (on_msg_run _ _ _ _ Hm).
  cbn [take app Z.to_nat Nat.add]. by rewrite drop_replicate.
Qed.

Lemma add_sms_run s r m :
  queue_pos r = -1 -> rdA (msg r) 0 = Ret m -> m_pkt m = replicate 160 0 -> 0 < zlen s <= 160 ->
  add_sms_to_queue s (zlen s) r =
  Ret (tt,
       upd_msgs (<[0%nat := set_is_cb 0 (set_is_raw 0 (set_tp_dcs 0 (set_message_id 0
           (set_pkt (s ++ replicate (160 - length s) 0) m))))]> (msg r))
         (upd_pos 0 (upd_source 1 (upd_notif true r))), []).
Proof.
  intros Hp Hm Hpk Hs. unfold add_sms_to_queue. rewrite bind_get, Hp.
  change (QUEUE_SIZE - 2 <? -1) with false. cbn match. ifdec. change (-1 + 1) with 0.
  unfold set_notif_pending, set_pending_notification_source. rewrite !bind_modify.
  erewrite bind_step; [|eapply copy_text_run; [msg_at Hm|done|lia]].
  change (Z.to_nat 0) with 0%nat. cbn [msg upd_msgs upd_pos upd_source upd_notif].
  change 0%nat with (Z.to_nat 0).
  erewrite bind_on_msg by msg_at Hm. erewrite bind_on_msg by msg_at Hm.
  erewrite bind_on_msg by msg_at Hm. erewrite on_msg_run by msg_at Hm.
  cbn [msg upd_msgs upd_pos upd_source upd_notif]. rewrite !list_insert_insert_eq. repeat f_equal.
Qed.

(** A text that leaves room for its NUL: what it is packed to, and that this
    unpacks to it. *)
Lemma packed_text s :
  Forall plain_char s -> 0 < zlen s < 160 ->
  let text := s ++ replicate (160 - length s) 0 in
  exists contents out,
    ascii_to_gsm7 text (replicate 160 0) = Ret (zlen s, out) /\
    rdn out 0 (Z.to_nat (zlen s)) = Ret contents /\ strlen text = Ret (zlen s) /\
    gsm7_to_ascii contents (zlen s) (replicate 160 0) 0 = Ret (zlen s, text).
Proof.
  intros Hs Hsl text. set (ps := packed_size (length s)).
  pose proof (packed_size_0 (length s)) as Hps. fold (zlen s) ps in Hps.
  assert (Htext : text = s ++ 0 :: replicate (159 - length s) 0).
  { unfold text. replace (160 - length s)%nat with (S (159 - length s)) by (unfold zlen in *; lia). done. }
  pose proof (ascii_to_gsm7_plain s (replicate (159 - length s) 0) (replicate 160 0) Hs) as Hpack.
  rewrite <- Htext, drop_replicate, zlen_replicate in Hpack.
  specialize (Hpack ltac:(lia) ltac:(lia) ltac:(lia)). fold ps in Hpack.
  set (contents := le ps (b128 s) ++ replicate (length s - ps) 0).
  exists contents, (le ps (b128 s) ++ replicate (160 - ps) 0). split_and!.
  - exact Hpack.
  - pose proof (rdn_app [] contents (replicate (160 - length s) 0)) as H. cbn [app] in H.
    change (zlen []) with 0 in H. unfold contents in H at 1.
    rewrite <- app_assoc, <- replicate_add in H.
    replace (length s - ps + (160 - length s))%nat with (160 - ps)%nat in H by (unfold zlen in *; dlia).
    replace (length contents) with (Z.to_nat (zlen s)) in H; [done|].
    unfold contents. rewrite length_app, length_le, length_replicate. unfold zlen in *. dlia.
  - rewrite Htext. apply strlen_app. eapply Forall_impl; [exact Hs|]. intros c [Hc1 _]; lia.
  - unfold contents, ps. rewrite gsm7_unpack_plain; [by rewrite drop_replicate|done|lia| |
      zl; unfold zlen in *; lia|zl; lia].
    apply Forall_replicate. unfold byte_ok. lia.
Qed.

(** The poll of a store with one message: a new one is notified, a finished
    one is cleared away. *)
Lemma poll_new_run env fd r m :
  rdA (msg r) 0 = Ret m -> lock_queue r = false -> queue_pos r = 0 -> m_state m = 0 ->
  m_message_id m = 0 -> ts_ns (m_timestamp m) <= ts_ns (e_now env) ->
  process_message_queue env fd r = Ret (tt,
    upd_current 0 (upd_msgs (<[0%nat := set_state 1 (set_timestamp (e_now env) m)]> (msg r))
      (upd_tid 0 (upd_current 0 r))), [PulseRingIn; Write fd (notification_packet 0)]).
Proof.
  intros Hm Hlock Hp Hst Hid Ht. unfold process_message_queue. rewrite bind_get, Hlock, Hp.
  change (0 <? 0) with false. change (Z.to_nat (0 + 1)) with 1%nat. cbn match. cbn [queue_loop].
  mrun Hm. rewrite elapsed_ts. ifdec. cbn [when]. rewrite bind_ret, Hid. mrun Hm.
  erewrite bind_after by (eapply (handle_notify_run env fd 0); [exact Hm|done|exact Hst]).
  rewrite bind_ret. cbn [when]. unfold ret. rewrite after_Ret.
  cbn [m_message_id set_state set_timestamp] in *. by rewrite ?Hid.
Qed.
Lemma poll_finished_run env fd r m :
  rdA (msg r) 0 = Ret m -> lock_queue r = false -> queue_pos r = 0 -> m_state m = 9 ->
  ts_ns (m_timestamp m) <= ts_ns (e_now env) ->
  exists r', process_message_queue env fd r = Ret (tt, r', []) /\
             queue_pos r' = -1 /\ notif_pending r' = false.
Proof.
  intros Hm Hlock Hp Hst Ht. unfold process_message_queue. rewrite bind_get, Hlock, Hp.
  change (0 <? 0) with false. change (Z.to_nat (0 + 1)) with 1%nat. cbn match. cbn [queue_loop].
  mrun Hm. rewrite elapsed_ts. rewrite Hst. ifdec. cbn [when orb]. rewrite bind_ret.
  cbn [Z.eqb Pos.eqb orb]. rewrite bind_ret. cbn [when].
  apply rdA_bounds in Hm. apply wipe_queue_run; lia.
Qed.

(** C1: a text queued in an empty store goes through the whole conversation:
    the next poll rings the host and sends one notification, the host's read
    request gets the one packet whose contents unpack to that text, its delete
    request gets one success answer with its transaction, and the poll after
    that empties the store. Nothing else is written. *)
Theorem sms_conversation s r m m1 e1 e2 e3 e4 fd read_req rlen del_req dlen tid1 tid2 :
  runtime_ok r -> lock_queue r = false -> queue_pos r = -1 ->
  rdA (msg r) 0 = Ret m -> rdA (msg r) 1 = Ret m1 ->
  m_pkt m = replicate 160 0 -> m_state m = 0 -> m_len m = 0 ->
  ts_ns (m_timestamp m) <= ts_ns (e_now e1) -> ts_ns (e_now e3) <= ts_ns (e_now e4) ->
  Forall plain_char s -> 0 < zlen s < 160 ->
  host_request read_req tid1 WMS_READ_MESSAGE -> read_of read_req rlen 0 ->
  host_request del_req tid2 WMS_DELETE ->
  (forall b, 0 < e_write e2 fd b) ->
  exists r' contents,
    (add_sms_to_queue s (zlen s) ;>
     process_message_queue e1 fd ;>
     notify_wms_event e2 read_req rlen fd ;>
     notify_wms_event e3 del_req dlen fd ;>
     process_message_queue e4 fd) r =
    Ret (tt, r',
      [PulseRingIn; Write fd (notification_packet 0);
       Write fd (sms_packet tid1 false 0 (packet_date e2 24) (zlen s) (zlen s) contents);
       Write fd (deletion_packet tid2 1)]) /\
    queue_pos r' = -1 /\ notif_pending r' = false /\
    gsm7_to_ascii contents (zlen s) (replicate 160 0) 0 =
      Ret (zlen s, s ++ replicate (160 - length s) 0).
Proof.
  intros (Hq & Hlen & _) Hlock Hp Hm Hm1 Hpk Hst Hml Ht1 Ht4 Hs Hsl Hreq1 Hread Hreq2 Hw.
  unfold QUEUE_SIZE in *. set (text := s ++ replicate (160 - length s) 0).
  destruct (packed_text s Hs Hsl) as (contents & out & Hpack & Hc & Hstr & Hback).
  (* queue, notify *)
  rewrite (bind_step _ _ _ _ _ (add_sms_run s r m Hp Hm Hpk ltac:(lia))). fold text in Hpack, Hstr |- *.
  set (mq := set_is_cb 0 _). set (r1 := upd_msgs _ _).
  assert (Hmq : rdA (msg r1) 0 = Ret mq) by (eapply (rdA_set _ 0); exact Hm).
  rewrite (bind_after _ _ _ _ _ _ (poll_new_run e1 fd r1 mq Hmq Hlock eq_refl Hst eq_refl Ht1)).
  set (m2 := set_state 1 _). set (r2 := upd_current 0 _).
  assert (Hm2 : rdA (msg r2) 0 = Ret m2) by (eapply (rdA_set _ 0); exact Hmq).
  (* read *)
  rewrite (bind_after _ _ _ _ _ _ (notify_read_run e2 fd r2 m2 read_req rlen tid1 0 (zlen s) _ contents
    (zlen s) ltac:(done) Hreq1 Hread Hm2 ltac:(done) eq_refl Hpack ltac:(lia) Hc Hstr (Hw _))).
  set (m3 := set_timestamp (e_now e2) _). set (r3 := upd_msgs _ _).
  assert (Hm3 : rdA (msg r3) 0 = Ret m3) by (eapply (rdA_set _ 0); exact Hm2).
  (* delete *)
  assert (Hm31 : rdA (msg r3) (0 + 1) = Ret m1).
  { unfold r3. cbn [msg upd_msgs]. rewrite rdA_insert by (unfold r2, r1; cbn; zl; lia). ifdec.
    unfold r2. cbn [msg upd_current upd_msgs].
    rewrite (rdA_insert _ 0) by (unfold r1; cbn; zl; lia). ifdec.
    unfold r1. cbn [msg upd_msgs]. rewrite (rdA_insert _ 0) by lia. ifdec. exact Hm1. }
  rewrite (bind_after _ _ _ _ _ _ (notify_delete_run e3 fd r3 m3 m1 del_req dlen tid2
    ltac:(done) Hreq2 Hm3 ltac:(done) Hm31 eq_refl ltac:(cbn; lia))).
  set (m4 := set_len 0 _). set (r4 := upd_msgs _ _).
  assert (Hm4 : rdA (msg r4) 0 = Ret m4).
  { unfold r4. cbn [msg upd_msgs]. change (current_message_id r3) with 0.
    rewrite rdA_insert by (cbn; zl; unfold r3, r2, r1; cbn; zl; lia). ifdec.
    eapply (rdA_set _ 0). exact Hm3. }
  (* the last poll *)
  destruct (poll_finished_run e4 fd r4 m4 Hm4 Hlock eq_refl eq_refl Ht4) as (r5 & -> & Hp5 & Hn5).
  exists r5, contents. rewrite !after_Ret. by split_and!.
Qed.

(** A read request for message 0 and a delete request, as ModemManager sends
    them (QMUX, QMI, tag TLV, storage TLV). *)
Definition sample_read : list Z :=
  [1; 0x18; 0; 0; 5; 1; 0; 7; 0; 0x22; 0; 12; 0; 0x10; 1; 0; 1; 1; 5; 0; 1; 0; 0; 0; 0].
Definition sample_delete : list Z :=
  [1; 0x10; 0; 0; 5; 1; 0; 8; 0; 0x24; 0; 4; 0; 0x01; 1; 0; 1; 0].
Lemma sms_conversation_witness :
  exists r' contents,
    (add_sms_to_queue (zs "ping") 4 ;>
     process_message_queue (env_at 10) 3 ;>
     notify_wms_event (env_at 11) sample_read 25 3 ;>
     notify_wms_event (env_at 12) sample_delete 18 3 ;>
     process_message_queue (env_at 13) 3) initial_runtime =
    Ret (tt, r',
      [PulseRingIn; Write 3 (notification_packet 0);
       Write 3 (sms_packet 7 false 0 (packet_date (env_at 11) 24) 4 4 contents);
       Write 3 (deletion_packet 8 1)]) /\
    queue_pos r' = -1 /\ notif_pending r' = false /\
    gsm7_to_ascii contents 4 (replicate 160 0) 0 = Ret (4, zs "ping" ++ replicate 156 0).
Proof.
  apply (sms_conversation (zs "ping") initial_runtime zero_message zero_message); try reflexivity.
  - exact initial_runtime_ok.
  - vm_compute. congruence.
  - vm_compute. congruence.
  - repeat constructor; vm_compute; congruence.
  - vm_compute. split; congruence.
  - split; reflexivity.
  - exists 17. repeat split; reflexivity.
  - split; reflexivity.
  - intros b. cbn. lia.
Defined.

(** The host's message identifier is used unchecked: a read request for an
    identifier past the 256 slots indexes the queue out of bounds, and so does
    a delete request that finishes the last slot, whose time stamp is then
    taken in the slot after it. *)
Theorem notify_identifier_unchecked env fd r bytes len tid :
  zlen (msg r) = QUEUE_SIZE -> 0 <= queue_pos r ->
  (forall id, host_request bytes tid WMS_READ_MESSAGE -> read_of bytes len id -> QUEUE_SIZE <= id ->
     notify_wms_event env bytes len fd r = Oob) /\
  (forall m, host_request bytes tid WMS_DELETE -> current_message_id r = QUEUE_SIZE - 1 ->
     rdA (msg r) (QUEUE_SIZE - 1) = Ret m -> m_state m = 3 -> m_len m <= 0 ->
     notify_wms_event env bytes len fd r = Oob).
Proof.
  unfold QUEUE_SIZE. intros Hlen Hp. split.
  - intros id [Ht Hmid] (offset & Hoff & Hpos & Hid) Hout.
    unfold notify_wms_event. rewrite (bind_lift _ _ _ _ Ht), bind_modify, bind_get.
    cbn [queue_pos upd_tid]. ifdec. rewrite (bind_lift _ _ _ _ Hmid), Z.eqb_refl.
    rewrite (bind_lift _ _ _ _ Hoff). ifdec. rewrite (bind_lift _ _ _ _ Hid), bind_modify.
    unfold bind, on_msg, modifyM. cbn [msg upd_current upd_tid]. by rewrite rdA_out by lia.
  - intros m [Ht Hmid] Hcur Hm Hs Hl.
    unfold notify_wms_event. rewrite (bind_lift _ _ _ _ Ht), bind_modify, bind_get.
    cbn [queue_pos upd_tid]. ifdec. rewrite (bind_lift _ _ _ _ Hmid).
    change (WMS_DELETE =? WMS_READ_MESSAGE) with false. rewrite Z.eqb_refl.
    cbn [current_message_id upd_tid]. rewrite Hcur. change (256 - 1) with 255 in *.
    erewrite bind_get_msg by msg_at Hm. rewrite Hs. change (negb (3 =? 3)) with false. cbn match.
    rewrite bind_ret, bind_get. cbn [current_message_id upd_tid]. rewrite Hcur.
    erewrite bind_on_msg by msg_at Hm. cbn [current_message_id upd_tid upd_msgs]. rewrite ?Hcur.
    erewrite bind_after; [|eapply (handle_delete_run env fd 255 _ (set_state 4 m)); try done; msg_at Hm].
    rewrite bind_get. cbn [current_message_id upd_tid upd_msgs upd_current]. rewrite Hcur.
    change (u32 (255 + 1)) with 256. unfold on_msg, modifyM. cbn [msg upd_current upd_msgs upd_tid].
    rewrite rdA_out; [done|]. zl. lia.
Qed.
Lemma notify_identifier_unchecked_witness :
  notify_wms_event (env_at 11)
    [1; 0x18; 0; 0; 5; 1; 0; 7; 0; 0x22; 0; 12; 0; 0x10; 1; 0; 1; 1; 5; 0; 1; 0; 1; 0; 0] 25 3 one_queued
  = Oob.
Proof.
  eapply (proj1 (notify_identifier_unchecked (env_at 11) 3 one_queued _ 25 7 eq_refl ltac:(vm_compute; congruence))
            256).
  - split; reflexivity.
  - exists 17. repeat split; reflexivity.
  - vm_compute. congruence.
Defined.
