(* ===== verification/SmsFilter.v ===== *)
(** The SMS traffic filters (src/sms.c): texts to the modem's own number are
    taken off the wire and run as commands, cell broadcasts are copied into
    the store, stuck messages of the baseband are hidden from the host and
    fetched. They work on the store of Sms.v. *)

From stdpp Require Import base list numbers option strings.
From Stdlib Require Import ZArith Lia.
From S2P Require Import Prelude Libc Eff Qmi Gsm7 Pdu Sms.

Definition FROM_DSP : Z := 0.
Definition FROM_HOST : Z := 1.

(** What a filter sees of the outside: the store's environment, the answer
    the baseband gives to a request (none: the descriptor never became
    readable), the USB suspend state, two settings, and the contents of the
    memory malloc(3) returns. *)
Record filter_env := {
  f_sms : sms_env;
  f_reply : list Z -> option (list Z);
  f_suspended : bool;
  f_sms_logging : bool;
  f_call_simulation : bool;
  f_heap_msg : message_data;
  f_heap_160 : list Z
}.

(** * Packets *)

(** struct sms_received_ack *)
Definition ack_packet (tid : Z) : list Z :=
  enc_qmux (wms_qmux 0x0018) ++
  enc_qmi {| ctlid := 0x02; transaction_id := tid; msgid := WMS_RAW_SEND; qmi_length := 0x000c |} ++
  enc_result {| result_code_type := TLV_QMI_RESULT; generic_result_size := 4;
                result := 0x00; response := 0x00 |} ++
  le 1 0x01 ++ le 2 0x0002 ++ le 2 0x0021.

Definition wms_request_qmux (packet_len instance : Z) : qmux_packet :=
  {| version := 0x01; packet_length := packet_len; control := 0x00; service := 0x05;
     instance_id := instance |}.

(** struct sms_delete_request *)
Definition delete_request (instance tid message_id : Z) : list Z :=
  enc_qmux (wms_request_qmux 0x1b instance) ++
  enc_qmi {| ctlid := 0x00; transaction_id := tid; msgid := WMS_DELETE; qmi_length := 0x0f |} ++
  le 1 0x12 ++ le 2 0x01 ++ le 1 0x01 ++
  le 1 0x10 ++ le 2 0x04 ++ le 4 message_id ++
  le 1 0x01 ++ le 2 0x01 ++ le 1 0x01.

(** struct sms_get_message_by_id *)
Definition read_request (instance tid message_id : Z) : list Z :=
  enc_qmux (wms_request_qmux 0x18 instance) ++
  enc_qmi {| ctlid := 0x00; transaction_id := tid; msgid := WMS_READ_MESSAGE; qmi_length := 0x0c |} ++
  le 1 0x10 ++ le 2 0x01 ++ le 1 0x01 ++
  le 1 0x01 ++ le 2 0x05 ++ le 1 0x01 ++ le 4 message_id.

(** * Layout of struct outgoing_sms_packet *)

Definition OUT_MIN_LEN : Z := 32.     (* sizeof (194) less MAX_MESSAGE_SIZE + 2 *)
Definition OUT_PDU_TYPE : Z := 20.
Definition OUT_TARGET_SZ : Z := 22.
Definition OUT_NUMBER : Z := 23.
Definition OUT_CONTENT_SZ : Z := 33.
Definition OUT_NODATE_CONTENT_SZ : Z := 32.

Section Filters.
Variable env : filter_env.
Variable adspfd usbfd : Z.

(** [add_message_to_queue] (helpers.c) *)
Definition add_message_to_queue (text : list Z) (len : Z) : MS unit :=
  if len <=? 0 then ret tt
  else if f_call_simulation env then emit (AddVoiceMessage (take (Z.to_nat len) text))
  else add_sms_to_queue text len.

Definition inject_message (message_id : Z) : MS unit :=
  add_message_to_queue (zs "Hello world!" ++ [0]) 12.

Definition hello_text : list Z :=
  zs "Hi!" ++ 10 :: zs "Welcome to your (nearly) free modem" ++ 10 :: zs "Send " ++
  34 :: zs "help" ++ 34 :: zs " in this chat to get a list of commands you can run".
(** [clear_ifrst_boot_flag] is the settings' (Config.v). *)
Definition send_hello_world : MS unit :=
  do* '(message, _) := lift (snprintf (f_heap_160 env) 160 hello_text) in
  do* n := lift (strlen message) in
  add_message_to_queue message n.

(** * Texts from the host to the modem *)

Definition send_outgoing_msg_ack (tid message_id : Z) : MS Z :=
  emit (Write usbfd (ack_packet tid)) ;>
  ret (e_write (f_sms env) usbfd (ack_packet tid)).

(** The text of a submit PDU, by the kind of PDU. *)
Definition intercepted_text (bytes : list Z) : cres (list Z) :=
  let* pdu_type := rd bytes OUT_PDU_TYPE in
  let output := replicate 160 0 in
  if 0x11 <=? pdu_type then
    let* elements := rd bytes OUT_CONTENT_SZ in
    let* '(_, out) := gsm7_to_ascii (drop (Z.to_nat (OUT_CONTENT_SZ + 1)) bytes) elements output 0 in
    Ret out
  else if pdu_type =? 0x01 then
    let* elements := rd bytes OUT_NODATE_CONTENT_SZ in
    let* '(_, out) :=
      gsm7_to_ascii (drop (Z.to_nat (OUT_NODATE_CONTENT_SZ + 1)) bytes) elements output 0 in
    Ret out
  else Ret output.

Definition intercept_and_parse (bytes : list Z) (len : Z) : MS unit :=
  if len <? OUT_MIN_LEN then ret tt
  else
    do* output := lift (intercepted_text bytes) in
    do* tid := lift (rd16 bytes 7) in
    send_outgoing_msg_ack tid 0x0000 ;>
    emit (ParseCommand output).

(** The reads and conversions done for the log line. *)
Definition log_message_contents (source : Z) (bytes : list Z) (len : Z) : MS unit :=
  if source =? FROM_HOST then
    if len <? OUT_MIN_LEN then ret tt
    else
      do* sz := lift (rd bytes OUT_TARGET_SZ) in
      do* _ := lift (decode_phone_number (drop (Z.to_nat OUT_NUMBER) bytes) sz
                       (replicate 127 0) (replicate 128 0)) in
      do* pdu_type := lift (rd bytes OUT_PDU_TYPE) in
      let text_at k :=
        do* n := lift (strlen (drop (Z.to_nat (k + 1)) bytes)) in
        do* _ := lift (gsm7_to_ascii (drop (Z.to_nat (k + 1)) bytes) n (replicate 160 0) 0) in
        ret tt in
      if 0x11 <=? pdu_type then text_at OUT_CONTENT_SZ
      else if pdu_type =? 0x01 then text_at OUT_NODATE_CONTENT_SZ
      else ret tt
  else if source =? FROM_DSP then
    do* _ := lift (pdu_decode bytes len (f_heap_msg env) 0) in ret tt
  else ret tt.

Definition our_phone : list Z := [0x91; 0x22; 0x33; 0x44; 0x55; 0x66; 0x77].
Definition cb_phone : list Z := [0x91; 0x22; 0x33; 0x44; 0x55; 0x66; 0x78].

(** The two halves of [check_wms_message]: a text for one of the modem's numbers
    is intercepted, and any text is logged. *)
Definition intercept_ours (bytes : list Z) (len : Z) : MS Z :=
  do* number := lift (rdn bytes OUT_NUMBER 7) in
  let for_us := bool_decide (number = our_phone) || bool_decide (number = cb_phone) in
  when for_us (intercept_and_parse bytes len) ;>
  ret (if for_us then 1 else 0).
Definition log_text (source : Z) (bytes : list Z) (len : Z) : MS unit :=
  do* msgid := lift (rd16 bytes 9) in
  when (f_sms_logging env && ((msgid =? WMS_READ_MESSAGE) || (msgid =? WMS_RAW_SEND)))
    (log_message_contents source bytes len).
Definition check_wms_message (source : Z) (bytes : list Z) (len : Z) : MS Z :=
  if len <? OUT_MIN_LEN then ret 0
  else
    do* needs_rerouting := intercept_ours bytes len in
    log_text source bytes len ;>
    ret needs_rerouting.

(** * Indications while the host sleeps *)

Definition SZ_INDICATION : Z := 29.

Definition check_wms_indication_message (bytes : list Z) (len : Z) : MS Z :=
  if len <? SZ_INDICATION then ret 0
  else
    do* msgid := lift (rd16 bytes 9) in
    if (msgid =? WMS_EVENT_REPORT) && f_suspended env then
      emit PulseRingIn ;>
      set_pending_notification_source MSG_EXTERNAL ;>
      set_notif_pending true ;>
      emit (HostNotified true) ;>
      ret 1
    else ret 0.

(** * Stuck messages of the baseband *)

Definition SZ_RAW_SMS : Z := 23.

Definition parse_and_forward_adsp_message (bytes : list Z) (len : Z) : MS Z :=
  if len <? SZ_RAW_SMS then ret (- EINVAL)
  else
    do* msgid := lift (rd16 bytes 9) in
    if negb (msgid =? WMS_READ_MESSAGE) then ret (- EINVAL)
    else
      do* '(code, out, dcs) := lift (pdu_decode bytes len (f_heap_msg env) 0) in
      if code <? 0 then ret (- EINVAL)
      else
        do* phone := lift (cstr (md_phone_number out)) in
        do* '(message, sztmp) := lift (snprintf (f_heap_160 env) 160
          (zs "Stuck message from " ++ phone ++ [58; 10] ++ zs "--------" ++ [10])) in
        add_sms_to_queue message sztmp ;>
        do* message := lift (memset message 0 160) in
        if negb (dcs =? 0) then
          add_raw_sms_to_queue message sztmp dcs true ;>
          ret 0
        else
          do* text := lift (cstr (md_message out)) in
          do* '(message, sztmp) := lift (snprintf message 160 text) in
          add_sms_to_queue message sztmp ;>
          ret 0.

(** A request to the baseband and its answer; write(2) returning 0 is the one
    error noticed. *)
Definition adsp_request (request : list Z) : MS (option (list Z)) :=
  emit (Write adspfd request) ;>
  if e_write (f_sms env) adspfd request =? 0 then ret None
  else ret (match f_reply env request with
            | Some [] => None
            | answer => answer
            end).

Definition request_message_delete (instance tid message_id : Z) : MS Z :=
  do* answer := adsp_request (delete_request instance tid message_id) in
  ret (match answer with Some _ => 0 | None => - EINVAL end).

Definition request_read_adsp_message (instance tid message_id : Z) : MS Z :=
  do* answer := adsp_request (read_request instance tid message_id) in
  match answer with
  | Some buf => parse_and_forward_adsp_message buf (zlen buf)
  | None => ret (- EINVAL)
  end.

(** Offsets in struct sms_list_all_resp. *)
Definition LIST_COUNT : Z := 23.
Definition LIST_DATA : Z := 27.

Fixpoint retrieve_loop (n : nat) (i instance tid : Z) (pkt : list Z) : MS unit :=
  match n with
  | O => ret tt
  | S n =>
      do* id := lift (rd32 pkt (LIST_DATA + 5 * i)) in
      do* _ := lift (rd pkt (LIST_DATA + 5 * i + 4)) in
      do* got := request_read_adsp_message instance tid id in
      if got =? 0 then
        let tid := u16 (tid + 1) in
        do* _ := request_message_delete instance tid id in
        retrieve_loop n (i + 1) instance tid pkt
      else retrieve_loop n (i + 1) instance (u16 (tid + 2)) pkt
  end.

Definition retrieve_and_delete : MS unit :=
  do* r := get in
  (match stuck_message_data r with
   | Some pkt =>
       do* count := lift (rd32 pkt LIST_COUNT) in
       do* instance := lift (rd pkt 5) in
       retrieve_loop (Z.to_nat count) 0 instance 1 pkt
   | None => ret tt
   end) ;>
  modify (fun r => upd_stuck (stuck_message_data r) false r).

(** struct sms_list_all_resp_empty, with the headers of the real answer. *)
Definition empty_list_answer (bytes : list Z) : cres (list Z) :=
  let* v := rd bytes 0 in
  let* h := rdn bytes 3 3 in
  let* q := rdn bytes 6 5 in
  Ret (v :: le 2 0x1a ++ h ++ q ++ le 2 0x0e ++
       enc_result {| result_code_type := 0x02; generic_result_size := 0x04;
                     result := 0; response := 0 |} ++
       le 1 0x01 ++ le 2 0x04 ++ le 4 0).

(** The entries are read to be logged. *)
Fixpoint list_entries (n : nat) (i : Z) (bytes : list Z) : cres unit :=
  match n with
  | O => Ret tt
  | S n =>
      let* _ := rd32 bytes (LIST_DATA + 5 * i) in
      let* _ := rd bytes (LIST_DATA + 5 * i + 4) in
      list_entries n (i + 1) bytes
  end.

Definition check_wms_list_all_messages (source : Z) (bytes : list Z) (len : Z) : MS Z :=
  if negb (source =? FROM_DSP) then ret 0
  else if len <? LIST_DATA then ret 0
  else
    do* msgid := lift (rd16 bytes 9) in
    if negb (msgid =? WMS_LIST_ALL_MESSAGES) then ret 0
    else
      do* count := lift (rd32 bytes LIST_COUNT) in
      do* _ := lift (list_entries (Z.to_nat count) 0 bytes) in
      if 0 <? count then
        do* copy := lift (rdn bytes 0 (Z.to_nat len)) in
        modify (upd_stuck (Some copy) true) ;>
        do* answer := lift (empty_list_answer bytes) in
        emit (Write usbfd answer) ;>
        ret 1
      else ret 0.

(** * Cell broadcasts *)

Definition CB_MIN_LEN : Z := 28.
Definition CB_HEADER_ID : Z := 13.
Definition CB_MESSAGE_ID : Z := 21.
Definition CB_MESSAGE_LEN : Z := 22.
Definition CB_ENCODING : Z := 28.
Definition CB_PAGE : Z := 29.
Definition CB_CONTENTS : Z := 30.
Definition MAX_CB_MESSAGE_SIZE : Z := 1839.

Definition cb_warning : list Z :=
  zs "WARNING: Incoming Cell Broadcast Message from the network".

(** [encoding] with the bits 7, 6, 4, 1 and 0 cleared. *)
Definition cb_dcs (encoding : Z) : Z :=
  Z.ldiff (Z.ldiff (Z.ldiff (Z.ldiff (Z.ldiff encoding (Z.shiftl 1 7)) (Z.shiftl 1 6))
    (Z.shiftl 1 4)) (Z.shiftl 1 1)) (Z.shiftl 1 0).

(** A negative [sz] makes memcpy's size_t a huge one. *)
Definition intercept_cb_message (bytes : list Z) (len : Z) : MS unit :=
  if len <? CB_MIN_LEN then ret tt
  else
    do* header_id := lift (rd bytes CB_HEADER_ID) in
    do* message_id := lift (rd bytes CB_MESSAGE_ID) in
    if (header_id =? TLV_TRANSFER_MT_MESSAGE) && (message_id =? 0x07) then
      do* encoding := lift (rd bytes CB_ENCODING) in
      do* page := lift (rd bytes CB_PAGE) in
      when (Z.shiftr page 4 =? 0x01) (add_message_to_queue (cb_warning ++ [0]) (zlen cb_warning)) ;>
      do* message_len := lift (rd16 bytes CB_MESSAGE_LEN) in
      let sz := message_len - 6 in
      do* contents := lift (if MAX_MESSAGE_SIZE <? sz then rdn bytes CB_CONTENTS 160
                            else if sz <? 0 then Oob
                            else rdn bytes CB_CONTENTS (Z.to_nat sz)) in
      do* output := lift (wrn (replicate 1839 0) 0 contents) in
      add_raw_sms_to_queue output sz (cb_dcs encoding) true
    else ret tt.

Definition check_cb_message (bytes : list Z) (len : Z) : MS Z :=
  if len <? CB_MIN_LEN then ret 0
  else
    do* msgid := lift (rd16 bytes 9) in
    do* header_id := lift (rd bytes CB_HEADER_ID) in
    do* message_id := lift (rd bytes CB_MESSAGE_ID) in
    when ((msgid =? WMS_EVENT_REPORT) && (header_id =? TLV_TRANSFER_MT_MESSAGE) &&
          negb (message_id =? 0x00)) (intercept_cb_message bytes len) ;>
    ret 0.
End Filters.

(** * Logging *)

Lemma phone_loop_total n i j buffer output :
  0 <= i -> 0 <= j -> j + Z.of_nat n <= zlen buffer -> i + Z.of_nat n <= zlen output ->
  exists output', phone_loop n i j buffer output = Ret output' /\ zlen output' = zlen output.
Proof.
  revert i j output. induction n as [|n IH]; intros i j output Hi Hj Hb Ho; cbn [phone_loop]; [by eexists|].
  destruct (rdA_in buffer j) as [b ->]; [lia|]. cbn [cbind].
  csplit; rewrite wrA_ok by lia; cbn [cbind];
    match goal with |- context [phone_loop n _ ?j' _ ?o] =>
      destruct (IH (i + 1) j' o) as (r & -> & Hr) end; try (zl; lia); exists r; zl; (split; [done|lia]).
Qed.
(** A number of up to 126 digits is converted, whatever the digits are. *)
Lemma decode_phone_number_total buffer sz :
  0 <= sz <= 126 -> 128 <= zlen buffer ->
  exists r, decode_phone_number buffer sz (replicate 127 0) (replicate 128 0) = Ret r.
Proof.
  intros Hsz Hb. unfold decode_phone_number. destruct (rdA_in buffer 0) as [b0 ->]; [lia|]. cbn [cbind].
  set (inter := if 0 <? sz then _ else _). assert (exists i, inter = Ret i) as [i ->] by (unfold inter; case_match; eauto).
  cbn [cbind]. set (j := if i then 1 else 0). assert (0 <= j <= 1) by (unfold j; destruct i; lia).
  destruct (phone_loop_total (Z.to_nat sz) 0 j buffer (replicate 127 0)) as (o & -> & Ho); [lia|lia|lia|zl; lia|].
  rewrite zlen_replicate in Ho. cbn [cbind]. rewrite wrA_ok by lia. cbn [cbind].
  destruct (cstr_nul (<[Z.to_nat sz := 0]> o)) as [text ->].
  { apply list_elem_of_In, (list_elem_of_lookup_2 _ (Z.to_nat sz)), list_lookup_insert_eq. unfold zlen in Ho. lia. }
  cbn [cbind]. unfold snprintf. cbn [Z.leb Z.compare]. set (t := if i then _ else _).
  rewrite wrn_ok; [by eexists|lia|]. unfold zlen. rewrite length_app, length_take, length_replicate. cbn. lia.
Qed.

(** A packet whose log stays in its buffers: no more than 160 bytes of packed text
    and whatever follows it, and a plausible count of digits. *)
Definition loggable (data : list Z) : Prop :=
  OUT_CONTENT_SZ < zlen data <= OUT_CONTENT_SZ + 161 /\ bytes_ok data /\
  exists sz, rd data OUT_TARGET_SZ = Ret sz /\ sz <= 126.
Lemma log_contents_run env data n r t :
  loggable data -> (512 <= n)%nat -> Z.of_nat n <= 6144 -> rd data OUT_PDU_TYPE = Ret t -> 0x11 <= t ->
  log_message_contents env FROM_HOST (data ++ replicate n 0) (zlen data) r = Ret (tt, r, []).
Proof.
  intros (Hlen & Hb & sz & Hsz & Hmax) Hn Hmx Ht Hge. unfold log_message_contents, OUT_MIN_LEN, OUT_CONTENT_SZ in *.
  change (FROM_HOST =? FROM_HOST) with true. cbn match. ifdec.
  assert (Hrd : forall i v, rd data i = Ret v -> rd (data ++ replicate n 0) i = Ret v).
  { intros i v H. pose proof (rdA_bounds _ _ _ H). by rewrite rdA_app_l by lia. }
  rewrite (bind_lift _ _ _ _ (Hrd _ _ Hsz)).
  assert (0 <= sz).
  { apply rdA_lookup in Hsz as [_ Hl]. unfold bytes_ok in Hb. rewrite Forall_lookup in Hb. apply Hb in Hl. unfold byte_ok in Hl. lia. }
  destruct (decode_phone_number_total (drop (Z.to_nat OUT_NUMBER) (data ++ replicate n 0)) sz) as [x Hx]; [lia| |].
  { rewrite drop_app_le by (unfold OUT_NUMBER, zlen in *; lia). rewrite zlen_app, zlen_replicate. pose proof (zlen_nonneg (drop (Z.to_nat OUT_NUMBER) data)). lia. }
  rewrite (bind_lift _ _ _ _ Hx). rewrite (bind_lift _ _ _ _ (Hrd _ _ Ht)). cbv zeta. ifdec.
  change (33 + 1) with 34. set (text := drop (Z.to_nat 34) (data ++ replicate n 0)).
  assert (Htext : text = drop 34 data ++ replicate n 0).
  { unfold text. apply drop_app_le. unfold zlen in Hlen. lia. }
  assert (Hd : zlen (drop 34 data) <= 160) by (unfold zlen in *; rewrite length_drop; lia).
  destruct n as [|n]; [lia|]. cbn [replicate] in Htext.
  destruct (strlen_nul (drop 34 data) (replicate n 0)) as (m & Hm & Hmb). rewrite <- Htext in Hm.
  rewrite (bind_lift _ _ _ _ Hm).
  assert (Hg : exists y, gsm7_to_ascii text m (replicate 160 0) 0 = Ret y).
  { eexists. apply gsm7_to_ascii_correct; [|lia|zl; lia| |].
    - rewrite Htext. apply Forall_app. split; [by apply Forall_drop|]. constructor; [split; lia|].
      apply Forall_replicate. split; lia.
    - rewrite Htext. zl. pose proof (zlen_nonneg (replicate n 0)). lia.
    - rewrite Htext. zl. lia. }
  destruct Hg as [y Hy]. rewrite (bind_lift _ _ _ _ Hy). done.
Qed.

(** * Routing *)

Section Routing.
Context (env : filter_env) (usbfd : Z) (Hlog : f_sms_logging env = false).

Lemma for_us_spec number :
  (bool_decide (number = our_phone) || bool_decide (number = cb_phone))%bool = true <->
  number = our_phone \/ number = cb_phone.
Proof. rewrite orb_true_iff, !bool_decide_eq_true. done. Qed.

Lemma check_wms_not_for_us source bytes len r number mid :
  rdn bytes OUT_NUMBER 7 = Ret number -> rd16 bytes 9 = Ret mid ->
  ~ (number = our_phone \/ number = cb_phone) ->
  check_wms_message env usbfd source bytes len r = Ret (0, r, []).
Proof.
  intros Hn Hm Hno. unfold check_wms_message, intercept_ours, log_text. csplit; [done|].
  rewrite !bind_assoc, (bind_lift _ _ _ _ Hn). rewrite <- for_us_spec in Hno.
  apply not_true_is_false in Hno. rewrite Hno, Hlog. cbn [when andb]. autorewrite with eff.
  rewrite (bind_lift _ _ _ _ Hm). by rewrite bind_ret.
Qed.

Lemma intercepted_text_submit bytes t s rest :
  rd bytes OUT_PDU_TYPE = Ret t -> 0x11 <= t -> Forall plain_char s -> zlen s <= 160 ->
  drop (Z.to_nat OUT_CONTENT_SZ) bytes = zlen s :: le (packed_size (length s)) (b128 s) ++ rest ->
  bytes_ok rest -> zlen rest < 65536 ->
  intercepted_text bytes = Ret (s ++ replicate (160 - length s) 0).
Proof.
  intros Ht Hge Hs Hl Hd Hrest Hrl. unfold intercepted_text. rewrite Ht. cbn [cbind]. ifdec.
  unfold rdA. change (OUT_CONTENT_SZ <? 0) with false.
  pose proof (lookup_drop bytes (Z.to_nat OUT_CONTENT_SZ) 0) as Hk. rewrite Hd, Nat.add_0_r in Hk.
  rewrite <- Hk. cbn [lookup list_lookup cbind].
  replace (drop (Z.to_nat (OUT_CONTENT_SZ + 1)) bytes)
    with (le (packed_size (length s)) (b128 s) ++ rest).
  2: { change (Z.to_nat (OUT_CONTENT_SZ + 1)) with (Z.to_nat OUT_CONTENT_SZ + 1)%nat.
       by rewrite <- drop_drop, Hd. }
  rewrite gsm7_unpack_plain by (done || lia || (zl; lia)). cbn [cbind]. by rewrite drop_replicate.
Qed.

Lemma intercept_ours_run bytes len r number tid output :
  OUT_MIN_LEN <= len -> rdn bytes OUT_NUMBER 7 = Ret number -> rd16 bytes 7 = Ret tid ->
  number = our_phone \/ number = cb_phone -> intercepted_text bytes = Ret output ->
  intercept_ours env usbfd bytes len r = Ret (1, r, [Write usbfd (ack_packet tid); ParseCommand output]).
Proof.
  intros Hlen Hn Ht Hus Hout. unfold intercept_ours. rewrite (bind_lift _ _ _ _ Hn).
  apply for_us_spec in Hus. rewrite Hus. cbn [when]. unfold intercept_and_parse. ifdec.
  autorewrite with eff. rewrite (bind_lift _ _ _ _ Hout). autorewrite with eff.
  rewrite (bind_lift _ _ _ _ Ht). unfold send_outgoing_msg_ack. autorewrite with eff. done.
Qed.
Lemma check_wms_for_us source bytes len r number tid mid output :
  OUT_MIN_LEN <= len -> rdn bytes OUT_NUMBER 7 = Ret number -> rd16 bytes 7 = Ret tid ->
  rd16 bytes 9 = Ret mid -> number = our_phone \/ number = cb_phone ->
  intercepted_text bytes = Ret output ->
  check_wms_message env usbfd source bytes len r =
  Ret (1, r, [Write usbfd (ack_packet tid); ParseCommand output]).
Proof.
  intros Hlen Hn Ht Hm Hus Hout. unfold check_wms_message, log_text. ifdec.
  rewrite (bind_after _ _ _ _ _ _ (intercept_ours_run _ _ _ _ _ _ Hlen Hn Ht Hus Hout)).
  rewrite bind_assoc, (bind_lift _ _ _ _ Hm), Hlog. done.
Qed.
End Routing.

(** With logging off, a submit PDU whose target is one of the modem's two
    numbers is kept from the baseband: the host gets the acknowledgement with
    its own transaction and the text, unpacked and padded with NULs, is given
    to the command interpreter; a message to any other number is let through
    with no action. The store does not change in either case. *)
Theorem check_wms_message_routes env usbfd source bytes len r number tid mid t s rest :
  f_sms_logging env = false -> OUT_MIN_LEN <= len ->
  rdn bytes OUT_NUMBER 7 = Ret number -> rd16 bytes 7 = Ret tid -> rd16 bytes 9 = Ret mid ->
  rd bytes OUT_PDU_TYPE = Ret t -> 0x11 <= t -> Forall plain_char s -> zlen s <= 160 ->
  drop (Z.to_nat OUT_CONTENT_SZ) bytes = zlen s :: le (packed_size (length s)) (b128 s) ++ rest ->
  bytes_ok rest -> zlen rest < 65536 ->
  check_wms_message env usbfd source bytes len r =
  if decide (number = our_phone \/ number = cb_phone)
  then Ret (1, r, [Write usbfd (ack_packet tid); ParseCommand (s ++ replicate (160 - length s) 0)])
  else Ret (0, r, []).
Proof.
  intros Hlog Hlen Hn Ht Hm Htype Hge Hs Hl Hd Hrest Hrl. case_decide as Hus.
  - eapply check_wms_for_us; eauto. by eapply intercepted_text_submit.
  - by eapply check_wms_not_for_us.
Qed.
Definition sample_filter_env : filter_env :=
  {| f_sms := env_at 10; f_reply := fun _ => None; f_suspended := false; f_sms_logging := false;
     f_call_simulation := false; f_heap_msg := sample_message_data;
     f_heap_160 := replicate 160 9 |}.
(** A submit PDU with the text "help", to the number of the given octets. *)
Definition sample_submit (number : list Z) : list Z :=
  [1; 57; 0; 0; 5; 1; 0; 7; 0; 0x20; 0; 45; 0; 1; 42; 0; 1; 1; 0; 0; 0x11; 0; 12] ++ number ++
  [0; 0; 0xa7; 4; 0xe8; 0x32; 0x1b; 0x0e; 0].
Lemma check_wms_message_routes_witness :
  check_wms_message sample_filter_env 5 FROM_HOST (sample_submit our_phone) 39 initial_runtime =
  Ret (1, initial_runtime, [Write 5 (ack_packet 7); ParseCommand (zs "help" ++ replicate 156 0)]).
Proof.
  etransitivity; [apply (check_wms_message_routes _ _ _ _ _ _ our_phone 7 0x20 0x11 (zs "help") [0])|];
    try reflexivity.
  - vm_compute. congruence.
  - repeat constructor; vm_compute; congruence.
  - vm_compute. congruence.
  - repeat constructor; vm_compute; congruence.
Defined.

(** The number a cell broadcast is delivered from is not one of the two the
    filter looks for: a text the user sends back to it goes to the network. *)
Theorem cell_broadcast_reply_forwarded env usbfd source bytes len r mid :
  f_sms_logging env = false ->
  rdn bytes OUT_NUMBER 7 = Ret (0x91 :: fill_sender_phone_number true) -> rd16 bytes 9 = Ret mid ->
  check_wms_message env usbfd source bytes len r = Ret (0, r, []).
Proof.
  intros Hlog Hn Hm. eapply check_wms_not_for_us; eauto. by intros [?|?].
Qed.
Lemma cell_broadcast_reply_forwarded_witness :
  check_wms_message sample_filter_env 5 FROM_HOST
    (sample_submit (0x91 :: fill_sender_phone_number true)) 39 initial_runtime =
  Ret (0, initial_runtime, []).
Proof. by apply (cell_broadcast_reply_forwarded _ _ _ _ _ _ 0x20). Defined.

(** * Cell broadcasts that are too long *)

(** A cell broadcast of more than 160 bytes of content is cut for the local
    copy but queued with its full length: the copy into the store writes past
    the message's 160-byte text. *)
Theorem long_cell_broadcast_overflows env bytes len r encoding page message_len :
  runtime_ok r -> queue_pos r < QUEUE_SIZE - 1 -> CB_MIN_LEN <= len ->
  rd bytes CB_HEADER_ID = Ret TLV_TRANSFER_MT_MESSAGE -> rd bytes CB_MESSAGE_ID = Ret 0x07 ->
  rd bytes CB_ENCODING = Ret encoding -> rd bytes CB_PAGE = Ret page -> Z.shiftr page 4 <> 1 ->
  rd16 bytes CB_MESSAGE_LEN = Ret message_len -> 160 < message_len - 6 ->
  intercept_cb_message env bytes len r = Oob.
Proof.
  intros (Hq & Hlen & Hall & _) Hroom Hl Hh Hm He Hp Hpage Hml Hsz. unfold QUEUE_SIZE in *.
  unfold intercept_cb_message. ifdec.
  rewrite (bind_lift _ _ _ _ Hh), (bind_lift _ _ _ _ Hm).
  change ((TLV_TRANSFER_MT_MESSAGE =? TLV_TRANSFER_MT_MESSAGE) && (7 =? 7)) with true. cbn match.
  rewrite (bind_lift _ _ _ _ He), (bind_lift _ _ _ _ Hp).
  rewrite (proj2 (Z.eqb_neq _ _) Hpage). cbn [when]. rewrite bind_ret, (bind_lift _ _ _ _ Hml).
  change MAX_MESSAGE_SIZE with 160. ifdec.
  destruct (rdn_cases bytes CB_CONTENTS 160) as [Hc|(contents & Hc & Hcl)].
  { unfold bind, lift. by rewrite Hc. }
  rewrite (bind_lift _ _ _ _ Hc).
  pose proof (wrn_ok (replicate 1839 0) 0 contents) as Hw. rewrite zlen_replicate in Hw.
  specialize (Hw ltac:(lia) ltac:(unfold zlen; lia)).
  rewrite (bind_lift _ _ _ _ Hw). set (output := _ ++ _ ++ _).
  unfold add_raw_sms_to_queue, QUEUE_SIZE. rewrite bind_get. ifdec.
  unfold set_notif_pending, set_pending_notification_source. rewrite !bind_modify.
  unfold copy_text, bind, lift.
  destruct (rdn_cases output 0 (Z.to_nat (message_len - 6))) as [->|(text & -> & Htl)]; [done|].
  cbn [cbind]. unfold get_msg, bind, get, lift. cbn [cbind msg upd_pos upd_source upd_notif].
  destruct (rdA_in (msg r) (queue_pos r + 1)) as [m Hmsg]; [lia|]. rewrite Hmsg. cbn [cbind].
  apply rdA_lookup in Hmsg as [_ Hmsg]. eapply Forall_lookup_1 in Hmsg as Hok; [|exact Hall].
  destruct Hok as [Hpk _]. rewrite wrn_overflow by (unfold zlen in *; lia). done.
Qed.
Lemma long_cell_broadcast_overflows_witness :
  intercept_cb_message sample_filter_env
    (replicate 13 0 ++ [0x11; 0; 0; 0; 0; 0; 0; 0; 0x07; 200; 0; 0; 0; 0; 0; 0x48; 0x22] ++
     replicate 194 65) 224 initial_runtime = Oob.
Proof.
  apply (long_cell_broadcast_overflows _ _ _ _ 0x48 0x22 200); try reflexivity;
    try (vm_compute; congruence).
  exact initial_runtime_ok.
Defined.
