(* ===== verification/Config.v ===== *)
(** The settings (src/config.c, inc/config.h): defaults, the text file they are
    kept in, its parser, the boot counter, and the getters and setters. The two
    files are part of the state; mounting is an action with a result from the
    environment. *)

From stdpp Require Import base list numbers option strings sets.
From Stdlib Require Import ZArith Lia.
From S2P Require Import Prelude Libc Eff.

Definition MAX_NAME_SZ : Z := 128.
Definition MAX_APN_FIELD_SZ : Z := 128.

(** * State *)

(** Numbers are uint8_t, texts are char[128]. *)
Record config_prototype := {
  custom_alert_tone : Z;
  persistent_logging : Z;
  user_name : list Z;
  modem_name : list Z;
  signal_tracking : Z;
  signal_tracking_mode : Z;
  signal_tracking_notify_downgrade : Z;
  signal_tracking_notify_cell_change : Z;
  sms_logging : Z;
  list_all_bypass : Z;
  callwait_autohangup : Z;
  automatic_call_recording : Z;
  dump_network_tables : Z;
  first_boot : bool;
  allow_internal_modem_connectivity : Z;
  apn_auth_method : Z;
  apn_ip_family : Z;
  apn_addr : list Z;
  apn_username : list Z;
  apn_password : list Z;
  ims_apn_addr : list Z;
  ims_apn_username : list Z;
  ims_apn_password : list Z;
  ims_attempt_enable : Z;
  ims_vt_support : Z;
  ims_rtp_support : Z;
  ims_sms_support : Z
}.

(** ** Field updates *)

Definition set_custom_alert_tone_field (v : Z) (c : config_prototype) : config_prototype :=
  {| custom_alert_tone := v; persistent_logging := persistent_logging c; user_name := user_name
     c; modem_name := modem_name c; signal_tracking := signal_tracking c; signal_tracking_mode :=
     signal_tracking_mode c; signal_tracking_notify_downgrade := signal_tracking_notify_downgrade c;
     signal_tracking_notify_cell_change := signal_tracking_notify_cell_change c; sms_logging :=
     sms_logging c; list_all_bypass := list_all_bypass c; callwait_autohangup := callwait_autohangup
     c; automatic_call_recording := automatic_call_recording c; dump_network_tables :=
     dump_network_tables c; first_boot := first_boot c; allow_internal_modem_connectivity :=
     allow_internal_modem_connectivity c; apn_auth_method := apn_auth_method c; apn_ip_family :=
     apn_ip_family c; apn_addr := apn_addr c; apn_username := apn_username c; apn_password :=
     apn_password c; ims_apn_addr := ims_apn_addr c; ims_apn_username := ims_apn_username c;
     ims_apn_password := ims_apn_password c; ims_attempt_enable := ims_attempt_enable c;
     ims_vt_support := ims_vt_support c; ims_rtp_support := ims_rtp_support c; ims_sms_support :=
     ims_sms_support c |}.
Definition set_persistent_logging_field (v : Z) (c : config_prototype) : config_prototype :=
  {| custom_alert_tone := custom_alert_tone c; persistent_logging := v; user_name := user_name c;
     modem_name := modem_name c; signal_tracking := signal_tracking c; signal_tracking_mode :=
     signal_tracking_mode c; signal_tracking_notify_downgrade := signal_tracking_notify_downgrade c;
     signal_tracking_notify_cell_change := signal_tracking_notify_cell_change c; sms_logging :=
     sms_logging c; list_all_bypass := list_all_bypass c; callwait_autohangup := callwait_autohangup
     c; automatic_call_recording := automatic_call_recording c; dump_network_tables :=
     dump_network_tables c; first_boot := first_boot c; allow_internal_modem_connectivity :=
     allow_internal_modem_connectivity c; apn_auth_method := apn_auth_method c; apn_ip_family :=
     apn_ip_family c; apn_addr := apn_addr c; apn_username := apn_username c; apn_password :=
     apn_password c; ims_apn_addr := ims_apn_addr c; ims_apn_username := ims_apn_username c;
     ims_apn_password := ims_apn_password c; ims_attempt_enable := ims_attempt_enable c;
     ims_vt_support := ims_vt_support c; ims_rtp_support := ims_rtp_support c; ims_sms_support :=
     ims_sms_support c |}.
Definition set_user_name_field (v : list Z) (c : config_prototype) : config_prototype :=
  {| custom_alert_tone := custom_alert_tone c; persistent_logging := persistent_logging c;
     user_name := v; modem_name := modem_name c; signal_tracking := signal_tracking c;
     signal_tracking_mode := signal_tracking_mode c; signal_tracking_notify_downgrade :=
     signal_tracking_notify_downgrade c; signal_tracking_notify_cell_change :=
     signal_tracking_notify_cell_change c; sms_logging := sms_logging c; list_all_bypass :=
     list_all_bypass c; callwait_autohangup := callwait_autohangup c; automatic_call_recording :=
     automatic_call_recording c; dump_network_tables := dump_network_tables c; first_boot :=
     first_boot c; allow_internal_modem_connectivity := allow_internal_modem_connectivity c;
     apn_auth_method := apn_auth_method c; apn_ip_family := apn_ip_family c; apn_addr := apn_addr c;
     apn_username := apn_username c; apn_password := apn_password c; ims_apn_addr := ims_apn_addr c;
     ims_apn_username := ims_apn_username c; ims_apn_password := ims_apn_password c;
     ims_attempt_enable := ims_attempt_enable c; ims_vt_support := ims_vt_support c; ims_rtp_support
     := ims_rtp_support c; ims_sms_support := ims_sms_support c |}.
Definition set_modem_name_field (v : list Z) (c : config_prototype) : config_prototype :=
  {| custom_alert_tone := custom_alert_tone c; persistent_logging := persistent_logging c;
     user_name := user_name c; modem_name := v; signal_tracking := signal_tracking c;
     signal_tracking_mode := signal_tracking_mode c; signal_tracking_notify_downgrade :=
     signal_tracking_notify_downgrade c; signal_tracking_notify_cell_change :=
     signal_tracking_notify_cell_change c; sms_logging := sms_logging c; list_all_bypass :=
     list_all_bypass c; callwait_autohangup := callwait_autohangup c; automatic_call_recording :=
     automatic_call_recording c; dump_network_tables := dump_network_tables c; first_boot :=
     first_boot c; allow_internal_modem_connectivity := allow_internal_modem_connectivity c;
     apn_auth_method := apn_auth_method c; apn_ip_family := apn_ip_family c; apn_addr := apn_addr c;
     apn_username := apn_username c; apn_password := apn_password c; ims_apn_addr := ims_apn_addr c;
     ims_apn_username := ims_apn_username c; ims_apn_password := ims_apn_password c;
     ims_attempt_enable := ims_attempt_enable c; ims_vt_support := ims_vt_support c; ims_rtp_support
     := ims_rtp_support c; ims_sms_support := ims_sms_support c |}.
Definition set_signal_tracking_field (v : Z) (c : config_prototype) : config_prototype :=
  {| custom_alert_tone := custom_alert_tone c; persistent_logging := persistent_logging c;
     user_name := user_name c; modem_name := modem_name c; signal_tracking := v;
     signal_tracking_mode := signal_tracking_mode c; signal_tracking_notify_downgrade :=
     signal_tracking_notify_downgrade c; signal_tracking_notify_cell_change :=
     signal_tracking_notify_cell_change c; sms_logging := sms_logging c; list_all_bypass :=
     list_all_bypass c; callwait_autohangup := callwait_autohangup c; automatic_call_recording :=
     automatic_call_recording c; dump_network_tables := dump_network_tables c; first_boot :=
     first_boot c; allow_internal_modem_connectivity := allow_internal_modem_connectivity c;
     apn_auth_method := apn_auth_method c; apn_ip_family := apn_ip_family c; apn_addr := apn_addr c;
     apn_username := apn_username c; apn_password := apn_password c; ims_apn_addr := ims_apn_addr c;
     ims_apn_username := ims_apn_username c; ims_apn_password := ims_apn_password c;
     ims_attempt_enable := ims_attempt_enable c; ims_vt_support := ims_vt_support c; ims_rtp_support
     := ims_rtp_support c; ims_sms_support := ims_sms_support c |}.
Definition set_signal_tracking_mode_field (v : Z) (c : config_prototype) : config_prototype :=
  {| custom_alert_tone := custom_alert_tone c; persistent_logging := persistent_logging c;
     user_name := user_name c; modem_name := modem_name c; signal_tracking := signal_tracking c;
     signal_tracking_mode := v; signal_tracking_notify_downgrade := signal_tracking_notify_downgrade
     c; signal_tracking_notify_cell_change := signal_tracking_notify_cell_change c; sms_logging :=
     sms_logging c; list_all_bypass := list_all_bypass c; callwait_autohangup := callwait_autohangup
     c; automatic_call_recording := automatic_call_recording c; dump_network_tables :=
     dump_network_tables c; first_boot := first_boot c; allow_internal_modem_connectivity :=
     allow_internal_modem_connectivity c; apn_auth_method := apn_auth_method c; apn_ip_family :=
     apn_ip_family c; apn_addr := apn_addr c; apn_username := apn_username c; apn_password :=
     apn_password c; ims_apn_addr := ims_apn_addr c; ims_apn_username := ims_apn_username c;
     ims_apn_password := ims_apn_password c; ims_attempt_enable := ims_attempt_enable c;
     ims_vt_support := ims_vt_support c; ims_rtp_support := ims_rtp_support c; ims_sms_support :=
     ims_sms_support c |}.
Definition set_signal_tracking_notify_downgrade_field (v : Z) (c : config_prototype) : config_prototype :=
  {| custom_alert_tone := custom_alert_tone c; persistent_logging := persistent_logging c;
     user_name := user_name c; modem_name := modem_name c; signal_tracking := signal_tracking c;
     signal_tracking_mode := signal_tracking_mode c; signal_tracking_notify_downgrade := v;
     signal_tracking_notify_cell_change := signal_tracking_notify_cell_change c; sms_logging :=
     sms_logging c; list_all_bypass := list_all_bypass c; callwait_autohangup := callwait_autohangup
     c; automatic_call_recording := automatic_call_recording c; dump_network_tables :=
     dump_network_tables c; first_boot := first_boot c; allow_internal_modem_connectivity :=
     allow_internal_modem_connectivity c; apn_auth_method := apn_auth_method c; apn_ip_family :=
     apn_ip_family c; apn_addr := apn_addr c; apn_username := apn_username c; apn_password :=
     apn_password c; ims_apn_addr := ims_apn_addr c; ims_apn_username := ims_apn_username c;
     ims_apn_password := ims_apn_password c; ims_attempt_enable := ims_attempt_enable c;
     ims_vt_support := ims_vt_support c; ims_rtp_support := ims_rtp_support c; ims_sms_support :=
     ims_sms_support c |}.
Definition set_signal_tracking_notify_cell_change_field (v : Z) (c : config_prototype) : config_prototype :=
  {| custom_alert_tone := custom_alert_tone c; persistent_logging := persistent_logging c;
     user_name := user_name c; modem_name := modem_name c; signal_tracking := signal_tracking c;
     signal_tracking_mode := signal_tracking_mode c; signal_tracking_notify_downgrade :=
     signal_tracking_notify_downgrade c; signal_tracking_notify_cell_change := v; sms_logging :=
     sms_logging c; list_all_bypass := list_all_bypass c; callwait_autohangup := callwait_autohangup
     c; automatic_call_recording := automatic_call_recording c; dump_network_tables :=
     dump_network_tables c; first_boot := first_boot c; allow_internal_modem_connectivity :=
     allow_internal_modem_connectivity c; apn_auth_method := apn_auth_method c; apn_ip_family :=
     apn_ip_family c; apn_addr := apn_addr c; apn_username := apn_username c; apn_password :=
     apn_password c; ims_apn_addr := ims_apn_addr c; ims_apn_username := ims_apn_username c;
     ims_apn_password := ims_apn_password c; ims_attempt_enable := ims_attempt_enable c;
     ims_vt_support := ims_vt_support c; ims_rtp_support := ims_rtp_support c; ims_sms_support :=
     ims_sms_support c |}.
Definition set_sms_logging_field (v : Z) (c : config_prototype) : config_prototype :=
  {| custom_alert_tone := custom_alert_tone c; persistent_logging := persistent_logging c;
     user_name := user_name c; modem_name := modem_name c; signal_tracking := signal_tracking c;
     signal_tracking_mode := signal_tracking_mode c; signal_tracking_notify_downgrade :=
     signal_tracking_notify_downgrade c; signal_tracking_notify_cell_change :=
     signal_tracking_notify_cell_change c; sms_logging := v; list_all_bypass := list_all_bypass c;
     callwait_autohangup := callwait_autohangup c; automatic_call_recording :=
     automatic_call_recording c; dump_network_tables := dump_network_tables c; first_boot :=
     first_boot c; allow_internal_modem_connectivity := allow_internal_modem_connectivity c;
     apn_auth_method := apn_auth_method c; apn_ip_family := apn_ip_family c; apn_addr := apn_addr c;
     apn_username := apn_username c; apn_password := apn_password c; ims_apn_addr := ims_apn_addr c;
     ims_apn_username := ims_apn_username c; ims_apn_password := ims_apn_password c;
     ims_attempt_enable := ims_attempt_enable c; ims_vt_support := ims_vt_support c; ims_rtp_support
     := ims_rtp_support c; ims_sms_support := ims_sms_support c |}.
Definition set_list_all_bypass_field (v : Z) (c : config_prototype) : config_prototype :=
  {| custom_alert_tone := custom_alert_tone c; persistent_logging := persistent_logging c;
     user_name := user_name c; modem_name := modem_name c; signal_tracking := signal_tracking c;
     signal_tracking_mode := signal_tracking_mode c; signal_tracking_notify_downgrade :=
     signal_tracking_notify_downgrade c; signal_tracking_notify_cell_change :=
     signal_tracking_notify_cell_change c; sms_logging := sms_logging c; list_all_bypass := v;
     callwait_autohangup := callwait_autohangup c; automatic_call_recording :=
     automatic_call_recording c; dump_network_tables := dump_network_tables c; first_boot :=
     first_boot c; allow_internal_modem_connectivity := allow_internal_modem_connectivity c;
     apn_auth_method := apn_auth_method c; apn_ip_family := apn_ip_family c; apn_addr := apn_addr c;
     apn_username := apn_username c; apn_password := apn_password c; ims_apn_addr := ims_apn_addr c;
     ims_apn_username := ims_apn_username c; ims_apn_password := ims_apn_password c;
     ims_attempt_enable := ims_attempt_enable c; ims_vt_support := ims_vt_support c; ims_rtp_support
     := ims_rtp_support c; ims_sms_support := ims_sms_support c |}.
Definition set_callwait_autohangup_field (v : Z) (c : config_prototype) : config_prototype :=
  {| custom_alert_tone := custom_alert_tone c; persistent_logging := persistent_logging c;
     user_name := user_name c; modem_name := modem_name c; signal_tracking := signal_tracking c;
     signal_tracking_mode := signal_tracking_mode c; signal_tracking_notify_downgrade :=
     signal_tracking_notify_downgrade c; signal_tracking_notify_cell_change :=
     signal_tracking_notify_cell_change c; sms_logging := sms_logging c; list_all_bypass :=
     list_all_bypass c; callwait_autohangup := v; automatic_call_recording :=
     automatic_call_recording c; dump_network_tables := dump_network_tables c; first_boot :=
     first_boot c; allow_internal_modem_connectivity := allow_internal_modem_connectivity c;
     apn_auth_method := apn_auth_method c; apn_ip_family := apn_ip_family c; apn_addr := apn_addr c;
     apn_username := apn_username c; apn_password := apn_password c; ims_apn_addr := ims_apn_addr c;
     ims_apn_username := ims_apn_username c; ims_apn_password := ims_apn_password c;
     ims_attempt_enable := ims_attempt_enable c; ims_vt_support := ims_vt_support c; ims_rtp_support
     := ims_rtp_support c; ims_sms_support := ims_sms_support c |}.
Definition set_automatic_call_recording_field (v : Z) (c : config_prototype) : config_prototype :=
  {| custom_alert_tone := custom_alert_tone c; persistent_logging := persistent_logging c;
     user_name := user_name c; modem_name := modem_name c; signal_tracking := signal_tracking c;
     signal_tracking_mode := signal_tracking_mode c; signal_tracking_notify_downgrade :=
     signal_tracking_notify_downgrade c; signal_tracking_notify_cell_change :=
     signal_tracking_notify_cell_change c; sms_logging := sms_logging c; list_all_bypass :=
     list_all_bypass c; callwait_autohangup := callwait_autohangup c; automatic_call_recording := v;
     dump_network_tables := dump_network_tables c; first_boot := first_boot c;
     allow_internal_modem_connectivity := allow_internal_modem_connectivity c; apn_auth_method :=
     apn_auth_method c; apn_ip_family := apn_ip_family c; apn_addr := apn_addr c; apn_username :=
     apn_username c; apn_password := apn_password c; ims_apn_addr := ims_apn_addr c;
     ims_apn_username := ims_apn_username c; ims_apn_password := ims_apn_password c;
     ims_attempt_enable := ims_attempt_enable c; ims_vt_support := ims_vt_support c; ims_rtp_support
     := ims_rtp_support c; ims_sms_support := ims_sms_support c |}.
Definition set_dump_network_tables_field (v : Z) (c : config_prototype) : config_prototype :=
  {| custom_alert_tone := custom_alert_tone c; persistent_logging := persistent_logging c;
     user_name := user_name c; modem_name := modem_name c; signal_tracking := signal_tracking c;
     signal_tracking_mode := signal_tracking_mode c; signal_tracking_notify_downgrade :=
     signal_tracking_notify_downgrade c; signal_tracking_notify_cell_change :=
     signal_tracking_notify_cell_change c; sms_logging := sms_logging c; list_all_bypass :=
     list_all_bypass c; callwait_autohangup := callwait_autohangup c; automatic_call_recording :=
     automatic_call_recording c; dump_network_tables := v; first_boot := first_boot c;
     allow_internal_modem_connectivity := allow_internal_modem_connectivity c; apn_auth_method :=
     apn_auth_method c; apn_ip_family := apn_ip_family c; apn_addr := apn_addr c; apn_username :=
     apn_username c; apn_password := apn_password c; ims_apn_addr := ims_apn_addr c;
     ims_apn_username := ims_apn_username c; ims_apn_password := ims_apn_password c;
     ims_attempt_enable := ims_attempt_enable c; ims_vt_support := ims_vt_support c; ims_rtp_support
     := ims_rtp_support c; ims_sms_support := ims_sms_support c |}.
Definition set_first_boot_field (v : bool) (c : config_prototype) : config_prototype :=
  {| custom_alert_tone := custom_alert_tone c; persistent_logging := persistent_logging c;
     user_name := user_name c; modem_name := modem_name c; signal_tracking := signal_tracking c;
     signal_tracking_mode := signal_tracking_mode c; signal_tracking_notify_downgrade :=
     signal_tracking_notify_downgrade c; signal_tracking_notify_cell_change :=
     signal_tracking_notify_cell_change c; sms_logging := sms_logging c; list_all_bypass :=
     list_all_bypass c; callwait_autohangup := callwait_autohangup c; automatic_call_recording :=
     automatic_call_recording c; dump_network_tables := dump_network_tables c; first_boot := v;
     allow_internal_modem_connectivity := allow_internal_modem_connectivity c; apn_auth_method :=
     apn_auth_method c; apn_ip_family := apn_ip_family c; apn_addr := apn_addr c; apn_username :=
     apn_username c; apn_password := apn_password c; ims_apn_addr := ims_apn_addr c;
     ims_apn_username := ims_apn_username c; ims_apn_password := ims_apn_password c;
     ims_attempt_enable := ims_attempt_enable c; ims_vt_support := ims_vt_support c; ims_rtp_support
     := ims_rtp_support c; ims_sms_support := ims_sms_support c |}.
Definition set_allow_internal_modem_connectivity_field (v : Z) (c : config_prototype) : config_prototype :=
  {| custom_alert_tone := custom_alert_tone c; persistent_logging := persistent_logging c;
     user_name := user_name c; modem_name := modem_name c; signal_tracking := signal_tracking c;
     signal_tracking_mode := signal_tracking_mode c; signal_tracking_notify_downgrade :=
     signal_tracking_notify_downgrade c; signal_tracking_notify_cell_change :=
     signal_tracking_notify_cell_change c; sms_logging := sms_logging c; list_all_bypass :=
     list_all_bypass c; callwait_autohangup := callwait_autohangup c; automatic_call_recording :=
     automatic_call_recording c; dump_network_tables := dump_network_tables c; first_boot :=
     first_boot c; allow_internal_modem_connectivity := v; apn_auth_method := apn_auth_method c;
     apn_ip_family := apn_ip_family c; apn_addr := apn_addr c; apn_username := apn_username c;
     apn_password := apn_password c; ims_apn_addr := ims_apn_addr c; ims_apn_username :=
     ims_apn_username c; ims_apn_password := ims_apn_password c; ims_attempt_enable :=
     ims_attempt_enable c; ims_vt_support := ims_vt_support c; ims_rtp_support := ims_rtp_support c;
     ims_sms_support := ims_sms_support c |}.
Definition set_apn_auth_method_field (v : Z) (c : config_prototype) : config_prototype :=
  {| custom_alert_tone := custom_alert_tone c; persistent_logging := persistent_logging c;
     user_name := user_name c; modem_name := modem_name c; signal_tracking := signal_tracking c;
     signal_tracking_mode := signal_tracking_mode c; signal_tracking_notify_downgrade :=
     signal_tracking_notify_downgrade c; signal_tracking_notify_cell_change :=
     signal_tracking_notify_cell_change c; sms_logging := sms_logging c; list_all_bypass :=
     list_all_bypass c; callwait_autohangup := callwait_autohangup c; automatic_call_recording :=
     automatic_call_recording c; dump_network_tables := dump_network_tables c; first_boot :=
     first_boot c; allow_internal_modem_connectivity := allow_internal_modem_connectivity c;
     apn_auth_method := v; apn_ip_family := apn_ip_family c; apn_addr := apn_addr c; apn_username :=
     apn_username c; apn_password := apn_password c; ims_apn_addr := ims_apn_addr c;
     ims_apn_username := ims_apn_username c; ims_apn_password := ims_apn_password c;
     ims_attempt_enable := ims_attempt_enable c; ims_vt_support := ims_vt_support c; ims_rtp_support
     := ims_rtp_support c; ims_sms_support := ims_sms_support c |}.
Definition set_apn_ip_family_field (v : Z) (c : config_prototype) : config_prototype :=
  {| custom_alert_tone := custom_alert_tone c; persistent_logging := persistent_logging c;
     user_name := user_name c; modem_name := modem_name c; signal_tracking := signal_tracking c;
     signal_tracking_mode := signal_tracking_mode c; signal_tracking_notify_downgrade :=
     signal_tracking_notify_downgrade c; signal_tracking_notify_cell_change :=
     signal_tracking_notify_cell_change c; sms_logging := sms_logging c; list_all_bypass :=
     list_all_bypass c; callwait_autohangup := callwait_autohangup c; automatic_call_recording :=
     automatic_call_recording c; dump_network_tables := dump_network_tables c; first_boot :=
     first_boot c; allow_internal_modem_connectivity := allow_internal_modem_connectivity c;
     apn_auth_method := apn_auth_method c; apn_ip_family := v; apn_addr := apn_addr c; apn_username
     := apn_username c; apn_password := apn_password c; ims_apn_addr := ims_apn_addr c;
     ims_apn_username := ims_apn_username c; ims_apn_password := ims_apn_password c;
     ims_attempt_enable := ims_attempt_enable c; ims_vt_support := ims_vt_support c; ims_rtp_support
     := ims_rtp_support c; ims_sms_support := ims_sms_support c |}.
Definition set_apn_addr_field (v : list Z) (c : config_prototype) : config_prototype :=
  {| custom_alert_tone := custom_alert_tone c; persistent_logging := persistent_logging c;
     user_name := user_name c; modem_name := modem_name c; signal_tracking := signal_tracking c;
     signal_tracking_mode := signal_tracking_mode c; signal_tracking_notify_downgrade :=
     signal_tracking_notify_downgrade c; signal_tracking_notify_cell_change :=
     signal_tracking_notify_cell_change c; sms_logging := sms_logging c; list_all_bypass :=
     list_all_bypass c; callwait_autohangup := callwait_autohangup c; automatic_call_recording :=
     automatic_call_recording c; dump_network_tables := dump_network_tables c; first_boot :=
     first_boot c; allow_internal_modem_connectivity := allow_internal_modem_connectivity c;
     apn_auth_method := apn_auth_method c; apn_ip_family := apn_ip_family c; apn_addr := v;
     apn_username := apn_username c; apn_password := apn_password c; ims_apn_addr := ims_apn_addr c;
     ims_apn_username := ims_apn_username c; ims_apn_password := ims_apn_password c;
     ims_attempt_enable := ims_attempt_enable c; ims_vt_support := ims_vt_support c; ims_rtp_support
     := ims_rtp_support c; ims_sms_support := ims_sms_support c |}.
Definition set_apn_username_field (v : list Z) (c : config_prototype) : config_prototype :=
  {| custom_alert_tone := custom_alert_tone c; persistent_logging := persistent_logging c;
     user_name := user_name c; modem_name := modem_name c; signal_tracking := signal_tracking c;
     signal_tracking_mode := signal_tracking_mode c; signal_tracking_notify_downgrade :=
     signal_tracking_notify_downgrade c; signal_tracking_notify_cell_change :=
     signal_tracking_notify_cell_change c; sms_logging := sms_logging c; list_all_bypass :=
     list_all_bypass c; callwait_autohangup := callwait_autohangup c; automatic_call_recording :=
     automatic_call_recording c; dump_network_tables := dump_network_tables c; first_boot :=
     first_boot c; allow_internal_modem_connectivity := allow_internal_modem_connectivity c;
     apn_auth_method := apn_auth_method c; apn_ip_family := apn_ip_family c; apn_addr := apn_addr c;
     apn_username := v; apn_password := apn_password c; ims_apn_addr := ims_apn_addr c;
     ims_apn_username := ims_apn_username c; ims_apn_password := ims_apn_password c;
     ims_attempt_enable := ims_attempt_enable c; ims_vt_support := ims_vt_support c; ims_rtp_support
     := ims_rtp_support c; ims_sms_support := ims_sms_support c |}.
Definition set_apn_password_field (v : list Z) (c : config_prototype) : config_prototype :=
  {| custom_alert_tone := custom_alert_tone c; persistent_logging := persistent_logging c;
     user_name := user_name c; modem_name := modem_name c; signal_tracking := signal_tracking c;
     signal_tracking_mode := signal_tracking_mode c; signal_tracking_notify_downgrade :=
     signal_tracking_notify_downgrade c; signal_tracking_notify_cell_change :=
     signal_tracking_notify_cell_change c; sms_logging := sms_logging c; list_all_bypass :=
     list_all_bypass c; callwait_autohangup := callwait_autohangup c; automatic_call_recording :=
     automatic_call_recording c; dump_network_tables := dump_network_tables c; first_boot :=
     first_boot c; allow_internal_modem_connectivity := allow_internal_modem_connectivity c;
     apn_auth_method := apn_auth_method c; apn_ip_family := apn_ip_family c; apn_addr := apn_addr c;
     apn_username := apn_username c; apn_password := v; ims_apn_addr := ims_apn_addr c;
     ims_apn_username := ims_apn_username c; ims_apn_password := ims_apn_password c;
     ims_attempt_enable := ims_attempt_enable c; ims_vt_support := ims_vt_support c; ims_rtp_support
     := ims_rtp_support c; ims_sms_support := ims_sms_support c |}.
Definition set_ims_apn_addr_field (v : list Z) (c : config_prototype) : config_prototype :=
  {| custom_alert_tone := custom_alert_tone c; persistent_logging := persistent_logging c;
     user_name := user_name c; modem_name := modem_name c; signal_tracking := signal_tracking c;
     signal_tracking_mode := signal_tracking_mode c; signal_tracking_notify_downgrade :=
     signal_tracking_notify_downgrade c; signal_tracking_notify_cell_change :=
     signal_tracking_notify_cell_change c; sms_logging := sms_logging c; list_all_bypass :=
     list_all_bypass c; callwait_autohangup := callwait_autohangup c; automatic_call_recording :=
     automatic_call_recording c; dump_network_tables := dump_network_tables c; first_boot :=
     first_boot c; allow_internal_modem_connectivity := allow_internal_modem_connectivity c;
     apn_auth_method := apn_auth_method c; apn_ip_family := apn_ip_family c; apn_addr := apn_addr c;
     apn_username := apn_username c; apn_password := apn_password c; ims_apn_addr := v;
     ims_apn_username := ims_apn_username c; ims_apn_password := ims_apn_password c;
     ims_attempt_enable := ims_attempt_enable c; ims_vt_support := ims_vt_support c; ims_rtp_support
     := ims_rtp_support c; ims_sms_support := ims_sms_support c |}.
Definition set_ims_apn_username_field (v : list Z) (c : config_prototype) : config_prototype :=
  {| custom_alert_tone := custom_alert_tone c; persistent_logging := persistent_logging c;
     user_name := user_name c; modem_name := modem_name c; signal_tracking := signal_tracking c;
     signal_tracking_mode := signal_tracking_mode c; signal_tracking_notify_downgrade :=
     signal_tracking_notify_downgrade c; signal_tracking_notify_cell_change :=
     signal_tracking_notify_cell_change c; sms_logging := sms_logging c; list_all_bypass :=
     list_all_bypass c; callwait_autohangup := callwait_autohangup c; automatic_call_recording :=
     automatic_call_recording c; dump_network_tables := dump_network_tables c; first_boot :=
     first_boot c; allow_internal_modem_connectivity := allow_internal_modem_connectivity c;
     apn_auth_method := apn_auth_method c; apn_ip_family := apn_ip_family c; apn_addr := apn_addr c;
     apn_username := apn_username c; apn_password := apn_password c; ims_apn_addr := ims_apn_addr c;
     ims_apn_username := v; ims_apn_password := ims_apn_password c; ims_attempt_enable :=
     ims_attempt_enable c; ims_vt_support := ims_vt_support c; ims_rtp_support := ims_rtp_support c;
     ims_sms_support := ims_sms_support c |}.
Definition set_ims_apn_password_field (v : list Z) (c : config_prototype) : config_prototype :=
  {| custom_alert_tone := custom_alert_tone c; persistent_logging := persistent_logging c;
     user_name := user_name c; modem_name := modem_name c; signal_tracking := signal_tracking c;
     signal_tracking_mode := signal_tracking_mode c; signal_tracking_notify_downgrade :=
     signal_tracking_notify_downgrade c; signal_tracking_notify_cell_change :=
     signal_tracking_notify_cell_change c; sms_logging := sms_logging c; list_all_bypass :=
     list_all_bypass c; callwait_autohangup := callwait_autohangup c; automatic_call_recording :=
     automatic_call_recording c; dump_network_tables := dump_network_tables c; first_boot :=
     first_boot c; allow_internal_modem_connectivity := allow_internal_modem_connectivity c;
     apn_auth_method := apn_auth_method c; apn_ip_family := apn_ip_family c; apn_addr := apn_addr c;
     apn_username := apn_username c; apn_password := apn_password c; ims_apn_addr := ims_apn_addr c;
     ims_apn_username := ims_apn_username c; ims_apn_password := v; ims_attempt_enable :=
     ims_attempt_enable c; ims_vt_support := ims_vt_support c; ims_rtp_support := ims_rtp_support c;
     ims_sms_support := ims_sms_support c |}.
Definition set_ims_attempt_enable_field (v : Z) (c : config_prototype) : config_prototype :=
  {| custom_alert_tone := custom_alert_tone c; persistent_logging := persistent_logging c;
     user_name := user_name c; modem_name := modem_name c; signal_tracking := signal_tracking c;
     signal_tracking_mode := signal_tracking_mode c; signal_tracking_notify_downgrade :=
     signal_tracking_notify_downgrade c; signal_tracking_notify_cell_change :=
     signal_tracking_notify_cell_change c; sms_logging := sms_logging c; list_all_bypass :=
     list_all_bypass c; callwait_autohangup := callwait_autohangup c; automatic_call_recording :=
     automatic_call_recording c; dump_network_tables := dump_network_tables c; first_boot :=
     first_boot c; allow_internal_modem_connectivity := allow_internal_modem_connectivity c;
     apn_auth_method := apn_auth_method c; apn_ip_family := apn_ip_family c; apn_addr := apn_addr c;
     apn_username := apn_username c; apn_password := apn_password c; ims_apn_addr := ims_apn_addr c;
     ims_apn_username := ims_apn_username c; ims_apn_password := ims_apn_password c;
     ims_attempt_enable := v; ims_vt_support := ims_vt_support c; ims_rtp_support := ims_rtp_support
     c; ims_sms_support := ims_sms_support c |}.
Definition set_ims_vt_support_field (v : Z) (c : config_prototype) : config_prototype :=
  {| custom_alert_tone := custom_alert_tone c; persistent_logging := persistent_logging c;
     user_name := user_name c; modem_name := modem_name c; signal_tracking := signal_tracking c;
     signal_tracking_mode := signal_tracking_mode c; signal_tracking_notify_downgrade :=
     signal_tracking_notify_downgrade c; signal_tracking_notify_cell_change :=
     signal_tracking_notify_cell_change c; sms_logging := sms_logging c; list_all_bypass :=
     list_all_bypass c; callwait_autohangup := callwait_autohangup c; automatic_call_recording :=
     automatic_call_recording c; dump_network_tables := dump_network_tables c; first_boot :=
     first_boot c; allow_internal_modem_connectivity := allow_internal_modem_connectivity c;
     apn_auth_method := apn_auth_method c; apn_ip_family := apn_ip_family c; apn_addr := apn_addr c;
     apn_username := apn_username c; apn_password := apn_password c; ims_apn_addr := ims_apn_addr c;
     ims_apn_username := ims_apn_username c; ims_apn_password := ims_apn_password c;
     ims_attempt_enable := ims_attempt_enable c; ims_vt_support := v; ims_rtp_support :=
     ims_rtp_support c; ims_sms_support := ims_sms_support c |}.
Definition set_ims_rtp_support_field (v : Z) (c : config_prototype) : config_prototype :=
  {| custom_alert_tone := custom_alert_tone c; persistent_logging := persistent_logging c;
     user_name := user_name c; modem_name := modem_name c; signal_tracking := signal_tracking c;
     signal_tracking_mode := signal_tracking_mode c; signal_tracking_notify_downgrade :=
     signal_tracking_notify_downgrade c; signal_tracking_notify_cell_change :=
     signal_tracking_notify_cell_change c; sms_logging := sms_logging c; list_all_bypass :=
     list_all_bypass c; callwait_autohangup := callwait_autohangup c; automatic_call_recording :=
     automatic_call_recording c; dump_network_tables := dump_network_tables c; first_boot :=
     first_boot c; allow_internal_modem_connectivity := allow_internal_modem_connectivity c;
     apn_auth_method := apn_auth_method c; apn_ip_family := apn_ip_family c; apn_addr := apn_addr c;
     apn_username := apn_username c; apn_password := apn_password c; ims_apn_addr := ims_apn_addr c;
     ims_apn_username := ims_apn_username c; ims_apn_password := ims_apn_password c;
     ims_attempt_enable := ims_attempt_enable c; ims_vt_support := ims_vt_support c; ims_rtp_support
     := v; ims_sms_support := ims_sms_support c |}.
Definition set_ims_sms_support_field (v : Z) (c : config_prototype) : config_prototype :=
  {| custom_alert_tone := custom_alert_tone c; persistent_logging := persistent_logging c;
     user_name := user_name c; modem_name := modem_name c; signal_tracking := signal_tracking c;
     signal_tracking_mode := signal_tracking_mode c; signal_tracking_notify_downgrade :=
     signal_tracking_notify_downgrade c; signal_tracking_notify_cell_change :=
     signal_tracking_notify_cell_change c; sms_logging := sms_logging c; list_all_bypass :=
     list_all_bypass c; callwait_autohangup := callwait_autohangup c; automatic_call_recording :=
     automatic_call_recording c; dump_network_tables := dump_network_tables c; first_boot :=
     first_boot c; allow_internal_modem_connectivity := allow_internal_modem_connectivity c;
     apn_auth_method := apn_auth_method c; apn_ip_family := apn_ip_family c; apn_addr := apn_addr c;
     apn_username := apn_username c; apn_password := apn_password c; ims_apn_addr := ims_apn_addr c;
     ims_apn_username := ims_apn_username c; ims_apn_password := ims_apn_password c;
     ims_attempt_enable := ims_attempt_enable c; ims_vt_support := ims_vt_support c; ims_rtp_support
     := ims_rtp_support c; ims_sms_support := v |}.


(** The settings and the two files, absent or with their bytes. *)
Record cfg_state := {
  settings : config_prototype;
  conf_file : option (list Z);   (* CONFIG_FILE_PATH *)
  boot_file : option (list Z)    (* BOOT_FLAG_FILE *)
}.

Definition with_settings (c : config_prototype) (s : cfg_state) : cfg_state :=
  {| settings := c; conf_file := conf_file s; boot_file := boot_file s |}.
Definition on_settings (f : config_prototype -> config_prototype) (s : cfg_state) : cfg_state :=
  with_settings (f (settings s)) s.
Definition with_conf (f : option (list Z)) (s : cfg_state) : cfg_state :=
  {| settings := settings s; conf_file := f; boot_file := boot_file s |}.
Definition with_boot (f : option (list Z)) (s : cfg_state) : cfg_state :=
  {| settings := settings s; conf_file := conf_file s; boot_file := f |}.

Inductive cfg_action :=
| Remount (rw : bool)  (* mount -o remount *)
| Sync.

Definition MC (A : Type) : Type := M cfg_state cfg_action A.

(** Which of the mounts and opens for writing succeed. *)
Record cfg_env := {
  c_rw_ok : bool;
  c_ro_ok : bool;
  c_open_conf : bool;
  c_open_boot : bool
}.

(** * Defaults *)

(** [heap] is what the allocated memory holds: the fields that are not set
    keep it. *)
Definition set_initial_config (heap : config_prototype) : cres config_prototype :=
  let* '(user, _) := snprintf (user_name heap) MAX_NAME_SZ (zs "Admin") in
  let* '(modem, _) := snprintf (modem_name heap) MAX_NAME_SZ (zs "Modem") in
  let* '(ims, _) := snprintf (ims_apn_addr heap) MAX_APN_FIELD_SZ (zs "ims") in
  Ret {|
    custom_alert_tone := 0;
    persistent_logging := 0;
    user_name := user;
    modem_name := modem;
    signal_tracking := 0;
    signal_tracking_mode := 0;
    signal_tracking_notify_downgrade := 0;
    signal_tracking_notify_cell_change := 0;
    sms_logging := 0;
    list_all_bypass := 1;
    callwait_autohangup := 0;
    automatic_call_recording := 0;
    dump_network_tables := 0;
    first_boot := false;
    allow_internal_modem_connectivity := 0;
    apn_auth_method := apn_auth_method heap;
    apn_ip_family := apn_ip_family heap;
    apn_addr := apn_addr heap;
    apn_username := apn_username heap;
    apn_password := apn_password heap;
    ims_apn_addr := ims;
    ims_apn_username := ims_apn_username heap;
    ims_apn_password := ims_apn_password heap;
    ims_attempt_enable := 0;
    ims_vt_support := 0;
    ims_rtp_support := 0;
    ims_sms_support := 0
  |}.

(** * Parsing a line *)

(** strtok(3) on a text: the token and what follows its separator. *)
Definition is_sep (c : Z) : bool := (c =? 61) || (c =? 10).
Fixpoint skip_seps (s : list Z) : list Z :=
  match s with
  | c :: r => if is_sep c then skip_seps r else s
  | [] => []
  end.
Fixpoint split_token (s : list Z) : list Z * list Z :=
  match s with
  | [] => ([], [])
  | c :: r => if is_sep c then ([], r) else let '(t, u) := split_token r in (c :: t, u)
  end.
Definition strtok (s : list Z) : option (list Z * list Z) :=
  match skip_seps s with
  | [] => None
  | s => Some (split_token s)
  end.

Definition streq (s : list Z) (name : string) : bool := bool_decide (s = zs name).

(** [snprintf(field, 128, "%s", value)]; the store of a NUL at the end of the
    text changes nothing. *)
Definition set_text (value field : list Z) : cres (list Z) :=
  let* '(f, _) := snprintf field 128 value in Ret f.

Section Operations.
Variable env : cfg_env.

Definition set_persistent_partition_rw : MC Z :=
  emit (Remount true) ;> ret (if c_rw_ok env then 0 else -1).
Definition set_persistent_partition_ro : MC Z :=
  emit (Remount false) ;> ret (if c_ro_ok env then 0 else -1).
Definition do_sync_fs : MC unit := emit Sync.

Definition put_num (f : Z -> config_prototype -> config_prototype) (value : list Z) : MC Z :=
  modify (on_settings (f (u8 (atoi value)))) ;> ret 1.
Definition put_text (get_field : config_prototype -> list Z)
    (f : list Z -> config_prototype -> config_prototype) (value : list Z) : MC Z :=
  do* s := get in
  do* t := lift (set_text value (get_field (settings s))) in
  modify (on_settings (f t)) ;> ret 1.

(** The chain of comparisons of [parse_line]. *)
Definition apply_setting (setting value : list Z) : MC Z :=
  if streq setting "custom_alert_tone" then put_num set_custom_alert_tone_field value
  else if streq setting "persistent_logging" then
    modify (on_settings (set_persistent_logging_field (u8 (atoi value)))) ;>
    when (negb (u8 (atoi value) =? 0)) (do* _ := set_persistent_partition_rw in ret tt) ;>
    ret 1
  else if streq setting "signal_tracking" then put_num set_signal_tracking_field value
  else if streq setting "signal_tracking_mode" then put_num set_signal_tracking_mode_field value
  else if streq setting "signal_tracking_notify_downgrade" then put_num set_signal_tracking_notify_downgrade_field value
  else if streq setting "signal_tracking_notify_cell_change" then put_num set_signal_tracking_notify_cell_change_field value
  else if streq setting "dump_network_tables" then put_num set_dump_network_tables_field value
  else if streq setting "callwait_autohangup" then put_num set_callwait_autohangup_field value
  else if streq setting "sms_logging" then put_num set_sms_logging_field value
  else if streq setting "list_all_bypass" then put_num set_list_all_bypass_field value
  else if streq setting "allow_internal_modem_connectivity" then put_num set_allow_internal_modem_connectivity_field value
  else if streq setting "automatic_call_recording" then put_num set_automatic_call_recording_field value
  else if streq setting "user_name" then put_text user_name set_user_name_field value
  else if streq setting "modem_name" then put_text modem_name set_modem_name_field value
  else if streq setting "apn_addr" then put_text apn_addr set_apn_addr_field value
  else if streq setting "apn_username" then put_text apn_username set_apn_username_field value
  else if streq setting "apn_password" then put_text apn_password set_apn_password_field value
  else if streq setting "auth_method" then put_num set_apn_auth_method_field value
  else if streq setting "ims_apn_addr" then put_text ims_apn_addr set_ims_apn_addr_field value
  else if streq setting "ims_apn_username" then put_text ims_apn_username set_ims_apn_username_field value
  else if streq setting "ims_apn_password" then put_text ims_apn_password set_ims_apn_password_field value
  else if streq setting "ims_attempt_enable" then put_num set_ims_attempt_enable_field value
  else if streq setting "ims_vt_support" then put_num set_ims_vt_support_field value
  else if streq setting "ims_rtp_support" then put_num set_ims_rtp_support_field value
  else if streq setting "ims_sms_support" then put_num set_ims_sms_support_field value
  else ret 0.

(** [buf] is the line as a C string, without its NUL. A line of separators
    only has no first token: strncpy reads from NULL. *)
Definition parse_line (buf : list Z) : MC Z :=
  match strtok buf with
  | None => lift Oob
  | Some (token, rest) =>
      let setting := take 63 token in
      match strtok rest with
      | None => ret 0
      | Some (token, _) =>
          if bool_decide (head setting = Some 35) then ret 1
          else apply_setting setting (take 63 token)
      end
  end.

(** * The settings file *)

Definition num_line (key : string) (v : Z) : list Z := zs key ++ 61 :: fmt_i v ++ [10].
Definition text_line (key : string) (field : list Z) : cres (list Z) :=
  let* t := cstr field in Ret (zs key ++ 61 :: t ++ [10]).

Fixpoint cat (l : list (cres (list Z))) : cres (list Z) :=
  match l with
  | [] => Ret []
  | a :: l => let* x := a in let* y := cat l in Ret (x ++ y)
  end.

(** The lines [write_settings_to_storage] prints, in order. *)
Definition settings_lines (c : config_prototype) : list (cres (list Z)) :=
  [ Ret (zs "# OpenQTI Config file" ++ [10]);
    Ret (zs "# key=value" ++ [10]);
    Ret (num_line "custom_alert_tone" (custom_alert_tone c));
    Ret (num_line "persistent_logging" (persistent_logging c));
    text_line "user_name" (user_name c);
    text_line "modem_name" (modem_name c);
    Ret (num_line "signal_tracking" (signal_tracking c));
    Ret (num_line "signal_tracking_mode" (signal_tracking_mode c));
    Ret (num_line "signal_tracking_notify_downgrade" (signal_tracking_notify_downgrade c));
    Ret (num_line "signal_tracking_notify_cell_change" (signal_tracking_notify_cell_change c));
    Ret (num_line "dump_network_tables" (dump_network_tables c));
    Ret (num_line "callwait_autohangup" (callwait_autohangup c));
    Ret (num_line "automatic_call_recording" (automatic_call_recording c));
    Ret (num_line "sms_logging" (sms_logging c));
    Ret (num_line "list_all_bypass" (list_all_bypass c));
    Ret (num_line "allow_internal_modem_connectivity" (allow_internal_modem_connectivity c));
    Ret (num_line "auth_method" (apn_auth_method c));
    text_line "apn_addr" (apn_addr c);
    text_line "apn_username" (apn_username c);
    text_line "apn_password" (apn_password c);
    text_line "ims_apn_addr" (ims_apn_addr c);
    text_line "ims_apn_username" (ims_apn_username c);
    text_line "ims_apn_password" (ims_apn_password c);
    Ret (num_line "ims_attempt_enable" (ims_attempt_enable c));
    Ret (num_line "ims_vt_support" (ims_vt_support c));
    Ret (num_line "ims_rtp_support" (ims_rtp_support c));
    Ret (num_line "ims_sms_support" (ims_sms_support c)) ].

Definition settings_text (c : config_prototype) : cres (list Z) := cat (settings_lines c).

Definition write_settings_to_storage : MC Z :=
  do* rw := set_persistent_partition_rw in
  if rw <? 0 then ret (-1)
  else if negb (c_open_conf env) then ret (-1)
  else
    do* s := get in
    do* text := lift (settings_text (settings s)) in
    modify (with_conf (Some text)) ;>
    do_sync_fs ;>
    if persistent_logging (settings s) =? 0 then
      do* ro := set_persistent_partition_ro in
      ret (if ro <? 0 then -1 else 0)
    else ret 0.

(** * The boot counter *)

Definition write_boot_counter_file (failed_boots : Z) : MC Z :=
  do* _ := set_persistent_partition_rw in
  if negb (c_open_boot env) then ret (-1)
  else modify (with_boot (Some (fmt_i failed_boots))) ;> ret 0.

Definition hex_digit (c : Z) : option Z :=
  if isdigit c then Some (c - 48)
  else if (97 <=? c) && (c <=? 102) then Some (c - 87)
  else if (65 <=? c) && (c <=? 70) then Some (c - 55)
  else None.
Fixpoint hex_val (acc : Z) (s : list Z) : Z :=
  match s with
  | c :: s => match hex_digit c with Some d => hex_val (16 * acc + d) s | None => acc end
  | [] => acc
  end.
Fixpoint octal_val (acc : Z) (s : list Z) : Z :=
  match s with
  | c :: s => if (48 <=? c) && (c <=? 55) then octal_val (8 * acc + (c - 48)) s else acc
  | [] => acc
  end.
(** [fscanf("%i")] into an int that is 0: the base follows the prefix. *)
Definition scan_i (s : list Z) : Z :=
  let magnitude s :=
    match s with
    | 48 :: 120 :: r => hex_val 0 r
    | 48 :: 88 :: r => hex_val 0 r
    | 48 :: r => octal_val 0 r
    | r => digits_val 0 r
    end in
  let v := match skip_space s with
    | 45 :: r => - magnitude r
    | 43 :: r => magnitude r
    | r => magnitude r
    end in
  Z.max (-2147483648) (Z.min 2147483647 v).

Definition read_boot_counter_file : MC Z :=
  do* s := get in
  match boot_file s with
  | None => do* _ := write_boot_counter_file 0 in ret 0
  | Some f =>
      let v := scan_i f in
      let v := if v <? 0 then 0 else v in
      do* _ := write_boot_counter_file (i32 (v + 1)) in
      ret v
  end.

(** * Reading the settings *)

(** The lines fgets(3) returns from a file with a buffer of 1024: up to a
    newline, which is kept, or 1023 bytes. *)
Fixpoint fgets_lines (room : nat) (cur file : list Z) : list (list Z) :=
  match file with
  | [] => match cur with [] => [] | _ => [cur] end
  | c :: file =>
      if c =? 10 then (cur ++ [c]) :: fgets_lines 1023 [] file
      else match room with
           | S (S room) => fgets_lines (S room) (cur ++ [c]) file
           | _ => (cur ++ [c]) :: fgets_lines 1023 [] file
           end
  end.
Definition file_lines (file : list Z) : list (list Z) := fgets_lines 1023 [] file.

(** Whether some line was not understood. *)
Fixpoint parse_lines (lines : list (list Z)) (recreate : bool) : MC bool :=
  match lines with
  | [] => ret recreate
  | l :: lines =>
      do* n := parse_line (until_nul l) in
      parse_lines lines (recreate || (n <? 1))
  end.

Definition read_settings_from_file : MC Z :=
  do* s := get in
  match conf_file s with
  | None =>
      modify (on_settings (set_first_boot_field true)) ;>
      do* _ := write_settings_to_storage in
      ret 0
  | Some file =>
      do* recreate := parse_lines (file_lines file) false in
      do* attempted_boots := read_boot_counter_file in
      do* s := get in
      let failing := (3 <? attempted_boots) && (persistent_logging (settings s) =? 0) in
      when failing (modify (on_settings (set_persistent_logging_field 1))) ;>
      when (recreate || failing) (do* _ := write_settings_to_storage in ret tt) ;>
      do* s := get in
      when (persistent_logging (settings s) =? 0)
        (do* _ := set_persistent_partition_ro in ret tt) ;>
      ret 0
  end.

(** * Setters *)

Definition store (f : config_prototype -> config_prototype) : MC unit :=
  modify (on_settings f) ;>
  do* _ := write_settings_to_storage in
  ret tt.

Definition flag (en : bool) : Z := if en then 1 else 0.
(** The settings with the values 0, 1 and 2. *)
Definition three_way (mode : Z) : Z := if mode =? 2 then 2 else if mode =? 1 then 1 else 0.

Definition set_custom_alert_tone (en : bool) : MC unit := store (set_custom_alert_tone_field (flag en)).
Definition set_automatic_call_recording (mode : Z) : MC unit :=
  store (set_automatic_call_recording_field (three_way mode)).
Definition set_sms_logging (en : bool) : MC unit := store (set_sms_logging_field (flag en)).
Definition set_list_all_bypass (en : bool) : MC unit := store (set_list_all_bypass_field (flag en)).
Definition set_internal_connectivity (en : bool) : MC unit :=
  store (set_allow_internal_modem_connectivity_field (flag en)).
Definition set_persistent_logging (en : bool) : MC unit :=
  if en then
    do* rw := set_persistent_partition_rw in
    store (set_persistent_logging_field (if rw <? 0 then 0 else 1))
  else store (set_persistent_logging_field 0).

(** The name setters clear the field first. *)
Definition cleared_text (name field : list Z) : cres (list Z) :=
  let* f := memset field 0 128 in
  set_text name f.
Definition set_modem_name (name : list Z) : MC unit :=
  do* s := get in
  do* f := lift (cleared_text name (modem_name (settings s))) in
  store (set_modem_name_field f).
Definition set_user_name (name : list Z) : MC unit :=
  do* s := get in
  do* f := lift (cleared_text name (user_name (settings s))) in
  store (set_user_name_field f).

Definition enable_signal_tracking (en : bool) : MC unit := store (set_signal_tracking_field (flag en)).
Definition enable_dump_network_tables (en : bool) : MC unit :=
  store (set_dump_network_tables_field (flag en)).
Definition set_signal_tracking_mode (mode : Z) : MC unit :=
  if 3 <? mode then ret tt else store (set_signal_tracking_mode_field mode).
Definition set_signal_tracking_downgrade_notification (enable : Z) : MC unit :=
  store (set_signal_tracking_notify_downgrade_field (if enable =? 0 then 0 else 1)).
Definition set_signal_tracking_cell_change_notification (mode : Z) : MC unit :=
  if 2 <? mode then ret tt else store (set_signal_tracking_notify_cell_change_field mode).
Definition enable_call_waiting_autohangup (en : Z) : MC unit :=
  store (set_callwait_autohangup_field (three_way en)).

(** The APN setters: [len] is cut to 127 only when the text has more than 128
    characters. *)
Definition apn_text (text field : list Z) : cres (list Z) :=
  let len := if MAX_APN_FIELD_SZ <? zlen text then MAX_APN_FIELD_SZ - 1 else zlen text in
  let* f := memset field 0 128 in
  strncpy f text (Z.to_nat len).
Definition set_internal_network_apn_name (apn : list Z) : MC unit :=
  do* s := get in
  do* f := lift (apn_text apn (apn_addr (settings s))) in
  store (set_apn_addr_field f).
Definition set_internal_network_username (username : list Z) : MC unit :=
  do* s := get in
  do* f := lift (apn_text username (apn_username (settings s))) in
  store (set_apn_username_field f).
Definition set_internal_network_pass (pass : list Z) : MC unit :=
  do* s := get in
  do* f := lift (apn_text pass (apn_password (settings s))) in
  store (set_apn_password_field f).
Definition set_internal_network_auth_method (method : Z) : MC unit :=
  store (if method <? 3 then set_apn_auth_method_field method else fun c => c).

Definition clear_ifrst_boot_flag : MC unit := modify (on_settings (set_first_boot_field false)).
End Operations.

(** * Getters with a choice *)

Definition get_openqti_logfile (c : config_prototype) : string :=
  if persistent_logging c =? 0 then "/var/log/openqti.log" else "/persist/openqti.log".
Definition get_default_logpath (c : config_prototype) : string :=
  if persistent_logging c =? 0 then "/tmp/" else "/persist/".

(** [snprintf(buff, 128, "%s", name)] into the caller's buffer. *)
Definition get_modem_name (c : config_prototype) (buff : list Z) : cres (list Z) :=
  let* t := cstr (modem_name c) in set_text t buff.
Definition get_user_name (c : config_prototype) (buff : list Z) : cres (list Z) :=
  let* t := cstr (user_name c) in set_text t buff.

Definition get_signal_tracking_mode_text (c : config_prototype) : string :=
  if signal_tracking_mode c =? 0 then "Standalone/Learn"
  else if signal_tracking_mode c =? 1 then "Standalone/Strict"
  else if signal_tracking_notify_cell_change c =? 2 then "OpenCellid/Learn"
  else if signal_tracking_notify_cell_change c =? 2 then "OpenCellid/Strict"
  else "unknown".
Definition get_signal_tracking_cell_change_notification_mode_text (c : config_prototype) : string :=
  if signal_tracking_notify_cell_change c =? 0 then "none"
  else if signal_tracking_notify_cell_change c =? 1 then "new cells"
  else if signal_tracking_notify_cell_change c =? 2 then "any"
  else "unknown".
Definition get_internal_network_auth_method_text (c : config_prototype) : string :=
  if apn_auth_method c =? 0 then "none"
  else if apn_auth_method c =? 1 then "pap"
  else if apn_auth_method c =? 2 then "chap"
  else if apn_auth_method c =? 3 then "auto"
  else "unknown".

(** * The stored part of the settings *)

(** The numbers and the texts the file keeps, by field. *)
Definition numbers (c : config_prototype) : list Z :=
  [custom_alert_tone c; persistent_logging c; signal_tracking c; signal_tracking_mode c;
   signal_tracking_notify_downgrade c; signal_tracking_notify_cell_change c; sms_logging c;
   list_all_bypass c; callwait_autohangup c; automatic_call_recording c; dump_network_tables
   c; allow_internal_modem_connectivity c; apn_auth_method c; ims_attempt_enable c;
   ims_vt_support c; ims_rtp_support c; ims_sms_support c].
Definition texts (c : config_prototype) : list (list Z) :=
  [user_name c; modem_name c; apn_addr c; apn_username c; apn_password c; ims_apn_addr c;
   ims_apn_username c; ims_apn_password c].

(** Two settings are the same for the file when their numbers and the C strings
    in their text fields are; what a field holds after its NUL is not seen. *)
Definition settings_eq (c c' : config_prototype) : Prop :=
  numbers c = numbers c' /\ map cstr (texts c) = map cstr (texts c').

#[export] Instance settings_eq_equivalence : Equivalence settings_eq.
Proof.
  split.
  - by intros c.
  - intros c c' [H1 H2]. by split.
  - intros c c' c'' [H1 H2] [H3 H4]. split; congruence.
Qed.

(** The file depends on the settings only up to [settings_eq]. *)
#[export] Instance settings_text_proper : Proper (settings_eq ==> eq) settings_text.
Proof.
  intros c c' [Hn Ht]. unfold numbers, texts in Hn, Ht. cbn [map] in Ht. simplify_list_eq.
  unfold settings_text, settings_lines, text_line.
  repeat match goal with H : ?f c = ?f c' |- _ => rewrite H; clear H end.
  repeat match goal with H : cstr (?f c) = cstr (?f c') |- _ => rewrite H; clear H end. done.
Qed.

(** A text the file can carry. *)
Definition line_char (c : Z) : Prop := c <> 0 /\ c <> 10 /\ c <> 61.
Definition line_text (t : list Z) : Prop := t <> [] /\ zlen t <= 63 /\ Forall line_char t.
Definition storable (c : config_prototype) : Prop :=
  Forall byte_ok (numbers c) /\
  Forall (fun f => exists t, cstr f = Ret t /\ line_text t) (texts c).
Definition arrays_ok (c : config_prototype) : Prop := Forall (fun f => zlen f = 128) (texts c).

(** ** Lines and tokens *)

Lemma split_token_sep t c r :
  Forall line_char t -> is_sep c = true -> split_token (t ++ c :: r) = (t, r).
Proof.
  intros Ht Hc. induction Ht as [|x t (H0 & H10 & H61) _ IH]; cbn [split_token app]; [by rewrite Hc|].
  assert (is_sep x = false) as -> by (unfold is_sep; ifdec; done). by rewrite IH.
Qed.

Lemma strtok_sep t c r :
  t <> [] -> Forall line_char t -> is_sep c = true -> strtok (t ++ c :: r) = Some (t, r).
Proof.
  intros Hne Ht Hc. unfold strtok. destruct t as [|x t]; [done|].
  pose proof Ht as [(H0 & H10 & H61) _]%Forall_cons.
  assert (Hx : is_sep x = false) by (unfold is_sep; ifdec; done).
  cbn [skip_seps app]. rewrite Hx. change (x :: t ++ c :: r) with ((x :: t) ++ c :: r).
  by rewrite split_token_sep.
Qed.

Lemma parse_line_setting env key value :
  line_text key -> head key <> Some 35 -> line_text value ->
  parse_line env (key ++ 61 :: value ++ [10]) = apply_setting env key value.
Proof.
  intros (Hk & Hkl & Hkc) Hh (Hv & Hvl & Hvc). unfold parse_line.
  rewrite strtok_sep, strtok_sep by done. rewrite !take_ge by (unfold zlen in *; lia).
  by rewrite bool_decide_eq_false_2.
Qed.

Lemma fgets_line l cur room rest :
  Forall (fun c => c <> 10) l -> (length l < room)%nat ->
  fgets_lines room cur (l ++ 10 :: rest) = (cur ++ l ++ [10]) :: fgets_lines 1023 [] rest.
Proof.
  intros Hl; revert cur room; induction Hl as [|c l Hc _ IH]; intros cur room Hr;
    cbn [fgets_lines app]; [done|]. cbn [length] in Hr.
  rewrite (proj2 (Z.eqb_neq c 10) Hc). destruct room as [|[|room]]; [lia..|].
  rewrite IH by lia. by rewrite <- app_assoc.
Qed.

Lemma until_nul_no_nul s : Forall (fun c => c <> 0) s -> until_nul s = s.
Proof.
  induction 1 as [|c s Hc _ IH]; [done|]. cbn [until_nul].
  by rewrite (proj2 (Z.eqb_neq c 0) Hc), IH.
Qed.

(** A settings line at the front of the file. *)
Lemma parse_lines_setting env key value rest recreate s s' t :
  line_text key -> head key <> Some 35 -> line_text value ->
  apply_setting env key value s = Ret (1, s', t) ->
  parse_lines env (file_lines (key ++ 61 :: value ++ 10 :: rest)) recreate s =
  after t (parse_lines env (file_lines rest) recreate s').
Proof.
  intros Hk Hh Hv Ha. pose proof (parse_line_setting env key value Hk Hh Hv) as Hp.
  destruct Hk as (Hk & Hkl & Hkc), Hv as (Hv & Hvl & Hvc).
  assert (Hl : Forall line_char (key ++ value)) by (by apply Forall_app).
  unfold file_lines. rewrite cons_middle, !app_assoc.
  rewrite fgets_line.
  - cbn [parse_lines app]. rewrite <- !app_assoc. cbn [app]. rewrite until_nul_no_nul.
    2: { apply Forall_app. split; [eapply Forall_impl; [exact Hkc|]; by intros ? []|].
         constructor; [lia|]. apply Forall_app.
         split; [eapply Forall_impl; [exact Hvc|]; by intros ? []|]. repeat constructor. lia. }
    rewrite Hp. rewrite (bind_after _ _ _ _ _ _ Ha). cbn [Z.ltb Z.compare Pos.compare Pos.compare_cont].
    by rewrite orb_false_r.
  - apply Forall_app. split; [|eapply Forall_impl; [exact Hvc|]; by intros ? (? & ? & ?)].
    apply Forall_app. split; [eapply Forall_impl; [exact Hkc|]; by intros ? (? & ? & ?)|].
    repeat constructor. lia.
  - rewrite !length_app. cbn. unfold zlen in *. lia.
Qed.

(** ** Values *)

Lemma byte_text v : byte_ok v -> line_text (fmt_i v) /\ u8 (atoi (fmt_i v)) = v.
Proof.
  unfold byte_ok. intros Hv. split.
  - split; [|split].
    + unfold fmt_i. ifdec. destruct (dec_go_cons 19 v) as (c & r & E & _); [lia|].
      unfold fmt_u. by rewrite E.
    + unfold fmt_i. ifdec. pose proof (length_dec_go 20 v). unfold zlen, fmt_u. lia.
    + eapply Forall_impl; [apply fmt_i_chars|]. unfold line_char. cbn. lia.
  - rewrite atoi_fmt_i by lia. by apply u8_small.
Qed.

Lemma put_num_run f v s : byte_ok v ->
  put_num f (fmt_i v) s = Ret (1, on_settings (f v) s, []).
Proof. intros Hv. unfold put_num. rewrite bind_modify. by rewrite (proj2 (byte_text v Hv)). Qed.

Lemma put_text_run get_field f t s :
  line_text t -> zlen (get_field (settings s)) = 128 ->
  put_text get_field f t s =
  Ret (1, on_settings (f (t ++ 0 :: drop (S (length t)) (get_field (settings s)))) s, []).
Proof.
  intros (_ & Hl & _) Hf. unfold put_text. rewrite bind_get.
  rewrite (bind_lift _ (t ++ 0 :: drop (S (length t)) (get_field (settings s)))).
  - by rewrite bind_modify.
  - unfold set_text. rewrite snprintf_fits by lia. done.
Qed.

Lemma cstr_written t r : line_text t -> cstr (t ++ 0 :: r) = Ret t.
Proof.
  intros (_ & _ & Hc). apply cstr_app. eapply Forall_impl; [exact Hc|]. by intros ? [].
Qed.

Lemma zlen_written t f : zlen t <= 63 -> zlen f = 128 -> zlen (t ++ 0 :: drop (S (length t)) f) = 128.
Proof. intros. zl. unfold zlen in *. rewrite length_drop. lia. Qed.

(** ** Reading back what was written *)

Lemma parse_lines_comment env l rest recreate s n :
  Forall (fun c => c <> 0 /\ c <> 10) l -> (length l < 1023)%nat ->
  parse_line env (l ++ [10]) s = Ret (n, s, []) ->
  parse_lines env (file_lines (l ++ 10 :: rest)) recreate s =
  parse_lines env (file_lines rest) (recreate || (n <? 1)) s.
Proof.
  intros Hl Hlen Hp. unfold file_lines.
  rewrite fgets_line by (done || (eapply Forall_impl; [exact Hl|]; by intros ? [? ?])).
  cbn [parse_lines app]. rewrite until_nul_no_nul; [by rewrite (bind_step _ _ _ _ _ Hp)|].
  apply Forall_app. split; [eapply Forall_impl; [exact Hl|]; by intros ? []|].
  repeat constructor. lia.
Qed.

(** The steps on settings [c] in place of those of the state [s]. *)
Lemma put_num_with f v c s : byte_ok v ->
  put_num f (fmt_i v) (with_settings c s) = Ret (1, with_settings (f v c) s, []).
Proof. apply put_num_run. Qed.

Lemma put_text_with get_field f t c s old :
  line_text t -> get_field c = old -> zlen old = 128 ->
  put_text get_field f t (with_settings c s) =
  Ret (1, with_settings (f (t ++ 0 :: drop (S (length t)) old) c) s, []).
Proof. intros Ht <- Hl. by rewrite put_text_run. Qed.

Lemma put_persistent_with env v c s : byte_ok v ->
  apply_setting env (zs "persistent_logging") (fmt_i v) (with_settings c s) =
  Ret (1, with_settings (set_persistent_logging_field v c) s,
       if v =? 0 then [] else [Remount true]).
Proof.
  intros Hv. change (apply_setting env (zs "persistent_logging") (fmt_i v) (with_settings c s)) with
    ((modify (on_settings (set_persistent_logging_field (u8 (atoi (fmt_i v))))) ;>
      when (negb (u8 (atoi (fmt_i v)) =? 0)) (do* _ := set_persistent_partition_rw env in ret tt) ;>
      @ret cfg_state cfg_action Z 1) (with_settings c s)).
  rewrite bind_modify, (proj2 (byte_text v Hv)). by destruct (v =? 0).
Qed.

Ltac key_ok := split; [done|]; split; [vm_compute; congruence|];
  repeat constructor; vm_compute; congruence.

Ltac comment_ok := repeat constructor; vm_compute; congruence.

(** One line of the file, with the update it makes. *)
Ltac cfg_num f :=
  match goal with |- context [parse_lines ?env (file_lines (zs ?k ++ 61 :: fmt_i ?v ++ 10 :: ?r)) ?b
                                (with_settings ?c ?s)] =>
    rewrite (parse_lines_setting env (zs k) (fmt_i v) r b (with_settings c s)
      (with_settings (f v c) s) []);
    [| key_ok | vm_compute; congruence | apply byte_text; assumption
     | exact (put_num_with f v c s ltac:(assumption)) ]
  end; rewrite after_nil.
Ltac cfg_text get_field f c0 :=
  match goal with |- context [parse_lines ?env (file_lines (zs ?k ++ 61 :: ?t ++ 10 :: ?r)) ?b
                                (with_settings ?c ?s)] =>
    rewrite (parse_lines_setting env (zs k) t r b (with_settings c s)
      (with_settings (f (t ++ 0 :: drop (S (length t)) (get_field c0)) c) s) []);
    [| key_ok | vm_compute; congruence | assumption
     | exact (put_text_with get_field f t c s (get_field c0) ltac:(assumption) eq_refl ltac:(assumption)) ]
  end; rewrite after_nil.
Ltac cfg_persist :=
  match goal with |- context [parse_lines ?env (file_lines (zs ?k ++ 61 :: fmt_i ?v ++ 10 :: ?r)) ?b
                                (with_settings ?c ?s)] =>
    rewrite (parse_lines_setting env (zs k) (fmt_i v) r b (with_settings c s) _ _ ltac:(key_ok)
      ltac:(vm_compute; congruence) (proj1 (byte_text v ltac:(assumption)))
      (put_persistent_with env v c s ltac:(assumption)))
  end.

Lemma parse_written env c c0 s file :
  storable c -> arrays_ok c0 -> settings_text c = Ret file ->
  exists c' tr, parse_lines env (file_lines file) false (with_settings c0 s) =
                  Ret (true, with_settings c' s, tr) /\
                settings_eq c c' /\ arrays_ok c'.
Proof.
  intros [Hn Ht] Ha Hf. unfold numbers, texts, arrays_ok in Hn, Ht, Ha.
  repeat (apply Forall_cons in Hn as [? Hn]). clear Hn.
  repeat (apply Forall_cons in Ha as [? Ha]). clear Ha.
  repeat (let t := fresh "t" in let E := fresh "E" in let L := fresh "L" in
          apply Forall_cons in Ht as [(t & E & L) Ht]). clear Ht.
  unfold settings_text, settings_lines, text_line in Hf.
  repeat match goal with E : cstr _ = Ret _ |- _ => rewrite E in Hf end.
  cbn [cat cbind] in Hf. apply Ret_inj in Hf. subst file. unfold num_line.
  repeat (rewrite <- ?app_assoc; cbn [app]).
  rewrite (parse_lines_comment env (zs "# OpenQTI Config file") _ _ _ 0); [|comment_ok|vm_compute; lia|done].
  rewrite (parse_lines_comment env (zs "# key=value") _ _ _ 1); [|comment_ok|vm_compute; lia|done].
  cbn [Z.ltb Z.compare Pos.compare Pos.compare_cont orb].
  cfg_num set_custom_alert_tone_field.
  cfg_persist.
  cfg_text user_name set_user_name_field c0.
  cfg_text modem_name set_modem_name_field c0.
  cfg_num set_signal_tracking_field.
  cfg_num set_signal_tracking_mode_field.
  cfg_num set_signal_tracking_notify_downgrade_field.
  cfg_num set_signal_tracking_notify_cell_change_field.
  cfg_num set_dump_network_tables_field.
  cfg_num set_callwait_autohangup_field.
  cfg_num set_automatic_call_recording_field.
  cfg_num set_sms_logging_field.
  cfg_num set_list_all_bypass_field.
  cfg_num set_allow_internal_modem_connectivity_field.
  cfg_num set_apn_auth_method_field.
  cfg_text apn_addr set_apn_addr_field c0.
  cfg_text apn_username set_apn_username_field c0.
  cfg_text apn_password set_apn_password_field c0.
  cfg_text ims_apn_addr set_ims_apn_addr_field c0.
  cfg_text ims_apn_username set_ims_apn_username_field c0.
  cfg_text ims_apn_password set_ims_apn_password_field c0.
  cfg_num set_ims_attempt_enable_field.
  cfg_num set_ims_vt_support_field.
  cfg_num set_ims_rtp_support_field.
  cfg_num set_ims_sms_support_field.
  unfold file_lines. cbn [fgets_lines parse_lines]. unfold ret. rewrite after_Ret.
  eexists _, _. split; [reflexivity|]. split.
  - split; [reflexivity|]. unfold texts. cbn [map].
    repeat match goal with |- _ :: _ = _ :: _ => apply f_equal2 end; [..|reflexivity];
      match goal with
         | E : cstr (?f c) = Ret ?t, L : line_text ?t |- cstr (?f c) = _ =>
             exact (eq_trans E (eq_sym (cstr_written t _ L)))
         end.
  - unfold texts. repeat apply Forall_cons_2; [..|apply Forall_nil_2];
      match goal with
         | E : cstr (?f c) = Ret ?t, L : line_text ?t, H : zlen (?f c0) = 128 |- zlen (?f _) = 128 =>
             exact (zlen_written t (f c0) (proj1 (proj2 L)) H)
         end.
Qed.

(** Texts that end in their fields can be written. *)
Definition texts_end (c : config_prototype) : Prop := Forall (fun f => safe (cstr f)) (texts c).
Lemma ended_text c : texts_end c -> exists text, settings_text c = Ret text.
Proof.
  unfold texts_end, texts. intros Ht.
  repeat (let t := fresh "t" in let E := fresh "E" in
          apply Forall_cons in Ht as [[t E] Ht]). clear Ht.
  unfold settings_text, settings_lines, text_line.
  repeat match goal with E : cstr _ = Ret _ |- _ => rewrite E; clear E end.
  cbn [cat cbind]. by eexists.
Qed.
Lemma storable_ends c : storable c -> texts_end c.
Proof. intros [_ Ht]. eapply Forall_impl; [exact Ht|]. intros f (t & E & _). by exists t. Qed.
Lemma storable_text c : storable c -> exists text, settings_text c = Ret text.
Proof. intros. by apply ended_text, storable_ends. Qed.

Lemma write_run env s text :
  c_rw_ok env = true -> c_open_conf env = true -> settings_text (settings s) = Ret text ->
  exists n tr, write_settings_to_storage env s = Ret (n, with_conf (Some text) s, tr) /\ Sync ∈ tr.
Proof.
  intros Hrw Ho Ht. unfold write_settings_to_storage, set_persistent_partition_rw, do_sync_fs.
  rewrite Hrw, Ho. autorewrite with eff. cbn [Z.ltb Z.compare negb]. autorewrite with eff.
  rewrite (bind_lift _ _ _ _ Ht). autorewrite with eff.
  destruct (persistent_logging (settings s) =? 0).
  - unfold set_persistent_partition_ro. autorewrite with eff.
    destruct (c_ro_ok env); unfold ret; rewrite after_Ret; eexists _, _; split; try done; set_solver.
  - unfold ret. rewrite after_Ret. eexists _, _; split; [done|set_solver].
Qed.

(** A setter changes the settings and their file. *)
Lemma store_run env f s :
  c_rw_ok env = true -> c_open_conf env = true -> texts_end (f (settings s)) ->
  exists text tr, settings_text (f (settings s)) = Ret text /\
    store env f s = Ret (tt, with_conf (Some text) (on_settings f s), tr).
Proof.
  intros Hrw Ho Ht. destruct (ended_text _ Ht) as [text Hx]. exists text.
  destruct (write_run env (on_settings f s) text Hrw Ho Hx) as (n & tr & Hw & _). exists tr.
  split; [done|]. unfold store. rewrite bind_modify, (bind_after _ _ _ _ _ _ Hw). unfold ret.
  by rewrite after_Ret, app_nil_r.
Qed.

(** The count of unclean boots that the next read finds. *)
Definition boots (s : cfg_state) : Z :=
  match boot_file s with Some f => Z.max 0 (scan_i f) | None => 0 end.

(** The number the next read finds in the file of the counter. *)
Lemma dec_go_head fuel x :
  0 < x < 10 ^ Z.of_nat fuel -> exists c r, dec_go fuel x = c :: r /\ 49 <= c <= 57.
Proof.
  revert x; induction fuel as [|fuel IH]; intros x Hx; [cbn in *; lia|].
  rewrite Nat2Z.inj_succ, Z.pow_succ_r in Hx by lia. cbn [dec_go]. csplit; [eexists _, []; split; [done|lia]|].
  destruct (IH (x / 10)) as (c & r & -> & Hc); [|by eexists _, _].
  split; [apply Z.div_str_pos; lia|apply Z.div_lt_upper_bound; lia].
Qed.
Lemma scan_fmt v : 0 <= v < 2147483648 -> scan_i (fmt_i v) = v.
Proof.
  intros Hv. unfold fmt_i. ifdec. destruct (decide (v = 0)) as [->|Hne]; [done|].
  assert (digits_val 0 (fmt_u v) = v) as Hd by (apply digits_val_dec; lia).
  destruct (dec_go_head 20 v) as (c & r & E & Hc); [lia|]. unfold fmt_u in *. rewrite E in *.
  unfold scan_i. rewrite skip_space_digit by (unfold isdigit; by ifdec).
  assert (c = 49 \/ c = 50 \/ c = 51 \/ c = 52 \/ c = 53 \/ c = 54 \/ c = 55 \/ c = 56 \/ c = 57) as H by lia.
  repeat (destruct H as [->|H]); subst c || idtac; lia.
Qed.

(** What the file of the counter holds after a read. *)
Definition counted (env : cfg_env) (s : cfg_state) : option (list Z) :=
  if c_open_boot env
  then Some (fmt_i (match boot_file s with Some _ => i32 (boots s + 1) | None => 0 end))
  else boot_file s.
Lemma read_boot_run env s :
  exists tr, read_boot_counter_file env s = Ret (boots s, with_boot (counted env s) s, tr).
Proof.
  unfold read_boot_counter_file, write_boot_counter_file, set_persistent_partition_rw, boots, counted.
  rewrite bind_get.
  assert (Hv : forall v, (if v <? 0 then 0 else v) = Z.max 0 v) by (intros; csplit; lia).
  destruct (boot_file s) as [f|] eqn:E; rewrite ?Hv; autorewrite with eff; destruct (c_open_boot env);
    cbn [negb]; autorewrite with eff; unfold ret; rewrite after_Ret; eexists; try done.
  all: destruct s; cbn in E; by subst.
Qed.

(** After more than three starts that were counted the log is kept. *)
Definition logging_on (s : cfg_state) (c : config_prototype) : config_prototype :=
  if (3 <? boots s) && (persistent_logging c =? 0) then set_persistent_logging_field 1 c else c.
#[export] Instance set_persistent_logging_proper v : Proper (settings_eq ==> settings_eq) (set_persistent_logging_field v).
Proof.
  intros c c' [Hn Ht]. split; [|exact Ht]. unfold numbers in *. cbn in *. congruence.
Qed.
#[export] Instance persistent_logging_proper : Proper (settings_eq ==> eq) persistent_logging.
Proof. intros c c' [Hn _]. unfold numbers in Hn. congruence. Qed.
#[export] Instance logging_on_proper s : Proper (settings_eq ==> settings_eq) (logging_on s).
Proof. intros c c' Hc. unfold logging_on. rewrite <- Hc. destruct (_ && _); [by rewrite <- Hc|done]. Qed.
Lemma storable_logging s c : storable c -> storable (logging_on s c).
Proof.
  intros [Hn Ht]. unfold logging_on. destruct (_ && _); [|done]. split; [|exact Ht].
  unfold numbers in *. repeat (apply Forall_cons in Hn as [? Hn]).
  repeat (apply Forall_cons_2; [done || (unfold byte_ok; cbn; lia)|]). constructor.
Qed.

(** The settings of a file that was written, read at a start: they are there
    again, the log may be kept from now on, and the start is counted. *)
Lemma read_run env c s0 file :
  c_rw_ok env = true -> c_open_conf env = true -> storable c -> settings_text c = Ret file ->
  conf_file s0 = Some file -> arrays_ok (settings s0) ->
  exists s1 tr file', read_settings_from_file env s0 = Ret (0, s1, tr) /\
    settings_eq (logging_on s0 c) (settings s1) /\ settings_text (logging_on s0 c) = Ret file' /\
    conf_file s1 = Some file' /\ boot_file s1 = counted env s0 /\ Sync ∈ tr.
Proof.
  intros Hrw Ho Hst Hfile Hconf Ha.
  destruct (parse_written env c (settings s0) s0 file Hst Ha Hfile) as (c' & tr1 & Hp & Heq & _).
  replace (with_settings (settings s0) s0) with s0 in Hp by by destruct s0.
  destruct (storable_text _ (storable_logging s0 c Hst)) as [file' Hfile']. 
  unfold read_settings_from_file. rewrite bind_get, Hconf, (bind_after _ _ _ _ _ _ Hp).
  destruct (read_boot_run env (with_settings c' s0)) as [tr2 Hr].
  rewrite (bind_after _ _ _ _ _ _ Hr), bind_get.
  change (boots (with_settings c' s0)) with (boots s0). change (counted env (with_settings c' s0)) with (counted env s0).
  set (s2 := with_boot _ _). change (persistent_logging (settings s2)) with (persistent_logging c').
  assert (exists s3, (forall B (k : unit -> MC B), bind (when ((3 <? boots s0) && (persistent_logging c' =? 0))
      (modify (on_settings (set_persistent_logging_field 1)))) k s2 = k tt s3) /\
    settings s3 = logging_on s0 c' /\ boot_file s3 = counted env s0) as (s3 & -> & Hs3 & Hb3).
  { unfold logging_on. destruct (_ && _); cbn [when]; eexists; split; try (intros; autorewrite with eff; reflexivity);
      by split. }
  assert (settings_eq (logging_on s0 c) (settings s3)) as Heq3 by (rewrite Hs3; by rewrite <- Heq).
  cbn [orb when]. destruct (write_run env s3 file' Hrw Ho) as (n3 & tr3 & Hw3 & Hsync).
  { rewrite <- Hfile'. by rewrite Heq3. }
  rewrite bind_assoc, (bind_after _ _ _ _ _ _ Hw3), bind_ret, bind_get. cbn [settings with_conf].
  destruct (persistent_logging (settings s3) =? 0); cbn [when];
    unfold set_persistent_partition_ro; autorewrite with eff; unfold ret; rewrite after_Ret;
    eexists _, _, _; (split; [reflexivity|]); cbn [settings with_conf conf_file boot_file];
    split_and!; try done; set_solver.
Qed.


Definition text_field (t : list Z) : list Z := t ++ replicate (128 - length t) 0.
Definition sample_settings : config_prototype :=
  {| custom_alert_tone := 1; persistent_logging := 0; user_name := text_field (zs "Admin");
     modem_name := text_field (zs "Modem"); signal_tracking := 0; signal_tracking_mode := 2;
     signal_tracking_notify_downgrade := 0; signal_tracking_notify_cell_change := 1;
     sms_logging := 0; list_all_bypass := 1; callwait_autohangup := 2;
     automatic_call_recording := 0; dump_network_tables := 0; first_boot := false;
     allow_internal_modem_connectivity := 1; apn_auth_method := 2; apn_ip_family := 0;
     apn_addr := text_field (zs "internet"); apn_username := text_field (zs "user");
     apn_password := text_field (zs "secret"); ims_apn_addr := text_field (zs "ims");
     ims_apn_username := text_field (zs "a"); ims_apn_password := text_field (zs "b");
     ims_attempt_enable := 0; ims_vt_support := 0; ims_rtp_support := 0; ims_sms_support := 0 |}.
Definition sample_cfg_env : cfg_env :=
  {| c_rw_ok := true; c_ro_ok := true; c_open_conf := true; c_open_boot := true |}.
Definition sample_cfg : cfg_state :=
  {| settings := sample_settings; conf_file := None; boot_file := None |}.
Definition written_cfg : cfg_state :=
  match write_settings_to_storage sample_cfg_env sample_cfg with
  | Ret (_, s, _) => s
  | _ => sample_cfg
  end.
Lemma sample_storable : storable sample_settings.
Proof.
  split.
  - repeat constructor; vm_compute; congruence.
  - repeat (apply Forall_cons_2; [eexists; split; [reflexivity|]; split; [done|];
      split; [vm_compute; congruence|repeat constructor; vm_compute; congruence]|]).
    apply Forall_nil_2.
Qed.
(** A start after three that were counted, and after four. *)
Definition restarted (count : list Z) : cfg_state :=
  {| settings := set_user_name_field (replicate 128 7) (set_custom_alert_tone_field 9 sample_settings);
     conf_file := conf_file written_cfg; boot_file := Some count |}.
Example log_kept_after_four :
  persistent_logging (logging_on (restarted (zs "3")) sample_settings) = 0 /\
  persistent_logging (logging_on (restarted (zs "4")) sample_settings) = 1.
Proof. vm_compute. by split. Qed.

(** What an access point field holds after it is set: a text of 128 characters
    fills it, a longer one is cut to 127 and its NUL. *)
Lemma apn_field_cleared field : zlen field = 128 -> memset field 0 128 = Ret (replicate 128 0).
Proof.
  intros Hf. unfold memset. rewrite wrn_ok by (zl; lia). cbn [take app Z.to_nat Nat.add].
  rewrite drop_ge by (rewrite ?length_replicate; unfold zlen in Hf; lia). by rewrite app_nil_r.
Qed.
Lemma apn_text_full text field :
  zlen field = 128 -> zlen text = 128 -> apn_text text field = Ret text.
Proof.
  intros Hf Hl. unfold apn_text, MAX_APN_FIELD_SZ. ifdec. rewrite (apn_field_cleared _ Hf).
  cbn [cbind]. unfold strncpy.
  replace (Z.to_nat (zlen text)) with (length text) by (unfold zlen; lia).
  rewrite take_ge, Nat.sub_diag by lia. change (replicate 0 0) with (@nil Z). rewrite app_nil_r.
  rewrite wrn_ok by (zl; lia). cbn [take app Z.to_nat Nat.add].
  rewrite drop_ge by (rewrite ?length_replicate; unfold zlen in Hl; lia). by rewrite app_nil_r.
Qed.
Lemma apn_text_cut text field :
  zlen field = 128 -> 128 < zlen text -> apn_text text field = Ret (take 127 text ++ [0]).
Proof.
  intros Hf Hl. unfold apn_text, MAX_APN_FIELD_SZ. ifdec. rewrite (apn_field_cleared _ Hf).
  cbn [cbind]. unfold strncpy. change (Z.to_nat (128 - 1)) with 127%nat.
  replace (127 - length text)%nat with 0%nat by (unfold zlen in Hl; lia).
  change (replicate 0 0) with (@nil Z). rewrite app_nil_r.
  rewrite wrn_ok by (zl; unfold zlen in *; rewrite ?length_take; lia).
  cbn [app Z.to_nat Nat.add]. rewrite take_0, drop_replicate, length_take. cbn [app].
  replace (Nat.min 127 (length text)) with 127%nat by (unfold zlen in Hl; lia). done.
Qed.

(** The file's text, and the write, with the access point name replaced. *)
Lemma settings_text_apn c apn :
  storable c ->
  match cstr apn with
  | Ret _ => exists text, settings_text (set_apn_addr_field apn c) = Ret text
  | Oob => settings_text (set_apn_addr_field apn c) = Oob
  | Spin => True
  end.
Proof.
  intros [Hn Ht]. unfold texts in Ht.
  repeat (let t := fresh "t" in let E := fresh "E" in
          apply Forall_cons in Ht as [(t & E & _) Ht]). clear Ht.
  unfold settings_text, settings_lines, text_line.
  cbn [user_name modem_name apn_addr apn_username apn_password
       ims_apn_addr ims_apn_username ims_apn_password set_apn_addr_field].
  destruct (cstr apn); [|by rewrite E, E0|done].
  rewrite E, E0, E2, E3, E4, E5, E6. cbn [cat cbind]. by eexists.
Qed.
Lemma write_faults env s :
  c_rw_ok env = true -> c_open_conf env = true -> settings_text (settings s) = Oob ->
  write_settings_to_storage env s = Oob.
Proof.
  intros Hrw Ho Htext. unfold write_settings_to_storage, set_persistent_partition_rw.
  rewrite Hrw, Ho. autorewrite with eff. cbn [Z.ltb Z.compare negb]. autorewrite with eff.
  unfold bind at 1, lift at 1. by rewrite Htext.
Qed.

(** An access point name, user or password of exactly 128 characters fills
    its field without a NUL: writing the settings then reads past the end of
    the field. 129 characters are cut to 127 and written. *)
Theorem apn_128_unterminated env s apn :
  c_rw_ok env = true -> c_open_conf env = true -> storable (settings s) ->
  arrays_ok (settings s) -> Forall (fun c => c <> 0) apn ->
  (zlen apn = 128 -> set_internal_network_apn_name env apn s = Oob) /\
  (128 < zlen apn -> exists s' tr, set_internal_network_apn_name env apn s = Ret (tt, s', tr) /\
                                   cstr (apn_addr (settings s')) = Ret (take 127 apn)).
Proof.
  intros Hrw Ho Hst Ha Hapn. unfold texts, arrays_ok in Ha.
  assert (Hf : zlen (apn_addr (settings s)) = 128)
    by (by do 2 apply Forall_cons in Ha as [_ Ha]; apply Forall_cons in Ha as [Ha _]).
  unfold set_internal_network_apn_name. rewrite bind_get. split; intros Hl.
  - rewrite (bind_lift _ apn) by by apply apn_text_full. unfold store. rewrite bind_modify.
    pose proof (settings_text_apn (settings s) apn Hst) as Htext. rewrite (cstr_no_nul _ Hapn) in Htext.
    pose proof (write_faults env (on_settings (set_apn_addr_field apn) s) Hrw Ho Htext) as Hw.
    unfold bind. by rewrite Hw.
  - rewrite (bind_lift _ (take 127 apn ++ [0])) by by apply apn_text_cut. unfold store. rewrite bind_modify.
    assert (Hc : cstr (take 127 apn ++ [0]) = Ret (take 127 apn))
      by (apply cstr_app; by apply Forall_take).
    pose proof (settings_text_apn (settings s) (take 127 apn ++ [0]) Hst) as Htext.
    rewrite Hc in Htext. destruct Htext as [text Htext].
    destruct (write_run env (on_settings (set_apn_addr_field (take 127 apn ++ [0])) s) text Hrw Ho Htext)
      as (n & tr & Hw & _).
    rewrite (bind_after _ _ _ _ _ _ Hw). unfold ret. rewrite after_Ret. by eexists _, _.
Qed.
Lemma apn_128_unterminated_witness :
  set_internal_network_apn_name sample_cfg_env (replicate 128 120) sample_cfg = Oob.
Proof.
  refine (proj1 (apn_128_unterminated sample_cfg_env sample_cfg (replicate 128 120) eq_refl eq_refl
    sample_storable _ _) eq_refl).
  - repeat constructor.
  - apply Forall_replicate. lia.
Defined.
