(* ===== verification/Helpers.v ===== *)
(** The helpers around the daemon (src/helpers.c, inc/helpers.h): the flags kept
    in the misc partition, the USB functions, the RING IN line, the AT port, the
    power key and the version of the baseband's firmware. *)

From stdpp Require Import base list numbers option strings.
From Stdlib Require Import ZArith Lia.
From S2P Require Import Prelude Libc Eff Config.

(** * State *)

(** The partition /dev/mtdblock12 ([None] when it does not open), the lock of the
    AT port and the flag of src/atfwd.c the USB restart sets. *)
Record board := { misc : option (list Z); at_if_in_use : bool; adb_enabled : bool }.
Definition upd_misc (m : option (list Z)) (b : board) : board :=
  {| misc := m; at_if_in_use := at_if_in_use b; adb_enabled := adb_enabled b |}.
Definition upd_at_in_use (v : bool) (b : board) : board :=
  {| misc := misc b; at_if_in_use := v; adb_enabled := adb_enabled b |}.
Definition upd_adb_enabled (v : bool) (b : board) : board :=
  {| misc := misc b; at_if_in_use := at_if_in_use b; adb_enabled := v |}.

Inductive board_action :=
| WriteTo (path val : list Z)      (* open(2), write(2) and close(2) of a file *)
| AtPort (packet : list Z)         (* write(2) to the AT port *)
| Usleep (us : Z)
| RunShell (command : list Z)
| SetOutputDevice (mode : Z).      (* audio.c *)
Definition MB (A : Type) : Type := M board board_action A.

Definition PERSIST_ADB_ON_MAGIC : list Z := zs "persistent_adb_on".
Definition PERSIST_USB_AUD_MAGIC : list Z := zs "persistent_usbaudio_on".
Definition AUDIO_MODE_I2S : Z := 0.
Definition AUDIO_MODE_USB : Z := 1.
Definition USB_EN_PATH : list Z := zs "/sys/class/android_usb/android0/enable".
Definition USB_FUNC_PATH : list Z := zs "/sys/class/android_usb/android0/functions".
Definition SUSPEND_INHIBIT_PATH : list Z := zs "/sys/devices/78d9000.usb/msm_hsusb/isr_inhibit_suspend".
Definition MSG_DELETE_PARTIAL_CMD : list Z := zs "AT+CMGD=".
Definition CPUFREQ_PATH : list Z := zs "/sys/devices/system/cpu/cpu0/cpufreq/scaling_governor".

Definition write_to (path val : list Z) : MB unit := emit (WriteTo path val).

(** * The misc partition *)

(** [lseek] and [read] of [n] bytes, which stop at the end of the partition. *)
Definition read_at (off n : nat) (part : list Z) : list Z := take n (drop off part).
(** [lseek] and [write]; nothing is written past the end. *)
Definition write_at (off : nat) (bytes part : list Z) : list Z :=
  take off part ++ take (length part - off) bytes ++ drop (off + length bytes) part.

(** [strcmp(buf, s) == 0] *)
Fixpoint streq (buf s : list Z) : cres bool :=
  match buf with
  | [] => Oob
  | x :: buf =>
      match s with
      | [] => Ret (x =? 0)
      | c :: s => if x =? c then streq buf s else Ret false
      end
  end.

Section Board.
(** What the stack holds where a function's [buff] of 32 bytes lies. *)
Variable stack : list Z.

Definition is_adb_enabled : MB bool :=
  do* b := get in
  match misc b with
  | None => ret true
  | Some part =>
      do* buff := lift (wrn stack 0 (read_at 64 (length PERSIST_ADB_ON_MAGIC + 1) part)) in
      lift (streq buff PERSIST_ADB_ON_MAGIC)
  end.

Definition store_flag (off : nat) (magic : list Z) : MB unit :=
  do* b := get in
  match misc b with
  | None => ret tt
  | Some part =>
      do* buff := lift (strncpy (replicate 32 0) magic 32) in
      modify (upd_misc (Some (write_at off buff part)))
  end.
Definition store_adb_setting (en : bool) : MB unit :=
  store_flag 64 (if en then PERSIST_ADB_ON_MAGIC else []).

Definition get_audio_mode : MB Z :=
  do* b := get in
  match misc b with
  | None => ret AUDIO_MODE_I2S
  | Some part =>
      do* buff := lift (wrn stack 0 (read_at 96 (length PERSIST_USB_AUD_MAGIC) part)) in
      do* usb := lift (streq buff PERSIST_USB_AUD_MAGIC) in
      ret (if usb : bool then AUDIO_MODE_USB else AUDIO_MODE_I2S)
  end.
Definition store_audio_output_mode (mode : Z) : MB unit :=
  store_flag 96 (if mode =? AUDIO_MODE_USB then PERSIST_USB_AUD_MAGIC else []).

(** * USB *)

Definition reset_usb_port : MB unit :=
  write_to USB_EN_PATH (zs "0") ;> emit (Usleep 1000000) ;> write_to USB_EN_PATH (zs "1").
Definition enable_usb_port : MB unit := write_to USB_EN_PATH (zs "1").
Definition set_adb_runtime (mode : bool) : MB unit := modify (upd_adb_enabled mode).

Definition usb_functions (adb : bool) (audio : Z) : list Z :=
  zs "diag,serial,rmnet" ++ (if adb then zs ",ffs" else []) ++ (if audio =? 0 then [] else zs ",audio").
Definition restart_usb_stack : MB unit :=
  do* adb := is_adb_enabled in
  do* audio := get_audio_mode in
  write_to USB_EN_PATH (zs "0") ;>
  write_to USB_FUNC_PATH (usb_functions adb audio) ;>
  emit (Usleep 1000000) ;>
  write_to USB_EN_PATH (zs "1") ;>
  do* mode := get_audio_mode in
  emit (SetOutputDevice mode) ;>
  do* adb := is_adb_enabled in
  set_adb_runtime adb ;>
  do* adb := is_adb_enabled in
  when adb (emit (RunShell (zs "/etc/init.d/adbd start"))).
End Board.

Definition set_suspend_inhibit (mode : bool) : MB unit :=
  write_to SUSPEND_INHIBIT_PATH (if mode then zs "1" else zs "0").
Definition enable_cpufreq_performance_mode (enable : bool) : MB unit :=
  write_to CPUFREQ_PATH (if enable then zs "performance" else zs "powersave").

(** * The RING IN line *)

Definition GPIO_RING_IN : list Z := zs "75".
Definition get_gpio_dirpath (gpio : list Z) : list Z :=
  take 255 (zs "/sys/class/gpio/gpio" ++ gpio ++ zs "/" ++ zs "direction").
Definition get_gpio_value_path (gpio : list Z) : list Z :=
  take 255 (zs "/sys/class/gpio/gpio" ++ gpio ++ zs "/" ++ zs "value").
Fixpoint toggles (n : nat) (i : Z) : MB unit :=
  match n with
  | O => ret tt
  | S n =>
      write_to (get_gpio_value_path GPIO_RING_IN) (if i mod 2 =? 0 then zs "1" else zs "0") ;>
      emit (Usleep 300) ;> toggles n (i + 1)
  end.
Definition pulse_ring_in : MB Z :=
  write_to (zs "/sys/class/gpio/export") GPIO_RING_IN ;>
  write_to (get_gpio_dirpath GPIO_RING_IN) (zs "out") ;>
  emit (Usleep 300) ;>
  toggles 10 0 ;>
  emit (Usleep 300) ;>
  write_to (zs "/sys/class/gpio/unexport") GPIO_RING_IN ;>
  ret 0.

(** * Times and numbers *)

Record timeval := { tv_sec : Z; tv_usec : Z }.
(** gettimeofday(2) in milliseconds, at the width of the result. *)
Definition get_curr_timestamp (te : timeval) : Z := u32 (tv_sec te * 1000 + tv_usec te / 1000).
(** The microseconds between, in an int, and [cur] as it is left. *)
Definition elapsed_time (prev cur : timeval) : Z * timeval :=
  let cur := if tv_usec prev <? tv_usec cur
             then {| tv_sec := tv_sec cur - 1; tv_usec := tv_usec cur + 1000000 |} else cur in
  (i32 ((tv_sec cur - tv_sec prev) * 1000000 + tv_usec cur - tv_usec prev), cur).

(** Two characters of a text as a number. They are copied into an array of two,
    and [strtol] reads on in what the stack holds behind it. *)
Definition get_int_from_str (stack str : list Z) (offset : Z) : cres Z :=
  let* a := rd str offset in
  let* b := rd str (offset + 1) in
  let tmp := if (b <? 48) || (57 <? b) then [48; a] else [a; b] in
  strtol (tmp ++ stack).

(** * The AT port *)

(** What the port does with a command: it does not open, does not take it, does
    not answer in a second and a half, fails to be read, or answers with bytes. *)
Inductive at_reply :=
| NotOpened
| NotWritten
| NoAnswer
| NotRead
| Answered (bytes : list Z).

(** [at_command] is what [cmdlen] covers; the answer is read over [response]. *)
Definition send_at_command (port : at_reply) (at_command response : list Z) (response_sz : nat)
  : MB (Z * list Z) :=
  do* b := get in
  if at_if_in_use b then ret (- EAGAIN, response)
  else
    modify (upd_at_in_use true) ;>
    match port with
    | NotOpened => modify (upd_at_in_use false) ;> ret (- EINVAL, response)
    | NotWritten => emit (AtPort at_command) ;> modify (upd_at_in_use false) ;> ret (- EIO, response)
    | NotRead => emit (AtPort at_command) ;> modify (upd_at_in_use false) ;> ret (- EIO, response)
    | NoAnswer => emit (AtPort at_command) ;> modify (upd_at_in_use false) ;> ret (0, response)
    | Answered bytes =>
        emit (AtPort at_command) ;>
        do* response := lift (wrn response 0 (take response_sz bytes)) in
        modify (upd_at_in_use false) ;> ret (0, response)
    end.

Definition wipe_command (i : Z) : list Z := take 127 (MSG_DELETE_PARTIAL_CMD ++ fmt_i i ++ [13; 10]).
Fixpoint wipe_loop (n : nat) (i : Z) : MB unit :=
  match n with
  | O => ret tt
  | S n => emit (AtPort (wipe_command i)) ;> emit (Usleep 100000) ;> wipe_loop n (i + 1)
  end.
Definition wipe_message_storage (opens : bool) : MB Z :=
  if opens then wipe_loop 101 0 ;> ret 0 else ret (- EINVAL).

(** * The power key *)

Definition EV_KEY : Z := 1.
Definition KEY_POWER : Z := 116.
(** What read(2) gives: fewer bytes than an event has, or an event, with the
    monotonic clock in nanoseconds when it is handled. *)
Inductive key_input :=
| Partial
| Event (type code value clock : Z).
Inductive key_action :=
| Counter (a : cfg_action)
| Restart.                         (* reboot(2) *)

Definition on_disk {A} (m : MC A) : M cfg_state key_action A := fun s =>
  let* '(a, s, t) := m s in Ret (a, s, map Counter t).
Section PowerKey.
Variable env : cfg_env.
(** The events until a read fails; [prev] is the time of the last press. *)
Fixpoint power_key_event (prev : Z) (l : list key_input) : M cfg_state key_action unit :=
  match l with
  | [] => ret tt
  | Partial :: l => power_key_event prev l
  | Event type code value clock :: l =>
      if (type =? EV_KEY) && (code =? KEY_POWER) && (value =? 1) then power_key_event clock l
      else if (type =? EV_KEY) && (code =? KEY_POWER) && (value =? 0) then
        (if 1000000000 <? clock - prev then ret tt
         else
           do* _ := on_disk (write_boot_counter_file env 0) in
           on_disk do_sync_fs ;>
           emit Restart) ;>
        power_key_event prev l
      else power_key_event prev l
  end.
End PowerKey.

(** * The version of the firmware *)

Record adsp_firmware := { fw_id : Z; fwstring : list Z; md5sum : list Z }.
Definition known_adsp_fw : list adsp_firmware :=
  [ {| fw_id := 0; fwstring := zs "Unknown ADSP Firmware"; md5sum := zs "Unknown__" |};
    {| fw_id := 1; fwstring := zs "EG25GGBR07A08M2G_01.003.01.003"; md5sum := zs "8dcfc9dfc39d4bb41f86014ca6b54040" |};
    {| fw_id := 2; fwstring := zs "EG25GGBR07A08M2G_01.002.07"; md5sum := zs "835030d95d471d4557caa13f14eb5626" |};
    {| fw_id := 3; fwstring := zs "EG25GGBR07A08M2G_01.001.10"; md5sum := zs "64bf3d938fb21a0104d01fcacb37bc8e" |};
    {| fw_id := 4; fwstring := zs "EG25GGBR07A07M2G_01.001.02"; md5sum := zs "6a92799327a56905f6496613671f56df" |};
    {| fw_id := 5; fwstring := zs "EG25GGBR07A07M2G_OCPU_01.001.01.001"; md5sum := zs "00f6763a96bc702eaf710cc928b6fa99" |};
    {| fw_id := 6; fwstring := zs "EG25GGBR07A08M2G_30.004.30.004"; md5sum := zs "74fcbcdd4abed713ce8cd3f8818e7afd" |};
    {| fw_id := 7; fwstring := zs "EG25GGBR07A08M2G_30.006.30.006"; md5sum := zs "2206b35df4cc1c51a06b1bb25729a0cd" |};
    {| fw_id := 8; fwstring := zs "EG25GGBR07A08M2G_30.007.30.007"; md5sum := zs "3ad071d36b20fcde95efcf6eaa1005d6" |};
    {| fw_id := 9; fwstring := zs "EG25GGBR07A08M2G_30.200.30.200"; md5sum := zs "aba4ab6d6c48aeb426b39f04c7757fa6" |};
    {| fw_id := 10; fwstring := zs "EG25GGBR07A08M2G_30.202.30.202"; md5sum := zs "62c2709d1b3506a87b41a935c7ae22cd" |} ].

(** The digits of the bytes the loop prints, in a buffer of 64. *)
Fixpoint hex_loop (digest hex : list Z) (offset : Z) : cres (list Z) :=
  match digest with
  | [] => Ret hex
  | x :: digest =>
      let* hex := wrn hex offset (fmt_x 2 x ++ [0]) in
      hex_loop digest hex (offset + zlen (fmt_x 2 x))
  end.
Fixpoint find_firmware (hex : list Z) (l : list adsp_firmware) (i : Z) : cres Z :=
  match l with
  | [] => Ret 0
  | fw :: l =>
      let* same := streq hex (md5sum fw) in
      if same : bool then Ret i else find_firmware hex l (i + 1)
  end.
(** [md5] is what md5_file (src/md5sum.c) writes at the start of [md5_result]. *)
Definition read_adsp_version (md5 : list Z) : cres Z :=
  let* md5_result := wrn (replicate 64 0) 0 md5 in
  let* digest := cstr md5_result in
  if zlen digest <? 16 then Ret 0
  else
    let* hex := hex_loop digest (replicate 64 0) 0 in
    find_firmware hex known_adsp_fw 0.

(** * The flags of the misc partition *)

Lemma length_write_at off bytes part : length (write_at off bytes part) = length part.
Proof.
  unfold write_at. rewrite !length_app, !length_take, length_drop. lia.
Qed.
Lemma read_write_same off bytes part :
  (off + length bytes <= length part)%nat -> read_at off (length bytes) (write_at off bytes part) = bytes.
Proof.
  intros Hl. unfold read_at, write_at. rewrite (take_ge bytes) by lia.
  rewrite drop_app_length' by (rewrite length_take; lia). by rewrite take_app_length.
Qed.
Lemma read_write_prefix off n bytes part :
  (n <= length bytes)%nat -> (off + length bytes <= length part)%nat ->
  read_at off n (write_at off bytes part) = take n bytes.
Proof.
  intros Hn Hl. pose proof (read_write_same off bytes part Hl) as H. unfold read_at in *.
  rewrite <- H at 2. rewrite take_take. f_equal. lia.
Qed.
Lemma read_write_before off n off' bytes part :
  (off + n <= off')%nat -> (off' <= length part)%nat ->
  read_at off n (write_at off' bytes part) = read_at off n part.
Proof.
  intros Hn Hl. unfold read_at, write_at.
  rewrite drop_app_le by (rewrite length_take; lia). rewrite take_app_le by (rewrite length_drop, length_take; lia).
  rewrite <- (take_drop off' part) at 2. rewrite (drop_app_le (take off' part)) by (rewrite length_take; lia).
  rewrite take_app_le by (rewrite length_drop, length_take; lia). done.
Qed.
Lemma read_write_after off n off' bytes part :
  (off' + length bytes <= off)%nat -> (off' + length bytes <= length part)%nat ->
  read_at off n (write_at off' bytes part) = read_at off n part.
Proof.
  intros Hn Hl. unfold read_at, write_at. rewrite (take_ge bytes) by lia. rewrite app_assoc.
  assert (Hp : length (take off' part ++ bytes) = (off' + length bytes)%nat)
    by (rewrite length_app, length_take; lia).
  rewrite drop_app_ge by lia. rewrite drop_drop, Hp. do 2 f_equal. lia.
Qed.
(** Outside of the bytes written nothing changes. *)
Lemma take_write_at n off bytes part :
  (n <= off)%nat -> (off <= length part)%nat -> take n (write_at off bytes part) = take n part.
Proof.
  intros Hn Ho. unfold write_at. rewrite take_app_le, take_take by (rewrite length_take; lia). f_equal. lia.
Qed.
Lemma drop_write_at n off bytes part :
  (off + length bytes <= n)%nat -> (off + length bytes <= length part)%nat ->
  drop n (write_at off bytes part) = drop n part.
Proof.
  intros Hn Ho. unfold write_at. rewrite (take_ge bytes), app_assoc by lia.
  rewrite drop_app_ge by (rewrite length_app, length_take; lia).
  rewrite drop_drop, length_app, length_take. f_equal. lia.
Qed.

(** strcmp(3) on a buffer that holds the text and on one that does not. *)
Lemma streq_here s rest : Forall (fun x => x <> 0) s -> streq (s ++ 0 :: rest) s = Ret true.
Proof. induction 1 as [|x s Hx _ IH]; [done|]. cbn [streq app]. by rewrite Z.eqb_refl. Qed.
Lemma streq_longer s x rest : x <> 0 -> streq (s ++ x :: rest) s = Ret false.
Proof.
  intros Hx. induction s as [|c s IH]; cbn [streq app]; [by rewrite (proj2 (Z.eqb_neq x 0))|].
  by rewrite Z.eqb_refl.
Qed.
Lemma streq_other a s rest :
  length a = length s -> a <> s -> streq (a ++ rest) s = Ret false.
Proof.
  revert s. induction a as [|x a IH]; intros [|c s] Hl Hne; try done. cbn [streq app].
  destruct (Z.eqb_spec x c) as [->|]; [|done]. apply IH; [by injection Hl|congruence].
Qed.

(** The flags as the partition has them. *)
Definition adb_flag (part : list Z) : bool :=
  bool_decide (read_at 64 18 part = PERSIST_ADB_ON_MAGIC ++ [0]).
Definition usb_audio_flag (part : list Z) : bool :=
  bool_decide (read_at 96 22 part = PERSIST_USB_AUD_MAGIC).

Lemma adb_magic_text : Forall (fun x => x <> 0) PERSIST_ADB_ON_MAGIC.
Proof. repeat constructor; discriminate. Qed.

(** 18 bytes against the magic string and its NUL. *)
Lemma streq_magic bytes rest s :
  Forall (fun x => x <> 0) s -> length bytes = S (length s) ->
  streq (bytes ++ rest) s = Ret (bool_decide (bytes = s ++ [0])).
Proof.
  intros Hs Hl. induction bytes as [|x a _] using rev_ind; [done|].
  rewrite length_app in Hl. cbn in Hl. rewrite <- app_assoc. cbn [app].
  destruct (decide (a = s)) as [->|Ha].
  - destruct (decide (x = 0)) as [->|Hx].
    + rewrite streq_here by done. by rewrite bool_decide_eq_true_2.
    + rewrite streq_longer by done. rewrite bool_decide_eq_false_2; [done|].
      intros H%app_inj_2; [|done]. by destruct H; simplify_eq.
  - rewrite streq_other by (done || lia). rewrite bool_decide_eq_false_2; [done|].
    intros H%app_inj_2; [|done]. by destruct H; simplify_eq.
Qed.

Definition flag_bytes (magic : list Z) : list Z := magic ++ replicate (32 - length magic) 0.
Lemma length_flag_bytes magic : (length magic <= 32)%nat -> length (flag_bytes magic) = 32%nat.
Proof. intros Hm. unfold flag_bytes. rewrite length_app, length_replicate. lia. Qed.

Lemma store_flag_run part off magic b :
  misc b = Some part -> (length magic <= 32)%nat ->
  store_flag off magic b = Ret (tt, upd_misc (Some (write_at off (flag_bytes magic) part)) b, []).
Proof.
  intros Hb Hm. unfold store_flag. rewrite bind_get, Hb.
  rewrite (bind_lift _ (flag_bytes magic)); [done|]. unfold strncpy, flag_bytes.
  rewrite take_ge by done. rewrite wrn_ok by (zl; unfold zlen; rewrite ?length_replicate; lia).
  cbn [take app Z.to_nat Nat.add]. rewrite drop_ge; [by rewrite app_nil_r|].
  rewrite length_app, !length_replicate. lia.
Qed.

Section Flags.
Context (stack part : list Z) (Hstack : length stack = 32%nat) (Hpart : (128 <= length part)%nat).

(** What the code reads of the flags. *)
Lemma adb_reads b : misc b = Some part -> is_adb_enabled stack b = Ret (adb_flag part, b, []).
Proof.
  intros Hb. unfold is_adb_enabled. rewrite bind_get, Hb.
  assert (Hl : length (read_at 64 18 part) = 18%nat)
    by (unfold read_at; rewrite length_take, length_drop; lia).
  change (length PERSIST_ADB_ON_MAGIC + 1)%nat with 18%nat.
  rewrite (bind_lift _ (read_at 64 18 part ++ drop 18 stack)).
  2: { rewrite wrn_ok by (unfold zlen; lia). by rewrite Hl. }
  unfold lift. rewrite streq_magic by (done || apply adb_magic_text). done.
Qed.
(** The name of the USB mode is read without its NUL: the comparison goes on in
    what the stack holds. *)
Lemma audio_reads b :
  misc b = Some part ->
  get_audio_mode stack b =
    Ret (if usb_audio_flag part && bool_decide (stack !! 22%nat = Some 0) then AUDIO_MODE_USB else AUDIO_MODE_I2S,
         b, []).
Proof.
  intros Hb. unfold get_audio_mode. rewrite bind_get, Hb.
  assert (Hl : length (read_at 96 22 part) = 22%nat)
    by (unfold read_at; rewrite length_take, length_drop; lia).
  change (length PERSIST_USB_AUD_MAGIC) with 22%nat.
  rewrite (bind_lift _ (read_at 96 22 part ++ drop 22 stack)).
  2: { rewrite wrn_ok by (unfold zlen; lia). by rewrite Hl. }
  destruct (lookup_lt_is_Some_2 stack 22) as [x Hx]; [lia|].
  assert (drop 22 stack = x :: drop 23 stack) as -> by by apply drop_S.
  rewrite Hx. unfold usb_audio_flag.
  assert (Hs : streq (read_at 96 22 part ++ x :: drop 23 stack) PERSIST_USB_AUD_MAGIC =
    Ret (bool_decide (read_at 96 22 part = PERSIST_USB_AUD_MAGIC) && bool_decide (Some x = Some 0))).
  { destruct (decide (read_at 96 22 part = PERSIST_USB_AUD_MAGIC)) as [->|Hne].
    - rewrite (bool_decide_eq_true_2 (_ = _)) by done. cbn [andb]. destruct (decide (x = 0)) as [->|H0].
      + rewrite streq_here, bool_decide_eq_true_2; try done. repeat constructor; discriminate.
      + rewrite streq_longer, bool_decide_eq_false_2; try done. congruence.
    - rewrite streq_other by done. by rewrite bool_decide_eq_false_2. }
  rewrite (bind_lift _ _ _ _ Hs). by destruct (_ && _).
Qed.

End Flags.

(** The flags after a store: the one stored, and the other as it was. *)
Lemma adb_stored (en : bool) part :
  (128 <= length part)%nat ->
  let part' := write_at 64 (flag_bytes (if en then PERSIST_ADB_ON_MAGIC else [])) part in
  length part' = length part /\ adb_flag part' = en /\ usb_audio_flag part' = usb_audio_flag part.
Proof.
  intros Hp. cbv zeta. split; [apply length_write_at|].
  set (magic := if en then PERSIST_ADB_ON_MAGIC else []).
  assert (Hm : length (flag_bytes magic) = 32%nat) by (apply length_flag_bytes; destruct en; vm_compute; lia).
  unfold adb_flag, usb_audio_flag. rewrite read_write_prefix, read_write_after by lia.
  split; [|done]. unfold magic. by destruct en; vm_compute.
Qed.
Lemma audio_stored mode part :
  (128 <= length part)%nat ->
  let part' := write_at 96 (flag_bytes (if mode =? AUDIO_MODE_USB then PERSIST_USB_AUD_MAGIC else [])) part in
  length part' = length part /\ adb_flag part' = adb_flag part /\ usb_audio_flag part' = (mode =? AUDIO_MODE_USB).
Proof.
  intros Hp. cbv zeta. split; [apply length_write_at|].
  set (magic := if mode =? AUDIO_MODE_USB then PERSIST_USB_AUD_MAGIC else []).
  assert (Hm : length (flag_bytes magic) = 32%nat) by (apply length_flag_bytes; unfold magic; csplit; vm_compute; lia).
  unfold adb_flag, usb_audio_flag. rewrite read_write_prefix, read_write_before by lia.
  split; [done|]. unfold magic. by csplit; vm_compute.
Qed.

(** What a restart of the USB stack does. *)
Definition usb_restart_trace (adb : bool) (audio : Z) : list board_action :=
  [ WriteTo USB_EN_PATH (zs "0"); WriteTo USB_FUNC_PATH (usb_functions adb audio); Usleep 1000000;
    WriteTo USB_EN_PATH (zs "1"); SetOutputDevice audio ] ++
  (if adb then [RunShell (zs "/etc/init.d/adbd start")] else []).

Lemma restart_run stack part b :
  length stack = 32%nat -> (128 <= length part)%nat -> misc b = Some part ->
  let audio := if usb_audio_flag part && bool_decide (stack !! 22%nat = Some 0)
               then AUDIO_MODE_USB else AUDIO_MODE_I2S in
  restart_usb_stack stack b =
    Ret (tt, upd_adb_enabled (adb_flag part) b, usb_restart_trace (adb_flag part) audio).
Proof.
  intros Hs Hp Hb audio.
  pose proof (adb_reads stack part Hs Hp) as Ha. pose proof (audio_reads stack part Hs Hp b Hb) as Hm.
  unfold restart_usb_stack, write_to, set_adb_runtime.
  rewrite (bind_step _ _ _ _ _ (Ha b Hb)), (bind_step _ _ _ _ _ Hm). autorewrite with eff.
  rewrite (bind_step _ _ _ _ _ Hm). autorewrite with eff.
  rewrite (bind_step _ _ _ _ _ (Ha b Hb)). autorewrite with eff.
  rewrite (bind_step _ _ _ _ _ (Ha (upd_adb_enabled (adb_flag part) b) Hb)).
  unfold usb_restart_trace, audio. by destruct (adb_flag part).
Qed.

(** What is stored is what the next restart of the USB stack applies, and
    nothing else of the partition changes: the functions, the sound device and the
    ADB daemon follow both flags, except that the mode of the sound is taken for
    the internal one when the byte of the stack behind the name is not 0. *)
Theorem usb_settings_applied (en : bool) mode stack part b
  (Hstack : length stack = 32%nat) (Hpart : (128 <= length part)%nat) (Hb : misc b = Some part) :
  exists part',
    (store_adb_setting en ;> store_audio_output_mode mode ;> restart_usb_stack stack) b =
      Ret (tt, {| misc := Some part'; at_if_in_use := at_if_in_use b; adb_enabled := en |},
           usb_restart_trace en (if (mode =? AUDIO_MODE_USB) && bool_decide (stack !! 22%nat = Some 0)
                                 then AUDIO_MODE_USB else AUDIO_MODE_I2S)) /\
    take 64 part' = take 64 part /\ drop 128 part' = drop 128 part.
Proof.
  set (m1 := flag_bytes (if en then PERSIST_ADB_ON_MAGIC else [])).
  set (m2 := flag_bytes (if mode =? AUDIO_MODE_USB then PERSIST_USB_AUD_MAGIC else [])).
  destruct (adb_stored en part Hpart) as (L1 & A1 & U1). fold m1 in L1, A1, U1.
  destruct (audio_stored mode (write_at 64 m1 part)) as (L2 & A2 & U2); [lia|]. fold m2 in L2, A2, U2.
  assert (Hm1 : length m1 = 32%nat) by (apply length_flag_bytes; destruct en; vm_compute; lia).
  assert (Hm2 : length m2 = 32%nat) by (apply length_flag_bytes; csplit; vm_compute; lia).
  exists (write_at 96 m2 (write_at 64 m1 part)). split; [|split].
  - unfold store_adb_setting, store_audio_output_mode.
    erewrite bind_step by (apply (store_flag_run part); [done|destruct en; vm_compute; lia]).
    erewrite bind_step by (eapply store_flag_run; [done|csplit; vm_compute; lia]).
    fold m1 m2. rewrite (restart_run stack (write_at 96 m2 (write_at 64 m1 part))) by (done || lia).
    by rewrite A2, A1, U2.
  - by rewrite !take_write_at by lia.
  - by rewrite !drop_write_at by lia.
Qed.
Definition empty_part : list Z := replicate 128 0.
Definition sample_board : board := {| misc := Some empty_part; at_if_in_use := false; adb_enabled := false |}.
Theorem usb_settings_applied_witness :
  length (replicate 32 0) = 32%nat /\ misc sample_board = Some empty_part /\
  exists part',
    (store_adb_setting true ;> store_audio_output_mode AUDIO_MODE_USB ;> restart_usb_stack (replicate 32 0)) sample_board =
      Ret (tt, {| misc := Some part'; at_if_in_use := false; adb_enabled := true |},
           usb_restart_trace true
             (if (AUDIO_MODE_USB =? AUDIO_MODE_USB) && bool_decide (replicate 32 0 !! 22%nat = Some 0)
              then AUDIO_MODE_USB else AUDIO_MODE_I2S)) /\
    take 64 part' = take 64 empty_part /\ drop 128 part' = drop 128 empty_part.
Proof.
  split; [reflexivity|]. split; [reflexivity|].
  apply (usb_settings_applied true AUDIO_MODE_USB (replicate 32 0) empty_part sample_board);
    [reflexivity|unfold empty_part; rewrite length_replicate; lia|reflexivity].
Defined.

(** The comparison with a text the stack happens to go on with. *)
Example usb_mode_forgotten :
  get_audio_mode (replicate 32 1)
    {| misc := Some (write_at 96 (flag_bytes PERSIST_USB_AUD_MAGIC) empty_part); at_if_in_use := false;
       adb_enabled := false |} =
  Ret (AUDIO_MODE_I2S,
       {| misc := Some (write_at 96 (flag_bytes PERSIST_USB_AUD_MAGIC) empty_part); at_if_in_use := false;
          adb_enabled := false |}, []).
Proof. vm_compute. reflexivity. Qed.

(** * The RING IN line *)

(** Every pulse leaves the line low, after five rising edges. *)
Definition line_level (a : board_action) : option Z :=
  match a with
  | WriteTo path val => if decide (path = get_gpio_value_path GPIO_RING_IN) then head val else None
  | _ => None
  end.
Lemma pulse_ring_in_run b :
  exists t, pulse_ring_in b = Ret (0, b, t) /\
    omap line_level t = [49; 48; 49; 48; 49; 48; 49; 48; 49; 48].
Proof. eexists. split; vm_compute; reflexivity. Qed.

(** * The AT port *)

(** The port is free again after every command, whatever it does, and a command
    that was taken is written once. *)
Lemma send_at_run port cmd response b (n : nat) :
  at_if_in_use b = false -> (n <= length response)%nat ->
  exists r response', send_at_command port cmd response n b =
      Ret ((r, response'), b, if port is NotOpened then [] else [AtPort cmd]) /\
    length response' = length response /\
    match port with
    | Answered bytes => r = 0 /\ response' = take n bytes ++ drop (length (take n bytes)) response
    | NoAnswer => r = 0 /\ response' = response
    | _ => r < 0 /\ response' = response
    end.
Proof.
  intros Hb Hn. destruct b as [m u a]; cbn in Hb; subst u.
  unfold send_at_command, upd_at_in_use. rewrite bind_get. cbn [at_if_in_use].
  destruct port; autorewrite with eff; try (by do 2 eexists; repeat split).
  assert (Hl : (length (take n bytes) <= n)%nat) by (rewrite length_take; lia).
  rewrite (bind_lift _ (take n bytes ++ drop (length (take n bytes)) response)).
  2: { rewrite wrn_ok by (unfold zlen; lia). done. }
  autorewrite with eff. do 2 eexists. repeat split. rewrite length_app, length_drop. lia.
Qed.
Lemma send_at_busy port cmd response b n :
  at_if_in_use b = true -> send_at_command port cmd response n b = Ret ((- EAGAIN, response), b, []).
Proof. intros Hb. unfold send_at_command. by rewrite bind_get, Hb. Qed.

(** * Numbers and times *)

Lemma elapsed_time_correct prev cur :
  let d := (tv_sec cur - tv_sec prev) * 1000000 + (tv_usec cur - tv_usec prev) in
  -2147483648 <= d < 2147483648 -> fst (elapsed_time prev cur) = d.
Proof.
  intros d Hd. unfold elapsed_time. unfold d in *. csplit; cbn [fst tv_sec tv_usec]; rewrite i32_small; lia.
Qed.

(** Two digits are the number when what lies behind the copy is no digit; a digit
    there becomes a part of the number. *)
Definition digit (x : Z) : Z := 48 + x.
Lemma digit_isdigit x : 0 <= x < 10 -> isdigit (digit x) = true.
Proof. intros Hx. unfold isdigit, digit. by ifdec. Qed.
Lemma two_digits pre a b rest stack x off :
  0 <= a < 10 -> 0 <= b < 10 -> isdigit x = false -> zlen pre = off ->
  get_int_from_str (x :: stack) (pre ++ digit a :: digit b :: rest) off = Ret (10 * a + b).
Proof.
  intros Ha Hb Hx <-. unfold get_int_from_str. rewrite rdA_middle. cbn [cbind].
  replace (zlen pre + 1) with (zlen (pre ++ [digit a])) by (by zl).
  replace (pre ++ digit a :: digit b :: rest) with ((pre ++ [digit a]) ++ digit b :: rest)
    by (by rewrite <- app_assoc).
  rewrite rdA_middle. cbn [cbind].
  assert (Hd : (digit b <? 48) || (57 <? digit b) = false) by (unfold digit; by ifdec). rewrite Hd.
  pose proof (strtol_digits (digit a) [digit b] x stack) as H. cbn [app] in *. rewrite H; [|repeat constructor; by apply digit_isdigit|done].
  cbn [digits_val]. rewrite !digit_isdigit by done. unfold digit. f_equal. lia.
Qed.
Lemma two_digits_run_on a b c rest stack x :
  0 <= a < 10 -> 0 <= b < 10 -> 0 <= c < 10 -> isdigit x = false ->
  get_int_from_str (digit c :: x :: stack) (digit a :: digit b :: rest) 0 = Ret (100 * a + 10 * b + c).
Proof.
  intros Ha Hb Hc Hx. unfold get_int_from_str. cbn [rdA]. change (rd (digit a :: digit b :: rest) 0) with (Ret (digit a)).
  change (rd (digit a :: digit b :: rest) (0 + 1)) with (Ret (digit b)). cbn [cbind].
  assert (Hd : (digit b <? 48) || (57 <? digit b) = false) by (unfold digit; by ifdec). rewrite Hd.
  pose proof (strtol_digits (digit a) [digit b; digit c] x stack) as H. cbn [app] in *.
  rewrite H; [|repeat constructor; by apply digit_isdigit|done].
  cbn [digits_val]. rewrite !digit_isdigit by done. unfold digit. f_equal. lia.
Qed.

(** * The power key *)

(** A press of at most a second restarts the modem, with the counter of failed
    boots cleared before when its file opens; a longer one does nothing. *)
Lemma power_key_press env prev p r s :
  let press := [Event EV_KEY KEY_POWER 1 p; Event EV_KEY KEY_POWER 0 r] in
  power_key_event env prev press s =
    if 1000000000 <? r - p then Ret (tt, s, [])
    else Ret (tt, if c_open_boot env then with_boot (Some (zs "0")) s else s,
              [Counter (Remount true); Counter Sync; Restart]).
Proof.
  cbv zeta. cbn [power_key_event]. change (EV_KEY =? EV_KEY) with true. change (KEY_POWER =? KEY_POWER) with true.
  cbn. destruct (1000000000 <? r - p); [done|].
  unfold on_disk, write_boot_counter_file, set_persistent_partition_rw, do_sync_fs.
  by destruct (c_open_boot env), (c_rw_ok env).
Qed.

(** * The firmware's version *)

Definition hex_of (digest : list Z) : list Z := concat (map (fmt_x 2) digest).
Lemma hex_two x : byte_ok x -> exists a b, fmt_x 2 x = [a; b].
Proof.
  intros Hx. pose proof (fmt_x_exact 2 x ltac:(lia) ltac:(exact Hx)) as Hl. unfold zlen in Hl.
  destruct (fmt_x 2 x) as [|a [|b [|]]]; cbn in Hl; try lia. eauto.
Qed.
Lemma length_hex_of digest : bytes_ok digest -> length (hex_of digest) = (2 * length digest)%nat.
Proof.
  induction 1 as [|x l Hx _ IH]; [done|]. unfold hex_of in *. cbn [map concat length].
  destruct (hex_two x Hx) as (a & b & ->). cbn [app length]. rewrite IH. lia.
Qed.
Lemma hex_loop_run digest done_ tail :
  bytes_ok digest -> (2 * length digest < length tail)%nat ->
  hex_loop digest (done_ ++ tail) (zlen done_) =
    match digest with
    | [] => Ret (done_ ++ tail)
    | _ => Ret (done_ ++ hex_of digest ++ 0 :: drop (2 * length digest + 1) tail)
    end.
Proof.
  intros Hd. revert done_ tail. induction Hd as [|x l Hx Hl IH]; intros done_ tail Ht; [done|].
  cbn [hex_loop length] in *. unfold hex_of in *. cbn [map concat].
  destruct (hex_two x Hx) as (a & b & ->). change (zlen [a; b]) with 2.
  destruct tail as [|t0 [|t1 [|t2 tail]]]; cbn [length] in Ht; try lia.
  pose proof (wrn_app done_ [t0; t1; t2] tail [a; b; 0] eq_refl) as Hw. cbn [app] in Hw |- *.
  rewrite Hw. cbn [cbind]. specialize (IH (done_ ++ [a; b]) (0 :: tail)).
  rewrite <- !app_assoc in IH. cbn [app length] in IH.
  replace (zlen (done_ ++ [a; b])) with (zlen done_ + 2) in IH by (zl; lia).
  rewrite IH by lia. destruct l as [|y l]; [done|].
  replace (2 * S (length (y :: l)) + 1)%nat with (S (S (S (2 * length (y :: l)))))%nat by lia.
  replace (2 * length (y :: l) + 1)%nat with (S (2 * length (y :: l))) by lia. done.
Qed.

Lemma find_firmware_run hex rest l i :
  Forall (fun fw => Forall (fun x => x <> 0) (md5sum fw)) l -> Forall (fun x => x <> 0) hex ->
  exists j, find_firmware (hex ++ 0 :: rest) l i = Ret j /\
    match list_find (fun fw => md5sum fw = hex) l with
    | Some (k, _) => j = i + Z.of_nat k
    | None => j = 0
    end.
Proof.
  intros Hl Hh. revert i. induction Hl as [|fw l Hfw _ IH]; intros i; cbn [find_firmware]; [by eexists|].
  assert (Hs : streq (hex ++ 0 :: rest) (md5sum fw) = Ret (bool_decide (md5sum fw = hex))).
  { clear IH. revert Hh Hfw. generalize (md5sum fw) as s. induction hex as [|c hex IHh]; intros [|d s] Hh Hs; cbn [streq app].
    - done.
    - inversion Hs. by ifdec.
    - inversion Hh. by ifdec.
    - inversion Hh; inversion Hs; subst. destruct (Z.eqb_spec c d) as [->|Hne].
      + rewrite IHh by done. f_equal. apply bool_decide_ext. naive_solver.
      + rewrite bool_decide_eq_false_2; [done|]. naive_solver. }
  rewrite Hs. cbn [cbind list_find]. destruct (decide (md5sum fw = hex)) as [He|He].
  - rewrite bool_decide_eq_true_2 by done. eexists. split; [done|]. cbn. lia.
  - rewrite bool_decide_eq_false_2 by done. destruct (IH (i + 1)) as (j & -> & Hj).
    eexists. split; [done|]. destruct (list_find _ l) as [[k ?]|]; cbn; lia.
Qed.

Lemma hex_text digest : bytes_ok digest -> Forall (fun x => x <> 0) (hex_of digest).
Proof.
  assert (Hc : forall x, 0 <= x < 16 -> hex_char x <> 0) by (intros x ?; unfold hex_char; csplit; lia).
  assert (Hg : forall fuel x, 0 <= x -> Forall (fun x => x <> 0) (hex_go fuel x)).
  { induction fuel as [|fuel IH]; intros x Hx; cbn [hex_go]; [constructor|]. csplit.
    - repeat constructor. apply Hc. lia.
    - apply Forall_app. split; [apply IH; apply Z.div_pos; lia|]. repeat constructor. apply Hc. dlia. }
  induction 1 as [|x l Hx _ IH]; [constructor|]. unfold hex_of in *. cbn [map concat].
  apply Forall_app. split; [|done]. unfold fmt_x. apply Forall_app. split; [|apply Hg; apply Hx].
  apply Forall_forall. by intros y [-> _]%elem_of_replicate.
Qed.

(** The version told is that of the firmware whose digest the file has, or the
    unknown one; a digest with a zero byte is always unknown. *)
Theorem firmware_identified md5
  (Hl : length md5 = 16%nat) (Hb : bytes_ok md5) :
  exists i, read_adsp_version md5 = Ret i /\ 0 <= i < zlen known_adsp_fw /\
    (0 ∈ md5 -> i = 0) /\
    (0 ∉ md5 -> match list_find (fun fw => md5sum fw = hex_of md5) known_adsp_fw with
                | Some (k, _) => i = Z.of_nat k
                | None => i = 0
                end).
Proof.
  unfold read_adsp_version.
  assert (Hw : wrn (replicate 64 0) 0 md5 = Ret (md5 ++ replicate 48 0)).
  { rewrite wrn_ok by (unfold zlen; rewrite ?length_replicate; lia). by rewrite Hl. }
  rewrite Hw. cbn [cbind]. destruct (decide (0 ∈ md5)) as [Hz|Hz].
  - assert (Hc : exists s, cstr (md5 ++ replicate 48 0) = Ret s /\ zlen s < zlen md5).
    { clear Hw Hl. induction md5 as [|x md5 IH]; [by apply not_elem_of_nil in Hz|]. cbn [cstr app].
      destruct (Z.eqb_spec x 0) as [->|Hx]; [eexists; split; [done|zl; pose proof (zlen_nonneg md5); lia]|].
      apply elem_of_cons in Hz as [?|Hz]; [congruence|]. inversion Hb; subst.
      destruct IH as (s & -> & Hs); [done..|]. eexists. split; [done|]. zl. lia. }
    destruct Hc as (s & -> & Hs). cbn [cbind]. assert (zlen md5 = 16) by (unfold zlen; lia). ifdec.
    exists 0. split; [done|]. split; [by vm_compute|]. by split.
  - assert (Hn : Forall (fun x => x <> 0) md5) by (apply list.Forall_forall; intros x Hx ->; done).
    change (replicate 48 0) with (0 :: replicate 47 0). rewrite cstr_app by done. cbn [cbind].
    assert (zlen md5 = 16) by (unfold zlen; lia). ifdec.
    pose proof (hex_loop_run md5 [] (replicate 64 0) Hb) as Hh. rewrite length_replicate, Hl in Hh. specialize (Hh ltac:(lia)).
    change (zlen (@nil Z)) with 0 in Hh. cbn [app] in Hh. rewrite Hh. clear Hh.
    destruct md5 as [|x0 md5']; [done|]. set (md5 := x0 :: md5') in *. cbn [cbind].
    destruct (find_firmware_run (hex_of md5) (drop (2 * 16 + 1) (replicate 64 0)) known_adsp_fw 0) as (j & Hj & Hf);
      [by repeat constructor|by apply hex_text|].
    exists j. split; [done|]. split; [|split; [done|intros _]].
    + destruct (list_find _ _) as [[k fw]|] eqn:E; subst j; [|by vm_compute].
      apply list_find_Some in E as (Hk%lookup_lt_Some & _). unfold zlen. lia.
    + destruct (list_find _ _) as [[k fw]|]; [|done]. lia.
Qed.
Definition ocpu_digest : list Z :=
  [0x00; 0xf6; 0x76; 0x3a; 0x96; 0xbc; 0x70; 0x2e; 0xaf; 0x71; 0x0c; 0xc9; 0x28; 0xb6; 0xfa; 0x99].
Theorem firmware_identified_witness :
  length ocpu_digest = 16%nat /\ bytes_ok ocpu_digest /\
  exists i, read_adsp_version ocpu_digest = Ret i /\ 0 <= i < zlen known_adsp_fw /\
    (0 ∈ ocpu_digest -> i = 0) /\
    (0 ∉ ocpu_digest -> match list_find (fun fw => md5sum fw = hex_of ocpu_digest) known_adsp_fw with
                        | Some (k, _) => i = Z.of_nat k
                        | None => i = 0
                        end).
Proof.
  assert (Hb : bytes_ok ocpu_digest) by (repeat constructor; discriminate).
  split; [reflexivity|]. split; [exact Hb|]. apply (firmware_identified ocpu_digest); [reflexivity|exact Hb].
Defined.

(** The digest of the table's fifth firmware begins with a zero byte: it is never
    recognised. *)
Example ocpu_unknown :
  map md5sum (filter (fun fw => md5sum fw = hex_of ocpu_digest) known_adsp_fw) = [hex_of ocpu_digest] /\
  read_adsp_version ocpu_digest = Ret 0.
Proof. by vm_compute. Qed.
