(* ===== verification/Oqticonf.v ===== *)
(** The tool the boot scripts ask for settings (src/oqticonf.c): the flags of the
    misc partition and the internal network, each as the status it exits with;
    and what starting any program that reads the settings does to their files. *)

From stdpp Require Import base list numbers option strings.
From Stdlib Require Import ZArith Lia.
From S2P Require Import Prelude Libc Eff Config Helpers.

(** * Options *)

(** getopt(3) for options without arguments: what its calls return, one after the
    other, before the -1. Arguments that are not options are passed over. *)
Fixpoint getopt (opts : list Z) (argv : list (list Z)) : list Z :=
  match argv with
  | [] => []
  | [45; 45] :: _ => []
  | (45 :: c :: r) :: argv =>
      map (fun x => if bool_decide (x ∈ opts) then x else 63) (c :: r) ++ getopt opts argv
  | _ :: argv => getopt opts argv
  end.

(** * The misc partition *)

Definition ADB_EN_MAGIC : list Z := zs "persistent_adb_on".

Inductive tool_action :=
| Disk (a : cfg_action)
| Stdout (text : list Z)
| Stderr (text : list Z).
Definition MT (A : Type) : Type := M cfg_state tool_action A.
Definition out (text : string) : MT unit := emit (Stdout (zs text ++ [10])).
Definition err (text : string) : MT unit := emit (Stderr (zs text ++ [10])).

(** A run of a program: the outcomes of its mounts and opens, what malloc(3)
    leaves in the settings, the stack under the 32 bytes of a flag, the misc
    partition and whether read(2) fails on it, and its arguments. *)
Record program_run := {
  r_env : cfg_env;
  r_heap : config_prototype;
  r_stack : list Z;
  r_misc : option (list Z);
  r_reads : bool;
  r_args : list (list Z)
}.

Section Tool.
Variable r : program_run.

Definition adb_state : MT Z :=
  match r_misc r with
  | None => err "Error opening misc partition to read adb flag " ;> ret 1
  | Some part =>
      if negb (r_reads r) then out "Can't read ADB state, forcing ADB on" ;> ret 1
      else
        do* buff := lift (wrn (r_stack r) 0 (read_at 64 (length ADB_EN_MAGIC + 1) part)) in
        do* same := lift (streq buff ADB_EN_MAGIC) in
        if same : bool then out "Persistent ADB is enabled" ;> ret 1
        else out "Persistent ADB is disabled" ;> ret 0
  end.
Definition usb_audio_state : MT Z :=
  match r_misc r with
  | None => err "Error opening misc partition to read audio flag " ;> ret 0
  | Some part =>
      if negb (r_reads r) then out "Can't read from the misc partition, disabling USB audio" ;> ret 0
      else
        do* buff := lift (wrn (r_stack r) 0 (read_at 96 (length PERSIST_USB_AUD_MAGIC + 1) part)) in
        do* same := lift (streq buff PERSIST_USB_AUD_MAGIC) in
        if same : bool then out "USB Audio is enabled" ;> ret 1
        else out "USB Audio is disabled" ;> ret 0
  end.

(** * main *)

(** The defaults, and the file on top of them. *)
Definition load_settings : MT Z :=
  modifyM (fun s => let* c := set_initial_config (r_heap r) in Ret (with_settings c s)) ;>
  (fun s => let* '(a, s, t) := read_settings_from_file (r_env r) s in Ret (a, s, map Disk t)).
Definition internal_state : MT Z :=
  do* s := get in
  let on := allow_internal_modem_connectivity (settings s) in
  (if on =? 0 then out "Internal modem connectivity is disabled" else out "Internal modem connectivity is enabled") ;>
  ret on.
Definition help : MT Z :=
  out "openQTI config reader version 0.8.0 " ;> out "Options:" ;> out " -a: Is ADB enabled?" ;>
  out " -u: Is USB audio enabled?" ;> out " -n: Is internal networking enabled?" ;>
  out " -v: Show build version" ;> out " -?: Show this list" ;> ret 0.
(** The first option decides: every case of the loop returns. *)
Definition answer (opt : option Z) : MT Z :=
  match opt with
  | None => ret 0
  | Some c =>
      if c =? 97 then adb_state
      else if c =? 117 then usb_audio_state
      else if c =? 110 then internal_state
      else help
  end.
Definition main : MT Z :=
  do* _ := load_settings in answer (head (getopt (zs "aun?") (r_args r))).
End Tool.

(** A run of the tool from the files it finds; the memory goes with it. *)
Definition oqticonf (r : program_run) (s : cfg_state) : cres (Z * cfg_state) :=
  let* '(status, s', _) := main r s in Ret (status, s').
Fixpoint runs (l : list program_run) (s : cfg_state) : cres (list Z * cfg_state) :=
  match l with
  | [] => Ret ([], s)
  | r :: l => let* '(a, s) := oqticonf r s in let* '(b, s) := runs l s in Ret (a :: b, s)
  end.

(** * The flags *)

Lemma streq_ends buf s : (length s < length buf)%nat -> exists b, streq buf s = Ret b.
Proof.
  revert s. induction buf as [|x buf IH]; intros s Hl; cbn [length] in Hl; [lia|]. cbn [streq].
  destruct s as [|c s]; [eauto|]. cbn [length] in Hl. destruct (x =? c); [apply IH; lia|eauto].
Qed.
(** What the tool reads of the flag of the sound, with its NUL. *)
Definition usb_flag (part : list Z) : bool :=
  bool_decide (read_at 96 23 part = PERSIST_USB_AUD_MAGIC ++ [0]).
Lemma usb_magic_text : Forall (fun x => x <> 0) PERSIST_USB_AUD_MAGIC.
Proof. repeat constructor; discriminate. Qed.

Lemma flag_read stack off magic part :
  length stack = 32%nat -> (length magic < 32)%nat -> (off + 32 <= length part)%nat -> Forall (fun x => x <> 0) magic ->
  exists buff, wrn stack 0 (read_at off (length magic + 1) part) = Ret buff /\
    streq buff magic = Ret (bool_decide (read_at off (length magic + 1) part = magic ++ [0])).
Proof.
  intros Hs Hm Hp Ht. assert (Hl : length (read_at off (length magic + 1) part) = S (length magic))
    by (unfold read_at; rewrite length_take, length_drop; lia).
  rewrite wrn_ok by (unfold zlen; lia). eexists. split; [reflexivity|]. change (take (Z.to_nat 0) stack) with (@nil Z). cbn [app].
  by apply streq_magic.
Qed.
Lemma usb_stored mode part :
  (128 <= length part)%nat ->
  usb_flag (write_at 96 (flag_bytes (if mode =? AUDIO_MODE_USB then PERSIST_USB_AUD_MAGIC else [])) part) = (mode =? AUDIO_MODE_USB).
Proof.
  intros Hp. unfold usb_flag. set (magic := if mode =? AUDIO_MODE_USB then PERSIST_USB_AUD_MAGIC else []).
  assert (Hm : length (flag_bytes magic) = 32%nat) by (apply length_flag_bytes; unfold magic; csplit; vm_compute; lia).
  rewrite read_write_prefix by lia. unfold magic. by csplit; vm_compute.
Qed.

(** * A run *)

(** The mounts and opens of the run succeed, and its arrays have their sizes. *)
Definition good_run (r : program_run) : Prop :=
  c_rw_ok (r_env r) = true /\ c_open_conf (r_env r) = true /\ c_open_boot (r_env r) = true /\
  arrays_ok (r_heap r) /\ length (r_stack r) = 32%nat.

Lemma initial_config heap : arrays_ok heap -> exists c, set_initial_config heap = Ret c /\ arrays_ok c.
Proof.
  unfold arrays_ok, texts. intros Ha. repeat (apply Forall_cons in Ha as [? Ha]). clear Ha.
  unfold set_initial_config.
  rewrite !snprintf_fits by (rewrite ?H, ?H0, ?H1, ?H2, ?H3, ?H4; vm_compute; congruence). cbn [cbind].
  eexists. split; [reflexivity|].
  repeat (apply Forall_cons_2; [first [done | apply (zlen_written (zs _)); [by vm_compute|done]]|]). constructor.
Qed.

Lemma load_run r c s file :
  good_run r -> storable c -> settings_text c = Ret file -> conf_file s = Some file ->
  exists s1 tr file', load_settings r s = Ret (0, s1, tr) /\
    settings_eq (logging_on s c) (settings s1) /\ settings_text (logging_on s c) = Ret file' /\
    conf_file s1 = Some file' /\ boot_file s1 = counted (r_env r) s.
Proof.
  intros (Hrw & Ho & _ & Ha & _) Hst Hf Hc. destruct (initial_config _ Ha) as (c0 & H0 & Ha0).
  unfold load_settings, modifyM. unfold bind. rewrite H0. cbn [cbind].
  destruct (read_run (r_env r) c (with_settings c0 s) file Hrw Ho Hst Hf Hc Ha0)
    as (s1 & tr & file' & Hr & Heq & Hf' & Hc' & Hb' & _).
  rewrite Hr. cbn [cbind]. eexists _, _, _. split; [reflexivity|]. split; [exact Heq|]. by split.
Qed.

Lemma answer_ends r opt s : good_run r -> exists a t, answer r opt s = Ret (a, s, t).
Proof.
  intros (_ & _ & _ & _ & Hs). unfold answer. destruct opt as [c|]; [|by eexists _, _].
  assert (Hb : forall off magic part, (length magic < 32)%nat -> exists buff b,
    wrn (r_stack r) 0 (read_at off (length magic + 1) part) = Ret buff /\ streq buff magic = Ret b).
  { intros off magic part Hm. assert (length (read_at off (length magic + 1) part) <= length magic + 1)%nat
      by (unfold read_at; rewrite length_take; lia).
    rewrite wrn_ok by (unfold zlen; lia). edestruct streq_ends as [b Hb]; [|eexists _, b; split; [reflexivity|exact Hb]].
    change (take (Z.to_nat 0) (r_stack r)) with (@nil Z). cbn [app Z.to_nat Nat.add]. rewrite length_app, length_drop. lia. }
  assert (length ADB_EN_MAGIC < 32 /\ length PERSIST_USB_AUD_MAGIC < 32)%nat as [H1 H2] by (vm_compute; lia).
  repeat csplit.
  - unfold adb_state, out, err. destruct (r_misc r) as [part|]; [|by eexists _, _].
    destruct (negb (r_reads r)); [by eexists _, _|]. destruct (Hb 64%nat ADB_EN_MAGIC part H1) as (buff & b & E1 & E2).
    rewrite (bind_lift _ _ _ _ E1), (bind_lift _ _ _ _ E2). by destruct b; eexists _, _.
  - unfold usb_audio_state, out, err. destruct (r_misc r) as [part|]; [|by eexists _, _].
    destruct (negb (r_reads r)); [by eexists _, _|]. destruct (Hb 96%nat PERSIST_USB_AUD_MAGIC part H2) as (buff & b & E1 & E2).
    rewrite (bind_lift _ _ _ _ E1), (bind_lift _ _ _ _ E2). by destruct b; eexists _, _.
  - unfold internal_state. rewrite bind_get. by destruct (_ =? 0); eexists _, _.
  - by eexists _, _.
Qed.

(** * Theorems *)

(** What an option is told: the two flags as they were stored, and the network of
    the settings. *)
Definition told (adb usb : bool) (c : config_prototype) (opt : option Z) : Z :=
  match opt with
  | Some 97 => if adb then 1 else 0
  | Some 117 => if usb then 1 else 0
  | Some 110 => allow_internal_modem_connectivity c
  | _ => 0
  end.
#[export] Instance internal_proper : Proper (settings_eq ==> eq) allow_internal_modem_connectivity.
Proof. intros c c' [Hn _]. unfold numbers in Hn. congruence. Qed.
Lemma logging_internal s c :
  allow_internal_modem_connectivity (logging_on s c) = allow_internal_modem_connectivity c.
Proof. unfold logging_on. by destruct (_ && _). Qed.

Lemma answer_told r part opt s c :
  good_run r -> r_misc r = Some part -> r_reads r = true -> (128 <= length part)%nat ->
  settings_eq c (settings s) ->
  exists t, answer r opt s = Ret (told (adb_flag part) (usb_flag part) c opt, s, t).
Proof.
  intros (_ & _ & _ & _ & Hs) Hm Hr Hp Heq. unfold answer, told. destruct opt as [x|]; [|by eexists].
  destruct (flag_read (r_stack r) 64 ADB_EN_MAGIC part Hs) as (buff & E1 & E2); [vm_compute; lia|lia|exact adb_magic_text|].
  destruct (flag_read (r_stack r) 96 PERSIST_USB_AUD_MAGIC part Hs) as (buff2 & E3 & E4);
    [vm_compute; lia|lia|exact usb_magic_text|].
  change (streq buff ADB_EN_MAGIC = Ret (adb_flag part)) in E2.
  change (streq buff2 PERSIST_USB_AUD_MAGIC = Ret (usb_flag part)) in E4.
  destruct (decide (x = 97)) as [->|H97].
  { cbn [Z.eqb Pos.eqb]. unfold adb_state, out. rewrite Hm, Hr. cbn [negb].
    rewrite (bind_lift _ _ _ _ E1). destruct (adb_flag part); rewrite (bind_lift _ _ _ _ E2); by eexists. }
  destruct (decide (x = 117)) as [->|H117].
  { cbn [Z.eqb Pos.eqb]. unfold usb_audio_state, out. rewrite Hm, Hr. cbn [negb].
    rewrite (bind_lift _ _ _ _ E3). destruct (usb_flag part); rewrite (bind_lift _ _ _ _ E4); by eexists. }
  destruct (decide (x = 110)) as [->|H110].
  { cbn [Z.eqb Pos.eqb]. unfold internal_state. rewrite bind_get, (internal_proper _ _ Heq). by destruct (_ =? 0); eexists. }
  rewrite !(proj2 (Z.eqb_neq _ _)) by done.
  assert (match x with 97 => if adb_flag part then 1 else 0 | 117 => if usb_flag part then 1 else 0
    | 110 => allow_internal_modem_connectivity c | _ => 0 end = 0) as ->; [|by eexists].
  repeat match goal with |- match ?p with _ => _ end = _ => destruct p; try done end.
Qed.

(** What the boot scripts are told is what was stored: after the daemon stored
    the flags of ADB and of the sound in the misc partition and the settings in
    their file, a run of the tool exits with the flag or the setting its first
    option asks for, whatever the stack and the fresh memory hold. *)
Theorem tool_tells_stored en mode c b b' part t file r s
  (Hpart : misc b = Some part) (Hlen : (128 <= length part)%nat)
  (Hstore : (store_adb_setting en ;> store_audio_output_mode mode) b = Ret (tt, b', t))
  (Hfile : settings_text c = Ret file) (Hst : storable c) (Hs : conf_file s = Some file)
  (Hr : good_run r) (Hreads : r_reads r = true) (Hmisc : r_misc r = misc b') :
  exists s', oqticonf r s =
    Ret (told en (mode =? AUDIO_MODE_USB) c (head (getopt (zs "aun?") (r_args r))), s').
Proof.
  unfold store_adb_setting, store_audio_output_mode in Hstore.
  rewrite (bind_step _ _ _ _ _ (store_flag_run part 64 (if en then PERSIST_ADB_ON_MAGIC else []) b Hpart ltac:(destruct en; vm_compute; lia))) in Hstore.
  set (part1 := write_at 64 _ part) in Hstore.
  rewrite (store_flag_run part1 96 (if mode =? AUDIO_MODE_USB then PERSIST_USB_AUD_MAGIC else []) (upd_misc (Some part1) b) eq_refl ltac:(csplit; vm_compute; lia)) in Hstore.
  injection Hstore as <- _. cbn [misc upd_misc] in Hmisc.
  destruct (adb_stored en part Hlen) as (Hl1 & Ha1 & _). fold part1 in Hl1, Ha1.
  destruct (audio_stored mode part1 ltac:(lia)) as (Hl2 & Ha2 & _).
  pose proof (usb_stored mode part1 ltac:(lia)) as Hu2. rewrite Ha1 in Ha2.
  destruct (load_run r c s file Hr Hst Hfile Hs) as (s1 & tr & file' & Hload & Heq & _).
  destruct (answer_told r _ (head (getopt (zs "aun?") (r_args r))) s1 (logging_on s c) Hr Hmisc Hreads ltac:(lia) Heq) as [t' Ht].
  rewrite Ha2, Hu2 in Ht. unfold oqticonf, main. rewrite (bind_after _ _ _ _ _ _ Hload), Ht. unfold after.
  cbn [cbind]. exists s1. do 2 f_equal. unfold told.
  destruct (head _) as [x|]; [|done]. by rewrite logging_internal.
Qed.

(** The settings after the count of starts has gone from [b] to [e]. *)
Definition after_starts (e : Z) (c : config_prototype) : config_prototype :=
  if (4 <? e) && (persistent_logging c =? 0) then set_persistent_logging_field 1 c else c.
Lemma run_counted r c s file b :
  good_run r -> storable c -> settings_text c = Ret file -> conf_file s = Some file ->
  boot_file s = Some (fmt_i b) -> 0 <= b < 2147483647 ->
  exists status s' file', oqticonf r s = Ret (status, s') /\ settings_text (after_starts (b + 1) c) = Ret file' /\
    conf_file s' = Some file' /\ boot_file s' = Some (fmt_i (b + 1)).
Proof.
  intros Hr Hst Hf Hc Hb Hlt. assert (boots s = b) as Hbs by (unfold boots; rewrite Hb, scan_fmt by lia; lia).
  destruct (load_run r c s file Hr Hst Hf Hc) as (s1 & tr & file' & Hload & _ & Hf' & Hc' & Hb').
  destruct (answer_ends r (head (getopt (zs "aun?") (r_args r))) s1 Hr) as (a & t & Ha).
  unfold oqticonf, main. rewrite (bind_after _ _ _ _ _ _ Hload), Ha. unfold after. cbn [cbind].
  eexists _, s1, file'. split; [reflexivity|]. split.
  - rewrite <- Hf'. unfold after_starts, logging_on. rewrite Hbs.
    by replace (4 <? b + 1) with (3 <? b) by (apply eq_true_iff_eq; rewrite !Z.ltb_lt; lia).
  - split; [done|]. rewrite Hb'. unfold counted. destruct Hr as (_ & _ & -> & _). rewrite Hb, Hbs.
    by rewrite i32_small by lia.
Qed.
Lemma after_starts_twice e n c : 0 <= n -> after_starts (e + n) (after_starts e c) = after_starts (e + n) c.
Proof.
  intros Hn. unfold after_starts. destruct (Z.ltb_spec 4 e); cbn [andb]; [|done].
  rewrite (proj2 (Z.ltb_lt 4 (e + n))) by lia. cbn [andb].
  destruct (persistent_logging c =? 0) eqn:E; [done|]. by rewrite E.
Qed.
Lemma storable_after e c : storable c -> storable (after_starts e c).
Proof.
  intros Hc. unfold after_starts. destruct ((4 <? e) && (persistent_logging c =? 0)) eqn:E; [|done].
  pose proof (storable_logging {| settings := c; conf_file := None; boot_file := Some (zs "4") |} c Hc) as H.
  unfold logging_on in H. apply andb_prop in E as [_ E]. by rewrite E in H.
Qed.

(** C11: each run of the tool counts as a start of the modem that failed. From a
    count of [b], [n] runs with any options leave a count of [b + n], the settings
    as they were while that is 4 at most, and from then on the log is kept on
    the persistent partition. *)
Theorem runs_counted_as_starts l c s file b
  (Hr : Forall good_run l) (Hst : storable c) (Hf : settings_text c = Ret file) (Hs : conf_file s = Some file)
  (Hb : boot_file s = Some (fmt_i b)) (H0 : 0 <= b) (Hlt : b + zlen l < 2147483648) :
  exists statuses s' file', runs l s = Ret (statuses, s') /\
    settings_text (after_starts (b + zlen l) c) = Ret file' /\
    (l <> [] -> conf_file s' = Some file') /\ boot_file s' = Some (fmt_i (b + zlen l)).
Proof.
  revert c s file b Hst Hf Hs Hb H0 Hlt. induction Hr as [|r l Hr Hl IH]; intros c s file b Hst Hf Hs Hb H0 Hlt.
  - destruct (storable_text _ (storable_after (b + zlen (@nil program_run)) c Hst)) as [file' Hf'].
    eexists [], s, file'. split; [done|]. split; [done|]. split; [done|]. by rewrite Z.add_0_r.
  - rewrite zlen_cons in Hlt. pose proof (zlen_nonneg l).
    destruct (run_counted r c s file b Hr Hst Hf Hs Hb) as (a & s1 & f1 & Hrun & Hf1 & Hc1 & Hb1); [lia|].
    destruct (IH _ s1 f1 (b + 1) (storable_after _ c Hst) Hf1 Hc1 Hb1) as (sts & s2 & f2 & Hruns & Hf2 & Hc2 & Hb2); [lia..|].
    exists (a :: sts), s2, f2. cbn [runs]. rewrite Hrun. cbn [cbind]. rewrite Hruns. cbn [cbind].
    rewrite after_starts_twice in Hf2 by lia. replace (b + zlen (r :: l)) with (b + 1 + zlen l) by (rewrite zlen_cons; lia).
    split; [done|]. split; [done|]. split; [|done]. intros _. destruct l as [|r2 l]; [|by apply Hc2].
    cbn in Hruns. injection Hruns as <- <-. rewrite Hc1. f_equal. change (zlen (@nil program_run)) with 0 in Hf2.
    rewrite Z.add_0_r in Hf2. rewrite Hf1 in Hf2. by injection Hf2.
Qed.

(** * Concrete runs *)

Definition sample_run (args : list (list Z)) (misc : option (list Z)) : program_run :=
  {| r_env := sample_cfg_env; r_heap := set_user_name_field (replicate 128 7) sample_settings;
     r_stack := replicate 32 7; r_misc := misc; r_reads := true; r_args := args |}.
Lemma sample_good args misc : good_run (sample_run args misc).
Proof. by repeat constructor. Qed.
Definition settings_file : list Z := default [] (conf_file written_cfg).
Definition stored_files (b : Z) : cfg_state :=
  {| settings := sample_settings; conf_file := Some settings_file; boot_file := Some (fmt_i b) |}.

Lemma tool_tells_stored_witness :
  exists s', oqticonf (sample_run [zs "-u"]
      (Some (write_at 96 (flag_bytes PERSIST_USB_AUD_MAGIC) (write_at 64 (flag_bytes []) empty_part)))) (stored_files 0) = Ret (1, s').
Proof.
  set (r := sample_run _ _).
  exact (tool_tells_stored false AUDIO_MODE_USB sample_settings sample_board _ empty_part [] settings_file r (stored_files 0)
    eq_refl ltac:(by vm_compute; lia) eq_refl eq_refl sample_storable eq_refl (sample_good _ _) eq_refl eq_refl).
Defined.

(** The scripts of one boot run the tool five times: the one of the USB functions
    with -a, -u and -n, those of the network and of the firewall with -n. *)
Definition boot_scripts : list program_run :=
  map (fun a => sample_run [zs a] (Some empty_part)) ["-a"; "-u"; "-n"; "-n"; "-n"]%string.
(** After a clean shutdown, which stores a count of 0, one boot keeps the log. *)
Lemma runs_counted_as_starts_witness :
  exists statuses s' file', runs boot_scripts (stored_files 0) = Ret (statuses, s') /\
    settings_text (set_persistent_logging_field 1 sample_settings) = Ret file' /\
    (boot_scripts <> [] -> conf_file s' = Some file') /\ boot_file s' = Some (fmt_i 5).
Proof.
  exact (runs_counted_as_starts boot_scripts sample_settings (stored_files 0) settings_file 0
    ltac:(unfold boot_scripts; cbn [map]; repeat (apply Forall_cons_2; [apply sample_good|]); apply Forall_nil_2)
    sample_storable eq_refl eq_refl eq_refl ltac:(lia) ltac:(vm_compute; reflexivity)).
Defined.
Example four_runs_leave_it : exists s', runs (take 4 boot_scripts) (stored_files 0) = Ret ([0; 0; 1; 1], s') /\
  conf_file s' = Some settings_file.
Proof. eexists. split; by vm_compute. Qed.

(** The help names an option that is not one: it prints the help as any other. *)
Example version_prints_help :
  main (sample_run [zs "-v"] None) (stored_files 0) = main (sample_run [zs "-?"] None) (stored_files 0).
Proof. by vm_compute. Qed.
(** Without the partition ADB is told to be on; a partition that is not read, too. *)
Example missing_partition : exists s' t, main (sample_run [zs "-a"] None) (stored_files 0) = Ret (1, s', t).
Proof. eexists _, _. by vm_compute. Qed.
