(* ===== verification/Timesync.v ===== *)
(** The clock (src/timesync.c): the thread that asks the baseband for the time of
    the network over the AT port and sets the clock of the system. *)

From stdpp Require Import base list numbers option strings.
From Stdlib Require Import ZArith Lia.
From S2P Require Import Prelude Libc Eff Sms Config Helpers.

(** * State *)

Record time_sync_data := {
  year : Z; month : Z; day : Z; hour : Z; minute : Z; second : Z;   (* uint32_t *)
  timezone_offset : Z;
  negative_offset : bool
}.
Record clock := { ts_data : time_sync_data; ts_board : board }.
#[export, refine] Instance clock_board : Part board clock :=
  {| part := ts_board; with_part b c := {| ts_data := ts_data c; ts_board := b |} |}.
Proof. all: abstract by intros; repeat match goal with c : clock |- _ => destruct c end. Defined.
Definition on_time (f : time_sync_data -> time_sync_data) (c : clock) : clock :=
  {| ts_data := f (ts_data c); ts_board := ts_board c |}.

Definition set_date (y mo d : Z) (t : time_sync_data) : time_sync_data :=
  {| year := y; month := mo; day := d; hour := hour t; minute := minute t; second := second t;
     timezone_offset := timezone_offset t; negative_offset := negative_offset t |}.
Definition set_hour (h mi s : Z) (t : time_sync_data) : time_sync_data :=
  {| year := year t; month := month t; day := day t; hour := h; minute := mi; second := s;
     timezone_offset := timezone_offset t; negative_offset := negative_offset t |}.
Definition set_timezone (z : Z) (t : time_sync_data) : time_sync_data :=
  {| year := year t; month := month t; day := day t; hour := hour t; minute := minute t; second := second t;
     timezone_offset := z; negative_offset := negative_offset t |}.
Definition set_negative (v : bool) (t : time_sync_data) : time_sync_data :=
  {| year := year t; month := month t; day := day t; hour := hour t; minute := minute t; second := second t;
     timezone_offset := timezone_offset t; negative_offset := v |}.

Inductive clock_action :=
| Line (a : board_action)
| Pause (seconds : Z)
| SetTime (sec : Z).               (* settimeofday(2) *)
Definition MK (A : Type) : Type := M clock clock_action A.

(** What the thread meets: whether the network is in service at each poll, what
    the port answers to each command of each attempt, what the stack holds behind
    the two characters of a number, rand(3), and the conversions of times. *)
Record clock_env := {
  k_in_service : nat -> bool;
  k_polls : nat;
  k_reply : Z -> Z -> at_reply;
  k_stack : list Z;
  k_rand : Z -> Z;
  k_localtime : bool;
  k_mktime : tm -> Z
}.

Definition SET_CTZU : list Z := zs "AT+CTZU=3" ++ [13; 0].
Definition GET_QLTS : list Z := zs "AT+QLTS" ++ [13; 0].
Definition GET_CCLK : list Z := zs "AT+CCLK?" ++ [13; 0].

Definition get_timezone (t : time_sync_data) : Z := timezone_offset t.
Definition is_timezone_offset_negative (t : time_sync_data) : bool := negative_offset t.

Section Clock.
Variable env : clock_env.

(** [sleep(5)] until the network is in service. *)
Fixpoint wait_service (fuel : nat) (k : nat) : MK unit :=
  match fuel with
  | O => lift Spin
  | S fuel => emit (Pause 5) ;> if k_in_service env k then ret tt else wait_service fuel (S k)
  end.

Definition at_command (round which : Z) (cmd response : list Z) : MK (Z * list Z) :=
  zoom Line (send_at_command (k_reply env round which) cmd response 128).

(** strchr(3) of the answer's first quote, as an offset. *)
Fixpoint index_of (c : Z) (s : list Z) : option Z :=
  match s with
  | [] => None
  | x :: s => if x =? c then Some 0 else option_map Z.succ (index_of c s)
  end.
Definition quote_of (response : list Z) : cres (option Z) :=
  let* s := cstr response in Ret (index_of 34 s).
(** get_int_from_str(begin, offset); [begin] may be NULL. *)
Definition number_at (response : list Z) (begin_ : option Z) (offset : Z) : cres Z :=
  match begin_ with
  | None => Oob
  | Some b => get_int_from_str (k_stack env) (drop (Z.to_nat b) response) offset
  end.
Definition char_at (response : list Z) (begin_ : option Z) (offset : Z) : cres Z :=
  match begin_ with None => Oob | Some b => rd response (b + offset) end.

(** The date of both answers: the one of +QLTS has two more digits in the year. *)
Definition read_time (response : list Z) (begin_ : option Z) (base : Z) : MK unit :=
  let number off := lift (number_at response begin_ (base + off)) in
  do* y := number 1 in
  do* mo := number 4 in
  do* d := number 7 in
  do* h := number 10 in
  do* mi := number 13 in
  do* s := number 16 in
  do* z := number 19 in
  modify (on_time (fun t => set_timezone z (set_hour (u32 h) (u32 mi) (u32 s) (set_date (u32 y) (u32 mo) (u32 d) t)))) ;>
  when (negb (z =? 0))
    (modify (on_time (set_timezone (Z.quot z 4))) ;>
     do* sign := lift (char_at response begin_ (base + 18)) in
     when (sign =? 45) (modify (on_time (set_negative true)))).

Definition network_time (cmd_ret : Z) (response : list Z) : MK bool :=
  if negb (cmd_ret =? 0) then ret false
  else
    do* text := lift (cstr response) in
    match strstr text (zs "+QLTS: ") with
    | None => ret false
    | Some _ =>
        do* begin_ := lift (quote_of response) in
        do* century := lift (number_at response begin_ 1) in
        if negb (century =? 20) then ret false
        else
          do* y := lift (number_at response begin_ 3) in
          if y <? 23 then ret false
          else read_time response begin_ 2 ;> ret true
    end.
Definition local_time (response : list Z) : MK bool :=
  do* text := lift (cstr response) in
  match strstr text (zs "+CCLK: ") with
  | None => ret false
  | Some _ =>
      do* begin_ := lift (quote_of response) in
      match begin_ with
      | None => ret false
      | Some _ =>
          do* y := lift (number_at response begin_ 1) in
          if y =? 80 then ret false
          else read_time response begin_ 0 ;> ret true
      end
  end.

Definition invalid_date (t : time_sync_data) : bool :=
  (12 <? month t) || (31 <? day t) || (23 <? hour t) || (59 <? minute t).

(** One pass of the loop. *)
Definition attempt (round : Z) (response : list Z) : MK (bool * list Z) :=
  do* response := lift (memset response 0 128) in
  do* '(_, response) := at_command round 0 SET_CTZU response in
  emit (Pause 1) ;>
  do* '(cmd_ret, response) := at_command round 1 GET_QLTS response in
  do* sync_completed := network_time cmd_ret response in
  do* '(sync_completed, response) :=
    (if sync_completed : bool then ret (true, response)
     else
       emit (Pause 1) ;>
       do* '(_, response) := at_command round 2 GET_CCLK response in
       do* ok := local_time response in ret (ok, response)) in
  do* c := get in
  emit (Pause (k_rand env round mod 9 + 1)) ;>
  ret (sync_completed && negb (invalid_date (ts_data c)), response).

(** Whether the time was found; the thread gives up after 61 attempts. *)
Fixpoint sync_loop (fuel : nat) (retries : Z) (response : list Z) : MK bool :=
  match fuel with
  | O => lift Spin
  | S fuel =>
      do* '(sync_completed, response) := attempt retries response in
      let retries := retries + 1 in
      if 60 <? retries then ret false
      else if sync_completed : bool then ret true
      else sync_loop fuel retries response
  end.

Definition gmtoff (t : time_sync_data) : Z :=
  if timezone_offset t =? 0 then 0
  else (if negative_offset t then -1 else 1) * (timezone_offset t * 60 * 60).
Definition broken_down (t : time_sync_data) : tm :=
  {| tm_year := i32 (year t + 100); tm_mon := i32 (month t - 1); tm_mday := i32 (day t);
     tm_hour := i32 (hour t); tm_min := i32 (minute t); tm_sec := i32 (second t) |}.

Definition time_sync (heap : list Z) : MK unit :=
  wait_service (k_polls env) 0 ;>
  do* found := sync_loop 61 0 heap in
  if found : bool then
    do* c := get in
    if k_localtime env then
      emit (SetTime (i32 (k_mktime env (broken_down (ts_data c)) + gmtoff (ts_data c))))
    else lift Oob
  else ret tt.
End Clock.

(** * The loop ends *)

Definition ends {S E A} (m : M S E A) : Prop := forall s, m s <> Spin.
Section Ends.
Context {S E : Type}.
Lemma ends_ret {A} (a : A) : ends (@ret S E A a).
Proof. by intros s. Qed.
Lemma ends_get : ends (@get S E).
Proof. by intros s. Qed.
Lemma ends_modify f : ends (@modify S E f).
Proof. by intros s. Qed.
Lemma ends_emit e : ends (@emit S E e).
Proof. by intros s. Qed.
Lemma ends_lift {A} (c : cres A) : c <> Spin -> ends (@lift S E A c).
Proof. intros Hc s. unfold lift. by destruct c. Qed.
Lemma ends_bind {A B} (m : M S E A) (k : A -> M S E B) : ends m -> (forall a, ends (k a)) -> ends (bind m k).
Proof.
  intros Hm Hk s. unfold bind. specialize (Hm s). destruct (m s) as [[[a s'] t]| |]; [|done..]. cbn [cbind].
  specialize (Hk a s'). by destruct (k a s') as [[[b s''] t']| |].
Qed.
Lemma ends_when b (m : M S E unit) : ends m -> ends (when b m).
Proof. by destruct b. Qed.
Lemma ends_zoom {T F A} `{Part T S} (f : F -> E) (m : M T F A) : ends m -> ends (zoom f m).
Proof. intros Hm s. unfold zoom. specialize (Hm (part s)). by destruct (m (part s)) as [[[a t] l]| |]. Qed.
End Ends.
#[local] Hint Resolve ends_ret ends_get ends_modify ends_emit ends_when ends_zoom : oqti.
Ltac ends_step :=
  match goal with
  | |- ends (bind _ _) => apply ends_bind; [|intros ?]
  | |- ends (if ?c then _ else _) => destruct c
  | |- ends (when _ _) => apply ends_when
  | |- ends (match ?x with _ => _ end) => destruct x
  | |- ends (lift _) => apply ends_lift
  | |- ends _ => solve [auto with oqti]
  end.
Ltac ends_auto := repeat ends_step.

Lemma cstr_ends b : cstr b <> Spin.
Proof. induction b as [|x b IH]; [done|]. cbn [cstr]. destruct (x =? 0); [done|]. by destruct (cstr b). Qed.
Lemma rdA_ends {A} (b : list A) i : rdA b i <> Spin.
Proof. unfold rdA. destruct (_ <? _); [done|]. by destruct (b !! _). Qed.
Lemma strtol_ends m : strtol m <> Spin.
Proof.
  assert (Hd : forall l acc, digits_in acc l <> Spin).
  { induction l as [|c l IH]; intros acc; cbn [digits_in]; [done|]. by destruct (isdigit c). }
  assert (Hs : spaces_in m <> Spin).
  { induction m as [|c m IH]; cbn [spaces_in]; [done|]. by destruct (isspace c). }
  unfold strtol. destruct (spaces_in m) as [m'| |]; [|done..]. cbn [cbind].
  pose proof (rdA_ends m' 0). destruct (rd m' 0) as [c| |]; [|done..]. cbn [cbind].
  pose proof (Hd (if (c =? 45) || (c =? 43) then drop 1 m' else m') 0). by destruct (digits_in 0 _).
Qed.
Lemma int_ends stack str off : get_int_from_str stack str off <> Spin.
Proof.
  unfold get_int_from_str. pose proof (rdA_ends str off). destruct (rd str off) as [a| |]; [|done..]. cbn [cbind].
  pose proof (rdA_ends str (off + 1)). destruct (rd str (off + 1)) as [b| |]; [|done..]. apply strtol_ends.
Qed.
Lemma number_ends env r b off : number_at env r b off <> Spin.
Proof. destruct b; [apply int_ends|done]. Qed.
Lemma quote_ends r : quote_of r <> Spin.
Proof. unfold quote_of. pose proof (cstr_ends r). by destruct (cstr r). Qed.
#[local] Hint Resolve cstr_ends number_ends quote_ends wrn_no_spin : oqti.

Lemma send_at_ends port cmd response n : ends (send_at_command port cmd response n).
Proof. unfold send_at_command. ends_auto; auto with oqti. Qed.
#[local] Hint Resolve send_at_ends : oqti.
Lemma read_time_ends env r b base : ends (read_time env r b base).
Proof. unfold read_time. ends_auto; auto with oqti. destruct b; [apply rdA_ends|done]. Qed.
#[local] Hint Resolve read_time_ends : oqti.
Lemma attempt_ends env round r : ends (attempt env round r).
Proof.
  unfold attempt, at_command, network_time, local_time, memset. ends_auto; auto with oqti.
Qed.
Lemma sync_loop_ends env fuel retries r :
  61 <= retries + Z.of_nat fuel -> retries <= 60 -> ends (sync_loop env fuel retries r).
Proof.
  revert retries r. induction fuel as [|fuel IH]; intros retries r Hf Hr; [lia|]. cbn [sync_loop].
  apply ends_bind; [apply attempt_ends|]. intros [ok r']. csplit; [apply ends_ret|].
  destruct ok; [apply ends_ret|]. apply IH; lia.
Qed.
Lemma wait_ends env fuel k :
  (exists j, (k <= j < k + fuel)%nat /\ k_in_service env j = true) -> ends (wait_service env fuel k).
Proof.
  revert k. induction fuel as [|fuel IH]; intros k (j & Hj & Hs); [lia|]. cbn [wait_service].
  apply ends_bind; [apply ends_emit|]. intros _. destruct (k_in_service env k) eqn:E; [apply ends_ret|].
  apply IH. exists j. split; [|done]. assert (j <> k) by congruence. lia.
Qed.

(** Setting the clock is the last thing the thread does. *)
Definition no_time (a : clock_action) : Prop := match a with SetTime _ => False | _ => True end.
Lemma at_no_time env round which cmd r : emits no_time (at_command env round which cmd r).
Proof. unfold at_command. by apply emits_zoom. Qed.
Lemma pause_no_time n : emits no_time (emit (Pause n) : MK unit).
Proof. by apply emits_emit. Qed.
#[local] Hint Resolve at_no_time pause_no_time : oqti.
Lemma read_no_time env r b base : emits no_time (read_time env r b base).
Proof. unfold read_time. emits_auto. Qed.
#[local] Hint Resolve read_no_time : oqti.
Lemma attempt_no_time env round r : emits no_time (attempt env round r).
Proof. unfold attempt, network_time, local_time. emits_auto. Qed.
#[local] Hint Resolve attempt_no_time : oqti.
Lemma sync_no_time env fuel retries r : emits no_time (sync_loop env fuel retries r).
Proof. revert retries r. induction fuel as [|fuel IH]; intros; cbn [sync_loop]; emits_auto. Qed.
Lemma wait_no_time env fuel k : emits no_time (wait_service env fuel k).
Proof. revert k. induction fuel as [|fuel IH]; intros; cbn [wait_service]; emits_auto. Qed.

(** * The time of the network *)

Definition two (n : Z) : list Z := [digit (n / 10); digit (n mod 10)].
(** The date of a +QLTS answer, from the quote on. *)
Definition qlts_date (t : time_sync_data) (sign quarters : Z) : list Z :=
  34 :: two 20 ++ two (year t) ++ 47 :: two (month t) ++ 47 :: two (day t) ++ 44 :: two (hour t) ++
  58 :: two (minute t) ++ 58 :: two (second t) ++ sign :: two quarters.
Definition plausible (t : time_sync_data) : Prop :=
  23 <= year t < 100 /\ 0 <= month t <= 12 /\ 0 <= day t <= 31 /\ 0 <= hour t <= 23 /\
  0 <= minute t <= 59 /\ 0 <= second t < 100.

Lemma number_of_two stack x str off n :
  0 <= n < 100 -> isdigit x = false ->
  rd str off = Ret (digit (n / 10)) -> rd str (off + 1) = Ret (digit (n mod 10)) ->
  get_int_from_str (x :: stack) str off = Ret n.
Proof.
  intros Hn Hx Ha Hb. unfold get_int_from_str. rewrite Ha, Hb. cbn [cbind].
  assert (Hd : (digit (n mod 10) <? 48) || (57 <? digit (n mod 10)) = false)
    by (unfold digit; pose proof (Z.mod_pos_bound n 10); by ifdec).
  rewrite Hd. assert (0 <= n / 10 < 10 /\ 0 <= n mod 10 < 10) as [? ?] by dlia.
  pose proof (two_digits [] (n / 10) (n mod 10) [] stack x 0 ltac:(lia) ltac:(lia) Hx eq_refl) as H2.
  unfold get_int_from_str in H2. cbn [app] in H2. change (rd [digit (n / 10); digit (n mod 10)] 0) with (Ret (digit (n / 10))) in H2.
  change (rd [digit (n / 10); digit (n mod 10)] (0 + 1)) with (Ret (digit (n mod 10))) in H2. cbn [cbind] in H2.
  rewrite Hd in H2. rewrite H2. f_equal. dlia.
Qed.

Section Answer.
Context (env : clock_env) (x : Z) (stack : list Z) (Hstack : k_stack env = x :: stack) (Hx : isdigit x = false).

Lemma number_at_two response pre str off n :
  response = pre ++ str -> 0 <= n < 100 ->
  rd str off = Ret (digit (n / 10)) -> rd str (off + 1) = Ret (digit (n mod 10)) ->
  number_at env response (Some (zlen pre)) off = Ret n.
Proof.
  intros -> Hn Ha Hb. unfold number_at. rewrite Hstack.
  replace (Z.to_nat (zlen pre)) with (length pre) by (unfold zlen; lia). rewrite drop_app_length.
  by apply number_of_two.
Qed.

(** The data after a date was read: the timezone is in hours, rounded down, and
    the sign of an earlier one stays. *)
Definition read_data (t : time_sync_data) (sign quarters : Z) (old : time_sync_data) : time_sync_data :=
  {| year := year t; month := month t; day := day t; hour := hour t; minute := minute t; second := second t;
     timezone_offset := quarters / 4;
     negative_offset := negative_offset old || (negb (quarters =? 0) && (sign =? 45)) |}.

Lemma read_time_run response pre t sign quarters rest c :
  response = pre ++ qlts_date t sign quarters ++ rest -> plausible t -> 0 <= quarters < 100 ->
  read_time env response (Some (zlen pre)) 2 c = Ret (tt, on_time (read_data t sign quarters) c, []).
Proof.
  intros Hr (Hy & Hmo & Hd & Hh & Hmi & Hs) Hq. unfold read_time, plausible in *.
  unfold qlts_date, two in Hr. cbn [app] in Hr.
  do 7 (erewrite bind_lift by (eapply number_at_two; [exact Hr| |reflexivity|reflexivity]; lia)).
  autorewrite with eff. rewrite !u32_small by lia. destruct c as [old b]. unfold on_time, read_data.
  cbn [ts_data ts_board set_timezone set_hour set_date year month day hour minute second].
  destruct (Z.eqb_spec quarters 0) as [->|Hne]; cbn [negb when andb].
  - by rewrite orb_false_r.
  - autorewrite with eff. rewrite (bind_lift _ sign).
    2: { unfold char_at. rewrite Hr, rdA_app_r by lia. replace (zlen pre + (2 + 18) - zlen pre) with 20 by lia. reflexivity. }
    rewrite Z.quot_div_nonneg by lia. destruct (sign =? 45); cbn; [by rewrite orb_true_r|by rewrite orb_false_r].
Qed.

Lemma index_of_first c pre rest : c ∉ pre -> index_of c (pre ++ c :: rest) = Some (zlen pre).
Proof.
  induction pre as [|y pre IH]; intros Hc; cbn [index_of app]; [by rewrite Z.eqb_refl|].
  apply not_elem_of_cons in Hc as [Hne Hc]. rewrite (proj2 (Z.eqb_neq y c)) by congruence.
  rewrite IH by done. cbn. f_equal. zl. lia.
Qed.
(** A text in a buffer, with what was there before behind it. *)
Lemma cstr_behind text tail : Forall (fun c => c <> 0) text -> 0 ∈ tail ->
  exists more, cstr (text ++ tail) = Ret (text ++ more).
Proof.
  intros Ht Hz. assert (exists more, cstr tail = Ret more) as [more Hm].
  { induction tail as [|y tail IH]; [by apply not_elem_of_nil in Hz|]. cbn [cstr].
    destruct (Z.eqb_spec y 0); [by eexists|]. apply elem_of_cons in Hz as [?|Hz]; [congruence|].
    destruct (IH Hz) as [more ->]. by eexists. }
  exists more. induction Ht as [|y text Hy _ IH]; [done|]. cbn [cstr app].
  rewrite (proj2 (Z.eqb_neq y 0)) by done. by rewrite IH.
Qed.
End Answer.

Lemma wait_run env fuel k s :
  (exists j, (k <= j < k + fuel)%nat /\ k_in_service env j = true) ->
  exists t, wait_service env fuel k s = Ret (tt, s, t).
Proof.
  revert k. induction fuel as [|fuel IH]; intros k (j & Hj & Hs); [lia|]. cbn [wait_service].
  rewrite bind_emit. destruct (k_in_service env k) eqn:E; [by eexists|].
  destruct (IH (S k)) as [t ->]; [|by eexists].
  exists j. split; [|done]. assert (j <> k) by congruence. lia.
Qed.

(** A command on a port that is free. *)
Lemma at_command_run env round which cmd response s :
  at_if_in_use (ts_board s) = false -> length response = 128%nat ->
  exists r response' t, at_command env round which cmd response s = Ret ((r, response'), s, t) /\
    length response' = 128%nat /\
    match k_reply env round which with
    | Answered bytes => r = 0 /\ response' = take 128 bytes ++ drop (length (take 128 bytes)) response
    | _ => response' = response
    end.
Proof.
  intros Hs Hl.
  destruct (send_at_run (k_reply env round which) cmd response (ts_board s) 128 Hs ltac:(lia))
    as (r & response' & Hrun & Hl' & Hm).
  exists r, response'. eexists. split; [by apply zoom_same|]. split; [lia|].
  by destruct (k_reply env round which); destruct Hm.
Qed.

Definition qlts_answer (pre : list Z) (t : time_sync_data) (sign quarters : Z) (rest : list Z) : list Z :=
  (pre ++ zs "+QLTS: ") ++ qlts_date t sign quarters ++ rest.

Section Network.
Context (env : clock_env) (x : Z) (stack : list Z) (Hstack : k_stack env = x :: stack) (Hx : isdigit x = false).

Lemma network_time_run pre t sign quarters rest tail c :
  Forall (fun c => c <> 0) (qlts_answer pre t sign quarters rest) -> 34 ∉ pre -> 0 ∈ tail ->
  plausible t -> 0 <= quarters < 100 ->
  network_time env 0 (qlts_answer pre t sign quarters rest ++ tail) c =
    Ret (true, on_time (read_data t sign quarters) c, []).
Proof.
  intros Hn Hp Hz Ht Hq. unfold network_time. cbn [Z.eqb negb].
  destruct (cstr_behind _ _ Hn Hz) as [more Hc]. rewrite (bind_lift _ _ _ _ Hc).
  assert (Hf : strstr (qlts_answer pre t sign quarters rest ++ more) (zs "+QLTS: ") <> None).
  { apply strstr_contains. exists pre. unfold qlts_answer. rewrite <- !app_assoc. by eexists. }
  destruct (strstr _ _); [|done]. set (head := pre ++ zs "+QLTS: ").
  assert (Hq1 : quote_of (qlts_answer pre t sign quarters rest ++ tail) = Ret (Some (zlen head))).
  { unfold quote_of. rewrite Hc. cbn [cbind]. f_equal. unfold qlts_answer. fold head. rewrite <- !app_assoc.
    unfold qlts_date. cbn [app]. apply index_of_first. unfold head. rewrite elem_of_app.
    intros [?|Hin]; [done|]. revert Hin. vm_compute. intros H. repeat (apply elem_of_cons in H as [?|H]; [done|]). by apply not_elem_of_nil in H. }
  rewrite (bind_lift _ _ _ _ Hq1).
  assert (Hr : qlts_answer pre t sign quarters rest ++ tail = head ++ qlts_date t sign quarters ++ rest ++ tail)
    by (unfold qlts_answer, head; rewrite <- !app_assoc; reflexivity).
  pose proof Hr as Hr'. unfold qlts_date, two in Hr'. cbn [app] in Hr'. destruct (Ht) as (Hy & _).
  rewrite (bind_lift _ 20) by (eapply (number_at_two env x stack Hstack Hx); [exact Hr'|lia|reflexivity|reflexivity]).
  cbn [Z.eqb Pos.eqb negb].
  rewrite (bind_lift _ (year t)) by (eapply (number_at_two env x stack Hstack Hx); [exact Hr'|lia|reflexivity|reflexivity]).
  assert ((year t <? 23) = false) as -> by (apply Z.ltb_ge; lia).
  rewrite (bind_step _ _ _ _ _ (read_time_run env x stack Hstack Hx _ head t sign quarters (rest ++ tail) c Hr Ht Hq)). done.
Qed.
End Network.

Lemma zeros_tail (bytes : list Z) (n : nat) : (n <= 127)%nat ->
  0 ∈ drop n (take 128 bytes ++ drop (length (take 128 bytes)) (replicate 128 0)) \/ (128 <= length bytes)%nat.
Proof.
  intros Hn. destruct (decide (128 <= length bytes)%nat); [by right|left].
  rewrite take_ge by lia. apply list_elem_of_lookup_2 with (127 - n)%nat.
  rewrite lookup_drop, lookup_app_r by lia. rewrite lookup_drop.
  apply lookup_replicate. split; [done|lia].
Qed.

(** The answer of the first command leaves the end of the buffer zeroed. *)
Definition short_answer (a : at_reply) : Prop := match a with Answered b => (length b < 128)%nat | _ => True end.

Lemma sync_attempt_run env x stack heap pre t sign quarters rest c :
  k_stack env = x :: stack -> isdigit x = false -> at_if_in_use (ts_board c) = false ->
  length heap = 128%nat -> short_answer (k_reply env 0 0) ->
  k_reply env 0 1 = Answered (qlts_answer pre t sign quarters rest) ->
  (length (qlts_answer pre t sign quarters rest) < 128)%nat ->
  Forall (fun c => c <> 0) (qlts_answer pre t sign quarters rest) -> 34 ∉ pre ->
  plausible t -> 0 <= quarters < 100 ->
  exists response tr, attempt env 0 heap c = Ret ((true, response), on_time (read_data t sign quarters) c, tr).
Proof.
  intros Hs Hx Hport Hh Hshort Hans Hlen Hn Hp Ht Hq. unfold attempt.
  rewrite (bind_lift _ (replicate 128 0)).
  2: { unfold memset. rewrite wrn_ok by (unfold zlen; rewrite ?length_replicate; lia).
       rewrite drop_ge by (rewrite length_replicate; lia). by rewrite app_nil_r. }
  destruct (at_command_run env 0 0 SET_CTZU (replicate 128 0) c Hport ltac:(done)) as (r0 & b0 & t0 & H0 & L0 & E0).
  destruct (at_command_run env 0 1 GET_QLTS b0 c Hport L0) as (r1 & b1 & t1 & H1 & L1 & E1).
  rewrite (bind_after _ _ _ _ _ _ H0). autorewrite with eff.
  rewrite (bind_after _ _ _ _ _ _ H1). rewrite Hans in E1. destruct E1 as [-> ->].
  set (msg := qlts_answer pre t sign quarters rest) in *. rewrite take_ge by lia.
  assert (Hz : 0 ∈ drop (length msg) b0).
  { destruct (k_reply env 0 0) as [| | | |bytes] eqn:Ek; cbn [short_answer] in Hshort;
      try (subst b0; apply list_elem_of_lookup_2 with (127 - length msg)%nat; rewrite lookup_drop;
           apply lookup_replicate; split; [done|lia]).
    destruct E0 as [_ ->]. destruct (zeros_tail bytes (length msg)); [lia|done|lia]. }
  rewrite (bind_step _ _ _ _ _ (network_time_run env x stack Hs Hx pre t sign quarters rest _ c Hn Hp Hz Ht Hq)).
  autorewrite with eff. cbn [andb].
  assert (Hv : invalid_date (ts_data (on_time (read_data t sign quarters) c)) = false).
  { destruct Ht as (? & ? & ? & ? & ? & ?). unfold invalid_date. cbn. by ifdec. }
  rewrite Hv. do 2 eexists. reflexivity.
Qed.

(** C24: a plausible date in the answer to the question for the time of the network,
    in the first attempt, sets the clock to it, converted, plus whole hours: the
    quarters of its timezone divided by four, rounded down, with the sign the answer
    has or an earlier one had; and nothing is asked again. The network is in service,
    the port free, the answer to the command before it shorter than the buffer, the
    byte of the stack behind the copied digits no digit, and localtime(3) works. *)
Theorem network_time_sets_clock env x stack heap pre t sign quarters rest c
  (Hservice : exists j, (j < k_polls env)%nat /\ k_in_service env j = true)
  (Hstack : k_stack env = x :: stack) (Hx : isdigit x = false)
  (Hport : at_if_in_use (ts_board c) = false) (Hheap : length heap = 128%nat)
  (Hfirst : short_answer (k_reply env 0 0))
  (Hanswer : k_reply env 0 1 = Answered (qlts_answer pre t sign quarters rest))
  (Hlen : (length (qlts_answer pre t sign quarters rest) < 128)%nat)
  (Htext : Forall (fun c => c <> 0) (qlts_answer pre t sign quarters rest)) (Hpre : 34 ∉ pre)
  (Ht : plausible t) (Hq : 0 <= quarters < 100) (Hlocal : k_localtime env = true) :
  let d := read_data t sign quarters (ts_data c) in
  let negative := negative_offset (ts_data c) || (negb (quarters =? 0) && (sign =? 45)) in
  exists tr, Forall no_time tr /\
    time_sync env heap c = Ret (tt, {| ts_data := d; ts_board := ts_board c |},
      tr ++ [SetTime (i32 (k_mktime env (broken_down t) + (if negative then -3600 else 3600) * (quarters / 4)))]).
Proof.
  cbv zeta. destruct (wait_run env (k_polls env) 0 c) as [t1 H1].
  { destruct Hservice as (j & Hj & ?). exists j. split; [lia|done]. }
  destruct (sync_attempt_run env x stack heap pre t sign quarters rest c) as (response & t2 & H2); try done.
  assert (H3 : sync_loop env 61 0 heap c = Ret (true, on_time (read_data t sign quarters) c, t2)).
  { cbn [sync_loop]. rewrite (bind_after _ _ _ _ _ _ H2). vm_compute (60 <? _). cbn. by rewrite ?app_nil_r. }
  exists (t1 ++ t2). split; [apply Forall_app; split; [by eapply wait_no_time|by eapply sync_no_time]|].
  unfold time_sync. rewrite (bind_after _ _ _ _ _ _ H1), (bind_after _ _ _ _ _ _ H3), bind_get, Hlocal.
  rewrite after_after. change (ts_data (on_time (read_data t sign quarters) c)) with (read_data t sign quarters (ts_data c)).
  assert (Hg : gmtoff (read_data t sign quarters (ts_data c)) =
    (if negative_offset (ts_data c) || (negb (quarters =? 0) && (sign =? 45)) then -3600 else 3600) * (quarters / 4)).
  { unfold gmtoff. cbn [timezone_offset negative_offset read_data].
    destruct (Z.eqb_spec (quarters / 4) 0) as [->|]; [by rewrite Z.mul_0_r|]. destruct (_ || _); lia. }
  rewrite Hg. reflexivity.
Qed.
Definition fresh_time : time_sync_data :=
  {| year := 0; month := 0; day := 0; hour := 0; minute := 0; second := 0; timezone_offset := 0;
     negative_offset := false |}.
Definition fresh_clock : clock :=
  {| ts_data := fresh_time; ts_board := {| misc := None; at_if_in_use := false; adb_enabled := false |} |}.
Definition april : time_sync_data :=
  {| year := 23; month := 4; day := 5; hour := 12; minute := 34; second := 56; timezone_offset := 0;
     negative_offset := false |}.
Definition sample_answer_of (t : time_sync_data) (sign quarters : Z) : list Z :=
  qlts_answer [13; 10] t sign quarters (zs ",0" ++ [34; 13; 10]).
Definition sample_clock_env (answer : Z -> list Z) : clock_env :=
  {| k_in_service := fun k => (2 <=? k)%nat; k_polls := 5;
     k_reply := fun round which => if which =? 1 then Answered (answer round) else Answered [13; 10; 79; 75; 13; 10];
     k_stack := [0; 0]; k_rand := fun _ => 3; k_localtime := true;
     k_mktime := fun t => (tm_mday t * 24 + tm_hour t) * 3600 + tm_min t * 60 + tm_sec t |}.
Theorem network_time_sets_clock_witness :
  let env := sample_clock_env (fun _ => sample_answer_of april 45 22) in
  let d := read_data april 45 22 fresh_time in
  exists tr, Forall no_time tr /\
    time_sync env (replicate 128 7) fresh_clock = Ret (tt, {| ts_data := d; ts_board := ts_board fresh_clock |},
      tr ++ [SetTime (i32 (k_mktime env (broken_down april) + -3600 * (22 / 4)))]).
Proof.
  cbv zeta.
  apply (network_time_sets_clock (sample_clock_env (fun _ => sample_answer_of april 45 22)) 0 [0] (replicate 128 7)
    [13; 10] april 45 22 (zs ",0" ++ [34; 13; 10]) fresh_clock).
  - exists 2%nat. split; [vm_compute; lia|reflexivity].
  - reflexivity.
  - reflexivity.
  - reflexivity.
  - reflexivity.
  - vm_compute. lia.
  - reflexivity.
  - vm_compute. lia.
  - vm_compute. repeat constructor; discriminate.
  - intros H. repeat (apply elem_of_cons in H as [H|H]; [discriminate H|]). by apply not_elem_of_nil in H.
  - vm_compute. repeat split; congruence.
  - lia.
  - reflexivity.
Defined.

(** * Every run of the thread *)

(** ** What an attempt does *)

Definition one_command (cmd : list Z) (t : list clock_action) : Prop := t = [] \/ t = [Line (AtPort cmd)].
(** The commands of an attempt, each sent once at most, and its pauses: the third
    command only where the second did not give the time. *)
Inductive attempted : list clock_action -> Prop :=
| by_network p q d : one_command SET_CTZU p -> one_command GET_QLTS q -> 1 <= d <= 9 ->
    attempted (p ++ [Pause 1] ++ q ++ [Pause d])
| by_modem p q r d : one_command SET_CTZU p -> one_command GET_QLTS q -> one_command GET_CCLK r -> 1 <= d <= 9 ->
    attempted (p ++ [Pause 1] ++ q ++ [Pause 1] ++ r ++ [Pause d]).

Lemma at_command_acts env round which cmd r s x s' t :
  at_command env round which cmd r s = Ret (x, s', t) -> one_command cmd t.
Proof.
  unfold at_command, zoom, send_at_command, one_command. rewrite bind_get.
  destruct (at_if_in_use (part s)); [intros [= _ _ <-]; by left|].
  destruct (k_reply env round which) as [| | | |bytes]; autorewrite with eff;
    try (intros [= _ _ <-]; by (left + right)).
  unfold bind, lift. destruct (wrn r 0 (take 128 bytes)); cbn; [intros [= _ _ <-]; by right|done..].
Qed.
Lemma after_inv {S E A} (u : list E) (c : cres (A * S * list E)) a s' t :
  after u c = Ret (a, s', t) -> exists t', c = Ret (a, s', t') /\ t = u ++ t'.
Proof. destruct c as [[[b s] t']| |]; [|done..]. intros [= <- <- <-]. by eexists. Qed.
Definition silent (a : clock_action) : Prop := False.
Lemma silent_nil t : Forall silent t -> t = [].
Proof. destruct t; [done|]. by inversion_clear 1. Qed.
Lemma read_silent env r b base : emits silent (read_time env r b base).
Proof. unfold read_time. emits_auto. Qed.
#[local] Hint Resolve read_silent : oqti.
Lemma network_silent env n r : emits silent (network_time env n r).
Proof. unfold network_time. emits_auto. Qed.
Lemma local_silent env r : emits silent (local_time env r).
Proof. unfold local_time. emits_auto. Qed.

Lemma attempt_acts env round r s x s' t : attempt env round r s = Ret (x, s', t) -> attempted t.
Proof.
  unfold attempt. intros H. assert (Hd : 1 <= k_rand env round mod 9 + 1 <= 9) by (pose proof (Z.mod_pos_bound (k_rand env round) 9); lia).
  apply bind_inv in H as (r0 & s0 & t0 & t0' & H0 & H & ->).
  assert (t0 = []) as -> by (unfold lift in H0; destruct (memset r 0 128); by simplify_eq/=).
  apply bind_inv in H as ([? r1] & s1 & t1 & t1' & H1%at_command_acts & H & ->). rewrite bind_emit in H.
  apply after_inv in H as (u1 & H & ->).
  apply bind_inv in H as ([n r2] & s2 & t2 & t2' & H2%at_command_acts & H & ->).
  apply bind_inv in H as (ok & s3 & t3 & t3' & H3%network_silent%silent_nil & H & ->). subst t3.
  destruct ok.
  - autorewrite with eff in H. injection H as _ _ <-. cbn [app]. by apply (by_network t1 t2).
  - rewrite bind_assoc, bind_emit in H. apply after_inv in H as (u2 & H & ->).
    rewrite bind_assoc in H. apply bind_inv in H as ([? r4] & s4 & t4 & t4' & H4%at_command_acts & H & ->).
    rewrite bind_assoc in H. apply bind_inv in H as (ok & s5 & t5 & t5' & H5%local_silent%silent_nil & H & ->). subst t5.
    autorewrite with eff in H. injection H as _ _ <-. cbn [app]. by apply (by_modem t1 t2 t4).
Qed.

(** The attempts of the loop: the clock is known after 60 at most, the 61st is the
    last whatever it finds. *)
Lemma sync_loop_acts env fuel retries r s found s' t :
  sync_loop env fuel retries r s = Ret (found, s', t) -> retries <= 60 ->
  exists atts, t = concat atts /\ Forall attempted atts /\
    (if found : bool then 1 <= zlen atts <= 60 - retries else zlen atts = 61 - retries).
Proof.
  revert retries r s t. induction fuel as [|fuel IH]; intros retries r s t; [done|]. cbn [sync_loop].
  intros ([ok r'] & s1 & t1 & t2 & H1%attempt_acts & H & ->)%bind_inv Hr.
  destruct (60 <? retries + 1) eqn:E; b2p.
  - injection H as <- _ <-. exists [t1]. rewrite app_nil_r. cbn. rewrite app_nil_r.
    split; [done|]. split; [by constructor|]. unfold zlen. cbn. lia.
  - destruct ok.
    + injection H as <- _ <-. exists [t1]. cbn. split; [done|]. split; [by constructor|]. unfold zlen. cbn. lia.
    + destruct (IH _ _ _ _ H ltac:(lia)) as (atts & -> & Ha & Hn). exists (t1 :: atts).
      split; [done|]. split; [by constructor|]. rewrite zlen_cons. pose proof (zlen_nonneg atts). destruct found; lia.
Qed.
Lemma wait_acts env fuel k s s' t : wait_service env fuel k s = Ret (tt, s', t) ->
  exists n, t = replicate (S n) (Pause 5) /\ k_in_service env (k + n)%nat = true /\
    forall j, (j < n)%nat -> k_in_service env (k + j)%nat = false.
Proof.
  revert k t. induction fuel as [|fuel IH]; intros k t; [done|]. cbn [wait_service]. rewrite bind_emit.
  destruct (k_in_service env k) eqn:E.
  - intros [= _ <-]. exists 0%nat. rewrite Nat.add_0_r. split; [done|]. split; [done|]. intros j. lia.
  - intros (u & H & ->)%after_inv. destruct (IH _ _ H) as (n & -> & Hs & Hj). exists (S n). split; [done|].
    rewrite <- plus_n_Sm. split; [done|]. intros [|j] Hl; [by rewrite Nat.add_0_r|].
    rewrite <- plus_n_Sm. apply (Hj j). lia.
Qed.

(** ** When nothing can fault *)

(** The buffer after the answers to the first two commands. *)
Definition lay (a : at_reply) (buf : list Z) : list Z :=
  match a with Answered b => take 128 b ++ drop (length (take 128 b)) buf | _ => buf end.
Definition held (env : clock_env) (round : Z) : list Z :=
  lay (k_reply env round 1) (lay (k_reply env round 0) (replicate 128 0)).
(** The stack ends a number, localtime(3) works, no answer has more than 106
    bytes, and where the tag of the network's time is in the buffer so is a quote. *)
Record readable (env : clock_env) : Prop := {
  rd_stack : 0 ∈ k_stack env;
  rd_local : k_localtime env = true;
  rd_short round which b : k_reply env round which = Answered b -> (length b <= 106)%nat;
  rd_quoted round text : cstr (held env round) = Ret text -> strstr text (zs "+QLTS: ") <> None -> 34 ∈ text
}.
(** The buffer of an attempt: 128 bytes, the last 22 of them zero. *)
Definition buffer_ok (r : list Z) : Prop :=
  length r = 128%nat /\ forall i, (106 <= i < 128)%nat -> r !! i = Some 0.
Lemma lay_ok a r : (forall b, a = Answered b -> (length b <= 106)%nat) -> buffer_ok r -> buffer_ok (lay a r).
Proof.
  intros Ha [Hl Hz]. destruct a as [| | | |b]; try done. specialize (Ha b eq_refl). cbn [lay].
  rewrite take_ge by lia. split; [rewrite length_app, length_drop; lia|].
  intros i Hi. rewrite lookup_app_r, lookup_drop by lia. replace (length b + (i - length b))%nat with i by lia. by apply Hz.
Qed.
Lemma fresh_buffer_ok : buffer_ok (replicate 128 0).
Proof. split; [done|]. intros i Hi. apply lookup_replicate. split; [done|lia]. Qed.
Lemma cstr_short r text i : cstr r = Ret text -> r !! i = Some 0 -> (length text <= i)%nat.
Proof.
  revert r text. induction i as [|i IH]; intros [|c r] text; [done| |done|]; cbn [cstr lookup list_lookup].
  - intros H [= ->]. cbn in H. by injection H as <-.
  - intros H Hi. destruct (c =? 0); [injection H as <-; cbn; lia|].
    destruct (cstr r) as [t| |] eqn:E; [|done..]. injection H as <-. specialize (IH _ _ E Hi). cbn. lia.
Qed.
Lemma buffer_text r : buffer_ok r -> exists text, cstr r = Ret text /\ zlen text <= 106.
Proof.
  intros [Hl Hz]. pose proof (Hz 106%nat ltac:(lia)) as H0. destruct (cstr_nul r) as [text Ht].
  { by apply list_elem_of_In, (list_elem_of_lookup_2 _ 106). }
  exists text. split; [done|]. pose proof (cstr_short _ _ _ Ht H0). unfold zlen. lia.
Qed.
Lemma index_of_bound c text b : index_of c text = Some b -> 0 <= b < zlen text.
Proof.
  revert b. induction text as [|x text IH]; intros b; [done|]. cbn [index_of]. rewrite zlen_cons. pose proof (zlen_nonneg text).
  destruct (x =? c); [intros [= <-]; lia|]. destruct (index_of c text) as [k|]; [|done]. intros [= <-].
  specialize (IH k eq_refl). lia.
Qed.
Lemma index_of_in c text : c ∈ text -> exists b, index_of c text = Some b.
Proof.
  induction 1 as [c text|c x text _ [b IH]]; cbn [index_of]; [rewrite Z.eqb_refl; by eexists|].
  destruct (x =? c); [by eexists|]. rewrite IH. by eexists.
Qed.
Lemma rd_total (r : list Z) i : 0 <= i < zlen r -> exists v, rd r i = Ret v.
Proof.
  intros Hi. unfold rd, rdA. rewrite (proj2 (Z.ltb_ge _ _)) by lia.
  destruct (lookup_lt_is_Some_2 r (Z.to_nat i)) as [v ->]; [unfold zlen in Hi; lia|by eexists].
Qed.
Lemma digits_total acc m : 0 ∈ m -> exists v, digits_in acc m = Ret v.
Proof.
  revert acc. induction m as [|c m IH]; intros acc Hm; [by apply not_elem_of_nil in Hm|]. cbn [digits_in].
  destruct (isdigit c) eqn:E; [|by eexists]. apply IH. apply elem_of_cons in Hm as [<-|]; done.
Qed.
Lemma strtol_total m : 0 ∈ m -> exists v, strtol m = Ret v.
Proof.
  intros Hm. assert (exists c m', spaces_in m = Ret (c :: m') /\ 0 ∈ c :: m') as (c & m' & Hs & Hm').
  { induction m as [|c m IH]; [by apply not_elem_of_nil in Hm|]. cbn [spaces_in].
    destruct (isspace c) eqn:E; [|by do 2 eexists]. apply IH. apply elem_of_cons in Hm as [<-|]; done. }
  unfold strtol. rewrite Hs. cbn [cbind]. change (rd (c :: m') 0) with (Ret c). cbn [cbind].
  assert (0 ∈ (if (c =? 45) || (c =? 43) then drop 1 (c :: m') else c :: m')) as Hd.
  { destruct ((c =? 45) || (c =? 43)) eqn:E; [|done]. cbn. apply elem_of_cons in Hm' as [<-|]; done. }
  destruct (digits_total 0 _ Hd) as [v ->]. by eexists.
Qed.

(** A computation that returns from every state. *)
Definition returns {S E A} (m : M S E A) : Prop := forall s, exists a s' t, m s = Ret (a, s', t).
Section Runs.
Context {S E : Type}.
Lemma returns_ret {A} (a : A) : returns (@ret S E A a).
Proof. intros s. by do 3 eexists. Qed.
Lemma returns_modify f : returns (@modify S E f).
Proof. intros s. by do 3 eexists. Qed.
Lemma returns_lift {A} (c : cres A) : (exists a, c = Ret a) -> returns (@lift S E A c).
Proof. intros [a ->] s. by do 3 eexists. Qed.
Lemma returns_bind {A B} (m : M S E A) (k : A -> M S E B) : returns m -> (forall a, returns (k a)) -> returns (bind m k).
Proof.
  intros Hm Hk s. destruct (Hm s) as (a & s' & t & H). destruct (Hk a s') as (b & s'' & t' & H').
  exists b, s'', (t ++ t'). by rewrite (bind_after _ _ _ _ _ _ H), H'.
Qed.
End Runs.

Section Readable.
Context (env : clock_env) (Hr : readable env).

Lemma number_total r b off : 0 <= b -> 0 <= off -> b + off + 1 < zlen r -> exists v, number_at env r (Some b) off = Ret v.
Proof using Hr.
  intros Hb Ho Hl. unfold number_at, get_int_from_str.
  assert (zlen (drop (Z.to_nat b) r) = zlen r - b) as Hd by (unfold zlen in *; rewrite length_drop; lia).
  destruct (rd_total (drop (Z.to_nat b) r) off) as [x ->]; [lia|].
  destruct (rd_total (drop (Z.to_nat b) r) (off + 1)) as [y ->]; [lia|]. cbn [cbind].
  apply strtol_total, elem_of_app. right. apply (rd_stack _ Hr).
Qed.
Lemma read_total r b base : 0 <= b <= 105 -> 0 <= base <= 2 -> length r = 128%nat -> returns (read_time env r (Some b) base).
Proof using Hr.
  intros Hb Hbase Hl. assert (zlen r = 128) as Hz by (unfold zlen; lia). unfold read_time.
  do 7 (apply returns_bind; [apply returns_lift, number_total; lia|intros ?]).
  apply returns_bind; [apply returns_modify|intros _]. destruct (negb _); [|apply returns_ret]. cbn [when].
  apply returns_bind; [apply returns_modify|intros _].
  apply returns_bind; [apply returns_lift, rd_total; lia|intros sign]. destruct (sign =? 45); [apply returns_modify|apply returns_ret].
Qed.
Lemma network_total n r : buffer_ok r ->
  (forall text, cstr r = Ret text -> strstr text (zs "+QLTS: ") <> None -> 34 ∈ text) -> returns (network_time env n r).
Proof using Hr.
  intros Hok Hq. unfold network_time. destruct (negb (n =? 0)); [apply returns_ret|].
  destruct (buffer_text r Hok) as (text & Ht & Hlen). destruct Hok as [Hl _]. assert (zlen r = 128) as Hz by (unfold zlen; lia).
  intros s. rewrite (bind_lift _ _ _ _ Ht). specialize (Hq _ Ht). destruct (strstr text _); [|apply returns_ret].
  destruct (index_of_in 34 text) as [b Hb]; [by apply Hq|]. pose proof (index_of_bound _ _ _ Hb).
  rewrite (bind_lift _ (Some b)) by (unfold quote_of; rewrite Ht; cbn; by rewrite Hb). revert s.
  apply returns_bind; [apply returns_lift, number_total; lia|intros century]. destruct (negb _); [apply returns_ret|].
  apply returns_bind; [apply returns_lift, number_total; lia|intros y]. destruct (y <? 23); [apply returns_ret|].
  apply returns_bind; [apply read_total; try done; lia|intros _]. apply returns_ret.
Qed.
Lemma local_total r : buffer_ok r -> returns (local_time env r).
Proof using Hr.
  intros Hok. unfold local_time. destruct (buffer_text r Hok) as (text & Ht & Hlen). destruct Hok as [Hl _].
  assert (zlen r = 128) as Hz by (unfold zlen; lia).
  intros s. rewrite (bind_lift _ _ _ _ Ht). destruct (strstr text _); [|apply returns_ret].
  rewrite (bind_lift _ (index_of 34 text)) by (unfold quote_of; by rewrite Ht).
  destruct (index_of 34 text) as [b|] eqn:Hb; [|apply returns_ret]. pose proof (index_of_bound _ _ _ Hb). revert s.
  apply returns_bind; [apply returns_lift, number_total; lia|intros y]. destruct (y =? 80); [apply returns_ret|].
  apply returns_bind; [apply read_total; try done; lia|intros _]. apply returns_ret.
Qed.
(** A command leaves the state and, unless the port is in use, lays its answer over the buffer. *)
Lemma at_command_total round which cmd r s : length r = 128%nat -> exists x t,
  at_command env round which cmd r s =
    Ret ((x, if at_if_in_use (ts_board s) then r else lay (k_reply env round which) r), s, t).
Proof using.
  intros Hl. destruct (at_if_in_use (ts_board s)) eqn:Hu.
  - exists (- EAGAIN), []. unfold at_command. change (@nil clock_action) with (map Line []). apply zoom_same.
    by apply send_at_busy.
  - destruct (at_command_run env round which cmd r s Hu Hl) as (x & r' & t & H & _ & Hm). exists x, t. rewrite H.
    destruct (k_reply env round which); cbn [lay]; try (by subst r'). by destruct Hm as [_ ->].
Qed.
Lemma reply_ok round which r : buffer_ok r -> buffer_ok (lay (k_reply env round which) r).
Proof using Hr. apply lay_ok. intros b. apply (rd_short _ Hr). Qed.
Lemma attempt_total round r s : length r = 128%nat ->
  exists ok r' s' t, attempt env round r s = Ret ((ok, r'), s', t) /\ length r' = 128%nat.
Proof using Hr.
  intros Hl. unfold attempt. rewrite (bind_lift _ (replicate 128 0)).
  2: { unfold memset. rewrite wrn_ok by (unfold zlen; rewrite ?length_replicate; lia).
       rewrite drop_ge by (rewrite length_replicate; lia). by rewrite app_nil_r. }
  set (use := at_if_in_use (ts_board s)).
  destruct (at_command_total round 0 SET_CTZU (replicate 128 0) s eq_refl) as (x0 & t0 & H0). fold use in H0.
  set (r1 := if use then replicate 128 0 else _) in H0.
  assert (buffer_ok r1) as Hb1 by (unfold r1; destruct use; [|apply reply_ok]; apply fresh_buffer_ok).
  destruct (at_command_total round 1 GET_QLTS r1 s (proj1 Hb1)) as (x1 & t1 & H1). fold use in H1.
  set (r2 := if use then r1 else _) in H1.
  assert (buffer_ok r2) as Hb2 by (unfold r2; destruct use; [done|by apply reply_ok]).
  assert (r2 = if use then replicate 128 0 else held env round) as Eheld by (unfold r2, r1; destruct use; reflexivity).
  rewrite (bind_after _ _ _ _ _ _ H0), bind_emit, (bind_after _ _ _ _ _ _ H1).
  destruct (network_total x1 r2 Hb2) with (s := s) as (ok & s1 & t2 & H2).
  { rewrite Eheld. destruct use; [|apply (rd_quoted _ Hr)]. intros text Ht Hs. exfalso. apply Hs. clear -Ht.
    change (cstr (replicate 128 0)) with (@Ret (list Z) []) in Ht. by injection Ht as <-. }
  rewrite (bind_after _ _ _ _ _ _ H2). destruct ok.
  { autorewrite with eff. do 4 eexists. split; [reflexivity|apply Hb2]. }
  rewrite bind_assoc, bind_emit, bind_assoc.
  destruct (at_command_total round 2 GET_CCLK r2 s1 (proj1 Hb2)) as (x3 & t3 & H3).
  rewrite (bind_after _ _ _ _ _ _ H3). set (r3 := if at_if_in_use (ts_board s1) then r2 else _).
  assert (buffer_ok r3) as Hb3 by (unfold r3; destruct (at_if_in_use (ts_board s1)); [exact Hb2|by apply reply_ok]).
  destruct (local_total r3 Hb3 s1) as (ok & s2 & t4 & H4). rewrite bind_assoc, (bind_after _ _ _ _ _ _ H4).
  autorewrite with eff. do 4 eexists. split; [reflexivity|apply Hb3].
Qed.
Lemma sync_loop_total fuel retries r s : 61 <= retries + Z.of_nat fuel -> retries <= 60 -> length r = 128%nat ->
  exists found s' t, sync_loop env fuel retries r s = Ret (found, s', t).
Proof using Hr.
  revert retries r s. induction fuel as [|fuel IH]; intros retries r s Hf Hn Hl; [lia|]. cbn [sync_loop].
  destruct (attempt_total retries r s Hl) as (ok & r' & s' & t & H & Hl'). rewrite (bind_after _ _ _ _ _ _ H).
  destruct (60 <? retries + 1) eqn:E; [by do 3 eexists|]. destruct ok; [by do 3 eexists|]. b2p.
  destruct (IH (retries + 1) r' s' ltac:(lia) ltac:(lia) Hl') as (found & s'' & t' & ->). by do 3 eexists.
Qed.
End Readable.

(** C32: once the network is in service the thread ends: it is not left in its loop
    whatever the port answers, and it returns where the answers can be read (none
    longer than 106 bytes, a quote wherever the tag of the network's time is, a byte
    on the stack that ends a number); an answer with the tag and no quote faults,
    since the missing quote is not tested for. A thread that returns has waited five
    seconds for each poll up to the first in service and made n attempts, each of at
    most three commands: the clock is set, once and last, when an attempt gave the
    time and n is at most 60; otherwise n is 61 and the clock is left alone, also
    where the 61st attempt gave the time. *)
Theorem time_sync_ends env heap s
  (Hservice : exists j, (j < k_polls env)%nat /\ k_in_service env j = true) (Hheap : length heap = 128%nat) :
  time_sync env heap s <> Spin /\
  (readable env -> exists s' t, time_sync env heap s = Ret (tt, s', t)) /\
  (forall s' t, time_sync env heap s = Ret (tt, s', t) ->
     exists n atts last, t = replicate (S n) (Pause 5) ++ concat atts ++ last /\
       k_in_service env n = true /\ (forall j, (j < n)%nat -> k_in_service env j = false) /\ Forall attempted atts /\
       (1 <= zlen atts <= 60 /\ (exists sec, last = [SetTime sec]) \/ zlen atts = 61 /\ last = [])).
Proof.
  assert (exists j, (0 <= j < 0 + k_polls env)%nat /\ k_in_service env j = true) as Hs
    by (destruct Hservice as (j & ? & ?); exists j; split; [lia|done]).
  split; [|split].
  - apply ends_bind; [by apply wait_ends|].
    intros _. apply ends_bind; [by apply sync_loop_ends|]. intros []; ends_auto. done.
  - intros Hr. destruct (wait_run env (k_polls env) 0 s Hs) as [t1 H1].
    destruct (sync_loop_total env Hr 61 0 heap s) as (found & s' & t2 & H2); [lia|lia|done|].
    unfold time_sync. rewrite (bind_after _ _ _ _ _ _ H1), (bind_after _ _ _ _ _ _ H2).
    destruct found; [rewrite bind_get, (rd_local _ Hr)|]; by do 2 eexists.
  - intros s' t (u & s1 & t1 & t2 & H1 & H & ->)%bind_inv. destruct u.
    apply bind_inv in H as (found & s2 & t3 & t4 & H2 & H & ->).
    destruct (wait_acts _ _ _ _ _ _ H1) as (n & -> & Hn & Hj).
    destruct (sync_loop_acts _ _ _ _ _ _ _ _ H2) as (atts & -> & Ha & Hc); [lia|].
    exists n, atts, t4. split; [done|]. split; [done|]. split; [done|]. split; [done|]. destruct found.
    + left. split; [lia|]. rewrite bind_get in H. destruct (k_localtime env); [|done]. injection H as _ <-. by eexists.
    + right. split; [lia|]. by injection H as _ <-.
Qed.
Theorem time_sync_ends_witness :
  let env := sample_clock_env (fun _ => []) in
  time_sync env (replicate 128 7) fresh_clock <> Spin /\
  (readable env -> exists s' t, time_sync env (replicate 128 7) fresh_clock = Ret (tt, s', t)) /\
  (forall s' t, time_sync env (replicate 128 7) fresh_clock = Ret (tt, s', t) ->
     exists n atts last, t = replicate (S n) (Pause 5) ++ concat atts ++ last /\
       k_in_service env n = true /\ (forall j, (j < n)%nat -> k_in_service env j = false) /\ Forall attempted atts /\
       (1 <= zlen atts <= 60 /\ (exists sec, last = [SetTime sec]) \/ zlen atts = 61 /\ last = [])).
Proof.
  cbv zeta. apply (time_sync_ends (sample_clock_env (fun _ => []))); [|reflexivity].
  exists 2%nat. split; [vm_compute; lia|reflexivity].
Defined.
(** The answers of the examples can be read. *)
Example sample_readable : readable (sample_clock_env (fun _ => sample_answer_of april 45 22)).
Proof.
  split; [by vm_compute; left|done| |].
  - intros round which b. cbn. destruct (which =? 1); intros [= <-]; vm_compute; lia.
  - intros round text H _. assert (held (sample_clock_env (fun _ => sample_answer_of april 45 22)) round =
      held (sample_clock_env (fun _ => sample_answer_of april 45 22)) 0) as E by done. rewrite E in H.
    vm_compute in H. injection H as <-. apply list_elem_of_In. vm_compute. tauto.
Qed.
(** A time without its quote is looked for behind a null pointer. *)
Example unquoted_time_faults :
  time_sync (sample_clock_env (fun _ => zs "+QLTS: ")) (replicate 128 7) fresh_clock = Oob.
Proof. by vm_compute. Qed.
(** A time that comes with the 61st attempt is not set. *)
Example late_time_lost :
  match time_sync (sample_clock_env (fun round => if round =? 60 then sample_answer_of april 45 22 else []))
          (replicate 128 7) fresh_clock with
  | Ret (_, c, t) => year (ts_data c) = 23 /\ existsb (fun a => match a with SetTime _ => true | _ => false end) t = false
  | _ => False
  end.
Proof. vm_compute. by split. Qed.

(** A date that is refused leaves its sign: the next one, east of Greenwich, is
    taken for west. *)
Definition bad_month : time_sync_data :=
  {| year := 23; month := 13; day := 5; hour := 12; minute := 34; second := 56; timezone_offset := 0;
     negative_offset := false |}.
Example stale_sign :
  let env := sample_clock_env (fun round => if round =? 0 then sample_answer_of bad_month 45 8
                                            else sample_answer_of april 43 8) in
  exists t, time_sync env (replicate 128 7) fresh_clock =
    Ret (tt, {| ts_data := set_negative true (set_timezone 2 april); ts_board := ts_board fresh_clock |},
         t ++ [SetTime (k_mktime env (broken_down april) - 7200)]).
Proof.
  eexists (_ : list clock_action). vm_compute.
  match goal with |- Ret (_, _, ?l) = Ret (_, _, _) =>
    let n := eval vm_compute in (length l - 1)%nat in let p := eval vm_compute in (take n l) in
    instantiate (1 := p) end.
  reflexivity.
Qed.

(** A digit on the stack becomes a part of every number: the year is not 20xx,
    and the network's time is never taken. *)
Example stack_digit_ends_sync :
  get_int_from_str [digit 5; 0] (qlts_date april 43 8) 1 = Ret 205.
Proof. reflexivity. Qed.
