(* ===== verification/Call.v ===== *)
(** Voice calls (src/call.c, inc/call.h): the call the modem simulates with the
    host, its QMI packets and time limits, the texts it speaks, and the filter
    the voice service's packets go through. The store of text messages
    (Sms.v) is part of the state. Playing and hearing the audio is not modelled. *)

From stdpp Require Import base list numbers option strings.
From Stdlib Require Import ZArith Lia.
From S2P Require Import Prelude Libc Eff Qmi Sms SmsFilter.

Definition MAX_PHONE_NUMBER_LENGTH : Z := 20.
Definition CALL_MAX_LOOPS : Z := 15.
Definition MAX_TTS_TEXT_SIZE : Z := 160.

Definition VO_SVC_CALL_REQUEST : Z := 0x0020.
Definition VO_SVC_CALL_END_REQ : Z := 0x0021.
Definition VO_SVC_CALL_ANSWER_REQ : Z := 0x0022.
Definition VO_SVC_CALL_INFO : Z := 0x0024.
Definition VO_SVC_CALL_STATUS : Z := 0x002e.
Definition VO_SVC_GET_ALL_CALL_INFO : Z := 0x002f.

Definition TLV_CALL_INFO : Z := 0x01.
Definition TLV_REMOTE_NUMBER : Z := 0x10.

Definition CALL_DIRECTION_OUTGOING : Z := 0x01.
Definition CALL_DIRECTION_INCOMING : Z := 0x02.

Definition CALL_STATE_RINGING : Z := 0x02.
Definition CALL_STATE_ESTABLISHED : Z := 0x03.
Definition CALL_STATE_ATTEMPT : Z := 0x04.
Definition CALL_STATE_ALERTING : Z := 0x05.
Definition CALL_STATE_WAITING : Z := 0x07.
Definition CALL_STATE_DISCONNECTING : Z := 0x08.
Definition CALL_STATE_HANGUP : Z := 0x09.
Definition CALL_MODE_VOLTE : Z := 0x04.

Definition PACKET_EMPTY : Z := 0.
Definition PACKET_PASS_TRHU : Z := 1.
Definition PACKET_BYPASS : Z := 2.
Definition PACKET_FORCED_PT : Z := 3.

(** * State *)

Record voice_message := {
  v_message : list Z;  (* char[MAX_TTS_TEXT_SIZE] *)
  v_len : Z;           (* int *)
  v_state : Z          (* 0 empty, 1 pending *)
}.

(** The flags kept in a uint8_t are 0 or 1. *)
Record call_rt := {
  is_call_pending : bool;
  call_simulation_mode : bool;
  sim_call_direction : Z;
  simulated_call_state : Z;
  call_transaction_id : Z;
  empty_message_loop : Z;
  timeout_counter : Z;
  stick_to_looped_message : bool;
  voice_msg : list voice_message;
  do_not_disturb : bool
}.

(** ** Field updates *)
Definition set_is_call_pending (v : bool) (r : call_rt) : call_rt :=
  {| is_call_pending := v; call_simulation_mode := call_simulation_mode r; sim_call_direction :=
     sim_call_direction r; simulated_call_state := simulated_call_state r; call_transaction_id :=
     call_transaction_id r; empty_message_loop := empty_message_loop r; timeout_counter :=
     timeout_counter r; stick_to_looped_message := stick_to_looped_message r; voice_msg :=
     voice_msg r; do_not_disturb := do_not_disturb r |}.
Definition set_call_simulation_mode' (v : bool) (r : call_rt) : call_rt :=
  {| is_call_pending := is_call_pending r; call_simulation_mode := v; sim_call_direction :=
     sim_call_direction r; simulated_call_state := simulated_call_state r; call_transaction_id :=
     call_transaction_id r; empty_message_loop := empty_message_loop r; timeout_counter :=
     timeout_counter r; stick_to_looped_message := stick_to_looped_message r; voice_msg :=
     voice_msg r; do_not_disturb := do_not_disturb r |}.
Definition set_sim_call_direction (v : Z) (r : call_rt) : call_rt :=
  {| is_call_pending := is_call_pending r; call_simulation_mode := call_simulation_mode r;
     sim_call_direction := v; simulated_call_state := simulated_call_state r; call_transaction_id
     := call_transaction_id r; empty_message_loop := empty_message_loop r; timeout_counter :=
     timeout_counter r; stick_to_looped_message := stick_to_looped_message r; voice_msg :=
     voice_msg r; do_not_disturb := do_not_disturb r |}.
Definition set_simulated_call_state (v : Z) (r : call_rt) : call_rt :=
  {| is_call_pending := is_call_pending r; call_simulation_mode := call_simulation_mode r;
     sim_call_direction := sim_call_direction r; simulated_call_state := v; call_transaction_id :=
     call_transaction_id r; empty_message_loop := empty_message_loop r; timeout_counter :=
     timeout_counter r; stick_to_looped_message := stick_to_looped_message r; voice_msg :=
     voice_msg r; do_not_disturb := do_not_disturb r |}.
Definition set_call_transaction_id (v : Z) (r : call_rt) : call_rt :=
  {| is_call_pending := is_call_pending r; call_simulation_mode := call_simulation_mode r;
     sim_call_direction := sim_call_direction r; simulated_call_state := simulated_call_state r;
     call_transaction_id := v; empty_message_loop := empty_message_loop r; timeout_counter :=
     timeout_counter r; stick_to_looped_message := stick_to_looped_message r; voice_msg :=
     voice_msg r; do_not_disturb := do_not_disturb r |}.
Definition set_empty_message_loop (v : Z) (r : call_rt) : call_rt :=
  {| is_call_pending := is_call_pending r; call_simulation_mode := call_simulation_mode r;
     sim_call_direction := sim_call_direction r; simulated_call_state := simulated_call_state r;
     call_transaction_id := call_transaction_id r; empty_message_loop := v; timeout_counter :=
     timeout_counter r; stick_to_looped_message := stick_to_looped_message r; voice_msg :=
     voice_msg r; do_not_disturb := do_not_disturb r |}.
Definition set_timeout_counter (v : Z) (r : call_rt) : call_rt :=
  {| is_call_pending := is_call_pending r; call_simulation_mode := call_simulation_mode r;
     sim_call_direction := sim_call_direction r; simulated_call_state := simulated_call_state r;
     call_transaction_id := call_transaction_id r; empty_message_loop := empty_message_loop r;
     timeout_counter := v; stick_to_looped_message := stick_to_looped_message r; voice_msg :=
     voice_msg r; do_not_disturb := do_not_disturb r |}.
Definition set_stick_to_looped_message (v : bool) (r : call_rt) : call_rt :=
  {| is_call_pending := is_call_pending r; call_simulation_mode := call_simulation_mode r;
     sim_call_direction := sim_call_direction r; simulated_call_state := simulated_call_state r;
     call_transaction_id := call_transaction_id r; empty_message_loop := empty_message_loop r;
     timeout_counter := timeout_counter r; stick_to_looped_message := v; voice_msg := voice_msg r;
     do_not_disturb := do_not_disturb r |}.
Definition set_voice_msg (v : list voice_message) (r : call_rt) : call_rt :=
  {| is_call_pending := is_call_pending r; call_simulation_mode := call_simulation_mode r;
     sim_call_direction := sim_call_direction r; simulated_call_state := simulated_call_state r;
     call_transaction_id := call_transaction_id r; empty_message_loop := empty_message_loop r;
     timeout_counter := timeout_counter r; stick_to_looped_message := stick_to_looped_message r;
     voice_msg := v; do_not_disturb := do_not_disturb r |}.
Definition set_do_not_disturb' (v : bool) (r : call_rt) : call_rt :=
  {| is_call_pending := is_call_pending r; call_simulation_mode := call_simulation_mode r;
     sim_call_direction := sim_call_direction r; simulated_call_state := simulated_call_state r;
     call_transaction_id := call_transaction_id r; empty_message_loop := empty_message_loop r;
     timeout_counter := timeout_counter r; stick_to_looped_message := stick_to_looped_message r;
     voice_msg := voice_msg r; do_not_disturb := v |}.

(** The calls and the texts. *)
Record phone := { calls : call_rt; texts : sms_runtime }.
Definition on_calls (f : call_rt -> call_rt) (p : phone) : phone :=
  {| calls := f (calls p); texts := texts p |}.

#[export, refine] Instance texts_part : Part sms_runtime phone :=
  {| part := texts; with_part t p := {| calls := calls p; texts := t |} |}.
Proof. all: abstract by intros; repeat match goal with p : phone |- _ => destruct p end. Defined.

Inductive phone_action :=
| Out (a : action)     (* an action of the store: write(2), RING IN *)
| StartTts             (* a thread runs simulated_call_tts_handler *)
| CallPacket (bytes : list Z) (len : Z) (number : list Z) (number_len : Z).  (* handle_call_pkt, audio.c *)

Definition MP (A : Type) : Type := M phone phone_action A.

(** The automatic hang-up setting, whether the log level is debug, and the
    user's name. *)
Record call_env := {
  k_hangup_mode : Z;
  k_debug_log : bool;
  k_user_name : list Z
}.

(** * Flags *)

Definition set_call_simulation_mode (en : bool) : MP unit := modify (on_calls (set_call_simulation_mode' en)).
Definition set_looped_message (en : bool) : MP unit := modify (on_calls (set_stick_to_looped_message en)).
Definition set_do_not_disturb (en : bool) : MP unit := modify (on_calls (set_do_not_disturb' en)).
Definition get_call_simulation_mode : MP bool := do* p := get in ret (call_simulation_mode (calls p)).

Definition empty_voice (m : voice_message) : voice_message :=
  {| v_message := replicate 160 0; v_len := 0; v_state := 0 |}.

Definition reset_call_state : MP unit :=
  modify (on_calls (fun r => {|
    is_call_pending := false; call_simulation_mode := false; sim_call_direction := 0;
    simulated_call_state := simulated_call_state r;
    call_transaction_id := call_transaction_id r;
    empty_message_loop := 0; timeout_counter := 0; stick_to_looped_message := false;
    voice_msg := map empty_voice (voice_msg r); do_not_disturb := false |})).

Definition set_pending_call_flag (en : bool) : MP unit :=
  modify (on_calls (fun r => set_is_call_pending (en && negb (call_simulation_mode r)) r)).
Definition get_call_pending : MP bool := do* p := get in ret (is_call_pending (calls p)).

(** * Packets to the host *)

Definition voice_qmux (control packet_len : Z) : qmux_packet :=
  {| version := 0x01; packet_length := packet_len; control := control; service := 0x09;
     instance_id := 0x02 |}.
Definition success : list Z :=
  enc_result {| result_code_type := 0x02; generic_result_size := 0x04; result := 0; response := 0 |}.

(** struct call_request_response_packet *)
Definition call_request_response (tid : Z) : list Z :=
  enc_qmux (voice_qmux 0x80 27) ++
  enc_qmi {| ctlid := 0x04; transaction_id := tid; msgid := VO_SVC_CALL_REQUEST; qmi_length := 15 |} ++
  success ++ le 1 0x10 ++ le 2 0x01 ++ le 1 0x01 ++ le 1 0x15 ++ le 2 0x01 ++ le 1 0x03.

Definition send_call_request_response (usbfd tid : Z) : MP unit :=
  emit (Out (Write usbfd (call_request_response tid))).

Definition phone_proto : list Z :=
  [0x2b; 0x32; 0x32; 0x33; 0x33; 0x34; 0x34; 0x35; 0x35; 0x36; 0x36; 0x37; 0x37].

(** struct simulated_call_packet *)
Definition call_status_event (tid direction state : Z) : list Z :=
  enc_qmux (voice_qmux 0x80 72) ++
  enc_qmi {| ctlid := 0x04; transaction_id := tid; msgid := VO_SVC_CALL_STATUS; qmi_length := 60 |} ++
  le 1 0x01 ++ le 2 0x08 ++ [0x01; 0x01; state; 0x00; direction; CALL_MODE_VOLTE; 0x00; 0x00] ++
  le 1 0x10 ++ le 2 0x11 ++ [0x01; 0x01; 0x00; 0x0d] ++ phone_proto ++
  le 1 0x27 ++ le 2 0x03 ++ [0x01; 0x01; 0x02] ++
  le 1 0x2b ++ le 2 0x14 ++ [0x01; 0x01; 0x00; 0x00; 0x00; 0x01; 0x0d] ++ phone_proto.

Definition send_voice_call_status_event (usbfd tid direction state : Z) : MP unit :=
  modify (on_calls (fun r =>
    set_simulated_call_state state (set_sim_call_direction direction (set_call_transaction_id tid r)))) ;>
  emit (Out (Write usbfd (call_status_event tid direction state))).

(** struct call_accept_ack and struct end_call_response *)
Definition call_ack (tid message_id : Z) : list Z :=
  enc_qmux (voice_qmux 0x80 23) ++
  enc_qmi {| ctlid := 0x02; transaction_id := tid; msgid := message_id; qmi_length := 11 |} ++
  success ++ le 1 0x10 ++ le 2 0x01 ++ le 1 0x01.

(** The parameter is a uint8_t. *)
Definition accept_simulated_call (usbfd tid : Z) : MP unit :=
  emit (Out (Write usbfd (call_ack (u8 tid) VO_SVC_CALL_ANSWER_REQ))).

Definition close_internal_call (usbfd tid : Z) : MP unit :=
  do* p := get in
  send_voice_call_status_event usbfd tid (sim_call_direction (calls p)) CALL_STATE_DISCONNECTING ;>
  do* p := get in
  send_voice_call_status_event usbfd (u16 (tid + 1)) (sim_call_direction (calls p)) CALL_STATE_HANGUP ;>
  set_call_simulation_mode false ;>
  modify (on_calls (set_sim_call_direction 0)).

Definition start_simulated_call (usbfd : Z) : MP unit :=
  modify (on_calls (fun r => set_sim_call_direction CALL_DIRECTION_INCOMING
    (set_simulated_call_state CALL_STATE_RINGING (set_call_transaction_id 0x01 r)))) ;>
  set_call_simulation_mode true ;>
  emit (Out PulseRingIn) ;>
  do* p := get in
  send_voice_call_status_event usbfd (call_transaction_id (calls p)) CALL_DIRECTION_INCOMING
    CALL_STATE_RINGING.

Definition send_voice_cal_disconnect_ack (usbfd tid : Z) : MP unit :=
  emit (Out (Write usbfd (call_ack tid VO_SVC_CALL_STATUS))).

(** One run per pass of the proxy while a call is simulated. *)
Definition notify_simulated_call (usbfd : Z) : MP unit :=
  do* p := get in
  when (call_simulation_mode (calls p) && (CALL_MAX_LOOPS <? empty_message_loop (calls p)))
    (close_internal_call usbfd (call_transaction_id (calls p)) ;> reset_call_state) ;>
  do* p := get in
  when (negb (simulated_call_state (calls p) =? CALL_STATE_ESTABLISHED))
    (if 60 <? timeout_counter (calls p) then
       close_internal_call usbfd (call_transaction_id (calls p)) ;> reset_call_state
     else modify (on_calls (set_timeout_counter (u8 (timeout_counter (calls p) + 1))))).

(** * The texts a call speaks *)

(** The first of the messages with [ok], and its place. *)
Fixpoint find_voice (ok : voice_message -> bool) (l : list voice_message) (i : Z)
  : option (Z * voice_message) :=
  match l with
  | [] => None
  | m :: l => if ok m then Some (i, m) else find_voice ok l (i + 1)
  end.

Definition add_voice_message_to_queue (message : list Z) (len : Z) : MP unit :=
  if 0 <? len then
    do* p := get in
    match find_voice (fun m => v_state m =? 0) (voice_msg (calls p)) 0 with
    | Some (i, m) =>
        do* buf := lift (memset (v_message m) 0 160) in
        do* text := lift (rdn message 0 (Z.to_nat len)) in
        do* buf := lift (wrn buf 0 text) in
        do* l := lift (wrA (voice_msg (calls p)) i
                         {| v_message := buf; v_len := i32 len; v_state := 1 |}) in
        modify (on_calls (set_voice_msg l))
    | None => ret tt
    end
  else ret tt.

(** [add_message_to_queue] (helpers.c): during a simulated call a text is
    spoken, otherwise it is sent. *)
Definition add_message_to_queue (message : list Z) (len : Z) : MP unit :=
  if len <=? 0 then ret tt
  else
    do* talking := get_call_simulation_mode in
    if talking : bool then add_voice_message_to_queue message len
    else zoom Out (add_sms_to_queue message len).

(** The choice of the next phrase in [simulated_call_tts_handler]: [phrase]
    is the allocated buffer. *)
Definition next_phrase (user_name phrase : list Z) : MP (list Z) :=
  do* p := get in
  match find_voice (fun m => (v_state m =? 1) && (0 <? v_len m)) (voice_msg (calls p)) 0 with
  | Some (i, m) =>
      do* text := lift (cstr (v_message m)) in
      do* '(phrase, _) := lift (snprintf phrase MAX_TTS_TEXT_SIZE text) in
      when (negb (stick_to_looped_message (calls p)))
        (do* l := lift (wrA (voice_msg (calls p)) i
                          {| v_message := v_message m; v_len := v_len m; v_state := 0 |}) in
         modify (on_calls (set_voice_msg l))) ;>
      modify (on_calls (set_empty_message_loop 0)) ;>
      ret phrase
  | None =>
      do* '(phrase, _) := lift (snprintf phrase MAX_TTS_TEXT_SIZE
        (zs "Hello " ++ user_name ++ zs ". Send me a message an I will answer with voice")) in
      modify (on_calls (set_empty_message_loop (u8 (empty_message_loop (calls p) + 1)))) ;>
      ret phrase
  end.

(** Its end, when the call is over. *)
Definition end_of_speech : MP unit :=
  modify (on_calls (fun r => set_voice_msg (map (fun m =>
    {| v_message := v_message m; v_len := v_len m; v_state := 0 |}) (voice_msg r)) r)).

(** * The filter of the voice service *)

Section Handlers.
Variable env : call_env.
Variable adspfd usbfd : Z.

(** [mask_phone_number] (logger.c): the text of [orig] in [dest], all but its
    last three characters hidden unless the log is detailed. *)
Fixpoint stars (n : nat) (i : Z) (dest : list Z) : cres (list Z) :=
  match n with
  | O => Ret dest
  | S n => let* dest := wr dest i 42 in stars n (i + 1) dest
  end.
Definition mask_phone_number (orig dest : list Z) (len : Z) : cres (list Z) :=
  if len <? 1 then
    let* '(dest, _) := snprintf dest MAX_PHONE_NUMBER_LENGTH (zs "[none]") in Ret dest
  else
    let* text := cstr orig in
    let* '(dest, _) := snprintf dest MAX_PHONE_NUMBER_LENGTH text in
    if k_debug_log env then Ret dest else stars (Z.to_nat (len - 3)) 0 dest.

Definition process_incoming_call_accept (tid : Z) : MP unit :=
  accept_simulated_call usbfd tid ;>
  send_voice_call_status_event usbfd (u16 (tid + 1)) CALL_DIRECTION_INCOMING CALL_STATE_ESTABLISHED ;>
  emit StartTts.

Definition send_dummy_call_established (tid : Z) : MP unit :=
  send_voice_call_status_event usbfd tid CALL_DIRECTION_OUTGOING CALL_STATE_ATTEMPT ;>
  send_call_request_response usbfd tid ;>
  let tid := u16 (tid + 1) in
  send_voice_call_status_event usbfd tid CALL_DIRECTION_OUTGOING CALL_STATE_ALERTING ;>
  let tid := u16 (tid + 1) in
  send_voice_call_status_event usbfd tid CALL_DIRECTION_OUTGOING CALL_STATE_ESTABLISHED ;>
  emit StartTts ;>
  modify (on_calls (set_call_transaction_id tid)).

(** Fields of struct call_status_meta in the TLV [tlv]. *)
Definition call_meta (bytes : list Z) (len tlv field : Z) : cres Z :=
  let* offset := get_tlv_offset_by_id bytes len tlv in
  if offset <=? 0 then Ret 0 else rd bytes (offset + field).
Definition get_num_instances (bytes : list Z) (len : Z) : cres Z :=
  call_meta bytes len TLV_CALL_INFO 3.
Definition get_call_state (bytes : list Z) (len tlv : Z) : cres Z := call_meta bytes len tlv 5.
Definition get_call_direction (bytes : list Z) (len tlv : Z) : cres Z := call_meta bytes len tlv 7.

(** struct call_hangup_request *)
Definition hangup_request (tid call_id : Z) : list Z :=
  enc_qmux (voice_qmux 0x00 0x10) ++
  enc_qmi {| ctlid := 0x00; transaction_id := tid; msgid := VO_SVC_CALL_END_REQ; qmi_length := 0x04 |} ++
  le 1 0x01 ++ le 2 0x01 ++ le 1 call_id.

Definition autokill_call (bytes : list Z) (call_id : Z) : MP unit :=
  do* tid := lift (rd16 bytes 7) in
  emit (Out (Write adspfd (hangup_request (u16 (tid + 1)) call_id))).

(** The digits of the dialled number, one by one into [phone_number]. *)
Fixpoint dialled_digits (n : nat) (i : Z) (bytes phone_number : list Z) (size : Z)
  : cres (list Z * Z) :=
  match n with
  | O => Ret (phone_number, size)
  | S n =>
      let* c := rd bytes (16 + i) in
      if (0x30 <=? c) && (c <=? 0x39) then
        let* phone_number := wr phone_number size c in
        dialled_digits n (i + 1) bytes phone_number (u8 (size + 1))
      else dialled_digits n (i + 1) bytes phone_number size
  end.

Definition our_number : list Z := zs "223344556677".
(** [memcmp(phone_number, our_phone, 12) == 0] *)
Definition is_our_number (phone_number : list Z) : cres bool :=
  let* head := rdn phone_number 0 12 in Ret (bool_decide (head = our_number)).

Definition handle_voice_service_call_request (bytes : list Z) (len : Z) : MP Z :=
  do* n := lift (rd16 bytes 14) in
  do* '(phone_number, size) := lift (dialled_digits (Z.to_nat n) 0 bytes (replicate 20 0) 0) in
  do* _ := lift (mask_phone_number phone_number (replicate 20 0) size) in
  do* ours := lift (is_our_number phone_number) in
  do* talking := get_call_simulation_mode in
  if (0 <? size) && ours then
    when (negb talking)
      (set_call_simulation_mode true ;>
       do* tid := lift (rd16 bytes 7) in
       send_dummy_call_established tid ;>
       modify (on_calls (set_sim_call_direction CALL_DIRECTION_OUTGOING))) ;>
    ret PACKET_BYPASS
  else
    when talking
      (do* tid := lift (get_qmi_transaction_id bytes) in close_internal_call usbfd tid) ;>
    ret PACKET_FORCED_PT.

Definition handle_voice_service_answer_request (bytes : list Z) (len : Z) : MP Z :=
  do* talking := get_call_simulation_mode in
  if talking : bool then
    do* tid := lift (get_qmi_transaction_id bytes) in
    process_incoming_call_accept tid ;>
    ret PACKET_BYPASS
  else ret PACKET_FORCED_PT.

Definition handle_voice_service_disconnect_request (bytes : list Z) (len : Z) : MP Z :=
  do* talking := get_call_simulation_mode in
  if talking : bool then
    do* tid := lift (get_qmi_transaction_id bytes) in
    send_voice_cal_disconnect_ack usbfd tid ;>
    close_internal_call usbfd tid ;>
    ret PACKET_BYPASS
  else ret PACKET_FORCED_PT.

Definition handle_voice_service_call_info (source : Z) (bytes : list Z) (len : Z) : MP Z :=
  do* p := get in
  if (source =? FROM_DSP) && do_not_disturb (calls p) then
    do* direction := lift (get_call_direction bytes len TLV_REMOTE_NUMBER) in
    ret (if direction =? CALL_DIRECTION_INCOMING then PACKET_BYPASS else PACKET_FORCED_PT)
  else ret PACKET_FORCED_PT.

(** The reply to the user: the caller's number between two texts. *)
Definition tell_user (before phone_number after : list Z) : MP unit :=
  do* number := lift (cstr phone_number) in
  do* '(reply, strsz) := lift (snprintf (replicate 160 0) MAX_MESSAGE_SIZE (before ++ number ++ after)) in
  zoom Out (add_sms_to_queue reply strsz).

(** What the first call of a status message does: the action it asks for. *)
Definition first_call (bytes : list Z) (len call_id : Z) (phone_number : list Z) (act : Z) : MP Z :=
  do* instances := lift (get_num_instances bytes len) in
  do* state := lift (if 1 <? instances then get_call_state bytes len TLV_CALL_INFO else Ret 0) in
  if (1 <? instances) && (state =? CALL_STATE_WAITING) then
    if k_hangup_mode env =? 2 then
      tell_user (zs "Automatically rejecting the call from ") phone_number
        (zs " while you're talking" ++ [10]) ;>
      autokill_call bytes call_id ;>
      ret PACKET_BYPASS
    else if k_hangup_mode env =? 1 then
      tell_user (zs "Call from ") phone_number (zs " while you're talking (ignoring it) " ++ [10]) ;>
      ret PACKET_BYPASS
    else ret act
  else
    do* p := get in
    if do_not_disturb (calls p) then
      do* direction := lift (get_call_direction bytes len TLV_CALL_INFO) in
      if direction =? CALL_DIRECTION_INCOMING then
        do* state := lift (get_call_state bytes len TLV_CALL_INFO) in
        if state =? CALL_STATE_RINGING then
          tell_user (zs "Call from ") phone_number (zs " while in DND mode " ++ [10]) ;>
          ret PACKET_BYPASS
        else ret act
      else ret act
    else ret act.

(** The loop over the calls of a status message: the number copied last, its
    length, and the action. *)
Fixpoint status_loop (n : nat) (i : Z) (bytes : list Z) (len offset : Z)
    (phone_number log_number : list Z) (prev_num_size j act : Z) : MP (list Z * Z * Z) :=
  match n with
  | O => ret (phone_number, j, act)
  | S n =>
      let at_ := offset + 3 + (if i =? 0 then 0 else prev_num_size) in
      do* num_len := lift (rd bytes (at_ + 3)) in
      do* number := lift (rdn bytes (at_ + 4) (Z.to_nat num_len)) in
      do* phone_number := lift (wrn phone_number 0 number) in
      do* log_number := lift (mask_phone_number phone_number log_number num_len) in
      if i =? 0 then
        do* call_id := lift (rd bytes (at_ + 1)) in
        do* act := first_call bytes len call_id phone_number act in
        status_loop n (i + 1) bytes len offset phone_number log_number (prev_num_size + num_len + 3)
          num_len act
      else
        status_loop n (i + 1) bytes len offset phone_number log_number prev_num_size num_len
          (if 0 <? k_hangup_mode env then PACKET_BYPASS else act)
  end.

(** [rmtparty->length] is read to be logged. *)
Definition handle_voice_service_call_status (bytes : list Z) (len : Z) : MP Z :=
  do* offset := lift (get_tlv_offset_by_id bytes len TLV_REMOTE_NUMBER) in
  if offset =? 0 then ret PACKET_FORCED_PT
  else
    do* _ := lift (rd16 bytes (offset + 1)) in
    do* n := lift (get_num_instances bytes len) in
    do* '(phone_number, j, act) :=
      status_loop (Z.to_nat n) 0 bytes len offset (replicate 20 0) (replicate 20 0) 0 0
        PACKET_FORCED_PT in
    do* p := get in
    do* direction := lift (if do_not_disturb (calls p)
                           then get_call_direction bytes len TLV_CALL_INFO else Ret 0) in
    if do_not_disturb (calls p) && (direction =? CALL_DIRECTION_INCOMING) then ret PACKET_BYPASS
    else if 0 <? j then
      do* ours := lift (is_our_number phone_number) in
      if ours : bool then ret PACKET_BYPASS
      else
        when (call_simulation_mode (calls p))
          (do* tid := lift (get_qmi_transaction_id bytes) in close_internal_call usbfd tid) ;>
        do* number_len := lift (strlen phone_number) in
        emit (CallPacket bytes len phone_number number_len) ;>
        ret act
    else if call_simulation_mode (calls p) then ret PACKET_BYPASS
    else
      do* phone_number := lift (wrn phone_number 0 (zs "Unknown")) in
      do* number_len := lift (strlen phone_number) in
      emit (CallPacket bytes len phone_number number_len) ;>
      ret act.

(** [heap]: the 20 bytes malloc(3) returns. *)
Definition dnd_answer (heap bytes : list Z) : cres (list Z) :=
  let* svc := get_qmux_service_id bytes in
  let* inst := get_qmux_instance_id bytes in
  let* '(_, buf) := build_qmux_header heap 20 0x80 svc inst in
  let* tid := get_qmi_transaction_id bytes in
  let* '(_, buf) := build_qmi_header buf 20 0x02 tid VO_SVC_GET_ALL_CALL_INFO in
  wrn buf 13 success.

Definition handle_voice_service_all_call_status_info (heap : list Z) (source : Z)
    (bytes : list Z) (len : Z) : MP Z :=
  do* p := get in
  if (source =? FROM_DSP) && do_not_disturb (calls p) then
    do* answer := lift (dnd_answer heap bytes) in
    emit (Out (Write usbfd answer)) ;>
    ret PACKET_BYPASS
  else ret PACKET_FORCED_PT.

Definition call_service_handler (heap : list Z) (source : Z) (bytes : list Z) (len : Z) : MP Z :=
  do* id := lift (get_qmi_message_id bytes) in
  if id =? VO_SVC_CALL_REQUEST then handle_voice_service_call_request bytes len
  else if id =? VO_SVC_CALL_ANSWER_REQ then handle_voice_service_answer_request bytes len
  else if id =? VO_SVC_CALL_INFO then handle_voice_service_call_info source bytes len
  else if id =? VO_SVC_CALL_STATUS then handle_voice_service_call_status bytes len
  else if id =? VO_SVC_GET_ALL_CALL_INFO then
    handle_voice_service_all_call_status_info heap source bytes len
  else if id =? VO_SVC_CALL_END_REQ then handle_voice_service_disconnect_request bytes len
  else ret PACKET_FORCED_PT.
End Handlers.

(** * Dialling *)

Definition is_digit_char (c : Z) : bool := (0x30 <=? c) && (c <=? 0x39).
(** The digits of a dialled text. *)
Fixpoint digits_of (s : list Z) : list Z :=
  match s with
  | [] => []
  | c :: s => if is_digit_char c then c :: digits_of s else digits_of s
  end.
(** A text in an array of 20 with the rest zero. *)
Definition in_20 (s : list Z) : list Z := s ++ replicate (20 - length s) 0.

Lemma digits_of_nonzero s : Forall (fun c => c <> 0) (digits_of s).
Proof.
  induction s as [|c s IH]; [done|]. cbn [digits_of]. unfold is_digit_char.
  csplit; [|done]. constructor; [lia|done].
Qed.

Lemma dialled_digits_spec pre number rest acc :
  16 <= zlen pre -> zlen acc <= 20 ->
  dialled_digits (length number) (zlen pre - 16) (pre ++ number ++ rest) (in_20 acc) (zlen acc) =
  if 20 <? zlen (acc ++ digits_of number) then Oob
  else Ret (in_20 (acc ++ digits_of number), zlen (acc ++ digits_of number)).
Proof.
  revert pre acc. induction number as [|c number IH]; intros pre acc Hpre Hacc.
  { cbn [dialled_digits length digits_of]. rewrite app_nil_r. by ifdec. }
  cbn [dialled_digits length app digits_of]. rewrite rdA_at by lia. cbn [cbind].
  replace (pre ++ c :: number ++ rest) with ((pre ++ [c]) ++ number ++ rest)
    by (by rewrite <- app_assoc).
  replace (zlen pre - 16 + 1) with (zlen (pre ++ [c]) - 16) by (zl; lia).
  fold (is_digit_char c). destruct (is_digit_char c); [|apply IH; zl; lia].
  destruct (Z.eq_dec (zlen acc) 20) as [Hf|Hf].
  - rewrite wrA_out. 2: { unfold in_20. zl. unfold zlen in *. lia. }
    cbn [cbind]. pose proof (zlen_nonneg (digits_of number)). zl. by ifdec.
  - unfold in_20 at 1. assert (20 - length acc = S (19 - length acc))%nat as ->
      by (unfold zlen in *; lia).
    cbn [replicate]. rewrite wrA_middle. cbn [cbind].
    assert (acc ++ c :: replicate (19 - length acc) 0 = in_20 (acc ++ [c])) as ->.
    { unfold in_20. rewrite length_app, <- app_assoc. cbn [length app].
      by replace (20 - (length acc + 1))%nat with (19 - length acc)%nat by lia. }
    rewrite u8_small by (unfold zlen in *; lia).
    replace (zlen acc + 1) with (zlen (acc ++ [c])) by (zl; lia).
    rewrite IH by (zl; lia). by rewrite <- app_assoc.
Qed.

Lemma stars_ok n i dest :
  0 <= i -> i + Z.of_nat n <= zlen dest -> exists d, stars n i dest = Ret d /\ zlen d = zlen dest.
Proof.
  revert i dest; induction n as [|n IH]; intros i dest Hi Hn; [by exists dest|]. cbn [stars].
  rewrite wrA_ok by lia. cbn [cbind]. destruct (IH (i + 1) (<[Z.to_nat i:=42]> dest)) as (d & -> & Hd);
    zl; [lia..|]. exists d. split; [done|lia].
Qed.

Lemma mask_ok env s dest :
  Forall (fun c => c <> 0) s -> zlen s < 20 -> zlen dest = 20 ->
  exists d, mask_phone_number env (in_20 s) dest (zlen s) = Ret d /\ zlen d = 20.
Proof.
  intros Hs Hl Hd. unfold mask_phone_number, MAX_PHONE_NUMBER_LENGTH. csplit.
  - rewrite snprintf_fits by (rewrite ?Hd; vm_compute; congruence). cbn [cbind].
    eexists. split; [done|]. unfold zlen in *. cbn [app zs length]. rewrite length_drop. cbn. lia.
  - unfold in_20. assert (20 - length s = S (19 - length s))%nat as -> by (unfold zlen in *; lia).
    cbn [replicate]. rewrite cstr_app by done. cbn [cbind].
    rewrite snprintf_fits by lia. cbn [cbind]. set (d := s ++ _).
    assert (zlen d = 20) as Hz by (unfold d, zlen in *; rewrite length_app; cbn; rewrite length_drop; lia).
    destruct (k_debug_log env); [by exists d|].
    destruct (stars_ok (Z.to_nat (zlen s - 3)) 0 d) as (d' & -> & Hd'); [lia..|].
    exists d'. split; [done|lia].
Qed.

(** A number that fills the array has no end. *)
Lemma mask_full env s dest :
  Forall (fun c => c <> 0) s -> zlen s = 20 -> mask_phone_number env (in_20 s) dest (zlen s) = Oob.
Proof.
  intros Hs Hl. unfold mask_phone_number. ifdec. unfold in_20.
  replace (20 - length s)%nat with 0%nat by (unfold zlen in *; lia). cbn [replicate].
  by rewrite app_nil_r, cstr_no_nul.
Qed.

Lemma is_our_number_spec s :
  Forall (fun c => c <> 0) s -> zlen s <= 20 ->
  is_our_number (in_20 s) = Ret (bool_decide (take 12 s = our_number)).
Proof.
  intros Hs Hl. unfold is_our_number. unfold zlen in Hl.
  rewrite rdn_head by (unfold in_20; rewrite length_app, length_replicate; lia). cbn [cbind].
  f_equal. apply bool_decide_ext. unfold in_20.
  destruct (decide (12 <= length s)%nat) as [Hge|Hlt].
  { by rewrite take_app_le by lia. }
  split; intros H; exfalso.
  - apply (f_equal (fun l : list Z => l !! length s)) in H.
    rewrite lookup_take_lt, lookup_app_r, Nat.sub_diag in H by lia.
    destruct (20 - length s)%nat eqn:E1; [lia|]. cbn [replicate lookup list_lookup] in H.
    assert (Forall (fun c => c <> 0) our_number) as Ho by (repeat constructor; done).
    symmetry in H. eapply Forall_lookup_1 in H; [|exact Ho]. done.
  - apply (f_equal length) in H. rewrite length_take in H.
    change (length our_number) with 12%nat in H. lia.
Qed.

(** The phone with an outgoing internal call established. *)
Definition internal_call (tid : Z) (r : call_rt) : call_rt :=
  {| is_call_pending := is_call_pending r; call_simulation_mode := true;
     sim_call_direction := CALL_DIRECTION_OUTGOING; simulated_call_state := CALL_STATE_ESTABLISHED;
     call_transaction_id := tid; empty_message_loop := empty_message_loop r;
     timeout_counter := timeout_counter r; stick_to_looped_message := stick_to_looped_message r;
     voice_msg := voice_msg r; do_not_disturb := do_not_disturb r |}.
(** The phone after its internal call was closed. *)
Definition hung_up (tid : Z) (r : call_rt) : call_rt :=
  {| is_call_pending := is_call_pending r; call_simulation_mode := false;
     sim_call_direction := 0; simulated_call_state := CALL_STATE_HANGUP;
     call_transaction_id := u16 (tid + 1); empty_message_loop := empty_message_loop r;
     timeout_counter := timeout_counter r; stick_to_looped_message := stick_to_looped_message r;
     voice_msg := voice_msg r; do_not_disturb := do_not_disturb r |}.
(** The two packets that tell the host. *)
Definition hangup_events (usbfd tid direction : Z) : list phone_action :=
  [Out (Write usbfd (call_status_event tid direction CALL_STATE_DISCONNECTING));
   Out (Write usbfd (call_status_event (u16 (tid + 1)) direction CALL_STATE_HANGUP))].

Lemma close_run usbfd tid p :
  close_internal_call usbfd tid p =
  Ret (tt, on_calls (hung_up tid) p, hangup_events usbfd tid (sim_call_direction (calls p))).
Proof. by destruct p as [[] ?]. Qed.

Lemma establish_run usbfd tid p :
  send_dummy_call_established usbfd tid p =
  Ret (tt, on_calls (fun r => set_call_transaction_id (u16 (u16 (tid + 1) + 1))
    (set_simulated_call_state CALL_STATE_ESTABLISHED (set_sim_call_direction CALL_DIRECTION_OUTGOING
       r))) p,
    [Out (Write usbfd (call_status_event tid CALL_DIRECTION_OUTGOING CALL_STATE_ATTEMPT));
     Out (Write usbfd (call_request_response tid));
     Out (Write usbfd (call_status_event (u16 (tid + 1)) CALL_DIRECTION_OUTGOING CALL_STATE_ALERTING));
     Out (Write usbfd (call_status_event (u16 (u16 (tid + 1) + 1)) CALL_DIRECTION_OUTGOING
            CALL_STATE_ESTABLISHED));
     StartTts]).
Proof. by destruct p as [[] ?]. Qed.

(** C34: what a call request from the host does, for every dialled text. With
    fewer than 20 digits: a number that starts with the modem's own is not
    given to the network; when idle, the host gets ATTEMPT, the answer to its
    request, ALERTING and ESTABLISHED with consecutive transactions and the
    voice starts. Any other number goes to the network, after the internal
    call, if there is one, was closed. With 20 digits or more the filter leaves
    its 20-byte array. *)
Theorem call_request_routed env usbfd pre number slack tid p :
  let bytes := pre ++ number ++ slack in
  let digits := digits_of number in
  zlen pre = 16 -> rd16 bytes 7 = Ret tid -> rd16 bytes 14 = Ret (zlen number) ->
  handle_voice_service_call_request env usbfd bytes (zlen bytes) p =
  if decide (20 <= zlen digits) then Oob
  else if decide (take 12 digits = our_number) then
    if call_simulation_mode (calls p) then Ret (PACKET_BYPASS, p, [])
    else Ret (PACKET_BYPASS, on_calls (internal_call (u16 (u16 (tid + 1) + 1))) p,
      [Out (Write usbfd (call_status_event tid CALL_DIRECTION_OUTGOING CALL_STATE_ATTEMPT));
       Out (Write usbfd (call_request_response tid));
       Out (Write usbfd (call_status_event (u16 (tid + 1)) CALL_DIRECTION_OUTGOING CALL_STATE_ALERTING));
       Out (Write usbfd (call_status_event (u16 (u16 (tid + 1) + 1)) CALL_DIRECTION_OUTGOING
              CALL_STATE_ESTABLISHED));
       StartTts])
  else if call_simulation_mode (calls p) then
    Ret (PACKET_FORCED_PT, on_calls (hung_up tid) p, hangup_events usbfd tid (sim_call_direction (calls p)))
  else Ret (PACKET_FORCED_PT, p, []).
Proof.
  intros bytes digits Hpre Htid Hn. unfold handle_voice_service_call_request.
  rewrite (bind_lift _ _ _ _ Hn). unfold zlen at 1. rewrite Nat2Z.id.
  pose proof (dialled_digits_spec pre number slack [] ltac:(lia) ltac:(done)) as Hd.
  rewrite Hpre in Hd. cbn [app] in Hd. change (16 - 16) with 0 in Hd.
  change (in_20 []) with (replicate 20 0) in Hd. change (zlen []) with 0 in Hd.
  fold bytes digits in Hd. pose proof (digits_of_nonzero number) as Hnz. fold digits in Hnz.
  destruct (decide (20 <= zlen digits)) as [Hge|Hlt].
  { destruct (decide (zlen digits = 20)) as [He|He].
    - revert Hd. ifdec. intros Hd.
      rewrite (bind_lift _ _ _ _ Hd). unfold bind at 1. unfold lift at 1. by rewrite mask_full.
    - revert Hd. ifdec. intros Hd. unfold bind at 1. unfold lift at 1. by rewrite Hd. }
  revert Hd. ifdec. intros Hd. rewrite (bind_lift _ _ _ _ Hd).
  destruct (mask_ok env digits (replicate 20 0)) as (log & Hm & _); [done|lia|done|].
  rewrite (bind_lift _ _ _ _ Hm).
  rewrite (bind_lift _ _ _ _ (is_our_number_spec digits Hnz ltac:(lia))).
  unfold get_call_simulation_mode. autorewrite with eff.
  case_decide as Ho.
  - rewrite bool_decide_eq_true_2 by done.
    assert (0 < zlen digits). { apply (f_equal length) in Ho. rewrite length_take in Ho.
      change (length our_number) with 12%nat in Ho. unfold zlen. lia. }
    ifdec. destruct (call_simulation_mode (calls p)) eqn:Em; cbn [negb when].
    + by rewrite bind_ret.
    + unfold set_call_simulation_mode. autorewrite with eff. rewrite (bind_lift _ _ _ _ Htid).
      autorewrite with eff. rewrite (bind_after _ _ _ _ _ _ (establish_run _ _ _)). autorewrite with eff.
      by destruct p as [[] ?].
  - rewrite bool_decide_eq_false_2 by done. rewrite andb_false_r.
    destruct (call_simulation_mode (calls p)) eqn:Em; cbn [when]; [|by rewrite bind_ret].
    autorewrite with eff. unfold get_qmi_transaction_id. change (SZ_QMUX + 1) with 7.
    rewrite (bind_lift _ _ _ _ Htid), (bind_after _ _ _ _ _ _ (close_run _ _ _)). done.
Qed.

Definition idle_calls : call_rt :=
  {| is_call_pending := false; call_simulation_mode := false; sim_call_direction := 0;
     simulated_call_state := 0; call_transaction_id := 0; empty_message_loop := 0;
     timeout_counter := 0; stick_to_looped_message := false;
     voice_msg := replicate 256 {| v_message := replicate 160 0; v_len := 0; v_state := 0 |};
     do_not_disturb := false |}.
Definition idle_phone : phone := {| calls := idle_calls; texts := initial_runtime |}.
Definition sample_call_env : call_env :=
  {| k_hangup_mode := 0; k_debug_log := false; k_user_name := zs "Admin" |}.
Definition request_header (n : Z) : list Z :=
  [1; 27; 0; 0; 9; 2; 0; 7; 0; 0x20; 0; 15; 0; 1] ++ le 2 n.

(** "+223344556677" is the modem. *)
Lemma call_request_routed_witness :
  handle_voice_service_call_request sample_call_env 5 (request_header 13 ++ zs "+223344556677" ++ []) 29
    idle_phone =
  Ret (PACKET_BYPASS, on_calls (internal_call 9) idle_phone,
      [Out (Write 5 (call_status_event 7 CALL_DIRECTION_OUTGOING CALL_STATE_ATTEMPT));
       Out (Write 5 (call_request_response 7));
       Out (Write 5 (call_status_event 8 CALL_DIRECTION_OUTGOING CALL_STATE_ALERTING));
       Out (Write 5 (call_status_event 9 CALL_DIRECTION_OUTGOING CALL_STATE_ESTABLISHED));
       StartTts]).
Proof.
  etransitivity; [apply (call_request_routed sample_call_env 5 (request_header 13)
    (zs "+223344556677") [] 7 idle_phone); reflexivity|].
  rewrite decide_False by (vm_compute; congruence). by rewrite decide_True by reflexivity.
Defined.

(** * An unanswered call *)

(** [n] passes of the proxy. *)
Fixpoint passes (n : nat) (usbfd : Z) : MP unit :=
  match n with
  | O => ret tt
  | S n => notify_simulated_call usbfd ;> passes n usbfd
  end.

(** A call that rings: simulated, not established, nothing spoken yet. *)
Definition ringing (r : call_rt) : Prop :=
  call_simulation_mode r = true /\ simulated_call_state r <> CALL_STATE_ESTABLISHED /\
  empty_message_loop r <= CALL_MAX_LOOPS.

Lemma notify_ringing usbfd p :
  ringing (calls p) -> 0 <= timeout_counter (calls p) <= 60 ->
  notify_simulated_call usbfd p =
  Ret (tt, on_calls (set_timeout_counter (timeout_counter (calls p) + 1)) p, []).
Proof.
  intros (Hm & Hs & He) Ht. unfold notify_simulated_call. rewrite bind_get. ifdec.
  rewrite andb_false_r. cbn [when]. rewrite bind_ret, bind_get.
  rewrite (proj2 (Z.eqb_neq _ _) Hs). ifdec. cbn [when]. by rewrite u8_small by lia.
Qed.

Lemma ringing_passes n usbfd p :
  ringing (calls p) -> 0 <= timeout_counter (calls p) -> timeout_counter (calls p) + Z.of_nat n <= 61 ->
  passes n usbfd p =
  Ret (tt, on_calls (set_timeout_counter (timeout_counter (calls p) + Z.of_nat n)) p, []).
Proof.
  revert p; induction n as [|n IH]; intros p Hr H0 Hn.
  { destruct p as [[] ?]. cbn. by rewrite Z.add_0_r. }
  cbn [passes]. rewrite (bind_step _ _ _ _ _ (notify_ringing usbfd p Hr ltac:(lia))).
  rewrite IH; cbn [calls on_calls timeout_counter set_timeout_counter]; [|done|lia..].
  replace (timeout_counter (calls p) + 1 + Z.of_nat n)
    with (timeout_counter (calls p) + Z.of_nat (S n)) by lia. by destruct p as [[] ?].
Qed.

(** The calls after [reset_call_state]. *)
Definition reset_calls (r : call_rt) : call_rt :=
  {| is_call_pending := false; call_simulation_mode := false; sim_call_direction := 0;
     simulated_call_state := simulated_call_state r; call_transaction_id := call_transaction_id r;
     empty_message_loop := 0; timeout_counter := 0; stick_to_looped_message := false;
     voice_msg := map empty_voice (voice_msg r); do_not_disturb := false |}.

(** A call the host does not pick up is closed by the pass of the proxy
    after its timeout counter, which is not cleared when a call starts, has
    reached 61: no packet before, then exactly DISCONNECTING and HANGUP. The
    texts waiting to be spoken are dropped, and the do-not-disturb mode the
    user may have set is turned off with them. *)
Theorem unanswered_call_times_out usbfd p :
  ringing (calls p) -> 0 <= timeout_counter (calls p) <= 61 ->
  let n := Z.to_nat (61 - timeout_counter (calls p)) in
  let tid := call_transaction_id (calls p) in
  passes n usbfd p = Ret (tt, on_calls (set_timeout_counter 61) p, []) /\
  passes (S n) usbfd p =
  Ret (tt, on_calls (fun r => reset_calls (hung_up tid r)) p,
       hangup_events usbfd tid (sim_call_direction (calls p))).
Proof.
  intros Hr Ht n tid.
  assert (Hp : passes n usbfd p = Ret (tt, on_calls (set_timeout_counter 61) p, [])).
  { subst n. rewrite ringing_passes by (done || lia).
    by replace (timeout_counter (calls p) + _) with 61 by lia. }
  split; [done|]. replace (S n) with (n + 1)%nat by lia.
  assert (Hadd : forall m k q, passes (m + k) usbfd q = bind (passes m usbfd) (fun _ => passes k usbfd) q).
  { intros m k. induction m as [|m IH]; intros q;
      [cbn [passes Nat.add]; by rewrite bind_ret|].
    cbn [passes Nat.add]. rewrite bind_assoc. unfold bind at 1 2.
    destruct (notify_simulated_call usbfd q) as [[[[] q'] t]| |]; try done. cbn [cbind].
    by rewrite IH. }
  rewrite Hadd, (bind_step _ _ _ _ _ Hp). cbn [passes]. unfold notify_simulated_call.
  destruct Hr as (Hm & Hs & He).
  autorewrite with eff. cbn [calls on_calls empty_message_loop set_timeout_counter]. ifdec.
  rewrite andb_false_r. cbn [when]. autorewrite with eff.
  cbn [calls on_calls simulated_call_state set_timeout_counter timeout_counter].
  rewrite (proj2 (Z.eqb_neq _ _) Hs). cbn [negb when]. change (60 <? 61) with true. cbn match.
  autorewrite with eff. rewrite (bind_after _ _ _ _ _ _ (close_run _ _ _)). by destruct p as [[] ?].
Qed.
Definition ringing_phone : phone :=
  on_calls (fun r => set_do_not_disturb' true (set_timeout_counter 58
    (set_simulated_call_state CALL_STATE_RINGING (set_call_simulation_mode' true r)))) idle_phone.
Lemma unanswered_call_times_out_witness :
  passes 3 5 ringing_phone = Ret (tt, on_calls (set_timeout_counter 61) ringing_phone, []) /\
  passes 4 5 ringing_phone = Ret (tt, on_calls (fun r => reset_calls (hung_up 0 r)) ringing_phone,
                                  hangup_events 5 0 0).
Proof.
  apply (unanswered_call_times_out 5 ringing_phone); vm_compute; repeat split; congruence.
Defined.

(** * A status message about one call *)

(** The TLVs of a status message: the call's state, and its remote number. *)
Definition call_info_tlv (call_id state type direction mode multiparty als : Z) : tlv :=
  {| t_id := TLV_CALL_INFO; t_val := [1; call_id; state; type; direction; mode; multiparty; als] |}.
Definition remote_number_tlv (call_id presentation : Z) (number : list Z) : tlv :=
  {| t_id := TLV_REMOTE_NUMBER; t_val := [1; call_id; presentation; zlen number] ++ number |}.

Lemma first_call_plain env adspfd bytes len call_id phone_number act p :
  get_num_instances bytes len = Ret 1 -> do_not_disturb (calls p) = false ->
  first_call env adspfd bytes len call_id phone_number act p = Ret (act, p, []).
Proof.
  intros Hn Hdnd. unfold first_call. rewrite (bind_lift _ _ _ _ Hn). change (1 <? 1) with false.
  cbn [andb]. unfold bind at 1, lift at 1. cbn [cbind]. by rewrite bind_get, Hdnd.
Qed.

Section OneCall.
Context (env : call_env) (adspfd usbfd : Z) (hdr : list Z) (call_id state type direction mode mp als
  presentation : Z) (number slack : list Z).
Context (Hhdr : zlen hdr = SZ_ENCAP) (Hnz : Forall (fun c => c <> 0) number) (Hl : zlen number < 256).
Let info := call_info_tlv call_id state type direction mode mp als.
Let remote := remote_number_tlv call_id presentation number.
Let tlvs := [info; remote].
Let bytes := hdr ++ enc_tlvs tlvs ++ slack.
Let len := zlen (hdr ++ enc_tlvs tlvs).

Lemma one_call_bytes :
  bytes = hdr ++ [1; 8; 0; 1; call_id; state; type; direction; mode; mp; als; 16;
    (4 + zlen number) mod 256; (4 + zlen number) / 256 mod 256; 1; call_id; presentation;
    zlen number] ++ number ++ slack.
Proof.
  unfold bytes, tlvs, info, remote. rewrite !enc_tlvs_cons. unfold enc_tlv, enc_tlvs.
  cbn [t_id t_val call_info_tlv remote_number_tlv map concat]. rewrite app_nil_r.
  replace (zlen ([1; call_id; presentation; zlen number] ++ number)) with (4 + zlen number) by (zl; lia).
  unfold zlen at 1. cbn [length app le]. rewrite <- ?app_assoc. cbn [app]. done.
Qed.

Lemma one_call_rd k : 0 <= k < 18 -> forall x,
  [1; 8; 0; 1; call_id; state; type; direction; mode; mp; als; 16; (4 + zlen number) mod 256;
    (4 + zlen number) / 256 mod 256; 1; call_id; presentation; zlen number] !! Z.to_nat k = Some x ->
  rd bytes (13 + k) = Ret x.
Proof.
  intros Hk x Hx. rewrite one_call_bytes. rewrite rdA_app_r by (rewrite Hhdr; change SZ_ENCAP with 13; lia).
  rewrite Hhdr. change SZ_ENCAP with 13. replace (13 + k - 13) with k by lia.
  rewrite rdA_app_l by (zl; lia). apply rdA_lookup. split; [lia|done].
Qed.

Lemma one_call_lookup id :
  get_tlv_offset_by_id bytes len id = Ret (default 0 (tlv_find tlvs id SZ_ENCAP)).
Proof.
  assert (Hz : zlen (enc_tlvs tlvs) = 18 + zlen number).
  { unfold tlvs. rewrite !enc_tlvs_cons, !zlen_app, !enc_tlv_len. unfold info, remote. cbn [t_val
      call_info_tlv remote_number_tlv enc_tlvs map concat]. zl. lia. }
  pose proof (zlen_nonneg number).
  apply lookup_spec; unfold len; rewrite ?zlen_app, ?Hz, ?Hhdr; try done;
    unfold SZ_ENCAP, SZ_QMUX, SZ_QMI; try lia.
  unfold tlvs, info, remote, tlv_ok, byte_ok. repeat constructor; cbn [t_id t_val call_info_tlv
    remote_number_tlv]; unfold TLV_CALL_INFO, TLV_REMOTE_NUMBER; zl; lia.
Qed.

Lemma one_call_instances : get_num_instances bytes len = Ret 1.
Proof.
  unfold get_num_instances, call_meta. rewrite one_call_lookup. cbn [cbind].
  change (default 0 (tlv_find tlvs TLV_CALL_INFO SZ_ENCAP)) with 13.
  by apply (one_call_rd 3).
Qed.

Lemma one_call_number : rdn bytes 31 (Z.to_nat (zlen number)) = Ret number.
Proof.
  rewrite one_call_bytes, app_assoc. replace (Z.to_nat (zlen number)) with (length number) by (unfold zlen; lia).
  pose proof (rdn_app (hdr ++ [1; 8; 0; 1; call_id; state; type; direction; mode; mp; als; 16;
    (4 + zlen number) mod 256; (4 + zlen number) / 256 mod 256; 1; call_id; presentation;
    zlen number]) number slack) as H.
  rewrite zlen_app, Hhdr in H. exact H.
Qed.

(** The copy of the number, and what the log makes of it. *)
Lemma copy_number :
  zlen number < 20 -> wrn (replicate 20 0) 0 number = Ret (in_20 number).
Proof.
  intros H. rewrite wrn_ok by (zl; lia). cbn [take Z.to_nat app Nat.add].
  by rewrite drop_replicate.
Qed.

Lemma one_call_loop p :
  do_not_disturb (calls p) = false ->
  status_loop env adspfd 1 0 bytes len 24 (replicate 20 0) (replicate 20 0) 0 0 PACKET_FORCED_PT p =
  if decide (20 <= zlen number) then Oob
  else Ret (in_20 number, zlen number, PACKET_FORCED_PT, p, []).
Proof.
  intros Hdnd. cbn [status_loop]. cbn match. change (24 + 3 + 0 + 3) with (13 + 17).
  rewrite (bind_lift _ _ _ _ (one_call_rd 17 ltac:(lia) _ eq_refl)).
  change (24 + 3 + 0 + 4) with 31. rewrite (bind_lift _ _ _ _ one_call_number).
  case_decide as Hlong.
  { destruct (decide (zlen number = 20)) as [He|He].
    - assert (wrn (replicate 20 0) 0 number = Ret (in_20 number)) as Hw.
      { rewrite wrn_ok by (zl; lia). cbn [take Z.to_nat app Nat.add]. by rewrite drop_replicate. }
      rewrite (bind_lift _ _ _ _ Hw). unfold bind at 1, lift at 1. by rewrite mask_full.
    - unfold bind at 1, lift at 1. rewrite wrn_overflow; [done|zl; lia..]. }
  rewrite (bind_lift _ _ _ _ (copy_number ltac:(lia))).
  destruct (mask_ok env number (replicate 20 0)) as (log & Hm & _); [done|lia|done|].
  rewrite (bind_lift _ _ _ _ Hm). change (0 =? 0) with true. cbn match.
  change (24 + 3 + 0 + 1) with (13 + 15).
  rewrite (bind_lift _ _ _ _ (one_call_rd 15 ltac:(lia) _ eq_refl)).
  rewrite (bind_step _ _ _ _ _ (first_call_plain env adspfd bytes len call_id (in_20 number)
    PACKET_FORCED_PT p one_call_instances Hdnd)). done.
Qed.
End OneCall.

(** What a status message about one call does when the do-not-disturb mode
    is off, for every caller's number. A number the 20-byte array holds with
    its NUL is handed to the call tracker with the text "Unknown" for an empty
    one, the internal call closed first, and the message goes on to the host;
    a number that starts with the modem's own, or an empty one during an
    internal call, is kept from the host. Of 20 bytes or more, it overruns the
    array. *)
Theorem call_status_routed env adspfd usbfd hdr call_id state type direction mode mp als presentation
    number slack tid p :
  let bytes := hdr ++ enc_tlvs [call_info_tlv call_id state type direction mode mp als;
                                remote_number_tlv call_id presentation number] ++ slack in
  let len := zlen hdr + 18 + zlen number in
  let talking := call_simulation_mode (calls p) in
  zlen hdr = SZ_ENCAP -> rd16 bytes 7 = Ret tid -> Forall (fun c => c <> 0) number ->
  zlen number < 256 -> do_not_disturb (calls p) = false ->
  handle_voice_service_call_status env adspfd usbfd bytes len p =
  if decide (20 <= zlen number) then Oob
  else if decide (number = []) then
    if talking then Ret (PACKET_BYPASS, p, [])
    else Ret (PACKET_FORCED_PT, p, [CallPacket bytes len (in_20 (zs "Unknown")) 7])
  else if decide (take 12 number = our_number) then Ret (PACKET_BYPASS, p, [])
  else if talking then
    Ret (PACKET_FORCED_PT, on_calls (hung_up tid) p,
         hangup_events usbfd tid (sim_call_direction (calls p)) ++
         [CallPacket bytes len (in_20 number) (zlen number)])
  else Ret (PACKET_FORCED_PT, p, [CallPacket bytes len (in_20 number) (zlen number)]).
Proof.
  intros bytes len talking Hhdr Htid Hnz Hl Hdnd.
  assert (len = zlen (hdr ++ enc_tlvs [call_info_tlv call_id state type direction mode mp als;
                                remote_number_tlv call_id presentation number])) as Hlen.
  { unfold len. rewrite !enc_tlvs_cons, !zlen_app, !enc_tlv_len.
    cbn [t_val call_info_tlv remote_number_tlv enc_tlvs map concat]. zl. lia. }
  unfold handle_voice_service_call_status.
  pose proof (one_call_lookup hdr call_id state type direction mode mp als presentation number slack
    Hhdr Hl TLV_REMOTE_NUMBER) as Ho.
  rewrite <- Hlen in Ho. change (default 0 _) with 24 in Ho.
  rewrite (bind_lift _ _ _ _ Ho). change (24 =? 0) with false. cbn match.
  assert (exists v, rd16 bytes (24 + 1) = Ret v) as [v Hv].
  { unfold rd16. change (24 + 1) with (13 + 12). change (13 + 12 + 1) with (13 + 13). unfold bytes.
    erewrite one_call_rd by first [done|lia]. cbn [cbind].
    erewrite one_call_rd by first [done|lia]. cbn [cbind]. eauto. }
  rewrite (bind_lift _ _ _ _ Hv). clear Hv v.
  pose proof (one_call_instances hdr call_id state type direction mode mp als
    presentation number slack Hhdr Hl) as Hn. rewrite <- Hlen in Hn. rewrite (bind_lift _ _ _ _ Hn).
  change (Z.to_nat 1) with 1%nat.
  pose proof (one_call_loop env adspfd hdr call_id state type direction mode mp als presentation
    number slack Hhdr Hnz Hl p Hdnd) as Hloop. fold bytes in Hloop. rewrite <- Hlen in Hloop.
  revert Hloop. case_decide as Hlong; intros Hloop.
  { unfold bind at 1. by rewrite Hloop. }
  rewrite (bind_step _ _ _ _ _ Hloop). clear Hloop. autorewrite with eff. rewrite Hdnd.
  unfold bind at 1, lift at 1. cbn [cbind andb]. fold talking.
  destruct (decide (number = [])) as [->|Hne].
  - change (0 <? zlen []) with false. cbn match. destruct talking; [done|].
    change (in_20 []) with (replicate 20 0).
    change (wrn (replicate 20 0) 0 (zs "Unknown")) with (Ret (in_20 (zs "Unknown"))). done.
  - assert (0 < zlen number) by (destruct number; [done|zl; pose proof (zlen_nonneg number); lia]).
    ifdec. rewrite (bind_lift _ _ _ _ (is_our_number_spec number Hnz ltac:(lia))).
    assert (strlen (in_20 number) = Ret (zlen number)) as Hs.
    { unfold in_20. assert (20 - length number = S (19 - length number))%nat as ->
        by (unfold zlen in *; lia). by apply strlen_app. }
    case_decide as Ho'; [by rewrite bool_decide_eq_true_2|].
    rewrite bool_decide_eq_false_2 by done. destruct talking; cbn [when].
    + autorewrite with eff. unfold get_qmi_transaction_id. change (SZ_QMUX + 1) with 7.
      rewrite (bind_lift _ _ _ _ Htid). autorewrite with eff.
      rewrite (bind_after _ _ _ _ _ _ (close_run _ _ _)), (bind_lift _ _ _ _ Hs). done.
    + autorewrite with eff. by rewrite (bind_lift _ _ _ _ Hs).
Qed.
Definition sample_status_hdr : list Z :=
  enc_qmux (voice_qmux 0x80 44) ++
  enc_qmi {| ctlid := 4; transaction_id := 300; msgid := VO_SVC_CALL_STATUS; qmi_length := 32 |}.
Lemma call_status_routed_witness :
  let number := zs "+34600111222" in
  let bytes := sample_status_hdr ++ enc_tlvs [call_info_tlv 1 2 2 2 4 0 0; remote_number_tlv 1 0 number] in
  handle_voice_service_call_status sample_call_env 6 5 (bytes ++ []) 43 idle_phone =
  Ret (PACKET_FORCED_PT, idle_phone, [CallPacket (bytes ++ []) 43 (in_20 number) 12]).
Proof.
  etransitivity; [apply (call_status_routed sample_call_env 6 5 sample_status_hdr 1 2 2 2 4 0 0 0
    (zs "+34600111222") [] 300 idle_phone)|]; try reflexivity;
    repeat constructor; vm_compute; congruence.
Defined.

(** * Answering, and the queue of the voice *)

(** The host's answer request: the acknowledgement has the low byte of its
    transaction only. *)
Lemma answer_request_run usbfd bytes len tid p :
  call_simulation_mode (calls p) = true -> rd16 bytes 7 = Ret tid ->
  exists p', handle_voice_service_answer_request usbfd bytes len p =
    Ret (PACKET_BYPASS, p',
      [Out (Write usbfd (call_ack (u8 tid) VO_SVC_CALL_ANSWER_REQ));
       Out (Write usbfd (call_status_event (u16 (tid + 1)) CALL_DIRECTION_INCOMING
              CALL_STATE_ESTABLISHED));
       StartTts]) /\
    simulated_call_state (calls p') = CALL_STATE_ESTABLISHED /\ call_simulation_mode (calls p') = true.
Proof.
  intros Hm Ht. unfold handle_voice_service_answer_request, get_call_simulation_mode.
  autorewrite with eff. rewrite Hm. unfold get_qmi_transaction_id. change (SZ_QMUX + 1) with 7.
  rewrite (bind_lift _ _ _ _ Ht). eexists. split; [reflexivity|]. destruct p as [[] ?]. cbn in *. by split.
Qed.

Lemma find_voice_spec ok l i :
  match find_voice ok l i with
  | Some (j, m) => exists pre rest, l = pre ++ m :: rest /\ j = i + zlen pre /\ ok m = true /\
                     Forall (fun m => ok m = false) pre
  | None => Forall (fun m => ok m = false) l
  end.
Proof.
  revert i; induction l as [|m l IH]; intros i; [constructor|]. cbn [find_voice].
  destruct (ok m) eqn:E.
  - exists [], l. rewrite zlen_nil. split_and!; try done; lia.
  - specialize (IH (i + 1)). destruct (find_voice ok l (i + 1)) as [[j m']|]; [|by constructor].
    destruct IH as (pre & rest & -> & -> & Hok & Hpre). exists (m :: pre), rest.
    split_and!; try done; [zl; lia|by constructor].
Qed.

(** Every text has its 160 bytes. *)
Definition voice_ok (r : call_rt) : Prop := Forall (fun m => zlen (v_message m) = 160) (voice_msg r).
(** A text of the queue: [s], padded. *)
Definition spoken_text (s : list Z) : voice_message :=
  {| v_message := s ++ replicate (160 - length s) 0; v_len := zlen s; v_state := 1 |}.

(** A text of up to 160 bytes takes the first free place, if there is one. *)
Lemma add_voice_run s rest p :
  voice_ok (calls p) -> 0 < zlen s <= 160 ->
  exists l, add_voice_message_to_queue (s ++ rest) (zlen s) p = Ret (tt, on_calls (set_voice_msg l) p, []) /\
    voice_ok (set_voice_msg l (calls p)) /\
    (l = voice_msg (calls p) /\ Forall (fun m => v_state m <> 0) l \/
     exists pre m post, voice_msg (calls p) = pre ++ m :: post /\ l = pre ++ spoken_text s :: post /\
       v_state m = 0 /\ Forall (fun m => v_state m <> 0) pre).
Proof.
  intros Hok Hs. unfold add_voice_message_to_queue. ifdec. rewrite bind_get.
  pose proof (find_voice_spec (fun m => v_state m =? 0) (voice_msg (calls p)) 0) as Hf.
  assert (Hne : forall l, Forall (fun m => (v_state m =? 0) = false) l ->
                Forall (fun m => v_state m <> 0) l).
  { intros l H. eapply Forall_impl; [exact H|]. intros m ?%Z.eqb_neq. done. }
  destruct (find_voice _ _ _) as [[j m]|].
  - destruct Hf as (pre & post & Hl & -> & Hst & Hpre). b2p. unfold voice_ok in *.
    rewrite Hl in Hok. apply Forall_app in Hok as [Hok1 Hok]. inversion Hok as [|? ? Hm Hok2]. subst.
    assert (Hw1 : memset (v_message m) 0 160 = Ret (replicate 160 0)).
    { unfold memset. rewrite wrn_ok by (zl; lia). change (Z.to_nat 0) with 0%nat. cbn [take app Nat.add].
      rewrite drop_ge by (rewrite length_replicate; unfold zlen in *; lia). by rewrite app_nil_r. }
    assert (Hw2 : wrn (replicate 160 0) 0 s = Ret (s ++ replicate (160 - length s) 0)).
    { rewrite wrn_ok by (zl; lia). change (Z.to_nat 0) with 0%nat. cbn [take app Nat.add].
      by rewrite drop_replicate. }
    pose proof (rdn_app [] s rest) as Hr. cbn [app] in Hr. change (zlen []) with 0 in Hr.
    replace (Z.to_nat (zlen s)) with (length s) by (unfold zlen; lia).
    rewrite (bind_lift _ _ _ _ Hw1), (bind_lift _ _ _ _ Hr), (bind_lift _ _ _ _ Hw2), i32_small by lia.
    assert (Hw3 := wrA_middle pre m (spoken_text s) post). rewrite Hl, Z.add_0_l.
    rewrite (bind_lift _ _ _ _ Hw3).
    eexists. split; [reflexivity|]. split.
    + cbn [voice_msg set_voice_msg]. apply Forall_app. split; [done|]. constructor; [|done].
      cbn [v_message spoken_text]. zl. unfold zlen in *. lia.
    + right. exists pre, m, post. split_and!; auto.
  - exists (voice_msg (calls p)). destruct p as [[] ?]. split_and!; auto.
Qed.

(** Slots are reused from the first: a later text can be spoken before an
    earlier one. *)
Example voice_texts_overtake :
  (let* '(phrase, _, _) := (add_voice_message_to_queue (zs "A") 1 ;> add_voice_message_to_queue (zs "B") 1 ;>
      next_phrase (zs "Admin") (replicate 160 7) ;> add_voice_message_to_queue (zs "C") 1 ;>
      next_phrase (zs "Admin") (replicate 160 7)) idle_phone in cstr phrase) = Ret (zs "C").
Proof. vm_compute. reflexivity. Qed.

(** [add_message_to_queue] as the text filters see it (SmsFilter.v): the same
    when a call is not simulated. *)
Lemma add_message_not_talking env message len p :
  call_simulation_mode (calls p) = false -> f_call_simulation env = false ->
  add_message_to_queue message len p =
  zoom Out (SmsFilter.add_message_to_queue env message len) p.
Proof.
  intros Hm He. unfold add_message_to_queue, SmsFilter.add_message_to_queue. csplit.
  - symmetry. apply (zoom_same Out (ret tt) p tt []). done.
  - unfold get_call_simulation_mode. autorewrite with eff. by rewrite Hm, He.
Qed.
