(* ===== verification/Audio.v ===== *)
(** The sound of the calls (src/audio.c, over src/mixer.c and src/pcm.c): the
    devices and the mixer controls of a voice call, its state from the messages
    of the voice service, muting, and what is told of a recording. *)

From stdpp Require Import base list numbers option strings gmap.
From Stdlib Require Import ZArith Lia.
From S2P Require Import Prelude Libc Eff Qmi Sms Config Call.

(** * State *)

Definition CALL_STATUS_IDLE : Z := 0.
Definition CALL_STATUS_CS : Z := 1.
Definition CALL_STATUS_VOLTE : Z := 2.
Definition CALL_STATE_ORIGINATING : Z := 0x01.
Definition CALL_STATE_ON_HOLD : Z := 0x06.
Definition CALL_STATE_PREPARING : Z := 0x0a.
Definition AUDIO_I2S : Z := 0.
Definition AUDIO_USB : Z := 1.
Definition MAX_ACTIVE_CALLS : Z := 10.

Definition RXCTL_VOLTE : string := "SEC_AUX_PCM_RX_Voice Mixer VoLTE".
Definition TXCTL_VOLTE : string := "VoLTE_Tx Mixer SEC_AUX_PCM_TX_VoLTE".
Definition RXCTL_VOICE : string := "SEC_AUX_PCM_RX_Voice Mixer CSVoice".
Definition TXCTL_VOICE : string := "Voice_Tx Mixer SEC_AUX_PCM_TX_Voice".
Definition AFERX_VOLTE : string := "AFE_PCM_RX_Voice Mixer VoLTE".
Definition AFETX_VOLTE : string := "VoLTE_Tx Mixer AFE_PCM_TX_VoLTE".
Definition AFERX_VOICE : string := "AFE_PCM_RX_Voice Mixer CSVoice".
Definition AFETX_VOICE : string := "Voice_Tx Mixer AFE_PCM_TX_Voice".
Definition HIFI_RX_MULTIMEDIA_MIXER : string := "SEC_AUX_PCM_RX Audio Mixer MultiMedia1".
Definition HIFI_TX_MULTIMEDIA_MIXER : string := "MultiMedia1 Mixer SEC_AUX_PCM_UL_TX".
Definition AUX_PCM_MODE : string := "AUXPCM Mode".
Definition SEC_AUXPCM_MODE : string := "SEC_AUXPCM Mode".
Definition AUX_PCM_SAMPLERATE : string := "AUX PCM SampleRate".
Definition PCM_DEV_VOCS : string := "/dev/snd/pcmC0D2".
Definition PCM_DEV_VOLTE : string := "/dev/snd/pcmC0D4".

Record call_data := { cd_number : list Z; cd_direction : Z; cd_state : Z; cd_type : Z }.
Record audio_rt := {
  current_call_state : Z;
  sampling_rate : Z;
  output_device : Z;
  is_muted : bool;
  is_alerting : bool;
  active_calls : list call_data;
  current_active_call_id : Z;
  is_recording : bool;
  record_next : bool
}.
(** A struct pcm that is allocated. *)
Record pcm := { p_device : string; p_capture : bool; p_rate : Z }.
(** The globals: the mixer's pointer (NULL or not), the two PCM pointers, the
    allocated PCMs by address, the addresses handed out so far, and the values the
    controls of the sound card have. *)
Record audio := {
  art : audio_rt;
  mixer : bool;
  pcm_tx : option Z;
  pcm_rx : option Z;
  live : gmap Z pcm;
  next_pcm : Z;
  controls : gmap string Z
}.

Definition on_art (f : audio_rt -> audio_rt) (a : audio) : audio :=
  {| art := f (art a); mixer := mixer a; pcm_tx := pcm_tx a; pcm_rx := pcm_rx a; live := live a;
     next_pcm := next_pcm a; controls := controls a |}.
Definition upd_mixer (v : bool) (a : audio) : audio :=
  {| art := art a; mixer := v; pcm_tx := pcm_tx a; pcm_rx := pcm_rx a; live := live a;
     next_pcm := next_pcm a; controls := controls a |}.
Definition upd_tx (p : option Z) (a : audio) : audio :=
  {| art := art a; mixer := mixer a; pcm_tx := p; pcm_rx := pcm_rx a; live := live a;
     next_pcm := next_pcm a; controls := controls a |}.
Definition upd_rx (p : option Z) (a : audio) : audio :=
  {| art := art a; mixer := mixer a; pcm_tx := pcm_tx a; pcm_rx := p; live := live a;
     next_pcm := next_pcm a; controls := controls a |}.
Definition upd_live (l : gmap Z pcm) (a : audio) : audio :=
  {| art := art a; mixer := mixer a; pcm_tx := pcm_tx a; pcm_rx := pcm_rx a; live := l;
     next_pcm := next_pcm a; controls := controls a |}.
Definition upd_next (n : Z) (a : audio) : audio :=
  {| art := art a; mixer := mixer a; pcm_tx := pcm_tx a; pcm_rx := pcm_rx a; live := live a;
     next_pcm := n; controls := controls a |}.
Definition upd_controls (c : gmap string Z) (a : audio) : audio :=
  {| art := art a; mixer := mixer a; pcm_tx := pcm_tx a; pcm_rx := pcm_rx a; live := live a;
     next_pcm := next_pcm a; controls := c |}.

Definition set_call_status (v : Z) (r : audio_rt) : audio_rt :=
  {| current_call_state := v; sampling_rate := sampling_rate r; output_device := output_device r;
     is_muted := is_muted r; is_alerting := is_alerting r; active_calls := active_calls r;
     current_active_call_id := current_active_call_id r; is_recording := is_recording r;
     record_next := record_next r |}.
Definition set_sampling (v : Z) (r : audio_rt) : audio_rt :=
  {| current_call_state := current_call_state r; sampling_rate := v; output_device := output_device r;
     is_muted := is_muted r; is_alerting := is_alerting r; active_calls := active_calls r;
     current_active_call_id := current_active_call_id r; is_recording := is_recording r;
     record_next := record_next r |}.
Definition set_device (v : Z) (r : audio_rt) : audio_rt :=
  {| current_call_state := current_call_state r; sampling_rate := sampling_rate r; output_device := v;
     is_muted := is_muted r; is_alerting := is_alerting r; active_calls := active_calls r;
     current_active_call_id := current_active_call_id r; is_recording := is_recording r;
     record_next := record_next r |}.
Definition set_muted (v : bool) (r : audio_rt) : audio_rt :=
  {| current_call_state := current_call_state r; sampling_rate := sampling_rate r;
     output_device := output_device r; is_muted := v; is_alerting := is_alerting r;
     active_calls := active_calls r; current_active_call_id := current_active_call_id r;
     is_recording := is_recording r; record_next := record_next r |}.
Definition set_alerting (v : bool) (r : audio_rt) : audio_rt :=
  {| current_call_state := current_call_state r; sampling_rate := sampling_rate r;
     output_device := output_device r; is_muted := is_muted r; is_alerting := v;
     active_calls := active_calls r; current_active_call_id := current_active_call_id r;
     is_recording := is_recording r; record_next := record_next r |}.
Definition set_active_calls (l : list call_data) (r : audio_rt) : audio_rt :=
  {| current_call_state := current_call_state r; sampling_rate := sampling_rate r;
     output_device := output_device r; is_muted := is_muted r; is_alerting := is_alerting r;
     active_calls := l; current_active_call_id := current_active_call_id r;
     is_recording := is_recording r; record_next := record_next r |}.
Definition set_active_id (v : Z) (r : audio_rt) : audio_rt :=
  {| current_call_state := current_call_state r; sampling_rate := sampling_rate r;
     output_device := output_device r; is_muted := is_muted r; is_alerting := is_alerting r;
     active_calls := active_calls r; current_active_call_id := v; is_recording := is_recording r;
     record_next := record_next r |}.
Definition set_recording (v : bool) (r : audio_rt) : audio_rt :=
  {| current_call_state := current_call_state r; sampling_rate := sampling_rate r;
     output_device := output_device r; is_muted := is_muted r; is_alerting := is_alerting r;
     active_calls := active_calls r; current_active_call_id := current_active_call_id r;
     is_recording := v; record_next := record_next r |}.
Definition set_record_next (v : bool) (r : audio_rt) : audio_rt :=
  {| current_call_state := current_call_state r; sampling_rate := sampling_rate r;
     output_device := output_device r; is_muted := is_muted r; is_alerting := is_alerting r;
     active_calls := active_calls r; current_active_call_id := current_active_call_id r;
     is_recording := is_recording r; record_next := v |}.

Inductive audio_action :=
| Gain (session value : Z)        (* mixer_ctl_set_gain of "Voice Rx Gain" *)
| ToneThread                      (* play_alerting_tone in a thread of its own *)
| RecordThread.                   (* incall_recording_thread in a thread of its own *)
Definition MA (A : Type) : Type := M audio audio_action A.

(** Whether the file of the external codec is there, the control device opens, a
    control exists and takes a value, the PCM of an address opens and takes its
    parameters, is prepared and is started; and the two settings the code reads. *)
Record audio_env := {
  a_codec : bool;
  a_mixer : bool;
  a_control : string -> bool;
  a_open : Z -> bool;
  a_params : Z -> bool;
  a_prepare : Z -> bool;
  a_start : Z -> bool;
  a_recording : Z;                (* is_automatic_call_recording_enabled *)
  a_custom_tone : bool            (* use_custom_alert_tone *)
}.

(** * Operations *)

Definition set_audio_runtime_default : MA unit :=
  modify (on_art (fun r => {| current_call_state := CALL_STATUS_IDLE; sampling_rate := 0;
    output_device := AUDIO_I2S; is_muted := false; is_alerting := false; active_calls := active_calls r;
    current_active_call_id := 0; is_recording := false; record_next := false |})).
Definition get_current_call_id (a : audio) : Z := current_active_call_id (art a).

Section Audio.
Variable env : audio_env.

(** A control that is not there is only reported; without a mixer the search for
    it goes through NULL. *)
Definition put (name : string) (value : Z) (c : gmap string Z) : gmap string Z :=
  if a_control env name then <[name := value]> c else c.
Definition set_mixer_ctl (name : string) (value : Z) : MA unit :=
  do* a := get in
  if mixer a then modify (fun a => upd_controls (put name value (controls a)) a) else lift Oob.
Definition set_gain_ctl (type value : Z) : MA unit :=
  do* a := get in
  if mixer a then when (a_control env "Voice Rx Gain") (emit (Gain type value)) else lift Oob.

Definition codec_mixers : MA unit :=
  if a_codec env then
    set_mixer_ctl AUX_PCM_MODE 0 ;> set_mixer_ctl SEC_AUXPCM_MODE 0 ;> set_mixer_ctl AUX_PCM_SAMPLERATE 1
  else
    set_mixer_ctl AUX_PCM_MODE 1 ;> set_mixer_ctl SEC_AUXPCM_MODE 1 ;> set_mixer_ctl AUX_PCM_SAMPLERATE 0.
Definition set_multimedia_mixer : MA unit :=
  codec_mixers ;> set_mixer_ctl HIFI_RX_MULTIMEDIA_MIXER 1 ;> set_mixer_ctl HIFI_TX_MULTIMEDIA_MIXER 1.
Definition stop_multimedia_mixer : MA unit :=
  set_mixer_ctl HIFI_RX_MULTIMEDIA_MIXER 0 ;> set_mixer_ctl HIFI_TX_MULTIMEDIA_MIXER 0.

(** [if (!mixer) mixer = mixer_open(SND_CTL)]: whether there is one now. *)
Definition need_mixer : MA bool :=
  do* a := get in
  if mixer a then ret true
  else modify (upd_mixer (a_mixer env)) ;> ret (a_mixer env).

(** ** Memory of the PCMs (src/pcm.c) *)

Definition pcm_open (capture : bool) (device : string) : MA (option Z) :=
  do* a := get in
  let p := next_pcm a in
  modify (upd_next (p + 1)) ;>
  if a_open env p then
    modify (fun a => upd_live (<[p := {| p_device := device; p_capture := capture; p_rate := 0 |}]> (live a)) a) ;>
    ret (Some p)
  else ret None.
(** An allocated PCM; anything else is memory that was freed. *)
Definition deref (p : Z) : MA pcm :=
  do* a := get in match live a !! p with Some x => ret x | None => lift Oob end.
Definition pcm_close (p : Z) : MA unit :=
  do* _ := deref p in modify (fun a => upd_live (delete p (live a)) a).
Definition set_rate (p rate : Z) : MA unit :=
  do* x := deref p in
  modify (fun a => upd_live (<[p := {| p_device := p_device x; p_capture := p_capture x; p_rate := rate |}]> (live a)) a).

(** ** Voice path *)

(** The controls of the playback and the capture of a kind of call. *)
Definition tx_control (device type : Z) : option string :=
  if device =? AUDIO_I2S then
    if type =? 1 then Some TXCTL_VOICE else if type =? 2 then Some TXCTL_VOLTE else None
  else if device =? AUDIO_USB then
    if type =? 1 then Some AFETX_VOICE else if type =? 2 then Some AFETX_VOLTE else None
  else None.
Definition rx_control (device type : Z) : option string :=
  if device =? AUDIO_I2S then
    if type =? 1 then Some RXCTL_VOICE else if type =? 2 then Some RXCTL_VOLTE else None
  else if device =? AUDIO_USB then
    if type =? 1 then Some AFERX_VOICE else if type =? 2 then Some AFERX_VOLTE else None
  else None.
Definition set_some (name : option string) (value : Z) : MA unit :=
  match name with Some n => set_mixer_ctl n value | None => ret tt end.

Definition stop_audio : MA Z :=
  modify (on_art (set_active_id 0)) ;>
  do* a := get in
  if current_call_state (art a) =? CALL_STATUS_IDLE then ret 1
  else
    match pcm_tx a, pcm_rx a with
    | Some tx, Some rx =>
        pcm_close tx ;> pcm_close rx ;>
        do* ok := need_mixer in
        if negb ok then ret 0
        else
          set_some (tx_control (output_device (art a)) (current_call_state (art a))) 0 ;>
          set_some (rx_control (output_device (art a)) (current_call_state (art a))) 0 ;>
          modify (on_art (fun r => set_muted false (set_call_status CALL_STATUS_IDLE r))) ;>
          ret 1
    | _, _ => ret 1
    end.

(** [pcm_rx] and [pcm_tx] both closed, in this order or the other. *)
Definition close_both (p q : Z) : MA Z := pcm_close p ;> pcm_close q ;> ret (- EINVAL).
Definition rate_of (sampling : Z) : Z := if sampling =? 1 then 16000 else if sampling =? 2 then 48000 else 8000.

(** Parameters, preparation and start of the two. *)
Definition run_pcms (type rx tx : Z) : MA Z :=
  if negb (a_params env rx) then close_both rx tx
  else if negb (a_params env tx) then close_both tx rx
  else if negb (a_prepare env rx) then close_both rx tx
  else if negb (a_prepare env tx) then close_both tx rx
  else if negb (a_start env tx) then close_both tx rx
  else if negb (a_start env rx) then close_both rx tx
  else
    when ((type =? CALL_STATUS_CS) || (type =? CALL_STATUS_VOLTE)) (modify (on_art (set_call_status type))) ;>
    ret 0.
(** What follows the mixers: the devices, their parameters and their start. *)
Definition start_pcms (type : Z) (device : string) : MA Z :=
  do* rx := pcm_open true device in
  modify (upd_rx rx) ;>
  match rx with
  | None => ret 0
  | Some rx =>
      do* tx := pcm_open false device in
      modify (upd_tx tx) ;>
      match tx with
      | None => pcm_close rx ;> ret 0
      | Some tx =>
          do* a := get in
          set_rate rx (rate_of (sampling_rate (art a))) ;>
          set_rate tx (rate_of (sampling_rate (art a))) ;>
          run_pcms type rx tx
      end
  end.

(** A device that is neither leaves the name of the PCM unset. *)
Definition start_audio (type : Z) : MA Z :=
  do* a := get in
  let state := current_call_state (art a) in
  if negb (state =? CALL_STATUS_IDLE) && (type =? state) then ret 0
  else
    (if negb (state =? CALL_STATUS_IDLE) then do* _ := stop_audio in ret tt else ret tt) ;>
    do* ok := need_mixer in
    if negb ok then ret 0
    else
      codec_mixers ;>
      do* a := get in
      let device := output_device (art a) in
      if negb ((device =? AUDIO_I2S) || (device =? AUDIO_USB)) then lift Oob
      else
        match tx_control device type, rx_control device type with
        | Some tx, Some rx =>
            set_mixer_ctl tx 1 ;> set_mixer_ctl rx 1 ;>
            when (device =? AUDIO_I2S) (set_gain_ctl type 100) ;>
            start_pcms type (if type =? 1 then PCM_DEV_VOCS else PCM_DEV_VOLTE)
        | _, _ => ret (- EINVAL)
        end.

Definition set_audio_mute (mute : bool) : MA unit :=
  do* a := get in
  if current_call_state (art a) =? CALL_STATUS_IDLE then modify (on_art (set_muted false))
  else
    do* ok := need_mixer in
    when ok
      (modify (on_art (set_muted mute)) ;>
       set_some (rx_control (output_device (art a)) (current_call_state (art a))) (if mute then 0 else 1)).

Definition set_output_device (device : Z) : MA unit := modify (on_art (set_device (u8 device))).
Definition set_auxpcm_sampling_rate (mode : Z) : MA unit :=
  do* a := get in
  modify (on_art (set_sampling mode)) ;>
  when (negb (current_call_state (art a) =? CALL_STATUS_IDLE))
    (do* _ := stop_audio in do* _ := start_audio (current_call_state (art a)) in ret tt).
Definition set_external_codec_defaults : MA Z :=
  set_auxpcm_sampling_rate 1 ;>
  set_mixer_ctl AUX_PCM_MODE 0 ;> set_mixer_ctl SEC_AUXPCM_MODE 0 ;> set_mixer_ctl AUX_PCM_SAMPLERATE 1 ;>
  ret 0.
Definition setup_codec : MA unit :=
  modify (upd_mixer (a_mixer env)) ;>
  set_auxpcm_sampling_rate (if a_codec env then 1 else 0) ;>
  codec_mixers.

Definition record_next_call (en : bool) : MA unit := modify (on_art (set_record_next en)).
Definition record_current_call : MA Z :=
  do* a := get in
  if current_call_state (art a) =? CALL_STATUS_IDLE then ret (- EINVAL)
  else modify (on_art (set_record_next true)) ;> emit RecordThread ;> ret 0.

(** ** Messages of the voice service *)

Definition call_mode_status (mode : Z) : Z := if mode =? CALL_MODE_VOLTE then CALL_STATUS_VOLTE else CALL_STATUS_CS.
Definition note_call (call_id direction state mode : Z) (number : list Z) : MA unit :=
  modifyM (fun a =>
    let* c := rdA (active_calls (art a)) call_id in
    let* n := wrn (cd_number c) 0 number in
    let* l := wrA (active_calls (art a)) call_id
      {| cd_number := n; cd_direction := direction; cd_state := state; cd_type := mode |} in
    Ret (on_art (set_active_calls l) a)).

Definition call_state_step (calls_active call_id state mode : Z) : MA unit :=
  let start := do* _ := start_audio mode in ret tt in
  let stop := do* _ := stop_audio in ret tt in
  let quiet := modify (on_art (set_alerting false)) in
  if (state =? CALL_STATE_PREPARING) || (state =? CALL_STATE_ATTEMPT) || (state =? CALL_STATE_ORIGINATING) ||
     (state =? CALL_STATE_RINGING) then quiet ;> start
  else if state =? CALL_STATE_ESTABLISHED then
    quiet ;>
    when (a_codec env) stop ;>
    modify (on_art (set_active_id call_id)) ;>
    start ;>
    do* a := get in
    when (record_next (art a) || (0 <? a_recording env))
      (emit RecordThread ;> modify (on_art (set_record_next false)))
  else if state =? CALL_STATE_ALERTING then
    do* a := get in
    if negb (a_custom_tone env) then start
    else when (negb (is_alerting (art a)))
           (modify (on_art (set_alerting true)) ;> stop ;> emit ToneThread)
  else if (state =? CALL_STATE_DISCONNECTING) || (state =? CALL_STATE_HANGUP) then
    when (calls_active <? 2) stop ;> quiet
  else quiet.

Definition handle_call_pkt (pkt : list Z) (sz : Z) (phone_number : list Z) (phone_num_len : Z) : MA unit :=
  do* offset := lift (get_tlv_offset_by_id pkt sz TLV_CALL_INFO) in
  if offset <=? 0 then ret tt
  else
    do* calls_active := lift (rd pkt (offset + 3)) in
    do* call_id := lift (rd pkt (offset + 4)) in
    do* state := lift (rd pkt (offset + 5)) in
    do* direction := lift (rd pkt (offset + 7)) in
    do* mode := lift (rd pkt (offset + 8)) in
    do* number := lift (rdn phone_number 0 (Z.to_nat phone_num_len)) in
    note_call call_id direction state mode number ;>
    call_state_step calls_active call_id state (call_mode_status mode).
End Audio.

(** * Runs of the operations *)

Lemma audio_eta a :
  {| art := art a; mixer := mixer a; pcm_tx := pcm_tx a; pcm_rx := pcm_rx a; live := live a;
     next_pcm := next_pcm a; controls := controls a |} = a.
Proof. by destruct a. Qed.
Lemma upd_controls_id a : upd_controls (controls a) a = a.
Proof. by destruct a. Qed.

Section Runs.
Variable env : audio_env.

Lemma ctl_run n v a :
  mixer a = true -> set_mixer_ctl env n v a = Ret (tt, upd_controls (put env n v (controls a)) a, []).
Proof. intros Hm. unfold set_mixer_ctl. by rewrite bind_get, Hm. Qed.
Definition put_some (n : option string) (v : Z) (c : gmap string Z) : gmap string Z :=
  match n with Some n => put env n v c | None => c end.
Lemma some_run n v a :
  mixer a = true -> set_some env n v a = Ret (tt, upd_controls (put_some n v (controls a)) a, []).
Proof. intros Hm. destruct n; cbn [set_some put_some]; [by apply ctl_run|]. by rewrite upd_controls_id. Qed.

Definition codec_controls (c : gmap string Z) : gmap string Z :=
  let v := if a_codec env then 0 else 1 in
  put env AUX_PCM_SAMPLERATE (1 - v) (put env SEC_AUXPCM_MODE v (put env AUX_PCM_MODE v c)).
Lemma codec_run a :
  mixer a = true -> codec_mixers env a = Ret (tt, upd_controls (codec_controls (controls a)) a, []).
Proof.
  intros Hm. unfold codec_mixers, codec_controls.
  destruct (a_codec env);
    rewrite (bind_step _ _ _ _ _ (ctl_run _ _ a Hm)), (bind_step _ _ _ _ _ (ctl_run _ _ (upd_controls _ a) Hm)), ctl_run by exact Hm; reflexivity.
Qed.
Lemma mixer_run a :
  need_mixer env a = Ret (mixer a || a_mixer env, upd_mixer (mixer a || a_mixer env) a, []).
Proof.
  unfold need_mixer. rewrite bind_get. destruct a as [r m tx rx l n c]. by destruct m; cbn.
Qed.

Lemma pcm_close_run p a : is_Some (live a !! p) -> pcm_close p a = Ret (tt, upd_live (delete p (live a)) a, []).
Proof. intros [x Hx]. unfold pcm_close, deref. by rewrite bind_assoc, bind_get, Hx, bind_ret. Qed.

(** The state after the devices were asked for: none is left open, or the pair. *)
Definition pair_of (device : string) (rate n : Z) : gmap Z pcm :=
  <[n + 1 := {| p_device := device; p_capture := false; p_rate := rate |}]>
    (<[n := {| p_device := device; p_capture := true; p_rate := rate |}]> ∅).
Definition started_pair (type : Z) (device : string) (a : audio) : audio :=
  {| art := set_call_status type (art a); mixer := mixer a; pcm_tx := Some (next_pcm a + 1);
     pcm_rx := Some (next_pcm a); live := pair_of device (rate_of (sampling_rate (art a))) (next_pcm a);
     next_pcm := next_pcm a + 2; controls := controls a |}.
Definition starts_well : Prop :=
  (forall p, a_open env p = true) /\ (forall p, a_params env p = true) /\ (forall p, a_prepare env p = true) /\
  (forall p, a_start env p = true).

Lemma delete_pair device rate n : delete (n + 1) (delete n (pair_of device rate n)) = ∅.
Proof.
  unfold pair_of. rewrite delete_insert_ne by lia. by rewrite !delete_insert_eq, !delete_empty.
Qed.
Lemma delete_pair' device rate n : delete n (delete (n + 1) (pair_of device rate n)) = ∅.
Proof. rewrite delete_delete. apply delete_pair. Qed.

Lemma close_both_run p q a :
  p <> q -> is_Some (live a !! p) -> is_Some (live a !! q) ->
  close_both p q a = Ret (- EINVAL, upd_live (delete q (delete p (live a))) a, []).
Proof.
  intros Hne Hp Hq. unfold close_both. rewrite (bind_step _ _ _ _ _ (pcm_close_run p a Hp)).
  assert (Hq' : is_Some (live (upd_live (delete p (live a)) a) !! q)) by (cbn [live upd_live]; by rewrite lookup_delete_ne).
  rewrite (bind_step _ _ _ _ _ (pcm_close_run q _ Hq')). reflexivity.
Qed.

(** The end of a start: what was the state before, and whether the pair is open. *)
Definition outcome (type : Z) (device : string) (a : audio) (m : MA Z) (b : audio) : Prop :=
  exists r a', m b = Ret (r, a', []) /\
    (a' = started_pair type device a \/
     art a' = art a /\ mixer a' = mixer a /\ live a' = ∅ /\ controls a' = controls a /\
     next_pcm a <= next_pcm a') /\
    (starts_well -> a' = started_pair type device a).

(** The pair as it was opened, and its state after the calls that may fail. *)
Definition opened_pair (device : string) (a : audio) : audio :=
  {| art := art a; mixer := mixer a; pcm_tx := Some (next_pcm a + 1); pcm_rx := Some (next_pcm a);
     live := pair_of device (rate_of (sampling_rate (art a))) (next_pcm a);
     next_pcm := next_pcm a + 2; controls := controls a |}.
Lemma run_pcms_run type device a :
  type = 1 \/ type = 2 ->
  outcome type device a (run_pcms env type (next_pcm a) (next_pcm a + 1)) (opened_pair device a).
Proof.
  intros Ht. set (b := opened_pair device a). set (rate := rate_of (sampling_rate (art a))). unfold run_pcms.
  assert (Hb : live b = pair_of device rate (next_pcm a)) by done.
  assert (Hrx : is_Some (live b !! next_pcm a)) by (rewrite Hb; unfold pair_of; rewrite !lookup_insert; repeat case_decide; try lia; by eexists).
  assert (Htx : is_Some (live b !! (next_pcm a + 1))) by (rewrite Hb; unfold pair_of; rewrite !lookup_insert; repeat case_decide; try lia; by eexists).
  assert (Hne : next_pcm a <> next_pcm a + 1) by lia.
  pose proof (close_both_run _ _ b Hne Hrx Htx) as C1.
  pose proof (close_both_run _ _ b (not_eq_sym Hne) Htx Hrx) as C2.
  rewrite Hb, delete_pair in C1. rewrite Hb, delete_pair' in C2.
  assert (Hfail : forall m : MA Z, m b = Ret (- EINVAL, upd_live ∅ b, []) -> ~ starts_well ->
    outcome type device a m b).
  { intros m Hm Hw. do 2 eexists. split; [exact Hm|]. split; [right|done]. repeat split; cbn; lia. }
  assert (Hbad : forall (f : Z -> bool) p, f p = false -> ~ (forall q, f q = true)) by (intros f p Hf Hq; by rewrite Hq in Hf).
  destruct (a_params env (next_pcm a)) eqn:P1; cbn [negb];
    [|apply (Hfail _ C1); intros (_ & H & _); by eapply Hbad].
  destruct (a_params env (next_pcm a + 1)) eqn:P2; cbn [negb];
    [|apply (Hfail _ C2); intros (_ & H & _); by eapply Hbad].
  destruct (a_prepare env (next_pcm a)) eqn:P3; cbn [negb];
    [|apply (Hfail _ C1); intros (_ & _ & H & _); by eapply Hbad].
  destruct (a_prepare env (next_pcm a + 1)) eqn:P4; cbn [negb];
    [|apply (Hfail _ C2); intros (_ & _ & H & _); by eapply Hbad].
  destruct (a_start env (next_pcm a + 1)) eqn:P5; cbn [negb];
    [|apply (Hfail _ C2); intros (_ & _ & _ & H); by eapply Hbad].
  destruct (a_start env (next_pcm a)) eqn:P6; cbn [negb];
    [|apply (Hfail _ C1); intros (_ & _ & _ & H); by eapply Hbad].
  assert ((type =? CALL_STATUS_CS) || (type =? CALL_STATUS_VOLTE) = true) as -> by (by destruct Ht as [-> | ->]).
  cbn [when]. do 2 eexists. split; [by autorewrite with eff|]. unfold b, started_pair, on_art. cbn. auto.
Qed.

Lemma start_pcms_run type device a :
  live a = ∅ -> type = 1 \/ type = 2 -> outcome type device a (start_pcms env type device) a.
Proof.
  intros Hl Ht. unfold outcome, start_pcms, pcm_open. rewrite bind_assoc, bind_get. autorewrite with eff.
  destruct (a_open env (next_pcm a)) eqn:E1.
  2: { autorewrite with eff. do 2 eexists. split; [reflexivity|]. split; [right; cbn; auto with lia|].
       intros (H & _). congruence. }
  autorewrite with eff. cbn [next_pcm upd_next upd_live upd_rx].
  destruct (a_open env (next_pcm a + 1)) eqn:E2.
  2: { autorewrite with eff. erewrite bind_step.
       2: { apply pcm_close_run. cbn. rewrite lookup_insert_eq. by eexists. }
       do 2 eexists. split; [reflexivity|]. split; [right; cbn|].
       - rewrite Hl. rewrite delete_insert_eq, delete_empty. auto with lia.
       - intros (H & _). congruence. }
  autorewrite with eff. unfold set_rate, deref.
  rewrite bind_assoc, bind_assoc, bind_get. cbn [live upd_live upd_tx upd_rx upd_next art sampling_rate].
  rewrite lookup_insert_ne, lookup_insert_eq by lia. autorewrite with eff.
  cbn [live upd_live upd_tx upd_rx upd_next p_device p_capture].
  rewrite lookup_insert_ne, lookup_insert_eq by lia. autorewrite with eff.
  cbn [live upd_live upd_tx upd_rx upd_next p_device p_capture].
  set (rate := rate_of (sampling_rate (art a))).
  match goal with |- context [upd_live ?l _] => assert (Hpair : l = pair_of device rate (next_pcm a)) end.
  { rewrite Hl. unfold pair_of. apply map_eq. intros i.
    rewrite !lookup_insert. by repeat case_decide; try lia. }
  rewrite Hpair. clear Hpair. pose proof (run_pcms_run type device a Ht) as Hrun. unfold outcome in Hrun.
  match goal with |- context [run_pcms _ _ _ _ ?s] => replace s with (opened_pair device a) end; [exact Hrun|].
  unfold opened_pair. cbn. by replace (next_pcm a + 1 + 1) with (next_pcm a + 2) by lia.
Qed.
End Runs.

(** * Soundness *)

Definition pcm_device (type : Z) : string := if type =? 1 then PCM_DEV_VOCS else PCM_DEV_VOLTE.
Definition call_slot_ok (c : call_data) : Prop := length (cd_number c) = 20%nat.
Definition rt_ok (r : audio_rt) : Prop :=
  (output_device r = AUDIO_I2S \/ output_device r = AUDIO_USB) /\ length (active_calls r) = 10%nat /\
  Forall call_slot_ok (active_calls r).
(** Out of a call no PCM is open; in a call the pair of its kind is, the pointers
    point to it, and there is a mixer. *)
Definition audio_ok (a : audio) : Prop :=
  rt_ok (art a) /\
  ((current_call_state (art a) = CALL_STATUS_IDLE /\ live a = ∅) \/
   (current_call_state (art a) = CALL_STATUS_CS \/ current_call_state (art a) = CALL_STATUS_VOLTE) /\ mixer a = true /\
   exists n rate, pcm_rx a = Some n /\ pcm_tx a = Some (n + 1) /\
     live a = pair_of (pcm_device (current_call_state (art a))) rate n).
Definition in_call (a : audio) : bool := negb (current_call_state (art a) =? CALL_STATUS_IDLE).

Section Sound.
Variable env : audio_env.

Definition off_controls (a : audio) : gmap string Z :=
  put_some env (rx_control (output_device (art a)) (current_call_state (art a))) 0
    (put_some env (tx_control (output_device (art a)) (current_call_state (art a))) 0 (controls a)).
Definition stopped (a : audio) : audio :=
  if in_call a then
    {| art := set_muted false (set_call_status CALL_STATUS_IDLE (set_active_id 0 (art a))); mixer := mixer a;
       pcm_tx := pcm_tx a; pcm_rx := pcm_rx a; live := ∅; next_pcm := next_pcm a; controls := off_controls a |}
  else on_art (set_active_id 0) a.

Lemma stop_run a : audio_ok a -> stop_audio env a = Ret (1, stopped a, []).
Proof.
  intros [_ H]. unfold stop_audio, stopped, in_call. rewrite bind_modify, bind_get. cbn [art on_art current_call_state set_active_id].
  destruct H as [[-> _]|(Hs & Hm & n & rate & Hrx & Htx & Hl)]; [done|].
  assert ((current_call_state (art a) =? CALL_STATUS_IDLE) = false) as -> by (by destruct Hs as [-> | ->]).
  cbn [negb pcm_tx pcm_rx on_art]. rewrite Htx, Hrx.
  erewrite bind_step.
  2: { apply pcm_close_run. cbn [live on_art]. rewrite Hl. unfold pair_of. rewrite lookup_insert_eq. by eexists. }
  erewrite bind_step.
  2: { apply pcm_close_run. cbn [live on_art upd_live]. rewrite Hl. unfold pair_of.
       rewrite delete_insert_eq, lookup_delete_ne, lookup_insert_eq by lia. by eexists. }
  cbn [live on_art upd_live]. rewrite Hl, delete_pair'.
  erewrite bind_step by apply mixer_run. cbn [mixer on_art upd_live]. rewrite Hm. cbn [orb negb].
  erewrite bind_step by (by apply some_run). erewrite bind_step by (by apply some_run).
  rewrite bind_modify. unfold upd_mixer, upd_live, upd_controls, on_art, off_controls. cbn. by rewrite ?Hm, ?Hrx, ?Htx.
Qed.
Lemma stopped_ok a : audio_ok a -> audio_ok (stopped a) /\ current_call_state (art (stopped a)) = CALL_STATUS_IDLE.
Proof.
  intros [Hr H]. unfold stopped, in_call.
  destruct H as [[H0 Hl]|(Hs & _)].
  - rewrite H0. cbn. split; [|done]. split; [exact Hr|]. by left.
  - assert ((current_call_state (art a) =? CALL_STATUS_IDLE) = false) as -> by (by destruct Hs as [-> | ->]).
    cbn. split; [|done]. split; [exact Hr|]. by left.
Qed.

(** The state a start begins with: idle, with a mixer. *)
Definition before_start (a : audio) : audio :=
  upd_mixer (mixer a || a_mixer env) (if in_call a then stopped a else a).
Definition on_controls_of (type : Z) (a : audio) : gmap string Z :=
  put_some env (rx_control (output_device (art a)) type) 1
    (put_some env (tx_control (output_device (art a)) type) 1 (codec_controls env (controls a))).

Lemma before_ok a : audio_ok a ->
  audio_ok (before_start a) /\ current_call_state (art (before_start a)) = CALL_STATUS_IDLE /\ live (before_start a) = ∅.
Proof.
  intros Ha. unfold before_start. destruct (stopped_ok a Ha) as [[Hr Hs] H0]. destruct (in_call a) eqn:E.
  - destruct Hs as [[_ Hl]|([H|H] & _)]; [|by rewrite H0 in H..]. split; [|by split]. split; [exact Hr|]. by left.
  - unfold in_call in E. destruct Ha as [Hra Ha]. destruct Ha as [[H1 Hl]|([H|H] & _)]; [|by rewrite H in E..].
    split; [|by split]. split; [exact Hra|]. by left.
Qed.

(** The mixers of a start, before the devices. *)
Lemma start_mixers_run a type :
  audio_ok a -> type = 1 \/ type = 2 -> current_call_state (art a) <> type -> mixer a || a_mixer env = true ->
  exists t, start_audio env type a =
    after t (start_pcms env type (pcm_device type)
      (upd_controls (on_controls_of type (before_start a)) (before_start a))).
Proof.
  intros Ha Ht Hne Hm. destruct (before_ok a Ha) as [[(Hd & _) _] _]. set (b := before_start a) in *.
  assert (Hmb : mixer b = true) by exact Hm.
  assert (Hstop : (if in_call a then do* _ := stop_audio env in ret tt else ret tt) a =
    Ret (tt, if in_call a then stopped a else a, [])).
  { destruct (in_call a); [|done]. by rewrite (bind_step _ _ _ _ _ (stop_run a Ha)). }
  assert (Hmix : need_mixer env (if in_call a then stopped a else a) = Ret (true, b, [])).
  { rewrite mixer_run. assert (mixer (if in_call a then stopped a else a) = mixer a) as ->.
    { unfold stopped. by destruct (in_call a). }
    rewrite Hm. unfold b, before_start. by rewrite Hm. }
  unfold start_audio. rewrite bind_get. fold (in_call a).
  rewrite (proj2 (Z.eqb_neq type (current_call_state (art a)))) by congruence. rewrite andb_false_r.
  rewrite (bind_step _ _ _ _ _ Hstop), (bind_step _ _ _ _ _ Hmix). cbn [negb].
  rewrite (bind_step _ _ _ _ _ (codec_run env b Hmb)), bind_get. cbn [art upd_controls].
  unfold on_controls_of. destruct Hd as [Hd|Hd]; rewrite Hd; destruct Ht as [-> | ->]; cbn -[set_gain_ctl start_pcms codec_controls b];
    erewrite bind_step by (by apply ctl_run); erewrite bind_step by (by apply ctl_run); cbn [when upd_controls controls];
    rewrite ?bind_ret; try (exists []; by rewrite after_nil).
  all: unfold set_gain_ctl; rewrite bind_assoc, bind_get; cbn [mixer upd_controls]; rewrite Hmb;
    destruct (a_control env "Voice Rx Gain"); cbn [when]; autorewrite with eff;
    (eexists [_]; reflexivity) || (exists []; by rewrite after_nil).
Qed.
End Sound.

Section Start.
Variable env : audio_env.

(** Everything but the call's devices stays, except the active call when the kind
    of the call changes. *)
Definition same_setup (a a' : audio) : Prop :=
  output_device (art a') = output_device (art a) /\ active_calls (art a') = active_calls (art a) /\
  is_alerting (art a') = is_alerting (art a) /\ record_next (art a') = record_next (art a) /\
  sampling_rate (art a') = sampling_rate (art a).
Lemma same_setup_refl a : same_setup a a.
Proof. by repeat split. Qed.
Lemma same_setup_trans a b c : same_setup a b -> same_setup b c -> same_setup a c.
Proof. intros (?&?&?&?&?) (?&?&?&?&?). repeat split; congruence. Qed.
Lemma stopped_same a : same_setup a (stopped env a).
Proof. unfold stopped. destruct (in_call a); by repeat split. Qed.
Lemma before_same a : same_setup a (before_start env a).
Proof. unfold before_start. destruct (in_call a); [|by repeat split]. apply stopped_same. Qed.

(** A start leaves a sound state, in the call's kind when the devices do as asked. *)
Definition opens (a : audio) : Prop := starts_well env /\ mixer a || a_mixer env = true.
Lemma start_run a type :
  audio_ok a -> type = 1 \/ type = 2 ->
  exists r a' t, start_audio env type a = Ret (r, a', t) /\ audio_ok a' /\ same_setup a a' /\
    (opens a -> a' = if current_call_state (art a) =? type then a else
       started_pair type (pcm_device type) (upd_controls (on_controls_of env type (before_start env a)) (before_start env a))).
Proof.
  intros Ha Ht. destruct (Z.eqb_spec (current_call_state (art a)) type) as [He|He].
  - exists 0, a, []. split; [|split; [done|split; [apply same_setup_refl|done]]].
    unfold start_audio. rewrite bind_get, He, Z.eqb_refl. by destruct Ht as [-> | ->].
  - destruct (mixer a || a_mixer env) eqn:Em.
    + destruct (start_mixers_run env a type Ha Ht He Em) as [t ->].
      destruct (before_ok env a Ha) as ([Hr _] & Hi & Hl). set (b := before_start env a) in *.
      set (c := upd_controls (on_controls_of env type b) b).
      destruct (start_pcms_run env type (pcm_device type) c Hl Ht) as (r & a' & -> & Hcase & Hgood).
      exists r, a', (t ++ []). split; [done|]. split; [|split].
      * destruct Hcase as [-> |(Hart & _ & Hl' & _)].
        { split; [exact Hr|]. right. split; [by destruct Ht as [-> | ->]; [left|right]|]. split; [exact Em|].
          by do 2 eexists. }
        { split; rewrite Hart; [exact Hr|]. left. split; [exact Hi|done]. }
      * destruct Hcase as [-> |(Hart & _)]; [apply before_same|].
        destruct (before_same a) as (?&?&?&?&?). unfold same_setup. rewrite Hart. by repeat split.
      * intros [Hw _]. by apply Hgood.
    + exists 0, (before_start env a), []. split; [|split; [by apply before_ok|split; [apply before_same|]]].
      * unfold start_audio. rewrite bind_get, (proj2 (Z.eqb_neq type _)), andb_false_r by congruence. fold (in_call a).
        assert (Hstop : (if in_call a then do* _ := stop_audio env in ret tt else ret tt) a =
          Ret (tt, if in_call a then stopped env a else a, [])).
        { destruct (in_call a); [|done]. by rewrite (bind_step _ _ _ _ _ (stop_run env a Ha)). }
        rewrite (bind_step _ _ _ _ _ Hstop), (bind_step _ _ _ _ _ (mixer_run env _)).
        assert (mixer (if in_call a then stopped env a else a) = mixer a) as ->
          by (unfold stopped; by destruct (in_call a)).
        unfold before_start. by rewrite Em.
      * intros [_ H]. congruence.
Qed.

(** A message of the voice service as the handler reads it. *)
Lemma note_run call_id direction state mode number a :
  rt_ok (art a) -> 0 <= call_id < 10 -> zlen number <= 20 ->
  exists l, note_call call_id direction state mode number a = Ret (tt, on_art (set_active_calls l) a, []) /\
    length l = 10%nat /\ Forall call_slot_ok l /\
    (exists c, l !! Z.to_nat call_id = Some c /\ cd_state c = state /\ cd_direction c = direction /\ cd_type c = mode /\
       take (length number) (cd_number c) = number).
Proof.
  intros (_ & Hl & Hall) Hid Hn. unfold note_call, modifyM.
  destruct (lookup_lt_is_Some_2 (active_calls (art a)) (Z.to_nat call_id)) as [c Hc]; [lia|].
  assert (rdA (active_calls (art a)) call_id = Ret c) as -> by (apply rdA_lookup; split; [lia|done]). cbn [cbind].
  pose proof (Forall_lookup_1 _ _ _ _ Hall Hc) as Hlen. unfold call_slot_ok in Hlen.
  rewrite wrn_ok by (unfold zlen in *; lia). cbn [cbind].
  rewrite wrA_ok by (unfold zlen; lia). cbn [cbind]. eexists. split; [done|].
  rewrite length_insert. split; [done|]. cbn [take app Z.to_nat Nat.add].
  split.
  - apply Forall_insert; [done|]. unfold call_slot_ok. cbn [cd_number]. rewrite !length_app, length_take, length_drop. unfold zlen in Hn. lia.
  - eexists. split; [apply list_lookup_insert_eq; lia|]. cbn [cd_number cd_state cd_direction cd_type].
    change (take (Z.to_nat 0) (cd_number c)) with (@nil Z). cbn [app]. by rewrite take_app_length.
Qed.
End Start.

(** The fields of a message about [calls_active] calls. *)
Definition call_message (pkt : list Z) (sz calls_active call_id state direction mode : Z) : Prop :=
  exists offset, get_tlv_offset_by_id pkt sz TLV_CALL_INFO = Ret offset /\ 0 < offset /\
    rd pkt (offset + 3) = Ret calls_active /\ rd pkt (offset + 4) = Ret call_id /\
    rd pkt (offset + 5) = Ret state /\ rd pkt (offset + 7) = Ret direction /\ rd pkt (offset + 8) = Ret mode.

(** A message about one call reads as it was built. *)
Lemma one_call_message hdr call_id state type direction mode mp als presentation number slack :
  zlen hdr = SZ_ENCAP -> zlen number < 256 ->
  let tlvs := [call_info_tlv call_id state type direction mode mp als; remote_number_tlv call_id presentation number] in
  call_message (hdr ++ enc_tlvs tlvs ++ slack) (zlen (hdr ++ enc_tlvs tlvs)) 1 call_id state direction mode.
Proof.
  intros Hh Hn tlvs. exists 13.
  pose proof (one_call_rd hdr call_id state type direction mode mp als presentation number slack Hh) as Hrd.
  split; [by apply (one_call_lookup hdr call_id state type direction mode mp als presentation number slack Hh Hn)|].
  split; [lia|]. repeat split;
    [apply (Hrd 3)|apply (Hrd 4)|apply (Hrd 5)|apply (Hrd 7)|apply (Hrd 8)]; try lia; reflexivity.
Qed.

Section Safe.
Variable env : audio_env.

Lemma mode_status mode : call_mode_status mode = 1 \/ call_mode_status mode = 2.
Proof. unfold call_mode_status. destruct (_ =? _); auto. Qed.

(** ** Handlers that end without a fault and keep the state sound *)

Lemma safely_start type Q : type = 1 \/ type = 2 -> (forall r, Q r) -> safely audio_ok (start_audio env type) Q.
Proof.
  intros Ht HQ a Ha. destruct (start_run env a type Ha Ht) as (r & a' & t & H & Hok & _). by exists r, a', t.
Qed.
Lemma safely_stop Q : (forall r, Q r) -> safely audio_ok (stop_audio env) Q.
Proof.
  intros HQ a Ha. exists 1, (stopped env a), []. split; [by apply stop_run|]. split; [by apply stopped_ok|done].
Qed.
Lemma safely_art f :
  (forall r, rt_ok r -> rt_ok (f r)) -> (forall r, current_call_state (f r) = current_call_state r) ->
  safely audio_ok (modify (on_art f) : MA unit) (fun _ => True).
Proof.
  intros Hf Hs a [Hr H]. do 3 eexists. split; [reflexivity|]. split; [|done]. split; [by apply Hf|].
  cbn [art on_art live mixer pcm_rx pcm_tx]. by rewrite !Hs.
Qed.
Lemma safely_then {A B} (m : MA A) (k : A -> MA B) Q R :
  safely audio_ok m Q -> (forall a, Q a -> safely audio_ok (k a) R) -> safely audio_ok (bind m k) R.
Proof.
  intros Hm Hk s Hs. destruct (Hm s Hs) as (a & s1 & t1 & H1 & Hs1 & HQ).
  destruct (Hk a HQ s1 Hs1) as (b & s2 & t2 & H2 & Hs2 & HR).
  exists b, s2, (t1 ++ t2). split; [by eapply bind_ret_run|done].
Qed.
Lemma safely_get {B} (k : audio -> MA B) R : (forall s, safely audio_ok (k s) R) -> safely audio_ok (bind get k) R.
Proof. intros Hk s Hs. destruct (Hk s s Hs) as (b & s2 & t2 & H2 & ? & ?). exists b, s2, t2. by rewrite bind_get. Qed.
Lemma safely_ret {A} (a : A) (Q : A -> Prop) : Q a -> safely audio_ok (ret a : MA A) Q.
Proof. intros HQ s Hs. by exists a, s, []. Qed.
Lemma safely_emit e : safely audio_ok (emit e : MA unit) (fun _ => True).
Proof. intros s Hs. by exists tt, s, [e]. Qed.
Lemma safely_when b (m : MA unit) : safely audio_ok m (fun _ => True) -> safely audio_ok (when b m) (fun _ => True).
Proof. destruct b; [done|]. intros _. by apply safely_ret. Qed.
End Safe.
Ltac safely_step :=
  match goal with
  | |- safely _ (bind get _) _ => apply safely_get; intros ?
  | |- safely _ (bind _ _) _ => eapply (safely_then _ _ (fun _ => True)); [|intros ? _]
  | |- safely _ (if ?c then _ else _) _ => destruct c
  | |- safely _ (when _ _) _ => apply safely_when
  | |- safely _ (ret _) _ => by apply safely_ret
  | |- safely _ (emit _) _ => apply safely_emit
  | |- safely _ (stop_audio _) _ => by apply safely_stop
  | |- safely _ (start_audio _ _) _ => apply safely_start; [solve [apply mode_status|auto]|done]
  | |- safely _ (modify (on_art _)) _ => apply safely_art; [intros ? (?&?&?); by repeat split|done]
  end.
Ltac safely_auto := repeat safely_step.

Lemma call_state_safe env n id state mode :
  safely audio_ok (call_state_step env n id state (call_mode_status mode)) (fun _ => True).
Proof. unfold call_state_step. safely_auto. Qed.

Lemma packet_step env pkt sz n id state direction mode number len a :
  audio_ok a -> call_message pkt sz n id state direction mode -> 0 <= id < 10 -> 0 <= len <= 20 -> len <= zlen number ->
  exists l, handle_call_pkt env pkt sz number len a =
      call_state_step env n id state (call_mode_status mode) (on_art (set_active_calls l) a) /\
    audio_ok (on_art (set_active_calls l) a) /\
    exists c, l !! Z.to_nat id = Some c /\ cd_state c = state /\ cd_direction c = direction /\ cd_type c = mode /\
      take (Z.to_nat len) (cd_number c) = take (Z.to_nat len) number.
Proof.
  intros Ha (offset & Ho & Hpos & H3 & H4 & H5 & H7 & H8) Hid Hlen Hn.
  unfold handle_call_pkt. rewrite (bind_lift _ _ _ _ Ho), (proj2 (Z.leb_gt offset 0)) by lia.
  rewrite (bind_lift _ _ _ _ H3), (bind_lift _ _ _ _ H4), (bind_lift _ _ _ _ H5), (bind_lift _ _ _ _ H7), (bind_lift _ _ _ _ H8).
  assert (Ht : zlen (take (Z.to_nat len) number) = len) by (unfold zlen in *; rewrite length_take; lia).
  rewrite (bind_lift _ (take (Z.to_nat len) number)) by (apply rdn_head; unfold zlen in *; lia).
  destruct Ha as [Hr H].
  destruct (note_run id direction state mode (take (Z.to_nat len) number) a Hr Hid ltac:(lia))
    as (l & Hrun & Hl & Hall & c & Hc & Hc1 & Hc2 & Hc3 & Hc4).
  exists l. rewrite (bind_step _ _ _ _ _ Hrun). split; [done|]. split.
  - split; [|exact H]. destruct Hr as (? & _ & _). by repeat split.
  - exists c. repeat split; try done.
    assert (Hlt : length (take (Z.to_nat len) number) = Z.to_nat len) by (unfold zlen in *; rewrite length_take; lia).
    by rewrite Hlt in Hc4.
Qed.

(** What the threads of the daemon do with the sound. *)
Inductive audio_op :=
| Packet (pkt : list Z) (sz : Z) (number : list Z) (len : Z)
| Mute (v : bool)
| Device (d : Z)
| Sampling (mode : Z)
| RecordNext (v : bool)
| RecordCurrent.
Definition run_op (env : audio_env) (o : audio_op) : MA unit :=
  match o with
  | Packet pkt sz number len => handle_call_pkt env pkt sz number len
  | Mute v => set_audio_mute env v
  | Device d => set_output_device d
  | Sampling mode => set_auxpcm_sampling_rate env mode
  | RecordNext v => record_next_call v
  | RecordCurrent => do* _ := record_current_call in ret tt
  end.
(** A message about a call the table has a place for, with a number it holds; a
    device there is. *)
Definition op_ok (o : audio_op) : Prop :=
  match o with
  | Packet pkt sz number len =>
      (exists n id state direction mode, call_message pkt sz n id state direction mode /\ 0 <= id < 10) /\
      0 <= len <= 20 /\ len <= zlen number
  | Device d => d = 0 \/ d = 1
  | _ => True
  end.
Fixpoint run_ops (l : list (audio_env * audio_op)) : MA unit :=
  match l with [] => ret tt | (env, o) :: l => run_op env o ;> run_ops l end.

Lemma sampling_safe env mode : safely audio_ok (set_auxpcm_sampling_rate env mode) (fun _ => True).
Proof.
  intros a Ha. unfold set_auxpcm_sampling_rate. rewrite bind_get, bind_modify.
  assert (Hs : audio_ok (on_art (set_sampling mode) a)) by (destruct Ha as [(?&?&?) Hb]; split; [by repeat split|exact Hb]).
  destruct (current_call_state (art a) =? CALL_STATUS_IDLE) eqn:E; cbn [negb when]; [by apply safely_ret|].
  assert (Ht : current_call_state (art a) = 1 \/ current_call_state (art a) = 2).
  { destruct Ha as [_ [[H _]|[H _]]]; [by rewrite H in E|exact H]. }
  revert Hs. generalize (on_art (set_sampling mode) a) as b. intros b Hb.
  enough (safely audio_ok (do* _ := stop_audio env in do* _ := start_audio env (current_call_state (art a)) in ret tt)
    (fun _ => True)) as Hsafe by by apply Hsafe.
  safely_auto.
Qed.
Lemma mute_safe env v : safely audio_ok (set_audio_mute env v) (fun _ => True).
Proof.
  intros a Ha. unfold set_audio_mute. rewrite bind_get.
  assert (Hmut : forall b w, audio_ok b -> audio_ok (on_art (set_muted w) b)).
  { intros b w [(?&?&?) Hb]. split; [by repeat split|exact Hb]. }
  assert (Ha' := Ha). destruct Ha' as [Hr [[H0 Hl]|(Ht & Hm & Hp)]].
  - rewrite H0. do 3 eexists. split; [reflexivity|]. split; [|done]. by apply Hmut.
  - assert ((current_call_state (art a) =? CALL_STATUS_IDLE) = false) as -> by (by destruct Ht as [-> | ->]).
    rewrite (bind_step _ _ _ _ _ (mixer_run env a)), Hm. cbn [orb when]. rewrite bind_modify.
    rewrite some_run by done. do 3 eexists. split; [reflexivity|]. split; [|done].
    assert (upd_mixer true a = a) as -> by (rewrite <- Hm; apply audio_eta).
    destruct (Hmut a v) as [Hr' H']; [by split; [exact Hr|right]|]. split; [exact Hr'|exact H'].
Qed.
Lemma op_safe env o : op_ok o -> safely audio_ok (run_op env o) (fun _ => True).
Proof.
  destruct o as [pkt sz number len|v|d|mode|v|]; cbn [op_ok run_op].
  - intros ((n & id & state & direction & mode & Hm & Hid) & Hlen & Hn) a Ha.
    destruct (packet_step env pkt sz n id state direction mode number len a Ha Hm Hid Hlen Hn) as (l & -> & Hok & _).
    by apply call_state_safe.
  - intros _. apply mute_safe.
  - intros Hd. apply safely_art; [|done]. intros r (_ & ? & ?). split; [|by split]. cbn.
    destruct Hd as [-> | ->]; [by left|by right].
  - intros _. apply sampling_safe.
  - intros _. apply safely_art; [|done]. intros r (?&?&?). by repeat split.
  - intros _. unfold record_current_call. safely_auto.
Qed.

(** C19: whatever messages about calls arrive, and however muting, the device, the
    rate and the recording change in between and the sound card answers, no PCM is
    used or closed after it was freed, and none stays open out of a call. *)
Theorem pcms_safe ops a
  (Ha : audio_ok a) (Hops : Forall (fun '(_, o) => op_ok o) ops) :
  exists a' t, run_ops ops a = Ret (tt, a', t) /\ audio_ok a' /\ (in_call a' = false -> live a' = ∅).
Proof.
  assert (safely audio_ok (run_ops ops) (fun _ => True)) as Hs.
  { clear a Ha. induction Hops as [|[env o] ops Ho _ IH]; cbn [run_ops]; [by apply safely_ret|].
    eapply safely_then; [by apply op_safe|]. by intros _ _. }
  destruct (Hs a Ha) as ([] & a' & t & H & Hok & _). exists a', t. split; [done|]. split; [done|].
  destruct Hok as [_ [[_ ?]|([H1|H1] & _)]]; [done|unfold in_call; by rewrite H1..].
Qed.

Definition empty_call : call_data := {| cd_number := replicate 20 0; cd_direction := 0; cd_state := 0; cd_type := 0 |}.
Definition idle_audio (device : Z) : audio :=
  {| art := {| current_call_state := CALL_STATUS_IDLE; sampling_rate := 0; output_device := device; is_muted := false;
               is_alerting := false; active_calls := replicate 10 empty_call; current_active_call_id := 0;
               is_recording := false; record_next := false |};
     mixer := true; pcm_tx := None; pcm_rx := None; live := ∅; next_pcm := 1; controls := ∅ |}.
Lemma idle_audio_ok device : device = 0 \/ device = 1 -> audio_ok (idle_audio device).
Proof.
  intros Hd. split; [|by left]. split; [exact Hd|]. split; [done|]. cbn. repeat constructor.
Qed.
Definition good_card : audio_env :=
  {| a_codec := false; a_mixer := true; a_control := fun _ => true; a_open := fun _ => true; a_params := fun _ => true;
     a_prepare := fun _ => true; a_start := fun _ => true; a_recording := 0; a_custom_tone := false |}.
Definition sample_call (id state mode : Z) : audio_op :=
  Packet (sample_status_hdr ++ enc_tlvs [call_info_tlv id state 2 2 mode 0 0; remote_number_tlv id 0 (zs "+34600111222")] ++ [])
    43 (in_20 (zs "+34600111222")) 12.
Lemma sample_call_message id state mode :
  call_message (sample_status_hdr ++ enc_tlvs [call_info_tlv id state 2 2 mode 0 0; remote_number_tlv id 0 (zs "+34600111222")] ++ [])
    43 1 id state 2 mode.
Proof. exact (one_call_message sample_status_hdr id state 2 2 mode 0 0 0 (zs "+34600111222") [] eq_refl eq_refl). Qed.
Theorem pcms_safe_witness :
  exists a' t, run_ops [(good_card, sample_call 1 2 4); (good_card, Device 1); (good_card, sample_call 1 3 2);
    (good_card, Mute true); (good_card, sample_call 1 9 2)] (idle_audio 0) = Ret (tt, a', t) /\ audio_ok a' /\
    (in_call a' = false -> live a' = ∅).
Proof.
  assert (H : forall id state mode, 0 <= id < 10 -> op_ok (sample_call id state mode)).
  { intros id state mode Hid. split; [|split; [lia|vm_compute; congruence]].
    exists 1, id, state, 2, mode. split; [apply sample_call_message|exact Hid]. }
  apply (pcms_safe _ (idle_audio 0)); [apply idle_audio_ok; by left|].
  repeat (apply Forall_cons; split); try (apply H; lia); [by right|exact I|constructor].
Defined.

(** * The voice path *)

Definition voice_controls : list string :=
  [RXCTL_VOLTE; TXCTL_VOLTE; RXCTL_VOICE; TXCTL_VOICE; AFERX_VOLTE; AFETX_VOLTE; AFERX_VOICE; AFETX_VOICE].
(** The kind of call the sound is set up for. *)
Definition voice (a : audio) : option Z := if in_call a then Some (current_call_state (art a)) else None.
(** The controls that should be on: the playback, and the capture unless muted. *)
Definition path_controls (a : audio) : list string :=
  match voice a with
  | Some type =>
      option_list (tx_control (output_device (art a)) type) ++
      (if is_muted (art a) then [] else option_list (rx_control (output_device (art a)) type))
  | None => []
  end.
(** Of the controls of the voice path exactly those are on in the card. *)
Definition card_ok (a : audio) : Prop :=
  (forall n, n ∈ voice_controls -> controls a !! n = Some 1 <-> n ∈ path_controls a) /\
  (voice a = None -> is_muted (art a) = false).

(** What a message about a call asks of the sound. *)
Definition next_voice (custom_tone alerting : bool) (calls_active state type : Z) (v : option Z) : option Z :=
  if (state =? CALL_STATE_PREPARING) || (state =? CALL_STATE_ATTEMPT) || (state =? CALL_STATE_ORIGINATING) ||
     (state =? CALL_STATE_RINGING) || (state =? CALL_STATE_ESTABLISHED) then Some type
  else if state =? CALL_STATE_ALERTING then
    if custom_tone then (if alerting then v else None) else Some type
  else if (state =? CALL_STATE_DISCONNECTING) || (state =? CALL_STATE_HANGUP) then
    if calls_active <? 2 then None else v
  else v.

Section Voice.
Context (env : audio_env) (Hgood : starts_well env) (Hctl : forall n, a_control env n = true).

Definition sound (a : audio) : Prop := audio_ok a /\ card_ok a /\ mixer a = true.
(** [m] ends, keeps the state sound and the device, and changes the voice path as
    [f] says. *)
Definition moves {A} (m : MA A) (f : option Z -> option Z) : Prop :=
  forall a, sound a -> exists x a' t, m a = Ret (x, a', t) /\ sound a' /\ voice a' = f (voice a) /\
    output_device (art a') = output_device (art a).

Lemma put_good n v c : put env n v c = <[n := v]> c.
Proof. unfold put. by rewrite Hctl. Qed.
Lemma codec_other n c : n ∈ voice_controls -> codec_controls env c !! n = c !! n.
Proof.
  intros Hn. unfold codec_controls. rewrite !put_good.
  rewrite !lookup_insert_ne; [done|..]; intros <-; revert Hn; unfold voice_controls; rewrite !elem_of_cons, elem_of_nil;
    intros H; decompose [or] H; try done; discriminate.
Qed.
(** A control written by the code, among the others. *)
Lemma some_lookup (o : option string) v c n :
  put_some env o v c !! n = if decide (n ∈ option_list o) then Some v else c !! n.
Proof.
  destruct o as [m|]; cbn [put_some option_list].
  - rewrite put_good. case_decide as H.
    + apply list_elem_of_singleton in H as ->. by rewrite lookup_insert_eq.
    + rewrite lookup_insert_ne; [done|]. intros ->. apply H, list_elem_of_singleton. done.
  - case_decide as H; [by apply not_elem_of_nil in H|done].
Qed.

Lemma stop_moves : moves (stop_audio env) (fun _ => None).
Proof.
  intros a (Hok & [Hc Hm0] & Hm). exists 1, (stopped env a), []. split; [by apply stop_run|].
  destruct (stopped_ok env a Hok) as [Hok' Hs].
  assert (Hv : voice (stopped env a) = None) by (unfold voice, in_call; by rewrite Hs).
  destruct (stopped_same env a) as (Hd & _).
  split; [|split; done]. split; [done|]. split; [split|].
  - intros n Hn. unfold path_controls at 1. rewrite Hv. specialize (Hc n Hn). unfold path_controls, voice in Hc. unfold stopped.
    destruct (in_call a) eqn:E; cbn [controls on_art].
    + unfold off_controls. rewrite !some_lookup. split; [|intros H; by apply not_elem_of_nil in H].
      repeat case_decide; try done. intros Hon. apply Hc in Hon. apply elem_of_app in Hon as [Hon|Hon]; [done|].
      destruct (is_muted (art a)); [by apply not_elem_of_nil in Hon|done].
    + by rewrite Hc.
  - intros _. unfold stopped. destruct (in_call a) eqn:E; [done|]. apply Hm0. unfold voice. by rewrite E.
  - unfold stopped. by destruct (in_call a).
Qed.
Lemma idle_sound a : sound a -> sound (before_start env a) /\ voice (before_start env a) = None /\
  same_setup a (before_start env a).
Proof.
  intros Ha. assert (Hmix : mixer a || a_mixer env = true) by (by rewrite (proj2 (proj2 Ha))).
  assert (Hid : forall b, mixer b = true -> upd_mixer true b = b) by (intros b <-; apply audio_eta).
  split; [|split; [|apply before_same]]; unfold before_start; rewrite Hmix; destruct (in_call a) eqn:E.
  - destruct (stop_moves a Ha) as (x & a' & t & H & Hs & _). rewrite (stop_run env a) in H by apply Ha. simplify_eq.
    rewrite Hid; [done|]. unfold stopped. rewrite E. apply Ha.
  - rewrite Hid; [done|apply Ha].
  - unfold voice, in_call. cbn [art upd_mixer]. destruct (stopped_ok env a) as [_ ->]; [apply Ha|done].
  - unfold voice. unfold in_call in *. cbn [art upd_mixer]. by rewrite E.
Qed.
Lemma start_moves type : type = 1 \/ type = 2 -> moves (start_audio env type) (fun _ => Some type).
Proof.
  intros Ht a Ha. destruct (start_run env a type) as (r & a' & t & H & Hok & (Hd & _) & Hgo); [apply Ha|done|].
  exists r, a', t. split; [done|].
  assert (Hopen : opens env a) by (split; [done|by rewrite (proj2 (proj2 Ha))]). specialize (Hgo Hopen).
  destruct (Z.eqb_spec (current_call_state (art a)) type) as [He|He].
  - subst a'. split; [done|]. split; [|done]. unfold voice, in_call. rewrite He. by destruct Ht as [-> | ->].
  - destruct (idle_sound a Ha) as ((Hokb & [Hc Hm0] & Hmb) & Hvb & _). set (b := before_start env a) in *.
    assert (Hv : voice a' = Some type) by (subst a'; unfold voice, in_call; cbn; by destruct Ht as [-> | ->]).
    split; [|done]. split; [done|]. split; [split|by subst a'].
    + intros n Hn. unfold path_controls. rewrite Hv. specialize (Hc n Hn). unfold path_controls in Hc. rewrite Hvb in Hc.
      specialize (Hm0 Hvb). subst a'. cbn [controls started_pair upd_controls art set_call_status output_device is_muted].
      rewrite Hm0. unfold on_controls_of. rewrite !some_lookup, codec_other by done. rewrite elem_of_app.
      rewrite elem_of_nil in Hc. repeat case_decide; tauto || naive_solver.
    + by rewrite Hv.
Qed.

(** ** Composing *)

Lemma moves_then {A B} (m : MA A) (k : A -> MA B) f g :
  moves m f -> (forall x, moves (k x) g) -> moves (bind m k) (fun v => g (f v)).
Proof.
  intros Hm Hk a Ha. destruct (Hm a Ha) as (x & a1 & t1 & H1 & Ha1 & Hv1 & Hd1).
  destruct (Hk x a1 Ha1) as (y & a2 & t2 & H2 & Ha2 & Hv2 & Hd2).
  exists y, a2, (t1 ++ t2). split; [by eapply bind_ret_run|]. split; [done|]. split; congruence.
Qed.
Lemma moves_ret {A} (x : A) : moves (ret x) id.
Proof. intros a Ha. by exists x, a, []. Qed.
Lemma moves_emit e : moves (emit e) id.
Proof. intros a Ha. by exists tt, a, [e]. Qed.
Lemma moves_get {B} (k : audio -> MA B) f : (forall s, moves (k s) f) -> moves (bind get k) f.
Proof. intros Hk a Ha. destruct (Hk a a Ha) as (x & a' & t & H & ?). exists x, a', t. by rewrite bind_get. Qed.
Lemma moves_when (b : bool) (m : MA unit) f : moves m f -> moves (when b m) (if b then f else id).
Proof. destruct b; [done|]. intros _. apply moves_ret. Qed.
(** Fields the voice path does not depend on. *)
Lemma moves_art f :
  (forall r, rt_ok r -> rt_ok (f r)) -> (forall r, current_call_state (f r) = current_call_state r) ->
  (forall r, output_device (f r) = output_device r) -> (forall r, is_muted (f r) = is_muted r) ->
  moves (modify (on_art f)) id.
Proof.
  intros Hr Hs Hd Hm a (Hok & [Hc H0] & Hmx). exists tt, (on_art f a), []. split; [done|].
  assert (Hv : voice (on_art f a) = voice a) by (unfold voice, in_call; cbn [art on_art]; by rewrite Hs).
  split; [|split; [done|cbn; by rewrite Hd]]. split; [|split; [|done]].
  - destruct (safely_art f Hr Hs a Hok) as (x & b & t & [= <- <- <-] & H & _). exact H.
  - split; [|cbn [art on_art]; by rewrite Hv, Hm]. unfold path_controls. rewrite Hv. cbn [art on_art controls].
    by rewrite Hd, Hm.
Qed.
Lemma moves_ext {A} (m : MA A) f g : moves m f -> (forall v, f v = g v) -> moves m g.
Proof. intros Hm He a Ha. destruct (Hm a Ha) as (x & a' & t & H & Hs & Hv & Hd). exists x, a', t. by rewrite <- He. Qed.
End Voice.
Ltac moves_art := apply moves_art; [intros ? (?&?&?); by repeat split|done|done|done].

Section Refine.
Context (env : audio_env) (Hgood : starts_well env) (Hctl : forall n, a_control env n = true).

Lemma state_moves n cid state mode a :
  sound a ->
  exists a' t, call_state_step env n cid state (call_mode_status mode) a = Ret (tt, a', t) /\ sound a' /\
    voice a' = next_voice (a_custom_tone env) (is_alerting (art a)) n state (call_mode_status mode) (voice a) /\
    output_device (art a') = output_device (art a).
Proof.
  intros Ha.
  assert (Hstart : moves (do* _ := start_audio env (call_mode_status mode) in ret tt)
    (fun _ => Some (call_mode_status mode))).
  { eapply (moves_then _ _ (fun _ => Some (call_mode_status mode)) id);
      [apply start_moves; auto using mode_status|intros; apply moves_ret]. }
  assert (Hstop : moves (do* _ := stop_audio env in ret tt) (fun _ => None)).
  { eapply (moves_then _ _ (fun _ => None) id); [by apply stop_moves|intros; apply moves_ret]. }
  assert (Hquiet : moves (modify (on_art (set_alerting false))) id) by moves_art.
  assert (Hdone : forall (m : MA unit) f, moves m f -> exists a' t, m a = Ret (tt, a', t) /\ sound a' /\
    voice a' = f (voice a) /\ output_device (art a') = output_device (art a)).
  { intros m f Hm. destruct (Hm a Ha) as ([] & a' & t & H). by exists a', t. }
  unfold call_state_step, next_voice.
  destruct ((state =? CALL_STATE_PREPARING) || (state =? CALL_STATE_ATTEMPT) || (state =? CALL_STATE_ORIGINATING) ||
     (state =? CALL_STATE_RINGING)); cbn [orb].
  { apply (Hdone _ _ (moves_then _ _ _ _ Hquiet (fun _ => Hstart))). }
  destruct (state =? CALL_STATE_ESTABLISHED).
  { apply (Hdone _ (fun _ => Some (call_mode_status mode))).
    eapply (moves_then _ _ id (fun _ => _)); [exact Hquiet|intros _].
    eapply (moves_then _ _ _ (fun _ => _)); [apply moves_when, Hstop|intros _].
    eapply (moves_then _ _ id (fun _ => _)); [moves_art|intros _].
    eapply (moves_then _ _ _ id); [exact Hstart|intros _]. apply moves_get. intros s.
    eapply moves_ext; [apply moves_when; eapply (moves_then _ _ id id); [apply moves_emit|intros _; moves_art]|].
    intros v. by destruct (_ || _). }
  destruct (state =? CALL_STATE_ALERTING).
  { rewrite bind_get. destruct (a_custom_tone env); cbn [negb]; [|by apply (Hdone _ _ Hstart)].
    destruct (is_alerting (art a)); cbn [negb when]; [by apply (Hdone _ _ (moves_ret tt))|].
    apply (Hdone _ (fun _ => None)). eapply (moves_then _ _ id (fun _ => _)); [moves_art|intros _].
    eapply (moves_then _ _ _ id); [exact Hstop|intros _; apply moves_emit]. }
  destruct ((state =? CALL_STATE_DISCONNECTING) || (state =? CALL_STATE_HANGUP)); [|by apply (Hdone _ _ Hquiet)].
  apply (Hdone _ (fun v => if n <? 2 then None else v)).
  eapply moves_ext; [eapply (moves_then _ _ _ id); [apply moves_when, Hstop|intros _; exact Hquiet]|].
  intros v. by destruct (n <? 2).
Qed.
End Refine.

(** C18: with a card that does as asked, a message about a call sets the sound up
    for exactly the kind of call it asks for: the PCMs open are that kind's, and
    of the controls of the voice path exactly the kind's are on for the output
    device, the capture unless muted. *)
Theorem voice_path_refines env pkt sz n id state direction mode number len a
  (Hgood : starts_well env) (Hctl : forall c, a_control env c = true) (Ha : sound a)
  (Hmsg : call_message pkt sz n id state direction mode) (Hid : 0 <= id < 10)
  (Hlen : 0 <= len <= 20) (Hnum : len <= zlen number) :
  exists a' t, handle_call_pkt env pkt sz number len a = Ret (tt, a', t) /\ sound a' /\
    voice a' = next_voice (a_custom_tone env) (is_alerting (art a)) n state (call_mode_status mode) (voice a) /\
    output_device (art a') = output_device (art a).
Proof.
  destruct (packet_step env pkt sz n id state direction mode number len a (proj1 Ha) Hmsg Hid Hlen Hnum)
    as (l & -> & Hok & _).
  apply (state_moves env Hgood Hctl n id state mode (on_art (set_active_calls l) a)).
  destruct Ha as (_ & Hc & Hm). by split.
Qed.
Lemma idle_audio_sound device : device = 0 \/ device = 1 -> sound (idle_audio device).
Proof.
  intros Hd. split; [by apply idle_audio_ok|]. split; [|done]. split; [|done]. intros n _. cbn.
  by rewrite elem_of_nil.
Qed.
Theorem voice_path_refines_witness :
  exists a' t, run_op good_card (sample_call 1 2 4) (idle_audio 1) = Ret (tt, a', t) /\ sound a' /\
    voice a' = next_voice false false 1 2 (call_mode_status 4) None /\ output_device (art a') = 1.
Proof.
  apply (voice_path_refines good_card _ 43 1 1 2 2 4 (in_20 (zs "+34600111222")) 12 (idle_audio 1)).
  - repeat split.
  - reflexivity.
  - apply idle_audio_sound. by right.
  - apply sample_call_message.
  - lia.
  - lia.
  - vm_compute. congruence.
Defined.

(** ** What goes wrong *)

(** A device changed during a call: the controls of the old one stay on when the
    call ends. *)
Example mixers_left_on :
  match run_ops [(good_card, sample_call 1 3 2); (good_card, Device 1); (good_card, sample_call 1 9 2)] (idle_audio 0) with
  | Ret (_, a', _) => voice a' = None /\ controls a' !! TXCTL_VOICE = Some 1 /\ controls a' !! RXCTL_VOICE = Some 1
  | _ => False
  end.
Proof. vm_compute. auto. Qed.

(** A call that is established in another kind than it began in has no
    number: its identifier is set before the sound is set up again, which clears
    it, and the recording is named after the unused first place of the table. *)
Theorem active_call_forgotten env pkt sz n id direction mode number len a
  (Hgood : starts_well env) (Ha : audio_ok a) (Hm : mixer a = true)
  (Hmsg : call_message pkt sz n id CALL_STATE_ESTABLISHED direction mode) (Hid : 0 <= id < 10)
  (Hlen : 0 <= len <= 20) (Hnum : len <= zlen number)
  (Hin : in_call a = true) (Hkind : current_call_state (art a) <> call_mode_status mode) (Hcodec : a_codec env = false) :
  exists a' t, handle_call_pkt env pkt sz number len a = Ret (tt, a', t) /\
    in_call a' = true /\ get_current_call_id a' = 0.
Proof.
  destruct (packet_step env pkt sz n id _ direction mode number len a Ha Hmsg Hid Hlen Hnum) as (l & -> & Hok & _).
  set (b := on_art (set_active_calls l) a) in *. unfold call_state_step. cbn [Z.eqb Pos.eqb orb CALL_STATE_ESTABLISHED
    CALL_STATE_PREPARING CALL_STATE_ATTEMPT CALL_STATE_ORIGINATING CALL_STATE_RINGING]. rewrite Hcodec. cbn [when].
  rewrite bind_modify, bind_ret, bind_modify.
  set (c := on_art (set_active_id id) (on_art (set_alerting false) b)).
  assert (Hc : audio_ok c) by (destruct Hok as [(?&?&?) H]; split; [by repeat split|exact H]).
  destruct (start_run env c (call_mode_status mode) Hc (mode_status mode)) as (r & a1 & t1 & Hrun & _ & _ & Hopen).
  assert (Hcs : current_call_state (art c) = current_call_state (art a)) by done.
  rewrite Hcs, (proj2 (Z.eqb_neq _ _) Hkind) in Hopen.
  assert (Hmc : mixer c || a_mixer env = true) by (change (mixer c) with (mixer a); by rewrite Hm).
  specialize (Hopen (conj Hgood Hmc)).
  assert (Hfin : in_call a1 = true /\ get_current_call_id a1 = 0).
  { subst a1. unfold get_current_call_id, in_call. cbn [art started_pair set_call_status current_call_state upd_controls
      current_active_call_id]. split; [by destruct (mode_status mode) as [-> | ->]|].
    assert (Hic : in_call c = true) by exact Hin. unfold before_start. rewrite Hic. unfold stopped. by rewrite Hic. }
  rewrite bind_assoc, (bind_after _ _ _ _ _ _ Hrun). autorewrite with eff.
  destruct (record_next (art a1) || (0 <? a_recording env)); cbn [when]; autorewrite with eff;
    do 2 eexists; (split; [reflexivity|exact Hfin]).
Qed.
Definition umts_ringing : audio :=
  match run_op good_card (sample_call 1 2 3) (idle_audio 0) with Ret (_, a, _) => a | _ => idle_audio 0 end.
Theorem active_call_forgotten_witness :
  in_call umts_ringing = true /\ current_call_state (art umts_ringing) <> call_mode_status 4 /\
  exists a' t, run_op good_card (sample_call 1 3 4) umts_ringing = Ret (tt, a', t) /\
    in_call a' = true /\ get_current_call_id a' = 0.
Proof.
  assert (Hok : audio_ok umts_ringing).
  { destruct (packet_step good_card _ 43 1 1 2 2 3 (in_20 (zs "+34600111222")) 12 (idle_audio 0) (idle_audio_ok 0 (or_introl eq_refl))
      (sample_call_message 1 2 3)) as (l & Hrun & Hok & _); [lia|lia|vm_compute; congruence|].
    destruct (call_state_safe good_card 1 1 2 3 _ Hok) as ([] & a' & t & H & Hok' & _). rewrite <- Hrun in H.
    unfold umts_ringing, run_op, sample_call. by rewrite H. }
  split; [reflexivity|]. split; [vm_compute; discriminate|].
  apply (active_call_forgotten good_card _ 43 1 1 2 4 (in_20 (zs "+34600111222")) 12 umts_ringing).
  - repeat split.
  - exact Hok.
  - reflexivity.
  - apply sample_call_message.
  - lia.
  - lia.
  - vm_compute. congruence.
  - reflexivity.
  - vm_compute. discriminate.
  - reflexivity.
Defined.

(** The copy of a number does not end it: a shorter one keeps the tail of the one
    before in the same place. *)
Example number_keeps_tail :
  match (note_call 1 2 2 4 (zs "+34600111222") ;> note_call 1 2 2 4 (zs "0800")) (idle_audio 0) with
  | Ret (_, a', _) => option_map (fun c => until_nul (cd_number c)) (active_calls (art a') !! 1%nat) = Some (zs "080000111222")
  | _ => False
  end.
Proof. vm_compute. reflexivity. Qed.
