(* ===== verification/Mixer.v ===== *)
(** The mixer of the sound card (src/mixer.c; set_mixer_ctl and set_gain_ctl of
    src/audio.c): the memory of an opened mixer, the search for a control and what
    is written to it. Audio.v uses it through the names of the controls alone. *)

From stdpp Require Import base list numbers option strings gmap sets.
From Stdlib Require Import ZArith Lia.
From S2P Require Import Prelude Libc Eff Audio.

(** * Data *)

(** struct snd_ctl_elem_info as the kernel fills it: the name is an array of 44
    bytes; the names of the values of an enumerated control. *)
Record snd_ctl_elem_info := {
  numid : Z;
  ei_index : Z;
  ei_name : list Z;
  ei_type : Z;
  ei_count : Z;
  ei_items : list (list Z)
}.
Definition SNDRV_CTL_ELEM_TYPE_BOOLEAN : Z := 1.
Definition SNDRV_CTL_ELEM_TYPE_INTEGER : Z := 2.
Definition SNDRV_CTL_ELEM_TYPE_ENUMERATED : Z := 3.
Definition SNDRV_CTL_ELEM_TYPE_BYTES : Z := 4.
Definition VOICE_SESSION_VSID : Z := 0x10C01000.
Definition VOLTE_SESSION_VSID : Z := 0x10C02000.

(** The heap, by the addresses of its blocks, and the open descriptors. *)
Record memory := { next_block : Z; blocks : gset Z; fds : gset Z }.
(** struct mixer: its own block, the arrays of the controls and of their
    descriptions (NULL or not), and for every control up to the last one described
    the array of its names and the names, where there are any. *)
Record mixer_mem := {
  mx_self : Z;
  mx_fd : Z;
  mx_ctl : option Z;
  mx_info : option Z;
  mx_enames : list (option (Z * list Z))
}.
(** Whether the allocation at an address, the two ioctls for the list, that for a
    control and that for an item of it succeed; the descriptor of the card. *)
Record mixer_env := {
  x_fd : Z;
  x_alloc : Z -> bool;
  x_list : bool;
  x_ids : bool;
  x_info : nat -> bool;
  x_item : nat -> nat -> bool
}.

Definition MM (A : Type) : Type := memory -> cres (A * memory).
Definition mem_ret {A} (a : A) : MM A := fun m => Ret (a, m).
Definition mem_bind {A B} (x : MM A) (k : A -> MM B) : MM B := fun m => let* '(a, m) := x m in k a m.
Declare Scope mem_scope.
Delimit Scope mem_scope with mem.
Notation "'mlet*' x ':=' m 'in' k" := (mem_bind m (fun x => k))
  (at level 10, x name, m at level 100, k at level 200) : mem_scope.
#[local] Open Scope mem_scope.

(** calloc(3) and strdup(3), free(3) of a block, and close(2), which fails without
    effect on a descriptor that is not open. *)
Definition alloc (ok : Z -> bool) : MM (option Z) := fun m =>
  let p := next_block m in
  if ok p then Ret (Some p, {| next_block := p + 1; blocks := {[p]} ∪ blocks m; fds := fds m |})
  else Ret (None, {| next_block := p + 1; blocks := blocks m; fds := fds m |}).
Definition free (p : option Z) : MM unit := fun m =>
  match p with
  | None => Ret (tt, m)
  | Some p =>
      if bool_decide (p ∈ blocks m)
      then Ret (tt, {| next_block := next_block m; blocks := blocks m ∖ {[p]}; fds := fds m |})
      else Oob
  end.
Definition open_fd (fd : Z) : MM unit := fun m =>
  Ret (tt, {| next_block := next_block m; blocks := blocks m; fds := {[fd]} ∪ fds m |}).
Definition close_fd (fd : Z) : MM unit := fun m =>
  Ret (tt, {| next_block := next_block m; blocks := blocks m; fds := fds m ∖ {[fd]} |}).

(** * Opening and closing *)

Fixpoint free_all (l : list Z) : MM unit :=
  match l with [] => mem_ret tt | p :: l => mlet* u := free (Some p) in free_all l end.
Fixpoint free_enames (l : list (option (Z * list Z))) : MM unit :=
  match l with
  | [] => mem_ret tt
  | None :: l => free_enames l
  | Some (p, names) :: l => mlet* u := free_all names in mlet* u := free (Some p) in free_enames l
  end.
(** Without the array of the controls their number is still 0. *)
Definition mixer_close (x : mixer_mem) : MM unit :=
  mlet* u := (if 0 <=? mx_fd x then close_fd (mx_fd x) else mem_ret tt) in
  mlet* u := (match mx_ctl x with Some p => mlet* u := free_enames (mx_enames x) in free (Some p) | None => mem_ret tt end) in
  mlet* u := free (mx_info x) in
  free (Some (mx_self x)).

Section Open.
Variable env : mixer_env.

(** The names of the items from the [m]-th on of the [n]-th control: those copied,
    and whether all were. *)
Fixpoint copy_items (n m : nat) (items : list (list Z)) (names : list Z) : MM (list Z * bool) :=
  match items with
  | [] => mem_ret (names, true)
  | _ :: items =>
      if negb (x_item env n m) then mem_ret (names, false)
      else
        mlet* p := alloc (x_alloc env) in
        match p with
        | None => mem_ret (names, false)
        | Some p => copy_items n (S m) items (names ++ [p])
        end
  end.
(** The loop over the controls: the arrays of names so far, and whether it ended. *)
Fixpoint describe (n : nat) (l : list snd_ctl_elem_info) (enames : list (option (Z * list Z)))
    : MM (list (option (Z * list Z)) * bool) :=
  match l with
  | [] => mem_ret (enames, true)
  | ei :: l =>
      if negb (x_info env n) then mem_ret (enames, false)
      else if negb (ei_type ei =? SNDRV_CTL_ELEM_TYPE_ENUMERATED) then describe (S n) l (enames ++ [None])
      else
        mlet* p := alloc (x_alloc env) in
        match p with
        | None => mem_ret (enames, false)
        | Some p =>
            mlet* r := copy_items n 0 (ei_items ei) [] in
            let '(names, done) := r in
            if done : bool then describe (S n) l (enames ++ [Some (p, names)])
            else mem_ret (enames ++ [Some (p, names)], false)
        end
  end.

(** With the three arrays: the descriptor is stored, the identifiers are read and the
    controls described. *)
Definition mixer_fill (self ctl info eid : Z) (card : list snd_ctl_elem_info) : MM (option mixer_mem) :=
  let with_fd enames :=
    {| mx_self := self; mx_fd := x_fd env; mx_ctl := Some ctl; mx_info := Some info; mx_enames := enames |} in
  if negb (x_ids env) then
    mlet* u := free (Some eid) in mlet* u := mixer_close (with_fd []) in mem_ret None
  else
    mlet* r := describe 0 card [] in
    let '(enames, done) := r in
    mlet* u := free (Some eid) in
    if done : bool then mem_ret (Some (with_fd enames))
    else mlet* u := mixer_close (with_fd enames) in mem_ret None.
(** The three arrays, before the descriptor is stored: without one of them the
    field has the 0 of calloc, and the number of controls too. *)
Definition mixer_arrays (self : Z) (card : list snd_ctl_elem_info) : MM (option mixer_mem) :=
  mlet* ctl := alloc (x_alloc env) in
  mlet* info := alloc (x_alloc env) in
  let bare := {| mx_self := self; mx_fd := 0; mx_ctl := ctl; mx_info := info; mx_enames := [] |} in
  match ctl, info with
  | Some ctl, Some info =>
      mlet* eid := alloc (x_alloc env) in
      match eid with
      | None => mlet* u := mixer_close bare in mem_ret None
      | Some eid => mixer_fill self ctl info eid card
      end
  | _, _ => mlet* u := mixer_close bare in mem_ret None
  end.
Definition mixer_open (card : list snd_ctl_elem_info) : MM (option mixer_mem) :=
  if x_fd env <? 0 then mem_ret None
  else
    mlet* u := open_fd (x_fd env) in
    if negb (x_list env) then mlet* u := close_fd (x_fd env) in mem_ret None
    else
      mlet* self := alloc (x_alloc env) in
      match self with
      | None => mlet* u := close_fd (x_fd env) in mem_ret None
      | Some self => mixer_arrays self card
      end.
End Open.

(** * Controls *)

(** [!strncmp(s, t, n)] on the arrays the two strings lie in: up to [n] bytes. *)
Fixpoint same_name (n : nat) (s t : list Z) : cres bool :=
  match n with
  | O => Ret true
  | S n =>
      match s, t with
      | c :: s, d :: t => if c =? d then if c =? 0 then Ret true else same_name n s t else Ret false
      | _, _ => Oob
      end
  end.
(** The controls from the [n]-th on; [name] is given without its NUL. *)
Fixpoint find_control (n : nat) (name : list Z) (index : Z) (card : list snd_ctl_elem_info) : cres (option nat) :=
  match card with
  | [] => Ret None
  | ei :: card =>
      if negb (ei_index ei =? index) then find_control (S n) name index card
      else
        let* same := same_name 44 (name ++ [0]) (ei_name ei) in
        if same : bool then Ret (Some n) else find_control (S n) name index card
  end.
Definition mixer_get_control (name : list Z) (index : Z) (card : list snd_ctl_elem_info) : cres (option nat) :=
  find_control 0 name index card.
Definition mixer_get_nth_control (card : list snd_ctl_elem_info) (n : Z) : option nat :=
  if n <? zlen card then Some (Z.to_nat n) else None.

(** strrchr(3): the text before the last ['#'] and that after it. *)
Fixpoint last_hash (name : list Z) : option (list Z * list Z) :=
  match name with
  | [] => None
  | c :: r =>
      match last_hash r with
      | Some (before, after) => Some (c :: before, after)
      | None => if c =? 35 then Some ([], r) else None
      end
  end.
(** The name is cut where its ['#'] is, which faults on a literal ([literal]). *)
Definition get_ctl (literal : bool) (name : list Z) (card : list snd_ctl_elem_info) : cres (option nat) :=
  if isdigit (default 0 (head name)) then Ret (mixer_get_nth_control card ((atoi name - 1) mod 2 ^ 32))
  else
    match last_hash name with
    | None => mixer_get_control name 0 card
    | Some (before, after) =>
        if literal then Oob else mixer_get_control before (atoi after mod 2 ^ 32) card
    end.
Definition get_ctl_index (literal : bool) (name : list Z) : cres Z :=
  if isdigit (default 0 (head name)) then Ret 0
  else
    match last_hash name with
    | None => Ret 0
    | Some (_, after) => if literal then Oob else Ret (atoi after mod 2 ^ 32)
    end.

(** struct snd_ctl_elem_value: the control and its values, in the elements of the
    union's array for the type of the control. *)
Record snd_ctl_elem_value := { ev_numid : Z; ev_values : list Z }.
(** The elements of the arrays: 128 of 4 bytes, or 512 bytes; and a value as one of
    them holds it. A type without an array is refused. *)
Definition array_size (type : Z) : option nat :=
  if (type =? SNDRV_CTL_ELEM_TYPE_BOOLEAN) || (type =? SNDRV_CTL_ELEM_TYPE_INTEGER) ||
     (type =? SNDRV_CTL_ELEM_TYPE_ENUMERATED) then Some 128%nat
  else if type =? SNDRV_CTL_ELEM_TYPE_BYTES then Some 512%nat
  else None.
Definition element (type value : Z) : Z :=
  if type =? SNDRV_CTL_ELEM_TYPE_BOOLEAN then if value =? 0 then 0 else 1
  else if type =? SNDRV_CTL_ELEM_TYPE_INTEGER then value
  else if type =? SNDRV_CTL_ELEM_TYPE_ENUMERATED then value mod 2 ^ 32
  else value mod 256.
(** [for (i = 0; i < count; i++) array[i] = x] *)
Fixpoint fill_values (n : nat) (i x : Z) (array : list Z) : cres (list Z) :=
  match n with
  | O => Ret array
  | S n => let* array := wr array i x in fill_values n (i + 1) x array
  end.

(** The driver is not under src/: its state, what it makes of a write and the values
    a control has. *)
Class Driver (D : Type) := {
  elem_write : snd_ctl_elem_value -> D -> Z * D;
  elem_values : Z -> D -> list Z
}.
(** The interface of ALSA: a write that is taken gives the control the elements it
    has of the array, one that is refused changes nothing, and no write changes
    another control. *)
Class DriverLaws (D : Type) `{Driver D} (card : list snd_ctl_elem_info) := {
  write_taken ev ei d : ei ∈ card -> numid ei = ev_numid ev -> 0 <= (elem_write ev d).1 ->
    elem_values (numid ei) (elem_write ev d).2 = take (Z.to_nat (ei_count ei)) (ev_values ev);
  write_refused ev k d : (elem_write ev d).1 < 0 -> elem_values k (elem_write ev d).2 = elem_values k d;
  write_frame ev k d : k <> ev_numid ev -> elem_values k (elem_write ev d).2 = elem_values k d
}.

Section Write.
Context {D : Type} `{Driver D}.
Variable card : list snd_ctl_elem_info.
Definition mixer_ctl_set_value (ctl : option nat) (value : Z) (d : D) : cres (Z * D) :=
  match ctl with
  | None => Ret (- EINVAL, d)
  | Some n =>
      let* ei := rdA card (Z.of_nat n) in
      match array_size (ei_type ei) with
      | None => Ret (- EINVAL, d)
      | Some size =>
          let* array := fill_values (Z.to_nat (ei_count ei)) 0 (element (ei_type ei) value) (replicate size 0) in
          Ret (elem_write {| ev_numid := numid ei; ev_values := array |} d)
      end
  end.
Definition mixer_ctl_set_gain (ctl : option nat) (call_type value : Z) (d : D)
    : cres (Z * D) :=
  match ctl with
  | None => Ret (- EINVAL, d)
  | Some n =>
      let* ei := rdA card (Z.of_nat n) in
      if ei_type ei =? SNDRV_CTL_ELEM_TYPE_INTEGER then
        let session := if call_type =? 2 then VOLTE_SESSION_VSID else VOICE_SESSION_VSID in
        Ret (elem_write {| ev_numid := numid ei; ev_values := value :: session :: 0 :: replicate 125 0 |} d)
      else Ret (- EINVAL, d)
  end.

(** set_mixer_ctl and set_gain_ctl of audio.c return 0 whatever happens; every name
    they are given is a literal. *)
Definition set_mixer_ctl (name : list Z) (value : Z) (d : D) : cres (Z * D) :=
  let* ctl := get_ctl true name card in
  match ctl with
  | None => Ret (0, d)
  | Some _ => let* '(r, d) := mixer_ctl_set_value ctl value d in Ret (0, d)
  end.
Definition set_gain_ctl (name : list Z) (type value : Z) (d : D) : cres (Z * D) :=
  let* ctl := get_ctl true name card in
  match ctl with
  | None => Ret (0, d)
  | Some _ => let* '(r, d) := mixer_ctl_set_gain ctl type value d in Ret (0, d)
  end.
End Write.

(** * Memory *)

(** The heap [m] is that of [m0] and the blocks [l], each once. *)
Definition owns (m0 m : memory) (l : list Z) : Prop :=
  blocks m = blocks m0 ∪ list_to_set l /\ NoDup l /\ Forall (fun p => (p ∉ blocks m0) /\ p < next_block m) l /\
  set_Forall (fun p => p < next_block m) (blocks m0).
#[export] Instance owns_perm m0 m : Proper (Permutation ==> iff) (owns m0 m).
Proof.
  intros l l' Hl. unfold owns. assert (list_to_set l =@{gset Z} list_to_set l') as -> by (by apply list_to_set_perm_L).
  by rewrite Hl.
Qed.
Lemma owns_start m : set_Forall (fun p => p < next_block m) (blocks m) -> owns m m [].
Proof. intros Hm. split_and!; [set_solver|constructor|constructor|done]. Qed.
Lemma alloc_owns ok m0 m l : owns m0 m l ->
  exists m', fds m' = fds m /\
    ((alloc ok m = Ret (Some (next_block m), m') /\ owns m0 m' (next_block m :: l)) \/
     (alloc ok m = Ret (None, m') /\ owns m0 m' l)).
Proof.
  intros (Hb & Hn & Hl & H0). unfold alloc. destruct (ok (next_block m)).
  - eexists. split; [|left; split; [reflexivity|]]; [done|]. cbn. split_and!.
    + rewrite Hb. set_solver.
    + constructor; [|done]. intros Hin. rewrite Forall_forall in Hl. apply Hl in Hin as [_ Hin]. lia.
    + constructor; [split; [|cbn; lia]; intros Hin; apply H0 in Hin; lia|].
      eapply Forall_impl; [exact Hl|]. intros p [? ?]. split; [done|cbn; lia].
    + intros p Hp. apply H0 in Hp. cbn. lia.
  - eexists. split; [|right; split; [reflexivity|]]; [done|]. split_and!; [done..| |].
    + eapply Forall_impl; [exact Hl|]. intros p [? ?]. split; [done|cbn; lia].
    + intros p Hp. apply H0 in Hp. cbn. lia.
Qed.
Lemma free_owns m0 m p l : owns m0 m (p :: l) ->
  exists m', free (Some p) m = Ret (tt, m') /\ owns m0 m' l /\ fds m' = fds m.
Proof.
  intros (Hb & Hn & Hl & H0). apply NoDup_cons in Hn as [Hp Hn]. apply Forall_cons in Hl as [[Hp0 _] Hl].
  unfold free. rewrite bool_decide_eq_true_2 by (rewrite Hb; set_solver).
  eexists. split; [reflexivity|]. split; [|done]. split_and!; [|done|exact Hl|exact H0].
  cbn. rewrite Hb. assert (p ∉@{gset Z} list_to_set l) by (by rewrite elem_of_list_to_set). set_solver.
Qed.
Lemma close_owns fd m0 m l : owns m0 m l -> exists m', close_fd fd m = Ret (tt, m') /\ owns m0 m' l /\ fds m' = fds m ∖ {[fd]}.
Proof. intros H. eexists. split; [reflexivity|]. by split. Qed.

Lemma mem_bind_run {A B} (x : MM A) (k : A -> MM B) m a m' : x m = Ret (a, m') -> mem_bind x k m = k a m'.
Proof. intros H. unfold mem_bind. by rewrite H. Qed.

(** The blocks of a mixer, in the order they are freed. *)
Definition name_blocks (e : option (Z * list Z)) : list Z := match e with Some (p, names) => names ++ [p] | None => [] end.
Definition mixer_blocks (x : mixer_mem) : list Z :=
  match mx_ctl x with Some p => mjoin (map name_blocks (mx_enames x)) ++ [p] | None => [] end ++
  option_list (mx_info x) ++ [mx_self x].

Lemma free_all_owns l m0 m r : owns m0 m (l ++ r) -> exists m', free_all l m = Ret (tt, m') /\ owns m0 m' r /\ fds m' = fds m.
Proof.
  revert m. induction l as [|p l IH]; intros m Hm; cbn [free_all app]; [by eexists|].
  destruct (free_owns m0 m p (l ++ r) Hm) as (m1 & E & H1 & F1). rewrite (mem_bind_run _ _ _ _ _ E).
  destruct (IH m1 H1) as (m2 & E2 & H2 & F2). exists m2. split; [done|]. split; [done|congruence].
Qed.
Lemma free_enames_owns l m0 m r : owns m0 m (mjoin (map name_blocks l) ++ r) ->
  exists m', free_enames l m = Ret (tt, m') /\ owns m0 m' r /\ fds m' = fds m.
Proof.
  revert m. induction l as [|[[p names]|] l IH]; intros m Hm; cbn [free_enames map mjoin list_join app name_blocks] in *.
  - by eexists.
  - rewrite <- !app_assoc in Hm. cbn [app] in Hm.
    destruct (free_all_owns names m0 m _ Hm) as (m1 & E1 & H1 & F1). rewrite (mem_bind_run _ _ _ _ _ E1).
    destruct (free_owns _ _ _ _ H1) as (m2 & E2 & H2 & F2). rewrite (mem_bind_run _ _ _ _ _ E2).
    destruct (IH m2 H2) as (m3 & E3 & H3 & F3). exists m3. split; [done|]. split; [done|congruence].
  - by apply IH.
Qed.
Definition closed_fd (x : mixer_mem) (f : gset Z) : gset Z := if 0 <=? mx_fd x then f ∖ {[mx_fd x]} else f.
Lemma mixer_close_owns x m0 m : owns m0 m (mixer_blocks x) ->
  exists m', mixer_close x m = Ret (tt, m') /\ owns m0 m' [] /\ fds m' = closed_fd x (fds m).
Proof.
  intros Hm. unfold mixer_close, closed_fd.
  assert (exists m1, (if 0 <=? mx_fd x then close_fd (mx_fd x) else mem_ret tt) m = Ret (tt, m1) /\ owns m0 m1 (mixer_blocks x) /\
    fds m1 = (if 0 <=? mx_fd x then fds m ∖ {[mx_fd x]} else fds m)) as (m1 & E1 & H1 & F1)
    by (destruct (0 <=? mx_fd x); [by apply close_owns|by eexists]).
  rewrite (mem_bind_run _ _ _ _ _ E1). unfold mixer_blocks in H1.
  assert (exists m2, (match mx_ctl x with Some p => mem_bind (free_enames (mx_enames x)) (fun _ => free (Some p)) | None => mem_ret tt end) m1 =
    Ret (tt, m2) /\ owns m0 m2 (option_list (mx_info x) ++ [mx_self x]) /\ fds m2 = fds m1) as (m2 & E2 & H2 & F2).
  { destruct (mx_ctl x) as [p|]; [|by eexists]. rewrite <- app_assoc in H1.
    destruct (free_enames_owns _ _ _ _ H1) as (m2 & E2 & H2 & F2). rewrite (mem_bind_run _ _ _ _ _ E2).
    destruct (free_owns _ _ _ _ H2) as (m3 & E3 & H3 & F3). exists m3. split; [done|]. split; [done|congruence]. }
  rewrite (mem_bind_run _ _ _ _ _ E2).
  assert (exists m3, free (mx_info x) m2 = Ret (tt, m3) /\ owns m0 m3 [mx_self x] /\ fds m3 = fds m2) as (m3 & E3 & H3 & F3)
    by (destruct (mx_info x); [by apply free_owns|by eexists]).
  rewrite (mem_bind_run _ _ _ _ _ E3). destruct (free_owns _ _ _ _ H3) as (m4 & E4 & H4 & F4).
  exists m4. split; [done|]. split; [done|]. rewrite F4, F3, F2. exact F1.
Qed.

Section Opened.
Context (env : mixer_env) (m0 : memory).

(** Copying the names of the items keeps account of every block. *)
Lemma copy_items_owns n k items names m l : owns m0 m (names ++ l) ->
  exists names' ok m', copy_items env n k items names m = Ret ((names', ok), m') /\ owns m0 m' (names' ++ l) /\ fds m' = fds m.
Proof.
  revert k names m. induction items as [|i items IH]; intros k names m Hm; cbn [copy_items]; [by eexists _, _, _|].
  destruct (x_item env n k); cbn [negb]; [|by eexists _, _, _].
  destruct (alloc_owns (x_alloc env) m0 m _ Hm) as (m1 & F1 & [[E1 H1]|[E1 H1]]); rewrite (mem_bind_run _ _ _ _ _ E1);
    [|by eexists _, _, _].
  destruct (IH (S k) (names ++ [next_block m]) m1) as (names' & ok & m2 & E2 & H2 & F2).
  { rewrite <- app_assoc. cbn [app]. by rewrite <- Permutation_middle. }
  exists names', ok, m2. split; [done|]. split; [done|congruence].
Qed.
Lemma describe_owns n card enames m l : owns m0 m (mjoin (map name_blocks enames) ++ l) ->
  exists enames' ok m', describe env n card enames m = Ret ((enames', ok), m') /\
    owns m0 m' (mjoin (map name_blocks enames') ++ l) /\ fds m' = fds m.
Proof.
  revert n enames m. induction card as [|ei card IH]; intros n enames m Hm; cbn [describe]; [by eexists _, _, _|].
  destruct (x_info env n); cbn [negb]; [|by eexists _, _, _].
  destruct (ei_type ei =? SNDRV_CTL_ELEM_TYPE_ENUMERATED); cbn [negb].
  2: { apply IH. by rewrite map_app, join_app, app_nil_r. }
  destruct (alloc_owns (x_alloc env) m0 m _ Hm) as (m1 & F1 & [[E1 H1]|[E1 H1]]); rewrite (mem_bind_run _ _ _ _ _ E1);
    [|by eexists _, _, _].
  destruct (copy_items_owns n 0 (ei_items ei) [] m1 _ H1) as (names & ok & m2 & E2 & H2 & F2).
  rewrite (mem_bind_run _ _ _ _ _ E2).
  assert (owns m0 m2 (mjoin (map name_blocks (enames ++ [Some (next_block m, names)])) ++ l)) as H3.
  { rewrite map_app, join_app. cbn [map mjoin list_join name_blocks]. rewrite app_nil_r, <- !app_assoc. cbn [app].
    revert H2. apply owns_perm. rewrite (Permutation_app_comm (mjoin _)). rewrite <- !app_assoc. cbn [app].
    apply Permutation_app_head. constructor. apply Permutation_app_comm. }
  destruct ok; [|eexists _, _, _; split; [reflexivity|split; [exact H3|congruence]]].
  destruct (IH (S n) _ m2 H3) as (enames' & ok & m3 & E3 & H4 & F4). exists enames', ok, m3.
  split; [done|]. split; [done|congruence].
Qed.
End Opened.

(** ** Opening, at last *)

Definition fresh (m : memory) : Prop := set_Forall (fun p => p < next_block m) (blocks m).
(** What an opened mixer has for a control: a name for every item of an enumerated
    one. *)
Definition items_of (ei : snd_ctl_elem_info) : option nat :=
  if ei_type ei =? SNDRV_CTL_ELEM_TYPE_ENUMERATED then Some (length (ei_items ei)) else None.
Definition names_of (e : option (Z * list Z)) : option nat := length ∘ snd <$> e.

Section Opening.
Context (env : mixer_env).
(** The control structure is there and one of the three arrays after it is not:
    its descriptor is still 0 when mixer_close runs. *)
Definition array_fails (m : memory) : bool :=
  let ok i := x_alloc env (next_block m + i) in
  ok 0 && negb (ok 1 && ok 2 && ok 3).
(** The descriptors after an open that failed. *)
Definition failed_fds (m : memory) : gset Z :=
  if x_list env && array_fails m then ({[x_fd env]} ∪ fds m) ∖ {[0]} else fds m.

Lemma copy_items_done n k items names m names' m' :
  copy_items env n k items names m = Ret ((names', true), m') -> length names' = (length names + length items)%nat.
Proof.
  revert k names m. induction items as [|i items IH]; intros k names m; cbn [copy_items].
  { intros [= <- _]. cbn. lia. }
  destruct (negb (x_item env n k)); [done|]. unfold mem_bind, alloc.
  destruct (x_alloc env _); cbn [cbind]; [|done]. intros E. apply IH in E. rewrite E, length_app. cbn. lia.
Qed.
Lemma describe_done n card enames m enames' m' :
  describe env n card enames m = Ret ((enames', true), m') -> map names_of enames' = map names_of enames ++ map items_of card.
Proof.
  revert n enames m. induction card as [|ei card IH]; intros n enames m; cbn [describe map].
  { intros [= <- _]. by rewrite app_nil_r. }
  destruct (negb (x_info env n)); [done|]. unfold items_of at 1.
  destruct (ei_type ei =? _); cbn [negb].
  2: { intros E. apply IH in E. rewrite E, map_app, <- app_assoc. done. }
  unfold mem_bind, alloc. destruct (x_alloc env _); cbn [cbind]; [|done].
  destruct (copy_items _ _ _ _ _ _) as [[[names []] m1]| |] eqn:Ec; cbn [cbind]; try done.
  intros E. apply IH in E. rewrite E, map_app, <- app_assoc. cbn. by rewrite (copy_items_done _ _ _ _ _ _ _ Ec).
Qed.

(** A failure after the descriptor or before: mixer_close takes back every block. *)
Lemma give_up_close x m0 m : owns m0 m (mixer_blocks x) ->
  exists m', mem_bind (mixer_close x) (fun _ => mem_ret None) m = Ret (None (A := mixer_mem), m') /\
    blocks m' = blocks m0 /\ fds m' = closed_fd x (fds m).
Proof.
  intros H. destruct (mixer_close_owns x m0 m H) as (m' & E & (Hb & _) & F).
  exists m'. rewrite (mem_bind_run _ _ _ _ _ E). split; [done|]. split; [|done]. rewrite Hb. set_solver.
Qed.
Lemma opened_fds fd (f : gset Z) : fd ∉ f -> ({[fd]} ∪ f) ∖ {[fd]} = f.
Proof. set_solver. Qed.

(** What an open comes to: a mixer with an entry for every control, whose blocks are
    the only new ones, and the descriptor with them; or no block more, and the
    descriptors [f]. *)
Definition opened (m0 : memory) (f : gset Z) (card : list snd_ctl_elem_info) (r : option mixer_mem) (m : memory) : Prop :=
  match r with
  | Some x => owns m0 m (mixer_blocks x) /\ mx_fd x = x_fd env /\ fds m = {[x_fd env]} ∪ fds m0 /\
      map names_of (mx_enames x) = map items_of card
  | None => blocks m = blocks m0 /\ fds m = f
  end.
Definition opens (m0 : memory) (f : gset Z) (card : list snd_ctl_elem_info) (c : cres (option mixer_mem * memory)) : Prop :=
  exists r m, c = Ret (r, m) /\ opened m0 f card r m.

Lemma close_opens x m0 m f card : owns m0 m (mixer_blocks x) -> closed_fd x (fds m) = f ->
  opens m0 f card (mem_bind (mixer_close x) (fun _ => mem_ret None) m).
Proof. intros H <-. destruct (give_up_close x m0 m H) as (m' & E & B & F). by exists None, m'. Qed.

(** The descriptor of the card is closed with everything else from here on. *)
Lemma mixer_fill_opens self ctl info eid card m0 m :
  owns m0 m (eid :: info :: ctl :: [self]) -> 0 <= x_fd env -> fds m = {[x_fd env]} ∪ fds m0 -> x_fd env ∉ fds m0 ->
  opens m0 (fds m0) card (mixer_fill env self ctl info eid card m).
Proof.
  intros Hm Hfd Ff Hf. unfold mixer_fill.
  set (with_fd := fun enames => {| mx_self := self; mx_fd := x_fd env; mx_ctl := Some ctl; mx_info := Some info;
    mx_enames := enames |}). cbv zeta.
  assert (Hclosed : forall enames m1, fds m1 = fds m -> closed_fd (with_fd enames) (fds m1) = fds m0).
  { intros enames m1 ->. rewrite Ff. unfold closed_fd. cbn. ifdec. by apply opened_fds. }
  assert (Hb : forall enames, Permutation (mixer_blocks (with_fd enames)) (mjoin (map name_blocks enames) ++ [info; ctl; self])).
  { intros enames. unfold mixer_blocks. cbn. rewrite <- app_assoc. apply Permutation_app_head. cbn. constructor. }
  destruct (x_ids env); cbn [negb].
  2: { destruct (free_owns _ _ _ _ Hm) as (m1 & E1 & H1 & F1). rewrite (mem_bind_run _ _ _ _ _ E1).
       apply close_opens; [by rewrite Hb|by apply Hclosed]. }
  destruct (describe_owns env m0 0 card [] m _ Hm) as (enames & ok & m1 & E1 & H1 & F1).
  rewrite (mem_bind_run _ _ _ _ _ E1). rewrite <- Permutation_middle in H1.
  destruct (free_owns _ _ _ _ H1) as (m2 & E2 & H2 & F2). rewrite (mem_bind_run _ _ _ _ _ E2).
  rewrite <- Hb in H2. destruct ok; [|apply close_opens; [done|apply Hclosed; congruence]].
  eexists _, m2. split; [reflexivity|]. split; [done|]. split; [done|]. split; [congruence|].
  exact (describe_done _ _ _ _ _ _ E1).
Qed.
End Opening.

Section Opened_mixer.
Context (env : mixer_env).

Lemma alloc_at ok m : exists m', alloc ok m = Ret (if ok (next_block m) then Some (next_block m) else None, m') /\
  next_block m' = next_block m + 1 /\ fds m' = fds m.
Proof. unfold alloc. destruct (ok (next_block m)); by eexists. Qed.
Lemma alloc_takes ok m0 m l : owns m0 m l ->
  exists m', alloc ok m = Ret (if ok (next_block m) then Some (next_block m) else None, m') /\
    owns m0 m' (option_list (if ok (next_block m) then Some (next_block m) else None) ++ l) /\
    next_block m' = next_block m + 1 /\ fds m' = fds m.
Proof.
  intros H. destruct (alloc_at ok m) as (m' & E & N & F). exists m'. split; [done|]. split; [|done].
  destruct (alloc_owns ok m0 m l H) as (m1 & _ & [[E1 H1]|[E1 H1]]); rewrite E in E1; destruct (ok (next_block m)); by simplify_eq.
Qed.
Lemma bare_blocks self ctl info : Permutation
  (mixer_blocks {| mx_self := self; mx_fd := 0; mx_ctl := ctl; mx_info := info; mx_enames := [] |})
  (option_list info ++ option_list ctl ++ [self]).
Proof. unfold mixer_blocks. cbn. destruct ctl, info; cbn; first [apply perm_swap|reflexivity]. Qed.

(** From the array of the controls on. *)
Lemma arrays_open self card m0 m :
  owns m0 m [self] -> 0 <= x_fd env -> fds m = {[x_fd env]} ∪ fds m0 -> x_fd env ∉ fds m0 ->
  let ok i := x_alloc env (next_block m + i) in
  opens env m0 (if ok 0 && ok 1 && ok 2 then fds m0 else fds m ∖ {[0]}) card (mixer_arrays env self card m).
Proof.
  intros Hm Hfd Ff Hf ok. unfold mixer_arrays.
  destruct (alloc_takes (x_alloc env) m0 m _ Hm) as (m1 & E1 & H1 & N1 & F1). rewrite (mem_bind_run _ _ _ _ _ E1).
  destruct (alloc_takes (x_alloc env) m0 m1 _ H1) as (m2 & E2 & H2 & N2 & F2). rewrite (mem_bind_run _ _ _ _ _ E2).
  assert (x_alloc env (next_block m) = ok 0) as E by (unfold ok; f_equal; lia). rewrite E in *. clear E.
  assert (x_alloc env (next_block m1) = ok 1) as E by (unfold ok; f_equal; lia). rewrite E in *. clear E.
  assert (Hbare : forall ctl info m3, owns m0 m3 (option_list info ++ option_list ctl ++ [self]) -> fds m3 = fds m ->
    opens env m0 (fds m ∖ {[0]}) card (mem_bind (mixer_close
      {| mx_self := self; mx_fd := 0; mx_ctl := ctl; mx_info := info; mx_enames := [] |}) (fun _ => mem_ret None) m3)).
  { intros ctl info m3 H3 F3. apply close_opens; [by rewrite bare_blocks|]. by rewrite F3. }
  destruct (ok 0) eqn:O0; cbn [andb]; [destruct (ok 1) eqn:O1; cbn [andb]|].
  2, 3: apply Hbare; [exact H2|congruence].
  destruct (alloc_takes (x_alloc env) m0 m2 _ H2) as (m3 & E3 & H3 & N3 & F3). rewrite (mem_bind_run _ _ _ _ _ E3).
  assert (x_alloc env (next_block m2) = ok 2) as E by (unfold ok; f_equal; lia). rewrite E in *. clear E.
  destruct (ok 2); [|apply Hbare; [exact H3|congruence]].
  apply mixer_fill_opens; [exact H3|done|congruence|done].
Qed.

(** C20: opening the mixer faults on no memory and ends either with a mixer that has
    an entry for every control of the card, a name for every item of an enumerated
    one, the descriptor of the card, and whose blocks are the only new ones; or, at
    whichever of the allocations and ioctls it failed, with NULL and the heap as it
    was. The descriptors are then as before too, but for one case: when one of the
    three arrays cannot be allocated, descriptor 0 is closed in place of the card's. *)
Theorem mixer_open_opens card m :
  fresh m -> 0 <= x_fd env -> x_fd env ∉ fds m -> opens env m (failed_fds env m) card (mixer_open env card m).
Proof.
  intros Hm Hfd Hf. unfold mixer_open. ifdec. unfold mem_bind at 1. cbn [open_fd cbind].
  set (m1 := {| next_block := _; blocks := _; fds := _ |}).
  assert (H1 : owns m m1 []) by exact (owns_start m Hm).
  assert (Hback : forall m2, owns m m2 [] -> fds m2 = fds m1 ->
    opens env m (fds m) card (mem_bind (close_fd (x_fd env)) (fun _ => mem_ret None) m2)).
  { intros m2 (Hb & _) F2. eexists None, _. split; [reflexivity|]. split; cbn; [rewrite Hb; set_solver|].
    rewrite F2. by apply opened_fds. }
  unfold failed_fds, array_fails. destruct (x_list env); cbn [negb andb]; [|by apply Hback].
  destruct (alloc_takes (x_alloc env) m m1 _ H1) as (m2 & E2 & H2 & N2 & F2). rewrite (mem_bind_run _ _ _ _ _ E2).
  assert (x_alloc env (next_block m1) = x_alloc env (next_block m + 0)) as E by (f_equal; cbn; lia). rewrite E in *. clear E.
  destruct (x_alloc env (next_block m + 0)); cbn [andb]; [|by apply Hback].
  pose proof (arrays_open _ card m m2 H2 Hfd F2 Hf) as Ho. cbv zeta in Ho. rewrite N2, F2 in Ho.
  change (next_block m1) with (next_block m) in Ho.
  replace (next_block m + 1 + 0) with (next_block m + 1) in Ho by lia.
  replace (next_block m + 1 + 1) with (next_block m + 2) in Ho by lia.
  replace (next_block m + 1 + 2) with (next_block m + 3) in Ho by lia.
  destruct (x_alloc env (next_block m + 1) && x_alloc env (next_block m + 2) && x_alloc env (next_block m + 3)); exact Ho.
Qed.
(** What mixer_open took is given back by mixer_close. *)
Theorem open_then_close card m x m' :
  fresh m -> 0 <= x_fd env -> x_fd env ∉ fds m -> mixer_open env card m = Ret (Some x, m') ->
  exists m'', mixer_close x m' = Ret (tt, m'') /\ blocks m'' = blocks m /\ fds m'' = fds m.
Proof.
  intros Hm Hfd Hf E. destruct (mixer_open_opens card m Hm Hfd Hf) as (r & m1 & E1 & H1). rewrite E in E1.
  injection E1 as <- <-. destruct H1 as (Ho & Hx & F & _). destruct (mixer_close_owns x m m' Ho) as (m2 & E2 & (Hb & _) & F2).
  exists m2. split; [done|]. split; [rewrite Hb; set_solver|]. rewrite F2, F. unfold closed_fd. rewrite Hx. ifdec.
  by apply opened_fds.
Qed.
End Opened_mixer.

(** * Controls *)

(** ** The search *)

(** The name an array holds is that before its NUL. *)
Lemma same_name_spec s t :
  Forall (fun c => c <> 0) s -> 0 ∈ t -> same_name (length t) (s ++ [0]) t = Ret (bool_decide (until_nul t = s)).
Proof.
  intros Hs. revert t. induction Hs as [|c s Hc _ IH]; intros [|d t] Ht; try (by apply elem_of_nil in Ht); cbn [app length same_name until_nul].
  - destruct (Z.eqb_spec 0 d) as [<-|Hd]; cbn [Z.eqb]; [done|]. by rewrite (proj2 (Z.eqb_neq d 0)) by congruence.
  - destruct (Z.eqb_spec c d) as [<-|Hd].
    + rewrite (proj2 (Z.eqb_neq c 0)) by done. rewrite IH by (apply elem_of_cons in Ht as [?|?]; congruence).
      f_equal. apply bool_decide_ext. split; [by intros ->|by intros [= ->]].
    + rewrite bool_decide_eq_false_2; [done|]. destruct (d =? 0); congruence.
Qed.

(** What the kernel tells of a control: a name of 44 bytes that ends among them, and
    no more values than there are elements. *)
Definition ei_ok (ei : snd_ctl_elem_info) : Prop :=
  length (ei_name ei) = 44%nat /\ 0 ∈ ei_name ei /\ 0 <= ei_count ei <= 128.
Definition named (name : list Z) (index : Z) (ei : snd_ctl_elem_info) : Prop :=
  ei_index ei = index /\ until_nul (ei_name ei) = name.
#[export] Instance named_dec name index ei : Decision (named name index ei).
Proof. unfold named. apply _. Defined.

(** The first control of that name and index, if there is one. *)
Lemma find_control_spec n name index card : Forall (fun c => c <> 0) name -> Forall ei_ok card ->
  find_control n name index card = Ret ((fun p => (n + p.1)%nat) <$> list_find (named name index) card).
Proof.
  intros Hn Hc. revert n. induction Hc as [|ei card (Hl & H0 & _) _ IH]; intros n; cbn [find_control list_find]; [done|].
  assert (Hnext : (fun p : nat * snd_ctl_elem_info => (S n + p.1)%nat) <$> list_find (named name index) card =
    (fun p => (n + p.1)%nat) <$> (prod_map S id <$> list_find (named name index) card)).
  { destruct (list_find _ card) as [[i e]|]; [cbn; f_equal; lia|done]. }
  destruct (Z.eqb_spec (ei_index ei) index) as [Hi|Hi]; cbn [negb].
  2: { rewrite decide_False by (intros [? _]; done). by rewrite IH, Hnext. }
  rewrite <- Hl, same_name_spec by done. cbn [cbind]. case_bool_decide as Hb.
  - rewrite decide_True by done. cbn. by rewrite Nat.add_0_r.
  - rewrite decide_False by (intros [_ ?]; done). by rewrite IH, Hnext.
Qed.

(** The names audio.c has: no digit first, no ['#']. *)
Definition plain (name : string) : bool :=
  negb (isdigit (default 0 (head (zs name)))) && forallb (fun c => negb (c =? 0) && negb (c =? 35)) (zs name).
Lemma last_hash_none name : Forall (fun c => c <> 35) name -> last_hash name = None.
Proof. induction 1 as [|c name Hc _ IH]; [done|]. cbn [last_hash]. rewrite IH. by rewrite (proj2 (Z.eqb_neq c 35)). Qed.
Lemma plain_chars name : plain name = true -> Forall (fun c => c <> 0) (zs name) /\ Forall (fun c => c <> 35) (zs name).
Proof.
  unfold plain. rewrite andb_true_iff, forallb_forall. intros [_ H].
  split; apply Forall_forall; intros c Hc%list_elem_of_In%H; b2p; done.
Qed.
Lemma get_ctl_plain literal name card : plain name = true -> Forall ei_ok card ->
  get_ctl literal (zs name) card = Ret (fst <$> list_find (named (zs name) 0) card).
Proof.
  intros Hp Hc. destruct (plain_chars name Hp) as [H0 H35]. unfold plain in Hp. apply andb_true_iff in Hp as [Hd _].
  unfold get_ctl. destruct (isdigit _); [done|]. rewrite last_hash_none by done.
  unfold mixer_get_control. rewrite find_control_spec by done. by destruct (list_find _ card) as [[? ?]|].
Qed.
Lemma zs_inj s t : zs s = zs t -> s = t.
Proof.
  revert t. induction s as [|a s IH]; intros [|b t]; cbn [zs]; try done. intros [= H Hs].
  f_equal; [|by apply IH]. apply N2Z.inj in H. rewrite <- (Ascii.ascii_N_embedding a), H. apply Ascii.ascii_N_embedding.
Qed.

(** ** The write *)

Lemma fill_values_spec n x pre array : (n <= length array)%nat ->
  fill_values n (zlen pre) x (pre ++ array) = Ret (pre ++ replicate n x ++ drop n array).
Proof.
  revert pre array. induction n as [|n IH]; intros pre array Hn; cbn [fill_values replicate app]; [by rewrite drop_0|].
  destruct array as [|y array]; [cbn in Hn; lia|]. rewrite wrA_middle. cbn [cbind].
  replace (zlen pre + 1) with (zlen (pre ++ [x])) by (unfold zlen; rewrite length_app; cbn; lia).
  replace (pre ++ x :: array) with ((pre ++ [x]) ++ array) by (by rewrite <- app_assoc).
  rewrite IH by (cbn in Hn; lia). by rewrite <- app_assoc.
Qed.

(** ** The card under Audio.v *)

(** One call after the other, here and in Audio.v. *)
Fixpoint set_controls {D} `{Driver D} (card : list snd_ctl_elem_info) (l : list (string * Z)) (d : D) : cres D :=
  match l with
  | [] => Ret d
  | (name, v) :: l => let* '(r, d) := set_mixer_ctl card (zs name) v d in set_controls card l d
  end.
Fixpoint put_controls (env : audio_env) (l : list (string * Z)) : Audio.MA unit :=
  match l with
  | [] => ret tt
  | (name, v) :: l => Audio.set_mixer_ctl env name v ;> put_controls env l
  end.

Section Refines.
Context {D : Type} `{Driver D} (card : list snd_ctl_elem_info) `{!DriverLaws D card}.
Context (Hids : NoDup (map numid card)) (Hok : Forall ei_ok card).

Definition control (name : string) : option snd_ctl_elem_info := snd <$> list_find (named (zs name) 0) card.
(** What is written for a control that has an array, and whether it arrives. *)
Definition written (ei : snd_ctl_elem_info) (v : Z) : option snd_ctl_elem_value :=
  (fun size => {| ev_numid := numid ei;
     ev_values := replicate (Z.to_nat (ei_count ei)) (element (ei_type ei) v) ++
       drop (Z.to_nat (ei_count ei)) (replicate size 0) |}) <$> array_size (ei_type ei).
Definition arrives (name : string) (v : Z) (d : D) : bool :=
  match control name ≫= fun ei => written ei v with Some ev => 0 <=? (elem_write ev d).1 | None => false end.
(** The control of that name has the value in all its elements. *)
Definition shows (d : D) (name : string) (v : Z) : Prop :=
  exists ei, control name = Some ei /\
    elem_values (numid ei) d = replicate (Z.to_nat (ei_count ei)) (element (ei_type ei) v).
Definition represents (d : D) (c : gmap string Z) : Prop :=
  forall name v, c !! name = Some v -> shows d name v.

Lemma control_in name ei : control name = Some ei -> ei ∈ card /\ until_nul (ei_name ei) = zs name /\ ei_ok ei.
Proof.
  unfold control. intros ([n e] & (He & [_ Hn] & _)%list_find_Some & ->)%fmap_Some. cbn.
  apply list_elem_of_lookup_2 in He. split; [done|]. split; [done|]. rewrite Forall_forall in Hok. by apply Hok.
Qed.
Lemma same_numid e e' : e ∈ card -> e' ∈ card -> numid e = numid e' -> e = e'.
Proof.
  intros (i & Hi)%list_elem_of_lookup (j & Hj)%list_elem_of_lookup E.
  assert (i = j) as <- by (eapply (NoDup_lookup (map numid card)); [done|by rewrite list_lookup_fmap, Hi|by rewrite list_lookup_fmap, Hj; cbn; rewrite E]).
  congruence.
Qed.
Lemma array_room ei size : ei_ok ei -> array_size (ei_type ei) = Some size -> (Z.to_nat (ei_count ei) <= size)%nat.
Proof. intros (_ & _ & Hc). unfold array_size. repeat case_match; intros; simplify_eq; lia. Qed.

(** A control that is not there is left alone, one that is gets all its elements. *)
Lemma set_mixer_ctl_run name v d : plain name = true ->
  set_mixer_ctl card (zs name) v d =
    Ret (0, match control name ≫= fun ei => written ei v with Some ev => (elem_write ev d).2 | None => d end).
Proof.
  intros Hp. unfold set_mixer_ctl. rewrite get_ctl_plain by done. cbn [cbind].
  destruct (control name) as [ei|] eqn:Hc.
  2: { unfold control in Hc. destruct (list_find _ card); [done|]. done. }
  pose proof (control_in name ei Hc) as (_ & _ & He). unfold control in Hc.
  destruct (list_find _ card) as [[n e]|] eqn:Hf; [|done]. injection Hc as ->. cbn.
  apply list_find_Some in Hf as (Hn & _). unfold rdA. ifdec. rewrite Nat2Z.id, Hn. cbn [cbind].
  unfold written. destruct (array_size (ei_type ei)) as [size|] eqn:Hs; [|done]. cbn [fmap option_fmap option_map].
  pose proof (fill_values_spec (Z.to_nat (ei_count ei)) (element (ei_type ei) v) [] (replicate size 0)) as Hfill.
  cbn [app] in Hfill. change (zlen []) with 0 in Hfill. rewrite Hfill by (rewrite length_replicate; by apply array_room).
  cbn. by destruct (elem_write _ d).
Qed.
Lemma set_refines env name v d c : plain name = true -> a_control env name = arrives name v d -> represents d c ->
  exists d', set_mixer_ctl card (zs name) v d = Ret (0, d') /\ represents d' (put env name v c).
Proof.
  intros Hp Ha Hd. eexists. split; [by apply set_mixer_ctl_run|]. unfold put. rewrite Ha. unfold arrives.
  destruct (control name) as [ei|] eqn:Hc; [|exact Hd]. cbn [mbind option_bind].
  pose proof (control_in name ei Hc) as (Hin & Hn & He). unfold written.
  destruct (array_size (ei_type ei)) as [size|]; [|exact Hd]. cbn [fmap option_fmap option_map].
  set (ev := {| ev_numid := _; ev_values := _ |}). destruct (Z.leb_spec 0 (elem_write ev d).1) as [Ht|Ht].
  2: { intros n w Hw. destruct (Hd n w Hw) as (e & Hce & Hv). exists e. split; [done|].
       by rewrite (write_refused ev _ d Ht). }
  intros n w Hw. apply lookup_insert_Some in Hw as [[<- <-]|[Hne Hw]].
  - exists ei. split; [done|]. rewrite (write_taken ev ei d Hin eq_refl Ht). cbn.
    by rewrite take_app_length' by (by rewrite length_replicate).
  - destruct (Hd n w Hw) as (e & Hce & Hv). exists e. split; [done|].
    pose proof (control_in n e Hce) as (Hine & Hne' & _). rewrite (write_frame ev); [done|].
    cbn. intros E. apply (same_numid e ei Hine Hin) in E as ->. apply Hne, zs_inj. congruence.
Qed.

(** C21: the calls of audio.c on the controls do to the card what Audio.v says they
    do to its map of the controls: for a card whose identifiers are distinct and
    whose descriptions are as the kernel gives them, and an environment that has a
    control exactly when one of that name, of a type with values, takes the write,
    any sequence of calls on names such as the code has runs to its end without a
    fault, and afterwards every control that Audio.v has with a value has that value
    in all its elements on the card. *)
Theorem controls_refine env l d a :
  mixer a = true -> Forall (fun p => plain p.1 = true) l ->
  (forall name v d, a_control env name = arrives name v d) -> represents d (controls a) ->
  exists d' a', set_controls card l d = Ret d' /\ put_controls env l a = Ret (tt, a', []) /\
    mixer a' = true /\ represents d' (controls a').
Proof.
  intros Hm Hl Ha. revert d a Hm. induction Hl as [|[name v] l Hp _ IH]; intros d a Hm Hd; cbn [set_controls put_controls].
  { by exists d, a. }
  destruct (set_refines env name v d (controls a) Hp (Ha name v d) Hd) as (d1 & E1 & H1).
  rewrite E1. cbn [cbind]. erewrite bind_step by (by apply ctl_run).
  destruct (IH d1 (upd_controls (put env name v (controls a)) a) Hm H1) as (d2 & a2 & E2 & E3 & Hm2 & H2).
  exists d2, a2. by rewrite E3.
Qed.
End Refines.

(** * A card *)

(** A driver that keeps the values of each control, and answers ENOENT for others. *)
Definition ENOENT : Z := 2.
Section Keeping.
Variable card : list snd_ctl_elem_info.
Definition keeping : Driver (gmap Z (list Z)) :=
  {| elem_write ev d :=
       match list_find (fun ei => numid ei = ev_numid ev) card with
       | Some (_, ei) => (0, <[ev_numid ev := take (Z.to_nat (ei_count ei)) (ev_values ev)]> d)
       | None => (- ENOENT, d)
       end;
     elem_values k d := default [] (d !! k) |}.
Lemma find_numid ei : NoDup (map numid card) -> ei ∈ card ->
  exists n, list_find (fun e => numid e = numid ei) card = Some (n, ei).
Proof.
  intros Hids Hin. destruct (list_find_elem_of (fun e => numid e = numid ei) card ei Hin eq_refl) as [[n e] He].
  exists n. rewrite He. apply list_find_Some in He as (Hn & E & _).
  by rewrite (same_numid card Hids e ei (list_elem_of_lookup_2 _ _ _ Hn) Hin E).
Qed.
Lemma keeping_laws : NoDup (map numid card) -> @DriverLaws _ keeping card.
Proof.
  intros Hids. split; cbn.
  - intros ev ei d Hin E _. destruct (find_numid ei Hids Hin) as [i Hi]. rewrite <- E, Hi. cbn. by rewrite lookup_insert_eq.
  - intros ev k d. by destruct (list_find _ card) as [[? ?]|].
  - intros ev k d Hne. destruct (list_find _ card) as [[? ?]|]; cbn; [|done]. by rewrite lookup_insert_ne.
Qed.
(** It takes every write to a control that has values. *)
Lemma keeping_arrives name v d : NoDup (map numid card) -> Forall ei_ok card ->
  @arrives _ keeping card name v d = bool_decide (is_Some (control card name ≫= fun ei => array_size (ei_type ei))).
Proof.
  intros Hids Hok. unfold arrives. destruct (control card name) as [ei|] eqn:Hc; cbn; [|done].
  unfold written. destruct (array_size (ei_type ei)); cbn; [|done].
  destruct (find_numid ei Hids (proj1 (control_in card Hok name ei Hc))) as [i Hi]. by rewrite Hi.
Qed.
End Keeping.

(** Three of the controls of the card. *)
Definition in_44 (s : string) : list Z := let b := zs s in b ++ replicate (44 - length b) 0.
Definition modem_card : list snd_ctl_elem_info :=
  [{| numid := 7; ei_index := 0; ei_name := in_44 RXCTL_VOICE; ei_type := SNDRV_CTL_ELEM_TYPE_BOOLEAN; ei_count := 2; ei_items := [] |};
   {| numid := 12; ei_index := 0; ei_name := in_44 "Voice Rx Gain"; ei_type := SNDRV_CTL_ELEM_TYPE_INTEGER; ei_count := 3; ei_items := [] |};
   {| numid := 31; ei_index := 0; ei_name := in_44 AUX_PCM_MODE; ei_type := SNDRV_CTL_ELEM_TYPE_ENUMERATED; ei_count := 1;
      ei_items := [zs "slave"; zs "master"] |}].
Lemma modem_card_ids : NoDup (map numid modem_card).
Proof. apply (bool_decide_unpack _). by vm_compute. Qed.
Lemma modem_card_ok : Forall ei_ok modem_card.
Proof.
  repeat constructor; try (by vm_compute); try (cbn; lia).
  all: apply (bool_decide_unpack _); by vm_compute.
Qed.
#[export] Instance modem_driver : Driver (gmap Z (list Z)) := keeping modem_card.
#[export] Instance modem_driver_laws : DriverLaws (gmap Z (list Z)) modem_card := keeping_laws modem_card modem_card_ids.

(** Every name audio.c gives is plain. *)
Lemma audio_names_plain : Forall (fun name => plain name = true)
  [RXCTL_VOLTE; TXCTL_VOLTE; RXCTL_VOICE; TXCTL_VOICE; AFERX_VOLTE; AFETX_VOLTE; AFERX_VOICE; AFETX_VOICE;
   HIFI_RX_MULTIMEDIA_MIXER; HIFI_TX_MULTIMEDIA_MIXER; AUX_PCM_MODE; SEC_AUXPCM_MODE; AUX_PCM_SAMPLERATE; "Voice Rx Gain"%string].
Proof. repeat constructor; by vm_compute. Qed.
(** They have their values on this card. *)
Definition modem_env : audio_env :=
  {| a_codec := false; a_mixer := true;
     a_control := fun name => bool_decide (is_Some (control modem_card name ≫= fun ei => array_size (ei_type ei)));
     a_open := fun _ => true; a_params := fun _ => true; a_prepare := fun _ => true; a_start := fun _ => true;
     a_recording := 0; a_custom_tone := false |}.
Lemma modem_env_agrees name v d : a_control modem_env name = arrives modem_card name v d.
Proof. symmetry. exact (keeping_arrives modem_card name v d modem_card_ids modem_card_ok). Qed.
Theorem controls_refine_witness :
  exists d a, set_controls modem_card [(RXCTL_VOICE, 1); (RXCTL_VOLTE, 1); (AUX_PCM_MODE, 1)] ∅ = Ret d /\
    put_controls modem_env [(RXCTL_VOICE, 1); (RXCTL_VOLTE, 1); (AUX_PCM_MODE, 1)] (idle_audio 0) = Ret (tt, a, []) /\
    mixer a = true /\ represents modem_card d (controls a).
Proof.
  apply (controls_refine modem_card modem_card_ids modem_card_ok modem_env); [done| |exact modem_env_agrees|done].
  repeat constructor; by vm_compute.
Defined.
(** The switch of the voice path has two elements, the mode one, and a control the
    card does not have is passed over. *)
Example path_on_the_card :
  set_controls modem_card [(RXCTL_VOICE, 5); (RXCTL_VOLTE, 1); (AUX_PCM_MODE, 1)] ∅ = Ret {[7 := [1; 1]; 31 := [1]]}.
Proof. by vm_compute. Qed.
(** The gain of a VoLTE call: volume, session and ramp. *)
Example gain_on_the_card :
  set_gain_ctl modem_card (zs "Voice Rx Gain") 2 100 ∅ = Ret (0, {[12 := [100; VOLTE_SESSION_VSID; 0]]}).
Proof. by vm_compute. Qed.
(** A control by its number, from 1; there is none with number 0. One by its name and
    index, in a text that can be written and in a literal. *)
Example controls_by_number : map (fun s => get_ctl true (zs s) modem_card) ["3"; "4"; "0"]%string = [Ret (Some 2%nat); Ret None; Ret None].
Proof. by vm_compute. Qed.
Example controls_by_index :
  get_ctl false (zs "AUXPCM Mode#0") modem_card = Ret (Some 2%nat) /\
  get_ctl false (zs "AUXPCM Mode#1") modem_card = Ret None /\ get_ctl true (zs "AUXPCM Mode#0") modem_card = Oob /\
  get_ctl_index false (zs "AUXPCM Mode#1") = Ret 1.
Proof. by vm_compute. Qed.

(** The card with descriptor 9, allocations that all succeed but those at the given
    addresses, and a heap in which the next address is 1. *)
Definition card_at_9 (fails : Z -> bool) : mixer_env :=
  {| x_fd := 9; x_alloc := fun p => negb (fails p); x_list := true; x_ids := true; x_info := fun _ => true;
     x_item := fun _ _ => true |}.
Definition empty_heap : memory := {| next_block := 1; blocks := ∅; fds := {[0; 1; 2]} |}.
Theorem mixer_open_opens_witness :
  opens (card_at_9 (fun p => p =? 6)) empty_heap {[0; 1; 2]} modem_card
    (mixer_open (card_at_9 (fun p => p =? 6)) modem_card empty_heap).
Proof. apply (mixer_open_opens (card_at_9 (fun p => p =? 6)) modem_card empty_heap); [by intros p Hp%elem_of_empty|done|by vm_compute]. Defined.
(** The mixer of three controls, with the names of the items of the last; out of
    memory at the second of them; and at the array of the identifiers, when the
    standard input is closed and the card is left open. *)
Example opened_card : mixer_open (card_at_9 (fun _ => false)) modem_card empty_heap =
  Ret (Some {| mx_self := 1; mx_fd := 9; mx_ctl := Some 2; mx_info := Some 3; mx_enames := [None; None; Some (5, [6; 7])] |},
    {| next_block := 8; blocks := {[7; 6; 5; 3; 2; 1]}; fds := {[9; 0; 1; 2]} |}).
Proof. by vm_compute. Qed.
Example no_second_name : mixer_open (card_at_9 (fun p => p =? 7)) modem_card empty_heap =
  Ret (None, {| next_block := 8; blocks := ∅; fds := {[0; 1; 2]} |}).
Proof. by vm_compute. Qed.
Example no_identifiers : mixer_open (card_at_9 (fun p => p =? 4)) modem_card empty_heap =
  Ret (None, {| next_block := 5; blocks := ∅; fds := {[9; 1; 2]} |}).
Proof. by vm_compute. Qed.
