(* ===== verification/Storage.v ===== *)
(** The room left for files (src/space_mon.c) and what a recording of a call does
    about it (populate_filename and watch_storage of src/audio.c). *)

From stdpp Require Import base list numbers option strings.
From Stdlib Require Import ZArith Lia.
From S2P Require Import Prelude Libc Sms.

(** * Free space *)

(** [f_bsize] and [f_bavail] are 32 bits wide, and so is their product. *)
Record statfs := { f_bsize : Z; f_bavail : Z }.
Definition megabytes (s : statfs) : Z := u32 (f_bsize s * f_bavail s) / 1024 / 1024.
Definition get_available_space_tmpfs_mb (s : option statfs) : Z :=
  match s with None => - EINVAL | Some s => i32 (megabytes s) end.
Definition get_available_space_persist_mb (s : option statfs) : Z :=
  match s with None => - EINVAL | Some s => i32 (megabytes s) end.

(** * Cleaning up *)

Definition RAM_STORAGE_PATH_BASE : list Z := zs "/tmp".
Definition PERSISTENT_STORAGE_PATH_BASE : list Z := zs "/persist".

Definition has (s key : list Z) : bool := match strstr s key with Some _ => true | None => false end.
(** The names a clean-up never touches. *)
Definition kept_name (d_name : list Z) : bool :=
  bool_decide (d_name = zs "..") || bool_decide (d_name = zs ".") || bool_decide (d_name = zs "openqti.conf") ||
  bool_decide (d_name = zs "openqti.lock") || has d_name (zs ".bin") || has d_name (zs ".autostart") ||
  has d_name (zs ".apps") || has d_name (zs ".raw").
(** Whether one file is removed; the excluded name is only looked at when the
    clean-up is aggressive, and may be NULL. *)
Definition removes (aggressive : bool) (exclude_file : option (list Z)) (d_name : list Z) : cres bool :=
  if kept_name d_name then Ret false
  else if aggressive then
    match exclude_file with None => Oob | Some e => Ret (negb (has d_name e)) end
  else Ret (has d_name (zs "log") || has d_name (zs "csv")).
Fixpoint removed_files (path : list Z) (aggressive : bool) (exclude_file : option (list Z)) (names : list (list Z))
  : cres (list (list Z)) :=
  match names with
  | [] => Ret []
  | n :: names =>
      let* r := removes aggressive exclude_file n in
      let* l := removed_files path aggressive exclude_file names in
      Ret (if r : bool then take 511 (path ++ 47 :: n) :: l else l)
  end.
(** The result and the files removed from a directory, [None] when it does not
    open. *)
Definition cleanup_storage (storage_id : Z) (aggressive : bool) (exclude_file : option (list Z))
    (dir : list Z -> option (list (list Z))) : cres (Z * list (list Z)) :=
  let clean path :=
    match dir path with
    | None => Ret (0, [])
    | Some names => let* l := removed_files path aggressive exclude_file names in Ret (0, l)
    end in
  if storage_id =? 0 then clean RAM_STORAGE_PATH_BASE
  else if storage_id =? 1 then clean PERSISTENT_STORAGE_PATH_BASE
  else Ret (- EINVAL, []).

(** * Recordings *)

(** The name of a recording: [%d-%02d-%02d_%02d-%02d-%02d_%s.wav]. *)
Definition recording_name (manual : bool) (t : tm) (number : list Z) : list Z :=
  (if manual then zs "MANUAL-" else zs "AUTO-") ++ fmt_i (tm_year t + 1900) ++ 45 :: fmt_prec 2 (tm_mon t + 1) ++
  45 :: fmt_prec 2 (tm_mday t) ++ 95 :: fmt_prec 2 (tm_hour t) ++ 45 :: fmt_prec 2 (tm_min t) ++
  45 :: fmt_prec 2 (tm_sec t) ++ 95 :: number ++ zs ".wav".
Definition populate_filename (persistent manual : bool) (t : tm) (number : list Z) : list Z :=
  take 255 ((if persistent then zs "/persist/" else zs "/tmp/") ++ recording_name manual t number).

(** What a look at the space leads to: the end of the recording, the files that
    go, and whether only errors are logged from now on. *)
Definition watch_storage (persistent : bool) (persist tmpfs : option statfs) (filename : list Z)
    (dir : list Z -> option (list (list Z))) : cres (bool * list (list Z) * bool) :=
  let avail := u32 (if persistent then get_available_space_persist_mb persist else get_available_space_tmpfs_mb tmpfs) in
  let id := if persistent then 1 else 0 in
  if avail =? u32 (- EINVAL) then Ret (false, [], false)
  else if avail <? 2 then Ret (true, [], false)
  else if avail <? 3 then let* '(_, l) := cleanup_storage id true (Some filename) dir in Ret (false, l, false)
  else if avail <? 5 then let* '(_, l) := cleanup_storage id false (Some filename) dir in Ret (false, l, false)
  else Ret (false, [], avail <? 10).

(** * What is removed *)

Lemma has_contains s key : has s key = true <-> contains s key.
Proof. rewrite <- strstr_contains. unfold has. destruct (strstr s key); split; congruence. Qed.

(** Names that come from a directory. *)
Definition file_name (n : list Z) : Prop := (47 ∉ n) /\ zlen n <= 255.

(** The names a clean-up must leave: the two every directory has, the settings and
    the lock, the databases of cells, what applications are started, and the raw
    tables of the tasks and the cells. *)
Inductive spared : list Z -> Prop :=
| spared_dot : spared (zs ".")
| spared_dotdot : spared (zs "..")
| spared_settings : spared (zs "openqti.conf")
| spared_lock : spared (zs "openqti.lock")
| spared_mark mark a b : mark ∈ [zs ".bin"; zs ".autostart"; zs ".apps"; zs ".raw"] -> spared (a ++ mark ++ b).
(** Logs and tables. *)
Inductive record_file : list Z -> Prop :=
| record_log a b : record_file (a ++ zs "log" ++ b)
| record_csv a b : record_file (a ++ zs "csv" ++ b).
(** What a clean-up is to remove: the logs and tables; with hardly any space left
    every file whose name does not have the excluded text in it. *)
Definition goes (aggressive : bool) (exclude n : list Z) : Prop :=
  ~ spared n /\ if aggressive then ~ contains n exclude else record_file n.

Lemma kept_spared n : kept_name n = true <-> spared n.
Proof.
  unfold kept_name. rewrite !orb_true_iff, !bool_decide_eq_true, !has_contains. split.
  - intros [[[[[[[-> | ->] | ->] | ->]|(a & b & ->)]|(a & b & ->)]|(a & b & ->)]|(a & b & ->)];
      constructor; rewrite !elem_of_cons; tauto.
  - intros H. inversion H as [| | | |mark a b Hm]; try tauto.
    rewrite !elem_of_cons, elem_of_nil in Hm. unfold contains.
    destruct Hm as [-> |[-> |[-> |[-> |[]]]]]; eauto 10.
Qed.
Lemma record_contains n : record_file n <-> contains n (zs "log") \/ contains n (zs "csv").
Proof.
  split; [intros [a b|a b]; [left|right]; by exists a, b|]. intros [(a & b & ->)|(a & b & ->)]; constructor.
Qed.
Lemma removes_goes aggressive exclude n :
  exists b, removes aggressive (Some exclude) n = Ret b /\ (b = true <-> goes aggressive exclude n).
Proof.
  unfold removes, goes. pose proof (kept_spared n) as Hk.
  destruct (kept_name n); [exists false; split; [done|naive_solver]|].
  destruct aggressive; eexists; (split; [reflexivity|]).
  - rewrite negb_true_iff, <- not_true_iff_false, has_contains. naive_solver.
  - rewrite orb_true_iff, !has_contains, record_contains. naive_solver.
Qed.

Lemma removed_spec path aggressive exclude names :
  Forall file_name names -> zlen path <= 200 ->
  exists l, removed_files path aggressive (Some exclude) names = Ret l /\
    forall p, p ∈ l <-> exists n, n ∈ names /\ p = path ++ 47 :: n /\ goes aggressive exclude n.
Proof.
  intros Hn Hp. induction Hn as [|n names [_ Hlen] _ (l & IH & Hl)]; cbn [removed_files].
  { exists []. split; [done|]. intros p. rewrite elem_of_nil. split; [done|]. by intros (? & ?%not_elem_of_nil & _). }
  destruct (removes_goes aggressive exclude n) as (b & -> & Hb). cbn [cbind]. rewrite IH. cbn [cbind].
  eexists. split; [reflexivity|]. intros p.
  assert (Hfull : take 511 (path ++ 47 :: n) = path ++ 47 :: n).
  { apply take_ge. unfold zlen in *. rewrite length_app. cbn [length]. lia. }
  destruct b; rewrite ?elem_of_cons, Hl, ?Hfull; split.
  - intros [-> |(m & ? & ?)]; [exists n|exists m]; rewrite elem_of_cons; naive_solver.
  - intros (m & Hm & -> & Hg). apply elem_of_cons in Hm as [-> |Hm]; [by left|right; by exists m].
  - intros (m & ? & ?). exists m. rewrite elem_of_cons. naive_solver.
  - intros (m & Hm & -> & Hg). apply elem_of_cons in Hm as [-> |Hm]; [by apply Hb in Hg|by exists m].
Qed.

Lemma app_slash_inj path n m : path ++ 47 :: n = path ++ 47 :: m -> n = m.
Proof. intros H. apply app_inv_head in H. by injection H. Qed.

(** The files the daemon needs again: the settings, the lock, the tasks, the
    cells, the databases of cells. *)
Definition state_file (n : list Z) : Prop :=
  n = zs "openqti.conf" \/ n = zs "openqti.lock" \/ n = zs "sched.raw" \/ n = zs "cellid_data.raw" \/
  exists mcc mnc, n = mcc ++ 45 :: mnc ++ zs ".bin".
Lemma state_spared n : state_file n -> spared n.
Proof.
  intros [-> |[-> |[-> |[-> |(mcc & mnc & ->)]]]]; try constructor.
  - change (zs "sched.raw") with (zs "sched" ++ zs ".raw" ++ []). constructor. rewrite !elem_of_cons. tauto.
  - change (zs "cellid_data.raw") with (zs "cellid_data" ++ zs ".raw" ++ []). constructor. rewrite !elem_of_cons. tauto.
  - replace (mcc ++ 45 :: mnc ++ zs ".bin") with ((mcc ++ 45 :: mnc) ++ zs ".bin" ++ []) by (by rewrite <- app_assoc, app_nil_r).
    constructor. rewrite !elem_of_cons. tauto.
Qed.
Lemma path_not_contained n exclude : 47 ∉ n -> 47 ∈ exclude -> ~ contains n exclude.
Proof. intros Hn He (a & b & ->). apply Hn. rewrite !elem_of_app. tauto. Qed.

(** C26: a clean-up of either storage removes exactly what it is to remove, by the
    path it has: never the entries every directory has nor a file the daemon keeps
    its state in; otherwise the logs and the tables, or, of an aggressive one, all
    files but those that have the excluded text in their names. The exclusion works
    for a bare name only: the recording gives its own file with its whole path, which
    is part of no name, so an aggressive clean-up that is to spare it removes it too. *)
Theorem cleanup_correct id aggressive exclude dir names
  (Hid : id = 0 \/ id = 1)
  (Hdir : dir (if id =? 0 then RAM_STORAGE_PATH_BASE else PERSISTENT_STORAGE_PATH_BASE) = Some names)
  (Hnames : Forall file_name names) :
  let path := if id =? 0 then RAM_STORAGE_PATH_BASE else PERSISTENT_STORAGE_PATH_BASE in
  exists removed, cleanup_storage id aggressive (Some exclude) dir = Ret (0, removed) /\
    (forall p, p ∈ removed <-> exists n, n ∈ names /\ p = path ++ 47 :: n /\ goes aggressive exclude n) /\
    (forall n, n = zs "." \/ n = zs ".." \/ state_file n -> (path ++ 47 :: n) ∉ removed) /\
    (aggressive = true -> 47 ∈ exclude -> forall n, n ∈ names -> ~ spared n -> path ++ 47 :: n ∈ removed).
Proof.
  cbv zeta. set (path := if id =? 0 then RAM_STORAGE_PATH_BASE else PERSISTENT_STORAGE_PATH_BASE) in *.
  destruct (removed_spec path aggressive exclude names Hnames) as (l & Hrun & Hl).
  { unfold path. by destruct (id =? 0); vm_compute. }
  exists l. split; [|split; [exact Hl|split]].
  - unfold cleanup_storage. fold path. destruct Hid as [-> | ->]; cbn [Z.eqb Pos.eqb] in *; fold path;
      by rewrite Hdir, Hrun.
  - intros n Hs (m & _ & <-%app_slash_inj & Hk & _)%Hl. apply Hk.
    destruct Hs as [-> |[-> |Hs]]; [constructor..|by apply state_spared].
  - intros -> He n Hn Hk. apply Hl. exists n. split; [done|]. split; [done|]. split; [done|].
    rewrite list.Forall_forall in Hnames. apply path_not_contained; [by apply Hnames|done].
Qed.
Theorem cleanup_correct_witness :
  let names := [zs "openqti.conf"; zs "AUTO-x.wav"; zs "openqti.log"] in
  Forall file_name names /\
  exists removed, cleanup_storage 1 true (Some (zs "/persist/AUTO-x.wav")) (fun _ => Some names) = Ret (0, removed) /\
    (forall p, p ∈ removed <-> exists n, n ∈ names /\ p = PERSISTENT_STORAGE_PATH_BASE ++ 47 :: n /\ goes true (zs "/persist/AUTO-x.wav") n) /\
    (forall n, n = zs "." \/ n = zs ".." \/ state_file n -> (PERSISTENT_STORAGE_PATH_BASE ++ 47 :: n) ∉ removed) /\
    (true = true -> 47 ∈ zs "/persist/AUTO-x.wav" -> forall n, n ∈ names -> ~ spared n -> PERSISTENT_STORAGE_PATH_BASE ++ 47 :: n ∈ removed).
Proof.
  cbv zeta.
  assert (H : Forall file_name [zs "openqti.conf"; zs "AUTO-x.wav"; zs "openqti.log"]).
  { apply (bool_decide_unpack _). vm_compute. exact I. }
  split; [exact H|]. apply (cleanup_correct 1 true (zs "/persist/AUTO-x.wav") (fun _ => Some _) _ (or_intror eq_refl) eq_refl H).
Defined.

(** * A recording and its own file *)

(** The characters of a number a call can have. *)
Definition number_text (s : list Z) : Prop := Forall (fun c => 48 <= c <= 57 \/ c = 43) s.
Definition name_char (c : Z) : Prop := 45 <= c <= 57 \/ c = 43 \/ 65 <= c <= 90 \/ c = 95.

Lemma contains_dot_unique head k rest :
  Forall (fun c => c <> 46) head -> k <> 119 -> ~ contains (head ++ zs ".wav") (46 :: k :: rest).
Proof.
  intros Hh Hk (a & b & H). revert head Hh H. induction a as [|x a IH]; intros [|y head] Hh H; cbn in H.
  - by injection H as <-.
  - injection H as -> _. by inversion Hh.
  - injection H as <- H.
    assert (Hin : 46 ∈ a ++ 46 :: k :: rest ++ b) by (apply elem_of_app; right; by left).
    replace (a ++ 46 :: k :: rest ++ b) with [119; 97; 118] in Hin by exact H.
    rewrite !elem_of_cons, elem_of_nil in Hin. naive_solver.
  - injection H as <- H. inversion Hh. by apply (IH head).
Qed.
Lemma fmt_prec_text n x : Forall (fun c => c = 45 \/ 48 <= c <= 57) (fmt_prec n x).
Proof.
  unfold fmt_prec. rewrite !Forall_app. split; [csplit; repeat constructor|].
  split; [apply Forall_replicate; lia|].
  eapply Forall_impl; [apply fmt_u_digits; lia|]. intros c Hc. unfold isdigit in Hc. b2p. lia.
Qed.

(** The name of a recording before its ending. *)
Definition recording_stem (manual : bool) (t : tm) (number : list Z) : list Z :=
  (if manual then zs "MANUAL-" else zs "AUTO-") ++ fmt_i (tm_year t + 1900) ++ 45 :: fmt_prec 2 (tm_mon t + 1) ++
  45 :: fmt_prec 2 (tm_mday t) ++ 95 :: fmt_prec 2 (tm_hour t) ++ 45 :: fmt_prec 2 (tm_min t) ++
  45 :: fmt_prec 2 (tm_sec t) ++ 95 :: number.
Lemma recording_split manual t number : recording_name manual t number = recording_stem manual t number ++ zs ".wav".
Proof. unfold recording_name, recording_stem. rewrite <- !app_assoc. cbn [app]. by repeat (rewrite <- !app_assoc; cbn [app]). Qed.
Lemma recording_stem_text manual t number :
  0 <= tm_year t -> number_text number -> Forall (fun c => c <> 46 /\ c <> 47) (recording_stem manual t number).
Proof.
  intros Hy Hn. assert (Hp : forall n x, Forall (fun c => c <> 46 /\ c <> 47) (fmt_prec n x)).
  { intros n x. eapply Forall_impl; [apply fmt_prec_text|]. cbn. lia. }
  assert (Hi : Forall (fun c => c <> 46 /\ c <> 47) (fmt_i (tm_year t + 1900))).
  { unfold fmt_i. ifdec. eapply Forall_impl; [apply fmt_u_digits; lia|]. intros c Hc. unfold isdigit in Hc. b2p. lia. }
  assert (Hm : Forall (fun c => c <> 46 /\ c <> 47) number) by (eapply Forall_impl; [exact Hn|]; cbn; lia).
  assert (Hz : Forall (fun c => c <> 46 /\ c <> 47) (if manual then zs "MANUAL-" else zs "AUTO-"))
    by (destruct manual; repeat constructor; discriminate).
  unfold recording_stem. repeat first [exact Hz | apply Hp | apply Forall_app; split | apply Forall_cons; split |
    apply Hp | exact Hi | exact Hm | (cbn; lia)].
Qed.
Lemma recording_goes manual t number path :
  0 <= tm_year t -> number_text number -> 47 ∈ path ->
  goes true (path ++ recording_name manual t number) (recording_name manual t number).
Proof.
  intros Hy Hn Hpath. pose proof (recording_stem_text manual t number Hy Hn) as Ht.
  rewrite recording_split. set (stem := recording_stem manual t number) in *.
  assert (Hdot : Forall (fun c => c <> 46) stem) by (eapply Forall_impl; [exact Ht|]; cbn; tauto).
  assert (Hno : forall k rest, k <> 119 -> has (stem ++ zs ".wav") (46 :: k :: rest) = false).
  { intros k rest Hk. apply not_true_iff_false. rewrite has_contains. by apply contains_dot_unique. }
  split.
  - rewrite <- kept_spared, not_true_iff_false. unfold kept_name.
    assert (Hb : has (stem ++ zs ".wav") (zs ".bin") = false) by by apply (Hno 98 (zs "in")).
    assert (Hs : has (stem ++ zs ".wav") (zs ".autostart") = false) by by apply (Hno 97 (zs "utostart")).
    assert (Ha : has (stem ++ zs ".wav") (zs ".apps") = false) by by apply (Hno 97 (zs "pps")).
    assert (Hr : has (stem ++ zs ".wav") (zs ".raw") = false) by by apply (Hno 114 (zs "aw")).
    rewrite Hb, Hs, Ha, Hr, !orb_false_r.
    assert (Hw : forall s : list Z, last s <> Some 118 -> bool_decide (stem ++ zs ".wav" = s) = false).
    { intros s Hl. apply bool_decide_eq_false_2. intros <-. apply Hl. change (zs ".wav") with ([46; 119; 97] ++ [118]).
      by rewrite app_assoc, last_snoc. }
    by rewrite !Hw by done.
  - intros (a & b & H). assert (47 ∈ stem ++ zs ".wav") as Hin.
    { rewrite H, !elem_of_app. right. left. by left. }
    apply elem_of_app in Hin as [Hin|Hin].
    + pose proof (proj1 (list.Forall_forall _ _) Ht _ Hin). cbn in *. lia.
    + replace (zs ".wav") with [46; 119; 97; 118] in Hin by reflexivity.
      rewrite !elem_of_cons, elem_of_nil in Hin. naive_solver.
Qed.

(** With two megabytes left, the clean-up that is to spare the recording
    deletes it: the whole path it is given is in no name of a directory. *)
Theorem own_recording_removed manual t number persistent space dir names
  (Hyear : 0 <= tm_year t) (Hnumber : number_text number)
  (Hdir : dir (if persistent : bool then PERSISTENT_STORAGE_PATH_BASE else RAM_STORAGE_PATH_BASE) = Some names)
  (Hnames : Forall file_name names) (Hmine : recording_name manual t number ∈ names)
  (Hspace : megabytes space = 2)
  (Hlen : zlen (recording_name manual t number) <= 200) :
  exists removed, watch_storage persistent (Some space) (Some space) (populate_filename persistent manual t number) dir =
      Ret (false, removed, false) /\
    populate_filename persistent manual t number ∈ removed.
Proof.
  set (path := if persistent then PERSISTENT_STORAGE_PATH_BASE else RAM_STORAGE_PATH_BASE) in *.
  assert (Hfile : populate_filename persistent manual t number = (path ++ [47]) ++ recording_name manual t number).
  { unfold populate_filename, path. rewrite take_ge; [by destruct persistent|].
    unfold zlen in Hlen. rewrite length_app. destruct persistent; cbn; lia. }
  destruct (removed_spec path true (populate_filename persistent manual t number) names Hnames) as (l & Hrun & Hl).
  { unfold path. by destruct persistent; vm_compute. }
  revert Hfile Hrun Hl. generalize (populate_filename persistent manual t number) as file. intros file Hfile Hrun Hl.
  exists l. split.
  - unfold watch_storage, get_available_space_persist_mb, get_available_space_tmpfs_mb, cleanup_storage.
    rewrite Hspace. unfold path in *. destruct persistent; change (u32 (i32 2) =? u32 (- EINVAL)) with false;
      change (u32 (i32 2) <? 2) with false; change (u32 (i32 2) <? 3) with true; cbn [Z.eqb Pos.eqb];
      by rewrite Hdir, Hrun.
  - apply Hl. exists (recording_name manual t number). split; [done|]. rewrite Hfile. split; [by rewrite <- app_assoc|].
    apply recording_goes; try done. apply elem_of_app. right. by left.
Qed.
Definition sample_tm : tm := {| tm_year := 123; tm_mon := 3; tm_mday := 5; tm_hour := 9; tm_min := 7; tm_sec := 1 |}.
Theorem own_recording_removed_witness :
  let name := recording_name false sample_tm (zs "+34600111222") in
  let file := populate_filename true false sample_tm (zs "+34600111222") in
  exists removed, watch_storage true (Some {| f_bsize := 4096; f_bavail := 600 |}) (Some {| f_bsize := 4096; f_bavail := 600 |})
      file (fun _ => Some [name]) = Ret (false, removed, false) /\ file ∈ removed.
Proof.
  cbv zeta. apply (own_recording_removed false sample_tm (zs "+34600111222") true _ _ [recording_name false sample_tm (zs "+34600111222")]).
  - vm_compute. congruence.
  - unfold number_text. apply (bool_decide_unpack _). vm_compute. exact I.
  - reflexivity.
  - apply Forall_cons. split; [|apply Forall_nil; exact I]. apply (bool_decide_unpack _). vm_compute. exact I.
  - by left.
  - reflexivity.
  - vm_compute. congruence.
Defined.
