(* ===== verification/Replies.v ===== *)
(** Texts the daemon tells the user: the effect of add_message_to_queue
    (src/helpers.c, Call.v) on the store and on the texts of a call, for the
    components that answer or warn. A text of up to 160 bytes is queued or
    spoken; a longer length than the reply has is read past its end. *)

From stdpp Require Import base list numbers option.
From Stdlib Require Import ZArith Lia.
From S2P Require Import Prelude Libc Eff Sms Call.

(** * The store *)

(** The message the next text becomes. *)
Definition text_message (s : list Z) (pos : Z) (m : message) : message :=
  set_is_cb 0 (set_is_raw 0 (set_tp_dcs 0 (set_message_id (u32 pos)
    (set_pkt (s ++ drop (length s) (m_pkt m)) m)))).
(** The store with a text added; a full one stays as it is. *)
Definition enqueue (s : list Z) (r : sms_runtime) : sms_runtime :=
  let pos := queue_pos r + 1 in
  if QUEUE_SIZE - 2 <? queue_pos r then r
  else match rdA (msg r) pos with
       | Ret m => upd_msgs (<[Z.to_nat pos := text_message s pos m]> (msg r))
                    (upd_pos pos (upd_source (u8 MSG_INTERNAL) (upd_notif true r)))
       | _ => r
       end.

Lemma store_slot r : runtime_ok r -> queue_pos r <= QUEUE_SIZE - 2 ->
  exists m, rdA (msg r) (queue_pos r + 1) = Ret m /\ zlen (m_pkt m) = 160.
Proof.
  intros (Hp & Hl & Hall & _) Hq. unfold QUEUE_SIZE in *.
  assert (Hlt : (Z.to_nat (queue_pos r + 1) < length (msg r))%nat) by (unfold zlen in Hl; lia).
  destruct (lookup_lt_is_Some_2 _ _ Hlt) as [m Hm]. exists m. split.
  - apply rdA_lookup. split; [lia|done].
  - exact (proj1 (Forall_lookup_1 _ _ _ _ Hall Hm)).
Qed.

Lemma add_sms_enqueue b n r :
  runtime_ok r -> 0 < n <= 160 -> n <= zlen b ->
  add_sms_to_queue b n r = Ret (tt, enqueue (take (Z.to_nat n) b) r, []).
Proof.
  intros Hok Hn Hb. unfold add_sms_to_queue, enqueue. rewrite bind_get. csplit; [done|].
  destruct (store_slot r Hok) as (m & Hm & Hpk); [lia|]. rewrite Hm. ifdec.
  unfold set_notif_pending, set_pending_notification_source, copy_text. autorewrite with eff.
  set (s := take (Z.to_nat n) b). assert (Hs : length s = Z.to_nat n)
    by (unfold s; rewrite length_take; unfold zlen in Hb; lia).
  rewrite (bind_lift _ s) by (apply rdn_head; unfold zlen in Hb; lia).
  autorewrite with eff. erewrite bind_get_msg by msg_at Hm. autorewrite with eff.
  pose proof (wrn_ok (m_pkt m) 0 s) as Hw. rewrite (bind_lift _ _ _ _ (Hw ltac:(lia) ltac:(unfold zlen in *; lia))).
  change (take (Z.to_nat 0) (m_pkt m) ++ s ++ drop (Z.to_nat 0 + length s) (m_pkt m))
    with (s ++ drop (length s) (m_pkt m)).
  repeat erewrite bind_on_msg by msg_at Hm. erewrite on_msg_run by msg_at Hm.
  cbn [msg upd_msgs upd_pos upd_source upd_notif]. by rewrite !list_insert_insert_eq.
Qed.
(** One byte more than a message holds, and there is room: the copy leaves it. *)
Lemma add_sms_faults b n r :
  zlen b = 160 -> 160 < n -> queue_pos r <= QUEUE_SIZE - 2 -> add_sms_to_queue b n r = Oob.
Proof.
  intros Hb Hn Hq. unfold add_sms_to_queue. rewrite bind_get, (proj2 (Z.ltb_ge _ _) Hq),
    (proj2 (Z.ltb_lt 0 n)) by lia.
  unfold set_notif_pending, set_pending_notification_source. autorewrite with eff.
  unfold copy_text, bind at 1, bind at 1, lift. by rewrite (rdn_out b 0 (Z.to_nat n)) by lia.
Qed.

Lemma enqueue_ok s r : runtime_ok r -> 0 < zlen s <= 160 -> runtime_ok (enqueue s r).
Proof.
  intros Hok Hs. pose proof (add_sms_enqueue s (zlen s) r Hok ltac:(lia) ltac:(lia)) as H.
  apply keeps_add_sms in H; [|done]. by rewrite take_ge in H by (unfold zlen; lia).
Qed.

(** * Formatting *)

Lemma snprintf_160 buf text :
  zlen buf = 160 -> exists b, snprintf buf 160 text = Ret (b, zlen text) /\ zlen b = 160 /\
    (zlen text < 160 -> take (length text) b = text).
Proof.
  intros Hb. unfold snprintf. change (160 <=? 0) with false. cbn match.
  change (Z.to_nat (160 - 1)) with 159%nat.
  assert (Hl : zlen (take 159 text ++ [0]) <= 160) by (zl; unfold zlen; rewrite length_take; lia).
  rewrite wrn_ok by lia. cbn [cbind]. eexists. split; [reflexivity|].
  change (take (Z.to_nat 0) buf) with (@nil Z). cbn [app]. split.
  - unfold zlen in *. rewrite ?length_app, ?length_drop, ?length_take in *. cbn [length] in *.
    rewrite ?length_app, ?length_take in *. cbn [length] in *. lia.
  - intros Ht. rewrite (take_ge text 159) by (unfold zlen in Ht; lia). rewrite <- app_assoc.
    by rewrite take_app_length.
Qed.

(** * The phone *)

(** The store of texts is well formed and the texts of a call have their size. *)
Definition phone_ok (p : phone) : Prop := runtime_ok (texts p) /\ voice_ok (calls p).
Lemma idle_phone_ok : phone_ok idle_phone.
Proof. split; [exact initial_runtime_ok|]. unfold voice_ok. repeat constructor. Qed.

(** The texts of a call after one more: in the first free place, if there is one. *)
Definition spoken (s : list Z) (l l' : list voice_message) : Prop :=
  l' = l /\ Forall (fun m => v_state m <> 0) l' \/
  exists pre m post, l = pre ++ m :: post /\ l' = pre ++ spoken_text s :: post /\
    v_state m = 0 /\ Forall (fun m => v_state m <> 0) pre.
(** The phone after a text: spoken in a simulated call if there is a free place,
    queued for the host otherwise. *)
Definition heard (s : list Z) (p p' : phone) : Prop :=
  if call_simulation_mode (calls p) then
    texts p' = texts p /\ exists l, spoken s (voice_msg (calls p)) l /\ calls p' = set_voice_msg l (calls p)
  else p' = {| calls := calls p; texts := enqueue s (texts p) |}.
(** Texts told to the phone one after the other. *)
Inductive told_all : list (list Z) -> phone -> phone -> Prop :=
| told_none p : told_all [] p p
| told_one s l p p' p'' : heard s p p' -> phone_ok p' -> told_all l p' p'' -> told_all (s :: l) p p''.
Lemma told_app l l' p p' p'' : told_all l p p' -> told_all l' p' p'' -> told_all (l ++ l') p p''.
Proof. induction 1; [done|]. intros. econstructor; eauto. Qed.

Lemma add_message_run s rest p :
  phone_ok p -> 0 < zlen s <= 160 ->
  exists p', add_message_to_queue (s ++ rest) (zlen s) p = Ret (tt, p', []) /\
    phone_ok p' /\ heard s p p'.
Proof.
  intros [Hr Hv] Hs. unfold add_message_to_queue, heard. ifdec. unfold get_call_simulation_mode.
  autorewrite with eff. destruct (call_simulation_mode (calls p)).
  - destruct (add_voice_run s rest p Hv Hs) as (l & -> & Hl & Hsp). eexists. split; [done|].
    split; [by split|]. split; [done|]. exists l. split; [exact Hsp|done].
  - eexists. unfold zoom. cbn [part texts_part].
    rewrite (add_sms_enqueue (s ++ rest) (zlen s)) by (done || (zl; pose proof (zlen_nonneg rest); lia)).
    replace (Z.to_nat (zlen s)) with (length s) by (unfold zlen; lia). rewrite take_app_length.
    split; [done|]. split; [|done]. split; [by apply enqueue_ok|done].
Qed.

(** [strsz = snprintf(reply, 160, ...); add_message_to_queue(reply, strsz)] *)
Lemma tell_run reply text p :
  phone_ok p -> zlen reply = 160 -> 0 < zlen text <= 160 ->
  exists b p', snprintf reply 160 text = Ret (b, zlen text) /\ zlen b = 160 /\
    add_message_to_queue b (zlen text) p = Ret (tt, p', []) /\ phone_ok p'.
Proof.
  intros Hp Hr Ht. destruct (snprintf_160 reply text Hr) as (b & Hs & Hb & _).
  destruct (add_message_run (take (length text) b) (drop (length text) b) p Hp) as (p' & Hrun & Hp' & _).
  { unfold zlen in *. rewrite length_take. lia. }
  exists b, p'. split_and!; try done. rewrite take_drop in Hrun.
  assert (zlen (take (length text) b) = zlen text) as <- by (unfold zlen in *; rewrite length_take; lia).
  done.
Qed.

(** A text that fits is told as it is. *)
Lemma tell_told reply text p :
  phone_ok p -> zlen reply = 160 -> 0 < zlen text < 160 ->
  exists b p', snprintf reply 160 text = Ret (b, zlen text) /\
    add_message_to_queue b (zlen text) p = Ret (tt, p', []) /\ phone_ok p' /\ told_all [text] p p'.
Proof.
  intros Hp Hr Ht. destruct (snprintf_160 reply text Hr) as (b & Hb & Hlb & Htake). specialize (Htake ltac:(lia)).
  destruct (add_message_run text (drop (length text) b) p Hp) as (p' & Hrun & Hp' & Hh); [lia|].
  rewrite <- Htake in Hrun at 1. rewrite take_drop in Hrun. exists b, p'. split_and!; try done.
  econstructor; [exact Hh|done|constructor].
Qed.

(** A text whose length is more than its buffer's cannot be sent. *)
Lemma long_reply_oob b n p :
  zlen b < n -> call_simulation_mode (calls p) = false -> queue_pos (texts p) <= QUEUE_SIZE - 2 ->
  add_message_to_queue b n p = Oob.
Proof.
  intros Hn Hm Hq. pose proof (zlen_nonneg b).
  unfold add_message_to_queue. ifdec. unfold get_call_simulation_mode. autorewrite with eff. rewrite Hm.
  apply zoom_fault. unfold part, texts_part, add_sms_to_queue. rewrite bind_get. ifdec.
  unfold set_notif_pending, set_pending_notification_source. autorewrite with eff.
  unfold copy_text. unfold bind, lift. rewrite rdn_out by lia. done.
Qed.
