(* ===== verification/Thermal.v ===== *)
(** The temperature watch (src/thermal.c): the readings of the sensors, and what
    the user is told and the modem does when they rise. *)

From stdpp Require Import base list numbers option strings.
From Stdlib Require Import ZArith Lia.
From S2P Require Import Prelude Libc Eff Sms Call Replies.

(** * State *)

Definition NO_OF_SENSORS : nat := 6.
Definition THERMAL_TEMP_CRITICAL : Z := 90.
Definition THERMAL_TEMP_WARNING : Z := 87.
Definition THERMAL_TEMP_INFO : Z := 81.

(** The variables of the thread, and the phone it tells. *)
Record watch := {
  notified_emergency : bool;
  notified_warning : bool;
  round : Z;                       (* uint32_t *)
  last_notify_round : Z;           (* uint32_t *)
  sensors : list Z;                (* int[7] *)
  th_reply : list Z;               (* MAX_MESSAGE_SIZE bytes *)
  th_phone : phone
}.
#[export, refine] Instance watch_phone : Part phone watch :=
  {| part := th_phone;
     with_part p w := {| notified_emergency := notified_emergency w; notified_warning := notified_warning w;
       round := round w; last_notify_round := last_notify_round w; sensors := sensors w; th_reply := th_reply w;
       th_phone := p |} |}.
Proof. all: abstract by intros; repeat match goal with w : watch |- _ => destruct w end. Defined.
Definition set_notified (emergency warning : bool) (w : watch) : watch :=
  {| notified_emergency := emergency; notified_warning := warning; round := round w;
     last_notify_round := last_notify_round w; sensors := sensors w; th_reply := th_reply w; th_phone := th_phone w |}.
Definition set_rounds (r last : Z) (w : watch) : watch :=
  {| notified_emergency := notified_emergency w; notified_warning := notified_warning w; round := r;
     last_notify_round := last; sensors := sensors w; th_reply := th_reply w; th_phone := th_phone w |}.
Definition set_sensors (l : list Z) (w : watch) : watch :=
  {| notified_emergency := notified_emergency w; notified_warning := notified_warning w; round := round w;
     last_notify_round := last_notify_round w; sensors := l; th_reply := th_reply w; th_phone := th_phone w |}.
Definition set_th_reply (b : list Z) (w : watch) : watch :=
  {| notified_emergency := notified_emergency w; notified_warning := notified_warning w; round := round w;
     last_notify_round := last_notify_round w; sensors := sensors w; th_reply := b; th_phone := th_phone w |}.

Inductive watch_action :=
| Told (a : phone_action)
| Rest (seconds : Z)
| PowerOff.                        (* reboot(2) with LINUX_REBOOT_CMD_POWER_OFF *)
Definition MH (A : Type) : Type := M watch watch_action A.

(** * The readings *)

(** What a sensor gives: [None] when its file does not open, otherwise the bytes
    read(2) returns, six at most; [stack] is what lies in and behind the array. *)
Definition get_temperature (stack : list Z) (file : option (list Z)) : cres Z :=
  match file with
  | None => Ret (- EINVAL)
  | Some [] => Ret 0
  | Some bytes => strtol (take 6 bytes ++ drop (length (take 6 bytes)) stack)
  end.
Fixpoint readings (stack : list Z) (files : list (option (list Z))) : cres (list Z) :=
  match files with
  | [] => Ret []
  | f :: files => let* t := get_temperature stack f in let* l := readings stack files in Ret (t :: l)
  end.

(** * The notices *)

(** [msglen = snprintf(reply, ...)], the notice and the round it was told in. *)
Definition notify (text : list Z) : MH unit :=
  do* w := get in
  do* '(b, msglen) := lift (snprintf (th_reply w) 160 text) in
  modify (set_th_reply b) ;>
  zoom Told (add_message_to_queue b (u32 msglen)) ;>
  modify (fun w => set_rounds (round w) (round w) w).
Definition shutdown_text (t : Z) : list Z :=
  zs "I'm at " ++ fmt_i t ++ zs "C, I will shutdown now to help the phone cool down. Restart eg25-manager to power me up again" ++ [10].
Definition warning_text (i t : Z) : list Z :=
  zs "I'm starting to overheat!" ++ 10 :: zs "If temperature keeps raising I will shut down soon (Sensor " ++ fmt_i i ++
  zs " reports " ++ fmt_i t ++ zs "C)" ++ [10].
Definition hot_text (i t : Z) : list Z :=
  zs "It's getting hot in here... (Sensor " ++ fmt_i i ++ zs " reports " ++ fmt_i t ++ zs "C)" ++ [10].
Definition rising_text (i t prev : Z) : list Z :=
  zs "Temperature is rapidly increasing" ++ 10 :: zs "Sensor " ++ fmt_i i ++ zs ":" ++ 10 ::
  zs "  Current temperature: " ++ fmt_i t ++ zs "C" ++ 10 :: zs "  Previous temperature: " ++ fmt_i prev ++ zs "C" ++ [10].

(** One sensor: below the critical temperature, and on the whole. *)
Definition check_warm (i prev t : Z) : MH unit :=
  do* w := get in
  if (THERMAL_TEMP_WARNING <? t) && negb (notified_emergency w) then
    notify (warning_text i t) ;> modify (fun w => set_notified true (notified_warning w) w)
  else if (THERMAL_TEMP_INFO <? t) && negb (notified_warning w) then
    notify (hot_text i t) ;> modify (fun w => set_notified (notified_emergency w) true w)
  else when (10 <? i32 (t - prev)) (notify (rising_text i t prev)).
Definition check_sensor (i prev t : Z) : MH unit :=
  when (negb (prev =? 0) && negb (t =? 0))
    (when (THERMAL_TEMP_CRITICAL <? t)
       (notify (shutdown_text t) ;>
        modify (fun w => set_notified true (notified_warning w) w) ;>
        emit (Rest 30) ;> emit PowerOff) ;>
     check_warm i prev t).
Fixpoint check_sensors (i : Z) (prev now : list Z) : MH unit :=
  match prev, now with
  | p :: prev, t :: now => check_sensor i p t ;> check_sensors (i + 1) prev now
  | _, _ => ret tt
  end.

(** One pass of the loop. *)
Definition thermal_turn (stack : list Z) (files : list (option (list Z))) : MH unit :=
  do* w := get in
  do* now := lift (readings stack (take NO_OF_SENSORS files)) in
  modify (set_sensors (now ++ drop (length now) (sensors w))) ;>
  check_sensors 0 (take NO_OF_SENSORS (sensors w)) now ;>
  emit (Rest 5) ;>
  modify (fun w => set_rounds (u32 (round w + 1)) (last_notify_round w) w) ;>
  modify (fun w => if 60 <? u32 (round w - last_notify_round w)
                   then set_rounds 0 0 (set_notified false false w) else w).

(** * The alerts, without the memory *)

Inductive alert :=
| Shutdown (t : Z)
| Overheating (i t : Z)
| Hot (i t : Z)
| Rising (i t prev : Z).
Definition text_of (a : alert) : list Z :=
  match a with
  | Shutdown t => shutdown_text t
  | Overheating i t => warning_text i t
  | Hot i t => hot_text i t
  | Rising i t prev => rising_text i t prev
  end.
(** The alerts of one sensor, and whether the warnings were given after it. *)
Definition warm_alerts (i prev t : Z) (given : bool * bool) : list alert * (bool * bool) :=
  let '(emergency, warning) := given in
  if (THERMAL_TEMP_WARNING <? t) && negb emergency then ([Overheating i t], (true, warning))
  else if (THERMAL_TEMP_INFO <? t) && negb warning then ([Hot i t], (emergency, true))
  else (if 10 <? i32 (t - prev) then [Rising i t prev] else [], given).
Definition sensor_alerts (i prev t : Z) (given : bool * bool) : list alert * (bool * bool) :=
  if (prev =? 0) || (t =? 0) then ([], given)
  else if THERMAL_TEMP_CRITICAL <? t then
    let r := warm_alerts i prev t (true, given.2) in ([Shutdown t] ++ r.1, r.2)
  else warm_alerts i prev t given.
Fixpoint all_alerts (i : Z) (prev now : list Z) (given : bool * bool) : list alert * (bool * bool) :=
  match prev, now with
  | p :: prev, t :: now =>
      let '(l, given) := sensor_alerts i p t given in
      let '(l', given) := all_alerts (i + 1) prev now given in
      (l ++ l', given)
  | _, _ => ([], given)
  end.

(** * Soundness *)

Definition int32 (x : Z) : Prop := -2147483648 <= x < 2147483648.
Definition watch_ok (w : watch) : Prop :=
  phone_ok (th_phone w) /\ length (sensors w) = 7%nat /\ zlen (th_reply w) = 160.

Lemma dec_go_short fuel k x : 0 <= x < 10 ^ Z.of_nat k -> (1 <= k)%nat -> (length (dec_go fuel x) <= k)%nat.
Proof.
  revert k x. induction fuel as [|fuel IH]; intros k x Hx Hk; cbn [dec_go length]; [lia|]. csplit; [cbn; lia|].
  destruct k as [|[|k]]; [lia|change (10 ^ Z.of_nat 1) with 10 in Hx; lia|].
  rewrite length_app. cbn [length]. rewrite (Nat2Z.inj_succ (S k)), Z.pow_succ_r in Hx by lia.
  assert (0 <= x / 10 < 10 ^ Z.of_nat (S k)) by (split; [dlia|apply Z.div_lt_upper_bound; lia]).
  specialize (IH (S k) (x / 10)). lia.
Qed.
Lemma fmt_i_11 x : int32 x -> zlen (fmt_i x) <= 11.
Proof.
  intros Hx. unfold int32 in Hx. unfold fmt_i, fmt_u, zlen. change (10 ^ Z.of_nat 10) with 10000000000.
  pose proof (dec_go_short 20 10 (- x)) as H1. pose proof (dec_go_short 20 10 x) as H2.
  change (10 ^ Z.of_nat 10) with 10000000000 in *. csplit; cbn [length]; lia.
Qed.
(** Every text fits the reply. *)
Definition alert_ok (a : alert) : Prop :=
  match a with
  | Shutdown t => int32 t
  | Overheating i t | Hot i t => 0 <= i < 10 /\ int32 t
  | Rising i t prev => (0 <= i < 10 /\ int32 t) /\ int32 prev
  end.
Lemma text_fits a : alert_ok a -> 0 < zlen (text_of a) < 160.
Proof.
  assert (Hi : forall i, 0 <= i < 10 -> zlen (fmt_i i) = 1).
  { intros i Hi. unfold fmt_i, fmt_u. cbn [dec_go]. by ifdec. }
  destruct a as [t|i t|i t|i t prev]; cbn [alert_ok text_of]; intros H; unfold shutdown_text, warning_text, hot_text, rising_text;
    repeat match goal with H : _ /\ int32 _ |- _ => destruct H end;
    repeat match goal with H : int32 ?x |- _ => apply fmt_i_11 in H end;
    repeat match goal with H : 0 <= ?i < 10 |- _ => apply Hi in H end;
    zl;
    repeat match goal with |- context [zlen (zs ?s)] => let n := eval vm_compute in (zlen (zs s)) in change (zlen (zs s)) with n end;
    repeat match goal with |- context [zlen (fmt_i ?x)] =>
      lazymatch goal with _ : 0 <= zlen (fmt_i x) |- _ => fail | _ => pose proof (zlen_nonneg (fmt_i x)) end end; lia.
Qed.

Lemma notify_run text w :
  watch_ok w -> 0 < zlen text < 160 ->
  exists w', notify text w = Ret (tt, w', []) /\ watch_ok w' /\ told_all [text] (th_phone w) (th_phone w') /\
    notified_emergency w' = notified_emergency w /\ notified_warning w' = notified_warning w /\
    sensors w' = sensors w /\ round w' = round w /\ last_notify_round w' = round w.
Proof.
  intros (Hp & Hs & Hr) Ht. unfold notify. rewrite bind_get.
  destruct (snprintf_160 (th_reply w) text Hr) as (b & Hb & Hlb & Htake). specialize (Htake ltac:(lia)).
  rewrite (bind_lift _ _ _ _ Hb). autorewrite with eff. rewrite u32_small by lia.
  set (w1 := set_th_reply b w).
  destruct (add_message_run text (drop (length text) b) (th_phone w1) Hp) as (p' & Hrun & Hp' & Hh); [lia|].
  rewrite <- Htake in Hrun at 1. rewrite take_drop in Hrun.
  assert (Hz : (zoom Told (add_message_to_queue b (zlen text)) : MH unit) w1 = Ret (tt, with_part p' w1, []))
    by (unfold zoom; change (part w1) with (th_phone w1); by rewrite Hrun).
  rewrite (bind_step _ _ _ _ _ Hz).
  eexists. split; [reflexivity|]. split; [split; [exact Hp'|by split]|]. split; [|by repeat split].
  econstructor; [exact Hh|done|constructor].
Qed.

Definition given (w : watch) : bool * bool := (notified_emergency w, notified_warning w).
Definition is_off (a : watch_action) : bool := match a with PowerOff => true | _ => false end.
Definition is_shutdown (a : alert) : bool := match a with Shutdown _ => true | _ => false end.
(** The times the power is taken away, and the alerts that announce it. *)
Definition power_offs (t : list watch_action) : nat := length (filter (fun a => is_off a = true) t).
Definition shutdowns (l : list alert) : nat := length (filter (fun a => is_shutdown a = true) l).

(** What a run of the checks does: the alerts, in order. *)
Definition alerts_run (m : MH unit) (w : watch) (r : list alert * (bool * bool)) : Prop :=
  exists w' t, m w = Ret (tt, w', t) /\ watch_ok w' /\ told_all (map text_of r.1) (th_phone w) (th_phone w') /\
    given w' = r.2 /\ sensors w' = sensors w /\ round w' = round w /\
    last_notify_round w' = (if r.1 is [] then last_notify_round w else round w) /\
    power_offs t = shutdowns r.1.

Lemma alerts_none w : watch_ok w -> alerts_run (ret tt) w ([], given w).
Proof. intros Hw. exists w, []. split_and!; try done. constructor. Qed.
Lemma alerts_then m k w l g r :
  alerts_run m w (l, g) -> (forall w', watch_ok w' -> given w' = g -> alerts_run k w' r) ->
  alerts_run (m ;> k) w (l ++ r.1, r.2).
Proof.
  intros (w1 & t1 & H1 & Hok1 & Ht1 & Hg1 & Hs1 & Hr1 & Hl1 & Hp1) Hk.
  destruct (Hk w1 Hok1 Hg1) as (w2 & t2 & H2 & Hok2 & Ht2 & Hg2 & Hs2 & Hr2 & Hl2 & Hp2).
  cbn [fst snd] in *. exists w2, (t1 ++ t2). split; [by eapply bind_ret_run|]. split; [done|]. cbn [fst snd].
  split; [rewrite map_app; by eapply told_app|]. split; [done|]. split; [congruence|]. split; [congruence|].
  split.
  - rewrite Hl2, Hr1, Hl1. destruct l, r.1; done.
  - unfold power_offs, shutdowns in *. by rewrite !filter_app, !length_app, Hp1, Hp2.
Qed.

(** One notice and the flags set with it. *)
Lemma notice_alert a (f : bool * bool -> bool * bool) w :
  watch_ok w -> alert_ok a -> (forall t, a <> Shutdown t) ->
  alerts_run (notify (text_of a) ;> modify (fun w => set_notified (f (given w)).1 (f (given w)).2 w)) w ([a], f (given w)).
Proof.
  intros Hw Ha Hns. destruct (notify_run (text_of a) w Hw (text_fits a Ha)) as (w1 & H1 & Hok & Ht & He & Hn & Hs & Hr & Hl).
  assert (Hg : given w1 = given w) by (unfold given; congruence).
  exists (set_notified (f (given w1)).1 (f (given w1)).2 w1), []. split; [by rewrite (bind_step _ _ _ _ _ H1)|].
  split; [exact Hok|]. cbn [fst snd map]. split; [exact Ht|].
  split; [unfold given at 1; cbn; rewrite Hg; by destruct (f (given w))|]. split; [done|]. split; [done|]. split; [done|].
  destruct a; try done. by destruct (Hns t).
Qed.
Lemma shutdown_alert t w :
  watch_ok w -> int32 t ->
  alerts_run (notify (shutdown_text t) ;> modify (fun w => set_notified true (notified_warning w) w) ;>
              emit (Rest 30) ;> emit PowerOff) w ([Shutdown t], (true, notified_warning w)).
Proof.
  intros Hw Ht. destruct (notify_run (shutdown_text t) w Hw (text_fits (Shutdown t) Ht))
    as (w1 & H1 & Hok & Hto & He & Hn & Hs & Hr & Hl).
  exists (set_notified true (notified_warning w1) w1), [Rest 30; PowerOff].
  split; [by rewrite (bind_step _ _ _ _ _ H1)|]. split; [exact Hok|]. cbn [fst snd map].
  split; [exact Hto|]. split; [unfold given; cbn; by rewrite Hn|]. by repeat split.
Qed.
Lemma plain_alert a w :
  watch_ok w -> alert_ok a -> is_shutdown a = false -> alerts_run (notify (text_of a)) w ([a], given w).
Proof.
  intros Hw Ha Hs. destruct (notify_run (text_of a) w Hw (text_fits a Ha)) as (w1 & H1 & Hok & Ht & He & Hn & Hse & Hr & Hl).
  exists w1, []. split; [exact H1|]. split; [exact Hok|]. cbn [fst snd map]. split; [exact Ht|].
  split; [unfold given; congruence|]. repeat split; try done. unfold shutdowns. by rewrite filter_cons_False by congruence.
Qed.

Lemma warm_run i prev t w :
  watch_ok w -> 0 <= i < 10 -> int32 prev -> int32 t ->
  alerts_run (check_warm i prev t) w (warm_alerts i prev t (given w)).
Proof.
  intros Hw Hi Hp Ht. unfold check_warm, alerts_run. rewrite bind_get. unfold warm_alerts. cbn [given].
  destruct (_ && _); [by apply (notice_alert (Overheating i t) (fun g => (true, g.2)) w Hw)|].
  destruct (_ && _); [by apply (notice_alert (Hot i t) (fun g => (g.1, true)) w Hw)|].
  destruct (10 <? _); cbn [when]; [by apply (plain_alert (Rising i t prev))|by apply alerts_none].
Qed.
Lemma sensor_run i prev t w :
  watch_ok w -> 0 <= i < 10 -> int32 prev -> int32 t ->
  alerts_run (check_sensor i prev t) w (sensor_alerts i prev t (given w)).
Proof.
  intros Hw Hi Hp Ht. unfold check_sensor, sensor_alerts.
  rewrite <- negb_orb. destruct ((prev =? 0) || (t =? 0)); cbn [negb when]; [by apply alerts_none|].
  destruct (THERMAL_TEMP_CRITICAL <? t); cbn [when].
  - apply (alerts_then _ _ w [Shutdown t] (true, notified_warning w)); [by apply shutdown_alert|].
    intros w' Hw' Hg. replace (true, (given w).2) with (given w') by exact Hg. by apply warm_run.
  - pose proof (warm_run i prev t w Hw Hi Hp Ht) as H. unfold alerts_run in *. by rewrite bind_ret.
Qed.
Lemma sensors_run i prev now w :
  watch_ok w -> 0 <= i -> i + zlen prev <= 10 -> Forall int32 prev -> Forall int32 now ->
  alerts_run (check_sensors i prev now) w (all_alerts i prev now (given w)).
Proof.
  revert i now w. induction prev as [|p prev IH]; intros i [|t now] w Hw Hi Hl Hp Ht; cbn [check_sensors all_alerts];
    try by apply alerts_none.
  apply Forall_cons in Hp as [Hp Hps]. apply Forall_cons in Ht as [Ht Hts].
  rewrite zlen_cons in Hl. pose proof (zlen_nonneg prev).
  pose proof (sensor_run i p t w Hw ltac:(lia) Hp Ht) as H1.
  destruct (sensor_alerts i p t (given w)) as [l g].
  destruct (all_alerts (i + 1) prev now g) as [l' g'] eqn:E.
  apply (alerts_then _ _ w l g (l', g') H1). intros w' Hw' <-. rewrite <- E. apply IH; (done || lia).
Qed.

(** The readings of numbers that end. *)
Lemma get_temperature_int stack f t : get_temperature stack f = Ret t -> int32 t.
Proof.
  unfold get_temperature, int32. destruct f as [[|c l]|]; [intros [= <-]; lia| |intros [= <-]; unfold EINVAL; lia].
  unfold strtol. intros (m & _ & (c' & _ & (v & _ & H)%cbind_Ret_inv)%cbind_Ret_inv)%cbind_Ret_inv. injection H as <-. lia.
Qed.
Lemma readings_int stack files now : readings stack files = Ret now -> Forall int32 now /\ length now = length files.
Proof.
  revert now. induction files as [|f files IH]; cbn [readings]; intros now.
  - intros [= <-]. by split.
  - intros (t & Ht%get_temperature_int & (l & Hl & H)%cbind_Ret_inv)%cbind_Ret_inv. injection H as <-.
    apply IH in Hl as [? ?]. split; [by constructor|cbn; lia].
Qed.

(** C25: a pass of the watch over readings of any value tells exactly the alerts
    of its specification, in order and each as the text it stands for, switches
    the modem off once for each critical one, and lets the warnings be given again
    when sixty passes have gone by without an alert. *)
Theorem thermal_refines_alerts stack files now w
  (Hw : watch_ok w) (Hsensors : Forall int32 (sensors w)) (Hfiles : length files = 6%nat)
  (Hnow : readings stack files = Ret now) :
  let '(alerts, given') := all_alerts 0 (take 6 (sensors w)) now (given w) in
  exists w' t, thermal_turn stack files w = Ret (tt, w', t) /\ watch_ok w' /\
    told_all (map text_of alerts) (th_phone w) (th_phone w') /\
    power_offs t = shutdowns alerts /\
    take 6 (sensors w') = now /\ Forall int32 (sensors w') /\
    let last := if alerts is [] then last_notify_round w else round w in
    let quiet := 60 <? u32 (u32 (round w + 1) - last) in
    given w' = (if quiet then (false, false) else given') /\
    round w' = (if quiet then 0 else u32 (round w + 1)) /\
    last_notify_round w' = (if quiet then 0 else last).
Proof.
  destruct (readings_int stack files now Hnow) as [Hints Hlen].
  destruct Hw as (Hp & Hs & Hr).
  set (w1 := set_sensors (now ++ drop (length now) (sensors w)) w).
  assert (Hw1 : watch_ok w1).
  { split; [exact Hp|]. split; [|exact Hr]. cbn. rewrite length_app, length_drop. lia. }
  pose proof (sensors_run 0 (take 6 (sensors w)) now w1 Hw1 ltac:(lia)) as Hrun.
  specialize (Hrun ltac:(unfold zlen; rewrite length_take; lia) ltac:(by apply Forall_take) Hints).
  change (given w1) with (given w) in Hrun.
  destruct (all_alerts 0 (take 6 (sensors w)) now (given w)) as [alerts g].
  destruct Hrun as (w2 & t & Hrun & (Hp2 & Hs2 & Hr2) & Ht & Hg & Hse & Hro & Hla & Hoff). cbn [fst snd] in *.
  assert (Hs6 : sensors w2 = now ++ drop (length now) (sensors w)) by exact Hse.
  assert (Hturn : exists w' t', thermal_turn stack files w = Ret (tt, w', t ++ t') /\ power_offs t' = 0%nat /\
    w' = let w3 := set_rounds (u32 (round w2 + 1)) (last_notify_round w2) w2 in
         if 60 <? u32 (round w3 - last_notify_round w3) then set_rounds 0 0 (set_notified false false w3) else w3).
  { unfold thermal_turn. rewrite bind_get, (bind_lift _ now) by (unfold NO_OF_SENSORS; by rewrite take_ge by lia).
    rewrite bind_modify. fold w1. rewrite (bind_after _ _ _ _ _ _ Hrun). autorewrite with eff.
    unfold modify, after. cbn [cbind]. rewrite app_nil_r. do 2 eexists. split; [reflexivity|]. by split. }
  destruct Hturn as (w' & t' & Hturn & Hoff' & ->). eexists _, (t ++ t'). split; [exact Hturn|]. cbv zeta.
  cbn [round last_notify_round set_rounds]. rewrite Hla, Hro. change (round w1) with (round w).
  change (last_notify_round w1) with (last_notify_round w).
  assert (Hoffs : power_offs (t ++ t') = shutdowns alerts).
  { unfold power_offs in *. rewrite filter_app, length_app, Hoff', Hoff. lia. }
  assert (H6 : take 6 (sensors w2) = now) by (rewrite Hs6; rewrite <- Hfiles, <- Hlen; apply take_app_length).
  assert (HF : Forall int32 (sensors w2)) by (rewrite Hs6; apply Forall_app; split; [done|by apply Forall_drop]).
  destruct (60 <? _); cbn; split_and!; try done.
Qed.

Definition cool_watch : watch :=
  {| notified_emergency := false; notified_warning := false; round := 5; last_notify_round := 0;
     sensors := [70; 70; 70; 70; 70; 70; 0]; th_reply := replicate 160 0; th_phone := idle_phone |}.
Lemma cool_watch_ok : watch_ok cool_watch.
Proof. split; [exact idle_phone_ok|]. by split. Qed.
Definition sample_files : list (option (list Z)) := map (fun t => Some (fmt_i t ++ [10])) [71; 88; 70; 83; 95; 70].
Theorem thermal_refines_alerts_witness :
  exists w' t, thermal_turn (replicate 6 0) sample_files cool_watch = Ret (tt, w', t) /\ watch_ok w' /\
    told_all (map text_of [Overheating 1 88; Hot 3 83; Shutdown 95; Rising 4 95 70]) idle_phone (th_phone w') /\
    power_offs t = 1%nat /\ given w' = (true, true).
Proof.
  destruct (thermal_refines_alerts (replicate 6 0) sample_files [71; 88; 70; 83; 95; 70] cool_watch) as
    (w' & t & H1 & H2 & H3 & H4 & _ & _ & H5 & _).
  - exact cool_watch_ok.
  - repeat constructor; discriminate.
  - reflexivity.
  - reflexivity.
  - exists w', t. split; [exact H1|]. split; [exact H2|]. split; [exact H3|]. split; [exact H4|exact H5].
Defined.

(** The milder warning comes after the graver one: at 88 degrees the watch warns
    of a shutdown, and in the next pass, at the same 88, that it is getting hot. *)
Example milder_warning_last :
  all_alerts 0 [70] [88] (false, false) = ([Overheating 0 88], (true, false)) /\
  all_alerts 0 [88] [88] (true, false) = ([Hot 0 88], (true, true)).
Proof. split; reflexivity. Qed.
