(* ===== verification/Cells.v ===== *)
(** The record of cells the modem has met (src/nas_client.c, inc/nas.h): the
    runtime data of the network client, the OpenCellid database, the table of
    reports and its file, and what a cell in each of the tracking modes leads
    to. The database and the file are bytes. *)

From stdpp Require Import base list numbers option strings.
From Stdlib Require Import ZArith Lia.
From S2P Require Import Prelude Libc Eff Sms Config Call Replies.

Definition MAX_REPORT_NUM : Z := 4096.

(** * State *)

(** struct service_capability: one byte each. *)
Record service_capability := {
  gprs : Z; edge : Z; hsdpa : Z; hsupa : Z; wcdma : Z; gsm : Z; lte : Z;
  hsdpa_plus : Z; dc_hsdpa_plus : Z
}.
(** memcmp(3) of two of them. *)
#[export] Instance service_capability_eq_dec : EqDecision service_capability.
Proof. solve_decision. Defined.

Record basic_network_status := {
  operator_name : list Z;       (* uint8_t[32] *)
  st_mcc : list Z;              (* uint8_t[4] *)
  st_mnc : list Z;              (* uint8_t[3] *)
  capability : service_capability;
  network_registration_status : Z;
  circuit_switch_attached : Z;
  packet_switch_attached : Z;
  radio_access : Z;
  network_type : Z;
  signal_level : Z
}.

(** struct nas_report *)
Record nas_report := {
  r_mcc : Z;
  r_mnc : Z;
  type_of_service : Z;
  r_lac : Z;
  phy_cell_id : Z;
  r_cell_id : Z;
  bsic : Z;
  bcch : Z;
  psc : Z;
  arfcn : Z;
  srx_level_min : Z;
  srx_level_max : Z;
  srx_level_avg : Z;
  rx_level_min : Z;
  rx_level_max : Z;
  rx_level_avg : Z;
  found_in_network : Z;
  opencellid_verified : Z
}.
Record network_status_reports := { in_use : Z; report : nas_report }.

(** The database is the content of the file it was opened from. *)
Record nas_runtime := {
  curr_state : basic_network_status;
  prev_state : basic_network_status;
  curr_plmn : list Z;            (* uint8_t[3] *)
  prev_plmn : list Z;
  current_report : Z;            (* uint16_t *)
  reports : list network_status_reports;  (* data[MAX_REPORT_NUM] *)
  current_cell_id : Z;
  current_lac : Z;
  cellid_data_missing : Z;
  curr_ocid_db_fp : option (list Z);
  open_cellid_num_items : Z;
  open_cellid_mcc : list Z;
  open_cellid_mnc : list Z
}.

(** The network client with its file, the phone and the settings. *)
Record network := {
  nas : nas_runtime;
  cells_file : option (list Z);  (* INTERNAL_CELLID_INFO_PATH *)
  nw_phone : phone;
  nw_cfg : cfg_state
}.

(** ** Updates *)

Definition set_states (curr prev : basic_network_status) (n : nas_runtime) : nas_runtime :=
  {| curr_state := curr; prev_state := prev; curr_plmn := curr_plmn n; prev_plmn := prev_plmn n;
     current_report := current_report n; reports := reports n; current_cell_id := current_cell_id n;
     current_lac := current_lac n; cellid_data_missing := cellid_data_missing n;
     curr_ocid_db_fp := curr_ocid_db_fp n; open_cellid_num_items := open_cellid_num_items n;
     open_cellid_mcc := open_cellid_mcc n; open_cellid_mnc := open_cellid_mnc n |}.
Definition set_plmns (curr prev : list Z) (n : nas_runtime) : nas_runtime :=
  {| curr_state := curr_state n; prev_state := prev_state n; curr_plmn := curr; prev_plmn := prev;
     current_report := current_report n; reports := reports n; current_cell_id := current_cell_id n;
     current_lac := current_lac n; cellid_data_missing := cellid_data_missing n;
     curr_ocid_db_fp := curr_ocid_db_fp n; open_cellid_num_items := open_cellid_num_items n;
     open_cellid_mcc := open_cellid_mcc n; open_cellid_mnc := open_cellid_mnc n |}.
Definition set_reports (l : list network_status_reports) (current : Z) (n : nas_runtime) : nas_runtime :=
  {| curr_state := curr_state n; prev_state := prev_state n; curr_plmn := curr_plmn n;
     prev_plmn := prev_plmn n; current_report := current; reports := l;
     current_cell_id := current_cell_id n; current_lac := current_lac n;
     cellid_data_missing := cellid_data_missing n; curr_ocid_db_fp := curr_ocid_db_fp n;
     open_cellid_num_items := open_cellid_num_items n; open_cellid_mcc := open_cellid_mcc n;
     open_cellid_mnc := open_cellid_mnc n |}.
Definition set_current_cell (cell_id lac : Z) (n : nas_runtime) : nas_runtime :=
  {| curr_state := curr_state n; prev_state := prev_state n; curr_plmn := curr_plmn n;
     prev_plmn := prev_plmn n; current_report := current_report n; reports := reports n;
     current_cell_id := cell_id; current_lac := lac; cellid_data_missing := cellid_data_missing n;
     curr_ocid_db_fp := curr_ocid_db_fp n; open_cellid_num_items := open_cellid_num_items n;
     open_cellid_mcc := open_cellid_mcc n; open_cellid_mnc := open_cellid_mnc n |}.
Definition set_database (missing : Z) (fp : option (list Z)) (items : Z) (n : nas_runtime) : nas_runtime :=
  {| curr_state := curr_state n; prev_state := prev_state n; curr_plmn := curr_plmn n;
     prev_plmn := prev_plmn n; current_report := current_report n; reports := reports n;
     current_cell_id := current_cell_id n; current_lac := current_lac n; cellid_data_missing := missing;
     curr_ocid_db_fp := fp; open_cellid_num_items := items; open_cellid_mcc := open_cellid_mcc n;
     open_cellid_mnc := open_cellid_mnc n |}.
Definition set_database_carrier (mcc mnc : list Z) (n : nas_runtime) : nas_runtime :=
  {| curr_state := curr_state n; prev_state := prev_state n; curr_plmn := curr_plmn n;
     prev_plmn := prev_plmn n; current_report := current_report n; reports := reports n;
     current_cell_id := current_cell_id n; current_lac := current_lac n;
     cellid_data_missing := cellid_data_missing n; curr_ocid_db_fp := curr_ocid_db_fp n;
     open_cellid_num_items := open_cellid_num_items n; open_cellid_mcc := mcc; open_cellid_mnc := mnc |}.
Definition set_missing (missing : Z) (n : nas_runtime) : nas_runtime :=
  set_database missing (curr_ocid_db_fp n) (open_cellid_num_items n) n.

Definition on_nas (f : nas_runtime -> nas_runtime) (s : network) : network :=
  {| nas := f (nas s); cells_file := cells_file s; nw_phone := nw_phone s; nw_cfg := nw_cfg s |}.
Definition with_cells_file (f : option (list Z)) (s : network) : network :=
  {| nas := nas s; cells_file := f; nw_phone := nw_phone s; nw_cfg := nw_cfg s |}.

#[export, refine] Instance network_phone : Part phone network :=
  {| part := nw_phone;
     with_part p s := {| nas := nas s; cells_file := cells_file s; nw_phone := p; nw_cfg := nw_cfg s |} |}.
Proof. all: abstract by intros; repeat match goal with s : network |- _ => destruct s end. Defined.
#[export, refine] Instance network_cfg : Part cfg_state network :=
  {| part := nw_cfg;
     with_part c s := {| nas := nas s; cells_file := cells_file s; nw_phone := nw_phone s; nw_cfg := c |} |}.
Proof. all: abstract by intros; repeat match goal with s : network |- _ => destruct s end. Defined.

(** * Actions and surroundings *)

Inductive nas_action :=
| Told (a : phone_action)
| Stored (a : cfg_action)
| Pending (svc : Z) (pkt : list Z)          (* add_pending_message, qmi.c *)
| DumpToFile (filename : string) (line : list Z)   (* dump_to_file, logger.c *)
| DumpCellTables                            (* log_cell_location_information *)
| AdspOff.                                  (* write_to(ADSP_BOOT_HANDLER, "0") *)

Definition MN (A : Type) : Type := M network nas_action A.

(** The outcome of mounts and opens, the databases by their file name, the
    padding fwrite(3) finds in the table and the bytes on the stack where it is
    read back, and the call that is active. *)
Record nas_env := {
  n_cfg : cfg_env;
  n_open : bool;
  n_database : list Z -> option (list Z);
  n_pad : Z;
  n_stack : list Z;
  n_call_id : Z                  (* get_current_call_id, audio.c *)
}.

(** [strsz = snprintf(reply, MAX_MESSAGE_SIZE, ...); add_message_to_queue(reply, strsz)]
    with a zeroed reply, in one or more pieces. *)
Fixpoint compose (r : list Z * Z) (pieces : list (list Z)) : cres (list Z * Z) :=
  match pieces with
  | [] => Ret r
  | text :: pieces => let* r := append 160 r text in compose r pieces
  end.
Definition warn (pieces : list (list Z)) : MN unit :=
  do* '(reply, strsz) := lift (compose (replicate 160 0, 0) pieces) in
  zoom Told (add_message_to_queue reply strsz).

Definition nl : list Z := [10].
Definition tracking : MN config_prototype := do* s := get in ret (settings (nw_cfg s)).

(** * The OpenCellid database *)

Record ocid_cell_slim := {
  radio : Z;
  area : Z;
  cell : Z;
  lon : Z;              (* the bits of a float *)
  lat : Z;
  range : Z;
  updated : Z;
  average_signal : Z
}.
Definition SZ_OCID : Z := 27.
Definition no_cell : ocid_cell_slim :=
  {| radio := 0; area := 0; cell := 0; lon := 0; lat := 0; range := 0; updated := 0; average_signal := 0 |}.
Definition dec_ocid (b : list Z) : cres ocid_cell_slim :=
  let* radio := rd b 0 in
  let* area := rd32 b 1 in
  let* cell := rd32 b 5 in
  let* lon := rd32 b 9 in
  let* lat := rd32 b 13 in
  let* range := rd32 b 17 in
  let* updated := rd32 b 21 in
  let* average_signal := rd16 b 25 in
  Ret {| radio := radio; area := area; cell := cell; lon := lon; lat := lat; range := range;
         updated := updated; average_signal := i16 average_signal |}.

Inductive search := Found (c : ocid_cell_slim) | NotListed | ReadError.
Definition listed_as (ty cell_id lac : Z) (ocid : ocid_cell_slim) : bool :=
  (ty =? radio ocid) && (cell_id =? cell ocid) && (area ocid =? lac).
(** [n] items from the place in the file on. *)
Fixpoint search_cells (n : nat) (file : list Z) (ty cell_id lac : Z) : search :=
  match n with
  | O => NotListed
  | S n =>
      match dec_ocid (take 27 file) with
      | Ret ocid => if listed_as ty cell_id lac ocid then Found ocid
                    else search_cells n (drop 27 file) ty cell_id lac
      | _ => ReadError
      end
  end.

Definition get_opencellid_cell_info (cell_id lac : Z) : MN ocid_cell_slim :=
  do* s := get in
  let n := nas s in
  if negb (cellid_data_missing n =? 1) then ret no_cell
  else
    match curr_ocid_db_fp n with
    | None => modify (on_nas (set_missing 0)) ;> ret no_cell
    | Some file =>
        match search_cells (Z.to_nat (open_cellid_num_items n)) file
                (network_type (curr_state n)) cell_id lac with
        | Found c => ret c
        | NotListed => ret no_cell
        | ReadError =>
            modify (on_nas (fun n => set_database (cellid_data_missing n) None (open_cellid_num_items n) n)) ;>
            ret no_cell
        end
    end.

Definition is_cell_id_in_db (cell_id lac : Z) : MN Z :=
  do* s := get in
  if negb (cellid_data_missing (nas s) =? 1) then ret (- EINVAL)
  else
    do* ocid := get_opencellid_cell_info cell_id lac in
    do* s := get in
    ret (if listed_as (network_type (curr_state (nas s))) cell_id lac ocid then 1 else 0).

Definition nas_is_network_in_service : MN Z :=
  do* s := get in
  let c := capability (curr_state (nas s)) in
  let on v := negb (v =? 0) in
  ret (if on (gprs c) || on (edge c) || on (hsdpa c) || on (hsupa c) || on (wcdma c) || on (gsm c) ||
          on (lte c) || on (hsdpa_plus c) || on (dc_hsdpa_plus c) then 1 else 0).
Definition is_cellid_data_missing : MN Z :=
  do* v := nas_is_network_in_service in
  if negb (v =? 0) then do* s := get in ret (cellid_data_missing (nas s)) else ret 2.
Definition set_cellid_data_missing_as_requested : MN unit := modify (on_nas (set_missing 2)).

Definition notify_database_unavailable : MN unit :=
  warn [zs "OpenCellID database is not available. Please check " ++
        zs "https://opencellid.themodemdistro.com for more info"].
Definition fallback_notify : MN unit :=
  warn [zs "Signal Tracking warning! I can't load any previous " ++
        zs "cell data report, I'm switching to learning mode" ++ nl].

Section Operations.
Variable env : nas_env.

Definition database_name (mcc mnc : list Z) : list Z :=
  take 254 (zs "/tmp/" ++ mcc ++ zs "-" ++ mnc ++ zs ".bin").
Definition get_opencellid_data : MN unit :=
  do* s := get in
  let st := curr_state (nas s) in
  do* mcc := lift (cstr (st_mcc st)) in
  do* mnc := lift (cstr (st_mnc st)) in
  match n_database env (database_name mcc mnc) with
  | None =>
      modify (on_nas (fun n => set_database (cellid_data_missing n) None
        (match curr_ocid_db_fp n with Some _ => 0 | None => open_cellid_num_items n end) n)) ;>
      when (cellid_data_missing (nas s) <? 2)
        (set_cellid_data_missing_as_requested ;> notify_database_unavailable)
  | Some file =>
      modify (on_nas (fun n => set_database_carrier (st_mcc st) (st_mnc st)
        (set_database 1 (Some file) (zlen file / SZ_OCID) n))) ;>
      warn [zs "OpenCellid database for " ++ mcc ++ zs "-" ++ mnc ++ zs " loaded"]
  end.

(** * Notices *)

Definition emergency_baseband_pwoerdown (cell_id lac opencellid_res : Z) : MN unit :=
  warn [zs "Emergency: I connected to an unknown Cell ID and will lock myself up" ++ nl ++
        zs "Reboot me to use me again" ++ nl ++
        zs "Cell ID: " ++ fmt_x 8 cell_id ++ nl ++ zs "LAC: " ++ fmt_x 4 lac ++ nl;
        if opencellid_res =? 1 then zs "OpenCellid DB check: Found in db"
        else if opencellid_res =? 0 then zs "OpenCellid DB check: Not found in db!"
        else zs "OpenCellid DB check: Database not loaded!"] ;>
  emit AdspOff.

Definition notify_cellid_change (cell_id lac : Z) : MN unit :=
  let text := zs "Network status changed:" ++ nl ++ zs "Location Area / Cell ID changed:" ++ nl ++
    zs "Cell ID: " ++ fmt_x 8 cell_id ++ nl ++ zs "LAC: " ++ fmt_x 4 lac ++ nl in
  do* c := tracking in
  if 1 <? signal_tracking_mode c then
    do* ocid := get_opencellid_cell_info cell_id lac in
    warn [text;
          if negb (cell ocid =? 0) && negb (area ocid =? 0) then
            zs "OpenCellid Verified:" ++
            zs "Cell ID: " ++ fmt_x 8 (cell ocid) ++ nl ++ zs "LAC: " ++ fmt_x 4 (area ocid) ++ nl ++
            zs "Lat: " ++ fmt_f (lat ocid) ++ nl ++ zs "Lon: " ++ fmt_f (lon ocid) ++ nl
          else zs "Not found in OpenCellid"]
  else warn [text].

(** * The file of reports *)

(** struct network_status_reports as it lies in memory: 44 bytes, eight of them
    padding. *)
Definition SZ_REPORT : Z := 44.
Definition enc_report (r : network_status_reports) : list Z :=
  let p := n_pad env in
  let q := report r in
  [in_use r; p; p; p] ++ le 2 (r_mcc q) ++ le 2 (r_mnc q) ++ [type_of_service q; p] ++
  le 2 (r_lac q) ++ le 2 (phy_cell_id q) ++ [p; p] ++ le 4 (r_cell_id q) ++ [bsic q; p] ++
  le 2 (bcch q) ++ le 2 (psc q) ++ le 2 (arfcn q) ++ le 2 (srx_level_min q) ++
  le 2 (srx_level_max q) ++ le 2 (srx_level_avg q) ++ le 2 (rx_level_min q) ++
  le 2 (rx_level_max q) ++ le 2 (rx_level_avg q) ++ [found_in_network q; opencellid_verified q; p; p].
Definition dec_report (b : list Z) : cres network_status_reports :=
  let* used := rd b 0 in
  let* mcc := rd16 b 4 in
  let* mnc := rd16 b 6 in
  let* service := rd b 8 in
  let* lac := rd16 b 10 in
  let* phy := rd16 b 12 in
  let* cell_id := rd32 b 16 in
  let* bsic := rd b 20 in
  let* bcch := rd16 b 22 in
  let* psc := rd16 b 24 in
  let* arfcn := rd16 b 26 in
  let* srx_min := rd16 b 28 in
  let* srx_max := rd16 b 30 in
  let* srx_avg := rd16 b 32 in
  let* rx_min := rd16 b 34 in
  let* rx_max := rd16 b 36 in
  let* rx_avg := rd16 b 38 in
  let* found := rd b 40 in
  let* verified := rd b 41 in
  Ret {| in_use := used; report :=
    {| r_mcc := mcc; r_mnc := mnc; type_of_service := service; r_lac := lac; phy_cell_id := phy;
       r_cell_id := cell_id; bsic := bsic; bcch := bcch; psc := psc; arfcn := arfcn;
       srx_level_min := i16 srx_min; srx_level_max := i16 srx_max; srx_level_avg := i16 srx_avg;
       rx_level_min := rx_min; rx_level_max := rx_max; rx_level_avg := rx_avg;
       found_in_network := found; opencellid_verified := verified |} |}.
Fixpoint dec_reports (n : nat) (b : list Z) : cres (list network_status_reports) :=
  match n with
  | O => Ret []
  | S n =>
      let* r := dec_report b in
      let* l := dec_reports n (drop 44 b) in
      Ret (r :: l)
  end.

Definition store_report_data : MN Z :=
  do* rw := zoom Stored (set_persistent_partition_rw (n_cfg env)) in
  if rw <? 0 then ret (-1)
  else if negb (n_open env) then ret (-1)
  else
    modify (fun s => with_cells_file (Some (concat (map enc_report (reports (nas s))))) s) ;>
    zoom Stored do_sync_fs ;>
    do* c := tracking in
    if persistent_logging c =? 0 then
      do* ro := zoom Stored (set_persistent_partition_ro (n_cfg env)) in
      ret (if ro <? 0 then -1 else 0)
    else ret 0.

(** The array on the stack after fread(3). *)
Definition read_reports (file : list Z) : list Z :=
  let got := take (Z.to_nat (SZ_REPORT * MAX_REPORT_NUM)) file in got ++ drop (length got) (n_stack env).
(** The entries in use replace those of the table and are counted. *)
Fixpoint load_loop (saved data : list network_status_reports) (current : Z)
    : list network_status_reports * Z :=
  match saved, data with
  | r :: saved, d :: data =>
      let '(l, n) := load_loop saved data (if in_use r =? 0 then current else u16 (current + 1)) in
      ((if in_use r =? 0 then d else r) :: l, n)
  | _, _ => (data, current)
  end.
Definition load_report_data : MN Z :=
  do* s := get in
  match cells_file s with
  | None =>
      do* c := tracking in
      when ((signal_tracking_mode c =? 1) || (signal_tracking_mode c =? 3))
        (fallback_notify ;>
         do* c := tracking in
         if signal_tracking_mode c =? 1 then zoom Stored (set_signal_tracking_mode (n_cfg env) 0)
         else when (signal_tracking_mode c =? 3) (zoom Stored (set_signal_tracking_mode (n_cfg env) 2))) ;>
      ret (-1)
  | Some file =>
      let ret_ := Z.min MAX_REPORT_NUM (zlen file / SZ_REPORT) in
      when (SZ_REPORT <=? ret_)
        (do* saved := lift (dec_reports 4096 (read_reports file)) in
         modify (on_nas (fun n =>
           let '(l, current) := load_loop saved (reports n) (current_report n) in set_reports l current n))) ;>
      ret 0
  end.

Definition get_current_cell_report : MN nas_report :=
  do* s := get in
  do* r := lift (rdA (reports (nas s)) (current_report (nas s))) in
  ret (report r).

(** * The table *)

(** What a message of the baseband says of the serving cell: the arguments of
    [process_current_network_data]. *)
Record serving_cell := {
  c_mcc : Z;
  c_mnc : Z;
  c_service : Z;
  c_lac : Z;
  c_phy_cell_id : Z;
  c_cell_id : Z;
  c_bsic : Z;
  c_bcch : Z;
  c_psc : Z;
  c_arfcn : Z;
  c_srx_lev : Z;      (* int16_t *)
  c_rx_lev : Z
}.

Definition get_report (i : Z) : MN network_status_reports :=
  do* s := get in lift (rdA (reports (nas s)) i).
Definition on_report (i : Z) (f : network_status_reports -> network_status_reports) : MN unit :=
  modifyM (fun s => let* r := rdA (reports (nas s)) i in
                    let* l := wrA (reports (nas s)) i (f r) in
                    Ret (on_nas (set_reports l (current_report (nas s))) s)).

(** [data[k - 1] = data[k]], from the first to the last. *)
Fixpoint shift_down {A} (l : list A) : list A :=
  match l with
  | [] => []
  | x :: l => match l with [] => [x] | y :: _ => y :: shift_down l end
  end.
(** The entry written over: the averages are not set. *)
Definition new_report (c : serving_cell) (old : nas_report) : nas_report :=
  {| r_mcc := c_mcc c; r_mnc := c_mnc c; type_of_service := c_service c; r_lac := c_lac c;
     phy_cell_id := c_phy_cell_id c; r_cell_id := c_cell_id c; bsic := c_bsic c; bcch := c_bcch c;
     psc := c_psc c; arfcn := c_arfcn c; srx_level_min := c_srx_lev c; srx_level_max := c_srx_lev c;
     srx_level_avg := srx_level_avg old; rx_level_min := c_rx_lev c; rx_level_max := c_rx_lev c;
     rx_level_avg := rx_level_avg old; found_in_network := 1; opencellid_verified := 0 |}.
Definition add_report (c : serving_cell) : MN Z :=
  modify (on_nas (fun n =>
    if MAX_REPORT_NUM - 1 <=? current_report n
    then set_reports (shift_down (reports n)) (current_report n) n
    else set_reports (reports n) (current_report n + 1) n)) ;>
  do* s := get in
  let report_id := current_report (nas s) in
  on_report report_id (fun r => {| in_use := 1; report := new_report c (report r) |}) ;>
  ret report_id.

Definition same_cell (c : serving_cell) (r : nas_report) : bool :=
  (r_mcc r =? c_mcc c) && (r_mnc r =? c_mnc c) && (type_of_service r =? c_service c) &&
  (r_cell_id r =? c_cell_id c) && (r_lac r =? c_lac c).
Definition set_found (r : nas_report) : nas_report :=
  {| r_mcc := r_mcc r; r_mnc := r_mnc r; type_of_service := type_of_service r; r_lac := r_lac r;
     phy_cell_id := phy_cell_id r; r_cell_id := r_cell_id r; bsic := bsic r; bcch := bcch r;
     psc := psc r; arfcn := arfcn r; srx_level_min := srx_level_min r; srx_level_max := srx_level_max r;
     srx_level_avg := srx_level_avg r; rx_level_min := rx_level_min r; rx_level_max := rx_level_max r;
     rx_level_avg := rx_level_avg r; found_in_network := 1; opencellid_verified := opencellid_verified r |}.
Definition set_verified (r : nas_report) : nas_report :=
  {| r_mcc := r_mcc r; r_mnc := r_mnc r; type_of_service := type_of_service r; r_lac := r_lac r;
     phy_cell_id := phy_cell_id r; r_cell_id := r_cell_id r; bsic := bsic r; bcch := bcch r;
     psc := psc r; arfcn := arfcn r; srx_level_min := srx_level_min r; srx_level_max := srx_level_max r;
     srx_level_avg := srx_level_avg r; rx_level_min := rx_level_min r; rx_level_max := rx_level_max r;
     rx_level_avg := rx_level_avg r; found_in_network := found_in_network r; opencellid_verified := 1 |}.

(** The last entry for the cell and whether it is verified; each one found is
    marked and the file written. *)
Fixpoint find_loop (n : nat) (c : serving_cell) (i report_id verified : Z) : MN (Z * Z) :=
  match n with
  | O => ret (report_id, verified)
  | S n =>
      do* r := get_report i in
      if same_cell c (report r) then
        on_report i (fun r => {| in_use := 1; report := set_found (report r) |}) ;>
        do* _ := store_report_data in
        find_loop n c (i + 1) i (opencellid_verified (report r))
      else find_loop n c (i + 1) report_id verified
  end.
Definition is_in_report (c : serving_cell) : MN Z :=
  do* s := get in
  do* '(report_id, verified) := find_loop (Z.to_nat (current_report (nas s))) c 0 (-1) 0 in
  emit (DumpToFile "cell_history" (
    fmt_i (c_mcc c) ++ zs "," ++ fmt_i (c_mnc c) ++ zs "," ++ fmt_x 2 (c_service c) ++ zs "," ++
    fmt_x 8 (c_cell_id c) ++ zs "," ++ fmt_x 4 (c_lac c) ++ zs "," ++
    (if -1 <? report_id then zs "Known" else zs "Unknown") ++ zs "," ++
    (if verified =? 1 then zs "Yes" else zs "No") ++ nl)) ;>
  ret report_id.

(** The levels and numbers of a cell that is known. *)
Definition update_report (c : serving_cell) (r : nas_report) : nas_report :=
  {| r_mcc := r_mcc r; r_mnc := r_mnc r; type_of_service := type_of_service r; r_lac := r_lac r;
     phy_cell_id := c_phy_cell_id c; r_cell_id := r_cell_id r; bsic := c_bsic c; bcch := c_bcch c;
     psc := c_psc c; arfcn := c_arfcn c;
     srx_level_min := if c_srx_lev c <? srx_level_min r then c_srx_lev c else srx_level_min r;
     srx_level_max := if c_srx_lev c <? srx_level_min r then srx_level_max r
                      else if srx_level_max r <? c_srx_lev c then c_srx_lev c else srx_level_max r;
     srx_level_avg := srx_level_avg r; rx_level_min := rx_level_min r; rx_level_max := rx_level_max r;
     rx_level_avg := rx_level_avg r; found_in_network := found_in_network r;
     opencellid_verified := opencellid_verified r |}.

Definition verify_report (report_id : Z) : MN unit :=
  on_report report_id (fun r => {| in_use := in_use r; report := set_verified (report r) |}).

(** The switch over the tracking mode. *)
Definition track (c : serving_cell) (known : bool) : MN unit :=
  do* conf := tracking in
  let mode := signal_tracking_mode conf in
  if mode =? 0 then
    when (negb known) (do* _ := add_report c in ret tt)
  else if mode =? 1 then
    when (negb known) (emergency_baseband_pwoerdown (c_cell_id c) (c_lac c) (-1))
  else if mode =? 2 then
    do* opencellid_res := is_cell_id_in_db (c_cell_id c) (c_lac c) in
    when (negb known)
      (do* report_id := add_report c in
       when (opencellid_res =? 1) (verify_report report_id))
  else if mode =? 3 then
    do* opencellid_res := is_cell_id_in_db (c_cell_id c) (c_lac c) in
    if (opencellid_res =? 1) && negb known then
      do* report_id := add_report c in verify_report report_id
    else when (negb known) (emergency_baseband_pwoerdown (c_cell_id c) (c_lac c) opencellid_res)
  else ret tt.

(** The end: a change of cell is told, if it is wanted. *)
Definition notice_change (c : serving_cell) (known : bool) : MN unit :=
  do* s := get in
  when (negb (c_cell_id c =? current_cell_id (nas s)) || negb (c_lac c =? current_lac (nas s)))
    (do* conf := tracking in
     let mode := signal_tracking_notify_cell_change conf in
     when ((mode =? 2) || ((mode =? 1) && negb known)) (notify_cellid_change (c_cell_id c) (c_lac c)) ;>
     modify (on_nas (set_current_cell (c_cell_id c) (c_lac c)))).

Definition process_current_network_data (c : serving_cell) : MN unit :=
  if (c_lac c =? 0) || (c_cell_id c =? 0) then ret tt
  else
    do* report_id := is_in_report c in
    let known := 0 <=? report_id in
    when known
      (on_report report_id (fun r => {| in_use := in_use r; report := update_report c (report r) |}) ;>
       do* _ := store_report_data in ret tt) ;>
    track c known ;>
    notice_change c known.
End Operations.

(** * Runs up to the file *)

(** A run without a power-down that leads from [s] to [s'], whatever the file
    holds. *)
Definition quiet (t : list nas_action) : Prop := Forall (fun a => a <> AdspOff) t.
Definition runs {A} (m : MN A) (s : network) (a : A) (s' : network) : Prop :=
  forall f, exists f' t, m (with_cells_file f s) = Ret (a, with_cells_file f' s', t) /\ quiet t.

Lemma runs_run {A} (m : MN A) s a s' :
  runs m s a s' -> exists f t, m s = Ret (a, with_cells_file f s', t) /\ quiet t.
Proof. intros H. destruct (H (cells_file s)) as (f & t & Hm & Ht). destruct s. eauto. Qed.
Lemma quiet_not t : quiet t -> AdspOff ∉ t.
Proof. unfold quiet. rewrite list.Forall_forall. intros H Hin. by apply (H _ Hin). Qed.
Lemma runs_bind {A B} (m : MN A) (k : A -> MN B) s a s1 b s2 :
  runs m s a s1 -> runs (k a) s1 b s2 -> runs (bind m k) s b s2.
Proof.
  intros Hm Hk f. destruct (Hm f) as (f1 & t1 & H1 & Ht1). destruct (Hk f1) as (f2 & t2 & H2 & Ht2).
  exists f2, (t1 ++ t2). split; [by eapply bind_ret_run|]. by apply Forall_app.
Qed.
Lemma runs_then {A B} (m : MN A) (k : A -> MN B) s a s1 (Q : network -> Prop) b :
  runs m s a s1 -> (exists s2, runs (k a) s1 b s2 /\ Q s2) -> exists s2, runs (bind m k) s b s2 /\ Q s2.
Proof. intros Hm (s2 & Hk & HQ). exists s2. split; [by eapply runs_bind|done]. Qed.
Lemma runs_quiet {A} (m : MN A) s a s' t :
  (forall f, m (with_cells_file f s) = Ret (a, with_cells_file f s', t)) -> quiet t -> runs m s a s'.
Proof. intros H Ht f. eauto. Qed.
Lemma runs_ret {A} (a : A) s : runs (ret a) s a s.
Proof. apply (runs_quiet _ _ _ _ []); [done|constructor]. Qed.
Lemma runs_modify g s : runs (modify (on_nas g)) s tt (on_nas g s).
Proof. apply (runs_quiet _ _ _ _ []); [done|constructor]. Qed.
Lemma runs_emit e s : e <> AdspOff -> runs (emit e) s tt s.
Proof. intros He. apply (runs_quiet _ _ _ _ [e]); [done|]. by repeat constructor. Qed.
(** A run that powers the baseband down. *)
Definition downs {A} (m : MN A) (s : network) (a : A) (s' : network) : Prop :=
  forall f, exists f' t, m (with_cells_file f s) = Ret (a, with_cells_file f' s', t) /\ AdspOff ∈ t.
Lemma runs_downs {A B} (m : MN A) (k : A -> MN B) s a s1 b s2 :
  runs m s a s1 -> downs (k a) s1 b s2 -> downs (bind m k) s b s2.
Proof.
  intros Hm Hk f. destruct (Hm f) as (f1 & t1 & H1 & _). destruct (Hk f1) as (f2 & t2 & H2 & Ht2).
  exists f2, (t1 ++ t2). split; [by eapply bind_ret_run|]. apply elem_of_app. by right.
Qed.
Lemma downs_runs {A B} (m : MN A) (k : A -> MN B) s a s1 b s2 :
  downs m s a s1 -> runs (k a) s1 b s2 -> downs (bind m k) s b s2.
Proof.
  intros Hm Hk f. destruct (Hm f) as (f1 & t1 & H1 & Ht1). destruct (Hk f1) as (f2 & t2 & H2 & _).
  exists f2, (t1 ++ t2). split; [by eapply bind_ret_run|]. apply elem_of_app. by left.
Qed.
Lemma downs_run {A} (m : MN A) s a s' :
  downs m s a s' -> exists f t, m s = Ret (a, with_cells_file f s', t) /\ AdspOff ∈ t.
Proof. intros H. destruct (H (cells_file s)) as (f & t & Hm & Ht). destruct s. eauto. Qed.
(** Faults. *)
Lemma runs_fault {A B} (m : MN A) (k : A -> MN B) s a s1 :
  runs m s a s1 -> (forall f, k a (with_cells_file f s1) = Oob) -> forall f, bind m k (with_cells_file f s) = Oob.
Proof.
  intros Hm Hk f. destruct (Hm f) as (f1 & t & H1 & _). rewrite (bind_after _ _ _ _ _ _ H1). by rewrite Hk.
Qed.
Lemma fault_bind {A B} (m : MN A) (k : A -> MN B) s : m s = Oob -> bind m k s = Oob.
Proof. intros H. unfold bind. by rewrite H. Qed.
(** What is read of the state is not the file. *)
Lemma runs_get {B} (k : network -> MN B) s b s' :
  (forall f, runs (k (with_cells_file f s)) s b s') -> runs (bind get k) s b s'.
Proof. intros H f. rewrite bind_get. apply H. Qed.
Lemma runs_tracking {B} (k : config_prototype -> MN B) s b s' :
  runs (k (settings (nw_cfg s))) s b s' -> runs (bind tracking k) s b s'.
Proof. intros H f. unfold tracking. rewrite bind_assoc, bind_get, bind_ret. apply H. Qed.
Lemma downs_tracking {B} (k : config_prototype -> MN B) s b s' :
  downs (k (settings (nw_cfg s))) s b s' -> downs (bind tracking k) s b s'.
Proof. intros H f. unfold tracking. rewrite bind_assoc, bind_get, bind_ret. apply H. Qed.

Lemma store_runs env s : exists r, runs (store_report_data env) s r s.
Proof.
  unfold store_report_data, set_persistent_partition_rw, set_persistent_partition_ro, do_sync_fs.
  destruct (c_rw_ok (n_cfg env)) eqn:E1, (n_open env) eqn:E2,
    (persistent_logging (settings (nw_cfg s)) =? 0) eqn:E3, (c_ro_ok (n_cfg env)) eqn:E4;
    destruct s as [n fl ph cf]; cbn in E3; eexists; intros f;
    unfold tracking, zoom, bind, modify, get, emit, ret; cbn; rewrite ?E1, ?E2, ?E4; cbn;
    rewrite ?E3; cbn; eexists _, _; (split; [reflexivity|by repeat constructor]).
Qed.

(** ** The table *)

(** The client with the table [l]. *)
Definition with_reports (l : list network_status_reports) (s : network) : network :=
  on_nas (fun n => set_reports l (current_report n) n) s.

Lemma with_reports_twice l l' s : with_reports l (with_reports l' s) = with_reports l s.
Proof. done. Qed.
Lemma get_report_runs {B} pre r post (k : _ -> MN B) s i b s' :
  reports (nas s) = pre ++ r :: post -> zlen pre = i ->
  runs (k r) s b s' -> runs (bind (get_report i) k) s b s'.
Proof.
  intros Hl Hi H f. unfold get_report. rewrite bind_assoc, bind_get. unfold bind, lift at 1.
  cbn [nas with_cells_file]. rewrite Hl, rdA_at by done. cbn [cbind].
  destruct (H f) as (f' & t & -> & Ht). cbn. eauto.
Qed.
Lemma on_report_runs g pre r post s i :
  reports (nas s) = pre ++ r :: post -> zlen pre = i ->
  runs (on_report i g) s tt (with_reports (pre ++ g r :: post) s).
Proof.
  intros Hl Hi. apply (runs_quiet _ _ _ _ []); [|constructor]. intros f.
  unfold on_report, modifyM. cbn [nas with_cells_file]. rewrite Hl, rdA_at by done. cbn [cbind].
  by rewrite wrA_at.
Qed.

Lemma shift_down_spec {A} (x : A) l z : shift_down (x :: l ++ [z]) = l ++ [z; z].
Proof.
  revert x. induction l as [|y l IH]; intros x; [done|].
  change (shift_down (x :: (y :: l) ++ [z])) with (y :: shift_down (y :: l ++ [z])). by rewrite IH.
Qed.

Lemma shift_down_length {A} (l : list A) : zlen (shift_down l) = zlen l.
Proof.
  induction l as [|x l IH]; [done|]. destruct l as [|y l]; [done|].
  change (shift_down (x :: y :: l)) with (y :: shift_down (y :: l)). rewrite zlen_cons, IH. by rewrite !zlen_cons.
Qed.

(** What a known cell's entries become when it is looked for, and its last
    entry. *)
Definition mark (c : serving_cell) (r : network_status_reports) : network_status_reports :=
  if same_cell c (report r) then {| in_use := 1; report := set_found (report r) |} else r.
Fixpoint last_match (c : serving_cell) (l : list network_status_reports) (i id : Z) : Z :=
  match l with
  | [] => id
  | r :: l => last_match c l (i + 1) (if same_cell c (report r) then i else id)
  end.

Lemma find_loop_runs env c todo pre post s i id v :
  reports (nas s) = pre ++ todo ++ post -> zlen pre = i ->
  exists v', runs (find_loop env (length todo) c i id v) s (last_match c todo i id, v')
                  (with_reports (pre ++ map (mark c) todo ++ post) s).
Proof.
  revert pre s i id v. induction todo as [|r todo IH]; intros pre s i id v Hl Hi; cbn [length find_loop last_match].
  - exists v. assert (with_reports (pre ++ map (mark c) [] ++ post) s = s) as ->.
    { destruct s as [[] ? ? ?]. cbn in *. by rewrite Hl. }
    apply runs_ret.
  - assert (Hmap : forall x, pre ++ map x (r :: todo) ++ post = (pre ++ [x r]) ++ map x todo ++ post)
      by (intros; by rewrite <- app_assoc).
    rewrite Hmap. unfold mark at 1. destruct (same_cell c (report r)) eqn:E.
    + destruct (store_runs env (with_reports (pre ++ {| in_use := 1; report := set_found (report r) |} :: todo ++ post) s))
        as [b Hstore].
      destruct (IH (pre ++ [{| in_use := 1; report := set_found (report r) |}])
        (with_reports (pre ++ {| in_use := 1; report := set_found (report r) |} :: todo ++ post) s)
        (i + 1) i (opencellid_verified (report r))) as [v' IHr]; [cbn; by rewrite <- app_assoc|zl; lia|].
      exists v'. eapply get_report_runs; [exact Hl|done|]. rewrite E.
      eapply runs_bind; [exact (on_report_runs _ _ _ _ _ _ Hl Hi)|]. eapply runs_bind; [exact Hstore|].
      exact IHr.
    + destruct (IH (pre ++ [r]) s (i + 1) id v) as [v' IHr]; [by rewrite Hl, <- app_assoc|zl; lia|].
      exists v'. eapply get_report_runs; [exact Hl|done|]. by rewrite E.
Qed.

(** ** Notices *)

Definition total (pieces : list (list Z)) : Z := zlen (concat pieces).
Lemma total_cons text pieces : total (text :: pieces) = zlen text + total pieces.
Proof. apply zlen_app. Qed.
Lemma compose_run pieces b at_ :
  zlen b = 160 -> 0 <= at_ -> at_ + total (removelast pieces) < 160 ->
  exists b', compose (b, at_) pieces = Ret (b', at_ + total pieces) /\ zlen b' = 160.
Proof.
  revert b at_. induction pieces as [|text pieces IH]; intros b at_ Hb Ha Hlen.
  - exists b. split; [|done]. cbn. f_equal. f_equal. unfold total. cbn. zl. lia.
  - assert (Hr : at_ < 160).
    { pose proof (zlen_nonneg (concat (removelast (text :: pieces)))). unfold total in Hlen. lia. }
    destruct (append_cap 160 b at_ text Hb) as (b' & Hap & Hb' & _); [lia|].
    cbn [compose]. rewrite Hap. cbn [cbind]. rewrite total_cons.
    destruct pieces as [|text2 pieces].
    + exists b'. split; [|done]. cbn. f_equal. f_equal. unfold total. cbn. zl. lia.
    + change (removelast (text :: text2 :: pieces)) with (text :: removelast (text2 :: pieces)) in Hlen.
      rewrite total_cons in Hlen. pose proof (zlen_nonneg text).
      destruct (IH b' (at_ + zlen text)) as (b2 & Hb2 & Hz2); [done|lia..|].
      exists b2. rewrite Hb2. by rewrite Z.add_assoc.
Qed.

(** A notice that fits is told, a longer one faults. *)
Lemma warn_runs pieces s :
  phone_ok (nw_phone s) -> total (removelast pieces) < 160 -> 0 < total pieces <= 160 ->
  exists p, runs (warn pieces) s tt (with_part p s) /\ phone_ok p.
Proof.
  intros Hp H1 H2. destruct (compose_run pieces (replicate 160 0) 0) as (b & Hb & Hzb); [done|lia|lia|].
  rewrite Z.add_0_l in Hb. set (n := total pieces) in *.
  destruct (add_message_run (take (Z.to_nat n) b) (drop (Z.to_nat n) b) (nw_phone s) Hp) as (p & Hrun & Hpo & _).
  { unfold zlen in *. rewrite length_take. lia. }
  assert (zlen (take (Z.to_nat n) b) = n) as Hn by (unfold zlen in *; rewrite length_take; lia).
  rewrite take_drop, Hn in Hrun. exists p. split; [|done]. apply (runs_quiet _ _ _ _ []); [|constructor].
  intros f. unfold warn. rewrite (bind_lift _ _ _ _ Hb). exact (zoom_run Told _ (with_cells_file f s) _ _ _ Hrun).
Qed.
Lemma warn_faults pieces s :
  total (removelast pieces) < 160 -> 160 < total pieces ->
  call_simulation_mode (calls (nw_phone s)) = false -> queue_pos (texts (nw_phone s)) <= QUEUE_SIZE - 2 ->
  warn pieces s = Oob.
Proof.
  intros H1 H2 Hm Hq. destruct (compose_run pieces (replicate 160 0) 0) as (b & Hb & Hzb); [done|lia|lia|].
  unfold warn. rewrite (bind_lift _ _ _ _ Hb). apply zoom_fault. apply long_reply_oob; [lia|done|done].
Qed.

(** What the two notices about a cell print before the database's part. *)
Definition change_text (cell_id lac : Z) : list Z :=
  zs "Network status changed:" ++ nl ++ zs "Location Area / Cell ID changed:" ++ nl ++
  zs "Cell ID: " ++ fmt_x 8 cell_id ++ nl ++ zs "LAC: " ++ fmt_x 4 lac ++ nl.
Lemma change_text_length cell_id lac : 85 <= zlen (change_text cell_id lac) <= 105.
Proof.
  pose proof (fmt_x_length 8 cell_id). pose proof (fmt_x_length 4 lac). unfold change_text.
  rewrite !zlen_app. change (zlen (zs "Network status changed:")) with 23.
  change (zlen (zs "Location Area / Cell ID changed:")) with 32. change (zlen (zs "Cell ID: ")) with 9.
  change (zlen (zs "LAC: ")) with 5. change (zlen nl) with 1. lia.
Qed.

(** * The tracker *)

(** A cell is told from another by these five numbers. *)
Definition cell_key : Type := Z * Z * Z * Z * Z.
Definition key_of (c : serving_cell) : cell_key := (c_mcc c, c_mnc c, c_service c, c_cell_id c, c_lac c).
Definition report_key (r : network_status_reports) : cell_key :=
  let q := report r in (r_mcc q, r_mnc q, type_of_service q, r_cell_id q, r_lac q).

Lemma same_cell_key c r : same_cell c (report r) = true <-> report_key r = key_of c.
Proof.
  unfold same_cell, report_key, key_of. rewrite !andb_true_iff, !Z.eqb_eq. split.
  - intros [[[[-> ->] ->] ->] ->]. done.
  - intros [= -> -> -> -> ->]. done.
Qed.
Lemma mark_key c r : report_key (mark c r) = report_key r.
Proof. unfold mark. by destruct (same_cell c (report r)). Qed.

(** What the daemon remembers of the cells: those it knows, oldest first, and
    the one it met last, which it does not know yet. *)
Record tracker := { known : list cell_key; latest : cell_key }.
(** Learning a cell: the one before it becomes known, the oldest one is dropped
    from a full table. *)
Definition learn (k : cell_key) (t : tracker) : tracker :=
  {| known := (if MAX_REPORT_NUM - 1 <=? zlen (known t) then drop 1 (known t) else known t) ++ [latest t];
     latest := k |}.
Definition observe (k : cell_key) (t : tracker) : tracker :=
  if decide (k ∈ known t) then t
  else learn k t.

(** The table as a tracker: the entries below the current one are searched. *)
Definition tracker_of (n : nas_runtime) : tracker :=
  let keys := map report_key (reports n) in
  let i := Z.to_nat (current_report n) in
  {| known := take i keys; latest := default (0, 0, 0, 0, 0) (keys !! i) |}.

(** An entry, as far as the table's shape goes: its cell and whether it is free.
    The first entry stays free until the table is full; then come the cells that
    were met and the rest. *)
Definition entry_of (r : network_status_reports) : cell_key * bool := (report_key r, in_use r =? 0).
Inductive shape (current : Z) : list (cell_key * bool) -> Prop :=
| shape_growing used free : zlen used = current ->
    Forall (fun e => e.2 = false) used -> Forall (fun e => e.2 = true) free ->
    shape current (((0, 0, 0, 0, 0), true) :: used ++ free)
| shape_full l : current = MAX_REPORT_NUM - 1 -> Forall (fun e => e.2 = false) l -> shape current l.
Definition table_ok (n : nas_runtime) : Prop :=
  zlen (reports n) = MAX_REPORT_NUM /\ 0 <= current_report n < MAX_REPORT_NUM /\
  shape (current_report n) (map entry_of (reports n)).
Definition cells_ok (s : network) : Prop := table_ok (nas s) /\ phone_ok (nw_phone s).

Lemma last_match_known c l i id :
  0 <= i -> -1 <= id < i ->
  let j := last_match c l i id in
  (key_of c ∈ map report_key l -> exists pre r post, l = pre ++ r :: post /\ j = i + zlen pre /\
     report_key r = key_of c) /\
  (key_of c ∉ map report_key l -> j = id).
Proof.
  revert i id. induction l as [|r l IH]; intros i id Hi Hid; cbn [last_match map].
  - split; [by intros ?%not_elem_of_nil|done].
  - rewrite elem_of_cons.
    destruct (same_cell c (report r)) eqn:E.
    + apply same_cell_key in E. specialize (IH (i + 1) i). cbv zeta in IH. destruct IH as [IH1 IH2]; [lia..|].
      split; [intros _|by intros []; left].
      destruct (decide (key_of c ∈ map report_key l)) as [Hin|Hn].
      * destruct (IH1 Hin) as (pre & r' & post & -> & -> & Hr). exists (r :: pre), r', post.
        split_and!; try done. zl. lia.
      * rewrite (IH2 Hn). exists [], r, l. split_and!; try done. zl. lia.
    + assert (report_key r <> key_of c) by (intros H%same_cell_key; congruence).
      specialize (IH (i + 1) id). cbv zeta in IH. destruct IH as [IH1 IH2]; [lia..|]. split.
      * intros [?|Hin]; [congruence|]. destruct (IH1 Hin) as (pre & r' & post & -> & -> & Hr).
        exists (r :: pre), r', post. split_and!; try done. zl. lia.
      * intros Hn. apply IH2. tauto.
Qed.

(** ** The steps of an observation *)

Lemma cells_split s : cells_ok s ->
  exists pre r post, reports (nas s) = pre ++ r :: post /\ zlen pre = current_report (nas s).
Proof.
  intros ((Hl & Hc & _) & _). destruct (rdA_in (reports (nas s)) (current_report (nas s))) as [r Hr]; [lia|].
  apply rdA_lookup in Hr as [_ Hr]. apply list_elem_of_split_length in Hr as (pre & post & Hs & Hp).
  exists pre, r, post. split; [done|]. unfold zlen. lia.
Qed.

Lemma is_in_report_runs env c pre r post s :
  reports (nas s) = pre ++ r :: post -> zlen pre = current_report (nas s) ->
  runs (is_in_report env c) s (last_match c pre 0 (-1)) (with_reports (map (mark c) pre ++ r :: post) s).
Proof.
  intros Hl Hc. unfold is_in_report. apply runs_get. intros f. cbn [nas with_cells_file].
  rewrite <- Hc. replace (Z.to_nat (zlen pre)) with (length pre) by (unfold zlen; lia).
  destruct (find_loop_runs env c pre [] (r :: post) s 0 (-1) 0) as [v Hf]; [done..|].
  eapply runs_bind; [exact Hf|]. eapply runs_bind; [by apply runs_emit|]. apply runs_ret.
Qed.

(** The same entries in the table, whatever is noted of them. *)
Definition same_entries (l : list network_status_reports) (s : network) : Prop :=
  map entry_of l = map entry_of (reports (nas s)).
Lemma entries_keys (l : list network_status_reports) : map report_key l = map fst (map entry_of l).
Proof. by rewrite map_map. Qed.
Lemma same_entries_ok l s : same_entries l s -> cells_ok s -> cells_ok (with_reports l s).
Proof.
  intros Hk ((Hl & Hc & Hs) & Hp). split; [|done]. pose proof (f_equal length Hk) as Hz.
  rewrite !length_map in Hz. split; [cbn; unfold zlen in *; by rewrite Hz|]. split; [done|]. cbn. by rewrite Hk.
Qed.
Lemma same_entries_tracker l s : same_entries l s -> tracker_of (nas (with_reports l s)) = tracker_of (nas s).
Proof. intros Hk. unfold tracker_of. cbn. by rewrite !entries_keys, Hk. Qed.
Lemma tracker_split n pre r post :
  reports n = pre ++ r :: post -> zlen pre = current_report n ->
  tracker_of n = {| known := map report_key pre; latest := report_key r |}.
Proof.
  intros Hl Hc. unfold tracker_of. rewrite Hl, map_app, <- Hc. cbn [map].
  assert (Z.to_nat (zlen pre) = length (map report_key pre)) as -> by (rewrite length_map; unfold zlen; lia).
  by rewrite take_app_length, list_lookup_middle.
Qed.
Definition visible (c : serving_cell) : Prop := c_lac c <> 0 /\ c_cell_id c <> 0.
(** An entry that is searched and is a visible cell's is in use. *)
Lemma shape_in_use current pre post c e :
  shape current (pre ++ post) -> zlen pre = current -> visible c -> e ∈ pre -> e.1 = key_of c -> e.2 = false.
Proof.
  intros Hs Hp [_ Hc] Hin Hk. inversion Hs as [used free Hu Hused Hfree Heq|l Hcur Hall]; subst.
  - destruct pre as [|e0 pre]; [by apply not_elem_of_nil in Hin|]. cbn [app] in Heq. injection Heq as <- Heq.
    apply elem_of_cons in Hin as [-> |Hin]; [by unfold key_of in Hk; cbn in Hk; injection Hk; congruence|].
    assert (Htake : pre = take (length pre) (used ++ free)) by (rewrite Heq; by rewrite take_app_length).
    rewrite take_app_le in Htake by (unfold zlen in *; cbn [length] in *; lia). rewrite Htake in Hin.
    rewrite list.Forall_forall in Hused. apply Hused. apply elem_of_take in Hin as (j & Hj & _). by eapply list_elem_of_lookup_2.
  - rewrite list.Forall_forall in Hall. apply Hall, elem_of_app. by left.
Qed.
Lemma marks_entries c pre post s :
  cells_ok s -> visible c -> reports (nas s) = pre ++ post -> zlen pre = current_report (nas s) ->
  same_entries (map (mark c) pre ++ post) s.
Proof.
  intros ((_ & _ & Hs) & _) Hc Hl Hp. unfold same_entries. rewrite Hl, !map_app in *. f_equal. rewrite map_map.
  apply map_ext_in. intros r Hr%list_elem_of_In. unfold entry_of at 1. rewrite mark_key. unfold entry_of. f_equal.
  unfold mark. destruct (same_cell c (report r)) eqn:E; [|done]. apply same_cell_key in E. symmetry.
  refine (shape_in_use _ _ _ c (entry_of r) Hs _ Hc _ E); [by unfold zlen in *; rewrite length_map|].
  apply list_elem_of_fmap. by exists r.
Qed.
Lemma on_report_entries g i s :
  0 <= i < zlen (reports (nas s)) -> (forall r, entry_of (g r) = entry_of r) ->
  exists l, runs (on_report i g) s tt (with_reports l s) /\ same_entries l s.
Proof.
  intros Hi Hg. destruct (rdA_in (reports (nas s)) i) as [x Hx]; [lia|].
  apply rdA_lookup in Hx as [_ Hx]. apply list_elem_of_split_length in Hx as (a & b & Hab & Hal).
  exists (a ++ g x :: b). split; [apply (on_report_runs g a x b); [done|unfold zlen; lia]|].
  unfold same_entries. rewrite Hab, !map_app. cbn [map]. by rewrite Hg.
Qed.

(** The shape when a cell is learned. *)
Lemma shape_learn current pre r y post new :
  shape current (pre ++ r :: y :: post) -> zlen pre = current -> new.2 = false ->
  current < MAX_REPORT_NUM - 1 -> shape (current + 1) ((pre ++ [r]) ++ new :: post).
Proof.
  intros Hs Hp Hn Hc. inversion Hs as [used free Hu Hused Hfree Heq|l Hcur Hall]; [subst|lia].
  assert (Hsplit : pre ++ r :: y :: post = (pre ++ [r]) ++ y :: post) by (by rewrite <- app_assoc).
  rewrite Hsplit in Heq. destruct (pre ++ [r]) as [|e0 pre'] eqn:Ep; [by destruct pre|].
  cbn [app] in Heq |- *. injection Heq as <- Heq.
  assert (length used = length pre') as Hlen.
  { apply (f_equal length) in Ep. rewrite length_app in Ep. cbn in Ep. unfold zlen in *. lia. }
  apply app_inj_1 in Heq as [-> Heq]; [|done]. subst free. inversion_clear Hfree.
  replace (pre' ++ new :: post) with ((pre' ++ [new]) ++ post) by (by rewrite <- app_assoc).
  constructor; [unfold zlen in *; rewrite length_app; cbn [length]; lia| |done].
  apply Forall_app. split; [done|by constructor].
Qed.
(** ... and the oldest one is dropped. *)
Lemma shape_drop x pre r new :
  shape (MAX_REPORT_NUM - 1) ((x :: pre) ++ [r]) -> zlen (x :: pre) = MAX_REPORT_NUM - 1 -> new.2 = false ->
  shape (MAX_REPORT_NUM - 1) ((pre ++ [r]) ++ [new]).
Proof.
  intros Hs Hp Hn. apply shape_full; [done|]. apply Forall_app. split; [|by constructor].
  remember ((x :: pre) ++ [r]) as l0 eqn:Heq. destruct Hs as [used free Hu Hused Hfree|l Hcur Hall].
  - cbn [app] in Heq. injection Heq as _ Heq. assert (free = []) as ->.
    { apply (f_equal length) in Heq. rewrite !length_app in Heq. unfold zlen in *. cbn [length] in *.
      apply nil_length_inv. lia. }
    rewrite app_nil_r in Heq. by subst.
  - subst l. by inversion Hall.
Qed.

Definition entered (c : serving_cell) (r : network_status_reports) : network_status_reports :=
  {| in_use := 1; report := new_report c (report r) |}.
Lemma add_report_grow c s pre r y post :
  reports (nas s) = pre ++ r :: y :: post -> zlen pre = current_report (nas s) ->
  current_report (nas s) < MAX_REPORT_NUM - 1 ->
  runs (add_report c) s (current_report (nas s) + 1)
    (on_nas (set_reports ((pre ++ [r]) ++ entered c y :: post) (current_report (nas s) + 1)) s).
Proof.
  intros Hs Hp Hc. eapply runs_bind; [apply runs_modify|]. apply runs_get. intros f.
  unfold on_nas, with_cells_file. cbn [nas]. rewrite (proj2 (Z.leb_gt _ _)) by lia.
  cbn [set_reports current_report reports]. eapply runs_bind; [|apply runs_ret].
  eapply (on_report_runs (entered c) (pre ++ [r]) y post); [cbn; by rewrite Hs, <- app_assoc|zl; lia].
Qed.
Lemma add_report_drop c s x pre r :
  reports (nas s) = (x :: pre) ++ [r] -> zlen (x :: pre) = current_report (nas s) ->
  current_report (nas s) = MAX_REPORT_NUM - 1 ->
  runs (add_report c) s (MAX_REPORT_NUM - 1)
    (on_nas (set_reports ((pre ++ [r]) ++ [entered c r]) (MAX_REPORT_NUM - 1)) s).
Proof.
  intros Hs Hp Hc. eapply runs_bind; [apply runs_modify|]. apply runs_get. intros f.
  unfold on_nas, with_cells_file. cbn [nas]. rewrite Hc, Hs.
  change (MAX_REPORT_NUM - 1 <=? MAX_REPORT_NUM - 1) with true. cbn [set_reports current_report reports].
  change ((x :: pre) ++ [r]) with (x :: pre ++ [r]). rewrite shift_down_spec.
  eapply runs_bind; [|apply runs_ret].
  eapply (on_report_runs (entered c) (pre ++ [r]) r []); [cbn; by rewrite <- app_assoc|zl; lia].
Qed.
Lemma add_report_runs c s :
  cells_ok s ->
  exists l n, runs (add_report c) s n (on_nas (set_reports l n) s) /\ table_ok (set_reports l n (nas s)) /\
    tracker_of (set_reports l n (nas s)) = learn (key_of c) (tracker_of (nas s)).
Proof.
  intros Hok. destruct (cells_split s Hok) as (pre & r & post & Hs & Hpre). destruct Hok as ((Hl & Hc & Hsh) & Hp).
  rewrite (tracker_split _ _ _ _ Hs Hpre). unfold learn, known, latest.
  replace (zlen (map report_key pre)) with (zlen pre) by (unfold zlen; by rewrite length_map).
  rewrite Hs in Hl, Hsh. rewrite map_app in Hsh. cbn [map] in Hsh. destruct post as [|y post]; zl.
  - destruct pre as [|x pre]; [unfold MAX_REPORT_NUM in *; zl; lia|].
    assert (Hcur : current_report (nas s) = MAX_REPORT_NUM - 1) by lia.
    eexists _, _. split; [by apply (add_report_drop c s x pre r)|]. rewrite (proj2 (Z.leb_le _ _)) by (zl; lia).
    assert (Hzl : zlen (pre ++ [r]) = MAX_REPORT_NUM - 1) by (zl; lia). split.
    + split; [cbn; zl; lia|]. split; [cbn; unfold MAX_REPORT_NUM; lia|]. cbn [current_report reports set_reports].
      rewrite !map_app. apply (shape_drop (entry_of x) (map entry_of pre) (entry_of r)); [by rewrite <- Hcur| |done].
      rewrite <- Hcur, <- Hpre. unfold zlen. cbn [length]. by rewrite length_map.
    + rewrite (tracker_split _ (pre ++ [r]) (entered c r) []) by (done || (cbn; zl; lia)). by rewrite map_app.
  - pose proof (zlen_nonneg post). assert (Hcur : current_report (nas s) < MAX_REPORT_NUM - 1) by lia.
    eexists _, _. split; [by apply (add_report_grow c s pre r y post)|]. rewrite (proj2 (Z.leb_gt _ _)) by lia. split.
    + split; [cbn; zl; lia|]. split; [cbn; lia|]. cbn [current_report reports set_reports].
      rewrite !map_app. apply (shape_learn _ (map entry_of pre) (entry_of r) (entry_of y)); [exact Hsh| |done|done].
      rewrite <- Hpre. unfold zlen. by rewrite length_map.
    + rewrite (tracker_split _ (pre ++ [r]) (entered c y) post) by (done || (cbn; zl; lia)). by rewrite map_app.
Qed.

(** [s'] is [s] with the tracker [t]; what is noted of a cell, the database and
    the phone may differ. *)
Definition tracks (t : tracker) (s s' : network) : Prop :=
  cells_ok s' /\ tracker_of (nas s') = t /\ nw_cfg s' = nw_cfg s.

Lemma tracks_refl s : cells_ok s -> tracks (tracker_of (nas s)) s s.
Proof. done. Qed.
Lemma tracks_trans t t' s s1 s2 : tracks t s s1 -> tracks t' s1 s2 -> tracks t' s s2.
Proof. intros (_ & _ & H1) (H2 & H3 & H4). split_and!; [done..|congruence]. Qed.
Lemma tracks_same_entries l s : cells_ok s -> same_entries l s -> tracks (tracker_of (nas s)) s (with_reports l s).
Proof. intros Hok Hk. split_and!; [by apply same_entries_ok|by apply same_entries_tracker|done]. Qed.
Lemma tracks_database m fp k s : cells_ok s -> tracks (tracker_of (nas s)) s (on_nas (set_database m fp k) s).
Proof. done. Qed.
Lemma set_database_id n : set_database (cellid_data_missing n) (curr_ocid_db_fp n) (open_cellid_num_items n) n = n.
Proof. by destruct n. Qed.

Lemma cell_info_runs cell_id lac s :
  exists v m fp k, runs (get_opencellid_cell_info cell_id lac) s v (on_nas (set_database m fp k) s).
Proof.
  assert (Hid : on_nas (set_database (cellid_data_missing (nas s)) (curr_ocid_db_fp (nas s))
    (open_cellid_num_items (nas s))) s = s) by (unfold on_nas; rewrite set_database_id; by destruct s).
  set (m := cellid_data_missing (nas s)) in *. set (fp := curr_ocid_db_fp (nas s)) in *.
  set (k := open_cellid_num_items (nas s)) in *.
  destruct (m =? 1) eqn:Em.
  2: { exists no_cell, m, fp, k. rewrite Hid. apply runs_get. intros f. cbn [nas with_cells_file].
       fold m. rewrite Em. apply runs_ret. }
  destruct fp as [file|] eqn:Ef.
  2: { exists no_cell, 0, None, k. apply runs_get. intros f. cbn [nas with_cells_file]. fold m.
       unfold fp in Ef. rewrite Em, Ef. eapply runs_bind; [apply runs_modify|].
       replace (on_nas (set_missing 0) s) with (on_nas (set_database 0 None k) s)
         by (unfold on_nas, set_missing; by rewrite Ef). apply runs_ret. }
  destruct (search_cells (Z.to_nat k) file (network_type (curr_state (nas s))) cell_id lac) as [x| |] eqn:Es.
  1, 2: eexists _, m, (Some file), k; rewrite Hid; apply runs_get; intros f; cbn [nas with_cells_file];
    fold m k; unfold fp in Ef; rewrite Em, Ef, Es; apply runs_ret.
  exists no_cell, m, None, k. apply runs_get. intros f. cbn [nas with_cells_file].
  fold m k. unfold fp in Ef. rewrite Em, Ef, Es. eapply runs_bind; [apply runs_modify|]. apply runs_ret.
Qed.
Lemma in_db_runs cell_id lac s :
  exists v m fp k, runs (is_cell_id_in_db cell_id lac) s v (on_nas (set_database m fp k) s).
Proof.
  destruct (cellid_data_missing (nas s) =? 1) eqn:Em.
  - destruct (cell_info_runs cell_id lac s) as (v & m & fp & k & Hr).
    exists (if listed_as (network_type (curr_state (nas s))) cell_id lac v then 1 else 0), m, fp, k.
    apply runs_get. intros f. cbn [nas with_cells_file]. rewrite Em.
    eapply runs_bind; [exact Hr|]. apply runs_get. intros f2. apply runs_ret.
  - exists (- EINVAL), (cellid_data_missing (nas s)), (curr_ocid_db_fp (nas s)), (open_cellid_num_items (nas s)).
    unfold on_nas. rewrite set_database_id. destruct s as [n fl p c]. apply runs_get. intros f.
    cbn [nas with_cells_file] in *. rewrite Em. apply runs_ret.
Qed.

(** The notice about a new cell, when the database has no part in it. *)
Definition plain_notice (c : config_prototype) : Prop :=
  signal_tracking_mode c <= 1 \/ signal_tracking_notify_cell_change c = 0.
Lemma notice_runs c seen s :
  cells_ok s -> plain_notice (settings (nw_cfg s)) ->
  exists s', runs (notice_change c seen) s tt s' /\ tracks (tracker_of (nas s)) s s'.
Proof.
  intros Hok Hm. set (mode := signal_tracking_notify_cell_change (settings (nw_cfg s))) in *.
  assert (exists s', runs (when ((mode =? 2) || ((mode =? 1) && negb seen))
      (notify_cellid_change (c_cell_id c) (c_lac c))) s tt s' /\ tracks (tracker_of (nas s)) s s')
    as (s1 & Hn & Ht).
  { destruct ((mode =? 2) || _) eqn:E; cbn [when]; [|exists s; split; [apply runs_ret|done]].
    destruct Hm as [Hm|Hm]; [|fold mode in Hm; rewrite Hm in E; done].
    pose proof (change_text_length (c_cell_id c) (c_lac c)) as Hl.
    destruct (warn_runs [change_text (c_cell_id c) (c_lac c)] s) as (p & Hr & Hp).
    { apply Hok. } { change (0 < 160). lia. } { rewrite total_cons. change (total []) with 0. lia. }
    exists (with_part p s). split; [|by destruct Hok].
    unfold notify_cellid_change. apply runs_tracking. rewrite (proj2 (Z.ltb_ge _ _)) by lia. exact Hr. }
  destruct (negb (c_cell_id c =? current_cell_id (nas s)) || negb (c_lac c =? current_lac (nas s))) eqn:E.
  - exists (on_nas (set_current_cell (c_cell_id c) (c_lac c)) s1). split; [|done].
    apply runs_get. intros f. cbn [nas with_cells_file]. rewrite E. cbn [when]. apply runs_tracking.
    eapply runs_bind; [exact Hn|apply runs_modify].
  - exists s. split; [|done]. apply runs_get. intros f. cbn [nas with_cells_file]. rewrite E. apply runs_ret.
Qed.

(** The modes that learn, while no notice looks into the database. *)
Definition learning (c : config_prototype) : Prop :=
  signal_tracking_mode c = 0 \/ signal_tracking_mode c = 2 /\ signal_tracking_notify_cell_change c = 0.
Lemma learn_runs c s :
  cells_ok s -> exists n s', runs (add_report c) s n s' /\ 0 <= n < MAX_REPORT_NUM /\
    tracks (learn (key_of c) (tracker_of (nas s))) s s'.
Proof.
  intros Hok. destruct (add_report_runs c s Hok) as (l & n & Hr & Hl & Ht).
  exists n, (on_nas (set_reports l n) s). split; [done|]. split; [apply Hl|]. split; [|done]. by destruct Hok.
Qed.
Lemma report_runs g i s :
  cells_ok s -> 0 <= i < MAX_REPORT_NUM -> (forall r, entry_of (g r) = entry_of r) ->
  exists s', runs (on_report i g) s tt s' /\ tracks (tracker_of (nas s)) s s'.
Proof.
  intros Hok Hi Hg. destruct (on_report_entries g i s) as (l & Hr & Hk); [by rewrite (proj1 (proj1 Hok))|done|].
  exists (with_reports l s). split; [done|by apply tracks_same_entries].
Qed.
Lemma track_runs c (seen : bool) s :
  cells_ok s -> learning (settings (nw_cfg s)) ->
  exists s', runs (track c seen) s tt s' /\
    tracks (if seen then tracker_of (nas s) else learn (key_of c) (tracker_of (nas s))) s s'.
Proof.
  intros Hok [Hm|[Hm _]].
  - destruct seen.
    + exists s. split; [|done]. apply runs_tracking. rewrite Hm. apply runs_ret.
    + destruct (learn_runs c s Hok) as (n & s' & Hr & _ & Ht). exists s'. split; [|done].
      apply runs_tracking. rewrite Hm. eapply runs_bind; [exact Hr|apply runs_ret].
  - destruct (in_db_runs (c_cell_id c) (c_lac c) s) as (v & m & fp & k & Hdb).
    pose proof (tracks_database m fp k s Hok) as Ht. set (s1 := on_nas _ s) in *. destruct seen.
    + exists s1. split; [|done]. apply runs_tracking. rewrite Hm. eapply runs_bind; [exact Hdb|]. apply runs_ret.
    + destruct (learn_runs c s1 (proj1 Ht)) as (n & s2 & Hr & Hn & Ht2).
      destruct (report_runs (fun r => {| in_use := in_use r; report := set_verified (report r) |}) n s2)
        as (s3 & Hv & Ht3); [apply Ht2|done|done|].
      destruct (v =? 1) eqn:Ev.
      * exists s3. split; [|eapply tracks_trans; [exact Ht2|]; by rewrite (proj1 (proj2 Ht2)) in Ht3].
        apply runs_tracking. rewrite Hm. eapply runs_bind; [exact Hdb|]. eapply runs_bind; [exact Hr|].
        rewrite Ev. exact Hv.
      * exists s2. split; [|exact Ht2]. apply runs_tracking. rewrite Hm. eapply runs_bind; [exact Hdb|].
        eapply runs_bind; [exact Hr|]. rewrite Ev. apply runs_ret.
Qed.

(** Looking for a cell and noting its levels. *)
Lemma is_known_runs env c s :
  cells_ok s -> visible c ->
  exists id l, runs (is_in_report env c) s id (with_reports l s) /\ same_entries l s /\
    (0 <=? id) = bool_decide (key_of c ∈ known (tracker_of (nas s))) /\ id < MAX_REPORT_NUM.
Proof.
  intros Hok Hc. destruct (cells_split s Hok) as (pre & r & post & Hs & Hpre).
  exists (last_match c pre 0 (-1)), (map (mark c) pre ++ r :: post).
  split; [by apply is_in_report_runs|]. split; [by apply marks_entries|].
  rewrite (tracker_split _ _ _ _ Hs Hpre). cbn [known].
  destruct (last_match_known c pre 0 (-1)) as [H1 H2]; [lia..|].
  case_bool_decide as Hin.
  - destruct (H1 Hin) as (a & x & b & Hab & -> & _). destruct Hok as ((_ & Hcur & _) & _). subst pre. zl.
    pose proof (zlen_nonneg a). pose proof (zlen_nonneg b). split; [by ifdec|lia].
  - rewrite (H2 Hin). by split.
Qed.

(** Steps that leave all but the table as it is. *)
Definition retabled (s s' : network) : Prop := exists l n, s' = on_nas (set_reports l n) s.
Lemma retabled_trans s s1 s2 : retabled s s1 -> retabled s1 s2 -> retabled s s2.
Proof. intros (l & n & ->) (l' & n' & ->). by exists l', n'. Qed.
Lemma retabled_refl s : retabled s s.
Proof. exists (reports (nas s)), (current_report (nas s)). by destruct s as [[] ? ? ?]. Qed.

(** What follows when the cell was looked for and its levels were noted. *)
Definition settle (c : serving_cell) (seen : bool) : MN unit := track c seen ;> notice_change c seen.
Lemma process_split env c s :
  cells_ok s -> visible c ->
  exists s1, tracks (tracker_of (nas s)) s s1 /\ retabled s s1 /\
    let rest := settle c (bool_decide (key_of c ∈ known (tracker_of (nas s)))) in
    let whole := process_current_network_data env c in
    (forall s', runs rest s1 tt s' -> runs whole s tt s') /\
    (forall s', downs rest s1 tt s' -> downs whole s tt s') /\
    ((forall f, rest (with_cells_file f s1) = Oob) -> forall f, whole (with_cells_file f s) = Oob).
Proof.
  intros Hok Hc. destruct (is_known_runs env c s Hok Hc) as (id & l & Hr & Hkeys & Hseen & Hid).
  set (seen := bool_decide _) in *. pose proof (tracks_same_entries l s Hok Hkeys) as Ht1.
  assert (exists l', runs (when (0 <=? id) (on_report id (fun r => {| in_use := in_use r; report := update_report c (report r) |}) ;>
      do* _ := store_report_data env in ret tt)) (with_reports l s) tt (with_reports l' s) /\
      tracks (tracker_of (nas s)) s (with_reports l' s)) as (l' & Hr2 & Ht2).
  { destruct (0 <=? id) eqn:E; cbn [when]; [|exists l; split; [apply runs_ret|done]]. b2p.
    destruct (on_report_entries (fun r => {| in_use := in_use r; report := update_report c (report r) |}) id
      (with_reports l s)) as (l2 & Hu & Hk2); [rewrite (proj1 (proj1 (proj1 Ht1))); lia|done|].
    destruct (store_runs env (with_reports l2 s)) as [v Hv]. exists l2. split.
    - eapply runs_bind; [exact Hu|]. eapply runs_bind; [exact Hv|apply runs_ret].
    - eapply tracks_trans; [exact Ht1|]. rewrite <- (proj1 (proj2 Ht1)).
      exact (tracks_same_entries l2 (with_reports l s) (proj1 Ht1) Hk2). }
  exists (with_reports l' s). split; [done|]. split; [by exists l', (current_report (nas s))|].
  cbv zeta. unfold process_current_network_data, settle. rewrite <- Hseen. destruct Hc as [Hlac Hcell]. ifdec. cbn [orb]. split_and!.
  - intros s' H. eapply runs_bind; [exact Hr|]. cbv zeta. eapply runs_bind; [exact Hr2|exact H].
  - intros s' H. eapply runs_downs; [exact Hr|]. cbv zeta. eapply runs_downs; [exact Hr2|exact H].
  - intros H. eapply runs_fault; [exact Hr|]. cbv zeta. eapply runs_fault; [exact Hr2|exact H].
Qed.

Lemma process_runs env c s :
  cells_ok s -> learning (settings (nw_cfg s)) -> visible c ->
  exists s', runs (process_current_network_data env c) s tt s' /\
    tracks (observe (key_of c) (tracker_of (nas s))) s s'.
Proof.
  intros Hok Hm Hc. destruct (process_split env c s Hok Hc) as (s1 & Ht1 & _ & Hrun & _).
  set (seen := bool_decide _) in *.
  destruct (track_runs c seen s1) as (s2 & Hr2 & Ht2); [apply Ht1|by rewrite (proj2 (proj2 Ht1))|].
  rewrite (proj1 (proj2 Ht1)) in Ht2. pose proof (tracks_trans _ _ _ _ _ Ht1 Ht2) as Ht12.
  destruct (notice_runs c seen s2) as (s3 & Hr3 & Ht3); [apply Ht2| |].
  { rewrite (proj2 (proj2 Ht12)). destruct Hm as [Hm|[_ Hn]]; [left; lia|by right]. }
  exists s3. split; [apply Hrun; by eapply runs_bind|].
  rewrite (proj1 (proj2 Ht12)) in Ht3. pose proof (tracks_trans _ _ _ _ _ Ht12 Ht3) as Ht.
  replace (observe _ _) with (if seen then tracker_of (nas s) else learn (key_of c) (tracker_of (nas s))); [done|].
  unfold observe, seen. by destruct (decide _), (bool_decide_reflect (key_of c ∈ known (tracker_of (nas s)))).
Qed.

(** * Learning *)

Fixpoint process_all (l : list (nas_env * serving_cell)) : MN unit :=
  match l with
  | [] => ret tt
  | (env, c) :: l => (process_current_network_data env c) ;> (process_all l)
  end.

(** A client that has just started. *)
Definition no_capability : service_capability :=
  {| gprs := 0; edge := 0; hsdpa := 0; hsupa := 0; wcdma := 0; gsm := 0; lte := 0; hsdpa_plus := 0;
     dc_hsdpa_plus := 0 |}.
Definition no_status : basic_network_status :=
  {| operator_name := replicate 32 0; st_mcc := replicate 4 0; st_mnc := replicate 3 0;
     capability := no_capability; network_registration_status := 0; circuit_switch_attached := 0;
     packet_switch_attached := 0; radio_access := 0; network_type := 0; signal_level := 0 |}.
Definition empty_report : network_status_reports :=
  {| in_use := 0; report :=
     {| r_mcc := 0; r_mnc := 0; type_of_service := 0; r_lac := 0; phy_cell_id := 0; r_cell_id := 0;
        bsic := 0; bcch := 0; psc := 0; arfcn := 0; srx_level_min := 0; srx_level_max := 0;
        srx_level_avg := 0; rx_level_min := 0; rx_level_max := 0; rx_level_avg := 0;
        found_in_network := 0; opencellid_verified := 0 |} |}.
Definition initial_nas : nas_runtime :=
  {| curr_state := no_status; prev_state := no_status; curr_plmn := [0; 0; 0]; prev_plmn := [0; 0; 0];
     current_report := 0; reports := replicate 4096 empty_report; current_cell_id := 0; current_lac := 0;
     cellid_data_missing := 0; curr_ocid_db_fp := None; open_cellid_num_items := 0;
     open_cellid_mcc := replicate 4 0; open_cellid_mnc := replicate 3 0 |}.
Definition tracking_in (mode notify : Z) : cfg_state :=
  {| settings := set_signal_tracking_mode_field mode (set_signal_tracking_notify_cell_change_field notify
       (set_signal_tracking_field 1 sample_settings)); conf_file := None; boot_file := None |}.
Definition network_in (n : nas_runtime) (mode notify : Z) : network :=
  {| nas := n; cells_file := None; nw_phone := idle_phone; nw_cfg := tracking_in mode notify |}.
Definition all_open : nas_env :=
  {| n_cfg := {| c_rw_ok := true; c_ro_ok := true; c_open_conf := true; c_open_boot := true |};
     n_open := true; n_database := fun _ => None; n_pad := 0; n_stack := []; n_call_id := 0 |}.
Definition sample_cell (id : Z) : serving_cell :=
  {| c_mcc := 214; c_mnc := 7; c_service := 5; c_lac := 0x1234; c_phy_cell_id := 0; c_cell_id := id;
     c_bsic := 0; c_bcch := 0; c_psc := 100; c_arfcn := 3000; c_srx_lev := -90; c_rx_lev := 0 |}.
Lemma empty_table_ok n : reports n = replicate 4096 empty_report -> current_report n = 0 -> table_ok n.
Proof.
  intros Hl Hc. unfold table_ok. rewrite Hl, Hc. split; [by vm_compute|]. split; [done|].
  change (map entry_of (replicate 4096 empty_report)) with
    (((0, 0, 0, 0, 0), true) :: [] ++ map entry_of (replicate 4095 empty_report)).
  constructor; [done|constructor|]. apply Forall_map. by apply Forall_replicate.
Qed.
Lemma network_in_ok n mode notify :
  reports n = replicate 4096 empty_report -> current_report n = 0 -> cells_ok (network_in n mode notify).
Proof. intros H1 H2. split; [by apply empty_table_ok|exact idle_phone_ok]. Qed.
Lemma initial_network_ok mode notify : cells_ok (network_in initial_nas mode notify).
Proof. by apply network_in_ok. Qed.

(** * The modes that lock *)

(** A queue with room, outside of a simulated call. *)
Definition room (p : phone) : Prop :=
  call_simulation_mode (calls p) = false /\ queue_pos (texts p) <= QUEUE_SIZE - 2.

Definition emergency_text (cell_id lac : Z) : list Z :=
  zs "Emergency: I connected to an unknown Cell ID and will lock myself up" ++ nl ++
  zs "Reboot me to use me again" ++ nl ++
  zs "Cell ID: " ++ fmt_x 8 cell_id ++ nl ++ zs "LAC: " ++ fmt_x 4 lac ++ nl.
Lemma emergency_text_length cell_id lac :
  zlen (emergency_text cell_id lac) = 111 + zlen (fmt_x 8 cell_id) + zlen (fmt_x 4 lac).
Proof.
  unfold emergency_text. rewrite !zlen_app.
  change (zlen (zs "Emergency: I connected to an unknown Cell ID and will lock myself up")) with 68.
  change (zlen (zs "Reboot me to use me again")) with 25. change (zlen (zs "Cell ID: ")) with 9.
  change (zlen (zs "LAC: ")) with 5. change (zlen nl) with 1. lia.
Qed.
(** A cell as the baseband reports it. *)
Definition cell_range (c : serving_cell) : Prop := 0 <= c_cell_id c < 4294967296 /\ 0 <= c_lac c < 65536.
Lemma emergency_length c :
  cell_range c -> zlen (emergency_text (c_cell_id c) (c_lac c)) = 123.
Proof. intros [H1 H2]. rewrite emergency_text_length, !fmt_x_exact by lia. done. Qed.

Lemma emergency_faults c s :
  cell_range c -> room (nw_phone s) -> emergency_baseband_pwoerdown (c_cell_id c) (c_lac c) (-1) s = Oob.
Proof.
  intros Hc [Hm Hq]. pose proof (emergency_length c Hc) as Hl. apply fault_bind.
  refine (warn_faults [emergency_text (c_cell_id c) (c_lac c); zs "OpenCellid DB check: Database not loaded!"]
    s _ _ Hm Hq).
  - change (removelast _) with [emergency_text (c_cell_id c) (c_lac c)]. rewrite total_cons.
    change (total []) with 0. lia.
  - rewrite !total_cons. change (total []) with 0.
    change (zlen (zs "OpenCellid DB check: Database not loaded!")) with 41. lia.
Qed.
Lemma emergency_told c s :
  cell_range c -> cells_ok s ->
  exists s', downs (emergency_baseband_pwoerdown (c_cell_id c) (c_lac c) 0) s tt s' /\
    tracks (tracker_of (nas s)) s s'.
Proof.
  intros Hc Hok. pose proof (emergency_length c Hc) as Hl.
  destruct (warn_runs [emergency_text (c_cell_id c) (c_lac c); zs "OpenCellid DB check: Not found in db!"] s)
    as (p & Hr & Hpo).
  - apply Hok.
  - change (removelast _) with [emergency_text (c_cell_id c) (c_lac c)]. rewrite total_cons.
    change (total []) with 0. lia.
  - rewrite !total_cons. change (total []) with 0.
    change (zlen (zs "OpenCellid DB check: Not found in db!")) with 37. lia.
  - exists (with_part p s). split; [|by destruct Hok].
    eapply runs_downs; [exact Hr|]. intros f. exists f, [AdspOff]. split; [done|by left].
Qed.

(** The strict mode without the database: a cell that is known is let pass
    with nothing but its levels changed; any other is to be told as an emergency
    before the baseband is powered down, but that text has 164 characters: it
    is read past the end of the reply and written past the end of the queued
    message. *)
Theorem strict_mode_locks env c s :
  cells_ok s -> signal_tracking_mode (settings (nw_cfg s)) = 1 -> visible c -> cell_range c ->
  (key_of c ∈ known (tracker_of (nas s)) ->
   exists s' t, process_current_network_data env c s = Ret (tt, s', t) /\ (AdspOff ∉ t) /\ cells_ok s' /\
     tracker_of (nas s') = tracker_of (nas s)) /\
  (key_of c ∉ known (tracker_of (nas s)) -> room (nw_phone s) -> process_current_network_data env c s = Oob).
Proof.
  intros Hok Hm Hc Hrange. destruct (process_split env c s Hok Hc) as (s1 & Ht1 & (l & n & Hs1) & Hrun & _ & Hfault).
  assert (Hm1 : signal_tracking_mode (settings (nw_cfg s1)) = 1) by (by rewrite (proj2 (proj2 Ht1))).
  split; intros Hk.
  - rewrite bool_decide_eq_true_2 in Hrun by done.
    destruct (notice_runs c true s1) as (s2 & Hr2 & Ht2); [apply Ht1|left; lia|].
    destruct (runs_run _ _ _ _ (Hrun s2 ltac:(eapply runs_bind; [|exact Hr2]; apply runs_tracking; rewrite Hm1;
      apply runs_ret))) as (f & t & Hp & Hq).
    exists (with_cells_file f s2), t. split; [done|]. split; [by apply quiet_not|]. split; [apply Ht2|].
    cbn. rewrite (proj1 (proj2 Ht2)). apply Ht1.
  - rewrite bool_decide_eq_false_2 in Hfault by done. intros Hroom.
    assert (s = with_cells_file (cells_file s) s) as -> by (by destruct s). apply Hfault. intros f.
    unfold settle. apply fault_bind. unfold track, tracking. rewrite bind_assoc, bind_get, bind_ret.
    cbn [nw_cfg with_cells_file]. rewrite Hm1. apply emergency_faults; [done|]. by rewrite Hs1.
Qed.
Lemma strict_mode_locks_witness :
  process_current_network_data all_open (sample_cell 1) (network_in initial_nas 1 2) = Oob.
Proof.
  refine (proj2 (strict_mode_locks all_open (sample_cell 1) (network_in initial_nas 1 2) _ _ _ _) _ _).
  - apply initial_network_ok.
  - done.
  - done.
  - done.
  - apply not_elem_of_nil.
  - done.
Defined.

(** * The database *)

(** The file of a database of these cells, and the client that has it open. *)
Definition database_of (file : list Z) (cells : list ocid_cell_slim) : Prop :=
  exists items, file = concat items /\ Forall2 (fun b c => zlen b = SZ_OCID /\ dec_ocid b = Ret c) items cells.
Definition loaded (n : nas_runtime) (cells : list ocid_cell_slim) : Prop :=
  cellid_data_missing n = 1 /\
  exists file, curr_ocid_db_fp n = Some file /\ open_cellid_num_items n = zlen cells /\ database_of file cells.
Definition listed (ty : Z) (c : serving_cell) (cells : list ocid_cell_slim) : bool :=
  existsb (listed_as ty (c_cell_id c) (c_lac c)) cells.

Lemma search_cells_spec file cells ty cell_id lac :
  database_of file cells ->
  search_cells (length cells) file ty cell_id lac =
  match List.find (listed_as ty cell_id lac) cells with Some x => Found x | None => NotListed end.
Proof.
  intros (items & -> & Hall). induction Hall as [|b x items cells [Hb Hx] _ IH]; [done|].
  assert (length b = 27)%nat as Hl by (unfold zlen, SZ_OCID in Hb; lia).
  cbn [length search_cells concat List.find]. rewrite take_app_length' by done. rewrite Hx.
  destruct (listed_as ty cell_id lac x); [done|]. by rewrite drop_app_length' by done.
Qed.
Lemma cell_info_loaded cell_id lac cells s :
  loaded (nas s) cells ->
  get_opencellid_cell_info cell_id lac s =
  Ret (default no_cell (List.find (listed_as (network_type (curr_state (nas s))) cell_id lac) cells), s, []).
Proof.
  intros (Hm & file & Hf & Hn & Hdb). unfold get_opencellid_cell_info. rewrite bind_get, Hm, Hf, Hn.
  change (negb (1 =? 1)) with false. cbn match.
  replace (Z.to_nat (zlen cells)) with (length cells) by (unfold zlen; lia).
  rewrite (search_cells_spec file cells) by done. by destruct (List.find _ _).
Qed.
(** Exactly the cells the database lists for the current kind of network. *)
Lemma in_db_loaded c cells s :
  loaded (nas s) cells -> visible c ->
  is_cell_id_in_db (c_cell_id c) (c_lac c) s =
  Ret (if listed (network_type (curr_state (nas s))) c cells then 1 else 0, s, []).
Proof.
  intros Hl [_ Hid]. unfold is_cell_id_in_db. rewrite bind_get, (proj1 Hl).
  change (negb (1 =? 1)) with false. cbn match. rewrite (bind_step _ _ _ _ _ (cell_info_loaded _ _ _ _ Hl)), bind_get.
  unfold listed. set (ty := network_type (curr_state (nas s))).
  destruct (List.find _ cells) as [x|] eqn:E; cbn [from_option id].
  - apply find_some in E as [Hin Hx]. rewrite Hx.
    assert (existsb (listed_as ty (c_cell_id c) (c_lac c)) cells = true) as -> by (apply existsb_exists; eauto). done.
  - assert (existsb (listed_as ty (c_cell_id c) (c_lac c)) cells = false) as ->.
    { apply not_true_is_false. intros (x & Hin & Hx)%existsb_exists.
      by rewrite (find_none _ _ E _ Hin) in Hx. }
    unfold listed_as, no_cell. cbn [radio cell area]. rewrite (proj2 (Z.eqb_neq (c_cell_id c) 0)) by done.
    by rewrite andb_false_r.
Qed.

(** ** Learning with a database *)

(** No place of the cell is known: no database is open, or one that does not list it. *)
Definition unplaced (n : nas_runtime) (c : serving_cell) : Prop :=
  cellid_data_missing n <> 1 \/
  exists cells, loaded n cells /\ listed (network_type (curr_state n)) c cells = false.
Definition database_part (n : nas_runtime) : Z * option (list Z) * Z * Z :=
  (cellid_data_missing n, curr_ocid_db_fp n, open_cellid_num_items n, network_type (curr_state n)).
Lemma unplaced_same n n' c : database_part n' = database_part n -> unplaced n c -> unplaced n' c.
Proof. unfold unplaced, loaded, database_part. by intros [= -> -> -> ->]. Qed.

(** A cell met in a mode that learns, whose notice fits: mode 0, mode 2 without the
    notices, and mode 2 with them when the database has no place to add. *)
Definition learns (s : network) (c : serving_cell) : Prop :=
  let conf := settings (nw_cfg s) in
  signal_tracking_mode conf = 0 \/
  signal_tracking_mode conf = 2 /\ (signal_tracking_notify_cell_change conf = 0 \/ unplaced (nas s) c).

Lemma unplaced_runs c s : visible c -> unplaced (nas s) c ->
  exists v, v <> 1 /\ runs (is_cell_id_in_db (c_cell_id c) (c_lac c)) s v s /\
    runs (get_opencellid_cell_info (c_cell_id c) (c_lac c)) s no_cell s.
Proof.
  intros Hc [Hm|(cells & Hl & Hx)].
  - exists (- EINVAL). split; [done|]. apply Z.eqb_neq in Hm.
    split; (apply (runs_quiet _ _ _ _ []); [|constructor]); intros f;
      [unfold is_cell_id_in_db|unfold get_opencellid_cell_info]; rewrite bind_get; cbn [nas with_cells_file]; by rewrite Hm.
  - exists 0. split; [done|].
    assert (Hl' : forall f, loaded (nas (with_cells_file f s)) cells) by done.
    split; (apply (runs_quiet _ _ _ _ []); [|constructor]); intros f.
    + rewrite (in_db_loaded c cells) by done. cbn [nas with_cells_file]. by rewrite Hx.
    + rewrite (cell_info_loaded _ _ cells) by done. cbn [nas with_cells_file]. unfold listed in Hx.
      destruct (List.find _ cells) as [x|] eqn:E; [|done]. apply find_some in E as [Hin Hlst].
      rewrite (proj2 (existsb_exists _ _)) in Hx; [done|eauto].
Qed.
Lemma unplaced_notice c seen s :
  cells_ok s -> signal_tracking_mode (settings (nw_cfg s)) = 2 ->
  runs (get_opencellid_cell_info (c_cell_id c) (c_lac c)) s no_cell s ->
  exists s', runs (notice_change c seen) s tt s' /\ tracks (tracker_of (nas s)) s s' /\
    database_part (nas s') = database_part (nas s).
Proof.
  intros Hok Hm Hdb. set (mode := signal_tracking_notify_cell_change (settings (nw_cfg s))).
  assert (exists p, runs (when ((mode =? 2) || ((mode =? 1) && negb seen))
      (notify_cellid_change (c_cell_id c) (c_lac c))) s tt (with_part p s) /\ phone_ok p) as (p & Hn & Hp).
  { destruct ((mode =? 2) || _); cbn [when]; [|exists (nw_phone s); split; [|apply Hok]; destruct s; apply runs_ret].
    pose proof (change_text_length (c_cell_id c) (c_lac c)) as Hl.
    destruct (warn_runs [change_text (c_cell_id c) (c_lac c); zs "Not found in OpenCellid"] s) as (p & Hr & Hp).
    { apply Hok. }
    { change (removelast _) with [change_text (c_cell_id c) (c_lac c)]. rewrite total_cons. change (total []) with 0. lia. }
    { rewrite !total_cons. change (total []) with 0. change (zlen (zs "Not found in OpenCellid")) with 23. lia. }
    exists p. split; [|done]. unfold notify_cellid_change. apply runs_tracking. rewrite Hm. cbn [Z.ltb Z.compare].
    eapply runs_bind; [exact Hdb|]. exact Hr. }
  destruct (negb (c_cell_id c =? current_cell_id (nas s)) || negb (c_lac c =? current_lac (nas s))) eqn:E.
  - exists (on_nas (set_current_cell (c_cell_id c) (c_lac c)) (with_part p s)).
    split; [|split; [|done]; by destruct Hok].
    apply runs_get. intros f. cbn [nas with_cells_file]. rewrite E. cbn [when]. apply runs_tracking.
    eapply runs_bind; [exact Hn|apply runs_modify].
  - exists s. split; [|done]. apply runs_get. intros f. cbn [nas with_cells_file]. rewrite E. apply runs_ret.
Qed.
Lemma process_unplaced env c s :
  cells_ok s -> signal_tracking_mode (settings (nw_cfg s)) = 2 -> visible c -> unplaced (nas s) c ->
  exists s', runs (process_current_network_data env c) s tt s' /\
    tracks (observe (key_of c) (tracker_of (nas s))) s s' /\ database_part (nas s') = database_part (nas s).
Proof.
  intros Hok Hm Hc Hu. destruct (process_split env c s Hok Hc) as (s1 & Ht1 & (l1 & n1 & E1) & Hrun & _).
  set (seen := bool_decide _) in *. assert (Hd1 : database_part (nas s1) = database_part (nas s)) by by subst s1.
  pose proof (proj2 (proj2 Ht1)) as Hcfg. apply (unplaced_same _ _ _ Hd1) in Hu.
  destruct (unplaced_runs c s1 Hc Hu) as (v & Hv & Hdb & _). apply Z.eqb_neq in Hv.
  assert (exists s2, runs (track c seen) s1 tt s2 /\ retabled s1 s2 /\
    tracks (if seen then tracker_of (nas s1) else learn (key_of c) (tracker_of (nas s1))) s1 s2) as (s2 & Hr2 & (l2 & n2 & E2) & Ht2).
  { destruct seen.
    - exists s1. split; [|split; [apply retabled_refl|by split; [apply Ht1|]]].
      apply runs_tracking. rewrite Hcfg, Hm. eapply runs_bind; [exact Hdb|apply runs_ret].
    - destruct (add_report_runs c s1 (proj1 Ht1)) as (l & n & Hr & Hl & Ht). exists (on_nas (set_reports l n) s1).
      split; [|split; [by exists l, n|]; split; [|done]; split; [exact Hl|apply Ht1]].
      apply runs_tracking. rewrite Hcfg, Hm. eapply runs_bind; [exact Hdb|]. eapply runs_bind; [exact Hr|].
      rewrite Hv. apply runs_ret. }
  assert (Hd2 : database_part (nas s2) = database_part (nas s1)) by by subst s2.
  apply (unplaced_same _ _ _ Hd2) in Hu. destruct (unplaced_runs c s2 Hc Hu) as (_ & _ & _ & Hinfo).
  destruct (unplaced_notice c seen s2 (proj1 Ht2)) as (s3 & Hr3 & Ht3 & Hd3); [by rewrite (proj2 (proj2 Ht2)), Hcfg|done|].
  exists s3. split; [apply Hrun; by eapply runs_bind|]. split; [|congruence].
  rewrite (proj1 (proj2 Ht1)) in Ht2. pose proof (tracks_trans _ _ _ _ _ Ht1 Ht2) as Ht12.
  rewrite (proj1 (proj2 Ht12)) in Ht3. pose proof (tracks_trans _ _ _ _ _ Ht12 Ht3) as Ht.
  replace (observe _ _) with (if seen then tracker_of (nas s) else learn (key_of c) (tracker_of (nas s))); [done|].
  unfold observe, seen. by destruct (decide _), (bool_decide_reflect (key_of c ∈ known (tracker_of (nas s)))).
Qed.

(** One cell keeps what is asked of the others. *)
Lemma learns_step env c s :
  cells_ok s -> learns s c -> visible c ->
  exists s', runs (process_current_network_data env c) s tt s' /\
    tracks (observe (key_of c) (tracker_of (nas s))) s s' /\ forall c', learns s c' -> learns s' c'.
Proof.
  intros Hok Hl Hc. unfold learns in *. cbv zeta in *.
  destruct Hl as [Hm|[Hm [Hn|Hu]]].
  - destruct (process_runs env c s Hok (or_introl Hm) Hc) as (s' & Hr & Ht). exists s'. split; [done|]. split; [done|].
    intros c' _. left. by rewrite (proj2 (proj2 Ht)).
  - destruct (process_runs env c s Hok (or_intror (conj Hm Hn)) Hc) as (s' & Hr & Ht). exists s'. split; [done|]. split; [done|].
    intros c' _. rewrite (proj2 (proj2 Ht)). eauto.
  - destruct (process_unplaced env c s Hok Hm Hc Hu) as (s' & Hr & Ht & Hd). exists s'. split; [done|]. split; [done|].
    intros c'. rewrite (proj2 (proj2 Ht)). intros [?|[? [?|Hu']]]; eauto. right. split; [done|]. right. by eapply unplaced_same.
Qed.
Lemma process_all_runs l s :
  cells_ok s -> Forall (fun '(_, c) => visible c /\ learns s c) l ->
  exists s', runs (process_all l) s tt s' /\
    tracks (foldl (fun t '(_, c) => observe (key_of c) t) (tracker_of (nas s)) l) s s'.
Proof.
  revert s. induction l as [|[env c] l IH]; intros s Hok Hl; cbn [process_all foldl].
  - exists s. split; [apply runs_ret|done].
  - apply Forall_cons in Hl as [[Hc Hm] Hl]. destruct (learns_step env c s Hok Hm Hc) as (s1 & Hr1 & Ht1 & Hkeep).
    destruct (IH s1 (proj1 Ht1)) as (s2 & Hr2 & Ht2).
    { eapply Forall_impl; [exact Hl|]. intros [e c'] [? ?]. split; [done|by apply Hkeep]. }
    rewrite (proj1 (proj2 Ht1)) in Ht2. exists s2. split; [by eapply runs_bind|by eapply tracks_trans].
Qed.

(** C10: in the modes that learn, mode 0 and mode 2, whatever cells the modem meets
    in whatever order and whatever mounts and opens fail, every one is handled
    without a fault or a power-down, and the table is the one of an abstract
    tracker: a cell that is not known becomes the latest one and makes the one
    before it known; the oldest known cell is forgotten when 4095 are. The cell met
    last is not known yet: when it comes again it is entered a second time. The one
    case left out is that of mode 2 with the notices of a change on and a cell that
    the open database lists: its notice does not fit ([verified_notice_overflows]). *)
Theorem learning_refines_tracker l s :
  cells_ok s -> Forall (fun '(_, c) => visible c /\ learns s c) l ->
  exists s' t, process_all l s = Ret (tt, s', t) /\ (AdspOff ∉ t) /\ cells_ok s' /\ nw_cfg s' = nw_cfg s /\
    tracker_of (nas s') = foldl (fun t '(_, c) => observe (key_of c) t) (tracker_of (nas s)) l.
Proof.
  intros Hok Hl. destruct (process_all_runs l s Hok Hl) as (s' & Hr & Hok' & Ht & Hcfg).
  destruct (runs_run _ _ _ _ Hr) as (f & t & Hrun & Hq). exists (with_cells_file f s'), t.
  split_and!; try done. by apply quiet_not.
Qed.
(** The first cell twice is entered twice and known from then on. *)
Lemma learning_refines_tracker_witness :
  exists s' t, process_all (map (pair all_open) (map sample_cell [1; 1; 1; 2])) (network_in initial_nas 2 2) =
      Ret (tt, s', t) /\ (AdspOff ∉ t) /\ cells_ok s' /\ nw_cfg s' = tracking_in 2 2 /\
    tracker_of (nas s') =
      {| known := [(0, 0, 0, 0, 0); key_of (sample_cell 1); key_of (sample_cell 1)];
         latest := key_of (sample_cell 2) |}.
Proof.
  refine (learning_refines_tracker (map (pair all_open) (map sample_cell [1; 1; 1; 2]))
    (network_in initial_nas 2 2) _ _).
  - apply initial_network_ok.
  - repeat apply Forall_cons_2; [..|apply Forall_nil_2]; (split; [done|right; split; [done|right; by left]]).
Defined.

(** The kinds of network a database knows (enum ocid_radio_type). *)
Definition ocid_radio_type : list Z := [0x01; 0x02; 0x05; 0x0b; 0x0e].
(** The number the client has for LTE (nas_update_network_data). *)
Definition NETWORK_LTE : Z := 8.
Lemma lte_not_listed c cells :
  Forall (fun x => radio x ∈ ocid_radio_type) cells -> listed NETWORK_LTE c cells = false.
Proof.
  intros H. apply not_true_is_false. intros (x & Hin & Hx)%existsb_exists.
  rewrite list.Forall_forall in H. apply list_elem_of_In in Hin. specialize (H _ Hin).
  unfold listed_as, NETWORK_LTE in Hx. b2p. match goal with E : 8 = radio x |- _ => rewrite <- E in H end.
  by apply (bool_decide_eq_true_2 (8 ∈ ocid_radio_type)) in H.
Qed.

(** The strict mode with a database that is loaded, when changes of cell
    are not told: a cell that is not known but is listed is learned; one that is
    not listed is told as an emergency and the baseband is powered down. Under
    LTE that is every cell that is not known, listed or not: the client numbers
    the network 8, a database lists it as 11. *)
Theorem strict_database_mode env c s cells :
  cells_ok s -> signal_tracking_mode (settings (nw_cfg s)) = 3 ->
  signal_tracking_notify_cell_change (settings (nw_cfg s)) = 0 -> visible c -> cell_range c ->
  loaded (nas s) cells -> key_of c ∉ known (tracker_of (nas s)) ->
  let ty := network_type (curr_state (nas s)) in
  exists s' t, process_current_network_data env c s = Ret (tt, s', t) /\ cells_ok s' /\
    (listed ty c cells = true -> (AdspOff ∉ t) /\
       tracker_of (nas s') = learn (key_of c) (tracker_of (nas s))) /\
    (listed ty c cells = false -> AdspOff ∈ t /\ tracker_of (nas s') = tracker_of (nas s)) /\
    (ty = NETWORK_LTE -> Forall (fun x => radio x ∈ ocid_radio_type) cells -> AdspOff ∈ t).
Proof.
  intros Hok Hm Hn Hc Hrange Hload Hk ty.
  destruct (process_split env c s Hok Hc) as (s1 & Ht1 & (l & n & Hs1) & Hrun & Hdown & _).
  rewrite bool_decide_eq_false_2 in Hrun, Hdown by done.
  assert (Hm1 : signal_tracking_mode (settings (nw_cfg s1)) = 3) by (by rewrite (proj2 (proj2 Ht1))).
  assert (Hl1 : forall f, is_cell_id_in_db (c_cell_id c) (c_lac c) (with_cells_file f s1) =
    Ret (if listed ty c cells then 1 else 0, with_cells_file f s1, [])) by (intros f; subst s1; by apply in_db_loaded).
  assert (Hdb : runs (is_cell_id_in_db (c_cell_id c) (c_lac c)) s1 (if listed ty c cells then 1 else 0) s1)
    by (apply (runs_quiet _ _ _ _ []); [exact Hl1|constructor]).
  assert (Hn1 : plain_notice (settings (nw_cfg s1))) by (right; by rewrite (proj2 (proj2 Ht1))).
  destruct (listed ty c cells) eqn:El.
  - destruct (learn_runs c s1 (proj1 Ht1)) as (id & s2 & Hr & Hid & Ht2).
    destruct (report_runs (fun r => {| in_use := in_use r; report := set_verified (report r) |}) id s2)
      as (s3 & Hv & Ht3); [apply Ht2|done|done|].
    destruct (notice_runs c false s3) as (s4 & Hr4 & Ht4);
      [apply Ht3|by rewrite (proj2 (proj2 Ht3)), (proj2 (proj2 Ht2))|].
    destruct (runs_run _ _ _ _ (Hrun s4 ltac:(eapply runs_bind; [|exact Hr4]; apply runs_tracking; rewrite Hm1;
      eapply runs_bind; [exact Hdb|]; eapply runs_bind; [exact Hr|exact Hv]))) as (f & t & Hp & Hq).
    exists (with_cells_file f s4), t. split_and!; [exact Hp|apply Ht4|..].
    + intros _. split; [by apply quiet_not|]. cbn.
      by rewrite (proj1 (proj2 Ht4)), (proj1 (proj2 Ht3)), (proj1 (proj2 Ht2)), (proj1 (proj2 Ht1)).
    + done.
    + intros Hty Hr3. by rewrite Hty, lte_not_listed in El.
  - destruct (emergency_told c s1 Hrange (proj1 Ht1)) as (s2 & Hd & Ht2).
    destruct (notice_runs c false s2) as (s3 & Hr3 & Ht3); [apply Ht2|by rewrite (proj2 (proj2 Ht2))|].
    destruct (downs_run _ _ _ _ (Hdown s3 ltac:(eapply downs_runs; [|exact Hr3]; apply downs_tracking; rewrite Hm1;
      eapply runs_downs; [exact Hdb|exact Hd]))) as (f & t & Hp & Hin).
    exists (with_cells_file f s3), t. split_and!; [exact Hp|apply Ht3|done| |done].
    intros _. split; [done|]. cbn. by rewrite (proj1 (proj2 Ht3)), (proj1 (proj2 Ht2)), (proj1 (proj2 Ht1)).
Qed.
Definition sample_ocid (ty : Z) : list Z :=
  [ty] ++ le 4 0x1234 ++ le 4 1 ++ le 4 0xc06d2b02 ++ le 4 0x42210000 ++ le 4 1000 ++ le 4 0 ++ le 2 0.
Definition sample_ocid_cell (ty : Z) : ocid_cell_slim :=
  {| radio := ty; area := 0x1234; cell := 1; lon := 0xc06d2b02; lat := 0x42210000; range := 1000;
     updated := 0; average_signal := 0 |}.
Definition on_network (ty : Z) : basic_network_status :=
  {| operator_name := replicate 32 0; st_mcc := zs "214" ++ [0]; st_mnc := zs "07" ++ [0];
     capability := no_capability; network_registration_status := 1; circuit_switch_attached := 1;
     packet_switch_attached := 1; radio_access := 2; network_type := ty; signal_level := 40 |}.
(** A client on a network of the kind [ty], with a database of one cell. *)
Definition nas_with_database (ty radio : Z) : nas_runtime :=
  set_states (on_network ty) no_status (set_database 1 (Some (sample_ocid radio)) 1 initial_nas).
Lemma sample_loaded ty radio : byte_ok radio -> loaded (nas_with_database ty radio) [sample_ocid_cell radio].
Proof.
  intros Hr. split; [done|]. exists (sample_ocid radio). split; [done|]. split; [done|].
  exists [sample_ocid radio]. split; [done|]. constructor; [|constructor]. by split.
Qed.
(** A cell the database lists as LTE is locked out under LTE. *)
Lemma strict_database_mode_witness :
  listed 11 (sample_cell 1) [sample_ocid_cell 11] = true /\
  exists s' t, process_current_network_data all_open (sample_cell 1)
      (network_in (nas_with_database NETWORK_LTE 11) 3 0) = Ret (tt, s', t) /\ AdspOff ∈ t.
Proof.
  split; [reflexivity|].
  destruct (strict_database_mode all_open (sample_cell 1) (network_in (nas_with_database NETWORK_LTE 11) 3 0)
    [sample_ocid_cell 11]) as (s' & t & Hrun & _ & _ & _ & Hdown).
  - by apply network_in_ok.
  - done.
  - done.
  - done.
  - done.
  - by apply (sample_loaded NETWORK_LTE 11).
  - apply not_elem_of_nil.
  - exists s', t. split; [exact Hrun|]. apply Hdown; [reflexivity|]. constructor; [|constructor].
    repeat constructor.
Defined.

(** ** The notice of a cell that is verified *)

Definition finite_float (w : Z) : Prop := (w / 8388608) mod 256 <> 255.
Definition verified_text (x : ocid_cell_slim) : list Z :=
  zs "OpenCellid Verified:" ++
  zs "Cell ID: " ++ fmt_x 8 (cell x) ++ nl ++ zs "LAC: " ++ fmt_x 4 (area x) ++ nl ++
  zs "Lat: " ++ fmt_f (lat x) ++ nl ++ zs "Lon: " ++ fmt_f (lon x) ++ nl.
Lemma verified_text_length x : finite_float (lat x) -> finite_float (lon x) -> 76 <= zlen (verified_text x).
Proof.
  intros H1%fmt_f_length H2%fmt_f_length. pose proof (fmt_x_length 8 (cell x)). pose proof (fmt_x_length 4 (area x)).
  unfold verified_text. rewrite !zlen_app. change (zlen (zs "OpenCellid Verified:")) with 20.
  change (zlen (zs "Cell ID: ")) with 9. change (zlen (zs "LAC: ")) with 5. change (zlen (zs "Lat: ")) with 5.
  change (zlen (zs "Lon: ")) with 5. change (zlen nl) with 1. lia.
Qed.

Lemma track_listed c (seen : bool) s :
  cells_ok s -> signal_tracking_mode (settings (nw_cfg s)) = 2 \/ signal_tracking_mode (settings (nw_cfg s)) = 3 ->
  runs (is_cell_id_in_db (c_cell_id c) (c_lac c)) s 1 s ->
  exists s', runs (track c seen) s tt s' /\ retabled s s'.
Proof.
  intros Hok Hm Hdb. destruct seen.
  - exists s. split; [|apply retabled_refl]. apply runs_tracking.
    destruct Hm as [-> | ->]; (eapply runs_bind; [exact Hdb|apply runs_ret]).
  - destruct (add_report_runs c s Hok) as (l & n & Hr & (Hl & Hn & _) & _).
    set (s1 := on_nas (set_reports l n) s) in *.
    destruct (on_report_entries (fun r => {| in_use := in_use r; report := set_verified (report r) |}) n s1)
      as (l2 & Hv & _); [cbn in *; lia|done|].
    exists (with_reports l2 s1). split; [|by exists l2, n]. apply runs_tracking.
    destruct Hm as [-> | ->]; (eapply runs_bind; [exact Hdb|]; eapply runs_bind; [exact Hr|exact Hv]).
Qed.

(** Whenever a change of cell is told and the database lists the cell, the
    text with its place has more characters than a reply: it is read past the
    end of the reply and written past the end of the queued message. *)
Theorem verified_notice_overflows env c s cells x :
  cells_ok s -> visible c -> cell_range c -> loaded (nas s) cells ->
  List.find (listed_as (network_type (curr_state (nas s))) (c_cell_id c) (c_lac c)) cells = Some x ->
  finite_float (lat x) -> finite_float (lon x) ->
  signal_tracking_mode (settings (nw_cfg s)) = 2 \/ signal_tracking_mode (settings (nw_cfg s)) = 3 ->
  signal_tracking_notify_cell_change (settings (nw_cfg s)) = 2 ->
  c_cell_id c <> current_cell_id (nas s) \/ c_lac c <> current_lac (nas s) -> room (nw_phone s) ->
  process_current_network_data env c s = Oob.
Proof.
  intros Hok Hc Hrange Hload Hx Hlat Hlon Hm Hn Hch [Hsim Hq].
  destruct (process_split env c s Hok Hc) as (s1 & Ht1 & Hs1 & _ & _ & Hfault). set (seen := bool_decide _) in *.
  assert (Hdb : runs (is_cell_id_in_db (c_cell_id c) (c_lac c)) s1 1 s1).
  { apply (runs_quiet _ _ _ _ []); [|constructor]. intros f. destruct Hs1 as (l & n & ->).
    rewrite (in_db_loaded c cells) by done. unfold listed. cbn [nas with_cells_file on_nas set_reports curr_state].
    by rewrite (proj2 (existsb_exists _ _)) by (apply find_some in Hx as []; eauto). }
  destruct (track_listed c seen s1 (proj1 Ht1)) as (s2 & Hr2 & Hs2); [by rewrite (proj2 (proj2 Ht1))|done|].
  pose proof (retabled_trans _ _ _ Hs1 Hs2) as (l & n & ->).
  assert (s = with_cells_file (cells_file s) s) as -> by (by destruct s). apply Hfault. clear Hfault.
  unfold settle. eapply runs_fault; [exact Hr2|]. intros f. unfold notice_change. rewrite bind_get.
  cbn [nas with_cells_file on_nas set_reports current_cell_id current_lac].
  rewrite <- !Z.eqb_neq in Hch.
  assert (negb (c_cell_id c =? current_cell_id (nas s)) || negb (c_lac c =? current_lac (nas s)) = true) as ->
    by (by destruct Hch as [-> | ->]; [|rewrite orb_true_r]).
  cbn [when]. unfold tracking. rewrite bind_assoc, bind_get, bind_ret. cbn [nw_cfg with_cells_file on_nas].
  rewrite Hn. change (2 =? 2) with true. cbn [orb when]. apply fault_bind. unfold notify_cellid_change, tracking.
  rewrite bind_assoc, bind_get, bind_ret. cbn [nw_cfg with_cells_file on_nas].
  rewrite (proj2 (Z.ltb_lt 1 _)) by (destruct Hm; lia).
  set (s2 := with_cells_file f _) in *. assert (Hload2 : loaded (nas s2) cells) by done.
  rewrite (bind_step _ _ _ _ _ (cell_info_loaded _ _ _ _ Hload2)).
  change (network_type (curr_state (nas s2))) with (network_type (curr_state (nas s))). rewrite Hx. cbn [from_option id].
  apply find_some in Hx as [_ Hx]. unfold listed_as in Hx. b2p. destruct Hc as [Hc1 Hc2].
  rewrite !(proj2 (Z.eqb_neq _ 0)) by congruence. cbn [negb andb].
  pose proof (change_text_length (c_cell_id c) (c_lac c)) as Hl1. pose proof (verified_text_length x Hlat Hlon) as Hl2.
  refine (warn_faults [change_text (c_cell_id c) (c_lac c); verified_text x] s2 _ _ Hsim Hq).
  - change (removelast _) with [change_text (c_cell_id c) (c_lac c)]. rewrite total_cons. change (total []) with 0. lia.
  - rewrite !total_cons. change (total []) with 0. lia.
Qed.
Lemma verified_notice_overflows_witness :
  process_current_network_data all_open (sample_cell 1) (network_in (nas_with_database 5 5) 2 2) = Oob.
Proof.
  apply (verified_notice_overflows all_open (sample_cell 1) _ [sample_ocid_cell 5] (sample_ocid_cell 5)).
  - by apply network_in_ok.
  - done.
  - done.
  - by apply (sample_loaded 5 5).
  - reflexivity.
  - vm_compute. congruence.
  - vm_compute. congruence.
  - by left.
  - done.
  - left. vm_compute. congruence.
  - done.
Defined.

(** * The file *)

Definition fits16 (x : Z) : Prop := 0 <= x < 65536.
Definition fits_i16 (x : Z) : Prop := -32768 <= x < 32768.
(** Every field is a value of its type. *)
Definition report_fits (r : network_status_reports) : Prop :=
  let q := report r in
  fits16 (r_mcc q) /\ fits16 (r_mnc q) /\ fits16 (r_lac q) /\ fits16 (phy_cell_id q) /\
  0 <= r_cell_id q < 4294967296 /\ fits16 (bcch q) /\ fits16 (psc q) /\ fits16 (arfcn q) /\
  fits_i16 (srx_level_min q) /\ fits_i16 (srx_level_max q) /\ fits_i16 (srx_level_avg q) /\
  fits16 (rx_level_min q) /\ fits16 (rx_level_max q) /\ fits16 (rx_level_avg q).

Lemma read16 x : fits16 x -> x mod 256 + 256 * (x / 256 mod 256) = x.
Proof. unfold fits16. dlia. Qed.
Lemma read_i16 x : fits_i16 x -> i16 (x mod 256 + 256 * (x / 256 mod 256)) = x.
Proof. unfold fits_i16, i16. dlia. Qed.
Lemma read32 x : 0 <= x < 4294967296 ->
  x mod 256 + 256 * (x / 256 mod 256) + 65536 * (x / 256 / 256 mod 256 + 256 * (x / 256 / 256 / 256 mod 256)) = x.
Proof. dlia. Qed.
Lemma dec_enc_report env r rest : report_fits r -> dec_report (enc_report env r ++ rest) = Ret r.
Proof.
  intros Hr. destruct r as [u [mcc mnc ty lac phy id bs bc ps ar smin smax savg rmin rmax ravg fo ve]].
  unfold report_fits in Hr. cbn [report r_mcc r_mnc r_lac phy_cell_id r_cell_id bcch psc arfcn srx_level_min
    srx_level_max srx_level_avg rx_level_min rx_level_max rx_level_avg] in Hr.
  destruct Hr as (H1 & H2 & H3 & H4 & H5 & H6 & H7 & H8 & H9 & H10 & H11 & H12 & H13 & H14).
  unfold dec_report, enc_report. rewrite <- !app_assoc. cbn [le app in_use report r_mcc r_mnc type_of_service
    r_lac phy_cell_id r_cell_id bsic bcch psc arfcn srx_level_min srx_level_max srx_level_avg rx_level_min
    rx_level_max rx_level_avg found_in_network opencellid_verified].
  rdc. cbn match. rewrite !read_i16, read32 by done. by rewrite !read16 by done.
Qed.
Lemma enc_report_len env r : length (enc_report env r) = 44%nat.
Proof. unfold enc_report. by rewrite !length_app, !length_le. Qed.
Lemma dec_enc_reports env l rest :
  Forall report_fits l -> dec_reports (length l) (concat (map (enc_report env) l) ++ rest) = Ret l.
Proof.
  induction 1 as [|r l Hr _ IH]; [done|]. cbn [dec_reports length map concat]. rewrite <- app_assoc.
  rewrite dec_enc_report by done. cbn [cbind]. rewrite drop_app_length' by (by rewrite enc_report_len).
  by rewrite IH.
Qed.
Lemma enc_reports_len env l : zlen (concat (map (enc_report env) l)) = 44 * zlen l.
Proof.
  induction l as [|r l IH]; [done|]. cbn [map concat]. rewrite zlen_app, IH, zlen_cons.
  unfold zlen at 1. rewrite enc_report_len. lia.
Qed.

(** An entry as the next start finds it. *)
Definition reload (r : network_status_reports) : network_status_reports :=
  if in_use r =? 0 then empty_report else r.
Definition used (l : list network_status_reports) : Z := zlen (List.filter (fun r => negb (in_use r =? 0)) l).
Lemma used_cons r l : used (r :: l) = (if in_use r =? 0 then 0 else 1) + used l.
Proof. unfold used. cbn [List.filter]. destruct (in_use r =? 0); cbn [negb]; zl; lia. Qed.
Lemma load_loop_empty saved current :
  0 <= current -> current + zlen saved < 65536 ->
  load_loop saved (replicate (length saved) empty_report) current = (map reload saved, current + used saved).
Proof.
  revert current. induction saved as [|r saved IH]; intros current Hc Hl; cbn [load_loop length replicate map].
  - f_equal. unfold used. cbn. zl. lia.
  - zl. pose proof (zlen_nonneg saved). rewrite used_cons. unfold reload at 1. destruct (in_use r =? 0).
    + rewrite IH by lia. f_equal.
    + rewrite u16_small, IH by lia. f_equal. lia.
Qed.
Lemma used_entries l : used l = zlen (List.filter (fun e => negb e.2) (map entry_of l)).
Proof.
  induction l as [|r l IH]; [done|]. rewrite used_cons, IH. cbn [map List.filter entry_of snd].
  destruct (in_use r =? 0); cbn [negb]; zl; lia.
Qed.

Definition table_full (n : nas_runtime) : Prop := Forall (fun r => in_use r <> 0) (reports n).

(** What the next start has, by the shape of the table. *)
Lemma reload_entries l :
  map entry_of (map reload l) =
  map (fun e : cell_key * bool => if e.2 then ((0, 0, 0, 0, 0), true) else e) (map entry_of l).
Proof.
  rewrite !map_map. apply map_ext. intros r. unfold reload, entry_of. cbn [snd]. by destruct (in_use r =? 0) eqn:E; rewrite ?E.
Qed.
Lemma reload_full n : table_full n -> map reload (reports n) = reports n /\ used (reports n) = zlen (reports n).
Proof.
  unfold table_full. induction 1 as [|r l Hr _ [IH1 IH2]]; [done|]. cbn [map]. rewrite used_cons, IH1, IH2.
  unfold reload. rewrite (proj2 (Z.eqb_neq _ _)) by done. zl. by split; [|lia].
Qed.
Lemma filter_in_use (used free : list (cell_key * bool)) :
  Forall (fun e => e.2 = false) used -> Forall (fun e => e.2 = true) free ->
  List.filter (fun e => negb e.2) (used ++ free) = used.
Proof.
  intros Hu Hf. induction Hu as [|e used He _ IH]; cbn [app List.filter].
  - induction Hf as [|e free He _ IH]; [done|]. cbn [List.filter]. by rewrite He.
  - rewrite He. cbn [negb]. by rewrite IH.
Qed.
Lemma reload_growing n :
  table_ok n -> ~ table_full n ->
  used (reports n) = current_report n /\
  table_ok (set_reports (map reload (reports n)) (current_report n) n) /\
  tracker_of (set_reports (map reload (reports n)) (current_report n) n) = tracker_of n.
Proof.
  intros (Hl & Hc & Hs) Hfull. remember (map entry_of (reports n)) as es eqn:Ees. destruct Hs as [us free Hu Hused Hfree|es Hcur Hall].
  2: { destruct Hfull. unfold table_full. subst es. apply Forall_map in Hall. eapply Forall_impl; [exact Hall|].
       intros r Hr. cbn in Hr. by apply Z.eqb_neq in Hr. }
  assert (Hn : used (reports n) = current_report n).
  { rewrite used_entries, <- Ees. cbn [List.filter snd negb]. by rewrite filter_in_use. }
  set (n' := set_reports _ _ n).
  assert (Hes : map entry_of (reports n') =
      ((0, 0, 0, 0, 0), true) :: us ++ replicate (length free) ((0, 0, 0, 0, 0), true)).
  { cbn [reports set_reports n']. rewrite reload_entries, <- Ees. cbn [map snd]. rewrite map_app. f_equal. f_equal.
    - clear -Hused. induction Hused as [|[k b] us He _ IH]; [done|]. cbn in He |- *. by rewrite He, IH.
    - clear -Hfree. induction Hfree as [|[k b] free He _ IH]; [done|]. cbn in He |- *. by rewrite He, IH. }
  split; [done|]. split.
  - split; [cbn; unfold zlen in *; by rewrite length_map|]. split; [done|]. rewrite Hes.
    constructor; [done|done|]. by apply Forall_replicate.
  - unfold tracker_of. rewrite !entries_keys, Hes, <- Ees. cbn [current_report set_reports n'].
    set (cur := Z.to_nat (current_report n)). assert (Hlu : length us = cur) by (unfold cur, zlen in *; lia).
    rewrite !(app_comm_cons us). set (e0 := ((0, 0, 0, 0, 0), true)).
    assert (Htake : forall rest : list (cell_key * bool), take cur (map fst ((e0 :: us) ++ rest)) = take cur (map fst (e0 :: us))).
    { intros rest. rewrite map_app. apply take_app_le. rewrite length_map. cbn. lia. }
    assert (Hat : forall rest : list (cell_key * bool), map fst ((e0 :: us) ++ rest) !! cur = map fst (e0 :: us) !! cur).
    { intros rest. rewrite map_app. apply lookup_app_l. rewrite length_map. cbn. lia. }
    by rewrite !Htake, !Hat.
Qed.

Lemma store_file env s :
  c_rw_ok (n_cfg env) = true -> n_open env = true ->
  exists r u, store_report_data env s =
    Ret (r, with_cells_file (Some (concat (map (enc_report env) (reports (nas s))))) s, u).
Proof.
  intros Hrw Hopen. unfold store_report_data, set_persistent_partition_rw, set_persistent_partition_ro, do_sync_fs.
  destruct s as [n fl p c]. unfold tracking, zoom, bind, modify, get, emit, ret. cbn. rewrite Hrw, Hopen. cbn.
  destruct (persistent_logging (settings c) =? 0); cbn; eauto.
Qed.
Lemma load_file env1 env2 l s :
  zlen l = MAX_REPORT_NUM -> Forall report_fits l ->
  cells_file s = Some (concat (map (enc_report env1) l)) ->
  reports (nas s) = replicate 4096 empty_report -> current_report (nas s) = 0 ->
  load_report_data env2 s = Ret (0, on_nas (set_reports (map reload l) (used l)) s, []).
Proof.
  intros Hl Hfit Hf Hr Hc. unfold load_report_data. rewrite bind_get, Hf.
  set (file := concat _). assert (Hz : zlen file = 180224).
  { unfold file. rewrite enc_reports_len, Hl. done. }
  rewrite Hz. change (Z.min MAX_REPORT_NUM (180224 / SZ_REPORT)) with 4096.
  change (SZ_REPORT <=? 4096) with true. cbn [when]. rewrite bind_assoc.
  assert (Hlen : length l = 4096%nat) by (unfold zlen, MAX_REPORT_NUM in Hl; lia).
  assert (Hd : dec_reports 4096 (read_reports env2 file) = Ret l).
  { unfold read_reports. rewrite take_ge by (unfold SZ_REPORT, MAX_REPORT_NUM, zlen in *; lia). rewrite <- Hlen.
    by apply dec_enc_reports. }
  rewrite (bind_lift _ _ _ _ Hd). rewrite bind_modify. unfold ret. do 3 f_equal. destruct s as [n fl p c].
  unfold on_nas. cbn [nas] in *. f_equal. rewrite Hr, Hc, <- Hlen, load_loop_empty by (unfold MAX_REPORT_NUM in Hl; lia).
  done.
Qed.

(** The cells survive a restart. When the partition mounts and the file
    opens, storing the table writes a file from which the next start, whatever
    the padding and its stack hold, has the same tracker, with a table in order.
    A table that is full, after 4096 cells, is read back with the position one
    past its last entry: the next cell that is learned and the chat command that
    shows the current one leave the array. *)
Theorem cells_survive_reboot env1 s :
  table_ok (nas s) -> Forall report_fits (reports (nas s)) -> c_rw_ok (n_cfg env1) = true -> n_open env1 = true ->
  exists r file u, store_report_data env1 s = Ret (r, with_cells_file (Some file) s, u) /\
    forall env2 s2, cells_file s2 = Some file ->
      reports (nas s2) = replicate 4096 empty_report -> current_report (nas s2) = 0 ->
      exists s3, load_report_data env2 s2 = Ret (0, s3, []) /\
        (~ table_full (nas s) -> table_ok (nas s3) /\ tracker_of (nas s3) = tracker_of (nas s)) /\
        (table_full (nas s) -> reports (nas s3) = reports (nas s) /\ current_report (nas s3) = MAX_REPORT_NUM /\
           get_current_cell_report s3 = Oob /\ forall c, add_report c s3 = Oob).
Proof.
  intros Hok Hfit Hrw Hopen. pose proof Hok as (Hl & _).
  destruct (store_file env1 s Hrw Hopen) as (r & u & Hst). exists r. eexists _, u. split; [exact Hst|].
  intros env2 s2 Hf Hr Hc. eexists. split; [by eapply load_file|]. split.
  - intros Hnf. destruct (reload_growing (nas s) Hok Hnf) as (-> & H1 & H2).
    split; [exact H1|]. rewrite <- H2. done.
  - intros Hfull. destruct (reload_full (nas s) Hfull) as [-> ->]. rewrite Hl.
    split; [done|]. split; [done|]. split.
    + unfold get_current_cell_report. rewrite bind_get. apply fault_bind. unfold lift. cbn [nas on_nas set_reports
        reports current_report]. by rewrite rdA_out by (rewrite Hl; done).
    + intros c. unfold add_report. rewrite bind_modify, bind_get.
      cbn [nas on_nas set_reports reports current_report].
      change (MAX_REPORT_NUM - 1 <=? MAX_REPORT_NUM) with true. apply fault_bind.
      unfold on_report, modifyM. cbn [nas on_nas set_reports reports current_report].
      rewrite rdA_out; [done|].
      change (MAX_REPORT_NUM - 1 <=? MAX_REPORT_NUM) with true. cbn [reports set_reports].
      rewrite shift_down_length. lia.
Qed.
(** A table of two cells, and one that is full. *)
Definition two_cells : nas_runtime :=
  set_reports (empty_report :: map (fun i => entered (sample_cell i) empty_report) [1; 2] ++
    replicate 4093 empty_report) 2 initial_nas.
Lemma cells_survive_reboot_witness :
  tracker_of two_cells = {| known := [(0, 0, 0, 0, 0); key_of (sample_cell 1)]; latest := key_of (sample_cell 2) |} /\
  exists r file u, store_report_data all_open (network_in two_cells 0 0) =
      Ret (r, with_cells_file (Some file) (network_in two_cells 0 0), u) /\
    forall env2 s2, cells_file s2 = Some file ->
      reports (nas s2) = replicate 4096 empty_report -> current_report (nas s2) = 0 ->
      exists s3, load_report_data env2 s2 = Ret (0, s3, []) /\
        (~ table_full two_cells -> table_ok (nas s3) /\ tracker_of (nas s3) = tracker_of two_cells) /\
        (table_full two_cells -> reports (nas s3) = reports two_cells /\ current_report (nas s3) = MAX_REPORT_NUM /\
           get_current_cell_report s3 = Oob /\ forall c, add_report c s3 = Oob).
Proof.
  split; [vm_compute; reflexivity|]. apply (cells_survive_reboot all_open (network_in two_cells 0 0)).
  - split; [vm_compute; reflexivity|]. split; [done|].
    change (map entry_of (reports (nas (network_in two_cells 0 0)))) with
      (((0, 0, 0, 0, 0), true) :: [(key_of (sample_cell 1), false); (key_of (sample_cell 2), false)] ++
       map entry_of (replicate 4093 empty_report)).
    constructor; [done|by repeat constructor|]. apply Forall_map. by apply Forall_replicate.
  - cbn [nas network_in two_cells set_reports reports].
    constructor; [vm_compute; intuition congruence|]. apply Forall_app. split.
    + repeat constructor; vm_compute; intuition congruence.
    + apply Forall_replicate. vm_compute. intuition congruence.
  - done.
  - done.
Defined.
