(* ===== verification/NasClient.v ===== *)
(** The network client (src/nas_client.c): the requests it queues for the
    baseband and what the answers and indications of the network access service
    do. The serving cell goes to the table of cells (Cells.v). A message is the
    array it was read into and its length. *)

From stdpp Require Import base list numbers option strings.
From Stdlib Require Import ZArith Lia.
From S2P Require Import Prelude Libc Eff Qmi QmiClient Requests Sms SmsFilter Config Call Replies Cells.

(** * Requests *)

Definition NAS_REGISTER_INDICATIONS : Z := 0x0003.
Definition NAS_GET_SERVING_SYSTEM : Z := 0x0024.
Definition NAS_OPERATOR_NAME : Z := 0x003A.
Definition NAS_GET_CELL_LOCATION_INFO : Z := 0x0043.
Definition NAS_GET_SIGNAL_INFO : Z := 0x004F.
Definition NAS_GET_IMS_PREFERENCE_STATE : Z := 0x0073.

Definition nas_request_cell_location_info : MN Z := plain_request Pending QMI_SERVICE_NAS NAS_GET_CELL_LOCATION_INFO.
Definition nas_request_signal_info : MN Z := plain_request Pending QMI_SERVICE_NAS NAS_GET_SIGNAL_INFO.
Definition nas_get_ims_preference : MN Z := plain_request Pending QMI_SERVICE_NAS NAS_GET_IMS_PREFERENCE_STATE.

(** The indications; only the first 19 of the 34 are asked for. *)
Definition event_tlvs : list Z :=
  [0x10; 0x12; 0x13; 0x14; 0x15; 0x17; 0x18; 0x19; 0x1a; 0x1d; 0x1e; 0x1f; 0x20; 0x21; 0x22; 0x23; 0x24;
   0x25; 0x26; 0x27; 0x28; 0x29; 0x2a; 0x2d; 0x2f; 0x33; 0x34; 0x35; 0x36; 0x37; 0x38; 0x39; 0x3b; 0x3d].
Definition nas_register_to_events : MN Z :=
  u8_request Pending QMI_SERVICE_NAS 33 NAS_REGISTER_INDICATIONS (take 19 event_tlvs).

(** * The network's state *)

Definition on_status (f : basic_network_status -> basic_network_status) : MN unit :=
  modify (on_nas (fun n => set_states (f (curr_state n)) (prev_state n) n)).
Definition save_status : MN unit :=
  modify (on_nas (fun n => set_states (curr_state n) (curr_state n) n)).

Definition set_operator_name (v : list Z) (b : basic_network_status) : basic_network_status :=
  {| operator_name := v; st_mcc := st_mcc b; st_mnc := st_mnc b; capability := capability b;
     network_registration_status := network_registration_status b;
     circuit_switch_attached := circuit_switch_attached b; packet_switch_attached := packet_switch_attached b;
     radio_access := radio_access b; network_type := network_type b; signal_level := signal_level b |}.
Definition set_carrier (mcc mnc : list Z) (b : basic_network_status) : basic_network_status :=
  {| operator_name := operator_name b; st_mcc := mcc; st_mnc := mnc; capability := capability b;
     network_registration_status := network_registration_status b;
     circuit_switch_attached := circuit_switch_attached b; packet_switch_attached := packet_switch_attached b;
     radio_access := radio_access b; network_type := network_type b; signal_level := signal_level b |}.
Definition set_capability (v : service_capability) (b : basic_network_status) : basic_network_status :=
  {| operator_name := operator_name b; st_mcc := st_mcc b; st_mnc := st_mnc b; capability := v;
     network_registration_status := network_registration_status b;
     circuit_switch_attached := circuit_switch_attached b; packet_switch_attached := packet_switch_attached b;
     radio_access := radio_access b; network_type := network_type b; signal_level := signal_level b |}.
Definition set_registration (registration cs ps radio : Z) (b : basic_network_status) : basic_network_status :=
  {| operator_name := operator_name b; st_mcc := st_mcc b; st_mnc := st_mnc b; capability := capability b;
     network_registration_status := registration; circuit_switch_attached := cs;
     packet_switch_attached := ps; radio_access := radio; network_type := network_type b;
     signal_level := signal_level b |}.
Definition set_signal (ty level : Z) (b : basic_network_status) : basic_network_status :=
  {| operator_name := operator_name b; st_mcc := st_mcc b; st_mnc := st_mnc b; capability := capability b;
     network_registration_status := network_registration_status b;
     circuit_switch_attached := circuit_switch_attached b; packet_switch_attached := packet_switch_attached b;
     radio_access := radio_access b; network_type := ty; signal_level := level |}.

(** memcpy(3) into a field: a copy longer than the field leaves it. *)
Definition copy_field (field buf : list Z) (from n : Z) : cres (list Z) :=
  if zlen field <? n then Oob
  else let* text := rdn buf from (Z.to_nat n) in wrn field 0 text.

Section Messages.
Variable env : nas_env.
Variable buf : list Z.
Variable buf_len : Z.

(** struct carrier_name_string: the name from its fifth byte on. Whether the
    message goes on, as in the next one. *)
Definition take_operator_name (offset : Z) : MN bool :=
  do* len := lift (rd16 buf (offset + 1)) in
  if buf_len <? len then ret false
  else
    do* s := get in
    do* name := lift (copy_field (operator_name (curr_state (nas s))) buf (offset + 5) (u32 (len - 2))) in
    on_status (set_operator_name name) ;> ret true.
(** The second field is only measured; the name is logged. *)
Definition update_operator_name : MN unit :=
  do* offset := lift (get_tlv_offset_by_id buf buf_len 0x10) in
  do* go := if 0 <? offset then take_operator_name offset else ret true in
  if go : bool then
    do* offset := lift (get_tlv_offset_by_id buf buf_len 0x11) in
    do* go := if 0 <? offset then do* len := lift (rd16 buf (offset + 1)) in ret (len <=? buf_len)
              else ret true in
    when go
      (do* s := get in
       do* _ := lift (cstr (operator_name (curr_state (nas s)))) in ret tt)
  else ret tt.

(** ** The serving system *)

Definition add_capability (v : Z) (c : service_capability) : service_capability :=
  let b k old := if v =? k then 1 else old in
  {| gprs := b 0x01 (gprs c); edge := b 0x02 (edge c); hsdpa := b 0x03 (hsdpa c); hsupa := b 0x04 (hsupa c);
     wcdma := b 0x05 (wcdma c); gsm := b 0x0a (gsm c); lte := b 0x0b (lte c);
     hsdpa_plus := b 0x0c (hsdpa_plus c); dc_hsdpa_plus := b 0x0d (dc_hsdpa_plus c) |}.
Fixpoint capability_loop (n : nat) (i : Z) (c : service_capability) : cres service_capability :=
  match n with
  | O => Ret c
  | S n => let* v := rd buf i in capability_loop n (i + 1) (add_capability v c)
  end.
Definition take_capabilities (offset : Z) : MN bool :=
  do* len := lift (rd16 buf (offset + 1)) in
  if buf_len <? len then ret false
  else
    save_status ;>
    on_status (set_capability no_capability) ;>
    do* c := lift (capability_loop (Z.to_nat len) (offset + 3) no_capability) in
    on_status (set_capability c) ;> ret true.
(** struct nas_serving_system_state *)
Definition take_registration (offset : Z) : MN bool :=
  do* len := lift (rd16 buf (offset + 1)) in
  if buf_len <? len then ret false
  else
    do* registration := lift (rd buf (offset + 3)) in
    do* cs := lift (rd buf (offset + 4)) in
    do* ps := lift (rd buf (offset + 5)) in
    do* radio := lift (rd buf (offset + 6)) in
    on_status (set_registration registration cs ps radio) ;> ret true.

Definition has_capability_changed (n : nas_runtime) : bool :=
  negb (bool_decide (capability (curr_state n) = capability (prev_state n))).
Definition capability_text (b : basic_network_status) : list Z :=
  let yes v := (if v =? 1 then zs "Yes" else zs "No") ++ nl in
  let c := capability b in
  zs "Change in service cap." ++ nl ++
  zs "GSM:" ++ yes (gsm c) ++ zs "GPRS:" ++ yes (gprs c) ++ zs "EDGE:" ++ yes (edge c) ++
  zs "WCDMA:" ++ yes (wcdma c) ++ zs "HSDPA:" ++ yes (hsdpa c) ++ zs "HSUPA:" ++ yes (hsupa c) ++
  zs "HSDPA+:" ++ yes (hsdpa_plus c) ++ zs "DC-HSDPA+:" ++ yes (dc_hsdpa_plus c) ++ zs "LTE:" ++ yes (lte c) ++
  zs "CS Attached:" ++ yes (circuit_switch_attached b) ++ zs "PS Attached:" ++ yes (packet_switch_attached b).
Definition enabled (v : Z) : bool := negb (v =? 0).
Definition tell_service_changes : MN unit :=
  do* s := get in
  let prev := prev_state (nas s) in
  let tracked := enabled (signal_tracking (settings (nw_cfg s))) in
  when (enabled (packet_switch_attached prev) && negb (enabled (packet_switch_attached prev)) && tracked)
    (warn [zs "Warning: Packet switch detached!"]) ;>
  when (enabled (circuit_switch_attached prev) && negb (enabled (circuit_switch_attached prev)))
    (warn [zs "Warning: Circuit switch detached!"]) ;>
  when (tracked && has_capability_changed (nas s)) (warn [capability_text (curr_state (nas s))]).
Definition parse_serving_system_message : MN unit :=
  do* offset := lift (get_tlv_offset_by_id buf buf_len 0x11) in
  do* go := if 0 <? offset then take_capabilities offset else ret true in
  if go : bool then
    do* offset := lift (get_tlv_offset_by_id buf buf_len 0x01) in
    do* go := if 0 <? offset then take_registration offset else ret true in
    when go tell_service_changes
  else ret tt.

(** ** The signal *)

(** The number the client keeps for the signal report's identifier. *)
Definition network_type_of (id : Z) : Z :=
  if (id =? 0x10) || (id =? 0x11) then 1
  else if id =? 0x12 then 4
  else if id =? 0x13 then 5
  else if id =? 0x14 then 8
  else 0.
Definition nas_update_network_data (id level : Z) : MN unit :=
  save_status ;>
  on_status (set_signal (network_type_of id) (if 0 <? level then level / 2 else 0)) ;>
  do* s := get in
  let c := settings (nw_cfg s) in
  when (enabled (signal_tracking c) && enabled (signal_tracking_notify_downgrade c) &&
        negb (n_call_id env =? 0) &&
        (network_type (curr_state (nas s)) <? network_type (prev_state (nas s))))
    (warn [zs "WARNING: Network service has been downgraded!" ++ nl]).

(** ** The cells *)

(** What the walk over the message has gathered: the variables of the function,
    the carrier's PLMN last. *)
Record cell_info := {
  i_service : Z; i_lac : Z; i_cell_id : Z; i_bsic : Z; i_bcch : Z; i_psc : Z; i_arfcn : Z;
  i_srx_lev : Z; i_rx_lev : Z; i_plmn : list Z
}.
Definition no_info : cell_info :=
  {| i_service := 0; i_lac := 0; i_cell_id := 0; i_bsic := 0; i_bcch := 0; i_psc := 0; i_arfcn := 0;
     i_srx_lev := 0; i_rx_lev := 0; i_plmn := [0; 0; 0] |}.

(** The reads of the log lines: [n] bytes; [n] items of [size] bytes; [n] items
    of [size] bytes whose last one counts the [sub]-byte items after it, each
    item taken to start [size] bytes after the one before. *)
Definition peek (at_ n : Z) : cres unit := let* _ := rdn buf at_ (Z.to_nat n) in Ret tt.
Definition peek_items (at_ n size : Z) : cres unit := peek at_ (n * size).
Fixpoint peek_nested (n : nat) (at_ size sub : Z) : cres unit :=
  match n with
  | O => Ret tt
  | S n =>
      let* _ := peek at_ size in
      let* count := rd buf (at_ + size - 1) in
      let* _ := peek_items (at_ + size) count sub in
      peek_nested n (at_ + size) size sub
  end.

(** NAS_CELL_LAC_INFO_UMTS_CELL_INFO *)
Definition umts_cell (o : Z) (i : cell_info) : cres cell_info :=
  let* cell_id := rd16 buf (o + 3) in
  let* plmn := rdn buf (o + 5) 3 in
  let* lac := rd16 buf (o + 8) in
  let* uarfcn := rd16 buf (o + 10) in
  let* psc := rd16 buf (o + 12) in
  let* rscp := rd16 buf (o + 14) in
  let* _ := rd16 buf (o + 16) in
  let* instances := rd buf (o + 18) in
  let* _ := peek_items (o + 19) instances 8 in
  Ret {| i_service := 0x05; i_lac := lac; i_cell_id := cell_id; i_bsic := i_bsic i; i_bcch := i_bcch i;
         i_psc := psc; i_arfcn := uarfcn; i_srx_lev := rscp; i_rx_lev := i_rx_lev i; i_plmn := plmn |}.
(** NAS_CELL_LAC_INFO_LTE_INTRA_INFO *)
Definition lte_cell (o : Z) (i : cell_info) : cres cell_info :=
  let* _ := rd buf (o + 3) in
  let* plmn := rdn buf (o + 4) 3 in
  let* tracking_area_code := rd16 buf (o + 7) in
  let* cell_id := rd32 buf (o + 9) in
  let* earfcn := rd16 buf (o + 13) in
  let* _ := peek (o + 15) 6 in
  let* num_of_cells := rd buf (o + 21) in
  let* _ := peek_items (o + 22) num_of_cells 10 in
  Ret {| i_service := 0x0b; i_lac := tracking_area_code; i_cell_id := cell_id; i_bsic := i_bsic i;
         i_bcch := i_bcch i; i_psc := i_psc i; i_arfcn := earfcn; i_srx_lev := i_srx_lev i;
         i_rx_lev := i_rx_lev i; i_plmn := plmn |}.
(** NAS_CELL_LAC_INFO_LTE_INTER_INFO and the neighbours of the other networks:
    their items are logged. *)
Definition lte_neighbours (size sub o : Z) (i : cell_info) : cres cell_info :=
  let* _ := rd buf (o + 3) in
  let* num_instances := rd buf (o + 4) in
  let* _ := peek_nested (Z.to_nat num_instances) (o + 5) size sub in
  Ret i.
(** NAS_CELL_LAC_INFO_UMTS_CELL_ID *)
Definition umts_cell_id (o : Z) (i : cell_info) : cres cell_info :=
  let* cell_id := rd32 buf (o + 3) in
  Ret {| i_service := i_service i; i_lac := i_lac i; i_cell_id := cell_id; i_bsic := i_bsic i;
         i_bcch := i_bcch i; i_psc := i_psc i; i_arfcn := i_arfcn i; i_srx_lev := i_srx_lev i;
         i_rx_lev := i_rx_lev i; i_plmn := i_plmn i |}.
(** NAS_CELL_LAC_INFO_WCDMA_INFO_LTE_NEIGHBOUR *)
Definition wcdma_lte_neighbours (o : Z) (i : cell_info) : cres cell_info :=
  let* _ := peek (o + 3) 4 in
  let* num_cells := rd buf (o + 7) in
  let* _ := peek_items (o + 8) num_cells 15 in
  Ret i.
(** NAS_CELL_LAC_INFO_GSM_CELL_INFO_EXTENDED *)
Definition gsm_cell_extended (o : Z) (i : cell_info) : cres cell_info :=
  let* _ := rd16 buf (o + 3) in
  let* bcch := rd16 buf (o + 5) in
  Ret {| i_service := i_service i; i_lac := i_lac i; i_cell_id := i_cell_id i; i_bsic := i_bsic i;
         i_bcch := bcch; i_psc := i_psc i; i_arfcn := i_arfcn i; i_srx_lev := i_srx_lev i;
         i_rx_lev := i_rx_lev i; i_plmn := i_plmn i |}.
(** NAS_CELL_LAC_INFO_EXTENDED_GERAN_INFO: the type of service stays. *)
Definition geran_cell (o : Z) (i : cell_info) : cres cell_info :=
  let* cell_id := rd32 buf (o + 3) in
  let* plmn := rdn buf (o + 7) 3 in
  let* lac := rd16 buf (o + 10) in
  let* arfcn := rd16 buf (o + 12) in
  let* bsic := rd buf (o + 14) in
  let* _ := rd32 buf (o + 15) in
  let* rx_level := rd16 buf (o + 19) in
  let* num_instances := rd buf (o + 21) in
  let* _ := peek_items (o + 22) num_instances 14 in
  Ret {| i_service := i_service i; i_lac := lac; i_cell_id := cell_id; i_bsic := bsic; i_bcch := i_bcch i;
         i_psc := i_psc i; i_arfcn := arfcn; i_srx_lev := i_srx_lev i; i_rx_lev := rx_level; i_plmn := plmn |}.
(** NAS_CELL_LAC_INFO_UMTS_EXTENDED_INFO: its short cell identifier is logged. *)
Definition umts_cell_extended (o : Z) (i : cell_info) : cres cell_info :=
  let* _ := rd16 buf (o + 3) in
  let* plmn := rdn buf (o + 5) 3 in
  let* lac := rd16 buf (o + 8) in
  let* uarfcn := rd16 buf (o + 10) in
  let* psc := rd16 buf (o + 12) in
  let* _ := peek (o + 14) 6 in
  let* srx_level := rd16 buf (o + 20) in
  let* num_instances := rd buf (o + 22) in
  let* _ := peek_items (o + 23) num_instances 15 in
  Ret {| i_service := i_service i; i_lac := lac; i_cell_id := i_cell_id i; i_bsic := i_bsic i;
         i_bcch := i_bcch i; i_psc := psc; i_arfcn := uarfcn; i_srx_lev := srx_level;
         i_rx_lev := i_rx_lev i; i_plmn := plmn |}.
(** NAS_CELL_LAC_INFO_LTE_INFO_EXTENDED_INTRA_EARFCN and its sister: 32 bits
    kept in 16. *)
Definition extended_earfcn (o : Z) (i : cell_info) : cres cell_info :=
  let* earfcn := rd32 buf (o + 3) in
  Ret {| i_service := i_service i; i_lac := i_lac i; i_cell_id := i_cell_id i; i_bsic := i_bsic i;
         i_bcch := i_bcch i; i_psc := i_psc i; i_arfcn := u16 earfcn; i_srx_lev := i_srx_lev i;
         i_rx_lev := i_rx_lev i; i_plmn := i_plmn i |}.
Definition wcdma_extended_lte (o : Z) (i : cell_info) : cres cell_info :=
  let* num_instances := rd buf (o + 3) in
  let* _ := peek_items (o + 4) num_instances 4 in
  Ret i.
Definition logged (n o : Z) (i : cell_info) : cres cell_info := let* _ := peek (o + 3) n in Ret i.

(** The switch. *)
Definition take_tlv (id : Z) : Z -> cell_info -> cres cell_info :=
  if id =? 0x11 then umts_cell
  else if id =? 0x13 then lte_cell
  else if id =? 0x14 then lte_neighbours 6 10
  else if id =? 0x15 then lte_neighbours 5 9
  else if id =? 0x16 then lte_neighbours 8 8
  else if id =? 0x17 then umts_cell_id
  else if id =? 0x18 then wcdma_lte_neighbours
  else if id =? 0x1b then gsm_cell_extended
  else if id =? 0x1c then logged 10
  else if id =? 0x1e then logged 4
  else if id =? 0x21 then geran_cell
  else if id =? 0x22 then umts_cell_extended
  else if id =? 0x24 then logged 3
  else if id =? 0x25 then logged 1
  else if id =? 0x26 then logged 2
  else if (id =? 0x27) || (id =? 0x28) then extended_earfcn
  else if id =? 0x29 then wcdma_extended_lte
  else fun _ => Ret.
(** The loop ends one short of the 28 identifiers. *)
Definition available_tlvs : list Z :=
  [0x11; 0x12; 0x13; 0x14; 0x15; 0x16; 0x17; 0x18; 0x19; 0x1a; 0x1b; 0x1c; 0x1d; 0x1e; 0x1f; 0x20; 0x21;
   0x22; 0x23; 0x24; 0x25; 0x26; 0x27; 0x28; 0x29; 0x2a; 0x2c; 0x2d].
Fixpoint info_loop (ids : list Z) (i : cell_info) : cres cell_info :=
  match ids with
  | [] => Ret i
  | id :: ids =>
      let* offset := get_tlv_offset_by_id buf buf_len id in
      let* i := if 0 <? offset then take_tlv id offset i else Ret i in
      info_loop ids i
  end.

(** The digits of the carrier; the third one of the MNC is not used. *)
Definition plmn_mcc (p : list Z) : list Z :=
  [Z.land (nth 0 p 0) 0x0f + 0x30; Z.shiftr (Z.land (nth 0 p 0) 0xf0) 4 + 0x30; Z.land (nth 1 p 0) 0x0f + 0x30].
Definition plmn_mnc (p : list Z) : list Z :=
  [Z.land (nth 2 p 0) 0x0f + 0x30; Z.shiftr (Z.land (nth 2 p 0) 0xf0) 4 + 0x30].
Definition update_plmn (reported : list Z) (n : nas_runtime) : nas_runtime :=
  if bool_decide (curr_plmn n = reported) then n
  else
    let st := curr_state n in
    set_states (set_carrier (plmn_mcc reported ++ drop 3 (st_mcc st)) (plmn_mnc reported ++ drop 2 (st_mnc st)) st)
      (prev_state n) (set_plmns reported (curr_plmn n) n).

Definition cell_of (mcc mnc : Z) (i : cell_info) : serving_cell :=
  {| c_mcc := mcc; c_mnc := mnc; c_service := i_service i; c_lac := i_lac i; c_phy_cell_id := 0;
     c_cell_id := i_cell_id i; c_bsic := i_bsic i; c_bcch := i_bcch i; c_psc := i_psc i;
     c_arfcn := i_arfcn i; c_srx_lev := i16 (i_srx_lev i); c_rx_lev := i_rx_lev i |}.
(** The cells' database is loaded when the carrier is not the one it is for. *)
Definition refresh_database (mcc mnc : Z) : MN unit :=
  do* s := get in
  let n := nas s in
  when ((1 <? signal_tracking_mode (settings (nw_cfg s))) && negb (mcc =? 0) && negb (mnc =? 0) &&
        (negb (bool_decide (st_mcc (curr_state n) = open_cellid_mcc n)) ||
         negb (bool_decide (st_mnc (curr_state n) = open_cellid_mnc n))))
    (get_opencellid_data env).
Definition update_cell_location_information : MN unit :=
  do* s := get in
  do* mcc := lift (cstr (st_mcc (curr_state (nas s)))) in
  do* mnc := lift (cstr (st_mnc (curr_state (nas s)))) in
  let mcc := u16 (atoi mcc) in
  let mnc := u16 (atoi mnc) in
  if signal_tracking (settings (nw_cfg s)) =? 0 then ret tt
  else
    do* failed := lift (did_qmi_op_fail buf buf_len) in
    if negb (failed =? QMI_RESULT_SUCCESS) then ret tt
    else
      refresh_database mcc mnc ;>
      do* _ := lift (count_tlvs_in_message buf buf_len) in
      do* i := lift (info_loop (take 27 available_tlvs) no_info) in
      modify (on_nas (update_plmn (i_plmn i))) ;>
      when (negb (mcc =? 0) && negb (mnc =? 0)) (process_current_network_data env (cell_of mcc mnc i)).

(** ** The messages *)

(** [send_hello_world] (sms.c), with a message on the stack. *)
Definition send_hello_world : MN unit :=
  do* '(message, _) := lift (snprintf (take 160 (n_stack env)) 160 hello_text) in
  zoom Stored clear_ifrst_boot_flag ;>
  do* len := lift (strlen message) in
  zoom Told (add_message_to_queue message len).

Definition handle_incoming_nas_message : MN Z :=
  do* id := lift (get_qmi_message_id buf) in
  (if id =? NAS_GET_SERVING_SYSTEM then parse_serving_system_message
   else if id =? NAS_OPERATOR_NAME then update_operator_name
   else if id =? NAS_GET_CELL_LOCATION_INFO then
     update_cell_location_information ;>
     do* c := tracking in
     when (enabled (dump_network_tables c)) (emit DumpCellTables)
   else if id =? NAS_GET_SIGNAL_INFO then
     do* ty := lift (rd buf 20) in
     do* level := lift (rd buf 23) in
     nas_update_network_data ty level ;>
     do* c := tracking in
     when (first_boot c) send_hello_world
   else ret tt) ;>
  ret 0.
End Messages.

Definition register_to_nas_service (env : nas_env) : MN unit :=
  do* _ := load_report_data env in
  do* _ := nas_register_to_events in
  do* _ := nas_get_ims_preference in
  ret tt.

(** * The report of an LTE cell *)

(** The message: the two headers, a successful result and the cell with its
    neighbours, and what follows it in the receive buffer. *)
Record lte_report := {
  l_idle : Z; l_plmn : Z * Z * Z; l_tac : Z; l_cell_id : Z; l_earfcn : Z;
  l_rest : Z * Z * Z * Z * Z * Z; l_neighbours : list Z; l_count : Z
}.
Definition lte_head (r : lte_report) : list Z :=
  let '(p0, p1, p2) := l_plmn r in
  let '(a, b, c, d, e, f) := l_rest r in
  [l_idle r; p0; p1; p2] ++ le 2 (l_tac r) ++ le 4 (l_cell_id r) ++ le 2 (l_earfcn r) ++
  [a; b; c; d; e; f; l_count r].
Definition lte_tlvs (r : lte_report) : list tlv :=
  [Build_tlv 0x02 [0; 0; 0; 0]; Build_tlv 0x13 (lte_head r ++ l_neighbours r)].
Definition lte_fits (r : lte_report) : Prop :=
  0 <= l_tac r < 65536 /\ 0 <= l_cell_id r < 4294967296 /\ 0 <= l_earfcn r < 65536 /\
  0 <= l_count r < 256 /\ zlen (l_neighbours r) = 10 * l_count r.
Definition plmn_of (r : lte_report) : list Z := let '(p0, p1, p2) := l_plmn r in [p0; p1; p2].
Definition lte_info (r : lte_report) : cell_info :=
  {| i_service := 0x0b; i_lac := l_tac r; i_cell_id := l_cell_id r; i_bsic := 0; i_bcch := 0; i_psc := 0;
     i_arfcn := l_earfcn r; i_srx_lev := 0; i_rx_lev := 0; i_plmn := plmn_of r |}.

(** ** What is read of a cell *)

Lemma lte_cell_shift pre b i : lte_cell (pre ++ b) (zlen pre) i = lte_cell b 0 i.
Proof.
  unfold lte_cell, peek_items, peek. rewrite !rd_shift, !rdn_shift, !rd16_shift, !rd32_shift by lia.
  repeat match goal with |- cbind ?m _ = cbind ?m' _ => change m' with m; destruct m; [|done|done]; cbn [cbind] end.
  by rewrite rdn_shift by lia.
Qed.
Lemma lte_cell_run r slack i :
  lte_fits r ->
  lte_cell (0x13 :: le 2 (zlen (lte_head r ++ l_neighbours r)) ++ lte_head r ++ l_neighbours r ++ slack) 0 i =
  Ret {| i_service := 0x0b; i_lac := l_tac r; i_cell_id := l_cell_id r; i_bsic := i_bsic i;
         i_bcch := i_bcch i; i_psc := i_psc i; i_arfcn := l_earfcn r; i_srx_lev := i_srx_lev i;
         i_rx_lev := i_rx_lev i; i_plmn := plmn_of r |}.
Proof.
  intros (Ht & Hc & He & Hn & Hl). set (z := zlen (lte_head r ++ l_neighbours r)).
  destruct r as [idle [[p0 p1] p2] tac cell earfcn [[[[[a b] c] d] e] f] items count].
  unfold lte_head, plmn_of. cbn [l_idle l_plmn l_tac l_cell_id l_earfcn l_rest l_count l_neighbours] in *.
  pose proof (rdn_shift (0x13 :: le 2 z ++ [idle; p0; p1; p2] ++ le 2 tac ++ le 4 cell ++ le 2 earfcn ++
    [a; b; c; d; e; f; count]) (items ++ slack) 0 (Z.to_nat (count * 10)) ltac:(lia)) as Hitems.
  rewrite rdn_head in Hitems by (rewrite length_app; unfold zlen in Hl; lia).
  unfold lte_cell, peek_items. rewrite <- !app_assoc in *. cbn [le app] in *.
  rdc. cbn match. unfold peek at 1. cbn [Z.to_nat Pos.to_nat Pos.iter_op Init.Nat.add rdn].
  rdc. unfold peek. change (zlen _ + 0) with 22 in Hitems. change (0 + 22) with 22. rewrite Hitems. cbn [cbind].
  rewrite read32 by done. by rewrite !read16 by done.
Qed.

(** ** The message *)

Record lte_message := {
  g_env : nas_env; g_qmux : qmux_packet; g_qmi : qmi_packet; g_report : lte_report; g_slack : list Z
}.
Definition g_head (m : lte_message) : list Z := enc_qmux (g_qmux m) ++ enc_qmi (g_qmi m).
Definition g_bytes (m : lte_message) : list Z := g_head m ++ enc_tlvs (lte_tlvs (g_report m)) ++ g_slack m.
Definition g_len (m : lte_message) : Z := zlen (g_head m ++ enc_tlvs (lte_tlvs (g_report m))).
Definition receive (m : lte_message) : MN Z := handle_incoming_nas_message (g_env m) (g_bytes m) (g_len m).

Section Report.
Context (m : lte_message) (Hfits : lte_fits (g_report m)).
#[local] Abbreviation r := (g_report m) (only parsing).

Lemma lte_head_len : zlen (lte_head r) = 19.
Proof. unfold lte_head. destruct (l_plmn r) as [[? ?] ?], (l_rest r) as [[[[[? ?] ?] ?] ?] ?]. by zl. Qed.
Lemma lte_value_len : zlen (lte_head r ++ l_neighbours r) = 19 + 10 * l_count r.
Proof. destruct Hfits as (_ & _ & _ & _ & Hl). by rewrite zlen_app, lte_head_len, Hl. Qed.
Lemma g_head_len : zlen (g_head m) = SZ_ENCAP.
Proof. unfold g_head. by rewrite zlen_app, enc_qmux_len, enc_qmi_len. Qed.
Lemma g_tlvs_ok : Forall tlv_ok (lte_tlvs r).
Proof.
  pose proof lte_value_len as Hl. destruct Hfits as (_ & _ & _ & Hc & _). unfold lte_tlvs, tlv_ok, byte_ok.
  repeat constructor; cbn [t_id t_val]; try rewrite Hl; try lia; by zl.
Qed.
Lemma g_len_bounds : SZ_ENCAP + 4 <= g_len m < 65536.
Proof.
  pose proof lte_value_len as Hl. destruct Hfits as (_ & _ & _ & Hc & _). unfold g_len.
  rewrite zlen_app, g_head_len. unfold lte_tlvs. rewrite !enc_tlvs_cons, !zlen_app, !enc_tlv_len.
  cbn [t_val]. rewrite Hl. change (zlen (enc_tlvs [])) with 0. zl. unfold SZ_ENCAP, SZ_QMUX, SZ_QMI. lia.
Qed.
Lemma g_lookup id : get_tlv_offset_by_id (g_bytes m) (g_len m) id = Ret (default 0 (tlv_find (lte_tlvs r) id SZ_ENCAP)).
Proof. pose proof g_len_bounds. apply lookup_spec; [exact g_head_len|exact g_tlvs_ok|done|lia..]. Qed.
Lemma g_result : did_qmi_op_fail (g_bytes m) (g_len m) = Ret QMI_RESULT_SUCCESS.
Proof.
  pose proof g_len_bounds. unfold g_bytes.
  by rewrite (result_spec (g_head m) (lte_tlvs r)) by (exact g_head_len || exact g_tlvs_ok || done || lia).
Qed.
Lemma g_count : count_tlvs_in_message (g_bytes m) (g_len m) = Ret 2.
Proof.
  pose proof g_len_bounds. unfold g_bytes.
  by rewrite (count_spec (g_head m) (lte_tlvs r)) by (exact g_head_len || exact g_tlvs_ok || done || lia).
Qed.

Lemma info_loop_skip ids rest i :
  Forall (fun id => id <> 0x02 /\ id <> 0x13) ids ->
  info_loop (g_bytes m) (g_len m) (ids ++ rest) i = info_loop (g_bytes m) (g_len m) rest i.
Proof.
  induction 1 as [|id ids [H2 H13] _ IH]; [done|]. cbn [app info_loop]. rewrite g_lookup.
  unfold lte_tlvs. cbn [tlv_find t_id]. by ifdec.
Qed.
Lemma lte_info_loop : info_loop (g_bytes m) (g_len m) (take 27 available_tlvs) no_info = Ret (lte_info r).
Proof.
  change (take 27 available_tlvs) with (take 2 available_tlvs ++ 0x13 :: take 24 (drop 3 available_tlvs) ++ []).
  rewrite info_loop_skip by (repeat constructor; cbn; lia). cbn [info_loop]. rewrite g_lookup.
  unfold lte_tlvs at 1. cbn [tlv_find t_id Z.eqb Pos.eqb default].
  change (SZ_ENCAP + zlen (enc_tlv {| t_id := 2; t_val := [0; 0; 0; 0] |})) with 20.
  unfold id. change (take_tlv (g_bytes m) 19) with (lte_cell (g_bytes m)). cbn [cbind].
  assert (lte_cell (g_bytes m) 20 no_info = Ret (lte_info r)) as ->.
  { pose proof (lte_cell_shift (g_head m ++ enc_tlv {| t_id := 2; t_val := [0; 0; 0; 0] |})) as Hs.
    rewrite zlen_app, g_head_len in Hs. change (SZ_ENCAP + _) with 20 in Hs.
    pose proof (lte_cell_run r (g_slack m) no_info Hfits) as Hr. rewrite <- Hs in Hr. refine (eq_trans _ Hr).
    f_equal. unfold g_bytes, lte_tlvs. rewrite !enc_tlvs_cons. change (enc_tlvs []) with (@nil Z).
    rewrite <- !app_assoc. do 2 f_equal. unfold enc_tlv at 1. cbn [t_id t_val app]. by rewrite <- !app_assoc. }
  change (0 <? 20) with true. cbn match. cbn [cbind]. rewrite info_loop_skip by (repeat constructor; cbn; lia). done.
Qed.
End Report.

(** ** The carrier *)

Definition digit (x : Z) : Prop := 0 <= x <= 9.
(** The digits of a PLMN that are used are decimal ones; its codes. *)
Definition mcc_digits (p : list Z) : list Z :=
  [Z.land (nth 0 p 0) 0x0f; Z.shiftr (Z.land (nth 0 p 0) 0xf0) 4; Z.land (nth 1 p 0) 0x0f].
Definition mnc_digits (p : list Z) : list Z := [Z.land (nth 2 p 0) 0x0f; Z.shiftr (Z.land (nth 2 p 0) 0xf0) 4].
Definition decimal_plmn (p : list Z) : Prop := Forall digit (mcc_digits p) /\ Forall digit (mnc_digits p).
Definition mcc_of (p : list Z) : Z :=
  100 * Z.land (nth 0 p 0) 0x0f + 10 * Z.shiftr (Z.land (nth 0 p 0) 0xf0) 4 + Z.land (nth 1 p 0) 0x0f.
Definition mnc_of (p : list Z) : Z :=
  10 * Z.land (nth 2 p 0) 0x0f + Z.shiftr (Z.land (nth 2 p 0) 0xf0) 4.
(** The client's texts of the carrier are those of [p]. *)
Definition carrier_is (n : nas_runtime) (p : list Z) : Prop :=
  curr_plmn n = p /\ drop 3 (st_mcc (curr_state n)) = [0] /\ drop 2 (st_mnc (curr_state n)) = [0] /\
  exists mcc mnc, cstr (st_mcc (curr_state n)) = Ret mcc /\ cstr (st_mnc (curr_state n)) = Ret mnc /\
    u16 (atoi mcc) = mcc_of p /\ u16 (atoi mnc) = mnc_of p.

Lemma digit_text x : digit x -> isdigit (x + 0x30) = true /\ x + 0x30 <> 0.
Proof. unfold digit, isdigit. intros Hx. split; [by ifdec|lia]. Qed.
Lemma atoi_digits ds :
  Forall digit ds -> ds <> [] -> let v := foldl (fun a d => 10 * a + d) 0 ds in 0 <= v < 65536 ->
  cstr (map (fun d => d + 0x30) ds ++ [0]) = Ret (map (fun d => d + 0x30) ds) /\
  u16 (atoi (map (fun d => d + 0x30) ds)) = v.
Proof.
  intros Hd Hne v Hv. split.
  { apply cstr_app, Forall_map. eapply Forall_impl; [exact Hd|]. intros x Hx%digit_text. apply Hx. }
  assert (Hval : forall l acc, Forall digit l ->
    digits_val acc (map (fun d => d + 0x30) l) = foldl (fun a d => 10 * a + d) acc l).
  { induction l as [|x l IH]; intros acc Hl; [done|]. inversion_clear Hl as [|? ? Hx Hl'].
    cbn [map digits_val foldl]. rewrite (proj1 (digit_text x Hx)), IH by done. do 2 f_equal. lia. }
  destruct ds as [|d ds]; [done|]. specialize (Hval (d :: ds) 0 Hd). fold v in Hval.
  inversion_clear Hd as [|? ? Hx _]. cbn [map] in *. unfold atoi.
  rewrite skip_space_digit by apply (digit_text d Hx).
  assert (match d + 0x30 :: map (fun d => d + 0x30) ds with
    | 45 :: r => - digits_val 0 r | 43 :: r => digits_val 0 r | r => digits_val 0 r end = v) as ->.
  { rewrite <- Hval. unfold digit in Hx.
    assert (d = 0 \/ d = 1 \/ d = 2 \/ d = 3 \/ d = 4 \/ d = 5 \/ d = 6 \/ d = 7 \/ d = 8 \/ d = 9) as H by lia.
    by repeat destruct H as [-> |H]; [..|subst]. }
  rewrite Z.min_r, Z.max_r by lia. unfold u16. by apply Z.mod_small.
Qed.
Lemma carrier_updated n p q :
  carrier_is n p -> decimal_plmn q -> length q = 3%nat -> carrier_is (update_plmn q n) q.
Proof.
  intros (Hp & Hm & Hn & Hc) Hq Hlen. unfold update_plmn. case_bool_decide as E.
  { rewrite <- E, Hp. by split_and!. }
  destruct q as [|a [|b [|c []]]]; try done. destruct Hq as [Hq1 Hq2].
  unfold carrier_is. cbn [curr_plmn curr_state set_states set_plmns set_carrier st_mcc st_mnc].
  rewrite Hm, Hn. split_and!; [done..|].
  pose proof (atoi_digits _ Hq1 ltac:(done)) as H1. pose proof (atoi_digits _ Hq2 ltac:(done)) as H2.
  unfold mcc_digits, mnc_digits, nth in *. repeat match goal with H : Forall _ (_ :: _) |- _ => inversion_clear H end. unfold digit in *. cbn [foldl map] in *.
  destruct H1 as [H1 H1v]; [lia|]. destruct H2 as [H2 H2v]; [lia|].
  eexists _, _. split; [exact H1|]. split; [exact H2|]. unfold mcc_of, mnc_of, nth. rewrite H1v, H2v. split; lia.
Qed.

(** ** What the table's steps leave *)

(** The table's steps keep the network's state, the carrier and the size of the
    table. *)
Definition harmless (n n' : nas_runtime) : Prop :=
  curr_state n' = curr_state n /\ curr_plmn n' = curr_plmn n /\ length (reports n') = length (reports n).
Section Frame.
Context (I : network -> Prop).
Context (Htold : forall text n, keeps I (zoom Told (add_message_to_queue text n) : MN unit)).
Context (Hstored : forall A (m : MC A), keeps I (zoom Stored m : MN A)).
Context (Hfile : forall f s, I s -> I (with_cells_file f s)).
Context (Hnas : forall g s, harmless (nas s) (g (nas s)) -> I s -> I (on_nas g s)).
Hint Resolve Htold Hstored Hfile : oqti.

Lemma frame_nas g : (forall n, harmless n (g n)) -> keeps I (modify (on_nas g) : MN unit).
Proof. intros Hg. apply keeps_modify. intros s. by apply Hnas. Qed.
Hint Extern 1 (keeps I (modify (on_nas _))) => apply frame_nas; by intros : oqti.
Hint Extern 1 (keeps I (modify (fun s => with_cells_file _ s))) => apply keeps_modify; intros ?; apply Hfile : oqti.
Lemma frame_on_report i f : keeps I (on_report i f).
Proof.
  apply keeps_modifyM. intros s s' H (r & _ & (l & Hw & [= <-])%cbind_Ret_inv)%cbind_Ret_inv.
  apply wrA_inv in Hw as [_ ->]. apply Hnas; [|exact H]. split_and!; [done..|]. apply length_insert.
Qed.
Hint Resolve frame_on_report : oqti.
Lemma frame_get_report i : keeps I (get_report i).
Proof. unfold get_report. keeps_auto. Qed.
Lemma frame_tracking : keeps I tracking.
Proof. unfold tracking. keeps_auto. Qed.
Hint Resolve frame_get_report frame_tracking : oqti.
Lemma frame_warn l : keeps I (warn l).
Proof. unfold warn. keeps_auto. Qed.
Lemma frame_store env : keeps I (store_report_data env).
Proof. unfold store_report_data. keeps_auto. Qed.
Lemma frame_cell_info cell_id lac : keeps I (get_opencellid_cell_info cell_id lac).
Proof. unfold get_opencellid_cell_info. keeps_auto. Qed.
Hint Resolve frame_warn frame_store frame_cell_info : oqti.
Lemma frame_in_db cell_id lac : keeps I (is_cell_id_in_db cell_id lac).
Proof. unfold is_cell_id_in_db. keeps_auto. Qed.
Lemma frame_emergency cell_id lac v : keeps I (emergency_baseband_pwoerdown cell_id lac v).
Proof. unfold emergency_baseband_pwoerdown. keeps_auto. Qed.
Lemma frame_notify cell_id lac : keeps I (notify_cellid_change cell_id lac).
Proof. unfold notify_cellid_change. cbv zeta. keeps_auto. Qed.
Lemma frame_find env n c i id v : keeps I (find_loop env n c i id v).
Proof. revert i id v. induction n as [|n IH]; intros i id v; cbn [find_loop]; keeps_auto. Qed.
Hint Resolve frame_in_db frame_emergency frame_notify frame_find : oqti.
Lemma frame_is_in_report env c : keeps I (is_in_report env c).
Proof. unfold is_in_report. keeps_auto. Qed.
Lemma frame_add_report c : keeps I (add_report c).
Proof.
  unfold add_report. keeps_auto. apply frame_nas. intros n. split_and!; destruct (_ <=? _); try done.
  cbn. pose proof (shift_down_length (reports n)). unfold zlen in *. lia.
Qed.
Hint Resolve frame_is_in_report frame_add_report : oqti.
Lemma frame_track c known : keeps I (track c known).
Proof. unfold track, verify_report. cbv zeta. keeps_auto. Qed.
Lemma frame_notice c known : keeps I (notice_change c known).
Proof. unfold notice_change. cbv zeta. keeps_auto. Qed.
Hint Resolve frame_track frame_notice : oqti.
Lemma frame_process env c : keeps I (process_current_network_data env c).
Proof. unfold process_current_network_data. cbv zeta. keeps_auto. Qed.
Lemma frame_database env : keeps I (get_opencellid_data env).
Proof.
  unfold get_opencellid_data, set_cellid_data_missing_as_requested, notify_database_unavailable. cbv zeta.
  keeps_auto.
Qed.
Lemma frame_load env : keeps I (load_report_data env).
Proof.
  unfold load_report_data, fallback_notify. cbv zeta. keeps_auto. apply frame_nas. intros n.
  assert (forall saved data current, length (fst (load_loop saved data current)) = length data) as Hlen.
  { induction saved as [|r saved IH]; intros [|d data] current; cbn [load_loop]; try done.
    specialize (IH data (if in_use r =? 0 then current else u16 (current + 1))).
    destruct (load_loop _ _ _). cbn in *. by rewrite IH. }
  match goal with |- context [load_loop ?a ?b ?c] => specialize (Hlen a b c); destruct (load_loop a b c) end.
  by split_and!.
Qed.
End Frame.

(** Steps that leave the carrier. *)
Definition on_carrier (st : basic_network_status) (p : list Z) (s : network) : Prop :=
  curr_state (nas s) = st /\ curr_plmn (nas s) = p.
Lemma carrier_process st p env c : keeps (on_carrier st p) (process_current_network_data env c).
Proof.
  apply frame_process.
  - intros text n. apply keeps_zoom_other. intros t [] H. exact H.
  - intros A m. apply keeps_zoom_other. intros t [] H. exact H.
  - intros f [] H. exact H.
  - intros g s (H1 & H2 & _) [H3 H4]. split; cbn; congruence.
Qed.

(** ** What the reports teach *)

(** The modem as the user sees it: the carrier of its last report and the cells
    it met. A cell is filed under the carrier of the report before its own. *)
Definition meet (st : list Z * tracker) (r : lte_report) : list Z * tracker :=
  let '(p, t) := st in
  (plmn_of r,
   if (mcc_of p =? 0) || (mnc_of p =? 0) then t
   else observe (mcc_of p, mnc_of p, 0x0b, l_cell_id r, l_tac r) t).

Definition message_ok (m : lte_message) : Prop :=
  pwf (g_qmux m) /\ pwf (g_qmi m) /\ msgid (g_qmi m) = NAS_GET_CELL_LOCATION_INFO /\
  lte_fits (g_report m) /\ decimal_plmn (plmn_of (g_report m)) /\
  l_tac (g_report m) <> 0 /\ l_cell_id (g_report m) <> 0.
Definition tracking_on (c : config_prototype) : Prop := signal_tracking c <> 0 /\ signal_tracking_mode c = 0.

Lemma refresh_learning env mcc mnc s :
  signal_tracking_mode (settings (nw_cfg s)) = 0 -> refresh_database env mcc mnc s = Ret (tt, s, []).
Proof. intros Hm. unfold refresh_database. rewrite bind_get, Hm. reflexivity. Qed.
Lemma update_cell_run m s p :
  cells_ok s -> tracking_on (settings (nw_cfg s)) -> carrier_is (nas s) p -> message_ok m ->
  exists s' t, update_cell_location_information (g_env m) (g_bytes m) (g_len m) s = Ret (tt, s', t) /\ quiet t /\
    tracks (snd (meet (p, tracker_of (nas s)) (g_report m))) s s' /\ carrier_is (nas s') (plmn_of (g_report m)).
Proof.
  intros Hok [Hon Hmode] Hc (_ & _ & _ & Hfits & Hdec & Htac & Hcell).
  pose proof Hc as (_ & _ & _ & tm & tn & Hm & Hn & Hmv & Hnv).
  set (r := g_report m) in *. set (s1 := on_nas (update_plmn (plmn_of r)) s).
  assert (Hc1 : carrier_is (nas s1) (plmn_of r)).
  { eapply carrier_updated; [exact Hc|exact Hdec|]. unfold plmn_of. by destruct (l_plmn r) as [[? ?] ?]. }
  assert (Ht1 : tracks (tracker_of (nas s)) s s1).
  { unfold s1, on_nas, update_plmn. case_bool_decide; [by destruct s|]. done. }
  unfold update_cell_location_information. rewrite bind_get, (bind_lift _ _ _ _ Hm), (bind_lift _ _ _ _ Hn).
  cbv zeta. rewrite Hmv, Hnv. ifdec. rewrite (bind_lift _ _ _ _ (g_result m Hfits)).
  change (negb (QMI_RESULT_SUCCESS =? QMI_RESULT_SUCCESS)) with false. cbn match.
  rewrite (bind_after _ _ _ _ _ _ (refresh_learning _ _ _ _ Hmode)), (bind_lift _ _ _ _ (g_count m Hfits)),
    (bind_lift _ _ _ _ (lte_info_loop m Hfits)).
  rewrite bind_modify. change (i_plmn (lte_info (g_report m))) with (plmn_of r). fold s1.
  cbn [meet snd]. rewrite <- negb_orb. destruct ((mcc_of p =? 0) || (mnc_of p =? 0)); cbn [negb when].
  - exists s1, []. split; [done|]. by split; [constructor|].
  - destruct (process_runs (g_env m) (cell_of (mcc_of p) (mnc_of p) (lte_info r)) s1) as (s2 & Hr & Ht2);
      [apply Ht1|by left|done|]. change (key_of _) with (mcc_of p, mnc_of p, 0x0b, l_cell_id r, l_tac r) in Ht2.
    rewrite (proj1 (proj2 Ht1)) in Ht2. destruct (runs_run _ _ _ _ Hr) as (f & t & Hrun & Hq).
    exists (with_cells_file f s2), t.
    destruct (carrier_process _ _ _ _ s1 _ _ _ (conj eq_refl eq_refl) Hrun) as [Hst Hpl]. cbn [nas with_cells_file] in Hst, Hpl.
    assert (Hc2 : carrier_is (nas s2) (plmn_of r)) by (unfold carrier_is; by rewrite Hst, Hpl).
    split; [fold r; by rewrite Hrun|]. split; [exact Hq|]. split; [exact (tracks_trans _ _ _ _ _ Ht1 Ht2)|exact Hc2].
Qed.
Lemma receive_run m s p :
  cells_ok s -> tracking_on (settings (nw_cfg s)) -> carrier_is (nas s) p -> message_ok m ->
  exists s' t, receive m s = Ret (0, s', t) /\ quiet t /\
    tracks (snd (meet (p, tracker_of (nas s)) (g_report m))) s s' /\ carrier_is (nas s') (plmn_of (g_report m)).
Proof.
  intros Hok Hon Hc Hm. destruct (update_cell_run m s p Hok Hon Hc Hm) as (s' & t & Hrun & Hq & Ht & Hc').
  destruct Hm as (Hx & Hi & Hid & _).
  destruct (getters_spec (g_qmux m) (g_qmi m) (enc_tlvs (lte_tlvs (g_report m)) ++ g_slack m) Hx Hi)
    as (_ & _ & Hget & _). rewrite app_assoc in Hget. change (_ ++ _ ++ g_slack m) with (g_bytes m) in Hget.
  rewrite Hid in Hget. exists s', (t ++ if enabled (dump_network_tables (settings (nw_cfg s'))) then [DumpCellTables] else []).
  split; [|split; [|by split]].
  - unfold receive, handle_incoming_nas_message. rewrite (bind_lift _ _ _ _ Hget). cbn [Z.eqb Pos.eqb
      NAS_GET_CELL_LOCATION_INFO NAS_GET_SERVING_SYSTEM NAS_OPERATOR_NAME]. rewrite bind_assoc.
    erewrite bind_ret_run; [reflexivity|exact Hrun|]. unfold tracking.
    rewrite bind_assoc, bind_assoc, bind_get, bind_ret. by destruct (enabled _).
  - apply Forall_app. split; [done|]. destruct (enabled _); by repeat constructor.
Qed.

Fixpoint receive_all (l : list lte_message) : MN unit :=
  match l with
  | [] => ret tt
  | m :: l => do* _ := receive m in receive_all l
  end.

(** C8: with the tracking on in mode 0, which only learns (in the strict modes 1 and 3
    an unknown cell powers the baseband down), a run of reports of LTE cells, each
    with any neighbours, any headers and any bytes after it, is handled without a
    fault or a power-down, whatever mounts and opens fail, and leaves the carrier of
    the last report and the table of the abstract tracker. The code reads the
    carrier before it takes it from the message: every cell is filed under the
    carrier of the report before it, and the first cell after a start, or after
    a report without carrier codes, is not filed at all. *)
Theorem lte_reports_refine_tracker l s p :
  cells_ok s -> tracking_on (settings (nw_cfg s)) -> carrier_is (nas s) p -> Forall message_ok l ->
  exists s' t, receive_all l s = Ret (tt, s', t) /\ (AdspOff ∉ t) /\ cells_ok s' /\ nw_cfg s' = nw_cfg s /\
    let '(q, known) := foldl meet (p, tracker_of (nas s)) (map g_report l) in
    carrier_is (nas s') q /\ tracker_of (nas s') = known.
Proof.
  intros Hok Hon Hc Hl. cut (exists s' t, receive_all l s = Ret (tt, s', t) /\ quiet t /\ cells_ok s' /\ nw_cfg s' = nw_cfg s /\
    let '(q, known) := foldl meet (p, tracker_of (nas s)) (map g_report l) in
    carrier_is (nas s') q /\ tracker_of (nas s') = known).
  { intros (s' & t & H1 & H2%quiet_not & H3). eauto. }
  revert s p Hok Hon Hc. induction Hl as [|m l Hm _ IH]; intros s p Hok Hon Hc; cbn [receive_all map foldl].
  - exists s, []. split_and!; done || constructor.
  - destruct (receive_run m s p Hok Hon Hc Hm) as (s1 & t1 & Hr1 & Hq1 & (Hok1 & Ht1 & Hcfg1) & Hc1).
    destruct (IH s1 _ Hok1 ltac:(by rewrite Hcfg1) Hc1) as (s2 & t2 & Hr2 & Hq2 & Hok2 & Hcfg2 & Hend).
    exists s2, (t1 ++ t2). split; [by eapply bind_ret_run|]. split; [by apply Forall_app|].
    split; [done|]. split; [congruence|]. rewrite Ht1 in Hend. exact Hend.
Qed.

(** Two cells of 214-07: the first one only tells the carrier. *)
Definition lte_sample (cell_id : Z) : lte_message :=
  {| g_env := all_open; g_qmux := Build_qmux_packet 1 54 0x80 3 1;
     g_qmi := Build_qmi_packet 2 1 NAS_GET_CELL_LOCATION_INFO 42;
     g_report := {| l_idle := 1; l_plmn := (0x12, 0xf4, 0x70); l_tac := 0x1234; l_cell_id := cell_id; l_earfcn := 6300;
                    l_rest := (7, 0, 5, 10, 2, 60); l_neighbours := replicate 10 1; l_count := 1 |};
     g_slack := [9; 9] |}.
Lemma lte_sample_ok cell_id : 0 < cell_id < 4294967296 -> message_ok (lte_sample cell_id).
Proof.
  intros Hc. unfold message_ok, lte_fits. cbn [g_report g_qmux g_qmi lte_sample l_tac l_cell_id l_earfcn l_count
    l_neighbours]. split_and!; try done; try lia; try (vm_compute; repeat split; congruence).
  split; repeat constructor; vm_compute; congruence.
Qed.
Lemma initial_carrier : carrier_is initial_nas [0; 0; 0].
Proof. split; [done|]. split; [done|]. split; [done|]. by exists [], []. Qed.

Lemma lte_reports_refine_tracker_witness :
  exists s' t, receive_all (map lte_sample [1; 2; 3]) (network_in initial_nas 0 2) = Ret (tt, s', t) /\ (AdspOff ∉ t) /\
    cells_ok s' /\ nw_cfg s' = tracking_in 0 2 /\ carrier_is (nas s') [0x12; 0xf4; 0x70] /\
    tracker_of (nas s') =
      {| known := [(0, 0, 0, 0, 0); (214, 7, 0x0b, 2, 0x1234)]; latest := (214, 7, 0x0b, 3, 0x1234) |}.
Proof.
  refine (lte_reports_refine_tracker (map lte_sample [1; 2; 3]) (network_in initial_nas 0 2) [0; 0; 0] _ _ _ _).
  - apply initial_network_ok.
  - by split.
  - exact initial_carrier.
  - repeat (constructor; [by apply lte_sample_ok|]). constructor.
Defined.

(** * Concrete messages *)

(** A request is its two headers: service 3, message 0x43. *)
Example request_cell_location :
  nas_request_cell_location_info (network_in initial_nas 0 0) =
  Ret (0, network_in initial_nas 0 0, [Pending 3 [1; 12; 0; 0; 3; 0; 0; 0; 0; 0x43; 0; 0; 0]]).
Proof. vm_compute. reflexivity. Qed.

(** The registration asks for 19 of the 34 indications in a packet with room for 33. *)
Example events_registered :
  match nas_register_to_events (network_in initial_nas 0 0) with
  | Ret (r, _, [Pending 3 pkt]) => r = 0 /\ zlen pkt = 145 /\ drop (13 + 19 * 4) pkt = replicate 56 0
  | _ => False
  end.
Proof. vm_compute. done. Qed.

(** A message of the network service [id] with the TLVs [ts]. *)
Definition nas_message (id : Z) (ts : list tlv) : list Z :=
  enc_qmux (Build_qmux_packet 1 54 0x80 3 1) ++ enc_qmi (Build_qmi_packet 2 1 id 42) ++ enc_tlvs ts.
Definition deliver (id : Z) (ts : list tlv) : MN Z :=
  handle_incoming_nas_message all_open (nas_message id ts) (zlen (nas_message id ts)).

(** The packet service goes from attached to detached: the capabilities are
    told, the detachment is not. *)
Example detached_not_told :
  let serving ps := deliver NAS_GET_SERVING_SYSTEM [Build_tlv 0x11 [0x0b]; Build_tlv 0x01 [1; 1; ps; 2]] in
  match (do* _ := serving 1 in serving 0) (network_in initial_nas 0 0) with
  | Ret (_, s, []) =>
      packet_switch_attached (curr_state (nas s)) = 0 /\ packet_switch_attached (prev_state (nas s)) = 1 /\
      queue_pos (texts (nw_phone s)) = 0
  | _ => False
  end.
Proof. vm_compute. done. Qed.
(** A signal report on LTE at level 60, and one on GSM during a call. *)
Definition signal_message (id level : Z) : list tlv := [Build_tlv 0x02 [0; 0; 0; 0]; Build_tlv id [level; 0]].
Example signal_noted :
  match deliver NAS_GET_SIGNAL_INFO (signal_message 0x14 60) (network_in initial_nas 0 0) with
  | Ret (_, s, _) => network_type (curr_state (nas s)) = 8 /\ signal_level (curr_state (nas s)) = 30
  | _ => False
  end.
Proof. vm_compute. done. Qed.
(** An operator name without its two-byte header is copied with length 2^32 - 2. *)
Example short_name_overflows :
  deliver NAS_OPERATOR_NAME [Build_tlv 0x10 []; Build_tlv 0x01 [0]] (network_in initial_nas 0 0) = Oob.
Proof. vm_compute. reflexivity. Qed.
(** So is one of more than 32 characters. *)
Example long_name_overflows :
  deliver NAS_OPERATOR_NAME [Build_tlv 0x10 ([0; 0] ++ replicate 33 65)] (network_in initial_nas 0 0) = Oob.
Proof. vm_compute. reflexivity. Qed.
(** A TLV with a length that leaves the message is found at offset 65514. *)
Example broken_message_read_far :
  handle_incoming_nas_message all_open (nas_message NAS_GET_CELL_LOCATION_INFO [Build_tlv 0x02 [0; 0; 0; 0]] ++ [0x40; 200; 0; 0])
    24 (network_in initial_nas 0 0) = Oob.
Proof. vm_compute. reflexivity. Qed.
