(* ===== verification/CellLog.v ===== *)
(** The tables of cells the network client keeps for debugging
    (log_cell_location_information of src/nas_client.c, dump_to_file of
    src/logger.c): for each segment of a message about the cells, the lines that
    are added to the file of that segment, as printf(3) writes them. *)

From stdpp Require Import base list numbers option strings gmap.
From Stdlib Require Import ZArith Lia.
From S2P Require Import Prelude Libc Qmi Config Cells NasClient.

(** * Formatted output *)

(** What is passed for a format: numbers, promoted to 32 bits, and texts. *)
Inductive arg := Int (x : Z) | Text (s : list Z).
Inductive piece := Chr (c : Z) | Cu | Ci | Cs | Cx (n : nat).
Fixpoint parse_format (f : list Z) : list piece :=
  match f with
  | [] => []
  | c :: f =>
      if negb (c =? 37) then Chr c :: parse_format f
      else match f with
           | [] => []
           | d :: f =>
               if d =? 117 then Cu :: parse_format f
               else if d =? 105 then Ci :: parse_format f
               else if d =? 115 then Cs :: parse_format f
               else if d =? 46 then
                 match f with n :: _ :: f => Cx (Z.to_nat (n - 48)) :: parse_format f | _ => [] end
               else Chr d :: parse_format f
           end
  end.
(** The time, where the program keeps a text, and what va_arg(3) finds behind the
    last argument. *)
Record log_env := { l_time : Z; l_address : list Z -> Z; l_vararg : nat -> Z }.

Section Log.
Variable env : log_env.
Variable buf : list Z.
Variable buf_len : Z.

Definition word_of (a : arg) : Z := match a with Int x => x | Text s => l_address env s end.
Definition text_of (a : arg) : cres (list Z) := match a with Int _ => Oob | Text s => Ret s end.
Definition conversion (p : piece) (a : arg) : cres (list Z) :=
  match p with
  | Chr c => Ret [c]
  | Cu => Ret (fmt_u (u32 (word_of a)))
  | Ci => Ret (fmt_i (i32 (word_of a)))
  | Cx n => Ret (fmt_x n (u32 (word_of a)))
  | Cs => text_of a
  end.
Fixpoint print (ps : list piece) (args : list arg) (k : nat) : cres (list Z) :=
  match ps with
  | [] => Ret []
  | Chr c :: ps => let* t := print ps args k in Ret (c :: t)
  | p :: ps =>
      match args with
      | a :: args => let* s := conversion p a in let* t := print ps args k in Ret (s ++ t)
      | [] => let* s := conversion p (Int (l_vararg env k)) in let* t := print ps [] (S k) in Ret (s ++ t)
      end
  end.

(** * Lines *)

(** dump_to_file: the file, its header and the line. *)
Record dump := { d_name : list Z; d_header : list Z; d_line : list Z }.
(** An argument of a line: a field of the segment, the number of the cell, the
    time or a text. *)
Inductive col := Now | U8 (k : Z) | U16 (k : Z) | I16 (k : Z) | U32 (k : Z) | I32 (k : Z) | Idx (j : Z) | Idle | Str (s : list Z).
Definition field (o : Z) (c : col) : cres arg :=
  match c with
  | Now => Ret (Int (l_time env))
  | U8 k => let* x := rd buf (o + k) in Ret (Int x)
  | U16 k => let* x := rd16 buf (o + k) in Ret (Int x)
  | I16 k => let* x := rd16 buf (o + k) in Ret (Int (i16 x))
  | U32 k | I32 k => let* x := rd32 buf (o + k) in Ret (Int x)
  | Idx j => Ret (Int j)
  | Idle => let* x := rd buf (o + 3) in Ret (Text (if x =? 1 then zs "Yes" else zs "No"))
  | Str s => Ret (Text s)
  end.
Fixpoint fields (o : Z) (cs : list col) : cres (list arg) :=
  match cs with [] => Ret [] | c :: cs => let* a := field o c in let* l := fields o cs in Ret (a :: l) end.
Definition dump_line (name header format : list Z) (o : Z) (cs : list col) : cres (list dump) :=
  let* args := fields o cs in
  let* line := print (parse_format format) args 0 in
  Ret [{| d_name := name; d_header := header; d_line := line |}].
Fixpoint each (n : nat) (j : Z) (f : Z -> cres (list dump)) : cres (list dump) :=
  match n with
  | O => Ret []
  | S n => let* a := f j in let* r := each n (j + 1) f in Ret (a ++ r)
  end.
(** [for (uint8_t j = 0; j < cell_info->..; j++)], the count at [k]. *)
Definition for_cells (k : Z) (f : Z -> cres (list dump)) : cres (list dump) :=
  let* n := rd buf k in each (Z.to_nat n) 0 f.
Definition ln (s : string) : list Z := zs s ++ [10].

Definition umts_cell_info (o : Z) : cres (list dump) :=
  let name := zs "NAS_CELL_LAC_INFO_UMTS_CELL_INFO" in
  let header := ln "Time,Cell ID,Location Area Code,UARFCN,PSC,RSCP,Signal level,ECIO,Monitored cell count,Neighbour,UARFCN,PSC,RSCP,ECIO" in
  let cell := [Now; U16 3; U16 8; U16 10; U16 12; I16 14; I16 16; U8 18] in
  let* a := dump_line name header (ln "%u,%.4x,%.4x,%.4x,%.4x,%i,%i,%i,%u") o cell in
  let* r := for_cells (o + 18) (fun j =>
    let m := 19 + 8 * j in
    dump_line name header (ln "%u,%.4x,%.4x,%.4x,%.4x,%i,%i,%i,%u,%u,%.4x,%.4x,%i,%i") o
      (cell ++ [Idx j; U16 m; U16 (m + 2); I16 (m + 4); I16 (m + 6)])) in
  Ret (a ++ r).
Definition lte_intra_info (o : Z) : cres (list dump) :=
  let name := zs "NAS_CELL_LAC_INFO_LTE_INTRA_INFO" in
  let header := ln "Time,Is Idle,Cell ID,Tracking Area Code,EARFCN,Serving Cell ID,Serving Frequency Priority,Non-Intrafrequency search threshold,Serving cell lower threshold,Intrafrequency search threshold,Neighbour Cell count,Neighbour,PHY Cell ID,RSRQ,RSRP,RSSI Lev,SRX Lev" in
  let cell := [Now; Idle; U32 9; U16 7; U16 13; U16 15; U8 18; U8 19; U8 20; U8 21] in
  let* a := dump_line name header (ln "%u,%s,%.4x,%.4x,%.4x,%.4x,%.2x,%.2x,%.2x,%u") o cell in
  let* r := for_cells (o + 21) (fun j =>
    let m := 22 + 10 * j in
    dump_line name header (ln "%u,%s,%.4x,%.4x,%.4x,%.4x,%.2x,%.2x,%.2x,%u,%u,%.4x,%.4x,%i,%i,%i") o
      (cell ++ [Idx j; U16 m; I16 (m + 2); I16 (m + 4); I16 (m + 8); I16 (m + 6)])) in
  Ret (a ++ r).
(** The instances of the next three are at a fixed distance, as the arrays of C
    are, though each holds its own cells. *)
Definition lte_inter_info (o : Z) : cres (list dump) :=
  let name := zs "NAS_CELL_LAC_INFO_LTE_INTER_INFO" in
  let header := ln "Time,Is Idle?,Instances,Instance,EARFCN,SRX Level Low Threshold,SRX Level High Threshold,Reselect Priority,Number of cells:,Cell count,PHY Cell ID,RSRQ,RSRP,RSSI Lev,SRX Lev" in
  for_cells (o + 4) (fun j =>
    let i := 5 + 6 * j in
    for_cells (o + i + 5) (fun k =>
      let m := i + 6 + 10 * k in
      dump_line name header (ln "%u,%s,%u,%u,%.4x,%.2x,%.2x,%.2x,%i,%u,%.4x,%.4x,%i,%i,%i") o
        [Now; Idle; U8 4; Idx j; U16 i; U8 (i + 2); U8 (i + 3); U8 (i + 4); U8 (i + 5); Idx k;
         U16 m; I16 (m + 2); I16 (m + 4); I16 (m + 6); I16 (m + 8)])).
Definition lte_gsm_neighbours (o : Z) : cres (list dump) :=
  let name := zs "NAS_CELL_LAC_INFO_LTE_INFO_NEIGHBOUR_GSM" in
  let header := ln "Time,Is Idle?,Instances,Instance,Cell Reselect Priority,Reselect threshold (hi),Reselect threshold (low),NCC mask,Number of cells,Cell count,ARFCN,Band,Is cell ID valid?,BSIC,RSSI,SRX Lev" in
  for_cells (o + 4) (fun j =>
    let i := 5 + 5 * j in
    for_cells (o + i + 4) (fun k =>
      let m := i + 5 + 9 * k in
      dump_line name header (ln "%u,%s,%u,%u,%.2x,%.2x,%.2x,%.2x,%i,%u,%.4x,%.2x,%.2x,%.2x,%i,%i") o
        [Now; Idle; U8 4; Idx j; U8 i; U8 (i + 1); U8 (i + 2); U8 (i + 3); U8 (i + 4); Idx k;
         U16 m; U8 (m + 2); U8 (m + 3); U8 (m + 4); I16 (m + 5); I16 (m + 7)])).
Definition lte_wcdma_neighbours (o : Z) : cres (list dump) :=
  let name := zs "NAS_CELL_LAC_INFO_LTE_INFO_NEIGHBOUR_WCDMA" in
  let header := ln "Time,Is Idle?,Instances,Instance,Cell Reselect Priority,Reselect threshold (hi),Reselect threshold (low),UARFCN,Number of cells,Cell count,PSC,CPICH_RSCP,CPICH_ECNO,SRX Level" in
  for_cells (o + 4) (fun j =>
    let i := 5 + 8 * j in
    for_cells (o + i + 7) (fun k =>
      let m := i + 8 + 8 * k in
      dump_line name header (ln "%u,%s,%u,%u,%.2x,%.4x,%.4x,%.4x,%i,%u,%.4x,%.2x,%.2x,%.2x") o
        [Now; Idle; U8 4; Idx j; U8 (i + 2); U16 (i + 5); U16 (i + 3); U16 i; U8 (i + 7); Idx k;
         U16 m; I16 (m + 2); I16 (m + 4); I16 (m + 6)])).
Definition umts_cell_id (o : Z) : cres (list dump) :=
  dump_line (zs "NAS_CELL_LAC_INFO_UMTS_CELL_ID") (ln "Time, Type, Cell ID") (ln "%u, UMTS,%.4x") o [Now; U32 3].
Definition wcdma_lte_neighbours (o : Z) : cres (list dump) :=
  for_cells (o + 7) (fun j =>
    let m := 8 + 15 * j in
    dump_line (zs "NAS_CELL_LAC_INFO_WCDMA_INFO_LTE_NEIGHBOUR")
      (ln "Time,RRC State,Number of cells,Cell,EARFCN,Physical Cell ID,RSRP,RSRQ,SRX Level,Is cell TDD?")
      (ln "%u,%.4x,%u,%u,%.4x,%.4x,%.4x,%.4x,%i,%i") o
      [Now; U32 3; U8 7; Idx j; U16 m; U16 (m + 2); U32 (m + 4); U32 (m + 8); I16 (m + 12); U8 (m + 14)]).
Definition gsm_cell_info_extended (o : Z) : cres (list dump) :=
  dump_line (zs "NAS_CELL_LAC_INFO_GSM_CELL_INFO_EXTENDED") (ln "Time, Timing Advance, Channel Freq.")
    (ln "%u,%.4x,%.4x") o [Now; U16 3; U16 5].
Definition wcdma_cell_info_extended (o : Z) : cres (list dump) :=
  dump_line (zs "NAS_CELL_LAC_INFO_WCDMA_CELL_INFO_EXTENDED")
    (ln "Time,WCDMA Power (dB),WCDMA TX Power (dB),Downlink Error rate") (ln "%u,%.4x,%.4x,%i %%") o [Now; U32 3; U32 7; U16 11].
Definition lte_timing_advance (o : Z) : cres (list dump) :=
  dump_line (zs "NAS_CELL_LAC_INFO_LTE_INFO_TIMING_ADV") (ln "Time, Timing advance") (ln "%u, %i") o [Now; I32 3].
Definition extended_geran_info (o : Z) : cres (list dump) :=
  for_cells (o + 21) (fun j =>
    let m := 22 + 14 * j in
    dump_line (zs "NAS_CELL_LAC_INFO_EXTENDED_GERAN_INFO")
      (ln "Time,Cell ID,LAC,ARFCN,BSIC,Timing advance,RX Level,Number of instances,Cell,Cell ID,LAC,ARFCN,BSIC,RX Level")
      (ln "%u,%.8x,%.4x,%.4x,%.2x,%i,%.4x,%u,%u,%.8x,%.4x,%.4x,%.2x,%.4x") o
      [Now; U32 3; U16 10; U16 12; U8 14; U32 15; U16 19; U8 21; Idx j;
       U32 m; U16 (m + 7); U16 (m + 9); U8 (m + 11); U16 (m + 12)]).
Definition umts_extended_info (o : Z) : cres (list dump) :=
  for_cells (o + 22) (fun j =>
    let m := 23 + 15 * j in
    dump_line (zs "NAS_CELL_LAC_INFO_UMTS_EXTENDED_INFO")
      (ln "Time,Cell ID,LAC,UARFCN,PSC,RSCP,ECIO,SQUAL,SRX Level,Instances,Cell,UARFCN,PSC,RSCP,ECIO,SQUAL,SRX Level,Rank,Cell Set")
      (ln "%u,%.4x,%.4x,%.4x,%.4x,%i,%i,%i,%i,%u,%u,%.8x,%.4x,%i,%i,%i,%i,%i,%.2x") o
      [Now; U16 3; U16 8; U16 10; U16 12; I16 14; I16 16; I16 18; I16 20; U8 22; Idx j;
       U16 m; U16 (m + 2); I16 (m + 4); I16 (m + 6); I16 (m + 8); I16 (m + 10); I16 (m + 12); U8 (m + 14)]).
Definition scell_geran_config (o : Z) : cres (list dump) :=
  dump_line (zs "NAS_CELL_LAC_INFO_SCELL_GERAN_CONF")
    (ln "Time,Is PCCH present?,GPRS Minimum RX Access level,MAX TX Power CCH" ++ zs ",") (ln "%u,%u,%.2x,%.2x") o [Now; U8 3; U8 4; U8 5].
Definition current_l1_timeslot (o : Z) : cres (list dump) :=
  dump_line (zs "NAS_CELL_LAC_INFO_CURRENT_L1_TIMESLOT") (ln "Time, Timeslot") (ln "%u, %.2x") o [Now; U8 3].
Definition doppler_measurement (o : Z) : cres (list dump) :=
  dump_line (zs "NAS_CELL_LAC_INFO_DOPPLER_MEASUREMENT_HZ") (ln "Time, Doppler measur.(hz)") (ln "%u, %.2x") o [Now; U16 3].
Definition intra_earfcn (o : Z) : cres (list dump) :=
  dump_line (zs "NAS_CELL_LAC_INFO_LTE_INFO_EXTENDED_INTRA_EARFCN") (ln "Time, EARFCN") (ln "%u, %.8x") o [Now; U32 3].
Definition inter_earfcn (o : Z) : cres (list dump) :=
  dump_line (zs "NAS_CELL_LAC_INFO_LTE_INFO_EXTENDED_INTER_EARFCN") (ln "Time, EARFCN") (ln "%u, %.8x") o [Now; U32 3].
(** The format ends at a comma of the call; its rest is the first argument. *)
Definition wcdma_lte_earfcn (o : Z) : cres (list dump) :=
  for_cells (o + 3) (fun i =>
    dump_line (zs "NAS_CELL_LAC_INFO_WCDMA_INFO_EXTENDED_LTE_NEIGHBOUR_EARFCN")
      (ln "Time,Number of items,Item #,EARFCN: %.8x") (zs "%u,%u,%u,") o [Str (ln "%.8x"); Now; U8 3; Idx i; U32 (4 + 4 * i)]).

(** * The function *)

Definition log_tlv (id o : Z) : cres (list dump) :=
  if id =? 0x11 then umts_cell_info o
  else if id =? 0x13 then lte_intra_info o
  else if id =? 0x14 then lte_inter_info o
  else if id =? 0x15 then lte_gsm_neighbours o
  else if id =? 0x16 then lte_wcdma_neighbours o
  else if id =? 0x17 then umts_cell_id o
  else if id =? 0x18 then wcdma_lte_neighbours o
  else if id =? 0x1b then gsm_cell_info_extended o
  else if id =? 0x1c then wcdma_cell_info_extended o
  else if id =? 0x1e then lte_timing_advance o
  else if id =? 0x21 then extended_geran_info o
  else if id =? 0x22 then umts_extended_info o
  else if id =? 0x24 then scell_geran_config o
  else if id =? 0x25 then current_l1_timeslot o
  else if id =? 0x26 then doppler_measurement o
  else if id =? 0x27 then intra_earfcn o
  else if id =? 0x28 then inter_earfcn o
  else if id =? 0x29 then wcdma_lte_earfcn o
  else Ret [].
Fixpoint log_loop (ids : list Z) : cres (list dump) :=
  match ids with
  | [] => Ret []
  | id :: ids =>
      let* offset := get_tlv_offset_by_id buf buf_len id in
      let* a := if 0 <? offset then log_tlv id offset else Ret [] in
      let* r := log_loop ids in Ret (a ++ r)
  end.
Definition log_cell_location_information (c : config_prototype) : cres (list dump) :=
  if signal_tracking c =? 0 then Ret []
  else
    let* failed := did_qmi_op_fail buf buf_len in
    if negb (failed =? QMI_RESULT_SUCCESS) then Ret []
    else
      let* _ := count_tlvs_in_message buf buf_len in
      log_loop (take 27 available_tlvs).
End Log.

(** The files of the log directory; whether one can be opened for appending. *)
Definition csv_path (c : config_prototype) (name : list Z) : list Z :=
  take 253 (zs (get_default_logpath c) ++ name ++ zs ".csv").
Definition dump_to_file (can_open : list Z -> bool) (c : config_prototype) (files : gmap (list Z) (list Z)) (d : dump)
    : gmap (list Z) (list Z) :=
  let bpath := csv_path c (d_name d) in
  let write_header := match files !! bpath with None => true | Some _ => false end in
  if can_open bpath
  then <[bpath := default [] (files !! bpath) ++ (if write_header then d_header d else []) ++ d_line d]> files
  else files.
Definition dump_all (can_open : list Z -> bool) (c : config_prototype) (files : gmap (list Z) (list Z)) (ds : list dump) :=
  fold_left (dump_to_file can_open c) ds files.

(** * Lines and their columns *)

(** The separators of a text: its commas and the ends of its lines. *)
Definition mark (c : Z) : bool := (c =? 44) || (c =? 10).
Definition marks (t : list Z) : list Z := List.filter mark t.
Definition unmarked (t : list Z) : Prop := Forall (fun c => mark c = false) t.
Fixpoint literal (ps : list piece) : list Z :=
  match ps with [] => [] | Chr c :: ps => c :: literal ps | _ :: ps => literal ps end.

Lemma marks_app a b : marks (a ++ b) = marks a ++ marks b.
Proof. apply List.filter_app. Qed.
Lemma marks_unmarked t : unmarked t -> marks t = [].
Proof. unfold marks. induction 1 as [|c t Hc _ IH]; cbn [List.filter]; [done|]. by rewrite Hc. Qed.
Lemma digit_unmarked c : isdigit c = true -> mark c = false.
Proof. unfold isdigit, mark. intros H. b2p. lia. Qed.
Lemma fmt_u_unmarked x : unmarked (fmt_u (u32 x)).
Proof.
  eapply Forall_impl; [apply fmt_u_digits; unfold u32; by apply Z.mod_pos_bound|]. apply digit_unmarked.
Qed.
Lemma fmt_i_unmarked x : unmarked (fmt_i x).
Proof. eapply Forall_impl; [apply fmt_i_chars|]. cbn. intros c Hc. unfold mark. lia. Qed.
Lemma hex_char_unmarked x : 0 <= x -> mark (hex_char x) = false.
Proof. intros H. unfold hex_char, mark. destruct (Z.ltb_spec x 10); lia. Qed.
Lemma hex_go_unmarked fuel x : 0 <= x -> unmarked (hex_go fuel x).
Proof.
  revert x. induction fuel as [|fuel IH]; intros x Hx; cbn [hex_go]; [constructor|].
  destruct (x <? 16); [repeat constructor; by apply hex_char_unmarked|]. apply Forall_app. split; [apply IH; by apply Z.div_pos|].
  repeat constructor. apply hex_char_unmarked. by apply Z.mod_pos_bound.
Qed.
Lemma fmt_x_unmarked n x : unmarked (fmt_x n (u32 x)).
Proof.
  unfold fmt_x. apply Forall_app. split; [by apply Forall_replicate|]. apply hex_go_unmarked. unfold u32. by apply Z.mod_pos_bound.
Qed.

(** The types of a format and its arguments: a text is one of the two words. *)
Definition is_text (c : col) : bool := match c with Idle => true | _ => false end.
Fixpoint typed (ps : list piece) (cs : list col) : bool :=
  match ps with
  | [] => true
  | Chr _ :: ps => typed ps cs
  | Cs :: ps => match cs with c :: cs => is_text c && typed ps cs | [] => false end
  | _ :: ps => typed ps (tl cs)
  end.
(** The bytes of a segment a column needs. *)
Definition last_byte (c : col) : Z :=
  match c with
  | Now | Idx _ | Str _ => 0
  | U8 k => k + 1
  | U16 k | I16 k => k + 2
  | U32 k | I32 k => k + 4
  | Idle => 4
  end.
Definition first_byte (c : col) : Z :=
  match c with Now | Idx _ | Str _ | Idle => 0 | U8 k | U16 k | I16 k | U32 k | I32 k => k end.
Definition has_col (size : Z) (c : col) : Prop := 0 <= first_byte c /\ last_byte c <= size.
Definition right_arg (c : col) (a : arg) : Prop := is_text c = true -> exists s, a = Text s /\ unmarked s.

Section Lines.
Context (env : log_env) (buf : list Z).

Lemma read16_in i : 0 <= i -> i + 2 <= zlen buf -> exists x, rd16 buf i = Ret x.
Proof.
  intros H0 H. unfold rd16. destruct (rdA_in buf i) as [x ->]; [lia|]. cbn [cbind].
  destruct (rdA_in buf (i + 1)) as [y ->]; [lia|]. by eexists.
Qed.
Lemma read32_in i : 0 <= i -> i + 4 <= zlen buf -> exists x, rd32 buf i = Ret x.
Proof.
  intros H0 H. unfold rd32. destruct (read16_in i) as [x ->]; [lia..|]. cbn [cbind].
  destruct (read16_in (i + 2)) as [y ->]; [lia..|]. by eexists.
Qed.
Lemma field_in o size c : 0 <= o -> o + size <= zlen buf -> has_col size c ->
  exists a, field env buf o c = Ret a /\ right_arg c a.
Proof.
  intros H0 H [Hf Hl]. destruct c; cbn [field first_byte last_byte] in *.
  all: try (match goal with
            | |- context [rd16 buf ?i] => destruct (read16_in i) as [x ->]; [lia..|]
            | |- context [rd32 buf ?i] => destruct (read32_in i) as [x ->]; [lia..|]
            | |- context [rdA buf ?i] => destruct (rdA_in buf i) as [x ->]; [lia|]
            end; cbn [cbind]).
  all: eexists; split; [reflexivity|]; try done.
  intros _. eexists. split; [done|]. by destruct (x =? 1); repeat constructor.
Qed.
Lemma fields_in o size cs : 0 <= o -> o + size <= zlen buf -> Forall (has_col size) cs ->
  exists args, fields env buf o cs = Ret args /\ Forall2 right_arg cs args.
Proof.
  intros H0 H Hc. induction Hc as [|c cs Hc _ IH]; [by exists []|]. cbn [fields].
  destruct (field_in o size c) as (a & -> & Ha); [done..|]. cbn [cbind]. destruct IH as (args & -> & Hargs).
  exists (a :: args). split; [done|]. by constructor.
Qed.

(** A line has the separators of its format. *)
Lemma conversion_unmarked p a : (forall c, p <> Chr c) -> (p = Cs -> exists s, a = Text s /\ unmarked s) ->
  exists s, conversion env p a = Ret s /\ unmarked s.
Proof.
  intros Hp Ht. destruct p; cbn [conversion]; [by destruct (Hp c)| | | |].
  - eexists. split; [done|apply fmt_u_unmarked].
  - eexists. split; [done|apply fmt_i_unmarked].
  - destruct (Ht eq_refl) as (s & -> & Hs). by exists s.
  - eexists. split; [done|apply fmt_x_unmarked].
Qed.
Lemma print_marks ps cs args k : typed ps cs = true -> Forall2 right_arg cs args ->
  exists line, print env ps args k = Ret line /\ marks line = marks (literal ps).
Proof.
  revert cs args k. induction ps as [|p ps IH]; intros cs args k Ht Ha; [by exists []|].
  assert ((exists c, p = Chr c) \/ forall c, p <> Chr c) as [[c ->]|Hp] by (destruct p as [c| | | |]; [left; by exists c|right; by intros c..]).
  { cbn [typed print literal] in *. destruct (IH cs args k Ht Ha) as (line & -> & Hm). cbn [cbind]. eexists. split; [done|].
    change (c :: line) with ([c] ++ line). change (c :: literal ps) with ([c] ++ literal ps). by rewrite !marks_app, Hm. }
  assert (exists c cs' a args' k', typed ps cs' = true /\ Forall2 right_arg cs' args' /\ right_arg c a /\ (p = Cs -> is_text c = true) /\
    print env (p :: ps) args k = let* s := conversion env p a in let* t := print env ps args' k' in Ret (s ++ t)) as H.
  { destruct Ha as [|c a cs args Hca Ha].
    - exists Now, [], (Int (l_vararg env k)), [], (S k). destruct p; cbn [typed tl] in Ht; try done; by edestruct Hp.
    - exists c, cs, a, args, k. destruct p; cbn [typed tl] in Ht; try (by edestruct Hp); split_and!; try done.
      all: by apply andb_true_iff in Ht as [? ?]. }
  destruct H as (c & cs' & a & args' & k' & Ht' & Ha' & Htx & Hcs & ->).
  destruct (conversion_unmarked p a) as (s & -> & Hs); [done|auto|]. cbn [cbind].
  destruct (IH _ _ k' Ht' Ha') as (line & -> & Hm). cbn [cbind]. eexists. split; [done|].
  rewrite marks_app, Hm, (marks_unmarked s Hs). destruct p; try done. by edestruct Hp.
Qed.

(** A line of a table with its header. *)
Definition in_table (name header : list Z) (d : dump) : Prop :=
  d_name d = name /\ d_header d = header /\ marks (d_line d) = marks header.
Lemma line_in_table name header format o size cs :
  0 <= o -> o + size <= zlen buf -> Forall (has_col size) cs ->
  typed (parse_format format) cs = true -> marks (literal (parse_format format)) = marks header ->
  exists ds, dump_line env buf name header format o cs = Ret ds /\ Forall (in_table name header) ds.
Proof.
  intros H0 H Hc Ht Hm. destruct (fields_in o size cs) as (args & Hargs & Ha); [done..|]. unfold dump_line. rewrite Hargs. cbn [cbind].
  destruct (print_marks _ _ _ 0 Ht Ha) as (line & -> & Hl). cbn [cbind]. eexists. split; [done|].
  constructor; [|done]. split; [done|]. split; [done|]. cbn [d_line d_header]. by rewrite Hl.
Qed.
Lemma each_in (P : dump -> Prop) n j f :
  (forall i, j <= i < j + Z.of_nat n -> exists ds, f i = Ret ds /\ Forall P ds) ->
  exists ds, each n j f = Ret ds /\ Forall P ds.
Proof.
  revert j. induction n as [|n IH]; intros j H; [by exists []|]. cbn [each]. destruct (H j) as (a & -> & Ha); [lia|]. cbn [cbind].
  destruct (IH (j + 1)) as (r & -> & Hr); [intros i Hi; apply H; lia|]. cbn [cbind]. eexists. split; [done|]. by apply Forall_app.
Qed.
End Lines.

(** * The tables *)

(** The bytes of a segment at [o] the function looks at: all cells its counts tell of,
    at the places it reads them. *)
Section Segments.
Context (buf : list Z).
Definition count_at (i : Z) : Z := match rd buf i with Ret n => n | _ => 0 end.
Definition instances_size (o stride count width : Z) : Z :=
  foldr Z.max 5 (map (fun j => let i := 5 + stride * Z.of_nat j in i + stride + width * count_at (o + i + count))
                     (seq 0 (Z.to_nat (count_at (o + 4))))).
Definition segment_size (id o : Z) : Z :=
  if id =? 0x11 then 19 + 8 * count_at (o + 18)
  else if id =? 0x13 then 22 + 10 * count_at (o + 21)
  else if id =? 0x14 then instances_size o 6 5 10
  else if id =? 0x15 then instances_size o 5 4 9
  else if id =? 0x16 then instances_size o 8 7 8
  else if id =? 0x17 then 7
  else if id =? 0x18 then 8 + 15 * count_at (o + 7)
  else if id =? 0x1b then 7
  else if id =? 0x1c then 13
  else if id =? 0x1e then 7
  else if id =? 0x21 then 22 + 14 * count_at (o + 21)
  else if id =? 0x22 then 23 + 15 * count_at (o + 22)
  else if id =? 0x24 then 6
  else if id =? 0x25 then 4
  else if id =? 0x26 then 5
  else if id =? 0x27 then 7
  else if id =? 0x28 then 7
  else if id =? 0x29 then 4 + 4 * count_at (o + 3)
  else 0.
End Segments.

(** The tables whose lines have the columns of their headers. *)
Definition regular_tables : list (list Z * list Z) :=
  [ (zs "NAS_CELL_LAC_INFO_LTE_INTER_INFO",
     ln "Time,Is Idle?,Instances,Instance,EARFCN,SRX Level Low Threshold,SRX Level High Threshold,Reselect Priority,Number of cells:,Cell count,PHY Cell ID,RSRQ,RSRP,RSSI Lev,SRX Lev");
    (zs "NAS_CELL_LAC_INFO_LTE_INFO_NEIGHBOUR_GSM",
     ln "Time,Is Idle?,Instances,Instance,Cell Reselect Priority,Reselect threshold (hi),Reselect threshold (low),NCC mask,Number of cells,Cell count,ARFCN,Band,Is cell ID valid?,BSIC,RSSI,SRX Lev");
    (zs "NAS_CELL_LAC_INFO_LTE_INFO_NEIGHBOUR_WCDMA",
     ln "Time,Is Idle?,Instances,Instance,Cell Reselect Priority,Reselect threshold (hi),Reselect threshold (low),UARFCN,Number of cells,Cell count,PSC,CPICH_RSCP,CPICH_ECNO,SRX Level");
    (zs "NAS_CELL_LAC_INFO_UMTS_CELL_ID", ln "Time, Type, Cell ID");
    (zs "NAS_CELL_LAC_INFO_WCDMA_INFO_LTE_NEIGHBOUR",
     ln "Time,RRC State,Number of cells,Cell,EARFCN,Physical Cell ID,RSRP,RSRQ,SRX Level,Is cell TDD?");
    (zs "NAS_CELL_LAC_INFO_GSM_CELL_INFO_EXTENDED", ln "Time, Timing Advance, Channel Freq.");
    (zs "NAS_CELL_LAC_INFO_WCDMA_CELL_INFO_EXTENDED", ln "Time,WCDMA Power (dB),WCDMA TX Power (dB),Downlink Error rate");
    (zs "NAS_CELL_LAC_INFO_LTE_INFO_TIMING_ADV", ln "Time, Timing advance");
    (zs "NAS_CELL_LAC_INFO_EXTENDED_GERAN_INFO",
     ln "Time,Cell ID,LAC,ARFCN,BSIC,Timing advance,RX Level,Number of instances,Cell,Cell ID,LAC,ARFCN,BSIC,RX Level");
    (zs "NAS_CELL_LAC_INFO_UMTS_EXTENDED_INFO",
     ln "Time,Cell ID,LAC,UARFCN,PSC,RSCP,ECIO,SQUAL,SRX Level,Instances,Cell,UARFCN,PSC,RSCP,ECIO,SQUAL,SRX Level,Rank,Cell Set");
    (zs "NAS_CELL_LAC_INFO_CURRENT_L1_TIMESLOT", ln "Time, Timeslot");
    (zs "NAS_CELL_LAC_INFO_DOPPLER_MEASUREMENT_HZ", ln "Time, Doppler measur.(hz)");
    (zs "NAS_CELL_LAC_INFO_LTE_INFO_EXTENDED_INTRA_EARFCN", ln "Time, EARFCN");
    (zs "NAS_CELL_LAC_INFO_LTE_INFO_EXTENDED_INTER_EARFCN", ln "Time, EARFCN") ].
(** The others: a line of [UMTS_CELL_INFO] and of [LTE_INTRA_INFO] lacks the columns of the cells, the header of
    [SCELL_GERAN_CONF] has a comma behind its end, and the lines of the last have none. *)
Definition odd_tables : list (list Z) :=
  [ zs "NAS_CELL_LAC_INFO_UMTS_CELL_INFO"; zs "NAS_CELL_LAC_INFO_LTE_INTRA_INFO"; zs "NAS_CELL_LAC_INFO_SCELL_GERAN_CONF";
    zs "NAS_CELL_LAC_INFO_WCDMA_INFO_EXTENDED_LTE_NEIGHBOUR_EARFCN" ].
Definition entry (d : dump) : Prop :=
  (exists name header, (name, header) ∈ regular_tables /\ in_table name header d) \/ d_name d ∈ odd_tables.

Section Tables.
Context (env : log_env) (buf : list Z) (Hbuf : bytes_ok buf).

Lemma line_regular k name header format o size cs :
  regular_tables !! k = Some (name, header) -> 0 <= o -> o + size <= zlen buf -> Forall (has_col size) cs ->
  typed (parse_format format) cs = true -> marks (literal (parse_format format)) = marks header ->
  exists ds, dump_line env buf name header format o cs = Ret ds /\ Forall entry ds.
Proof.
  intros Hk H0 H Hc Ht Hm. destruct (line_in_table env buf name header format o size cs) as (ds & E & Hd); [done..|].
  exists ds. split; [done|]. eapply Forall_impl; [exact Hd|]. intros d Hd'. left. exists name, header. split; [|done].
  by eapply list_elem_of_lookup_2.
Qed.
Lemma line_odd name header format o size cs :
  name ∈ odd_tables -> 0 <= o -> o + size <= zlen buf -> Forall (has_col size) cs ->
  typed (parse_format format) cs = true -> exists ds, dump_line env buf name header format o cs = Ret ds /\ Forall entry ds.
Proof.
  intros Hn H0 H Hc Ht. destruct (fields_in env buf o size cs) as (args & Hargs & Ha); [done..|]. unfold dump_line. rewrite Hargs. cbn [cbind].
  destruct (print_marks env _ _ _ 0 Ht Ha) as (line & -> & _). cbn [cbind]. eexists. split; [done|]. constructor; [by right|done].
Qed.
Lemma count_in i : 0 <= i < zlen buf -> rd buf i = Ret (count_at buf i) /\ 0 <= count_at buf i.
Proof.
  intros Hi. unfold count_at. destruct (rdA_in buf i Hi) as [x Hx]. rewrite Hx. split; [done|].
  apply (rdA_byte _ _ _ Hbuf Hx).
Qed.
Lemma count_nonneg i : 0 <= count_at buf i.
Proof. unfold count_at. destruct (rd buf i) as [x| |] eqn:Hx; [|done..]. apply (rdA_byte _ _ _ Hbuf Hx). Qed.
Lemma cells_in i f : 0 <= i < zlen buf ->
  (forall j, 0 <= j < count_at buf i -> exists ds, f j = Ret ds /\ Forall entry ds) ->
  exists ds, for_cells buf i f = Ret ds /\ Forall entry ds.
Proof.
  intros Hi Hf. unfold for_cells. destruct (count_in i Hi) as [-> Hn]. cbn [cbind]. apply each_in. intros j Hj. apply Hf. lia.
Qed.
Lemma both_in (a r : cres (list dump)) :
  (exists ds, a = Ret ds /\ Forall entry ds) -> (exists ds, r = Ret ds /\ Forall entry ds) ->
  exists ds, (let* x := a in let* y := r in Ret (x ++ y)) = Ret ds /\ Forall entry ds.
Proof. intros (x & -> & Hx) (y & -> & Hy). eexists. split; [done|]. by apply Forall_app. Qed.
Lemma foldr_max (l : list Z) : 5 <= foldr Z.max 5 l /\ forall x, x ∈ l -> x <= foldr Z.max 5 l.
Proof.
  induction l as [|y l [IH1 IH2]]; cbn [foldr]; [split; [lia|by intros x ?%elem_of_nil]|]. split; [lia|].
  intros x [->|Hx]%elem_of_cons; [lia|]. specialize (IH2 x Hx). lia.
Qed.
Lemma instances_least o stride count width : 5 <= instances_size buf o stride count width.
Proof. apply (proj1 (foldr_max _)). Qed.
Lemma instance_in o stride count width j : 0 <= j < count_at buf (o + 4) ->
  5 + stride * j + stride + width * count_at buf (o + (5 + stride * j) + count) <= instances_size buf o stride count width.
Proof.
  intros Hj. apply (proj2 (foldr_max _)). apply list_elem_of_fmap. exists (Z.to_nat j). cbv zeta. rewrite Z2Nat.id by lia.
  split; [done|]. apply elem_of_seq. lia.
Qed.

Ltac cols := repeat constructor; cbn [first_byte last_byte]; lia.
(** Row [n] of the regular tables, and a line of another one; [size] bytes of the
    segment are there. *)
Ltac regular n size := eapply (line_regular n _ _ _ _ size); [reflexivity|lia|lia|cols|by vm_compute|by vm_compute].
Ltac odd size := eapply (line_odd _ _ _ _ size); [unfold odd_tables; rewrite !elem_of_cons; tauto|lia|lia|cols|by vm_compute].

Section Segment.
Context (o : Z) (H0 : 0 <= o).
Lemma umts_cell_info_in : o + (19 + 8 * count_at buf (o + 18)) <= zlen buf ->
  exists ds, umts_cell_info env buf o = Ret ds /\ Forall entry ds.
Proof.
  intros H. pose proof (count_nonneg (o + 18)). unfold umts_cell_info. cbv zeta. apply both_in; [odd 19|].
  apply cells_in; [lia|]. intros j Hj. odd (19 + 8 * j + 8).
Qed.
Lemma lte_intra_info_in : o + (22 + 10 * count_at buf (o + 21)) <= zlen buf ->
  exists ds, lte_intra_info env buf o = Ret ds /\ Forall entry ds.
Proof.
  intros H. pose proof (count_nonneg (o + 21)). unfold lte_intra_info. cbv zeta. apply both_in; [odd 22|].
  apply cells_in; [lia|]. intros j Hj. odd (22 + 10 * j + 10).
Qed.
Lemma instances_in stride count width f : 0 <= count < stride -> 0 < width ->
  o + instances_size buf o stride count width <= zlen buf ->
  (forall j k, 0 <= j -> 0 <= k -> o + (5 + stride * j + stride + width * (k + 1)) <= zlen buf ->
    exists ds, f j k = Ret ds /\ Forall entry ds) ->
  exists ds, for_cells buf (o + 4) (fun j => for_cells buf (o + (5 + stride * j) + count) (f j)) = Ret ds /\ Forall entry ds.
Proof.
  intros Hc Hw H Hf. pose proof (instances_least o stride count width). apply cells_in; [lia|]. intros j Hj.
  pose proof (instance_in o stride count width j Hj) as Hi. pose proof (count_nonneg (o + (5 + stride * j) + count)) as Hn.
  apply cells_in; [nia|]. intros k Hk. apply Hf; nia.
Qed.
Lemma lte_inter_info_in : o + instances_size buf o 6 5 10 <= zlen buf ->
  exists ds, lte_inter_info env buf o = Ret ds /\ Forall entry ds.
Proof.
  intros H. apply (instances_in 6 5 10); [lia..|exact H|]. intros j k Hj Hk Hjk. cbv beta zeta.
  regular 0%nat (5 + 6 * j + 6 + 10 * (k + 1)).
Qed.
Lemma lte_gsm_neighbours_in : o + instances_size buf o 5 4 9 <= zlen buf ->
  exists ds, lte_gsm_neighbours env buf o = Ret ds /\ Forall entry ds.
Proof.
  intros H. apply (instances_in 5 4 9); [lia..|exact H|]. intros j k Hj Hk Hjk. cbv beta zeta.
  regular 1%nat (5 + 5 * j + 5 + 9 * (k + 1)).
Qed.
Lemma lte_wcdma_neighbours_in : o + instances_size buf o 8 7 8 <= zlen buf ->
  exists ds, lte_wcdma_neighbours env buf o = Ret ds /\ Forall entry ds.
Proof.
  intros H. apply (instances_in 8 7 8); [lia..|exact H|]. intros j k Hj Hk Hjk. cbv beta zeta.
  regular 2%nat (5 + 8 * j + 8 + 8 * (k + 1)).
Qed.
Lemma wcdma_lte_neighbours_in : o + (8 + 15 * count_at buf (o + 7)) <= zlen buf ->
  exists ds, wcdma_lte_neighbours env buf o = Ret ds /\ Forall entry ds.
Proof.
  intros H. pose proof (count_nonneg (o + 7)). apply cells_in; [lia|]. intros j Hj. cbv zeta. regular 4%nat (8 + 15 * (j + 1)).
Qed.
Lemma extended_geran_info_in : o + (22 + 14 * count_at buf (o + 21)) <= zlen buf ->
  exists ds, extended_geran_info env buf o = Ret ds /\ Forall entry ds.
Proof.
  intros H. pose proof (count_nonneg (o + 21)). apply cells_in; [lia|]. intros j Hj. cbv zeta. regular 8%nat (22 + 14 * (j + 1)).
Qed.
Lemma umts_extended_info_in : o + (23 + 15 * count_at buf (o + 22)) <= zlen buf ->
  exists ds, umts_extended_info env buf o = Ret ds /\ Forall entry ds.
Proof.
  intros H. pose proof (count_nonneg (o + 22)). apply cells_in; [lia|]. intros j Hj. cbv zeta. regular 9%nat (23 + 15 * (j + 1)).
Qed.
Lemma wcdma_lte_earfcn_in : o + (4 + 4 * count_at buf (o + 3)) <= zlen buf ->
  exists ds, wcdma_lte_earfcn env buf o = Ret ds /\ Forall entry ds.
Proof.
  intros H. pose proof (count_nonneg (o + 3)). apply cells_in; [lia|]. intros j Hj. cbv zeta.
  odd (4 + 4 * (j + 1)).
Qed.
Lemma log_tlv_in id : o + segment_size buf id o <= zlen buf -> exists ds, log_tlv env buf id o = Ret ds /\ Forall entry ds.
Proof.
  unfold log_tlv, segment_size.
  repeat match goal with |- context [if id =? ?k then _ else _] => destruct (id =? k) end; intros H.
  - by apply umts_cell_info_in.
  - by apply lte_intra_info_in.
  - by apply lte_inter_info_in.
  - by apply lte_gsm_neighbours_in.
  - by apply lte_wcdma_neighbours_in.
  - regular 3%nat 7.
  - by apply wcdma_lte_neighbours_in.
  - regular 5%nat 7.
  - regular 6%nat 13.
  - regular 7%nat 7.
  - by apply extended_geran_info_in.
  - by apply umts_extended_info_in.
  - odd 6.
  - regular 10%nat 4.
  - regular 11%nat 5.
  - regular 12%nat 7.
  - regular 13%nat 7.
  - by apply wcdma_lte_earfcn_in.
  - by exists [].
Qed.
End Segment.
End Tables.

(** * Messages and files *)

Section Message.
Context (env : log_env) (hdr slack : list Z) (ts : list tlv) (c : config_prototype).
Context (Hhdr : zlen hdr = SZ_ENCAP) (Hok : Forall tlv_ok ts) (Hlen : SZ_ENCAP + 4 <= zlen (hdr ++ enc_tlvs ts) < 65536).
Context (Hbytes : bytes_ok (hdr ++ enc_tlvs ts ++ slack)).
Definition message : list Z := hdr ++ enc_tlvs ts ++ slack.
Definition message_size : Z := zlen (hdr ++ enc_tlvs ts).
(** What the counts of the segments tell of is in the array of the message. *)
Definition counts_fit : Prop := forall id o, id ∈ take 27 available_tlvs -> tlv_find ts id SZ_ENCAP = Some o ->
  o + segment_size message id o <= zlen message.

Lemma log_loop_in ids : counts_fit -> (forall id, id ∈ ids -> id ∈ take 27 available_tlvs) ->
  exists ds, log_loop env message message_size ids = Ret ds /\ Forall entry ds.
Proof.
  intros Hfit. induction ids as [|id ids IH]; intros Hids; [by exists []|]. cbn [log_loop].
  destruct IH as (r & Hr & Hre); [intros x Hx; apply Hids; by right|].
  unfold message, message_size at 1. rewrite (lookup_spec hdr ts slack) by (done || lia). cbn [cbind]. fold message.
  assert (exists a, (if 0 <? default 0 (tlv_find ts id SZ_ENCAP) then log_tlv env message id (default 0 (tlv_find ts id SZ_ENCAP)) else Ret []) = Ret a /\
    Forall entry a) as (a & -> & Ha).
  { destruct (tlv_find ts id SZ_ENCAP) as [o|] eqn:Eo; [|by exists []]. change (default 0 (Some o)) with o.
    destruct (Z.ltb_spec 0 o); [|by exists []]. apply log_tlv_in; [done|lia|]. apply Hfit; [apply Hids; left|done]. }
  cbn [cbind]. rewrite Hr. cbn [cbind]. eexists. split; [done|]. by apply Forall_app.
Qed.
Lemma log_in : counts_fit -> tlv_result ts = QMI_RESULT_SUCCESS ->
  exists ds, log_cell_location_information env message message_size c = Ret ds /\ Forall entry ds.
Proof.
  intros Hfit Hres. unfold log_cell_location_information. destruct (signal_tracking c =? 0); [by exists []|].
  unfold message, message_size. rewrite (result_spec hdr ts slack), (count_spec hdr ts slack) by (done || lia). rewrite Hres. cbn [cbind].
  apply log_loop_in; [done|]. by intros id Hid.
Qed.
End Message.

(** A file of a table: the header and lines of its columns. *)
Definition is_csv (header content : list Z) : Prop :=
  exists lines, content = header ++ concat lines /\ Forall (fun l => marks l = marks header) lines.
Definition csv_files (c : config_prototype) (files : gmap (list Z) (list Z)) : Prop :=
  forall name header content, (name, header) ∈ regular_tables -> files !! csv_path c name = Some content -> is_csv header content.

Definition table_names : list (list Z) := map fst regular_tables ++ odd_tables.
Lemma names_different : NoDup table_names.
Proof. by apply (bool_decide_unpack _); vm_compute. Qed.
Lemma names_short : Forall (fun n => (length n <= 100)%nat) table_names.
Proof. by apply (bool_decide_unpack _); vm_compute. Qed.
Lemma csv_path_inj c n1 n2 : n1 ∈ table_names -> n2 ∈ table_names -> csv_path c n1 = csv_path c n2 -> n1 = n2.
Proof.
  intros H1 H2. pose proof names_short as Hs. rewrite Forall_forall in Hs. specialize (Hs n1 H1) as L1. specialize (Hs n2 H2) as L2.
  assert (length (zs (get_default_logpath c)) <= 9)%nat as Lp by (unfold get_default_logpath; destruct (_ =? 0); cbn; lia).
  assert (forall n, (length n <= 100)%nat -> csv_path c n = zs (get_default_logpath c) ++ n ++ zs ".csv") as Hp.
  { intros n Hn. unfold csv_path. apply take_ge. rewrite !length_app. change (length (zs ".csv")) with 4%nat. lia. }
  rewrite !Hp by done. intros E%app_inv_head%app_inv_tail. done.
Qed.
Lemma regular_name name header : (name, header) ∈ regular_tables -> name ∈ table_names.
Proof. intros H. apply elem_of_app. left. apply list_elem_of_fmap. by exists (name, header). Qed.
Lemma one_header name h1 h2 : (name, h1) ∈ regular_tables -> (name, h2) ∈ regular_tables -> h1 = h2.
Proof.
  intros [i Hi]%list_elem_of_lookup [j Hj]%list_elem_of_lookup. pose proof names_different as [Hd _]%NoDup_app.
  assert (i = j) as ->; [|congruence]. eapply NoDup_lookup; [exact Hd|by rewrite list_lookup_fmap, Hi|by rewrite list_lookup_fmap, Hj].
Qed.
Lemma not_odd name header : (name, header) ∈ regular_tables -> name ∉ odd_tables.
Proof.
  intros H Ho. pose proof names_different as (_ & Hd & _)%NoDup_app. apply (Hd name); [|done]. apply list_elem_of_fmap. by exists (name, header).
Qed.

Lemma dump_keeps_csv can_open c files d : entry d -> csv_files c files -> csv_files c (dump_to_file can_open c files d).
Proof.
  intros He Hf name header content Hin. unfold dump_to_file. destruct (can_open _); [|by apply Hf].
  assert (d_name d ∈ table_names) as Hdn.
  { destruct He as [(n & h & Hn & -> & _)|Ho]; [by eapply regular_name|apply elem_of_app; by right]. }
  destruct (decide (csv_path c (d_name d) = csv_path c name)) as [E|E]; [|rewrite lookup_insert_ne by done; by apply Hf].
  rewrite E, lookup_insert_eq. intros [= <-].
  apply csv_path_inj in E; [|done|by eapply regular_name]. 
  destruct He as [(n & h & Hn & Hdn' & Hh & Hm)|Ho]; [|rewrite E in Ho; by apply not_odd in Hin].
  assert (n = name) as -> by congruence. assert (h = header) as -> by (by eapply one_header). rewrite Hh.
  destruct (files !! csv_path c name) as [content|] eqn:Ec; cbn [default].
  - destruct (Hf _ _ _ Hin Ec) as (lines & -> & Hl). exists (lines ++ [d_line d]). unfold id. cbn [app].
    rewrite concat_app. cbn [concat]. rewrite app_nil_r, <- app_assoc. split; [done|]. apply Forall_app. by repeat constructor.
  - exists [d_line d]. cbn [concat app]. rewrite app_nil_r. split; [done|by repeat constructor].
Qed.

(** C9: the tables of cells. On a message of well-formed fields whose counts stay in
    its array, with any other contents, the function reads no byte outside it and
    ends, and every file of the fourteen regular tables goes on to be a table: its
    header and lines with the columns of the header, whatever files could be opened. *)
Theorem cell_tables_stay_csv env hdr ts slack c can_open files :
  zlen hdr = SZ_ENCAP -> Forall tlv_ok ts -> SZ_ENCAP + 4 <= zlen (hdr ++ enc_tlvs ts) < 65536 ->
  bytes_ok (hdr ++ enc_tlvs ts ++ slack) -> counts_fit hdr slack ts -> tlv_result ts = QMI_RESULT_SUCCESS -> csv_files c files ->
  exists ds, log_cell_location_information env (hdr ++ enc_tlvs ts ++ slack) (zlen (hdr ++ enc_tlvs ts)) c = Ret ds /\
    csv_files c (dump_all can_open c files ds).
Proof.
  intros Hhdr Hok Hlen Hb Hfit Hres Hf. destruct (log_in env hdr slack ts c Hhdr Hok Hlen Hb Hfit Hres) as (ds & Hds & He).
  exists ds. split; [exact Hds|]. clear Hds. unfold dump_all. revert files Hf. induction He as [|d ds Hd _ IH]; intros files Hf; cbn [fold_left]; [done|].
  apply IH. by apply dump_keeps_csv.
Qed.

(** A message with one neighbouring frequency and a timing advance. *)
Definition quiet_env : log_env := {| l_time := 1000; l_address _ := 4096; l_vararg k := 77 + Z.of_nat k |}.
Definition success : tlv := {| t_id := 2; t_val := [0; 0; 0; 0] |}.
Definition inter_cell (phy : Z) : list Z := le 2 phy ++ le 2 65526 ++ le 2 65436 ++ le 2 9 ++ le 2 8.
Definition inter_instance (earfcn : Z) (cells : list Z) : list Z := le 2 earfcn ++ [5; 6; 7; zlen cells] ++ concat (map inter_cell cells).
Definition inter_tlv (instances : list (list Z)) : tlv := {| t_id := 0x14; t_val := [1; zlen instances] ++ concat instances |}.
Definition one_frequency : list tlv :=
  [success; inter_tlv [inter_instance 0x1234 [17]]; {| t_id := 0x1e; t_val := le 4 3 |}].
Definition log_of (ts : list tlv) : cres (list dump) :=
  log_cell_location_information quiet_env (sample_hdr ++ enc_tlvs ts) (zlen (sample_hdr ++ enc_tlvs ts)) (settings (tracking_in 0 2)).
Definition lines_of (ts : list tlv) : option (list (list Z)) :=
  match log_of ts with Ret ds => Some (map d_line ds) | _ => None end.

Lemma counts_fit_check hdr slack ts :
  forallb (fun id => match tlv_find ts id SZ_ENCAP with
                     | Some o => o + segment_size (message hdr slack ts) id o <=? zlen (message hdr slack ts)
                     | None => true
                     end) (take 27 available_tlvs) = true -> counts_fit hdr slack ts.
Proof.
  rewrite forallb_forall. intros H id o Hid Ho. specialize (H id (proj1 (list_elem_of_In _ _) Hid)). rewrite Ho in H. by apply Z.leb_le.
Qed.
Lemma cell_tables_stay_csv_witness :
  exists ds, log_cell_location_information quiet_env (sample_hdr ++ enc_tlvs one_frequency ++ [1; 2])
      (zlen (sample_hdr ++ enc_tlvs one_frequency)) (settings (tracking_in 0 2)) = Ret ds /\
    csv_files (settings (tracking_in 0 2)) (dump_all (fun _ => true) (settings (tracking_in 0 2)) ∅ ds).
Proof.
  apply cell_tables_stay_csv.
  - by vm_compute.
  - repeat constructor; by vm_compute.
  - by vm_compute.
  - repeat constructor; by vm_compute.
  - by apply counts_fit_check; vm_compute.
  - by vm_compute.
  - by intros name header content _ ?%lookup_empty_Some.
Defined.

Example frequency_logged :
  lines_of one_frequency = Some [ln "1000,Yes,1,0,1234,05,06,07,1,0,0011,fffffff6,-100,9,8"; ln "1000, 3"].
Proof. by vm_compute. Qed.
(** A second instance is looked for in the cells of the first one: of two frequencies
    with a cell each, the second one gets 255 cells. *)
Definition two_frequencies : list tlv := [success; inter_tlv [inter_instance 0x1234 [17]; inter_instance 0x5678 [18]]].
Lemma second_instance_misread :
  lines_of two_frequencies = None /\
  match log_cell_location_information quiet_env (sample_hdr ++ enc_tlvs two_frequencies ++ replicate 2600 0)
          (zlen (sample_hdr ++ enc_tlvs two_frequencies)) (settings (tracking_in 0 2)) with
  | Ret ds => length ds = 256%nat
  | _ => False
  end.
Proof. by vm_compute. Qed.
(** The line of a cell takes its last value from behind the arguments, and the values
    after RSCP stand a column to the left. *)
Lemma umts_line_short :
  lines_of [success; {| t_id := 0x11; t_val := le 2 1 ++ [0; 0; 0] ++ le 2 2 ++ le 2 3 ++ le 2 4 ++ le 2 5 ++ le 2 6 ++ [0] |}] =
    Some [ln "1000,0001,0002,0003,0004,5,6,0,77"].
Proof. by vm_compute. Qed.
(** Of the frequencies of LTE neighbours the address of a text, the time and their
    number are kept, without an end of line. *)
Lemma earfcn_line_cut :
  lines_of [success; {| t_id := 0x29; t_val := [2] ++ le 4 100 ++ le 4 200 |}] = Some [zs "4096,1000,2,"; zs "4096,1000,2,"].
Proof. by vm_compute. Qed.
(** A count that goes past the array is believed. *)
Lemma count_believed : log_of [success; {| t_id := 0x29; t_val := [200] ++ le 4 100 ++ le 4 200 |}] = Oob.
Proof. by vm_compute. Qed.
