(* ===== verification/Wds.v ===== *)
(** The data session of the modem itself (src/wds_client.c): its state, the
    requests that start and stop it, the answers of the baseband, and what the
    user is told. *)

From stdpp Require Import base list numbers option strings.
From Stdlib Require Import ZArith Lia.
From S2P Require Import Prelude Libc Eff Qmi QmiClient Requests Sms Config Call Replies.

(** * State *)

Record wds_runtime := {
  in_progress : Z;
  ims_in_progress : Z;
  mux_state : Z;
  user_ordered_stop : Z;
  pkt_data_handle : Z
}.
Record data_session := { wds : wds_runtime; ds_phone : phone; ds_cfg : cfg_state }.

Definition on_wds (f : wds_runtime -> wds_runtime) (s : data_session) : data_session :=
  {| wds := f (wds s); ds_phone := ds_phone s; ds_cfg := ds_cfg s |}.
#[export, refine] Instance session_phone : Part phone data_session :=
  {| part := ds_phone; with_part p s := {| wds := wds s; ds_phone := p; ds_cfg := ds_cfg s |} |}.
Proof. all: abstract by intros; repeat match goal with s : data_session |- _ => destruct s end. Defined.

Definition set_in_progress (v : Z) (w : wds_runtime) : wds_runtime :=
  {| in_progress := v; ims_in_progress := ims_in_progress w; mux_state := mux_state w;
     user_ordered_stop := user_ordered_stop w; pkt_data_handle := pkt_data_handle w |}.
Definition set_ims_in_progress (v : Z) (w : wds_runtime) : wds_runtime :=
  {| in_progress := in_progress w; ims_in_progress := v; mux_state := mux_state w;
     user_ordered_stop := user_ordered_stop w; pkt_data_handle := pkt_data_handle w |}.
Definition set_mux_state (v : Z) (w : wds_runtime) : wds_runtime :=
  {| in_progress := in_progress w; ims_in_progress := ims_in_progress w; mux_state := v;
     user_ordered_stop := user_ordered_stop w; pkt_data_handle := pkt_data_handle w |}.
Definition set_user_ordered_stop (v : Z) (w : wds_runtime) : wds_runtime :=
  {| in_progress := in_progress w; ims_in_progress := ims_in_progress w; mux_state := mux_state w;
     user_ordered_stop := v; pkt_data_handle := pkt_data_handle w |}.
Definition set_pkt_data_handle (v : Z) (w : wds_runtime) : wds_runtime :=
  {| in_progress := in_progress w; ims_in_progress := ims_in_progress w; mux_state := mux_state w;
     user_ordered_stop := user_ordered_stop w; pkt_data_handle := v |}.

Definition reset_wds_runtime (w : wds_runtime) : wds_runtime :=
  set_pkt_data_handle 0 (set_user_ordered_stop 0 (set_mux_state 0 (set_in_progress 0 w))).

(** * Actions and surroundings *)

Inductive wds_action :=
| Said (a : phone_action)
| Queued (svc : Z) (pkt : list Z)    (* add_pending_message, qmi.c *)
| Shell (command : string)           (* system(3) *)
| SetLlpIp                           (* ioctl(RMNET_IOCTL_SET_LLP_IP) on rmnet0 *)
| Wait (seconds : Z).                (* sleep(3) *)
Definition MW (A : Type) : Type := M data_session wds_action A.

(** Whether a socket opens, what the ioctl returns, and the network's type each
    time it is looked at, [w_polls] times at most. *)
Record wds_env := {
  w_socket : bool;
  w_ioctl : Z;
  w_network : nat -> Z;              (* get_network_type, nas_client.c *)
  w_polls : nat
}.

Definition EBADFD : Z := 77.
Definition WDS_APN_TYPE_INTERNET : Z := 1.
Definition WDS_APN_TYPE_IMS : Z := 2.
Definition WDS_START_NETWORK : Z := 0x0020.
Definition WDS_STOP_NETWORK : Z := 0x0021.
Definition WDS_GET_PACKET_SERVICE_STATUS : Z := 0x0022.
Definition WDS_GET_CURRENT_SETTINGS : Z := 0x002D.
Definition WDS_SET_AUTOCONNECT_SETTINGS : Z := 0x0051.
Definition WDS_BIND_MUX_DATA_PORT : Z := 0x00A2.
Definition WDS_CALL_TYPE_EMBEDDED : Z := 0x01.
Definition DATA_EP_TYPE_BAM_DMUX : Z := 0x05.

(** [strsz = snprintf(reply, ...); add_message_to_queue(reply, strsz)] with a
    zeroed reply. *)
Definition say_status (text : list Z) : MW unit :=
  do* '(reply, strsz) := lift (snprintf (replicate 160 0) 160 text) in
  zoom Said (add_message_to_queue reply strsz).

(** * Requests *)

Definition SZ_U32_TLV : Z := 7.
Definition wds_set_autoconnect (enable : Z) : MW Z :=
  do* pkt := lift (start_request QMI_SERVICE_WDS (SZ_ENCAP + SZ_U8_TLV) WDS_SET_AUTOCONNECT_SETTINGS) in
  match pkt with
  | None => ret (- EINVAL)
  | Some pkt =>
      do* '(r, pkt) := lift (build_u8_tlv pkt (SZ_ENCAP + SZ_U8_TLV) SZ_ENCAP 0x01 enable) in
      queue_request Queued QMI_SERVICE_WDS (if r <? 0 then None else Some pkt)
  end.
(** A request with one 32-bit field. *)
Definition u32_request (msgid id data : Z) : MW Z :=
  do* pkt := lift (start_request QMI_SERVICE_WDS (SZ_ENCAP + SZ_U32_TLV) msgid) in
  match pkt with
  | None => ret (- EINVAL)
  | Some pkt =>
      do* '(r, pkt) := lift (build_u32_tlv pkt (SZ_ENCAP + SZ_U32_TLV) SZ_ENCAP id data) in
      queue_request Queued QMI_SERVICE_WDS (if r <? 0 then None else Some pkt)
  end.
Definition wds_stop_network : MW Z :=
  do* s := get in u32_request WDS_STOP_NETWORK 0x01 (pkt_data_handle (wds s)).
Definition wds_enable_indications_ipv4 : MW Z := u32_request WDS_GET_CURRENT_SETTINGS 0x10 0x0004e330.
Definition wds_bind_mux_data_port : MW Z :=
  do* pkt := lift (start_request QMI_SERVICE_WDS (SZ_ENCAP + 11 + 4) WDS_BIND_MUX_DATA_PORT) in
  match pkt with
  | None => ret (- EINVAL)
  | Some pkt =>
      do* pkt := lift (lay [Build_tlv 0x10 (le 4 DATA_EP_TYPE_BAM_DMUX ++ le 4 0); Build_tlv 0x11 [0]] pkt SZ_ENCAP) in
      queue_request Queued QMI_SERVICE_WDS (Some pkt)
  end.

(** The texts and the method a connection is made with. *)
Record credentials := { apn : list Z; auth_method : Z; username : list Z; password : list Z }.
Definition internal_credentials (c : config_prototype) : cres credentials :=
  let* a := cstr (apn_addr c) in
  let* u := cstr (apn_username c) in
  let* p := cstr (apn_password c) in
  Ret {| apn := a; auth_method := u8 (apn_auth_method c); username := u; password := p |}.
(** The IMS connection uses the method of the other one. *)
Definition ims_credentials (c : config_prototype) : cres credentials :=
  let* a := cstr (ims_apn_addr c) in
  let* u := cstr (ims_apn_username c) in
  let* p := cstr (ims_apn_password c) in
  Ret {| apn := a; auth_method := u8 (apn_auth_method c); username := u; password := p |}.

(** sizeof of the fields, with the texts of [c]. *)
Definition connect_len (c : credentials) : Z :=
  SZ_ENCAP + 3 + zlen (apn c) + 7 +
  (if auth_method c =? 0 then 0 else 4 + 3 + 3 + zlen (username c) + zlen (password c)) + 4 + 4 + 4.
Definition connect_fields (apn_type : Z) (c : credentials) : list tlv :=
  [Build_tlv 0x14 (apn c)] ++
  (if auth_method c =? 0 then []
   else [Build_tlv 0x16 [auth_method c]; Build_tlv 0x17 (username c); Build_tlv 0x18 (password c)]) ++
  [Build_tlv 0x19 [4]; Build_tlv 0x35 [WDS_CALL_TYPE_EMBEDDED]; Build_tlv 0x38 (le 4 apn_type); Build_tlv 0x39 [0x00]].
(** A packet of the size the credentials [size] need, with the fields of [c]. *)
Definition connect_request (size c : credentials) (apn_type : Z) : MW Z :=
  do* pkt := lift (start_request QMI_SERVICE_WDS (connect_len size) WDS_START_NETWORK) in
  match pkt with
  | None => ret (- EINVAL)
  | Some pkt =>
      do* pkt := lift (lay (connect_fields apn_type c) pkt SZ_ENCAP) in
      queue_request Queued QMI_SERVICE_WDS (Some pkt)
  end.
Definition wds_attempt_to_connect : MW Z :=
  do* s := get in
  do* c := lift (internal_credentials (settings (ds_cfg s))) in
  connect_request c c WDS_APN_TYPE_INTERNET.
(** The packet has the size of the internal network's texts. *)
Definition wds_attempt_to_connect_ims : MW Z :=
  do* s := get in
  do* size := lift (internal_credentials (settings (ds_cfg s))) in
  do* c := lift (ims_credentials (settings (ds_cfg s))) in
  connect_request size c WDS_APN_TYPE_IMS.

(** * Connecting *)

Section Session.
Variable env : wds_env.

Definition wds_set_rawip_mode : MW Z :=
  emit (Shell "ifconfig rmnet0 down") ;>
  if negb (w_socket env) then ret (- EBADFD)
  else
    emit SetLlpIp ;>
    if w_ioctl env <? 0 then ret (- EIO)
    else
      emit (Shell "ifconfig rmnet0 169.252.10.1 netmask 255.0.0.0 allmulti multicast up") ;>
      ret 0.

(** [while (!get_network_type()) sleep(10)] *)
Fixpoint wait_network (fuel k : nat) : MW unit :=
  if negb (w_network env k =? 0) then ret tt
  else
    match fuel with
    | O => lift Spin
    | S fuel => emit (Wait 10) ;> wait_network fuel (S k)
    end.

Definition init_internal_networking : MW unit :=
  do* s := get in
  if allow_internal_modem_connectivity (settings (ds_cfg s)) =? 0 then ret tt
  else
    wait_network (w_polls env) 0 ;>
    do* s := get in
    if negb (in_progress (wds s) =? 0) then ret tt
    else
      modify (on_wds (set_in_progress 1)) ;>
      do* _ := wds_set_autoconnect 0 in
      do* _ := wds_set_rawip_mode in
      do* _ := wds_attempt_to_connect in
      ret tt.
Definition init_ims_network : MW unit :=
  wait_network (w_polls env) 0 ;>
  do* s := get in
  if negb (ims_in_progress (wds s) =? 0) then ret tt
  else
    modify (on_wds (set_ims_in_progress 1)) ;>
    do* _ := wds_set_autoconnect 0 in
    do* _ := wds_set_rawip_mode in
    do* _ := wds_attempt_to_connect_ims in
    ret tt.

Definition notify_network_down (reason : list Z) : MW unit :=
  do* s := get in
  say_status (zs "Network connection is down (reason: " ++ reason ++ zs ")") ;>
  if negb (allow_internal_modem_connectivity (settings (ds_cfg s)) =? 0) then
    do* s := get in
    when (user_ordered_stop (wds s) =? 0) init_internal_networking
  else ret tt.
Definition notify_network_up : MW unit := say_status (zs "Network connection is ready!").

Definition wds_chat_ifup_down (start : bool) : MW unit :=
  modify (on_wds (set_user_ordered_stop 0)) ;>
  do* s := get in
  do* '(reply, strsz) :=
    if start && (in_progress (wds s) =? 0) && (pkt_data_handle (wds s) =? 0) then
      do* r := lift (snprintf (replicate 160 0) 160 (zs "Attempting to start the network")) in
      init_internal_networking ;> ret r
    else if start then
      lift (snprintf (replicate 160 0) 160 (zs "Can't start netwotk, already running or connecting!"))
    else if negb (pkt_data_handle (wds s) =? 0) then
      do* r := lift (snprintf (replicate 160 0) 160 (zs "Stopping network...")) in
      modify (on_wds (set_user_ordered_stop 1)) ;>
      do* _ := wds_stop_network in ret r
    else lift (snprintf (replicate 160 0) 160 (zs "Can't stop network, it wasn't running!")) in
  zoom Said (add_message_to_queue reply strsz).

(** * Answers *)

Definition wds_handle_start_network_response (buf : list Z) (buf_len : Z) : MW unit :=
  do* failed := lift (did_qmi_op_fail buf buf_len) in
  (if negb (failed =? 0) then notify_network_down (zs "Operation failed")
   else
     emit (Shell "udhcpc -q -f -i rmnet0") ;>
     do* _ := wds_enable_indications_ipv4 in
     do* offset := lift (get_tlv_offset_by_id buf buf_len 0x01) in
     if 0 <? offset then
       do* handle := lift (rd32 buf (offset + 3)) in
       modify (on_wds (set_pkt_data_handle handle)) ;> notify_network_up
     else notify_network_down (zs "Didn't get a packet data handle")) ;>
  modify (on_wds (set_in_progress 0)).

Definition wds_handle_packet_service_status (buf : list Z) (buf_len : Z) : MW unit :=
  do* failed := lift (did_qmi_op_fail buf buf_len) in
  if negb (failed =? 0) then ret tt
  else
    do* offset := lift (get_tlv_offset_by_id buf buf_len 0x10) in
    when (0 <? offset)
      (do* callend := lift (rd16 buf (offset + 3)) in notify_network_down (fmt_x 4 callend)).

Definition handle_incoming_wds_message (buf : list Z) (buf_len : Z) : MW Z :=
  do* id := lift (get_qmi_message_id buf) in
  (if id =? WDS_BIND_MUX_DATA_PORT then
     do* qmi_err := lift (did_qmi_op_fail buf buf_len) in
     if qmi_err =? QMI_RESULT_FAILURE then modify (on_wds (fun w => set_in_progress 0 (set_mux_state 0 w)))
     else if qmi_err =? QMI_RESULT_SUCCESS then modify (on_wds (set_mux_state 2))
     else when (qmi_err =? QMI_RESULT_UNKNOWN) (modify (on_wds (set_in_progress 0)))
   else if id =? WDS_START_NETWORK then wds_handle_start_network_response buf buf_len
   else if id =? WDS_STOP_NETWORK then
     do* qmi_err := lift (did_qmi_op_fail buf buf_len) in
     when ((qmi_err =? QMI_RESULT_SUCCESS) || (qmi_err =? QMI_RESULT_UNKNOWN))
       (modify (on_wds (set_pkt_data_handle 0)))
   else when (id =? WDS_GET_PACKET_SERVICE_STATUS) (wds_handle_packet_service_status buf buf_len)) ;>
  ret 0.
End Session.

(** * Lemmas *)

(** ** Packets *)

(** The two headers of a request of [n] bytes. *)
Definition request_head (n msgid : Z) : list Z :=
  enc_qmux (Build_qmux_packet 1 (n - 1) 0 QMI_SERVICE_WDS 0) ++ enc_qmi (Build_qmi_packet 0 0 msgid (n - SZ_ENCAP)).
Definition request (msgid : Z) (fields : list tlv) : list Z :=
  request_head (SZ_ENCAP + zlen (enc_tlvs fields)) msgid ++ enc_tlvs fields.

Lemma request_head_len n msgid : zlen (request_head n msgid) = SZ_ENCAP.
Proof. unfold request_head. by rewrite zlen_app, enc_qmux_len, enc_qmi_len. Qed.
Lemma request_head_read n id rest :
  SZ_ENCAP <= n < 65536 -> 0 <= id < 65536 ->
  get_qmux_service_id (request_head n id ++ rest) = Ret QMI_SERVICE_WDS /\
  get_qmi_message_id (request_head n id ++ rest) = Ret id.
Proof.
  intros Hn Hi. unfold request_head. rewrite <- app_assoc. unfold SZ_ENCAP, SZ_QMUX, SZ_QMI in *.
  assert (wf_qmux (Build_qmux_packet 1 (n - 1) 0 QMI_SERVICE_WDS 0)) as Hx
    by (unfold wf_qmux, byte_ok, QMI_SERVICE_WDS; cbn; lia).
  assert (wf_qmi (Build_qmi_packet 0 0 id (n - (6 + 7)))) as Hq by (unfold wf_qmi, byte_ok; cbn; lia).
  by destruct (getters_spec _ _ rest Hx Hq) as (Hs & _ & Hm & _).
Qed.
Lemma bind_start {B} n msgid (k : _ -> MW B) s :
  SZ_ENCAP <= n ->
  bind (lift (start_request QMI_SERVICE_WDS n msgid)) k s =
  k (Some (request_head n msgid ++ replicate (Z.to_nat (n - SZ_ENCAP)) 0)) s.
Proof.
  intros Hn. apply bind_lift. rewrite start_request_run by done. unfold request_head. by rewrite <- app_assoc.
Qed.

Lemma u32_request_run msgid id d s :
  u32_request msgid id d s = Ret (0, s, [Queued QMI_SERVICE_WDS (request msgid [Build_tlv (u8 id) (le 4 d)])]).
Proof. unfold u32_request. rewrite bind_start by done. reflexivity. Qed.
Lemma set_autoconnect_run v s :
  wds_set_autoconnect v s =
  Ret (0, s, [Queued QMI_SERVICE_WDS (request WDS_SET_AUTOCONNECT_SETTINGS [Build_tlv 0x01 [u8 v]])]).
Proof. unfold wds_set_autoconnect. rewrite bind_start by done. reflexivity. Qed.

(** ** Connection requests *)

(** The bytes of the texts a connection needs. *)
Definition texts_len (c : credentials) : Z :=
  zlen (apn c) + (if auth_method c =? 0 then 0 else zlen (username c) + zlen (password c)).

Lemma texts_nonneg c : 0 <= texts_len c.
Proof.
  unfold texts_len. pose proof (zlen_nonneg (apn c)). pose proof (zlen_nonneg (username c)).
  pose proof (zlen_nonneg (password c)). case_match; lia.
Qed.
Lemma connect_len_texts c :
  connect_len c = SZ_ENCAP + (if auth_method c =? 0 then 22 else 32) + texts_len c.
Proof. unfold connect_len, texts_len. case_match; lia. Qed.
Lemma connect_fields_len t c : SZ_ENCAP + zlen (enc_tlvs (connect_fields t c)) = connect_len c.
Proof.
  unfold connect_fields, connect_len. rewrite !enc_tlvs_app, !zlen_app.
  destruct (auth_method c =? 0); rewrite !enc_tlvs_cons, !zlen_app, !enc_tlv_len; cbn [t_val];
    change (zlen (enc_tlvs [])) with 0; zl; lia.
Qed.
Lemma connect_fields_ok t c : connect_len c < 65536 -> Forall tlv_ok (connect_fields t c).
Proof.
  unfold connect_len, connect_fields, SZ_ENCAP, SZ_QMUX, SZ_QMI, tlv_ok, byte_ok. intros Hl.
  pose proof (zlen_nonneg (apn c)). pose proof (zlen_nonneg (username c)). pose proof (zlen_nonneg (password c)).
  destruct (auth_method c =? 0); repeat apply Forall_app_2; repeat constructor; cbn [t_id t_val]; zl; lia.
Qed.
(** The texts fill the packet sized for them, and leave zeroes in a longer one. *)
Lemma connect_fits size c t s :
  connect_len c <= connect_len size ->
  connect_request size c t s =
  Ret (0, s, [Queued QMI_SERVICE_WDS (request_head (connect_len size) WDS_START_NETWORK ++
    enc_tlvs (connect_fields t c) ++ replicate (Z.to_nat (connect_len size - connect_len c)) 0)]).
Proof.
  intros Hl. pose proof (connect_fields_len t c) as Hc. pose proof (zlen_nonneg (enc_tlvs (connect_fields t c))).
  unfold connect_request. rewrite bind_start by lia.
  pose proof (lay_run (connect_fields t c) (request_head (connect_len size) WDS_START_NETWORK)
    (replicate (Z.to_nat (connect_len size - SZ_ENCAP)) 0) ltac:(zl; lia)) as Hr.
  rewrite request_head_len in Hr. rewrite (bind_lift _ _ _ _ Hr).
  unfold queue_request. autorewrite with eff. unfold ret. rewrite after_Ret, app_nil_r.
  rewrite drop_replicate. do 7 f_equal. unfold zlen in *. lia.
Qed.
Lemma connect_overflows size c t s : connect_len size < connect_len c -> connect_request size c t s = Oob.
Proof.
  intros Hl. pose proof (connect_fields_len t c) as Hc. pose proof (texts_nonneg size).
  assert (SZ_ENCAP <= connect_len size) by (rewrite connect_len_texts; case_match; lia).
  unfold connect_request. rewrite bind_start by lia.
  pose proof (lay_overflow (connect_fields t c) (request_head (connect_len size) WDS_START_NETWORK)
    (replicate (Z.to_nat (connect_len size - SZ_ENCAP)) 0) ltac:(zl; lia)) as Hr.
  rewrite request_head_len in Hr. unfold bind, lift. by rewrite Hr.
Qed.

(** ** Texts, waiting and the interface *)

Definition session_ok (s : data_session) : Prop := phone_ok (ds_phone s).
(** The session's own state is [w] and the phone was told [texts], in this order and
    nothing else; the rest is that of [s]. *)
Definition became (w : wds_runtime) (texts : list (list Z)) (s s' : data_session) : Prop :=
  wds s' = w /\ ds_cfg s' = ds_cfg s /\ session_ok s' /\ told_all texts (ds_phone s) (ds_phone s').
(** What the user is told of a session. *)
Definition ATTEMPTING : list Z := zs "Attempting to start the network".
Definition READY : list Z := zs "Network connection is ready!".
Definition STOPPING : list Z := zs "Stopping network...".

Lemma zoom_said b n s p' :
  add_message_to_queue b n (ds_phone s) = Ret (tt, p', []) ->
  zoom Said (add_message_to_queue b n) s =
  Ret (tt, {| wds := wds s; ds_phone := p'; ds_cfg := ds_cfg s |}, @nil wds_action).
Proof. intros H. exact (zoom_run Said _ s _ _ _ H). Qed.
Lemma say_status_run text s :
  session_ok s -> 0 < zlen text < 160 ->
  exists s', say_status text s = Ret (tt, s', []) /\ became (wds s) [text] s s'.
Proof.
  intros Hs Ht. destruct (tell_told (replicate 160 0) text _ Hs eq_refl Ht) as (b & p' & Hb & Hp & Hok & Htold).
  exists {| wds := wds s; ds_phone := p'; ds_cfg := ds_cfg s |}. split; [|done].
  unfold say_status. rewrite (bind_lift _ _ _ _ Hb). exact (zoom_said b _ s p' Hp).
Qed.

Section Runs.
Variable env : wds_env.
Context (Hnet : w_network env 0 <> 0) (Hsock : w_socket env = true) (Hctl : 0 <= w_ioctl env).

Lemma wait_network_run k s : wait_network env k 0 s = Ret (tt, s, []).
Proof using Hnet. destruct k; cbn [wait_network]; by rewrite (proj2 (Z.eqb_neq _ _) Hnet). Qed.
Definition rawip_actions : list wds_action :=
  [Shell "ifconfig rmnet0 down"; SetLlpIp;
   Shell "ifconfig rmnet0 169.252.10.1 netmask 255.0.0.0 allmulti multicast up"].
Lemma rawip_run s : wds_set_rawip_mode env s = Ret (0, s, rawip_actions).
Proof using Hsock Hctl.
  unfold wds_set_rawip_mode. autorewrite with eff. rewrite Hsock. cbn [negb]. autorewrite with eff.
  ifdec. by autorewrite with eff.
Qed.

(** What a connection that starts asks for. *)
Definition start_actions (c : credentials) : list wds_action :=
  Queued QMI_SERVICE_WDS (request WDS_SET_AUTOCONNECT_SETTINGS [Build_tlv 0x01 [0]]) :: rawip_actions ++
  [Queued QMI_SERVICE_WDS (request WDS_START_NETWORK (connect_fields WDS_APN_TYPE_INTERNET c))].

Lemma attempt_run s c :
  internal_credentials (settings (ds_cfg s)) = Ret c ->
  wds_attempt_to_connect s =
  Ret (0, s, [Queued QMI_SERVICE_WDS (request WDS_START_NETWORK (connect_fields WDS_APN_TYPE_INTERNET c))]).
Proof.
  intros Hc. unfold wds_attempt_to_connect. rewrite bind_get, (bind_lift _ _ _ _ Hc), connect_fits by lia.
  unfold request. rewrite connect_fields_len, Z.sub_diag. change (replicate (Z.to_nat 0) 0) with (@nil Z).
  by rewrite app_nil_r.
Qed.
Lemma init_run s c :
  allow_internal_modem_connectivity (settings (ds_cfg s)) <> 0 -> in_progress (wds s) = 0 ->
  internal_credentials (settings (ds_cfg s)) = Ret c ->
  init_internal_networking env s = Ret (tt, on_wds (set_in_progress 1) s, start_actions c).
Proof using Hnet Hsock Hctl.
  intros Ha Hp Hc. unfold init_internal_networking. rewrite bind_get, (proj2 (Z.eqb_neq _ _) Ha).
  rewrite (bind_step _ _ _ _ _ (wait_network_run _ _)), bind_get, Hp. cbn [Z.eqb negb].
  autorewrite with eff. rewrite (bind_after _ _ _ _ _ _ (set_autoconnect_run _ _)).
  rewrite (bind_after _ _ _ _ _ _ (rawip_run _)), (bind_after _ _ _ _ _ _ (attempt_run (on_wds (set_in_progress 1) s) c Hc)).
  autorewrite with eff. unfold ret. by rewrite after_Ret.
Qed.
(** Nothing is started while a connection is in progress. *)
Lemma init_busy s : in_progress (wds s) <> 0 -> init_internal_networking env s = Ret (tt, s, []).
Proof using Hnet.
  intros Hp. unfold init_internal_networking. rewrite bind_get. case_match; [done|].
  rewrite (bind_step _ _ _ _ _ (wait_network_run _ _)), bind_get. by rewrite (proj2 (Z.eqb_neq _ _) Hp).
Qed.
End Runs.

(** ** Answers *)

Definition receive_wds (env : wds_env) (m : answer) : MW Z :=
  handle_incoming_wds_message env (a_bytes m) (a_len m).

(** ** Steps of a session *)

(** The session [s], its own state [w] and the phone [p]. *)
Lemma ifup_run env s c :
  w_network env 0 <> 0 -> w_socket env = true -> 0 <= w_ioctl env ->
  session_ok s -> allow_internal_modem_connectivity (settings (ds_cfg s)) <> 0 ->
  internal_credentials (settings (ds_cfg s)) = Ret c ->
  in_progress (wds s) = 0 -> pkt_data_handle (wds s) = 0 ->
  exists s', wds_chat_ifup_down env true s = Ret (tt, s', start_actions c) /\
    became (set_in_progress 1 (set_user_ordered_stop 0 (wds s))) [ATTEMPTING] s s'.
Proof.
  intros Hn Hk Hc Hs Ha Hcr Hp Hh.
  destruct (tell_told (replicate 160 0) ATTEMPTING _ Hs eq_refl ltac:(done)) as (b & p' & Hb & Hq & Hok & Htold).
  exists {| wds := set_in_progress 1 (set_user_ordered_stop 0 (wds s)); ds_phone := p'; ds_cfg := ds_cfg s |}.
  split; [|done]. unfold wds_chat_ifup_down. rewrite bind_modify, bind_get.
  cbn [on_wds wds set_user_ordered_stop in_progress pkt_data_handle]. rewrite Hp, Hh. cbn [Z.eqb andb].
  rewrite bind_assoc, (bind_lift _ _ _ _ Hb), bind_assoc.
  rewrite (bind_after _ _ _ _ _ _ (init_run env Hn Hk Hc (on_wds (set_user_ordered_stop 0) s) c Ha Hp Hcr)).
  rewrite bind_ret. rewrite (zoom_said _ _ (on_wds (set_in_progress 1) (on_wds (set_user_ordered_stop 0) s)) p' Hq).
  by rewrite after_Ret, app_nil_r.
Qed.
Lemma ifdown_run env s :
  session_ok s -> pkt_data_handle (wds s) <> 0 ->
  exists s', wds_chat_ifup_down env false s =
    Ret (tt, s', [Queued QMI_SERVICE_WDS
      (request WDS_STOP_NETWORK [Build_tlv 0x01 (le 4 (pkt_data_handle (wds s)))])]) /\
    became (set_user_ordered_stop 1 (wds s)) [STOPPING] s s'.
Proof.
  intros Hs Hh.
  destruct (tell_told (replicate 160 0) STOPPING _ Hs eq_refl ltac:(done)) as (b & p' & Hb & Hq & Hok & Htold).
  exists {| wds := set_user_ordered_stop 1 (wds s); ds_phone := p'; ds_cfg := ds_cfg s |}.
  split; [|done]. unfold wds_chat_ifup_down. rewrite bind_modify, bind_get.
  cbn [on_wds wds set_user_ordered_stop in_progress pkt_data_handle andb].
  rewrite (proj2 (Z.eqb_neq _ _) Hh). cbn [negb].
  rewrite bind_assoc, (bind_lift _ _ _ _ Hb), bind_assoc, bind_modify, bind_assoc. unfold wds_stop_network.
  rewrite bind_assoc, bind_get, (bind_after _ _ _ _ _ _ (u32_request_run _ _ _ _)), bind_ret.
  rewrite (zoom_said _ _ (on_wds (set_user_ordered_stop 1) (on_wds (set_user_ordered_stop 0) s)) p' Hq).
  by rewrite after_Ret, app_nil_r.
Qed.

(** A message with the identifier [id] whose result is a success. *)
Definition succeeds (id : Z) (m : answer) : Prop :=
  answer_ok m /\ msgid (a_qmi m) = id /\ tlv_result (a_fields m) = QMI_RESULT_SUCCESS.
(** The first field 1 of the message is the handle [h]. *)
Definition hands_out (h : Z) (m : answer) : Prop :=
  0 <= h < 4294967296 /\
  exists ts1 ts2, a_fields m = ts1 ++ Build_tlv 0x01 (le 4 h) :: ts2 /\ Forall (fun t => t_id t <> 0x01) ts1.

Lemma handle_read m h :
  answer_ok m -> hands_out h m ->
  exists off, get_tlv_offset_by_id (a_bytes m) (a_len m) 0x01 = Ret off /\ 0 < off /\
    rd32 (a_bytes m) (off + 3) = Ret h.
Proof.
  intros Hm (Hh & ts1 & ts2 & Hts & Hne).
  destruct (a_field m Hm ts1 (Build_tlv 0x01 (le 4 h)) ts2 Hts Hne) as (Ho & Hp & Hb).
  eexists. split; [exact Ho|]. split; [exact Hp|]. rewrite Hb, rd32_shift by lia.
  unfold enc_tlv. cbn [t_id t_val]. rdc. f_equal. dlia.
Qed.

Lemma receive_start env m s :
  answer_ok m -> msgid (a_qmi m) = WDS_START_NETWORK ->
  receive_wds env m s = (wds_handle_start_network_response env (a_bytes m) (a_len m) ;> ret 0) s.
Proof.
  intros Hm Hid. unfold receive_wds, handle_incoming_wds_message.
  by rewrite (bind_lift _ _ _ _ (a_id m Hm)), Hid.
Qed.

Lemma started_run env s m h :
  session_ok s -> succeeds WDS_START_NETWORK m -> hands_out h m ->
  exists s', receive_wds env m s =
    Ret (0, s', [Shell "udhcpc -q -f -i rmnet0";
                 Queued QMI_SERVICE_WDS (request WDS_GET_CURRENT_SETTINGS [Build_tlv 0x10 (le 4 0x0004e330)])]) /\
    became (set_in_progress 0 (set_pkt_data_handle h (wds s))) [READY] s s'.
Proof.
  intros Hs (Hm & Hid & Hr) Hh. destruct (handle_read m h Hm Hh) as (off & Ho & Hoff & Hv).
  destruct (say_status_run READY (on_wds (set_pkt_data_handle h) s) Hs ltac:(done))
    as (s1 & Hsay & Hw & Hcfg & Hok).
  exists (on_wds (set_in_progress 0) s1). split; [|by split; [unfold on_wds; cbn; rewrite Hw|]].
  rewrite receive_start by done. unfold wds_handle_start_network_response.
  autorewrite with eff. rewrite (bind_lift _ _ _ _ (a_result m Hm)), Hr.
  change (QMI_RESULT_SUCCESS =? 0) with true. cbn [negb]. autorewrite with eff. unfold wds_enable_indications_ipv4.
  rewrite (bind_after _ _ _ _ _ _ (u32_request_run _ _ _ _)). autorewrite with eff.
  rewrite (bind_lift _ _ _ _ Ho). ifdec. autorewrite with eff. rewrite (bind_lift _ _ _ _ Hv).
  autorewrite with eff. unfold notify_network_up. rewrite (bind_step _ _ _ _ _ Hsay).
  by autorewrite with eff.
Qed.
Lemma stopped_run env s m :
  succeeds WDS_STOP_NETWORK m ->
  receive_wds env m s = Ret (0, on_wds (set_pkt_data_handle 0) s, []).
Proof.
  intros (Hm & Hid & Hr). unfold receive_wds, handle_incoming_wds_message.
  rewrite (bind_lift _ _ _ _ (a_id m Hm)), Hid.
  change (WDS_STOP_NETWORK =? WDS_BIND_MUX_DATA_PORT) with false.
  change (WDS_STOP_NETWORK =? WDS_START_NETWORK) with false.
  change (WDS_STOP_NETWORK =? WDS_STOP_NETWORK) with true. cbn match.
  autorewrite with eff. by rewrite (bind_lift _ _ _ _ (a_result m Hm)), Hr.
Qed.

(** * Properties *)

(** A connection request of the configured texts is queued for the data
    service in a packet of exactly its size, from which a reader of the message
    gets every field back: the access point, the method with the name and the
    password when there is one, the address family, the call's and the
    network's type and the roaming lock. *)
Theorem connection_request s c :
  internal_credentials (settings (ds_cfg s)) = Ret c -> connect_len c < 65536 ->
  exists pkt, wds_attempt_to_connect s = Ret (0, s, [Queued QMI_SERVICE_WDS pkt]) /\
    zlen pkt = connect_len c /\
    get_qmux_service_id pkt = Ret QMI_SERVICE_WDS /\ get_qmi_message_id pkt = Ret WDS_START_NETWORK /\
    Forall (has_field pkt (connect_len c)) (connect_fields WDS_APN_TYPE_INTERNET c).
Proof.
  intros Hc Hl. eexists. split; [by apply attempt_run|]. unfold request. rewrite connect_fields_len.
  pose proof (connect_fields_len WDS_APN_TYPE_INTERNET c) as Hf. pose proof (texts_nonneg c).
  assert (SZ_ENCAP + 4 <= connect_len c) by (rewrite connect_len_texts; case_match; lia).
  assert (Hlen : zlen (request_head (connect_len c) WDS_START_NETWORK ++
    enc_tlvs (connect_fields WDS_APN_TYPE_INTERNET c)) = connect_len c) by (zl; rewrite request_head_len; lia).
  split; [done|].
  destruct (request_head_read (connect_len c) WDS_START_NETWORK (enc_tlvs (connect_fields WDS_APN_TYPE_INTERNET c)))
    as [Hs Hi]; [unfold SZ_ENCAP, SZ_QMUX, SZ_QMI in *; lia|done|].
  split; [done|]. split; [done|].
  rewrite <- Hlen at 2. rewrite <- (app_nil_r (enc_tlvs _)) at 1. apply fields_readable.
  - apply request_head_len.
  - by apply connect_fields_ok.
  - unfold connect_fields. case_match; apply (bool_decide_unpack _); vm_compute; exact I.
  - rewrite Hlen. lia.
Qed.

(** The sample session: the phone idle, the settings of Config.v, the network up. *)
Definition sample_session : data_session :=
  {| wds := {| in_progress := 0; ims_in_progress := 0; mux_state := 0; user_ordered_stop := 0; pkt_data_handle := 0 |};
     ds_phone := idle_phone; ds_cfg := sample_cfg |}.
Definition sample_credentials : credentials :=
  {| apn := zs "internet"; auth_method := 2; username := zs "user"; password := zs "secret" |}.
Definition sample_wds_env : wds_env :=
  {| w_socket := true; w_ioctl := 0; w_network := fun _ => 8; w_polls := 6 |}.

Lemma connection_request_witness :
  exists pkt, wds_attempt_to_connect sample_session = Ret (0, sample_session, [Queued QMI_SERVICE_WDS pkt]) /\
    zlen pkt = 63 /\
    get_qmux_service_id pkt = Ret QMI_SERVICE_WDS /\ get_qmi_message_id pkt = Ret WDS_START_NETWORK /\
    Forall (has_field pkt 63) (connect_fields WDS_APN_TYPE_INTERNET sample_credentials).
Proof. exact (connection_request sample_session sample_credentials eq_refl eq_refl). Defined.

(** The connection for IMS is sent in a packet sized for the texts of the
    other network. Texts as long as those fill it exactly and shorter ones leave
    zero bytes in it; longer ones are written past the end of the packet. *)
Theorem ims_request_size s c i :
  internal_credentials (settings (ds_cfg s)) = Ret c -> ims_credentials (settings (ds_cfg s)) = Ret i ->
  wds_attempt_to_connect_ims s =
  if texts_len i <=? texts_len c then
    Ret (0, s, [Queued QMI_SERVICE_WDS (request_head (connect_len c) WDS_START_NETWORK ++
      enc_tlvs (connect_fields WDS_APN_TYPE_IMS i) ++ replicate (Z.to_nat (texts_len c - texts_len i)) 0)])
  else Oob.
Proof.
  intros Hc Hi. unfold wds_attempt_to_connect_ims. rewrite bind_get, (bind_lift _ _ _ _ Hc), (bind_lift _ _ _ _ Hi).
  assert (auth_method c = auth_method i) as Ha.
  { unfold internal_credentials, ims_credentials in *.
    repeat match goal with H : cbind (cstr ?x) _ = _ |- _ => destruct (cstr x); [cbn [cbind] in H|done|done] end.
    by simplify_eq. }
  assert (connect_len c - connect_len i = texts_len c - texts_len i) as Hl
    by (rewrite !connect_len_texts, Ha; case_match; lia).
  destruct (Z.leb_spec (texts_len i) (texts_len c)).
  - by rewrite connect_fits, Hl by lia.
  - apply connect_overflows. lia.
Qed.

Definition ims_session : data_session :=
  {| wds := wds sample_session; ds_phone := idle_phone;
     ds_cfg := {| settings := set_ims_apn_addr_field (text_field (zs "ims.mnc007.mcc214.gprs")) sample_settings;
                  conf_file := None; boot_file := None |} |}.
Lemma ims_request_size_witness : wds_attempt_to_connect_ims ims_session = Oob.
Proof.
  exact (ims_request_size ims_session sample_credentials
    {| apn := zs "ims.mnc007.mcc214.gprs"; auth_method := 2; username := zs "a"; password := zs "b" |} eq_refl eq_refl).
Defined.

(** C37: a data session from its start to its end. Asked for while none runs,
    the network is up and the socket and its ioctl work, it queues the connection;
    an answer with a handle that is not zero makes the modem get an address and ask
    for indications; asked to stop, it sends that handle back, and the answer to that
    leaves the session where another can start. The user is told, in this order
    and nothing else, that the start is attempted, that the network is ready and
    that it is stopped: each text is queued for the host, where the queue has room,
    or spoken in a simulated call, where a place is free. *)
Theorem session_lifecycle env s c h started stopped :
  w_network env 0 <> 0 -> w_socket env = true -> 0 <= w_ioctl env ->
  session_ok s -> allow_internal_modem_connectivity (settings (ds_cfg s)) <> 0 ->
  internal_credentials (settings (ds_cfg s)) = Ret c ->
  in_progress (wds s) = 0 -> pkt_data_handle (wds s) = 0 ->
  succeeds WDS_START_NETWORK started -> hands_out h started -> h <> 0 ->
  succeeds WDS_STOP_NETWORK stopped ->
  exists s',
    (wds_chat_ifup_down env true ;> receive_wds env started ;>
     wds_chat_ifup_down env false ;> receive_wds env stopped) s =
    Ret (0, s', start_actions c ++
      [Shell "udhcpc -q -f -i rmnet0";
       Queued QMI_SERVICE_WDS (request WDS_GET_CURRENT_SETTINGS [Build_tlv 0x10 (le 4 0x0004e330)]);
       Queued QMI_SERVICE_WDS (request WDS_STOP_NETWORK [Build_tlv 0x01 (le 4 h)])]) /\
    became (set_pkt_data_handle 0 (set_user_ordered_stop 1 (set_in_progress 0 (wds s)))) [ATTEMPTING; READY; STOPPING] s s'.
Proof.
  intros Hn Hk Hc Hs Ha Hcr Hp Hh Hstart Hhand Hh0 Hstop.
  destruct (ifup_run env s c Hn Hk Hc Hs Ha Hcr Hp Hh) as (s1 & R1 & W1 & C1 & K1 & T1).
  destruct (started_run env s1 started h K1 Hstart Hhand) as (s2 & R2 & W2 & C2 & K2 & T2).
  assert (pkt_data_handle (wds s2) = h) as H2 by by rewrite W2.
  destruct (ifdown_run env s2 K2 ltac:(by rewrite H2)) as (s3 & R3 & W3 & C3 & K3 & T3). rewrite H2 in R3.
  exists (on_wds (set_pkt_data_handle 0) s3). split.
  - rewrite (bind_after _ _ _ _ _ _ R1), (bind_after _ _ _ _ _ _ R2), (bind_after _ _ _ _ _ _ R3).
    rewrite (stopped_run env s3 stopped Hstop), !after_Ret. done.
  - split; [|split; [|split; [done|exact (told_app [_] [_; _] _ _ _ T1 (told_app [_] [_] _ _ _ T2 T3))]]]; cbn [on_wds wds ds_cfg].
    + by rewrite W3, W2, W1.
    + by rewrite C3, C2, C1.
Qed.

Lemma session_lifecycle_witness :
  exists s',
    (wds_chat_ifup_down sample_wds_env true ;>
     receive_wds sample_wds_env (sample_answer WDS_START_NETWORK [done_tlv; Build_tlv 0x01 (le 4 0xE1234567)]) ;>
     wds_chat_ifup_down sample_wds_env false ;>
     receive_wds sample_wds_env (sample_answer WDS_STOP_NETWORK [done_tlv])) sample_session =
    Ret (0, s', start_actions sample_credentials ++
      [Shell "udhcpc -q -f -i rmnet0";
       Queued QMI_SERVICE_WDS (request WDS_GET_CURRENT_SETTINGS [Build_tlv 0x10 (le 4 0x0004e330)]);
       Queued QMI_SERVICE_WDS (request WDS_STOP_NETWORK [Build_tlv 0x01 (le 4 0xE1234567)])]) /\
    became (set_pkt_data_handle 0 (set_user_ordered_stop 1 (set_in_progress 0 (wds sample_session))))
      [ATTEMPTING; READY; STOPPING] sample_session s'.
Proof.
  apply session_lifecycle; try done; try exact idle_phone_ok.
  - split; [|done]. apply sample_answer_ok; [done| |done]. repeat constructor; zlit.
  - split; [done|]. exists [done_tlv], []. split; [done|]. repeat constructor. done.
  - split; [|done]. apply sample_answer_ok; [done| |done]. repeat constructor; zlit.
Defined.

(** ** A start that is refused *)

Definition REFUSED : list Z := zs "Network connection is down (reason: " ++ zs "Operation failed" ++ zs ")".

Lemma refused_run env s m :
  session_ok s -> answer_ok m -> msgid (a_qmi m) = WDS_START_NETWORK ->
  tlv_result (a_fields m) <> QMI_RESULT_SUCCESS ->
  exists s1, became (wds s) [REFUSED] s s1 /\
    receive_wds env m s =
    ((if (allow_internal_modem_connectivity (settings (ds_cfg s)) =? 0) then ret tt
      else when (user_ordered_stop (wds s) =? 0) (init_internal_networking env)) ;>
     modify (on_wds (set_in_progress 0)) ;> ret 0) s1.
Proof.
  intros Hs Hm Hid Hr.
  destruct (say_status_run REFUSED s Hs ltac:(done))
    as (s1 & Hsay & Hw & Hcfg & Hok).
  exists s1. split; [done|]. rewrite receive_start by done. unfold wds_handle_start_network_response.
  autorewrite with eff. rewrite (bind_lift _ _ _ _ (a_result m Hm)).
  rewrite (proj2 (Z.eqb_neq _ 0) Hr). cbn [negb]. unfold notify_network_down. autorewrite with eff.
  rewrite (bind_step _ _ _ _ _ Hsay). destruct (allow_internal_modem_connectivity _ =? 0); cbn [negb];
    autorewrite with eff; [done|by rewrite Hw].
Qed.

(** A start that the baseband refuses is not tried again, although the
    refusal asks for it when connections are allowed: the session is still
    marked as connecting while it is handled, so nothing is sent. A refusal
    that comes when none is in progress and the user did not stop the session
    does start one, and the mark of that one is lost with it. *)
Theorem refused_start env s m c :
  w_network env 0 <> 0 -> w_socket env = true -> 0 <= w_ioctl env ->
  session_ok s -> allow_internal_modem_connectivity (settings (ds_cfg s)) <> 0 ->
  internal_credentials (settings (ds_cfg s)) = Ret c ->
  answer_ok m -> msgid (a_qmi m) = WDS_START_NETWORK -> tlv_result (a_fields m) <> QMI_RESULT_SUCCESS ->
  exists s', receive_wds env m s =
    Ret (0, s', if (in_progress (wds s) =? 0) && (user_ordered_stop (wds s) =? 0) then start_actions c else []) /\
    became (set_in_progress 0 (wds s)) [REFUSED] s s'.
Proof.
  intros Hn Hk Hc Hs Ha Hcr Hm Hid Hr.
  destruct (refused_run env s m Hs Hm Hid Hr) as (s1 & (Hw & Hcfg & Hok) & ->).
  rewrite (proj2 (Z.eqb_neq _ _) Ha). exists (on_wds (set_in_progress 0) s1).
  split; [|split; [by cbn [on_wds wds]; rewrite Hw|by split]].
  destruct (Z.eqb_spec (user_ordered_stop (wds s)) 0) as [Hu|Hu]; cbn [when];
    [|rewrite andb_false_r; by autorewrite with eff].
  rewrite andb_true_r. destruct (Z.eqb_spec (in_progress (wds s)) 0) as [Hp|Hp].
  - rewrite (bind_after _ _ _ _ _ _ (init_run env Hn Hk Hc s1 c ltac:(by rewrite Hcfg) ltac:(by rewrite Hw) ltac:(by rewrite Hcfg))).
    autorewrite with eff. unfold ret. by rewrite after_Ret, app_nil_r.
  - rewrite (bind_step _ _ _ _ _ (init_busy env Hn s1 ltac:(by rewrite Hw))). by autorewrite with eff.
Qed.
Definition connecting_session : data_session := on_wds (set_in_progress 1) sample_session.
Lemma refused_start_witness :
  exists s', receive_wds sample_wds_env (sample_answer WDS_START_NETWORK [Build_tlv 2 [1; 0; 14; 0]]) connecting_session =
    Ret (0, s', []) /\ became (set_in_progress 0 (wds connecting_session)) [REFUSED] connecting_session s'.
Proof.
  apply (refused_start sample_wds_env connecting_session
    (sample_answer WDS_START_NETWORK [Build_tlv 2 [1; 0; 14; 0]]) sample_credentials); try done; try exact idle_phone_ok.
  apply sample_answer_ok; [done| |done]. repeat constructor; zlit.
Defined.
