(* ===== verification/Scheduler.v ===== *)
(** The scheduler (src/scheduler.c, inc/scheduler.h): its table of tasks, the
    file they are kept in, adding, removing and listing them, and the turn of
    the thread that runs those that are due. It acts on the phone (Call.v) and
    uses the settings' partition handling (Config.v). *)

From stdpp Require Import base list numbers option strings.
From Stdlib Require Import ZArith Lia.
From S2P Require Import Prelude Libc Eff Sms Config Call Replies.

Definition MAX_NUM_TASKS : Z := 255.
Definition ARG_SIZE : Z := 160.

Definition STATUS_FREE : Z := 0.
Definition STATUS_PENDING : Z := 1.
Definition STATUS_IN_PROGRESS : Z := 2.
Definition STATUS_DONE : Z := 3.
Definition STATUS_FAILED : Z := 4.

Definition TASK_TYPE_SMS : Z := 0.
Definition TASK_TYPE_CALL : Z := 1.
Definition TASK_TYPE_WAKE_HOST : Z := 2.
Definition TASK_TYPE_DND_CLEAR : Z := 3.

Definition SCHED_MODE_TIME_AT : Z := 0.
Definition SCHED_MODE_TIME_COUNTDOWN : Z := 1.

(** * State *)

Record execution_time := {
  exec_time : Z;  (* time_t, 32 bits *)
  mode : Z;
  hh : Z;
  mm : Z
}.

Record task_p := {
  t_type : Z;
  t_param : Z;
  t_status : Z;
  t_time : execution_time;
  t_arguments : list Z  (* char[ARG_SIZE] *)
}.

Record sch_runtime := { cur_time : Z; tasks : list task_p }.

(** The scheduler with its file, the phone and the settings. *)
Record sched := {
  sch : sch_runtime;
  tasks_file : option (list Z);  (* SCHEDULER_DATA_FILE_PATH *)
  sch_phone : phone;
  sch_cfg : cfg_state
}.

Definition upd_tasks (l : list task_p) (s : sched) : sched :=
  {| sch := {| cur_time := cur_time (sch s); tasks := l |}; tasks_file := tasks_file s;
     sch_phone := sch_phone s; sch_cfg := sch_cfg s |}.
Definition upd_cur_time (t : Z) (s : sched) : sched :=
  {| sch := {| cur_time := t; tasks := tasks (sch s) |}; tasks_file := tasks_file s;
     sch_phone := sch_phone s; sch_cfg := sch_cfg s |}.
Definition upd_file (f : option (list Z)) (s : sched) : sched :=
  {| sch := sch s; tasks_file := f; sch_phone := sch_phone s; sch_cfg := sch_cfg s |}.

#[export, refine] Instance phone_part : Part phone sched :=
  {| part := sch_phone;
     with_part p s := {| sch := sch s; tasks_file := tasks_file s; sch_phone := p;
                         sch_cfg := sch_cfg s |} |}.
Proof. all: abstract by intros; repeat match goal with p : sched |- _ => destruct p end. Defined.
#[export, refine] Instance cfg_part : Part cfg_state sched :=
  {| part := sch_cfg;
     with_part c s := {| sch := sch s; tasks_file := tasks_file s; sch_phone := sch_phone s;
                         sch_cfg := c |} |}.
Proof. all: abstract by intros; repeat match goal with p : sched |- _ => destruct p end. Defined.

Definition set_status (v : Z) (t : task_p) : task_p :=
  {| t_type := t_type t; t_param := t_param t; t_status := v; t_time := t_time t;
     t_arguments := t_arguments t |}.
Definition set_exec_time (v : Z) (t : task_p) : task_p :=
  {| t_type := t_type t; t_param := t_param t; t_status := t_status t;
     t_time := {| exec_time := v; mode := mode (t_time t); hh := hh (t_time t); mm := mm (t_time t) |};
     t_arguments := t_arguments t |}.

Inductive sched_action :=
| Phone (a : phone_action)
| Disk (a : cfg_action)
| RequestSignal               (* nas_request_signal_info *)
| RequestCellLocation         (* nas_request_cell_location_info *)
| CleanupStorage (id : Z).    (* cleanup_storage(id, true, "openqti.lock") *)

Definition MT (A : Type) : Type := M sched sched_action A.

(** time(2), localtime(3) of it, mktime(3), the outcome of mounts and opens,
    the free space in MB or -EINVAL, the padding bytes fwrite(3) finds in the
    table, and the bytes on the stack where it is read back. *)
Record sched_env := {
  s_now : Z;
  s_tm : tm;
  s_mktime : tm -> Z;
  s_cfg_env : cfg_env;
  s_open : bool;
  s_persist_mb : Z;
  s_tmpfs_mb : Z;
  s_pad : Z;
  s_stack : list Z
}.

(** * The file *)

(** struct task_p as it lies in memory: 172 bytes, two of them padding. *)
Definition SZ_TASK : Z := 172.
Definition enc_task (pad : Z) (t : task_p) : list Z :=
  [t_type t; t_param t; t_status t; pad] ++ le 4 (exec_time (t_time t)) ++
  [mode (t_time t); hh (t_time t); mm (t_time t); pad] ++ t_arguments t.
Definition dec_task (b : list Z) : cres task_p :=
  let* ty := rd b 0 in
  let* param := rd b 1 in
  let* status := rd b 2 in
  let* exec := rd32 b 4 in
  let* mode := rd b 8 in
  let* hh := rd b 9 in
  let* mm := rd b 10 in
  let* arguments := rdn b 12 160 in
  Ret {| t_type := ty; t_param := param; t_status := status;
         t_time := {| exec_time := i32 exec; mode := mode; hh := hh; mm := mm |};
         t_arguments := arguments |}.
Fixpoint dec_tasks (n : nat) (b : list Z) : cres (list task_p) :=
  match n with
  | O => Ret []
  | S n =>
      let* t := dec_task b in
      let* l := dec_tasks n (drop 172 b) in
      Ret (t :: l)
  end.

Section Operations.
Variable env : sched_env.

Definition get_task (i : Z) : MT task_p := do* s := get in lift (rdA (tasks (sch s)) i).
Definition on_task (i : Z) (f : task_p -> task_p) : MT unit :=
  modifyM (fun s => let* t := rdA (tasks (sch s)) i in
                    let* l := wrA (tasks (sch s)) i (f t) in Ret (upd_tasks l s)).

Fixpoint first_free (l : list task_p) (i : Z) : Z :=
  match l with
  | [] => - ENOSPC
  | t :: l => if t_status t =? STATUS_FREE then i else first_free l (i + 1)
  end.
Definition find_free_task_slot : MT Z := do* s := get in ret (first_free (tasks (sch s)) 0).

Definition save_tasks_to_storage : MT Z :=
  do* rw := zoom Disk (set_persistent_partition_rw (s_cfg_env env)) in
  if rw <? 0 then ret (-1)
  else if negb (s_open env) then ret (-1)
  else
    modify (fun s => upd_file (Some (concat (map (enc_task (s_pad env)) (tasks (sch s))))) s) ;>
    zoom Disk do_sync_fs ;>
    do* s := get in
    if persistent_logging (settings (sch_cfg s)) =? 0 then
      do* ro := zoom Disk (set_persistent_partition_ro (s_cfg_env env)) in
      ret (if ro <? 0 then -1 else 0)
    else ret 0.

(** The array on the stack after fread(3). *)
Definition read_back (file : list Z) : list Z :=
  let got := take (Z.to_nat (SZ_TASK * MAX_NUM_TASKS)) file in got ++ drop (length got) (s_stack env).

(** fread(3) returns a number of tasks; it is compared with the size of one. *)
Definition read_tasks_from_storage : MT Z :=
  do* s := get in
  match tasks_file s with
  | None => ret (-1)
  | Some file =>
      let ret_ := Z.min MAX_NUM_TASKS (zlen file / SZ_TASK) in
      when (SZ_TASK <=? ret_)
        (do* l := lift (dec_tasks 255 (read_back file)) in modify (upd_tasks l)) ;>
      ret 0
  end.

Definition delay_task_execution (taskID seconds : Z) : MT unit :=
  on_task taskID (fun t => set_exec_time (i32 (exec_time (t_time t) + u8 seconds)) t).

(** When the new task is to run. *)
Definition execution_of (t : task_p) : Z :=
  let tm := s_tm env in
  if mode (t_time t) =? SCHED_MODE_TIME_AT then
    s_mktime env {| tm_year := tm_year tm; tm_mon := tm_mon tm;
      tm_mday := if hh (t_time t) <? tm_hour tm then tm_mday tm + 1 else tm_mday tm;
      tm_hour := hh (t_time t); tm_min := mm (t_time t); tm_sec := 0 |}
  else if mode (t_time t) =? SCHED_MODE_TIME_COUNTDOWN then
    i32 (s_now env + hh (t_time t) * 3600 + mm (t_time t) * 60)
  else exec_time (t_time t).

Definition add_task (task : task_p) : MT Z :=
  do* taskID := find_free_task_slot in
  if taskID <? 0 then ret (- ENOSPC)
  else
    on_task taskID (fun _ => task) ;>
    on_task taskID (set_status STATUS_PENDING) ;>
    on_task taskID (fun t => set_exec_time (execution_of t) t) ;>
    do* _ := save_tasks_to_storage in
    ret taskID.

(** The time of execution is left as it was. *)
Definition clear_task (t : task_p) : task_p :=
  {| t_type := 0; t_param := 0; t_status := STATUS_FREE;
     t_time := {| exec_time := exec_time (t_time t); mode := 0; hh := 0; mm := 0 |};
     t_arguments := replicate 160 0 |}.

Definition remove_task (taskID : Z) : MT Z :=
  if taskID <? MAX_NUM_TASKS then
    do* t := get_task taskID in
    on_task taskID clear_task ;>
    do* _ := save_tasks_to_storage in
    ret (if t_status t =? STATUS_FREE then - EINVAL else 0)
  else ret (- EINVAL).

(** Visit the slots [i], [i + 1], ...: the one the visitor is in is read when
    it is reached. *)
Fixpoint for_slots (n : nat) (i : Z) (body : Z -> task_p -> MT unit) : MT unit :=
  match n with
  | O => ret tt
  | S n => do* t := get_task i in body i t ;> for_slots n (i + 1) body
  end.

Definition remove_all_tasks_by_type (task_type : Z) : MT Z :=
  for_slots 255 0 (fun i t =>
    when (t_type t =? task_type) (do* _ := remove_task i in ret tt)) ;>
  ret 0.

Fixpoint cleanup_loop (n : nat) (i : Z) (needs_write : bool) : MT bool :=
  match n with
  | O => ret needs_write
  | S n =>
      do* t := get_task i in
      if (t_status t =? STATUS_DONE) || (t_status t =? STATUS_FAILED) then
        do* _ := remove_task i in cleanup_loop n (i + 1) true
      else cleanup_loop n (i + 1) needs_write
  end.
Definition cleanup_tasks : MT unit :=
  do* needs_write := cleanup_loop 255 0 false in
  when needs_write (do* _ := save_tasks_to_storage in ret tt).

(** What a task does to the phone, and whether it is done. *)
Definition task_effect (t : task_p) : MP bool :=
  if t_type t =? TASK_TYPE_SMS then ret true
  else if t_type t =? TASK_TYPE_CALL then
    do* talking := get_call_simulation_mode in
    if talking : bool then ret false
    else
      set_pending_call_flag true ;>
      set_looped_message true ;>
      do* n := lift (strlen (t_arguments t)) in
      add_voice_message_to_queue (t_arguments t) n ;>
      ret true
  else if t_type t =? TASK_TYPE_WAKE_HOST then emit (Out PulseRingIn) ;> ret true
  else if t_type t =? TASK_TYPE_DND_CLEAR then set_do_not_disturb false ;> ret true
  else ret false.

Definition run_task (taskID : Z) : MT Z :=
  if (taskID <? 0) || (MAX_NUM_TASKS <=? taskID) then ret (- EINVAL)
  else
    do* t := get_task taskID in
    if (t_status t =? STATUS_FREE) || (t_status t =? STATUS_DONE) || (t_status t =? STATUS_FAILED)
    then ret (- EINVAL)
    else
      on_task taskID (set_status STATUS_IN_PROGRESS) ;>
      do* done_ := zoom Phone (task_effect t) in
      (if done_ : bool then on_task taskID (set_status STATUS_DONE)
       else when (t_type t =? TASK_TYPE_CALL) (delay_task_execution taskID 60)) ;>
      cleanup_tasks ;>
      ret 0.

(** * The thread *)

(** The texts about storage. *)
Definition tell (text : list Z) : MT unit :=
  do* '(reply, strsz) := lift (snprintf (replicate 160 0) 160 text) in
  zoom Phone (add_message_to_queue reply strsz).

(** One turn of the loop after [read_tasks_from_storage]: [tick] before and
    after. The sizes are an int in a uint32_t, compared with -EINVAL. *)
Definition due_tasks : MT unit :=
  modify (upd_cur_time (s_now env)) ;>
  for_slots 255 0 (fun i t =>
    do* s := get in
    when ((t_status t =? STATUS_PENDING) && (exec_time (t_time t) <=? cur_time (sch s)))
      (do* _ := run_task i in ret tt)).
Definition housekeeping : MT unit :=
  emit RequestSignal ;>
  emit RequestCellLocation ;>
  when (negb (u32 (s_persist_mb env) =? u32 (- EINVAL)) && (u32 (s_persist_mb env) <? 1))
    (tell (zs "I'm running out of storage, cleaning /persist" ++ [10]) ;> emit (CleanupStorage 1)) ;>
  when (negb (u32 (s_tmpfs_mb env) =? u32 (- EINVAL)) && (u32 (s_tmpfs_mb env) <? 1))
    (tell (zs "I'm running out of memory, cleaning /tmp" ++ [10]) ;> emit (CleanupStorage 0)).
Definition scheduler_turn (tick : Z) : MT Z :=
  due_tasks ;>
  when (10 <? tick) housekeeping ;>
  ret (if 10 <? tick then 1 else tick + 1).

(** * Listing *)

Definition min_to_exec (s : sched) (t : task_p) : list Z :=
  fmt_i (Z.quot (i32 (exec_time (t_time t) - cur_time (sch s))) 60) ++ zs " min to exec)".

(** The formatted text for a task; other types print nothing. *)
Definition task_text (s : sched) (i : Z) (t : task_p) : option (cres (list Z)) :=
  let head what := zs "Task " ++ fmt_i i ++ [58; 10] ++ what ++ zs " (" ++ min_to_exec s t in
  let with_args what :=
    let* args := cstr (t_arguments t) in Ret (head what ++ zs ": args: " ++ args) in
  if t_type t =? TASK_TYPE_CALL then Some (with_args (zs " Call me"))
  else if t_type t =? TASK_TYPE_SMS then Some (with_args (zs " Text me"))
  else if t_type t =? TASK_TYPE_WAKE_HOST then Some (Ret (head (zs " Wake host up")))
  else None.

(** [strsz] and [count] are carried from task to task. *)
Fixpoint dump_loop (n : nat) (i strsz count : Z) : MT (Z * Z) :=
  match n with
  | O => ret (strsz, count)
  | S n =>
      do* t := get_task i in
      if t_status t =? STATUS_PENDING then
        do* s := get in
        do* '(reply, strsz) :=
          match task_text s i t with
          | Some text => do* text := lift text in lift (snprintf (replicate 160 0) 160 text)
          | None => ret (replicate 160 0, strsz)
          end in
        zoom Phone (add_message_to_queue reply strsz) ;>
        dump_loop n (i + 1) strsz (count + 1)
      else dump_loop n (i + 1) strsz count
  end.
Definition dump_pending_tasks : MT unit :=
  do* '(_, count) := dump_loop 255 0 0 0 in
  when (count =? 0) (tell (zs "There are no pending tasks!")).
End Operations.

(** * Reasoning up to the file *)

Definition phone_actions (u : list sched_action) : list phone_action :=
  omap (fun a => match a with Phone a => Some a | _ => None end) u.

Lemma phone_actions_app u v : phone_actions (u ++ v) = phone_actions u ++ phone_actions v.
Proof. unfold phone_actions. apply omap_app. Qed.
Lemma phone_actions_map l : phone_actions (map Phone l) = l.
Proof. induction l as [|a l IH]; [done|]. cbn. by rewrite <- IH at 2. Qed.

(** [m] ends with [a] in [s'], up to the contents of the file, and acts on
    the phone as [l] says. *)
Definition effect {A} (m : MT A) (s : sched) (a : A) (s' : sched) (l : list phone_action) : Prop :=
  exists f u, m s = Ret (a, upd_file f s', u) /\ phone_actions u = l.

Lemma effect_bind {A B} (m : MT A) (k : A -> MT B) s a s1 l1 b s2 l2 :
  effect m s a s1 l1 -> (forall f, effect (k a) (upd_file f s1) b s2 l2) ->
  effect (bind m k) s b s2 (l1 ++ l2).
Proof.
  intros (f & u & H1 & <-) Hk. destruct (Hk f) as (f' & u' & H2 & <-).
  exists f', (u ++ u'). split; [by apply bind_ret_run with (1 := H1)|apply phone_actions_app].
Qed.
(** The two cases where one part does nothing to the phone. *)
Lemma effect_then {A B} (m : MT A) (k : A -> MT B) s a s1 b s2 l :
  effect m s a s1 [] -> (forall f, effect (k a) (upd_file f s1) b s2 l) ->
  effect (bind m k) s b s2 l.
Proof. intros H1 H2. by apply (effect_bind m k s a s1 [] b s2 l). Qed.
Lemma effect_step {A B} (m : MT A) (k : A -> MT B) s a s1 b s2 l :
  m s = Ret (a, s1, []) -> effect (k a) s1 b s2 l -> effect (bind m k) s b s2 l.
Proof. intros H1 (f & u & H2 & Hu). exists f, u. split; [|done]. by rewrite (bind_step _ _ _ _ _ H1). Qed.
Lemma effect_ret {A} (a : A) s : effect (ret a) s a s [].
Proof. exists (tasks_file s), []. by destruct s. Qed.
Lemma effect_file {A} (m : MT A) s a s' f l : effect m s a (upd_file f s') l -> effect m s a s' l.
Proof. intros (f' & u & H & Hu). by exists f', u. Qed.

(** The scheduler with the table [l] and the phone [p]. *)
Definition with_table (l : list task_p) (p : phone) (s : sched) : sched :=
  with_part p (upd_tasks l s).

Lemma save_effect env s : exists r, effect (save_tasks_to_storage env) s r s [].
Proof.
  unfold save_tasks_to_storage, set_persistent_partition_rw, set_persistent_partition_ro, do_sync_fs.
  destruct (c_rw_ok (s_cfg_env env)) eqn:E1, (s_open env) eqn:E2,
    (persistent_logging (settings (sch_cfg s)) =? 0) eqn:E3, (c_ro_ok (s_cfg_env env)) eqn:E4;
    destruct s as [sc fl ph cf]; cbn in E3;
    unfold effect, zoom, bind, modify, get, emit, ret; cbn; rewrite ?E1, ?E2, ?E4; cbn;
    rewrite ?E3; cbn; eexists _, _, _; (split; [reflexivity|done]).
Qed.

(** ** The table *)

Lemma get_task_at l t l' p s i :
  zlen l = i -> get_task i (with_table (l ++ t :: l') p s) = Ret (t, with_table (l ++ t :: l') p s, []).
Proof.
  intros Hi. unfold get_task. rewrite bind_get. cbn [sch tasks with_table with_part phone_part upd_tasks].
  unfold lift. by rewrite rdA_at.
Qed.
Lemma on_task_at f l t l' p s i :
  zlen l = i ->
  on_task i f (with_table (l ++ t :: l') p s) = Ret (tt, with_table (l ++ f t :: l') p s, []).
Proof.
  intros Hi. unfold on_task, modifyM. cbn [sch tasks with_table with_part phone_part upd_tasks].
  rewrite rdA_at by done. cbn [cbind]. by rewrite wrA_at.
Qed.

Lemma remove_effect env l t l' p s i :
  zlen l = i -> i < MAX_NUM_TASKS ->
  effect (remove_task env i) (with_table (l ++ t :: l') p s)
    (if t_status t =? STATUS_FREE then - EINVAL else 0) (with_table (l ++ clear_task t :: l') p s) [].
Proof.
  intros Hi Hm. unfold remove_task. ifdec.
  eapply effect_step; [by apply get_task_at|]. eapply effect_step; [by apply on_task_at|].
  destruct (save_effect env (with_table (l ++ clear_task t :: l') p s)) as [r Hr].
  eapply effect_then; [exact Hr|]. intros f. apply effect_file with f. apply effect_ret.
Qed.

Definition finished (t : task_p) : bool := (t_status t =? STATUS_DONE) || (t_status t =? STATUS_FAILED).
Definition tidy (t : task_p) : task_p := if finished t then clear_task t else t.

Lemma cleanup_loop_effect env rest pre w p s :
  zlen pre + zlen rest <= MAX_NUM_TASKS ->
  effect (cleanup_loop env (length rest) (zlen pre) w) (with_table (pre ++ rest) p s)
    (w || existsb finished rest) (with_table (pre ++ map tidy rest) p s) [].
Proof.
  revert pre w s; induction rest as [|t rest IH]; intros pre w s Hl.
  { cbn. rewrite orb_false_r. apply effect_ret. }
  cbn [cleanup_loop length map existsb]. pose proof (zlen_nonneg rest). rewrite zlen_cons in Hl.
  eapply effect_step; [by apply get_task_at|]. fold (finished t). unfold tidy at 1.
  assert (Hnext : forall w f t', effect (cleanup_loop env (length rest) (zlen pre + 1) w)
    (with_table (pre ++ t' :: rest) p (upd_file f s)) (w || existsb finished rest)
    (with_table (pre ++ t' :: map tidy rest) p s) []).
  { intros w' f t'. apply effect_file with f.
    replace (zlen pre + 1) with (zlen (pre ++ [t'])) by (zl; lia).
    specialize (IH (pre ++ [t']) w' (upd_file f s)). rewrite <- !app_assoc in IH. apply IH. zl. lia. }
  destruct (finished t) eqn:Ef.
  - eapply effect_then; [apply remove_effect; lia|]. intros f. rewrite orb_true_r.
    specialize (Hnext true f (clear_task t)). exact Hnext.
  - specialize (Hnext w (tasks_file s) t). by destruct s.
Qed.

Lemma cleanup_effect env l p s :
  length l = 255%nat -> effect (cleanup_tasks env) (with_table l p s) tt (with_table (map tidy l) p s) [].
Proof.
  intros Hl. unfold cleanup_tasks.
  pose proof (cleanup_loop_effect env l [] false p s) as H. rewrite Hl in H.
  eapply effect_then; [apply H; unfold zlen; rewrite Hl; done|]. intros f. cbn [orb app].
  destruct (existsb finished l); cbn [when]; [|apply effect_file with f, effect_ret].
  destruct (save_effect env (upd_file f (with_table (map tidy l) p s))) as [r Hr].
  eapply effect_then; [exact Hr|]. intros f'. apply effect_file with f, effect_file with f', effect_ret.
Qed.

(** * The specification of a turn *)

(** A task after it ran. *)
Definition after_run (done_ : bool) (t : task_p) : task_p :=
  if done_ then clear_task t
  else if t_type t =? TASK_TYPE_CALL
  then set_exec_time (i32 (exec_time (t_time t) + 60)) (set_status STATUS_IN_PROGRESS t)
  else set_status STATUS_IN_PROGRESS t.
Definition due (now : Z) (t : task_p) : bool :=
  (t_status t =? STATUS_PENDING) && (exec_time (t_time t) <=? now).
(** The due tasks act on the phone once each, in the order of their slots;
    the new table. *)
Fixpoint run_all (now : Z) (l : list task_p) : MP (list task_p) :=
  match l with
  | [] => ret []
  | t :: l =>
      if due now t then
        do* done_ := task_effect t in
        do* l := run_all now l in
        ret (after_run done_ t :: l)
      else
        do* l := run_all now l in
        ret (t :: l)
  end.

Lemma tidy_unfinished l : Forall (fun t => finished t = false) l -> map tidy l = l.
Proof.
  induction 1 as [|t l Ht _ IH]; [done|]. cbn. unfold tidy at 1. by rewrite Ht, IH.
Qed.

Lemma task_effect_zoom t l p s done_ p' acts :
  task_effect t p = Ret (done_, p', acts) ->
  effect (zoom Phone (task_effect t)) (with_table l p s) done_ (with_table l p' s) acts.
Proof.
  intros H. exists (tasks_file s), (map Phone acts). split; [|apply phone_actions_map].
  unfold zoom. cbn [part phone_part with_table with_part sch_phone]. rewrite H. by destruct s.
Qed.

Lemma run_task_effect env t pre post p s done_ p' acts :
  Forall (fun t => finished t = false) (pre ++ t :: post) -> length (pre ++ t :: post) = 255%nat ->
  t_status t = STATUS_PENDING -> task_effect t p = Ret (done_, p', acts) ->
  effect (run_task env (zlen pre)) (with_table (pre ++ t :: post) p s) 0
    (with_table (pre ++ after_run done_ t :: post) p' s) acts.
Proof.
  intros Hfin Hlen Hst Hrun. apply Forall_app in Hfin as [Hpre Hfin].
  inversion Hfin as [|? ? Ht Hpost]; subst. rewrite length_app in Hlen. cbn [length] in Hlen.
  unfold run_task, MAX_NUM_TASKS. pose proof (zlen_nonneg pre).
  assert (zlen pre < 255) by (unfold zlen; lia). ifdec.
  eapply effect_step; [by apply get_task_at|]. rewrite Hst. cbn match. change (_ || _)%bool with false.
  cbn match. eapply effect_step; [by apply on_task_at|].
  rewrite <- (app_nil_r acts). eapply effect_bind; [by apply task_effect_zoom|]. intros f.
  assert (Hclean : forall t', map tidy (pre ++ t' :: post) = pre ++ tidy t' :: post).
  { intros t'. rewrite map_app. cbn. by rewrite !tidy_unfinished. }
  assert (Hend : forall t' s, effect (cleanup_tasks env;> ret 0) (with_table (pre ++ t' :: post) p' s) 0
                  (with_table (pre ++ tidy t' :: post) p' s) []).
  { intros t' s'. rewrite <- Hclean. eapply effect_then.
    - apply cleanup_effect. rewrite length_app. cbn. lia.
    - intros g. apply effect_file with g, effect_ret. }
  apply effect_file with f.
  change (upd_file f (with_table ?l p' s)) with (with_table l p' (upd_file f s)).
  destruct done_.
  - eapply effect_step; [by apply on_task_at|]. apply Hend.
  - unfold after_run. destruct (t_type t =? TASK_TYPE_CALL); cbn [when].
    + eapply effect_step; [unfold delay_task_execution; by apply on_task_at|]. apply Hend.
    + eapply effect_step; [reflexivity|]. apply Hend.
Qed.

Definition turn_body (env : sched_env) (i : Z) (t : task_p) : MT unit :=
  do* s := get in
  when ((t_status t =? STATUS_PENDING) && (exec_time (t_time t) <=? cur_time (sch s)))
    (do* _ := run_task env i in ret tt).

Lemma after_run_unfinished done_ t : finished (after_run done_ t) = false.
Proof. unfold after_run. destruct done_, (t_type t =? TASK_TYPE_CALL); done. Qed.

Lemma slots_effect env rest pre p s l' p' acts :
  Forall (fun t => finished t = false) (pre ++ rest) -> length (pre ++ rest) = 255%nat ->
  run_all (cur_time (sch s)) rest p = Ret (l', p', acts) ->
  effect (for_slots (length rest) (zlen pre) (turn_body env)) (with_table (pre ++ rest) p s) tt
    (with_table (pre ++ l') p' s) acts.
Proof.
  revert pre p s l' p' acts; induction rest as [|t rest IH]; intros pre p s l' p' acts Hfin Hlen Hrun.
  { injection Hrun as <- <- <-. cbn. apply effect_ret. }
  cbn [run_all for_slots length] in *. fold (due (cur_time (sch s)) t) in Hrun.
  eapply effect_step; [by apply get_task_at|].
  assert (Hnext : forall t' p1 f l1 acts1,
    finished t' = false -> run_all (cur_time (sch s)) rest p1 = Ret (l1, p', acts1) ->
    effect (for_slots (length rest) (zlen pre + 1) (turn_body env))
      (with_table (pre ++ t' :: rest) p1 (upd_file f s)) tt (with_table (pre ++ t' :: l1) p' s) acts1).
  { intros t' p1 f l1 acts1 Ht' Hr. apply effect_file with f.
    replace (zlen pre + 1) with (zlen (pre ++ [t'])) by (zl; lia).
    assert (forall l : list task_p, pre ++ t' :: l = (pre ++ [t']) ++ l) as Ha
      by (intros; by rewrite <- app_assoc).
    rewrite (Ha rest), (Ha l1). apply (IH (pre ++ [t']) p1 (upd_file f s)); [|rewrite !length_app in *; cbn in *; lia|done].
    apply Forall_app in Hfin as [H1 H2]. inversion H2; subst.
    rewrite <- app_assoc. apply Forall_app. split; [done|]. by constructor. }
  unfold turn_body at 1.
  destruct (due (cur_time (sch s)) t) eqn:Hd.
  - apply bind_inv in Hrun as (done_ & p1 & a1 & a2 & Heff & Hrun & ->).
    apply bind_inv in Hrun as (l1 & p2 & a3 & a4 & Hr & Hrun & ->). injection Hrun as <- <- <-.
    rewrite app_nil_r.
    apply effect_bind with (a := tt) (s1 := with_table (pre ++ after_run done_ t :: rest) p1 s);
      [|intros f; exact (Hnext _ p1 f l1 a3 (after_run_unfinished _ _) Hr)].
    eapply effect_step; [reflexivity|]. cbn [sch cur_time with_table with_part phone_part upd_tasks].
    fold (due (cur_time (sch s)) t). rewrite Hd. cbn [when]. rewrite <- (app_nil_r a1).
    unfold due in Hd. b2p. eapply effect_bind; [by apply run_task_effect|].
    intros f. apply effect_file with f, effect_ret.
  - apply bind_inv in Hrun as (l1 & p2 & a3 & a4 & Hr & Hrun & ->). injection Hrun as <- <- <-.
    rewrite app_nil_r. apply Forall_app in Hfin as [_ Hfin]. inversion Hfin; subst.
    apply effect_then with (a := tt) (s1 := with_table (pre ++ t :: rest) p s);
      [|intros f; exact (Hnext t p f l1 _ ltac:(done) Hr)].
    eapply effect_step; [reflexivity|]. cbn [sch cur_time with_table with_part phone_part upd_tasks].
    fold (due (cur_time (sch s)) t). rewrite Hd. apply effect_ret.
Qed.

(** A turn of the thread is the specification's pass over the table. *)
Lemma due_tasks_effect env s l' p' acts :
  Forall (fun t => finished t = false) (tasks (sch s)) -> length (tasks (sch s)) = 255%nat ->
  run_all (s_now env) (tasks (sch s)) (sch_phone s) = Ret (l', p', acts) ->
  effect (due_tasks env) s tt (upd_cur_time (s_now env) (with_table l' p' s)) acts.
Proof.
  intros Hfin Hlen Hrun. unfold due_tasks. eapply effect_step; [reflexivity|].
  pose proof (slots_effect env (tasks (sch s)) [] (sch_phone s) (upd_cur_time (s_now env) s) l' p' acts
    Hfin Hlen Hrun) as H. rewrite Hlen in H. cbn [app] in H. change (zlen []) with 0 in H.
  assert (with_table (tasks (sch s)) (sch_phone s) (upd_cur_time (s_now env) s) =
          upd_cur_time (s_now env) s) as E1 by (by destruct s as [[] ? ? ?]).
  rewrite E1 in H. exact H.
Qed.

(** * Safety of a turn *)

Definition arguments_ok (t : task_p) : Prop :=
  zlen (t_arguments t) = 160 /\ exists n, strlen (t_arguments t) = Ret n.
(** Between two turns a task is free, pending or in progress. *)
Definition task_ok (t : task_p) : Prop :=
  (t_status t = STATUS_FREE \/ t_status t = STATUS_PENDING \/ t_status t = STATUS_IN_PROGRESS) /\
  arguments_ok t.
Definition sched_ok (s : sched) : Prop :=
  length (tasks (sch s)) = 255%nat /\ Forall task_ok (tasks (sch s)) /\ voice_ok (calls (sch_phone s)).

Lemma strlen_text b n :
  strlen b = Ret n -> exists s r, b = s ++ 0 :: r /\ Forall (fun c => c <> 0) s /\ n = zlen s.
Proof.
  revert n; induction b as [|x b IH]; intros n; [done|]. cbn [strlen].
  destruct (Z.eqb_spec x 0) as [->|Hx].
  - intros [= <-]. by exists [], b.
  - intros (k & Hk & [= <-])%cbind_Ret_inv. destruct (IH _ Hk) as (s & r & -> & Hs & ->).
    exists (x :: s), r. split_and!; [done|by constructor|zl; lia].
Qed.

(** A task never faults, and leaves the phone in the mode it is in. It is
    done, unless it is a call during a call or has a type of no task. *)
Definition completes (talking : bool) (t : task_p) : bool :=
  (t_type t =? TASK_TYPE_SMS) || (t_type t =? TASK_TYPE_WAKE_HOST) || (t_type t =? TASK_TYPE_DND_CLEAR)
  || (t_type t =? TASK_TYPE_CALL) && negb talking.

Lemma task_effect_ok t p :
  arguments_ok t -> voice_ok (calls p) ->
  exists p' acts, task_effect t p = Ret (completes (call_simulation_mode (calls p)) t, p', acts) /\
    voice_ok (calls p') /\ call_simulation_mode (calls p') = call_simulation_mode (calls p) /\
    texts p' = texts p.
Proof.
  intros (Hlen & n & Hn) Hv. unfold task_effect, completes.
  destruct (t_type t =? TASK_TYPE_SMS) eqn:E1; [by eexists _, _|].
  destruct (t_type t =? TASK_TYPE_CALL) eqn:E2.
  - b2p. rewrite E2. cbn [orb]. change (TASK_TYPE_CALL =? TASK_TYPE_WAKE_HOST) with false.
    change (TASK_TYPE_CALL =? TASK_TYPE_DND_CLEAR) with false. cbn [orb andb].
    unfold get_call_simulation_mode. autorewrite with eff.
    destruct (call_simulation_mode (calls p)) eqn:Em; [by eexists _, _|]. cbn [negb].
    unfold set_pending_call_flag, set_looped_message. autorewrite with eff.
    rewrite (bind_lift _ _ _ _ Hn). destruct (strlen_text _ _ Hn) as (s & r & Hs & _ & ->).
    rewrite Hs. set (q := on_calls _ _). rewrite Hs in Hlen. rewrite zlen_app, zlen_cons in Hlen.
    pose proof (zlen_nonneg r). pose proof (zlen_nonneg s).
    destruct (Z.eq_dec (zlen s) 0) as [Hz|Hz].
    + rewrite Hz. unfold add_voice_message_to_queue. change (0 <? 0) with false. cbn match.
      rewrite bind_ret. by eexists _, _.
    + destruct (add_voice_run s (0 :: r) q) as (l & Hl & Hok & _); [exact Hv|lia|].
      rewrite (bind_step _ _ _ _ _ Hl). eexists _, _. split; [reflexivity|]. by split_and!.
  - rewrite andb_false_l, orb_false_r. cbn [orb].
    destruct (t_type t =? TASK_TYPE_WAKE_HOST) eqn:E3; [autorewrite with eff; by eexists _, _|].
    destruct (t_type t =? TASK_TYPE_DND_CLEAR) eqn:E4; cbn [orb]; [|by eexists _, _].
    unfold set_do_not_disturb. autorewrite with eff. by eexists _, _.
Qed.

(** The table after a turn. *)
Definition after_turn (now : Z) (talking : bool) (t : task_p) : task_p :=
  if due now t then after_run (completes talking t) t else t.

Lemma run_all_ok now l p :
  Forall task_ok l -> voice_ok (calls p) ->
  exists p' acts,
    run_all now l p = Ret (map (after_turn now (call_simulation_mode (calls p))) l, p', acts) /\
    voice_ok (calls p') /\ call_simulation_mode (calls p') = call_simulation_mode (calls p).
Proof.
  intros Hl. revert p. induction Hl as [|t l [_ Ht] _ IH]; intros p Hv; [by eexists _, _|].
  cbn [run_all map]. unfold after_turn at 1. destruct (due now t).
  - destruct (task_effect_ok t p Ht Hv) as (p1 & a1 & H1 & Hv1 & Hm1 & _).
    rewrite (bind_after _ _ _ _ _ _ H1). destruct (IH p1 Hv1) as (p2 & a2 & H2 & Hv2 & Hm2).
    rewrite Hm1 in *. rewrite (bind_after _ _ _ _ _ _ H2). eexists _, _. split; [reflexivity|]. by split.
  - destruct (IH p Hv) as (p2 & a2 & H2 & Hv2 & Hm2).
    rewrite (bind_after _ _ _ _ _ _ H2). eexists _, _. split; [reflexivity|]. by split.
Qed.

Lemma after_turn_ok now talking t : task_ok t -> task_ok (after_turn now talking t).
Proof.
  intros [Hst Ha]. unfold after_turn, after_run. destruct (due now t); [|by split].
  destruct (completes talking t).
  - split; [by left|]. split; [done|]. by exists 0.
  - destruct (t_type t =? TASK_TYPE_CALL); (split; [by right; right|exact Ha]).
Qed.

Lemma task_ok_unfinished l : Forall task_ok l -> Forall (fun t => finished t = false) l.
Proof.
  intros H. eapply Forall_impl; [exact H|]. intros t [Hst _]. unfold finished.
  by destruct Hst as [-> | [-> | ->]].
Qed.

(** C7: one turn of the scheduler's thread, its in-place updates, nested
    clean-up passes and rewrites of the file included, is the specification's
    single pass: every pending task whose time has come acts on the phone once,
    in the order of the slots, and no other does; its slot is then free, unless
    it is a call during a simulated call or has an unknown type. A turn never
    faults and keeps the table's invariant. *)
Theorem turn_refines_run_all env s :
  sched_ok s ->
  let talking := call_simulation_mode (calls (sch_phone s)) in
  exists p' acts s' u,
    run_all (s_now env) (tasks (sch s)) (sch_phone s) =
      Ret (map (after_turn (s_now env) talking) (tasks (sch s)), p', acts) /\
    due_tasks env s = Ret (tt, s', u) /\ phone_actions u = acts /\ sch_phone s' = p' /\
    tasks (sch s') = map (after_turn (s_now env) talking) (tasks (sch s)) /\ sched_ok s' /\
    call_simulation_mode (calls (sch_phone s')) = talking.
Proof.
  intros (Hlen & Hall & Hv) talking.
  destruct (run_all_ok (s_now env) (tasks (sch s)) (sch_phone s) Hall Hv) as (p' & acts & Hr & Hv' & Hm).
  destruct (due_tasks_effect env s _ _ _ (task_ok_unfinished _ Hall) Hlen Hr) as (f & u & Hd & Hu).
  eexists p', acts, _, u. split_and!; [exact Hr|exact Hd|done..| |exact Hm].
  split_and!; cbn [sch tasks upd_file upd_cur_time with_table with_part phone_part upd_tasks sch_phone].
  - by rewrite length_map.
  - apply Forall_map. eapply Forall_impl; [exact Hall|]. intros t Ht. by apply after_turn_ok.
  - done.
Qed.

(** ** An example *)

Definition task_of (ty status exec : Z) (args : list Z) : task_p :=
  {| t_type := ty; t_param := 0; t_status := status;
     t_time := {| exec_time := exec; mode := SCHED_MODE_TIME_COUNTDOWN; hh := 0; mm := 1 |};
     t_arguments := args ++ replicate (160 - length args) 0 |}.
Definition free_task : task_p := task_of 0 STATUS_FREE 0 [].
Definition sample_settings_state : cfg_state :=
  {| settings := sample_settings; conf_file := None; boot_file := None |}.
(** A wake-up at 100 and a call at 200. *)
Definition sample_table : list task_p :=
  task_of TASK_TYPE_WAKE_HOST STATUS_PENDING 100 [] ::
  task_of TASK_TYPE_CALL STATUS_PENDING 200 (zs "Tea") :: replicate 253 free_task.
Definition sample_sched : sched :=
  {| sch := {| cur_time := 0; tasks := sample_table |}; tasks_file := None;
     sch_phone := idle_phone; sch_cfg := sample_settings_state |}.
Definition sched_env_at (now : Z) : sched_env :=
  {| s_now := now;
     s_tm := {| tm_year := 122; tm_mon := 0; tm_mday := 1; tm_hour := 10; tm_min := 30; tm_sec := 5 |};
     s_mktime := fun t => (tm_mday t * 24 + tm_hour t) * 3600 + tm_min t * 60 + tm_sec t;
     s_cfg_env := sample_cfg_env; s_open := true; s_persist_mb := 10; s_tmpfs_mb := 10; s_pad := 0;
     s_stack := [] |}.

Lemma sample_sched_ok : sched_ok sample_sched.
Proof.
  split_and!; [done| |].
  - cbn [sch tasks sample_sched]. unfold sample_table.
    assert (forall ty st e a, (st = 0 \/ st = 1 \/ st = 2) -> zlen a < 160 ->
              Forall (fun c => c <> 0) a -> task_ok (task_of ty st e a)) as Hok.
    { intros ty st e a Hst Ha Hz. split; [exact Hst|]. unfold arguments_ok. cbn [t_arguments task_of].
      split; [zl; unfold zlen in *; lia|].
      exists (zlen a). assert (160 - length a = S (159 - length a))%nat as -> by (unfold zlen in *; lia).
      by apply strlen_app. }
    constructor; [apply Hok; [auto|done|constructor]|].
    constructor; [apply Hok; [auto|done|repeat constructor; done]|].
    apply Forall_replicate. apply Hok; [auto|done|constructor].
  - unfold voice_ok. cbn [sample_sched sch_phone idle_phone calls idle_calls voice_msg].
    by apply Forall_replicate.
Qed.

Lemma turn_refines_run_all_witness :
  exists p' acts s' u,
    run_all 150 sample_table idle_phone =
      Ret (map (after_turn 150 false) sample_table, p', acts) /\
    due_tasks (sched_env_at 150) sample_sched = Ret (tt, s', u) /\ phone_actions u = acts /\
    sch_phone s' = p' /\ tasks (sch s') = map (after_turn 150 false) sample_table /\ sched_ok s' /\
    call_simulation_mode (calls (sch_phone s')) = false.
Proof. exact (turn_refines_run_all (sched_env_at 150) sample_sched sample_sched_ok). Defined.
(** The wake-up ran, the call did not. *)
Example sample_turn : map (after_turn 150 false) (take 2 sample_table) =
  [clear_task (task_of TASK_TYPE_WAKE_HOST STATUS_PENDING 100 []);
   task_of TASK_TYPE_CALL STATUS_PENDING 200 (zs "Tea")].
Proof. reflexivity. Qed.

(** * Adding a task *)

Lemma first_free_spec l i :
  0 <= i ->
  (first_free l i = - ENOSPC /\ Forall (fun t => t_status t <> STATUS_FREE) l) \/
  exists pre t post, l = pre ++ t :: post /\ first_free l i = i + zlen pre /\
    t_status t = STATUS_FREE /\ Forall (fun t => t_status t <> STATUS_FREE) pre.
Proof.
  revert i; induction l as [|t l IH]; intros i Hi; [by left|]. cbn [first_free].
  destruct (t_status t =? STATUS_FREE) eqn:E; b2p.
  - right. exists [], t, l. rewrite zlen_nil. split_and!; try done; lia.
  - destruct (IH (i + 1)) as [[-> Hf]|(pre & t' & post & -> & -> & Ht & Hf)]; [lia| |].
    + left. split; [done|by constructor].
    + right. exists (t :: pre), t', post. split_and!; try done; [zl; lia|by constructor].
Qed.

(** The task as it enters the table. *)
Definition added (env : sched_env) (task : task_p) : task_p :=
  set_exec_time (execution_of env task) (set_status STATUS_PENDING task).

Lemma add_task_cases env task s :
  (Forall (fun t => t_status t <> STATUS_FREE) (tasks (sch s)) /\
   add_task env task s = Ret (- ENOSPC, s, [])) \/
  exists pre t post, tasks (sch s) = pre ++ t :: post /\ t_status t = STATUS_FREE /\
    Forall (fun t => t_status t <> STATUS_FREE) pre /\
    effect (add_task env task) s (zlen pre) (upd_tasks (pre ++ added env task :: post) s) [].
Proof.
  unfold add_task, find_free_task_slot.
  destruct (first_free_spec (tasks (sch s)) 0) as [[Hf Hall]|(pre & t & post & Hl & Hf & Ht & Hpre)];
    [done| |].
  - left. split; [done|]. autorewrite with eff. by rewrite Hf.
  - right. exists pre, t, post. split_and!; try done. pose proof (zlen_nonneg pre).
    eapply effect_step; [autorewrite with eff; by rewrite Hf, Z.add_0_l|]. ifdec.
    assert (s = with_table (pre ++ t :: post) (sch_phone s) s) as Hs
      by (rewrite <- Hl; by destruct s as [[] ? ? ?]).
    rewrite Hs at 1. eapply effect_step; [by apply on_task_at|].
    eapply effect_step; [by apply on_task_at|]. eapply effect_step; [by apply on_task_at|].
    destruct (save_effect env (with_table (pre ++ added env task :: post) (sch_phone s) s)) as [r Hr].
    eapply effect_then; [exact Hr|]. intros f. apply effect_file with f.
    assert (with_table (pre ++ added env task :: post) (sch_phone s) s =
            upd_tasks (pre ++ added env task :: post) s) as Hu by (by destruct s as [[] ? ? ?]).
    rewrite Hu. apply effect_ret.
Qed.

Lemma add_task_full env task s :
  Forall (fun t => t_status t <> STATUS_FREE) (tasks (sch s)) ->
  add_task env task s = Ret (- ENOSPC, s, []).
Proof.
  intros Hall. destruct (add_task_cases env task s) as [[_ H]|(pre & t & post & Hl & Ht & _)]; [done|].
  rewrite Hl in Hall. apply Forall_app in Hall as [_ Hall]. by inversion Hall.
Qed.
Lemma add_task_slot env task s pre t post :
  tasks (sch s) = pre ++ t :: post -> t_status t = STATUS_FREE ->
  Forall (fun t => t_status t <> STATUS_FREE) pre ->
  effect (add_task env task) s (zlen pre) (upd_tasks (pre ++ added env task :: post) s) [].
Proof.
  intros Hl Ht Hpre.
  destruct (add_task_cases env task s) as [[Hall _]|(pre' & t' & post' & Hl' & Ht' & Hpre' & H)].
  { rewrite Hl in Hall. apply Forall_app in Hall as [_ Hall]. by inversion Hall. }
  assert (pre' = pre /\ post' = post) as [-> ->]; [|done].
  rewrite Hl in Hl'. clear -Hl' Ht Ht' Hpre Hpre'. revert pre' Hl' Hpre'.
  induction Hpre as [|x pre Hx _ IH]; intros [|x' pre'] Hl' Hpre'; simplify_eq/=.
  - done.
  - by inversion Hpre'.
  - inversion Hpre'; subst. destruct (IH pre') as [-> ->]; done.
Qed.

(** mktime(3) on broken-down times of one hour: it undoes localtime(3), and
    grows with the minutes and seconds. *)
Definition mktime_ok (env : sched_env) : Prop :=
  s_mktime env (s_tm env) = s_now env /\
  forall y mo d h mi se mi' se', 0 <= se < 60 -> 0 <= se' -> mi < mi' \/ mi = mi' /\ se <= se' ->
    s_mktime env {| tm_year := y; tm_mon := mo; tm_mday := d; tm_hour := h; tm_min := mi; tm_sec := se |} <=
    s_mktime env {| tm_year := y; tm_mon := mo; tm_mday := d; tm_hour := h; tm_min := mi'; tm_sec := se' |}.

(** Adding a task. A table with no free slot is left as it is and the
    error is -ENOSPC; otherwise the task takes the first free slot, pending,
    with its time of execution, and the slot's number is returned. A task for
    the current hour whose minute is not after the current one is not moved to
    the next day: it is due at once. *)
Theorem add_task_schedules env task s :
  (Forall (fun t => t_status t <> STATUS_FREE) (tasks (sch s)) ->
   add_task env task s = Ret (- ENOSPC, s, [])) /\
  (forall pre t post, tasks (sch s) = pre ++ t :: post -> t_status t = STATUS_FREE ->
     Forall (fun t => t_status t <> STATUS_FREE) pre ->
     exists f u, add_task env task s =
         Ret (zlen pre, upd_file f (upd_tasks (pre ++ added env task :: post) s), u) /\
       phone_actions u = []) /\
  (mktime_ok env -> mode (t_time task) = SCHED_MODE_TIME_AT -> hh (t_time task) = tm_hour (s_tm env) ->
   mm (t_time task) <= tm_min (s_tm env) -> 0 <= tm_sec (s_tm env) ->
   due (s_now env) (added env task) = true).
Proof.
  split_and!.
  - apply add_task_full.
  - intros pre t post Hl Ht Hpre. exact (add_task_slot env task s pre t post Hl Ht Hpre).
  - intros [Hnow Hmono] Hm Hh Hmm Hsec. unfold due, added. cbn [t_status set_status set_exec_time t_time
      exec_time]. cbn match. change (STATUS_PENDING =? STATUS_PENDING) with true. cbn [andb].
    apply Z.leb_le. unfold execution_of. rewrite Hm. change (_ =? SCHED_MODE_TIME_AT) with true.
    rewrite Hh. ifdec. rewrite <- Hnow. destruct (s_tm env) as [y mo d h mi se].
    apply Hmono; cbn in *; lia.
Qed.
(** At 10:30:05, a task for 10:15. *)
Definition past_task : task_p :=
  {| t_type := TASK_TYPE_CALL; t_param := 0; t_status := 0; t_arguments := replicate 160 0;
     t_time := {| exec_time := 0; mode := SCHED_MODE_TIME_AT; hh := 10; mm := 15 |} |}.
Lemma add_task_schedules_witness :
  due 124205 (added (sched_env_at 124205) past_task) = true.
Proof.
  apply (proj2 (proj2 (add_task_schedules (sched_env_at 124205) past_task sample_sched))); try done.
  split; [done|]. intros. cbn. lia.
Defined.

(** * The file *)

(** A task whose time of execution is a time_t and whose text has its size. *)
Definition task_fits (t : task_p) : Prop :=
  -2147483648 <= exec_time (t_time t) < 2147483648 /\ zlen (t_arguments t) = 160.

Lemma dec_enc_task pad t rest : task_fits t -> dec_task (enc_task pad t ++ rest) = Ret t.
Proof.
  intros [He Ha]. unfold dec_task, enc_task. rewrite <- !app_assoc.
  cbn [le app]. rdc. cbn match.
  pose proof (rdn_app [t_type t; t_param t; t_status t; pad; exec_time (t_time t) mod 256;
    exec_time (t_time t) / 256 mod 256; exec_time (t_time t) / 256 / 256 mod 256;
    exec_time (t_time t) / 256 / 256 / 256 mod 256; mode (t_time t); hh (t_time t); mm (t_time t); pad]
    (t_arguments t) rest) as H.
  replace (length (t_arguments t)) with 160%nat in H by (unfold zlen in Ha; lia).
  change (zlen _) with 12 in H. cbn [app] in H. rewrite H. cbn [cbind].
  match goal with |- context [i32 ?x] => replace (i32 x) with (exec_time (t_time t)) end.
  - by destruct t as [? ? ? [] ?].
  - unfold i32. dlia.
Qed.
Lemma enc_task_len pad t : task_fits t -> length (enc_task pad t) = 172%nat.
Proof. intros [_ Ha]. unfold enc_task. rewrite !length_app, length_le. cbn. unfold zlen in Ha. lia. Qed.

Lemma dec_enc_tasks pad l rest :
  Forall task_fits l -> dec_tasks (length l) (concat (map (enc_task pad) l) ++ rest) = Ret l.
Proof.
  induction 1 as [|t l Ht _ IH]; [done|]. cbn [dec_tasks length map concat]. rewrite <- app_assoc.
  rewrite dec_enc_task by done. cbn [cbind]. rewrite drop_app_length' by (by rewrite enc_task_len).
  by rewrite IH.
Qed.
Lemma concat_len pad l : Forall task_fits l -> zlen (concat (map (enc_task pad) l)) = 172 * zlen l.
Proof.
  induction 1 as [|t l Ht _ IH]; [done|]. cbn [map concat]. rewrite zlen_app, IH, zlen_cons.
  unfold zlen at 1. rewrite enc_task_len by done. lia.
Qed.

(** The table survives a restart. When the partition mounts and the file
    opens, saving writes a file from which the next start, whatever is in its
    table, in the padding or on its stack, reads the same 255 tasks. *)
Theorem tasks_survive_reboot env1 s :
  length (tasks (sch s)) = 255%nat -> Forall task_fits (tasks (sch s)) ->
  c_rw_ok (s_cfg_env env1) = true -> s_open env1 = true ->
  exists r file u, save_tasks_to_storage env1 s = Ret (r, upd_file (Some file) s, u) /\
    forall env2 s2, tasks_file s2 = Some file ->
      read_tasks_from_storage env2 s2 = Ret (0, upd_tasks (tasks (sch s)) s2, []).
Proof.
  intros Hlen Hfit Hrw Hopen. set (file := concat (map (enc_task (s_pad env1)) (tasks (sch s)))).
  assert (exists r u, save_tasks_to_storage env1 s = Ret (r, upd_file (Some file) s, u)) as (r & u & Hs).
  { unfold save_tasks_to_storage, set_persistent_partition_rw, set_persistent_partition_ro, do_sync_fs.
    destruct s as [sc fl ph cf]. unfold zoom, bind, modify, get, emit, ret. cbn. rewrite Hrw, Hopen. cbn.
    destruct (persistent_logging (settings cf) =? 0); cbn; eauto. }
  exists r, file, u. split; [done|]. intros env2 s2 Hf.
  unfold read_tasks_from_storage. rewrite bind_get, Hf.
  assert (zlen file = 43860) as Hz.
  { unfold file. rewrite concat_len by done. unfold zlen. rewrite Hlen. done. }
  rewrite Hz. change (Z.min MAX_NUM_TASKS (43860 / SZ_TASK)) with 255.
  change (SZ_TASK <=? 255) with true. cbn [when]. rewrite bind_assoc.
  assert (dec_tasks 255 (read_back env2 file) = Ret (tasks (sch s))) as Hd.
  { unfold read_back. rewrite take_ge by (unfold SZ_TASK, MAX_NUM_TASKS, zlen in *; lia). rewrite <- Hlen.
    by apply dec_enc_tasks. }
  rewrite (bind_lift _ _ _ _ Hd). autorewrite with eff. done.
Qed.
Lemma tasks_survive_reboot_witness :
  exists r file u,
    save_tasks_to_storage (sched_env_at 0) sample_sched = Ret (r, upd_file (Some file) sample_sched, u) /\
    forall env2 s2, tasks_file s2 = Some file ->
      read_tasks_from_storage env2 s2 = Ret (0, upd_tasks sample_table s2, []).
Proof.
  assert (Hfit : Forall task_fits sample_table).
  { unfold sample_table, free_task. constructor; [by vm_compute|]. constructor; [by vm_compute|].
    apply Forall_replicate. by vm_compute. }
  exact (tasks_survive_reboot (sched_env_at 0) sample_sched eq_refl Hfit eq_refl eq_refl).
Defined.

(** * Postponed calls *)

(** What can happen to a table: turns of the thread, tasks added, and
    anything at all to the phone. *)
Inductive later : sched -> sched -> Prop :=
| later_now s : later s s
| later_turn env s s' u s'' : due_tasks env s = Ret (tt, s', u) -> later s' s'' -> later s s''
| later_add env task s id s' u s'' :
    arguments_ok task -> add_task env task s = Ret (id, s', u) -> later s' s'' -> later s s''
| later_phone p s s'' : voice_ok (calls p) -> later (with_part p s) s'' -> later s s''.

Lemma turn_run env s :
  sched_ok s ->
  exists s' u, due_tasks env s = Ret (tt, s', u) /\ sched_ok s' /\
    tasks (sch s') = map (after_turn (s_now env) (call_simulation_mode (calls (sch_phone s)))) (tasks (sch s)).
Proof.
  intros (Hlen & Hall & Hv).
  destruct (run_all_ok (s_now env) (tasks (sch s)) (sch_phone s) Hall Hv) as (p' & acts & Hr & Hv' & Hm).
  destruct (due_tasks_effect env s _ _ _ (task_ok_unfinished _ Hall) Hlen Hr) as (f & u & Hd & Hu).
  eexists _, u. split; [exact Hd|].
  split; [split_and!|]; cbn [sch tasks upd_file upd_cur_time with_table with_part phone_part upd_tasks
    sch_phone]; [by rewrite length_map| |done|done].
  apply Forall_map. eapply Forall_impl; [exact Hall|]. intros t Ht. by apply after_turn_ok.
Qed.

Lemma added_ok env task : arguments_ok task -> task_ok (added env task).
Proof. intros H. split; [by right; left|exact H]. Qed.

(** A task in progress stays as it is. *)
Lemma later_in_progress s s' i t :
  later s s' -> sched_ok s -> tasks (sch s) !! i = Some t -> t_status t = STATUS_IN_PROGRESS ->
  sched_ok s' /\ tasks (sch s') !! i = Some t.
Proof.
  induction 1 as [s|env s s1 u s2 Hd _ IH|env task s id s1 u s2 Ha Hadd _ IH|p s s2 Hp _ IH];
    intros Hok Hi Hst; [done|..].
  - destruct (turn_run env s Hok) as (s3 & u3 & Hd3 & Hok3 & Ht3).
    rewrite Hd3 in Hd. simplify_eq. apply IH; [done| |done]. rewrite Ht3, list_lookup_fmap, Hi. cbn.
    unfold after_turn, due. by rewrite Hst.
  - destruct (add_task_cases env task s) as [[_ H]|(pre & t' & post & Hl & Ht' & _ & f & u' & H & _)];
      rewrite H in Hadd; simplify_eq; [by apply IH|].
    destruct Hok as (Hlen & Hall & Hv).
    apply IH; [|cbn [sch tasks upd_file upd_tasks]|done].
    + split_and!; cbn [sch tasks upd_file upd_tasks sch_phone]; [|rewrite Hl in Hall|done].
      * rewrite Hl in Hlen. rewrite length_app in *. cbn in *. lia.
      * apply Forall_app in Hall as [H1 H2]. inversion H2; subst. apply Forall_app. split; [done|].
        constructor; [by apply added_ok|done].
    + rewrite Hl in Hi. destruct (decide (i = length pre)) as [->|Hne].
      * rewrite list_lookup_middle in Hi by done. simplify_eq. rewrite Hst in Ht'. done.
      * destruct (decide (i < length pre)%nat).
        { rewrite lookup_app_l in * by lia. done. }
        rewrite lookup_app_r in * by lia. by destruct (i - length pre)%nat eqn:E; [lia|].
  - apply IH; [|done..]. destruct Hok as (? & ? & ?). by split_and!.
Qed.

(** A call that comes due during a simulated call is postponed by 60
    seconds, but stays in progress: whatever turns follow, whatever tasks are
    added and whatever happens to the phone, it is never run, and its slot is
    not freed. *)
Theorem postponed_call_never_runs env s i t :
  sched_ok s -> tasks (sch s) !! i = Some t -> t_type t = TASK_TYPE_CALL -> due (s_now env) t = true ->
  call_simulation_mode (calls (sch_phone s)) = true ->
  exists s1 u, due_tasks env s = Ret (tt, s1, u) /\
    forall s2, later s1 s2 -> exists t', tasks (sch s2) !! i = Some t' /\
      t_status t' = STATUS_IN_PROGRESS /\ exec_time (t_time t') = i32 (exec_time (t_time t) + 60) /\
      forall now p l, run_all now (t' :: l) p = (do* l := run_all now l in ret (t' :: l)) p.
Proof.
  intros Hok Hi Hty Hdue Htalk. destruct (turn_run env s Hok) as (s1 & u & Hd & Hok1 & Ht1).
  exists s1, u. split; [done|]. intros s2 Hl.
  exists (set_exec_time (i32 (exec_time (t_time t) + 60)) (set_status STATUS_IN_PROGRESS t)).
  split; [|done].
  apply (later_in_progress s1 s2); [done..| |done]. rewrite Ht1, list_lookup_fmap, Hi. cbn.
  unfold after_turn. rewrite Hdue, Htalk. unfold completes, after_run. by rewrite Hty.
Qed.
Definition talking_sched : sched :=
  with_part {| calls := set_call_simulation_mode' true idle_calls; texts := initial_runtime |} sample_sched.
Lemma postponed_call_never_runs_witness :
  exists s1 u, due_tasks (sched_env_at 250) talking_sched = Ret (tt, s1, u) /\
    forall s2, later s1 s2 -> exists t', tasks (sch s2) !! 1%nat = Some t' /\
      t_status t' = STATUS_IN_PROGRESS /\ exec_time (t_time t') = i32 (200 + 60) /\
      forall now p l, run_all now (t' :: l) p = (do* l := run_all now l in ret (t' :: l)) p.
Proof.
  apply (postponed_call_never_runs (sched_env_at 250) talking_sched 1
    (task_of TASK_TYPE_CALL STATUS_PENDING 200 (zs "Tea"))); try reflexivity.
  destruct sample_sched_ok as (H1 & H2 & H3). split_and!; [exact H1|exact H2|exact H3].
Defined.

(** * Listing *)

(** A task whose listing is longer than a reply: [snprintf] cuts the reply but
    returns the length it would have had. *)
Lemma long_listing_oob n i strsz count s t text rest pre :
  tasks (sch s) = pre ++ t :: rest -> zlen pre = i -> t_status t = STATUS_PENDING ->
  task_text s i t = Some (Ret text) -> 160 < zlen text ->
  call_simulation_mode (calls (sch_phone s)) = false -> queue_pos (texts (sch_phone s)) <= QUEUE_SIZE - 2 ->
  dump_loop (S n) i strsz count s = Oob.
Proof.
  intros Hl Hi Hst Ht Hlong Hm Hq. cbn [dump_loop].
  assert (get_task i s = Ret (t, s, [])) as Hg.
  { unfold get_task. rewrite bind_get. unfold lift. by rewrite Hl, rdA_at. }
  rewrite (bind_step _ _ _ _ _ Hg), Hst. change (STATUS_PENDING =? STATUS_PENDING) with true. cbn match.
  rewrite bind_get, Ht. autorewrite with eff. rewrite (bind_lift (Ret text) text _ _ eq_refl).
  assert (exists b, snprintf (replicate 160 0) 160 text = Ret (b, zlen text) /\ zlen b = 160) as (b & Hb & Hbl).
  { unfold snprintf. change (160 <=? 0) with false. cbn match.
    assert (length (take (Z.to_nat (160 - 1)) text ++ [0]) = 160%nat) as Hz.
    { rewrite length_app, length_take. unfold zlen in *. cbn [length]. lia. }
    set (src := take _ text ++ [0]) in *.
    rewrite wrn_ok by (unfold zlen; rewrite ?length_replicate; lia). cbn [cbind]. eexists. split; [reflexivity|].
    change (Z.to_nat 0) with 0%nat. cbn [take app Nat.add]. 
    rewrite drop_ge by (rewrite length_replicate; lia).
    rewrite app_nil_r, take_0, app_nil_l. unfold zlen. by rewrite Hz. }
  rewrite (bind_lift _ _ _ _ Hb). unfold bind at 1. rewrite zoom_fault; [done|].
  apply long_reply_oob; [lia|exact Hm|exact Hq].
Qed.
