(* ===== verification/Tracking.v ===== *)
(** The QMI clients of the host (src/tracking.c, inc/tracking.h): the table of
    registered clients, what control packets do to it, and the forced release
    of every client. *)

From stdpp Require Import base list numbers option.
From Stdlib Require Import ZArith Lia.
From S2P Require Import Prelude Eff SmsFilter.

Definition CLIENT_REGISTER_REQ : Z := 0x22.
Definition CLIENT_RELEASE_REQ : Z := 0x23.
Definition HOST_USES_MODEMMANAGER : Z := 0x1a.
Definition HOST_USES_OFONO : Z := 0x02.
Definition MAX_ACTIVE_CLIENTS : Z := 22.
Definition ENOENT : Z := 2.

(** * State *)

Record service_pair := { service : Z; instance : Z }.

Record client_tracking := {
  services : list service_pair;  (* [33] *)
  last_active : Z;               (* uint8_t *)
  regtime : Z;                   (* uint32_t, in ms *)
  host_side_managing_app : Z;    (* uint8_t *)
  dirty_reconnects : Z           (* uint8_t *)
}.

Definition upd_services (l : list service_pair) (c : client_tracking) : client_tracking :=
  {| services := l; last_active := last_active c; regtime := regtime c;
     host_side_managing_app := host_side_managing_app c; dirty_reconnects := dirty_reconnects c |}.
Definition upd_last_active (n : Z) (c : client_tracking) : client_tracking :=
  {| services := services c; last_active := n; regtime := regtime c;
     host_side_managing_app := host_side_managing_app c; dirty_reconnects := dirty_reconnects c |}.
Definition upd_regtime (n : Z) (c : client_tracking) : client_tracking :=
  {| services := services c; last_active := last_active c; regtime := n;
     host_side_managing_app := host_side_managing_app c; dirty_reconnects := dirty_reconnects c |}.
Definition upd_app (n : Z) (c : client_tracking) : client_tracking :=
  {| services := services c; last_active := last_active c; regtime := regtime c;
     host_side_managing_app := n; dirty_reconnects := dirty_reconnects c |}.
Definition upd_dirty (n : Z) (c : client_tracking) : client_tracking :=
  {| services := services c; last_active := last_active c; regtime := regtime c;
     host_side_managing_app := host_side_managing_app c; dirty_reconnects := n |}.

Inductive track_action :=
| SendRelease (fd : Z) (data : list Z)  (* write(2) of a release request *)
| Drain (fd : Z)                        (* read(2) until nothing is left *)
| ResetUsb.                             (* reset_usb_port, helpers.c *)

Definition MK (A : Type) : Type := M client_tracking track_action A.

Definition no_service : service_pair := {| service := 0; instance := 0 |}.

(** The first 32 of the 33 places. *)
Definition forget_services (c : client_tracking) : client_tracking :=
  upd_services (replicate 32 no_service ++ drop 32 (services c)) c.

Definition reset_client_handler : MK unit :=
  modify (fun c => forget_services (upd_app 0 (upd_regtime 0 (upd_last_active 0 c)))).
Definition reset_dirty_reconnects : MK unit := modify (upd_dirty 0).
Definition get_dirty_reconnects (c : client_tracking) : Z := dirty_reconnects c.
Definition get_current_host_app (c : client_tracking) : Z := host_side_managing_app c.

Definition get_num_instances_for_service (svc : Z) (c : client_tracking) : Z :=
  zlen (filter (fun p => service p = svc) (take 32 (services c))).

Definition is_register_release_request (pkt : list Z) (sz : Z) : cres bool :=
  let* p0 := rd pkt 0 in
  let* p9 := rd pkt 9 in
  if (p0 =? 0x01) && (p9 =? 0x00) && (12 <=? sz) then
    let* p8 := rd pkt 8 in
    Ret ((p8 =? CLIENT_REGISTER_REQ) || (p8 =? CLIENT_RELEASE_REQ))
  else Ret false.

Section Operations.
(** get_curr_timestamp() *)
Variable now : Z.

Definition update_register_time : MK unit := modify (upd_regtime now).

Definition add_client (svc inst : Z) : MK Z :=
  do* c := get in
  do* l := lift (wrA (services c) (last_active c) {| service := svc; instance := inst |}) in
  modify (upd_services l) ;>
  let n := u8 (last_active c + 1) in
  modify (upd_last_active n) ;>
  update_register_time ;>
  ret (if MAX_ACTIVE_CLIENTS <? n then - ENOSPC else 0).

(** The loop of [remove_client], from slot [n - 1] down to 0: the slot. *)
Fixpoint find_client (n : nat) (l : list service_pair) (svc inst : Z) : cres (option Z) :=
  match n with
  | O => Ret None
  | S n =>
      let* p := rdA l (Z.of_nat n) in
      if (service p =? svc) && (instance p =? inst) then Ret (Some (Z.of_nat n))
      else find_client n l svc inst
  end.

Definition remove_client (svc inst : Z) : MK Z :=
  do* c := get in
  do* slot := lift (find_client 32 (services c) svc inst) in
  match slot with
  | Some i =>
      do* l := lift (wrA (services c) i no_service) in
      modify (upd_services l) ;>
      let n := u8 (last_active c - 1) in
      modify (upd_last_active n) ;>
      if n <=? 0 then reset_client_handler ;> ret 1
      else update_register_time ;> ret 0
  | None => ret (- ENOENT)
  end.

Definition set_current_host_app (app : Z) : MK Z :=
  if (app =? HOST_USES_MODEMMANAGER) || (app =? HOST_USES_OFONO) then modify (upd_app app) ;> ret 0
  else ret (- EINVAL).

(** The release request for a service and an instance. *)
Definition release_request (tid svc inst : Z) : list Z :=
  [0x01; 0x10; 0x00; 0x00; 0x00; 0x00; 0x00; u8 tid; 0x23; 0x00; 0x05; 0x00; 0x01; 0x02; 0x00;
   svc; inst].
Fixpoint release_instances (n : nat) (fd tid svc inst : Z) : MK unit :=
  match n with
  | O => ret tt
  | S n => emit (SendRelease fd (release_request tid svc inst)) ;>
           release_instances n fd (tid + 1) svc (inst + 1)
  end.
(** Services [n - 1] down to 0, six instances each. *)
Fixpoint release_services (n : nat) (fd tid : Z) : MK unit :=
  match n with
  | O => ret tt
  | S n => release_instances 6 fd tid (Z.of_nat n) 0 ;> release_services n fd (tid + 6)
  end.
Definition force_close_qmi (fd : Z) : MK unit :=
  release_services 256 fd 0 ;>
  emit (Drain fd) ;>
  modify (fun c => forget_services (upd_last_active 0 (upd_regtime 0 c))).

(** The values of [ret] are only logged. *)
Definition track_client_count (pkt : list Z) (from sz fd : Z) : MK Z :=
  do* wanted := lift (is_register_release_request pkt sz) in
  if negb wanted then ret 0
  else
    do* p8 := lift (rd pkt 8) in
    do* p10 := lift (rd pkt 10) in
    let msglength := if 20 <? sz then p10 + 10 else 0 in
    do* c := get in
    (if (p8 =? CLIENT_REGISTER_REQ) && (p10 =? 0x04) && (from =? FROM_HOST) then
       do* p15 := lift (rd pkt 15) in
       if regtime c =? 0 then
         update_register_time ;>
         when (host_side_managing_app c =? 0) (do* _ := set_current_host_app p15 in ret tt)
       else if (15 <=? sz) && (get_current_host_app c =? p15) && (0 <? last_active c) then
         force_close_qmi fd ;>
         modify (fun c => upd_dirty (u8 (dirty_reconnects c + 1)) c)
       else when (MAX_ACTIVE_CLIENTS <? last_active c) (force_close_qmi fd ;> emit ResetUsb)
     else if (16 <=? sz) && (p8 =? CLIENT_REGISTER_REQ) && (p10 =? 0x05) && (from =? FROM_HOST) then
       update_register_time
     else if (p8 =? CLIENT_REGISTER_REQ) && (from =? FROM_DSP) then
       do* svc := lift (rd pkt msglength) in
       do* inst := lift (rd pkt (msglength + 1)) in
       do* _ := add_client svc inst in ret tt
     else if (16 <=? sz) && (p8 =? CLIENT_RELEASE_REQ) && (from =? FROM_DSP) then
       do* p15 := lift (rd pkt 15) in
       do* p16 := lift (rd pkt 16) in
       do* _ := remove_client p15 p16 in ret tt
     else ret tt) ;>
    ret 0.
End Operations.

(** * The table *)

(** The clients [cs] in the first places, none elsewhere. *)
Definition holds (cs : list service_pair) (c : client_tracking) : Prop :=
  services c = cs ++ replicate (33 - length cs) no_service /\ last_active c = zlen cs.
Definition client_ok (p : service_pair) : Prop := service p <> 0.

Lemma add_client_run now svc inst cs c :
  holds cs c -> zlen cs < 33 ->
  exists r c', add_client now svc inst c = Ret (r, c', []) /\
    holds (cs ++ [{| service := svc; instance := inst |}]) c' /\
    r = (if 22 <=? zlen cs then - ENOSPC else 0).
Proof.
  intros [Hs Hl] Hn. pose proof (zlen_nonneg cs). unfold add_client. rewrite bind_get, Hs, Hl.
  assert (33 - length cs = S (32 - length cs))%nat as E by (unfold zlen in *; lia).
  rewrite E. cbn [replicate]. rewrite (bind_lift _ _ _ _ (wrA_middle _ _ _ _)).
  unfold update_register_time. autorewrite with eff. rewrite u8_small by lia.
  eexists _, _. split; [reflexivity|]. split; [split|].
  - cbn [services upd_services upd_last_active upd_regtime]. rewrite <- app_assoc, length_app. cbn [app length].
    by replace (33 - (length cs + 1))%nat with (32 - length cs)%nat by lia.
  - cbn. zl. lia.
  - unfold MAX_ACTIVE_CLIENTS. destruct (Z.leb_spec 22 (zlen cs)); by ifdec.
Qed.

Lemma find_client_from l svc inst i n :
  (i < n)%nat -> l !! i = Some {| service := svc; instance := inst |} ->
  (n <= length l)%nat ->
  (forall j p, (i < j < n)%nat -> l !! j = Some p -> p <> {| service := svc; instance := inst |}) ->
  find_client n l svc inst = Ret (Some (Z.of_nat i)).
Proof.
  intros Hi Hl Hn Hne. induction n as [|n IH]; [lia|]. cbn [find_client].
  destruct (lookup_lt_is_Some_2 l n) as [p Hp]; [lia|].
  assert (rdA l (Z.of_nat n) = Ret p) as -> by (apply rdA_lookup; split; [lia|by rewrite Nat2Z.id]).
  cbn [cbind]. destruct (decide (i = n)) as [->|Hin].
  - rewrite Hl in Hp. injection Hp as <-. cbn. by rewrite !Z.eqb_refl.
  - assert ((service p =? svc) && (instance p =? inst) = false)%bool as ->.
    { apply not_true_is_false. intros [H1 H2]%andb_prop. b2p. apply (Hne n p); [lia|done|].
      destruct p. cbn in *. by subst. }
    apply IH; [lia|lia|]. intros j q Hj. apply Hne. lia.
Qed.

Lemma remove_client_at now cs1 p cs2 c :
  holds (cs1 ++ p :: cs2) c -> zlen (cs1 ++ p :: cs2) <= 32 -> client_ok p -> p ∉ cs2 ->
  cs1 ++ cs2 <> [] ->
  exists c', remove_client now (service p) (instance p) c = Ret (0, c', []) /\
    services c' = cs1 ++ no_service :: cs2 ++ replicate (32 - length (cs1 ++ cs2)) no_service /\
    last_active c' = zlen (cs1 ++ cs2).
Proof.
  intros [Hs Hl] Hn Hok Hnot Hne. unfold remove_client. rewrite bind_get.
  assert (Hlen : (length cs1 + S (length cs2) <= 32)%nat).
  { unfold zlen in Hn. rewrite length_app in Hn. cbn in Hn. lia. }
  assert (find_client 32 (services c) (service p) (instance p) = Ret (Some (Z.of_nat (length cs1)))) as Hf.
  { apply find_client_from; [lia| | |].
    - rewrite Hs, <- app_assoc. rewrite lookup_app_r, Nat.sub_diag by lia. by destruct p.
    - rewrite Hs, !length_app, length_replicate. lia.
    - intros j q Hj Hq ->. assert ({| service := service p; instance := instance p |} = p) as Ep
        by (by destruct p). rewrite Ep in Hq. rewrite Hs, <- app_assoc in Hq.
      rewrite lookup_app_r in Hq by lia. destruct (j - length cs1)%nat as [|k] eqn:Ek; [lia|].
      cbn [app lookup list_lookup] in Hq. apply lookup_app_Some in Hq as [Hq|[_ Hq]].
      + by apply list_elem_of_lookup_2 in Hq.
      + apply lookup_replicate_1 in Hq as [-> _]. by apply Hok. }
  rewrite (bind_lift _ _ _ _ Hf). fold (zlen cs1). rewrite Hs, <- app_assoc. cbn [app].
  rewrite (bind_lift _ _ _ _ (wrA_middle _ _ _ _)). autorewrite with eff. rewrite Hl.
  assert (zlen (cs1 ++ p :: cs2) - 1 = zlen (cs1 ++ cs2)) as -> by (zl; lia).
  assert (0 < zlen (cs1 ++ cs2) < 256).
  { split; [|zl; unfold zlen in *; lia]. destruct (cs1 ++ cs2); [done|]. zl.
    match goal with |- context [zlen ?l] => pose proof (zlen_nonneg l) end. lia. }
  rewrite u8_small by lia. ifdec. unfold update_register_time. autorewrite with eff.
  eexists. split; [reflexivity|]. split; [|done].
  cbn [services upd_services upd_last_active upd_regtime]. rewrite !length_app. cbn [length].
  by replace (33 - (length cs1 + S (length cs2)))%nat with (32 - (length cs1 + length cs2))%nat by lia.
Qed.

Lemma find_client_none n l svc inst :
  (n <= length l)%nat -> Forall (fun p => p <> {| service := svc; instance := inst |}) l ->
  find_client n l svc inst = Ret None.
Proof.
  intros Hn Hl. induction n as [|n IH]; [done|]. cbn [find_client].
  destruct (lookup_lt_is_Some_2 l n) as [p Hp]; [lia|].
  assert (rdA l (Z.of_nat n) = Ret p) as -> by (apply rdA_lookup; split; [lia|by rewrite Nat2Z.id]).
  cbn [cbind]. assert ((service p =? svc) && (instance p =? inst) = false)%bool as ->.
  { apply not_true_is_false. intros [H1 H2]%andb_prop. b2p. eapply Forall_lookup_1 in Hp; [|exact Hl].
    apply Hp. destruct p. cbn in *. by subst. }
  apply IH. lia.
Qed.

(** The table counts clients but places them by the count. When a client
    that is not the last one is released its place is cleared, but the next
    client to register is written over the last one, which is lost: its release
    afterwards is refused. *)
Theorem release_then_register_loses now cs1 p cs2 q new c :
  let all := cs1 ++ p :: cs2 ++ [q] in
  holds all c -> zlen all <= 32 -> Forall client_ok all -> NoDup all -> new <> q ->
  exists c1 r c2,
    remove_client now (service p) (instance p) c = Ret (0, c1, []) /\
    add_client now (service new) (instance new) c1 = Ret (r, c2, []) /\
    services c2 = cs1 ++ no_service :: cs2 ++ new :: replicate (32 - length (cs1 ++ cs2 ++ [q])) no_service /\
    remove_client now (service q) (instance q) c2 = Ret (- ENOENT, c2, []).
Proof.
  intros all Hh Hlen Hok Hnd Hnew. unfold all in *.
  apply list.NoDup_app in Hnd as (_ & Hd1 & Hnd). apply list.NoDup_cons in Hnd as [Hp Hnd].
  apply list.NoDup_app in Hnd as (_ & Hd2 & _).
  apply Forall_app in Hok as [_ Hok]. inversion Hok as [|? ? Hokp Hok2]; subst.
  apply Forall_app in Hok2 as [_ Hokq]. inversion Hokq as [|? ? Hq _]; subst.
  destruct (remove_client_at now cs1 p (cs2 ++ [q]) c) as (c1 & H1 & Hs1 & Hl1); try done.
  { by destruct cs1, cs2. }
  exists c1.
  assert (services c1 = (cs1 ++ no_service :: cs2) ++ q ::
            replicate (32 - length (cs1 ++ cs2 ++ [q])) no_service) as Hs1'.
  { rewrite Hs1, <- !app_assoc. cbn [app]. done. }
  set (rest := replicate _ no_service) in *.
  assert (zlen (cs1 ++ no_service :: cs2) = last_active c1) as Hat by (rewrite Hl1; zl; lia).
  unfold add_client. rewrite bind_get, Hs1'. destruct new as [svc inst]. cbn [service instance].
  rewrite (bind_lift _ _ _ _ (wrA_at _ _ {| service := svc; instance := inst |} _ _ Hat)).
  unfold update_register_time. autorewrite with eff. eexists _, _.
  split; [done|]. split; [reflexivity|].
  assert ((cs1 ++ no_service :: cs2) ++ {| service := svc; instance := inst |} :: rest =
    cs1 ++ no_service :: cs2 ++ {| service := svc; instance := inst |} :: rest) as Ha
    by (by rewrite <- app_assoc).
  split; [exact Ha|]. unfold remove_client. rewrite bind_get.
  cbn [services upd_services upd_last_active upd_regtime]. rewrite Ha.
  rewrite (bind_lift _ (None : option Z)); [done|].
  assert (Hqs : {| service := service q; instance := instance q |} = q) by (by destruct q).
  assert (Hno : no_service <> q) by (intros <-; by apply Hq).
  apply find_client_none.
  - rewrite !length_app. cbn [length]. rewrite length_app. cbn [length]. unfold rest.
    rewrite length_replicate. unfold zlen in Hlen. rewrite !length_app in *. cbn [length] in *.
    rewrite ?length_app in *. cbn [length] in *. lia.
  - rewrite Hqs. apply Forall_app. split; [|constructor; [done|apply Forall_app; split; [|constructor; [done|]]]].
    + apply list.Forall_forall. intros x Hx ->. apply (Hd1 q Hx).
      apply list_elem_of_further, elem_of_app. right. by apply list_elem_of_singleton.
    + apply list.Forall_forall. intros x Hx ->. apply (Hd2 q Hx). by apply list_elem_of_singleton.
    + unfold rest. by apply Forall_replicate.
Qed.
Definition client (s i : Z) : service_pair := {| service := s; instance := i |}.
Definition two_clients : client_tracking :=
  {| services := [client 5 1; client 9 2] ++ replicate 31 no_service; last_active := 2; regtime := 7;
     host_side_managing_app := HOST_USES_MODEMMANAGER; dirty_reconnects := 0 |}.
Lemma release_then_register_loses_witness :
  exists c1 r c2, remove_client 8 5 1 two_clients = Ret (0, c1, []) /\
    add_client 8 3 1 c1 = Ret (r, c2, []) /\
    services c2 = no_service :: client 3 1 :: replicate 31 no_service /\
    remove_client 8 9 2 c2 = Ret (- ENOENT, c2, []).
Proof.
  apply (release_then_register_loses 8 [] (client 5 1) [] (client 9 2) (client 3 1) two_clients).
  - by split.
  - vm_compute. congruence.
  - repeat constructor; vm_compute; congruence.
  - cbn [app]. repeat constructor; intros H; repeat (inversion H as [|? ? ? H']; clear H; rename H' into H).
  - done.
Defined.

(** A 34th registration is written past the table. *)
Lemma registration_overflow now svc inst c :
  zlen (services c) = 33 -> 33 <= last_active c -> add_client now svc inst c = Oob.
Proof.
  intros Hs Hl. unfold add_client. rewrite bind_get. unfold bind at 1, lift at 1.
  by rewrite wrA_out by lia.
Qed.
