(* ===== verification/Proxy.v ===== *)
(** The proxy between the host and the baseband (src/proxy.c): where each QMI
    packet goes, what the modem injects on its own, and one turn of the thread
    that carries them. The components it routes to are parts of its state:
    texts (Sms.v, SmsFilter.v), calls (Call.v) and the host's clients
    (Tracking.v). *)

From stdpp Require Import base list numbers option strings.
From Stdlib Require Import ZArith Lia.
From S2P Require Import Prelude Libc Eff Qmi Sms SmsFilter Call Tracking.

Definition MAX_PACKET_SIZE : Z := 6144.
Definition NAS_GET_SIGNAL_INFO : Z := 0x004f.
Definition CONTROL_CLIENT_REGISTER_REQ : Z := 0x0022.
Definition CONTROL_CLIENT_RELEASE_REQ : Z := 0x0023.

(** * State *)

(** Counters are uint32_t. *)
Record pkt_stats := {
  bypassed : Z;
  empty_pkts : Z;
  discarded : Z;
  allowed : Z;
  failed : Z;
  other : Z
}.

Record proxy_rt := {
  is_usb_suspended : bool;
  is_service_debugging_enabled : bool;
  debug_service_id : Z;
  rmnet_packet_stats : pkt_stats;
  gps_packet_stats : pkt_stats
}.

(** The flags of atfwd.c that ask for a cell broadcast of the debug mode. *)
Record debug_cb := { debug_one : bool; debug_random : bool; debug_stream : bool }.

Record proxy := {
  rt : proxy_rt;
  ph : phone;
  clients : client_tracking;
  debug : debug_cb
}.

Definition upd_rt (f : proxy_rt -> proxy_rt) (s : proxy) : proxy :=
  {| rt := f (rt s); ph := ph s; clients := clients s; debug := debug s |}.
Definition upd_debug (d : debug_cb) (s : proxy) : proxy :=
  {| rt := rt s; ph := ph s; clients := clients s; debug := d |}.
Definition set_suspended (v : bool) (r : proxy_rt) : proxy_rt :=
  {| is_usb_suspended := v; is_service_debugging_enabled := is_service_debugging_enabled r;
     debug_service_id := debug_service_id r; rmnet_packet_stats := rmnet_packet_stats r;
     gps_packet_stats := gps_packet_stats r |}.
Definition set_debugging (en : bool) (id : Z) (r : proxy_rt) : proxy_rt :=
  {| is_usb_suspended := is_usb_suspended r; is_service_debugging_enabled := en;
     debug_service_id := id; rmnet_packet_stats := rmnet_packet_stats r;
     gps_packet_stats := gps_packet_stats r |}.
Definition on_rmnet (f : pkt_stats -> pkt_stats) (r : proxy_rt) : proxy_rt :=
  {| is_usb_suspended := is_usb_suspended r;
     is_service_debugging_enabled := is_service_debugging_enabled r;
     debug_service_id := debug_service_id r; rmnet_packet_stats := f (rmnet_packet_stats r);
     gps_packet_stats := gps_packet_stats r |}.
Definition on_gps (f : pkt_stats -> pkt_stats) (r : proxy_rt) : proxy_rt :=
  {| is_usb_suspended := is_usb_suspended r;
     is_service_debugging_enabled := is_service_debugging_enabled r;
     debug_service_id := debug_service_id r; rmnet_packet_stats := rmnet_packet_stats r;
     gps_packet_stats := f (gps_packet_stats r) |}.

Definition count_bypassed (s : pkt_stats) : pkt_stats :=
  {| bypassed := u32 (bypassed s + 1); empty_pkts := empty_pkts s; discarded := discarded s;
     allowed := allowed s; failed := failed s; other := other s |}.
Definition count_empty (s : pkt_stats) : pkt_stats :=
  {| bypassed := bypassed s; empty_pkts := u32 (empty_pkts s + 1); discarded := discarded s;
     allowed := allowed s; failed := failed s; other := other s |}.
Definition count_discarded (s : pkt_stats) : pkt_stats :=
  {| bypassed := bypassed s; empty_pkts := empty_pkts s; discarded := u32 (discarded s + 1);
     allowed := allowed s; failed := failed s; other := other s |}.
Definition count_allowed (s : pkt_stats) : pkt_stats :=
  {| bypassed := bypassed s; empty_pkts := empty_pkts s; discarded := discarded s;
     allowed := u32 (allowed s + 1); failed := failed s; other := other s |}.
Definition count_failed (s : pkt_stats) : pkt_stats :=
  {| bypassed := bypassed s; empty_pkts := empty_pkts s; discarded := discarded s;
     allowed := allowed s; failed := u32 (failed s + 1); other := other s |}.
Definition count_other (s : pkt_stats) : pkt_stats :=
  {| bypassed := bypassed s; empty_pkts := empty_pkts s; discarded := discarded s;
     allowed := allowed s; failed := failed s; other := u32 (other s + 1) |}.

#[export, refine] Instance proxy_phone : Part phone proxy :=
  {| part := ph;
     with_part p s := {| rt := rt s; ph := p; clients := clients s; debug := debug s |} |}.
Proof. all: abstract by intros; repeat match goal with p : proxy |- _ => destruct p end. Defined.
#[export, refine] Instance proxy_clients : Part client_tracking proxy :=
  {| part := clients;
     with_part c s := {| rt := rt s; ph := ph s; clients := c; debug := debug s |} |}.
Proof. all: abstract by intros; repeat match goal with p : proxy |- _ => destruct p end. Defined.

Inductive proxy_action :=
| Ph (a : phone_action)
| Track (a : track_action)
| Forward (fd : Z) (data : list Z)   (* write(2) of the packet that was read *)
| RefusedWrite (fd size : Z)         (* write(2) of more bytes than a ssize_t counts *)
| DebugCb (fd id : Z).               (* the packets of send_cb_message_to_modemmanager, atfwd.c *)

Definition MX (A : Type) : Type := M proxy proxy_action A.

(** What a turn sees of the outside; the flags of [x_filter] that other
    components own are replaced by theirs. *)
Record proxy_env := {
  x_filter : filter_env;
  x_call : call_env;
  x_heap : list Z;          (* what malloc(3) returns *)
  x_list_all_bypass : bool; (* is_sms_list_all_bypass_enabled *)
  x_now : Z                 (* get_curr_timestamp *)
}.

(** * Flags *)

(** The counters stay. *)
Definition proxy_rt_reset : MX unit :=
  modify (upd_rt (fun r => set_suspended false (set_debugging false 0 r))).
Definition enable_service_debugging (id : Z) : MX unit := modify (upd_rt (set_debugging true id)).
Definition disable_service_debugging : MX unit := modify (upd_rt (set_debugging false 0)).
Definition get_rmnet_stats (s : proxy) : pkt_stats := rmnet_packet_stats (rt s).
Definition get_gps_stats (s : proxy) : pkt_stats := gps_packet_stats (rt s).

(** The index is parsed from the comma on, which no number starts with. *)
Definition find_and_set_current_sms_memory_index (buf : list Z) : MX unit :=
  do* text := lift (cstr buf) in
  match strstr text (zs "+CMTI: " ++ 34 :: zs "ME" ++ [34; 44]) with
  | Some _ =>
      match strstr text [44] with
      | Some pos => zoom Ph (zoom Out (set_pending_messages_in_adsp (u8 (atoi pos))))
      | None => ret tt
      end
  | None => ret tt
  end.

(** What the sysfs entry says is kept and returned; a failed read counts as
    not suspended. *)
Definition get_transceiver_suspend_state (suspended : bool) : MX bool :=
  modify (upd_rt (set_suspended suspended)) ;> ret suspended.

Section Turn.
Variable env : proxy_env.
Variable adspfd usbfd : Z.

(** A filter of the texts, with the flag of the calls. A text it gives to the
    call is spoken. *)
Definition filter_env_of (s : proxy) : filter_env :=
  {| f_sms := f_sms (x_filter env); f_reply := f_reply (x_filter env);
     f_suspended := f_suspended (x_filter env); f_sms_logging := f_sms_logging (x_filter env);
     f_call_simulation := call_simulation_mode (calls (ph s));
     f_heap_msg := f_heap_msg (x_filter env); f_heap_160 := f_heap_160 (x_filter env) |}.
Fixpoint perform (l : list action) : MP unit :=
  match l with
  | [] => ret tt
  | AddVoiceMessage text :: l => add_voice_message_to_queue text (zlen text) ;> perform l
  | a :: l => emit (Out a) ;> perform l
  end.
Definition texts_do {A} (m : filter_env -> MS A) : MX A :=
  do* s := get in
  zoom Ph (fun p =>
    let* '(a, t, l) := m (filter_env_of s) (texts p) in
    (perform l ;> ret a) (with_part t p)).

Definition is_inject_needed : MX bool :=
  do* s := get in
  let t := texts (ph s) in
  ret ((notif_pending t && (source t =? u8 MSG_INTERNAL))
    || (notif_pending t && (source t =? u8 MSG_EXTERNAL))
    || is_call_pending (calls (ph s))
    || call_simulation_mode (calls (ph s))
    || (debug_one (debug s) || debug_random (debug s) || debug_stream (debug s))
    || stuck_message_data_pending t).

Definition send_cb_message_to_modemmanager (id : Z) : MX unit :=
  modify (upd_debug {| debug_one := false; debug_random := false; debug_stream := false |}) ;>
  emit (DebugCb usbfd id).

Definition process_simulated_packet : MX Z :=
  do* s := get in
  let t := texts (ph s) in
  if notif_pending t && (source t =? u8 MSG_INTERNAL) then
    texts_do (fun e => process_message_queue (f_sms e) usbfd) ;> ret 0
  else if notif_pending t && (source t =? u8 MSG_EXTERNAL) then
    texts_do (fun e => do_inject_notification usbfd ;>
                       set_pending_notification_source MSG_NONE ;>
                       set_notif_pending false) ;> ret 0
  else if stuck_message_data_pending t then
    texts_do (fun e => retrieve_and_delete e adspfd) ;> ret 0
  else if is_call_pending (calls (ph s)) then
    zoom Ph (set_pending_call_flag false ;> start_simulated_call usbfd) ;> ret 0
  else
    when (call_simulation_mode (calls (ph s))) (zoom Ph (notify_simulated_call usbfd)) ;>
    do* s := get in
    when (debug_one (debug s)) (send_cb_message_to_modemmanager 0) ;>
    do* s := get in
    when (debug_random (debug s)) (send_cb_message_to_modemmanager (-1)) ;>
    do* s := get in
    when (debug_stream (debug s)) (send_cb_message_to_modemmanager (-2)) ;>
    ret 0.

Definition process_wms_packet (bytes : list Z) (len : Z) : MX Z :=
  do* s := get in
  let t := texts (ph s) in
  if notif_pending t && (source t =? u8 MSG_INTERNAL) then
    texts_do (fun e => notify_wms_event (f_sms e) bytes len usbfd) ;> ret 1
  else ret 0.

(** The chain of filters of the text service: what follows
    [check_wms_message], and all of it. *)
Definition other_filters (mine : Z) (source : Z) (pkt : list Z) (pkt_size : Z) : MX Z :=
  if negb (mine =? 0) then ret PACKET_BYPASS
  else
    do* woken := texts_do (fun e => check_wms_indication_message e pkt pkt_size) in
    if negb (woken =? 0) then ret PACKET_FORCED_PT
    else
      do* cb := texts_do (fun e => check_cb_message e pkt pkt_size) in
      if negb (cb =? 0) then ret PACKET_FORCED_PT
      else
        do* s := get in
        do* listed :=
          if (get_current_host_app (clients s) =? HOST_USES_MODEMMANAGER) && x_list_all_bypass env
          then texts_do (fun e => check_wms_list_all_messages usbfd source pkt pkt_size)
          else ret 0 in
        if negb (listed =? 0) then ret PACKET_BYPASS
        else if source =? FROM_HOST then
          do* ours := process_wms_packet pkt pkt_size in
          ret (if negb (ours =? 0) then PACKET_BYPASS else PACKET_FORCED_PT)
        else ret PACKET_FORCED_PT.
Definition process_texts (source : Z) (pkt : list Z) (pkt_size : Z) : MX Z :=
  do* mine := texts_do (fun e => check_wms_message e usbfd source pkt pkt_size) in
  other_filters mine source pkt pkt_size.

Definition process_packet (source : Z) (pkt : list Z) (pkt_size : Z) : MX Z :=
  if pkt_size =? 0 then ret PACKET_EMPTY
  else if pkt_size <? SZ_QMUX + SZ_CTL then ret PACKET_EMPTY
  else
    do* svc := lift (get_qmux_service_id pkt) in
    if svc =? 0 then
      do* id := lift (get_control_message_id pkt) in
      when ((id =? CONTROL_CLIENT_REGISTER_REQ) || (id =? CONTROL_CLIENT_RELEASE_REQ))
        (do* _ := zoom Track (track_client_count (x_now env) pkt source pkt_size adspfd) in ret tt) ;>
      ret PACKET_PASS_TRHU
    else if svc =? 3 then
      do* s := get in
      let talking := call_simulation_mode (calls (ph s)) in
      do* id := lift (if talking then get_qmi_message_id pkt else Ret 0) in
      ret (if talking && (id =? NAS_GET_SIGNAL_INFO) then PACKET_BYPASS else PACKET_PASS_TRHU)
    else if svc =? 5 then process_texts source pkt pkt_size
    else if svc =? 9 then
      zoom Ph (call_service_handler (x_call env) adspfd usbfd (x_heap env) source pkt pkt_size)
    else if svc =? 16 then
      do* _ := lift (get_qmi_message_id pkt) in
      modify (upd_rt (on_gps count_other)) ;> ret PACKET_PASS_TRHU
    else ret PACKET_PASS_TRHU.

(** What select(2) and read(2) find: the baseband first, the host only when
    the baseband has nothing. A read can fail, with -1. *)
Inductive arrival :=
| FromDsp (data : list Z)
| FromHost (data : list Z)
| ReadFails (source : Z)
| Quiet.

(** The bytes a read gave, or none when it failed; the buffer of zeros they lie in;
    and [bytes_read], a size_t, in which -1 is the largest size there is. *)
Definition in_buffer (data : list Z) : list Z :=
  data ++ replicate (Z.to_nat (MAX_PACKET_SIZE - zlen data)) 0.
Definition read_buffer (data : option (list Z)) : list Z := in_buffer (default [] data).
Definition bytes_read (data : option (list Z)) : Z :=
  match data with Some data => zlen data | None => u32 (-1) end.

(** The write to the other side; its length is a size_t, so only 0 counts as
    a failure. After a failed read it is asked for 4294967295 bytes, which the
    kernel refuses with EINVAL: a size_t that is not 0 again. *)
Definition forward (source : Z) (data : option (list Z)) : MX unit :=
  let targetfd := u8 (if source =? FROM_DSP then usbfd else adspfd) in
  modify (upd_rt (on_rmnet count_allowed)) ;>
  match data with
  | Some data =>
      emit (Forward targetfd data) ;>
      when (e_write (f_sms (x_filter env)) targetfd data =? 0) (modify (upd_rt (on_rmnet count_failed)))
  | None => emit (RefusedWrite targetfd (bytes_read None))
  end.

(** What becomes of a packet. *)
Definition dispose (source : Z) (data : option (list Z)) (act : Z) : MX unit :=
  if act =? PACKET_EMPTY then modify (upd_rt (on_rmnet count_empty))
  else if act =? PACKET_PASS_TRHU then
    do* suspended := get_transceiver_suspend_state (f_suspended (x_filter env)) in
    if negb suspended || (source =? FROM_HOST) then forward source data
    else modify (upd_rt (on_rmnet count_discarded))
  else if act =? PACKET_FORCED_PT then forward source data
  else if act =? PACKET_BYPASS then modify (upd_rt (on_rmnet count_bypassed))
  else ret tt.
Definition carry (source : Z) (data : option (list Z)) : MX unit :=
  do* act := process_packet source (read_buffer data) (bytes_read data) in
  dispose source data act.

Definition rmnet_turn (arrived : arrival) : MX unit :=
  match arrived with
  | FromDsp data => carry FROM_DSP (Some data)
  | FromHost data => carry FROM_HOST (Some data)
  | ReadFails source => carry source None
  | Quiet =>
      do* needed := is_inject_needed in
      when needed (do* _ := process_simulated_packet in ret tt)
  end.
End Turn.

(** * Forwarding *)

Definition is_forward (a : proxy_action) : bool := match a with Forward _ _ => true | _ => false end.
Definition not_forward (a : proxy_action) : Prop := is_forward a = false.
Definition forwards (t : list proxy_action) : list proxy_action := filter (fun a => is_forward a = true) t.

Lemma forwards_none t : Forall not_forward t -> forwards t = [].
Proof.
  induction 1 as [|a t Ha _ IH]; [done|]. unfold forwards. rewrite filter_cons_False; [exact IH|].
  intros E. unfold not_forward in Ha. congruence.
Qed.
Lemma forwards_app t u : forwards (t ++ u) = forwards t ++ forwards u.
Proof. apply filter_app. Qed.

Lemma silent_ph {A} (m : MP A) : emits not_forward (zoom Ph m : MX A).
Proof. by apply emits_zoom. Qed.
Lemma silent_track {A} (m : MK A) : emits not_forward (zoom Track m : MX A).
Proof. by apply emits_zoom. Qed.
#[export] Hint Resolve silent_ph silent_track : oqti.
Lemma silent_texts env {A} (m : filter_env -> MS A) : emits not_forward (texts_do env m).
Proof. unfold texts_do. emits_auto. Qed.
#[export] Hint Resolve silent_texts : oqti.
Lemma silent_cb usbfd id : emits not_forward (send_cb_message_to_modemmanager usbfd id).
Proof. unfold send_cb_message_to_modemmanager. emits_auto. Qed.
#[export] Hint Resolve silent_cb : oqti.
Lemma silent_wms env usbfd bytes len : emits not_forward (process_wms_packet env usbfd bytes len).
Proof. unfold process_wms_packet. emits_auto. Qed.
#[export] Hint Resolve silent_wms : oqti.
Lemma silent_packet env adspfd usbfd source pkt n :
  emits not_forward (process_packet env adspfd usbfd source pkt n).
Proof. unfold process_packet, process_texts, other_filters. emits_auto. Qed.
Lemma silent_simulated env adspfd usbfd : emits not_forward (process_simulated_packet env adspfd usbfd).
Proof. unfold process_simulated_packet. emits_auto. Qed.

Lemma forward_actions env adspfd usbfd source data s a s' t :
  forward env adspfd usbfd source (Some data) s = Ret (a, s', t) ->
  t = [Forward (u8 (if source =? FROM_DSP then usbfd else adspfd)) data].
Proof.
  unfold forward. autorewrite with eff. set (b := when _ _). unfold after.
  assert (exists s2, b (upd_rt (on_rmnet count_allowed) s) = Ret (tt, s2, [])) as [s2 Hb]
    by (unfold b; destruct (_ =? 0); by eexists).
  rewrite Hb. by intros [= <- <- <-].
Qed.

(** After a failed read the buffer of zeros is taken for a control message that asks
    for nothing. *)
Lemma failed_packet env adspfd usbfd source s :
  process_packet env adspfd usbfd source (read_buffer None) (bytes_read None) s = Ret (PACKET_PASS_TRHU, s, []).
Proof. reflexivity. Qed.

(** C5: whatever arrives and whatever the modem does about it, when the turn ends
    the packet has been written to the other side at most once, byte for byte; a
    turn without a packet forwards nothing. A read that fails forwards no byte
    either: the code takes -1 for a length of 4294967295 and asks for a write of
    that many, which is refused, or leaves it when the baseband's side failed and
    the host sleeps. *)
Theorem packets_forwarded_verbatim env adspfd usbfd arrived s s' t :
  rmnet_turn env adspfd usbfd arrived s = Ret (tt, s', t) ->
  match arrived with
  | FromDsp data => forwards t = [] \/ forwards t = [Forward (u8 usbfd) data]
  | FromHost data => forwards t = [] \/ forwards t = [Forward (u8 adspfd) data]
  | ReadFails source =>
      t = if f_suspended (x_filter env) && negb (source =? FROM_HOST) then []
          else [RefusedWrite (u8 (if source =? FROM_DSP then usbfd else adspfd)) 4294967295]
  | Quiet => forwards t = []
  end.
Proof.
  assert (Hcarry : forall source data,
    carry env adspfd usbfd source (Some data) s = Ret (tt, s', t) ->
    forwards t = [] \/ forwards t = [Forward (u8 (if source =? FROM_DSP then usbfd else adspfd)) data]).
  { intros source data (act & s1 & t1 & t2 & H1 & H2 & ->)%bind_inv.
    apply silent_packet in H1. rewrite forwards_app, (forwards_none _ H1). cbn [app]. unfold dispose in H2.
    destruct (act =? PACKET_EMPTY); [injection H2 as <- <-; by left|].
    destruct (act =? PACKET_PASS_TRHU).
    { unfold get_transceiver_suspend_state in H2. revert H2. autorewrite with eff.
      csplit; [|intros [= <- <-]; by left]. intros ->%forward_actions. by right. }
    destruct (act =? PACKET_FORCED_PT); [apply forward_actions in H2 as ->; by right|].
    destruct (act =? PACKET_BYPASS); injection H2 as <- <-; by left. }
  intros H. destruct arrived as [data|data|source|]; [by apply Hcarry in H..| |].
  { cbn [rmnet_turn] in H. unfold carry in H. rewrite (bind_step _ _ _ _ _ (failed_packet _ _ _ _ _)) in H.
    unfold dispose, get_transceiver_suspend_state, forward in H. revert H. cbn [Z.eqb PACKET_PASS_TRHU PACKET_EMPTY].
    autorewrite with eff. destruct (f_suspended _), (source =? FROM_HOST); cbn; by intros [= _ <-]. }
  cbn [rmnet_turn] in H. apply forwards_none. revert H.
  assert (emits not_forward (do* needed := is_inject_needed in
    when needed (do* _ := process_simulated_packet env adspfd usbfd in ret tt))) as He.
  { unfold is_inject_needed. emits_auto. apply silent_simulated. }
  apply He.
Qed.

(** * Services the proxy does not look into *)

(** The packet's service is none of those handled, or it is the network
    service outside an internal call. *)
Definition passed_service (svc : Z) (s : proxy) : Prop :=
  svc <> 0 /\ svc <> 5 /\ svc <> 9 /\ svc <> 16 /\
  (svc = 3 -> call_simulation_mode (calls (ph s)) = false).

(** A packet of such a service reaches the other side unchanged, with no
    effect on the texts, the calls, the clients or the debug flags, and no
    other action; from the baseband only while the USB side is awake, and
    counted as discarded otherwise. *)
Theorem passed_service_transparent env adspfd usbfd source data svc s :
  source = FROM_DSP \/ source = FROM_HOST -> 12 <= zlen data <= MAX_PACKET_SIZE ->
  rd data 4 = Ret svc -> passed_service svc s ->
  exists s', carry env adspfd usbfd source (Some data) s =
      Ret (tt, s', if f_suspended (x_filter env) && (source =? FROM_DSP) then []
                   else [Forward (u8 (if source =? FROM_DSP then usbfd else adspfd)) data]) /\
    ph s' = ph s /\ clients s' = clients s /\ debug s' = debug s /\
    (f_suspended (x_filter env) && (source =? FROM_DSP) = true ->
     get_rmnet_stats s' = count_discarded (get_rmnet_stats s)).
Proof.
  intros Hsrc Hlen Hsvc (H0 & H5 & H9 & H16 & H3). unfold carry, dispose.
  set (buf := in_buffer data).
  assert (rd buf 4 = Ret svc) as Hb by (unfold buf, in_buffer; by rewrite rdA_app_l by lia).
  assert (process_packet env adspfd usbfd source buf (zlen data) s = Ret (PACKET_PASS_TRHU, s, [])) as Hp.
  { unfold process_packet, get_qmux_service_id, SZ_QMUX, SZ_CTL. ifdec.
    rewrite (bind_lift _ _ _ _ Hb). ifdec. destruct (Z.eqb_spec svc 3) as [->|]; [|done].
    rewrite bind_get, (H3 eq_refl). unfold bind, lift. by cbn [cbind]. }
  rewrite (bind_step _ _ _ _ _ Hp). change (PACKET_PASS_TRHU =? PACKET_EMPTY) with false.
  change (PACKET_PASS_TRHU =? PACKET_PASS_TRHU) with true. cbn match.
  unfold get_transceiver_suspend_state. autorewrite with eff.
  assert (Hfwd : forall s, exists s', forward env adspfd usbfd source (Some data) s =
    Ret (tt, s', [Forward (u8 (if source =? FROM_DSP then usbfd else adspfd)) data]) /\
    ph s' = ph s /\ clients s' = clients s /\ debug s' = debug s).
  { intros s1. unfold forward. autorewrite with eff.
    match goal with |- context [when (?c =? 0) _] => destruct (c =? 0) end;
      eexists; (split; [reflexivity|]); by destruct s1. }
  destruct (f_suspended (x_filter env)).
  - destruct Hsrc as [-> | ->]; cbn [negb orb andb].
    + change (FROM_DSP =? FROM_HOST) with false. change (FROM_DSP =? FROM_DSP) with true. cbn match.
      eexists. split; [reflexivity|]. by destruct s as [[] ? ? ?].
    + change (FROM_HOST =? FROM_HOST) with true. change (FROM_HOST =? FROM_DSP) with false. cbn match.
      destruct (Hfwd (upd_rt (set_suspended true) s)) as (s' & H & Hs). exists s'.
      split; [exact H|]. destruct Hs as (? & ? & ?). by split_and!.
  - cbn [negb orb andb]. destruct (Hfwd (upd_rt (set_suspended false) s)) as (s' & H & Hs). exists s'.
    split; [exact H|]. destruct Hs as (? & ? & ?). by split_and!.
Qed.
Definition fresh_stats : pkt_stats :=
  {| bypassed := 0; empty_pkts := 0; discarded := 0; allowed := 0; failed := 0; other := 0 |}.
Definition sample_proxy (p : phone) : proxy :=
  {| rt := {| is_usb_suspended := false; is_service_debugging_enabled := false; debug_service_id := 0;
              rmnet_packet_stats := fresh_stats; gps_packet_stats := fresh_stats |};
     ph := p; clients := two_clients;
     debug := {| debug_one := false; debug_random := false; debug_stream := false |} |}.
Definition proxy_env_at (sec : Z) : proxy_env :=
  {| x_filter := {| f_sms := env_at sec; f_reply := fun _ => None; f_suspended := false;
                    f_sms_logging := false; f_call_simulation := false;
                    f_heap_msg := f_heap_msg sample_filter_env; f_heap_160 := replicate 160 9 |};
     x_call := sample_call_env; x_heap := replicate 20 0; x_list_all_bypass := true; x_now := 1 |}.
(** A request to the device management service. *)
Definition dms_request : list Z := [1; 12; 0; 0; 2; 1; 0; 1; 0; 0x25; 0; 0; 0].

Lemma passed_service_transparent_witness :
  exists s', carry (proxy_env_at 10) 6 5 FROM_HOST (Some dms_request) (sample_proxy idle_phone) =
      Ret (tt, s', [Forward (u8 6) dms_request]) /\
    ph s' = idle_phone /\ clients s' = two_clients /\
    debug s' = {| debug_one := false; debug_random := false; debug_stream := false |} /\
    (f_suspended (x_filter (proxy_env_at 10)) && (FROM_HOST =? FROM_DSP) = true ->
     get_rmnet_stats s' = count_discarded fresh_stats).
Proof.
  apply (passed_service_transparent (proxy_env_at 10) 6 5 FROM_HOST dms_request 2 (sample_proxy idle_phone)).
  - by right.
  - vm_compute. split; congruence.
  - reflexivity.
  - by split_and!.
Defined.
Lemma packets_forwarded_verbatim_witness :
  exists s', rmnet_turn (proxy_env_at 10) 6 5 (FromHost dms_request) (sample_proxy idle_phone) =
    Ret (tt, s', [Forward 6 dms_request]) /\
    (forwards [Forward 6 dms_request] = [] \/ forwards [Forward 6 dms_request] = [Forward (u8 6) dms_request]).
Proof.
  eexists. split; [vm_compute; reflexivity|].
  eapply (packets_forwarded_verbatim (proxy_env_at 10) 6 5 (FromHost dms_request) (sample_proxy idle_phone)).
  vm_compute. reflexivity.
Defined.

(** * A pending call rings *)

Definition not_voice (a : action) : Prop := match a with AddVoiceMessage _ => False | _ => True end.

Lemma perform_plain l p : Forall not_voice l -> perform l p = Ret (tt, p, map Out l).
Proof.
  induction 1 as [|a l Ha _ IH]; [done|]. destruct a; try done; cbn [perform map];
    rewrite bind_emit, IH; done.
Qed.

Lemma emits_get_msg i : emits not_voice (get_msg i).
Proof. unfold get_msg. emits_auto. Qed.
Lemma emits_on_msg i f : emits not_voice (on_msg i f).
Proof. unfold on_msg. emits_auto. Qed.
#[export] Hint Resolve emits_get_msg emits_on_msg : oqti.

Lemma emits_state env fd i : emits not_voice (handle_message_state env fd i).
Proof.
  unfold handle_message_state, generate_message_notification, build_and_send_message,
    build_and_send_raw_message, process_message_deletion. emits_auto.
Qed.
#[export] Hint Resolve emits_state : oqti.
Lemma emits_queue_loop env n i fd : emits not_voice (queue_loop env n i fd).
Proof. revert i; induction n as [|n IH]; intros i; cbn [queue_loop]; emits_auto. Qed.
Lemma emits_wipe_loop n i : emits not_voice (wipe_loop n i).
Proof. revert i; induction n as [|n IH]; intros i; cbn [wipe_loop]; emits_auto. Qed.
#[export] Hint Resolve emits_queue_loop emits_wipe_loop : oqti.
Lemma emits_queue env fd : emits not_voice (process_message_queue env fd).
Proof.
  unfold process_message_queue, wipe_queue, set_notif_pending, set_pending_notification_source. emits_auto.
Qed.

(** The store waits to notify texts of its own. *)
Definition waiting (r : sms_runtime) : Prop :=
  notif_pending r = true /\ source r = u8 MSG_INTERNAL /\ stuck_message_data_pending r = false.

Lemma keeps_waiting_on_msg i f : keeps waiting (on_msg i f).
Proof. by intros r [] s' t Hw (m & Hm & -> & ->)%on_msg_inv. Qed.
Lemma keeps_waiting_modify f :
  (forall r, notif_pending (f r) = notif_pending r /\ source (f r) = source r /\
             stuck_message_data_pending (f r) = stuck_message_data_pending r) ->
  keeps waiting (@modify sms_runtime action f).
Proof. intros Hf. apply keeps_modify. intros r (? & ? & ?). destruct (Hf r) as (? & ? & ?).
  split_and!; congruence. Qed.
#[local] Hint Resolve keeps_waiting_on_msg : oqti.
#[local] Hint Extern 1 (keeps waiting (modify _)) => apply keeps_waiting_modify; by intros [] : oqti.
#[local] Hint Extern 1 (keeps waiting (get_msg _)) => unfold get_msg; keeps_auto : oqti.
Lemma keeps_waiting_state env fd i : keeps waiting (handle_message_state env fd i).
Proof.
  unfold handle_message_state, generate_message_notification, build_and_send_message,
    build_and_send_raw_message, process_message_deletion. keeps_auto.
Qed.
#[local] Hint Resolve keeps_waiting_state : oqti.
Lemma keeps_waiting_loop env n i fd : keeps waiting (queue_loop env n i fd).
Proof. revert i; induction n as [|n IH]; intros i; cbn [queue_loop]; keeps_auto. Qed.

Lemma keeps_stuck_wipe n i : keeps (fun r => stuck_message_data_pending r = false) (wipe_loop n i).
Proof.
  revert i; induction n as [|n IH]; intros i; cbn [wipe_loop]; [keeps_auto|].
  apply keeps_bind; [|intros _; apply keeps_bind; [|intros _; apply IH]];
    by intros r [] s' t Hw (m & Hm & -> & ->)%on_msg_inv.
Qed.

Lemma waiting_after env fd r r' t :
  waiting r -> process_message_queue env fd r = Ret (tt, r', t) ->
  queue_pos r' = -1 /\ stuck_message_data_pending r' = false \/ waiting r'.
Proof.
  intros Hw H. unfold process_message_queue in H. rewrite bind_get in H.
  destruct (lock_queue r); [injection H as <- <-; by right|].
  destruct (queue_pos r <? 0); [injection H as <- <-; by right|].
  apply bind_inv in H as (fin & r1 & t1 & t2 & H1 & H2 & ->).
  apply keeps_waiting_loop in H1; [|done].
  destruct fin; [|injection H2 as <- <-; by right]. left. cbn [when] in H2.
  destruct H1 as (_ & _ & Hst).
  unfold wipe_queue in H2. rewrite bind_get in H2.
  apply bind_inv in H2 as ([] & r2 & t3 & t4 & Hw2 & H2 & _).
  assert (stuck_message_data_pending r2 = false) as Hst2 by (by eapply keeps_stuck_wipe).
  unfold set_notif_pending, set_pending_notification_source in H2. revert H2. autorewrite with eff.
  intros [= <- <-]. by split.
Qed.

(** Turns without a packet, with the environment of each. *)
Fixpoint idle_turns (envs : list proxy_env) (adspfd usbfd : Z) : MX unit :=
  match envs with
  | [] => ret tt
  | env :: envs => rmnet_turn env adspfd usbfd Quiet ;> idle_turns envs adspfd usbfd
  end.

Lemma turn_with_texts env adspfd usbfd s r' t :
  waiting (texts (ph s)) ->
  process_message_queue (f_sms (x_filter env)) usbfd (texts (ph s)) = Ret (tt, r', t) ->
  rmnet_turn env adspfd usbfd Quiet s =
  Ret (tt, with_part (with_part r' (ph s)) s, map Ph (map Out t)).
Proof.
  intros (Hn & Hs & _) Hrun. cbn [rmnet_turn]. unfold is_inject_needed. autorewrite with eff.
  rewrite Hn, Hs, Z.eqb_refl. cbn [andb orb when]. unfold process_simulated_packet. autorewrite with eff.
  rewrite Hn, Hs, Z.eqb_refl. cbn [andb].
  assert (texts_do env (fun e => process_message_queue (f_sms e) usbfd) s =
    Ret (tt, with_part (with_part r' (ph s)) s, map Ph (map Out t))) as Ht.
  { unfold texts_do. rewrite bind_get. unfold zoom. cbn [part proxy_phone filter_env_of f_sms].
    rewrite Hrun. cbn [cbind]. apply emits_queue in Hrun.
    rewrite (bind_after _ _ _ _ _ _ (perform_plain _ _ Hrun)). unfold ret. rewrite after_Ret.
    cbn [cbind]. by rewrite app_nil_r. }
  autorewrite with eff.
  rewrite (bind_after _ _ _ _ _ _ Ht). autorewrite with eff. unfold ret. by rewrite after_Ret, app_nil_r.
Qed.

(** The calls with the modem's own call ringing. *)
Definition ringing_call (r : call_rt) : call_rt :=
  set_simulated_call_state CALL_STATE_RINGING (set_sim_call_direction CALL_DIRECTION_INCOMING
    (set_call_transaction_id 1 (set_call_simulation_mode' true (set_is_call_pending false r)))).

Lemma call_turn env adspfd usbfd s :
  notif_pending (texts (ph s)) = false -> stuck_message_data_pending (texts (ph s)) = false ->
  is_call_pending (calls (ph s)) = true ->
  rmnet_turn env adspfd usbfd Quiet s =
  Ret (tt, with_part (on_calls ringing_call (ph s)) s,
       [Ph (Out PulseRingIn);
        Ph (Out (Write usbfd (call_status_event 1 CALL_DIRECTION_INCOMING CALL_STATE_RINGING)))]).
Proof.
  intros Hn Hst Hp. cbn [rmnet_turn]. unfold is_inject_needed. autorewrite with eff.
  rewrite Hn, Hp. cbn [andb orb when]. unfold process_simulated_packet. autorewrite with eff.
  rewrite Hn, Hst, Hp. cbn [andb]. by destruct s as [? [[] ?] ? ?].
Qed.

(** C14: a call the modem wants to make (a scheduled one, or one a command asked
    for) waits for the texts queued before it, and then rings. If no packet comes
    in, turns are at least the half second of select(2)'s timeout apart, and the host
    asks for none of the texts, each of them new or notified, then after at most 48
    turns per queued text, and one to clear up, the texts are given up and the next
    turn pulses RING IN, sends RINGING to the host, and clears the request. *)
Theorem pending_call_rings envs adspfd usbfd t0 s :
  let sms_envs := map (fun e => f_sms (x_filter e)) envs in
  waiting (texts (ph s)) -> quiet t0 (texts (ph s)) -> paced t0 sms_envs ->
  is_call_pending (calls (ph s)) = true -> 48 * (queue_pos (texts (ph s)) + 1) + 1 < zlen envs ->
  exists k s1 t1 s2,
    idle_turns (take k envs) adspfd usbfd s = Ret (tt, s1, t1) /\ calls (ph s1) = calls (ph s) /\
    idle_turns (take (S k) envs) adspfd usbfd s = Ret (tt, s2, t1 ++
      [Ph (Out PulseRingIn);
       Ph (Out (Write usbfd (call_status_event 1 CALL_DIRECTION_INCOMING CALL_STATE_RINGING)))]) /\
    calls (ph s2) = ringing_call (calls (ph s)) /\ (k < length envs)%nat.
Proof.
  intros sms_envs Hw Hq Hsp Hp Hn. subst sms_envs.
  pose proof (pace_queue_bounds t0 _ Hq) as Hb.
  assert (Hlt : pace_queue t0 (texts (ph s)) + 1 < zlen envs) by lia. clear Hb Hn.
  revert t0 s Hw Hq Hsp Hp Hlt; induction envs as [|env envs IH]; intros t0 s Hw Hq Hsp Hp Hlt.
  { pose proof (pace_queue_bounds t0 _ Hq). zl. lia. }
  destruct Hsp as [Ht Hsp].
  destruct (paced_poll _ usbfd t0 _ Hq Ht) as (r' & tr & E & Hcase).
  pose proof (turn_with_texts env adspfd usbfd s r' tr Hw E) as Hturn.
  set (s' := with_part _ s) in *.
  destruct (waiting_after _ _ _ _ _ Hw E) as [[Hpos Hst]|Hw'].
  - destruct Hcase as [[_ Hn]|((_ & Hpos' & _) & _)]; [|lia].
    destruct envs as [|env2 envs].
    { pose proof (pace_queue_bounds t0 _ Hq). zl. lia. }
    pose proof (call_turn env2 adspfd usbfd s' Hn Hst Hp) as Hcall.
    exists 1%nat, s', (map Ph (map Out tr)), (with_part (on_calls ringing_call (ph s')) s').
    split_and!; try done; [| |cbn; lia].
    + cbn [take idle_turns]. rewrite (bind_after _ _ _ _ _ _ Hturn). unfold ret.
      by rewrite after_Ret, app_nil_r.
    + cbn [take idle_turns]. rewrite (bind_after _ _ _ _ _ _ Hturn), (bind_after _ _ _ _ _ _ Hcall).
      destruct envs; cbn [take idle_turns]; unfold ret; by rewrite after_Ret, ?after_after, after_Ret.
  - destruct Hcase as [[_ Hn]|(Hq' & _ & Hweight)]; [by destruct Hw' as (? & _); congruence|].
    destruct (IH (ts_ns (e_now (f_sms (x_filter env)))) s') as (k & s1 & t1 & s2 & H1 & Hc1 & H2 & Hc2 & Hk);
      try done; [cbn [ph s' with_part proxy_phone texts texts_part]; zl; lia|].
    exists (S k), s1, (map Ph (map Out tr) ++ t1), s2. split_and!; try done; [| |cbn; lia].
    + cbn [take idle_turns]. by rewrite (bind_after _ _ _ _ _ _ Hturn), H1, after_Ret.
    + cbn [take idle_turns] in *. by rewrite (bind_after _ _ _ _ _ _ Hturn), H2, after_Ret, app_assoc.
Qed.
Definition calling_phone : phone :=
  {| calls := set_is_call_pending true idle_calls; texts := one_queued |}.
Lemma pending_call_rings_witness :
  exists k s1 t1 s2,
    idle_turns (take k (map proxy_env_at (seqZ 10 51))) 6 5
      (sample_proxy calling_phone) = Ret (tt, s1, t1) /\
    calls (ph s1) = calls calling_phone /\
    idle_turns (take (S k) (map proxy_env_at (seqZ 10 51))) 6 5
      (sample_proxy calling_phone) = Ret (tt, s2, t1 ++
      [Ph (Out PulseRingIn);
       Ph (Out (Write 5 (call_status_event 1 CALL_DIRECTION_INCOMING CALL_STATE_RINGING)))]) /\
    calls (ph s2) = ringing_call (calls calling_phone) /\ (k < 51)%nat.
Proof.
  apply (pending_call_rings (map proxy_env_at (seqZ 10 51)) 6 5 0
    (sample_proxy calling_phone)).
  - by split_and!.
  - split; [reflexivity|]. split; [vm_compute; split; congruence|]. split; [reflexivity|].
    intros i m Hi Hm. change (queue_pos _) with 0 in Hi.
    assert (i = 0) as -> by lia. vm_compute in Hm. injection Hm as <-.
    split; [reflexivity|]. split; [left; reflexivity|]. vm_compute. repeat split; congruence.
  - vm_compute. repeat split; congruence.
  - reflexivity.
  - vm_compute. congruence.
Defined.
