(* ===== verification/Gps.v ===== *)
(** The thread that carries the GPS port between the host and the baseband
    (gps_proxy, src/proxy.c): the two devices it opens and closes as they come
    and go, one turn of its loop, and what a run of turns delivers. *)

From stdpp Require Import base list numbers option strings.
From Stdlib Require Import ZArith Lia.
From S2P Require Import Prelude Libc Eff Qmi Sms SmsFilter Call Tracking Proxy.

(** * State *)

(** struct node_pair, openqti.h *)
Record node_pair := { node1 : Z; node2 : Z; allow_exit : bool }.

(** The thread's nodes, and the state it shares with the proxy. *)
Record gps := { nodes : node_pair; shared : proxy }.

Definition on_nodes (f : node_pair -> node_pair) (s : gps) : gps :=
  {| nodes := f (nodes s); shared := shared s |}.
Definition set_node1 (fd : Z) (n : node_pair) : node_pair :=
  {| node1 := fd; node2 := node2 n; allow_exit := allow_exit n |}.
Definition set_node2 (fd : Z) (n : node_pair) : node_pair :=
  {| node1 := node1 n; node2 := fd; allow_exit := allow_exit n |}.
Definition set_allow_exit (v : bool) (n : node_pair) : node_pair :=
  {| node1 := node1 n; node2 := node2 n; allow_exit := v |}.

#[export, refine] Instance gps_shared : Part proxy gps :=
  {| part := shared; with_part p s := {| nodes := nodes s; shared := p |} |}.
Proof. all: abstract by intros; repeat match goal with g : gps |- _ => destruct g end. Defined.

Inductive gps_action :=
| Px (a : proxy_action)
| GpsWrite (fd : Z) (data : list Z)
| GpsClose (fd : Z).

Definition MG (A : Type) : Type := M gps gps_action A.

(** What a turn finds outside: what open(2) of SMD_GPS and of USB_GPS return,
    the suspend state when the USB port may be opened and after select(2), the
    ports select(2) finds readable, what read(2) of each returns (nothing for
    an end of file or an error), and what write(2) returns. *)
Record gps_env := {
  g_open_smd : Z;
  g_open_usb : Z;
  g_suspended_open : bool;
  g_suspended : bool;
  g_ready1 : bool;
  g_ready2 : bool;
  g_read1 : list Z;
  g_read2 : list Z;
  g_write : Z -> list Z -> Z
}.

(** * The loop's body *)

(** FD_SET and FD_ISSET are defined for the descriptors of an fd_set. *)
Definition FD_SETSIZE : Z := 1024.
Definition fd_in_set (fd : Z) : cres unit :=
  if (0 <=? fd) && (fd <? FD_SETSIZE) then Ret tt else Oob.

Definition count (f : pkt_stats -> pkt_stats) : MG unit := zoom Px (modify (upd_rt (on_gps f))).
Definition get_suspended (v : bool) : MG bool := zoom Px (get_transceiver_suspend_state v).

Section Turn.
Variable env : gps_env.

Definition open_nodes : MG unit :=
  do* s := get in
  when (node1 (nodes s) <? 0) (modify (on_nodes (set_node1 (g_open_smd env)))) ;>
  do* suspended := get_suspended (g_suspended_open env) in
  do* s := get in
  when (negb suspended && (node2 (nodes s) <? 0)) (modify (on_nodes (set_node2 (g_open_usb env)))).

(** The write to the other side: only 0 counts as a failure. *)
Definition pass (fd : Z) (data : list Z) : MG unit :=
  count count_allowed ;>
  emit (GpsWrite fd data) ;>
  when (g_write env fd data =? 0) (count count_failed).

Definition from_adsp : MG unit :=
  do* s := get in
  match g_read1 env with
  | [] =>
      count count_empty ;>
      emit (GpsClose (node1 (nodes s))) ;>
      modify (on_nodes (set_node1 (-1)))
  | data =>
      do* suspended := get_suspended (g_suspended env) in
      if negb suspended && (0 <=? node2 (nodes s)) then pass (node2 (nodes s)) data
      else count count_discarded
  end.

Definition from_usb : MG unit :=
  do* s := get in
  match g_read2 env with
  | [] =>
      count count_empty ;>
      modify (on_nodes (set_allow_exit true)) ;>
      emit (GpsClose (node2 (nodes s))) ;>
      modify (on_nodes (set_node2 (-1)))
  | data => pass (node1 (nodes s)) data
  end.

Definition gps_turn : MG unit :=
  open_nodes ;>
  do* s := get in
  lift (fd_in_set (node1 (nodes s))) ;>
  when (0 <=? node2 (nodes s)) (lift (fd_in_set (node2 (nodes s)))) ;>
  if g_ready1 env then from_adsp
  else
    do* suspended := get_suspended (g_suspended env) in
    when (negb suspended && (0 <=? node2 (nodes s)) && g_ready2 env) from_usb.
End Turn.

(** The nodes the thread starts with, and a run of its loop. *)
Definition gps_start (s : proxy) : gps :=
  {| nodes := {| node1 := -1; node2 := -1; allow_exit := false |}; shared := s |}.
Fixpoint gps_proxy (envs : list gps_env) : MG unit :=
  match envs with
  | [] => ret tt
  | env :: envs => gps_turn env ;> gps_proxy envs
  end.

(** * What a run of turns delivers *)

(** The contract, on the events alone. The only state is whether the USB port
    is open. The baseband comes first; a packet of its is delivered while the
    port is open and awake, and lost otherwise. A host's packet waits in its
    port until the baseband is silent and USB is awake. *)
Record gps_outcome := { delivered : list (Z * list Z); lost : Z; linked : bool }.

Definition gps_event (smd usb : Z) (open : bool) (e : gps_env) : gps_outcome :=
  let open := open || negb (g_suspended_open e) in
  let awake := open && negb (g_suspended e) in
  if g_ready1 e then
    match g_read1 e with
    | [] => {| delivered := []; lost := 0; linked := open |}
    | data => if awake then {| delivered := [(usb, data)]; lost := 0; linked := open |}
              else {| delivered := []; lost := 1; linked := open |}
    end
  else if awake && g_ready2 e then
    match g_read2 e with
    | [] => {| delivered := []; lost := 0; linked := false |}
    | data => {| delivered := [(smd, data)]; lost := 0; linked := open |}
    end
  else {| delivered := []; lost := 0; linked := open |}.

Fixpoint gps_events (smd usb : Z) (open : bool) (envs : list gps_env) : gps_outcome :=
  match envs with
  | [] => {| delivered := []; lost := 0; linked := open |}
  | e :: envs =>
      let now := gps_event smd usb open e in
      let rest := gps_events smd usb (linked now) envs in
      {| delivered := delivered now ++ delivered rest; lost := lost now + lost rest;
         linked := linked rest |}
  end.

Definition gps_written (t : list gps_action) : list (Z * list Z) :=
  omap (fun a => match a with GpsWrite fd data => Some (fd, data) | _ => None end) t.

(** The devices open as [smd] and [usb], whenever they are opened. *)
Definition opens (smd usb : Z) (e : gps_env) : Prop := g_open_smd e = smd /\ g_open_usb e = usb.
Definition nodes_ok (smd usb : Z) (n : node_pair) : Prop :=
  (node1 n = -1 \/ node1 n = smd) /\ (node2 n = -1 \/ node2 n = usb).
Definition port_open (s : gps) : bool := 0 <=? node2 (nodes s).

(** What the thread leaves as it is: everything but its own counters and the
    suspend state. *)
Definition gps_frame (p q : proxy) : Prop :=
  ph q = ph p /\ clients q = clients p /\ debug q = debug p /\
  get_rmnet_stats q = get_rmnet_stats p.
#[export] Instance gps_frame_preorder : PreOrder gps_frame.
Proof. split; [by intros p; split_and!|]. intros p q r (?&?&?&?) (?&?&?&?). split_and!; congruence. Qed.

(** The effect of a run, in the terms of the contract. *)
Definition gps_did (smd usb : Z) (o : gps_outcome) (s s' : gps) (t : list gps_action) : Prop :=
  nodes_ok smd usb (nodes s') /\ port_open s' = linked o /\ gps_written t = delivered o /\
  u32 (allowed (get_gps_stats (shared s'))) =
    u32 (allowed (get_gps_stats (shared s)) + zlen (delivered o)) /\
  u32 (discarded (get_gps_stats (shared s'))) =
    u32 (discarded (get_gps_stats (shared s)) + lost o) /\
  gps_frame (shared s) (shared s').

Section Run.
Context (smd usb : Z) (Hsmd : 0 <= smd < FD_SETSIZE) (Husb : 0 <= usb < FD_SETSIZE).

Lemma bind_count {A} f (k : unit -> MG A) s :
  bind (count f) k s = k tt {| nodes := nodes s; shared := upd_rt (on_gps f) (shared s) |}.
Proof. by apply bind_step. Qed.
Lemma bind_suspended {A} v (k : bool -> MG A) s :
  bind (get_suspended v) k s = k v {| nodes := nodes s; shared := upd_rt (set_suspended v) (shared s) |}.
Proof. by apply bind_step. Qed.

(** The nodes once the devices were opened. *)
Lemma open_nodes_run env s :
  opens smd usb env -> nodes_ok smd usb (nodes s) ->
  let open := port_open s || negb (g_suspended_open env) in
  open_nodes env s = Ret (tt,
    {| nodes := {| node1 := smd; node2 := if open then usb else -1; allow_exit := allow_exit (nodes s) |};
       shared := upd_rt (set_suspended (g_suspended_open env)) (shared s) |}, []).
Proof.
  intros [Ho1 Ho2] [H1 H2]. destruct s as [[n1 n2 ex] p]. unfold port_open. cbn [nodes node1 node2] in *.
  unfold open_nodes. autorewrite with eff. rewrite Ho1, Ho2. cbn [nodes node1].
  destruct H1 as [-> | ->], H2 as [-> | ->], (g_suspended_open env); unfold FD_SETSIZE in *;
    try (rewrite (proj2 (Z.ltb_ge smd 0)) by lia); try (rewrite (proj2 (Z.leb_le 0 usb)) by lia);
    cbn [when Z.ltb Z.leb Z.compare orb negb]; autorewrite with eff;
    rewrite bind_suspended; autorewrite with eff; cbn [nodes node2 negb andb on_nodes set_node1];
    try (rewrite (proj2 (Z.ltb_ge usb 0)) by lia); done.
Qed.

Lemma u32_idem x : u32 (u32 x) = u32 x.
Proof. unfold u32. apply Z.mod_mod. lia. Qed.

Lemma pass_run env fd data s :
  exists p, pass env fd data s = Ret (tt, {| nodes := nodes s; shared := p |}, [GpsWrite fd data]) /\
    allowed (get_gps_stats p) = u32 (allowed (get_gps_stats (shared s)) + 1) /\
    discarded (get_gps_stats p) = discarded (get_gps_stats (shared s)) /\ gps_frame (shared s) p.
Proof.
  unfold pass. rewrite bind_count. autorewrite with eff.
  destruct (g_write env fd data =? 0); eexists; (split; [reflexivity|]); by split_and!.
Qed.

Ltac gps_done :=
  unfold gps_did, nodes_ok; split_and!; try done; try exact (u32_idem _); rewrite ?u32_idem, ?Z.add_0_r; auto;
  try match goal with |- context [if ?b then _ else _] => destruct b end; auto.

(** One turn does what the contract says of its event. *)
Lemma gps_turn_did env s :
  opens smd usb env -> nodes_ok smd usb (nodes s) ->
  exists s' t, gps_turn env s = Ret (tt, s', t) /\
               gps_did smd usb (gps_event smd usb (port_open s) env) s s' t.
Proof.
  intros Ho Hn. unfold gps_turn. rewrite (bind_step _ _ _ _ _ (open_nodes_run env s Ho Hn)).
  set (open := port_open s || negb (g_suspended_open env)). autorewrite with eff.
  cbn [nodes node1 node2].
  assert (forall fd, 0 <= fd < FD_SETSIZE -> fd_in_set fd = Ret tt) as Hset.
  { intros fd [H1 H2]. unfold fd_in_set. by rewrite (proj2 (Z.leb_le _ _) H1), (proj2 (Z.ltb_lt _ _) H2). }
  rewrite (bind_lift _ tt) by by apply Hset.
  assert ((0 <=? (if open then usb else -1)) = open) as Hopen
    by (destruct open; [apply Z.leb_le; lia|done]).
  rewrite Hopen. match goal with |- context [bind (when open ?m) ?k ?x] =>
    rewrite (bind_step (when open m) k x tt x) end.
  2: { destruct open; cbn [when]; [|done]. unfold lift. by rewrite Hset. }
  unfold gps_event. fold open. rewrite (andb_comm open).
  set (awake := negb (g_suspended env) && open). destruct (g_ready1 env).
  - unfold from_adsp. rewrite bind_get. destruct (g_read1 env) as [|d data].
    + rewrite bind_count. autorewrite with eff. eexists _, _. split; [reflexivity|]. gps_done.
    + rewrite bind_suspended. cbn [nodes node2]. rewrite Hopen. fold awake. destruct awake eqn:Ea.
      * match goal with |- context [pass env ?fd ?d ?x] =>
          destruct (pass_run env fd d x) as (p & -> & Ha & Hd & Hf) end.
        apply andb_prop in Ea as [_ ->]. eexists _, _. split; [reflexivity|].
        gps_done; cbn [shared] in *; by rewrite ?Ha, ?Hd, ?u32_idem, ?Z.add_0_r.
      * eexists _, _. split; [reflexivity|]. gps_done.
  - rewrite bind_suspended. fold awake. destruct awake eqn:Ea; cbn [andb].
    2: { eexists _, _. split; [reflexivity|]. gps_done. }
    apply andb_prop in Ea as [_ Eo]. rewrite Eo in *.
    destruct (g_ready2 env); cbn [when].
    2: { eexists _, _. split; [reflexivity|]. gps_done. }
    unfold from_usb. rewrite bind_get. destruct (g_read2 env) as [|d data].
    + rewrite bind_count. autorewrite with eff. eexists _, _. split; [reflexivity|]. gps_done.
    + match goal with |- context [pass env ?fd ?d ?x] =>
        destruct (pass_run env fd d x) as (p & -> & Ha & Hd & Hf) end.
      eexists _, _. split; [reflexivity|].
      gps_done; cbn [shared] in *; by rewrite ?Ha, ?Hd, ?u32_idem, ?Z.add_0_r.
Qed.
End Run.

(** A device the baseband does not offer: its descriptor -1 goes to FD_SET. *)
Lemma unopened_smd_faults env s :
  node1 (nodes s) < 0 -> g_open_smd env < 0 -> gps_turn env s = Oob.
Proof.
  intros Hn Ho. unfold gps_turn, open_nodes. autorewrite with eff.
  rewrite (proj2 (Z.ltb_lt _ 0) Hn). cbn [when]. autorewrite with eff. rewrite bind_suspended.
  autorewrite with eff. unfold fd_in_set.
  match goal with |- context [when ?c _] => destruct c end; cbn [when]; autorewrite with eff;
    cbn [on_nodes nodes set_node1 set_node2 node1];
    rewrite (proj2 (Z.leb_gt 0 (g_open_smd env)) Ho); done.
Qed.

Lemma gps_did_refl smd usb s : nodes_ok smd usb (nodes s) ->
  gps_did smd usb {| delivered := []; lost := 0; linked := port_open s |} s s [].
Proof. intros Hn. split_and!; try done; try apply Hn; cbn [delivered lost]; zl; by rewrite Z.add_0_r. Qed.
Lemma gps_did_trans smd usb o o' s s1 s2 t t' :
  gps_did smd usb o s s1 t -> gps_did smd usb o' s1 s2 t' ->
  gps_did smd usb {| delivered := delivered o ++ delivered o'; lost := lost o + lost o';
                     linked := linked o' |} s s2 (t ++ t').
Proof.
  intros (_ & _ & Hw & Ha & Hd & Hf) (Hn & Hl & Hw' & Ha' & Hd' & Hf').
  split_and!; try apply Hn; [done| | | |by etransitivity]; cbn [delivered lost].
  - unfold gps_written in *. by rewrite omap_app, Hw, Hw'.
  - rewrite Ha', zlen_app, Z.add_assoc. unfold u32 in *. by rewrite Z.add_mod, Ha, <- Z.add_mod by lia.
  - rewrite Hd', Z.add_assoc. unfold u32 in *. by rewrite Z.add_mod, Hd, <- Z.add_mod by lia.
Qed.

(** C40: while both devices can be opened, the GPS thread never faults and
    refines its contract. What it writes, to which port, in which order and
    byte for byte, is what the events say: a packet of the baseband goes to
    USB, or is counted as discarded when the port is closed or asleep; a packet
    of the host goes to the baseband when that is silent and USB awake. A
    device that closed is opened again on the next turn, and texts, calls,
    clients and the RMNET counters are not touched. *)
Theorem gps_refines_events smd usb envs s :
  0 <= smd < FD_SETSIZE -> 0 <= usb < FD_SETSIZE -> Forall (opens smd usb) envs ->
  nodes_ok smd usb (nodes s) ->
  exists s' t, gps_proxy envs s = Ret (tt, s', t) /\
               gps_did smd usb (gps_events smd usb (port_open s) envs) s s' t.
Proof.
  intros Hsmd Husb Ho. revert s; induction Ho as [|e envs He _ IH]; intros s Hn.
  { eexists _, _. split; [reflexivity|]. by apply gps_did_refl. }
  destruct (gps_turn_did smd usb Hsmd Husb e s He Hn) as (s1 & t1 & H1 & Hd1).
  destruct (IH s1 (proj1 Hd1)) as (s2 & t2 & H2 & Hd2).
  exists s2, (t1 ++ t2). split.
  - cbn [gps_proxy]. by rewrite (bind_after _ _ _ _ _ _ H1), H2.
  - cbn [gps_events]. rewrite <- (proj1 (proj2 Hd1)). by eapply gps_did_trans.
Qed.

(** A position is sent while the host has a command, which goes out next; the port closes, USB sleeps, and it wakes. *)
Definition gps_env_of (asleep : bool) (adsp host : option (list Z)) : gps_env :=
  {| g_open_smd := 3; g_open_usb := 4; g_suspended_open := asleep; g_suspended := asleep;
     g_ready1 := bool_decide (is_Some adsp); g_ready2 := bool_decide (is_Some host);
     g_read1 := default [] adsp; g_read2 := default [] host; g_write := fun _ data => zlen data |}.
Definition sample_gps_events : list gps_env :=
  [gps_env_of false (Some (zs "$GPGGA")) (Some (zs "AT")); gps_env_of false None (Some (zs "AT"));
   gps_env_of false None (Some []); gps_env_of true (Some (zs "$GPRMC")) None;
   gps_env_of false (Some []) None; gps_env_of false (Some (zs "$GPGSV")) None].
Lemma gps_refines_events_witness :
  exists s' t, gps_proxy sample_gps_events (gps_start (sample_proxy idle_phone)) = Ret (tt, s', t) /\
    gps_did 3 4 {| delivered := [(4, zs "$GPGGA"); (3, zs "AT"); (4, zs "$GPGSV")]; lost := 1;
                   linked := true |} (gps_start (sample_proxy idle_phone)) s' t.
Proof.
  apply (gps_refines_events 3 4 sample_gps_events (gps_start (sample_proxy idle_phone)));
    unfold FD_SETSIZE; try lia.
  - repeat constructor.
  - split; by left.
Defined.
