(* ===== verification/CommandTable.v ===== *)
(** The chat commands (inc/command.h, inc/chat_helpers.h): their numbers, the
    table of what they are called and what they answer, and the names of the
    QMI services (inc/ipc.h, src/ipc.c). *)

From stdpp Require Import base list numbers option strings.
From Stdlib Require Import ZArith Lia.
From S2P Require Import Prelude Libc.

(** * Numbers *)

Definition CMD_UNKNOWN : Z := (-1).
Definition CMD_ID_GET_NAME : Z := 0.
Definition CMD_ID_GET_UPTIME : Z := 1.
Definition CMD_ID_GET_LOADAVG : Z := 2.
Definition CMD_ID_GET_VERSION : Z := 3.
Definition CMD_ID_GET_USB_SUSPEND_STATE : Z := 4.
Definition CMD_ID_GET_MEM : Z := 5.
Definition CMD_ID_GET_NET_STATS : Z := 6.
Definition CMD_ID_GET_GPS_STATS : Z := 7.
Definition CMD_ID_GET_HELP : Z := 8.
Definition CMD_ID_SET_USB_SUSPEND_BLOCK : Z := 9.
Definition CMD_ID_SET_USB_SUSPEND_ALLOW : Z := 10.
Definition CMD_ID_SET_ADB_ON : Z := 11.
Definition CMD_ID_SET_ADB_OFF : Z := 12.
Definition CMD_ID_GET_HISTORY : Z := 13.
Definition CMD_ID_GET_LOG : Z := 14.
Definition CMD_ID_GET_KERNEL_LOG : Z := 15.
Definition CMD_ID_GET_RECONNECTS : Z := 16.
Definition CMD_ID_ACTION_CALL_OWNER : Z := 17.
Definition CMD_ID_GET_OWNER_NAME : Z := 18.
Definition CMD_ID_ACTION_POWEROFF : Z := 19.
Definition CMD_ID_GET_GSM_SIGNAL : Z := 20.
Definition CMD_ID_ACTION_REBOOT : Z := 21.
Definition CMD_ID_GET_NET_REPORT : Z := 22.
Definition CMD_ID_ACTION_ENABLE_SIGNAL_TRACKING : Z := 23.
Definition CMD_ID_ACTION_DISABLE_SIGNAL_TRACKING : Z := 24.
Definition CMD_ID_ACTION_ENABLE_PERSISTENT_LOGGING : Z := 25.
Definition CMD_ID_ACTION_DISABLE_PERSISTENT_LOGGING : Z := 26.
Definition CMD_ID_ACTION_ENABLE_SMS_LOGGING : Z := 27.
Definition CMD_ID_ACTION_DISABLE_SMS_LOGGING : Z := 28.
Definition CMD_ID_UTIL_LIST_ACTIVE_TASKS : Z := 29.
Definition CMD_ID_GET_FW_TY : Z := 30.
Definition CMD_ID_ACTION_ENABLE_CELL_BROADCAST : Z := 31.
Definition CMD_ID_ACTION_DISABLE_CELL_BROADCAST : Z := 32.
Definition CMD_ID_ACTION_CALLWAIT_AUTO_HANGUP : Z := 33.
Definition CMD_ID_ACTION_CALLWAIT_AUTO_IGNORE : Z := 34.
Definition CMD_ID_ACTION_CALLWAIT_MODE_DEFAULT : Z := 35.
Definition CMD_ID_ACTION_ENABLE_CAT : Z := 36.
Definition CMD_ID_ACTION_DISABLE_CAT : Z := 37.
Definition CMD_ID_ACTION_RECORD_CALLS_AND_RECYCLE : Z := 38.
Definition CMD_ID_ACTION_RECORD_CALLS_ALL : Z := 39.
Definition CMD_ID_ACTION_RECORD_CALLS_NONE : Z := 40.
Definition CMD_ID_ACTION_RECORD_CALL_CURRENT : Z := 41.
Definition CMD_ID_ACTION_RECORD_CALL_NEXT : Z := 42.
Definition CMD_ID_ACTION_RECORD_CALL_CANCEL_TASK : Z := 43.
Definition CMD_ID_DEBUG_GET_MM_SAMPLE_GSM7_CB_MSG : Z := 44.
Definition CMD_ID_DEBUG_GET_MM_SAMPLE_UCS2_CB_MSG : Z := 45.
Definition CMD_ID_ACTION_ENABLE_INTERNAL_NETWORKING : Z := 46.
Definition CMD_ID_ACTION_DISABLE_INTERNAL_NETWORKING : Z := 47.
Definition CMD_ID_ACTION_DISABLE_DO_NOT_DISTURB : Z := 48.
Definition CMD_ID_ACTION_DEBUG_DISABLE_SVC : Z := 49.
Definition CMD_ID_GET_KNOWN_QMI_SERVICES : Z := 50.
Definition CMD_ID_ACTION_DEBUG_ENABLE_NETWORK_DATA_DUMP : Z := 51.
Definition CMD_ID_ACTION_DEBUG_DISABLE_NETWORK_DATA_DUMP : Z := 52.
Definition CMD_ID_ACTION_ENABLE_ST_NETWORK_DOWNGRADE_NOTIF : Z := 53.
Definition CMD_ID_ACTION_DISABLE_ST_NETWORK_DOWNGRADE_NOTIF : Z := 54.
Definition CMD_ID_ACTION_INTERNAL_NETWORK_CLEAR_AUTH_DATA : Z := 55.
Definition CMD_ID_ACTION_MESSAGE_RECOVERY_ENABLE : Z := 56.
Definition CMD_ID_ACTION_MESSAGE_RECOVERY_DISABLE : Z := 57.
Definition CMD_ID_ACTION_INTERNAL_NETWORK_START : Z := 58.
Definition CMD_ID_ACTION_INTERNAL_NETWORK_STOP : Z := 59.
Definition CMD_ID_GET_RUNNING_CONFIG : Z := 60.
Definition CMD_ID_SET_MODEM_NAME : Z := 61.
Definition CMD_ID_SET_OWNER_NAME : Z := 62.
Definition CMD_ID_ACTION_CALL_OWNER_COUNTDOWN : Z := 63.
Definition CMD_ID_ACTION_SET_REMINDER : Z := 64.
Definition CMD_ID_ACTION_WAKE_OWNER : Z := 65.
Definition CMD_ID_ACTION_DELETE_TASK : Z := 66.
Definition CMD_ID_ACTION_ENABLE_DND : Z := 67.
Definition CMD_ID_DEBUG_ENABLE_SERVICE_LOGGING : Z := 68.
Definition CMD_ID_ACTION_SET_ST_MODE : Z := 69.
Definition CMD_ID_ACTION_SET_ST_NOTIFICATION_LEVEL : Z := 70.
Definition CMD_ID_DEFINE : Z := 71.
Definition CMD_ID_ACTION_INTERNAL_NETWORK_SET_APN : Z := 72.
Definition CMD_ID_ACTION_INTERNAL_NETWORK_SET_USER : Z := 73.
Definition CMD_ID_ACTION_INTERNAL_NETWORK_SET_PASS : Z := 74.
Definition CMD_ID_ACTION_INTERNAL_NETWORK_SET_AUTH_METHOD : Z := 75.

Definition CMD_CATEGORY_INFO : Z := 0.
Definition CMD_CATEGORY_HELP : Z := 1.
Definition CMD_CATEGORY_LOGGING : Z := 2.
Definition CMD_CATEGORY_CALLS : Z := 3.
Definition CMD_CATEGORY_NETWORK : Z := 4.
Definition CMD_CATEGORY_UTILITY : Z := 5.
Definition CMD_CATEGORY_SYSTEM : Z := 6.

(** * Tables *)

Definition cmd_categories : list (Z * string) :=
  [(CMD_CATEGORY_INFO, "Info");
   (CMD_CATEGORY_HELP, "Help");
   (CMD_CATEGORY_LOGGING, "Logging");
   (CMD_CATEGORY_CALLS, "Calls");
   (CMD_CATEGORY_NETWORK, "Network");
   (CMD_CATEGORY_UTILITY, "Utilities");
   (CMD_CATEGORY_SYSTEM, "System")].

Record bot_command := {
  bot_id : Z;
  is_partial : bool;
  category : Z;
  cmd : string;
  cmd_text : string;
  help : string
}.

Definition bot_commands : list bot_command := [
  Build_bot_command CMD_ID_GET_NAME false CMD_CATEGORY_INFO
    "name"
    "My name is "
    "Get Modem's name";
  Build_bot_command CMD_ID_GET_UPTIME false CMD_CATEGORY_INFO
    "uptime"
    "This is my uptime:"
    "Get current uptime";
  Build_bot_command CMD_ID_GET_LOADAVG false CMD_CATEGORY_INFO
    "load"
    "Load avg is:"
    "Get load average";
  Build_bot_command CMD_ID_GET_VERSION false CMD_CATEGORY_INFO
    "version"
    "Current version:"
    "Get firmware version";
  Build_bot_command CMD_ID_GET_USB_SUSPEND_STATE false CMD_CATEGORY_INFO
    "usbsuspend"
    "USB suspend state:"
    "Get USB suspend state";
  Build_bot_command CMD_ID_GET_MEM false CMD_CATEGORY_INFO
    "memory"
    "Memory stats:"
    "Get memory stats";
  Build_bot_command CMD_ID_GET_NET_STATS false CMD_CATEGORY_INFO
    "net stats"
    "Net stats:"
    "Get RMNET control stats";
  Build_bot_command CMD_ID_GET_GPS_STATS false CMD_CATEGORY_INFO
    "gps stats"
    "GPS stats:"
    "Get GPS ports status";
  Build_bot_command CMD_ID_GET_HELP false CMD_CATEGORY_INFO
    "help"
    "Help"
    "Show this message";
  Build_bot_command CMD_ID_SET_USB_SUSPEND_BLOCK false CMD_CATEGORY_SYSTEM
    "caffeinate"
    "Blocking USB suspend until reboot or until you tell me otherwise!"
    "Block USB suspend";
  Build_bot_command CMD_ID_SET_USB_SUSPEND_ALLOW false CMD_CATEGORY_SYSTEM
    "decaf"
    "Allowing USB to suspend again"
    "Allow USB suspend";
  Build_bot_command CMD_ID_SET_ADB_ON false CMD_CATEGORY_SYSTEM
    "enable adb"
    "Enabling ADB."
    "Turn ON adb (USB will reset)";
  Build_bot_command CMD_ID_SET_ADB_OFF false CMD_CATEGORY_SYSTEM
    "disable adb"
    "Disabling ADB."
    "Turn OFF adb (USB will reset)";
  Build_bot_command CMD_ID_GET_HISTORY false CMD_CATEGORY_LOGGING
    "get history"
    "Get command history"
    "Show command history";
  Build_bot_command CMD_ID_GET_LOG false CMD_CATEGORY_LOGGING
    "get log"
    "Openqti.log:"
    "Dump OpenQTI log";
  Build_bot_command CMD_ID_GET_KERNEL_LOG false CMD_CATEGORY_LOGGING
    "get dmesg"
    "Kernel log:"
    "Dump kernel log";
  Build_bot_command CMD_ID_GET_RECONNECTS false CMD_CATEGORY_INFO
    "get reconnects"
    "Number of resets since last boot"
    "Show number of reconnects since boot";
  Build_bot_command CMD_ID_ACTION_CALL_OWNER false CMD_CATEGORY_UTILITY
    "call me"
    "Calling you now!"
    "Generate an incoming call";
  Build_bot_command CMD_ID_GET_OWNER_NAME false CMD_CATEGORY_INFO
    "username"
    "Your name is "
    "Show you your name";
  Build_bot_command CMD_ID_ACTION_POWEROFF false CMD_CATEGORY_SYSTEM
    "off"
    "Goodbye"
    "Shutdown the modem";
  Build_bot_command CMD_ID_GET_GSM_SIGNAL false CMD_CATEGORY_NETWORK
    "gsm signal"
    "RF Signal status:"
    "Show network and signal data";
  Build_bot_command CMD_ID_ACTION_REBOOT false CMD_CATEGORY_SYSTEM
    "reboot"
    "See you soon"
    "Reboot the modem";
  Build_bot_command CMD_ID_GET_NET_REPORT false CMD_CATEGORY_NETWORK
    "net report"
    "Network report"
    "Get network report";
  Build_bot_command CMD_ID_GET_RUNNING_CONFIG false CMD_CATEGORY_INFO
    "get config"
    "Running config"
    "Show current configuration";
  Build_bot_command CMD_ID_ACTION_ENABLE_SIGNAL_TRACKING false CMD_CATEGORY_NETWORK
    "enable tracking"
    "Signal tracking: enabled"
    "Switch on network monitoring";
  Build_bot_command CMD_ID_ACTION_DISABLE_SIGNAL_TRACKING false CMD_CATEGORY_NETWORK
    "disable tracking"
    "Signal tracking: disabled"
    "Switch off network monitoring";
  Build_bot_command CMD_ID_ACTION_ENABLE_PERSISTENT_LOGGING false CMD_CATEGORY_SYSTEM
    "enable persistent logging"
    "Persistent logging: enabled"
    "Switch on persistent logging";
  Build_bot_command CMD_ID_ACTION_DISABLE_PERSISTENT_LOGGING false CMD_CATEGORY_SYSTEM
    "disable persistent logging"
    "Persistent logging: disabled"
    "Switch off persistent logging";
  Build_bot_command CMD_ID_ACTION_ENABLE_SMS_LOGGING false CMD_CATEGORY_LOGGING
    "enable sms logging"
    "Enabling SMS logging"
    "Store all incoming/outgoing messages to a log";
  Build_bot_command CMD_ID_ACTION_DISABLE_SMS_LOGGING false CMD_CATEGORY_LOGGING
    "disable sms logging"
    "Disabling SMS logging"
    "Disables logging of all incoming/outgoing messages";
  Build_bot_command CMD_ID_UTIL_LIST_ACTIVE_TASKS false CMD_CATEGORY_UTILITY
    "list tasks"
    "Show pending tasks"
    "Shows all the scheduled tasks";
  Build_bot_command CMD_ID_GET_FW_TY false CMD_CATEGORY_INFO
    "thank you"
    ""
    "Thank you to all of you who help shape this firmware";
  Build_bot_command CMD_ID_ACTION_ENABLE_CELL_BROADCAST false CMD_CATEGORY_NETWORK
    "enable cell broadcast"
    "Enabling Cell broadcasting for index 0-6000..."
    "Enables Cell broadcasting messages";
  Build_bot_command CMD_ID_ACTION_DISABLE_CELL_BROADCAST false CMD_CATEGORY_NETWORK
    "disable cell broadcast"
    "Disabling cell broadcast..."
    "Disables Cell broadcasting messages";
  Build_bot_command CMD_ID_ACTION_CALLWAIT_AUTO_HANGUP false CMD_CATEGORY_CALLS
    "callwait auto hangup"
    "I will automatically terminate all incoming calls while you're talking"
    "Automatically kills any new incoming call while you're talking";
  Build_bot_command CMD_ID_ACTION_CALLWAIT_AUTO_IGNORE false CMD_CATEGORY_CALLS
    "callwait auto ignore"
    "I will just inform you that there's a new call waiting"
    "Automatically ignores any new incoming call while you're talking";
  Build_bot_command CMD_ID_ACTION_CALLWAIT_MODE_DEFAULT false CMD_CATEGORY_CALLS
    "callwait mode default"
    "I will let the host handle multiple calls"
    "Disables automatic hang up of incoming calls while you're talking";
  Build_bot_command CMD_ID_ACTION_ENABLE_CAT false CMD_CATEGORY_CALLS
    "enable custom alert tone"
    "Enabling custom alert tone"
    "Enables custom alerting tone";
  Build_bot_command CMD_ID_ACTION_DISABLE_CAT false CMD_CATEGORY_CALLS
    "disable custom alert tone"
    "Using alerting tone from the carrier"
    "Uses the default alerting tone from the carrier if it provides one";
  Build_bot_command CMD_ID_ACTION_RECORD_CALLS_AND_RECYCLE false CMD_CATEGORY_CALLS
    "record and recycle calls"
    "I will record all your calls and wipe them unless you tell me to keep them during the call "
    "Enable call recording and autoerase (send 'record this call' to keep it)";
  Build_bot_command CMD_ID_ACTION_RECORD_CALLS_ALL false CMD_CATEGORY_CALLS
    "record all calls"
    "I will record all calls from now on"
    "Enables call recording for all calls (retrieve them via adb)";
  Build_bot_command CMD_ID_ACTION_RECORD_CALLS_NONE false CMD_CATEGORY_CALLS
    "stop recording calls"
    "Automatic call recording is disabled"
    "Disables automatic call recording";
  Build_bot_command CMD_ID_ACTION_RECORD_CALL_CURRENT false CMD_CATEGORY_CALLS
    "record this call"
    "I got this"
    "Records current established call";
  Build_bot_command CMD_ID_ACTION_RECORD_CALL_NEXT false CMD_CATEGORY_CALLS
    "record next call"
    "I will record the new call you make or receive"
    "Automatically records the next established call";
  Build_bot_command CMD_ID_ACTION_RECORD_CALL_CANCEL_TASK false CMD_CATEGORY_CALLS
    "cancel record next call"
    "I won't record the new call you make or receive"
    "Cancel automatic recording of next call";
  Build_bot_command CMD_ID_DEBUG_GET_MM_SAMPLE_GSM7_CB_MSG false CMD_CATEGORY_LOGGING
    "dbg"
    "Sending sample CB messages..."
    "Send demo cell broadcast message";
  Build_bot_command CMD_ID_DEBUG_GET_MM_SAMPLE_UCS2_CB_MSG false CMD_CATEGORY_LOGGING
    "dbgucs"
    "Sending sample CB UCS-2 messages..."
    "Send demo cell broadcast message";
  Build_bot_command CMD_ID_ACTION_ENABLE_INTERNAL_NETWORKING false CMD_CATEGORY_NETWORK
    "enable internal net"
    "Warning: this function is in testing. Reboot to apply changes. Send 'disable internal net' to revert"
    "Attempts to init modem's internal RMNET port";
  Build_bot_command CMD_ID_ACTION_DISABLE_INTERNAL_NETWORKING false CMD_CATEGORY_NETWORK
    "disable internal net"
    "Please reboot to apply changes"
    "Attempts to init modem's internal RMNET port";
  Build_bot_command CMD_ID_ACTION_DISABLE_DO_NOT_DISTURB false CMD_CATEGORY_CALLS
    "disable dnd"
    "Disabling Do Not Disturb"
    "Disables Do Not Disturb feature";
  Build_bot_command CMD_ID_ACTION_DEBUG_DISABLE_SVC false CMD_CATEGORY_LOGGING
    "disable service debugging"
    "Done boss!"
    "Disables extensive logging for a defined service";
  Build_bot_command CMD_ID_GET_KNOWN_QMI_SERVICES false CMD_CATEGORY_LOGGING
    "list qmi services"
    "Available QMI services:"
    "Shows QMI Service IDs (for service debugging)";
  Build_bot_command CMD_ID_ACTION_DEBUG_ENABLE_NETWORK_DATA_DUMP false CMD_CATEGORY_LOGGING
    "dump network data"
    "Enabling network data logging"
    "Dumps network data given by the baseband as CSV files";
  Build_bot_command CMD_ID_ACTION_DEBUG_DISABLE_NETWORK_DATA_DUMP false CMD_CATEGORY_LOGGING
    "disable network data dump"
    "Disabling network data logging"
    "Disables network data dump to CSV";
  Build_bot_command CMD_ID_ACTION_ENABLE_ST_NETWORK_DOWNGRADE_NOTIF false CMD_CATEGORY_NETWORK
    "enable network downgrade notification"
    "I will notify you if network type gets downgraded"
    "Sends a SMS when the network changes (ie from LTE to WCDMA)";
  Build_bot_command CMD_ID_ACTION_DISABLE_ST_NETWORK_DOWNGRADE_NOTIF false CMD_CATEGORY_NETWORK
    "disable network downgrade notification"
    "I won't notify when network type gets downgraded"
    "Disables service downgrade notifications";
  Build_bot_command CMD_ID_ACTION_INTERNAL_NETWORK_CLEAR_AUTH_DATA false CMD_CATEGORY_NETWORK
    "clear internal network auth"
    "Removing internal networking authentication config"
    "Resets internal networking user,pass and method";
  Build_bot_command CMD_ID_ACTION_MESSAGE_RECOVERY_ENABLE false CMD_CATEGORY_UTILITY
    "enable message recovery"
    "Will try to retrieve any stuck messages on next boot"
    "Enables MM bypass of List All messages to retrieve stuck SMS";
  Build_bot_command CMD_ID_ACTION_MESSAGE_RECOVERY_DISABLE false CMD_CATEGORY_UTILITY
    "disable message recovery"
    "Will stop hijacking ModemManager's List All Messages"
    "Disables MM bypass of List All messages to retrieve stuck SMS";
  Build_bot_command CMD_ID_ACTION_INTERNAL_NETWORK_START false CMD_CATEGORY_NETWORK
    "ifup"
    "Trying to kickstart internal networking"
    "Attempts to start a data session from the modem's userspace";
  Build_bot_command CMD_ID_ACTION_INTERNAL_NETWORK_STOP false CMD_CATEGORY_NETWORK
    "ifdown"
    "Stopping internal networking "
    "Stops an active data session on the modem's userspace";
  Build_bot_command CMD_ID_SET_MODEM_NAME true CMD_CATEGORY_SYSTEM
    "set name "
    "Set Modem Name"
    "Set a new name for the modem";
  Build_bot_command CMD_ID_SET_OWNER_NAME true CMD_CATEGORY_SYSTEM
    "set user name "
    "Set User Name"
    "Set new username";
  Build_bot_command CMD_ID_ACTION_CALL_OWNER_COUNTDOWN true CMD_CATEGORY_UTILITY
    "call me in "
    "Calling you back in "
    "Call me in X seconds";
  Build_bot_command CMD_ID_ACTION_SET_REMINDER true CMD_CATEGORY_UTILITY
    "remind me "
    "Will call you "
    "Call you [at/in] hh[:xx min] [text]";
  Build_bot_command CMD_ID_ACTION_WAKE_OWNER true CMD_CATEGORY_UTILITY
    "wake me up "
    "Will wake you up "
    "Wake you up [at/in] hh[:xx min]";
  Build_bot_command CMD_ID_ACTION_DELETE_TASK true CMD_CATEGORY_UTILITY
    "delete task "
    "Removing task "
    "delete task X: Removes task X from the scheduler";
  Build_bot_command CMD_ID_ACTION_ENABLE_DND true CMD_CATEGORY_CALLS
    "enable dnd for "
    "Silencing calls for  "
    "enable dnd for X [hours:minutes]: Ignores incoming calls (will send you an sms with the number who called) ";
  Build_bot_command CMD_ID_DEBUG_ENABLE_SERVICE_LOGGING true CMD_CATEGORY_LOGGING
    "enable debugging of service "
    "Enabling debugging of service "
    "Enables extensive logging of a defined QMI service";
  Build_bot_command CMD_ID_ACTION_SET_ST_MODE true CMD_CATEGORY_NETWORK
    "signal tracking mode "
    "Set signal tracking mode"
    "Set the paranoia level for signal tracking functions";
  Build_bot_command CMD_ID_ACTION_SET_ST_NOTIFICATION_LEVEL true CMD_CATEGORY_NETWORK
    "signal tracking cell notifications "
    "Signal tracking notification"
    "Signal tracking: cell change notification (options: none, new, all -don't notify,notify on new cells only,notify everything all the time)";
  Build_bot_command CMD_ID_DEFINE true CMD_CATEGORY_UTILITY
    "define "
    "Definition fo X"
    "define X: Looks up definition for a given word";
  Build_bot_command CMD_ID_ACTION_INTERNAL_NETWORK_SET_APN true CMD_CATEGORY_NETWORK
    "set internal network apn "
    "Set internal apn name "
    "Configure your carrier APN for use in internal networking";
  Build_bot_command CMD_ID_ACTION_INTERNAL_NETWORK_SET_USER true CMD_CATEGORY_NETWORK
    "set internal network user "
    "Set internal apn user "
    "Configure your carrier APN username for use in internal networking";
  Build_bot_command CMD_ID_ACTION_INTERNAL_NETWORK_SET_PASS true CMD_CATEGORY_NETWORK
    "set internal network pass "
    "Set internal apn pass "
    "Configure your carrier APN password for use in internal networking";
  Build_bot_command CMD_ID_ACTION_INTERNAL_NETWORK_SET_AUTH_METHOD true CMD_CATEGORY_NETWORK
    "set internal network auth method "
    "Set internal apn auth method "
    "Configure your carrier APN authentication method (options: none, pap, chap, auto)"].

Definition qmi_services : list (Z * string) := [
  (0x00, "Control service");
  (0x01, "Wireless Data Service");
  (0x02, "Device Management Service");
  (0x03, "Network Access Service");
  (0x04, "Quality Of Service service");
  (0x05, "Wireless Messaging Service");
  (0x06, "Position Determination Service");
  (0x07, "Authentication service");
  (0x08, "AT service");
  (0x09, "Voice service");
  (0x0a, "Card Application Toolkit service (v2)");
  (0x0b, "User Identity Module service");
  (0x0c, "Phonebook Management service");
  (0x0d, "QCHAT service");
  (0x0e, "Remote file system service");
  (0x0f, "Test service");
  (0x10, "Location service (~ PDS v2)");
  (0x11, "Specific absorption rate service");
  (0x12, "IMS settings service");
  (0x13, "Analog to digital converter driver service");
  (0x14, "Core sound driver service");
  (0x15, "Modem embedded file system service");
  (0x16, "Time service");
  (0x17, "Thermal sensors service");
  (0x18, "Thermal mitigation device service");
  (0x19, "Service access proxy service");
  (0x1a, "Wireless data administrative service");
  (0x1b, "TSYNC control service");
  (0x1c, "Remote file system access service");
  (0x1d, "Circuit switched videotelephony service");
  (0x1e, "Qualcomm mobile access point service");
  (0x1f, "IMS presence service");
  (0x20, "IMS videotelephony service");
  (0x21, "IMS application service");
  (0x22, "Coexistence service");
  (0x23, "UNKNOWN SERVICE");
  (0x24, "Persistent device configuration service");
  (0x25, "UNKNOWN SERVICE");
  (0x26, "Simultaneous transmit service");
  (0x27, "Bearer independent transport service");
  (0x28, "IMS RTP service");
  (0x29, "RF radiated performance enhancement service");
  (0x2a, "Data system determination service");
  (0x2b, "Subsystem control service");
  (0x2c, "Modem external Filesystem service");
  (0x2d, "MDM Scrubber service");
  (0x2e, "UNKNOWN Service");
  (0x2f, "Data Port Mapper service");
  (0x30, "Data filter service");
  (0x31, "IPA control service");
  (0x32, "UIM remote service");
  (0x33, "CoreSight remote tracing service");
  (0x34, "Dynamic Heap Memory Sharing");
  (0x35, "Subsystem control...request?");
  (0x36, "Flow control management");
  (0x37, "Sensor location interface");
  (0x38, "lowi (location over wlan) service");
  (0x3c, "Health monitor");
  (0x3d, "Filesystem service");
  (0x40, "Service registry locator service");
  (0x42, "Service registry notification service");
  (0x43, "Bandwidth limit manager");
  (0x44, "OTT");
  (0x45, "ATH10k WLAN firmware service");
  (0x46, "LTE service");
  (0x47, "UIM http service");
  (0x48, "Non IP data service");
  (0x4a, "Antenna switch service");
  (0xe0, "Card Application Toolkit service (v1)");
  (0xe1, "Remote Management Service");
  (0xe2, "Open Mobile Alliance device management service")].

Fixpoint service_name (l : list (Z * string)) (service : Z) : string :=
  match l with
  | [] => "Unknown QMI Service"
  | (s, name) :: l => if s =? service then name else service_name l service
  end.
Definition get_qmi_service_name (service : Z) : string := service_name qmi_services service.

(** [bot_commands[id]] *)
Definition row (cmd_id : Z) : cres bot_command := rdA bot_commands cmd_id.
