(* ===== verification/Ipc.v ===== *)
(** The sockets of the baseband's services (src/ipc.c, inc/ipc.h): looking a
    service up, the address a socket sends to, the rules of the router and the
    requests that open the two data channels. *)

From stdpp Require Import base list numbers option strings.
From Stdlib Require Import ZArith Lia.
From S2P Require Import Prelude Libc Eff CommandTable.

(** * Data *)

(** struct msm_ipc_server_info *)
Record server := { node_id : Z; port_id : Z; sv_service : Z; sv_instance : Z }.
Definition no_server : server := {| node_id := 0; port_id := 0; sv_service := 0; sv_instance := 0 |}.
(** struct qmi_device with its address; the union of the address, a pair of node
    and port or of service and instance, is its 8 bytes. *)
Record qmi_device := { qd_fd : Z; family : Z; addrtype : Z; addr : list Z; qd_service : Z; transaction_id : Z }.
(** calloc *)
Definition qmi_device0 : qmi_device :=
  {| qd_fd := 0; family := 0; addrtype := 0; addr := replicate 8 0; qd_service := 0; transaction_id := 0 |}.

Definition IPC_ROUTER : Z := 27.
Definition IPC_ROUTER_DPM_ADDRTYPE : Z := 1.
Definition IPC_ROUTER_AT_ADDRTYPE : Z := 2.
Definition IPC_HEXAGON_NODE : Z := 0x3.
Definition IPC_HEXAGON_DPM_PORT : Z := 0x1c.
Definition IRSC_INSTANCE_ALL : Z := 4294967295.
Definition DATA_EP_TYPE_BAM_DMUX : Z := 5.
Definition SMDCTLPORTNAME : list Z := zs "DATA40_CNTL".
Definition LOCAL_SMD_CTL_PORT_NAME : list Z := zs "DATA5_CNTL".

Inductive ipc_action :=
| Socket                              (* socket(IPC_ROUTER, SOCK_DGRAM, 0) *)
| CloseFd
| Rule (rule : list Z)                (* ioctl(IOCTL_RULES) *)
| BindToIpc                           (* ioctl(IOCTL_BIND_TOIPC) *)
| OpenDpm                             (* DPM_CTL *)
| DpmIoctl
| RecvTimeout (s : Z)                 (* setsockopt(SO_RCVTIMEO) *)
| Sleep (s : Z)
| SendTo (addrtype : Z) (addr packet : list Z)
| Printed (text : list Z).
Definition MI (A : Type) : Type := M unit ipc_action A.

(** The descriptor socket(2) returns; what the router answers to the lookup of a
    service and an instance under a mask: a failure, or the server it found
    first, if it found one; whether it takes a rule, and whether DPM_CTL opens. *)
Record ipc_env := {
  i_socket : Z;
  i_lookup : Z -> Z -> Z -> option (option server);
  i_rule : Z -> bool;
  i_dpm : bool
}.

(** open_ipc_socket writes both members of the union, one over the other. *)
Definition open_ipc_socket (fd : Z) (node port service instance address_type : Z) (d : qmi_device) : cres qmi_device :=
  let* a := wrn (addr d) 0 (le 4 node) in
  let* a := wrn a 4 (le 4 port) in
  let* a := wrn a 0 (le 4 service) in
  let* a := wrn a 4 (le 4 instance) in
  Ret {| qd_fd := fd; family := IPC_ROUTER; addrtype := address_type; addr := a; qd_service := u8 service;
         transaction_id := 1 |}.

Section Ipc.
Variable env : ipc_env.

(** * Services *)

(** The lookup with room for one server: the memory of the entry after it. *)
Definition lookup_server (service instance : Z) (mem : server) : option server :=
  match i_lookup env service instance (if instance =? 0 then 0 else 4294967295) with
  | None => None
  | Some None => Some mem
  | Some (Some s) => Some s
  end.

Definition is_server_active (service instance : Z) : MI bool :=
  emit Socket ;> emit CloseFd ;>
  ret (match lookup_server service instance no_server with Some s => negb (node_id s =? 41) | None => false end).

Definition get_node_port (service instance : Z) : MI server :=
  emit Socket ;> emit CloseFd ;>
  ret (match lookup_server service instance no_server with
       | Some s => if node_id s =? 41 then no_server else s
       | None => no_server
       end).

Definition get_service_name (service_id : Z) : string :=
  from_option snd "Unknown service"%string (List.find (fun p => fst p =? service_id) qmi_services).

(** The rest of the line of a service: its name, once for every row that has it. *)
Definition names_of (k : Z) : list Z :=
  concat (map (fun p => if fst p =? k then 32 :: zs (snd p) ++ [10] else []) qmi_services).
Definition service_line (k : Z) (s : server) : list Z :=
  fmt_i k ++ [32; 9; 32] ++ fmt_i 1 ++ [32; 9; 32] ++ zs "0x" ++ fmt_x 2 (node_id s) ++ [32; 9; 32] ++
  zs "0x" ++ fmt_x 2 (port_id s) ++ [32; 9] ++
  (if bool_decide (names_of k = []) then zs " Unknown service " ++ [10] else names_of k).
Definition listed (s : server) : bool := negb (port_id s =? 0x0e) && negb (port_id s =? 0x0b).
Fixpoint find_loop (n : nat) (k : Z) (mem : server) : MI Z :=
  match n with
  | O => ret 0
  | S n =>
      emit Socket ;>
      if i_socket env <? 0 then emit (Printed (zs "Error opening socket" ++ [10])) ;> ret (- EINVAL)
      else
        match lookup_server k 1 mem with
        | None => emit (Printed (zs "ioctl failed" ++ [10])) ;> emit CloseFd ;> ret (- EINVAL)
        | Some s =>
            when (listed s) (emit (Printed (service_line k s))) ;>
            emit CloseFd ;> find_loop n (k + 1) s
        end
  end.
(** The 4097 services from 1 on, in one buffer. *)
Definition find_services : MI Z :=
  emit (Printed (zs "Service Instance Node    Port " ++ [9] ++ zs " Name " ++ [10])) ;>
  emit (Printed (zs "--------------------------------------------" ++ [10])) ;>
  find_loop 4097 1 no_server.

(** * Rules *)

Definition rule (i : Z) : list Z := le 4 54 ++ le 4 i ++ le 4 IRSC_INSTANCE_ALL ++ le 4 0 ++ le 4 54.
Fixpoint rules_loop (n : nat) (i : Z) : MI Z :=
  match n with
  | O => ret 0
  | S n => emit (Rule (rule i)) ;> if i_rule env i then rules_loop n (i + 1) else ret 2
  end.
(** The test of the socket is for 0. *)
Definition setup_ipc_security : MI Z :=
  emit Socket ;>
  if i_socket env =? 0 then ret (-1)
  else do* r := rules_loop 511 0 in emit CloseFd ;> ret r.

(** * The port mapper *)

(** struct portmapper_open_request_new and _shared, after their assignments; the
    array of the name has [room] bytes. *)
Definition open_request (qmi_length hw_len : Z) (room : nat) (name : list Z) (peripheral pipe : Z) : cres (list Z) :=
  let* port_name := wrn (replicate room 0) 0 name in
  Ret ([0] ++ le 2 1 ++ le 2 32 ++ le 2 qmi_length ++
       [0x10] ++ le 2 hw_len ++ [1; zlen name] ++ port_name ++ le 4 DATA_EP_TYPE_BAM_DMUX ++ le 4 peripheral ++
       [0x11] ++ le 2 0x11 ++ [1] ++ le 4 DATA_EP_TYPE_BAM_DMUX ++ le 4 peripheral ++ le 4 pipe ++ le 4 pipe).

(** The outcomes of sendto(2): every failure is tried again after five seconds. *)
Fixpoint send_until (sends : list bool) (d : qmi_device) (packet : list Z) : MI unit :=
  match sends with
  | [] => lift Spin
  | ok :: sends =>
      emit (Sleep 5) ;> emit (SendTo (addrtype d) (addr d) packet) ;>
      if ok : bool then ret tt else send_until sends d packet
  end.
Definition open_channel (request : cres (list Z)) (sends : list bool) : MI Z :=
  do* d := lift (open_ipc_socket (i_socket env) IPC_HEXAGON_NODE IPC_HEXAGON_DPM_PORT 0x2f 0x1
                   IPC_ROUTER_DPM_ADDRTYPE qmi_device0) in
  emit Socket ;>
  if qd_fd d <? 0 then ret (- EINVAL)
  else
    emit BindToIpc ;> emit OpenDpm ;>
    if negb (i_dpm env) then emit CloseFd ;> ret (- EINVAL)
    else
      emit DpmIoctl ;> emit (RecvTimeout 1) ;>
      do* packet := lift request in
      send_until sends d packet ;>
      emit CloseFd ;> emit CloseFd ;> ret 0.
Definition init_port_mapper_internal (sends : list bool) : MI Z :=
  open_channel (open_request 0x2b 0x14 10 LOCAL_SMD_CTL_PORT_NAME 0 0) sends.
Definition init_port_mapper (sends : list bool) : MI Z :=
  open_channel (open_request 0x2c 0x15 11 SMDCTLPORTNAME 8 1) sends.
End Ipc.

(** * Addresses and requests *)

(** The node and the port are overwritten: the address is the last pair, which is
    the name a port mapper's socket asks for (its type is 1), and the node and port
    of the AT service only because init_atfwd passes the pairs the other way. *)
Lemma open_ipc_socket_addr fd node port service instance type d :
  zlen (addr d) = 8 ->
  open_ipc_socket fd node port service instance type d =
    Ret {| qd_fd := fd; family := IPC_ROUTER; addrtype := type; addr := le 4 service ++ le 4 instance;
           qd_service := u8 service; transaction_id := 1 |}.
Proof.
  intros Ha. unfold open_ipc_socket. destruct (addr d) as [|a0 [|a1 [|a2 [|a3 [|a4 [|a5 [|a6 [|a7 [|]]]]]]]]] eqn:E;
    try (exfalso; clear -Ha; unfold zlen in Ha; cbn [length] in Ha; lia).
  reflexivity.
Qed.

(** What a reader of an open request gets: the fields of the header, and of the two
    segments by the lengths they announce. *)
Record opened := { o_msgid : Z; o_name : list Z; o_hw : Z * Z; o_sw : Z * Z * Z * Z }.
Definition read_request (p : list Z) : cres (option opened) :=
  let* n := rd16 p 5 in
  let* msgid := rd16 p 3 in
  let* hw := rd p 7 in
  let* hwlen := rd16 p 8 in
  let* namelen := rd p 11 in
  let* name := rdn p 12 (Z.to_nat namelen) in
  let at_ := 12 + namelen in
  let* type := rd32 p at_ in
  let* peripheral := rd32 p (at_ + 4) in
  let so := 10 + hwlen in
  let* sw := rd p so in
  let* swlen := rd16 p (so + 1) in
  let* type2 := rd32 p (so + 4) in
  let* peripheral2 := rd32 p (so + 8) in
  let* consumer := rd32 p (so + 12) in
  let* producer := rd32 p (so + 16) in
  if (hw =? 0x10) && (sw =? 0x11) && (at_ + 8 =? so) && (so + 3 + swlen =? zlen p) && (zlen p =? 7 + n)
  then Ret (Some {| o_msgid := msgid; o_name := name; o_hw := (type, peripheral);
                    o_sw := (type2, peripheral2, consumer, producer) |})
  else Ret None.
Definition channel_request (internal : bool) : cres (list Z) :=
  if internal then open_request 0x2b 0x14 10 LOCAL_SMD_CTL_PORT_NAME 0 0 else open_request 0x2c 0x15 11 SMDCTLPORTNAME 8 1.
Definition channel (internal : bool) : opened :=
  {| o_msgid := 32; o_name := if internal then LOCAL_SMD_CTL_PORT_NAME else SMDCTLPORTNAME;
     o_hw := (DATA_EP_TYPE_BAM_DMUX, if internal then 0 else 8);
     o_sw := (DATA_EP_TYPE_BAM_DMUX, if internal then 0 else 8, if internal then 0 else 1, if internal then 0 else 1) |}.
Lemma channel_request_reads internal :
  exists p, channel_request internal = Ret p /\ read_request p = Ret (Some (channel internal)).
Proof. destruct internal; eexists; (split; [reflexivity|]); by vm_compute. Qed.

(** * The port mapper *)

(** A try. *)
Definition try_send (p : list Z) : list ipc_action := [Sleep 5; SendTo 1 (le 4 0x2f ++ le 4 1) p].
Lemma send_until_run d p n rest :
  addrtype d = 1 -> addr d = le 4 0x2f ++ le 4 1 ->
  send_until (replicate n false ++ true :: rest) d p tt = Ret (tt, tt, mjoin (replicate (S n) (try_send p))).
Proof.
  intros Ht Ha. induction n as [|n IH]; cbn [replicate app send_until].
  - autorewrite with eff. unfold ret. by rewrite after_Ret, Ht, Ha.
  - autorewrite with eff. rewrite IH, after_Ret, Ht, Ha. done.
Qed.
Lemma send_until_spins d p n : send_until (replicate n false) d p tt = Spin.
Proof.
  induction n as [|n IH]; cbn [replicate send_until]; [done|]. autorewrite with eff. by rewrite IH.
Qed.

Definition port_mapper (env : ipc_env) (internal : bool) : list bool -> MI Z :=
  if internal then init_port_mapper_internal env else init_port_mapper env.

(** The run of a channel's request: refused without its socket or the device, and
    otherwise sent every five seconds until it is taken, to the port mapper under
    its name, as a request that reads as the channel. *)
Theorem port_mapper_opens env internal sends :
  (i_socket env < 0 -> port_mapper env internal sends tt = Ret (- EINVAL, tt, [Socket])) /\
  (0 <= i_socket env -> i_dpm env = false ->
     port_mapper env internal sends tt = Ret (- EINVAL, tt, [Socket; BindToIpc; OpenDpm; CloseFd])) /\
  (0 <= i_socket env -> i_dpm env = true ->
     exists p, read_request p = Ret (Some (channel internal)) /\
     (forall n rest, sends = replicate n false ++ true :: rest ->
        port_mapper env internal sends tt =
          Ret (0, tt, [Socket; BindToIpc; OpenDpm; DpmIoctl; RecvTimeout 1] ++
                      mjoin (replicate (S n) (try_send p)) ++ [CloseFd; CloseFd])) /\
     (forall n, sends = replicate n false -> port_mapper env internal sends tt = Spin)).
Proof.
  assert (port_mapper env internal sends = open_channel env (channel_request internal) sends) as -> by by destruct internal.
  unfold open_channel. rewrite open_ipc_socket_addr by done.
  split; [|split].
  - intros H. rewrite (bind_lift _ _ _ _ eq_refl), bind_emit. cbn [qd_fd]. by rewrite (proj2 (Z.ltb_lt _ _) H).
  - intros H Hd. rewrite (bind_lift _ _ _ _ eq_refl), bind_emit. cbn [qd_fd].
    rewrite (proj2 (Z.ltb_ge _ _) H), Hd. by cbn [negb].
  - intros H Hd. destruct (channel_request_reads internal) as (p & Hp & Hr). exists p. split; [exact Hr|].
    rewrite (bind_lift _ _ _ _ eq_refl), bind_emit. cbn [qd_fd].
    rewrite (proj2 (Z.ltb_ge _ _) H), Hd. cbn [negb]. autorewrite with eff. rewrite (bind_lift _ _ _ _ Hp).
    split.
    + intros n rest ->. match goal with |- context [send_until _ ?d p] =>
        rewrite (bind_after _ _ _ _ _ _ (send_until_run d p n rest eq_refl eq_refl)) end.
      autorewrite with eff. unfold ret. rewrite !after_Ret, app_nil_r, <- !app_assoc. done.
    + intros n ->. unfold bind at 1. by rewrite send_until_spins.
Qed.

(** * Services and rules *)

(** A lookup that finds nothing is taken for a server. *)
Lemma absent_server_active env service instance :
  i_lookup env service instance (if instance =? 0 then 0 else 4294967295) = Some None ->
  is_server_active env service instance tt = Ret (true, tt, [Socket; CloseFd]).
Proof. intros H. unfold is_server_active, lookup_server. by rewrite H. Qed.
Lemma present_server_active env service instance s :
  i_lookup env service instance (if instance =? 0 then 0 else 4294967295) = Some (Some s) -> node_id s <> 41 ->
  is_server_active env service instance tt = Ret (true, tt, [Socket; CloseFd]).
Proof.
  intros H Hn. unfold is_server_active, lookup_server. rewrite H. autorewrite with eff. unfold ret. rewrite after_Ret.
  by rewrite (proj2 (Z.eqb_neq _ _) Hn).
Qed.

Definition rules (n : nat) : list ipc_action := map (fun i => Rule (rule (Z.of_nat i))) (seq 0 n).
(** The rules go up in order until one is refused. *)
Lemma rules_run env (n m : nat) :
  (forall i, 0 <= i < Z.of_nat (m + n) -> i_rule env i = true) ->
  rules_loop env n (Z.of_nat m) tt = Ret (0, tt, map (fun i => Rule (rule (Z.of_nat i))) (seq m n)).
Proof.
  revert m. induction n as [|n IH]; intros m Hr; cbn [rules_loop seq map]; [done|].
  autorewrite with eff. rewrite Hr by lia. replace (Z.of_nat m + 1) with (Z.of_nat (S m)) by lia.
  rewrite IH; [by rewrite after_Ret|]. intros i Hi. apply Hr. lia.
Qed.
Lemma security_set env : 0 < i_socket env -> (forall i, i_rule env i = true) ->
  setup_ipc_security env tt = Ret (0, tt, Socket :: rules 511 ++ [CloseFd]).
Proof.
  intros Hs Hr. unfold setup_ipc_security. autorewrite with eff. rewrite (proj2 (Z.eqb_neq _ 0)) by lia.
  rewrite (bind_after _ _ _ _ _ _ (rules_run env 511 0 (fun i _ => Hr i))).
  autorewrite with eff. unfold ret. by rewrite !after_Ret.
Qed.

(** The entry of the buffer after the lookups of the services up to [k]. *)
Fixpoint latest (env : ipc_env) (n : nat) (k : Z) (mem : server) : list (Z * server) :=
  match n with
  | O => []
  | S n =>
      let s := default mem (lookup_server env k 1 mem) in
      (k, s) :: latest env n (k + 1) s
  end.
Definition listing (l : list (Z * server)) : list ipc_action :=
  mjoin (map (fun '(k, s) => Socket :: (if listed s then [Printed (service_line k s)] else []) ++ [CloseFd]) l).
Lemma find_listing env n k mem :
  0 <= i_socket env -> (forall k mem, lookup_server env k 1 mem <> None) ->
  find_loop env n k mem tt = Ret (0, tt, listing (latest env n k mem)).
Proof.
  intros Hs Hl. revert k mem. induction n as [|n IH]; intros k mem; cbn [find_loop latest]; [done|].
  autorewrite with eff. rewrite (proj2 (Z.ltb_ge _ _) Hs).
  destruct (lookup_server env k 1 mem) as [s|] eqn:E; [|by apply Hl in E]. cbn [default from_option id].
  unfold listing. cbn [map mjoin list_join]. destruct (listed s); cbn [when]; autorewrite with eff;
    rewrite IH, !after_Ret; done.
Qed.
(** A service that no server has is listed with the one found before it. *)
Definition two_servers : ipc_env :=
  {| i_socket := 3;
     i_lookup := fun k _ _ => Some (if k =? 2 then Some {| node_id := 3; port_id := 9; sv_service := 2; sv_instance := 1 |} else None);
     i_rule := fun _ => true; i_dpm := true |}.
Example stale_entry_listed :
  map (fun '(k, s) => (k, node_id s, port_id s)) (latest two_servers 4 1 no_server) =
    [(1, 0, 0); (2, 3, 9); (3, 3, 9); (4, 3, 9)].
Proof. reflexivity. Qed.
