(* ===== verification/Device.v ===== *)
(** The daemon as the chat commands see it: the state of the modelled
    components side by side, each a part of it, what the commands do outside of
    them, and the reply a command sends (add_message_to_queue, src/helpers.c). *)

From stdpp Require Import base list numbers option strings.
From Stdlib Require Import ZArith Lia.
From S2P Require Import Prelude Libc Eff Qmi Dms Services Sms SmsFilter Config Call Replies Cells NasClient Wds Scheduler Tracking Proxy.

Definition MAX_MESSAGE_SIZE : Z := 160.

(** * State *)

(** cmd_runtime, src/command.c *)
Record cmd_runtime := {
  is_unlocked : bool;
  unlock_time : Z;
  cmd_history : list Z;  (* uint8_t[1024] *)
  cmd_position : Z;      (* uint16_t *)
  last_cmd_timestamp : Z
}.

Record device := {
  dv_rt : proxy_rt;
  dv_phone : phone;
  dv_clients : client_tracking;
  dv_debug : debug_cb;
  dv_sch : sch_runtime;
  dv_tasks_file : option (list Z);
  dv_cfg : cfg_state;
  dv_cmd : cmd_runtime;
  dv_nas : nas_runtime;
  dv_cells_file : option (list Z);
  dv_wds : wds_runtime;
  dv_dms : dms_runtime
}.

(** The proxy's, the scheduler's, the network client's and the data session's
    states share the phone, the last three the settings. *)
#[export, refine] Instance device_proxy : Part proxy device :=
  {| part d := {| rt := dv_rt d; ph := dv_phone d; clients := dv_clients d; debug := dv_debug d |};
     with_part p d := {| dv_rt := rt p; dv_phone := ph p; dv_clients := clients p;
       dv_debug := debug p; dv_sch := dv_sch d; dv_tasks_file := dv_tasks_file d;
       dv_cfg := dv_cfg d; dv_cmd := dv_cmd d;
       dv_nas := dv_nas d; dv_cells_file := dv_cells_file d;
       dv_wds := dv_wds d; dv_dms := dv_dms d |} |}.
Proof. all: abstract by intros; repeat match goal with p : proxy |- _ => destruct p | d : device |- _ => destruct d end. Defined.
#[export, refine] Instance device_sched : Part sched device :=
  {| part d := {| sch := dv_sch d; tasks_file := dv_tasks_file d; sch_phone := dv_phone d;
                  sch_cfg := dv_cfg d |};
     with_part p d := {| dv_rt := dv_rt d; dv_phone := sch_phone p; dv_clients := dv_clients d;
       dv_debug := dv_debug d; dv_sch := sch p; dv_tasks_file := tasks_file p;
       dv_cfg := sch_cfg p; dv_cmd := dv_cmd d;
       dv_nas := dv_nas d; dv_cells_file := dv_cells_file d;
       dv_wds := dv_wds d; dv_dms := dv_dms d |} |}.
Proof. all: abstract by intros; repeat match goal with p : sched |- _ => destruct p | d : device |- _ => destruct d end. Defined.
#[export, refine] Instance device_network : Part network device :=
  {| part d := {| nas := dv_nas d; cells_file := dv_cells_file d; nw_phone := dv_phone d; nw_cfg := dv_cfg d |};
     with_part p d := {| dv_rt := dv_rt d; dv_phone := nw_phone p; dv_clients := dv_clients d;
       dv_debug := dv_debug d; dv_sch := dv_sch d; dv_tasks_file := dv_tasks_file d;
       dv_cfg := nw_cfg p; dv_cmd := dv_cmd d; dv_nas := nas p; dv_cells_file := cells_file p;
       dv_wds := dv_wds d; dv_dms := dv_dms d |} |}.
Proof. all: abstract by intros; repeat match goal with p : network |- _ => destruct p | d : device |- _ => destruct d end. Defined.
#[export, refine] Instance device_session : Part data_session device :=
  {| part d := {| wds := dv_wds d; ds_phone := dv_phone d; ds_cfg := dv_cfg d |};
     with_part p d := {| dv_rt := dv_rt d; dv_phone := ds_phone p; dv_clients := dv_clients d;
       dv_debug := dv_debug d; dv_sch := dv_sch d; dv_tasks_file := dv_tasks_file d;
       dv_cfg := ds_cfg p; dv_cmd := dv_cmd d; dv_nas := dv_nas d; dv_cells_file := dv_cells_file d;
       dv_wds := wds p; dv_dms := dv_dms d |} |}.
Proof. all: abstract by intros; repeat match goal with p : data_session |- _ => destruct p | d : device |- _ => destruct d end. Defined.
#[export, refine] Instance device_dms : Part dms_runtime device :=
  {| part := dv_dms;
     with_part p d := {| dv_rt := dv_rt d; dv_phone := dv_phone d; dv_clients := dv_clients d;
       dv_debug := dv_debug d; dv_sch := dv_sch d; dv_tasks_file := dv_tasks_file d;
       dv_cfg := dv_cfg d; dv_cmd := dv_cmd d; dv_nas := dv_nas d; dv_cells_file := dv_cells_file d;
       dv_wds := dv_wds d; dv_dms := p |} |}.
Proof. all: abstract by intros; repeat match goal with d : device |- _ => destruct d end. Defined.
#[export, refine] Instance device_phone : Part phone device :=
  {| part := dv_phone;
     with_part p d := {| dv_rt := dv_rt d; dv_phone := p; dv_clients := dv_clients d;
       dv_debug := dv_debug d; dv_sch := dv_sch d; dv_tasks_file := dv_tasks_file d;
       dv_cfg := dv_cfg d; dv_cmd := dv_cmd d;
       dv_nas := dv_nas d; dv_cells_file := dv_cells_file d;
       dv_wds := dv_wds d; dv_dms := dv_dms d |} |}.
Proof. all: abstract by intros; repeat match goal with d : device |- _ => destruct d end. Defined.
#[export, refine] Instance device_cfg : Part cfg_state device :=
  {| part := dv_cfg;
     with_part c d := {| dv_rt := dv_rt d; dv_phone := dv_phone d; dv_clients := dv_clients d;
       dv_debug := dv_debug d; dv_sch := dv_sch d; dv_tasks_file := dv_tasks_file d;
       dv_cfg := c; dv_cmd := dv_cmd d;
       dv_nas := dv_nas d; dv_cells_file := dv_cells_file d;
       dv_wds := dv_wds d; dv_dms := dv_dms d |} |}.
Proof. all: abstract by intros; repeat match goal with d : device |- _ => destruct d end. Defined.
#[export, refine] Instance device_cmd : Part cmd_runtime device :=
  {| part := dv_cmd;
     with_part c d := {| dv_rt := dv_rt d; dv_phone := dv_phone d; dv_clients := dv_clients d;
       dv_debug := dv_debug d; dv_sch := dv_sch d; dv_tasks_file := dv_tasks_file d;
       dv_cfg := dv_cfg d; dv_cmd := c;
       dv_nas := dv_nas d; dv_cells_file := dv_cells_file d;
       dv_wds := dv_wds d; dv_dms := dv_dms d |} |}.
Proof. all: abstract by intros; repeat match goal with d : device |- _ => destruct d end. Defined.

(** * Actions and surroundings *)

(** The threads a command starts; they run later. *)
Inductive thread :=
| DelayedShutdown
| DelayedReboot
| ScheduleCall (command : list Z).

Inductive dev_action :=
| Sched (a : sched_action)
| Prx (a : proxy_action)
| Nas (a : nas_action)
| Wds (a : wds_action)
| Dms (a : dms_action)
| Svc (a : service_action)
| SuspendInhibit (mode : bool)      (* set_suspend_inhibit, helpers.c *)
| StoreAdb (en : bool)              (* store_adb_setting, helpers.c *)
| RestartUsb                        (* restart_usb_stack, helpers.c *)
| Thread (t : thread)               (* pthread_create *)
| RecordCurrentCall                 (* record_current_call, audio.c *)
| RecordNextCall (en : bool)        (* record_next_call, audio.c *)
| AtCommand (cmd : list Z).         (* send_at_command, helpers.c *)

Definition MV (A : Type) : Type := M device dev_action A.

(** struct sysinfo *)
Record sys_info := {
  uptime : Z;
  totalram : Z;
  freeram : Z;
  sharedram : Z;
  bufferram : Z;
  procs : Z
}.

(** What a command finds: the surroundings of the components; the memory of
    arrays that are not initialised (160 bytes of a reply, 160 of the lower
    case command, a task); the files it reads; and what other components
    answer. *)
Record chat_env := {
  ch_proxy : proxy_env;
  ch_sched : sched_env;
  ch_stack : list Z;
  ch_lower : list Z;
  ch_task : task_p;
  ch_wds : wds_env;                 (* its network from the second look on *)
  ch_suspended : bool;              (* isr_suspend_state *)
  ch_sysinfo : sys_info;
  ch_loadavg : option (list Z);     (* the 64 bytes after read(2) *)
  ch_adb : Z;                       (* is_adb_enabled *)
  ch_audio_mode : Z;                (* get_audio_mode *)
  ch_adsp : list Z;                 (* the name of the firmware's version *)
  ch_at_response : option (list Z); (* send_at_command: the answer's text *)
  ch_record : Z;                    (* record_current_call *)
  ch_dict : option (list Z);        (* DICT_PATH *)
  ch_log : option (list Z);         (* get_openqti_logfile *)
  ch_kernel_log : option (list Z);  (* /var/log/messages *)
  ch_thanks : option (list Z)       (* thankyou.txt *)
}.

(** * Steps *)

Definition in_sched {A} (m : MT A) : MV A := zoom Sched m.
Definition in_proxy {A} (m : MX A) : MV A := zoom Prx m.
Definition in_network {A} (m : MN A) : MV A := zoom Nas m.
(** The first look at the network's type sees the client's own. *)
Definition wds_env_of (env : wds_env) (d : device) : wds_env :=
  {| w_socket := w_socket env; w_ioctl := w_ioctl env;
     w_network k := if (k =? 0)%nat then network_type (curr_state (dv_nas d)) else w_network env k;
     w_polls := w_polls env |}.
Definition in_session {A} (env : chat_env) (m : wds_env -> MW A) : MV A :=
  do* d := get in zoom Wds (m (wds_env_of (ch_wds env) d)).
Definition in_dms {A} (m : MD A) : MV A := zoom Dms m.
Definition in_phone {A} (m : MP A) : MV A := zoom (fun a => Sched (Phone a)) m.
Definition in_cfg {A} (m : MC A) : MV A := zoom (fun a => Sched (Disk a)) m.
Definition in_cmd {A} (m : M cmd_runtime dev_action A) : MV A := zoom (fun a => a) m.

(** [add_message_to_queue(reply, strsz)], with strsz a size_t. *)
Definition send (reply : list Z) (strsz : Z) : MV unit :=
  in_phone (add_message_to_queue reply (u32 strsz)).

(** [strsz = snprintf(reply, MAX_MESSAGE_SIZE, ...); add_message_to_queue(reply, strsz)] *)
Definition say (reply text : list Z) : MV unit :=
  do* '(reply, strsz) := lift (snprintf reply MAX_MESSAGE_SIZE text) in
  send reply strsz.

(** The zeroed reply of calloc(3), memset(3) or an initialiser. *)
Definition zeros : list Z := replicate 160 0.

Definition settings_of : MV config_prototype := do* d := get in ret (settings (dv_cfg d)).
(** [get_rt_user_name()] and [get_rt_modem_name()], printed with %s. *)
Definition rt_user_name : MV (list Z) := do* c := settings_of in lift (cstr (user_name c)).
Definition rt_modem_name : MV (list Z) := do* c := settings_of in lift (cstr (modem_name c)).

(** * Replies in the store *)

(** A daemon outside of a simulated call, with a sound store. *)
Definition chat_ok (d : device) : Prop :=
  call_simulation_mode (calls (dv_phone d)) = false /\ runtime_ok (texts (dv_phone d)).
(** ... and with a text for the host. *)
Definition told (s : list Z) (d : device) : device :=
  with_part {| calls := calls (dv_phone d); texts := enqueue s (texts (dv_phone d)) |} d.

Lemma told_ok s d : chat_ok d -> 0 < zlen s <= 160 -> chat_ok (told s d).
Proof. intros [H1 H2] Hs. split; [done|]. by apply enqueue_ok. Qed.

Lemma in_phone_run {A} (m : MP A) (a : A) p t d :
  m (dv_phone d) = Ret (a, p, t) ->
  in_phone m d = Ret (a, with_part p d, map (fun x => Sched (Phone x)) t).
Proof. intros H. unfold in_phone. by apply zoom_run. Qed.

Lemma send_run reply n d :
  chat_ok d -> 0 < n <= 160 -> n <= zlen reply ->
  send reply n d = Ret (tt, told (take (Z.to_nat n) reply) d, []).
Proof.
  intros [Hc Hr] Hn Hl. unfold send. rewrite u32_small by lia.
  assert (add_message_to_queue reply n (dv_phone d) = Ret (tt,
    {| calls := calls (dv_phone d); texts := enqueue (take (Z.to_nat n) reply) (texts (dv_phone d)) |},
    [])) as H; [|by rewrite (in_phone_run _ _ _ _ _ H)].
  unfold add_message_to_queue. ifdec. unfold get_call_simulation_mode. autorewrite with eff. rewrite Hc.
  unfold zoom. cbn [part texts_part]. by rewrite add_sms_enqueue.
Qed.
Lemma send_nothing reply d : send reply 0 d = Ret (tt, d, []).
Proof. by destruct d. Qed.
Lemma send_faults reply n d :
  chat_ok d -> zlen reply = 160 -> 160 < n < 4294967296 ->
  queue_pos (texts (dv_phone d)) <= QUEUE_SIZE - 2 -> send reply n d = Oob.
Proof.
  intros [Hc Hr] Hl Hn Hq. unfold send. rewrite u32_small by lia. unfold in_phone.
  apply zoom_fault. cbn [part device_phone]. unfold add_message_to_queue. ifdec.
  unfold get_call_simulation_mode. autorewrite with eff. rewrite Hc.
  apply zoom_fault. apply add_sms_faults; [done|lia|exact Hq].
Qed.

(** A reply that fits is told; a longer one overruns the array it is in and
    the message it is copied to. *)
Lemma say_run reply text d :
  chat_ok d -> zlen reply = 160 -> 0 < zlen text < 160 ->
  say reply text d = Ret (tt, told text d, []).
Proof.
  intros Hd Hr Ht. unfold say, MAX_MESSAGE_SIZE.
  destruct (snprintf_160 reply text Hr) as (b & Hs & Hb & Htake).
  rewrite (bind_lift _ _ _ _ Hs), send_run by (done || lia).
  replace (Z.to_nat (zlen text)) with (length text) by (unfold zlen; lia). by rewrite Htake by lia.
Qed.
Lemma say_faults reply text d :
  chat_ok d -> zlen reply = 160 -> 160 < zlen text < 4294967296 ->
  queue_pos (texts (dv_phone d)) <= QUEUE_SIZE - 2 -> say reply text d = Oob.
Proof.
  intros Hd Hr Ht Hq. unfold say, MAX_MESSAGE_SIZE.
  destruct (snprintf_160 reply text Hr) as (b & Hs & Hb & _).
  rewrite (bind_lift _ _ _ _ Hs). by apply send_faults.
Qed.

(** * An example *)

Definition idle_cmd : cmd_runtime :=
  {| is_unlocked := false; unlock_time := 0; cmd_history := replicate 1024 0; cmd_position := 0;
     last_cmd_timestamp := 0 |}.
Definition sample_device : device :=
  {| dv_rt := rt (sample_proxy idle_phone); dv_phone := idle_phone; dv_clients := two_clients;
     dv_debug := debug (sample_proxy idle_phone); dv_sch := sch sample_sched; dv_tasks_file := None;
     dv_cfg := sample_settings_state; dv_cmd := idle_cmd; dv_nas := initial_nas; dv_cells_file := None;
     dv_wds := wds sample_session; dv_dms := idle_dms |}.
(** Fresh memory holds sevens. *)
Definition sample_env : chat_env :=
  {| ch_proxy := proxy_env_at 10; ch_sched := sched_env_at 150;
     ch_stack := replicate 160 7; ch_lower := replicate 160 7; ch_task := task_of 7 7 7 [];
     ch_wds := sample_wds_env; ch_suspended := false;
     ch_sysinfo := {| uptime := 90061; totalram := 0; freeram := 0; sharedram := 0; bufferram := 0; procs := 1 |};
     ch_loadavg := None; ch_adb := 0; ch_audio_mode := 0; ch_adsp := [];
     ch_at_response := None; ch_record := 0; ch_dict := None; ch_log := None; ch_kernel_log := None; ch_thanks := None |}.

Lemma sample_chat_ok : chat_ok sample_device.
Proof. split; [reflexivity|]. exact initial_runtime_ok. Qed.
