(* ===== verification/Chat.v ===== *)
(** The answers of the chat commands (src/chat_helpers.c): reports, names,
    network settings, tasks, the dictionary and the logs. The commands that
    schedule something are in Reminders.v. *)

From stdpp Require Import base list numbers option strings.
From Stdlib Require Import ZArith Lia.
From S2P Require Import Prelude Libc Eff Qmi Requests Dms Services Sms SmsFilter Config Call Replies Cells NasClient Wds Scheduler Tracking Proxy.
From S2P Require Import CommandTable Device.

Definition MSG_MAX_MULTIPART_SIZE : Z := 16384.
Definition MAX_MESSAGE_SIZE_HEADROOM_GSM7 : Z := 140.
Definition RELEASE_VER : string := "0.8.0".

(** [\n] *)
Definition nl : list Z := [10].
Definition yes_no (v : Z) : list Z := if v =? 1 then zs "Yes" else zs "No".
Definition on_off (v : Z) : list Z := if v =? 1 then zs "On" else zs "Off".

(** What follows the command's words in the text: [None] when they are not in
    it, the empty text when nothing follows. *)
Definition argument (cmd_id : Z) (command : list Z) : MV (option (list Z)) :=
  do* b := lift (row cmd_id) in
  ret (match strstr command (zs (cmd b)) with
       | Some r => Some (drop (length (zs (cmd b))) r)
       | None => None
       end).

(** [snprintf(dest, n, "%s", s)] into an array of [n] bytes: the string it holds. *)
Definition cut (n : nat) (s : list Z) : list Z := take (n - 1) s.

Section Chat.
Variable env : chat_env.

(** A reply that is not initialised. *)
Definition stack : list Z := ch_stack env.

(** * Reports *)

Definition cmd_get_running_config : MV unit :=
  do* c := settings_of in
  do* modem := rt_modem_name in
  do* user := rt_user_name in
  say zeros (zs "System" ++ nl ++ zs "- Name: " ++ modem ++ nl ++ zs "- Owner: " ++ user ++ nl ++
             zs "- Persistent storage: " ++ on_off (persistent_logging c) ++ nl ++
             zs "- ADB: " ++ on_off (ch_adb env) ++ nl ++
             zs "- Audio mode: " ++ (if ch_audio_mode env =? 1 then zs "USB" else zs "Internal") ++ nl) ;>
  say zeros (zs "User Data:" ++ nl ++
             zs "- Auto call recording: " ++ yes_no (automatic_call_recording c) ++ nl ++
             zs "- Call Wait behaviour: " ++
               (if callwait_autohangup c =? 1 then zs "Ignore" else zs "Reject") ++ nl ++
             zs "- Custom Alert tones: " ++ yes_no (custom_alert_tone c) ++ nl ++
             zs "- SMS Logging: " ++ yes_no (sms_logging c) ++ nl ++
             zs "- Boot time message recovery: " ++ yes_no (list_all_bypass c) ++ nl) ;>
  let tracking := zs "Signal tracking:" ++ nl ++
    zs "- Status: " ++ on_off (signal_tracking c) ++ nl ++
    zs "- Mode: " ++ zs (get_signal_tracking_mode_text c) ++ nl ++
    zs "- Notify net. downgrade: " ++ yes_no (signal_tracking_notify_downgrade c) ++ nl ++
    zs "- Notify cell changes: " ++
      zs (get_signal_tracking_cell_change_notification_mode_text c) ++ nl ++
    zs "- Save csv files with network data: " ++ yes_no (dump_network_tables c) ++ nl in
  do* '(reply, strsz) := lift (snprintf zeros MAX_MESSAGE_SIZE tracking) in
  send reply strsz ;>
  do* apn := lift (cstr (apn_addr c)) in
  do* username := lift (cstr (apn_username c)) in
  do* pass := lift (cstr (apn_password c)) in
  say reply (zs "Internal Networking" ++ nl ++
             zs "- Status: " ++ on_off (allow_internal_modem_connectivity c) ++ nl ++
             zs "- APN: " ++ apn ++ nl ++ zs "- User: " ++ username ++ nl ++
             zs "- Pass: " ++ pass ++ nl ++ zs "- Auth: " ++ pass ++ nl).

(** The counters are printed as ints. *)
Definition count_text (v : Z) : list Z := fmt_i (i32 v).
Definition cmd_get_rmnet_stats : MV unit :=
  do* d := get in
  let st := rmnet_packet_stats (dv_rt d) in
  say stack (zs "RMNET IF stats:" ++ nl ++ zs "Bypassed: " ++ count_text (bypassed st) ++ nl ++
             zs "Empty:" ++ count_text (empty_pkts st) ++ nl ++
             zs "Discarded:" ++ count_text (discarded st) ++ nl ++
             zs "Failed:" ++ count_text (failed st) ++ nl ++
             zs "Allowed:" ++ count_text (allowed st)).
Definition cmd_get_gps_stats : MV unit :=
  do* d := get in
  let st := gps_packet_stats (dv_rt d) in
  say stack (zs "GPS IF stats:" ++ nl ++ zs "Bypassed: " ++ count_text (bypassed st) ++ nl ++
             zs "Empty:" ++ count_text (empty_pkts st) ++ nl ++
             zs "Discarded:" ++ count_text (discarded st) ++ nl ++
             zs "Failed:" ++ count_text (failed st) ++ nl ++
             zs "Allowed:" ++ count_text (allowed st) ++ nl ++
             zs "QMI Location svc.: " ++ count_text (other st)).

Definition help_line (b : bot_command) : list Z :=
  zs (cmd b) ++ (if is_partial b then zs " x: " else zs ": ") ++ zs (help b) ++ nl.
Fixpoint help_rows (category_ : Z) (l : list bot_command) (r : list Z * Z) : cres (list Z * Z) :=
  match l with
  | [] => Ret r
  | b :: l =>
      let* r := if category_ =? category b then append MSG_MAX_MULTIPART_SIZE r (help_line b) else Ret r in
      help_rows category_ l r
  end.
Fixpoint help_categories (l : list (Z * string)) (r : list Z * Z) : cres (list Z * Z) :=
  match l with
  | [] => Ret r
  | (category_, name) :: l =>
      let* r := append MSG_MAX_MULTIPART_SIZE r (zs "Category: " ++ zs name ++ nl) in
      let* r := help_rows category_ bot_commands r in
      help_categories l r
  end.
Definition help_greeting : list Z :=
  zs "Welcome to the modem distro!" ++ nl ++
  zs "You can use the chat to view and change a lot of settings" ++ nl ++
  zs "Here's a list of what you can do:" ++ nl.
Definition full_help_msg : cres (list Z * Z) :=
  let* r := snprintf (replicate (Z.to_nat MSG_MAX_MULTIPART_SIZE) 0) MSG_MAX_MULTIPART_SIZE help_greeting in
  help_categories cmd_categories r.

(** The message in pieces of 140 bytes, from the place [strsz] on. *)
Fixpoint send_help (fuel : nat) (msg : list Z) (strsz full_msg_size : Z) : MV unit :=
  match fuel with
  | O => lift Spin
  | S fuel =>
      if strsz <? full_msg_size then
        let n := Z.min (full_msg_size - strsz) MAX_MESSAGE_SIZE_HEADROOM_GSM7 in
        do* piece := lift (rdn msg strsz (Z.to_nat n)) in
        do* reply := lift (wrn zeros 0 piece) in
        send reply n ;>
        send_help fuel msg (strsz + n) full_msg_size
      else ret tt
  end.
Definition cmd_get_help : MV unit :=
  do* '(msg, full_msg_size) := lift full_help_msg in
  in_phone (zoom Out (set_queue_lock true)) ;>
  send_help (Z.to_nat (MSG_MAX_MULTIPART_SIZE + 1)) msg 0 full_msg_size ;>
  in_phone (zoom Out (set_queue_lock false)).

(** [snprintf(output + at, MAX_MESSAGE_SIZE, ...)], with the size of the whole
    array. *)
Definition overwrite (r : list Z * Z) (text : list Z) : cres (list Z * Z) :=
  let '(buf, at_) := r in
  let* b := wrn buf at_ (take 159 text ++ [0]) in Ret (b, at_ + zlen text).
Definition cmd_get_uptime : MV unit :=
  do* user := rt_user_name in
  do* b := lift (row CMD_ID_GET_UPTIME) in
  let now := s_tm (ch_sched env) in
  let up := u32 (uptime (ch_sysinfo env)) in
  let updays := up / 86400 in
  let upminutes := up / 60 in
  let uphours := (upminutes / 60) mod 24 in
  do* '(output, bytes_written) := lift (
    let* r := append 160 (stack, 0) (zs "Hi " ++ user ++ zs ", " ++ zs (cmd_text b) ++ zs ":" ++ nl) in
    let* r := overwrite r (fmt_prec 2 (tm_hour now) ++ zs ":" ++ fmt_prec 2 (tm_min now) ++ zs ":" ++
                           fmt_prec 2 (tm_sec now) ++ zs " up ") in
    let* r := if updays =? 0 then Ret r
              else append 160 r (fmt_u updays ++ zs " day" ++
                                 (if updays =? 1 then [] else zs "s") ++ zs ", ") in
    if uphours =? 0 then append 160 r (fmt_u (upminutes mod 60) ++ zs " min")
    else append 160 r (fmt_width 2 uphours ++ zs ":" ++ fmt_prec 2 (upminutes mod 60))) in
  send output bytes_written.

Definition cmd_get_load_avg : MV unit :=
  match ch_loadavg env with
  | None => ret tt
  | Some output =>
      do* user := rt_user_name in
      do* b := lift (row CMD_ID_GET_LOADAVG) in
      do* output := lift (cstr output) in
      say stack (zs "Hi " ++ user ++ zs ", " ++ zs (cmd_text b) ++ zs ":" ++ nl ++ zs " " ++ output ++ nl)
  end.

Definition cmd_get_memory : MV unit :=
  let info := ch_sysinfo env in
  say stack (zs "Memory stats:" ++ nl ++ zs "Total:" ++ fmt_u (totalram info / 1024 / 1024) ++ zs "M" ++ nl ++
             zs "Free:" ++ fmt_u (freeram info / 1024 / 1024) ++ zs "M" ++ nl ++
             zs "Shared:" ++ fmt_u (sharedram info / 1024) ++ zs "K" ++ nl ++
             zs "Buffer:" ++ fmt_u (bufferram info / 1024) ++ zs "K" ++ nl ++
             zs "Procs:" ++ fmt_i (procs info) ++ nl).

(** The lines about a cell, one [snprintf] each. *)
Fixpoint append_all (r : list Z * Z) (lines : list (list Z)) : cres (list Z * Z) :=
  match lines with
  | [] => Ret r
  | line :: lines => let* r := append 160 r line in append_all r lines
  end.
Definition OCID_RADIO_GSM : Z := 0x01.
Definition OCID_RADIO_UMTS : Z := 0x05.
Definition OCID_RADIO_LTE : Z := 0x0b.
Definition OCID_RADIO_NR : Z := 0x0e.
Definition network_line (service : Z) : list (list Z) :=
  let line name := [zs "Current Network: " ++ zs name ++ nl] in
  if service =? OCID_RADIO_GSM then line "GSM"%string
  else if service =? OCID_RADIO_UMTS then line "UMTS"%string
  else if service =? OCID_RADIO_LTE then line "LTE"%string
  else if service =? OCID_RADIO_NR then line "5G"%string
  else [].
Definition report_lines (r : nas_report) : list (list Z) :=
  network_line (type_of_service r) ++
  [zs "Cell: " ++ fmt_x 8 (r_cell_id r) ++ nl;
   zs "Location Area Code: " ++ fmt_x 4 (r_lac r) ++ nl;
   zs "(E/)ARFCN " ++ fmt_u (arfcn r) ++ nl;
   zs "SRX Level (min) " ++ fmt_i (srx_level_min r) ++ zs " dBm" ++ nl;
   zs "SRX Level (max) " ++ fmt_i (srx_level_max r) ++ zs " dBm" ++ nl;
   zs "RX Level (min) " ++ fmt_u (rx_level_min r) ++ nl;
   zs "RX Level (max) " ++ fmt_u (rx_level_max r) ++ nl;
   zs "PSC (umts) " ++ fmt_x 4 (psc r) ++ nl;
   zs "Verified? " ++ yes_no (opencellid_verified r)].
Definition cmd_dump_signal_report : MV unit :=
  do* report := in_network get_current_cell_report in
  if r_mcc report =? 0 then
    say zeros (zs "Serving cell report has not been retrieved yet or is invalid" ++ nl)
  else
    do* '(reply, strsz) := lift (
      let* r := snprintf zeros MAX_MESSAGE_SIZE
        (zs "MCC: " ++ fmt_i (r_mcc report) ++ zs " MNC: " ++ fmt_i (r_mnc report) ++ nl) in
      append_all r (report_lines report)) in
    send reply strsz.

Definition network_types : list string :=
  ["Unknown"; "CDMA"; "EVDO"; "AMPS"; "GSM"; "UMTS"; "Error"; "Error"; "LTE"]%string.
Definition cmd_render_gsm_signal_data : MV unit :=
  do* d := get in
  let st := curr_state (dv_nas d) in
  let ty := network_type st in
  do* '(reply, strsz) := lift (
    let* r := append 160 (zeros, 0) (zs "Network type: ") in
    let* r := if ty <=? 8 then
                let* name := rdA network_types ty in append 160 r (zs name ++ nl)
              else append 160 r (zs "Unknown (0x" ++ fmt_x 2 ty ++ zs ")" ++ nl) in
    append 160 r (zs "Signal strength: -" ++ fmt_i (signal_level st) ++ zs " dBm" ++ nl)) in
  send reply strsz.

Definition cmd_get_sw_version : MV unit :=
  do* d := get in
  do* serial := lift (cstr (modem_serial_num (dv_dms d))) in
  do* hw := lift (cstr (modem_hw_rev (dv_dms d))) in
  do* rev := lift (cstr (modem_revision (dv_dms d))) in
  do* model := lift (cstr (modem_model (dv_dms d))) in
  do* '(reply, strsz) := lift (snprintf stack MAX_MESSAGE_SIZE
    (zs "FW Ver:" ++ zs RELEASE_VER ++ nl ++ zs "ADSP Ver:" ++ ch_adsp env ++ nl ++
     zs "Serial:" ++ serial ++ nl ++ zs "HW Rev:" ++ hw ++ nl ++
     zs "Rev:" ++ rev ++ nl ++ zs "Model:" ++ model ++ nl)) in
  send reply (if 159 <? strsz then 159 else strsz).

(** * Settings *)

(** The commands that take what follows them: [missing] is the answer when
    the command's words are not found, [f] what is done with a text. A command
    without a text is not answered. The reply is sent with the length the last
    [snprintf] returned, 0 when there was none. *)
Definition with_argument (cmd_id : Z) (command missing : list Z)
    (f : list Z -> MV (list Z)) : MV unit :=
  do* arg := argument cmd_id command in
  match arg with
  | None => say zeros missing
  | Some [] => send zeros 0
  | Some rest => do* text := f rest in say zeros text
  end.

Definition cmd_set_custom_modem_name (command : list Z) : MV unit :=
  with_argument CMD_ID_SET_MODEM_NAME command (zs "Error setting my new name" ++ nl) (fun rest =>
    let name := cut 32 rest in
    in_cfg (set_modem_name (s_cfg_env (ch_sched env)) name) ;>
    ret (zs "My name is now " ++ name ++ nl)).
Definition cmd_set_custom_user_name (command : list Z) : MV unit :=
  with_argument CMD_ID_SET_OWNER_NAME command (zs "Error setting your new name" ++ nl) (fun rest =>
    let name := cut 32 rest in
    in_cfg (set_user_name (s_cfg_env (ch_sched env)) name) ;>
    ret (zs "I will call you " ++ name ++ zs " from now on" ++ nl)).

Definition cmd_enable_service_debugging_for_service_id (command : list Z) : MV unit :=
  with_argument CMD_ID_DEBUG_ENABLE_SERVICE_LOGGING command
    (zs "Error trying to find a matching ID" ++ nl) (fun rest =>
    let service_id := u8 (atoi rest) in
    in_proxy (enable_service_debugging service_id) ;>
    ret (zs "Enabling debugging of service id " ++ fmt_u service_id ++ zs " (" ++
         zs (get_qmi_service_name service_id) ++ zs ") " ++ nl)).

Definition tracking_modes : list string :=
  ["0:Standalone learn"; "1:Standalone enforce"; "2:OpenCellID learn"; "3:OpenCellID enforce"]%string.
Definition cmd_set_new_signal_tracking_mode (command : list Z) : MV unit :=
  with_argument CMD_ID_ACTION_SET_ST_MODE command (zs "Error processing the command" ++ nl) (fun rest =>
    let mode := u8 (atoi rest) in
    if mode <? 4 then
      do* name := lift (rdA tracking_modes mode) in
      in_cfg (set_signal_tracking_mode (s_cfg_env (ch_sched env)) mode) ;>
      ret (zs "Signal Tracking mode changed: " ++ zs name ++ nl)
    else
      ret (zs "Available modes for signal tracking:" ++ nl ++
           concat (map (fun m => zs m ++ nl) tracking_modes) ++
           zs "Your choice: " ++ fmt_u mode ++ nl)).

Definition cmd_delete_task (command : list Z) : MV unit :=
  with_argument CMD_ID_ACTION_DELETE_TASK command (zs "Command mismatch!" ++ nl) (fun rest =>
    let taskID := atoi rest in
    do* r := in_sched (remove_task (ch_sched env) taskID) in
    ret (if r <? 0 then zs "Remove task " ++ fmt_i taskID ++ zs " failed: It doesn't exist!" ++ nl
         else zs "Removed task " ++ fmt_i taskID ++ zs " " ++ nl)).

(** The network's settings: a command without a text is not answered. *)
Definition with_network_argument (cmd_id : Z) (command missing : list Z)
    (f : list Z -> MV (list Z)) : MV unit :=
  do* arg := argument cmd_id command in
  match arg with
  | None => say stack missing
  | Some [] => ret tt
  | Some rest => do* text := f rest in say stack text
  end.
Definition cmd_configure_new_apn (command : list Z) : MV unit :=
  with_network_argument CMD_ID_ACTION_INTERNAL_NETWORK_SET_APN command
    (zs "Error setting internal APN name " ++ nl) (fun rest =>
    let apn := cut 128 rest in
    in_cfg (set_internal_network_apn_name (s_cfg_env (ch_sched env)) apn) ;>
    ret (zs "Setting internal APN name to " ++ apn ++ nl)).
Definition cmd_configure_apn_username (command : list Z) : MV unit :=
  with_network_argument CMD_ID_ACTION_INTERNAL_NETWORK_SET_USER command
    (zs "Error setting APN username " ++ nl) (fun rest =>
    let user := cut 128 rest in
    in_cfg (set_internal_network_username (s_cfg_env (ch_sched env)) user) ;>
    ret (zs "Setting internal APN username to " ++ user ++ nl)).
(** The password goes to [set_internal_network_username]. *)
Definition cmd_configure_apn_password (command : list Z) : MV unit :=
  with_network_argument CMD_ID_ACTION_INTERNAL_NETWORK_SET_PASS command
    (zs "Error setting APN password " ++ nl) (fun rest =>
    let pass := cut 128 rest in
    in_cfg (set_internal_network_username (s_cfg_env (ch_sched env)) pass) ;>
    ret (zs "Setting internal APN password to " ++ pass ++ nl)).

(** A word of a list of words, with the setting it stands for. *)
Definition with_choice (cmd_id : Z) (command : list Z) (choice : list Z -> option (MC unit))
    (changed unknown : list Z) : MV unit :=
  do* arg := argument cmd_id command in
  match arg with
  | Some (c :: rest) =>
      let word := cut 128 (c :: rest) in
      match choice word with
      | Some setter => in_cfg setter ;> say stack (changed ++ word ++ zs " " ++ nl)
      | None => say stack unknown
      end
  | _ => say stack unknown
  end.
Definition cmd_configure_internal_network_auth_method (command : list Z) : MV unit :=
  with_choice CMD_ID_ACTION_INTERNAL_NETWORK_SET_AUTH_METHOD command (fun word =>
    let set := set_internal_network_auth_method (s_cfg_env (ch_sched env)) in
    if streq word "none" then Some (set 0)
    else if streq word "pap" then Some (set 1)
    else if streq word "chap" then Some (set 2)
    else if streq word "auto" then Some (set 2)
    else None) (zs "Auth mode changed: ") (zs "Unknown auth mode!" ++ nl).
Definition cmd_configure_signal_tracking_cell_notification (command : list Z) : MV unit :=
  with_choice CMD_ID_ACTION_SET_ST_NOTIFICATION_LEVEL command (fun word =>
    let set := set_signal_tracking_cell_change_notification (s_cfg_env (ch_sched env)) in
    if streq word "none" then Some (set 0)
    else if streq word "new" then Some (set 1)
    else if streq word "all" then Some (set 2)
    else None) (zs "Cell ID change notificaitons: ")
    (zs "Unknown Cell ID change notification mode!" ++ nl).

Definition cmd_clear_internal_networking_auth : MV unit :=
  let cfg := s_cfg_env (ch_sched env) in
  in_cfg (set_internal_network_auth_method cfg 0) ;>
  in_cfg (set_internal_network_username cfg []) ;>
  in_cfg (set_internal_network_pass cfg []) ;>
  in_cfg (set_internal_network_apn_name cfg []) ;>
  say stack (zs "APN Auth data cleared" ++ nl).

(** The AT commands, with their NUL. *)
Definition cb_at_command (mode : Z) : list Z :=
  zs "AT+CSCB=" ++ fmt_u mode ++ [44; 34] ++ zs "0-6000" ++ [34; 44; 34] ++ zs "0-15" ++ [34; 13; 0].
Definition cmd_set_cb_broadcast (en : bool) : MV unit :=
  emit (AtCommand (cb_at_command (if en then 0 else 1))) ;>
  let ok := match ch_at_response env with
            | Some response => match strstr response (zs "OK") with Some _ => true | None => false end
            | None => false
            end in
  say zeros (if en then
               if ok then zs "Enabling Cell broadcast messages" ++ nl
               else zs "Failed to enable cell broadcasting messages" ++ nl
             else
               if ok then zs "Disabling Cell broadcast messages" ++ nl
               else zs "Failed to disable cell broadcasting messages" ++ nl).

(** * The dictionary *)

Definition word_types : Z := 9.  (* elements of wtypes *)

(** A definition in pieces: 159 bytes, sent with the NUL that follows them,
    while more than 160 are left. *)
Fixpoint send_definition (fuel : nat) (def : list Z) : MV unit :=
  match fuel with
  | O => lift Spin
  | S fuel =>
      match def with
      | [] => ret tt
      | _ =>
          if MAX_MESSAGE_SIZE <? zlen def then
            do* reply := lift (strncpy zeros def 159) in
            send reply MAX_MESSAGE_SIZE ;>
            send_definition fuel (drop 159 def)
          else
            do* reply := lift (strncpy zeros def (length def)) in
            send reply (zlen def)
      end
  end.

(** The tokens of one line of the dictionary: whether its word is the one
    looked for, and its definition. The type is read as an index for the log. *)
Definition dict_line (line word : list Z) : cres (bool * option (list Z)) :=
  match tokens 58 (until_nul line) with
  | _ :: type :: next :: rest =>
      if bool_decide (next = word) then
        if word_types <=? u8 (atoi type) then Oob
        else Ret (true, match rest with def :: _ => Some def | [] => None end)
      else Ret (false, None)
  | _ => Ret (false, None)
  end.

(** A line is read before [found] is looked at. *)
Fixpoint dict_lines (lines : list (list Z)) (word : list Z) : cres (option (list Z)) :=
  match lines with
  | [] => Ret None
  | line :: lines =>
      let* '(found, def) := dict_line line word in
      match def with
      | Some def => Ret (Some def)
      | None => if found then Ret None else dict_lines lines word
      end
  end.

Definition cmd_find_dictionary_entry (word : list Z) : MV Z :=
  match ch_dict env with
  | None => ret (- ENOMEM)
  | Some file =>
      do* def := lift (dict_lines (fgets_lines (Z.to_nat 32767) [] file) word) in
      match def with
      | Some def => send_definition (S (length def)) def ;> ret 0
      | None => say zeros (zs "I don't know what '" ++ word ++ zs "' means :(" ++ nl) ;> ret 0
      end
  end.
Definition cmd_search_dictionary_entry (command : list Z) : MV unit :=
  do* arg := argument CMD_ID_DEFINE command in
  match arg with
  | Some (c :: rest) => do* _ := cmd_find_dictionary_entry (cut 128 (c :: rest)) in ret tt
  | _ => ret tt
  end.

(** * Logs *)

(** fread(3) of 158 bytes at a time. *)
Fixpoint send_file (fuel : nat) (file : list Z) : MV unit :=
  match fuel with
  | O => lift Spin
  | S fuel =>
      match take 158 file with
      | [] => ret tt
      | got =>
          do* reply := lift (wrn zeros 0 got) in
          send reply (zlen got) ;>
          send_file fuel (drop 158 file)
      end
  end.
(** The whole log, from its start: its size is not looked at. A missing file
    is not answered. *)
Definition cmd_get_openqti_log : MV unit :=
  match ch_log env with
  | None => ret tt
  | Some file =>
      say stack (zs "OpenQTI Log" ++ nl) ;>
      send_file (S (length file)) file
  end.
Definition cmd_get_kernel_log : MV unit :=
  match ch_kernel_log env with
  | None => ret tt
  | Some file =>
      say stack (zs "DMESG:" ++ nl) ;>
      let size := zlen file in
      let limit := MAX_MESSAGE_SIZE * QUEUE_SIZE in
      let rest := if limit <? size then drop (Z.to_nat (size - limit)) file else file in
      send_file (S (length rest)) rest
  end.

(** getline(3) *)
Fixpoint getlines (cur file : list Z) : list (list Z) :=
  match file with
  | [] => match cur with [] => [] | _ => [cur] end
  | c :: file => if c =? 10 then (cur ++ [c]) :: getlines [] file else getlines (cur ++ [c]) file
  end.
Fixpoint thanks_loop (lines : list (list Z)) (reply : list Z) (strsz i : Z) : MV (list Z * Z) :=
  match lines with
  | [] => ret (reply, strsz)
  | line :: lines =>
      do* '(reply, strsz) := lift (append 160 (reply, strsz) (until_nul line)) in
      if (15 <? i) || (140 <? strsz) then
        send reply strsz ;> thanks_loop lines zeros 0 (u16 (0 + 1))
      else thanks_loop lines reply strsz (u16 (i + 1))
  end.
Definition heart : list Z :=
  zs "    .-.     .-." ++ nl ++ zs " .****. .****." ++ nl ++ zs ".*****.*****. Thank" ++ nl ++
  zs "  .*********.    You" ++ nl ++ zs "    .*******." ++ nl ++ zs "     .*****." ++ nl ++
  zs "       .***." ++ nl ++ zs "          *" ++ nl.
Definition cmd_thank_you : MV unit :=
  do* modem := rt_modem_name in
  do* '(reply, strsz) := lift (append 160 (zeros, 0)
    (zs "Hi, my name is " ++ modem ++ zs " and I'm at version " ++ zs RELEASE_VER ++ nl)) in
  send reply strsz ;>
  do* '(reply, strsz) := lift (snprintf reply MAX_MESSAGE_SIZE heart) in
  send reply strsz ;>
  do* '(reply, strsz) := lift (snprintf reply MAX_MESSAGE_SIZE
    (zs "Thank you for using me!" ++ nl ++ zs " And, especially, for all of you...")) in
  send reply strsz ;>
  do* reply :=
    match ch_thanks env with
    | None => ret reply
    | Some file =>
        do* '(reply, strsz) := thanks_loop (getlines [] file) zeros 0 0 in
        when (0 <? strsz) (send reply strsz) ;>
        ret reply
    end in
  say reply (zs "Thank you for supporting my development and improving me every day, " ++
             zs "I wouldn't have a purpose without you all!").

(** * Sample cell broadcasts *)

Definition gsm7_examples : list (list Z) := [
  [1; 115; 0; 128; 5; 1; 4; 2; 0; 1; 0; 103;
   0; 17; 96; 0; 0; 255; 255; 255; 255; 7; 88; 0;
   64; 0; 17; 28; 0; 22; 196; 100; 113; 10; 74; 78;
   169; 160; 98; 210; 89; 4; 21; 165; 80; 233; 83; 88;
   117; 30; 21; 196; 180; 11; 36; 147; 185; 98; 49; 151;
   12; 38; 147; 129; 90; 160; 152; 77; 71; 155; 129; 170;
   104; 57; 168; 5; 34; 134; 231; 32; 161; 112; 9; 42;
   203; 225; 242; 183; 152; 14; 34; 135; 231; 32; 119; 185;
   94; 6; 33; 195; 110; 114; 190; 117; 13; 203; 221; 173;
   105; 126; 78; 7; 22; 1; 0; 0];
  [1; 115; 0; 128; 5; 1; 4; 3; 0; 1; 0; 103;
   0; 17; 96; 0; 0; 255; 255; 255; 255; 7; 88; 0;
   64; 0; 17; 28; 0; 38; 229; 54; 40; 237; 6; 37;
   209; 242; 178; 28; 36; 45; 159; 211; 111; 183; 11; 84;
   156; 131; 196; 229; 57; 189; 140; 166; 131; 214; 229; 180;
   187; 12; 58; 150; 205; 97; 180; 220; 5; 18; 166; 233;
   244; 50; 40; 125; 118; 191; 229; 233; 178; 188; 236; 6;
   77; 211; 101; 16; 57; 93; 6; 57; 195; 99; 180; 60;
   61; 70; 211; 93; 160; 102; 25; 45; 7; 37; 221; 230;
   247; 28; 100; 6; 22; 1; 0; 0];
  [1; 115; 0; 128; 5; 1; 4; 4; 0; 1; 0; 103;
   0; 17; 96; 0; 0; 255; 255; 255; 255; 7; 88; 0;
   64; 0; 17; 28; 0; 54; 105; 55; 185; 236; 6; 77;
   211; 101; 80; 221; 77; 47; 203; 65; 104; 58; 29; 174;
   123; 189; 238; 247; 187; 75; 44; 94; 187; 196; 117; 55;
   217; 69; 46; 191; 198; 101; 54; 91; 44; 127; 135; 201;
   227; 240; 156; 14; 18; 130; 166; 111; 54; 155; 94; 118;
   131; 166; 233; 50; 136; 156; 46; 207; 203; 32; 103; 120;
   140; 150; 167; 199; 104; 58; 168; 44; 71; 135; 217; 244;
   178; 155; 5; 2; 22; 1; 0; 0];
  [1; 115; 0; 128; 5; 1; 4; 5; 0; 1; 0; 103;
   0; 17; 96; 0; 0; 255; 255; 255; 255; 7; 88; 0;
   64; 0; 17; 28; 0; 70; 243; 55; 200; 94; 150; 155;
   253; 103; 58; 40; 137; 150; 131; 166; 237; 176; 156; 14;
   71; 191; 221; 101; 208; 249; 108; 118; 129; 220; 233; 49;
   154; 14; 242; 139; 203; 114; 16; 185; 236; 6; 133; 215;
   244; 122; 153; 205; 46; 187; 65; 211; 183; 153; 126; 15;
   203; 203; 115; 122; 216; 77; 118; 129; 174; 105; 57; 168;
   220; 134; 155; 203; 104; 118; 217; 13; 34; 135; 209; 101;
   57; 11; 148; 4; 22; 1; 0; 0];
  [1; 115; 0; 128; 5; 1; 4; 6; 0; 1; 0; 103;
   0; 17; 96; 0; 0; 255; 255; 255; 255; 7; 88; 0;
   64; 0; 17; 28; 0; 86; 104; 57; 168; 232; 38; 159;
   203; 242; 61; 29; 20; 174; 155; 65; 228; 178; 27; 20;
   94; 211; 235; 101; 54; 187; 236; 6; 77; 223; 102; 250;
   61; 44; 47; 207; 233; 97; 55; 25; 164; 175; 131; 224;
   114; 191; 185; 236; 118; 129; 132; 229; 52; 200; 40; 15;
   159; 203; 110; 16; 58; 93; 150; 235; 235; 160; 123; 217;
   77; 46; 187; 65; 211; 116; 25; 52; 79; 143; 209; 32;
   113; 154; 78; 7; 22; 1; 0; 0];
  [1; 58; 0; 128; 5; 1; 4; 7; 0; 1; 0; 46;
   0; 17; 39; 0; 0; 255; 255; 255; 255; 7; 31; 0;
   64; 0; 17; 28; 0; 102; 101; 80; 216; 13; 74; 162;
   229; 101; 55; 232; 88; 150; 239; 233; 101; 116; 89; 62;
   167; 151; 217; 236; 178; 220; 213; 22; 1; 0; 0]].

Definition ucs2_examples : list (list Z) := [
  [1; 115; 0; 128; 5; 1; 4; 3; 0; 1; 0; 103;
   0; 17; 96; 0; 0; 255; 255; 255; 255; 7; 88; 0;
   99; 64; 0; 50; 89; 20; 0; 32; 4; 31; 4; 64;
   4; 62; 4; 66; 4; 79; 4; 51; 4; 62; 4; 60;
   0; 32; 4; 52; 4; 61; 4; 79; 0; 32; 4; 84;
   0; 32; 4; 50; 4; 56; 4; 65; 4; 62; 4; 58;
   4; 48; 0; 32; 4; 86; 4; 60; 4; 62; 4; 50;
   4; 86; 4; 64; 4; 61; 4; 86; 4; 65; 4; 66;
   4; 76; 0; 32; 4; 64; 4; 48; 4; 58; 4; 53;
   4; 66; 4; 61; 22; 1; 0; 0];
  [1; 115; 0; 128; 5; 1; 4; 4; 0; 1; 0; 103;
   0; 17; 96; 0; 0; 255; 255; 255; 255; 7; 88; 0;
   99; 64; 0; 50; 89; 36; 4; 56; 4; 69; 0; 32;
   4; 67; 4; 52; 4; 48; 4; 64; 4; 86; 4; 50;
   0; 32; 4; 63; 4; 62; 0; 32; 4; 66; 4; 53;
   4; 64; 4; 56; 4; 66; 4; 62; 4; 64; 4; 86;
   4; 87; 0; 32; 4; 35; 4; 58; 4; 64; 4; 48;
   4; 87; 4; 61; 4; 56; 0; 46; 0; 32; 4; 23;
   4; 48; 4; 59; 4; 56; 4; 72; 4; 48; 4; 57;
   4; 66; 4; 53; 22; 1; 0; 0];
  [1; 115; 0; 128; 5; 1; 4; 5; 0; 1; 0; 103;
   0; 17; 96; 0; 0; 255; 255; 255; 255; 7; 88; 0;
   99; 64; 0; 50; 89; 52; 4; 65; 4; 76; 0; 32;
   4; 50; 0; 32; 4; 67; 4; 58; 4; 64; 4; 56;
   4; 66; 4; 66; 4; 79; 4; 69; 0; 32; 4; 55;
   4; 48; 4; 64; 4; 48; 4; 52; 4; 56; 0; 32;
   4; 18; 4; 48; 4; 72; 4; 62; 4; 87; 0; 32;
   4; 49; 4; 53; 4; 55; 4; 63; 4; 53; 4; 58;
   4; 56; 0; 46; 0; 32; 4; 29; 4; 53; 0; 32;
   4; 61; 4; 53; 22; 1; 0; 0];
  [1; 114; 0; 128; 5; 1; 4; 6; 0; 1; 0; 102;
   0; 17; 95; 0; 0; 255; 255; 255; 255; 7; 87; 0;
   99; 64; 0; 50; 89; 68; 4; 69; 4; 66; 4; 67;
   4; 57; 4; 66; 4; 53; 0; 32; 4; 65; 4; 56;
   4; 51; 4; 61; 4; 48; 4; 59; 4; 48; 4; 60;
   4; 56; 0; 32; 0; 34; 4; 31; 4; 62; 4; 50;
   4; 86; 4; 66; 4; 64; 4; 79; 4; 61; 4; 48;
   0; 32; 4; 66; 4; 64; 4; 56; 4; 50; 4; 62;
   4; 51; 4; 48; 0; 34; 0; 46; 0; 13; 0; 13;
   0; 13; 0; 22; 1; 0; 0]].

Fixpoint check_examples (pkts : list (list Z)) : MV unit :=
  match pkts with
  | [] => ret tt
  | pkt :: pkts =>
      do* _ := in_proxy (texts_do (ch_proxy env) (fun e => check_cb_message e pkt (zlen pkt))) in
      check_examples pkts
  end.
Definition cmd_debug_gsm7_cb_message : MV unit :=
  say zeros (zs "Dummy CB Message parse" ++ nl) ;>
  check_examples gsm7_examples.
Definition cmd_debug_ucs2_cb_message : MV unit := check_examples ucs2_examples.
End Chat.
