(* ===== verification/Reminders.v ===== *)
(** The chat commands that schedule something (src/chat_helpers.c): splitting a
    command in words, reminders, wake-up calls, do-not-disturb, and the delayed
    call. *)

From stdpp Require Import base list numbers option strings.
From Stdlib Require Import ZArith Lia.
From S2P Require Import Prelude Libc Eff Qmi Requests Dms Services Sms SmsFilter Config Call Replies Cells NasClient Wds Scheduler Tracking Proxy.
From S2P Require Import CommandTable Device Chat.

(** * Numbers of two digits *)

(** strtol(3) of an array, which may have no NUL. *)
Fixpoint arr_digits (acc : Z) (s : list Z) : cres Z :=
  match s with
  | [] => Oob
  | c :: s => if isdigit c then arr_digits (10 * acc + (c - 48)) s else Ret acc
  end.
Fixpoint strtol_arr (s : list Z) : cres Z :=
  match s with
  | [] => Oob
  | c :: r =>
      if isspace c then strtol_arr r
      else if c =? 45 then let* v := arr_digits 0 r in Ret (- v)
      else if c =? 43 then arr_digits 0 r
      else arr_digits 0 s
  end.

(** [get_int_from_str(str, offset)] (src/helpers.c): the array of two has no
    room for a NUL. *)
Definition get_int_from_str (str : list Z) (offset : Z) : cres Z :=
  let* a := rd str offset in
  let* b := rd str (offset + 1) in
  strtol_arr (if isdigit b then [a; b] else [48; a]).

(** * Words *)

Definition MAX_MARKERS : Z := 128.

(** [temp_str] after strtok(3), the places of the NULs in [markers], from the
    second on, and the number of words. *)
Fixpoint fill_markers (temp : list Z) (i : Z) (markers : list Z) (phrase_size : Z)
  : cres (list Z * Z) :=
  match temp with
  | [] => Ret (markers, phrase_size)
  | c :: temp =>
      if c =? 0 then
        let* markers := wrA markers phrase_size i in
        fill_markers temp (i + 1) markers (phrase_size + 1)
      else fill_markers temp (i + 1) markers phrase_size
  end.

Record phrase := { temp_str : list Z; init_size : Z; markers : list Z; phrase_size : Z }.

(** [strcpy(temp_str, command)] into 160 bytes, and the rest of the preamble. *)
Definition split_command (command : list Z) : cres phrase :=
  if MAX_MESSAGE_SIZE <=? zlen command then Oob
  else
    let temp := strtok_all 32 false command in
    let* '(markers, n) := fill_markers temp 0 (replicate 128 0) 1 in
    Ret {| temp_str := temp ++ [0]; init_size := zlen command; markers := markers; phrase_size := n |}.

(** The start of word [i], and the 160 bytes of [current_word]. *)
Definition word_at (p : phrase) (i : Z) : cres (Z * list Z) :=
  let* mark := rdA (markers p) i in
  let* end_ := if phrase_size p <=? i + 1 then Ret (init_size p) else rdA (markers p) (i + 1) in
  let start := if 0 <? i then mark + 1 else mark in
  if end_ <? start then Oob
  else
    let* w := rdn (temp_str p) start (Z.to_nat (end_ - start)) in
    let* current_word := wrn zeros 0 w in
    Ret (start, current_word).

(** A loop over the words: a reply ends it early. *)
Fixpoint for_words {A} (n : nat) (i : Z) (p : phrase)
    (step : Z -> Z -> list Z -> A -> cres (list Z * Z + A)) (a : A) : cres (list Z * Z + A) :=
  match n with
  | O => Ret (inr a)
  | S n =>
      let* '(start, current_word) := word_at p i in
      let* r := step i start current_word a in
      match r with
      | inl reply => Ret (inl reply)
      | inr a => for_words n (i + 1) p step a
      end
  end.

(** * What the words say *)

Record request := {
  rq_task : task_p;
  rq_reply : list Z * Z;  (* reply and strsz *)
  rq_text : list Z        (* reminder_text *)
}.
Definition upd_time (f : execution_time -> execution_time) (t : task_p) : task_p :=
  {| t_type := t_type t; t_param := t_param t; t_status := t_status t; t_time := f (t_time t);
     t_arguments := t_arguments t |}.
Definition set_mode (v : Z) (t : execution_time) : execution_time :=
  {| exec_time := exec_time t; mode := v; hh := hh t; mm := mm t |}.
(** uint8_t fields *)
Definition set_hh_mm (h m : Z) (t : execution_time) : execution_time :=
  {| exec_time := exec_time t; mode := mode t; hh := u8 h; mm := u8 m |}.
Definition rq_with_task (f : execution_time -> execution_time) (r : request) : request :=
  {| rq_task := upd_time f (rq_task r); rq_reply := rq_reply r; rq_text := rq_text r |}.

(** [strsz = snprintf(reply, MAX_MESSAGE_SIZE, ...)], and go on. *)
Definition answer (text : list Z) (r : request) : cres request :=
  let* reply := snprintf (fst (rq_reply r)) MAX_MESSAGE_SIZE text in
  Ret {| rq_task := rq_task r; rq_reply := reply; rq_text := rq_text r |}.
(** ..., send it and return. *)
Definition refuse {A} (text : list Z) (r : request) : cres (list Z * Z + A) :=
  let* reply := snprintf (fst (rq_reply r)) MAX_MESSAGE_SIZE text in Ret (inl reply).
Definition go_on (r : request) : cres (list Z * Z + request) := Ret (inr r).

Definition has (s : list Z) (key : string) : bool :=
  match strstr s (zs key) with Some _ => true | None => false end.

(** "at" in the word, or "in" anywhere in the command. *)
Definition at_or_in (command word ask : list Z) (r : request) : cres (list Z * Z + request) :=
  if has word "at" then go_on r
  else if has command "in" then go_on (rq_with_task (set_mode SCHED_MODE_TIME_COUNTDOWN) r)
  else refuse ask r.

(** hh:mm, from a word with a colon. *)
Definition hours_minutes (current_word offset : list Z) (r : request) : cres request :=
  let* h := get_int_from_str current_word 0 in
  let* m := get_int_from_str offset 1 in
  Ret (rq_with_task (set_hh_mm h m) r).
(** The bytes from the colon on. *)
Definition from_colon (current_word : list Z) : list Z :=
  drop (length (until_nul current_word) - length (default [] (strchr (until_nul current_word) 58)))
       current_word.

Definition funny : list Z :=
  zs "Ha ha, very funny. Please give me a time value I can work with if you want me to do anything " ++ nl.
Definition no_hours : list Z :=
  zs "I might not be very smart, but I don't think there's enough hours in a day " ++ nl.
Definition no_minutes : list Z :=
  zs "I might not be very smart, but I don't think there's enough minutes in an hour " ++ nl.
(** A time of day is refused when one of its parts is out of range, and
    answered and kept when both are. *)
Definition time_of_day (ok : request -> cres (list Z * Z + request)) (r : request)
  : cres (list Z * Z + request) :=
  let t := t_time (rq_task r) in
  if (23 <? hh t) && (59 <? mm t) then let* r := answer funny r in go_on r
  else if 59 <? mm t then refuse no_minutes r
  else if 23 <? hh t then refuse no_hours r
  else ok r.

Definition too_long (word : list Z) : list Z :=
  zs "I can't wait for a task that long... " ++ word ++ nl.
Definition too_many_minutes (word : list Z) : list Z :=
  zs "Add another hour rather than putting 100 or more minutes... " ++ word ++ nl.
Definition hours_and_minutes (t : execution_time) : list Z :=
  fmt_i (hh t) ++ zs " hours and " ++ fmt_i (mm t) ++ zs " minutes".

Section Reminder.
Variable command : list Z.

(** ** Reminders *)

Definition reminder_word (i start : Z) (current_word : list Z) (r : request)
  : cres (list Z * Z + request) :=
  let* word := cstr current_word in
  if i =? 0 then
    if has word "remind" then go_on r else refuse (zs "First word in command is wrong" ++ nl) r
  else if i =? 1 then
    if has word "me" then go_on r else refuse (zs "Second word in command is wrong" ++ nl) r
  else if i =? 2 then
    at_or_in command word
      (zs "Do you want me to remind you *at* a specific time or *in* some time from now" ++ nl) r
  else if i =? 3 then
    match strchr word 58 with
    | Some _ =>
        let* r := hours_minutes current_word (from_colon current_word) r in
        if mode (t_time (rq_task r)) =? SCHED_MODE_TIME_AT then time_of_day go_on r else go_on r
    | None =>
        if 2 <? zlen word then refuse (too_long word) r
        else go_on (rq_with_task (set_hh_mm (atoi word) 0) r)
    end
  else if i =? 4 then
    let* text := wrn (rq_text r) 0 (drop (Z.to_nat start) command) in
    let* shown := cstr text in
    let r := {| rq_task := rq_task r; rq_reply := rq_reply r; rq_text := text |} in
    let t := t_time (rq_task r) in
    let* r := if mode t =? SCHED_MODE_TIME_AT then
                answer (zs " Remind you at " ++ fmt_prec 2 (hh t) ++ zs ":" ++ fmt_prec 2 (mm t) ++
                        zs "." ++ nl ++ shown ++ nl) r
              else if mode t =? SCHED_MODE_TIME_COUNTDOWN then
                answer (zs " Remind you in " ++ hours_and_minutes t ++ nl ++ shown ++ nl) r
              else Ret r in
    go_on r
  else go_on r.

(** ** Wake-up calls *)

Definition wakeup_word (i start : Z) (current_word : list Z) (r : request)
  : cres (list Z * Z + request) :=
  let* word := cstr current_word in
  if i =? 0 then
    if has word "wake" then go_on r else refuse (zs "First word in command is wrong" ++ nl) r
  else if i =? 1 then
    if has word "me" then go_on r else refuse (zs "Second word in command is wrong" ++ nl) r
  else if i =? 2 then
    if has word "up" then go_on r else refuse (zs "Second word in command is wrong" ++ nl) r
  else if i =? 3 then
    at_or_in command word
      (zs "Do you want me to wake you up *at* a specific time or *in* some time from now?" ++ nl) r
  else if i =? 4 then
    match strchr word 58 with
    | Some offset =>
        let* r := hours_minutes current_word (from_colon current_word) r in
        let t := t_time (rq_task r) in
        if 3 <? zlen offset then refuse (too_many_minutes word) r
        else if 2 <? zlen word - zlen offset then refuse (too_long word) r
        else if mode t =? SCHED_MODE_TIME_AT then
          time_of_day (fun r =>
            let* r := answer (zs "Waiting until " ++ fmt_i (hh t) ++ zs ":" ++ fmt_prec 2 (mm t) ++
                              zs " to call you back" ++ nl) r in
            go_on r) r
        else
          let* r := answer (zs "Waiting for " ++ hours_and_minutes t ++ zs " to call you back" ++ nl) r in
          go_on r
    | None =>
        if 2 <? zlen word then refuse (too_long word) r
        else
          let r := rq_with_task (set_hh_mm (atoi word) 0) r in
          let t := t_time (rq_task r) in
          if negb (mode t =? 0) then
            let* r := answer (zs "Waiting for " ++ fmt_i (hh t) ++ zs " hours to call you back" ++ nl) r in
            go_on r
          else if 24 <? hh t then refuse no_hours r
          else
            let* r := answer (zs "Waiting until " ++ fmt_i (hh t) ++ zs " to call you back" ++ nl) r in
            go_on r
    end
  else go_on r.

(** ** Do not disturb *)

Definition dnd_word (i start : Z) (current_word : list Z) (r : request)
  : cres (list Z * Z + request) :=
  let* word := cstr current_word in
  if i =? 3 then
    match strchr word 58 with
    | Some offset =>
        let* r := hours_minutes current_word (from_colon current_word) r in
        if 3 <? zlen offset then refuse (too_many_minutes word) r
        else if 2 <? zlen word - zlen offset then refuse (too_long word) r
        else
          let* r := answer (zs "Blocking incoming calls for " ++
                            hours_and_minutes (t_time (rq_task r)) ++ nl) r in
          go_on r
    | None =>
        if 2 <? zlen word then
          refuse (zs "I can't keep DND on _that_ long... " ++ word ++ nl) r
        else
          let r := rq_with_task (set_hh_mm (atoi word) 0) r in
          let t := t_time (rq_task r) in
          if 0 <? hh t then
            let* r := answer (zs "Blocking incoming calls for " ++ fmt_i (hh t) ++ zs " hour(s)" ++ nl) r in
            go_on r
          else
            refuse (fmt_i (hh t) ++
                    zs " hours is not a valid time! Please specify the number of hours" ++ nl) r
    end
  else go_on r.
End Reminder.

(** * The commands *)

Section Commands.
Variable env : chat_env.

(** The task on the stack, with its mode. *)
Definition first_request (mode : Z) : request :=
  {| rq_task := upd_time (set_mode mode) (ch_task env); rq_reply := (zeros, 0); rq_text := zeros |}.
(** [type], [status], [param] and [arguments] of the finished task. *)
Definition task_with (type : Z) (arguments : list Z) (t : task_p) : task_p :=
  {| t_type := type; t_param := 0; t_status := STATUS_PENDING; t_time := t_time t;
     t_arguments := arguments |}.

(** The frame of the three: check the command, read its words, and go on
    unless one was refused. *)
Definition schedule (cmd_id : Z) (command : list Z) (mode : Z)
    (word : Z -> Z -> list Z -> request -> cres (list Z * Z + request))
    (finish : request -> MV unit) : MV unit :=
  do* b := lift (row cmd_id) in
  match strstr command (zs (cmd b)) with
  | None => say zeros (zs "Command mismatch!" ++ nl)
  | Some _ =>
      do* p := lift (split_command command) in
      do* r := lift (for_words (Z.to_nat (phrase_size p)) 0 p word (first_request mode)) in
      match r with
      | inl (reply, strsz) => send reply strsz
      | inr r => finish r
      end
  end.

(** [add_task], and the reply: another one when there is no room. *)
Definition add_and_answer (task : task_p) (full : list Z) (on_full : MV unit) (r : request) : MV unit :=
  do* taskID := in_sched (add_task (ch_sched env) task) in
  do* '(reply, strsz) :=
    if taskID <? 0 then on_full ;> lift (snprintf (fst (rq_reply r)) MAX_MESSAGE_SIZE full)
    else ret (rq_reply r) in
  send reply strsz.

Definition cmd_schedule_reminder (command : list Z) : MV unit :=
  schedule CMD_ID_ACTION_SET_REMINDER command SCHED_MODE_TIME_AT (reminder_word command) (fun r =>
    do* text := lift (cstr (rq_text r)) in
    do* arguments := lift (strncpy (t_arguments (rq_task r)) text 160) in
    add_and_answer (task_with TASK_TYPE_CALL arguments (rq_task r))
      (zs " Can't add reminder, my task queue is full!" ++ nl) (ret tt) r).

Definition cmd_schedule_wakeup (command : list Z) : MV unit :=
  schedule CMD_ID_ACTION_WAKE_OWNER command SCHED_MODE_TIME_AT (wakeup_word command) (fun r =>
    do* user := rt_user_name in
    do* '(arguments, _) := lift (snprintf (t_arguments (rq_task r)) 160
      (zs "It's time to wakeup, " ++ user)) in
    add_and_answer (task_with TASK_TYPE_CALL arguments (rq_task r))
      (zs " Can't schedule wakeup, my task queue is full!" ++ nl) (ret tt) r).

Definition cmd_suspend_call_notifications (command : list Z) : MV unit :=
  schedule CMD_ID_ACTION_ENABLE_DND command SCHED_MODE_TIME_COUNTDOWN dnd_word (fun r =>
    in_phone (set_do_not_disturb true) ;>
    do* user := rt_user_name in
    do* '(arguments, _) := lift (snprintf (t_arguments (rq_task r)) 160
      (zs "Hi " ++ user ++ zs ", as requested, I'm disabling DND now!")) in
    do* _ := in_sched (remove_all_tasks_by_type (ch_sched env) TASK_TYPE_DND_CLEAR) in
    add_and_answer (task_with TASK_TYPE_DND_CLEAR arguments (rq_task r))
      (zs "Can't schedule DND disable, so keeping it off! (too many tasks)" ++ nl)
      (in_phone (set_do_not_disturb false)) r).

(** The thread of a delayed call: the answer and the seconds it sleeps, ... *)
Definition schedule_call_answer (command : list Z) : MV (option Z) :=
  do* arg := argument CMD_ID_ACTION_CALL_OWNER_COUNTDOWN command in
  match arg with
  | None => say zeros (zs "Error reading the command" ++ nl) ;> ret None
  | Some rest =>
      let delaysec := atoi (cut 10 rest) in
      if 0 <? delaysec then
        say zeros (zs "I will call you back in " ++ fmt_i delaysec ++ zs " seconds" ++ nl) ;>
        ret (Some delaysec)
      else
        do* user := rt_user_name in
        say zeros (zs "Please tell me in how many seconds you want me to call you, " ++ user ++ nl) ;>
        ret None
  end.
(** ... and what it does when it wakes. *)
Definition schedule_call_ring : MV unit := in_phone (set_pending_call_flag true).
Definition cmd_schedule_call (command : list Z) : MV unit :=
  do* delay := schedule_call_answer command in
  match delay with
  | Some _ => schedule_call_ring
  | None => ret tt
  end.
End Commands.

(** * Splitting is the inverse of joining *)

Fixpoint join (sep : Z) (ws : list (list Z)) : list Z :=
  match ws with
  | [] => []
  | [w] => w
  | w :: ws => w ++ sep :: join sep ws
  end.
Definition word_ok (w : list Z) : Prop := w <> [] /\ Forall (fun c => c <> 0 /\ c <> 32) w.

Lemma join_cons sep w ws : ws <> [] -> join sep (w :: ws) = w ++ sep :: join sep ws.
Proof. by destruct ws. Qed.
Lemma join_app sep a b : a <> [] -> b <> [] -> join sep (a ++ b) = join sep a ++ sep :: join sep b.
Proof.
  intros Ha Hb. induction a as [|w a IH]; [done|]. destruct (decide (a = [])) as [->|Hne].
  - cbn [app]. by rewrite join_cons.
  - rewrite join_cons by done. rewrite <- app_comm_cons, join_cons by by destruct a.
    by rewrite IH, <- app_assoc.
Qed.
Lemma zlen_join a b ws : zlen (join a ws) = zlen (join b ws).
Proof.
  induction ws as [|w ws IH]; [done|]. destruct (decide (ws = [])) as [->|Hne]; [done|].
  rewrite !join_cons by done. zl. lia.
Qed.
(** [n] words take [2 * n - 1] characters at least. *)
Lemma join_room sep ws : Forall word_ok ws -> ws <> [] -> 2 * zlen ws - 1 <= zlen (join sep ws).
Proof.
  intros Hw Hne. induction Hw as [|w ws [Hn _] Hw IH]; [done|].
  assert (1 <= zlen w) by (destruct w; [done|zl; pose proof (zlen_nonneg w); lia]).
  destruct (decide (ws = [])) as [->|Hne']; [change (join sep [w]) with w; zl; lia|].
  rewrite join_cons by done. specialize (IH Hne'). zl. lia.
Qed.

Lemma strtok_word b w s :
  word_ok w -> strtok_all 32 b (w ++ s) = w ++ strtok_all 32 true s.
Proof.
  intros [Hn Hw]. revert b Hn. induction Hw as [|c w [_ Hc] _ IH]; intros b Hn; [done|].
  cbn [app strtok_all]. rewrite (proj2 (Z.eqb_neq c 32) Hc). f_equal.
  destruct w; [done|]. by apply IH.
Qed.
Lemma strtok_join ws : Forall word_ok ws -> strtok_all 32 false (join 32 ws) = join 0 ws.
Proof.
  induction 1 as [|w ws Hw _ IH]; [done|]. destruct (decide (ws = [])) as [->|Hne].
  - change (join 32 [w]) with w. rewrite <- (app_nil_r w) at 1. rewrite strtok_word by done.
    cbn [strtok_all]. by rewrite app_nil_r.
  - rewrite !join_cons, strtok_word by done. cbn [strtok_all].
    change (32 =? 32) with true. cbn match. by rewrite IH.
Qed.

Lemma fill_word w s i markers k :
  Forall (fun c => c <> 0) w -> fill_markers (w ++ s) i markers k = fill_markers s (i + zlen w) markers k.
Proof.
  intros Hw. revert i. induction Hw as [|c w Hc _ IH]; intros i; cbn [app].
  - change (zlen []) with 0. by rewrite Z.add_0_r.
  - cbn [fill_markers]. rewrite (proj2 (Z.eqb_neq c 0) Hc), IH. zl. f_equal. lia.
Qed.
Lemma word_nonzero w : word_ok w -> Forall (fun c => c <> 0) w.
Proof. intros [_ Hw]. eapply Forall_impl; [exact Hw|]. by intros ? []. Qed.

(** The marks are the ends of the words but the last. *)
Lemma fill_join ws i m k :
  Forall word_ok ws -> ws <> [] -> 0 <= k -> k + zlen ws - 1 <= zlen m ->
  exists m', fill_markers (join 0 ws) i m k = Ret (m', k + zlen ws - 1) /\ zlen m' = zlen m /\
    (forall j, 0 <= j < k -> rdA m' j = rdA m j) /\
    (forall j, (0 < j < length ws)%nat -> rdA m' (k + Z.of_nat j - 1) = Ret (i + zlen (join 0 (take j ws)))).
Proof.
  intros Hws. revert i m k. induction Hws as [|w ws Hw Hws IH]; intros i m k Hne Hk Hm; [done|].
  destruct (decide (ws = [])) as [->|Hne'].
  - change (join 0 [w]) with w. rewrite <- (app_nil_r w), fill_word by by apply word_nonzero.
    exists m. zl. split; [cbn; do 2 f_equal; lia|]. split; [done|]. split; [done|].
    intros j Hj. cbn in Hj. lia.
  - rewrite join_cons, fill_word by (try apply word_nonzero; done). cbn [fill_markers].
    change (0 =? 0) with true. cbn match.
    assert (1 <= zlen ws) by (destruct ws; [done|zl; pose proof (zlen_nonneg ws); lia]).
    zl. rewrite wrA_ok by lia. cbn [cbind].
    destruct (IH (i + zlen w + 1) (<[Z.to_nat k := i + zlen w]> m) (k + 1)) as (m' & Hf & Hz & Hlow & Hat);
      [done|lia|zl; lia|].
    exists m'. split; [rewrite Hf; do 2 f_equal; lia|]. split; [zl; lia|].
    split.
    + intros j Hj. rewrite Hlow by lia. rewrite rdA_insert by lia. by ifdec.
    + intros j Hj. destruct j as [|[|j]]; [lia| |].
      * replace (k + Z.of_nat 1 - 1) with k by lia. rewrite Hlow by lia. rewrite rdA_insert by lia.
        ifdec. cbn [take]. by rewrite take_0.
      * cbn [length] in Hj. specialize (Hat (S j) ltac:(lia)).
        replace (k + Z.of_nat (S (S j)) - 1) with (k + 1 + Z.of_nat (S j) - 1) by lia. rewrite Hat.
        change (take (S (S j)) (w :: ws)) with (w :: take (S j) ws).
        rewrite (join_cons 0 w) by (by destruct ws). f_equal. zl. lia.
Qed.

(** The words of a command of words between single blanks. *)
Definition phrase_of (ws : list (list Z)) (p : phrase) : Prop :=
  temp_str p = join 0 ws ++ [0] /\ init_size p = zlen (join 0 ws) /\ phrase_size p = zlen ws /\
  rdA (markers p) 0 = Ret 0 /\
  forall j, (0 < j < length ws)%nat -> rdA (markers p) (Z.of_nat j) = Ret (zlen (join 0 (take j ws))).

Lemma split_command_join ws :
  Forall word_ok ws -> ws <> [] -> zlen (join 32 ws) < 160 ->
  exists p, split_command (join 32 ws) = Ret p /\ phrase_of ws p.
Proof.
  intros Hws Hne Hl. unfold split_command, MAX_MESSAGE_SIZE. ifdec. rewrite strtok_join by done.
  pose proof (join_room 32 ws Hws Hne). 
  destruct (fill_join ws 0 (replicate 128 0) 1 Hws Hne) as (m & Hf & Hz & Hlow & Hat); [lia|zl; lia|].
  rewrite Hf. cbn [cbind]. eexists. split; [reflexivity|]. split_and!; cbn [temp_str init_size markers phrase_size]; [done| | | |].
  - apply zlen_join.
  - lia.
  - by rewrite Hlow by lia.
  - intros j Hj. specialize (Hat j Hj). by replace (1 + Z.of_nat j - 1) with (Z.of_nat j) in Hat by lia.
Qed.

(** Where a word starts. *)
Definition start_of (ws : list (list Z)) (i : nat) : Z :=
  if decide (i = 0%nat) then 0 else zlen (join 32 (take i ws)) + 1.

Lemma word_at_join ws p i w :
  phrase_of ws p -> ws !! i = Some w -> zlen (join 32 ws) < 160 ->
  word_at p (Z.of_nat i) = Ret (start_of ws i, w ++ replicate (160 - length w) 0).
Proof.
  intros (Ht & Hi & Hn & H0 & Hm) Hw Hl. pose proof (lookup_lt_Some _ _ _ Hw) as Hlt.
  assert (Hsplit : exists a b, join 0 ws ++ [0] = a ++ w ++ 0 :: b /\ zlen a = start_of ws i /\
    start_of ws i + zlen w = zlen (join 0 (take (S i) ws))).
  { assert (Hhead : exists a, join 0 (take (S i) ws) = a ++ w /\ zlen a = start_of ws i).
    { rewrite (take_S_r _ _ _ Hw). unfold start_of. case_decide as Hd; [subst; rewrite take_0; by exists []|].
      exists (join 0 (take i ws) ++ [0]). rewrite join_app by (try done; destruct i, ws; done).
      split; [by rewrite <- app_assoc|]. zl. rewrite (zlen_join 32 0). lia. }
    destruct Hhead as (a & Ha & Hz). exists a.
    destruct (decide (drop (S i) ws = [])) as [Hd|Hd].
    - exists []. assert (take (S i) ws = ws) as Htk by (rewrite <- (take_drop (S i) ws) at 2; by rewrite Hd, app_nil_r).
      rewrite Htk in Ha |- *. split; [by rewrite Ha, <- app_assoc|]. split; [done|]. rewrite Ha. zl. lia.
    - exists (join 0 (drop (S i) ws) ++ [0]). split.
      + rewrite <- (take_drop (S i) ws) at 1. rewrite join_app by (try done; by destruct ws).
        rewrite Ha, <- !app_assoc. by rewrite <- !app_comm_cons.
      + split; [done|]. rewrite Ha. zl. lia. }
  destruct Hsplit as (a & b & Hab & Hza & Hend).
  assert (Hzw : zlen w <= 160).
  { rewrite (zlen_join 32 0) in Hl. apply (f_equal zlen) in Hab. zl. pose proof (zlen_nonneg a).
    pose proof (zlen_nonneg b). lia. }
  unfold word_at.
  assert (Hstart : exists mark, rdA (markers p) (Z.of_nat i) = Ret mark /\
    (if 0 <? Z.of_nat i then mark + 1 else mark) = start_of ws i).
  { unfold start_of. case_decide as Hd; [subst i; exists 0; change (Z.of_nat 0) with 0; by rewrite H0|].
    exists (zlen (join 0 (take i ws))). rewrite Hm by lia. ifdec. split; [done|]. by rewrite (zlen_join 0 32). }
  destruct Hstart as (mark & -> & Hst). cbn [cbind].
  assert (Hen : (if phrase_size p <=? Z.of_nat i + 1 then Ret (init_size p) else rdA (markers p) (Z.of_nat i + 1)) =
    Ret (start_of ws i + zlen w)).
  { rewrite Hn, Hend. unfold zlen. csplit.
    - rewrite Hi. by rewrite take_ge by lia.
    - replace (Z.of_nat i + 1) with (Z.of_nat (S i)) by lia. by rewrite Hm by lia. }
  rewrite Hen, Hst. cbn [cbind]. pose proof (zlen_nonneg w). ifdec.
  rewrite Ht, Hab, <- Hza. replace (Z.to_nat (zlen a + zlen w - zlen a)) with (length w) by (unfold zlen; lia).
  rewrite rdn_app. cbn [cbind]. rewrite wrn_ok by (unfold zeros; zl; lia). cbn [cbind].
  unfold zeros. change (take (Z.to_nat 0) (replicate 160 0)) with (@nil Z). cbn [app].
  by rewrite drop_replicate.
Qed.

Lemma join_nonzero ws : Forall word_ok ws -> Forall (fun c => c <> 0) (join 32 ws).
Proof.
  induction 1 as [|w ws Hw Hws IH]; [constructor|].
  destruct (decide (ws = [])) as [->|Hne]; [by apply word_nonzero|].
  rewrite join_cons by done. apply Forall_app. split; [by apply word_nonzero|]. by constructor.
Qed.
Lemma drop_start ws i : (i < length ws)%nat -> drop (Z.to_nat (start_of ws i)) (join 32 ws) = join 32 (drop i ws).
Proof.
  intros Hi. unfold start_of. case_decide as Hd; [by subst|].
  assert (Hne : take i ws <> []) by (destruct i; [done|]; destruct ws; [cbn in Hi; lia|done]).
  assert (Hne' : drop i ws <> []).
  { intros H. apply (f_equal length) in H. rewrite length_drop in H. cbn in H. lia. }
  rewrite <- (take_drop i ws) at 2. rewrite join_app by done. rewrite cons_middle, app_assoc.
  apply drop_app_length'. rewrite length_app. cbn. unfold zlen. lia.
Qed.

(** The words of a command of words between single blanks are found, each
    with the place it starts at, up to the 160 characters a text has. *)
Theorem words_of_command ws :
  Forall word_ok ws -> ws <> [] -> zlen (join 32 ws) < 160 ->
  exists p, split_command (join 32 ws) = Ret p /\ phrase_size p = zlen ws /\
    forall i w, ws !! i = Some w -> exists start,
      word_at p (Z.of_nat i) = Ret (start, w ++ replicate (160 - length w) 0) /\
      drop (Z.to_nat start) (join 32 ws) = join 32 (drop i ws).
Proof.
  intros Hws Hne Hl. destruct (split_command_join ws Hws Hne Hl) as (p & Hp & Hph). exists p.
  split; [done|]. split; [by destruct Hph as (_ & _ & ? & _)|]. intros i w Hi. exists (start_of ws i).
  split; [by apply word_at_join|]. apply drop_start. by eapply lookup_lt_Some.
Qed.
Lemma words_of_command_witness :
  exists p, split_command (zs "wake me up") = Ret p /\ phrase_size p = 3 /\
    exists start, word_at p 2 = Ret (start, zs "up" ++ replicate 158 0) /\
      drop (Z.to_nat start) (zs "wake me up") = zs "up".
Proof.
  destruct (words_of_command [zs "wake"; zs "me"; zs "up"]) as (p & Hp & Hn & Hw).
  - repeat constructor; (done || vm_compute; congruence).
  - done.
  - reflexivity.
  - exists p. split; [exact Hp|]. split; [exact Hn|]. exact (Hw 2%nat (zs "up") eq_refl).
Defined.

(** * A reminder *)

Lemma for_words_go {A} n i p (step : Z -> Z -> list Z -> A -> cres (list Z * Z + A)) a a' start w :
  word_at p i = Ret (start, w) -> step i start w a = Ret (inr a') ->
  for_words (S n) i p step a = for_words n (i + 1) p step a'.
Proof. intros Hw Hs. cbn [for_words]. rewrite Hw. cbn [cbind]. by rewrite Hs. Qed.
(** Words the step does not look at. *)
Lemma for_words_rest {A} n k ws p (step : Z -> Z -> list Z -> A -> cres (list Z * Z + A)) a :
  phrase_of ws p -> zlen (join 32 ws) < 160 -> (k + n <= length ws)%nat ->
  (forall i start w, Z.of_nat k <= i -> w ∈ ws ->
     step i start (w ++ replicate (160 - length w) 0) a = Ret (inr a)) ->
  for_words n (Z.of_nat k) p step a = Ret (inr a).
Proof.
  intros Hp Hl Hle Hstep. revert k Hle Hstep. induction n as [|n IH]; intros k Hle Hstep; [done|].
  destruct (lookup_lt_is_Some_2 ws k) as [w Hw]; [lia|].
  erewrite for_words_go; [|by eapply word_at_join|].
  - replace (Z.of_nat k + 1) with (Z.of_nat (S k)) by lia. apply IH; [lia|]. intros i start w' Hi. apply Hstep. lia.
  - apply Hstep; [lia|]. by eapply list_elem_of_lookup_2.
Qed.

Lemma has_self a b key : has (a ++ zs key ++ b) key = true.
Proof.
  unfold has. pose proof (proj2 (strstr_contains (a ++ zs key ++ b) (zs key))) as H.
  destruct (strstr _ _); [done|]. exfalso. apply H; [|done]. by exists a, b.
Qed.
Lemma strchr_none s c : Forall (fun x => x <> c) s -> strchr s c = None.
Proof. induction 1 as [|x s Hx _ IH]; [done|]. cbn [strchr]. by rewrite (proj2 (Z.eqb_neq x c) Hx), IH. Qed.

Lemma word_text w : word_ok w -> (length w < 160)%nat -> cstr (w ++ replicate (160 - length w) 0) = Ret w.
Proof.
  intros Hw Hl. destruct (160 - length w)%nat eqn:E; [lia|]. cbn [replicate].
  apply cstr_app. by apply word_nonzero.
Qed.

(** The word of an hour. *)
Lemma hour_word h : 0 <= h < 100 ->
  word_ok (fmt_u h) /\ zlen (fmt_u h) <= 2 /\ strchr (fmt_u h) 58 = None /\ atoi (fmt_u h) = h.
Proof.
  intros Hh. pose proof (fmt_u_digits h ltac:(lia)) as Hd. split_and!.
  - split.
    + destruct (dec_go_cons 19 h) as (c & r & E & _); [lia|]. unfold fmt_u. by rewrite E.
    + eapply Forall_impl; [exact Hd|]. intros c Hc. unfold isdigit in Hc. b2p. lia.
  - unfold fmt_u. cbn [dec_go]. csplit; [done|]. rewrite (proj2 (Z.ltb_lt (h / 10) 10)) by dlia. done.
  - apply strchr_none. eapply Forall_impl; [exact Hd|]. intros c Hc. unfold isdigit in Hc. b2p. lia.
  - pose proof (atoi_fmt_i h ltac:(lia)) as Ha. unfold fmt_i in Ha. by rewrite (proj2 (Z.ltb_ge h 0)) in Ha by lia.
Qed.

Definition preposition (at_ : bool) : list Z := if at_ then zs "at" else zs "in".
Definition mode_of (at_ : bool) : Z := if at_ then SCHED_MODE_TIME_AT else SCHED_MODE_TIME_COUNTDOWN.
(** "remind me in 2 tea" *)
Definition remind_words (at_ : bool) (h : Z) (text : list (list Z)) : list (list Z) :=
  zs "remind" :: zs "me" :: preposition at_ :: fmt_u h :: text.
Definition remind_answer (at_ : bool) (h : Z) (said : list Z) : list Z :=
  if at_ then zs " Remind you at " ++ fmt_prec 2 h ++ zs ":" ++ fmt_prec 2 0 ++ zs "." ++ nl ++ said ++ nl
  else zs " Remind you in " ++ (fmt_i h ++ zs " hours and " ++ fmt_i 0 ++ zs " minutes") ++ nl ++ said ++ nl.

Section Steps.
Variables (command : list Z) (start : Z) (r : request).
Abbreviation pad w := (w ++ replicate (160 - length w) 0).

Lemma remind_step_0 : reminder_word command 0 start (pad (zs "remind")) r = Ret (inr r).
Proof. reflexivity. Qed.
Lemma remind_step_1 : reminder_word command 1 start (pad (zs "me")) r = Ret (inr r).
Proof. reflexivity. Qed.
Lemma remind_step_2 at_ :
  mode (t_time (rq_task r)) = SCHED_MODE_TIME_AT -> (at_ = false -> has command "in" = true) ->
  exists r', reminder_word command 2 start (pad (preposition at_)) r = Ret (inr r') /\
    r' = if at_ then r else rq_with_task (set_mode (mode_of at_)) r.
Proof.
  intros Hm Hin. destruct at_; eexists; (split; [|reflexivity]); [reflexivity|].
  transitivity (at_or_in command (zs "in")
    (zs "Do you want me to remind you *at* a specific time or *in* some time from now" ++ nl) r); [reflexivity|].
  unfold at_or_in. change (has (zs "in") "at") with false. cbn match. by rewrite Hin.
Qed.
Lemma remind_step_3 h : 0 <= h < 100 ->
  reminder_word command 3 start (pad (fmt_u h)) r = Ret (inr (rq_with_task (set_hh_mm h 0) r)).
Proof.
  intros Hh. destruct (hour_word h Hh) as (Hw & Hl & Hc & Ha). unfold reminder_word.
  rewrite word_text by (done || unfold zlen in Hl; lia). cbn [cbind].
  change (3 =? 0) with false. change (3 =? 1) with false. change (3 =? 2) with false. change (3 =? 3) with true.
  cbn match. rewrite Hc. ifdec. by rewrite Ha.
Qed.
Lemma remind_step_4 w at_ said :
  word_ok w -> (length w < 160)%nat -> drop (Z.to_nat start) command = said -> zlen said < 160 ->
  Forall (fun c => c <> 0) said -> rq_text r = zeros -> zlen (fst (rq_reply r)) = 160 ->
  mode (t_time (rq_task r)) = mode_of at_ -> mm (t_time (rq_task r)) = 0 ->
  let answer_ := remind_answer at_ (hh (t_time (rq_task r))) said in
  zlen answer_ < 160 ->
  exists b, reminder_word command 4 start (pad w) r =
    Ret (inr {| rq_task := rq_task r; rq_reply := (b, zlen answer_);
                rq_text := said ++ 0 :: replicate (159 - length said) 0 |}) /\
    zlen b = 160 /\ take (length answer_) b = answer_.
Proof.
  intros Hw Hlw Hsaid Hls Hn0 Htext Hrep Hm Hmm answer_ Hla. unfold reminder_word.
  rewrite word_text by done. cbn [cbind].
  change (4 =? 0) with false. change (4 =? 1) with false. change (4 =? 2) with false.
  change (4 =? 3) with false. change (4 =? 4) with true. cbn match.
  rewrite Hsaid, Htext, wrn_ok by (unfold zeros; zl; lia). cbn [cbind].
  assert (take (Z.to_nat 0) zeros ++ said ++ drop (Z.to_nat 0 + length said) zeros =
          said ++ 0 :: replicate (159 - length said) 0) as ->.
  { unfold zeros. change (Z.to_nat 0) with 0%nat. rewrite take_0, Nat.add_0_l, drop_replicate. cbn [app].
    f_equal.
    assert (160 - length said = S (159 - length said))%nat as -> by (unfold zlen in Hls; lia). done. }
  rewrite cstr_app by done. cbn [cbind rq_task]. rewrite Hm, Hmm.
  destruct (snprintf_160 (fst (rq_reply r)) answer_ Hrep) as (b & Hs & Hb & Ht). exists b.
  unfold answer_, remind_answer in *. destruct at_; cbn [mode_of].
  - change (SCHED_MODE_TIME_AT =? SCHED_MODE_TIME_AT) with true. cbn match.
    unfold answer. cbn [rq_reply rq_task rq_text]. unfold MAX_MESSAGE_SIZE. rewrite Hs. cbn [cbind go_on]. auto.
  - change (SCHED_MODE_TIME_COUNTDOWN =? SCHED_MODE_TIME_AT) with false.
    change (SCHED_MODE_TIME_COUNTDOWN =? SCHED_MODE_TIME_COUNTDOWN) with true. cbn match.
    unfold answer, hours_and_minutes. cbn [rq_reply rq_task rq_text]. unfold MAX_MESSAGE_SIZE.
    rewrite Hmm, Hs. cbn [cbind go_on]. auto.
Qed.
End Steps.

Lemma remind_words_ok at_ h text :
  0 <= h < 100 -> Forall word_ok text -> Forall word_ok (remind_words at_ h text).
Proof.
  intros Hh Ht. unfold remind_words.
  repeat apply Forall_cons_2; [..|exact (proj1 (hour_word h Hh))|exact Ht];
    [| |destruct at_]; (split; [done|repeat constructor; done]).
Qed.
Lemma remind_has_in h text : has (join 32 (remind_words false h text)) "in" = true.
Proof.
  unfold remind_words. rewrite join_cons, join_cons by done.
  assert (exists b, join 32 (preposition false :: fmt_u h :: text) = zs "in" ++ b) as [b ->].
  { rewrite join_cons by done. by eexists. }
  exact (has_self (zs "remind" ++ 32 :: zs "me" ++ [32]) b "in").
Qed.

(** The request all the words of a reminder make. *)
Definition reminder_request (env : chat_env) (at_ : bool) (h : Z) (said b : list Z) : request :=
  {| rq_task := upd_time (fun t => set_hh_mm h 0 (set_mode (mode_of at_) t)) (ch_task env);
     rq_reply := (b, zlen (remind_answer at_ h said));
     rq_text := said ++ 0 :: replicate (159 - length said) 0 |}.

Lemma reminder_words env at_ h text p :
  0 <= h < 100 -> text <> [] -> Forall word_ok text ->
  let ws := remind_words at_ h text in
  let said := join 32 text in
  zlen (join 32 ws) < 160 -> zlen (remind_answer at_ h said) < 160 -> phrase_of ws p ->
  exists b, for_words (length ws) 0 p (reminder_word (join 32 ws)) (first_request env SCHED_MODE_TIME_AT) =
      Ret (inr (reminder_request env at_ h said b)) /\
    zlen b = 160 /\ take (length (remind_answer at_ h said)) b = remind_answer at_ h said.
Proof.
  intros Hh Hne Htext ws said Hl Hans Hp. pose proof (remind_words_ok at_ h text Hh Htext) as Hws. fold ws in Hws.
  destruct text as [|w text]; [done|].
  assert (Hat : forall k w', ws !! k = Some w' ->
    word_at p (Z.of_nat k) = Ret (start_of ws k, w' ++ replicate (160 - length w') 0)).
  { intros k w' Hk. by apply word_at_join. }
  assert (Hlen : forall w', w' ∈ ws -> (length w' < 160)%nat).
  { intros w' (k & Hk)%list_elem_of_lookup. pose proof (lookup_lt_Some _ _ _ Hk) as Hlt.
    pose proof (drop_start ws k Hlt) as Hd. apply (f_equal length) in Hd. rewrite length_drop in Hd.
    rewrite (drop_S _ _ _ Hk) in Hd. assert (length w' <= length (join 32 (w' :: drop (S k) ws)))%nat.
    { destruct (decide (drop (S k) ws = [])) as [->|Hn]; [done|]. rewrite join_cons by done.
      rewrite length_app. lia. }
    unfold zlen in Hl. lia. }
  change (length ws) with (S (S (S (S (S (length text)))))).
  erewrite for_words_go; [|exact (Hat 0%nat _ eq_refl)|apply remind_step_0].
  erewrite for_words_go; [|exact (Hat 1%nat _ eq_refl)|apply remind_step_1].
  destruct (remind_step_2 (join 32 ws) (start_of ws 2) (first_request env SCHED_MODE_TIME_AT) at_)
    as (r2 & H2 & Hr2); [done|intros ->; apply remind_has_in|].
  erewrite for_words_go; [|exact (Hat 2%nat _ eq_refl)|exact H2].
  erewrite for_words_go; [|exact (Hat 3%nat _ eq_refl)|by apply remind_step_3].
  assert (Hsaid : drop (Z.to_nat (start_of ws 4)) (join 32 ws) = said).
  { rewrite drop_start by (cbn; lia). done. }
  destruct (remind_step_4 (join 32 ws) (start_of ws 4) (rq_with_task (set_hh_mm h 0) r2) w at_ said)
    as (b & H4 & Hb & Htb); try done.
  - apply Forall_cons in Htext. by destruct Htext.
  - apply Hlen. unfold ws, remind_words. by do 4 right; left.
  - rewrite <- Hsaid. unfold zlen in *. rewrite length_drop. lia.
  - rewrite <- Hsaid. apply Forall_drop. apply join_nonzero. done.
  - by subst r2; destruct at_.
  - by subst r2; destruct at_.
  - subst r2. by destruct at_.
  - subst r2. destruct at_; cbn; rewrite u8_small by lia; done.
  - assert (hh (t_time (rq_task (rq_with_task (set_hh_mm h 0) r2))) = h) as Hhh
      by (subst r2; destruct at_; cbn; by rewrite u8_small by lia).
    rewrite Hhh in H4, Htb. exists b.
    erewrite for_words_go; [|exact (Hat 4%nat _ eq_refl)|exact H4].
    split; [|done].
    rewrite (for_words_rest (length text) 5 ws); [|done..|].
    + subst r2. by destruct at_.
    + intros i start w' Hi Hw'. unfold reminder_word.
      rewrite word_text by (by apply Hlen || (rewrite list.Forall_forall in Hws; by apply Hws)).
      cbn [cbind]. by ifdec.
Qed.

Lemma remind_answer_longer at_ h said : zlen said <= zlen (remind_answer at_ h said).
Proof.
  assert (exists a, remind_answer at_ h said = a ++ said ++ nl) as [a ->].
  { unfold remind_answer. destruct at_; eexists; rewrite !app_assoc; reflexivity. }
  pose proof (zlen_nonneg a). unfold nl. zl. lia.
Qed.

Lemma remind_row : exists b, row CMD_ID_ACTION_SET_REMINDER = Ret b /\ zs (cmd b) = zs "remind me ".
Proof. by eexists. Qed.

(** The task a reminder puts into the table. *)
Definition reminder_task (env : chat_env) (at_ : bool) (h : Z) (said : list Z) : task_p :=
  {| t_type := TASK_TYPE_CALL; t_param := 0; t_status := STATUS_PENDING;
     t_time := {| exec_time := exec_time (t_time (ch_task env)); mode := mode_of at_; hh := h; mm := 0 |};
     t_arguments := said ++ replicate (160 - length said) 0 |}.

Lemma strncpy_text field said :
  zlen field = 160 -> zlen said < 160 -> strncpy field said 160 = Ret (said ++ replicate (160 - length said) 0).
Proof.
  intros Hf Hs. unfold strncpy. rewrite take_ge by (unfold zlen in Hs; lia).
  assert (Hl : zlen (said ++ replicate (160 - length said) 0) = 160) by (zl; unfold zlen in *; lia).
  rewrite wrn_ok by lia. change (Z.to_nat 0) with 0%nat. rewrite take_0.
  rewrite (drop_ge field) by (unfold zlen in *; lia). by rewrite app_nil_r.
Qed.

(** The frame, for a command whose words were read. *)
Lemma schedule_run cmd_id command mode word finish env ws b p r d :
  row cmd_id = Ret b -> contains command (zs (cmd b)) -> command = join 32 ws ->
  split_command command = Ret p -> phrase_size p = zlen ws ->
  for_words (length ws) 0 p word (first_request env mode) = Ret (inr r) ->
  schedule env cmd_id command mode word finish d = finish r d.
Proof.
  intros Hrow Hc -> Hp Hn Hr. unfold schedule. rewrite (bind_lift _ _ _ _ Hrow).
  apply strstr_contains in Hc. destruct (strstr _ _); [|done].
  rewrite (bind_lift _ _ _ _ Hp), Hn. unfold zlen. rewrite Nat2Z.id. by rewrite (bind_lift _ _ _ _ Hr).
Qed.

(** A task that finds a slot, or none. *)
Lemma in_sched_run {A} (m : MT A) (a : A) s' u d :
  m (part d) = Ret (a, s', u) -> in_sched m d = Ret (a, with_part s' d, map Sched u).
Proof. apply zoom_run. Qed.
Definition with_table_of (f : option (list Z)) (l : list task_p) (d : device) : device :=
  with_part (upd_file f (upd_tasks l (part d))) d.

Lemma add_and_answer_slot env task full on_full r answer_ d pre t post :
  tasks (dv_sch d) = pre ++ t :: post -> t_status t = STATUS_FREE ->
  Forall (fun t => t_status t <> STATUS_FREE) pre -> chat_ok d ->
  snd (rq_reply r) = zlen answer_ -> zlen (fst (rq_reply r)) = 160 -> 0 < zlen answer_ <= 160 ->
  take (length answer_) (fst (rq_reply r)) = answer_ ->
  exists f u, add_and_answer env task full on_full r d =
    Ret (tt, told answer_ (with_table_of f (pre ++ added (ch_sched env) task :: post) d), map Sched u) /\
    phone_actions u = [].
Proof.
  intros Hl Ht Hpre Hd Hsz Hz Hb Htake.
  destruct (add_task_slot (ch_sched env) task (part (Part := device_sched) d) pre t post Hl Ht Hpre) as (f & u & Hadd & Hu).
  exists f, u. split; [|done]. unfold add_and_answer.
  rewrite (bind_after _ _ _ _ _ _ (in_sched_run _ _ _ _ _ Hadd)). pose proof (zlen_nonneg pre).
  rewrite (proj2 (Z.ltb_ge (zlen pre) 0)) by lia. rewrite bind_ret. destruct (rq_reply r) as [reply strsz].
  cbn [fst snd] in *. subst strsz. rewrite send_run; [|done|lia|lia].
  replace (Z.to_nat (zlen answer_)) with (length answer_) by (unfold zlen; lia).
  rewrite Htake, after_Ret, app_nil_r. done.
Qed.
Lemma add_and_answer_full env task full on_full r d :
  Forall (fun t => t_status t <> STATUS_FREE) (tasks (dv_sch d)) -> chat_ok d ->
  zlen (fst (rq_reply r)) = 160 -> 0 < zlen full < 160 -> (forall d, on_full d = Ret (tt, d, [])) ->
  add_and_answer env task full on_full r d = Ret (tt, told full d, []).
Proof.
  intros Hall Hd Hz Hf Hon. unfold add_and_answer.
  pose proof (add_task_full (ch_sched env) task (part (Part := device_sched) d) Hall) as Hadd.
  rewrite (bind_after _ _ _ _ _ _ (in_sched_run _ _ _ _ _ Hadd)), with_part_part.
  change (- ENOSPC <? 0) with true. cbn match. cbn [map]. rewrite after_nil, bind_assoc.
  rewrite (bind_step _ _ _ _ _ (Hon d)). exact (say_run (fst (rq_reply r)) full d Hd Hz Hf).
Qed.

(** A reminder for an hour of the day, or in so many hours, of up to two
    digits and with a text: a call with the text is added in the first free
    slot of the table, for the time the scheduler gives it, and the answer
    repeats it. A full table is answered, and stays as it is. The hours are
    not bounded by the day. *)
Theorem reminder_scheduled env at_ h text d :
  0 <= h < 100 -> text <> [] -> Forall word_ok text ->
  let command := join 32 (remind_words at_ h text) in
  let said := join 32 text in
  zlen command < 160 -> zlen (remind_answer at_ h said) < 160 ->
  zlen (t_arguments (ch_task env)) = 160 -> chat_ok d ->
  (forall pre t post, tasks (dv_sch d) = pre ++ t :: post -> t_status t = STATUS_FREE ->
     Forall (fun t => t_status t <> STATUS_FREE) pre ->
     exists f u, cmd_schedule_reminder env command d =
       Ret (tt, told (remind_answer at_ h said)
                  (with_table_of f (pre ++ added (ch_sched env) (reminder_task env at_ h said) :: post) d),
            map Sched u) /\ phone_actions u = []) /\
  (Forall (fun t => t_status t <> STATUS_FREE) (tasks (dv_sch d)) ->
   cmd_schedule_reminder env command d =
   Ret (tt, told (zs " Can't add reminder, my task queue is full!" ++ nl) d, [])).
Proof.
  intros Hh Hne Htext command said Hl Hans Harg Hd.
  pose proof (remind_words_ok at_ h text Hh Htext) as Hws.
  destruct (split_command_join _ Hws) as (p & Hp & Hph); [done..|].
  destruct (reminder_words env at_ h text p Hh Hne Htext Hl Hans Hph) as (b & Hr & Hb & Htb).
  set (r := reminder_request env at_ h said b) in *.
  assert (Hrun : forall d, cmd_schedule_reminder env command d =
    add_and_answer env (reminder_task env at_ h said)
      (zs " Can't add reminder, my task queue is full!" ++ nl) (ret tt) r d).
  { intros d'. unfold cmd_schedule_reminder.
    destruct remind_row as (bot & Hrow & Hbot).
    assert (contains command (zs (cmd bot))) as Hc
      by (rewrite Hbot; by exists [], (join 32 (preposition at_ :: fmt_u h :: text))).
    assert (phrase_size p = zlen (remind_words at_ h text)) as Hn by (by destruct Hph as (_ & _ & ? & _)).
    rewrite (schedule_run _ _ _ _ _ env _ _ _ _ d' Hrow Hc eq_refl Hp Hn Hr).
    pose proof (remind_answer_longer at_ h said).
    rewrite (bind_lift _ said).
    2: { apply cstr_app. by apply join_nonzero. }
    rewrite (bind_lift _ (said ++ replicate (160 - length said) 0)) by (apply strncpy_text; [done|lia]).
    refine (f_equal (fun t => add_and_answer env t _ (ret tt) r d')
      (_ : task_with TASK_TYPE_CALL (said ++ replicate (160 - length said) 0) (rq_task r) = _)).
    unfold reminder_task, task_with, r, reminder_request, upd_time, set_hh_mm. cbn [rq_task t_time mode set_mode exec_time].
    by rewrite !u8_small by lia. }
  assert (Hpos : 0 < zlen (remind_answer at_ h said)) by (unfold remind_answer; by destruct at_).
  split.
  - intros pre t post Hlt Ht Hpre. rewrite Hrun. eapply add_and_answer_slot; try done; lia.
  - intros Hall. rewrite Hrun. by apply add_and_answer_full.
Qed.
Lemma reminder_scheduled_witness :
  exists f u, cmd_schedule_reminder sample_env (zs "remind me in 2 tea") sample_device =
    Ret (tt, told (remind_answer false 2 (zs "tea"))
               (with_table_of f (take 2 sample_table ++
                  added (sched_env_at 150) (reminder_task sample_env false 2 (zs "tea")) :: replicate 252 free_task)
                  sample_device), map Sched u) /\ phone_actions u = [].
Proof.
  refine (proj1 (reminder_scheduled sample_env false 2 [zs "tea"] sample_device _ _ _ _ _ _ _)
    (take 2 sample_table) free_task (replicate 252 free_task) _ _ _).
  - lia.
  - done.
  - repeat constructor; done.
  - vm_compute. reflexivity.
  - vm_compute. reflexivity.
  - reflexivity.
  - exact sample_chat_ok.
  - reflexivity.
  - reflexivity.
  - repeat constructor; done.
Defined.
