(* ===== verification/Commands.v ===== *)
(** The interpreter of the chat (src/command.c): finding the command a text
    asks for, running it, and the history. *)

From stdpp Require Import base list numbers option strings.
From Stdlib Require Import ZArith Lia.
From S2P Require Import Prelude Libc Eff Qmi Requests Dms Services Sms SmsFilter Config Call Replies Cells NasClient Wds Scheduler Tracking Proxy.
From S2P Require Import CommandTable Device Chat Reminders.

Definition HISTORY_SIZE : Z := 1024.

(** * Finding a command *)

(** The loop that copies the text in lower case: its bound is the character it
    is at, so it ends at the first one that is not greater than its place.
    [i] is a uint8_t. *)
Fixpoint lower_loop (fuel : nat) (i : Z) (command lowercase_cmd : list Z) : cres (list Z) :=
  match fuel with
  | O => Spin
  | S fuel =>
      let* c := rd command i in
      if i <? c then
        let* lowercase_cmd := wrA lowercase_cmd i (tolower c) in
        lower_loop fuel (u8 (i + 1)) command lowercase_cmd
      else Ret lowercase_cmd
  end.
(** [command] is the array, [lower] what the array for the copy holds. *)
Definition lowercase (command lower : list Z) : cres (list Z) :=
  let* l := lower_loop 257 0 command lower in
  let* n := strlen command in
  wrA l n 0.

Definition matches (text lower : list Z) (b : bot_command) : bool :=
  let name := zs (cmd b) in
  if is_partial b then
    match strstr text name, strstr lower name with None, None => false | _, _ => true end
  else bool_decide (text = name) || bool_decide (lower = name).
(** The last row that matches; -1 when none does. *)
Fixpoint find_command (l : list bot_command) (text lower : list Z) (cmd_id : Z) : Z :=
  match l with
  | [] => cmd_id
  | b :: l => find_command l text lower (if matches text lower b then bot_id b else cmd_id)
  end.

(** * History *)

Definition upd_history (h : list Z) (pos : Z) (c : cmd_runtime) : cmd_runtime :=
  {| is_unlocked := is_unlocked c; unlock_time := unlock_time c; cmd_history := h;
     cmd_position := pos; last_cmd_timestamp := last_cmd_timestamp c |}.
Definition add_to_history (command_id : Z) : MV unit :=
  in_cmd (modifyM (fun c =>
    let pos := if 1023 <=? cmd_position c then 0 else cmd_position c in
    let* h := wrA (cmd_history c) pos (u8 command_id) in
    Ret (upd_history h (u16 (pos + 1)) c))).

(** How often a command is among the last ones, counting the place to write
    next. *)
Fixpoint match_loop (n : nat) (i : Z) (h : list Z) (command_id match_ : Z) : cres Z :=
  match n with
  | O => Ret match_
  | S n =>
      let* c := rd h i in
      match_loop n (i - 1) h command_id (u16 (if c =? command_id then match_ + 1 else match_))
  end.
Definition find_cmd_history_match (command_id : Z) (c : cmd_runtime) : cres Z :=
  if 5 <? cmd_position c then match_loop 6 (cmd_position c) (cmd_history c) command_id 0
  else Ret 0.

Definition set_cmd_runtime_defaults : MV unit :=
  in_cmd (modify (fun c =>
    {| is_unlocked := false; unlock_time := 0; cmd_history := cmd_history c;
       cmd_position := cmd_position c; last_cmd_timestamp := last_cmd_timestamp c |})).

(** The listing: [i] is a uint8_t, the position a uint16_t. *)
Fixpoint history_loop (fuel : nat) (i : Z) (c : cmd_runtime) (r : list Z * Z) : cres (list Z * Z) :=
  match fuel with
  | O => Spin
  | S fuel =>
      if i <? cmd_position c then
        let* r := if snd r <? MAX_MESSAGE_SIZE then
                    let* id := rd (cmd_history c) i in append 160 r (fmt_i id ++ zs " ")
                  else Ret r in
        history_loop fuel (u8 (i + 1)) c r
      else Ret r
  end.

Section Commands.
Variable env : chat_env.

(** * Replies *)

(** The number is used as a place in the table. *)
Definition response_text (command_id : Z) : cres (list Z) :=
  let* b := row (u8 command_id) in Ret (zs (cmd_text b) ++ nl).
Definition set_message_response (command_id : Z) (buff : list Z) : cres (list Z * Z) :=
  let* text := response_text command_id in snprintf buff MAX_MESSAGE_SIZE text.
Definition send_default_response (cmd_id : Z) : MV unit :=
  do* '(reply, strsz) := lift (set_message_response cmd_id (ch_stack env)) in
  send reply strsz.

Definition cfg_env_of : cfg_env := s_cfg_env (ch_sched env).
(** An answer, and a setting. *)
Definition reply_then (cmd_id : Z) (m : MV unit) : MV unit := send_default_response cmd_id ;> m.
Definition setting (cmd_id : Z) (m : cfg_env -> MC unit) : MV unit :=
  reply_then cmd_id (in_cfg (m cfg_env_of)).

Definition record_notice : list Z :=
  zs "NOTICE: Call recording can be forbidden in some jurisdictions. Please check " ++
  zs "https://en.wikipedia.org/wiki/Telephone_call_recording_laws for more details" ++ nl.
Definition ram_warning : list Z := zs "WARNING: Saving to ram, will be lost on reboot." ++ nl.
(** [if (!use_persistent_logging()) strsz += snprintf(reply + strsz, ...)] *)
Definition warn_ram (r : list Z * Z) : MV (list Z * Z) :=
  do* c := settings_of in
  if persistent_logging c =? 0 then lift (append 160 r ram_warning) else ret r.
Definition record_calls (cmd_id mode : Z) : MV unit :=
  do* r := lift (set_message_response cmd_id zeros) in
  do* '(reply, strsz) := warn_ram r in
  send reply strsz ;>
  do* '(reply, strsz) := lift (snprintf reply MAX_MESSAGE_SIZE record_notice) in
  send reply strsz ;>
  in_cfg (set_automatic_call_recording cfg_env_of mode).
(** The name printed behind a row's text. *)
Definition say_with (cmd_id : Z) (between rest : list Z) : MV unit :=
  do* b := lift (row cmd_id) in
  do* '(reply, strsz) := lift (append 160 (zeros, 0) (zs (cmd_text b) ++ between ++ rest ++ nl)) in
  send reply strsz.

(** The rows of services, sent when the next one may not fit. *)
Fixpoint services_loop (l : list (Z * string)) (r : list Z * Z) : MV (list Z * Z) :=
  match l with
  | [] => ret r
  | (service, name) :: l =>
      let n := zlen (zs name) in
      do* r := if MAX_MESSAGE_SIZE <? n + 3 + n + snd r then send (fst r) (snd r) ;> ret (fst r, 0)
               else ret r in
      do* r := lift (append 160 r (fmt_u service ++ zs ": " ++ zs name ++ nl)) in
      services_loop l r
  end.
Definition list_services : MV unit :=
  do* '(reply, _) := lift (snprintf zeros MAX_MESSAGE_SIZE (zs "Known QMI Services" ++ nl)) in
  send reply 0 ;>
  do* '(reply, strsz) := services_loop qmi_services (reply, 0) in
  send reply strsz.

Definition unknown_command (command : list Z) : MV unit :=
  do* user := rt_user_name in
  say zeros (zs "Sorry " ++ user ++ zs ", I don't understand the command '" ++ command ++ zs "'" ++ nl).

(** * The switch *)

Definition run_info (cmd_id : Z) : option (MV unit) :=
  if cmd_id =? CMD_ID_GET_NAME then
    Some (do* name := rt_modem_name in say_with cmd_id (zs " ") name)
  else if cmd_id =? CMD_ID_GET_UPTIME then Some (cmd_get_uptime env)
  else if cmd_id =? CMD_ID_GET_LOADAVG then Some (cmd_get_load_avg env)
  else if cmd_id =? CMD_ID_GET_VERSION then Some (cmd_get_sw_version env)
  else if cmd_id =? CMD_ID_GET_USB_SUSPEND_STATE then
    Some (do* s := in_proxy (get_transceiver_suspend_state (ch_suspended env)) in
          say zeros (zs "USB Suspend state: " ++ fmt_i (if s : bool then 1 else 0) ++ nl))
  else if cmd_id =? CMD_ID_GET_MEM then Some (cmd_get_memory env)
  else if cmd_id =? CMD_ID_GET_NET_STATS then Some (cmd_get_rmnet_stats env)
  else if cmd_id =? CMD_ID_GET_GPS_STATS then Some (cmd_get_gps_stats env)
  else if cmd_id =? CMD_ID_GET_HELP then Some cmd_get_help
  else if cmd_id =? CMD_ID_GET_HISTORY then
    Some (do* d := get in
          do* '(reply, strsz) := lift (history_loop 257 0 (dv_cmd d) (zeros, 0)) in
          send reply strsz)
  else if cmd_id =? CMD_ID_GET_LOG then Some (cmd_get_openqti_log env)
  else if cmd_id =? CMD_ID_GET_KERNEL_LOG then Some (cmd_get_kernel_log env)
  else if cmd_id =? CMD_ID_GET_RECONNECTS then
    Some (do* d := get in
          say_with cmd_id (zs ": ") (fmt_i (get_dirty_reconnects (dv_clients d))))
  else if cmd_id =? CMD_ID_GET_OWNER_NAME then
    Some (do* name := rt_user_name in say_with cmd_id (zs " ") name)
  else if cmd_id =? CMD_ID_GET_GSM_SIGNAL then Some (cmd_render_gsm_signal_data)
  else if cmd_id =? CMD_ID_GET_NET_REPORT then Some (cmd_dump_signal_report)
  else if cmd_id =? CMD_ID_UTIL_LIST_ACTIVE_TASKS then Some (in_sched dump_pending_tasks)
  else if cmd_id =? CMD_ID_GET_FW_TY then Some (cmd_thank_you env)
  else if cmd_id =? CMD_ID_GET_RUNNING_CONFIG then Some (cmd_get_running_config env)
  else if cmd_id =? CMD_ID_GET_KNOWN_QMI_SERVICES then Some list_services
  else None.

Definition run_setting (cmd_id : Z) : option (MV unit) :=
  let set := setting cmd_id in
  let tell m := Some (reply_then cmd_id m) in
  if cmd_id =? CMD_ID_SET_USB_SUSPEND_BLOCK then
    Some (do* '(reply, strsz) := lift (set_message_response cmd_id zeros) in
          emit (SuspendInhibit true) ;> send reply strsz)
  else if cmd_id =? CMD_ID_SET_USB_SUSPEND_ALLOW then tell (send zeros 0)
  else if cmd_id =? CMD_ID_SET_ADB_ON then tell (emit (StoreAdb true) ;> emit RestartUsb)
  else if cmd_id =? CMD_ID_SET_ADB_OFF then tell (emit (StoreAdb false) ;> emit RestartUsb)
  else if cmd_id =? CMD_ID_ACTION_CALL_OWNER then tell (in_phone (set_pending_call_flag true))
  else if cmd_id =? CMD_ID_ACTION_POWEROFF then
    Some (emit (Thread DelayedShutdown) ;> send_default_response cmd_id)
  else if cmd_id =? CMD_ID_ACTION_REBOOT then
    Some (emit (Thread DelayedReboot) ;> send_default_response cmd_id)
  else if cmd_id =? CMD_ID_ACTION_ENABLE_SIGNAL_TRACKING then Some (set (fun e => enable_signal_tracking e true))
  else if cmd_id =? CMD_ID_ACTION_DISABLE_SIGNAL_TRACKING then Some (set (fun e => enable_signal_tracking e false))
  else if cmd_id =? CMD_ID_ACTION_ENABLE_PERSISTENT_LOGGING then Some (set (fun e => set_persistent_logging e true))
  else if cmd_id =? CMD_ID_ACTION_DISABLE_PERSISTENT_LOGGING then Some (set (fun e => set_persistent_logging e false))
  else if cmd_id =? CMD_ID_ACTION_ENABLE_SMS_LOGGING then Some (set (fun e => set_sms_logging e true))
  else if cmd_id =? CMD_ID_ACTION_DISABLE_SMS_LOGGING then Some (set (fun e => set_sms_logging e false))
  else if cmd_id =? CMD_ID_ACTION_ENABLE_CELL_BROADCAST then Some (cmd_set_cb_broadcast env true)
  else if cmd_id =? CMD_ID_ACTION_DISABLE_CELL_BROADCAST then Some (cmd_set_cb_broadcast env false)
  else if cmd_id =? CMD_ID_ACTION_CALLWAIT_AUTO_HANGUP then Some (set (fun e => enable_call_waiting_autohangup e 2))
  else if cmd_id =? CMD_ID_ACTION_CALLWAIT_AUTO_IGNORE then Some (set (fun e => enable_call_waiting_autohangup e 1))
  else if cmd_id =? CMD_ID_ACTION_CALLWAIT_MODE_DEFAULT then Some (set (fun e => enable_call_waiting_autohangup e 0))
  else if cmd_id =? CMD_ID_ACTION_ENABLE_CAT then Some (set (fun e => set_custom_alert_tone e true))
  else if cmd_id =? CMD_ID_ACTION_DISABLE_CAT then Some (set (fun e => set_custom_alert_tone e false))
  else if cmd_id =? CMD_ID_ACTION_RECORD_CALLS_AND_RECYCLE then Some (record_calls cmd_id 2)
  else if cmd_id =? CMD_ID_ACTION_RECORD_CALLS_ALL then Some (record_calls cmd_id 1)
  else if cmd_id =? CMD_ID_ACTION_RECORD_CALLS_NONE then Some (set (fun e => set_automatic_call_recording e 0))
  else if cmd_id =? CMD_ID_ACTION_RECORD_CALL_CURRENT then
    Some (emit RecordCurrentCall ;>
          if ch_record env =? 0 then
            do* b := lift (row cmd_id) in
            do* r := lift (snprintf zeros MAX_MESSAGE_SIZE (zs (cmd_text b) ++ nl)) in
            do* '(reply, strsz) := warn_ram r in
            send reply strsz
          else say zeros (zs "There is no call in progress!" ++ nl))
  else if cmd_id =? CMD_ID_ACTION_RECORD_CALL_NEXT then tell (emit (RecordNextCall true))
  else if cmd_id =? CMD_ID_ACTION_RECORD_CALL_CANCEL_TASK then tell (emit (RecordNextCall false))
  else if cmd_id =? CMD_ID_DEBUG_GET_MM_SAMPLE_GSM7_CB_MSG then Some (cmd_debug_gsm7_cb_message env)
  else if cmd_id =? CMD_ID_DEBUG_GET_MM_SAMPLE_UCS2_CB_MSG then Some (cmd_debug_ucs2_cb_message env)
  else if cmd_id =? CMD_ID_ACTION_ENABLE_INTERNAL_NETWORKING then
    tell (in_cfg (set_internal_connectivity cfg_env_of true) ;> in_session env init_internal_networking)
  else if cmd_id =? CMD_ID_ACTION_DISABLE_INTERNAL_NETWORKING then Some (set (fun e => set_internal_connectivity e false))
  else if cmd_id =? CMD_ID_ACTION_DISABLE_DO_NOT_DISTURB then
    tell (in_phone (set_do_not_disturb false) ;>
          do* _ := in_sched (remove_all_tasks_by_type (ch_sched env) TASK_TYPE_DND_CLEAR) in ret tt)
  else if cmd_id =? CMD_ID_ACTION_DEBUG_DISABLE_SVC then tell (in_proxy disable_service_debugging)
  else if cmd_id =? CMD_ID_ACTION_DEBUG_ENABLE_NETWORK_DATA_DUMP then Some (set (fun e => enable_dump_network_tables e true))
  else if cmd_id =? CMD_ID_ACTION_ENABLE_ST_NETWORK_DOWNGRADE_NOTIF then
    Some (set (fun e => set_signal_tracking_downgrade_notification e 1))
  else if cmd_id =? CMD_ID_ACTION_DISABLE_ST_NETWORK_DOWNGRADE_NOTIF then
    Some (set (fun e => set_signal_tracking_downgrade_notification e 0))
  else if cmd_id =? CMD_ID_ACTION_DEBUG_DISABLE_NETWORK_DATA_DUMP then Some (set (fun e => enable_dump_network_tables e false))
  else if cmd_id =? CMD_ID_ACTION_INTERNAL_NETWORK_CLEAR_AUTH_DATA then Some (cmd_clear_internal_networking_auth env)
  else if cmd_id =? CMD_ID_ACTION_MESSAGE_RECOVERY_ENABLE then Some (set (fun e => set_list_all_bypass e true))
  else if cmd_id =? CMD_ID_ACTION_MESSAGE_RECOVERY_DISABLE then Some (set (fun e => set_list_all_bypass e false))
  else if cmd_id =? CMD_ID_ACTION_INTERNAL_NETWORK_START then tell (in_session env (fun e => wds_chat_ifup_down e true))
  else if cmd_id =? CMD_ID_ACTION_INTERNAL_NETWORK_STOP then tell (in_session env (fun e => wds_chat_ifup_down e false))
  else None.

Definition run_partial (cmd_id : Z) (command : list Z) : option (MV unit) :=
  if cmd_id =? CMD_ID_SET_MODEM_NAME then Some (cmd_set_custom_modem_name env command)
  else if cmd_id =? CMD_ID_SET_OWNER_NAME then Some (cmd_set_custom_user_name env command)
  else if cmd_id =? CMD_ID_ACTION_CALL_OWNER_COUNTDOWN then Some (emit (Thread (ScheduleCall command)))
  else if cmd_id =? CMD_ID_ACTION_SET_REMINDER then Some (cmd_schedule_reminder env command)
  else if cmd_id =? CMD_ID_ACTION_WAKE_OWNER then Some (cmd_schedule_wakeup env command)
  else if cmd_id =? CMD_ID_ACTION_DELETE_TASK then Some (cmd_delete_task env command)
  else if cmd_id =? CMD_ID_ACTION_ENABLE_DND then Some (cmd_suspend_call_notifications env command)
  else if cmd_id =? CMD_ID_DEBUG_ENABLE_SERVICE_LOGGING then Some (cmd_enable_service_debugging_for_service_id command)
  else if cmd_id =? CMD_ID_ACTION_SET_ST_MODE then Some (cmd_set_new_signal_tracking_mode env command)
  else if cmd_id =? CMD_ID_ACTION_SET_ST_NOTIFICATION_LEVEL then
    Some (cmd_configure_signal_tracking_cell_notification env command)
  else if cmd_id =? CMD_ID_DEFINE then Some (cmd_search_dictionary_entry env command)
  else if cmd_id =? CMD_ID_ACTION_INTERNAL_NETWORK_SET_APN then Some (cmd_configure_new_apn env command)
  else if cmd_id =? CMD_ID_ACTION_INTERNAL_NETWORK_SET_USER then Some (cmd_configure_apn_username env command)
  else if cmd_id =? CMD_ID_ACTION_INTERNAL_NETWORK_SET_PASS then Some (cmd_configure_apn_password env command)
  else if cmd_id =? CMD_ID_ACTION_INTERNAL_NETWORK_SET_AUTH_METHOD then
    Some (cmd_configure_internal_network_auth_method env command)
  else None.

Definition run_command (cmd_id : Z) (command : list Z) : MV unit :=
  match run_info cmd_id, run_setting cmd_id, run_partial cmd_id command with
  | Some m, _, _ => m
  | None, Some m, _ => m
  | None, None, Some m => m
  | None, None, None => unknown_command command
  end.

(** [parse_command(command)] of the array [command]. *)
Definition parse_command (command : list Z) : MV Z :=
  do* lower := lift (lowercase command (ch_lower env)) in
  do* text := lift (cstr command) in
  do* lower := lift (cstr lower) in
  let cmd_id := find_command bot_commands text lower CMD_UNKNOWN in
  run_command cmd_id text ;>
  add_to_history cmd_id ;>
  ret 0.
End Commands.

(** * Which command a text asks for *)

(** What the comments of the table promise: a row is asked for by its words, in
    either case, or by a text with them in it. *)
Definition asks_for (text : list Z) (b : bot_command) : Prop :=
  let name := zs (cmd b) in
  if is_partial b then contains text name \/ contains (map tolower text) name
  else text = name \/ map tolower text = name.
#[export] Instance asks_for_dec text b : Decision (asks_for text b).
Proof. unfold asks_for. destruct (is_partial b); apply _. Defined.
(** The last row of those asked for. *)
Definition asked (text : list Z) : Z :=
  match last (filter (asks_for text) bot_commands) with Some b => bot_id b | None => CMD_UNKNOWN end.

(** A text the loop copies to its end: every character is greater than its place. *)
Definition lowered (text : list Z) : Prop := forall i c, text !! i = Some c -> Z.of_nat i < c.

Lemma lowered_nonzero text : lowered text -> Forall (fun c => c <> 0) text.
Proof. intros H. apply Forall_lookup. intros i c Hc%H. lia. Qed.

Lemma lower_loop_run fuel pre post rest low :
  lowered (pre ++ post) -> zlen (pre ++ post) < 160 -> (length post < fuel)%nat ->
  (length post <= length low)%nat ->
  lower_loop fuel (zlen pre) (pre ++ post ++ 0 :: rest) (map tolower pre ++ low) =
  Ret (map tolower (pre ++ post) ++ drop (length post) low).
Proof.
  revert fuel pre low; induction post as [|c post IH]; intros fuel pre low Hl Hz Hf Hlow.
  - destruct fuel as [|fuel]; [cbn in Hf; lia|]. cbn [lower_loop app]. rewrite rdA_at by done.
    cbn [cbind]. pose proof (zlen_nonneg pre). ifdec. by rewrite app_nil_r.
  - destruct fuel as [|fuel]; [lia|]. cbn [length] in *. destruct low as [|x low]; [cbn in Hlow; lia|].
    cbn [lower_loop]. cbn [app]. rewrite rdA_at by done. cbn [cbind].
    assert (zlen pre < c) by (apply (Hl (length pre) c); by apply list_lookup_middle).
    ifdec. pose proof (zlen_nonneg pre). zl. pose proof (zlen_nonneg post).
    rewrite wrA_at by (unfold zlen; by rewrite length_map). cbn [cbind].
    rewrite u8_small by lia.
    specialize (IH fuel (pre ++ [c]) low). rewrite map_app, <- !app_assoc in IH. cbn [map app] in IH.
    replace (zlen (pre ++ [c])) with (zlen pre + 1) in IH by (zl; lia).
    cbn [length] in Hlow. cbn [drop]. apply IH; try lia; [done|zl; lia].
Qed.

Lemma lowercase_run text rest lower :
  lowered text -> zlen text < 160 -> zlen text < zlen lower ->
  exists r, lowercase (text ++ 0 :: rest) lower = Ret (map tolower text ++ 0 :: r).
Proof.
  intros Hl Hz Hlow. unfold lowercase. pose proof (lower_loop_run 257 [] text rest lower Hl Hz) as H.
  cbn [app map] in H. change (zlen []) with 0 in H. unfold zlen in Hz, Hlow. rewrite H by lia. cbn [cbind].
  rewrite strlen_app by by apply lowered_nonzero. cbn [cbind].
  destruct (drop (length text) lower) as [|x r] eqn:E.
  { apply (f_equal length) in E. rewrite length_drop in E. cbn in E. lia. }
  exists r. apply wrA_at. unfold zlen. by rewrite length_map.
Qed.

Lemma matches_asks text b : matches text (map tolower text) b = bool_decide (asks_for text b).
Proof.
  unfold matches. symmetry. destruct (is_partial b) eqn:E.
  - pose proof (strstr_contains text (zs (cmd b))) as H1.
    pose proof (strstr_contains (map tolower text) (zs (cmd b))) as H2.
    destruct (strstr text _); [apply bool_decide_eq_true_2; unfold asks_for; rewrite E; left; by apply H1|].
    destruct (strstr (map tolower text) _);
      [apply bool_decide_eq_true_2; unfold asks_for; rewrite E; right; by apply H2|].
    apply bool_decide_eq_false_2. unfold asks_for. rewrite E. intros [H|H]; [by apply H1 in H|by apply H2 in H].
  - apply eq_bool_prop_intro. rewrite orb_True, !bool_decide_spec. unfold asks_for. by rewrite E.
Qed.

Lemma find_command_last l text id :
  find_command l text (map tolower text) id =
  match last (filter (asks_for text) l) with Some b => bot_id b | None => id end.
Proof.
  revert id; induction l as [|b l IH]; intros id; [done|]. cbn [find_command].
  rewrite matches_asks, IH, filter_cons. case_bool_decide as H.
  - rewrite decide_True by done. rewrite last_cons. by destruct (last (filter _ l)).
  - by rewrite decide_False.
Qed.

(** * Running a command *)

Definition recorded (cmd_id : Z) (c : cmd_runtime) : cmd_runtime :=
  let pos := if 1023 <=? cmd_position c then 0 else cmd_position c in
  upd_history (<[Z.to_nat pos := u8 cmd_id]> (cmd_history c)) (pos + 1) c.
Definition cmd_ok (c : cmd_runtime) : Prop := zlen (cmd_history c) = 1024 /\ 0 <= cmd_position c.

Lemma recorded_ok id c : cmd_ok c -> cmd_ok (recorded id c).
Proof. intros [Hl Hp]. unfold recorded. split; cbn; [by zl|csplit; lia]. Qed.

Lemma add_to_history_run id d :
  cmd_ok (dv_cmd d) ->
  add_to_history id d = Ret (tt, with_part (recorded id (dv_cmd d)) d, []).
Proof.
  intros [Hl Hp]. unfold add_to_history, in_cmd.
  rewrite (zoom_run (fun a => a) _ d tt (recorded id (dv_cmd d)) []); [done|].
  unfold modifyM. cbn [part device_cmd]. unfold recorded.
  destruct (1023 <=? cmd_position (dv_cmd d)) eqn:E; b2p; rewrite wrA_ok by lia; cbn [cbind];
    rewrite u16_small by lia; done.
Qed.

Lemma lowered_dec text : forallb (fun '(i, c) => Z.of_nat i <? c) (imap pair text) = true -> lowered text.
Proof.
  intros H i c Hc. rewrite forallb_forall in H. specialize (H (i, c)). apply Z.ltb_lt, H.
  apply list_elem_of_In. apply elem_of_lookup_imap. eauto.
Qed.

(** The surroundings in which a command can run: room for the texts, and a
    settings file that can be written. *)
Definition ready (env : chat_env) (d : device) : Prop :=
  zlen (ch_stack env) = 160 /\ zlen (ch_lower env) = 160 /\
  c_rw_ok (cfg_env_of env) = true /\ c_open_conf (cfg_env_of env) = true /\
  chat_ok d /\ cmd_ok (dv_cmd d) /\ texts_end (settings (dv_cfg d)).

(** A text that is copied to its end is looked up in either case. *)
Lemma parse_command_eq env text rest d :
  lowered text -> zlen text < 160 -> zlen (ch_lower env) = 160 ->
  parse_command env (text ++ 0 :: rest) d =
  (run_command env (asked text) text ;> add_to_history (asked text) ;> ret 0) d.
Proof.
  intros Hl Hz Hlow. unfold parse_command.
  destruct (lowercase_run text rest (ch_lower env) Hl Hz) as [r Hr]; [lia|].
  rewrite (bind_lift _ _ _ _ Hr), (bind_lift _ text) by (apply cstr_app; by apply lowered_nonzero).
  rewrite (bind_lift _ (map tolower text)).
  2: { apply cstr_app. apply Forall_map. eapply Forall_impl; [by apply lowered_nonzero|].
       intros. by apply tolower_nonzero. }
  by rewrite find_command_last.
Qed.

Lemma parse_command_run env text rest d a d' t :
  lowered text -> zlen text < 160 -> zlen (ch_lower env) = 160 ->
  run_command env (asked text) text d = Ret (a, d', t) -> cmd_ok (dv_cmd d') ->
  parse_command env (text ++ 0 :: rest) d =
  Ret (0, with_part (recorded (asked text) (dv_cmd d')) d', t).
Proof.
  intros Hl Hz Hlow Hrun Hok. rewrite (parse_command_eq env text rest d Hl Hz Hlow).
  rewrite (bind_after _ _ _ _ _ _ Hrun), (bind_step _ _ _ _ _ (add_to_history_run _ _ Hok)).
  unfold ret. by rewrite after_Ret, app_nil_r.
Qed.

Lemma send_default_response_run env id text d :
  zlen (ch_stack env) = 160 -> response_text id = Ret text -> zlen text < 160 -> 0 < zlen text ->
  chat_ok d -> send_default_response env id d = Ret (tt, told text d, []).
Proof.
  intros Hs Ht Hz H0 Hd. unfold send_default_response, set_message_response. rewrite Ht. cbn [cbind].
  exact (say_run (ch_stack env) text d Hd Hs (conj H0 Hz)).
Qed.

Definition cfg_part (c : config_prototype) (text : list Z) (d : device) : device :=
  with_part {| settings := c; conf_file := Some text; boot_file := boot_file (dv_cfg d) |} d.
Lemma in_cfg_store env f d :
  c_rw_ok (cfg_env_of env) = true -> c_open_conf (cfg_env_of env) = true ->
  texts_end (f (settings (dv_cfg d))) ->
  exists text acts, settings_text (f (settings (dv_cfg d))) = Ret text /\
    in_cfg (store (cfg_env_of env) f) d =
    Ret (tt, cfg_part (f (settings (dv_cfg d))) text d, map (fun a => Sched (Disk a)) acts).
Proof.
  intros Hrw Ho Ht. destruct (store_run (cfg_env_of env) f (dv_cfg d) Hrw Ho Ht) as (text & tr & H1 & H2).
  exists text, tr. split; [done|]. unfold in_cfg. by rewrite (zoom_run (fun a => Sched (Disk a)) _ _ _ _ _ H2).
Qed.

(** ** The commands that set something *)

(** What to say, the answer, and what it does to the settings. *)
Definition toggles : list (string * string * (config_prototype -> config_prototype)) := [
  ("enable tracking", "Running config", set_signal_tracking_field 1);
  ("disable tracking", "Signal tracking: enabled", set_signal_tracking_field 0);
  ("disable persistent logging", "Persistent logging: enabled", set_persistent_logging_field 0);
  ("enable sms logging", "Persistent logging: disabled", set_sms_logging_field 1);
  ("disable sms logging", "Enabling SMS logging", set_sms_logging_field 0);
  ("callwait auto hangup", "Disabling cell broadcast...", set_callwait_autohangup_field 2);
  ("callwait auto ignore", "I will automatically terminate all incoming calls while you're talking",
   set_callwait_autohangup_field 1);
  ("callwait mode default", "I will just inform you that there's a new call waiting",
   set_callwait_autohangup_field 0);
  ("enable custom alert tone", "I will let the host handle multiple calls",
   set_custom_alert_tone_field 1);
  ("disable custom alert tone", "Enabling custom alert tone", set_custom_alert_tone_field 0);
  ("stop recording calls", "I will record all calls from now on", set_automatic_call_recording_field 0);
  ("disable internal net",
   "Warning: this function is in testing. Reboot to apply changes. Send 'disable internal net' to revert",
   set_allow_internal_modem_connectivity_field 0);
  ("dump network data", "Available QMI services:", set_dump_network_tables_field 1);
  ("disable network data dump", "Enabling network data logging", set_dump_network_tables_field 0);
  ("enable network downgrade notification", "Disabling network data logging",
   set_signal_tracking_notify_downgrade_field 1);
  ("disable network downgrade notification", "I will notify you if network type gets downgraded",
   set_signal_tracking_notify_downgrade_field 0);
  ("enable message recovery", "Removing internal networking authentication config",
   set_list_all_bypass_field 1);
  ("disable message recovery", "Will try to retrieve any stuck messages on next boot",
   set_list_all_bypass_field 0)]%string.

(** One that is only its default answer and a store. *)
Definition plain_setting (words answer : string) (f : config_prototype -> config_prototype) : Prop :=
  let id := asked (zs words) in
  lowered (zs words) /\ zlen (zs words) < 160 /\
  response_text id = Ret (zs answer ++ nl) /\ 0 < zlen (zs answer ++ nl) < 160 /\
  (forall env, run_command env id (zs words) = reply_then env id (in_cfg (store (cfg_env_of env) f))) /\
  (forall c, Config.texts (f c) = Config.texts c).

Lemma toggles_plain : Forall (fun '(words, answer, f) => plain_setting words answer f) toggles.
Proof.
  unfold toggles. repeat apply Forall_cons_2; [..|apply Forall_nil_2].
  all: unfold plain_setting; cbv zeta.
  all: lazymatch goal with |- context [asked (zs ?w)] =>
         let n := eval vm_compute in (asked (zs w)) in change (asked (zs w)) with n end.
  all: split_and!; [|vm_compute; reflexivity..|reflexivity|reflexivity].
  all: apply lowered_dec; vm_compute; reflexivity.
Qed.

(** C15: a text asks for the last command of the table whose words it is, or,
    for a command with an argument, whose words it has in it, in either case;
    that command runs with the text, and its number is recorded. This holds
    for texts of fewer than 160 characters, each of them greater than its place,
    whatever the memory of the copy in lower case held; a text with a blank from the
    33rd place on is not one, its copy ends there and the uninitialised rest is
    searched. *)
Theorem dispatch_correct env text rest d :
  lowered text -> zlen text < 160 -> zlen (ch_lower env) = 160 ->
  parse_command env (text ++ 0 :: rest) d =
  (do* _ := run_command env (asked text) text in
   do* _ := add_to_history (asked text) in ret 0) d.
Proof. apply parse_command_eq. Qed.
Lemma sample_ready : ready sample_env sample_device.
Proof.
  split_and!; try reflexivity; [exact sample_chat_ok|by split|]. exact (storable_ends _ sample_storable).
Qed.
Definition sample_text : list Z := zs "Hey, REMIND ME in 2 tea".
Lemma dispatch_correct_witness :
  asked sample_text = CMD_ID_ACTION_SET_REMINDER /\
  parse_command sample_env (sample_text ++ 0 :: replicate 8 9) sample_device =
  (do* _ := run_command sample_env (asked sample_text) sample_text in
   do* _ := add_to_history (asked sample_text) in ret 0) sample_device.
Proof.
  split; [vm_compute; reflexivity|]. apply dispatch_correct; [|vm_compute; reflexivity..].
  apply lowered_dec. vm_compute. reflexivity.
Defined.

(** Every row's own words ask for that row; but the table has one row out
    of place, so the row whose text is the default answer of the commands 24
    to 60 is the row before theirs, and that of 23 the row of 60. *)
Theorem answers_are_shifted id :
  0 <= id < 76 ->
  exists b, row id = Ret b /\ asked (zs (cmd b)) = bot_id b /\
    bot_id b = (if id =? 23 then 60 else if (24 <=? id) && (id <=? 60) then id - 1 else id).
Proof.
  intros Hid. set (shown := fun i => if i =? 23 then 60 else if (24 <=? i) && (i <=? 60) then i - 1 else i).
  assert (forallb (fun i => match row i with
    | Ret b => (asked (zs (cmd b)) =? bot_id b) && (bot_id b =? shown i)
    | _ => false end) (seqZ 0 76) = true) as H by (vm_compute; reflexivity).
  rewrite forallb_forall in H. specialize (H id).
  rewrite <- list_elem_of_In, elem_of_seqZ in H. specialize (H ltac:(lia)).
  destruct (row id) as [b| |]; try done. b2p. by exists b.
Qed.

Lemma answers_are_shifted_witness :
  exists b, row 24 = Ret b /\ asked (zs (cmd b)) = bot_id b /\ bot_id b = 23.
Proof. apply (answers_are_shifted 24). lia. Defined.

Lemma toggle_texts words answer f c :
  plain_setting words answer f -> texts_end c -> texts_end (f c).
Proof. intros (_ & _ & _ & _ & _ & H). unfold texts_end. by rewrite H. Qed.

(** Each of the eighteen commands that only switch a setting does it: the
    setting is changed and the settings are written, and nothing else of the
    device but the history and the answer. *)
Lemma setting_commands env d rest words answer f :
  ready env d -> (words, answer, f) ∈ toggles ->
  exists text acts,
    settings_text (f (settings (dv_cfg d))) = Ret text /\
    parse_command env (zs words ++ 0 :: rest) d =
    Ret (0, with_part (recorded (asked (zs words)) (dv_cmd d))
              (cfg_part (f (settings (dv_cfg d))) text (told (zs answer ++ nl) d)),
         map (fun a => Sched (Disk a)) acts).
Proof.
  intros (Hs & Hlow & Hrw & Ho & Hd & Hc & Ht) Hin.
  assert (Hp : plain_setting words answer f)
    by (pose proof toggles_plain as Hall; rewrite list.Forall_forall in Hall; exact (Hall _ Hin)).
  pose proof (toggle_texts _ _ _ _ Hp Ht) as Hft. destruct Hp as (Hl & Hz & Hresp & Hlen & Hrun & _).
  destruct (in_cfg_store env f (told (zs answer ++ nl) d) Hrw Ho Hft) as (text & acts & Htext & Hst).
  exists text, acts. split; [exact Htext|].
  refine (parse_command_run env (zs words) rest d tt
    (cfg_part _ text (told (zs answer ++ nl) d)) _ Hl Hz Hlow _ Hc). rewrite Hrun. unfold reply_then.
  rewrite (bind_step _ _ _ _ _ (send_default_response_run env _ _ d Hs Hresp (proj2 Hlen) (proj1 Hlen) Hd)).
  exact Hst.
Qed.
(** ** Texts nobody knows *)

Lemma run_unknown env text d user :
  cstr (user_name (settings (dv_cfg d))) = Ret user ->
  run_command env CMD_UNKNOWN text d =
  say zeros (zs "Sorry " ++ user ++ zs ", I don't understand the command '" ++ text ++ zs "'" ++ nl) d.
Proof.
  intros Hu. change (run_command env CMD_UNKNOWN text) with (unknown_command text).
  unfold unknown_command, rt_user_name, settings_of. rewrite !bind_assoc, bind_get.
  rewrite bind_ret. by rewrite (bind_lift _ _ _ _ Hu).
Qed.

(** A text no command is asked for with is answered with itself and the
    owner's name. The answer has room for about a hundred characters of it: a
    longer one is read, and copied, past the end of its array. *)
Theorem unknown_command_answer env d text rest user :
  ready env d -> lowered text -> zlen text < 160 -> asked text = CMD_UNKNOWN ->
  cstr (user_name (settings (dv_cfg d))) = Ret user ->
  let answer := zs "Sorry " ++ user ++ zs ", I don't understand the command '" ++ text ++ zs "'" ++ nl in
  (zlen answer < 160 ->
   parse_command env (text ++ 0 :: rest) d =
   Ret (0, with_part (recorded CMD_UNKNOWN (dv_cmd d)) (told answer d), [])) /\
  (160 < zlen answer -> zlen user < 128 -> queue_pos (texts (dv_phone d)) <= QUEUE_SIZE - 2 ->
   parse_command env (text ++ 0 :: rest) d = Oob).
Proof.
  intros (Hs & Hlow & _ & _ & Hd & Hc & _) Hl Hz Hask Hu answer.
  assert (Hzeros : zlen zeros = 160) by reflexivity.
  assert (Hlen : zlen answer = 42 + zlen user + zlen text).
  { unfold answer, nl. zl. change (zlen (zs "Sorry ")) with 6.
    change (zlen (zs ", I don't understand the command '")) with 34. change (zlen (zs "'")) with 1. lia. }
  pose proof (zlen_nonneg user). pose proof (zlen_nonneg text).
  split.
  - intros Hfit. rewrite <- Hask.
    refine (parse_command_run env text rest d tt (told answer d) [] Hl Hz Hlow _ Hc).
    rewrite Hask, (run_unknown env text d user Hu). apply say_run; [done..|lia].
  - intros Hlong Huser Hq. rewrite (parse_command_eq env text rest d Hl Hz Hlow), Hask.
    unfold bind at 1. rewrite (run_unknown env text d user Hu). fold answer.
    by rewrite say_faults by (done || lia).
Qed.
Lemma unknown_command_answer_witness :
  parse_command sample_env (replicate 120 120 ++ 0 :: replicate 39 0) sample_device = Oob.
Proof.
  refine (proj2 (unknown_command_answer sample_env sample_device (replicate 120 120) (replicate 39 0)
    (zs "Admin") _ _ _ _ _) _ _ _); try (vm_compute; reflexivity).
  - exact sample_ready.
  - apply lowered_dec. vm_compute. reflexivity.
  - vm_compute. congruence.
Defined.

(** ** The history *)

(** What the listing prints of the first commands. *)
Definition listing (ids : list Z) : list Z := concat (map (fun id => fmt_i id ++ [32]) ids).

Lemma listing_snoc l x : listing (l ++ [x]) = listing l ++ fmt_i x ++ [32].
Proof. unfold listing. rewrite map_app, concat_app. cbn [map concat]. by rewrite app_nil_r. Qed.

Lemma history_loop_run n c b i fuel :
  zlen (cmd_history c) = 1024 -> cmd_position c <= 255 -> zlen b = 160 ->
  0 <= i -> i + Z.of_nat n = cmd_position c -> (n < fuel)%nat ->
  let text k := listing (take (Z.to_nat k) (cmd_history c)) in
  take (Z.to_nat (zlen (text i))) b = text i -> zlen (text (cmd_position c)) < 160 ->
  exists b', history_loop fuel i c (b, zlen (text i)) = Ret (b', zlen (text (cmd_position c))) /\
    zlen b' = 160 /\ take (Z.to_nat (zlen (text (cmd_position c)))) b' = text (cmd_position c).
Proof.
  intros Hh Hp Hb Hi Hn Hf text. revert b i fuel Hb Hi Hn Hf.
  induction n as [|n IH]; intros b i fuel Hb Hi Hn Hf Htake Hlen; (destruct fuel as [|fuel]; [lia|]); cbn [history_loop].
  - ifdec. assert (i = cmd_position c) as -> by lia. by exists b.
  - ifdec. cbn [snd]. destruct (rdA_in (cmd_history c) i) as [x Hx]; [lia|].
    assert (Hnext : text (i + 1) = text i ++ fmt_i x ++ [32]).
    { unfold text. rewrite <- listing_snoc. apply rdA_lookup in Hx as [_ Hx].
      replace (Z.to_nat (i + 1)) with (S (Z.to_nat i)) by lia. by erewrite take_S_r. }
    assert (Hmono : zlen (text (i + 1)) <= zlen (text (cmd_position c))).
    { unfold text. replace (Z.to_nat (i + 1)) with (Z.to_nat (i + 1) `min` Z.to_nat (cmd_position c))%nat by lia.
      rewrite <- take_take. set (l := take (Z.to_nat (cmd_position c)) (cmd_history c)).
      rewrite <- (take_drop (Z.to_nat (i + 1)) l) at 2. unfold listing. rewrite map_app, concat_app. zl.
      pose proof (zlen_nonneg (concat (map (fun id => fmt_i id ++ [32]) (drop (Z.to_nat (i + 1)) l)))). lia. }
    pose proof (zlen_nonneg (text i)). pose proof (zlen_nonneg (fmt_i x ++ [32])).
    assert (Hsum : zlen (text (i + 1)) = zlen (text i) + zlen (fmt_i x ++ [32])) by (rewrite Hnext; apply zlen_app).
    unfold MAX_MESSAGE_SIZE. ifdec. rewrite Hx. cbn [cbind]. change (zs " ") with [32].
    destruct (append_cap 160 b (zlen (text i)) (fmt_i x ++ [32]) Hb) as (b1 & Ha & Hb1 & Ht1); [lia|].
    rewrite Ha. cbn [cbind]. rewrite u8_small by lia. rewrite <- Hsum in Ht1 |- *.
    apply IH; try lia. rewrite Ht1 by lia. by rewrite Htake, Hnext.
Qed.

Lemma history_loop_endless fuel c i r :
  zlen (cmd_history c) = 1024 -> 256 <= cmd_position c -> 0 <= i < 256 ->
  zlen (fst r) = 160 -> 0 <= snd r -> history_loop fuel i c r = Spin.
Proof.
  intros Hh Hp. revert i r. induction fuel as [|fuel IH]; intros i [b at_] Hi Hb Ha; cbn [fst snd] in *; [done|].
  cbn [history_loop snd]. ifdec.
  destruct (at_ <? MAX_MESSAGE_SIZE) eqn:E; b2p; unfold MAX_MESSAGE_SIZE in E.
  - destruct (rdA_in (cmd_history c) i) as [x ->]; [lia|]. cbn [cbind].
    destruct (append_cap 160 b at_ (fmt_i x ++ zs " ") Hb) as (b' & -> & Hb' & _); [lia|]. cbn [cbind].
    pose proof (zlen_nonneg (fmt_i x ++ zs " ")).
    apply IH; cbn [fst snd]; [apply Z.mod_pos_bound; lia|done|lia].
  - cbn [cbind]. apply IH; cbn [fst snd]; [apply Z.mod_pos_bound; lia|done|lia].
Qed.

(** "get history" lists the numbers of the commands so far, while they fit
    in a text. Once 256 commands were recorded the 8-bit counter of the loop
    never reaches their number: it runs for ever, so the answer never comes. *)
Theorem history_listed_or_endless env d rest :
  ready env d ->
  let c := dv_cmd d in
  let text := listing (take (Z.to_nat (cmd_position c)) (cmd_history c)) in
  (0 < cmd_position c <= 255 -> 0 < zlen text < 160 ->
   parse_command env (zs "get history" ++ 0 :: rest) d =
   Ret (0, with_part (recorded CMD_ID_GET_HISTORY c) (told text d), [])) /\
  (256 <= cmd_position c ->
   (forall fuel, history_loop fuel 0 c (zeros, 0) = Spin) /\
   parse_command env (zs "get history" ++ 0 :: rest) d = Spin).
Proof.
  intros (Hs & Hlow & _ & _ & Hd & Hc & _) c text.
  assert (Hl : lowered (zs "get history")) by (apply lowered_dec; vm_compute; reflexivity).
  assert (Hask : asked (zs "get history") = CMD_ID_GET_HISTORY) by (vm_compute; reflexivity).
  assert (Hrun : run_command env CMD_ID_GET_HISTORY (zs "get history") d =
    bind (lift (history_loop 257 0 c (zeros, 0))) (fun r => let '(reply, strsz) := r in send reply strsz) d)
    by (transitivity (bind get (fun d => bind (lift (history_loop 257 0 (dv_cmd d) (zeros, 0)))
          (fun r => let '(reply, strsz) := r in send reply strsz)) d); [reflexivity|by rewrite bind_get]).
  pose proof (proj1 Hc) as Hh. split.
  - intros Hp Hlen.
    assert (Hnone : listing (take (Z.to_nat 0) (cmd_history c)) = []) by (by rewrite take_0).
    destruct (history_loop_run (Z.to_nat (cmd_position c)) c zeros 0 257) as (b & Hb & Hzb & Htb);
      rewrite ?Hnone; try lia; [done|done|apply take_0|exact (proj2 Hlen)|].
    rewrite Hnone in Hb. fold text in Hb, Htb.
    rewrite <- Hask. refine (parse_command_run env _ rest d tt (told text d) [] Hl eq_refl Hlow _ Hc).
    rewrite Hask, Hrun. change (zlen []) with 0 in Hb.
    rewrite (bind_lift _ _ _ _ Hb), send_run by (done || lia). by rewrite Htb.
  - intros Hp. assert (He : forall fuel, history_loop fuel 0 c (zeros, 0) = Spin).
    { intros fuel. by apply history_loop_endless. }
    split; [exact He|]. rewrite (parse_command_eq env _ rest d Hl eq_refl Hlow), Hask.
    unfold bind at 1. rewrite Hrun. unfold bind at 1, lift. by rewrite He.
Qed.
Lemma history_listed_or_endless_witness :
  parse_command sample_env (zs "get history" ++ 0 :: [])
    (with_part (upd_history (replicate 1024 8) 3 idle_cmd) sample_device) =
  Ret (0, with_part (recorded CMD_ID_GET_HISTORY (upd_history (replicate 1024 8) 3 idle_cmd))
            (told (zs "8 8 8 ") (with_part (upd_history (replicate 1024 8) 3 idle_cmd) sample_device)), []).
Proof.
  refine (proj1 (history_listed_or_endless sample_env
    (with_part (upd_history (replicate 1024 8) 3 idle_cmd) sample_device) [] _) _ _).
  - split_and!; try reflexivity; [exact sample_chat_ok|by split|]. exact (storable_ends _ sample_storable).
  - cbn. lia.
  - split; vm_compute; reflexivity.
Defined.
