(* ===== verification/Daemon.v ===== *)
(** The daemon as a whole: the thread of the QMI packets (src/proxy.c) and the
    scheduler's thread (src/scheduler.c) on the state all components share, with
    the texts for the modem run as commands where the packet's filter calls
    parse_command (src/sms.c, intercept_and_parse). *)

From stdpp Require Import base list numbers option strings.
From Stdlib Require Import ZArith Lia.
From S2P Require Import Prelude Libc Eff Qmi Requests Dms Services Gsm7 Sms SmsFilter Config Call Replies Cells NasClient Wds Scheduler Tracking Proxy.
From S2P Require Import CommandTable Device Chat Reminders Commands.

(** * The settings the threads read *)

Definition on_flag (v : Z) : bool := negb (v =? 0).
(** The surroundings of a turn, with the flags and the name from the settings. *)
Definition env_of (env : proxy_env) (d : device) : proxy_env :=
  let c := settings (dv_cfg d) in
  let f := x_filter env in
  {| x_filter := {| f_sms := f_sms f; f_reply := f_reply f; f_suspended := f_suspended f;
       f_sms_logging := on_flag (sms_logging c); f_call_simulation := f_call_simulation f;
       f_heap_msg := f_heap_msg f; f_heap_160 := f_heap_160 f |};
     x_call := {| k_hangup_mode := callwait_autohangup c; k_debug_log := k_debug_log (x_call env);
                  k_user_name := until_nul (user_name c) |};
     x_heap := x_heap env; x_list_all_bypass := on_flag (list_all_bypass c); x_now := x_now env |}.

(** * Packets *)

Section Turn.
Variable env : chat_env.
Variable adspfd usbfd : Z.

(** The actions of a filter, in order: a text for the modem is run when it is
    given to the interpreter. *)
Fixpoint run_texts (l : list proxy_action) : MV unit :=
  match l with
  | [] => ret tt
  | a :: l =>
      emit (Prx a) ;>
      match a with
      | Ph (Out (ParseCommand text)) => do* _ := parse_command env text in ret tt
      | _ => ret tt
      end ;>
      run_texts l
  end.
Definition with_commands {A} (m : MX A) : MV A := fun d =>
  let* '(a, p, l) := m (part d) in
  (run_texts l ;> ret a) (with_part p d).

(** A component's operation, with the settings of the moment. *)
Definition with_settings_env {A} (m : proxy_env -> MV A) : MV A :=
  do* d := get in m (env_of (ch_proxy env) d).

(** The text service: a command runs between the interception of its text and
    the log of it. *)
Definition device_texts (source : Z) (pkt : list Z) (pkt_size : Z) : MV Z :=
  do* mine :=
    if pkt_size <? OUT_MIN_LEN then ret 0
    else
      do* mine := with_settings_env (fun x =>
        with_commands (texts_do x (fun e => intercept_ours e usbfd pkt pkt_size))) in
      with_settings_env (fun x => in_proxy (texts_do x (fun e => log_text e source pkt pkt_size))) ;>
      ret mine in
  with_settings_env (fun x => in_proxy (other_filters x usbfd mine source pkt pkt_size)).

Definition device_packet (source : Z) (pkt : list Z) (pkt_size : Z) : MV Z :=
  let plain := with_settings_env (fun x => in_proxy (process_packet x adspfd usbfd source pkt pkt_size)) in
  if (pkt_size =? 0) || (pkt_size <? SZ_QMUX + SZ_CTL) then plain
  else
    do* svc := lift (get_qmux_service_id pkt) in
    if svc =? 5 then device_texts source pkt pkt_size else plain.

Definition device_carry (source : Z) (data : option (list Z)) : MV unit :=
  do* act := device_packet source (read_buffer data) (bytes_read data) in
  with_settings_env (fun x => in_proxy (dispose x adspfd usbfd source data act)).

Definition device_turn (arrived : arrival) : MV unit :=
  match arrived with
  | FromDsp data => device_carry FROM_DSP (Some data)
  | FromHost data => device_carry FROM_HOST (Some data)
  | ReadFails source => device_carry source None
  | Quiet => with_settings_env (fun x => in_proxy (rmnet_turn x adspfd usbfd Quiet))
  end.
End Turn.

(** * A text that is a command *)

Lemma in_proxy_run {A} (m : MX A) (a : A) p t d :
  m (part d) = Ret (a, p, t) -> in_proxy m d = Ret (a, with_part p d, map Prx t).
Proof. apply zoom_run. Qed.
Lemma in_proxy_same {A} (m : MX A) (a : A) d :
  m (part d) = Ret (a, part d, []) -> in_proxy m d = Ret (a, d, []).
Proof. intros H. apply (zoom_same Prx m d a [] H). Qed.

(** A filter of the texts that keeps the store as it is. *)
Lemma texts_do_same {A} env (m : filter_env -> MS A) (s : proxy) (a : A) l :
  m (filter_env_of env s) (texts (ph s)) = Ret (a, texts (ph s), l) -> Forall not_voice l ->
  texts_do env m s = Ret (a, s, map Ph (map Out l)).
Proof.
  intros H Hl. unfold texts_do. rewrite bind_get. unfold zoom at 1. cbn [part proxy_phone].
  unfold cbind at 1 2. cbn beta. rewrite H. cbn [cbind].
  rewrite (bind_after _ _ _ _ _ _ (perform_plain _ _ Hl)). unfold ret. rewrite after_Ret, app_nil_r.
  cbn [cbind]. by destruct s as [? [] ? ?].
Qed.

Lemma with_commands_run {A} env (m : MX A) (a : A) d d' x text n t :
  m (part d) = Ret (a, part d, [x; Ph (Out (ParseCommand text))]) ->
  (forall text, x <> Ph (Out (ParseCommand text))) -> parse_command env text d = Ret (n, d', t) ->
  with_commands env m d = Ret (a, d', Prx x :: Prx (Ph (Out (ParseCommand text))) :: t).
Proof.
  intros H Hx Hrun. unfold with_commands. rewrite H. cbn [cbind]. rewrite with_part_part.
  cbn [run_texts]. autorewrite with eff.
  assert (forall A (k : MV A), bind (match x with
      | Ph (Out (ParseCommand text)) => do* _ := parse_command env text in ret tt
      | _ => ret tt end) (fun _ => k) d = k d) as Hk.
  { intros B k. destruct x as [[[]| |]| | | |]; try by rewrite bind_ret. by destruct (Hx text0). }
  rewrite Hk. autorewrite with eff. rewrite (bind_after _ _ _ _ _ _ Hrun). autorewrite with eff.
  unfold ret. by rewrite after_Ret, app_nil_r.
Qed.

(** What a packet's text is, read in the buffer it lies in. *)
Record submit (data : list Z) (tid : Z) (s : list Z) : Prop := {
  sb_len : OUT_MIN_LEN <= zlen data <= MAX_PACKET_SIZE;
  sb_service : rd data 4 = Ret 5;
  sb_number : rdn data OUT_NUMBER 7 = Ret our_phone \/ rdn data OUT_NUMBER 7 = Ret cb_phone;
  sb_tid : rd16 data 7 = Ret tid;
  sb_msgid : exists mid, rd16 data 9 = Ret mid;
  sb_type : exists t, rd data OUT_PDU_TYPE = Ret t /\ 0x11 <= t;
  sb_text : exists rest, bytes_ok rest /\
    drop (Z.to_nat OUT_CONTENT_SZ) data = zlen s :: le (packed_size (length s)) (b128 s) ++ rest;
  sb_plain : Forall plain_char s
}.

Lemma rdn_prefix data z i n b : 0 <= i -> rdn data i n = Ret b -> rdn (data ++ z) i n = Ret b.
Proof.
  revert i b. induction n as [|n IH]; intros i b Hi; cbn [rdn]; [done|].
  intros (x & Hx & (r & Hr & [= <-])%cbind_Ret_inv)%cbind_Ret_inv. pose proof (rdA_bounds _ _ _ Hx).
  rewrite rdA_app_l, Hx by lia. cbn [cbind]. by rewrite (IH (i + 1) r) by (done || lia).
Qed.
Lemma rd16_prefix data z i v : rd16 data i = Ret v -> rd16 (data ++ z) i = Ret v.
Proof.
  unfold rd16. intros (x & Hx & (y & Hy & <-%Ret_inj)%cbind_Ret_inv)%cbind_Ret_inv.
  pose proof (rdA_bounds _ _ _ Hx). pose proof (rdA_bounds _ _ _ Hy).
  rewrite !rdA_app_l, Hx by lia. cbn [cbind]. by rewrite Hy.
Qed.
Lemma rd_prefix data z i v : rd data i = Ret v -> rd (data ++ z) i = Ret v.
Proof. intros H. pose proof (rdA_bounds _ _ _ H). by rewrite rdA_app_l by lia. Qed.

Lemma submit_intercepted env usbfd data tid s r :
  submit data tid s -> zlen s <= 160 ->
  intercept_ours env usbfd (in_buffer data) (zlen data) r =
  Ret (1, r, [Write usbfd (ack_packet tid); ParseCommand (s ++ replicate (160 - length s) 0)]).
Proof.
  intros [Hlen Hsvc Hnum Htid _ (t & Ht & Hge) (rest & Hrest & Hd) Hs] Hl. unfold in_buffer.
  set (z := replicate (Z.to_nat _) 0).
  assert (exists number, rdn data OUT_NUMBER 7 = Ret number /\ (number = our_phone \/ number = cb_phone))
    as (number & Hn & Hus) by (destruct Hnum; eauto).
  assert (Hz : zlen z <= MAX_PACKET_SIZE) by (unfold z; zl; pose proof (zlen_nonneg data); unfold MAX_PACKET_SIZE in *; lia).
  assert (Hdz : drop (Z.to_nat OUT_CONTENT_SZ) (data ++ z) = zlen s :: le (packed_size (length s)) (b128 s) ++ rest ++ z).
  { rewrite drop_app_le, Hd.
    - cbn [app]. by rewrite <- app_assoc.
    - destruct (decide (Z.to_nat OUT_CONTENT_SZ <= length data)%nat) as [|Hgt]; [done|].
      rewrite drop_ge in Hd by lia. done. }
  apply (intercept_ours_run env usbfd _ _ r number); [apply Hlen|by apply rdn_prefix|by apply rd16_prefix|done|].
  apply (intercepted_text_submit _ t s (rest ++ z)); [by apply rd_prefix|done..| |].
  - apply Forall_app. split; [done|]. apply Forall_replicate. split; lia.
  - apply (f_equal zlen) in Hd. zl. assert (zlen (drop (Z.to_nat OUT_CONTENT_SZ) data) <= zlen data)
      by (unfold zlen; rewrite length_drop; lia).
    pose proof (zlen_nonneg rest). unfold MAX_PACKET_SIZE in *. lia.
Qed.

(** The log of the text: off, or one that stays in its buffers. *)
Definition logs_well (logging : bool) (data : list Z) : Prop := logging = false \/ loggable data.
Lemma logging_off v data : v = 0 -> logs_well (on_flag v) data.
Proof. intros ->. by left. Qed.
Lemma log_text_same env data tid s r :
  submit data tid s -> logs_well (f_sms_logging env) data ->
  log_text env FROM_HOST (in_buffer data) (zlen data) r = Ret (tt, r, []).
Proof.
  intros [_ _ _ _ (mid & Hmid) (t & Ht & Hge) _ _] Hlog. unfold log_text.
  rewrite (bind_lift _ mid) by by apply rd16_prefix. destruct Hlog as [->|Hlog]; [done|].
  destruct (f_sms_logging env && _); [|done]. cbn [when].
  pose proof (zlen_nonneg data). pose proof Hlog as ((_ & Hl) & _). unfold OUT_CONTENT_SZ in Hl.
  unfold in_buffer. apply (log_contents_run env data _ r t Hlog); [unfold MAX_PACKET_SIZE; lia..|done|done].
Qed.

(** The packet counted as kept from the baseband. *)
Definition kept_from_network (d : device) : device :=
  with_part (upd_rt (on_rmnet count_bypassed) (part d)) d.

Lemma run_text env adspfd usbfd data tid s d d' t :
  submit data tid s -> zlen s < 160 ->
  parse_command env (s ++ 0 :: replicate (159 - length s) 0) d = Ret (0, d', t) ->
  logs_well (on_flag (sms_logging (settings (dv_cfg d')))) data ->
  device_turn env adspfd usbfd (FromHost data) d =
  Ret (tt, kept_from_network d',
       Prx (Ph (Out (Write usbfd (ack_packet tid)))) ::
       Prx (Ph (Out (ParseCommand (s ++ 0 :: replicate (159 - length s) 0)))) :: t).
Proof.
  intros Hsub Hl Hrun Hlog. pose proof Hsub as [Hlen Hsvc _ _ (mid & Hmid) _ _ _].
  assert (Hpad : s ++ replicate (160 - length s) 0 = s ++ 0 :: replicate (159 - length s) 0).
  { assert (160 - length s = S (159 - length s))%nat as -> by (unfold zlen in Hl; lia). done. }
  cbn [device_turn]. unfold device_carry, device_packet. cbn [read_buffer bytes_read default]. unfold OUT_MIN_LEN, SZ_QMUX, SZ_CTL in *.
  rewrite (proj2 (Z.eqb_neq (zlen data) 0)), (proj2 (Z.ltb_ge (zlen data) (6 + 6))) by lia. cbn [orb].
  rewrite bind_assoc. unfold get_qmux_service_id. rewrite (bind_lift _ 5) by by apply rd_prefix.
  change (5 =? 5) with true. cbn match. unfold device_texts, OUT_MIN_LEN.
  rewrite (proj2 (Z.ltb_ge (zlen data) 32)) by lia.
  pose proof (submit_intercepted (filter_env_of (env_of (ch_proxy env) d) (part d)) usbfd data tid s
    (texts (dv_phone d)) Hsub ltac:(lia)) as Hint. rewrite Hpad in Hint.
  set (pad := s ++ 0 :: _) in *.
  assert (Hcmd : with_settings_env env (fun x => with_commands env
      (texts_do x (fun e => intercept_ours e usbfd (in_buffer data) (zlen data)))) d =
    Ret (1, d', Prx (Ph (Out (Write usbfd (ack_packet tid)))) :: Prx (Ph (Out (ParseCommand pad))) :: t)).
  { unfold with_settings_env. rewrite bind_get. eapply with_commands_run; [|done|exact Hrun].
    exact (texts_do_same (env_of (ch_proxy env) d)
      (fun e => intercept_ours e usbfd (in_buffer data) (zlen data)) (part d) 1 [_; _] Hint
      ltac:(by repeat constructor)). }
  rewrite bind_assoc, bind_assoc, (bind_after _ _ _ _ _ _ Hcmd).
  assert (Hlogs : with_settings_env env (fun x => in_proxy (texts_do x (fun e =>
      log_text e FROM_HOST (in_buffer data) (zlen data)))) d' = Ret (tt, d', [])).
  { unfold with_settings_env. rewrite bind_get. apply in_proxy_same.
    apply (texts_do_same (env_of (ch_proxy env) d')
      (fun e => log_text e FROM_HOST (in_buffer data) (zlen data)) (part d') tt []); [|constructor].
    by apply (log_text_same _ _ tid s). }
  rewrite bind_assoc, (bind_step _ _ _ _ _ Hlogs), bind_ret.
  unfold with_settings_env at 1. rewrite bind_assoc, bind_get.
  rewrite (bind_step _ _ _ _ _ (in_proxy_same (other_filters _ usbfd 1 FROM_HOST _ _) PACKET_BYPASS d' eq_refl)).
  unfold with_settings_env. rewrite bind_get. unfold kept_from_network.
  erewrite in_proxy_run; [|reflexivity]. by rewrite after_Ret, app_nil_r.
Qed.

(** A packet with a text for the modem. *)
Definition submit_packet (s : list Z) : list Z :=
  [1; 57; 0; 0; 5; 1; 0; 7; 0; 0x20; 0; 45; 0; 1; 42; 0; 1; 1; 0; 0; 0x11; 0; 12] ++ our_phone ++
  [0; 0; 0xa7] ++ zlen s :: le (packed_size (length s)) (b128 s) ++ [0].
Lemma submit_packet_ok s : Forall plain_char s -> zlen s <= 160 -> submit (submit_packet s) 7 s.
Proof.
  intros Hs Hl. assert (Hp : zlen (le (packed_size (length s)) (b128 s)) <= 160).
  { rewrite zlen_le. unfold packed_size, zlen in *. apply Z.le_trans with (Z.of_nat (length s)); [|lia]. dlia. }
  split; try done.
  - unfold submit_packet, OUT_MIN_LEN, MAX_PACKET_SIZE, our_phone. cbn [app]. zl.
    pose proof (zlen_nonneg (le (packed_size (length s)) (b128 s))). zl. lia.
  - by left.
  - by eexists.
  - exists 0x11. split; [done|lia].
  - exists [0]. split; [repeat constructor; lia|done].
Qed.

Definition plain_charb (c : Z) : bool := (0 <? c) && (c <? 128) && (nth (Z.to_nat c) Ascii8to7 0 =? c).
Lemma plain_text s : forallb plain_charb s = true -> Forall plain_char s.
Proof.
  intros H. rewrite forallb_forall in H. apply list.Forall_forall. intros c Hc%list_elem_of_In%H.
  unfold plain_charb in Hc. b2p. by split.
Qed.
Lemma toggles_text :
  Forall (fun '(words, _, _) => forallb plain_charb (zs words) = true /\ zlen (zs words) < 160) toggles.
Proof. unfold toggles. repeat apply Forall_cons_2; [..|apply Forall_nil_2]. all: by split; vm_compute. Qed.

(** C3: from the packet to the setting: a text with one of the eighteen commands
    that only switch a setting is acknowledged to the host, the setting and its
    file are changed, the answer is queued as a text to the host and the command
    recorded; nothing else of the daemon changes and the packet is not
    forwarded. The answers are those of another command. The device is one whose
    buffers are whole, whose partition and settings file open, with room in the
    queue and no simulated call ([ready]); where the command leaves the logging of
    texts on, as the one that turns it on does, the packet is one whose log stays in
    its buffers ([loggable]). *)
Theorem text_switches_setting env adspfd usbfd data tid d words answer f :
  (words, answer, f) ∈ toggles -> submit data tid (zs words) -> ready env d ->
  sms_logging (f (settings (dv_cfg d))) = 0 \/ loggable data ->
  exists text acts,
    settings_text (f (settings (dv_cfg d))) = Ret text /\
    device_turn env adspfd usbfd (FromHost data) d =
    Ret (tt, kept_from_network (with_part (recorded (asked (zs words)) (dv_cmd d))
               (cfg_part (f (settings (dv_cfg d))) text (told (zs answer ++ nl) d))),
         Prx (Ph (Out (Write usbfd (ack_packet tid)))) ::
         Prx (Ph (Out (ParseCommand (zs words ++ 0 :: replicate (159 - length (zs words)) 0)))) ::
         map (fun a => Sched (Disk a)) acts).
Proof.
  intros Hin Hsub Hready Hlog.
  pose proof toggles_text as Hall. rewrite list.Forall_forall in Hall. destruct (Hall _ Hin) as [_ Hlen].
  destruct (setting_commands env d (replicate (159 - length (zs words)) 0) words answer f Hready Hin)
    as (text & acts & Htext & Hrun).
  exists text, acts. split; [done|]. apply (run_text env adspfd usbfd data tid (zs words) d _ _ Hsub Hlen Hrun).
  destruct Hlog as [Hlog|Hlog]; [by apply logging_off|by right].
Qed.
Lemma text_switches_setting_witness :
  exists text acts,
    settings_text (set_sms_logging_field 1 sample_settings) = Ret text /\
    device_turn sample_env 6 5 (FromHost (submit_packet (zs "enable sms logging"))) sample_device =
    Ret (tt, kept_from_network (with_part (recorded 27 idle_cmd)
               (cfg_part (set_sms_logging_field 1 sample_settings) text
                  (told (zs "Persistent logging: disabled" ++ nl) sample_device))),
         Prx (Ph (Out (Write 5 (ack_packet 7)))) ::
         Prx (Ph (Out (ParseCommand (zs "enable sms logging" ++ 0 :: replicate 141 0)))) ::
         map (fun a => Sched (Disk a)) acts).
Proof.
  apply (text_switches_setting sample_env 6 5 (submit_packet (zs "enable sms logging")) 7 sample_device
    "enable sms logging" "Persistent logging: disabled" (set_sms_logging_field 1)).
  - do 3 right. left.
  - apply submit_packet_ok; [apply plain_text; reflexivity|vm_compute; congruence].
  - exact sample_ready.
  - right. split; [vm_compute; split; congruence|]. split; [|by exists 12].
    apply (bool_decide_unpack _). by vm_compute.
Defined.
