(* ===== verification/Invariant.v ===== *)
(** What every run of the daemon keeps: the invariant of the state all
    components share, for the threads of Daemon.v and every command of the chat. *)

From stdpp Require Import base list numbers option strings.
From Stdlib Require Import ZArith Lia.
From S2P Require Import Prelude Libc Eff Qmi Requests Dms Services Sms SmsFilter Config Call Replies Cells NasClient Wds Scheduler Tracking Proxy.
From S2P Require Import CommandTable Device Chat Reminders Commands Daemon.

(** * The invariant *)

Definition table_ok (s : sched) : Prop := length (tasks (sch s)) = 255%nat /\ phone_ok (sch_phone s).
Definition device_ok (d : device) : Prop :=
  phone_ok (dv_phone d) /\ length (tasks (dv_sch d)) = 255%nat /\ cmd_ok (dv_cmd d) /\
  length (reports (dv_nas d)) = 4096%nat /\ dms_ok (dv_dms d).

(** * The store of texts *)

#[local] Hint Resolve keeps_set_source keeps_set_notif keeps_notification keeps_process keeps_notify keeps_add_sms
  keeps_add_raw : oqti.
#[local] Hint Extern 1 (keeps runtime_ok (modify _)) =>
  apply keeps_modify; intros ? (? & ? & ? & ?); repeat split; cbn in *; done || lia : oqti.

Lemma keeps_add_filter e text len : keeps runtime_ok (SmsFilter.add_message_to_queue e text len).
Proof. unfold SmsFilter.add_message_to_queue. keeps_auto. Qed.
#[local] Hint Resolve keeps_add_filter : oqti.
Lemma keeps_intercept e fd bytes len : keeps runtime_ok (intercept_ours e fd bytes len).
Proof. unfold intercept_ours, intercept_and_parse, send_outgoing_msg_ack. keeps_auto. Qed.
Lemma keeps_log_text e source bytes len : keeps runtime_ok (log_text e source bytes len).
Proof. unfold log_text, log_message_contents. keeps_auto. Qed.
#[local] Hint Resolve keeps_intercept keeps_log_text : oqti.
Lemma keeps_check_wms e fd source bytes len : keeps runtime_ok (check_wms_message e fd source bytes len).
Proof. unfold check_wms_message. keeps_auto. Qed.
Lemma keeps_indication e bytes len : keeps runtime_ok (check_wms_indication_message e bytes len).
Proof. unfold check_wms_indication_message. keeps_auto. Qed.
Lemma keeps_forward_adsp e bytes len : keeps runtime_ok (parse_and_forward_adsp_message e bytes len).
Proof. unfold parse_and_forward_adsp_message. keeps_auto. Qed.
#[local] Hint Resolve keeps_check_wms keeps_indication keeps_forward_adsp : oqti.
Lemma keeps_read_adsp e fd i tid id : keeps runtime_ok (request_read_adsp_message e fd i tid id).
Proof. unfold request_read_adsp_message, adsp_request. keeps_auto. Qed.
Lemma keeps_delete_adsp e fd i tid id : keeps runtime_ok (request_message_delete e fd i tid id).
Proof. unfold request_message_delete, adsp_request. keeps_auto. Qed.
#[local] Hint Resolve keeps_read_adsp keeps_delete_adsp : oqti.
Lemma keeps_retrieve_loop e fd n i inst tid pkt : keeps runtime_ok (retrieve_loop e fd n i inst tid pkt).
Proof. revert i tid; induction n as [|n IH]; intros i tid; cbn [retrieve_loop]; keeps_auto. Qed.
#[local] Hint Resolve keeps_retrieve_loop : oqti.
Lemma keeps_retrieve e fd : keeps runtime_ok (retrieve_and_delete e fd).
Proof. unfold retrieve_and_delete. keeps_auto. Qed.
Lemma keeps_list_all fd source bytes len : keeps runtime_ok (check_wms_list_all_messages fd source bytes len).
Proof. unfold check_wms_list_all_messages. keeps_auto. Qed.
Lemma keeps_check_cb e bytes len : keeps runtime_ok (check_cb_message e bytes len).
Proof. unfold check_cb_message, intercept_cb_message. keeps_auto. Qed.
Lemma keeps_inject fd : keeps runtime_ok (do_inject_notification fd).
Proof. unfold do_inject_notification. keeps_auto. Qed.
Lemma keeps_lock b : keeps runtime_ok (set_queue_lock b).
Proof. unfold set_queue_lock. keeps_auto. Qed.
#[local] Hint Resolve keeps_retrieve keeps_list_all keeps_check_cb keeps_inject keeps_lock : oqti.

(** * The phone *)

Lemma keeps_store_op {A} (m : MS A) : keeps runtime_ok m -> keeps phone_ok (zoom Out m).
Proof.
  intros Hm p a p' t [Hr Hv]. unfold zoom. destruct (m (part p)) as [[[b r] u]| |] eqn:E; [|done..].
  cbn [cbind]. intros [= -> <- <-]. split; [|exact Hv]. by eapply Hm.
Qed.
Lemma keeps_on_calls f : (forall r, voice_msg (f r) = voice_msg r) -> keeps phone_ok (@modify _ phone_action (on_calls f)).
Proof. intros Hf. apply keeps_modify. intros p [Hr Hv]. split; [done|]. unfold voice_ok in *. cbn. by rewrite Hf. Qed.
#[local] Hint Extern 1 (keeps phone_ok (modify (on_calls _))) =>
  apply keeps_on_calls; intros; reflexivity : oqti.
#[local] Hint Extern 2 (keeps phone_ok (zoom Out _)) => apply keeps_store_op; auto with oqti : oqti.

Lemma keeps_reset_call : keeps phone_ok reset_call_state.
Proof.
  apply keeps_modify. intros p [Hr Hv]. split; [done|]. unfold voice_ok in *. cbn. apply Forall_map.
  apply Forall_true. intros m. cbn. by zl.
Qed.
(** A text of the queue replaced by one of its size. *)
Lemma voice_ok_replace l i m r :
  wrA (voice_msg r) i m = Ret l -> zlen (v_message m) = 160 -> voice_ok r -> voice_ok (set_voice_msg l r).
Proof.
  intros [Hi ->]%wrA_inv Hm Hv. unfold voice_ok in *. cbn [voice_msg set_voice_msg].
  by apply Forall_insert.
Qed.
Lemma lift_inv {S E A} (c : cres A) (s : S) a s' (t : list E) :
  lift c s = Ret (a, s', t) -> c = Ret a /\ s' = s /\ t = [].
Proof. unfold lift. destruct c; cbn [cbind]; intros; simplify_eq; auto. Qed.
Lemma voice_size r l i j m pre :
  voice_ok r -> find_voice l (voice_msg r) i = Some (j, m) -> pre = v_message m -> zlen pre = 160.
Proof.
  intros Hv Hf ->. pose proof (find_voice_spec l (voice_msg r) i) as H. rewrite Hf in H.
  destruct H as (a & b & Hl & _). unfold voice_ok in Hv. rewrite Hl in Hv.
  apply Forall_app in Hv as [_ Hv]. by inversion Hv.
Qed.
Lemma wrn_size b i src b' n : wrn b i src = Ret b' -> zlen b = n -> zlen b' = n.
Proof. intros H <-. by eapply wrn_zlen. Qed.

Lemma keeps_add_voice message len : keeps phone_ok (add_voice_message_to_queue message len).
Proof.
  intros p a p' t [Hr Hv] H. unfold add_voice_message_to_queue in H.
  destruct (0 <? len); [|by injection H as _ <- _]. rewrite bind_get in H.
  destruct (find_voice _ _ _) as [[i m]|] eqn:Hf; [|by injection H as _ <- _].
  apply bind_inv in H as (buf & ? & ? & ? & (H1 & -> & _)%lift_inv & H & _).
  apply bind_inv in H as (text & ? & ? & ? & (H2 & -> & _)%lift_inv & H & _).
  apply bind_inv in H as (buf2 & ? & ? & ? & (H3 & -> & _)%lift_inv & H & _).
  apply bind_inv in H as (l & ? & ? & ? & (H4 & -> & _)%lift_inv & H & _).
  injection H as _ <- _. split; [done|]. cbn [calls on_calls].
  eapply voice_ok_replace; [exact H4| |done]. cbn [v_message].
  eapply wrn_size; [exact H3|]. eapply wrn_size; [exact H1|]. by eapply voice_size.
Qed.
#[local] Hint Resolve keeps_reset_call keeps_add_voice : oqti.

Lemma keeps_add_message message len : keeps phone_ok (add_message_to_queue message len).
Proof. unfold add_message_to_queue, get_call_simulation_mode. keeps_auto. Qed.
#[local] Hint Resolve keeps_add_message : oqti.
Lemma keeps_pending_call b : keeps phone_ok (set_pending_call_flag b).
Proof. unfold set_pending_call_flag. keeps_auto. Qed.
Lemma keeps_simulation_mode b : keeps phone_ok (set_call_simulation_mode b).
Proof. unfold set_call_simulation_mode. keeps_auto. Qed.
Lemma keeps_looped b : keeps phone_ok (set_looped_message b).
Proof. unfold set_looped_message. keeps_auto. Qed.
Lemma keeps_dnd b : keeps phone_ok (set_do_not_disturb b).
Proof. unfold set_do_not_disturb. keeps_auto. Qed.
Lemma keeps_status_event fd tid dir st : keeps phone_ok (send_voice_call_status_event fd tid dir st).
Proof. unfold send_voice_call_status_event. keeps_auto. Qed.
#[local] Hint Resolve keeps_pending_call keeps_simulation_mode keeps_looped keeps_dnd keeps_status_event : oqti.
Lemma keeps_close_call fd tid : keeps phone_ok (close_internal_call fd tid).
Proof. unfold close_internal_call. keeps_auto. Qed.
Lemma keeps_start_call fd : keeps phone_ok (start_simulated_call fd).
Proof. unfold start_simulated_call. keeps_auto. Qed.
#[local] Hint Resolve keeps_close_call keeps_start_call : oqti.
Lemma keeps_notify_call fd : keeps phone_ok (notify_simulated_call fd).
Proof. unfold notify_simulated_call. keeps_auto. Qed.
Lemma keeps_dummy_call fd tid : keeps phone_ok (send_dummy_call_established fd tid).
Proof. unfold send_dummy_call_established, send_call_request_response. keeps_auto. Qed.
Lemma keeps_accept fd tid : keeps phone_ok (process_incoming_call_accept fd tid).
Proof. unfold process_incoming_call_accept, accept_simulated_call. keeps_auto. Qed.
Lemma keeps_tell_user a b c : keeps phone_ok (tell_user a b c).
Proof. unfold tell_user. keeps_auto. Qed.
Lemma keeps_autokill fd bytes id : keeps phone_ok (autokill_call fd bytes id).
Proof. unfold autokill_call. keeps_auto. Qed.
#[local] Hint Resolve keeps_notify_call keeps_dummy_call keeps_accept keeps_tell_user keeps_autokill : oqti.
Lemma keeps_first_call e fd bytes len id number act : keeps phone_ok (first_call e fd bytes len id number act).
Proof. unfold first_call. keeps_auto. Qed.
#[local] Hint Resolve keeps_first_call : oqti.
Lemma keeps_status_loop e fd n i bytes len off number log prev j act :
  keeps phone_ok (status_loop e fd n i bytes len off number log prev j act).
Proof. revert i number log prev j act; induction n as [|n IH]; intros; cbn [status_loop]; keeps_auto. Qed.
#[local] Hint Resolve keeps_status_loop : oqti.
Lemma keeps_calls e afd ufd heap source bytes len : keeps phone_ok (call_service_handler e afd ufd heap source bytes len).
Proof.
  unfold call_service_handler, handle_voice_service_call_request, handle_voice_service_answer_request,
    handle_voice_service_call_info, handle_voice_service_call_status,
    handle_voice_service_all_call_status_info, handle_voice_service_disconnect_request,
    send_voice_cal_disconnect_ack, get_call_simulation_mode. keeps_auto.
Qed.
#[local] Hint Resolve keeps_calls : oqti.

(** * The proxy *)

Definition proxy_ok (s : proxy) : Prop := phone_ok (ph s).
Lemma keeps_ph {A} (m : MP A) : keeps phone_ok m -> keeps proxy_ok (zoom Ph m : MX A).
Proof. exact (keeps_zoom (S := proxy) Ph phone_ok m). Qed.
Lemma keeps_track {A} (m : MK A) : keeps proxy_ok (zoom Track m : MX A).
Proof.
  intros s a s' t Hs. unfold zoom. destruct (m (part s)) as [[[b c] u]| |]; [|done..].
  cbn [cbind]. by intros [= _ <- _].
Qed.
Lemma keeps_rt f : keeps proxy_ok (@modify _ proxy_action (upd_rt f)).
Proof. by apply keeps_modify. Qed.
Lemma keeps_debug f : keeps proxy_ok (@modify _ proxy_action (upd_debug f)).
Proof. by apply keeps_modify. Qed.
#[local] Hint Extern 2 (keeps proxy_ok (zoom Ph _)) => apply keeps_ph; keeps_auto : oqti.
#[local] Hint Resolve keeps_track keeps_rt keeps_debug : oqti.

Lemma keeps_perform l : keeps phone_ok (perform l).
Proof. induction l as [|[] l IH]; cbn [perform]; keeps_auto. Qed.
Lemma keeps_texts_do {A} env (m : filter_env -> MS A) :
  (forall e, keeps runtime_ok (m e)) -> keeps proxy_ok (texts_do env m).
Proof.
  intros Hm. unfold texts_do. apply keeps_get_bind. intros s Hs. apply keeps_ph.
  intros p a p' t [Hr Hv]. destruct (m _ _) as [[[b r] l]| |] eqn:E; [|done..]. cbn [cbind].
  intros H. assert (phone_ok (with_part r p)) as Hp by (split; [by eapply Hm|exact Hv]).
  apply bind_inv in H as (x & p1 & t1 & t2 & H1 & [= _ <- _] & _). by eapply keeps_perform.
Qed.
#[local] Hint Extern 2 (keeps proxy_ok (texts_do _ _)) => apply keeps_texts_do; intros; keeps_auto : oqti.
Lemma keeps_cb fd id : keeps proxy_ok (send_cb_message_to_modemmanager fd id).
Proof. unfold send_cb_message_to_modemmanager. keeps_auto. Qed.
#[local] Hint Resolve keeps_cb : oqti.
Lemma keeps_simulated env afd ufd : keeps proxy_ok (process_simulated_packet env afd ufd).
Proof. unfold process_simulated_packet. keeps_auto. Qed.
Lemma keeps_wms_packet env ufd bytes len : keeps proxy_ok (process_wms_packet env ufd bytes len).
Proof. unfold process_wms_packet. keeps_auto. Qed.
#[local] Hint Resolve keeps_simulated keeps_wms_packet : oqti.
Lemma keeps_filters env ufd mine source pkt n : keeps proxy_ok (other_filters env ufd mine source pkt n).
Proof. unfold other_filters. keeps_auto. Qed.
#[local] Hint Resolve keeps_filters : oqti.
Lemma keeps_packet env afd ufd source pkt n : keeps proxy_ok (process_packet env afd ufd source pkt n).
Proof. unfold process_packet, process_texts. keeps_auto. Qed.
Lemma keeps_dispose env afd ufd source data act : keeps proxy_ok (dispose env afd ufd source data act).
Proof. unfold dispose, get_transceiver_suspend_state, forward. keeps_auto. Qed.
Lemma keeps_quiet env afd ufd : keeps proxy_ok (rmnet_turn env afd ufd Quiet).
Proof. unfold rmnet_turn, is_inject_needed. keeps_auto. Qed.
#[local] Hint Resolve keeps_packet keeps_dispose keeps_quiet : oqti.

(** * The scheduler *)

Lemma keeps_on_task i f : keeps table_ok (on_task i f).
Proof.
  apply keeps_modifyM. intros s s' [Hl Hp] (t & _ & (l & Hw & [= <-])%cbind_Ret_inv)%cbind_Ret_inv.
  apply wrA_inv in Hw as [_ ->]. split; [|done]. cbn. by rewrite length_insert.
Qed.
Lemma keeps_sched_phone {A} (m : MP A) : keeps phone_ok m -> keeps table_ok (zoom Phone m : MT A).
Proof.
  intros Hm s a s' t [Hl Hp]. unfold zoom. destruct (m (part s)) as [[[b p] u]| |] eqn:E; [|done..].
  cbn [cbind]. intros [= -> <- _]. split; [done|]. by eapply Hm.
Qed.
Lemma keeps_sched_disk {A} (m : MC A) : keeps table_ok (zoom Disk m : MT A).
Proof.
  intros s a s' t [Hl Hp]. unfold zoom. destruct (m (part s)) as [[[b c] u]| |]; [|done..].
  cbn [cbind]. intros [= _ <- _]. by split.
Qed.
#[local] Hint Extern 1 (keeps table_ok (modify _)) =>
  apply keeps_modify; intros ? [? ?]; by split : oqti.
#[local] Hint Extern 2 (keeps table_ok (zoom Phone _)) => apply keeps_sched_phone; keeps_auto : oqti.
#[local] Hint Resolve keeps_on_task keeps_sched_disk : oqti.

Section Scheduler.
Variable env : sched_env.
Lemma keeps_get_task i : keeps table_ok (get_task i).
Proof. unfold get_task. keeps_auto. Qed.
Lemma keeps_save : keeps table_ok (save_tasks_to_storage env).
Proof. unfold save_tasks_to_storage. keeps_auto. Qed.
Hint Resolve keeps_get_task keeps_save : oqti.
Lemma keeps_add_task t : keeps table_ok (add_task env t).
Proof. unfold add_task, find_free_task_slot. keeps_auto. Qed.
Lemma keeps_remove_task i : keeps table_ok (remove_task env i).
Proof. unfold remove_task. keeps_auto. Qed.
Hint Resolve keeps_remove_task : oqti.
Lemma keeps_for_slots n i body :
  (forall i t, keeps table_ok (body i t)) -> keeps table_ok (for_slots n i body).
Proof. intros Hb. revert i; induction n as [|n IH]; intros i; cbn [for_slots]; keeps_auto. Qed.
Lemma keeps_remove_all ty : keeps table_ok (remove_all_tasks_by_type env ty).
Proof.
  unfold remove_all_tasks_by_type. apply keeps_bind; [|intros; keeps_auto]. apply keeps_for_slots.
  intros. keeps_auto.
Qed.
Lemma keeps_cleanup_loop n i w : keeps table_ok (cleanup_loop env n i w).
Proof. revert i w; induction n as [|n IH]; intros i w; cbn [cleanup_loop]; keeps_auto. Qed.
Hint Resolve keeps_cleanup_loop : oqti.
Lemma keeps_task_effect t : keeps phone_ok (task_effect t).
Proof. unfold task_effect, get_call_simulation_mode. keeps_auto. Qed.
Hint Resolve keeps_task_effect : oqti.
Lemma keeps_run_task i : keeps table_ok (run_task env i).
Proof. unfold run_task, cleanup_tasks, delay_task_execution. keeps_auto. Qed.
Hint Resolve keeps_run_task : oqti.
Lemma keeps_scheduler_turn tick : keeps table_ok (scheduler_turn env tick).
Proof.
  unfold scheduler_turn, due_tasks, housekeeping, Scheduler.tell. keeps_auto.
  apply keeps_for_slots. intros. keeps_auto.
Qed.
Lemma keeps_dump_loop n i strsz count : keeps table_ok (dump_loop n i strsz count).
Proof. revert i strsz count; induction n as [|n IH]; intros; cbn [dump_loop]; keeps_auto. Qed.
Lemma keeps_dump : keeps table_ok dump_pending_tasks.
Proof.
  unfold dump_pending_tasks, Scheduler.tell. apply keeps_bind; [apply keeps_dump_loop|intros]. keeps_auto.
Qed.
End Scheduler.
#[local] Hint Resolve keeps_add_task keeps_remove_task keeps_remove_all keeps_scheduler_turn keeps_dump : oqti.

(** * The network client *)

Definition network_ok (s : network) : Prop := phone_ok (nw_phone s) /\ length (reports (nas s)) = 4096%nat.
Lemma keeps_told {A} (m : MP A) : keeps phone_ok m -> keeps network_ok (zoom Told m : MN A).
Proof.
  intros Hm s a s' t [Hp Hl]. unfold zoom. destruct (m (part s)) as [[[b p] u]| |] eqn:E; [|done..].
  cbn [cbind]. intros [= -> <- _]. split; [by eapply Hm|done].
Qed.
Lemma keeps_stored {A} (m : MC A) : keeps network_ok (zoom Stored m : MN A).
Proof. apply keeps_zoom_other. intros c [] H. exact H. Qed.
Lemma keeps_told_text text n : keeps network_ok (zoom Told (add_message_to_queue text n) : MN unit).
Proof. apply keeps_told. auto with oqti. Qed.
Lemma network_file f s : network_ok s -> network_ok (with_cells_file f s).
Proof. done. Qed.
Lemma network_nas g s : harmless (nas s) (g (nas s)) -> network_ok s -> network_ok (on_nas g s).
Proof. intros (_ & _ & Hl) [Hp Hr]. split; [exact Hp|]. cbn. congruence. Qed.
(** The steps of Cells.v keep it, and so does what only changes the status. *)
Lemma keeps_status f : keeps network_ok (on_status f).
Proof. by apply keeps_modify. Qed.
Lemma keeps_save_status : keeps network_ok save_status.
Proof. by apply keeps_modify. Qed.
Lemma keeps_cells_process env c : keeps network_ok (process_current_network_data env c).
Proof. apply frame_process; auto using keeps_told_text, @keeps_stored, network_file, network_nas. Qed.
Lemma keeps_warn l : keeps network_ok (warn l).
Proof. apply frame_warn; auto using keeps_told_text. Qed.
Lemma keeps_cells_tracking : keeps network_ok tracking.
Proof. apply frame_tracking. Qed.
Lemma keeps_database env : keeps network_ok (get_opencellid_data env).
Proof. apply frame_database; auto using keeps_told_text, network_nas. Qed.
Lemma keeps_load env : keeps network_ok (load_report_data env).
Proof. apply frame_load; auto using keeps_told_text, @keeps_stored, network_file, network_nas. Qed.
#[local] Hint Resolve @keeps_stored keeps_told_text keeps_status keeps_save_status keeps_cells_process keeps_warn
  keeps_cells_tracking keeps_database keeps_load : oqti.
Lemma keeps_plmn p : keeps network_ok (modify (on_nas (update_plmn p)) : MN unit).
Proof.
  apply keeps_modify. intros s [Hp Hl]. split; [exact Hp|]. cbn. unfold update_plmn. by destruct (bool_decide _).
Qed.
#[local] Hint Resolve keeps_plmn : oqti.
Lemma keeps_serving buf len : keeps network_ok (parse_serving_system_message buf len).
Proof.
  unfold parse_serving_system_message, take_capabilities, take_registration, tell_service_changes. cbv zeta.
  keeps_auto.
Qed.
Lemma keeps_operator buf len : keeps network_ok (update_operator_name buf len).
Proof. unfold update_operator_name, take_operator_name. cbv zeta. keeps_auto. Qed.
Lemma keeps_location env buf len : keeps network_ok (update_cell_location_information env buf len).
Proof. unfold update_cell_location_information, refresh_database. cbv zeta. keeps_auto. Qed.
Lemma keeps_signal env id level : keeps network_ok (nas_update_network_data env id level).
Proof. unfold nas_update_network_data. cbv zeta. keeps_auto. Qed.
#[local] Hint Resolve keeps_serving keeps_operator keeps_location keeps_signal : oqti.
Lemma keeps_network_message env buf len : keeps network_ok (handle_incoming_nas_message env buf len).
Proof. unfold handle_incoming_nas_message, NasClient.send_hello_world. keeps_auto. Qed.
Lemma keeps_network_start env : keeps network_ok (register_to_nas_service env).
Proof.
  unfold register_to_nas_service, nas_register_to_events, nas_get_ims_preference, u8_request, plain_request, queue_request. cbv zeta.
  keeps_auto.
Qed.

(** * The data session *)

Lemma keeps_said {A} (m : MP A) : keeps phone_ok m -> keeps session_ok (zoom Said m : MW A).
Proof.
  intros Hm s a s' t Hp. unfold zoom. destruct (m (part s)) as [[[b p] u]| |] eqn:E; [|done..].
  cbn [cbind]. intros [= -> <- _]. exact (Hm (part s) _ _ _ Hp E).
Qed.
Lemma keeps_on_wds f : keeps session_ok (modify (on_wds f) : MW unit).
Proof. by apply keeps_modify. Qed.
#[local] Hint Extern 2 (keeps session_ok (zoom Said _)) => apply keeps_said; auto with oqti : oqti.
#[local] Hint Resolve keeps_on_wds : oqti.
Lemma keeps_wait env fuel k : keeps session_ok (wait_network env fuel k).
Proof. revert k. induction fuel as [|fuel IH]; intros k; cbn [wait_network]; keeps_auto. Qed.
#[local] Hint Resolve keeps_wait : oqti.
Lemma keeps_queued svc pkt : keeps session_ok (queue_request Queued svc pkt).
Proof. unfold queue_request. keeps_auto. Qed.
#[local] Hint Resolve keeps_queued : oqti.
Lemma keeps_init env : keeps session_ok (init_internal_networking env).
Proof.
  unfold init_internal_networking, wds_set_autoconnect, wds_set_rawip_mode, wds_attempt_to_connect, connect_request.
  keeps_auto.
Qed.
Lemma keeps_say_status text : keeps session_ok (say_status text).
Proof. unfold say_status. keeps_auto. Qed.
#[local] Hint Resolve keeps_init keeps_say_status : oqti.
Lemma keeps_down env reason : keeps session_ok (notify_network_down env reason).
Proof. unfold notify_network_down. keeps_auto. Qed.
#[local] Hint Resolve keeps_down : oqti.
Lemma keeps_ifup env b : keeps session_ok (wds_chat_ifup_down env b).
Proof. unfold wds_chat_ifup_down, wds_stop_network, u32_request. keeps_auto. Qed.
Lemma keeps_wds_message env buf len : keeps session_ok (handle_incoming_wds_message env buf len).
Proof.
  unfold handle_incoming_wds_message, wds_handle_start_network_response, wds_handle_packet_service_status,
    wds_enable_indications_ipv4, u32_request, notify_network_up. keeps_auto.
Qed.

(** * The device *)

Lemma keeps_in_phone {A} (m : MP A) : keeps phone_ok m -> keeps device_ok (in_phone m).
Proof.
  intros Hm d a d' t (Hp & Hl & Hc). unfold in_phone, zoom. destruct (m (part d)) as [[[b p] u]| |] eqn:E; [|done..].
  cbn [cbind]. intros [= -> <- _]. split; [by eapply Hm|done].
Qed.
Lemma keeps_in_sched {A} (m : MT A) : keeps table_ok m -> keeps device_ok (in_sched m).
Proof.
  intros Hm d a d' t (Hp & Hl & Hc). unfold in_sched, zoom. destruct (m (part d)) as [[[b p] u]| |] eqn:E; [|done..].
  cbn [cbind]. intros [= -> <- _]. apply Hm in E as [Hl' Hp']; [done|by split].
Qed.
Lemma keeps_in_proxy {A} (m : MX A) : keeps proxy_ok m -> keeps device_ok (in_proxy m).
Proof.
  intros Hm d a d' t (Hp & Hl & Hc). unfold in_proxy, zoom. destruct (m (part d)) as [[[b p] u]| |] eqn:E; [|done..].
  cbn [cbind]. intros [= -> <- _]. apply Hm in E; [done|exact Hp].
Qed.
Lemma keeps_in_network {A} (m : MN A) : keeps network_ok m -> keeps device_ok (in_network m).
Proof.
  intros Hm d a d' t (Hp & Hl & Hc & Hn & Hd). unfold in_network, zoom.
  destruct (m (part d)) as [[[b p] u]| |] eqn:E; [|done..].
  cbn [cbind]. intros [= -> <- _]. apply Hm in E as [Hp' Hn']; [|by split].
  split; [exact Hp'|split; [exact Hl|split; [exact Hc|split; [exact Hn'|exact Hd]]]].
Qed.
Lemma keeps_in_session {A} env (m : wds_env -> MW A) :
  (forall e, keeps session_ok (m e)) -> keeps device_ok (in_session env m).
Proof.
  intros Hm. unfold in_session. apply keeps_get_bind. intros d0 _ d a d' t (Hp & Hr). unfold zoom.
  destruct (m _ (part d)) as [[[b p] u]| |] eqn:E; [|done..].
  cbn [cbind]. intros [= -> <- _]. split; [exact (Hm _ (part d) _ _ _ Hp E)|done].
Qed.
Lemma keeps_in_dms {A} (m : MD A) : keeps dms_ok m -> keeps device_ok (in_dms m).
Proof.
  intros Hm d a d' t (Hp & Hl & Hc & Hn & Hd). unfold in_dms, zoom.
  destruct (m (part d)) as [[[b p] u]| |] eqn:E; [|done..].
  cbn [cbind]. intros [= -> <- _]. apply (Hm _ _ _ _ Hd) in E.
  split; [exact Hp|split; [exact Hl|split; [exact Hc|split; [exact Hn|exact E]]]].
Qed.
Lemma keeps_in_cfg {A} (m : MC A) : keeps device_ok (in_cfg m).
Proof.
  intros d a d' t (Hp & Hl & Hc). unfold in_cfg, zoom. destruct (m (part d)) as [[[b p] u]| |] eqn:E; [|done..].
  cbn [cbind]. by intros [= -> <- _].
Qed.
#[local] Hint Extern 2 (keeps device_ok (in_phone _)) => apply keeps_in_phone; keeps_auto : oqti.
#[local] Hint Extern 2 (keeps device_ok (in_sched _)) => apply keeps_in_sched; keeps_auto : oqti.
#[local] Hint Extern 2 (keeps device_ok (in_proxy _)) => apply keeps_in_proxy; keeps_auto : oqti.
#[local] Hint Extern 2 (keeps device_ok (in_session _ _)) =>
  apply keeps_in_session; auto using keeps_init, keeps_ifup : oqti.
#[local] Hint Resolve keeps_in_cfg : oqti.
Lemma keeps_cell_report : keeps device_ok (in_network get_current_cell_report).
Proof. apply keeps_in_network. unfold get_current_cell_report. keeps_auto. Qed.
#[local] Hint Resolve keeps_cell_report : oqti.

Lemma keeps_send reply n : keeps device_ok (send reply n).
Proof. unfold send. keeps_auto. Qed.
#[local] Hint Resolve keeps_send : oqti.
Lemma keeps_say reply text : keeps device_ok (say reply text).
Proof. unfold say. keeps_auto. Qed.
Lemma keeps_settings_of : keeps device_ok settings_of.
Proof. unfold settings_of. keeps_auto. Qed.
#[local] Hint Resolve keeps_say keeps_settings_of : oqti.
Lemma keeps_user_name : keeps device_ok rt_user_name.
Proof. unfold rt_user_name. keeps_auto. Qed.
Lemma keeps_modem_name : keeps device_ok rt_modem_name.
Proof. unfold rt_modem_name. keeps_auto. Qed.
Lemma keeps_argument id command : keeps device_ok (argument id command).
Proof. unfold argument. keeps_auto. Qed.
#[local] Hint Resolve keeps_user_name keeps_modem_name keeps_argument : oqti.
Lemma keeps_history id : keeps device_ok (add_to_history id).
Proof.
  intros d [] d' t (Hp & Hl & Hc & Hn) H. rewrite add_to_history_run in H by done. injection H as <- _.
  split; [exact Hp|split; [exact Hl|split; [by apply recorded_ok|exact Hn]]].
Qed.
#[local] Hint Resolve keeps_history : oqti.

(** ** The commands *)

Section Commands.
Variable env : chat_env.

Lemma keeps_with_argument id command missing f :
  (forall rest, keeps device_ok (f rest)) -> keeps device_ok (with_argument id command missing f).
Proof. intros Hf. unfold with_argument. keeps_auto. Qed.
Lemma keeps_with_network_argument id command missing f :
  (forall rest, keeps device_ok (f rest)) -> keeps device_ok (with_network_argument env id command missing f).
Proof. intros Hf. unfold with_network_argument. keeps_auto. Qed.
Lemma keeps_with_choice id command choice changed unknown :
  keeps device_ok (with_choice env id command choice changed unknown).
Proof. unfold with_choice. keeps_auto. Qed.
Hint Resolve keeps_with_choice : oqti.
Hint Extern 2 (keeps device_ok (with_argument _ _ _ _)) =>
  apply keeps_with_argument; intros; keeps_auto : oqti.
Hint Extern 2 (keeps device_ok (with_network_argument _ _ _ _ _)) =>
  apply keeps_with_network_argument; intros; keeps_auto : oqti.

Lemma keeps_send_help fuel msg strsz full : keeps device_ok (send_help fuel msg strsz full).
Proof. revert strsz; induction fuel as [|fuel IH]; intros; cbn [send_help]; keeps_auto. Qed.
Lemma keeps_send_definition fuel def : keeps device_ok (send_definition fuel def).
Proof. revert def; induction fuel as [|fuel IH]; intros; cbn [send_definition]; keeps_auto. Qed.
Lemma keeps_send_file fuel file : keeps device_ok (send_file fuel file).
Proof. revert file; induction fuel as [|fuel IH]; intros; cbn [send_file]; keeps_auto. Qed.
Lemma keeps_thanks_loop lines reply strsz i : keeps device_ok (thanks_loop lines reply strsz i).
Proof. revert reply strsz i; induction lines as [|l lines IH]; intros; cbn [thanks_loop]; keeps_auto. Qed.
Lemma keeps_check_examples pkts : keeps device_ok (check_examples env pkts).
Proof. induction pkts as [|p pkts IH]; cbn [check_examples]; keeps_auto. Qed.
Lemma keeps_services_loop l r : keeps device_ok (services_loop l r).
Proof. revert r; induction l as [|[] l IH]; intros; cbn [services_loop]; keeps_auto. Qed.
Hint Resolve keeps_send_help keeps_send_definition keeps_send_file keeps_thanks_loop
  keeps_check_examples keeps_services_loop : oqti.

Lemma keeps_default_response id : keeps device_ok (send_default_response env id).
Proof. unfold send_default_response. keeps_auto. Qed.
Hint Resolve keeps_default_response : oqti.
Lemma keeps_reply_then id m : keeps device_ok m -> keeps device_ok (reply_then env id m).
Proof. intros Hm. unfold reply_then. keeps_auto. Qed.
Lemma keeps_setting id m : keeps device_ok (setting env id m).
Proof. unfold setting. apply keeps_reply_then. keeps_auto. Qed.
Hint Resolve keeps_setting : oqti.
Hint Extern 2 (keeps device_ok (reply_then _ _ _)) => apply keeps_reply_then; keeps_auto : oqti.
Lemma keeps_record_calls id mode : keeps device_ok (record_calls env id mode).
Proof. unfold record_calls, warn_ram. keeps_auto. Qed.
Lemma keeps_say_with id a b : keeps device_ok (say_with id a b).
Proof. unfold say_with. keeps_auto. Qed.
Hint Resolve keeps_record_calls keeps_say_with : oqti.

Lemma keeps_schedule id command mode word finish :
  (forall r, keeps device_ok (finish r)) -> keeps device_ok (schedule env id command mode word finish).
Proof. intros Hf. unfold schedule. keeps_auto. Qed.
Lemma keeps_add_and_answer task full on_full r :
  keeps device_ok on_full -> keeps device_ok (add_and_answer env task full on_full r).
Proof. intros Hf. unfold add_and_answer. keeps_auto. Qed.
Hint Extern 2 (keeps device_ok (add_and_answer _ _ _ _ _)) =>
  apply keeps_add_and_answer; keeps_auto : oqti.

Lemma keeps_help : keeps device_ok cmd_get_help.
Proof.
  unfold cmd_get_help. apply keeps_bind; [apply keeps_lift|intros [msg n]].
  apply keeps_bind; [auto with oqti|intros _]. apply keeps_bind; [apply keeps_send_help|intros _].
  auto with oqti.
Qed.

(** A branch of the switch, if there is one. *)
Definition branch_ok (o : option (MV unit)) : Prop :=
  match o with Some m => keeps device_ok m | None => True end.
Lemma branch_if (c : bool) a b : branch_ok a -> branch_ok b -> branch_ok (if c then a else b).
Proof. by destruct c. Qed.
Ltac branches := repeat (apply branch_if; [cbn [branch_ok]|]); [..|exact I].

Lemma keeps_run_info id : branch_ok (run_info env id).
Proof.
  unfold run_info. branches.
  all: unfold cmd_get_uptime, cmd_get_load_avg, cmd_get_sw_version, cmd_get_memory, cmd_get_rmnet_stats,
    cmd_get_gps_stats, cmd_get_openqti_log, cmd_get_kernel_log, cmd_render_gsm_signal_data,
    cmd_dump_signal_report, cmd_thank_you, cmd_get_running_config, list_services, get_transceiver_suspend_state.
  all: lazymatch goal with |- keeps _ cmd_get_help => exact keeps_help | _ => keeps_auto end.
Qed.
Lemma keeps_run_setting id : branch_ok (run_setting env id).
Proof.
  unfold run_setting. cbv zeta. branches.
  all: unfold cmd_set_cb_broadcast, cmd_debug_gsm7_cb_message, cmd_debug_ucs2_cb_message,
    cmd_clear_internal_networking_auth, disable_service_debugging, warn_ram.
  all: keeps_auto.
Qed.
Lemma keeps_run_partial id command : branch_ok (run_partial env id command).
Proof.
  unfold run_partial. branches.
  all: unfold cmd_set_custom_modem_name, cmd_set_custom_user_name, cmd_schedule_reminder,
    cmd_schedule_wakeup, cmd_delete_task, cmd_suspend_call_notifications,
    cmd_enable_service_debugging_for_service_id, enable_service_debugging, cmd_set_new_signal_tracking_mode,
    cmd_configure_signal_tracking_cell_notification, cmd_search_dictionary_entry, cmd_find_dictionary_entry,
    cmd_configure_new_apn, cmd_configure_apn_username, cmd_configure_apn_password,
    cmd_configure_internal_network_auth_method.
  all: try (apply keeps_schedule; intros).
  all: keeps_auto.
Qed.
Lemma keeps_parse_command command : keeps device_ok (parse_command env command).
Proof.
  unfold parse_command. keeps_auto. unfold run_command, unknown_command.
  match goal with |- context [run_partial env ?i ?c] =>
    pose proof (keeps_run_info i); pose proof (keeps_run_setting i); pose proof (keeps_run_partial i c) end.
  destruct (run_info _ _); [done|]. destruct (run_setting _ _); [done|].
  destruct (run_partial _ _ _); [done|]. keeps_auto.
Qed.
End Commands.
#[local] Hint Resolve keeps_parse_command : oqti.

(** ** The threads *)

Lemma keeps_run_texts env l : keeps device_ok (run_texts env l).
Proof.
  induction l as [|a l IH]; cbn [run_texts]; [keeps_auto|].
  apply keeps_bind; [keeps_auto|intros _]. apply keeps_bind; [|by intros].
  destruct a as [[[]| |]| | | |]; keeps_auto.
Qed.
Lemma keeps_with_commands {A} env (m : MX A) : keeps proxy_ok m -> keeps device_ok (with_commands env m).
Proof.
  intros Hm d a d' t (Hp & Hl & Hc) H. unfold with_commands in H.
  apply cbind_Ret_inv in H as ([[b p] l] & Hrun & H).
  apply bind_inv in H as (x & d1 & t1 & t2 & H1 & [= _ <- _] & _).
  refine (keeps_run_texts env l _ _ _ _ _ H1).
  split; [exact (Hm (part d) b p l Hp Hrun)|done].
Qed.
Lemma keeps_settings_env {A} env (m : proxy_env -> MV A) :
  (forall x, keeps device_ok (m x)) -> keeps device_ok (with_settings_env env m).
Proof. intros Hm. unfold with_settings_env. keeps_auto. Qed.
#[local] Hint Extern 2 (keeps device_ok (with_settings_env _ _)) =>
  apply keeps_settings_env; intros; keeps_auto : oqti.
#[local] Hint Extern 2 (keeps device_ok (with_commands _ _)) => apply keeps_with_commands; keeps_auto : oqti.

Lemma keeps_device_texts env ufd source pkt n : keeps device_ok (device_texts env ufd source pkt n).
Proof. unfold device_texts. keeps_auto. Qed.
#[local] Hint Resolve keeps_device_texts : oqti.
Lemma keeps_device_turn env afd ufd arrived : keeps device_ok (device_turn env afd ufd arrived).
Proof. unfold device_turn, device_carry, device_packet. keeps_auto. Qed.

Lemma keeps_next_phrase user_name phrase : keeps phone_ok (next_phrase user_name phrase).
Proof.
  intros p a p' t [Hr Hv] H. unfold next_phrase in H. rewrite bind_get in H.
  destruct (find_voice _ _ _) as [[i m]|] eqn:Hf.
  2: { assert (keeps phone_ok (do* '(phrase, _) := lift (snprintf phrase MAX_TTS_TEXT_SIZE
         (zs "Hello " ++ user_name ++ zs ". Send me a message an I will answer with voice")) in
         modify (on_calls (set_empty_message_loop (u8 (empty_message_loop (calls p) + 1)))) ;>
         ret phrase)) as Hk by keeps_auto. eapply Hk; [by split|exact H]. }
  apply bind_inv in H as (text & ? & ? & ? & (_ & -> & _)%lift_inv & H & _).
  apply bind_inv in H as ([phrase' k] & ? & ? & ? & (_ & -> & _)%lift_inv & H & _).
  apply bind_inv in H as ([] & p1 & ? & ? & H1 & H & _).
  assert (phone_ok p1) as Hp1.
  { destruct (negb _); cbn [when] in H1; [|injection H1 as <- _; by split].
    apply bind_inv in H1 as (l & ? & ? & ? & (Hw & -> & _)%lift_inv & [= <- _] & _).
    split; [exact Hr|]. cbn [calls on_calls]. eapply voice_ok_replace; [exact Hw| |exact Hv].
    cbn [v_message]. by eapply voice_size. }
  assert (keeps phone_ok (modify (on_calls (set_empty_message_loop 0)) ;> ret phrase')) as Hk by keeps_auto.
  by eapply Hk.
Qed.
Lemma keeps_end_of_speech : keeps phone_ok end_of_speech.
Proof.
  apply keeps_modify. intros p [Hr Hv]. split; [exact Hr|]. unfold voice_ok in *. cbn. by apply Forall_map.
Qed.
#[local] Hint Resolve keeps_next_phrase keeps_end_of_speech keeps_device_turn : oqti.
Lemma dec_tasks_length n b l : dec_tasks n b = Ret l -> length l = n.
Proof.
  revert b l. induction n as [|n IH]; intros b l; cbn [dec_tasks]; [by intros [= <-]|].
  intros (t & _ & (r & Hr & [= <-])%cbind_Ret_inv)%cbind_Ret_inv. cbn. f_equal. by eapply IH.
Qed.
Lemma keeps_read_tasks env : keeps table_ok (read_tasks_from_storage env).
Proof.
  unfold read_tasks_from_storage. apply keeps_get_bind. intros s _. destruct (tasks_file s); [|keeps_auto].
  apply keeps_bind; [|intros; keeps_auto]. apply keeps_when.
  intros s1 [] s2 t [Hl Hp] (table & ? & ? & ? & (Hd & -> & _)%lift_inv & [= <- _] & _)%bind_inv.
  split; [by eapply dec_tasks_length|done].
Qed.

(** One step of any thread, in any surroundings: a turn of the packets'
    thread, the scheduler's start and its turns, a command heard in a call
    (src/audio2text.c), a delayed call, the speech of a call, the start of the
    network client and of the data session, and a message for the network, the
    data or the device management client from the internal one. *)
Inductive daemon_step (d d' : device) : Prop :=
| step_packet env adspfd usbfd arrived t :
    device_turn env adspfd usbfd arrived d = Ret (tt, d', t) -> daemon_step d d'
| step_tasks_read env n t :
    in_sched (read_tasks_from_storage env) d = Ret (n, d', t) -> daemon_step d d'
| step_scheduler env tick n t :
    in_sched (scheduler_turn env tick) d = Ret (n, d', t) -> daemon_step d d'
| step_command env command n t : parse_command env command d = Ret (n, d', t) -> daemon_step d d'
| step_call_answer command n t :
    schedule_call_answer command d = Ret (n, d', t) -> daemon_step d d'
| step_call_ring t : schedule_call_ring d = Ret (tt, d', t) -> daemon_step d d'
| step_phrase name phrase text t :
    in_phone (next_phrase name phrase) d = Ret (text, d', t) -> daemon_step d d'
| step_silence t : in_phone end_of_speech d = Ret (tt, d', t) -> daemon_step d d'
| step_network_start env t : in_network (register_to_nas_service env) d = Ret (tt, d', t) -> daemon_step d d'
| step_network env buf len n t :
    in_network (handle_incoming_nas_message env buf len) d = Ret (n, d', t) -> daemon_step d d'
| step_session_start env t : in_session env init_internal_networking d = Ret (tt, d', t) -> daemon_step d d'
| step_session env buf len n t :
    in_session env (fun e => handle_incoming_wds_message e buf len) d = Ret (n, d', t) -> daemon_step d d'
| step_modem_info level buf len n t :
    bytes_ok buf -> in_dms (handle_incoming_dms_message level buf len) d = Ret (n, d', t) -> daemon_step d d'.

(** A task of the zeroed table. *)
Definition zero_task : task_p :=
  {| t_type := 0; t_param := 0; t_status := STATUS_FREE;
     t_time := {| exec_time := 0; mode := 0; hh := 0; mm := 0 |}; t_arguments := replicate 160 0 |}.
(** The zeroed state of a started process, whatever the settings, the clients
    and the files are. *)
Definition started (d : device) : Prop :=
  dv_phone d = idle_phone /\ tasks (dv_sch d) = replicate 255 zero_task /\ dv_cmd d = idle_cmd /\
  reports (dv_nas d) = replicate 4096 empty_report /\ dv_dms d = idle_dms.
Inductive daemon_reachable : device -> Prop :=
| reach_start d : started d -> daemon_reachable d
| reach_step d d' : daemon_reachable d -> daemon_step d d' -> daemon_reachable d'.

Lemma started_ok d : started d -> device_ok d.
Proof.
  intros (Hp & Ht & Hc & Hn & Hd). unfold device_ok. rewrite Hp, Ht, Hc, Hn, Hd.
  split; [|split; [done|split; [by split|split; [apply length_replicate|exact idle_dms_ok]]]].
  split; [exact initial_runtime_ok|]. exact (proj2 (proj2 sample_sched_ok)).
Qed.
Lemma step_ok d d' : device_ok d -> daemon_step d d' -> device_ok d'.
Proof.
  intros Hd [env a u arr t H|env n t H|env tick n t H|env c n t H|c n t H|t H|nm ph tx t H|t H|env t H|env b l n t H
    |env t H|env b l n t H|lv b l n t Hb H].
  - exact (keeps_device_turn _ _ _ _ _ _ _ _ Hd H).
  - exact (keeps_in_sched _ (keeps_read_tasks env) _ _ _ _ Hd H).
  - exact (keeps_in_sched _ (keeps_scheduler_turn env tick) _ _ _ _ Hd H).
  - exact (keeps_parse_command _ _ _ _ _ _ Hd H).
  - assert (keeps device_ok (schedule_call_answer c)) as Hk
      by (unfold schedule_call_answer; keeps_auto). exact (Hk _ _ _ _ Hd H).
  - exact (keeps_in_phone _ (keeps_pending_call true) _ _ _ _ Hd H).
  - exact (keeps_in_phone _ (keeps_next_phrase nm ph) _ _ _ _ Hd H).
  - exact (keeps_in_phone _ keeps_end_of_speech _ _ _ _ Hd H).
  - exact (keeps_in_network _ (keeps_network_start env) _ _ _ _ Hd H).
  - exact (keeps_in_network _ (keeps_network_message env b l) _ _ _ _ Hd H).
  - exact (keeps_in_session env _ keeps_init _ _ _ _ Hd H).
  - exact (keeps_in_session env _ (fun e => keeps_wds_message e b l) _ _ _ _ Hd H).
  - exact (keeps_in_dms _ (keeps_dms lv b Hb l) _ _ _ _ Hd H).
Qed.

(** In every state the daemon reaches, by packets of either side with any
    contents, turns of the scheduler, commands, calls and messages of the
    network, data and device management services in any order, the arrays have
    their sizes: a shape the statements about turns start from. *)
Theorem daemon_reachable_ok d :
  daemon_reachable d ->
  runtime_ok (texts (dv_phone d)) /\ voice_ok (calls (dv_phone d)) /\
  length (tasks (dv_sch d)) = 255%nat /\ cmd_ok (dv_cmd d) /\ length (reports (dv_nas d)) = 4096%nat /\
  dms_ok (dv_dms d).
Proof.
  intros H. assert (device_ok d) as ((H1 & H2) & H3 & H4); [|done].
  induction H as [d Hd|d d' _ IH Hstep]; [by apply started_ok|by eapply step_ok].
Qed.
Definition started_device : device :=
  {| dv_rt := dv_rt sample_device; dv_phone := idle_phone; dv_clients := two_clients;
     dv_debug := dv_debug sample_device; dv_sch := {| cur_time := 0; tasks := replicate 255 zero_task |};
     dv_tasks_file := None; dv_cfg := sample_settings_state; dv_cmd := idle_cmd; dv_nas := initial_nas;
     dv_cells_file := None; dv_wds := wds sample_session; dv_dms := idle_dms |}.
Definition after_off : device :=
  with_part (recorded CMD_ID_ACTION_POWEROFF idle_cmd) (told (zs "Goodbye" ++ nl) started_device).
Lemma daemon_reachable_ok_witness :
  parse_command sample_env (zs "off" ++ 0 :: replicate 156 0) started_device =
    Ret (0, after_off, [Thread DelayedShutdown]) /\
  runtime_ok (texts (dv_phone after_off)) /\ voice_ok (calls (dv_phone after_off)) /\
  length (tasks (dv_sch after_off)) = 255%nat /\ cmd_ok (dv_cmd after_off) /\
  length (reports (dv_nas after_off)) = 4096%nat /\ dms_ok (dv_dms after_off).
Proof.
  assert (parse_command sample_env (zs "off" ++ 0 :: replicate 156 0) started_device =
    Ret (0, after_off, [Thread DelayedShutdown])) as Hrun by (vm_compute; reflexivity).
  split; [exact Hrun|]. apply daemon_reachable_ok. apply (reach_step started_device).
  - apply reach_start. split_and!; reflexivity.
  - exact (step_command _ _ sample_env (zs "off" ++ 0 :: replicate 156 0) 0 _ Hrun).
Defined.
