(* ===== verification/Internal.v ===== *)
(** The daemon with its own QMI client (init_internal_qmi_client and
    start_service_initialization_thread, src/qmi.c): the client's thread hands
    the messages of the baseband to the service clients and sends what they
    queue. *)

From stdpp Require Import base list numbers option strings.
From Stdlib Require Import ZArith Lia.
From S2P Require Import Prelude Libc Eff Qmi QmiClient Requests Dms Services Sms SmsFilter Config Call Replies Cells NasClient Wds Scheduler Tracking Proxy.
From S2P Require Import CommandTable Device Chat Reminders Commands Daemon Invariant.

(** * The machine *)

Record machine := { mc_device : device; mc_client : internal_qmi_client }.
Inductive machine_action :=
| Dv (a : dev_action)
| Port (packet : list Z).   (* write(2) to the internal port *)
Definition MM (A : Type) : Type := M machine machine_action A.

(** What is queued for the baseband. *)
Definition queued (a : dev_action) : option (Z * list Z) :=
  match a with
  | Nas (Pending svc pkt) | Wds (Queued svc pkt) | Dms (Ask svc pkt) | Svc (Request svc pkt) => Some (svc, pkt)
  | _ => None
  end.
(** add_pending_message from the client's own thread: nothing is sent while it
    waits. *)
Fixpoint queue_all (l : list dev_action) (c : internal_qmi_client) : cres internal_qmi_client :=
  match l with
  | [] => Ret c
  | a :: l =>
      let* c :=
        match queued a with
        | Some (svc, pkt) => let* '(_, c) := add_pending_message (fun _ => c) svc pkt in Ret c
        | None => Ret c
        end in
      queue_all l c
  end.

Section Thread.
Variable env : chat_env.
Variable nenv : nas_env.
Variable log_level : Z.

(** A client without a state. *)
Definition stateless {A} (m : M device service_action A) : MV A := fun d =>
  let* '(a, d', t) := m d in Ret (a, d', map Svc t).

(** The switch of dispatch_incoming_qmi_message. *)
Definition run_handler (h : handler) (buf : list Z) (buf_len : Z) : MV Z :=
  match h with
  | HNone => ret 0
  | HDms => in_dms (handle_incoming_dms_message log_level buf buf_len)
  | HWds => in_session env (fun e => handle_incoming_wds_message e buf buf_len)
  | HVoice => stateless (handle_incoming_voice_message buf buf_len)
  | HNas => in_network (handle_incoming_nas_message nenv buf buf_len)
  | HPdc => stateless (handle_incoming_pdc_message buf buf_len)
  | HIms => stateless (handle_incoming_ims_message buf buf_len)
  | HMdmfs => stateless (handle_incoming_mdmfs_message buf buf_len)
  end.

(** A turn of the client's thread. *)
Definition internal_turn (port_ret : list Z -> Z) (input : option (list Z * Z)) : MM unit := fun s =>
  let* '(c, out, h) := client_turn port_ret (mc_client s) input in
  let* '(d, t) :=
    match input with
    | Some (buf, buf_len) => let* '(_, d, t) := run_handler h buf buf_len (mc_device s) in Ret (d, t)
    | None => Ret (mc_device s, [])
    end in
  let* c := queue_all t c in
  Ret (tt, {| mc_device := d; mc_client := c |}, map Port out ++ map Dv t).

(** start_service_initialization_thread, once the port is open. *)
Definition service_initialization : MV unit :=
  do* _ := in_dms dms_register_to_events in
  do* _ := in_dms dms_register_to_indications in
  in_network (register_to_nas_service nenv) ;>
  stateless register_to_voice_service ;>
  in_dms dms_retrieve_modem_info ;>
  stateless register_to_pdc_service ;>
  in_session env init_internal_networking.
End Thread.

(** * What the clients queue are requests *)

Definition asks (a : dev_action) : Prop :=
  match queued a with Some (svc, pkt) => is_request svc pkt | None => True end.
#[local] Abbreviation asks_nas := (fun a => asks (Nas a)) (only parsing).
#[local] Abbreviation asks_wds := (fun a => asks (Wds a)) (only parsing).
#[local] Abbreviation asks_dms := (fun a => asks (Dms a)) (only parsing).
#[local] Abbreviation asks_svc := (fun a => asks (Svc a)) (only parsing).

(** ** Data session *)

Lemma head_request n msgid body : is_request QMI_SERVICE_WDS (request_head n msgid ++ body).
Proof. unfold request_head. rewrite <- app_assoc. by eexists _, _, body. Qed.
Lemma asks_u32 msgid id d : emits asks_wds (u32_request msgid id d).
Proof. intros s a s' t. rewrite u32_request_run. intros [= <- <- <-]. repeat constructor. apply head_request. Qed.
Lemma asks_autoconnect v : emits asks_wds (wds_set_autoconnect v).
Proof. intros s a s' t. rewrite set_autoconnect_run. intros [= <- <- <-]. repeat constructor. apply head_request. Qed.
Lemma asks_connect size c ty : emits asks_wds (connect_request size c ty).
Proof.
  intros s a s' t. destruct (decide (connect_len c <= connect_len size)).
  - rewrite connect_fits by done. intros [= <- <- <-]. repeat constructor. apply head_request.
  - by rewrite connect_overflows by lia.
Qed.
Lemma asks_said {A} (m : MP A) : emits asks_wds (zoom Said m : MW A).
Proof. by apply emits_zoom. Qed.
#[local] Hint Resolve asks_u32 asks_autoconnect asks_connect : oqti.
#[local] Hint Extern 1 (emits _ (zoom Said _)) => apply asks_said : oqti.
Lemma asks_wait env fuel k : emits asks_wds (wait_network env fuel k).
Proof. revert k. induction fuel as [|fuel IH]; intros k; cbn [wait_network]; emits_auto. Qed.
Lemma asks_say text : emits asks_wds (say_status text).
Proof. unfold say_status. emits_auto. Qed.
#[local] Hint Resolve asks_wait asks_say : oqti.
Lemma asks_init env : emits asks_wds (init_internal_networking env).
Proof.
  unfold init_internal_networking, wds_set_rawip_mode, wds_attempt_to_connect. emits_auto.
Qed.
#[local] Hint Resolve asks_init : oqti.
Lemma asks_session env buf len : emits asks_wds (handle_incoming_wds_message env buf len).
Proof.
  unfold handle_incoming_wds_message, wds_handle_start_network_response, wds_handle_packet_service_status,
    wds_enable_indications_ipv4, notify_network_up, notify_network_down. emits_auto.
Qed.

(** ** Device management and the clients without a state *)

Lemma asks_dms_message level buf len : emits asks_dms (handle_incoming_dms_message level buf len).
Proof.
  assert (forall e, emits asks_dms (event_loop e buf len)).
  { induction e as [|e es IH]; cbn [event_loop]; emits_auto. }
  assert (forall n off curr, emits asks_dms (version_loop level n buf len off curr)).
  { induction n as [|n IH]; intros; cbn [version_loop]; [emits_auto|]. unfold take_version. emits_auto. }
  unfold handle_incoming_dms_message, parse_dms_event_report, take_info, take_software_version, take_primary,
    take_sections, print_information. emits_auto.
Qed.
Lemma asks_fields {T} svc msgid fields :
  byte_ok svc -> emits asks_svc (fields_request svc msgid fields : M T service_action Z).
Proof.
  intros Hs s a s' t. unfold fields_request. pose proof (zlen_nonneg (enc_tlvs fields)).
  rewrite (start_bind svc Hs) by lia. unfold request_of. rewrite app_assoc.
  set (h := enc_qmux _ ++ _).
  assert (Hh : zlen h = SZ_ENCAP) by (unfold h; by rewrite zlen_app, enc_qmux_len, enc_qmi_len).
  pose proof (lay_run fields h (replicate (Z.to_nat (SZ_ENCAP + zlen (enc_tlvs fields) - SZ_ENCAP)) 0) ltac:(zl; lia)) as Hr.
  rewrite Hh in Hr. rewrite (bind_lift _ _ _ _ Hr). unfold queue_request. autorewrite with eff. unfold ret.
  rewrite after_Ret. set (o := drop _ _).
  assert (is_request svc (h ++ enc_tlvs fields ++ o)) as Hq
    by (unfold h; rewrite <- app_assoc; by eexists _, _, _).
  clearbody h. intros [= <- <- <-]. by repeat constructor.
Qed.
#[local] Hint Extern 1 (emits _ (fields_request _ _ _)) => apply asks_fields; done : oqti.
#[local] Hint Extern 1 (emits _ (plain_request _ _ _)) => apply emits_plain; [done|by intros] : oqti.
Lemma asks_pdc {T} buf len : emits asks_svc (handle_incoming_pdc_message buf len : M T service_action Z).
Proof. unfold handle_incoming_pdc_message, pdc_request_config_list. emits_auto. Qed.
Lemma asks_ims {T} buf len : emits asks_svc (handle_incoming_ims_message buf len : M T service_action Z).
Proof. unfold handle_incoming_ims_message. emits_auto. Qed.

(** ** Network access *)

Lemma asks_told {A} (m : MP A) : emits asks_nas (zoom Told m : MN A).
Proof. by apply emits_zoom. Qed.
Lemma asks_stored {A} (m : MC A) : emits asks_nas (zoom Stored m : MN A).
Proof. by apply emits_zoom. Qed.
#[local] Hint Resolve @asks_stored : oqti.
#[local] Hint Extern 1 (emits _ (zoom Told _)) => apply asks_told : oqti.

Section Network.
Variable env : nas_env.

Lemma asks_warn l : emits asks_nas (warn l).
Proof. unfold warn. emits_auto. Qed.
Lemma asks_cell_info cell_id lac : emits asks_nas (get_opencellid_cell_info cell_id lac).
Proof. unfold get_opencellid_cell_info. emits_auto. Qed.
Lemma asks_tracking : emits asks_nas tracking.
Proof. unfold tracking. emits_auto. Qed.
Hint Resolve asks_tracking : oqti.
Lemma asks_store : emits asks_nas (store_report_data env).
Proof. unfold store_report_data. emits_auto. Qed.
Hint Resolve asks_warn asks_cell_info asks_store : oqti.
Lemma asks_find n c i id v : emits asks_nas (find_loop env n c i id v).
Proof.
  revert i id v. induction n as [|n IH]; intros i id v; cbn [find_loop]; [emits_auto|].
  unfold get_report, on_report. emits_auto.
Qed.
Hint Resolve asks_find : oqti.
Lemma asks_in_report c : emits asks_nas (is_in_report env c).
Proof. unfold is_in_report, get_report, on_report. emits_auto. Qed.
Lemma asks_notify cell_id lac : emits asks_nas (notify_cellid_change cell_id lac).
Proof. unfold notify_cellid_change. cbv zeta. emits_auto. Qed.
Lemma asks_emergency cell_id lac v : emits asks_nas (emergency_baseband_pwoerdown cell_id lac v).
Proof. unfold emergency_baseband_pwoerdown. emits_auto. Qed.
Hint Resolve asks_in_report asks_notify asks_emergency : oqti.
Lemma asks_process c : emits asks_nas (process_current_network_data env c).
Proof.
  unfold process_current_network_data, track, notice_change, verify_report, add_report, is_cell_id_in_db,
    get_report, on_report.
  cbv zeta. emits_auto.
Qed.
Lemma asks_database : emits asks_nas (get_opencellid_data env).
Proof.
  unfold get_opencellid_data, set_cellid_data_missing_as_requested, notify_database_unavailable. cbv zeta. emits_auto.
Qed.
Hint Resolve asks_process asks_database : oqti.
Lemma asks_nas_message buf len : emits asks_nas (handle_incoming_nas_message env buf len).
Proof.
  unfold handle_incoming_nas_message, parse_serving_system_message, take_capabilities, take_registration,
    tell_service_changes, update_operator_name, take_operator_name, update_cell_location_information,
    refresh_database, nas_update_network_data, NasClient.send_hello_world, on_status, save_status,
    nas_request_cell_location_info. cbv zeta. emits_auto.
Qed.
End Network.

(** ** Any handler *)

Lemma asks_stateless {A} (m : M device service_action A) : emits asks_svc m -> emits asks (stateless m).
Proof.
  intros Hm s a s' t. unfold stateless. destruct (m s) as [[[b d] u]| |] eqn:E1; [|done..].
  cbn [cbind]. intros [= <- <- <-]. apply Forall_map. by eapply Hm.
Qed.
Lemma asks_handler env nenv level h buf len : emits asks (run_handler env nenv level h buf len).
Proof.
  destruct h; cbn [run_handler].
  - emits_auto.
  - apply emits_zoom_of, asks_dms_message.
  - unfold in_session. apply emits_bind; [auto with oqti|]. intros d. apply emits_zoom_of, asks_session.
  - apply asks_stateless. unfold handle_incoming_voice_message. emits_auto.
  - apply emits_zoom_of, asks_nas_message.
  - apply asks_stateless, asks_pdc.
  - apply asks_stateless, asks_ims.
  - apply asks_stateless. unfold handle_incoming_mdmfs_message. emits_auto.
Qed.
Lemma queue_all_ok l c c' : Forall asks l -> QmiClient.client_ok c -> queue_all l c = Ret c' -> QmiClient.client_ok c'.
Proof.
  intros Hl. revert c. induction Hl as [|a l Ha _ IH]; intros c Hc; cbn [queue_all]; [by intros [= <-]|].
  intros (c1 & H1 & H)%cbind_Ret_inv. eapply IH; [|exact H]. unfold asks in Ha.
  destruct (queued a) as [[svc pkt]|]; [|by simplify_eq].
  apply cbind_Ret_inv in H1 as ([r c2] & H1 & [= <-]). by eapply add_pending_ok; [| |exact H1].
Qed.

(** * Runs of the machine *)

(** A step: one of another thread, a request another thread adds while the
    client's own runs, or a turn of the client with whatever was read. *)
Inductive machine_step (s s' : machine) : Prop :=
| step_device :
    daemon_step (mc_device s) (mc_device s') -> mc_client s' = mc_client s -> machine_step s s'
| step_request svc pkt r :
    is_request svc pkt -> add_pending_message (fun _ => mc_client s) svc pkt = Ret (r, mc_client s') ->
    mc_device s' = mc_device s -> machine_step s s'
| step_turn env nenv level port_ret input t :
    match input with Some (buf, _) => bytes_ok buf | None => True end ->
    internal_turn env nenv level port_ret input s = Ret (tt, s', t) -> machine_step s s'.
Inductive machine_reachable : machine -> Prop :=
| machine_start d : started d -> machine_reachable {| mc_device := d; mc_client := client0 |}
| machine_next s s' : machine_reachable s -> machine_step s s' -> machine_reachable s'.

Lemma keeps_stateless {A} (I : device -> Prop) (m : M device service_action A) :
  keeps I m -> keeps I (stateless m).
Proof.
  intros Hm d a d' t Hd. unfold stateless. destruct (m d) as [[[b d1] u]| |] eqn:E1; [|done..]. cbn [cbind].
  intros [= <- <- <-]. by eapply Hm.
Qed.
Lemma keeps_handler env nenv level h buf len :
  bytes_ok buf -> keeps device_ok (run_handler env nenv level h buf len).
Proof.
  intros Hb. destruct h; cbn [run_handler].
  - keeps_auto.
  - by apply keeps_in_dms, keeps_dms.
  - apply keeps_in_session. intros e. apply keeps_wds_message.
  - apply keeps_stateless. unfold handle_incoming_voice_message. keeps_auto.
  - apply keeps_in_network, keeps_network_message.
  - apply keeps_stateless. unfold handle_incoming_pdc_message, pdc_request_config_list, fields_request, queue_request.
    keeps_auto.
  - apply keeps_stateless. unfold handle_incoming_ims_message. keeps_auto.
  - apply keeps_stateless. unfold handle_incoming_mdmfs_message. keeps_auto.
Qed.
Lemma turn_ok env nenv level port_ret input s s' t :
  match input with Some (buf, _) => bytes_ok buf | None => True end ->
  device_ok (mc_device s) -> QmiClient.client_ok (mc_client s) ->
  internal_turn env nenv level port_ret input s = Ret (tt, s', t) ->
  device_ok (mc_device s') /\ QmiClient.client_ok (mc_client s').
Proof.
  intros Hb Hd Hc. unfold internal_turn. intros ([[c out] h] & Hturn & H)%cbind_Ret_inv.
  apply client_turn_ok in Hturn; [|done]. apply cbind_Ret_inv in H as ([d u] & Hrun & H).
  apply cbind_Ret_inv in H as (c2 & Hq & [= <- _]). cbn [mc_device mc_client].
  assert (device_ok d /\ Forall asks u) as [Hd' Hu].
  { destruct input as [[buf n]|]; [|injection Hrun as <- <-; by split].
    apply cbind_Ret_inv in Hrun as ([[a d1] u1] & Hrun & [= <- <-]). split.
    - by eapply (keeps_handler env nenv level h buf n Hb).
    - by eapply asks_handler. }
  split; [done|]. by eapply queue_all_ok.
Qed.

(** The daemon with its client: in every state reached by the threads of
    the daemon, by turns of the client with any bytes from the baseband and by
    requests the other threads queue, in any order and in any surroundings, the
    state of every component is sound, and every message that waits in the
    client's table is a request for the service it waits for. *)
Theorem machine_reachable_ok s :
  machine_reachable s -> device_ok (mc_device s) /\ QmiClient.client_ok (mc_client s).
Proof.
  induction 1 as [d Hd|s s' _ [IHd IHc] Hstep]; [split; [by apply started_ok|exact client0_ok]|].
  destruct Hstep as [Hstep Hc|svc pkt r Hreq Hadd Hd|env nenv level port_ret input t Hb Hrun].
  - split; [by eapply step_ok|by rewrite Hc].
  - split; [by rewrite Hd|]. by eapply (add_pending_ok (fun _ => mc_client s)).
  - by eapply turn_ok.
Qed.

(** A device that has just started and asks for the model of the modem. *)
Definition asking_machine : machine :=
  {| mc_device := started_device;
     mc_client := match add_pending_message (fun _ => client0) QMI_SERVICE_DMS
                    (request_of QMI_SERVICE_DMS SZ_ENCAP DMS_GET_MODEL []) with
                  | Ret (_, c) => c | _ => client0 end |}.
Lemma machine_reachable_ok_witness :
  device_ok (mc_device asking_machine) /\ QmiClient.client_ok (mc_client asking_machine).
Proof.
  apply machine_reachable_ok. apply (machine_next {| mc_device := started_device; mc_client := client0 |}).
  - apply machine_start. split_and!; reflexivity.
  - apply (step_request _ asking_machine QMI_SERVICE_DMS (request_of QMI_SERVICE_DMS SZ_ENCAP DMS_GET_MODEL []) 0).
    + apply request_of_ok.
    + vm_compute. reflexivity.
    + reflexivity.
Defined.

(** * Requests of a handler *)

Lemma in_session_run {A} env (m : wds_env -> MW A) d a p t :
  m (wds_env_of (ch_wds env) d) (part d) = Ret (a, p, t) ->
  in_session env m d = Ret (a, with_part p d, map Wds t).
Proof. intros H. unfold in_session. rewrite bind_get. by apply zoom_run. Qed.

(** A message of a service for a client that has nothing to send. *)
Lemma turn_dispatch port_ret c m sb :
  answer_ok m -> Qmi.service (a_qmux m) <> 0 -> qc_has_pending_message c = 0 ->
  rdA (qc_services c) (Qmi.service (a_qmux m)) = Ret sb ->
  client_turn port_ret c (Some (a_bytes m, a_len m)) =
  Ret (set_services c (<[Z.to_nat (Qmi.service (a_qmux m)) := set_tid sb (u16 (transaction_id (a_qmi m) + 1))]> (qc_services c)),
       [], service_handler (Qmi.service (a_qmux m))).
Proof.
  intros Hm Hs Hp Hr. pose proof Hm as (Hx & Hi & _ & Hl).
  destruct (getters_spec _ _ (enc_tlvs (a_fields m) ++ a_slack m) Hx Hi) as (Hsv & _ & _ & _ & _ & Htid).
  rewrite app_assoc in Hsv, Htid. change (get_qmux_service_id (a_bytes m) = Ret (Qmi.service (a_qmux m))) in Hsv.
  change (get_transaction_id (a_bytes m) = Ret (transaction_id (a_qmi m))) in Htid.
  unfold client_turn, is_internal_qmi_message_pending. rewrite Hp. change (0 =? 0) with true. cbn match.
  cbn [Z.eqb cbind]. unfold SZ_ENCAP, SZ_QMUX, SZ_QMI in *.
  rewrite (proj2 (Z.ltb_lt 6 (a_len m))), (proj2 (Z.ltb_lt (6 + 7) (a_len m))) by lia. rewrite Hsv. cbn [cbind]. rewrite (proj2 (Z.eqb_neq _ _) Hs).
  unfold dispatch_incoming_qmi_message. rewrite Hsv. cbn [cbind]. rewrite Htid. cbn [cbind].
  unfold set_transaction_id_for_service. pose proof (rdA_bounds _ _ _ Hr).
  destruct Hx as (_ & _ & _ & Hb & _). unfold byte_ok in Hb.
  rewrite (proj2 (Z.ltb_ge _ _)) by (unfold QMI_SERVICES_LAST; lia).
  by rewrite (get_upd_binding _ _ _ _ Hr).
Qed.

(** A refusal of a start that the client handles while no connection is in
    progress queues two requests for the data service from the thread that
    sends them. The second one, the start itself, waits for the first to go and
    is given up: what is left to send is the request about automatic
    connections, and no connection is in progress. *)
Theorem second_request_lost env nenv level port_ret s m sb c :
  let d := mc_device s in
  network_type (curr_state (dv_nas d)) <> 0 -> w_socket (ch_wds env) = true -> 0 <= w_ioctl (ch_wds env) ->
  phone_ok (dv_phone d) -> allow_internal_modem_connectivity (settings (dv_cfg d)) <> 0 ->
  internal_credentials (settings (dv_cfg d)) = Ret c ->
  in_progress (dv_wds d) = 0 -> user_ordered_stop (dv_wds d) = 0 ->
  answer_ok m -> Qmi.service (a_qmux m) = QMI_SERVICE_WDS -> msgid (a_qmi m) = WDS_START_NETWORK ->
  tlv_result (a_fields m) <> QMI_RESULT_SUCCESS ->
  qc_has_pending_message (mc_client s) = 0 ->
  rdA (qc_services (mc_client s)) QMI_SERVICE_WDS = Ret sb -> sb_has_pending_message sb = 0 ->
  exists s' sb', internal_turn env nenv level port_ret (Some (a_bytes m, a_len m)) s =
      Ret (tt, s', map (fun a => Dv (Wds a)) (start_actions c)) /\
    in_progress (dv_wds (mc_device s')) = 0 /\
    rdA (qc_services (mc_client s')) QMI_SERVICE_WDS = Ret sb' /\ sb_has_pending_message sb' = 1 /\
    sb_message sb' = Some (Wds.request WDS_SET_AUTOCONNECT_SETTINGS [Build_tlv 0x01 [0]]).
Proof.
  intros d Hn Hk Hio Hph Ha Hcr Hp Hu Hm Hs Hid Hres Hq Hr Hfree.
  destruct (refused_start (wds_env_of (ch_wds env) d) (part d) m c) as (p & Hrun & Hw & _ & _); try done.
  cbn [wds part device_session] in Hrun, Hw. rewrite Hp, Hu in Hrun. cbn [Z.eqb andb] in Hrun.
  apply (in_session_run env (fun e => handle_incoming_wds_message e (a_bytes m) (a_len m))) in Hrun.
  set (sb1 := set_tid sb (u16 (transaction_id (a_qmi m) + 1))).
  set (c1 := set_services (mc_client s) (<[Z.to_nat QMI_SERVICE_WDS := sb1]> (qc_services (mc_client s)))).
  pose proof (rdA_bounds _ _ _ Hr) as Hb.
  assert (Hr1 : rdA (qc_services c1) QMI_SERVICE_WDS = Ret sb1) by (change (qc_services c1) with (<[Z.to_nat QMI_SERVICE_WDS := sb1]> (qc_services (mc_client s)));
      by rewrite rdA_insert, Z.eqb_refl by lia).
  set (first := Wds.request WDS_SET_AUTOCONNECT_SETTINGS [Build_tlv 0x01 [0]]).
  set (sb2 := set_pending (set_message sb1 (Some first) (zlen first)) 1).
  set (c2 := set_client_pending (set_services c1 (<[Z.to_nat QMI_SERVICE_WDS := sb2]> (qc_services c1))) 1).
  assert (Hb1 := rdA_bounds _ _ _ Hr1).
  assert (Hr2 : rdA (qc_services c2) QMI_SERVICE_WDS = Ret sb2) by (change (qc_services c2) with (<[Z.to_nat QMI_SERVICE_WDS := sb2]> (qc_services c1));
      by rewrite rdA_insert, Z.eqb_refl by lia).
  assert (Hqueue : queue_all (map Wds (start_actions c)) c1 = Ret c2).
  { unfold start_actions, rawip_actions. cbn [map app queue_all queued].
    change (add_pending_message _ QMI_SERVICE_WDS (Wds.request WDS_SET_AUTOCONNECT_SETTINGS _)) with
      (add_pending_message (fun _ => c1) QMI_SERVICE_WDS first).
    rewrite (add_pending_free c1 QMI_SERVICE_WDS sb1 first) by done. cbn [cbind]. fold c2.
    rewrite (add_pending_message_busy (fun _ => c2)); [done|done|]. intros k _. exists sb2. split; [exact Hr2|done]. }
  exists {| mc_device := with_part p d; mc_client := c2 |}, sb2.
  split; [|split; [cbn [mc_device]; change (dv_wds (with_part p d)) with (wds p); by rewrite Hw|by split]].
  unfold internal_turn. rewrite (turn_dispatch port_ret (mc_client s) m sb) by (rewrite ?Hs; done).
  rewrite Hs. cbn [cbind]. change (service_handler QMI_SERVICE_WDS) with HWds. cbn [run_handler]. fold d.
  rewrite Hrun. cbn [cbind]. change (set_services (mc_client s) _) with c1. rewrite Hqueue. cbn [cbind map app].
  by rewrite map_map.
Qed.

Definition served_nas : nas_runtime := set_states (set_signal 8 40 (curr_state initial_nas)) (prev_state initial_nas) initial_nas.
Definition served_machine : machine :=
  {| mc_device := with_part {| nas := served_nas; cells_file := None; nw_phone := idle_phone; nw_cfg := sample_cfg |} started_device;
     mc_client := client0 |}.
Definition refusal : Requests.answer :=
  {| a_qmux := Build_qmux_packet 1 22 0 QMI_SERVICE_WDS 1; a_qmi := Build_qmi_packet 0 3 WDS_START_NETWORK 10;
     a_fields := [Build_tlv 2 [1; 0; 14; 0]]; a_slack := [] |}.
Lemma second_request_lost_witness :
  exists s' sb',
    internal_turn sample_env all_open 1 (fun _ => 0) (Some (a_bytes refusal, a_len refusal)) served_machine =
      Ret (tt, s', map (fun a => Dv (Wds a)) (start_actions sample_credentials)) /\
    in_progress (dv_wds (mc_device s')) = 0 /\
    rdA (qc_services (mc_client s')) QMI_SERVICE_WDS = Ret sb' /\ sb_has_pending_message sb' = 1 /\
    sb_message sb' = Some (Wds.request WDS_SET_AUTOCONNECT_SETTINGS [Build_tlv 0x01 [0]]).
Proof.
  apply (second_request_lost sample_env all_open 1 (fun _ => 0) served_machine refusal binding0); try done.
  - exact idle_phone_ok.
  - split; [by vm_compute|]. split; [by vm_compute|]. split; [|by vm_compute].
    apply Forall_cons_2; [by vm_compute|apply Forall_nil_2].
Defined.
