(* ===== verification/Atfwd.v ===== *)
(** The AT commands the baseband hands over (src/atfwd.c, inc/atfwd.h): their
    table and registration, the answers, what each command does to the board, the
    sound, the settings and the store, and the thread. Its state is the device of
    the other threads, the board and the sound, side by side. *)

From stdpp Require Import base list numbers option strings.
From Stdlib Require Import ZArith Lia.
From S2P Require Import Prelude Libc Eff Qmi Dms Sms Config Helpers Call Audio Cells Proxy Device Invariant.

(** * Commands *)

(** An identifier and the text that stands for it. *)
Definition at_commands : list (Z * list Z) :=
  [ (0, zs "+QNAND"); (1, zs "+QPRTPARA"); (2, zs "+QWSERVER"); (3, zs "+QWTOCLIEN"); (4, zs "+QWTOCLI");
    (5, zs "+QWPARAM"); (6, zs "+QDATAFWD"); (7, zs "+QFTCMD"); (8, zs "+QBTPWR"); (9, zs "+QBTLEADDR");
    (10, zs "+QBTNAME"); (11, zs "+QBTGATREG"); (12, zs "+QBTGATSS"); (13, zs "+QBTGATSC");
    (14, zs "+QBTGATSD"); (15, zs "+QBTGATSIND"); (16, zs "+QBTGATSNOD"); (17, zs "+QBTGATRRSP");
    (18, zs "+QBTGATWRSP"); (19, zs "+QBTGATSENLE"); (20, zs "+QBTGATADV"); (21, zs "+QBTGATDISC");
    (22, zs "+QBTGATPER"); (23, zs "+QBTGATDBALC"); (24, zs "+QBTGATDBDEALC"); (25, zs "+QBTGATSA");
    (26, zs "+QBTGATDA"); (27, zs "+QFCT"); (28, zs "+QFCTTX"); (29, zs "+QFCTRX"); (30, zs "+QBTSPPACT");
    (31, zs "+QBTSPPDIC"); (32, zs "+QBTSPPWRS"); (33, zs "+QBTSCAN"); (34, zs "+QBTAVACT");
    (35, zs "+QBTAVREG"); (36, zs "+QBTAVCON"); (37, zs "+QBTHFGCON"); (38, zs "+QIIC"); (39, zs "+QAUDLOOP");
    (40, zs "+QDAI"); (41, zs "+QSIDET"); (42, zs "+QAUDMOD"); (43, zs "+QEEC"); (44, zs "+QMIC");
    (45, zs "+QRXGAIN"); (46, zs "+QAUDRD"); (47, zs "+QAUDPLAY"); (48, zs "+QAUDSTOP"); (49, zs "+QPSND");
    (50, zs "+QTTS"); (51, zs "+QTTSETUP"); (52, zs "+QLTONE"); (53, zs "+QLDTMF"); (54, zs "+QAUDCFG");
    (55, zs "+QTONEDET"); (56, zs "+QWTTS"); (57, zs "+QPCMV"); (58, zs "+QTXIIR"); (59, zs "+QRXIIR");
    (60, zs "+QPOWD"); (61, zs "+QSCLK"); (62, zs "+QCFG"); (63, zs "+QADBKEY"); (64, zs "+QADC");
    (65, zs "+QADCTEMP"); (66, zs "+QGPSCFG"); (67, zs "+QODM"); (68, zs "+QFUMO"); (69, zs "+QFUMOCFG");
    (70, zs "+QPRINT"); (71, zs "+QSDMOUNT"); (72, zs "+QFDUMMY"); (73, zs "+QPSM"); (74, zs "+QPSMCFG");
    (75, zs "+QLINUXCPU"); (76, zs "+QVERSION"); (77, zs "+QSUBSYSVER"); (78, zs "+QTEMPDBG");
    (79, zs "+QTEMP"); (80, zs "+QTEMPDBGLVL"); (81, zs "+QDIAGPORT"); (82, zs "+QLPMCFG");
    (83, zs "+QSGMIICFG"); (84, zs "+QWWAN"); (85, zs "+QLWWANUP"); (86, zs "+QLWWANDOWN");
    (87, zs "+QLWWANSTATUS"); (88, zs "+QLWWANURCCFG"); (89, zs "+QLWWANCID"); (90, zs "+QLPING");
    (91, zs "+QWIFI"); (92, zs "+QWSSID"); (93, zs "+QWSSIDHEX"); (94, zs "+QWAUTH"); (95, zs "+QWMOCH");
    (96, zs "+QWISO"); (97, zs "+QWBCAST"); (98, zs "+QWCLICNT"); (99, zs "+QWCLIP"); (100, zs "+QWCLILST");
    (101, zs "+QWSTAINFO"); (102, zs "+QWCLIRM"); (103, zs "+QWSETMAC"); (104, zs "+QWRSTD");
    (105, zs "+QWIFICFG"); (106, zs "+QAPRDYIND"); (107, zs "+QFOTADL"); (108, zs "+CFUN"); (109, zs "+CMUX");
    (110, zs "+IPR"); (111, zs "+PWRDN"); (112, zs "+ADBON"); (113, zs "+ADBOFF"); (114, zs "+RESETUSB");
    (115, zs "+REBOOT_REC"); (116, zs "+IS_CUSTOM"); (117, zs "+EN_PCM16K"); (118, zs "+EN_PCM48K");
    (119, zs "+EN_PCM8K"); (120, zs "+EN_USBAUD"); (121, zs "+DIS_USBAUD"); (122, zs "+CMUT");
    (123, zs "+REBOOTDO"); (124, zs "+EN_CAT"); (125, zs "+DIS_CAT"); (126, zs "+GETSWREV");
    (127, zs "+QFASTBOOT"); (128, zs "+GETFWBRANCH"); (129, zs "+QGMR"); (130, zs "+DMESG"); (131, zs "+OQLOG");
    (132, zs "+SETLOGDBG"); (133, zs "+SETLOGNFO"); (134, zs "+SIMUSMS"); (135, zs "+SIMUNOTIF");
    (136, zs "+EN_USBSUSPEND"); (137, zs "+DIS_USBSUSPEND"); (138, zs "+GETADSPVER"); (139, zs "+RESETAUDPA");
    (140, zs "+RECON"); (141, zs "+RECOFF"); (142, zs "+WIPESMS");
    (143, (zs "+QCFG=" ++ [34] ++ zs "secbootstat" ++ [34])); (144, zs "+SEND_SAMPLE_CB");
    (145, zs "+SEND_RANDOM_CB"); (146, zs "+SEND_MULTIPART_CB") ].

Definition AT_CMD_RES : Z := 0x0022.
Definition MAX_REPLY_SZ : Z := 2048.
Definition MAX_RESPONSE_NUM : Z := 4.
Definition MAX_PACKET_SIZE : Z := 6144.
Definition RELEASE_VER : list Z := zs "0.8.0".

(** * State *)

(** The qmi_device's transaction (uint8_t), the level of the log (src/logger.c),
    and the flag for a text that waits since the host slept. *)
Record at_state := {
  at_device : device;
  at_board : board;
  at_audio : audio;
  at_tid : Z;
  at_log_level : Z;
  is_sms_notification_pending : bool
}.
Definition upd_tid (v : Z) (s : at_state) : at_state :=
  {| at_device := at_device s; at_board := at_board s; at_audio := at_audio s; at_tid := v;
     at_log_level := at_log_level s; is_sms_notification_pending := is_sms_notification_pending s |}.
Definition upd_level (v : Z) (s : at_state) : at_state :=
  {| at_device := at_device s; at_board := at_board s; at_audio := at_audio s; at_tid := at_tid s;
     at_log_level := v; is_sms_notification_pending := is_sms_notification_pending s |}.
Definition upd_notification (v : bool) (s : at_state) : at_state :=
  {| at_device := at_device s; at_board := at_board s; at_audio := at_audio s; at_tid := at_tid s;
     at_log_level := at_log_level s; is_sms_notification_pending := v |}.
#[export, refine] Instance at_state_device : Part device at_state :=
  {| part := at_device;
     with_part d s := {| at_device := d; at_board := at_board s; at_audio := at_audio s; at_tid := at_tid s;
       at_log_level := at_log_level s; is_sms_notification_pending := is_sms_notification_pending s |} |}.
Proof. all: abstract by intros; repeat match goal with s : at_state |- _ => destruct s end. Defined.
#[export, refine] Instance at_state_board : Part board at_state :=
  {| part := at_board;
     with_part b s := {| at_device := at_device s; at_board := b; at_audio := at_audio s; at_tid := at_tid s;
       at_log_level := at_log_level s; is_sms_notification_pending := is_sms_notification_pending s |} |}.
Proof. all: abstract by intros; repeat match goal with s : at_state |- _ => destruct s end. Defined.
#[export, refine] Instance at_state_audio : Part audio at_state :=
  {| part := at_audio;
     with_part a s := {| at_device := at_device s; at_board := at_board s; at_audio := a; at_tid := at_tid s;
       at_log_level := at_log_level s; is_sms_notification_pending := is_sms_notification_pending s |} |}.
Proof. all: abstract by intros; repeat match goal with s : at_state |- _ => destruct s end. Defined.

(** The arguments of reboot(2). *)
Inductive reboot_kind :=
| RebootOff
| RebootNow
| RebootTo (what : list Z).
Inductive at_action :=
| AtDevice (a : dev_action)
| AtBoard (a : board_action)
| AtAudio (a : audio_action)
| SendTo (packet : list Z)            (* sendto(2) on the AT socket *)
| Nap (us : Z)                        (* usleep(3) *)
| Reboot (kind : reboot_kind).
Definition MQ (A : Type) : Type := M at_state at_action A.

(** The surroundings of the components; the stack behind the arrays of the flags
    and the memory of [filebuff]; the files by path; the digest of the firmware;
    whether the second AT port opens. *)
Record at_env := {
  q_cfg : cfg_env;
  q_nas : nas_env;
  q_audio : audio_env;
  q_stack : list Z;
  q_filebuff : list Z;
  q_file : list Z -> option (list Z);
  q_md5 : list Z;
  q_port : bool
}.

(** * Packets *)

(** struct atcmd_reg_request and the text behind it, in a buffer of 256 bytes. *)
Definition SZ_REG : Z := 15.
Definition build_atcommand_reg_request (tid : Z) (command buf : list Z) : cres (list Z) :=
  let n := zlen command in
  let var2 := u8 (n + 2) in
  let* buf := wrn buf 0 ([0] ++ le 2 (u16 tid) ++ le 2 32 ++ le 2 (u16 (n + 40 + SZ_REG)) ++ [1; u8 (var2 + 3)] ++
                         le 2 0x0100 ++ [var2] ++ le 2 0 ++ [u8 n]) in
  wrn buf SZ_REG command.

(** struct at_command_respnse: what of it is not constant. *)
Record at_response := {
  rs_tid : Z;
  rs_result : Z;
  rs_response : Z;
  rs_replysz : Z;
  rs_reply : list Z   (* char[MAX_REPLY_SZ] *)
}.
Definition SZ_RESPONSE : Z := 18 + MAX_REPLY_SZ.
Definition with_result (v : Z) (r : at_response) : at_response :=
  {| rs_tid := rs_tid r; rs_result := v; rs_response := rs_response r; rs_replysz := rs_replysz r;
     rs_reply := rs_reply r |}.
Definition with_status (v : Z) (r : at_response) : at_response :=
  {| rs_tid := rs_tid r; rs_result := rs_result r; rs_response := v; rs_replysz := rs_replysz r;
     rs_reply := rs_reply r |}.
Definition with_reply (sz : Z) (reply : list Z) (r : at_response) : at_response :=
  {| rs_tid := rs_tid r; rs_result := rs_result r; rs_response := rs_response r; rs_replysz := u16 sz;
     rs_reply := reply |}.
(** The answer every handler starts from: result 1 (OK), response 3 (completed). *)
Definition new_response (tid : Z) : at_response :=
  {| rs_tid := u16 tid; rs_result := 1; rs_response := 3; rs_replysz := 0;
     rs_reply := replicate (Z.to_nat MAX_REPLY_SZ) 0 |}.

(** The struct with the lengths of a packet of [sz] bytes. *)
Definition response_bytes (r : at_response) (sz : Z) : list Z :=
  [0] ++ le 2 (rs_tid r) ++ le 2 AT_CMD_RES ++ le 2 (u16 (sz - 7)) ++ [1] ++ le 2 (u16 (sz - 7 - 3)) ++
  le 4 0x0b ++ [rs_result r; rs_response r] ++ le 2 (rs_replysz r) ++ rs_reply r.
Definition send_pkt (r : at_response) (sz : Z) : MQ unit :=
  do* bytes := lift (rdn (response_bytes r sz) 0 (Z.to_nat sz)) in emit (SendTo bytes).
(** [sizeof(struct at_command_respnse) - (MAX_REPLY_SZ - bytes_in_reply)] *)
Definition pkt_size_of (bytes_in_reply : Z) : Z := SZ_RESPONSE - (MAX_REPLY_SZ - bytes_in_reply).
Definition send_plain (r : at_response) : MQ unit := send_pkt r (pkt_size_of 0).
(** [bytes_in_reply = sprintf(response->reply, ...)] and the packet with it. *)
Definition put_reply (text : list Z) (r : at_response) : cres at_response :=
  let* reply := wrn (rs_reply r) 0 (text ++ [0]) in Ret (with_reply (zlen text) reply r).
Definition send_text (text : list Z) (r : at_response) : MQ at_response :=
  do* r := lift (put_reply text r) in
  send_pkt r (pkt_size_of (zlen text)) ;> ret r.

Definition crlf : list Z := [13; 10].
Definition line (text : list Z) : list Z := crlf ++ text ++ crlf.

(** * Steps on the parts *)

Definition on_device {A} (m : MV A) : MQ A := zoom AtDevice m.
Definition on_audio {A} (m : MA A) : MQ A := zoom AtAudio m.
(** The device the board names for the sound is set at once. *)
Fixpoint settled (t : list board_action) (a : audio) : audio :=
  match t with
  | [] => a
  | SetOutputDevice mode :: t => settled t (on_art (set_device (u8 mode)) a)
  | _ :: t => settled t a
  end.
Definition on_board {A} (m : MB A) : MQ A := fun s =>
  let* '(a, b, t) := m (part s) in
  Ret (a, with_part (settled t (part s)) (with_part b s), map AtBoard t).

Section Thread.
Variable env : at_env.

(** * Commands that answer first *)

(** The number of texts that wait, as printed with [%i]. *)
Definition cmti (n : Z) : list Z := line (zs "+CMTI: " ++ [34] ++ zs "ME" ++ [34; 44] ++ fmt_i (i32 n)).
Definition pending_texts (s : at_state) : Z :=
  let r := texts (dv_phone (at_device s)) in
  u32 (get_internal_pending_messages r + get_pending_messages_in_adsp r).
Definition announce_text : MQ unit :=
  on_device (in_phone (zoom Out (set_pending_notification_source MSG_EXTERNAL ;> set_notif_pending true))).
Definition inject_message : MQ unit :=
  on_device (in_phone (add_message_to_queue (zs "Hello world!" ++ [0]) 12)).
Definition apply_usb (store : MB unit) : MQ unit :=
  on_board store ;> on_board (restart_usb_stack (q_stack env)).
Definition set_log_level (level : Z) : MQ unit :=
  when ((0 <=? level) && (level <=? 2)) (modify (upd_level level)).
(** A flag that asks for a cell broadcast of the debug mode. *)
Definition ask_cb (f : debug_cb -> debug_cb) : MQ unit :=
  on_device (in_proxy (do* p := get in modify (upd_debug (f (debug p))))).
Definition set_debug_one (d : debug_cb) : debug_cb :=
  {| debug_one := true; debug_random := debug_random d; debug_stream := debug_stream d |}.
Definition set_debug_random (d : debug_cb) : debug_cb :=
  {| debug_one := debug_one d; debug_random := true; debug_stream := debug_stream d |}.
Definition set_debug_stream (d : debug_cb) : debug_cb :=
  {| debug_one := debug_one d; debug_random := debug_random d; debug_stream := true |}.

(** * Logs in pieces *)

(** The chunks of a file from where it is read on, each [MAX_REPLY_SZ - 2] bytes
    and copied with strncpy(3) from [filebuff], with its NULs as blanks when
    [blank], its last byte apart. *)
Definition blanked (chunk : list Z) : list Z :=
  map (fun c => if c =? 0 then 32 else c) (take (length chunk - 1) chunk) ++ drop (length chunk - 1) chunk.
Fixpoint send_chunks (fuel : nat) (blank : bool) (filebuff file : list Z) (r : at_response) : MQ at_response :=
  match fuel with
  | O => lift Spin
  | S fuel =>
      let chunk := take (Z.to_nat (MAX_REPLY_SZ - 2)) file in
      let cleared := replicate (Z.to_nat MAX_REPLY_SZ) 0 in
      let n := zlen chunk in
      if n <=? 0 then ret (with_reply (rs_replysz r) cleared r)
      else
        do* filebuff := lift (wrn filebuff 0 (if blank then blanked chunk else chunk)) in
        do* reply := lift (strncpy cleared (until_nul filebuff) (Z.to_nat MAX_REPLY_SZ)) in
        let r := with_reply n reply (with_status 2 r) in
        send_pkt r (pkt_size_of n) ;> emit (Nap 500) ;>
        send_chunks fuel blank filebuff (drop (Z.to_nat (MAX_REPLY_SZ - 2)) file) r
  end.
(** [size] is what ftell(3) says of the end of the file. *)
Definition send_file (blank : bool) (size : list Z -> Z) (path : list Z) (r : at_response) : MQ unit :=
  match q_file env path with
  | None => send_plain (with_result 2 r)
  | Some file =>
      do* r := send_text crlf (with_status 0 r) in
      let start := if MAX_REPLY_SZ * MAX_RESPONSE_NUM <? size file
                   then size file - MAX_REPLY_SZ * MAX_RESPONSE_NUM else 0 in
      let rest := drop (Z.to_nat start) file in
      do* r := send_chunks (S (length rest)) blank (q_filebuff env) rest r in
      do* _ := send_text (line (zs "EOF")) (with_status 1 r) in
      ret tt
  end.

(** * The switch *)

(** Texts of the answers, and what the commands do once they have answered. *)
Definition firmware_text : cres (list Z) :=
  let* j := read_adsp_version (q_md5 env) in
  let* name := if 0 <=? j then let* fw := rdA known_adsp_fw j in Ret (fwstring fw)
               else Ret (zs "Unknown ADSP Firmware") in
  Ret (line name).
Definition power_commands (cmd_id : Z) (r : at_response) : option (MQ unit) :=
  if cmd_id =? 111 then Some (send_plain r ;> emit (Nap 500) ;> emit (Reboot RebootOff))
  else if cmd_id =? 115 then Some (send_plain r ;> emit (Reboot (RebootTo (zs "recovery"))))
  else if cmd_id =? 123 then Some (emit (Reboot RebootNow) ;> send_plain r)
  else if cmd_id =? 127 then Some (send_plain r ;> emit (Nap 300) ;> emit (Reboot (RebootTo (zs "bootloader"))))
  else None.
Definition usb_commands (cmd_id : Z) (r : at_response) : option (MQ unit) :=
  if cmd_id =? 112 then Some (send_plain r ;> apply_usb (store_adb_setting true))
  else if cmd_id =? 113 then Some (send_plain r ;> apply_usb (store_adb_setting false))
  else if cmd_id =? 114 then Some (send_plain r ;> on_board reset_usb_port)
  else if cmd_id =? 120 then Some (send_plain r ;> apply_usb (store_audio_output_mode AUDIO_MODE_USB))
  else if cmd_id =? 121 then Some (send_plain r ;> apply_usb (store_audio_output_mode AUDIO_MODE_I2S))
  else if cmd_id =? 136 then Some (send_plain r ;> on_board (set_suspend_inhibit false))
  else if cmd_id =? 137 then Some (send_plain r ;> on_board (set_suspend_inhibit true))
  else None.
Definition sound_commands (buf : list Z) (cmd_id : Z) (r : at_response) : option (MQ unit) :=
  if (cmd_id =? 117) || (cmd_id =? 118) || (cmd_id =? 119) then Some (send_plain (with_result 2 r))
  else if cmd_id =? 122 then
    Some (send_plain r ;>
          do* c := lift (rd buf 30) in
          on_audio (set_audio_mute (q_audio env) (c =? 0x31)))
  else if cmd_id =? 124 then Some (send_plain r ;> on_device (in_cfg (set_custom_alert_tone (q_cfg env) true)))
  else if cmd_id =? 125 then Some (send_plain r ;> on_device (in_cfg (set_custom_alert_tone (q_cfg env) false)))
  else if cmd_id =? 139 then
    Some (send_plain r ;> do* _ := on_audio (set_external_codec_defaults (q_audio env)) in ret tt)
  else if cmd_id =? 140 then Some (send_plain r ;> on_device (in_cfg (set_automatic_call_recording (q_cfg env) 1)))
  else if cmd_id =? 141 then Some (send_plain r ;> on_device (in_cfg (set_automatic_call_recording (q_cfg env) 0)))
  else None.
Definition reply_text (text : list Z) (r : at_response) : MQ unit := do* _ := send_text text r in ret tt.
Definition info_commands (cmd_id : Z) (r : at_response) : option (MQ unit) :=
  if (cmd_id =? 109) || (cmd_id =? 116) then Some (send_plain r)
  else if (cmd_id =? 126) || (cmd_id =? 129) then Some (reply_text (line RELEASE_VER) r)
  else if cmd_id =? 128 then Some (reply_text (line (zs "community")) r)
  else if cmd_id =? 138 then Some (do* text := lift firmware_text in reply_text text r)
  else if cmd_id =? 143 then Some (reply_text (line (zs "+QCFG: " ++ [34] ++ zs "secbootstat" ++ [34] ++ zs ",0")) r)
  else if cmd_id =? 130 then Some (send_file true (fun _ => 0) (zs "/var/log/messages") r)
  else if cmd_id =? 131 then
    Some (do* s := get in send_file false zlen (zs (get_openqti_logfile (settings (dv_cfg (at_device s))))) r)
  else if cmd_id =? 132 then Some (send_plain r ;> set_log_level 0)
  else if cmd_id =? 133 then Some (send_plain r ;> set_log_level 1)
  else None.
Definition text_commands (cmd_id : Z) (r : at_response) : option (MQ unit) :=
  if cmd_id =? 134 then
    Some (do* s := get in reply_text (cmti (pending_texts s)) r ;>
          inject_message ;> do* _ := on_board pulse_ring_in in ret tt)
  else if cmd_id =? 135 then
    Some (do* s := get in reply_text (cmti (pending_texts s)) r ;>
          announce_text ;> do* _ := on_board pulse_ring_in in ret tt)
  else if cmd_id =? 142 then Some (send_plain r ;> do* _ := on_board (wipe_message_storage (q_port env)) in ret tt)
  else if cmd_id =? 144 then Some (send_plain r ;> ask_cb set_debug_one)
  else if cmd_id =? 145 then Some (send_plain r ;> ask_cb set_debug_random)
  else if cmd_id =? 146 then Some (send_plain r ;> ask_cb set_debug_stream)
  else None.
Definition first_of (l : list (option (MQ unit))) (default : MQ unit) : MQ unit :=
  foldr (fun o m => from_option (fun x => x) m o) default l.
Definition answer_command (buf : list Z) (cmd_id : Z) (r : at_response) : MQ unit :=
  first_of [power_commands cmd_id r; usb_commands cmd_id r; sound_commands buf cmd_id r;
            info_commands cmd_id r; text_commands cmd_id r]
    (send_plain (with_result (if (0 <? cmd_id) && negb (cmd_id =? 0) && (cmd_id <? 111) then 1 else 2) r)).

(** The last row with the text, or -1. *)
Fixpoint find_at_command (l : list (Z * list Z)) (parsedcmd : list Z) (cmd_id : Z) : Z :=
  match l with
  | [] => cmd_id
  | (id, cmd) :: l => find_at_command l parsedcmd (if bool_decide (parsedcmd = cmd) then id else cmd_id)
  end.
Definition next_transaction : MQ unit := modify (fun s => upd_tid (u8 (at_tid s + 1)) s).

Definition handle_atfwd_response (buf : list Z) (sz : Z) : MQ Z :=
  if sz =? 14 then ret 0
  else if sz <? 16 then ret 0
  else
    do* ctlid := lift (rd buf 0) in
    if negb (ctlid =? 0x04) then ret 0
    else
      do* msgid := lift (rd buf 3) in
      if negb (msgid =? 0x21) then ret 0
      else
        do* cmdsize := lift (rd buf 18) in
        do* parsedcmd := lift (strn_at buf 19 (Z.to_nat cmdsize)) in
        do* s := get in
        answer_command buf (find_at_command at_commands parsedcmd (-1)) (new_response (at_tid s)) ;>
        next_transaction ;> ret 0.

(** * What the thread says by itself *)

Definition at_send_cmti_urc : MQ Z :=
  do* s := get in
  reply_text (cmti (get_internal_pending_messages (texts (dv_phone (at_device s))))) (new_response (at_tid s)) ;>
  announce_text ;>
  next_transaction ;> ret 0.
Definition missing_cells (s : at_state) : cres (list Z) :=
  let st := curr_state (dv_nas (at_device s)) in
  let* mcc := cstr (st_mcc st) in
  let* mnc := cstr (st_mnc st) in
  Ret (line (zs "+MISSINGOCID: " ++ mcc ++ zs "-" ++ mnc)).
Definition at_send_missing_cellid_data : MQ Z :=
  do* s := get in
  next_transaction ;>
  do* text := lift (missing_cells s) in
  reply_text text (new_response (at_tid s)) ;> ret 0.

(** * The thread *)

Fixpoint register_all (l : list (Z * list Z)) : MQ unit :=
  match l with
  | [] => ret tt
  | (_, cmd) :: l =>
      do* s := get in
      do* atcmd := lift (build_atcommand_reg_request (at_tid s) cmd (replicate 256 0)) in
      next_transaction ;>
      do* packet := lift (rdn atcmd 0 (Z.to_nat (SZ_REG + (zlen cmd + 47)))) in
      emit (SendTo packet) ;>
      register_all l
  end.
(** [opens]: whether the socket of the service opens; open_ipc_socket (src/ipc.c)
    begins the transactions with 1 either way. *)
Definition init_atfwd (opens : bool) : MQ Z :=
  modify (upd_tid 1) ;>
  if opens then register_all at_commands ;> ret 0 else ret (- EINVAL).

(** One pass of the loop, with the packet that arrived, if any. *)
Definition atfwd_turn (arrived : option (list Z)) : MQ unit :=
  match arrived with
  | Some data =>
      do* buf := lift (wrn (replicate (Z.to_nat MAX_PACKET_SIZE) 0) 0 data) in
      when (0 <? zlen data) (do* _ := handle_atfwd_response buf (zlen data) in ret tt)
  | None => ret tt
  end ;>
  do* s := get in
  when (is_sms_notification_pending s)
    (do* _ := at_send_cmti_urc in modify (upd_notification false)) ;>
  do* in_service := on_device (in_network nas_is_network_in_service) in
  do* s := get in
  if negb (in_service =? 0) && negb (signal_tracking (settings (dv_cfg (at_device s))) =? 0) then
    do* missing := on_device (in_network is_cellid_data_missing) in
    when (missing =? 0)
      (do* _ := at_send_missing_cellid_data in on_device (in_network (get_opencellid_data (q_nas env))))
  else ret tt.
End Thread.

(** * Registration *)

(** The packet that registers a command: the header, its lengths, the text and 47
    bytes of the zeroed buffer. *)
Definition registration (tid : Z) (cmd : list Z) : list Z :=
  let n := zlen cmd in
  [0] ++ le 2 tid ++ le 2 0x20 ++ le 2 (n + 55) ++ [1; n + 5; 0; 1; n + 2; 0; 0; n] ++ cmd ++ replicate 47 0.
Fixpoint registrations (tid : Z) (l : list (Z * list Z)) : list at_action :=
  match l with
  | [] => []
  | (_, cmd) :: l => SendTo (registration tid cmd) :: registrations (u8 (tid + 1)) l
  end.

Lemma build_run tid cmd :
  0 <= tid < 256 -> zlen cmd <= 194 ->
  build_atcommand_reg_request tid cmd (replicate 256 0) =
    Ret (registration tid cmd ++ replicate (194 - length cmd) 0).
Proof.
  intros Ht Hn. pose proof (zlen_nonneg cmd). unfold build_atcommand_reg_request, SZ_REG.
  rewrite (u16_small tid), (u16_small (zlen cmd + 40 + 15)), (u8_small (zlen cmd + 2)), (u8_small (zlen cmd)) by lia.
  rewrite (u8_small (zlen cmd + 2 + 3)) by lia.
  replace (zlen cmd + 40 + 15) with (zlen cmd + 55) by lia.
  set (h := [0] ++ _). assert (Hh : length h = 15%nat) by done.
  rewrite (wrn_ok _ 0) by (unfold zlen; rewrite ?Hh, ?length_replicate; lia). cbn [cbind].
  change (take (Z.to_nat 0) (replicate 256 0)) with (@nil Z). cbn [app]. rewrite Hh.
  change (drop (Z.to_nat 0 + 15) (replicate 256 0)) with (replicate 241 0).
  assert (replicate 241 0 = replicate (length cmd) 0 ++ replicate (241 - length cmd) 0) as ->.
  { rewrite <- replicate_add. f_equal. unfold zlen in *. lia. }
  change 15 with (zlen h). rewrite wrn_app by (by rewrite length_replicate). f_equal. unfold registration.
  rewrite <- !app_assoc, <- replicate_add. unfold h. cbn [app le].
  replace (47 + (194 - length cmd))%nat with (241 - length cmd)%nat by (unfold zlen in *; lia).
  by replace (zlen cmd + 2 + 3) with (zlen cmd + 5) by lia.
Qed.
Lemma registration_len tid cmd : zlen (registration tid cmd) = zlen cmd + 62.
Proof. unfold registration. zl. lia. Qed.

Lemma register_run l s :
  Forall (fun '(_, cmd) => zlen cmd <= 194) l -> 0 <= at_tid s < 256 ->
  register_all l s = Ret (tt, upd_tid (u8 (at_tid s + zlen l)) s, registrations (at_tid s) l).
Proof.
  intros Hl. revert s. induction Hl as [|[id cmd] l Hn _ IH]; intros s Ht; cbn [register_all registrations].
  - change (zlen (@nil (Z * list Z))) with 0. rewrite Z.add_0_r, u8_small by done. by destruct s.
  - rewrite bind_get, (bind_lift _ _ _ _ (build_run _ _ Ht Hn)). unfold next_transaction. rewrite bind_modify.
    rewrite (bind_lift _ (registration (at_tid s) cmd)).
    2:{ pose proof (registration_len (at_tid s) cmd). rewrite rdn_head.
        - f_equal. rewrite take_app_le by (unfold zlen, SZ_REG in *; lia). apply take_ge. unfold zlen, SZ_REG in *. lia.
        - rewrite length_app. unfold zlen, SZ_REG in *. lia. }
    rewrite bind_emit, IH by (cbn; apply u8_range). cbn [at_tid upd_tid after app].
    assert (u8 (at_tid s + zlen ((id, cmd) :: l)) = u8 (u8 (at_tid s + 1) + zlen l)) as ->; [|done].
    unfold u8. rewrite Zplus_mod_idemp_l, zlen_cons. f_equal. lia.
Qed.

(** C23: the thread registers every command of the table, in its order and under
    the transactions from 1 on: the packet of each lies in its buffer of 256 bytes
    and has the lengths of its text in all four of its fields. *)
Theorem commands_registered s :
  init_atfwd true s = Ret (0, upd_tid 148 s, registrations 1 at_commands) /\
  Forall (fun '(_, cmd) => forall tid, zlen (registration tid cmd) <= 256 /\
    (* the length behind the header is that of the packet without it *)
    rd16 (registration tid cmd) 5 = Ret (zlen (registration tid cmd) - 7)) at_commands.
Proof.
  assert (Forall (fun '(_, cmd) => zlen cmd <= 194) at_commands) as Hall.
  { apply (bool_decide_unpack _). vm_compute. exact I. }
  split.
  - unfold init_atfwd. rewrite bind_modify.
    rewrite (bind_after _ _ _ _ _ _ (register_run _ (upd_tid 1 s) Hall ltac:(cbn; lia))). unfold ret, after. cbn [cbind].
    by rewrite app_nil_r.
  - eapply Forall_impl; [exact Hall|]. intros [id cmd] Hn tid. rewrite registration_len.
    pose proof (zlen_nonneg cmd). split; [lia|]. unfold registration. cbn [app le]. rdc.
    f_equal. dlia.
Qed.

(** * Answers *)

(** The packet that answers: a header of 18 bytes with the three lengths of the
    text. *)
Definition answer_packet (tid result status : Z) (text : list Z) : list Z :=
  let n := zlen text in
  [0] ++ le 2 tid ++ [0x22; 0] ++ le 2 (n + 11) ++ [1] ++ le 2 (n + 8) ++ [0x0b; 0; 0; 0; result; status] ++
  le 2 n ++ text.

(** The answers that carry a text: the release, the branch, the firmware of the
    ADSP, the fuse and the texts that wait. *)
Definition text_answers (adsp : list Z) (s : at_state) : list (list Z * list Z) :=
  [ (zs "+GETSWREV", line RELEASE_VER); (zs "+QGMR", line RELEASE_VER);
    (zs "+GETFWBRANCH", line (zs "community")); (zs "+GETADSPVER", adsp);
    (zs "+QCFG=" ++ [34] ++ zs "secbootstat" ++ [34], line (zs "+QCFG: " ++ [34] ++ zs "secbootstat" ++ [34] ++ zs ",0"));
    (zs "+SIMUSMS", cmti (pending_texts s)); (zs "+SIMUNOTIF", cmti (pending_texts s)) ].
(** The commands of the table that are refused, the first by its identifier 0, and
    the three that do not answer first or not with one packet. *)
Definition refused : list (list Z) := [zs "+QNAND"; zs "+EN_PCM16K"; zs "+EN_PCM48K"; zs "+EN_PCM8K"].
Definition odd_commands : list (list Z) := [zs "+REBOOTDO"; zs "+DMESG"; zs "+OQLOG"].
Definition text_of_answer (l : list (list Z * list Z)) (cmd : list Z) : list Z :=
  from_option snd [] (List.find (fun '(c, _) => bool_decide (c = cmd)) l).
(** What a command is answered, by its name alone. *)
Definition expected_answer (adsp : list Z) (s : at_state) (cmd : list Z) : Z * list Z :=
  if bool_decide (cmd ∈ map snd at_commands /\ cmd ∉ refused) then (1, text_of_answer (text_answers adsp s) cmd)
  else (2, []).

Definition quiet (a : at_action) : Prop := match a with SendTo _ => False | _ => True end.
(** A step that sends nothing on the socket and leaves the transaction alone. *)
Definition aside {A} (m : MQ A) : Prop := emits quiet m /\ forall k, keeps (fun s => at_tid s = k) m.
(** [m] from [s] is the packet [p] and then a step aside. *)
Definition answers (m : MQ unit) (p : list Z) (s : at_state) : Prop :=
  exists rest : MQ unit, aside rest /\ m s = after [SendTo p] (rest s).

Lemma aside_bind {A B} (m : MQ A) (k : A -> MQ B) : aside m -> (forall a, aside (k a)) -> aside (bind m k).
Proof.
  intros [H1 H2] H. split; [apply emits_bind; [done|intros a; apply H]|].
  intros n. apply keeps_bind; [done|intros a; apply H].
Qed.
Lemma aside_ret {A} (a : A) : aside (ret a).
Proof. split; intros; [apply emits_ret|apply keeps_ret]. Qed.
Lemma aside_get : aside get.
Proof. split; intros; [apply emits_get|apply keeps_get]. Qed.
Lemma aside_lift {A} (c : cres A) : aside (lift c).
Proof. split; intros; [apply emits_lift|apply keeps_lift]. Qed.
Lemma aside_emit a : quiet a -> aside (emit a).
Proof. split; intros; [by apply emits_emit|apply keeps_emit]. Qed.
Lemma aside_when b m : aside m -> aside (when b m).
Proof. destruct b; [done|intros; apply aside_ret]. Qed.
Lemma aside_zoom {T E A} `{Part T at_state} (f : E -> at_action) (m : M T E A) :
  (forall e, quiet (f e)) -> (forall t s, at_tid (with_part t s) = at_tid s) -> aside (zoom f m).
Proof.
  intros Hf Ht. split.
  - intros s a s' t. unfold zoom. destruct (m (part s)) as [[[b p] u]| |]; [|done..]. cbn [cbind].
    intros [= _ _ <-]. apply Forall_map, list.Forall_forall. intros. apply Hf.
  - intros k. apply keeps_zoom_other. intros t s. by rewrite Ht.
Qed.
Lemma aside_device {A} (m : MV A) : aside (on_device m).
Proof. by apply aside_zoom. Qed.
Lemma aside_audio {A} (m : MA A) : aside (on_audio m).
Proof. by apply aside_zoom. Qed.
Lemma aside_board {A} (m : MB A) : aside (on_board m).
Proof.
  split; [intros s a s' t|intros k s a s' t Hk]; unfold on_board;
    destruct (m (part s)) as [[[b p] u]| |]; try done; cbn [cbind].
  - intros [= _ _ <-]. by apply Forall_map, list.Forall_forall.
  - intros [= _ <- _]. exact Hk.
Qed.
Lemma aside_level v : aside (set_log_level v).
Proof.
  apply aside_when. split; [apply emits_modify|]. intros k. by apply keeps_modify.
Qed.
#[local] Hint Resolve aside_bind aside_ret aside_get aside_lift aside_when aside_device aside_audio aside_board
  aside_level : oqti.
#[local] Hint Extern 2 (aside (emit _)) => by apply aside_emit : oqti.

Lemma answer_len tid result status text : zlen (answer_packet tid result status text) = zlen text + 18.
Proof. unfold answer_packet. zl. lia. Qed.
Lemma at_send_run r text tail s :
  rs_replysz r = zlen text -> rs_reply r = text ++ tail -> zlen text <= 2048 ->
  send_pkt r (pkt_size_of (zlen text)) s =
    Ret (tt, s, [SendTo (answer_packet (rs_tid r) (rs_result r) (rs_response r) text)]).
Proof.
  intros Hsz Hr Hn. pose proof (zlen_nonneg text). unfold send_pkt, pkt_size_of, SZ_RESPONSE, MAX_REPLY_SZ.
  replace (18 + 2048 - (2048 - zlen text)) with (zlen text + 18) by lia.
  rewrite (bind_lift _ (answer_packet (rs_tid r) (rs_result r) (rs_response r) text)); [reflexivity|].
  assert (response_bytes r (zlen text + 18) = answer_packet (rs_tid r) (rs_result r) (rs_response r) text ++ tail) as ->.
  { unfold response_bytes, answer_packet. rewrite Hsz, Hr, !u16_small by lia.
    replace (zlen text + 18 - 7 - 3) with (zlen text + 8) by lia.
    replace (zlen text + 18 - 7) with (zlen text + 11) by lia.
    rewrite <- !app_assoc. cbn [app le]. done. }
  rewrite <- (answer_len (rs_tid r) (rs_result r) (rs_response r) text). unfold zlen. rewrite Nat2Z.id.
  rewrite rdn_head by (rewrite length_app; lia). by rewrite take_app_length.
Qed.
Lemma plain_run r s :
  rs_replysz r = 0 -> send_plain r s = Ret (tt, s, [SendTo (answer_packet (rs_tid r) (rs_result r) (rs_response r) [])]).
Proof. intros H. by apply (at_send_run r [] (rs_reply r)). Qed.
Lemma put_run text r :
  zlen text < 2048 -> zlen (rs_reply r) = 2048 ->
  put_reply text r = Ret (with_reply (zlen text) (text ++ 0 :: drop (S (length text)) (rs_reply r)) r).
Proof.
  intros Hn Hr. unfold put_reply. rewrite wrn_ok by (zl; lia). cbn [cbind].
  change (take (Z.to_nat 0) (rs_reply r)) with (@nil Z). cbn [app]. rewrite <- app_assoc.
  by replace (Z.to_nat 0 + length (text ++ [0%Z]))%nat with (S (length text)) by (rewrite length_app; cbn; lia).
Qed.
Lemma text_run text r s :
  zlen text < 2048 -> zlen (rs_reply r) = 2048 ->
  send_text text r s =
    Ret (with_reply (zlen text) (text ++ 0 :: drop (S (length text)) (rs_reply r)) r, s,
         [SendTo (answer_packet (rs_tid r) (rs_result r) (rs_response r) text)]).
Proof.
  intros Hn Hr. pose proof (zlen_nonneg text). unfold send_text. rewrite (bind_lift _ _ _ _ (put_run _ _ Hn Hr)).
  erewrite bind_after by (eapply at_send_run; [cbn; apply u16_small; lia|reflexivity|lia]). reflexivity.
Qed.

(** ** What a command answers *)

Lemma answers_plain r s : rs_replysz r = 0 ->
  answers (send_plain r) (answer_packet (rs_tid r) (rs_result r) (rs_response r) []) s.
Proof. intros H. exists (ret tt). split; [apply aside_ret|]. by rewrite plain_run. Qed.
Lemma answers_told text r s : zlen text < 2048 -> zlen (rs_reply r) = 2048 ->
  answers (reply_text text r) (answer_packet (rs_tid r) (rs_result r) (rs_response r) text) s.
Proof.
  intros Hn Hr. exists (ret tt). split; [apply aside_ret|]. unfold reply_text.
  by rewrite (bind_after _ _ _ _ _ _ (text_run _ _ s Hn Hr)).
Qed.
Lemma answers_then m p s (k : MQ unit) : answers m p s -> aside k -> answers (m ;> k) p s.
Proof.
  intros (rest & Hrest & Hm) Hk. exists (rest ;> k). split; [by auto with oqti|].
  unfold bind. rewrite Hm. destruct (rest s) as [[[a s'] t]| |]; cbn; try done.
  destruct (k s') as [[[b s''] t']| |]; done.
Qed.
Lemma answers_get (k : at_state -> MQ unit) p s : answers (k s) p s -> answers (bind get k) p s.
Proof. intros (rest & Hr & H). exists rest. by rewrite bind_get. Qed.
Lemma answers_lift {A} (c : cres A) a (k : A -> MQ unit) p s :
  c = Ret a -> answers (k a) p s -> answers (bind (lift c) k) p s.
Proof. intros Hc (rest & Hr & H). exists rest. by rewrite (bind_lift _ _ _ _ Hc). Qed.

Lemma fmt_i_len x : zlen (fmt_i x) <= 21.
Proof.
  unfold fmt_i, fmt_u, zlen. csplit; cbn [length]; [pose proof (length_dec_go 20 (- x))|pose proof (length_dec_go 20 x)]; lia.
Qed.
Lemma cmti_len n : zlen (cmti n) < 2048.
Proof. unfold cmti, line, crlf. zl. cbn [zs]. zl. pose proof (fmt_i_len (i32 n)). lia. Qed.
Lemma firmware_len env adsp : firmware_text env = Ret adsp -> zlen adsp < 2048.
Proof.
  unfold firmware_text. intros (j & _ & (name & Hn & [= <-])%cbind_Ret_inv)%cbind_Ret_inv.
  assert (zlen name <= 60); [|unfold line, crlf; zl; lia].
  destruct (0 <=? j); [|injection Hn as <-; vm_compute; congruence].
  apply cbind_Ret_inv in Hn as (fw & [_ Hfw]%rdA_lookup & [= <-]).
  assert (Forall (fun fw => zlen (fwstring fw) <= 60) known_adsp_fw) as Hall
    by (apply (bool_decide_unpack _); vm_compute; exact I).
  exact (Forall_lookup_1 _ _ _ _ Hall Hfw).
Qed.

(** A request for the text [cmd]: a packet long enough, with the two header bytes
    the handler looks at. *)
Definition asks_for (buf : list Z) (sz : Z) (cmd : list Z) : Prop :=
  16 <= sz /\ rd buf 0 = Ret 4 /\ rd buf 3 = Ret 0x21 /\
  exists n, rd buf 18 = Ret n /\ strn_at buf 19 (Z.to_nat n) = Ret cmd.

Section Switch.
Variable env : at_env.
Variable adsp : list Z.
Hypothesis Hadsp : firmware_text env = Ret adsp.

(** The same answers by identifier. *)
Definition result_by_id (id : Z) : Z := if bool_decide (id ∈ [0; 117; 118; 119]) then 2 else 1.
Definition text_by_id (s : at_state) (id : Z) : list Z :=
  if id =? 126 then line RELEASE_VER else if id =? 129 then line RELEASE_VER
  else if id =? 128 then line (zs "community") else if id =? 138 then adsp
  else if id =? 143 then line (zs "+QCFG: " ++ [34] ++ zs "secbootstat" ++ [34] ++ zs ",0")
  else if id =? 134 then cmti (pending_texts s) else if id =? 135 then cmti (pending_texts s) else [].
Definition text_rows : list (Z * list Z) :=
  [(126, zs "+GETSWREV"); (129, zs "+QGMR"); (128, zs "+GETFWBRANCH"); (138, zs "+GETADSPVER");
   (143, zs "+QCFG=" ++ [34] ++ zs "secbootstat" ++ [34]); (134, zs "+SIMUSMS"); (135, zs "+SIMUNOTIF")].

Lemma first_answers o l d p s :
  answers (match o with Some m => m | None => first_of l d end) p s -> answers (first_of (o :: l) d) p s.
Proof. by destruct o. Qed.
Lemma switch_answers buf id r s :
  0 <= id < 147 -> id ∉ [123; 130; 131] -> rs_result r = 1 -> rs_replysz r = 0 -> zlen (rs_reply r) = 2048 ->
  answers (answer_command env buf id r) (answer_packet (rs_tid r) (result_by_id id) (rs_response r) (text_by_id s id)) s.
Proof.
  intros Hid Hodd H1 H0 Hr. rewrite !not_elem_of_cons in Hodd. destruct Hodd as (n1 & n2 & n3 & _).
  set (packet := answer_packet (rs_tid r) (result_by_id id) (rs_response r) (text_by_id s id)).
  assert (Hbare : result_by_id id = 1 -> text_by_id s id = [] -> answers (send_plain r) packet s)
    by (unfold packet; intros -> ->; rewrite <- H1; by apply answers_plain).
  assert (Hplain : forall k : MQ unit, aside k -> result_by_id id = 1 -> text_by_id s id = [] ->
    answers (send_plain r ;> k) packet s) by (intros; apply answers_then; auto).
  assert (forall text, zlen text < 2048 -> result_by_id id = 1 -> text_by_id s id = text ->
    answers (reply_text text r) packet s) as Htold.
  { unfold packet. intros text Hn -> ->. rewrite <- H1. by apply answers_told. }
  assert (forall v, result_by_id id = v -> text_by_id s id = [] ->
    answers (send_plain (with_result v r)) packet s)
    as Hresult by (unfold packet; intros v -> ->; by apply (answers_plain (with_result v r))).
  assert (Hcmti : forall f : at_state -> MQ unit, aside (f s) -> result_by_id id = 1 ->
    text_by_id s id = cmti (pending_texts s) ->
    answers (do* s := get in reply_text (cmti (pending_texts s)) r ;> f s) packet s).
  { intros f Hf ? ?. apply answers_get, answers_then; [|done]. apply Htold; [apply cmti_len|done..]. }
  unfold answer_command.
  apply first_answers; unfold power_commands;
    repeat (csplit; [subst id; first [apply Hplain; [by auto 8 with oqti|reflexivity..]|done]|]).
  apply first_answers; unfold usb_commands, apply_usb;
    repeat (csplit; [subst id; apply Hplain; [by auto 8 with oqti|reflexivity..]|]).
  apply first_answers; unfold sound_commands.
  destruct ((id =? 117) || (id =? 118) || (id =? 119)) eqn:Em.
  { apply Hresult; apply orb_true_iff in Em as [[Em|Em]%orb_true_iff|Em]; apply Z.eqb_eq in Em; by subst id. }
  repeat (csplit; [subst id; apply Hplain; [by auto 8 with oqti|reflexivity..]|]).
  apply first_answers; unfold info_commands.
  destruct ((id =? 109) || (id =? 116)) eqn:Ec.
  { apply orb_true_iff in Ec as [Ec|Ec]; apply Z.eqb_eq in Ec; subst id; by apply Hbare. }
  destruct ((id =? 126) || (id =? 129)) eqn:Er.
  { apply orb_true_iff in Er as [Er|Er]; apply Z.eqb_eq in Er; subst id; by apply Htold. }
  csplit; [subst id; by apply Htold|].
  csplit; [subst id; eapply answers_lift; [exact Hadsp|]; apply Htold; [by eapply firmware_len|done..]|].
  csplit; [subst id; by apply Htold|].
  do 2 (csplit; [done|]).
  do 2 (csplit; [subst id; apply Hplain; [by auto with oqti|reflexivity..]|]).
  apply first_answers; unfold text_commands.
  do 2 (csplit; [subst id; apply (Hcmti (fun _ => _)); [unfold announce_text, inject_message; by auto 8 with oqti|reflexivity..]|]).
  repeat (csplit; [subst id; apply Hplain; [unfold ask_cb; by auto 8 with oqti|reflexivity..]|]).
  b2p. cbn [first_of foldr].
  destruct (Z.eqb_spec id 0) as [->|Hz]; [by apply Hresult|].
  replace ((0 <? id) && negb false && (id <? 111)) with true by (symmetry; rewrite !andb_true_iff; split_and!; lia).
  apply Hresult.
  - unfold result_by_id. rewrite bool_decide_false; [done|]. rewrite !not_elem_of_cons. split_and!; [lia..|apply not_elem_of_nil].
  - unfold text_by_id. by ifdec.
Qed.
End Switch.

(** The rows of the table against the lists of names. *)
Lemma table_rows :
  Forall (fun '(id, cmd) => find_at_command at_commands cmd (-1) = id /\ 0 <= id < 147 /\
    (cmd ∈ odd_commands \/ id ∉ [123; 130; 131]) /\
    (if bool_decide (cmd ∉ refused) then 1 else 2) = result_by_id id /\
    ((id, cmd) ∈ text_rows \/ ((id ∉ map fst text_rows) /\ (cmd ∉ map snd text_rows)))) at_commands.
Proof. apply (bool_decide_unpack _). vm_compute. exact I. Qed.

Lemma find_none l cmd k : cmd ∉ map snd l -> find_at_command l cmd k = k.
Proof.
  induction l as [|[id c] l IH]; [done|]. cbn [map snd find_at_command]. intros [Hne Hn]%not_elem_of_cons.
  rewrite bool_decide_false by done. by apply IH.
Qed.
Lemma no_text adsp s cmd : cmd ∉ map snd text_rows -> text_of_answer (text_answers adsp s) cmd = [].
Proof.
  unfold text_rows. cbn [map snd]. rewrite !not_elem_of_cons. intros (H1 & H2 & H3 & H4 & H5 & H6 & H7 & _).
  unfold text_of_answer, text_answers. cbn [List.find]. by repeat (rewrite bool_decide_false by done).
Qed.
Lemma text_names adsp s id cmd :
  (id, cmd) ∈ text_rows -> text_of_answer (text_answers adsp s) cmd = text_by_id adsp s id.
Proof.
  unfold text_rows. rewrite !elem_of_cons.
  intros [[= -> ->]|[[= -> ->]|[[= -> ->]|[[= -> ->]|[[= -> ->]|[[= -> ->]|[[= -> ->]|H]]]]]]]; try reflexivity.
  by apply elem_of_nil in H.
Qed.
Lemma no_text_id adsp s id : id ∉ map fst text_rows -> text_by_id adsp s id = [].
Proof.
  unfold text_rows. cbn [map fst]. rewrite !not_elem_of_cons. intros (? & ? & ? & ? & ? & ? & ? & _).
  unfold text_by_id. by ifdec.
Qed.

(** The answer a command gets, whatever it then does. *)
Lemma command_answers env adsp buf r s cmd :
  firmware_text env = Ret adsp -> cmd ∉ odd_commands ->
  rs_result r = 1 -> rs_replysz r = 0 -> zlen (rs_reply r) = 2048 ->
  answers (answer_command env buf (find_at_command at_commands cmd (-1)) r)
    (answer_packet (rs_tid r) (expected_answer adsp s cmd).1 (rs_response r) (expected_answer adsp s cmd).2) s.
Proof.
  intros Hadsp Hodd H1 H0 Hr. unfold expected_answer.
  destruct (decide (cmd ∈ map snd at_commands)) as [Hin|Hout].
  - apply list_elem_of_fmap in Hin as ([id cmd'] & -> & Hrow). cbn [snd] in *.
    destruct (proj1 (list.Forall_forall _ _) table_rows _ Hrow) as (-> & Hid & Ho & Hres & Htext).
    destruct Ho as [|Ho]; [done|].
    pose proof (switch_answers env adsp Hadsp buf id r s Hid Ho H1 H0 Hr) as Ha.
    assert (text_by_id adsp s id = text_of_answer (text_answers adsp s) cmd') as Ht.
    { destruct Htext as [Hrow'|[Hi Hc]]; [by rewrite (text_names adsp s id)|].
      by rewrite no_text_id, no_text. }
    rewrite <- Hres, Ht in Ha. destruct (decide (cmd' ∉ refused)) as [Hr'|Hr'].
    + rewrite bool_decide_true in Ha by done. rewrite bool_decide_true; [done|]. split; [|done].
      apply list_elem_of_fmap. by exists (id, cmd').
    + rewrite bool_decide_false in Ha by done. rewrite bool_decide_false by tauto. cbn [fst snd].
      assert (text_of_answer (text_answers adsp s) cmd' = []) as Hn; [|by rewrite Hn in Ha].
      apply no_text. assert (Forall (fun c => c ∉ map snd text_rows) refused) as Hall
        by (apply (bool_decide_unpack _); vm_compute; exact I).
      apply dec_stable in Hr'. exact (proj1 (list.Forall_forall _ _) Hall _ Hr').
  - rewrite find_none, bool_decide_false by tauto.
    apply (answers_plain (with_result 2 r)). exact H0.
Qed.

(** C22: a command of the table other than +REBOOTDO, which acts first, and +DMESG
    and +OQLOG, which send many packets, or a text that is no command, is answered
    at once with the packet its name stands for, in the transaction of the socket;
    what it then does sends nothing more, and the transaction is counted when that
    is done. *)
Theorem command_answered env adsp buf sz cmd s
  (Hadsp : firmware_text env = Ret adsp) (Hreq : asks_for buf sz cmd) (Hodd : cmd ∉ odd_commands)
  (Ht : 0 <= at_tid s < 256) :
  exists rest : MQ unit, aside rest /\
    handle_atfwd_response env buf sz s =
      after [SendTo (answer_packet (at_tid s) (expected_answer adsp s cmd).1 3 (expected_answer adsp s cmd).2)]
        ((rest ;> next_transaction ;> ret 0) s).
Proof.
  destruct Hreq as (Hsz & H0 & H3 & n & Hn & Hcmd).
  destruct (command_answers env adsp buf (new_response (at_tid s)) s cmd Hadsp Hodd) as (rest & Hrest & Hrun); try done.
  exists rest. split; [done|]. unfold handle_atfwd_response. ifdec.
  rewrite (bind_lift _ _ _ _ H0). cbn [Z.eqb Pos.eqb negb]. rewrite (bind_lift _ _ _ _ H3). cbn [Z.eqb Pos.eqb negb].
  rewrite (bind_lift _ _ _ _ Hn), (bind_lift _ _ _ _ Hcmd), bind_get. unfold bind at 1. rewrite Hrun. cbn [rs_tid new_response rs_response].
  rewrite u16_small by lia. set (p := SendTo _). clearbody p. unfold bind at 2, after.
  destruct (rest s) as [[[a s'] t]| |]; cbn [cbind]; [|done..].
  destruct ((next_transaction ;> ret 0) s') as [[[b s''] t']| |]; cbn [cbind]; done.
Qed.

(** * Logs *)

Lemma until_nul_app a b : Forall (fun c => c <> 0) a -> until_nul (a ++ b) = a ++ until_nul b.
Proof.
  induction 1 as [|c a Hc _ IH]; [done|]. cbn [until_nul app]. rewrite (proj2 (Z.eqb_neq c 0) Hc). by f_equal.
Qed.
Lemma blanked_text chunk : Forall (fun c => c <> 0) chunk -> blanked chunk = chunk.
Proof.
  intros H. unfold blanked. rewrite <- (take_drop (length chunk - 1) chunk) at 5. f_equal.
  rewrite <- (list_fmap_id (take _ chunk)) at 2. apply list_fmap_ext. intros i c Hc.
  assert (c <> 0) by exact (Forall_lookup_1 _ _ _ _ (Forall_take _ _ _ H) Hc).
  by rewrite (proj2 (Z.eqb_neq c 0)).
Qed.

(** The packets of a file in pieces. *)
Definition piece_actions (tid result : Z) (pieces : list (list Z)) : list at_action :=
  concat (map (fun p => [SendTo (answer_packet tid result 2 p); Nap 500]) pieces).
Definition a_piece (p : list Z) : Prop := 0 < zlen p <= 2046.

(** The reply after a piece without NULs was copied into it. *)
Lemma piece_copied chunk filebuff :
  zlen filebuff = 2048 -> Forall (fun c => c <> 0) chunk -> zlen chunk <= 2046 ->
  exists tail, strncpy (replicate 2048 0) (until_nul (chunk ++ drop (length chunk) filebuff)) 2048 =
    Ret (chunk ++ tail) /\ zlen (chunk ++ tail) = 2048.
Proof.
  intros Hf Hc Hn. rewrite until_nul_app by done. set (x := until_nul _). unfold strncpy.
  set (src := take 2048 (chunk ++ x) ++ _).
  assert (Hl : length src = 2048%nat).
  { unfold src. rewrite length_app, length_take, length_replicate. lia. }
  rewrite wrn_ok by (unfold zlen; rewrite ?Hl, ?length_replicate; lia).
  change (take (Z.to_nat 0) (replicate 2048 0)) with (@nil Z). cbn [app]. rewrite Hl.
  rewrite drop_ge, app_nil_r by (rewrite length_replicate; lia).
  exists (drop (length chunk) src). assert (chunk = take (length chunk) src) as Hch.
  { unfold src. unfold zlen in Hn. rewrite take_app_le by (rewrite length_take, length_app; lia).
    rewrite take_take, Nat.min_l by lia. by rewrite take_app_length. }
  assert (chunk ++ drop (length chunk) src = src) as -> by (rewrite Hch at 1; apply take_drop).
  split; [done|]. unfold zlen. by rewrite Hl.
Qed.
Lemma chunks_run fuel blank filebuff file r s :
  zlen filebuff = 2048 -> Forall (fun c => c <> 0) file -> (length file < fuel)%nat -> zlen (rs_reply r) = 2048 ->
  exists pieces r', send_chunks fuel blank filebuff file r s =
      Ret (r', s, piece_actions (rs_tid r) (rs_result r) pieces) /\
    concat pieces = file /\ Forall a_piece pieces /\
    rs_tid r' = rs_tid r /\ rs_result r' = rs_result r /\ zlen (rs_reply r') = 2048.
Proof.
  revert filebuff file r. induction fuel as [|fuel IH]; intros filebuff file r Hf Hz Hlt Hr; [lia|].
  cbn [send_chunks]. unfold MAX_REPLY_SZ. change (Z.to_nat (2048 - 2)) with 2046%nat. change (Z.to_nat 2048) with 2048%nat.
  set (chunk := take 2046 file).
  assert (Hcl : zlen chunk <= 2046) by (unfold chunk, zlen; rewrite length_take; lia).
  destruct (zlen chunk <=? 0) eqn:E.
  { assert (file = []) as ->.
    { destruct file as [|c file]; [done|]. apply Z.leb_le in E. unfold chunk in E. cbn [take] in E.
      rewrite zlen_cons in E. pose proof (zlen_nonneg (take 2045 file)). lia. }
    eexists [], _. split; [reflexivity|]. by repeat split. }
  apply Z.leb_gt in E.
  assert (Hcz : Forall (fun c => c <> 0) chunk) by (by apply Forall_take).
  replace (if blank then blanked chunk else chunk) with chunk by (destruct blank; [by rewrite blanked_text|done]).
  rewrite (bind_lift _ (chunk ++ drop (length chunk) filebuff)).
  2:{ rewrite wrn_ok by lia. done. }
  destruct (piece_copied chunk filebuff Hf Hcz Hcl) as (tail & Hcopy & Hlen). rewrite (bind_lift _ _ _ _ Hcopy).
  set (r1 := with_reply _ _ _).
  erewrite bind_after by (apply (at_send_run r1 chunk tail); [cbn; apply u16_small; lia|reflexivity|lia]).
  rewrite bind_emit.
  destruct (IH (chunk ++ drop (length chunk) filebuff) (drop 2046 file) r1) as (pieces & r' & -> & Hcat & Hp & Ht & Hres & Hr').
  - zl. unfold zlen in *. rewrite length_drop. lia.
  - by apply Forall_drop.
  - rewrite length_drop. assert (0 < length file)%nat; [|lia]. unfold chunk, zlen in E. rewrite length_take in E. lia.
  - exact Hlen.
  - exists (chunk :: pieces), r'. split; [reflexivity|]. split; [cbn [concat]; rewrite Hcat; apply take_drop|].
    split; [constructor; [split; lia|done]|]. by split_and!.
Qed.

Lemma file_run env blank size path file s :
  q_file env path = Some file -> Forall (fun c => c <> 0) file -> zlen (q_filebuff env) = 2048 ->
  0 <= at_tid s < 256 ->
  exists pieces, concat pieces = drop (Z.to_nat (size file - 8192)) file /\ Forall a_piece pieces /\
    send_file env blank size path (new_response (at_tid s)) s = Ret (tt, s,
      SendTo (answer_packet (at_tid s) 1 0 crlf) :: piece_actions (at_tid s) 1 pieces ++
      [SendTo (answer_packet (at_tid s) 1 1 (line (zs "EOF")))]).
Proof.
  intros Hfile Hz Hbuff Ht. unfold send_file. rewrite Hfile. change (MAX_REPLY_SZ * MAX_RESPONSE_NUM) with 8192.
  assert (Z.to_nat (if 8192 <? size file then size file - 8192 else 0) = Z.to_nat (size file - 8192)) as ->
    by (csplit; lia).
  rewrite (bind_after _ _ _ _ _ _ (text_run crlf (with_status 0 (new_response (at_tid s))) s ltac:(done) ltac:(done))).
  set (r := with_reply _ _ _). assert (Hr : zlen (rs_reply r) = 2048) by done.
  destruct (chunks_run (S (length (drop (Z.to_nat (size file - 8192)) file))) blank (q_filebuff env)
    (drop (Z.to_nat (size file - 8192)) file) r s) as (pieces & r' & Hrun & Hcat & Hp & Htid & Hres & Hr');
    [done|by apply Forall_drop|lia|done|].
  exists pieces. split; [done|]. split; [done|]. rewrite (bind_after _ _ _ _ _ _ Hrun).
  rewrite (bind_after _ _ _ _ _ _ (text_run (line (zs "EOF")) (with_status 1 r') s ltac:(done) Hr')).
  cbn [rs_tid rs_result rs_response with_status with_reply] in *. rewrite Htid, Hres. unfold r, ret.
  cbn [rs_tid rs_result with_status with_reply new_response after cbind app]. by rewrite u16_small by lia.
Qed.
Lemma request_run env buf sz cmd s m :
  asks_for buf sz cmd ->
  answer_command env buf (find_at_command at_commands cmd (-1)) (new_response (at_tid s)) s = Ret (tt, s, m) ->
  handle_atfwd_response env buf sz s = Ret (0, upd_tid (u8 (at_tid s + 1)) s, m).
Proof.
  intros (Hsz & H0 & H3 & n & Hn & Hcmd) Hrun. unfold handle_atfwd_response. ifdec.
  rewrite (bind_lift _ _ _ _ H0). cbn [Z.eqb Pos.eqb negb]. rewrite (bind_lift _ _ _ _ H3). cbn [Z.eqb Pos.eqb negb].
  rewrite (bind_lift _ _ _ _ Hn), (bind_lift _ _ _ _ Hcmd), bind_get, (bind_after _ _ _ _ _ _ Hrun).
  unfold next_transaction. rewrite bind_modify. unfold ret, after. cbn [cbind]. by rewrite app_nil_r.
Qed.

(** A log without NULs is sent whole, or its last 8192 bytes when it is the
    daemon's own: an empty line, pieces of at most 2046 bytes whose texts in order
    are what is to be shown, and the end mark, every packet with the lengths of
    its text and in the transaction of the request, which is counted once. *)
Theorem log_sent env buf sz cmd path file s
  (Hcmd : (cmd = zs "+DMESG" /\ path = zs "/var/log/messages") \/
          (cmd = zs "+OQLOG" /\ path = zs (get_openqti_logfile (settings (dv_cfg (at_device s))))))
  (Hreq : asks_for buf sz cmd) (Hfile : q_file env path = Some file)
  (Hz : Forall (fun c => c <> 0) file) (Hbuff : zlen (q_filebuff env) = 2048) (Ht : 0 <= at_tid s < 256) :
  exists pieces,
    concat pieces = (if bool_decide (cmd = zs "+OQLOG") then drop (Z.to_nat (zlen file - 8192)) file else file) /\
    Forall a_piece pieces /\
    handle_atfwd_response env buf sz s = Ret (0, upd_tid (u8 (at_tid s + 1)) s,
      SendTo (answer_packet (at_tid s) 1 0 crlf) :: piece_actions (at_tid s) 1 pieces ++
      [SendTo (answer_packet (at_tid s) 1 1 (line (zs "EOF")))]).
Proof.
  destruct Hcmd as [[-> ->]|[-> ->]].
  - destruct (file_run env true (fun _ => 0) _ file s Hfile Hz Hbuff Ht) as (pieces & Hcat & Hp & Hrun).
    exists pieces. split; [exact Hcat|]. split; [done|]. eapply request_run; [done|].
    assert (find_at_command at_commands (zs "+DMESG") (-1) = 130) as -> by (vm_compute; reflexivity). exact Hrun.
  - destruct (file_run env false zlen _ file s Hfile Hz Hbuff Ht) as (pieces & Hcat & Hp & Hrun).
    exists pieces. split; [exact Hcat|]. split; [done|]. eapply request_run; [done|].
    assert (find_at_command at_commands (zs "+OQLOG") (-1) = 131) as -> by (vm_compute; reflexivity).
    change (answer_command env buf 131 (new_response (at_tid s)) s) with
      ((do* s' := get in send_file env false zlen (zs (get_openqti_logfile (settings (dv_cfg (at_device s'))))) (new_response (at_tid s))) s).
    by rewrite bind_get.
Qed.
(** The modem restarts before it answers. *)
Lemma reboot_before_answer env buf r s :
  rs_replysz r = 0 -> answer_command env buf (find_at_command at_commands (zs "+REBOOTDO") (-1)) r s =
    Ret (tt, s, [Reboot RebootNow; SendTo (answer_packet (rs_tid r) (rs_result r) (rs_response r) [])]).
Proof.
  intros H. assert (find_at_command at_commands (zs "+REBOOTDO") (-1) = 123) as -> by (vm_compute; reflexivity).
  change (answer_command env buf 123 r s) with ((emit (Reboot RebootNow) ;> send_plain r) s).
  by rewrite bind_emit, plain_run.
Qed.

(** * What the thread keeps *)

Definition at_ok (s : at_state) : Prop := device_ok (at_device s) /\ audio_ok (at_audio s) /\ 0 <= at_tid s < 256.

Lemma keeps_on_device {A} (m : MV A) : keeps device_ok m -> keeps at_ok (on_device m).
Proof.
  intros Hm s a s' t (Hd & Ha & Ht). unfold on_device, zoom. destruct (m (part s)) as [[[b d] u]| |] eqn:E; [|done..].
  cbn [cbind]. intros [= -> <- _]. split; [by eapply Hm|done].
Qed.
Lemma keeps_on_audio {A} (m : MA A) : keeps audio_ok m -> keeps at_ok (on_audio m).
Proof.
  intros Hm s a s' t (Hd & Ha & Ht). unfold on_audio, zoom. destruct (m (part s)) as [[[b d] u]| |] eqn:E; [|done..].
  cbn [cbind]. intros [= -> <- _]. split; [done|]. split; [by eapply Hm|done].
Qed.
(** The board names no device but the two there are. *)
Definition known_device (a : board_action) : Prop :=
  match a with SetOutputDevice mode => mode = 0 \/ mode = 1 | _ => True end.
Lemma settled_ok t a : Forall known_device t -> audio_ok a -> audio_ok (settled t a).
Proof.
  intros Ht. revert a. induction Ht as [|e t He _ IH]; intros a Ha; [done|]. cbn [settled].
  destruct e; try by apply IH. apply IH. destruct Ha as [(?&?&?) Hb]. split; [|exact Hb]. split; [|by split]. cbn.
  destruct He as [-> | ->]; [by left|by right].
Qed.
Lemma keeps_on_board {A} (m : MB A) : emits known_device m -> keeps at_ok (on_board m).
Proof.
  intros Hm s a s' t (Hd & Ha & Ht). unfold on_board. destruct (m (part s)) as [[[b d] u]| |] eqn:E; [|done..].
  cbn [cbind]. intros [= -> <- _]. split; [done|]. split; [|done]. apply settled_ok; [by eapply Hm|done].
Qed.

Lemma emits_board_write path val : emits known_device (write_to path val).
Proof. by apply emits_emit. Qed.
#[local] Hint Resolve emits_board_write keeps_on_device keeps_on_audio keeps_on_board : oqti.
#[local] Hint Extern 1 (emits known_device (emit _)) => by apply emits_emit : oqti.
(** A bind whose first step gives results with [Q]. *)
Lemma emits_bind_of {S E A B} (P : E -> Prop) (Q : A -> Prop) (m : M S E A) (k : A -> M S E B) :
  emits P m -> (forall s a s' t, m s = Ret (a, s', t) -> Q a) -> (forall a, Q a -> emits P (k a)) -> emits P (bind m k).
Proof.
  intros Hm Hq Hk s b s'' u (a & s' & t & t' & H1 & H2 & ->)%bind_inv.
  apply Forall_app. split; [by eapply Hm|]. eapply Hk; [|done]. by eapply Hq.
Qed.
Lemma audio_mode_known stack s a s' t : get_audio_mode stack s = Ret (a, s', t) -> a = 0 \/ a = 1.
Proof.
  unfold get_audio_mode. rewrite bind_get. destruct (misc s) as [part0|]; [|intros [= <- _ _]; by left].
  intros (b & s1 & t1 & t2 & _ & (u & s2 & t3 & t4 & _ & H & _)%bind_inv & _)%bind_inv.
  injection H as <- _ _. destruct u; [by right|by left].
Qed.
Lemma emits_mode stack : emits known_device (get_audio_mode stack).
Proof. unfold get_audio_mode. emits_auto. Qed.
Lemma emits_adb stack : emits known_device (is_adb_enabled stack).
Proof. unfold is_adb_enabled. emits_auto. Qed.
#[local] Hint Resolve emits_mode emits_adb : oqti.
Lemma emits_restart stack : emits known_device (restart_usb_stack stack).
Proof.
  unfold restart_usb_stack, set_adb_runtime.
  do 6 (apply emits_bind; [solve [auto with oqti]|intros ?]).
  apply (emits_bind_of _ (fun m => m = 0 \/ m = 1)); [auto with oqti|apply audio_mode_known|].
  intros m Hm. apply emits_bind; [by apply emits_emit|intros ?]. emits_auto.
Qed.
Lemma emits_store off magic : emits known_device (store_flag off magic).
Proof. unfold store_flag. emits_auto. Qed.
Lemma emits_toggles n i : emits known_device (toggles n i).
Proof. revert i. induction n as [|n IH]; intros i; cbn [toggles]; [auto with oqti|]. emits_auto. Qed.
Lemma emits_wipe n i : emits known_device (wipe_loop n i).
Proof. revert i. induction n as [|n IH]; intros i; cbn [wipe_loop]; [auto with oqti|]. emits_auto. Qed.
#[local] Hint Resolve emits_restart emits_store emits_toggles emits_wipe : oqti.

Lemma keeps_safely {S E A} (I : S -> Prop) (m : M S E A) Q : safely I m Q -> keeps I m.
Proof. intros Hs s a s' t HI Hrun. destruct (Hs s HI) as (a1 & s1 & t1 & H & Hok & _). congruence. Qed.
Lemma keeps_mixer env name v : keeps audio_ok (set_mixer_ctl env name v).
Proof.
  unfold set_mixer_ctl. apply keeps_get_bind. intros a Ha. destruct (mixer a); [|apply keeps_lift].
  apply keeps_modify. intros b Hb. exact Hb.
Qed.
#[local] Hint Resolve keeps_mixer : oqti.
Lemma keeps_codec env : keeps audio_ok (set_external_codec_defaults env).
Proof.
  unfold set_external_codec_defaults. apply keeps_bind; [|intros _; keeps_auto].
  eapply keeps_safely, sampling_safe.
Qed.
Lemma at_keeps_send r sz : keeps at_ok (send_pkt r sz).
Proof. unfold send_pkt. keeps_auto. Qed.
#[local] Hint Resolve at_keeps_send : oqti.
Lemma keeps_plain r : keeps at_ok (send_plain r).
Proof. unfold send_plain. auto with oqti. Qed.
Lemma keeps_text text r : keeps at_ok (send_text text r).
Proof. unfold send_text. keeps_auto. Qed.
#[local] Hint Resolve keeps_plain keeps_text : oqti.
Lemma keeps_told_reply text r : keeps at_ok (reply_text text r).
Proof. unfold reply_text. keeps_auto. Qed.
Lemma keeps_chunks fuel blank fb file r : keeps at_ok (send_chunks fuel blank fb file r).
Proof.
  revert fb file r. induction fuel as [|fuel IH]; intros fb file r; cbn [send_chunks]; [auto with oqti|]. keeps_auto.
Qed.
#[local] Hint Resolve keeps_told_reply keeps_chunks : oqti.
Lemma keeps_file env blank size path r : keeps at_ok (send_file env blank size path r).
Proof. unfold send_file. keeps_auto. Qed.
Lemma keeps_announce : keeps at_ok announce_text.
Proof.
  unfold announce_text. apply keeps_on_device, keeps_in_phone, keeps_store_op.
  apply keeps_bind; [apply keeps_set_source|intros _; apply keeps_set_notif].
Qed.
Lemma at_keeps_inject : keeps at_ok inject_message.
Proof. apply keeps_on_device, keeps_in_phone, keeps_add_message. Qed.
Lemma keeps_ask f : keeps at_ok (ask_cb f).
Proof.
  apply keeps_on_device, keeps_in_proxy, keeps_bind; [apply keeps_get|intros p; apply keeps_debug].
Qed.
Lemma keeps_level v : keeps at_ok (set_log_level v).
Proof. apply keeps_when, keeps_modify. done. Qed.
Lemma keeps_mute env v : keeps at_ok (on_audio (set_audio_mute env v)).
Proof. eapply keeps_on_audio, keeps_safely, mute_safe. Qed.
Lemma keeps_codec_defaults env : keeps at_ok (on_audio (set_external_codec_defaults env)).
Proof. apply keeps_on_audio, keeps_codec. Qed.
Lemma at_keeps_setting {A} (m : MC A) : keeps at_ok (on_device (in_cfg m)).
Proof. apply keeps_on_device, keeps_in_cfg. Qed.
#[local] Hint Resolve keeps_file keeps_announce at_keeps_inject keeps_ask keeps_level keeps_mute keeps_codec_defaults
  @at_keeps_setting : oqti.
Definition branch_keeps (o : option (MQ unit)) : Prop := match o with Some m => keeps at_ok m | None => True end.
Lemma keeps_first l d : Forall branch_keeps l -> keeps at_ok d -> keeps at_ok (first_of l d).
Proof. intros Hl Hd. induction Hl as [|[m|] l Hm _ IH]; [exact Hd|exact Hm|exact IH]. Qed.
Lemma branch_cond (b : bool) (o o' : option (MQ unit)) :
  branch_keeps o -> branch_keeps o' -> branch_keeps (if b then o else o').
Proof. by destruct b. Qed.
#[local] Hint Extern 2 (keeps at_ok (on_board _)) =>
  apply keeps_on_board; unfold reset_usb_port, set_suspend_inhibit, store_adb_setting, store_audio_output_mode,
    pulse_ring_in, wipe_message_storage; emits_auto : oqti.
Lemma keeps_answer env buf id r : keeps at_ok (answer_command env buf id r).
Proof.
  unfold answer_command. apply keeps_first; [|auto with oqti].
  unfold power_commands, usb_commands, sound_commands, info_commands, text_commands, apply_usb.
  repeat (apply Forall_cons_2; [repeat (apply branch_cond; [cbn [branch_keeps]; by keeps_auto|]); exact I|]).
  apply Forall_nil_2.
Qed.
Lemma keeps_next : keeps at_ok next_transaction.
Proof. apply keeps_modify. intros s (Hd & Ha & _). split; [done|]. split; [done|]. apply u8_range. Qed.
#[local] Hint Resolve keeps_answer keeps_next : oqti.
Lemma keeps_request env buf sz : keeps at_ok (handle_atfwd_response env buf sz).
Proof. unfold handle_atfwd_response. keeps_auto. Qed.
Lemma keeps_urc : keeps at_ok at_send_cmti_urc.
Proof. unfold at_send_cmti_urc. keeps_auto. Qed.
Lemma keeps_missing : keeps at_ok at_send_missing_cellid_data.
Proof. unfold at_send_missing_cellid_data. keeps_auto. Qed.
Lemma keeps_in_service : keeps at_ok (on_device (in_network nas_is_network_in_service)).
Proof. apply keeps_on_device, keeps_in_network. unfold nas_is_network_in_service. keeps_auto. Qed.
Lemma keeps_data_missing : keeps at_ok (on_device (in_network is_cellid_data_missing)).
Proof. apply keeps_on_device, keeps_in_network. unfold is_cellid_data_missing, nas_is_network_in_service. keeps_auto. Qed.
Lemma keeps_get_database env : keeps at_ok (on_device (in_network (get_opencellid_data env))).
Proof. apply keeps_on_device, keeps_in_network, keeps_database. Qed.
Lemma keeps_notified v : keeps at_ok (modify (upd_notification v) : MQ unit).
Proof. by apply keeps_modify. Qed.
#[local] Hint Resolve keeps_request keeps_urc keeps_missing keeps_in_service keeps_data_missing keeps_get_database
  keeps_notified : oqti.
Lemma keeps_at_turn env arrived : keeps at_ok (atfwd_turn env arrived).
Proof. unfold atfwd_turn. keeps_auto. Qed.
Lemma keeps_init_atfwd opens : keeps at_ok (init_atfwd opens).
Proof.
  unfold init_atfwd. apply keeps_bind; [apply keeps_modify; intros ? (? & ? & _); split; [done|split; [done|cbn; lia]]|]. intros _.
  apply keeps_if; [|apply keeps_ret]. apply keeps_bind; [|intros; apply keeps_ret].
  generalize at_commands as l. induction l as [|[id cmd] l IH]; cbn [register_all]; keeps_auto.
Qed.

(** * Concrete runs *)

Definition sample_at_env : at_env :=
  {| q_cfg := sample_cfg_env; q_nas := all_open; q_audio := good_card; q_stack := replicate 32 0;
     q_filebuff := replicate 2048 7;
     q_file := fun path => if bool_decide (path = zs "/var/log/messages") then Some (replicate 3000 65) else None;
     q_md5 := replicate 16 7; q_port := true |}.
Definition sample_at : at_state :=
  {| at_device := started_device; at_board := sample_board; at_audio := idle_audio 0; at_tid := 255;
     at_log_level := 1; is_sms_notification_pending := false |}.
Definition sample_request (cmd : list Z) : list Z :=
  [4; 0; 0; 0x21] ++ replicate 14 0 ++ [zlen cmd] ++ cmd ++ replicate 64 0.
Lemma sample_at_ok : at_ok sample_at.
Proof.
  split; [apply started_ok; split_and!; reflexivity|]. split; [apply idle_audio_ok; by left|].
  split; [discriminate|reflexivity].
Qed.
Lemma command_answered_witness :
  exists rest : MQ unit, aside rest /\
    handle_atfwd_response sample_at_env (sample_request (zs "+GETFWBRANCH")) 80 sample_at =
      after [SendTo (answer_packet 255 1 3 (line (zs "community")))] ((rest ;> next_transaction ;> ret 0) sample_at).
Proof.
  apply (command_answered sample_at_env (line (zs "Unknown ADSP Firmware")) _ 80 (zs "+GETFWBRANCH") sample_at).
  - vm_compute. reflexivity.
  - split; [discriminate|]. split; [reflexivity|]. split; [reflexivity|]. exists 12. split; vm_compute; reflexivity.
  - apply (bool_decide_unpack _). vm_compute. exact I.
  - split; [discriminate|reflexivity].
Defined.
Lemma log_sent_witness :
  exists pieces, concat pieces = replicate 3000 65 /\ Forall a_piece pieces /\
    handle_atfwd_response sample_at_env (sample_request (zs "+DMESG")) 80 sample_at = Ret (0, upd_tid 0 sample_at,
      SendTo (answer_packet 255 1 0 crlf) :: piece_actions 255 1 pieces ++
      [SendTo (answer_packet 255 1 1 (line (zs "EOF")))]).
Proof.
  apply (log_sent sample_at_env _ 80 (zs "+DMESG") (zs "/var/log/messages") (replicate 3000 65) sample_at).
  - left. split; reflexivity.
  - split; [discriminate|]. split; [reflexivity|]. split; [reflexivity|]. exists 6. split; vm_compute; reflexivity.
  - vm_compute. reflexivity.
  - by apply Forall_replicate.
  - reflexivity.
  - split; [discriminate|reflexivity].
Defined.
(** The first command of the table has the identifier 0, which the fallback takes
    for unknown: the baseband is told it failed. *)
Example first_command_refused :
  expected_answer [] sample_at (zs "+QNAND") = (2, []) /\ expected_answer [] sample_at (zs "+QPRTPARA") = (1, []).
Proof. split; vm_compute; reflexivity. Qed.
