(* ===== verification/System.v ===== *)
(** All threads of the daemon on one state: what a thread asks of the board and of
    the sound is done there, the calls between the components that their files
    leave as actions are carried out, and any sequence of turns of the threads is
    a run. *)

From stdpp Require Import base list numbers option strings gmap.
From Stdlib Require Import ZArith Lia.
From S2P Require Import Prelude Libc Eff Qmi QmiClient Sms SmsFilter Config Helpers Timesync Call Audio Replies Thermal Cells NasClient Wds Scheduler Proxy CommandTable Device Reminders Commands Daemon Invariant Internal Atfwd.

(** * State *)

(** The threads of the AT commands, of the internal client, of the temperatures
    and of the time; the phone of the watch is the device's, and the board of the
    clock is the one the AT commands use. *)
Record system := {
  sy_at : at_state;
  sy_client : internal_qmi_client;
  sy_watch : watch;
  sy_time : time_sync_data
}.
Definition upd_at (a : at_state) (s : system) : system :=
  {| sy_at := a; sy_client := sy_client s; sy_watch := sy_watch s; sy_time := sy_time s |}.
Definition dv (s : system) : device := at_device (sy_at s).

(** What the carried calls meet: the surroundings of the AT thread, and what the
    second AT port answers to a chat command. *)
Record carry_env := { y_at : at_env; y_reply : at_reply }.

(** * Calls between the components *)

(** What a component has the phone do. *)
Definition phone_of (a : dev_action) : option phone_action :=
  match a with
  | Sched (Phone p) | Prx (Ph p) | Nas (Cells.Told p) | Wds (Said p) => Some p
  | _ => None
  end.
(** The settings the sound reads. *)
Definition audio_env_of (env : audio_env) (d : device) : audio_env :=
  let c := settings (dv_cfg d) in
  {| a_codec := a_codec env; a_mixer := a_mixer env; a_control := a_control env; a_open := a_open env;
     a_params := a_params env; a_prepare := a_prepare env; a_start := a_start env;
     a_recording := automatic_call_recording c; a_custom_tone := on_flag (custom_alert_tone c) |}.

Section Carry.
Variable env : carry_env.

Definition carry_phone (p : phone_action) : MQ unit :=
  match p with
  | Out PulseRingIn => do* _ := on_board pulse_ring_in in ret tt
  | Out (HostNotified en) => modify (upd_notification en)
  | CallPacket pkt sz number len =>
      do* s := get in on_audio (handle_call_pkt (audio_env_of (q_audio (y_at env)) (at_device s)) pkt sz number len)
  | _ => ret tt
  end.
Definition carry_action (a : dev_action) : MQ unit :=
  match a with
  | SuspendInhibit mode => on_board (set_suspend_inhibit mode)
  | StoreAdb en => on_board (store_adb_setting en)
  | RestartUsb => on_board (restart_usb_stack (q_stack (y_at env)))
  | RecordCurrentCall => do* _ := on_audio record_current_call in ret tt
  | RecordNextCall en => on_audio (record_next_call en)
  | AtCommand cmd => do* _ := on_board (send_at_command (y_reply env) cmd (replicate 128 0) 128) in ret tt
  | _ => match phone_of a with Some p => carry_phone p | None => ret tt end
  end.
Fixpoint carry_all (l : list dev_action) : MQ unit :=
  match l with [] => ret tt | a :: l => carry_action a ;> carry_all l end.

(** A thread's turn on the device, and the calls it made. *)
Definition with_carried (m : MV unit) : MQ unit := fun s =>
  let* '(_, d, t) := m (at_device s) in
  let* '(_, s', u) := carry_all t (with_part d s) in
  Ret (tt, s', map AtDevice t ++ u).

(** * Threads *)

(** The threads on the device, as in Invariant.v. *)
Inductive thread_op :=
| Packets (e : chat_env) (adspfd usbfd : Z) (arrived : arrival)
| TasksRead (e : sched_env)
| Tasks (e : sched_env) (tick : Z)
| Heard (e : chat_env) (command : list Z)
| DelayedCall (command : list Z)
| DelayedRing
| Phrase (name phrase : list Z)
| Silence
| NetworkStart (e : nas_env)
| SessionStart (e : chat_env).
Definition thread_turn (o : thread_op) : MV unit :=
  match o with
  | Packets e adspfd usbfd arrived => device_turn e adspfd usbfd arrived
  | TasksRead e => do* _ := in_sched (read_tasks_from_storage e) in ret tt
  | Tasks e tick => do* _ := in_sched (scheduler_turn e tick) in ret tt
  | Heard e command => do* _ := parse_command e command in ret tt
  | DelayedCall command => do* _ := schedule_call_answer command in ret tt
  | DelayedRing => schedule_call_ring
  | Phrase name phrase => do* _ := in_phone (next_phrase name phrase) in ret tt
  | Silence => in_phone end_of_speech
  | NetworkStart e => in_network (register_to_nas_service e)
  | SessionStart e => in_session e init_internal_networking
  end.

Inductive system_op :=
| Thread_ (o : thread_op)
| Client (e : chat_env) (ne : nas_env) (level : Z) (port_ret : list Z -> Z) (input : option (list Z * Z))
| AtStart (opens : bool)
| At (arrived : option (list Z))
| Heat (stack : list Z) (files : list (option (list Z)))
| TimeSync (e : clock_env) (heap : list Z)
| PowerKey (e : cfg_env) (prev : Z) (events : list key_input).

Definition on_at (m : MQ unit) (s : system) : cres system :=
  let* '(_, a, _) := m (sy_at s) in Ret (upd_at a s).
(** The internal client's turn; the calls its handlers made are carried out. *)
Definition client_step (e : chat_env) (ne : nas_env) (level : Z) (port_ret : list Z -> Z)
    (input : option (list Z * Z)) (s : system) : cres system :=
  let* '(_, m, t) := internal_turn e ne level port_ret input {| mc_device := dv s; mc_client := sy_client s |} in
  let acts := omap (fun a => match a with Dv a => Some a | Port _ => None end) t in
  let* '(_, a, _) := carry_all acts (with_part (mc_device m) (sy_at s)) in
  Ret {| sy_at := a; sy_client := mc_client m; sy_watch := sy_watch s; sy_time := sy_time s |}.
Definition heat_step (stack : list Z) (files : list (option (list Z))) (s : system) : cres system :=
  let* '(_, w, _) := thermal_turn stack files (with_part (dv_phone (dv s)) (sy_watch s)) in
  Ret {| sy_at := with_part (with_part (part w : phone) (dv s)) (sy_at s); sy_client := sy_client s;
         sy_watch := w; sy_time := sy_time s |}.
Definition time_step (e : clock_env) (heap : list Z) (s : system) : cres system :=
  let* '(_, c, _) := time_sync e heap {| ts_data := sy_time s; ts_board := at_board (sy_at s) |} in
  Ret {| sy_at := with_part (ts_board c) (sy_at s); sy_client := sy_client s; sy_watch := sy_watch s;
         sy_time := ts_data c |}.
Definition key_step (e : cfg_env) (prev : Z) (events : list key_input) (s : system) : cres system :=
  let* '(_, c, _) := power_key_event e prev events (dv_cfg (dv s)) in
  Ret (upd_at (with_part (with_part c (dv s)) (sy_at s)) s).
Definition system_step (o : system_op) (s : system) : cres system :=
  match o with
  | Thread_ o => on_at (with_carried (thread_turn o)) s
  | Client e ne level port_ret input => client_step e ne level port_ret input s
  | AtStart opens => on_at (do* _ := init_atfwd opens in ret tt) s
  | At arrived => on_at (atfwd_turn (y_at env) arrived) s
  | Heat stack files => heat_step stack files s
  | TimeSync e heap => time_step e heap s
  | PowerKey e prev events => key_step e prev events s
  end.
End Carry.

(** Turns of the threads in any order, each in surroundings of its own. *)
Fixpoint system_run (l : list (carry_env * system_op)) (s : system) : cres system :=
  match l with
  | [] => Ret s
  | (env, o) :: l => let* s := system_step env o s in system_run l s
  end.

(** * What every run keeps *)

Definition system_ok (s : system) : Prop := at_ok (sy_at s) /\ QmiClient.client_ok (sy_client s).
(** The bytes the internal client reads are bytes. *)
Definition op_sound (o : system_op) : Prop :=
  match o with Client _ _ _ _ (Some (buf, _)) => bytes_ok buf | _ => True end.

Lemma daemon_turn o d u d' t : thread_turn o d = Ret (u, d', t) -> daemon_step d d'.
Proof.
  destruct u. destruct o; cbn [thread_turn]; intros H;
    try (apply bind_inv in H as (x & d1 & t1 & t2 & Hrun & [= <- _] & _)).
  - by eapply step_packet.
  - by eapply step_tasks_read.
  - by eapply step_scheduler.
  - by eapply step_command.
  - by eapply step_call_answer.
  - by eapply step_call_ring.
  - by eapply step_phrase.
  - by eapply step_silence.
  - by eapply step_network_start.
  - by eapply step_session_start.
Qed.

Lemma keeps_note id direction state mode number : keeps audio_ok (note_call id direction state mode number).
Proof.
  apply keeps_modifyM. intros a a' [(Hd & Hl & Hc) Hp] (c & Hc1 & (n & Hn & (l & Hw & [= <-])%cbind_Ret_inv)%cbind_Ret_inv)%cbind_Ret_inv. apply rdA_lookup in Hc1 as [_ Hc1].
  apply wrA_inv in Hw as [_ ->]. split; [|exact Hp]. split; [exact Hd|]. cbn.
  split; [by rewrite length_insert|]. apply Forall_insert; [done|]. unfold call_slot_ok. cbn.
  apply wrn_zlen in Hn. apply (Forall_lookup_1 _ _ _ _ Hc) in Hc1. unfold call_slot_ok, zlen in *. lia.
Qed.
Lemma keeps_call_packet env pkt sz number len : keeps audio_ok (handle_call_pkt env pkt sz number len).
Proof.
  unfold handle_call_pkt. apply keeps_bind; [apply keeps_lift|intros offset]. destruct (offset <=? 0); [apply keeps_ret|].
  do 6 (apply keeps_bind; [apply keeps_lift|intros ?]). apply keeps_bind; [apply keeps_note|intros _].
  eapply keeps_safely, call_state_safe.
Qed.
Lemma keeps_sound (m : MA unit) : keeps audio_ok m -> keeps at_ok (on_audio m).
Proof. apply keeps_on_audio. Qed.
Lemma keeps_record_current : keeps audio_ok record_current_call.
Proof.
  unfold record_current_call. keeps_auto. apply keeps_modify. intros a [(?&?&?) Hb]. split; [by repeat split|exact Hb].
Qed.
Lemma keeps_record_next en : keeps audio_ok (record_next_call en).
Proof. apply keeps_modify. intros a [(?&?&?) Hb]. split; [by repeat split|exact Hb]. Qed.
Lemma emits_at_command port cmd response n : emits known_device (send_at_command port cmd response n).
Proof. unfold send_at_command. emits_auto; by apply emits_emit. Qed.
Lemma emits_pulse : emits known_device pulse_ring_in.
Proof. unfold pulse_ring_in. emits_auto; try apply emits_toggles; by apply emits_emit. Qed.
#[local] Hint Resolve keeps_on_audio keeps_on_board keeps_call_packet keeps_record_current keeps_record_next
  emits_at_command emits_pulse emits_restart emits_store keeps_notified : oqti.
Lemma keeps_carry_action env a : keeps at_ok (carry_action env a).
Proof.
  assert (forall p, keeps at_ok (carry_phone env p)) as Hp.
  { intros p. unfold carry_phone. keeps_auto. }
  unfold carry_action. destruct a; try (destruct (phone_of _); [apply Hp|apply keeps_ret]);
    unfold set_suspend_inhibit, store_adb_setting; keeps_auto. by apply keeps_on_board, emits_emit.
Qed.
Lemma keeps_carry_all env l : keeps at_ok (carry_all env l).
Proof. induction l as [|a l IH]; cbn [carry_all]; [apply keeps_ret|]. apply keeps_bind; [apply keeps_carry_action|by intros]. Qed.
Lemma with_device_ok d a : device_ok d -> at_ok a -> at_ok (with_part d a).
Proof. intros Hd (_ & H). by split. Qed.

Lemma keeps_watch stack files : keeps (fun w => phone_ok (th_phone w)) (thermal_turn stack files).
Proof.
  assert (Hm : forall f : watch -> watch, (forall w, th_phone (f w) = th_phone w) ->
    keeps (fun w => phone_ok (th_phone w)) (modify f : MH unit)) by (intros f Hf; apply keeps_modify; intros w; by rewrite Hf).
  assert (Hn : forall text, keeps (fun w => phone_ok (th_phone w)) (notify text)).
  { intros text. unfold notify. apply keeps_bind; [apply keeps_get|intros w].
    apply keeps_bind; [apply keeps_lift|intros [b n]]. apply keeps_bind; [by apply Hm|intros _].
    apply keeps_bind; [|intros _; by apply Hm].
    exact (keeps_zoom (S := watch) Thermal.Told phone_ok _ (keeps_add_message _ _)). }
  assert (Hs : forall i prev now, keeps (fun w => phone_ok (th_phone w)) (check_sensors i prev now)).
  { intros i prev. revert i. induction prev as [|p prev IH]; intros i [|t now]; cbn [check_sensors]; try apply keeps_ret.
    apply keeps_bind; [|intros _; apply IH]. unfold check_sensor, check_warm. keeps_auto; by apply Hm || apply Hn. }
  unfold thermal_turn. keeps_auto; try apply Hs; apply Hm; intros w; try done. by destruct (60 <? _).
Qed.

Lemma carried_ok env m s u s' t :
  (forall d x d' t, device_ok d -> m d = Ret (x, d', t) -> device_ok d') ->
  at_ok s -> with_carried env m s = Ret (u, s', t) -> at_ok s'.
Proof.
  intros Hm Hs. unfold with_carried. intros ([[x d] t1] & Hd & H)%cbind_Ret_inv.
  apply cbind_Ret_inv in H as ([[y s1] t2] & Hc & [= _ <- _]).
  eapply keeps_carry_all; [|exact Hc]. apply with_device_ok; [|done]. eapply Hm; [apply Hs|exact Hd].
Qed.
Lemma on_at_ok (m : MQ unit) s s' : keeps at_ok m -> system_ok s -> on_at m s = Ret s' -> system_ok s'.
Proof.
  intros Hm [Ha Hc] H. apply cbind_Ret_inv in H as ([[x a] t] & H & [= <-]). split; [|exact Hc]. by eapply Hm.
Qed.
Lemma client_step_ok env e ne level port_ret input s s' :
  op_sound (Client e ne level port_ret input) -> system_ok s ->
  client_step env e ne level port_ret input s = Ret s' -> system_ok s'.
Proof.
  intros Ho [Ha Hc]. unfold client_step. intros ([[[] m] t] & Hturn & H)%cbind_Ret_inv.
  apply cbind_Ret_inv in H as ([[x a] t2] & Hcarry & [= <-]).
  destruct (turn_ok e ne level port_ret input {| mc_device := dv s; mc_client := sy_client s |} m t) as [Hd Hcl];
    [by destruct input as [[]|]|apply Ha|exact Hc|exact Hturn|].
  split; [|exact Hcl]. eapply keeps_carry_all; [|exact Hcarry]. by apply with_device_ok.
Qed.
Lemma heat_step_ok stack files s s' : system_ok s -> heat_step stack files s = Ret s' -> system_ok s'.
Proof.
  intros [Ha Hc]. unfold heat_step. intros ([[x w] t] & Hturn & [= <-])%cbind_Ret_inv. split; [|exact Hc].
  apply with_device_ok; [|exact Ha]. destruct Ha as ((Hp & Hd) & _). split; [|exact Hd].
  eapply (keeps_watch stack files); [|exact Hturn]. exact Hp.
Qed.
Lemma system_step_ok env o s s' : op_sound o -> system_ok s -> system_step env o s = Ret s' -> system_ok s'.
Proof.
  intros Ho Hs. destruct o as [o|e ne level port_ret input|opens|arrived|stack files|e heap|e prev events];
    cbn [system_step].
  - apply on_at_ok; [|done]. intros a x a' t. apply carried_ok. intros d y d' u Hd H.
    eapply step_ok, daemon_turn; [exact Hd|exact H].
  - by apply client_step_ok.
  - apply on_at_ok; [|done]. apply keeps_bind; [apply keeps_init_atfwd|intros _; apply keeps_ret].
  - apply on_at_ok; [apply keeps_at_turn|done].
  - by apply heat_step_ok.
  - destruct Hs as [Ha Hc]. intros ([[x c] t] & _ & [= <-])%cbind_Ret_inv. by split.
  - destruct Hs as [Ha Hc]. intros ([[x c] t] & _ & [= <-])%cbind_Ret_inv. by split.
Qed.

(** The zeroed state of the process: the default device of the sound, and no
    message of the client. *)
Definition booted (s : system) : Prop :=
  started (dv s) /\ audio_ok (at_audio (sy_at s)) /\ at_tid (sy_at s) = 0 /\ sy_client s = client0.

(** C13: in every state that turns of all the threads reach from a start (packets,
    tasks, commands, calls, the internal client, AT commands, temperatures, the
    time and the power key, in any order, with any bytes and in any
    surroundings, and with the calls between the components carried out), the
    store and every table of the device are sound, no PCM is open out of a call
    and the open pair is the call's, and every waiting message is a request for
    its service. *)
Theorem system_runs_sound ops s s'
  (Hstart : booted s) (Hops : Forall (fun '(_, o) => op_sound o) ops) (Hrun : system_run ops s = Ret s') :
  device_ok (dv s') /\ audio_ok (at_audio (sy_at s')) /\
  (in_call (at_audio (sy_at s')) = false -> live (at_audio (sy_at s')) = ∅) /\ QmiClient.client_ok (sy_client s').
Proof.
  assert (system_ok s) as Hs.
  { destruct Hstart as (Hd & Ha & Ht & Hc). split; [|rewrite Hc; exact client0_ok].
    split; [by apply started_ok|]. split; [exact Ha|]. rewrite Ht. lia. }
  clear Hstart. assert (system_ok s') as [(Hd & Ha & _) Hc].
  { revert s Hs Hrun. induction Hops as [|[env o] ops Ho _ IH]; intros s Hs; cbn [system_run].
    - by intros [= <-].
    - intros (s1 & Hstep & Hrest)%cbind_Ret_inv. eapply IH; [|exact Hrest]. by eapply system_step_ok. }
  split; [exact Hd|]. split; [exact Ha|]. split; [|exact Hc].
  destruct Ha as [_ [[_ ?]|([H1|H1] & _)]]; [done|unfold in_call; by rewrite H1..].
Qed.

(** * A call, from the bytes of its message to the sound *)

(** A message of the voice service about one call. *)
Definition call_bytes (hdr : list Z) (call_id state type direction mode mp als presentation : Z) (number : list Z) : list Z :=
  hdr ++ enc_tlvs [call_info_tlv call_id state type direction mode mp als; remote_number_tlv call_id presentation number].
Definition status_header (hdr : list Z) (tid : Z) : Prop :=
  zlen hdr = SZ_ENCAP /\ get_qmux_service_id hdr = Ret 9 /\ get_qmi_message_id hdr = Ret VO_SVC_CALL_STATUS /\
  rd16 hdr 7 = Ret tid.
(** A number of a correspondent, with its NUL in 20 bytes. *)
Definition caller (number : list Z) : Prop :=
  number <> [] /\ zlen number < 20 /\ Forall (fun c => c <> 0) number /\ take 12 number <> our_number.

Lemma call_bytes_len hdr call_id state type direction mode mp als presentation number :
  zlen (call_bytes hdr call_id state type direction mode mp als presentation number) = zlen hdr + 18 + zlen number.
Proof.
  unfold call_bytes. rewrite !enc_tlvs_cons, !zlen_app, !enc_tlv_len.
  cbn [t_val call_info_tlv remote_number_tlv enc_tlvs map concat]. zl. lia.
Qed.
Lemma in_20_len number : zlen number < 20 -> zlen (in_20 number) = 20.
Proof. intros H. unfold in_20. zl. unfold zlen in *. lia. Qed.

(** The phone once a simulated call is over, and what the host is told of its end. *)
Definition call_ended (tid : Z) (p : phone) : phone :=
  if call_simulation_mode (calls p) then on_calls (hung_up tid) p else p.
Definition ended_events (usbfd tid : Z) (p : phone) : list phone_action :=
  if call_simulation_mode (calls p) then hangup_events usbfd tid (sim_call_direction (calls p)) else [].

Section Call.
Variables (hdr number : list Z) (tid call_id state type direction mode mp als presentation : Z).
Hypothesis Hhdr : status_header hdr tid.
Hypothesis Hnum : caller number.
Let data := call_bytes hdr call_id state type direction mode mp als presentation number.

Lemma data_in_buffer : in_buffer data = hdr ++ enc_tlvs [call_info_tlv call_id state type direction mode mp als;
  remote_number_tlv call_id presentation number] ++ replicate (Z.to_nat (Proxy.MAX_PACKET_SIZE - zlen data)) 0.
Proof. unfold in_buffer, data, call_bytes. by rewrite <- app_assoc. Qed.
Lemma header_in_buffer : get_qmux_service_id (in_buffer data) = Ret 9 /\
  get_qmi_message_id (in_buffer data) = Ret VO_SVC_CALL_STATUS /\ rd16 (in_buffer data) 7 = Ret tid.
Proof.
  destruct Hhdr as (_ & H1 & H2 & H3). rewrite data_in_buffer.
  split; [by apply rd_prefix|]. split; by apply rd16_prefix.
Qed.
(** A simulated call is ended, the message noted for the sound and passed on. *)
Lemma status_processed x adspfd usbfd (p : proxy) :
  do_not_disturb (calls (ph p)) = false ->
  process_packet x adspfd usbfd FROM_DSP (in_buffer data) (zlen data) p =
    Ret (PACKET_FORCED_PT, with_part (call_ended tid (ph p)) p,
      map Ph (ended_events usbfd tid (ph p) ++ [CallPacket (in_buffer data) (zlen data) (in_20 number) (zlen number)])).
Proof.
  intros Hdnd. destruct header_in_buffer as (H9 & Hid & H7). destruct Hhdr as (Hlen & _).
  destruct Hnum as (Hne & Hshort & Hz & Hown). pose proof (zlen_nonneg number).
  assert (Hdl : zlen data = zlen hdr + 18 + zlen number) by apply call_bytes_len.
  unfold process_packet, SZ_QMUX, SZ_CTL. change SZ_ENCAP with 13 in Hlen. ifdec.
  rewrite (bind_lift _ _ _ _ H9). cbn [Z.eqb Pos.eqb].
  apply (zoom_run Ph).
  change (part p) with (ph p). unfold call_service_handler. rewrite (bind_lift _ _ _ _ Hid). cbn [Z.eqb Pos.eqb VO_SVC_CALL_STATUS VO_SVC_CALL_REQUEST
    VO_SVC_CALL_ANSWER_REQ VO_SVC_CALL_INFO].
  rewrite data_in_buffer in H7 |- *. rewrite Hdl.
  pose proof (call_status_routed (x_call x) adspfd usbfd hdr call_id state type direction mode mp als presentation
    number (replicate (Z.to_nat (Proxy.MAX_PACKET_SIZE - (zlen hdr + 18 + zlen number))) 0) tid (ph p)) as Hr.
  cbv zeta in Hr. rewrite Hdl in H7. rewrite Hr by (done || lia).
  rewrite decide_False by lia. rewrite !decide_False by done. unfold call_ended, ended_events.
  by destruct (call_simulation_mode (calls (ph p))).
Qed.
End Call.

Lemma forward_run x adspfd usbfd source data (p : proxy) :
  exists f, forward x adspfd usbfd source (Some data) p =
    Ret (tt, upd_rt f p, [Forward (u8 (if source =? FROM_DSP then usbfd else adspfd)) data]).
Proof.
  unfold forward. rewrite bind_modify, bind_emit. set (b := when _ _).
  assert (exists f, b (upd_rt (on_rmnet count_allowed) p) = Ret (tt, upd_rt f p, [])) as [f Hb].
  { unfold b. destruct (_ =? 0); cbn [when]; unfold ret, modify.
    - by exists (fun r => on_rmnet count_failed (on_rmnet count_allowed r)).
    - by exists (on_rmnet count_allowed). }
  exists f. by rewrite Hb.
Qed.
(** The packets' thread with such a message: no simulated call is left. *)
Lemma status_turn e adspfd usbfd hdr number tid call_id state type direction mode mp als presentation d :
  let data := call_bytes hdr call_id state type direction mode mp als presentation number in
  status_header hdr tid -> caller number ->
  do_not_disturb (calls (dv_phone d)) = false ->
  exists f, device_turn e adspfd usbfd (FromDsp data) d = 
    Ret (tt, with_part (upd_rt f (with_part (call_ended tid (dv_phone d)) (part d))) d,
      map Prx (map Ph (ended_events usbfd tid (dv_phone d) ++
        [CallPacket (in_buffer data) (zlen data) (in_20 number) (zlen number)])) ++ [Prx (Forward (u8 usbfd) data)]).
Proof.
  intros data Hhdr Hnum Hdnd. set (x := env_of (ch_proxy e) d).
  pose proof (status_processed hdr number tid call_id state type direction mode mp als presentation Hhdr Hnum
    x adspfd usbfd (part d) Hdnd) as Hp. fold data in Hp.
  destruct (header_in_buffer hdr number tid call_id state type direction mode mp als presentation Hhdr) as (H9 & _).
  fold data in H9. destruct (forward_run x adspfd usbfd FROM_DSP data (with_part (call_ended tid (dv_phone d)) (part d))) as [f Hf].
  exists f. unfold device_turn, device_carry, device_packet. cbn [read_buffer bytes_read default].
  assert (Hdl : 32 <= zlen data).
  { unfold data. rewrite call_bytes_len. destruct Hhdr as (-> & _), Hnum as (Hne & _). destruct number; [done|].
    rewrite zlen_cons. pose proof (zlen_nonneg number). change SZ_ENCAP with 13. lia. }
  unfold SZ_QMUX, SZ_CTL. ifdec.
  erewrite bind_after.
  2:{ rewrite (bind_lift _ _ _ _ H9). cbn [Z.eqb Pos.eqb]. unfold with_settings_env. rewrite bind_get.
      fold x. eapply in_proxy_run. exact Hp. }
  unfold with_settings_env. rewrite bind_get.
  rewrite (in_proxy_run (dispose x adspfd usbfd FROM_DSP (Some data) PACKET_FORCED_PT) tt
    (upd_rt f (with_part (call_ended tid (dv_phone d)) (part d))) [Forward (u8 usbfd) data]) by (rewrite part_with; exact Hf).
  cbn [after]. by rewrite with_part_with.
Qed.

(** The host is told of the end of a simulated call; no other component is. *)
Lemma carry_ended env usbfd tid p l s :
  carry_all env (map Prx (map Ph (ended_events usbfd tid p)) ++ l) s = carry_all env l s.
Proof.
  unfold ended_events. destruct (call_simulation_mode (calls p)); [|done].
  cbn [map app carry_all carry_action phone_of carry_phone hangup_events]. by rewrite !bind_ret.
Qed.

(** C2: while do-not-disturb is off and with a card that does as asked, a message of
    the baseband about one call, whose number is a correspondent's and whose
    identifier is one of the ten the code keeps, goes to the host as it came; a
    simulated call is ended first, and nothing else of the phone changes; the sound
    is set up, switched or taken down for that call as the state and the kind in the
    bytes say. *)
Theorem call_reaches_sound env e adspfd usbfd hdr number tid call_id state type direction mode mp als presentation a
  (Hhdr : status_header hdr tid) (Hnum : caller number) (Hid : 0 <= call_id < 10)
  (Hdnd : do_not_disturb (calls (dv_phone (at_device a))) = false)
  (Hgood : starts_well (q_audio (y_at env))) (Hctl : forall c, a_control (q_audio (y_at env)) c = true)
  (Hsound : sound (at_audio a)) :
  let data := call_bytes hdr call_id state type direction mode mp als presentation number in
  let tone := on_flag (custom_alert_tone (settings (dv_cfg (at_device a)))) in
  exists a' t, with_carried env (device_turn e adspfd usbfd (FromDsp data)) a = Ret (tt, a', t) /\
    AtDevice (Prx (Forward (u8 usbfd) data)) ∈ t /\
    dv_phone (at_device a') = call_ended tid (dv_phone (at_device a)) /\
    sound (at_audio a') /\
    voice (at_audio a') =
      next_voice tone (is_alerting (art (at_audio a))) 1 state (call_mode_status mode) (voice (at_audio a)).
Proof.
  intros data tone.
  destruct (status_turn e adspfd usbfd hdr number tid call_id state type direction mode mp als presentation
    (at_device a) Hhdr Hnum Hdnd) as [f Hturn]. fold data in Hturn.
  set (d' := with_part (upd_rt f (with_part (call_ended tid (dv_phone (at_device a))) (part (at_device a)))) (at_device a)) in Hturn.
  assert (Hmsg : call_message (in_buffer data) (zlen data) 1 call_id state direction mode).
  { destruct Hhdr as (Hl & _), Hnum as (_ & Hs & _). unfold data. rewrite data_in_buffer. unfold call_bytes.
    by apply (one_call_message hdr call_id state type direction mode mp als presentation number); [|lia]. }
  destruct Hnum as (_ & Hs & _). pose proof (zlen_nonneg number).
  destruct (packet_step (audio_env_of (q_audio (y_at env)) d') (in_buffer data) (zlen data) 1 call_id state direction
    mode (in_20 number) (zlen number) (at_audio a) (proj1 Hsound) Hmsg Hid) as (l & Hpkt & Hok & _);
    [lia|rewrite in_20_len by done; lia|].
  destruct (state_moves (audio_env_of (q_audio (y_at env)) d') Hgood Hctl 1 call_id state mode
    (on_art (set_active_calls l) (at_audio a))) as (b & t & Hrun & Hb & Hv & _).
  { destruct Hsound as (_ & Hc & Hm). by split. }
  rewrite <- Hpkt in Hrun.
  unfold with_carried. rewrite Hturn. cbn [cbind]. rewrite !map_app, <- app_assoc, carry_ended.
  cbn [map app carry_all carry_action phone_of carry_phone]. rewrite bind_assoc, bind_get.
  erewrite bind_after by (unfold on_audio; apply zoom_run; exact Hrun).
  eexists _, _. split; [reflexivity|]. split; [|split; [reflexivity|]; by split].
  rewrite ?map_app, !elem_of_app. left. cbn [map]. right. apply list_elem_of_here.
Qed.

(** * A text, from the bytes of its packet to the board *)

Definition adb_words (en : bool) : string := if en then "enable adb" else "disable adb".
Definition adb_answer (en : bool) : string := if en then "Enabling ADB." else "Disabling ADB.".

Lemma adb_command env d rest en :
  ready env d ->
  parse_command env (zs (adb_words en) ++ 0 :: rest) d =
    Ret (0, with_part (recorded (asked (zs (adb_words en))) (dv_cmd d)) (told (zs (adb_answer en) ++ nl) d),
         [StoreAdb en; RestartUsb]).
Proof.
  intros (Hs & Hlow & Hrw & Ho & Hd & Hc & Ht).
  assert (Hl : lowered (zs (adb_words en))) by (apply lowered_dec; destruct en; vm_compute; reflexivity).
  refine (parse_command_run env (zs (adb_words en)) rest d tt (told (zs (adb_answer en) ++ nl) d) _ Hl _ Hlow _ Hc);
    [by destruct en|].
  assert (asked (zs (adb_words en)) = if en then CMD_ID_SET_ADB_ON else CMD_ID_SET_ADB_OFF) as Hask
    by (destruct en; vm_compute; reflexivity).
  assert (run_command env (asked (zs (adb_words en))) (zs (adb_words en)) =
    reply_then env (asked (zs (adb_words en))) (emit (StoreAdb en) ;> emit RestartUsb)) as ->
    by (rewrite Hask; destruct en; reflexivity).
  assert (response_text (asked (zs (adb_words en))) = Ret (zs (adb_answer en) ++ nl)) as Hresp
    by (rewrite Hask; destruct en; vm_compute; reflexivity).
  unfold reply_then.
  rewrite (bind_step _ _ _ _ _ (send_default_response_run env _ _ d Hs Hresp ltac:(by destruct en) ltac:(by destruct en) Hd)).
  reflexivity.
Qed.

Lemma on_board_run {A} (m : MB A) s x b t :
  m (at_board s) = Ret (x, b, t) ->
  on_board m s = Ret (x, with_part (settled t (at_audio s)) (with_part (b : board) s), map AtBoard t).
Proof. intros H. unfold on_board. by change (m (part s)) with (m (at_board s)); rewrite H. Qed.

(** * Examples *)

(** A modem that has just started. *)
Definition sample_system : system :=
  {| sy_at := upd_tid 0 sample_at; sy_client := client0; sy_watch := cool_watch; sy_time := fresh_time |}.
Definition sample_carry : carry_env := {| y_at := sample_at_env; y_reply := NoAnswer |}.
(** The AT commands are announced, a call rings, the modem is heated, the time is
    taken from the network, a session is asked for and the host asks for the
    firmware. *)
Definition sample_turns : list (carry_env * system_op) :=
  map (pair sample_carry)
    [ AtStart true;
      Thread_ (Packets sample_env 6 5 (FromDsp (call_bytes sample_status_hdr 1 2 2 2 4 0 0 0 (zs "+34600111222"))));
      Heat (replicate 64 0) sample_files;
      TimeSync (sample_clock_env (fun _ => sample_answer_of april 45 22)) (replicate 128 7);
      Client sample_env all_open 1 (fun _ => 0) None;
      At (Some (sample_request (zs "+GETFWBRANCH"))) ].
Definition live_count (s : system) : nat := size (live (at_audio (sy_at s))).
Lemma system_runs_sound_witness :
  exists s', system_run sample_turns sample_system = Ret s' /\ live_count s' = 2%nat /\
  device_ok (dv s') /\ audio_ok (at_audio (sy_at s')) /\
  (in_call (at_audio (sy_at s')) = false -> live (at_audio (sy_at s')) = ∅) /\ QmiClient.client_ok (sy_client s').
Proof.
  assert (exists s', system_run sample_turns sample_system = Ret s' /\ live_count s' = 2%nat) as (s' & Hrun & Hlive).
  { eexists. split; vm_compute; reflexivity. }
  exists s'. split; [exact Hrun|]. split; [exact Hlive|]. apply (system_runs_sound sample_turns sample_system s').
  - split; [split_and!; reflexivity|]. split; [apply idle_audio_ok; by left|]. by split.
  - unfold sample_turns. repeat constructor.
  - exact Hrun.
Defined.

Lemma call_reaches_sound_witness :
  let data := call_bytes sample_status_hdr 1 2 2 2 4 0 0 0 (zs "+34600111222") in
  exists a' t, with_carried sample_carry (device_turn sample_env 6 5 (FromDsp data)) sample_at = Ret (tt, a', t) /\
    AtDevice (Prx (Forward 5 data)) ∈ t /\ dv_phone (at_device a') = call_ended 300 idle_phone /\
    sound (at_audio a') /\ voice (at_audio a') = next_voice false false 1 2 (call_mode_status 4) None.
Proof.
  cbv zeta. apply (call_reaches_sound sample_carry sample_env 6 5 sample_status_hdr (zs "+34600111222") 300 1 2 2 2 4 0 0 0
    sample_at).
  - repeat split.
  - split; [discriminate|]. split; [reflexivity|]. split; [|discriminate]. repeat constructor; discriminate.
  - lia.
  - reflexivity.
  - repeat split.
  - reflexivity.
  - apply idle_audio_sound. by left.
Defined.

Definition chatting : at_state := with_part sample_device sample_at.
