(* ===== verification/Startup.v ===== *)
(** The start of the daemon (main of src/openqti.c): the settings, the options, the
    lock, the wait for the baseband, the resets of every component and the threads.
    What main leaves is the state System.v runs the threads from. *)

From stdpp Require Import base list numbers option strings gmap.
From Stdlib Require Import ZArith Lia.
From S2P Require Import Prelude Libc Eff QmiClient Dms Sms Config Helpers Oqticonf Timesync Call Audio Replies Thermal Cells NasClient Wds Scheduler Tracking Proxy CommandTable Ipc Device Commands Daemon Invariant Internal Atfwd System.

(** * State *)

(** The components, and where the log goes. *)
Record process := { p_sys : system; log_to_file : bool }.
#[export, refine] Instance process_at : Part at_state process :=
  {| part p := sy_at (p_sys p);
     with_part a p := {| p_sys := upd_at a (p_sys p); log_to_file := log_to_file p |} |}.
Proof. all: abstract by intros; repeat match goal with p : process |- _ => destruct p | s : system |- _ => destruct s end. Defined.

Inductive thread :=
| AtForwarder | GpsProxy | RmnetProxy | TimeSyncThread | PowerKeyThread | SchedulerThread | ThermalThread
| QmiClientThread | ServicesThread.
Inductive main_action :=
| Do (a : at_action)              (* by a component *)
| OnIpc (a : ipc_action)
| Print (text : list Z)           (* stdout *)
| Complain (text : list Z)        (* stderr *)
| OpenLock                        (* LOCKFILE *)
| Flock
| OpenRmnet                       (* RMNET_CTL *)
| OpenSmd                         (* SMD_CNTL *)
| Pause (us : Z)
| LineState | ModemOffline | ModemOnline   (* ioctl(2) on RMNET_CTL *)
| Start (t : thread).
Definition MM (A : Type) : Type := M process main_action A.

(** The arguments; the outcomes of the mounts and opens of the settings; what
    malloc(3) leaves in them; the router, and its answers to the waits; whether the
    lock file opens and is free; whether RMNET_CTL opens, and each try of SMD_CNTL;
    each try of the two requests for a channel; the sound card; the stack. *)
Record main_env := {
  m_args : list (list Z);
  m_cfg : cfg_env;
  m_heap : config_prototype;
  m_ipc : ipc_env;
  m_adsp : list ipc_env;
  m_lock_opens : bool;
  m_lock_free : bool;
  m_rmnet : bool;
  m_smd : list bool;
  m_sends : list bool;
  m_sends_internal : list bool;
  m_audio : audio_env;
  m_stack : list Z
}.

(** How main ends: with a status, or waiting for threads that never do. *)
Inductive ended := Exit (status : Z) | Serves.

(** * Components *)

Definition sys_do {A} (m : MQ A) : MM A := zoom Do m.
Definition cfg_do {A} (m : MC A) : MM A := sys_do (on_device (in_cfg m)).
Definition ipc_do {A} (m : MI A) : MM A := fun p => let* '(a, _, t) := m tt in Ret (a, p, map OnIpc t).
Definition say (text : string) : MM unit := emit (Print (zs text ++ [10])).
Definition set_log_method (ttyout : bool) : MM unit :=
  modify (fun p => {| p_sys := p_sys p; log_to_file := negb ttyout |}).
(** src/atfwd.c *)
Definition set_atfwd_runtime_default : MQ unit :=
  on_board (modify (upd_adb_enabled false)) ;>
  modify (upd_notification false) ;>
  on_device (in_proxy (modify (upd_debug {| debug_one := false; debug_random := false; debug_stream := false |}))).

Section Main.
Variable env : main_env.

(** * main *)

(** The defaults, the settings file, and the clients of the host. *)
Definition load : MM unit :=
  cfg_do (modifyM (fun s => let* c := set_initial_config (m_heap env) in Ret (with_settings c s))) ;>
  set_log_method false ;>
  do* _ := cfg_do (read_settings_from_file (m_cfg env)) in
  sys_do (on_device (in_proxy (zoom Track (reset_client_handler ;> reset_dirty_reconnects)))) ;>
  sys_do (set_log_level 1).

(** The loop over the options; some end the program. *)
Definition option_help : MM unit :=
  say "Options:" ;> say " -u: Print available ADSP firmware services" ;> say " -d: Send logs to stdout" ;>
  say " -l: Set log level to debug" ;> say " -?: Show available options" ;> say " -v: Show OpenQTI version".
Fixpoint options (l : list Z) : MM (option Z) :=
  match l with
  | [] => ret None
  | c :: l =>
      if c =? 100 then say "Print logs to stdout" ;> set_log_method true ;> options l
      else if c =? 117 then
        say "List enabled services through IPC" ;> do* _ := ipc_do (find_services (m_ipc env)) in ret (Some 0)
      else if c =? 108 then
        say "Log everything (even passing packets)" ;>
        emit (Print (zs "WARNING: Your logfile might contain sensitive data, such as phone numbers or message contents" ++ [10; 10])) ;>
        sys_do (set_log_level 0) ;> options l
      else if c =? 63 then option_help ;> ret (Some 0)
      else if c =? 118 then say "openQTI Version 0.8.0 " ;> ret (Some 0)
      else options l
  end.

(** [do { } while (!is_server_active(33, 1))], with the router's answers. *)
Fixpoint wait_adsp (l : list ipc_env) : MM unit :=
  match l with
  | [] => lift Spin
  | e :: l => do* active := ipc_do (is_server_active e 33 1) in if active : bool then ret tt else wait_adsp l
  end.
Fixpoint wait_smd (l : list bool) : MM unit :=
  match l with
  | [] => lift Spin
  | ok :: l => emit OpenSmd ;> emit (Pause 100) ;> if ok : bool then ret tt else wait_smd l
  end.

(** From the router's rules to the modem. *)
Definition connect : MM unit :=
  do* _ := ipc_do (setup_ipc_security (m_ipc env)) in
  do* _ := ipc_do (init_port_mapper (m_ipc env) (m_sends env)) in
  do* _ := ipc_do (init_port_mapper_internal (m_ipc env) (m_sends_internal env)) in
  wait_smd (m_smd env) ;>
  emit (Start AtForwarder) ;>
  emit LineState ;> emit ModemOffline ;> emit ModemOnline.
(** The sound, and the state of every component. *)
Definition reset_all : MM unit :=
  sys_do (on_audio set_audio_runtime_default) ;>
  sys_do (on_audio (setup_codec (m_audio env))) ;>
  do* mode := sys_do (on_board (get_audio_mode (m_stack env))) in
  sys_do (on_audio (set_output_device mode)) ;>
  sys_do set_atfwd_runtime_default ;>
  sys_do (on_device (in_phone (zoom Out reset_sms_runtime))) ;>
  sys_do (on_device (in_phone reset_call_state)) ;>
  sys_do (on_device set_cmd_runtime_defaults) ;>
  sys_do (on_device (zoom Wds (modify (on_wds reset_wds_runtime)))) ;>
  sys_do (on_device (in_proxy proxy_rt_reset)) ;>
  do* adb := sys_do (on_board (is_adb_enabled (m_stack env))) in
  sys_do (on_board (set_adb_runtime adb)).
Fixpoint start_all (l : list thread) : MM unit :=
  match l with [] => ret tt | t :: l => emit (Start t) ;> start_all l end.

Definition serve : MM ended :=
  emit OpenLock ;>
  if negb (m_lock_opens env) then emit (Complain (zs "main: Can't open lockfile!" ++ [10])) ;> ret (Exit (- ENOENT))
  else
    emit Flock ;>
    if negb (m_lock_free env) then
      emit (Complain (zs "main: OpenQTI is already running, bailing out" ++ [10])) ;> ret (Exit (- EBUSY))
    else
      sys_do (on_board (enable_cpufreq_performance_mode true)) ;>
      wait_adsp (m_adsp env) ;>
      emit OpenRmnet ;>
      if negb (m_rmnet env) then ret (Exit (- EINVAL))
      else
        connect ;>
        reset_all ;>
        start_all [GpsProxy; RmnetProxy; TimeSyncThread; PowerKeyThread; SchedulerThread; ThermalThread;
                   QmiClientThread; ServicesThread] ;>
        sys_do (on_board (enable_cpufreq_performance_mode false)) ;>
        sys_do (on_board enable_usb_port) ;>
        ret Serves.
Definition main : MM ended :=
  load ;>
  do* status := options (getopt (zs "dulv?") (m_args env)) in
  match status with Some s => ret (Exit s) | None => serve end.
End Main.

(** * The zeroed process *)

Definition zero_texts : sms_runtime :=
  {| notif_pending := false; source := 0; current_message_id := 0; curr_transaction_id := 0;
     pending_messages_from_adsp := 0; lock_queue := false; queue_pos := 0; msg := replicate 256 zero_message;
     stuck_message_data := None; stuck_message_data_pending := false |}.
Definition zero_device (files : cfg_state) (tasks cells : option (list Z)) : device :=
  {| dv_rt := {| is_usb_suspended := false; is_service_debugging_enabled := false; debug_service_id := 0;
                 rmnet_packet_stats := {| bypassed := 0; empty_pkts := 0; discarded := 0; allowed := 0; failed := 0; other := 0 |};
                 gps_packet_stats := {| bypassed := 0; empty_pkts := 0; discarded := 0; allowed := 0; failed := 0; other := 0 |} |};
     dv_phone := {| calls := idle_calls; texts := zero_texts |};
     dv_clients := {| services := replicate 33 no_service; last_active := 0; regtime := 0; host_side_managing_app := 0;
                      dirty_reconnects := 0 |};
     dv_debug := {| debug_one := false; debug_random := false; debug_stream := false |};
     dv_sch := {| cur_time := 0; tasks := replicate 255 zero_task |}; dv_tasks_file := tasks; dv_cfg := files;
     dv_cmd := idle_cmd; dv_nas := initial_nas; dv_cells_file := cells;
     dv_wds := {| in_progress := 0; ims_in_progress := 0; mux_state := 0; user_ordered_stop := 0; pkt_data_handle := 0 |};
     dv_dms := idle_dms |}.
(** The files, the misc partition and the values of the sound card's controls are
    as the last start left them. *)
Definition zero_at (files : cfg_state) (tasks cells misc : option (list Z)) (card : gmap string Z) : at_state :=
  {| at_device := zero_device files tasks cells;
     at_board := {| misc := misc; at_if_in_use := false; adb_enabled := false |};
     at_audio := {| art := {| current_call_state := CALL_STATUS_IDLE; sampling_rate := 0; output_device := AUDIO_I2S;
                              is_muted := false; is_alerting := false; active_calls := replicate 10 empty_call;
                              current_active_call_id := 0; is_recording := false; record_next := false |};
                    mixer := false; pcm_tx := None; pcm_rx := None; live := ∅; next_pcm := 1; controls := card |};
     at_tid := 0; at_log_level := 0; is_sms_notification_pending := false |}.
Definition zero_process (files : cfg_state) (tasks cells misc : option (list Z)) (card : gmap string Z) : process :=
  {| p_sys := {| sy_at := zero_at files tasks cells misc card; sy_client := client0;
                 sy_watch := {| notified_emergency := false; notified_warning := false; round := 0; last_notify_round := 0;
                                sensors := replicate 7 0; th_reply := replicate 160 0;
                                th_phone := {| calls := idle_calls; texts := zero_texts |} |};
                 sy_time := fresh_time |};
     log_to_file := true |}.

(** * Runs of the phases *)

Lemma sys_run {A} (m : MQ A) p a s t :
  m (sy_at (p_sys p)) = Ret (a, s, t) -> sys_do m p = Ret (a, with_part s p, map Do t).
Proof. intros H. unfold sys_do, zoom. change (part p) with (sy_at (p_sys p)). by rewrite H. Qed.
Lemma cfg_run {A} (m : MC A) p a c t :
  m (dv_cfg (dv (p_sys p))) = Ret (a, c, t) ->
  cfg_do m p = Ret (a, with_part (with_part (with_part c (dv (p_sys p))) (sy_at (p_sys p))) p,
                    map Do (map AtDevice (map (fun x => Sched (Disk x)) t))).
Proof.
  intros H. unfold cfg_do. apply sys_run. unfold on_device. apply (zoom_run (S := at_state) AtDevice).
  by apply (zoom_run (S := device) _ m).
Qed.
Lemma ipc_run {A} (m : MI A) p a t : m tt = Ret (a, tt, t) -> ipc_do m p = Ret (a, p, map OnIpc t).
Proof. intros H. unfold ipc_do. by rewrite H. Qed.

(** What starts, in order. *)
Definition starts (t : list main_action) : list thread := omap (fun a => match a with Start x => Some x | _ => None end) t.
Lemma starts_app t u : starts (t ++ u) = starts t ++ starts u.
Proof. apply omap_app. Qed.
(** Before the lock main only reads the settings and prints. *)
Definition private (a : main_action) : Prop := match a with Do (AtDevice (Sched (Disk _))) | Print _ => True | _ => False end.

Section Phases.
Context (env : main_env).

Definition active (e : ipc_env) : bool :=
  match lookup_server e 33 1 no_server with Some s => negb (node_id s =? 41) | None => false end.
Lemma wait_adsp_run l p : existsb active l = true ->
  exists t, wait_adsp l p = Ret (tt, p, t) /\ starts t = [].
Proof.
  induction l as [|e l IH]; [done|]. cbn [existsb wait_adsp]. intros H.
  rewrite (bind_after _ _ _ _ _ _ (ipc_run (is_server_active e 33 1) p (active e) [Socket; CloseFd] eq_refl)).
  destruct (active e); cbn [orb] in H.
  - unfold ret. rewrite after_Ret. by eexists.
  - destruct (IH H) as (t & -> & Ht). rewrite after_Ret. by eexists.
Qed.
Lemma wait_smd_run l p : existsb id l = true -> exists t, wait_smd l p = Ret (tt, p, t) /\ starts t = [].
Proof.
  induction l as [|ok l IH]; [done|]. cbn [existsb wait_smd]. intros H. autorewrite with eff. destruct ok; cbn [orb id] in H.
  - unfold ret. rewrite after_Ret. by eexists.
  - destruct (IH H) as (t & -> & Ht). rewrite !after_Ret. by eexists.
Qed.
Lemma wait_smd_spins n p : wait_smd (replicate n false) p = Spin.
Proof. induction n as [|n IH]; cbn [replicate wait_smd]; [done|]. autorewrite with eff. by rewrite IH. Qed.

Lemma ipc_starts t : starts (map OnIpc t) = [].
Proof. induction t; [done|]. done. Qed.
Lemma do_starts t : starts (map Do t) = [].
Proof. induction t; [done|]. done. Qed.
Lemma send_until_ends sends d pkt : existsb id sends = true -> exists t, send_until sends d pkt tt = Ret (tt, tt, t).
Proof.
  induction sends as [|ok sends IH]; [done|]. cbn [existsb send_until]. intros H. autorewrite with eff.
  destruct ok; cbn [orb id] in H; [unfold ret; rewrite after_Ret; by eexists|].
  destruct (IH H) as [t ->]. rewrite after_Ret. by eexists.
Qed.
Lemma channel_ends e internal sends : existsb id sends = true ->
  exists r t, open_channel e (channel_request internal) sends tt = Ret (r, tt, t).
Proof.
  intros H. unfold open_channel. rewrite open_ipc_socket_addr by done. rewrite (bind_lift _ _ _ _ eq_refl), bind_emit.
  cbn [qd_fd]. destruct (i_socket e <? 0); [by eexists _, _|]. autorewrite with eff.
  destruct (i_dpm e); cbn [negb]; [|by eexists _, _]. destruct (channel_request_reads internal) as (p & Hp & _).
  autorewrite with eff. rewrite (bind_lift _ _ _ _ Hp).
  edestruct send_until_ends as [t Ht]; [exact H|]. rewrite (bind_after _ _ _ _ _ _ Ht). autorewrite with eff.
  unfold ret. rewrite !after_Ret. by eexists _, _.
Qed.
Lemma rules_end e n i : exists r t, rules_loop e n i tt = Ret (r, tt, t).
Proof.
  revert i. induction n as [|n IH]; intros i; cbn [rules_loop]; [by eexists _, _|]. autorewrite with eff.
  destruct (i_rule e i); [|by eexists _, _]. destruct (IH (i + 1)) as (r & t & ->). rewrite after_Ret. by eexists _, _.
Qed.
Lemma security_ends e : exists r t, setup_ipc_security e tt = Ret (r, tt, t).
Proof.
  unfold setup_ipc_security. autorewrite with eff. destruct (_ =? 0); [by eexists _, _|].
  destruct (rules_end e 511 0) as (r & t & H). rewrite (bind_after _ _ _ _ _ _ H). autorewrite with eff.
  unfold ret. rewrite !after_Ret. by eexists _, _.
Qed.

(** The requests for the channels and the device of the modem are taken at some try. *)
Definition answers : Prop :=
  existsb active (m_adsp env) = true /\ existsb id (m_sends env) = true /\
  existsb id (m_sends_internal env) = true /\ existsb id (m_smd env) = true.
Lemma connect_run p : answers -> exists t, connect env p = Ret (tt, p, t) /\ starts t = [AtForwarder].
Proof.
  intros (_ & H1 & H2 & H3). unfold connect.
  destruct (security_ends (m_ipc env)) as (r1 & t1 & E1). rewrite (bind_after _ _ _ _ _ _ (ipc_run _ p _ _ E1)).
  destruct (channel_ends (m_ipc env) false _ H1) as (r2 & t2 & E2).
  rewrite (bind_after _ _ _ _ _ _ (ipc_run (init_port_mapper (m_ipc env) (m_sends env)) p _ _ E2)).
  destruct (channel_ends (m_ipc env) true _ H2) as (r3 & t3 & E3).
  rewrite (bind_after _ _ _ _ _ _ (ipc_run (init_port_mapper_internal (m_ipc env) (m_sends_internal env)) p _ _ E3)).
  destruct (wait_smd_run _ p H3) as (t4 & E4 & Ht4). rewrite (bind_after _ _ _ _ _ _ E4). autorewrite with eff.
  unfold emit at 1. rewrite !after_Ret. eexists. split; [reflexivity|]. by rewrite !starts_app, !ipc_starts, Ht4.
Qed.
End Phases.

(** * The resets *)

(** The device of the sound that the partition and the stack say. *)
Definition device_at_start (stack part : list Z) : Z :=
  if usb_audio_flag part && bool_decide (stack !! 22%nat = Some 0) then AUDIO_MODE_USB else AUDIO_MODE_I2S.

Lemma setup_codec_run env a :
  a_mixer env = true -> current_call_state (art a) = CALL_STATUS_IDLE ->
  exists rate controls, setup_codec env a = Ret (tt, upd_controls controls (on_art (set_sampling rate) (upd_mixer true a)), []).
Proof.
  intros Hm Hi. unfold setup_codec. rewrite bind_modify, Hm.
  set (rate := if a_codec env then 1 else 0).
  rewrite (bind_step _ _ _ tt (on_art (set_sampling rate) (upd_mixer true a))).
  2: { unfold set_auxpcm_sampling_rate. rewrite bind_get, bind_modify. cbn [art upd_mixer]. by rewrite Hi. }
  rewrite codec_run by done. by eexists _, _.
Qed.

(** Steps of a part, one after the other, are steps of the whole. *)
Lemma zoom_bind {T S E F : Type} `{Part T S} (f : E -> F) {A B} (m : M T E A) (k : A -> M T E B) s :
  bind (zoom f m) (fun a => zoom f (k a)) s = zoom f (bind m k) s.
Proof.
  unfold bind, zoom. destruct (m (part s)) as [[[a t] l]| |]; try done. cbn [cbind]. rewrite part_with.
  destruct (k a t) as [[[b u] l']| |]; try done. cbn [cbind]. by rewrite with_part_with, map_app.
Qed.

Section Resets.
Context (env : main_env) (part : list Z).
Context (Hmixer : a_mixer (m_audio env) = true) (Hstack : length (m_stack env) = 32%nat) (Hpart : (128 <= length part)%nat).

Definition at_reset : MQ unit :=
  on_audio set_audio_runtime_default ;>
  on_audio (setup_codec (m_audio env)) ;>
  do* mode := on_board (get_audio_mode (m_stack env)) in
  on_audio (set_output_device mode) ;>
  set_atfwd_runtime_default ;>
  on_device (in_phone (zoom Out reset_sms_runtime)) ;>
  on_device (in_phone reset_call_state) ;>
  on_device set_cmd_runtime_defaults ;>
  on_device (zoom Wds (modify (on_wds reset_wds_runtime))) ;>
  on_device (in_proxy proxy_rt_reset) ;>
  do* adb := on_board (is_adb_enabled (m_stack env)) in
  on_board (set_adb_runtime adb).
Lemma bind_ext {S E A B} (m : M S E A) (k k' : A -> M S E B) s : (forall a s, k a s = k' a s) -> bind m k s = bind m k' s.
Proof. intros Hk. unfold bind. destruct (m s) as [[[a s'] t]| |]; try done. cbn [cbind]. by rewrite Hk. Qed.
Lemma reset_all_at p : reset_all env p = sys_do at_reset p.
Proof.
  unfold reset_all, at_reset, sys_do.
  repeat (rewrite <- zoom_bind; apply bind_ext; intros ? ?). done.
Qed.

(** The state the resets leave, from the zeroed one. *)
Definition ready_audio (rate : Z) (controls : gmap string Z) (a : audio) : audio :=
  on_art (set_device (u8 (device_at_start (m_stack env) part)))
    (upd_controls controls (on_art (set_sampling rate) (upd_mixer true a))).
Definition ready_device (d : device) : device :=
  with_part {| calls := idle_calls; texts := initial_runtime |} d.
Lemma at_reset_run files tasks cells card level :
  let s0 := upd_level level (zero_at files tasks cells (Some part) card) in
  exists rate controls t,
    at_reset s0 = Ret (tt, {| at_device := ready_device (zero_device files tasks cells);
       at_board := {| misc := Some part; at_if_in_use := false; adb_enabled := adb_flag part |};
       at_audio := ready_audio rate controls (at_audio s0);
       at_tid := 0; at_log_level := level; is_sms_notification_pending := false |}, t).
Proof.
  intros s0. destruct (setup_codec_run (m_audio env) (at_audio s0) Hmixer eq_refl) as (rate & controls & Hcodec).
  exists rate, controls. unfold at_reset.
  rewrite (bind_step _ _ s0 tt s0) by reflexivity.
  set (a1 := upd_controls controls (on_art (set_sampling rate) (upd_mixer true (at_audio s0)))) in Hcodec.
  set (s1 := (with_part a1 s0 : at_state)).
  rewrite (bind_step _ _ s0 tt s1) by (unfold on_audio; by rewrite (zoom_run (S := at_state) AtAudio _ _ _ _ _ Hcodec)).
  pose proof (audio_reads (m_stack env) part Hstack Hpart (at_board s1) eq_refl) as Haudio.
  rewrite (bind_step _ _ s1 (device_at_start (m_stack env) part) s1) by exact (on_board_run _ _ _ _ _ Haudio).
  set (s2 := (with_part (ready_audio rate controls (at_audio s0)) s0 : at_state)).
  rewrite (bind_step _ _ s1 tt s2) by reflexivity.
  rewrite (bind_step _ _ s2 tt s2) by reflexivity.
  set (s3 := (with_part (ready_device (zero_device files tasks cells)) s2 : at_state)).
  rewrite (bind_step _ _ s2 tt s3) by reflexivity.
  rewrite (bind_step _ _ s3 tt s3) by reflexivity.
  rewrite (bind_step _ _ s3 tt s3) by reflexivity.
  rewrite (bind_step _ _ s3 tt s3) by reflexivity.
  rewrite (bind_step _ _ s3 tt s3) by reflexivity.
  pose proof (adb_reads (m_stack env) part Hstack Hpart (at_board s3) eq_refl) as Hadb.
  rewrite (bind_step _ _ s3 (adb_flag part) s3) by exact (on_board_run _ _ _ _ _ Hadb).
  eexists. reflexivity.
Qed.
End Resets.

(** * The start *)

(** The process with the settings, the level and the method of the log. *)
Definition at_start (cfg : cfg_state) (tasks cells misc : option (list Z)) (card : gmap string Z) (level : Z) (file : bool) : process :=
  let p := zero_process cfg tasks cells misc card in
  {| p_sys := upd_at (upd_level level (zero_at cfg tasks cells misc card)) (p_sys p); log_to_file := file |}.

Lemma load_phase_run env files tasks cells misc card c0 cfg tr :
  set_initial_config (m_heap env) = Ret c0 ->
  read_settings_from_file (m_cfg env) (with_settings c0 files) = Ret (0, cfg, tr) ->
  exists t, load env (zero_process files tasks cells misc card) = Ret (tt, at_start cfg tasks cells misc card 1 true, t) /\
    Forall private t.
Proof.
  intros H0 Hr. unfold load. set (p0 := zero_process files tasks cells misc card).
  set (p1 := zero_process (with_settings c0 files) tasks cells misc card).
  rewrite (bind_step _ _ p0 tt p1).
  2: { assert (modifyM (fun s => let* c := set_initial_config (m_heap env) in Ret (with_settings c s)) files =
         Ret (tt, with_settings c0 files, @nil cfg_action)) as E by (unfold modifyM; by rewrite H0).
       exact (cfg_run _ p0 _ _ _ E). }
  rewrite (bind_step _ _ p1 tt p1) by reflexivity.
  set (p2 := zero_process cfg tasks cells misc card).
  rewrite (bind_after _ _ p1 0 p2 _ (cfg_run (read_settings_from_file (m_cfg env)) p1 _ _ _ Hr)).
  rewrite (bind_step _ _ p2 tt p2) by reflexivity.
  assert (sys_do (set_log_level 1) p2 = Ret (tt, at_start cfg tasks cells misc card 1 true, [])) as -> by reflexivity.
  rewrite after_Ret. eexists. split; [reflexivity|]. rewrite app_nil_r. clear. induction tr as [|x l IH]; cbn [map]; constructor; [exact I|exact IH].
Qed.

(** The options that do not end the program. *)
Definition goes_on (c : Z) : Prop := c = 100 \/ c = 108.
Definition has (c : Z) (l : list Z) : bool := existsb (Z.eqb c) l.
Lemma options_run env l cfg tasks cells misc card level file :
  Forall goes_on l ->
  exists t, options env l (at_start cfg tasks cells misc card level file) =
    Ret (None, at_start cfg tasks cells misc card (if has 108 l then 0 else level) (negb (has 100 l) && file), t) /\
    Forall private t.
Proof.
  intros Hl. revert level file. induction Hl as [|c l Hc _ IH]; intros level file; cbn [options].
  - eexists. split; [reflexivity|constructor].
  - destruct Hc as [-> | ->]; cbn [Z.eqb Pos.eqb]; unfold say; autorewrite with eff.
    + unfold set_log_method. rewrite bind_modify.
      destruct (IH level false) as (t & E & Ht). cbn [negb] in *.
      assert (options env l {| p_sys := p_sys (at_start cfg tasks cells misc card level file); log_to_file := false |} = _) as -> by exact E.
      rewrite after_Ret. change (has 108 (100 :: l)) with (has 108 l). change (has 100 (100 :: l)) with true.
      eexists. split; [by rewrite andb_false_r|]. apply Forall_app. split; [repeat constructor|exact Ht].
    + rewrite (bind_step (sys_do (set_log_level 0)) _ _ tt (at_start cfg tasks cells misc card 0 file)) by reflexivity.
      destruct (IH 0 file) as (t & -> & Ht). rewrite !after_Ret.
      change (has 108 (108 :: l)) with true. change (has 100 (108 :: l)) with (has 100 l).
      eexists. split; [by destruct (has 108 l)|]. apply Forall_app. split; [repeat constructor|exact Ht].
Qed.

Lemma start_all_run l p : start_all l p = Ret (tt, p, map Start l).
Proof. induction l as [|x l IH]; [done|]. cbn [start_all]. autorewrite with eff. by rewrite IH. Qed.


(** * Starts that end *)

Definition no_start (a : main_action) : Prop := match a with Start _ => False | _ => True end.
Lemma no_starts t : Forall no_start t -> starts t = [].
Proof. induction 1 as [|a t Ha _ IH]; [done|]. destruct a; cbn; by try apply IH. Qed.
Lemma no_start_map {A} (f : A -> main_action) t : (forall a, no_start (f a)) -> Forall no_start (map f t).
Proof. intros Hf. apply Forall_map, Forall_true. intros a. apply Hf. Qed.
Lemma emits_sys {A} (m : MQ A) : emits no_start (sys_do m).
Proof.
  intros p a p' t. unfold sys_do, zoom. destruct (m _) as [[[b s] l]| |]; [|done..]. cbn [cbind].
  intros [= _ _ <-]. by apply no_start_map.
Qed.
Lemma emits_ipc {A} (m : MI A) : emits no_start (ipc_do m).
Proof.
  intros p a p' t. unfold ipc_do. destruct (m tt) as [[[b s] l]| |]; [|done..]. cbn [cbind].
  intros [= _ _ <-]. by apply no_start_map.
Qed.
Ltac quiet := repeat first [ apply emits_bind; [|intros []] | apply emits_bind; [|intros ?] | apply emits_sys | apply emits_ipc
  | apply emits_ret | apply emits_get | apply emits_modify | apply emits_lift | apply emits_emit; exact I ].
Lemma emits_load env : emits no_start (load env).
Proof. unfold load, cfg_do, set_log_method. quiet. Qed.
Lemma emits_options env l : emits no_start (options env l).
Proof.
  induction l as [|c l IH]; cbn [options]; [quiet|]. unfold option_help, say, set_log_method.
  repeat (case_match; [quiet; exact IH|]). exact IH.
Qed.
Lemma options_status env l p s p' t : options env l p = Ret (Some s, p', t) -> s = 0.
Proof.
  revert p p' t. induction l as [|c l IH]; intros p p' t; cbn [options]; [by intros [= <-]|].
  unfold option_help, say. repeat case_match; intros Hrun;
    repeat (apply bind_inv in Hrun as (? & ? & ? & ? & _ & Hrun & _)); try (injection Hrun as <-; done); eauto.
Qed.
Lemma emits_wait l : emits no_start (wait_adsp l).
Proof. induction l as [|e l IH]; cbn [wait_adsp]; quiet. exact IH. Qed.

(** A start that ends, by its options, a lock that does not open or is held, or a
    device that is not there, has started no thread, and its status says why. *)
Theorem main_exits env p status p' t :
  main env p = Ret (Exit status, p', t) ->
  starts t = [] /\ (status = 0 \/ status = - ENOENT \/ status = - EBUSY \/ status = - EINVAL) /\
  (status = - ENOENT -> m_lock_opens env = false) /\ (status = - EBUSY -> m_lock_free env = false) /\
  (status = - EINVAL -> m_rmnet env = false).
Proof.
  unfold main. intros (? & p1 & t1 & t2 & H1 & (o & p2 & t3 & t4 & H2 & H3 & ->)%bind_inv & ->)%bind_inv.
  apply emits_load in H1. pose proof (emits_options _ _ _ _ _ _ H2) as Ho.
  rewrite !starts_app, (no_starts _ H1), (no_starts _ Ho). cbn [app].
  destruct o as [s|]; [apply options_status in H2 as ->; injection H3 as <- <- <-; split_and!; auto; done|].
  clear H2. unfold serve in H3. apply bind_inv in H3 as ([] & ? & ? & t5 & [= <- <-] & H3 & ->).
  destruct (m_lock_opens env) eqn:El; cbn [negb] in H3.
  2: { apply bind_inv in H3 as ([] & ? & ? & ? & [= <- <-] & [= <- <- <-] & ->). split_and!; auto; done. }
  apply bind_inv in H3 as ([] & ? & ? & t6 & [= <- <-] & H3 & ->).
  destruct (m_lock_free env) eqn:Ef; cbn [negb] in H3.
  2: { apply bind_inv in H3 as ([] & ? & ? & ? & [= <- <-] & [= <- <- <-] & ->). split_and!; auto; done. }
  apply bind_inv in H3 as ([] & ? & t7 & t8 & H4%emits_sys & H3 & ->).
  apply bind_inv in H3 as ([] & ? & t9 & t10 & H5%emits_wait & H3 & ->).
  apply bind_inv in H3 as ([] & ? & ? & t11 & [= <- <-] & H3 & ->).
  destruct (m_rmnet env) eqn:Er; cbn [negb] in H3.
  - repeat (apply bind_inv in H3 as (? & ? & ? & ? & _ & H3 & _)). done.
  - injection H3 as <- <- <-. rewrite !starts_app, (no_starts _ H4), (no_starts _ H5). split_and!; auto; done.
Qed.

(** * A start *)

Definition answering : ipc_env :=
  {| i_socket := 3;
     i_lookup := fun _ _ _ => Some (Some {| node_id := 3; port_id := 9; sv_service := 33; sv_instance := 1 |});
     i_rule := fun _ => true; i_dpm := true |}.
Definition deaf : ipc_env :=
  {| i_socket := 3; i_lookup := fun _ _ _ => None; i_rule := fun _ => true; i_dpm := true |}.
(** The baseband answers at the second look, the port mapper at the third try and
    the modem's device opens at the second. *)
Definition sample_main (args : list (list Z)) (lock_free rmnet : bool) : main_env :=
  {| m_args := args; m_cfg := sample_cfg_env; m_heap := sample_settings; m_ipc := answering;
     m_adsp := [deaf; answering]; m_lock_opens := true; m_lock_free := lock_free; m_rmnet := rmnet;
     m_smd := [false; true]; m_sends := [false; false; true]; m_sends_internal := [true]; m_audio := good_card;
     m_stack := replicate 32 0 |}.
Definition usb_part : list Z := write_at 96 (flag_bytes PERSIST_USB_AUD_MAGIC) empty_part.
Definition defaults : config_prototype := match set_initial_config sample_settings with Ret c => c | _ => sample_settings end.
Definition settings_read : cfg_state :=
  match read_settings_from_file sample_cfg_env (with_settings defaults (stored_files 0)) with
  | Ret (_, s, _) => s
  | _ => stored_files 0
  end.
Definition read_trace : list cfg_action :=
  match read_settings_from_file sample_cfg_env (with_settings defaults (stored_files 0)) with Ret (_, _, t) => t | _ => [] end.


(** Asking for the version reads the settings and counts a failed start; a modem
    without its device leaves the processor at full speed. *)
Definition counted_after (r : cres (ended * process * list main_action)) : option (list Z) :=
  match r with Ret (_, p, _) => boot_file (dv_cfg (dv (p_sys p))) | _ => None end.
Example version_counts :
  counted_after (main (sample_main [zs "-v"] true true) (zero_process (stored_files 0) None None (Some usb_part) ∅)) = Some (zs "1").
Proof. by vm_compute. Qed.
Definition board_writes (r : cres (ended * process * list main_action)) : list (list Z) :=
  match r with
  | Ret (_, _, t) => omap (fun a => match a with Do (AtBoard (WriteTo _ v)) => Some v | _ => None end) t
  | _ => []
  end.
Example performance_kept :
  board_writes (main (sample_main [] true false) (zero_process (stored_files 0) None None (Some usb_part) ∅)) = [zs "performance"].
Proof. by vm_compute. Qed.
(** A sound card that does not open: setup_codec goes through NULL. *)
Example no_card_faults p :
  reset_all {| m_args := []; m_cfg := sample_cfg_env; m_heap := sample_settings; m_ipc := answering; m_adsp := [];
     m_lock_opens := true; m_lock_free := true; m_rmnet := true; m_smd := []; m_sends := []; m_sends_internal := [];
     m_audio := {| a_codec := false; a_mixer := false; a_control := fun _ => true; a_open := fun _ => true; a_params := fun _ => true;
                   a_prepare := fun _ => true; a_start := fun _ => true; a_recording := 0; a_custom_tone := false |};
     m_stack := [] |} p = Oob.
Proof. done. Qed.
