(* ===== verification/Hash.v ===== *)
(** Digests over blocks of 64 bytes: the padding they share, a digest as a fold
    over the blocks of the padded message, and the words of 32 bits they compute
    with. Md5 and Mkbootimg prove their running contexts against it. *)

From stdpp Require Import base list numbers option.
From Stdlib Require Import ZArith Lia.
From S2P Require Import Prelude.

(** * Words of 32 bits *)

Definition rol (n x : Z) : Z := Z.lor (u32 (Z.shiftl x n)) (Z.shiftr x (32 - n)).
Definition not32 (x : Z) : Z := Z.lxor x 0xffffffff.
Definition word (x : Z) : Prop := 0 <= x < 4294967296.
Definition be (n : nat) (x : Z) : list Z := rev (le n x).
(** The words of a block. *)
Fixpoint words_of (order : list Z -> list Z) (n : nat) (b : list Z) : list Z :=
  match n with O => [] | S n => unle (order (take 4 b)) :: words_of order n (drop 4 b) end.
Definition be_words : list Z -> list Z := words_of (@rev Z) 16.
Definition le_words : list Z -> list Z := words_of id 16.
(** Reading an array of words that has the index. *)
Definition nthw (l : list Z) (n : nat) : Z := nth n l 0.

(** * Digests *)

(** A digest: what it starts with, what a block does, how the length in bits is
    written, and what is told of the words. *)
Class BlockHash := {
  h_start : list Z;
  h_compress : list Z -> list Z -> list Z;
  h_length : Z -> list Z;
  h_tell : list Z -> list Z
}.
(** One 1-bit, zeros up to 56 bytes of a block, and the length in bits. *)
Definition pad_zeros (n : nat) : nat := Z.to_nat ((55 - Z.of_nat n) mod 64).
Definition bit_length (n : nat) : Z := u64 (8 * Z.of_nat n).
Section Digest.
Context {H : BlockHash}.
Definition padded (msg : list Z) : list Z :=
  msg ++ [0x80] ++ replicate (pad_zeros (length msg)) 0 ++ h_length (bit_length (length msg)).
(** The first [n] blocks of the bytes. *)
Fixpoint absorb (n : nat) (bytes st : list Z) : list Z :=
  match n with
  | O => st
  | S n => absorb n (drop 64 bytes) (h_compress (take 64 bytes) st)
  end.
Definition digest (msg : list Z) : list Z :=
  h_tell (absorb (length (padded msg) / 64) (padded msg) h_start).

Lemma absorb_app n m a b st :
  length a = (64 * n)%nat -> absorb (n + m) (a ++ b) st = absorb m b (absorb n a st).
Proof.
  revert a st. induction n as [|n IH]; intros a st Ha.
  - by destruct a.
  - cbn [absorb Nat.add]. rewrite take_app_le, drop_app_le by lia. apply IH. rewrite length_drop. lia.
Qed.
Lemma absorb_prefix n a b st : (64 * n <= length a)%nat -> absorb n (a ++ b) st = absorb n a st.
Proof.
  revert a st. induction n as [|n IH]; intros a st Ha; [done|].
  cbn [absorb]. rewrite take_app_le, drop_app_le by lia. apply IH. rewrite length_drop. lia.
Qed.
Lemma absorb_snoc n a b st :
  length a = (64 * n)%nat -> length b = 64%nat -> absorb (S n) (a ++ b) st = h_compress b (absorb n a st).
Proof.
  intros Ha Hb. replace (S n) with (n + 1)%nat by lia. rewrite absorb_app by done. cbn [absorb].
  by rewrite take_ge by lia.
Qed.

(** The bytes and the words of a message so far: [st] has absorbed its complete
    blocks and [rest] is what is left. *)
Definition runs (msg st rest : list Z) : Prop :=
  exists n, (64 * n <= length msg)%nat /\ st = absorb n msg h_start /\ rest = drop (64 * n) msg.

Lemma runs_start : runs [] h_start [].
Proof. by exists 0%nat. Qed.
Lemma runs_app msg st rest data : runs msg st rest -> runs (msg ++ data) st (rest ++ data).
Proof.
  intros (n & Hn & -> & ->). exists n. split; [rewrite length_app; lia|].
  split; [by rewrite absorb_prefix|]. by rewrite drop_app_le by lia.
Qed.
Lemma runs_blocks msg st rest k :
  runs msg st rest -> (64 * k <= length rest)%nat -> runs msg (absorb k rest st) (drop (64 * k) rest).
Proof.
  intros (n & Hn & -> & ->) Hk. exists (n + k)%nat. rewrite length_drop in Hk. split; [lia|]. split.
  - rewrite <- (take_drop (64 * n) msg) at 3. rewrite absorb_app by (rewrite length_take; lia). f_equal.
    rewrite <- (take_drop (64 * n) msg) at 1. by rewrite absorb_prefix by (rewrite length_take; lia).
  - rewrite drop_drop. f_equal. lia.
Qed.
Lemma runs_block msg st rest :
  runs msg st rest -> length rest = 64%nat -> runs msg (h_compress rest st) [].
Proof.
  intros Hr Hl. pose proof (runs_blocks _ _ _ 1 Hr ltac:(lia)) as Hb. cbn [absorb] in Hb.
  rewrite take_ge, drop_ge in Hb by lia. exact Hb.
Qed.
Lemma runs_length msg st rest : runs msg st rest -> exists n, length msg = (64 * n + length rest)%nat.
Proof. intros (n & Hn & _ & ->). exists n. rewrite length_drop. lia. Qed.
(** When nothing is left, the words are those of the whole message. *)
Lemma runs_digest msg st :
  runs (padded msg) st [] -> h_tell st = digest msg.
Proof.
  intros (n & Hn & -> & Hd). unfold digest. assert (length (padded msg) = (64 * n)%nat) as ->.
  { apply (f_equal length) in Hd. rewrite length_drop in Hd. cbn in Hd. lia. }
  by rewrite Nat.mul_comm, Nat.div_mul.
Qed.
End Digest.

(** Two digests whose blocks do the same to every words [P] describes. *)
Section Same.
Variables (H1 H2 : BlockHash) (P : list Z -> Prop).
Hypothesis Hstart : @h_start H1 = @h_start H2.
Hypothesis Hlength : forall n, @h_length H1 n = @h_length H2 n.
Hypothesis Htell : forall st, @h_tell H1 st = @h_tell H2 st.
Hypothesis Hfirst : P (@h_start H1).
Hypothesis Hblock : forall b st, P st -> @h_compress H1 b st = @h_compress H2 b st /\ P (@h_compress H1 b st).

Lemma absorb_same n b st : P st -> @absorb H1 n b st = @absorb H2 n b st.
Proof.
  revert b st. induction n as [|n IH]; intros b st Hst; [done|]. cbn [absorb].
  destruct (Hblock (take 64 b) st Hst) as [<- ?]. by apply IH.
Qed.
Lemma digest_same msg : @digest H1 msg = @digest H2 msg.
Proof.
  unfold digest. assert (@padded H1 msg = @padded H2 msg) as Hp by (unfold padded; by rewrite Hlength).
  rewrite Htell, <- Hp, <- Hstart. f_equal. by apply absorb_same.
Qed.
End Same.

(** * Facts of words *)

Lemma u32_word x : word (u32 x).
Proof. unfold word, u32. dlia. Qed.
Lemma word_bits x n : word x -> 32 <= n -> Z.testbit x n = false.
Proof.
  intros Hx Hn. unfold word in Hx. destruct (Z.eq_dec x 0) as [->|]; [apply Z.testbit_0_l|].
  apply Z.bits_above_log2; [lia|]. apply Z.lt_le_trans with 32; [|done]. apply Z.log2_lt_pow2; lia.
Qed.
Lemma not32_bit x n : 0 <= n < 32 -> Z.testbit (not32 x) n = negb (Z.testbit x n).
Proof.
  intros Hn. unfold not32. rewrite Z.lxor_spec. change 0xffffffff with (Z.ones 32).
  rewrite Z.ones_spec_low by done. by destruct (Z.testbit x n).
Qed.
(** An equation between words, bit by bit. *)
Ltac bitwise :=
  apply Z.bits_inj'; let n := fresh "n" in intros n ?;
  repeat rewrite ?Z.lxor_spec, ?Z.land_spec, ?Z.lor_spec;
  destruct (Z_lt_le_dec n 32);
  [ rewrite ?not32_bit by lia;
    repeat match goal with |- context [Z.testbit ?x n] => destruct (Z.testbit x n) end; reflexivity
  | repeat match goal with H : word ?x |- _ => rewrite ?(word_bits x n H) by assumption; clear H end;
    rewrite ?andb_false_r, ?andb_false_l; try reflexivity ].

Lemma choose_bits b c d : word b -> word c -> word d ->
  Z.lxor d (Z.land b (Z.lxor c d)) = Z.lor (Z.land b c) (Z.land (not32 b) d).
Proof. intros. bitwise. Qed.
Lemma majority_bits b c d :
  Z.lor (Z.land b c) (Z.land d (Z.lor b c)) = Z.lxor (Z.lxor (Z.land b c) (Z.land b d)) (Z.land c d).
Proof.
  apply Z.bits_inj'. intros n Hn. repeat rewrite ?Z.lxor_spec, ?Z.land_spec, ?Z.lor_spec.
  by destruct (Z.testbit b n), (Z.testbit c n), (Z.testbit d n).
Qed.
Lemma choose_xor b c d : word b -> word c -> word d ->
  Z.lor (Z.land b c) (Z.land (not32 b) d) = Z.lxor (Z.land b c) (Z.land (not32 b) d).
Proof. intros. bitwise. Qed.

(** The length of a padded message. *)
Lemma padded_blocks n : exists k, (n + 1 + pad_zeros n + 8 = 64 * k)%nat.
Proof.
  exists ((n + 1 + pad_zeros n + 8) / 64)%nat. unfold pad_zeros.
  pose proof (Nat.div_mod_eq (n + 1 + Z.to_nat ((55 - Z.of_nat n) mod 64) + 8) 64) as Hd.
  assert ((n + 1 + Z.to_nat ((55 - Z.of_nat n) mod 64) + 8) mod 64 = 0)%nat as Hm; [|lia].
  apply Nat2Z.inj. rewrite Nat2Z.inj_mod. rewrite !Nat2Z.inj_add, Z2Nat.id by dlia. dlia.
Qed.
