(* ===== verification/Md5.v ===== *)
(** MD5 of a file (src/md5sum.c, inc/md5sum.h), which tells the firmwares of the
    baseband apart (read_adsp_version of src/helpers.c): the context that takes
    bytes in any pieces, the block, and the reading of the file. *)

From stdpp Require Import base list numbers option strings.
From Stdlib Require Import ZArith Lia.
From S2P Require Import Prelude Libc Helpers Hash.

(** * A block *)

Definition FF (b c d : Z) : Z := Z.lxor d (Z.land b (Z.lxor c d)).
Definition FG (b c d : Z) : Z := FF d b c.
Definition FH (b c d : Z) : Z := Z.lxor (Z.lxor b c) d.
Definition FI (b c d : Z) : Z := Z.lxor c (Z.lor b (not32 d)).
(** The lines of a round: the word, the shift and the constant. The four
    variables move on by one from a line to the next. *)
Definition round1 : list (nat * Z * Z) :=
  [ (0%nat, 7, 0xd76aa478); (1%nat, 12, 0xe8c7b756); (2%nat, 17, 0x242070db); (3%nat, 22, 0xc1bdceee);
    (4%nat, 7, 0xf57c0faf); (5%nat, 12, 0x4787c62a); (6%nat, 17, 0xa8304613); (7%nat, 22, 0xfd469501);
    (8%nat, 7, 0x698098d8); (9%nat, 12, 0x8b44f7af); (10%nat, 17, 0xffff5bb1); (11%nat, 22, 0x895cd7be);
    (12%nat, 7, 0x6b901122); (13%nat, 12, 0xfd987193); (14%nat, 17, 0xa679438e); (15%nat, 22, 0x49b40821) ].
Definition round2 : list (nat * Z * Z) :=
  [ (1%nat, 5, 0xf61e2562); (6%nat, 9, 0xc040b340); (11%nat, 14, 0x265e5a51); (0%nat, 20, 0xe9b6c7aa);
    (5%nat, 5, 0xd62f105d); (10%nat, 9, 0x02441453); (15%nat, 14, 0xd8a1e681); (4%nat, 20, 0xe7d3fbc8);
    (9%nat, 5, 0x21e1cde6); (14%nat, 9, 0xc33707d6); (3%nat, 14, 0xf4d50d87); (8%nat, 20, 0x455a14ed);
    (13%nat, 5, 0xa9e3e905); (2%nat, 9, 0xfcefa3f8); (7%nat, 14, 0x676f02d9); (12%nat, 20, 0x8d2a4c8a) ].
Definition round3 : list (nat * Z * Z) :=
  [ (5%nat, 4, 0xfffa3942); (8%nat, 11, 0x8771f681); (11%nat, 16, 0x6d9d6122); (14%nat, 23, 0xfde5380c);
    (1%nat, 4, 0xa4beea44); (4%nat, 11, 0x4bdecfa9); (7%nat, 16, 0xf6bb4b60); (10%nat, 23, 0xbebfbc70);
    (13%nat, 4, 0x289b7ec6); (0%nat, 11, 0xeaa127fa); (3%nat, 16, 0xd4ef3085); (6%nat, 23, 0x04881d05);
    (9%nat, 4, 0xd9d4d039); (12%nat, 11, 0xe6db99e5); (15%nat, 16, 0x1fa27cf8); (2%nat, 23, 0xc4ac5665) ].
Definition round4 : list (nat * Z * Z) :=
  [ (0%nat, 6, 0xf4292244); (7%nat, 10, 0x432aff97); (14%nat, 15, 0xab9423a7); (5%nat, 21, 0xfc93a039);
    (12%nat, 6, 0x655b59c3); (3%nat, 10, 0x8f0ccc92); (10%nat, 15, 0xffeff47d); (1%nat, 21, 0x85845dd1);
    (8%nat, 6, 0x6fa87e4f); (15%nat, 10, 0xfe2ce6e0); (6%nat, 15, 0xa3014314); (13%nat, 21, 0x4e0811a1);
    (4%nat, 6, 0xf7537e82); (11%nat, 10, 0xbd3af235); (2%nat, 15, 0x2ad7d2bb); (9%nat, 21, 0xeb86d391) ].
Definition md5_state : Type := Z * Z * Z * Z.
Definition OP (f : Z -> Z -> Z -> Z) (correct_words : list Z) (st : md5_state) (row : nat * Z * Z) : md5_state :=
  let '(a, b, c, d) := st in
  let '(k, s, T) := row in
  let a := u32 (a + (f b c d + nthw correct_words k + T)) in
  (d, u32 (rol s a + b), b, c).
Definition rounds (w : list Z) (st : md5_state) : md5_state :=
  fold_left (OP FI w) round4 (fold_left (OP FH w) round3 (fold_left (OP FG w) round2 (fold_left (OP FF w) round1 st))).
Definition md5_block (b st : list Z) : list Z :=
  match st with
  | [A; B; C; D] =>
      let '(a, b, c, d) := rounds (le_words b) (A, B, C, D) in
      [u32 (a + A); u32 (b + B); u32 (c + C); u32 (d + D)]
  | _ => st
  end.

(** * The context *)

(** struct md5_ctx: the words A to D in [md_words]. *)
Record md5_ctx := {
  md_words : list Z;
  total0 : Z; total1 : Z;         (* total[2] *)
  buflen : Z;
  buffer : list Z                 (* char[128] *)
}.
Definition md5_start : list Z := [0x67452301; 0xefcdab89; 0x98badcfe; 0x10325476].
Definition set_words (w : list Z) (c : md5_ctx) : md5_ctx :=
  {| md_words := w; total0 := total0 c; total1 := total1 c; buflen := buflen c; buffer := buffer c |}.
Definition add_total (n : Z) (c : md5_ctx) : md5_ctx :=
  let t := u32 (total0 c + n) in
  {| md_words := md_words c; total0 := t; total1 := (if t <? n then u32 (total1 c + 1) else total1 c);
     buflen := buflen c; buffer := buffer c |}.
Definition set_buffer (n : Z) (b : list Z) (c : md5_ctx) : md5_ctx :=
  {| md_words := md_words c; total0 := total0 c; total1 := total1 c; buflen := n; buffer := b |}.

(** [junk]: the bytes of the context before. *)
Definition md5_init_ctx (junk : list Z) : md5_ctx :=
  {| md_words := md5_start; total0 := 0; total1 := 0; buflen := 0; buffer := junk |}.
Fixpoint process_blocks (n : nat) (buf : list Z) (off : Z) (st : list Z) : cres (list Z) :=
  match n with
  | O => Ret st
  | S n => let* b := rdn buf off 64 in process_blocks n buf (off + 64) (md5_block b st)
  end.
Definition md5_process_block (buf : list Z) (len : Z) (c : md5_ctx) : cres md5_ctx :=
  let c := add_total len c in
  let* w := process_blocks (Z.to_nat ((len / 4 + 15) / 16)) buf 0 (md_words c) in
  Ret (set_words w c).

(** The bytes of the buffer that are not processed yet, filled up and processed. *)
Definition fill_buffer (data : list Z) (c : md5_ctx) : cres (Z * md5_ctx) :=
  let left_over := buflen c in
  let add := if zlen data <? 128 - left_over then zlen data else 128 - left_over in
  let* b := wrn (buffer c) left_over (take (Z.to_nat add) data) in
  let c := set_buffer (u32 (buflen c + add)) b c in
  if 64 <? left_over + add then
    let* c := md5_process_block (buffer c) (Z.ldiff (left_over + add) 63) c in
    let n := Z.land (left_over + add) 63 in
    let* tail := rdn (buffer c) (Z.ldiff (left_over + add) 63) (Z.to_nat n) in
    let* b := wrn (buffer c) 0 tail in
    Ret (add, set_buffer n b c)
  else Ret (add, c).
Definition md5_process_bytes (data : list Z) (c : md5_ctx) : cres md5_ctx :=
  let* '(add, c) := if negb (buflen c =? 0) then fill_buffer data c else Ret (0, c) in
  let data := drop (Z.to_nat add) data in
  let* '(data, c) :=
    if 64 <? zlen data then
      let n := Z.ldiff (zlen data) 63 in
      let* c := md5_process_block data n c in
      Ret (drop (Z.to_nat n) data, c)
    else Ret (data, c) in
  if 0 <? zlen data then
    let* b := wrn (buffer c) 0 data in Ret (set_buffer (zlen data) b c)
  else Ret c.

Definition fillbuf : list Z := 0x80 :: replicate 63 0.
Definition md5_read_ctx (c : md5_ctx) : list Z := concat (map (le 4) (md_words c)).
Definition md5_finish_ctx (c : md5_ctx) : cres (list Z) :=
  let bytes := buflen c in
  let c := add_total bytes c in
  let pad := if 56 <=? bytes then 64 + 56 - bytes else 56 - bytes in
  let* fill := rdn fillbuf 0 (Z.to_nat pad) in
  let* b := wrn (buffer c) bytes fill in
  let* b := wrn b (bytes + pad) (le 4 (u32 (Z.shiftl (total0 c) 3))) in
  let* b := wrn b (bytes + pad + 4) (le 4 (Z.lor (u32 (Z.shiftl (total1 c) 3)) (Z.shiftr (total0 c) 29))) in
  let* c := md5_process_block b (bytes + pad + 8) (set_buffer (buflen c) b c) in
  Ret (md5_read_ctx c).

(** * Files *)

(** What fread(3) does at its k-th call: it fails, or yields some of what is left,
    at least a byte when there is one. *)
Definition BLOCKSIZE : Z := 4096.
Definition fread (answer : option nat) (want : Z) (file : list Z) : nat * bool :=
  match answer with
  | None => (0%nat, true)
  | Some m => (Nat.min (Z.to_nat want) (Nat.min (length file) (Nat.max 1 m)), false)
  end.
(** The block, how much of it is filled, the last count and its error, the rest of
    the file and the next call. *)
Fixpoint read_block (answers : nat -> option nat) (fuel k : nat) (sum : Z) (buf file : list Z)
    : cres (list Z * Z * nat * bool * list Z * nat) :=
  match fuel with
  | O => Spin
  | S fuel =>
      let '(n, failed) := fread (answers k) (BLOCKSIZE - sum) file in
      let* buf := wrn buf sum (take n file) in
      let sum := sum + Z.of_nat n in
      if (sum <? BLOCKSIZE) && negb (Nat.eqb n 0)
      then read_block answers fuel (S k) sum buf (drop n file)
      else Ret (buf, sum, n, failed, drop n file, S k)
  end.
Fixpoint stream_loop (answers : nat -> option nat) (fuel k : nat) (buf file : list Z) (c : md5_ctx)
    : cres (option (list Z)) :=
  match fuel with
  | O => Spin
  | S fuel =>
      let* '(buf, sum, n, failed, file, k) := read_block answers (S (Z.to_nat BLOCKSIZE)) k 0 buf file in
      if Nat.eqb n 0 && failed then Ret None
      else if Nat.eqb n 0 then
        let* c := if 0 <? sum then let* data := rdn buf 0 (Z.to_nat sum) in md5_process_bytes data c else Ret c in
        let* res := md5_finish_ctx c in
        Ret (Some res)
      else
        let* c := md5_process_block buf BLOCKSIZE c in
        stream_loop answers fuel k buf file c
  end.
(** [junk]: the stack where the buffer and the context are; [None]: it failed. *)
Definition md5_stream (answers : nat -> option nat) (junk file : list Z) : cres (option (list Z)) :=
  stream_loop answers (S (length file)) 0 (take (Z.to_nat (BLOCKSIZE + 72)) junk) file
    (md5_init_ctx (take 128 (drop (Z.to_nat (BLOCKSIZE + 72)) junk))).
(** The file, if it opens; what md5_result has after it was cleared, and the
    status: 0 is success. *)
Definition md5_file (answers : nat -> option nat) (junk : list Z) (file : option (list Z)) (md5_result : list Z)
    : cres (list Z * Z) :=
  match file with
  | None => Ret (md5_result, 1)
  | Some file =>
      let* res := md5_stream answers junk file in
      match res with
      | None => Ret (md5_result, 1)
      | Some d => let* r := wrn md5_result 0 d in Ret (r, 0)
      end
  end.
(** read_adsp_version, from the file of the firmware on. *)
Definition md5_buffer (junk data : list Z) : cres (list Z) :=
  let* c := md5_process_bytes data (md5_init_ctx junk) in md5_finish_ctx c.
Definition adsp_version_of (answers : nat -> option nat) (junk : list Z) (file : option (list Z)) : cres Z :=
  let* '(md5_result, _) := md5_file answers junk file (replicate 64 0) in
  read_adsp_version (take 16 md5_result).

Example md5_abc : md5_buffer (replicate 128 7) (zs "abc") =
  Ret [0x90; 0x01; 0x50; 0x98; 0x3c; 0xd2; 0x4f; 0xb0; 0xd6; 0x96; 0x3f; 0x7d; 0x28; 0xe1; 0x7f; 0x72].
Proof. by vm_compute. Qed.

(** * RFC 1321 *)

(** The sine of a number of radians, times 2^160, by the first 110 terms of its
    series: for the numbers up to 64 the rest is less than 2^-80. *)
Fixpoint sine_sum (n : nat) (x2 k term acc : Z) : Z :=
  match n with
  | O => acc
  | S n => sine_sum n x2 (k + 2) (Z.quot (- (term * x2)) ((k + 1) * (k + 2))) (acc + term)
  end.
Definition sine (x : Z) : Z := sine_sum 110 (x * x) 1 (x * 2 ^ 160) 0.
(** Step [i] of the 64 of a block: its function, word, shift and constant, the
    latter the integer part of 2^32 times |sin (i + 1)|. *)
Definition rfc_f (i : nat) (b c d : Z) : Z :=
  if (i <? 16)%nat then Z.lor (Z.land b c) (Z.land (not32 b) d)
  else if (i <? 32)%nat then Z.lor (Z.land b d) (Z.land c (not32 d))
  else if (i <? 48)%nat then Z.lxor (Z.lxor b c) d
  else Z.lxor c (Z.lor b (not32 d)).
Definition rfc_k (i : nat) : nat :=
  ((if i <? 16 then i else if i <? 32 then 5 * i + 1 else if i <? 48 then 3 * i + 5 else 7 * i) mod 16)%nat.
Definition rfc_s (i : nat) : Z :=
  nthw (nth (i / 16) [[7; 12; 17; 22]; [5; 9; 14; 20]; [4; 11; 16; 23]; [6; 10; 15; 21]] []) (i mod 4).
Definition rfc_T (i : nat) : Z := Z.abs (sine (Z.of_nat i + 1)) / 2 ^ 128.
Definition rfc_step (x : list Z) (st : md5_state) (i : nat) : md5_state :=
  let '(a, b, c, d) := st in
  (d, u32 (b + rol (rfc_s i) (u32 (a + rfc_f i b c d + nthw x (rfc_k i) + rfc_T i))), b, c).
Definition rfc_block (b st : list Z) : list Z :=
  match st with
  | [A; B; C; D] =>
      let '(a, b, c, d) := fold_left (rfc_step (le_words b)) (seq 0 64) (A, B, C, D) in
      [u32 (A + a); u32 (B + b); u32 (C + c); u32 (D + d)]
  | _ => st
  end.
Definition rfc1321 : BlockHash :=
  {| h_start := md5_start; h_compress := rfc_block; h_length := le 8; h_tell := fun st => concat (map (le 4) st) |}.
Definition md5_code : BlockHash :=
  {| h_start := md5_start; h_compress := md5_block; h_length := le 8; h_tell := fun st => concat (map (le 4) st) |}.

Definition row (i : nat) : nat * Z * Z := (rfc_k i, rfc_s i, rfc_T i).
Lemma rounds_rows :
  round1 = map row (seq 0 16) /\ round2 = map row (seq 16 16) /\ round3 = map row (seq 32 16) /\
  round4 = map row (seq 48 16).
Proof. by vm_compute. Qed.

Definition words4 (st : md5_state) : Prop := let '(a, b, c, d) := st in word a /\ word b /\ word c /\ word d.
Lemma op_rfc f w st i :
  (forall b c d, word b -> word c -> word d -> f b c d = rfc_f i b c d) ->
  words4 st -> OP f w st (row i) = rfc_step w st i /\ words4 (rfc_step w st i).
Proof.
  intros Hf. destruct st as [[[a b] c] d]. intros (Ha & Hb & Hc & Hd). unfold OP, rfc_step, row. cbn [words4].
  split.
  - rewrite Hf by done. rewrite (Z.add_comm b), <- !Z.add_assoc. reflexivity.
  - split; [done|]. split; [apply u32_word|]. by split.
Qed.
Lemma round_rfc f w l st :
  Forall (fun i => forall b c d, word b -> word c -> word d -> f b c d = rfc_f i b c d) l ->
  words4 st -> fold_left (OP f w) (map row l) st = fold_left (rfc_step w) l st /\
               words4 (fold_left (rfc_step w) l st).
Proof.
  intros Hf. revert st. induction Hf as [|i l Hi _ IH]; intros st Hst; [done|]. cbn [fold_left map].
  destruct (op_rfc f w st i Hi Hst) as [-> Hw]. by apply IH.
Qed.
Lemma second_bits b c d : word b -> word c -> word d -> FF d b c = Z.lor (Z.land b d) (Z.land c (not32 d)).
Proof. intros Hb Hc Hd. unfold FF. rewrite choose_bits by done. by rewrite (Z.land_comm d b), (Z.land_comm c). Qed.

Definition state_ok (st : list Z) : Prop := exists a b c d, st = [a; b; c; d] /\ words4 (a, b, c, d).
Lemma block_rfc b st : state_ok st -> md5_block b st = rfc_block b st /\ state_ok (md5_block b st).
Proof.
  intros (A & B & C & D & -> & Hst). unfold md5_block, rfc_block, rounds.
  destruct rounds_rows as (-> & -> & -> & ->).
  change (seq 0 64) with (seq 0 16 ++ seq 16 16 ++ seq 32 16 ++ seq 48 16).
  rewrite !fold_left_app.
  assert (Hr : forall f k st, (forall i, (k <= i < k + 16)%nat -> forall b c d, word b -> word c -> word d -> f b c d = rfc_f i b c d) ->
    words4 st -> fold_left (OP f (le_words b)) (map row (seq k 16)) st = fold_left (rfc_step (le_words b)) (seq k 16) st /\
    words4 (fold_left (rfc_step (le_words b)) (seq k 16) st)).
  { intros f k st' Hf. apply round_rfc. apply list.Forall_forall. intros i Hi%elem_of_seq. by apply Hf. }
  destruct (Hr FF 0%nat (A, B, C, D)) as [-> W1]; [|done|].
  { intros i Hi b0 c0 d0 ???. unfold rfc_f. rewrite (proj2 (Nat.ltb_lt i 16)) by lia. by apply choose_bits. }
  edestruct (Hr FG 16%nat) as [-> W2]; [|exact W1|].
  { intros i Hi b0 c0 d0 ???. unfold rfc_f. rewrite (proj2 (Nat.ltb_ge i 16)), (proj2 (Nat.ltb_lt i 32)) by lia.
    by apply second_bits. }
  edestruct (Hr FH 32%nat) as [-> W3]; [|exact W2|].
  { intros i Hi b0 c0 d0 ???. unfold rfc_f.
    by rewrite (proj2 (Nat.ltb_ge i 16)), (proj2 (Nat.ltb_ge i 32)), (proj2 (Nat.ltb_lt i 48)) by lia. }
  edestruct (Hr FI 48%nat) as [-> W4]; [|exact W3|].
  { intros i Hi b0 c0 d0 ???. unfold rfc_f.
    by rewrite (proj2 (Nat.ltb_ge i 16)), (proj2 (Nat.ltb_ge i 32)), (proj2 (Nat.ltb_ge i 48)) by lia. }
  clear Hr W1 W2 W3 W4. generalize (fold_left (rfc_step (le_words b)) (seq 48 16)
    (fold_left (rfc_step (le_words b)) (seq 32 16) (fold_left (rfc_step (le_words b)) (seq 16 16)
      (fold_left (rfc_step (le_words b)) (seq 0 16) (A, B, C, D))))). intros [[[a b'] c] d]. rewrite (Z.add_comm a), (Z.add_comm b'), (Z.add_comm c), (Z.add_comm d).
  split; [done|]. eexists _, _, _, _. split; [reflexivity|]. repeat split; apply u32_word.
Qed.
Lemma code_is_rfc msg : @digest md5_code msg = @digest rfc1321 msg.
Proof.
  apply (digest_same md5_code rfc1321 state_ok); try done.
  - eexists _, _, _, _. split; [reflexivity|]. repeat split; discriminate.
  - intros b st Hst. by apply block_rfc.
Qed.

(** * The context *)

(** What the context holds of a message: the words of its processed blocks, the
    rest in the buffer (at most 64 bytes: a complete block may wait) and the count
    of the processed bytes modulo 2^64. *)
Definition total_of (c : md5_ctx) : Z := total0 c + 4294967296 * total1 c.
Definition totals_ok (c : md5_ctx) : Prop := word (total0 c) /\ word (total1 c).
Definition holds (msg : list Z) (c : md5_ctx) : Prop :=
  exists rest, @runs md5_code msg (md_words c) rest /\ zlen rest = buflen c /\ buflen c <= 64 /\
    take (length rest) (buffer c) = rest /\ length (buffer c) = 128%nat /\
    total_of c = u64 (zlen msg - zlen rest) /\ totals_ok c.

Lemma init_holds junk : length junk = 128%nat -> holds [] (md5_init_ctx junk).
Proof. intros Hj. exists []. split; [exact (@runs_start md5_code)|]. by repeat split. Qed.

Lemma add_total_run n c :
  totals_ok c -> 0 <= n < 4294967296 ->
  total_of (add_total n c) = u64 (total_of c + n) /\ totals_ok (add_total n c) /\
  md_words (add_total n c) = md_words c /\ buflen (add_total n c) = buflen c /\ buffer (add_total n c) = buffer c.
Proof.
  intros [H0 H1] Hn. unfold totals_ok, total_of, add_total, word in *. cbn. split; [|split; [|done]].
  - unfold u32, u64. destruct (Z.ltb_spec ((total0 c + n) mod 4294967296) n); dlia.
  - split; [apply u32_word|]. destruct (_ <? _); [apply u32_word|done].
Qed.
Lemma ldiff_63 x : 0 <= x -> Z.ldiff x 63 = 64 * (x / 64).
Proof.
  intros Hx. change 63 with (Z.ones 6). rewrite Z.ldiff_ones_r by lia. rewrite Z.shiftr_div_pow2, Z.shiftl_mul_pow2 by lia.
  change (2 ^ 6) with 64. lia.
Qed.
Lemma land_63 x : Z.land x 63 = x mod 64.
Proof. change 63 with (Z.ones 6). by rewrite Z.land_ones. Qed.

Lemma process_blocks_run n buf off st :
  0 <= off -> off + 64 * Z.of_nat n <= zlen buf ->
  process_blocks n buf off st = Ret (@absorb md5_code n (drop (Z.to_nat off) buf) st).
Proof.
  revert off st. induction n as [|n IH]; intros off st H0 Hl; [done|]. cbn [process_blocks absorb].
  assert (Hb : rdn buf off 64 = Ret (take 64 (drop (Z.to_nat off) buf))).
  { assert (Hz : zlen (take (Z.to_nat off) buf) = off) by (unfold zlen in *; rewrite length_take; lia).
    pose proof (rdn_shift (take (Z.to_nat off) buf) (drop (Z.to_nat off) buf) 0 64 ltac:(lia)) as Hs.
    rewrite take_drop, Hz, Z.add_0_r in Hs. rewrite Hs. apply rdn_head. unfold zlen in *. rewrite length_drop. lia. }
  rewrite Hb. cbn [cbind]. rewrite IH by lia. rewrite drop_drop. do 3 f_equal. lia.
Qed.
Lemma process_block_run k buf c :
  0 <= k -> 64 * k < 4294967296 -> 64 * k <= zlen buf ->
  md5_process_block buf (64 * k) c =
    Ret (set_words (@absorb md5_code (Z.to_nat k) buf (md_words c)) (add_total (64 * k) c)).
Proof.
  intros Hk Hm Hl. unfold md5_process_block.
  replace ((64 * k / 4 + 15) / 16) with k by dlia.
  rewrite process_blocks_run by lia. by destruct c.
Qed.

(** Complete blocks from a buffer that starts with the rest of the message. *)
Lemma blocks_hold msg st rest c k :
  @runs md5_code msg st rest -> md_words c = st -> 64 * Z.of_nat k <= zlen rest ->
  @runs md5_code msg (@absorb md5_code k rest (md_words c)) (drop (64 * k) rest).
Proof. intros Hr -> Hk. apply runs_blocks; [done|]. unfold zlen in Hk. lia. Qed.

Lemma fill_run msg c data :
  holds msg c -> 0 < buflen c -> exists add c', fill_buffer data c = Ret (add, c') /\ 0 <= add <= zlen data /\
    holds (msg ++ take (Z.to_nat add) data) c' /\ (add = zlen data \/ buflen c' = 0).
Proof.
  intros (rest & Hr & Hlen & Hmax & Hbuf & H128 & Htot & Hok) Hpos. pose proof (zlen_nonneg data).
  unfold fill_buffer. set (add := if zlen data <? 128 - buflen c then zlen data else 128 - buflen c).
  assert (Hadd : 0 <= add <= zlen data /\ buflen c + add <= 128 /\ (add = zlen data \/ buflen c + add = 128)).
  { unfold add. destruct (Z.ltb_spec (zlen data) (128 - buflen c)); lia. }
  destruct Hadd as (Ha & Hb & Hend). set (d := take (Z.to_nat add) data).
  assert (Hd : zlen d = add) by (unfold d, zlen in *; rewrite length_take; lia).
  set (tail := drop (length rest + length d) (buffer c)).
  assert (Hsplit : buffer c = rest ++ take (length d) (drop (length rest) (buffer c)) ++ tail).
  { unfold tail. rewrite <- Hbuf at 1. rewrite <- drop_drop, !take_drop. done. }
  assert (Hw : wrn (buffer c) (buflen c) d = Ret (rest ++ d ++ tail)).
  { rewrite Hsplit at 1. rewrite <- Hlen. apply wrn_app. rewrite length_take, length_drop. unfold zlen in *. lia. }
  assert (Htail : length (rest ++ d ++ tail) = 128%nat).
  { unfold tail. rewrite !length_app, length_drop. unfold zlen in *. lia. }
  rewrite Hw. cbn [cbind]. rewrite (u32_small (buflen c + add)) by lia.
  assert (Hmsg : zlen (msg ++ d) - zlen (rest ++ d) = zlen msg - zlen rest) by (zl; lia).
  pose proof (runs_app _ _ _ d Hr) as Hrun.
  destruct (Z.ltb_spec 64 (buflen c + add)) as [Hlt|Hge].
  - rewrite ldiff_63, land_63 by lia. set (k := (buflen c + add) / 64). assert (1 <= k <= 2) by (unfold k; dlia).
    cbn [buffer set_buffer]. rewrite process_block_run by (unfold zlen in *; lia). cbn [cbind].
    set (c1 := set_buffer _ _ _). destruct (add_total_run (64 * k) c1) as (T1 & T2 & T3 & T4 & T5); [exact Hok|lia|].
    cbn [buffer set_words]. rewrite T5. cbn [buffer set_buffer c1].
    set (left := drop (64 * Z.to_nat k) (rest ++ d)).
    assert (Hleft : zlen left = (buflen c + add) mod 64).
    { unfold left, zlen in *. rewrite length_drop, length_app. unfold k in *. dlia. }
    assert (Hrd : rdn (rest ++ d ++ tail) (64 * k) (Z.to_nat ((buflen c + add) mod 64)) = Ret left).
    { rewrite app_assoc. rewrite <- (take_drop (64 * Z.to_nat k) (rest ++ d)), <- app_assoc. fold left.
      replace (64 * k) with (zlen (take (64 * Z.to_nat k) (rest ++ d)))
        by (unfold zlen in *; rewrite length_take, length_app; unfold k in *; dlia).
      rewrite <- Hleft. unfold zlen at 2. rewrite Nat2Z.id. apply rdn_app. }
    rewrite Hrd. cbn [cbind].
    rewrite wrn_ok by (unfold zlen in *; rewrite ?Htail; dlia). cbn [cbind].
    eexists _, _. split; [reflexivity|]. split; [exact Ha|]. split.
    + exists left. cbn [md_words set_words set_buffer buflen buffer total_of]. split.
      * rewrite app_assoc, absorb_prefix by (unfold zlen in *; rewrite length_app; unfold k in *; dlia).
        apply (blocks_hold _ _ _ c _ Hrun eq_refl). zl. unfold k in *. dlia.
      * split; [exact Hleft|]. split; [dlia|].
        change (Z.to_nat 0) with 0%nat. rewrite take_0. cbn [app]. split; [by rewrite take_app_length|]. split.
        { rewrite length_app, length_drop, Htail. unfold zlen in *. dlia. }
        split; [|exact T2]. change (total_of (add_total (64 * k) c1) = u64 (zlen (msg ++ d) - zlen left)).
        rewrite T1. change (total_of c1) with (total_of c). rewrite Htot. unfold u64.
        rewrite Zplus_mod_idemp_l. f_equal. rewrite Hleft. zl. unfold k in *. dlia.
    + cbn [buflen set_buffer]. destruct Hend as [->|He]; [by left|]. right. rewrite He. done.
  - eexists _, _. split; [reflexivity|]. split; [exact Ha|]. split; [|left; lia].
    exists (rest ++ d). cbn [md_words set_buffer buflen buffer total_of]. split; [exact Hrun|].
    split; [zl; lia|]. split; [lia|]. split; [by rewrite app_assoc, take_app_length|]. split; [exact Htail|].
    split; [|exact Hok]. change (total_of c = u64 (zlen (msg ++ d) - zlen (rest ++ d))). by rewrite Hmsg.
Qed.

(** The bytes that follow, when nothing waits in the buffer. *)
Lemma rest_run msg c data :
  holds msg c -> buflen c = 0 -> zlen data < 4294967296 ->
  exists c', (let* '(data, c) :=
      if 64 <? zlen data then
        let n := Z.ldiff (zlen data) 63 in
        let* c := md5_process_block data n c in Ret (drop (Z.to_nat n) data, c)
      else Ret (data, c) in
    if 0 <? zlen data then let* b := wrn (buffer c) 0 data in Ret (set_buffer (zlen data) b c) else Ret c) = Ret c' /\
    holds (msg ++ data) c'.
Proof.
  intros (rest & Hr & Hlen & _ & _ & H128 & Htot & Hok) H0 Hmax.
  assert (rest = []) as -> by (destruct rest; [done|rewrite zlen_cons in Hlen; pose proof (zlen_nonneg rest); lia]).
  pose proof (runs_app _ _ _ data Hr) as Hrun. cbn [app] in Hrun. pose proof (zlen_nonneg data).
  change (zlen (@nil Z)) with 0 in *. rewrite Z.sub_0_r in Htot.
  set (k := if 64 <? zlen data then zlen data / 64 else 0). set (left := drop (64 * Z.to_nat k) data).
  assert (Hk : 0 <= k /\ 64 * k <= zlen data /\ zlen data - 64 * k <= 64 /\ k <= zlen data / 64)
    by (unfold k; destruct (Z.ltb_spec 64 (zlen data)); dlia).
  assert (Hleft : zlen left = zlen data - 64 * k) by (unfold left, zlen in *; rewrite length_drop; lia).
  (* the complete blocks *)
  assert (exists c1, (if 64 <? zlen data then
        let n := Z.ldiff (zlen data) 63 in
        let* c := md5_process_block data n c in Ret (drop (Z.to_nat n) data, c)
      else Ret (data, c)) = Ret (left, c1) /\ @runs md5_code (msg ++ data) (md_words c1) left /\
      length (buffer c1) = 128%nat /\ total_of c1 = u64 (zlen (msg ++ data) - zlen left) /\ totals_ok c1 /\
      buflen c1 = 0) as (c1 & -> & Hr1 & Hl1 & Ht1 & Hok1 & Hb1).
  { unfold left, k in *. destruct (Z.ltb_spec 64 (zlen data)) as [Hlt|Hge].
    - rewrite ldiff_63 by done. cbv zeta. rewrite process_block_run by lia. cbn [cbind].
      destruct (add_total_run (64 * (zlen data / 64)) c Hok ltac:(lia)) as (T1 & T2 & T3 & T4 & T5).
      eexists. split; [do 2 f_equal; f_equal; lia|]. cbn [md_words set_words buffer buflen]. split; [|split; [|split; [|split]]].
      + apply (blocks_hold _ _ _ c _ Hrun eq_refl). lia.
      + by rewrite T5.
      + change (total_of (add_total (64 * (zlen data / 64)) c) = u64 (zlen (msg ++ data) - zlen (drop (64 * Z.to_nat (zlen data / 64)) data))).
        rewrite T1, Htot, Hleft. unfold u64. rewrite Zplus_mod_idemp_l. f_equal. zl. lia.
      + exact T2.
      + by rewrite T4.
    - eexists. split; [reflexivity|]. split; [exact Hrun|]. split; [done|]. split; [|done].
      rewrite Htot. f_equal. rewrite Hleft. zl. lia. }
  cbn [cbind]. destruct (Z.ltb_spec 0 (zlen left)) as [Hlt|Hge].
  - rewrite wrn_ok by (unfold zlen in *; rewrite ?Hl1; lia). change (Z.to_nat 0) with 0%nat. rewrite take_0. cbn [app cbind].
    eexists. split; [reflexivity|]. exists left. cbn [md_words set_buffer buflen buffer]. split; [exact Hr1|].
    split; [done|]. split; [lia|]. split; [by rewrite take_app_length|].
    split; [rewrite length_app, length_drop, Hl1; unfold zlen in *; lia|]. by split.
  - eexists. split; [reflexivity|].
    assert (left = []) as El by (destruct left as [|x l]; [done|rewrite zlen_cons in Hge; pose proof (zlen_nonneg l); lia]).
    rewrite El in *. exists []. split; [exact Hr1|]. change (zlen (@nil Z)) with 0. split; [done|]. split; [lia|]. by split.
Qed.
(** Any piece is taken. *)
Lemma process_bytes_run msg c data :
  holds msg c -> zlen data < 4294967296 ->
  exists c', md5_process_bytes data c = Ret c' /\ holds (msg ++ data) c'.
Proof.
  intros Hc Hmax. assert (0 <= buflen c) by (destruct Hc as (rest & _ & <- & _); apply zlen_nonneg).
  unfold md5_process_bytes. destruct (Z.eqb_spec (buflen c) 0) as [H0|Hne]; cbn [negb].
  - cbn [cbind]. change (drop (Z.to_nat 0) data) with data. by apply rest_run.
  - destruct (fill_run msg c data Hc ltac:(lia)) as (add & c1 & -> & Ha & Hh & Hend). cbn [cbind].
    assert (msg ++ data = (msg ++ take (Z.to_nat add) data) ++ drop (Z.to_nat add) data) as ->
      by (by rewrite <- app_assoc, take_drop).
    assert (zlen (drop (Z.to_nat add) data) < 4294967296) by (unfold zlen in *; rewrite length_drop; lia).
    destruct Hend as [->|Hz]; [|by apply rest_run].
    rewrite drop_ge in * by (unfold zlen; lia). change (zlen []) with 0. cbn [Z.ltb Z.compare cbind].
    eexists. split; [reflexivity|]. by rewrite app_nil_r.
Qed.

Lemma length_bytes bits0 bits1 :
  word bits0 -> word bits1 ->
  le 4 (u32 (Z.shiftl bits0 3)) ++ le 4 (Z.lor (u32 (Z.shiftl bits1 3)) (Z.shiftr bits0 29)) =
    le 8 (u64 (8 * (bits0 + 4294967296 * bits1))).
Proof.
  intros H0 H1. unfold word in *. rewrite Z.shiftl_mul_pow2, Z.shiftr_div_pow2 by lia.
  assert (Z.lor (u32 (Z.shiftl bits1 3)) (bits0 / 2 ^ 29) = u32 (8 * bits1) + bits0 / 2 ^ 29) as ->.
  { replace (u32 (Z.shiftl bits1 3)) with (Z.shiftl (bits1 mod 2 ^ 29) 3)
      by (rewrite !Z.shiftl_mul_pow2 by lia; unfold u32; change (2 ^ 29) with 536870912; change (2 ^ 3) with 8; dlia).
    set (lo := bits0 / 2 ^ 29). set (hi := bits1 mod 2 ^ 29).
    assert (Hlo : 0 <= lo < 2 ^ 3) by (unfold lo; change (2 ^ 29) with 536870912; change (2 ^ 3) with 8; dlia).
    pose proof (Z.add_lor_land lo (Z.shiftl hi 3)) as Hs. rewrite lor_shift_disjoint in Hs by (exact Hlo || lia).
    rewrite Z.lor_comm. rewrite Z.shiftl_mul_pow2 in Hs |- * by lia.
    replace (u32 (8 * bits1)) with (hi * 2 ^ 3)
      by (unfold hi, u32; change (2 ^ 29) with 536870912; change (2 ^ 3) with 8; dlia).
    lia. }
  change (2 ^ 3) with 8. change (2 ^ 29) with 536870912.
  set (x := u64 (8 * (bits0 + 4294967296 * bits1))).
  assert (u32 (bits0 * 8) = x mod 4294967296) as -> by (unfold x, u32, u64; dlia).
  assert (u32 (8 * bits1) + bits0 / 536870912 = x / 4294967296) as -> by (unfold x, u32, u64; dlia).
  assert (le 4 (x mod 4294967296) = le 4 x) as ->.
  { rewrite (Z.div_mod x 4294967296) at 2 by done. rewrite Z.add_comm, Z.mul_comm. symmetry.
    exact (le_add_high 4 (x mod 4294967296) (x / 4294967296)). }
  cbn [le app]. rewrite !Z.div_div by lia. reflexivity.
Qed.

(** The padding that is written behind the rest. *)
Lemma padding_run bytes n :
  0 <= bytes <= 64 -> (exists k, n = 64 * k + Z.to_nat bytes)%nat ->
  (if 56 <=? bytes then 64 + 56 - bytes else 56 - bytes) = 1 + Z.of_nat (pad_zeros n).
Proof.
  intros Hb (k & ->). unfold pad_zeros.
  assert ((55 - Z.of_nat (64 * k + Z.to_nat bytes)) mod 64 = (55 - bytes) mod 64) as ->.
  { replace (55 - Z.of_nat (64 * k + Z.to_nat bytes)) with (55 - bytes + - Z.of_nat k * 64) by lia.
    by rewrite Z.mod_add by lia. }
  destruct (Z.leb_spec 56 bytes); dlia.
Qed.
Lemma finish_run msg c :
  holds msg c -> md5_finish_ctx c = Ret (@digest md5_code msg).
Proof.
  intros (rest & Hr & Hlen & Hmax & Hbuf & H128 & Htot & Hok). unfold md5_finish_ctx. rewrite <- Hlen in *.
  pose proof (zlen_nonneg rest). destruct (runs_length _ _ _ Hr) as [n Hn].
  assert (Hpad := padding_run (zlen rest) (length msg) ltac:(lia) ltac:(exists n; unfold zlen; lia)).
  cbv zeta. set (pad := if 56 <=? zlen rest then 64 + 56 - zlen rest else 56 - zlen rest) in *.
  assert (Hp : 1 <= pad <= 64 /\ zlen rest + pad + 8 <= 128)
    by (unfold pad; destruct (Z.leb_spec 56 (zlen rest)); lia).
  set (fill := 0x80 :: replicate (pad_zeros (length msg)) 0).
  assert (Hfill : rdn fillbuf 0 (Z.to_nat pad) = Ret fill).
  { rewrite rdn_head by (cbn; lia). rewrite Hpad. replace (Z.to_nat (1 + Z.of_nat (pad_zeros (length msg))))
      with (S (pad_zeros (length msg))) by lia.
    unfold fillbuf, fill. cbn [take]. do 2 f_equal. rewrite take_replicate. f_equal. lia. }
  rewrite Hfill. cbn [cbind].
  destruct (add_total_run (zlen rest) c Hok ltac:(lia)) as (T1 & T2 & T3 & T4 & T5).
  rewrite T5, T4. rewrite Htot in T1. set (c1 := add_total (zlen rest) c) in *.
  assert (Hzf : zlen fill = pad) by (unfold fill; zl; lia).
  set (l1 := le 4 _). set (l2 := le 4 _).
  assert (Hw : (let* b := wrn (buffer c) (zlen rest) fill in let* b := wrn b (zlen rest + pad) l1 in
    wrn b (zlen rest + pad + 4) l2) = Ret (rest ++ (fill ++ l1 ++ l2) ++ drop (length (rest ++ fill ++ l1 ++ l2)) (buffer c))).
  { transitivity (wrn (buffer c) (zlen rest) (fill ++ l1 ++ l2)).
    - rewrite wrn_concat. destruct (wrn (buffer c) (zlen rest) fill) as [b1| |]; cbn [cbind]; [|done..].
      by rewrite wrn_concat, Hzf.
    - assert (zlen (fill ++ l1 ++ l2) = pad + 8) by (rewrite !zlen_app, Hzf; reflexivity).
      rewrite wrn_ok by (unfold zlen in *; lia). unfold zlen at 1. rewrite Nat2Z.id, Hbuf.
      do 3 f_equal. rewrite (length_app rest). f_equal. unfold zlen. lia. }
  rewrite <- cbind_assoc in Hw. rewrite <- cbind_assoc.
  assert (Hbits : l1 ++ l2 = le 8 (bit_length (length msg))).
  { unfold l1, l2. destruct T2. rewrite length_bytes by done. f_equal. unfold bit_length, total_of in *. rewrite T1.
    unfold u64, zlen. dlia. }
  rewrite <- cbind_assoc, Hw. cbn [cbind]. rewrite Hbits in *.
  set (P := fill ++ le 8 (bit_length (length msg))). set (junk := drop _ (buffer c)).
  destruct (padded_blocks (length msg)) as [kk Hk].
  assert (HP : zlen rest + zlen P = zlen rest + pad + 8) by (unfold P; rewrite zlen_app, Hzf, zlen_le; lia).
  assert (Hmul : exists k, zlen rest + pad + 8 = 64 * k /\ 0 <= k <= 2).
  { exists ((zlen rest + pad + 8) / 64). unfold zlen in *. dlia. }
  destruct Hmul as (k & Hm & Hk2). rewrite Hm.
  assert (Hz : zlen (rest ++ P ++ junk) = 128).
  { unfold junk. rewrite !zlen_app. unfold zlen in *. rewrite length_drop, length_app. fold P. lia. }
  rewrite process_block_run by lia. cbn [cbind]. do 2 f_equal. cbn [md_words set_words set_buffer].
  rewrite T3. change (md5_read_ctx (set_words ?w ?c)) with (@h_tell md5_code w).
  apply (@runs_digest md5_code).
  assert (@padded md5_code msg = msg ++ P) as -> by (unfold padded, P, fill; by rewrite <- app_comm_cons).
  pose proof (runs_app _ _ _ P Hr) as Hrun.
  rewrite app_assoc, absorb_prefix by (rewrite length_app; unfold zlen in *; lia).
  replace (@nil Z) with (drop (64 * Z.to_nat k) (rest ++ P)) by (apply drop_ge; rewrite length_app; unfold zlen in *; lia).
  apply runs_blocks; [done|]. rewrite length_app. unfold zlen in *. lia.
Qed.

(** Complete blocks of a buffer, when nothing waits. *)
Lemma whole_blocks_run msg c buf k :
  holds msg c -> buflen c = 0 -> 0 <= k -> 64 * k < 4294967296 -> 64 * k <= zlen buf ->
  exists c', md5_process_block buf (64 * k) c = Ret c' /\ holds (msg ++ take (64 * Z.to_nat k) buf) c' /\ buflen c' = 0.
Proof.
  intros (rest & Hr & Hlen & _ & _ & H128 & Htot & Hok) H0 Hk Hm Hl.
  assert (rest = []) as -> by (destruct rest; [done|rewrite zlen_cons in Hlen; pose proof (zlen_nonneg rest); lia]).
  rewrite process_block_run by lia. eexists. split; [reflexivity|]. set (d := take _ buf).
  assert (Hd : zlen d = 64 * k) by (unfold d, zlen in *; rewrite length_take; lia).
  pose proof (runs_app _ _ _ d Hr) as Hrun. cbn [app] in Hrun. change (zlen (@nil Z)) with 0 in *.
  destruct (add_total_run (64 * k) c Hok ltac:(lia)) as (T1 & T2 & T3 & T4 & T5).
  split; [|cbn [buflen set_words]; by rewrite T4].
  exists []. cbn [md_words set_words buflen buffer]. rewrite T4, T5. split; [|split; [done|split; [lia|split; [done|split; [done|]]]]].
  - assert (@absorb md5_code (Z.to_nat k) buf (md_words c) = @absorb md5_code (Z.to_nat k) d (md_words c)) as ->.
    { rewrite <- (take_drop (64 * Z.to_nat k) buf) at 1. apply absorb_prefix. fold d. unfold zlen in *. lia. }
    replace (@nil Z) with (drop (64 * Z.to_nat k) d) by (apply drop_ge; unfold zlen in *; lia).
    apply runs_blocks; [done|]. unfold zlen in *. lia.
  - split; [|exact T2]. change (total_of (add_total (64 * k) c) = u64 (zlen (msg ++ d) - 0)).
    rewrite T1, Htot. unfold u64. rewrite Zplus_mod_idemp_l. f_equal. zl. lia.
Qed.

(** * Reading the file *)

Definition never_fails (answers : nat -> option nat) : Prop := forall k, answers k <> None.

Lemma read_block_run answers fuel k data tail file :
  never_fails answers -> zlen data < 4096 -> 4096 <= zlen (data ++ tail) -> (Z.to_nat (4096 - zlen data) < fuel)%nat ->
  exists n k' tail', length tail' = (length (data ++ tail) - Nat.min 4096 (length (data ++ file)))%nat /\
    read_block answers fuel k (zlen data) (data ++ tail) file =
      Ret (take 4096 (data ++ file) ++ tail', Z.min 4096 (zlen (data ++ file)), n, false,
           drop 4096 (data ++ file), k') /\
    (n = 0%nat <-> zlen (data ++ file) < 4096).
Proof.
  intros Ha. revert k data tail file. induction fuel as [|fuel IH]; intros k data tail file Hd Ht Hf; [lia|].
  pose proof (zlen_nonneg data). cbn [read_block]. destruct (answers k) as [m|] eqn:Em; [|by apply Ha in Em].
  cbn [fread]. unfold BLOCKSIZE in *. set (n := Nat.min (Z.to_nat (4096 - zlen data)) (Nat.min (length file) (Nat.max 1 m))).
  assert (Hn : (n <= length file)%nat /\ Z.of_nat n <= 4096 - zlen data /\ (n = 0%nat <-> length file = 0%nat))
    by (unfold n; lia).
  assert (Hl : length (take n file) = n) by (rewrite length_take; lia).
  rewrite wrn_ok by (unfold zlen in *; rewrite ?Hl; lia).
  cbn [cbind]. rewrite Hl. assert (Hnat : Z.to_nat (zlen data) = length data) by (unfold zlen; lia).
  rewrite Hnat, take_app_length. set (t1 := drop (length data + n) (data ++ tail)).
  assert (Ht1 : (length data + n + length t1 = length (data ++ tail))%nat)
    by (unfold t1; rewrite length_drop; unfold zlen in *; rewrite length_app in *; lia).
  assert (Hz : zlen (data ++ take n file) = zlen data + Z.of_nat n) by (zl; unfold zlen in *; lia).
  assert (Hdf : data ++ file = (data ++ take n file) ++ drop n file) by (by rewrite <- app_assoc, take_drop).
  destruct ((zlen data + Z.of_nat n <? 4096) && negb (Nat.eqb n 0)) eqn:E.
  - apply andb_true_iff in E as [E1%Z.ltb_lt E2%negb_true_iff%Nat.eqb_neq]. rewrite <- Hz, app_assoc, Hdf.
    assert (length ((data ++ take n file) ++ t1) = length (data ++ tail)) as Hlen by (rewrite !length_app in *; lia).
    destruct (IH (S k) (data ++ take n file) t1 (drop n file)) as (n' & k' & tail' & Hl' & Hrun & Hn'); [lia| |lia|].
    { unfold zlen in *. lia. }
    exists n', k', tail'. rewrite <- Hlen. done.
  - exists n, (S k), t1.
    assert (zlen data + Z.of_nat n = 4096 \/ n = 0%nat) as [Hfull|H0].
    { apply andb_false_iff in E as [E%Z.ltb_ge|E%negb_false_iff%Nat.eqb_eq]; lia. }
    + assert (take 4096 (data ++ file) = data ++ take n file /\ drop 4096 (data ++ file) = drop n file) as [-> ->].
      { rewrite Hdf. split; [apply take_app_length'|apply drop_app_length']; rewrite length_app, Hl; unfold zlen in *; lia. }
      split; [unfold zlen in *; rewrite !length_app in *; lia|]. split; [|zl; unfold zlen in *; lia].
      rewrite <- app_assoc. repeat f_equal. zl. unfold zlen in *. lia.
    + assert (file = []) as -> by (apply nil_length_inv; lia). rewrite app_nil_r.
      split; [unfold zlen in *; rewrite !length_app in *; lia|]. split; [|unfold zlen in *; lia].
      rewrite (take_ge data), (drop_ge data) by (unfold zlen in *; lia). cbn [app].
      replace (Z.min 4096 (zlen data)) with (zlen data + Z.of_nat n) by lia. rewrite H0. reflexivity.
Qed.

Lemma stream_run answers fuel k buf file msg c :
  never_fails answers -> (length file < fuel)%nat -> zlen buf = 4168 -> holds msg c -> buflen c = 0 ->
  stream_loop answers fuel k buf file c = Ret (Some (@digest md5_code (msg ++ file))).
Proof.
  intros Ha. revert k buf file msg c. induction fuel as [|fuel IH]; intros k buf file msg c Hf Hb Hc H0; [lia|].
  cbn [stream_loop].
  destruct (read_block_run answers (S (Z.to_nat BLOCKSIZE)) k [] buf file Ha) as (n & k' & tail & Hl & Hrun & Hn);
    [done|cbn [app]; lia|unfold BLOCKSIZE; change (zlen []) with 0; lia|].
  cbn [app] in *. change (zlen []) with 0 in Hrun. rewrite Hrun. cbn [cbind]. rewrite andb_false_r.
  destruct (Nat.eqb_spec n 0) as [En|En].
  - pose proof (proj1 Hn En). pose proof (zlen_nonneg file). rewrite take_ge by (unfold zlen in *; lia).
    rewrite Z.min_r by lia. assert (exists c', (if 0 <? zlen file then
        let* data := rdn (file ++ tail) 0 (Z.to_nat (zlen file)) in md5_process_bytes data c else Ret c) = Ret c' /\
      holds (msg ++ file) c') as (c' & -> & Hc').
    { destruct (Z.ltb_spec 0 (zlen file)).
      - rewrite rdn_head by (rewrite length_app; unfold zlen; lia). cbn [cbind]. unfold zlen at 1. rewrite Nat2Z.id, take_app_length.
        apply process_bytes_run; [done|lia].
      - assert (file = []) as -> by (apply nil_length_inv; unfold zlen in *; lia). rewrite app_nil_r. by eexists. }
    cbn [cbind]. by rewrite (finish_run _ _ Hc').
  - assert (4096 <= zlen file) by (apply Z.nlt_ge; intros Hlt; by apply En, Hn).
    assert (Hbl : zlen (take 4096 file ++ tail) = 4168).
    { unfold zlen in *. rewrite length_app, length_take. lia. }
    destruct (whole_blocks_run msg c (take 4096 file ++ tail) 64 Hc H0) as (c' & Hp & Hc' & H0'); [lia..|].
    change BLOCKSIZE with (64 * 64). rewrite Hp. cbn [cbind].
    rewrite (IH k' _ (drop 4096 file) (msg ++ take 4096 file) c'); [|rewrite length_drop; unfold zlen in *; lia|done| |done].
    + by rewrite <- app_assoc, take_drop.
    + change (64 * Z.to_nat 64)%nat with 4096%nat in Hc'. rewrite take_app_le, take_take in Hc'
        by (rewrite length_take; unfold zlen in *; lia). exact Hc'.
Qed.

(** The digest of a file, however its reads are cut. *)
Lemma stream_digest answers junk file :
  never_fails answers -> (4296 <= length junk)%nat ->
  md5_stream answers junk file = Ret (Some (@digest rfc1321 file)).
Proof.
  intros Ha Hj. unfold md5_stream. rewrite <- code_is_rfc. apply (stream_run _ _ _ _ file []).
  - done.
  - lia.
  - unfold zlen. rewrite length_take. change (Z.to_nat (BLOCKSIZE + 72)) with 4168%nat. lia.
  - apply init_holds. rewrite length_take, length_drop. change (Z.to_nat (BLOCKSIZE + 72)) with 4168%nat. lia.
  - done.
Qed.

(** Bytes handed over in pieces. *)
Fixpoint feed (pieces : list (list Z)) (c : md5_ctx) : cres md5_ctx :=
  match pieces with [] => Ret c | p :: pieces => let* c := md5_process_bytes p c in feed pieces c end.
Lemma feed_run pieces msg c :
  Forall (fun p => zlen p < 4294967296) pieces -> holds msg c ->
  exists c', feed pieces c = Ret c' /\ holds (msg ++ concat pieces) c'.
Proof.
  intros Hp. revert msg c. induction Hp as [|p pieces Hp _ IH]; intros msg c Hc; cbn [feed concat].
  - eexists. split; [reflexivity|]. by rewrite app_nil_r.
  - destruct (process_bytes_run msg c p Hc Hp) as (c1 & -> & Hc1). cbn [cbind].
    destruct (IH _ _ Hc1) as (c2 & -> & Hc2). eexists. split; [reflexivity|]. by rewrite app_assoc.
Qed.

(** C27: whatever pieces the bytes come in, empty ones and ones that end within a
    block included, the context ends with the MD5 digest of RFC 1321 of all of
    them, its constants being those of the sine; it never leaves its buffer. *)
Theorem md5_is_rfc1321 pieces junk
  (Hjunk : length junk = 128%nat) (Hp : Forall (fun p => zlen p < 4294967296) pieces) :
  (let* c := feed pieces (md5_init_ctx junk) in md5_finish_ctx c) = Ret (@digest rfc1321 (concat pieces)).
Proof.
  destruct (feed_run pieces [] _ Hp (init_holds junk Hjunk)) as (c & -> & Hc). cbn [cbind].
  by rewrite (finish_run _ _ Hc), code_is_rfc.
Qed.
Lemma md5_is_rfc1321_witness :
  (let* c := feed [zs "mess"; []; zs "age "; zs "digest"] (md5_init_ctx (replicate 128 7)) in md5_finish_ctx c) =
    Ret (@digest rfc1321 (zs "message digest")).
Proof.
  apply (md5_is_rfc1321 [zs "mess"; []; zs "age "; zs "digest"] (replicate 128 7)); [reflexivity|].
  repeat constructor.
Defined.
(** The vector of the standard. *)
Example rfc_vector :
  @digest rfc1321 (zs "message digest") =
    [0xf9; 0x6b; 0x69; 0x7d; 0x7c; 0xb7; 0x93; 0x8d; 0x52; 0x5a; 0x2f; 0x31; 0xaa; 0xf1; 0x61; 0xd0].
Proof. by vm_compute. Qed.

Lemma digest_bytes file : length (@digest rfc1321 file) = 16%nat /\ bytes_ok (@digest rfc1321 file).
Proof.
  rewrite <- code_is_rfc. unfold digest. cbn [h_tell md5_code].
  assert (Hs : forall n b st, length st = 4%nat -> length (@absorb md5_code n b st) = 4%nat).
  { induction n as [|n IH]; intros b st Hst; [done|]. cbn [absorb]. apply IH. cbn [h_compress md5_code]. unfold md5_block.
    destruct st as [|A [|B [|C [|D [|]]]]]; try discriminate. by destruct (rounds _ _) as [[[??]?]?]. }
  pose proof (Hs (length (@padded md5_code file) / 64)%nat (@padded md5_code file) md5_start eq_refl) as Hl.
  cbn [h_start md5_code]. destruct (absorb _ _ _) as [|A [|B [|C [|D [|]]]]]; try discriminate.
  split; [done|]. cbn [map concat]. unfold bytes_ok. repeat (apply Forall_app; split; [apply le_bytes|]).
  apply Forall_nil_2.
Qed.

(** The first row with the digest, or the first of all. *)
Definition row_of (d : list Z) : Z :=
  match list_find (fun fw => md5sum fw = hex_of d) known_adsp_fw with Some (k, _) => Z.of_nat k | None => 0 end.

(** From the file of the firmware to its version: for a file of any length,
    read in any pieces, the version told is that of the row with the MD5 digest of
    the file, unless the digest has a zero byte; then, and when no row has it or
    the file does not open, it is the first. *)
Theorem firmware_of_file answers junk file
  (Hj : (4296 <= length junk)%nat) (Ha : never_fails answers) :
  adsp_version_of answers junk None = Ret 0 /\
  adsp_version_of answers junk (Some file) =
    Ret (if bool_decide (0 ∈ @digest rfc1321 file) then 0 else row_of (@digest rfc1321 file)).
Proof.
  destruct (digest_bytes file) as [Hl Hb]. split; [by vm_compute|].
  unfold adsp_version_of, md5_file. rewrite (stream_digest _ _ _ Ha Hj). cbn [cbind].
  set (d := digest file) in *.
  rewrite wrn_ok by (unfold zlen; rewrite ?Hl, ?length_replicate; lia). cbn [cbind].
  change (Z.to_nat 0) with 0%nat. rewrite take_0. cbn [app]. rewrite take_app_length' by done.
  destruct (firmware_identified d Hl Hb) as (i & -> & _ & Hz & Hn). f_equal.
  case_bool_decide as Hd; [by apply Hz|]. specialize (Hn Hd). unfold row_of.
  by destruct (list_find _ known_adsp_fw) as [[k ?]|].
Qed.
(** A firmware that no row has. *)
Definition sample_firmware : list Z := replicate 300 65.
Definition sample_stack : list Z := replicate 4296 7.
Definition sample_reads (k : nat) : option nat := Some 100%nat.
Lemma firmware_of_file_witness :
  adsp_version_of sample_reads sample_stack None = Ret 0 /\
  adsp_version_of sample_reads sample_stack (Some sample_firmware) =
    Ret (if bool_decide (0 ∈ @digest rfc1321 sample_firmware) then 0 else row_of (@digest rfc1321 sample_firmware)).
Proof.
  apply (firmware_of_file sample_reads sample_stack sample_firmware).
  - unfold sample_stack. rewrite length_replicate. lia.
  - discriminate.
Defined.
(** A read that fails is reported, after any number of good ones. *)
Example failing_read :
  md5_stream (fun k => if (k <? 2)%nat then Some 50%nat else None) (replicate 200 7) sample_firmware = Ret None.
Proof. by vm_compute. Qed.
