(* ===== verification/Mkbootimg.v ===== *)
(** The tool that builds the boot image of the modem
    (src/recipes-devtools/mkbootimg/files: mkbootimg.c, bootimg.h): the SHA-1
    digest it keeps in the header, the options, the files and the pages of the
    image. *)

From stdpp Require Import base list numbers option strings.
From Stdlib Require Import ZArith Lia.
From S2P Require Import Prelude Libc Hash.

(** * SHA-1 *)

(** HASH_CTX, with the five words SHA-1 uses. *)
Record SHA_CTX := { count : Z; sha_buf : list Z; sha_state : list Z }.
Definition SHA_DIGEST_SIZE : Z := 20.
Definition sha_start : list Z := [0x67452301; 0xEFCDAB89; 0x98BADCFE; 0x10325476; 0xC3D2E1F0].

(** The array W: [back k] is W[t-k]. *)
Definition next_w (back : nat -> Z) : Z :=
  rol 1 (Z.lxor (Z.lxor (Z.lxor (back 3%nat) (back 8%nat)) (back 14%nat)) (back 16%nat)).
Fixpoint extend_w (n : nat) (W : list Z) : list Z :=
  match n with
  | O => W
  | S n => extend_w n (W ++ [next_w (fun k => nthw W (length W - k))])
  end.
Definition sha_vars : Type := Z * Z * Z * Z * Z.
Definition sha_step (W : list Z) (v : sha_vars) (t : nat) : sha_vars :=
  let '(A, B, C, D, E) := v in
  let tmp := u32 (rol 5 A + E + nthw W t) in
  let tmp := u32 (tmp +
    (if (t <? 20)%nat then Z.lxor D (Z.land B (Z.lxor C D)) + 0x5A827999
     else if (t <? 40)%nat then Z.lxor (Z.lxor B C) D + 0x6ED9EBA1
     else if (t <? 60)%nat then Z.lor (Z.land B C) (Z.land D (Z.lor B C)) + 0x8F1BBCDC
     else Z.lxor (Z.lxor B C) D + 0xCA62C1D6)) in
  (tmp, A, rol 30 B, C, D).
Definition sha_block (b st : list Z) : list Z :=
  match st with
  | [s0; s1; s2; s3; s4] =>
      let W := extend_w 64 (be_words b) in
      let '(A, B, C, D, E) := fold_left (sha_step W) (seq 0 80) (s0, s1, s2, s3, s4) in
      [u32 (s0 + A); u32 (s1 + B); u32 (s2 + C); u32 (s3 + D); u32 (s4 + E)]
  | _ => st
  end.
Definition SHA1_Transform (c : SHA_CTX) : SHA_CTX :=
  {| count := count c; sha_buf := sha_buf c; sha_state := sha_block (sha_buf c) (sha_state c) |}.

(** [junk]: the bytes of the context before. *)
Definition SHA_init (junk : list Z) : SHA_CTX := {| count := 0; sha_buf := junk; sha_state := sha_start |}.
Definition put_byte (i x : Z) (c : SHA_CTX) : cres SHA_CTX :=
  let* b := wr (sha_buf c) i x in Ret {| count := count c; sha_buf := b; sha_state := sha_state c |}.
Fixpoint update_loop (data : list Z) (i : Z) (c : SHA_CTX) : cres SHA_CTX :=
  match data with
  | [] => Ret c
  | x :: data =>
      let* c := put_byte i x c in
      if i + 1 =? 64 then update_loop data 0 (SHA1_Transform c) else update_loop data (i + 1) c
  end.
Definition SHA_update (data : list Z) (c : SHA_CTX) : cres SHA_CTX :=
  update_loop data (Z.land (count c) 63)
    {| count := u64 (count c + zlen data); sha_buf := sha_buf c; sha_state := sha_state c |}.
Fixpoint zero_loop (fuel : nat) (c : SHA_CTX) : cres SHA_CTX :=
  match fuel with
  | O => Spin
  | S fuel => if Z.land (count c) 63 =? 56 then Ret c else let* c := SHA_update [0] c in zero_loop fuel c
  end.
Fixpoint count_loop (n : nat) (cnt : Z) (c : SHA_CTX) : cres SHA_CTX :=
  match n with
  | O => Ret c
  | S n => let* c := SHA_update [u8 (Z.shiftr cnt (8 * Z.of_nat n))] c in count_loop n cnt c
  end.
(** The buffer it returns: the digest is written at its start. *)
Definition SHA_final (c : SHA_CTX) : cres (list Z) :=
  let cnt := u64 (count c * 8) in
  let* c := SHA_update [0x80] c in
  let* c := zero_loop 64 c in
  let* c := count_loop 8 cnt c in
  wrn (sha_buf c) 0 (concat (map (be 4) (sha_state c))).
Definition SHA_hash (junk data : list Z) : cres (list Z) :=
  let* c := SHA_update data (SHA_init junk) in
  let* p := SHA_final c in
  rdn p 0 (Z.to_nat SHA_DIGEST_SIZE).

Example sha_abc : SHA_hash (replicate 64 7) (zs "abc") =
  Ret [0xa9; 0x99; 0x3e; 0x36; 0x47; 0x06; 0x81; 0x6a; 0xba; 0x3e; 0x25; 0x71; 0x78; 0x50; 0xc2; 0x6c; 0x9c; 0xd0; 0xd8; 0x9d].
Proof. by vm_compute. Qed.

(** * FIPS 180 *)

(** The schedule over a window of the last sixteen words, and the functions and
    constants of the four rounds. *)
Fixpoint schedule (n : nat) (w : list Z) : list Z :=
  match n with
  | O => []
  | S n => let x := next_w (fun k => nthw w (16 - k)) in x :: schedule n (tail w ++ [x])
  end.
Definition fips_f (t : nat) (b c d : Z) : Z :=
  if (t <? 20)%nat then Z.lxor (Z.land b c) (Z.land (not32 b) d)
  else if (t <? 40)%nat then Z.lxor (Z.lxor b c) d
  else if (t <? 60)%nat then Z.lxor (Z.lxor (Z.land b c) (Z.land b d)) (Z.land c d)
  else Z.lxor (Z.lxor b c) d.
Definition fips_K (t : nat) : Z := nthw [0x5a827999; 0x6ed9eba1; 0x8f1bbcdc; 0xca62c1d6] (t / 20).
Definition fips_step (W : list Z) (v : sha_vars) (t : nat) : sha_vars :=
  let '(a, b, c, d, e) := v in
  (u32 (rol 5 a + fips_f t b c d + e + fips_K t + nthw W t), a, rol 30 b, c, d).
Definition fips_block (m st : list Z) : list Z :=
  match st with
  | [h0; h1; h2; h3; h4] =>
      let M := be_words m in
      let '(a, b, c, d, e) := fold_left (fips_step (M ++ schedule 64 M)) (seq 0 80) (h0, h1, h2, h3, h4) in
      [u32 (a + h0); u32 (b + h1); u32 (c + h2); u32 (d + h3); u32 (e + h4)]
  | _ => st
  end.
Definition fips_sha1 : BlockHash :=
  {| h_start := sha_start; h_compress := fips_block; h_length := be 8; h_tell := fun st => concat (map (be 4) st) |}.
Definition sha_code : BlockHash :=
  {| h_start := sha_start; h_compress := sha_block; h_length := be 8; h_tell := fun st => concat (map (be 4) st) |}.

Lemma extend_schedule n W :
  (16 <= length W)%nat -> extend_w n W = W ++ schedule n (drop (length W - 16) W).
Proof.
  revert W. induction n as [|n IH]; intros W HW; cbn [extend_w schedule]; [by rewrite app_nil_r|].
  assert (Hn : next_w (fun k => nthw W (length W - k)) = next_w (fun k => nthw (drop (length W - 16) W) (16 - k))).
  { unfold next_w, nthw. rewrite !nth_skipn.
    replace (length W - 16 + (16 - 3))%nat with (length W - 3)%nat by lia.
    replace (length W - 16 + (16 - 8))%nat with (length W - 8)%nat by lia.
    replace (length W - 16 + (16 - 14))%nat with (length W - 14)%nat by lia.
    by replace (length W - 16 + (16 - 16))%nat with (length W - 16)%nat by lia. }
  rewrite Hn. set (x := next_w _). rewrite IH by (rewrite length_app; cbn; lia). rewrite <- app_assoc. cbn [app].
  do 2 f_equal. rewrite length_app. cbn [length].
  replace (length W + 1 - 16)%nat with (S (length W - 16)) by lia.
  rewrite drop_app_le by lia. do 2 f_equal. rewrite <- Nat.add_1_r, <- drop_drop.
  by destruct (drop (length W - 16) W).
Qed.

Definition words5 (v : sha_vars) : Prop :=
  let '(a, b, c, d, e) := v in word a /\ word b /\ word c /\ word d /\ word e.
Lemma rol_word n x : 0 <= n <= 32 -> word x -> word (rol n x).
Proof.
  intros Hn Hx. unfold rol. pose proof (u32_word (Z.shiftl x n)) as Hu.
  assert (Hs : word (Z.shiftr x (32 - n))).
  { unfold word in *. rewrite Z.shiftr_div_pow2 by lia. pose proof (Z.pow_pos_nonneg 2 (32 - n) ltac:(lia) ltac:(lia)).
    split; [apply Z.div_pos; lia|]. apply Z.le_lt_trans with x; [|lia]. apply Z.div_le_upper_bound; [lia|]. nia. }
  unfold word in *. split; [apply Z.lor_nonneg; lia|]. change 4294967296 with (2 ^ 32).
  destruct (Z.eq_dec (Z.lor (u32 (Z.shiftl x n)) (Z.shiftr x (32 - n))) 0) as [->|Hne]; [lia|].
  apply Z.log2_lt_pow2; [apply Z.le_neq; split; [apply Z.lor_nonneg; lia|congruence]|]. rewrite Z.log2_lor by lia.
  assert (Hb : forall y, 0 <= y < 4294967296 -> Z.log2 y < 32).
  { intros y Hy. destruct (Z.eq_dec y 0) as [->|]; [done|]. apply Z.log2_lt_pow2; lia. }
  apply Z.max_lub_lt; by apply Hb.
Qed.
Lemma step_fips W v t :
  (t < 80)%nat -> words5 v -> sha_step W v t = fips_step W v t /\ words5 (fips_step W v t).
Proof.
  intros Ht. destruct v as [[[[a b] c] d] e]. intros (Ha & Hb & Hc & Hd & He). unfold sha_step, fips_step. cbn [words5].
  split; [|split; [apply u32_word|]; split; [done|]; split; [by apply rol_word|]; by split].
  do 4 f_equal. transitivity (u32 (rol 5 a + e + nthw W t + (fips_f t b c d + fips_K t))).
  - unfold u32. rewrite Zplus_mod_idemp_l. do 2 f_equal. unfold fips_f, fips_K.
    destruct (Nat.ltb_spec t 20) as [H1|H1].
    { rewrite (Nat.div_small t 20) by done. cbn [nthw nth]. rewrite choose_bits, choose_xor by done. reflexivity. }
    destruct (Nat.ltb_spec t 40) as [H2|H2].
    { replace (t / 20)%nat with 1%nat; [reflexivity|]. apply Nat.div_unique with (t - 20)%nat; lia. }
    destruct (Nat.ltb_spec t 60) as [H3|H3].
    { replace (t / 20)%nat with 2%nat; [|apply Nat.div_unique with (t - 40)%nat; lia]. by rewrite majority_bits. }
    replace (t / 20)%nat with 3%nat; [reflexivity|]. apply Nat.div_unique with (t - 60)%nat; lia.
  - f_equal. lia.
Qed.
Lemma steps_fips W ts v :
  Forall (fun t => (t < 80)%nat) ts -> words5 v ->
  fold_left (sha_step W) ts v = fold_left (fips_step W) ts v /\ words5 (fold_left (fips_step W) ts v).
Proof.
  intros Ht. revert v. induction Ht as [|t ts Ht _ IH]; intros v Hv; [done|]. cbn [fold_left].
  destruct (step_fips W v t Ht Hv) as [-> Hw]. by apply IH.
Qed.
Definition sha_state_ok (st : list Z) : Prop :=
  exists a b c d e, st = [a; b; c; d; e] /\ words5 (a, b, c, d, e).
Lemma length_words_of order n b : length (words_of order n b) = n.
Proof. revert b. induction n as [|n IH]; intros b; [done|]. cbn [words_of length]. by rewrite IH. Qed.
Lemma sha_block_fips b st : sha_state_ok st -> sha_block b st = fips_block b st /\ sha_state_ok (sha_block b st).
Proof.
  intros (s0 & s1 & s2 & s3 & s4 & -> & Hst). unfold sha_block, fips_block.
  assert (HW : extend_w 64 (be_words b) = be_words b ++ schedule 64 (be_words b)).
  { rewrite extend_schedule by (unfold be_words; rewrite length_words_of; lia). unfold be_words. by rewrite length_words_of. }
  rewrite HW. destruct (steps_fips (be_words b ++ schedule 64 (be_words b)) (seq 0 80) (s0, s1, s2, s3, s4)) as [-> _];
    [|exact Hst|].
  { apply list.Forall_forall. intros t Ht%elem_of_seq. lia. }
  generalize (fold_left (fips_step (be_words b ++ schedule 64 (be_words b))) (seq 0 80) (s0, s1, s2, s3, s4)).
  intros [[[[A B] C] D] E]. rewrite (Z.add_comm A), (Z.add_comm B), (Z.add_comm C), (Z.add_comm D), (Z.add_comm E).
  split; [done|]. eexists _, _, _, _, _. split; [reflexivity|]. repeat split; apply u32_word.
Qed.
Lemma sha_is_fips msg : @digest sha_code msg = @digest fips_sha1 msg.
Proof.
  apply (digest_same sha_code fips_sha1 sha_state_ok); try done.
  - eexists _, _, _, _, _. split; [reflexivity|]. repeat split; discriminate.
  - intros b st Hst. by apply sha_block_fips.
Qed.

(** ** The context *)

(** The words of the complete blocks and the rest of the message in the buffer. *)
Definition held (msg : list Z) (c : SHA_CTX) : Prop :=
  exists rest, @runs sha_code msg (sha_state c) rest /\ zlen rest = zlen msg mod 64 /\
    take (length rest) (sha_buf c) = rest /\ length (sha_buf c) = 64%nat.
Definition sha_holds (msg : list Z) (c : SHA_CTX) : Prop := held msg c /\ count c = u64 (zlen msg).

Lemma land_63_mod x : Z.land x 63 = x mod 64.
Proof. change 63 with (Z.ones 6). by rewrite Z.land_ones. Qed.

Lemma put_held msg c x :
  held msg c -> exists c1, put_byte (zlen msg mod 64) x c = Ret c1 /\ count c1 = count c /\
    held (msg ++ [x]) (if zlen msg mod 64 + 1 =? 64 then SHA1_Transform c1 else c1) /\
    zlen (msg ++ [x]) mod 64 = (if zlen msg mod 64 + 1 =? 64 then 0 else zlen msg mod 64 + 1).
Proof.
  intros (rest & Hr & Hm & Hb & Hl). rewrite <- Hm. assert (0 <= zlen rest < 64) by (rewrite Hm; dlia).
  unfold put_byte. set (t := drop (S (length rest)) (sha_buf c)).
  assert (Hw : wr (sha_buf c) (zlen rest) x = Ret (rest ++ x :: t)).
  { rewrite <- (take_drop (length rest) (sha_buf c)), Hb. unfold t. rewrite <- Nat.add_1_r, <- drop_drop.
    destruct (drop (length rest) (sha_buf c)) as [|y l] eqn:E.
    - apply (f_equal length) in E. rewrite length_drop, Hl in E. unfold zlen in *. cbn in E. lia.
    - by rewrite wrA_middle. }
  rewrite Hw. cbn [cbind]. eexists. split; [reflexivity|]. split; [done|].
  assert (Hlt : length (rest ++ x :: t) = 64%nat).
  { unfold t. rewrite length_app. cbn [length]. rewrite length_drop, Hl. unfold zlen in *. lia. }
  assert (Hnew : zlen (msg ++ [x]) mod 64 = if zlen rest + 1 =? 64 then 0 else zlen rest + 1).
  { zl. change (zlen [x]) with 1. destruct (Z.eqb_spec (zlen rest + 1) 64); dlia. }
  split; [|exact Hnew]. pose proof (runs_app _ _ _ [x] Hr) as Hrun. cbn [app] in Hrun.
  destruct (Z.eqb_spec (zlen rest + 1) 64) as [He|Hne].
  - exists []. cbn [SHA1_Transform sha_state sha_buf count]. rewrite Hnew. split; [|split; [done|by split]].
    assert (t = []) as -> by (unfold t; apply drop_ge; rewrite Hl; unfold zlen in *; lia).
    apply (@runs_block sha_code); [exact Hrun|]. rewrite length_app. cbn [length]. unfold zlen in *. lia.
  - exists (rest ++ [x]). cbn [sha_state sha_buf count]. rewrite Hnew. split; [exact Hrun|]. split; [by zl|].
    split; [|exact Hlt]. change (x :: t) with ([x] ++ t). by rewrite app_assoc, take_app_length.
Qed.
Lemma update_loop_run data msg c :
  held msg c -> exists c', update_loop data (zlen msg mod 64) c = Ret c' /\ held (msg ++ data) c' /\ count c' = count c.
Proof.
  revert msg c. induction data as [|x data IH]; intros msg c Hc; cbn [update_loop].
  - eexists. split; [reflexivity|]. by rewrite app_nil_r.
  - destruct (put_held msg c x Hc) as (c1 & -> & Hn & Hh & Hm). cbn [cbind].
    replace (msg ++ x :: data) with ((msg ++ [x]) ++ data) by (by rewrite <- app_assoc).
    destruct (zlen msg mod 64 + 1 =? 64); rewrite <- Hm; destruct (IH _ _ Hh) as (c' & -> & Hh' & Hc');
      eexists; (split; [reflexivity|]; split; [exact Hh'|]); by rewrite Hc'.
Qed.
Lemma update_run msg c data :
  sha_holds msg c -> exists c', SHA_update data c = Ret c' /\ sha_holds (msg ++ data) c'.
Proof.
  intros [Hh Hc]. unfold SHA_update. rewrite land_63_mod, Hc.
  assert (u64 (zlen msg) mod 64 = zlen msg mod 64) as -> by (unfold u64; dlia).
  set (c1 := {| count := _; sha_buf := _; sha_state := _ |}).
  destruct (update_loop_run data msg c1) as (c' & -> & Hh' & Hc'); [exact Hh|].
  eexists. split; [reflexivity|]. split; [exact Hh'|]. rewrite Hc'. cbn [count c1]. unfold u64. zl. dlia.
Qed.
Lemma init_held junk : length junk = 64%nat -> sha_holds [] (SHA_init junk).
Proof. intros Hj. split; [|done]. exists []. split; [exact (@runs_start sha_code)|]. by repeat split. Qed.

Lemma zero_loop_run fuel msg c :
  sha_holds msg c -> 0 <= (56 - zlen msg) mod 64 < Z.of_nat fuel ->
  exists c', zero_loop fuel c = Ret c' /\ sha_holds (msg ++ replicate (Z.to_nat ((56 - zlen msg) mod 64)) 0) c'.
Proof.
  revert msg c. induction fuel as [|fuel IH]; intros msg c Hh Hf; [lia|]. cbn [zero_loop].
  rewrite land_63_mod, (proj2 Hh). assert (u64 (zlen msg) mod 64 = zlen msg mod 64) as -> by (unfold u64; dlia).
  destruct (Z.eqb_spec (zlen msg mod 64) 56) as [He|Hne].
  - eexists. split; [reflexivity|]. assert ((56 - zlen msg) mod 64 = 0) as -> by dlia. by rewrite app_nil_r.
  - destruct (update_run msg c [0] Hh) as (c1 & -> & Hh1). cbn [cbind].
    assert (Hz : (56 - zlen (msg ++ [0])) mod 64 = (56 - zlen msg) mod 64 - 1) by (zl; change (zlen [0]) with 1; dlia).
    destruct (IH (msg ++ [0]) c1 Hh1) as (c' & -> & Hh'); [rewrite Hz; dlia|].
    eexists. split; [reflexivity|]. rewrite Hz, <- app_assoc in Hh'. cbn [app] in Hh'.
    replace (Z.to_nat ((56 - zlen msg) mod 64)) with (S (Z.to_nat ((56 - zlen msg) mod 64 - 1))) by dlia. exact Hh'.
Qed.
Lemma count_loop_run n cnt msg c :
  sha_holds msg c -> exists c', count_loop n cnt c = Ret c' /\ sha_holds (msg ++ be n cnt) c'.
Proof.
  revert msg c. induction n as [|n IH]; intros msg c Hh; cbn [count_loop].
  - eexists. split; [reflexivity|]. by rewrite app_nil_r.
  - destruct (update_run msg c [u8 (Z.shiftr cnt (8 * Z.of_nat n))] Hh) as (c1 & -> & Hh1). cbn [cbind].
    destruct (IH _ _ Hh1) as (c' & -> & Hh'). eexists. split; [reflexivity|].
    unfold be in *. rewrite le_snoc, rev_app_distr. cbn [rev app].
    replace (cnt / 256 ^ Z.of_nat n mod 256) with (u8 (Z.shiftr cnt (8 * Z.of_nat n))); [by rewrite <- app_assoc in Hh'|].
    unfold u8. rewrite Z.shiftr_div_pow2 by lia. by rewrite Z.pow_mul_r by lia.
Qed.
(** The digest, and what lies behind it in the buffer. *)
Lemma final_run msg c :
  sha_holds msg c -> exists rest, SHA_final c = Ret (@digest fips_sha1 msg ++ rest) /\ length (@digest fips_sha1 msg) = 20%nat.
Proof.
  intros Hh. unfold SHA_final. destruct (update_run msg c [0x80] Hh) as (c1 & -> & H1). cbn [cbind].
  destruct (zero_loop_run 64 _ c1 H1) as (c2 & -> & H2); [dlia|]. cbn [cbind].
  destruct (count_loop_run 8 (u64 (count c * 8)) _ c2 H2) as (c3 & -> & H3). cbn [cbind]. rewrite (proj2 Hh) in H3.
  assert (E : ((msg ++ [0x80]) ++ replicate (Z.to_nat ((56 - zlen (msg ++ [0x80])) mod 64)) 0) ++ be 8 (u64 (u64 (zlen msg) * 8)) =
    @padded sha_code msg).
  { unfold padded, bit_length, pad_zeros. rewrite <- !app_assoc. do 3 f_equal.
    - f_equal. f_equal. zl. change (zlen [0x80]) with 1. unfold zlen. f_equal. lia.
    - cbn [h_length sha_code]. f_equal. unfold u64, zlen. rewrite Zmult_mod_idemp_l. f_equal. lia. }
  rewrite E in H3. destruct H3 as [(rest & Hr & Hm & _ & Hl) _].
  assert (rest = []) as ->.
  { apply nil_length_inv. destruct (padded_blocks (length msg)) as [k Hk]. apply Nat2Z.inj. fold (zlen rest). rewrite Hm.
    replace (zlen (@padded sha_code msg)) with (Z.of_nat k * 64); [by rewrite Z.mod_mul|].
    unfold padded, zlen. rewrite !length_app, length_replicate. cbn [h_length sha_code]. unfold be. rewrite length_rev, length_le.
    cbn [length]. lia. }
  pose proof (runs_digest _ _ Hr) as Hd. cbn [h_tell sha_code] in Hd. rewrite Hd, sha_is_fips.
  assert (Hlen : length (@digest fips_sha1 msg) = 20%nat).
  { rewrite <- sha_is_fips, <- Hd. destruct Hr as (n & _ & -> & _).
    assert (Hs : forall n b st, length st = 5%nat -> length (@absorb sha_code n b st) = 5%nat).
    { intros m. induction m as [|m IH]; intros b st Hst; [done|]. cbn [absorb]. apply IH. cbn [h_compress sha_code]. unfold sha_block.
      destruct st as [|A [|B [|C [|D [|E' [|]]]]]]; try discriminate. by destruct (fold_left _ _ _) as [[[[??]?]?]?]. }
    pose proof (Hs n (@padded sha_code msg) sha_start eq_refl) as H5. cbn [h_start sha_code].
    destruct (absorb _ _ _) as [|A [|B [|C [|D [|E' [|]]]]]]; try discriminate. done. }
  rewrite wrn_ok by (unfold zlen; rewrite ?Hlen, ?Hl; lia). change (Z.to_nat 0) with 0%nat. rewrite take_0. cbn [app].
  eexists. split; [reflexivity|exact Hlen].
Qed.

Fixpoint updates (pieces : list (list Z)) (c : SHA_CTX) : cres SHA_CTX :=
  match pieces with [] => Ret c | p :: pieces => let* c := SHA_update p c in updates pieces c end.
Lemma updates_run pieces msg c :
  sha_holds msg c -> exists c', updates pieces c = Ret c' /\ sha_holds (msg ++ concat pieces) c'.
Proof.
  revert msg c. induction pieces as [|p pieces IH]; intros msg c Hc; cbn [updates concat].
  - eexists. split; [reflexivity|]. by rewrite app_nil_r.
  - destruct (update_run msg c p Hc) as (c1 & -> & Hc1). cbn [cbind].
    destruct (IH _ _ Hc1) as (c2 & -> & Hc2). eexists. split; [reflexivity|]. by rewrite app_assoc.
Qed.

(** * The image *)

Definition BOOT_MAGIC : list Z := zs "ANDROID!".
Definition BOOT_NAME_SIZE : Z := 16.
Definition BOOT_ARGS_SIZE : Z := 512.
(** struct boot_img_hdr; the magic and the unused word are constant. *)
Record boot_img_hdr := {
  kernel_size : Z; kernel_addr : Z;
  ramdisk_size : Z; ramdisk_addr : Z;
  second_size : Z; second_addr : Z;
  tags_addr : Z; page_size : Z; dt_size : Z;
  hdr_name : list Z;           (* 16 bytes *)
  hdr_cmdline : list Z;        (* 512 bytes *)
  hdr_id : list Z              (* 32 bytes *)
}.
Definition hdr_bytes (h : boot_img_hdr) : list Z :=
  BOOT_MAGIC ++ concat (map (le 4) [kernel_size h; kernel_addr h; ramdisk_size h; ramdisk_addr h; second_size h;
    second_addr h; tags_addr h; page_size h; dt_size h; 0]) ++ hdr_name h ++ hdr_cmdline h ++ hdr_id h.

(** What the tool meets: the value of the variable [base] before it is set, the
    largest unsigned long, the files by name, whether the output is created and
    which writes take all their bytes, and fresh memory. *)
Record mk_env := {
  m_base : Z;
  m_ulong : Z;
  m_file : list Z -> option (list Z);
  m_create : bool;
  m_write : nat -> bool;
  m_junk : list Z
}.

(** ** Options *)

Record options := {
  o_kernel : option (list Z); o_ramdisk : option (list Z); o_second : option (list Z); o_dt : option (list Z);
  o_bootimg : option (list Z);
  o_cmdline : list Z; o_board : list Z;
  o_pagesize : Z; o_base : Z;
  o_kernel_addr : Z; o_ramdisk_addr : Z; o_second_addr : Z; o_tags_addr : Z;
  o_tags : option Z            (* tags_addr, when tags_addr_override *)
}.
Definition start_options (env : mk_env) : options :=
  {| o_kernel := None; o_ramdisk := None; o_second := None; o_dt := None; o_bootimg := None; o_cmdline := [];
     o_board := []; o_pagesize := 2048; o_base := m_base env; o_kernel_addr := 0x10008000;
     o_ramdisk_addr := 0x11000000; o_second_addr := 0x10F00000; o_tags_addr := 0x10000100; o_tags := None |}.
Definition with_files (k r s d b : option (list Z)) (o : options) : options :=
  {| o_kernel := k; o_ramdisk := r; o_second := s; o_dt := d; o_bootimg := b; o_cmdline := o_cmdline o;
     o_board := o_board o; o_pagesize := o_pagesize o; o_base := o_base o; o_kernel_addr := o_kernel_addr o;
     o_ramdisk_addr := o_ramdisk_addr o; o_second_addr := o_second_addr o; o_tags_addr := o_tags_addr o;
     o_tags := o_tags o |}.
Definition with_texts (cmdline board : list Z) (pagesize : Z) (tags : option Z) (o : options) : options :=
  {| o_kernel := o_kernel o; o_ramdisk := o_ramdisk o; o_second := o_second o; o_dt := o_dt o;
     o_bootimg := o_bootimg o; o_cmdline := cmdline; o_board := board; o_pagesize := pagesize; o_base := o_base o;
     o_kernel_addr := o_kernel_addr o; o_ramdisk_addr := o_ramdisk_addr o; o_second_addr := o_second_addr o;
     o_tags_addr := o_tags_addr o; o_tags := tags |}.
Definition with_addrs (base k r s t : Z) (o : options) : options :=
  {| o_kernel := o_kernel o; o_ramdisk := o_ramdisk o; o_second := o_second o; o_dt := o_dt o;
     o_bootimg := o_bootimg o; o_cmdline := o_cmdline o; o_board := o_board o; o_pagesize := o_pagesize o;
     o_base := base; o_kernel_addr := k; o_ramdisk_addr := r; o_second_addr := s; o_tags_addr := t;
     o_tags := o_tags o |}.
(** One option with its value, or the exit status. *)
Definition take_option (env : mk_env) (arg val : list Z) (o : options) : options + Z :=
  let named s := bool_decide (arg = zs s) in
  let num base := u32 (strtoul (m_ulong env) base val) in
  if named "--output"%string || named "-o"%string then
    inl (with_files (o_kernel o) (o_ramdisk o) (o_second o) (o_dt o) (Some val) o)
  else if named "--kernel"%string then
    inl (with_files (Some val) (o_ramdisk o) (o_second o) (o_dt o) (o_bootimg o) o)
  else if named "--ramdisk"%string then
    inl (with_files (o_kernel o) (Some val) (o_second o) (o_dt o) (o_bootimg o) o)
  else if named "--second"%string then
    inl (with_files (o_kernel o) (o_ramdisk o) (Some val) (o_dt o) (o_bootimg o) o)
  else if named "--cmdline"%string then inl (with_texts val (o_board o) (o_pagesize o) (o_tags o) o)
  else if named "--base"%string then
    let base := num 16 in
    inl (with_addrs base (u32 (base + 0x00008000)) (u32 (base + 0x01100000)) (u32 (base + 0x00F00000))
      (u32 (base + 0x00000100)) o)
  else if named "--ramdisk_offset"%string then
    inl (with_addrs (o_base o) (o_kernel_addr o) (u32 (o_base o + 0x00008000 + num 16)) (o_second_addr o)
      (o_tags_addr o) o)
  else if named "--board"%string then inl (with_texts (o_cmdline o) val (o_pagesize o) (o_tags o) o)
  else if named "--pagesize"%string then
    let pagesize := num 10 in
    if negb (pagesize =? 2048) && negb (pagesize =? 4096) then inr (-1)
    else inl (with_texts (o_cmdline o) (o_board o) pagesize (o_tags o) o)
  else if named "--dt"%string then
    inl (with_files (o_kernel o) (o_ramdisk o) (o_second o) (Some val) (o_bootimg o) o)
  else if named "--tags-addr"%string then inl (with_texts (o_cmdline o) (o_board o) (o_pagesize o) (Some (num 16)) o)
  else inr 1.
Fixpoint parse_args (env : mk_env) (args : list (list Z)) (o : options) : options + Z :=
  match args with
  | [] => inl o
  | [_] => inr 1
  | arg :: val :: args =>
      match take_option env arg val o with inl o => parse_args env args o | inr code => inr code end
  end.

(** ** Files *)

(** The size is an int, and read(2) takes at most 0x7ffff000 bytes. *)
Definition load_file (env : mk_env) (fn : list Z) : option (list Z) :=
  match m_file env fn with
  | None => None
  | Some file =>
      let sz := i32 (zlen file) in
      if (sz <? 0) || (0x7ffff000 <? sz) then None else Some (take (Z.to_nat sz) file)
  end.
Record parts := { p_kernel : list Z; p_ramdisk : list Z; p_second : option (list Z); p_dt : option (list Z) }.
Definition load_if (env : mk_env) (fn : option (list Z)) : option (option (list Z)) :=
  match fn with
  | None => Some None
  | Some fn => match load_file env fn with Some d => Some (Some d) | None => None end
  end.
(** The checks of the options and the parts, or [None] where the tool gives up
    with status 1. *)
Definition load_parts (env : mk_env) (o : options) : option parts :=
  match o_bootimg o, o_kernel o, o_ramdisk o with
  | Some _, Some kernel_fn, Some ramdisk_fn =>
      if BOOT_NAME_SIZE <=? zlen (o_board o) then None
      else if BOOT_ARGS_SIZE - 1 <? zlen (o_cmdline o) then None
      else
        match load_file env kernel_fn,
              (if bool_decide (ramdisk_fn = zs "NONE") then Some [] else load_file env ramdisk_fn),
              load_if env (o_second o), load_if env (o_dt o) with
        | Some k, Some r, Some s, Some d => Some {| p_kernel := k; p_ramdisk := r; p_second := s; p_dt := d |}
        | _, _, _, _ => None
        end
  | _, _, _ => None
  end.
Definition size_of (part : option (list Z)) : Z := zlen (default [] part).
Definition hashed (p : parts) : list (list Z) :=
  [p_kernel p; le 4 (zlen (p_kernel p)); p_ramdisk p; le 4 (zlen (p_ramdisk p)); default [] (p_second p);
   le 4 (size_of (p_second p))] ++
  match p_dt p with Some dt => [dt; le 4 (zlen dt)] | None => [] end.
(** The text at the start of a cleared array. *)
Definition in_array (n : Z) (text : list Z) : cres (list Z) := wrn (replicate (Z.to_nat n) 0) 0 (text ++ [0]).
Definition header_of (env : mk_env) (o : options) (p : parts) : cres boot_img_hdr :=
  let* name := in_array BOOT_NAME_SIZE (o_board o) in
  let* cmdline := in_array BOOT_ARGS_SIZE (o_cmdline o) in
  let* ctx := updates (hashed p) (SHA_init (m_junk env)) in
  let* sha := SHA_final ctx in
  let* digest := rdn sha 0 (Z.to_nat SHA_DIGEST_SIZE) in
  let* id := wrn (replicate 32 0) 0 digest in
  Ret {| kernel_size := zlen (p_kernel p); kernel_addr := o_kernel_addr o;
         ramdisk_size := zlen (p_ramdisk p); ramdisk_addr := o_ramdisk_addr o;
         second_size := size_of (p_second p); second_addr := o_second_addr o;
         tags_addr := default (o_tags_addr o) (o_tags o); page_size := o_pagesize o; dt_size := size_of (p_dt p);
         hdr_name := name; hdr_cmdline := cmdline; hdr_id := id |}.

(** ** Writing *)

(** The writes of an item and of the padding behind it, if there is one. *)
Definition padding_array : list Z := replicate 4096 0.
Definition write_padding (pagesize itemsize : Z) : cres (list (list Z)) :=
  let pagemask := pagesize - 1 in
  if Z.land itemsize pagemask =? 0 then Ret []
  else let* pad := rdn padding_array 0 (Z.to_nat (pagesize - Z.land itemsize pagemask)) in Ret [pad].
Definition item (pagesize : Z) (data : list Z) (padded_size : Z) : cres (list (list Z)) :=
  let* pad := write_padding pagesize padded_size in Ret (data :: pad).
Definition image_writes (h : boot_img_hdr) (p : parts) : cres (list (list Z)) :=
  let ps := page_size h in
  let* w0 := item ps (hdr_bytes h) (zlen (hdr_bytes h)) in
  let* w1 := item ps (p_kernel p) (kernel_size h) in
  let* w2 := item ps (p_ramdisk p) (ramdisk_size h) in
  let* w3 := match p_second p with Some second => item ps second (ramdisk_size h) | None => Ret [] end in
  let* w4 := match p_dt p with Some dt => item ps dt (dt_size h) | None => Ret [] end in
  Ret (w0 ++ w1 ++ w2 ++ w3 ++ w4).
(** The file after the writes from the [k]-th on, or [None] when one fails. *)
Fixpoint write_all (env : mk_env) (k : nat) (writes : list (list Z)) (out : list Z) : option (list Z) :=
  match writes with
  | [] => Some out
  | w :: writes => if m_write env k then write_all env (S k) writes (out ++ w) else None
  end.
(** The exit status, and the output file if there is one when the tool ends. *)
Definition mkbootimg (env : mk_env) (args : list (list Z)) : cres (Z * option (list Z)) :=
  match parse_args env args (start_options env) with
  | inr code => Ret (code, None)
  | inl o =>
      match load_parts env o with
      | None => Ret (1, None)
      | Some p =>
          let* h := header_of env o p in
          if m_create env then
            let* writes := image_writes h p in
            match write_all env 0 writes [] with Some out => Ret (0, Some out) | None => Ret (1, None) end
          else Ret (1, None)
      end
  end.

(** ** Reading an image back *)

(** A boot loader's reading, by the comment of bootimg.h: the sizes are in the
    header, and every part starts on the page after those of the parts before. *)
Definition pages (size page : Z) : Z := (size + page - 1) / page.
Record boot := { b_kernel : list Z; b_ramdisk : list Z; b_second : list Z; b_dt : list Z }.
Definition read_image (img : list Z) : cres boot :=
  let* ks := rd32 img 8 in
  let* rs := rd32 img 16 in
  let* ss := rd32 img 24 in
  let* page := rd32 img 36 in
  let* ds := rd32 img 40 in
  let n := pages ks page in
  let m := pages rs page in
  let o := pages ss page in
  let* k := rdn img page (Z.to_nat ks) in
  let* r := rdn img (page * (1 + n)) (Z.to_nat rs) in
  let* s := rdn img (page * (1 + n + m)) (Z.to_nat ss) in
  let* d := rdn img (page * (1 + n + m + o)) (Z.to_nat ds) in
  Ret {| b_kernel := k; b_ramdisk := r; b_second := s; b_dt := d |}.

Definition page_ok (ps : Z) : Prop := ps = 2048 \/ ps = 4096.
Definition filler (ps n : Z) : list Z := replicate (Z.to_nat ((- n) mod ps)) 0.

Lemma take_option_page env arg val o o' :
  page_ok (o_pagesize o) -> take_option env arg val o = inl o' -> page_ok (o_pagesize o').
Proof.
  intros Ho. unfold take_option.
  repeat match goal with |- (if bool_decide ?P then _ else _) = _ -> _ => destruct (bool_decide P) end;
  repeat match goal with |- (if bool_decide ?P || bool_decide ?Q then _ else _) = _ -> _ =>
    destruct (bool_decide P || bool_decide Q) end;
  cbv zeta;
  repeat match goal with |- (if bool_decide ?P then _ else _) = _ -> _ => destruct (bool_decide P) end;
  try (intros [= <-]; exact Ho); try discriminate.
  destruct (Z.eqb_spec (u32 (strtoul (m_ulong env) 10 val)) 2048) as [->|]; cbn [negb andb];
    [intros [= <-]; by left|].
  destruct (Z.eqb_spec (u32 (strtoul (m_ulong env) 10 val)) 4096) as [->|]; cbn [negb andb];
    [intros [= <-]; by right|discriminate].
Qed.
Lemma parse_page env args o o' :
  page_ok (o_pagesize o) -> parse_args env args o = inl o' -> page_ok (o_pagesize o').
Proof.
  assert (Hn : forall n args o, (length args <= n)%nat -> page_ok (o_pagesize o) ->
    parse_args env args o = inl o' -> page_ok (o_pagesize o')).
  { clear args o. induction n as [|n IH]; intros args o Hl Ho.
    - destruct args; [|cbn in Hl; lia]. cbn. by intros [= <-].
    - destruct args as [|arg [|val args]]; cbn [parse_args]; [by intros [= <-]|discriminate|].
      destruct (take_option env arg val o) as [o1|] eqn:E; [|discriminate]. apply IH; [cbn in Hl; lia|].
      by eapply take_option_page. }
  by apply (Hn (length args)).
Qed.

Lemma load_file_size env fn d : load_file env fn = Some d -> zlen d <= 0x7ffff000.
Proof.
  unfold load_file. destruct (m_file env fn) as [file|]; [|discriminate].
  destruct ((i32 (zlen file) <? 0) || (0x7ffff000 <? i32 (zlen file))) eqn:E; [discriminate|]. intros [= <-].
  apply orb_false_iff in E as [E1%Z.ltb_ge E2%Z.ltb_ge]. unfold zlen at 1. rewrite length_take. lia.
Qed.
(** The parts are of a size the header can hold, and the texts fit. *)
Definition parts_ok (o : options) (p : parts) : Prop :=
  zlen (p_kernel p) <= 0x7ffff000 /\ zlen (p_ramdisk p) <= 0x7ffff000 /\ size_of (p_second p) <= 0x7ffff000 /\
  size_of (p_dt p) <= 0x7ffff000 /\ zlen (o_board o) <= 15 /\ zlen (o_cmdline o) <= 511.
Lemma load_if_size env fn d : load_if env fn = Some d -> size_of d <= 0x7ffff000.
Proof.
  unfold load_if, size_of. destruct fn as [fn|]; [|by intros [= <-]].
  destruct (load_file env fn) as [d'|] eqn:E; [|discriminate]. intros [= <-]. by apply load_file_size in E.
Qed.
Lemma load_parts_ok env o p : load_parts env o = Some p -> parts_ok o p.
Proof.
  unfold load_parts. destruct (o_bootimg o), (o_kernel o) as [kf|], (o_ramdisk o) as [rf|]; try discriminate.
  unfold BOOT_NAME_SIZE, BOOT_ARGS_SIZE.
  destruct (Z.leb_spec 16 (zlen (o_board o))); [discriminate|].
  destruct (Z.ltb_spec (512 - 1) (zlen (o_cmdline o))); [discriminate|].
  destruct (load_file env kf) as [k|] eqn:Ek; [|discriminate].
  destruct (if bool_decide _ then _ else _) as [r|] eqn:Er; [|discriminate].
  destruct (load_if env (o_second o)) as [s|] eqn:Es; [|discriminate].
  destruct (load_if env (o_dt o)) as [d|] eqn:Ed; [|discriminate]. intros [= <-]. unfold parts_ok.
  cbn [p_kernel p_ramdisk p_second p_dt].
  apply load_file_size in Ek. apply load_if_size in Es, Ed.
  assert (zlen r <= 0x7ffff000); [|lia].
  destruct (bool_decide _); [injection Er as <-; by vm_compute|by apply load_file_size in Er].
Qed.

Lemma land_page ps n : page_ok ps -> Z.land n (ps - 1) = n mod ps.
Proof.
  intros [-> | ->]; [change (2048 - 1) with (Z.ones 11)|change (4096 - 1) with (Z.ones 12)]; by rewrite Z.land_ones.
Qed.
Lemma item_run ps d n : page_ok ps -> exists w, item ps d n = Ret w /\ concat w = d ++ filler ps n.
Proof.
  intros Hp. unfold item, write_padding. rewrite land_page by done. assert (Hpos : 0 < ps <= 4096) by (destruct Hp; lia).
  unfold filler. destruct (Z.eqb_spec (n mod ps) 0) as [H0|Hne].
  - eexists. split; [reflexivity|]. cbn [concat]. rewrite Z.mod_opp_l_z by lia. done.
  - rewrite Z.mod_opp_l_nz by lia. pose proof (Z.mod_pos_bound n ps ltac:(lia)).
    rewrite rdn_head by (unfold padding_array; rewrite length_replicate; lia). cbn [cbind].
    eexists. split; [reflexivity|]. cbn [concat]. rewrite app_nil_r. f_equal. unfold padding_array. rewrite take_replicate.
    f_equal. lia.
Qed.
(** A part with its padding fills its pages. *)
Lemma filler_pages ps d : page_ok ps -> zlen (d ++ filler ps (zlen d)) = ps * pages (zlen d) ps.
Proof.
  intros Hp. unfold filler, pages. zl. destruct Hp as [-> | ->]; rewrite Z2Nat.id by dlia; dlia.
Qed.
Lemma filler_same ps a b : page_ok ps -> (a - b) mod ps = 0 -> filler ps a = filler ps b.
Proof. intros Hp H. unfold filler. do 2 f_equal. destruct Hp as [-> | ->]; dlia. Qed.
Lemma write_all_run env writes out k : (forall i, m_write env i = true) -> write_all env k writes out = Some (out ++ concat writes).
Proof.
  intros Hw. revert k out. induction writes as [|w writes IH]; intros k out; cbn [write_all concat]; [by rewrite app_nil_r|].
  by rewrite Hw, IH, <- app_assoc.
Qed.

Definition id_of (p : parts) : list Z := @digest fips_sha1 (concat (hashed p)).
Definition header (o : options) (p : parts) : boot_img_hdr :=
  {| kernel_size := zlen (p_kernel p); kernel_addr := o_kernel_addr o;
     ramdisk_size := zlen (p_ramdisk p); ramdisk_addr := o_ramdisk_addr o;
     second_size := size_of (p_second p); second_addr := o_second_addr o;
     tags_addr := default (o_tags_addr o) (o_tags o); page_size := o_pagesize o; dt_size := size_of (p_dt p);
     hdr_name := o_board o ++ replicate (16 - length (o_board o)) 0;
     hdr_cmdline := o_cmdline o ++ replicate (512 - length (o_cmdline o)) 0;
     hdr_id := id_of p ++ replicate 12 0 |}.
Lemma in_array_run n text :
  zlen text < n -> in_array n text = Ret (text ++ replicate (Z.to_nat n - length text) 0).
Proof.
  intros Hn. pose proof (zlen_nonneg text). unfold in_array. rewrite wrn_ok by (zl; change (zlen [0]) with 1; lia).
  change (Z.to_nat 0) with 0%nat. rewrite take_0. cbn [app]. rewrite <- app_assoc. do 2 f_equal.
  rewrite length_app. cbn [length Nat.add]. rewrite drop_replicate.
  change ([0] ++ replicate ?k 0) with (replicate (S k) 0). f_equal. unfold zlen in *. lia.
Qed.
Lemma header_run env o p :
  length (m_junk env) = 64%nat -> parts_ok o p -> header_of env o p = Ret (header o p) /\ length (id_of p) = 20%nat.
Proof.
  intros Hj (_ & _ & _ & _ & Hb & Hc). unfold header_of, BOOT_NAME_SIZE, BOOT_ARGS_SIZE.
  rewrite !in_array_run by lia. cbn [cbind].
  destruct (updates_run (hashed p) [] _ (init_held _ Hj)) as (c & -> & Hh). cbn [cbind app] in *.
  destruct (final_run _ _ Hh) as (rest & -> & Hl). cbn [cbind]. fold (id_of p) in *. unfold SHA_DIGEST_SIZE.
  rewrite rdn_head by (rewrite length_app; lia). rewrite take_app_length' by done. cbn [cbind].
  rewrite wrn_ok by (unfold zlen; rewrite ?Hl, ?length_replicate; lia).
  change (Z.to_nat 0) with 0%nat. rewrite take_0, Hl. split; [reflexivity|done].
Qed.
Lemma header_length o p : parts_ok o p -> length (id_of p) = 20%nat -> zlen (hdr_bytes (header o p)) = 608.
Proof.
  intros (_ & _ & _ & _ & Hb & Hc) Hl. unfold hdr_bytes, zlen. rewrite !length_app. cbn [header hdr_name hdr_cmdline hdr_id].
  rewrite !length_app, !length_replicate, Hl. unfold zlen in *. cbn [concat map length app le].
  change (length BOOT_MAGIC) with 8%nat. lia.
Qed.

(** The second stage is followed by the padding of the ramdisk. *)
Definition image_of (h : boot_img_hdr) (p : parts) : list Z :=
  let ps := page_size h in
  let part d := d ++ filler ps (zlen d) in
  part (hdr_bytes h) ++ part (p_kernel p) ++ part (p_ramdisk p) ++
  match p_second p with Some d => d ++ filler ps (zlen (p_ramdisk p)) | None => [] end ++
  match p_dt p with Some d => part d | None => [] end.
Lemma writes_run o p :
  page_ok (o_pagesize o) -> exists w, image_writes (header o p) p = Ret w /\ concat w = image_of (header o p) p.
Proof.
  intros Hp. unfold image_writes, image_of. cbn [header page_size kernel_size ramdisk_size dt_size].
  destruct (item_run _ (hdr_bytes (header o p)) (zlen (hdr_bytes (header o p))) Hp) as (w0 & -> & H0). cbn [cbind].
  destruct (item_run _ (p_kernel p) (zlen (p_kernel p)) Hp) as (w1 & -> & H1). cbn [cbind].
  destruct (item_run _ (p_ramdisk p) (zlen (p_ramdisk p)) Hp) as (w2 & -> & H2). cbn [cbind].
  assert (exists w3, match p_second p with Some second => item (o_pagesize o) second (zlen (p_ramdisk p)) | None => Ret [] end = Ret w3 /\
    concat w3 = match p_second p with Some d => d ++ filler (o_pagesize o) (zlen (p_ramdisk p)) | None => [] end)
    as (w3 & -> & H3) by (destruct (p_second p); [by apply item_run|by exists []]).
  cbn [cbind].
  assert (exists w4, match p_dt p with Some dt => item (o_pagesize o) dt (size_of (p_dt p)) | None => Ret [] end = Ret w4 /\
    concat w4 = match p_dt p with Some d => d ++ filler (o_pagesize o) (zlen d) | None => [] end)
    as (w4 & -> & H4) by (destruct (p_dt p); [by apply item_run|by exists []]).
  cbn [cbind]. eexists. split; [reflexivity|]. by rewrite !concat_app, H0, H1, H2, H3, H4.
Qed.

Lemma write_all_some env k writes out img :
  write_all env k writes out = Some img <->
  img = out ++ concat writes /\ forall i, (i < length writes)%nat -> m_write env (k + i) = true.
Proof.
  revert k out. induction writes as [|w writes IH]; intros k out; cbn [write_all concat length].
  - rewrite app_nil_r. split; [intros [= ->]; split; [done|lia]|by intros [-> _]].
  - destruct (m_write env k) eqn:Ek.
    + rewrite IH, <- app_assoc. split; intros [-> H]; (split; [done|]).
      * intros [|i] Hi; [by rewrite Nat.add_0_r|]. rewrite <- Nat.add_succ_comm. apply H. lia.
      * intros i Hi. rewrite Nat.add_succ_comm. apply H. lia.
    + split; [discriminate|]. intros [_ H]. specialize (H 0%nat ltac:(lia)). rewrite Nat.add_0_r in H. congruence.
Qed.
(** The arguments name an image and parts that load, the output is created and all
    its writes take their bytes. *)
Definition succeeds (env : mk_env) (args : list (list Z)) (img : list Z) : Prop :=
  exists o p w, parse_args env args (start_options env) = inl o /\ load_parts env o = Some p /\ m_create env = true /\
    image_writes (header o p) p = Ret w /\ (forall i, (i < length w)%nat -> m_write env i = true) /\
    img = image_of (header o p) p.

Lemma parse_status env args o code : parse_args env args o = inr code -> code <> 0.
Proof.
  assert (Hn : forall n args o, (length args <= n)%nat -> parse_args env args o <> inr 0).
  { clear. induction n as [|n IH]; intros args o Hl; [by destruct args; [|cbn in Hl; lia]|].
    destruct args as [|arg [|val args]]; cbn [parse_args]; [discriminate..|].
    destruct (take_option env arg val o) as [o1|code] eqn:E; [apply IH; cbn in Hl; lia|]. intros [= ->].
    revert E. unfold take_option. repeat case_match; discriminate. }
  intros H ->. by apply (Hn (length args) args o) in H.
Qed.
(** C29: whatever the arguments, the files and the writes that fail, the tool ends
    within its buffers; it exits with status 0 exactly when it leaves an image,
    which is when the arguments are complete, every part loads, the output is
    created and no write fails, and the image is then the header and the parts in
    their order, each padded. *)
Theorem tool_ends env args (Hj : length (m_junk env) = 64%nat) :
  exists code r, mkbootimg env args = Ret (code, r) /\ (code = 0 <-> exists img, r = Some img) /\
    forall img, r = Some img <-> succeeds env args img.
Proof.
  assert (Hno : forall code, code <> 0 -> (forall img, ~ succeeds env args img) ->
    (code = 0 <-> exists img : list Z, None = Some img) /\ forall img, None = Some img <-> succeeds env args img).
  { intros code Hc Hs. split; [by split; [|intros [? ?]]|]. intros img. split; [discriminate|]. by intros H%Hs. }
  unfold mkbootimg. destruct (parse_args env args (start_options env)) as [o|code] eqn:Ea.
  2:{ exists code, None. split; [done|]. apply Hno; [by eapply parse_status|]. intros img (o & p & w & H & _). congruence. }
  assert (Hp : page_ok (o_pagesize o)) by (eapply parse_page; [|exact Ea]; by left).
  destruct (load_parts env o) as [p|] eqn:El.
  2:{ exists 1, None. split; [done|]. apply Hno; [done|]. intros img (o' & p & w & H1 & H2 & _). congruence. }
  destruct (header_run env o p Hj (load_parts_ok _ _ _ El)) as [-> _]. cbn [cbind].
  destruct (m_create env) eqn:Ec.
  2:{ exists 1, None. split; [done|]. apply Hno; [done|]. intros img (o' & p' & w & _ & _ & H & _). congruence. }
  destruct (writes_run o p Hp) as (w & Hw & Hc). rewrite Hw. cbn [cbind].
  destruct (write_all env 0 w []) as [out|] eqn:Eo.
  - apply write_all_some in Eo as [-> Hall]. rewrite Hc. exists 0, (Some (image_of (header o p) p)). split; [done|].
    split; [split; [by eexists|done]|]. intros img. split.
    + intros [= <-]. exists o, p, w. by split_and!.
    + intros (o' & p' & w' & Ho & Hl & _ & _ & _ & ->). rewrite Ea in Ho. injection Ho as <-. rewrite El in Hl. by injection Hl as <-.
  - exists 1, None. split; [done|]. apply Hno; [done|]. intros img (o' & p' & w' & Ho & Hl & _ & Hw' & Hall & _).
    rewrite Ea in Ho. injection Ho as <-. rewrite El in Hl. injection Hl as <-. rewrite Hw in Hw'. injection Hw' as <-.
    assert (write_all env 0 w [] = Some (concat w)) as Hx by (apply write_all_some; by split). congruence.
Qed.

Lemma rd32_part img pre x rest off :
  img = pre ++ le 4 x ++ rest -> zlen pre = off -> 0 <= x < 4294967296 -> rd32 img off = Ret x.
Proof.
  intros -> <- Hx. rewrite <- (Z.add_0_r (zlen pre)), rd32_shift by done. cbn [le app]. rdc. f_equal.
  cbn [unle]. dlia.
Qed.
Lemma rdn_part img pre d rest off n : img = pre ++ d ++ rest -> zlen pre = off -> n = length d -> rdn img off n = Ret d.
Proof. intros -> <- ->. apply rdn_app. Qed.

(** The words a boot loader reads of the header, its magic and its identifier. *)
Definition words_before (l : list Z) : list Z := BOOT_MAGIC ++ concat (map (le 4) l).
Lemma words_before_len l : zlen (words_before l) = 8 + 4 * zlen l.
Proof.
  unfold words_before. rewrite zlen_app. change (zlen BOOT_MAGIC) with 8. f_equal.
  induction l as [|x l IH]; [done|]. cbn [map concat]. rewrite zlen_app, zlen_le, zlen_cons, IH. lia.
Qed.
Lemma header_word l x l' rest off :
  8 + 4 * zlen l = off -> 0 <= x < 4294967296 -> rd32 (words_before (l ++ x :: l') ++ rest) off = Ret x.
Proof.
  intros Ho Hx. apply (rd32_part _ (words_before l) x (concat (map (le 4) l') ++ rest)); [|by rewrite words_before_len|done].
  unfold words_before. rewrite map_app, concat_app. cbn [map concat]. by rewrite <- !app_assoc.
Qed.
Lemma header_reads o p rest img :
  parts_ok o p -> page_ok (o_pagesize o) -> length (id_of p) = 20%nat -> img = hdr_bytes (header o p) ++ rest ->
  rd32 img 8 = Ret (zlen (p_kernel p)) /\ rd32 img 16 = Ret (zlen (p_ramdisk p)) /\
  rd32 img 24 = Ret (size_of (p_second p)) /\ rd32 img 36 = Ret (o_pagesize o) /\
  rd32 img 40 = Ret (size_of (p_dt p)) /\ rdn img 0 8 = Ret BOOT_MAGIC /\ rdn img 576 20 = Ret (id_of p).
Proof.
  intros Hok Hp Hid ->. pose proof (header_length o p Hok Hid) as Hlen. destruct Hok as (Hk & Hr & Hs & Hd & Hb & Hcl).
  assert (Hpos : forall d : list Z, 0 <= zlen d) by (intros; apply zlen_nonneg).
  assert (0 <= size_of (p_second p) /\ 0 <= size_of (p_dt p)) as [??] by (split; apply Hpos).
  assert (0 <= o_pagesize o < 4294967296) by (destruct Hp as [-> | ->]; lia).
  pose proof (Hpos (p_kernel p)). pose proof (Hpos (p_ramdisk p)).
  unfold hdr_bytes in *. rewrite app_assoc, <- app_assoc. fold (words_before [kernel_size (header o p); kernel_addr (header o p);
    ramdisk_size (header o p); ramdisk_addr (header o p); second_size (header o p); second_addr (header o p);
    tags_addr (header o p); page_size (header o p); dt_size (header o p); 0]).
  cbn [header kernel_size kernel_addr ramdisk_size ramdisk_addr second_size second_addr tags_addr page_size dt_size].
  split_and!.
  - apply (header_word []); [done|lia].
  - apply (header_word [_; _]); [done|lia].
  - apply (header_word [_; _; _; _]); [done|lia].
  - apply (header_word [_; _; _; _; _; _; _]); [done|lia].
  - apply (header_word [_; _; _; _; _; _; _; _]); [done|lia].
  - unfold words_before. rewrite <- app_assoc. by eapply (rdn_part _ []).
  - set (W := words_before _). assert (HW : zlen W = 48) by (unfold W; by rewrite words_before_len).
    clearbody W. cbn [hdr_name hdr_cmdline hdr_id header].
    set (name := o_board o ++ _). set (cmdline := o_cmdline o ++ _).
    apply (rdn_part _ (W ++ name ++ cmdline) (id_of p) (replicate 12 0 ++ rest)); [by rewrite <- !app_assoc| |by rewrite Hid].
    unfold name, cmdline, zlen in *. rewrite !length_app, !length_replicate. lia.
Qed.
(** The parts on their pages. *)
Lemma parts_read ps hb k r s d (fill := fun d => d ++ filler ps (zlen d)) :
  page_ok ps -> zlen (fill hb) = ps ->
  let img := fill hb ++ fill k ++ fill r ++ fill s ++ fill d in
  let at_page n d := rdn img (ps * n) (length d) = Ret d in
  at_page 1 k /\ at_page (1 + pages (zlen k) ps) r /\ at_page (1 + pages (zlen k) ps + pages (zlen r) ps) s /\
  at_page (1 + pages (zlen k) ps + pages (zlen r) ps + pages (zlen s) ps) d.
Proof.
  intros Hp Hh img at_page. assert (Hf : forall d, zlen (fill d) = ps * pages (zlen d) ps) by (intros; by apply filler_pages).
  subst at_page img. cbv beta. split_and!.
  - apply (rdn_part _ (fill hb) k (filler ps (zlen k) ++ fill r ++ fill s ++ fill d)); [|lia|done].
    unfold fill. by rewrite <- !app_assoc.
  - apply (rdn_part _ (fill hb ++ fill k) r (filler ps (zlen r) ++ fill s ++ fill d)); [|rewrite zlen_app, Hh, Hf; lia|done].
    unfold fill. by rewrite <- !app_assoc.
  - apply (rdn_part _ (fill hb ++ fill k ++ fill r) s (filler ps (zlen s) ++ fill d)); [|rewrite !zlen_app, Hh, !Hf; lia|done].
    unfold fill. by rewrite <- !app_assoc.
  - apply (rdn_part _ (fill hb ++ fill k ++ fill r ++ fill s) d (filler ps (zlen d))); [|rewrite !zlen_app, Hh, !Hf; lia|done].
    unfold fill. by rewrite <- !app_assoc.
Qed.
(** The image when the padding of the second stage is right. *)
Lemma image_filled o p (ps := o_pagesize o) (fill := fun d => d ++ filler ps (zlen d)) :
  page_ok ps -> (forall d, p_second p = Some d -> (zlen (p_ramdisk p) - zlen d) mod ps = 0) ->
  image_of (header o p) p = fill (hdr_bytes (header o p)) ++ fill (p_kernel p) ++ fill (p_ramdisk p) ++
    fill (default [] (p_second p)) ++ fill (default [] (p_dt p)).
Proof.
  intros Hp Hsecond. unfold image_of. change (page_size (header o p)) with ps.
  assert (Hnil : fill [] = []) by (unfold fill; by destruct Hp as [-> | ->]).
  fold (fill (hdr_bytes (header o p))) (fill (p_kernel p)) (fill (p_ramdisk p)). do 3 f_equal. f_equal.
  - destruct (p_second p) as [d|] eqn:E; cbn [default]; [|by rewrite Hnil].
    unfold fill. f_equal. apply filler_same; [done|]. by apply Hsecond.
  - destruct (p_dt p); [done|]. cbn [default]. by rewrite Hnil.
Qed.

(** C28: when nothing fails, and the second stage, if there is one, has a size that
    agrees with the ramdisk's up to whole pages, the image the tool leaves reads
    back, by the page layout that bootimg.h gives, as the parts that were loaded,
    and its identifier is the SHA-1 of FIPS 180 of the parts and their sizes. *)
Theorem image_reads_back env args o p
  (Hj : length (m_junk env) = 64%nat) (Hargs : parse_args env args (start_options env) = inl o)
  (Hload : load_parts env o = Some p) (Hcreate : m_create env = true) (Hwrites : forall i, m_write env i = true)
  (Hsecond : forall d, p_second p = Some d -> (zlen (p_ramdisk p) - zlen d) mod o_pagesize o = 0) :
  exists img, mkbootimg env args = Ret (0, Some img) /\
    read_image img = Ret {| b_kernel := p_kernel p; b_ramdisk := p_ramdisk p; b_second := default [] (p_second p);
                            b_dt := default [] (p_dt p) |} /\
    rdn img 0 8 = Ret BOOT_MAGIC /\ rdn img 576 20 = Ret (@digest fips_sha1 (concat (hashed p))).
Proof.
  assert (Hp : page_ok (o_pagesize o)) by (eapply parse_page; [|exact Hargs]; by left).
  pose proof (load_parts_ok _ _ _ Hload) as Hok. destruct (header_run env o p Hj Hok) as [Hh Hid].
  destruct (writes_run o p Hp) as (w & Hw & Hc). exists (image_of (header o p) p).
  split. { unfold mkbootimg. rewrite Hargs, Hload, Hh. cbn [cbind]. rewrite Hcreate, Hw. cbn [cbind].
    by rewrite write_all_run, Hc. }
  set (ps := o_pagesize o) in *.
  destruct (parts_read ps (hdr_bytes (header o p)) (p_kernel p) (p_ramdisk p) (default [] (p_second p)) (default [] (p_dt p)) Hp)
    as (Rk & Rr & Rs & Rd).
  { rewrite filler_pages by done. rewrite (header_length o p Hok Hid). by destruct Hp as [-> | ->]. }
  pose proof (image_filled o p Hp Hsecond) as Himg. cbv zeta in Himg. fold ps in Himg. rewrite <- Himg in Rk, Rr, Rs, Rd.
  destruct (header_reads o p (filler ps (zlen (hdr_bytes (header o p))) ++ drop (Z.to_nat ps) (image_of (header o p) p))
    (image_of (header o p) p) Hok Hp Hid) as (H8 & H16 & H24 & H36 & H40 & Hm & Hi).
  { rewrite app_assoc. set (hd := hdr_bytes (header o p) ++ filler ps (zlen (hdr_bytes (header o p)))) in *.
    rewrite Himg at 1. rewrite Himg. f_equal. symmetry. apply drop_app_length'.
    apply Nat2Z.inj. fold (zlen hd). unfold hd. rewrite filler_pages, (header_length o p Hok Hid) by done.
    by destruct Hp as [-> | ->]. }
  split; [|by split].
  unfold read_image. rewrite H8. cbn [cbind]. rewrite H16. cbn [cbind]. rewrite H24. cbn [cbind].
  fold ps in H36. rewrite H36. cbn [cbind]. rewrite H40. cbn [cbind].
  assert (Hn : forall d : list Z, Z.to_nat (zlen d) = length d) by (intros; unfold zlen; lia).
  unfold size_of. rewrite !Hn. rewrite Z.mul_1_r in Rk. rewrite Rk. cbn [cbind]. rewrite Rr. cbn [cbind].
  rewrite Rs. cbn [cbind]. by rewrite Rd.
Qed.

(** * Examples *)

Definition sample_files (second dt : option (list Z)) (fn : list Z) : option (list Z) :=
  if bool_decide (fn = zs "zImage") then Some (replicate 300 1)
  else if bool_decide (fn = zs "rd") then Some (replicate 100 2)
  else if bool_decide (fn = zs "lk") then second else if bool_decide (fn = zs "dtb") then dt else None.
Definition sample_mk (second dt : option (list Z)) : mk_env :=
  {| m_base := 0xdeadbeef; m_ulong := 2 ^ 64 - 1; m_file := sample_files second dt; m_create := true;
     m_write := fun _ => true; m_junk := replicate 64 7 |}.
Definition sample_args : list (list Z) :=
  map zs ["--kernel"; "zImage"; "--ramdisk"; "rd"; "--second"; "lk"; "--dt"; "dtb"; "--base"; "0x80000000";
          "--pagesize"; "2048"; "-o"; "boot.img"]%string.
Definition sample_parts : parts :=
  {| p_kernel := replicate 300 1; p_ramdisk := replicate 100 2; p_second := Some (replicate 100 3);
     p_dt := Some (replicate 10 4) |}.
Definition good_mk : mk_env := sample_mk (Some (replicate 100 3)) (Some (replicate 10 4)).
Definition parsed : options :=
  match parse_args good_mk sample_args (start_options good_mk) with inl o => o | inr _ => start_options good_mk end.
Definition reads_as (img : list Z) (p : parts) : Prop :=
  read_image img = Ret {| b_kernel := p_kernel p; b_ramdisk := p_ramdisk p; b_second := default [] (p_second p);
                          b_dt := default [] (p_dt p) |}.
Lemma image_reads_back_witness :
  exists img, mkbootimg good_mk sample_args = Ret (0, Some img) /\ reads_as img sample_parts /\
    rdn img 0 8 = Ret BOOT_MAGIC /\ rdn img 576 20 = Ret (@digest fips_sha1 (concat (hashed sample_parts))).
Proof.
  apply (image_reads_back good_mk sample_args parsed sample_parts).
  - reflexivity.
  - vm_compute. reflexivity.
  - vm_compute. reflexivity.
  - reflexivity.
  - intros i. reflexivity.
  - intros d [= <-]. reflexivity.
Defined.
Lemma tool_ends_witness :
  exists code r, mkbootimg good_mk [zs "--kernel"] = Ret (code, r) /\ (code = 0 <-> exists img, r = Some img) /\
    forall img, r = Some img <-> succeeds good_mk [zs "--kernel"] img.
Proof. apply (tool_ends good_mk [zs "--kernel"]). reflexivity. Defined.

(** A second stage of another size than the ramdisk gets the ramdisk's padding: the
    device tree is not on a page and reads back wrong. *)
Definition misplaced_parts : parts :=
  {| p_kernel := replicate 30 1; p_ramdisk := replicate 100 2; p_second := Some (replicate 50 3);
     p_dt := Some (replicate 10 4) |}.
Example dt_misplaced :
  match read_image (image_of (header parsed misplaced_parts) misplaced_parts) with
  | Ret b => bool_decide (b_second b = replicate 50 3) && negb (bool_decide (b_dt b = replicate 10 4))
  | _ => false
  end = true.
Proof. by vm_compute. Qed.
(** The ramdisk's offset before the base is added to a variable that is not set. *)
Example offset_before_base :
  match parse_args good_mk (map zs ["--ramdisk_offset"; "100"]%string) (start_options good_mk) with
  | inl o => o_ramdisk_addr o
  | inr _ => 0
  end = u32 (0xdeadbeef + 0x8000 + 0x100).
Proof. by vm_compute. Qed.
