(* ===== verification/Dtbtool.v ===== *)
(** The tool that combines the device trees of the kernel into one file
    (src/recipes-devtools/dtbtool/files/dtbtool.c): the identifiers a decompiled
    tree names, the doubly linked list of the chips with its pointers, the table
    of the combined file and its trees. *)

From stdpp Require Import base list numbers option strings sorting.
From Stdlib Require Import ZArith Lia.
From S2P Require Import Prelude Libc.

(** * Chips *)

(** What names a chip; [pmic] has the four models. *)
Record ids := { chipset : Z; platform : Z; subtype : Z; revNum : Z; pmic : Z * Z * Z * Z }.
#[export] Instance ids_eq_dec : EqDecision ids.
Proof. solve_decision. Defined.
(** struct chipInfo_t. An address is a number; the chips of a tree have consecutive
    ones in the order of t_next. *)
Record chipInfo_t := {
  c_ids : ids;
  c_dtb_size : Z;
  c_dtb_file : option (list Z);
  c_prev : option nat;
  c_next : option nat;
  c_master : nat;
  c_wrote : bool;
  c_offset : Z
}.
Definition set_links (p n : option nat) (c : chipInfo_t) : chipInfo_t :=
  {| c_ids := c_ids c; c_dtb_size := c_dtb_size c; c_dtb_file := c_dtb_file c; c_prev := p; c_next := n;
     c_master := c_master c; c_wrote := c_wrote c; c_offset := c_offset c |}.
Definition set_prev (p : option nat) (c : chipInfo_t) : chipInfo_t := set_links p (c_next c) c.
Definition set_next (n : option nat) (c : chipInfo_t) : chipInfo_t := set_links (c_prev c) n c.
Definition set_file (size : Z) (file : list Z) (c : chipInfo_t) : chipInfo_t :=
  {| c_ids := c_ids c; c_dtb_size := size; c_dtb_file := Some file; c_prev := c_prev c; c_next := c_next c;
     c_master := c_master c; c_wrote := c_wrote c; c_offset := c_offset c |}.
Definition set_wrote (c : chipInfo_t) : chipInfo_t :=
  {| c_ids := c_ids c; c_dtb_size := c_dtb_size c; c_dtb_file := c_dtb_file c; c_prev := c_prev c;
     c_next := c_next c; c_master := c_master c; c_wrote := true; c_offset := c_offset c |}.
Definition set_offset (v : Z) (c : chipInfo_t) : chipInfo_t :=
  {| c_ids := c_ids c; c_dtb_size := c_dtb_size c; c_dtb_file := c_dtb_file c; c_prev := c_prev c;
     c_next := c_next c; c_master := c_master c; c_wrote := c_wrote c; c_offset := v |}.

(** The memory and the list. *)
Record chips := { mem : list chipInfo_t; chip_list : option nat }.
Definition deref (h : list chipInfo_t) (a : nat) : cres chipInfo_t := match h !! a with Some c => Ret c | None => Oob end.
Definition upd (a : nat) (f : chipInfo_t -> chipInfo_t) (s : chips) : cres chips :=
  let* c := deref (mem s) a in Ret {| mem := <[a := f c]> (mem s); chip_list := chip_list s |}.
Definition set_list (l : option nat) (s : chips) : chips := {| mem := mem s; chip_list := l |}.

(** The order of the list, and what makes a duplicate. *)
Definition before (c x : ids) : bool :=
  (chipset c <? chipset x) ||
  ((chipset c =? chipset x) &&
   ((platform c <? platform x) ||
    ((platform c =? platform x) &&
     ((subtype c <? subtype x) ||
      ((subtype c =? subtype x) && (revNum c <? revNum x)))))).
Definition same (c x : ids) : bool :=
  (chipset c =? chipset x) && (platform c =? platform x) && (subtype c =? subtype x) && (revNum c =? revNum x) &&
  (let '(c0, c1, c2, c3) := pmic c in let '(x0, x1, x2, x3) := pmic x in
   (c0 =? x0) && (c1 =? x1) && (c2 =? x2) && (c3 =? x3)).

Definition RC_SUCCESS : Z := 0.
Definition RC_ERROR : Z := -1.
Fixpoint add_loop (fuel c x : nat) (s : chips) : cres (Z * chips) :=
  match fuel with
  | O => Spin
  | S fuel =>
      let* cc := deref (mem s) c in
      let* cx := deref (mem s) x in
      if before (c_ids cc) (c_ids cx) then
        match c_prev cx with
        | None =>
            let* s := upd c (set_links None (Some x)) s in
            let* s := upd x (set_prev (Some c)) s in
            Ret (RC_SUCCESS, set_list (Some c) s)
        | Some p =>
            let* s := upd c (set_links (Some p) (Some x)) s in
            let* s := upd p (set_next (Some c)) s in
            let* s := upd x (set_prev (Some c)) s in
            Ret (RC_SUCCESS, s)
        end
      else if same (c_ids cc) (c_ids cx) then Ret (RC_ERROR, s)
      else
        match c_next cx with
        | None =>
            let* s := upd c (set_links (Some x) None) s in
            let* s := upd x (set_next (Some c)) s in
            Ret (RC_SUCCESS, s)
        | Some n => add_loop fuel c n s
        end
  end.
Definition chip_add (c : nat) (s : chips) : cres (Z * chips) :=
  match chip_list s with
  | None => let* s := upd c (set_links None None) s in Ret (RC_SUCCESS, set_list (Some c) s)
  | Some x => add_loop (S (length (mem s))) c x s
  end.

(** * What a decompiled tree says *)

Definition QCDT_DT_TAG : list Z := zs "qcom,msm-id = <".
Definition QCDT_BOARD_TAG : list Z := zs "qcom,board-id = <".
Definition QCDT_PMIC_TAG : list Z := zs "qcom,pmic-id = <".
Definition blank (c : Z) : bool := (c =? 32) || (c =? 9).
(** The tokens strtok_r(3) yields, and how many bytes it had passed when the first
    one ended. *)
Fixpoint token_list (cur : list Z) (s : list Z) : list (list Z) :=
  match s with
  | [] => match cur with [] => [] | _ => [rev cur] end
  | c :: s =>
      if blank c then match cur with [] => token_list [] s | _ => rev cur :: token_list [] s end
      else token_list (c :: cur) s
  end.
Fixpoint first_end (in_token : bool) (s : list Z) (i : nat) : nat :=
  match s with
  | [] => i
  | c :: s => if blank c then (if in_token then i else first_end false s (S i)) else first_end true s (S i)
  end.
(** Groups of [n] tokens up to a closing one or to the end of the line. *)
Fixpoint groups (fuel n : nat) (toks : list (list Z)) : list (list (list Z)) :=
  match fuel with
  | O => []
  | S fuel =>
      let g := take n toks in
      if (length g <? n)%nat || existsb (fun t => bool_decide (head t = Some 62)) g then []
      else g :: groups fuel n (drop n toks)
  end.
(** The values of a line behind a tag, if it has the tag, and the line as strtok_r
    leaves it. *)
Definition tagged (max : Z) (n : nat) (tag line : list Z) : option (list (list Z)) * list Z :=
  match strstr line tag with
  | None => (None, line)
  | Some pos =>
      let text := drop (length tag) pos in
      let toks := token_list [] text in
      (Some (map (map (fun t => u32 (strtoul max 0 t))) (groups (S (length toks)) n toks)),
       match toks with [] => line | _ => take (length line - length text + first_end false text 0) line end)
  end.

(** GetVersionInfo: the lines of the decompiler, when it ran. *)
Fixpoint version_of (v : Z) (lines : list (list Z)) : Z :=
  match lines with
  | [] => v
  | line :: lines =>
      let v := match strstr line QCDT_BOARD_TAG with Some _ => 2 | None => v end in
      match strstr line QCDT_PMIC_TAG with Some _ => 3 | None => version_of v lines end
  end.
Definition GetVersionInfo (out : option (list (list Z))) : Z :=
  match out with None => 1 | Some lines => version_of 1 lines end.

(** The lists the tool builds with t_next: an entry goes behind the first one. *)
Definition hang {A} (l : list A) (x : A) : list A := match l with [] => [x] | y :: l => y :: x :: l end.
Definition hang_all {A} (l xs : list A) : list A := fold_left hang xs l.
Definition quad (l : list Z) : Z * Z * Z * Z := (nth 0 l 0, nth 1 l 0, nth 2 l 0, nth 3 l 0).
(** Version 1: the first line with the tag gives the chips. *)
Fixpoint chips_v1 (max : Z) (lines : list (list Z)) : option (list ids) :=
  match lines with
  | [] => None
  | line :: lines =>
      match tagged max 3 QCDT_DT_TAG line with
      | (Some gs, _) =>
          Some (hang_all [] (map (fun g => {| chipset := nth 0 g 0; platform := nth 1 g 0; subtype := 0;
                                              revNum := nth 2 g 0; pmic := (0, 0, 0, 0) |}) gs))
      | (None, _) => chips_v1 max lines
      end
  end.
(** Versions 2 and 3: the three kinds of entries of all lines. *)
Fixpoint entries (max : Z) (lines : list (list Z)) (acc : list (list Z) * list (list Z) * list (list Z))
    : list (list Z) * list (list Z) * list (list Z) :=
  match lines with
  | [] => acc
  | line :: lines =>
      let '(dt, st, pt) := acc in
      let '(d, line) := tagged max 2 QCDT_DT_TAG line in
      let '(s, line) := tagged max 2 QCDT_BOARD_TAG line in
      let '(p, _) := tagged max 4 QCDT_PMIC_TAG line in
      entries max lines (hang_all dt (default [] d), hang_all st (default [] s), hang_all pt (default [] p))
  end.
Definition chips_v23 (max version : Z) (lines : list (list Z)) : list ids :=
  let '(dt, st, pt) := entries max lines ([], [], []) in
  let pts := if version =? 3 then map quad pt else [(0, 0, 0, 0)] in
  hang_all [] (concat (map (fun d => concat (map (fun s => map (fun p =>
    {| chipset := nth 0 d 0; platform := nth 0 s 0; subtype := nth 1 s 0; revNum := nth 1 d 0; pmic := p |})
    pts) st)) dt)).
(** The chips of a tree in the order of t_next; none when the tree is skipped. *)
Definition getChipInfo (max : Z) (out : option (list (list Z))) (version : Z) : list ids :=
  match out with
  | None => []
  | Some lines => if version =? 1 then default [] (chips_v1 max lines) else chips_v23 max version lines
  end.

Example chip_of_line :
  getChipInfo (2 ^ 64 - 1) (Some [zs "	qcom,msm-id = <0xce 0x0>;" ++ [10]; zs "qcom,board-id = <8 1 0x0b 010>;" ++ [10]]) 2 =
  [ {| chipset := 206; platform := 8; subtype := 1; revNum := 0; pmic := (0, 0, 0, 0) |};
    {| chipset := 206; platform := 11; subtype := 8; revNum := 0; pmic := (0, 0, 0, 0) |} ].
Proof. by vm_compute. Qed.

(** * The tool *)

Definition PAGE_SIZE_DEF : Z := 2048.
Definition PAGE_SIZE_MAX : Z := 1024 * 1024.
Definition COPY_BLK : nat := 1024.
Definition QCDT_MAGIC : list Z := zs "QCDT".
Definition QCDT_VERSION : Z := 3.

(** What getopt_long(3) yields: the option and its argument. *)
Inductive option_read := Opt_arg (a : list Z) | Opt_o (a : list Z) | Opt_p (a : list Z) | Opt_s (a : list Z) | Opt_v | Opt_other.
Record options := {
  input_dir : option (list Z);
  output_file : option (list Z);
  dtc_path : option (list Z);
  page_size : Z
}.
Definition no_options : options :=
  {| input_dir := None; output_file := None; dtc_path := None; page_size := PAGE_SIZE_DEF |}.
Fixpoint parse_options (args : list option_read) (o : options) : option options :=
  match args with
  | [] => Some o
  | Opt_arg a :: args =>
      parse_options args
        {| input_dir := match input_dir o with None => Some a | d => d end;
           output_file := output_file o; dtc_path := dtc_path o; page_size := page_size o |}
  | Opt_o a :: args =>
      parse_options args {| input_dir := input_dir o; output_file := Some a; dtc_path := dtc_path o; page_size := page_size o |}
  | Opt_p a :: args =>
      parse_options args {| input_dir := input_dir o; output_file := output_file o; dtc_path := Some a; page_size := page_size o |}
  | Opt_s a :: args =>
      let p := atoi a in
      if (p <=? 0) || (PAGE_SIZE_MAX <? p) then None
      else parse_options args {| input_dir := input_dir o; output_file := output_file o; dtc_path := dtc_path o; page_size := p |}
  | Opt_v :: args => parse_options args o
  | Opt_other :: _ => None
  end.
(** The directory, the decompiler's path and the page size. *)
Record settings := { dir : list Z; dtc : list Z; page : Z }.
Definition parse_commandline (args : list option_read) : option settings :=
  match parse_options args no_options with
  | None => None
  | Some o =>
      match output_file o with
      | None => None
      | Some _ => Some {| dir := default (zs "./") (input_dir o); dtc := default [] (dtc_path o); page := page_size o |}
      end
  end.

(** What the tool asks of the system: ULONG_MAX; the lines a command prints, if it
    runs; a file's size and its bytes as fread(3) yields them; what the n-th write(2)
    returns. *)
Record host := {
  ulong_max : Z;
  popen : list Z -> option (list (list Z));
  stat : list Z -> option Z;
  contents : list Z -> option (list Z);
  put : nat -> list Z -> Z
}.

Definition command (o : settings) (filename : list Z) : list Z :=
  dtc o ++ zs "dtc -I dtb -O dts " ++ [34] ++ filename ++ [34] ++ zs " 2>&1".
Definition is_dtb (name : list Z) : bool :=
  (4 <? length name)%nat && bool_decide (drop (length name - 4) name = zs ".dtb").
Definition padded (page n : Z) : Z := n + (page - n mod page).
Definition fresh (master : nat) (i : ids) : chipInfo_t :=
  {| c_ids := i; c_dtb_size := 0; c_dtb_file := None; c_prev := None; c_next := None; c_master := master;
     c_wrote := false; c_offset := 0 |}.
Definition alloc (il : list ids) (s : chips) : chips :=
  {| mem := mem s ++ map (fresh (length (mem s))) il; chip_list := chip_list s |}.

(** The state of the loop over the directory. *)
Record scan := { sc_chips : chips; dtb_count : Z; sc_rc : Z }.
Definition count_chip (rc : Z) (s : chips) (n : Z) : scan :=
  {| sc_chips := s; dtb_count := if rc =? RC_SUCCESS then n + 1 else n; sc_rc := rc |}.
Fixpoint add_others (xs : list nat) (sc : scan) : cres scan :=
  match xs with
  | [] => Ret sc
  | x :: xs => let* '(rc, s) := chip_add x (sc_chips sc) in add_others xs (count_chip rc s (dtb_count sc))
  end.
Definition add_tree (page : Z) (path : list Z) (size : Z) (il : list ids) (sc : scan) : cres scan :=
  let first := length (mem (sc_chips sc)) in
  let* '(rc, s) := chip_add first (alloc il (sc_chips sc)) in
  let sc := count_chip rc s (dtb_count sc) in
  if negb (rc =? RC_SUCCESS) then Ret sc
  else
    let* s := upd first (set_file (u32 (padded page size)) path) s in
    add_others (seq (S first) (length il - 1)) {| sc_chips := s; dtb_count := dtb_count sc; sc_rc := sc_rc sc |}.
(** An entry of the directory: its name and whether it is a regular file. *)
Definition scan_entry (w : host) (o : settings) (e : list Z * bool) (sc : scan) : cres scan :=
  let '(name, regular) := e in
  if negb (regular && is_dtb name) then Ret sc
  else
    let path := dir o ++ name in
    let out := popen w (command o path) in
    match getChipInfo (ulong_max w) out (GetVersionInfo out) with
    | [] => Ret sc
    | il =>
        match stat w path with
        | None => Ret sc
        | Some size => if size =? 0 then Ret sc else add_tree (page o) path size il sc
        end
    end.
Fixpoint scan_dir (w : host) (o : settings) (es : list (list Z * bool)) (sc : scan) : cres scan :=
  match es with
  | [] => Ret sc
  | e :: es => let* sc := scan_entry w o e sc in scan_dir w o es sc
  end.

(** The bytes in the file, how many calls of write there were, and their sum. *)
Record out := { o_bytes : list Z; o_calls : nat; wrote : Z }.
Definition size_t (w : host) (x : Z) : Z := x mod (ulong_max w + 1).
Definition write (w : host) (o : out) (data : list Z) : out :=
  let r := put w (o_calls o) data in
  {| o_bytes := o_bytes o ++ take (Z.to_nat r) data; o_calls := S (o_calls o); wrote := size_t w (wrote o + r) |}.
Definition write_all (w : host) (o : out) (ds : list (list Z)) : out := fold_left (write w) ds o.

Definition id_words (i : ids) : list Z :=
  let '(p0, p1, p2, p3) := pmic i in [chipset i; platform i; subtype i; revNum i; p0; p1; p2; p3].
Fixpoint rows (w : host) (fuel : nat) (chip : option nat) (h : list chipInfo_t) (o : out) (expected : Z) : cres (list chipInfo_t * out * Z) :=
  match chip with
  | None => Ret (h, o, expected)
  | Some a =>
      match fuel with
      | O => Spin
      | S fuel =>
          let* c := deref h a in
          let o := write_all w o (map (le 4) (id_words (c_ids c))) in
          let* m := deref h (c_master c) in
          let '(h, o, expected) :=
            if negb (c_offset m =? 0) then (h, write w o (le 4 (c_offset m)), expected)
            else (<[c_master c := set_offset (u32 expected) m]> h, write w o (le 4 expected),
                  size_t w (expected + c_dtb_size m)) in
          rows w fuel (c_next c) h (write w o (le 4 (c_dtb_size m))) expected
      end
  end.

(** The pieces fread gives, and the copy of a tree. *)
Fixpoint blocks (fuel : nat) (d : list Z) : list (list Z) :=
  match fuel, d with
  | O, _ | _, [] => []
  | S fuel, _ => take COPY_BLK d :: blocks fuel (drop COPY_BLK d)
  end.
Definition fill (w : host) (padding : Z) (o : out) : out :=
  if 0 <? padding then write w o (replicate (Z.to_nat padding) 0) else o.
Fixpoint trees (w : host) (page : Z) (fuel : nat) (chip : option nat) (h : list chipInfo_t) (o : out) (rc : Z) : cres (list chipInfo_t * out * Z) :=
  match chip with
  | None => Ret (h, o, rc)
  | Some a =>
      match fuel with
      | O => Spin
      | S fuel =>
          let* c := deref h a in
          let* m := deref h (c_master c) in
          if c_wrote m then trees w page fuel (c_next c) h o rc
          else
            let h := <[c_master c := set_wrote m]> h in
            match c_dtb_file m with
            | None => Oob
            | Some filename =>
                match contents w filename with
                | None => Ret (h, o, RC_ERROR)
                | Some d =>
                    let o := write_all w o (blocks (length d) d) in
                    let padding := page - zlen d mod page in
                    if negb (u32 (zlen d + padding) =? c_dtb_size m) then Ret (h, o, RC_ERROR)
                    else trees w page fuel (c_next c) h (fill w padding o) rc
                end
            end
      end
  end.

(** chip_deleteall: the chips freed, in order; reading one of them is an error. *)
Fixpoint delete_loop (h : list chipInfo_t) (fuel : nat) (c : option nat) (freed : list nat) : cres (list nat) :=
  match c with
  | None => Ret freed
  | Some t =>
      match fuel with
      | O => Spin
      | S fuel =>
          if bool_decide (t ∈ freed) then Oob
          else let* ct := deref h t in delete_loop h fuel (c_next ct) (freed ++ [t])
      end
  end.
Definition chip_deleteall (s : chips) : cres (list nat) := delete_loop (mem s) (S (length (mem s))) (chip_list s) [].

(** The end of a run: what main returns, what was written to the output file if it
    was written to, and whether that was removed. *)
Record result := { status : Z; written : option (list Z); unlinked : bool }.
Definition master_dtb (w : host) (o : settings) (sc : scan) : cres (list chipInfo_t * result) :=
  let s := sc_chips sc in
  let fuel := S (length (mem s)) in
  let out0 := {| o_bytes := []; o_calls := 0; wrote := 0 |} in
  let out1 := write_all w out0 [QCDT_MAGIC; le 4 QCDT_VERSION; le 4 (dtb_count sc)] in
  let dtb_offset := 12 + 40 * dtb_count sc + 4 in
  let padding := page o - dtb_offset mod page o in
  let expected := dtb_offset + padding in
  let* '(h, out2, expected) := rows w fuel (chip_list s) (mem s) out1 expected in
  let out3 := fill w padding (write w out2 (le 4 RC_SUCCESS)) in
  let* '(h, out4, rc) := trees w (page o) fuel (chip_list s) h out3 RC_SUCCESS in
  let rc := if negb (expected =? wrote out4) then RC_ERROR else rc in
  Ret (h, {| status := rc; written := Some (o_bytes out4); unlinked := negb (rc =? RC_SUCCESS) |}).
Definition no_chips : scan := {| sc_chips := {| mem := []; chip_list := None |}; dtb_count := 0; sc_rc := RC_SUCCESS |}.
Definition failed : result := {| status := RC_ERROR; written := None; unlinked := false |}.
(** [es]: the entries of a directory, if it can be opened. *)
Definition dtbtool (w : host) (es : list Z -> option (list (list Z * bool))) (args : list option_read) : cres result :=
  match parse_commandline args with
  | None => Ret failed
  | Some o =>
      match es (dir o) with
      | None => Ret failed
      | Some es =>
          let* sc := scan_dir w o es no_chips in
          if dtb_count sc =? 0 then
            let* _ := chip_deleteall (sc_chips sc) in
            Ret {| status := sc_rc sc; written := None; unlinked := false |}
          else
            let* '(h, r) := master_dtb w o sc in
            let* _ := chip_deleteall {| mem := h; chip_list := chip_list (sc_chips sc) |} in
            Ret r
      end
  end.

(** * The linked list *)

(** A segment: the addresses of its chips, the link back from its first chip and
    the link on from its last one. *)
Definition first_or (l : list nat) (n : option nat) : option nat := match l with [] => n | a :: _ => Some a end.
Definition last_or (l : list nat) (p : option nat) : option nat := match last l with None => p | Some a => Some a end.
Fixpoint dseg (h : list chipInfo_t) (p : option nat) (l : list nat) (n : option nat) : Prop :=
  match l with
  | [] => True
  | a :: l => (exists c, h !! a = Some c /\ c_prev c = p /\ c_next c = first_or l n) /\ dseg h (Some a) l n
  end.
(** The list of the tool holds the chips at [l], in this order. *)
Definition linked (s : chips) (l : list nat) : Prop :=
  NoDup l /\ chip_list s = first_or l None /\ dseg (mem s) None l None.
(** The chips but for their links. *)
Definition bare : list chipInfo_t -> list chipInfo_t := map (set_links None None).

Lemma last_or_cons a l p : last_or (a :: l) p = last_or l (Some a).
Proof. unfold last_or. destruct l as [|b l]; [done|]. rewrite last_cons_cons, last_cons. by destruct (last l). Qed.
Lemma first_or_app l1 l2 n : first_or (l1 ++ l2) n = first_or l1 (first_or l2 n).
Proof. by destruct l1. Qed.
Lemma last_or_snoc l a p : last_or (l ++ [a]) p = Some a.
Proof. unfold last_or. by rewrite last_snoc. Qed.
Lemma dseg_app h l2 n l1 p :
  dseg h p (l1 ++ l2) n <-> dseg h p l1 (first_or l2 n) /\ dseg h (last_or l1 p) l2 n.
Proof.
  revert p. induction l1 as [|a l1 IH]; intros p; cbn [dseg app]; [unfold last_or; cbn; tauto|].
  rewrite IH, last_or_cons, first_or_app. tauto.
Qed.
Lemma dseg_in h l p n a : dseg h p l n -> a ∈ l -> is_Some (h !! a).
Proof.
  revert p. induction l as [|b l IH]; intros p; [by intros _ ?%elem_of_nil|].
  intros [(c & Hc & _) Hr] [->|Ha]%elem_of_cons; eauto.
Qed.

Lemma bare_set h a c p n : h !! a = Some c -> bare (<[a := set_links p n c]> h) = bare h.
Proof.
  intros H. apply list_eq. intros i. unfold bare. rewrite !list_lookup_fmap.
  destruct (decide (i = a)) as [->|Hi]; [|by rewrite list_lookup_insert_ne].
  rewrite list_lookup_insert_eq by (by eapply lookup_lt_Some). by rewrite H.
Qed.
Lemma bare_lookup h h' a c : bare h = bare h' -> h !! a = Some c ->
  exists c', h' !! a = Some c' /\ set_links None None c' = set_links None None c.
Proof.
  intros E H. assert (bare h !! a = bare h' !! a) as Ha by (by rewrite E).
  unfold bare in Ha. rewrite !list_lookup_fmap, H in Ha. destruct (h' !! a) as [c'|]; [|done]. exists c'. split; [done|]. by apply Some_inj in Ha.
Qed.
Lemma bare_length h h' : bare h = bare h' -> length h = length h'.
Proof. intros E%(f_equal length). unfold bare in E. by rewrite !length_map in E. Qed.

Lemma deref_Some h a c : h !! a = Some c -> deref h a = Ret c.
Proof. unfold deref. by intros ->. Qed.
Lemma upd_Some s a c f : mem s !! a = Some c -> upd a f s = Ret {| mem := <[a := f c]> (mem s); chip_list := chip_list s |}.
Proof. intros H. unfold upd. by rewrite (deref_Some _ _ _ H). Qed.

(** The names of the chip at an address. *)
Definition name_at (h : list chipInfo_t) (a : nat) : option ids := c_ids <$> h !! a.
Lemma name_bare h h' a : bare h = bare h' -> name_at h a = name_at h' a.
Proof.
  intros E. assert (c_ids <$> bare h !! a = c_ids <$> bare h' !! a) as Ha by (by rewrite E).
  unfold bare in Ha. rewrite !list_lookup_fmap in Ha. unfold name_at. destruct (h !! a), (h' !! a); naive_solver.
Qed.

(** A segment whose last chip goes on to another one, and one whose first chip goes
    back to another one. *)
Lemma dseg_next h h' l p n n' :
  NoDup l -> (forall a, a ∈ l -> h' !! a = (if decide (last l = Some a) then set_next n' <$> h !! a else h !! a)) ->
  dseg h p l n -> dseg h' p l n'.
Proof.
  revert p. induction l as [|a [|b l] IH]; intros p Hd Hh; [done| |].
  - intros [(c & Hc & Hp & Hn) _]. split; [|done]. specialize (Hh a). rewrite decide_True, Hc in Hh by done.
    exists (set_next n' c). split; [apply Hh; left|done].
  - apply NoDup_cons in Hd as [Ha Hd]. intros [(c & Hc & Hp & Hn) Hr]. split.
    + exists c. split_and!; [|done..]. rewrite <- Hc, Hh, decide_False; [done| |left].
      rewrite last_cons_cons. intros E%last_Some_elem_of. done.
    + apply IH; [done| |done]. intros d Hdl. rewrite Hh, last_cons_cons; [done|by right].
Qed.
Lemma dseg_same h h' l p n : (forall a, a ∈ l -> h' !! a = h !! a) -> dseg h p l n -> dseg h' p l n.
Proof.
  revert p. induction l as [|a l IH]; intros p Hh; [done|]. intros [(c & Hc & Hpn) Hr].
  split; [exists c; rewrite Hh; [done|left]|apply IH; [|done]; intros b Hb; apply Hh; by right].
Qed.
Lemma dseg_prev h h' l p n p' :
  NoDup l -> (forall a, a ∈ l -> h' !! a = (if decide (head l = Some a) then set_prev p' <$> h !! a else h !! a)) ->
  dseg h p l n -> dseg h' p' l n.
Proof.
  destruct l as [|a l]; [done|]. intros [Ha Hd]%NoDup_cons Hh [(c & Hc & Hp & Hn) Hr]. split.
  - exists (set_prev p' c). rewrite Hh, decide_True, Hc; [done..|left].
  - eapply dseg_same; [|done]. intros b Hb. rewrite Hh, decide_False; [done| |by right]. cbn. congruence.
Qed.

(** A chip between two parts of the list. *)
Lemma linked_between s s' l1 l2 c cc :
  linked s (l1 ++ l2) -> c ∉ l1 ++ l2 ->
  mem s' !! c = Some (set_links (last_or l1 None) (first_or l2 None) cc) ->
  chip_list s' = first_or (l1 ++ c :: l2) None ->
  (forall a, a ∈ l1 -> mem s' !! a = (if decide (last l1 = Some a) then set_next (Some c) <$> mem s !! a else mem s !! a)) ->
  (forall a, a ∈ l2 -> mem s' !! a = (if decide (head l2 = Some a) then set_prev (Some c) <$> mem s !! a else mem s !! a)) ->
  linked s' (l1 ++ c :: l2).
Proof.
  intros (Hd & Hl & Hs) Hc Hcc Hl' H1 H2. apply dseg_app in Hs as [Hs1 Hs2]. split; [|split; [done|]].
  { rewrite <- Permutation_middle. by constructor. }
  apply NoDup_app in Hd as (Hd1 & _ & Hd2). apply dseg_app. split; [by eapply dseg_next|].
  cbn [dseg]. split; [|by eapply dseg_prev]. eexists. split; [done|]. done.
Qed.

(** * The order of the list *)

(** Where an entry goes in a list in order; none when it is there already. *)
Section Enter.
Context {A : Type} (key : A -> ids).
Fixpoint enter (c : A) (l : list A) : option (list A) :=
  match l with
  | [] => Some [c]
  | x :: l =>
      if before (key c) (key x) then Some (c :: x :: l)
      else if same (key c) (key x) then None
      else cons x <$> enter c l
  end.
(** The names are different and ascend; chips that differ in their pmic only may
    stand in any order. *)
Definition in_order (l : list A) : Prop :=
  NoDup (map key l) /\ StronglySorted (fun a b => before (key b) (key a) = false) l.

Lemma enter_split c l l' : enter c l = Some l' -> exists l1 l2, l = l1 ++ l2 /\ l' = l1 ++ c :: l2.
Proof.
  revert l'. induction l as [|x l IH]; intros l'; cbn [enter]; [intros [= <-]; by exists [], []|].
  destruct (before _ _); [intros [= <-]; by exists [], (x :: l)|]. destruct (same _ _); [done|].
  intros (l0 & H & ->)%fmap_Some_1.
  destruct (IH _ H) as (l1 & l2 & -> & ->). by exists (x :: l1), l2.
Qed.
End Enter.

Lemma same_eq a b : same a b = true <-> a = b.
Proof.
  unfold same. destruct a as [a1 a2 a3 a4 [[[a5 a6] a7] a8]], b as [b1 b2 b3 b4 [[[b5 b6] b7] b8]]. cbn.
  rewrite !andb_true_iff, !Z.eqb_eq. split; [|intros [= -> -> -> -> -> -> -> ->]; tauto].
  intros H; decompose [and] H; by subst.
Qed.
Definition before_prop (a b : ids) : Prop :=
  chipset a < chipset b \/ chipset a = chipset b /\ (platform a < platform b \/ platform a = platform b /\
    (subtype a < subtype b \/ subtype a = subtype b /\ revNum a < revNum b)).
Lemma before_iff a b : before a b = true <-> before_prop a b.
Proof. unfold before, before_prop. rewrite !orb_true_iff, !andb_true_iff, !orb_true_iff, !andb_true_iff, !orb_true_iff, !andb_true_iff, !Z.ltb_lt, !Z.eqb_eq. tauto. Qed.
Lemma before_trans a b c : before a b = true -> before c b = false -> before c a = false.
Proof.
  rewrite <- !not_true_iff_false, !before_iff. unfold before_prop. lia.
Qed.
Lemma before_asym a b : before a b = true -> before b a = false.
Proof. rewrite <- !not_true_iff_false, !before_iff. unfold before_prop. lia. Qed.

Section Entered.
Context {A : Type} (key : A -> ids).
Lemma enter_order c l l' : in_order key l -> enter key c l = Some l' -> in_order key l' /\ key c ∉ map key l.
Proof.
  unfold in_order. revert l'. induction l as [|x l IH]; intros l' [Hn Hs]; cbn [enter map].
  { intros [= <-]. split; [|apply not_elem_of_nil]. split; [apply NoDup_singleton|by repeat constructor]. }
  apply NoDup_cons in Hn as [Hx Hn]. apply StronglySorted_inv in Hs as [Hs Hf].
  destruct (before (key c) (key x)) eqn:Eb.
  - intros [= <-]. assert (key c ∉ key x :: map key l) as Hc.
    { intros [E|(y & E & Hy)%list_elem_of_fmap]%elem_of_cons.
      - apply before_asym in Eb as Eb'. congruence.
      - rewrite Forall_forall in Hf. specialize (Hf y Hy). cbn in Hf. rewrite <- E, Eb in Hf. done. }
    split; [|done]. split; [by repeat constructor|]. constructor; [by constructor|]. constructor; [by apply before_asym|].
    eapply Forall_impl; [done|]. cbn. intros y Hy. by eapply before_trans.
  - destruct (same (key c) (key x)) eqn:Es; [done|]. intros (l0 & H & ->)%fmap_Some_1.
    destruct (IH l0 (conj Hn Hs) H) as [[Hn0 Hs0] Hc]. destruct (enter_split key c l l0 H) as (l1 & l2 & -> & ->).
    assert (key c <> key x) as Hcx by (intros E; apply same_eq in E; congruence).
    split; [|rewrite not_elem_of_cons; done]. split.
    + constructor; [|done]. intros (y & E & Hy)%list_elem_of_fmap. apply Hx. apply list_elem_of_fmap.
      rewrite elem_of_app, elem_of_cons in Hy. exists y. split; [done|]. rewrite elem_of_app.
      destruct Hy as [?|[->|?]]; [by left|congruence|by right].
    + constructor; [done|]. rewrite Forall_app in *. rewrite Forall_cons. tauto.
Qed.
Lemma enter_None c l : enter key c l = None -> key c ∈ map key l.
Proof.
  induction l as [|x l IH]; cbn [enter map]; [done|]. destruct (before _ _); [done|].
  destruct (same _ _) eqn:E; [apply same_eq in E; rewrite E; left|].
  intros H%fmap_None. right. auto.
Qed.
End Entered.
Lemma enter_map {A B} (f : A -> B) (key : B -> ids) c l :
  enter key (f c) (map f l) = map f <$> enter (fun a => key (f a)) c l.
Proof.
  induction l as [|x l IH]; cbn [enter map]; [done|]. destruct (before _ _); [done|]. destruct (same _ _); [done|].
  rewrite IH. by destruct (enter _ c l).
Qed.
Lemma enter_ext {A} (k1 k2 : A -> ids) c l :
  (forall a, a ∈ c :: l -> k1 a = k2 a) -> enter k1 c l = enter k2 c l.
Proof.
  intros H. induction l as [|x l IH]; cbn [enter]; [done|].
  rewrite (H c), (H x) by (repeat constructor). rewrite IH; [done|]. intros a Ha. apply H.
  rewrite !elem_of_cons in *. tauto.
Qed.

(** * Putting a chip on the list *)

Definition no_ids : ids := {| chipset := 0; platform := 0; subtype := 0; revNum := 0; pmic := (0, 0, 0, 0) |}.
Definition name (h : list chipInfo_t) (a : nat) : ids := default no_ids (name_at h a).
Lemma name_lookup h a c : h !! a = Some c -> name h a = c_ids c.
Proof. unfold name, name_at. by intros ->. Qed.


Lemma linked_at s pre x post : linked s (pre ++ x :: post) ->
  exists cx, mem s !! x = Some cx /\ c_prev cx = last_or pre None /\ c_next cx = first_or post None.
Proof. intros (_ & _ & H). apply dseg_app in H as [_ [H _]]. exact H. Qed.
Lemma linked_in s l a : linked s l -> a ∈ l -> exists c, mem s !! a = Some c.
Proof. intros (_ & _ & H) Ha. by eapply dseg_in. Qed.
Lemma insert_at (h : list chipInfo_t) a b x : (a < length h)%nat ->
  <[a := x]> h !! b = if decide (b = a) then Some x else h !! b.
Proof.
  intros H. destruct (decide (b = a)) as [->|]; [|by rewrite list_lookup_insert_ne].
  by rewrite list_lookup_insert_eq.
Qed.
(** Look up through the updates. *)
Ltac inside := rewrite ?length_insert; eapply lookup_lt_Some; eassumption.
Ltac at_ := rewrite ?insert_at by inside; repeat case_decide; cbn in *; try congruence; eauto.

Section Add.
Context (s : chips) (c : nat) (cc : chipInfo_t) (Hc : mem s !! c = Some cc).

(** The outcome of chip_add when the list should become [l']. *)
Definition added (l' : option (list nat)) (r : cres (Z * chips)) : Prop :=
  match l' with
  | Some l' => exists s', r = Ret (RC_SUCCESS, s') /\ linked s' l' /\ bare (mem s') = bare (mem s)
  | None => r = Ret (RC_ERROR, s)
  end.

Lemma add_front x cx post : linked s (x :: post) -> c ∉ x :: post -> mem s !! x = Some cx ->
  added (Some (c :: x :: post))
    (let* s := upd c (set_links None (Some x)) s in let* s := upd x (set_prev (Some c)) s in
     Ret (RC_SUCCESS, set_list (Some c) s)).
Proof.
  intros Hl Hn Hx. pose proof Hn as Hn'. apply not_elem_of_cons in Hn' as [Hcx Hp].
  rewrite (upd_Some _ _ _ _ Hc). cbn [cbind]. erewrite upd_Some by (cbn; at_). cbn [cbind mem].
  eexists. split; [done|]. split; [|cbn; unfold set_prev; rewrite !bare_set by at_; done].
  apply (linked_between s _ [] (x :: post) c cc); [done|done| |done| |].
  - cbn. at_.
  - by intros a ?%elem_of_nil.
  - intros a Ha. cbn. assert (a <> c) by (intros ->; done). at_. subst. by rewrite Hx.
Qed.
Lemma add_middle pre p cp x cx post :
  linked s ((pre ++ [p]) ++ x :: post) -> c ∉ ((pre ++ [p]) ++ x :: post) -> mem s !! x = Some cx -> mem s !! p = Some cp ->
  added (Some ((pre ++ [p]) ++ c :: x :: post))
    (let* s := upd c (set_links (Some p) (Some x)) s in let* s := upd p (set_next (Some c)) s in
     let* s := upd x (set_prev (Some c)) s in Ret (RC_SUCCESS, s)).
Proof.
  intros Hl Hn Hx Hp. assert (c <> p /\ c <> x) as [Hcp Hcx].
  { split; intros <-; apply Hn; rewrite !elem_of_app, ?elem_of_cons; tauto. }
  assert (p <> x /\ (x ∉ pre ++ [p]) /\ p ∉ x :: post) as (Hpx & Hx' & Hp').
  { destruct Hl as (Hd & _). apply NoDup_app in Hd as (_ & Hd & _).
    assert (p ∉ x :: post) as H by (apply Hd; rewrite elem_of_app; right; left).
    split_and!; [intros ->; apply H; left|intros Hin; apply (Hd x Hin); left|done]. }
  rewrite (upd_Some _ _ _ _ Hc). cbn [cbind]. rewrite (upd_Some _ _ cp) by (cbn; at_).
  cbn [cbind]. rewrite (upd_Some _ _ cx) by (cbn; at_). cbn [cbind mem].
  eexists. split; [done|]. split; [|cbn; unfold set_prev, set_next; rewrite !bare_set by at_; done].
  apply (linked_between s _ (pre ++ [p]) (x :: post) c cc); [done|done| | | |].
  - cbn. rewrite last_or_snoc. at_.
  - cbn. destruct Hl as (_ & -> & _). by rewrite !first_or_app.
  - intros a Ha. cbn. rewrite last_snoc. assert (a <> c) by (intros ->; apply Hn; rewrite elem_of_app; tauto).
    assert (a <> x) by (intros ->; done). at_. subst. by rewrite Hp.
  - intros a Ha. cbn. assert (a <> c) by (intros ->; apply Hn; rewrite elem_of_app; tauto).
    assert (a <> p) by (intros ->; done). at_. subst. by rewrite Hx.
Qed.
Lemma add_back pre x cx : linked s (pre ++ [x]) -> c ∉ pre ++ [x] -> mem s !! x = Some cx ->
  added (Some (pre ++ [x; c]))
    (let* s := upd c (set_links (Some x) None) s in let* s := upd x (set_next (Some c)) s in Ret (RC_SUCCESS, s)).
Proof.
  intros Hl Hn Hx. assert (c <> x) as Hcx by (intros ->; apply Hn; rewrite elem_of_app, elem_of_cons; tauto).
  rewrite (upd_Some _ _ _ _ Hc). cbn [cbind]. rewrite (upd_Some _ _ cx) by (cbn; at_).
  cbn [cbind mem]. eexists. split; [done|]. split; [|cbn; unfold set_next; rewrite !bare_set by at_; done].
  replace (pre ++ [x; c]) with ((pre ++ [x]) ++ [c]) by (by rewrite <- app_assoc).
  apply (linked_between s _ (pre ++ [x]) [] c cc); rewrite ?app_nil_r; [done|done| | | |by intros a ?%elem_of_nil].
  - cbn. rewrite last_or_snoc. at_.
  - cbn. destruct Hl as (_ & -> & _). by rewrite !first_or_app.
  - intros a Ha. cbn. rewrite last_snoc. assert (a <> c) by (intros ->; done). at_. subst. by rewrite Hx.
Qed.

Lemma add_loop_enters fuel post x pre :
  linked s (pre ++ x :: post) -> c ∉ pre ++ x :: post -> (length post < fuel)%nat ->
  added (app pre <$> (enter (name (mem s)) c (x :: post))) (add_loop fuel c x s).
Proof.
  revert post x pre. induction fuel as [|fuel IH]; intros post x pre Hl Hn Hf; [lia|]. cbn [add_loop].
  destruct (linked_at _ _ _ _ Hl) as (cx & Hx & Hp & Hnx).
  rewrite (deref_Some _ _ _ Hc), (deref_Some _ _ _ Hx). cbn [cbind enter].
  rewrite (name_lookup _ _ _ Hc), (name_lookup _ _ _ Hx), Hp, Hnx.
  destruct (before _ _).
  - destruct pre as [|p pre _] using rev_ind; [by apply (add_front _ cx)|]. rewrite last_or_snoc.
    destruct (linked_in _ _ p Hl) as [cp Hcp]; [rewrite !elem_of_app, !elem_of_cons; tauto|].
    by apply (add_middle _ _ cp _ cx).
  - destruct (same _ _); [done|]. destruct post as [|y post]; cbn [first_or]; [by apply (add_back _ _ cx)|].
    replace (pre ++ x :: y :: post) with ((pre ++ [x]) ++ y :: post) in Hl, Hn by (by rewrite <- app_assoc).
    specialize (IH post y (pre ++ [x]) Hl Hn ltac:(cbn in Hf; lia)).
    destruct (enter _ c (y :: post)) as [l'|]; cbn [fmap option_fmap option_map] in *; [|done].
    by rewrite <- app_assoc in IH.
Qed.
End Add.

Lemma linked_length s l : linked s l -> (length l <= length (mem s))%nat.
Proof.
  intros Hl. transitivity (length (seq 0 (length (mem s)))); [|by rewrite length_seq].
  apply submseteq_length, NoDup_submseteq; [apply Hl|].
  intros a Ha. apply elem_of_seq. destruct (linked_in _ _ _ Hl Ha) as [c ?%lookup_lt_Some]. lia.
Qed.
(** chip_add implements [enter] on the addresses of the list. *)
Lemma chip_add_enters s l c cc : linked s l -> c ∉ l -> mem s !! c = Some cc ->
  added s (enter (name (mem s)) c l) (chip_add c s).
Proof.
  intros Hl Hn Hc. unfold chip_add. pose proof (linked_length _ _ Hl) as Hlen. rewrite (proj1 (proj2 Hl)).
  destruct l as [|x post]; cbn [first_or].
  - rewrite (upd_Some _ _ _ _ Hc). eexists. split; [done|]. split; [|by apply bare_set].
    split; [apply NoDup_singleton|]. split; [done|]. split; [|done]. eexists. split; [cbn; at_|done].
  - pose proof (add_loop_enters s c cc Hc (S (length (mem s))) post x [] Hl Hn ltac:(cbn in Hlen; lia)) as H.
    by destruct (enter _ c (x :: post)).
Qed.

(** * The table *)

(** The rows the scan collects, a name and a file each, as the code comes by them: a
    tree whose first chip is there already is passed over whole, of other trees the
    chips that are new enter. What such a table has to do with the trees is [lists]
    below. *)
Definition add_row (path : list Z) (t : list (ids * list Z)) (i : ids) : list (ids * list Z) := default t (enter fst (i, path) t).
Definition tree_rows (t : list (ids * list Z)) (tree : list Z * list ids) : list (ids * list Z) :=
  let '(path, il) := tree in
  match il with
  | [] => t
  | i :: il => match enter fst (i, path) t with None => t | Some t => fold_left (add_row path) il t end
  end.
Definition tree_of (w : host) (o : settings) (e : list Z * bool) : option (list Z * list ids) :=
  let '(name, regular) := e in
  let path := dir o ++ name in
  let out := popen w (command o path) in
  if regular && is_dtb name && negb (default 0 (stat w path) =? 0)
  then Some (path, getChipInfo (ulong_max w) out (GetVersionInfo out)) else None.
Definition table (w : host) (o : settings) (es : list (list Z * bool)) : list (ids * list Z) :=
  fold_left tree_rows (omap (tree_of w o) es) [].

(** The chip at an address has this row: its master has the file. *)
Definition row_at (w : host) (o : settings) (h : list chipInfo_t) (a : nat) (r : ids * list Z) : Prop :=
  exists c m size, h !! a = Some c /\ c_ids c = fst r /\ h !! c_master c = Some m /\ c_dtb_file m = Some (snd r) /\
    stat w (snd r) = Some size /\ c_dtb_size m = u32 (padded (page o) size).
Definition clean (h : list chipInfo_t) : Prop := Forall (fun c => c_wrote c = false /\ c_offset c = 0 /\ 0 <= c_dtb_size c) h.

Lemma fields_of c c' : set_links None None c = set_links None None c' ->
  c_ids c = c_ids c' /\ c_dtb_size c = c_dtb_size c' /\ c_dtb_file c = c_dtb_file c' /\ c_master c = c_master c' /\
  c_wrote c = c_wrote c' /\ c_offset c = c_offset c'.
Proof. intros [=]. done. Qed.
Lemma row_bare w o h h' a r : bare h = bare h' -> row_at w o h a r -> row_at w o h' a r.
Proof.
  intros E (c & m & size & Hc & Hi & Hm & Hf & Hs & Hz).
  destruct (bare_lookup _ _ _ _ E Hc) as (c' & Hc' & (Ei & _ & _ & Em & _)%fields_of).
  destruct (bare_lookup _ _ _ _ E Hm) as (m' & Hm' & (_ & Ez & Ef & _)%fields_of).
  exists c', m', size. rewrite Em, Ei, Ef, Ez. done.
Qed.
Lemma clean_bare h h' : bare h = bare h' -> clean h -> clean h'.
Proof.
  intros E. unfold clean. rewrite !Forall_lookup. intros H i c' Hc'.
  destruct (bare_lookup _ _ _ _ (eq_sym E) Hc') as (c & Hc & (_ & <- & _ & _ & <- & <-)%fields_of). eauto.
Qed.
Lemma row_name w o h a r : row_at w o h a r -> name h a = fst r.
Proof. intros (c & m & size & Hc & <- & _). by apply name_lookup. Qed.

(** Two lists that agree in the names are entered at the same places. *)
Lemma enter_Forall2 {A B} (R : A -> B -> Prop) k1 k2 a b l t :
  (forall x y, R x y -> k1 x = k2 y) -> Forall2 R l t -> R a b ->
  match enter k1 a l, enter k2 b t with
  | Some l', Some t' => Forall2 R l' t'
  | None, None => True
  | _, _ => False
  end.
Proof.
  intros Hk Hl Hab. induction Hl as [|x y l t Hxy Hl IH]; cbn [enter]; [by repeat constructor|].
  rewrite (Hk _ _ Hab), (Hk _ _ Hxy). destruct (before _ _); [by repeat constructor|].
  destruct (same _ _); [done|].
  destruct (enter k1 a l), (enter k2 b t); cbn; try done. by constructor.
Qed.

(** The state of the scan stands for the table [t]. *)
Record good (w : host) (o : settings) (sc : scan) (l : list nat) (t : list (ids * list Z)) : Prop := {
  good_linked : linked (sc_chips sc) l;
  good_rows : Forall2 (row_at w o (mem (sc_chips sc))) l t;
  good_order : in_order fst t;
  good_clean : clean (mem (sc_chips sc));
  good_count : dtb_count sc = zlen l;
  good_rc : t = [] -> sc_rc sc = RC_SUCCESS
}.

(** chip_add with a row for the new chip. *)
Lemma chip_add_rows (R : nat -> ids * list Z -> Prop) s l t x r :
  (forall a r, R a r -> name (mem s) a = fst r) -> linked s l -> Forall2 R l t -> x ∉ l -> is_Some (mem s !! x) -> R x r ->
  exists rc s' l', chip_add x s = Ret (rc, s') /\ bare (mem s') = bare (mem s) /\ linked s' l' /\
    Forall2 R l' (default t (enter fst r t)) /\ (forall a, a ∈ l' -> a = x \/ a ∈ l) /\
    (rc =? RC_SUCCESS) = bool_decide (is_Some (enter fst r t)) /\
    zlen l' = (if rc =? RC_SUCCESS then zlen l + 1 else zlen l) /\ ((rc =? RC_SUCCESS) = false -> s' = s /\ l' = l).
Proof.
  intros Hk Hl Hr Hx [cx Hcx] Hxr. pose proof (chip_add_enters _ _ _ _ Hl Hx Hcx) as H.
  pose proof (enter_Forall2 _ (name (mem s)) fst x r l t Hk Hr Hxr) as Hf.
  destruct (enter (name _) x l) as [l'|] eqn:El, (enter fst r t) as [t'|]; try done; cbn [added default] in *.
  - destruct H as (s' & Hs' & Hl' & Hb). exists RC_SUCCESS, s', l'.
    destruct (enter_split _ _ _ _ El) as (l1 & l2 & -> & ->). split_and!; [done..| |done| |done].
    + intros a. rewrite !elem_of_app, elem_of_cons. tauto.
    + unfold zlen. rewrite !length_app. cbn [length]. cbn. lia.
  - exists RC_ERROR, s, l. split_and!; [done..|by right|done|done|done].
Qed.
Lemma enter_nonempty {A} (key : A -> ids) c l : default l (enter key c l) <> [].
Proof.
  destruct (enter key c l) as [l'|] eqn:E; cbn.
  - destruct (enter_split _ _ _ _ E) as (l1 & l2 & _ & ->). by destruct l1.
  - apply enter_None in E. intros ->. by apply elem_of_nil in E.
Qed.
Lemma enter_in_order (c : ids * list Z) t : in_order fst t -> in_order fst (default t (enter fst c t)).
Proof. intros H. destruct (enter fst c t) as [t'|] eqn:E; [apply (enter_order _ _ _ _ H E)|done]. Qed.

Lemma add_others_good w o path il k sc l t :
  good w o sc l t -> (forall a, a ∈ l -> (a < k)%nat) ->
  (forall j i, il !! j = Some i -> row_at w o (mem (sc_chips sc)) (k + j) (i, path)) ->
  exists sc' l', add_others (seq k (length il)) sc = Ret sc' /\ good w o sc' l' (fold_left (add_row path) il t).
Proof.
  revert k sc l t. induction il as [|i il IH]; intros k sc l t Hg Hlt Hrow; [by exists sc, l|]. cbn [length seq add_others fold_left].
  destruct Hg as [Hl Hr Ho Hw Hn Hrc]. specialize (Hrow 0%nat i eq_refl) as Hk. rewrite Nat.add_0_r in Hk.
  destruct (chip_add_rows _ _ l t k (i, path) (row_name w o _) Hl Hr) as (rc & s' & l' & E & Hb & Hl' & Hr' & Hin & Hok & Hlen & _); [|by destruct Hk as (c & _ & _ & -> & _)|done|].
  { intros Hin. specialize (Hlt k Hin). lia. }
  rewrite E. cbn [cbind]. symmetry in Hb. apply (IH _ _ l').
  - split; cbn.
    + done.
    + eapply Forall2_impl; [exact Hr'|]. intros a b. by apply row_bare.
    + by apply enter_in_order.
    + by apply (clean_bare _ _ Hb).
    + rewrite Hlen, Hn. by destruct (rc =? _).
    + intros Ht. by apply enter_nonempty in Ht.
  - intros a [->|Ha]%Hin; [lia|]. specialize (Hlt a Ha). lia.
  - intros j i' Hj. cbn. apply (row_bare w o (mem (sc_chips sc))); [done|].
    rewrite plus_n_Sm. by apply (Hrow (S j)).
Qed.

Lemma alloc_good w o il sc l t : good w o sc l t ->
  good w o {| sc_chips := alloc il (sc_chips sc); dtb_count := dtb_count sc; sc_rc := sc_rc sc |} l t.
Proof.
  intros [Hl Hr Ho Hw Hn Hrc]. split; cbn; try done.
  - destruct Hl as (Hd & Hh & Hs). split; [done|]. split; [done|]. eapply dseg_same; [|done].
    intros a Ha. destruct (dseg_in _ _ _ _ _ Hs Ha) as [c Hc]. rewrite Hc. by apply lookup_app_l_Some.
  - eapply Forall2_impl; [done|]. intros a r (c & m & size & Hc & Hi & Hm & H).
    exists c, m, size. split_and!; try apply H; auto using lookup_app_l_Some.
  - unfold clean. rewrite Forall_app, Forall_map. split; [done|]. apply Forall_forall. by intros i _.
Qed.
Lemma bare_insert h a c : bare (<[a := c]> h) = <[a := set_links None None c]> (bare h).
Proof. unfold bare. by rewrite list_fmap_insert. Qed.

Lemma dseg_set h a c c' l p n : h !! a = Some c -> c_prev c' = c_prev c -> c_next c' = c_next c ->
  dseg h p l n -> dseg (<[a := c']> h) p l n.
Proof.
  intros Ha Hp Hn. revert p. induction l as [|b l IH]; intros p; [done|]. intros [(d & Hd & Hdp & Hdn) Hr].
  split; [|by apply IH]. rewrite insert_at by inside. case_decide as E; [|by exists d].
  rewrite E, Ha in Hd. injection Hd as <-. exists c'. by rewrite Hp, Hn.
Qed.

(** The chips of a tree once its first one has the file. *)
Lemma file_rows w o h first path size i il :
  stat w path = Some size -> (forall j i', (i :: il) !! j = Some i' -> h !! (first + j)%nat = Some (fresh first i')) ->
  forall j i', (i :: il) !! j = Some i' ->
    row_at w o (<[first := set_file (u32 (padded (page o) size)) path (fresh first i)]> h) (first + j) (i', path).
Proof.
  intros Hst Hnew j i' Hj. pose proof (Hnew 0%nat i eq_refl) as H0. rewrite Nat.add_0_r in H0.
  assert (exists c, <[first := set_file (u32 (padded (page o) size)) path (fresh first i)]> h !! (first + j)%nat = Some c /\
                    c_ids c = i' /\ c_master c = first) as (c & Hc & Hi & Hm).
  { rewrite insert_at by inside. case_decide as E; [|rewrite (Hnew j i' Hj); by eexists].
    assert (j = 0)%nat as -> by lia. injection Hj as <-. by eexists. }
  exists c, (set_file (u32 (padded (page o) size)) path (fresh first i)), size. rewrite Hm.
  split_and!; try done. rewrite insert_at by inside. by rewrite decide_True.
Qed.
(** The first chip of a tree gets the file. *)
Lemma good_with_file w o s l t a c size path n rc hF :
  linked s l -> mem s !! a = Some c -> clean (mem s) -> in_order fst t -> Forall2 (row_at w o hF) l t ->
  bare hF = bare (<[a := set_file (u32 (padded (page o) size)) path c]> (mem s)) -> n = zlen l -> rc = RC_SUCCESS ->
  good w o {| sc_chips := {| mem := <[a := set_file (u32 (padded (page o) size)) path c]> (mem s); chip_list := chip_list s |};
              dtb_count := n; sc_rc := rc |} l t.
Proof.
  intros (Hd & Hh & Hs) Hc Hw Ho Hr Hb Hn Hrc. split; cbn; try done.
  - split; [done|]. split; [done|]. by eapply dseg_set.
  - eapply Forall2_impl; [exact Hr|]. intros b r. by apply row_bare.
  - apply Forall_insert; [done|]. destruct (proj1 (Forall_lookup _ _) Hw a c Hc) as (H1 & H2 & _). split_and!; [done..|].
    unfold u32. by apply Z.mod_pos_bound.
Qed.
(** Rows stay when the memory grows. *)
Lemma rows_kept w o sc l t h : good w o sc l t ->
  (forall b d, mem (sc_chips sc) !! b = Some d -> h !! b = Some d) -> Forall2 (row_at w o h) l t.
Proof.
  intros Hg Hold. eapply Forall2_impl; [apply (good_rows _ _ _ _ _ Hg)|]. intros a r (c & m & size & Hc & Hi & Hm & H).
  exists c, m, size. split_and!; [by apply Hold|done|by apply Hold|apply H..].
Qed.

Lemma add_tree_good w o path size i il sc l t :
  good w o sc l t -> stat w path = Some size ->
  exists sc' l', add_tree (page o) path size (i :: il) sc = Ret sc' /\ good w o sc' l' (tree_rows t (path, i :: il)).
Proof.
  intros Hg0 Hst. destruct (alloc_good w o (i :: il) sc l t Hg0) as [Hl Hr Ho Hw Hn Hrc]. cbn [sc_chips dtb_count sc_rc] in *.
  set (first := length (mem (sc_chips sc))). set (s := alloc (i :: il) (sc_chips sc)) in *.
  set (file := set_file (u32 (padded (page o) size)) path).
  assert (forall j i', (i :: il) !! j = Some i' -> mem s !! (first + j)%nat = Some (fresh first i')) as Hnew.
  { intros j i' Hj. unfold s. cbn [alloc mem]. rewrite lookup_app_r by lia. replace (first + j - length _)%nat with j by lia.
    by rewrite list_lookup_fmap, Hj. }
  specialize (Hnew 0%nat i eq_refl) as Hfirst. rewrite Nat.add_0_r in Hfirst.
  assert (forall a, a ∈ l -> (a < first)%nat) as Hlt.
  { intros a Ha. destruct (linked_in _ _ _ (good_linked _ _ _ _ _ Hg0) Ha) as [c Hc]. by apply lookup_lt_Some in Hc. }
  set (hF := <[first := file (fresh first i)]> (mem s)).
  pose proof (file_rows w o (mem s) first path size i il Hst Hnew) as HnewF. fold file in HnewF. fold hF in HnewF.
  assert (Forall2 (row_at w o hF) l t) as HR.
  { apply (rows_kept w o sc l t hF Hg0). intros b d Hb. pose proof (lookup_lt_Some _ _ _ Hb). unfold hF.
    rewrite list_lookup_insert_ne by (unfold first; lia). by apply lookup_app_l_Some. }
  assert (forall a r, row_at w o hF a r -> name (mem s) a = fst r) as Hk.
  { intros a r <-%row_name. unfold name, name_at, hF. rewrite insert_at by inside. case_decide as E; [by rewrite E, Hfirst|done]. }
  specialize (HnewF 0%nat i eq_refl) as HRf. rewrite Nat.add_0_r in HRf.
  destruct (chip_add_rows (row_at w o hF) s l t first (i, path) Hk Hl HR ltac:(by intros Hin%Hlt; lia) ltac:(eauto) HRf)
    as (rc & s' & l' & E & Hb & Hl' & Hr' & Hin & Hok & Hlen & Hno).
  unfold add_tree, tree_rows. fold first s. rewrite E. cbn [cbind count_chip sc_chips dtb_count sc_rc length Nat.sub]. rewrite Nat.sub_0_r.
  destruct (rc =? RC_SUCCESS) eqn:Erc; cbn [negb].
  - symmetry in Hok. apply bool_decide_eq_true in Hok as [t' Et]. rewrite Et in *. cbn [default] in Hr'.
    destruct (bare_lookup _ _ _ _ (eq_sym Hb) Hfirst) as (c' & Hc' & Hcc). rewrite (upd_Some _ _ _ _ Hc'). cbn [cbind].
    assert (bare hF = bare (<[first := file c']> (mem s'))) as HbF.
    { unfold hF. rewrite !bare_insert, Hb. f_equal. injection Hcc. intros. unfold file, set_file, set_links. cbn. by f_equal. }
    apply (add_others_good w o path il (S first) _ l' t').
    + apply (good_with_file w o s' l' t' first c' size path _ _ hF); try done.
      * by apply (clean_bare _ _ (eq_sym Hb)).
      * by apply (enter_order _ _ _ _ Ho Et).
      * by rewrite Hlen, Hn.
      * by apply Z.eqb_eq.
    + intros a [->|Ha%Hlt]%Hin; lia.
    + intros j i' Hj. cbn [sc_chips mem]. rewrite plus_Sn_m, plus_n_Sm. apply (row_bare w o hF); [done|]. by apply (HnewF (S j)).
  - destruct (Hno eq_refl) as [-> ->]. eexists _, l. split; [done|].
    destruct (enter fst (i, path) t) as [t'|] eqn:Et; [done|].
    split; cbn; try done; [by rewrite Erc|by intros ->].
Qed.

Lemma scan_entry_good w o e sc l t : good w o sc l t ->
  exists sc' l', scan_entry w o e sc = Ret sc' /\ good w o sc' l' (fold_left tree_rows (omap (tree_of w o) [e]) t).
Proof.
  intros Hg. destruct e as [name regular]. cbn [omap list_omap tree_of scan_entry].
  destruct (regular && is_dtb name); cbn [negb andb]; [|by exists sc, l].
  destruct (getChipInfo _ _ _) as [|i il]; cbn [fold_left].
  { exists sc, l. split; [done|]. by destruct (negb _). }
  destruct (stat w (dir o ++ name)) as [size|] eqn:Est; [change (default 0 (Some size)) with size|by exists sc, l].
  destruct (size =? 0); cbn [negb fold_left]; [by exists sc, l|]. by apply (add_tree_good w o _ size i il sc l).
Qed.
Lemma scan_dir_good w o es sc l t : good w o sc l t ->
  exists sc' l', scan_dir w o es sc = Ret sc' /\ good w o sc' l' (fold_left tree_rows (omap (tree_of w o) es) t).
Proof.
  revert sc l t. induction es as [|e es IH]; intros sc l t Hg; [by exists sc, l|]. cbn [scan_dir].
  destruct (scan_entry_good w o e sc l t Hg) as (sc1 & l1 & E & Hg1). rewrite E. cbn [cbind].
  destruct (IH _ _ _ Hg1) as (sc' & l' & E' & Hg'). exists sc', l'. split; [done|].
  change (e :: es) with ([e] ++ es). by rewrite omap_app, fold_left_app.
Qed.
Lemma no_chips_good w o : good w o no_chips [] [].
Proof. split; cbn; try done; [split; [constructor|done]|split; constructor|constructor]. Qed.

(** * Writing *)

(** The chips but for the two fields the writing uses. *)
Definition core (c : chipInfo_t) : chipInfo_t :=
  {| c_ids := c_ids c; c_dtb_size := c_dtb_size c; c_dtb_file := c_dtb_file c; c_prev := c_prev c; c_next := c_next c;
     c_master := c_master c; c_wrote := false; c_offset := 0 |}.
Definition mas (h : list chipInfo_t) (a : nat) : nat := match h !! a with Some c => c_master c | None => a end.
Definition siz (h : list chipInfo_t) (m : nat) : Z := match h !! m with Some c => c_dtb_size c | None => 0 end.
(** The masters in the order of their first chips. *)
Fixpoint news (done l : list nat) : list nat :=
  match l with [] => [] | m :: l => if decide (m ∈ done) then news done l else m :: news (done ++ [m]) l end.
Fixpoint total (size : nat -> Z) (ms : list nat) : Z := match ms with [] => 0 | m :: ms => size m + total size ms end.
Fixpoint place_of (size : nat -> Z) (m : nat) (ms : list nat) : Z :=
  match ms with [] => 0 | x :: ms => if decide (x = m) then 0 else size x + place_of size m ms end.

Lemma total_app size a b : total size (a ++ b) = total size a + total size b.
Proof. induction a as [|m a IH]; cbn [total app]; lia. Qed.
Lemma total_nonneg size l : (forall m, 0 <= size m) -> 0 <= total size l.
Proof. intros H. induction l as [|m l IH]; cbn [total]; [lia|]. specialize (H m). lia. Qed.
Lemma place_new size m a b : m ∉ a -> place_of size m (a ++ m :: b) = total size a.
Proof.
  induction a as [|x a IH]; cbn [place_of total app]; [by rewrite decide_True|].
  intros [Hx Ha]%not_elem_of_cons. rewrite decide_False, IH by done. done.
Qed.
Lemma news_sub done l m : m ∈ news done l <-> m ∈ l /\ m ∉ done.
Proof.
  revert done. induction l as [|x l IH]; intros done; cbn [news]; [rewrite elem_of_nil; tauto|]. case_decide as E.
  - rewrite IH, elem_of_cons. split; [tauto|]. intros [[->|?] ?]; tauto.
  - rewrite !elem_of_cons, IH, elem_of_app, list_elem_of_singleton. destruct (decide (m = x)) as [->|]; tauto.
Qed.
Lemma news_NoDup done l : NoDup (news done l).
Proof.
  revert done. induction l as [|x l IH]; intros done; cbn [news]; [constructor|]. case_decide; [done|].
  constructor; [|done]. rewrite news_sub, elem_of_app, list_elem_of_singleton. tauto.
Qed.

Lemma core_lookup h h' a c : map core h = map core h' -> h !! a = Some c ->
  exists c', h' !! a = Some c' /\ core c' = core c.
Proof.
  intros E H. assert (map core h !! a = map core h' !! a) as Ha by (by rewrite E).
  rewrite !list_lookup_fmap, H in Ha. destruct (h' !! a) as [c'|]; [|done]. exists c'. split; [done|]. by apply Some_inj in Ha.
Qed.
Lemma core_fields c c' : core c = core c' ->
  c_ids c = c_ids c' /\ c_dtb_size c = c_dtb_size c' /\ c_dtb_file c = c_dtb_file c' /\ c_next c = c_next c' /\
  c_master c = c_master c'.
Proof. intros [=]. done. Qed.
Lemma map_set {B} (f : chipInfo_t -> B) h a c c' : h !! a = Some c -> f c' = f c -> map f (<[a := c']> h) = map f h.
Proof.
  intros Ha Hc. apply list_eq. intros i. rewrite !list_lookup_fmap, insert_at by inside.
  case_decide as Ei; [|done]. rewrite Ei, Ha. cbn. by rewrite Hc.
Qed.

(** The writes of a row, and of a tree. *)
Section Written.
Context (w : host) (pg : Z) (h0 : list chipInfo_t) (base : Z) (final : list nat).
Definition row_writes (a : nat) : list (list Z) :=
  map (le 4) (id_words (name h0 a) ++ [base + place_of (siz h0) (mas h0 a) final; siz h0 (mas h0 a)]).
Definition tree_data (m : nat) : option (list Z) :=
  match h0 !! m with Some c => match c_dtb_file c with Some p => contents w p | None => None end | None => None end.
Definition tree_writes (m : nat) : list (list Z) :=
  let d := default [] (tree_data m) in blocks (length d) d ++ [replicate (Z.to_nat (pg - zlen d mod pg)) 0].
Definition tree_fits (m : nat) : bool :=
  match tree_data m with Some d => u32 (padded pg (zlen d)) =? siz h0 m | None => false end.

Lemma write_all_app o a b : write_all w o (a ++ b) = write_all w (write_all w o a) b.
Proof. apply fold_left_app. Qed.
(** All chips of the list and their masters exist. *)
Definition all_there (l : list nat) : Prop :=
  forall a, a ∈ l -> exists c m, h0 !! a = Some c /\ h0 !! c_master c = Some m.

Lemma place_nonneg size m l : (forall x, 0 <= size x) -> 0 <= place_of size m l.
Proof. intros H. induction l as [|x l IH]; cbn [place_of]; [lia|]. specialize (H x). case_decide; lia. Qed.
Lemma row_writes_step o a c m off ds :
  name h0 a = c_ids c -> off = base + place_of (siz h0) (mas h0 a) final -> c_dtb_size m = siz h0 (mas h0 a) ->
  write_all w (write w (write w (write_all w o (map (le 4) (id_words (c_ids c)))) (le 4 off)) (le 4 (c_dtb_size m))) ds =
  write_all w o (row_writes a ++ ds).
Proof. intros Hn -> ->. unfold row_writes. rewrite Hn, map_app, !write_all_app. done. Qed.
Lemma rows_run l fuel p h o done :
  dseg h0 p l None -> all_there l -> map core h = map core h0 -> (length l < fuel)%nat ->
  (forall m, m ∈ done -> exists c, h !! m = Some c /\ c_offset c = base + place_of (siz h0) m final) ->
  (forall m c, h !! m = Some c -> m ∉ done -> c_offset c = 0) ->
  final = done ++ news done (map (mas h0) l) -> 0 < base -> (forall m, 0 <= siz h0 m) ->
  base + total (siz h0) final < 2147483648 -> 4294967296 <= ulong_max w + 1 ->
  exists h', rows w fuel (first_or l None) h o (base + total (siz h0) done) =
      Ret (h', write_all w o (concat (map row_writes l)), base + total (siz h0) final) /\
    map core h' = map core h0 /\ map c_wrote h' = map c_wrote h.
Proof.
  revert fuel p h o done. induction l as [|a l IH]; intros fuel p h o done Hs Hall Hcore Hf Hd Hn Hfin Hb Hsz Hroom Hmax.
  { destruct fuel; cbn in Hf; [lia|]. cbn [rows first_or]. exists h. cbn in Hfin. rewrite app_nil_r in Hfin. by subst. }
  destruct fuel as [|fuel]; cbn in Hf; [lia|]. cbn [rows first_or]. destruct Hs as [(c0 & Hc0 & _ & Hnx) Hs].
  destruct (Hall a) as (c0' & m0 & Hc0' & Hm0); [left|]. rewrite Hc0 in Hc0'. injection Hc0' as <-.
  destruct (core_lookup _ _ _ _ (eq_sym Hcore) Hc0) as (c & Hc & (Hi & _ & _ & Hnc & Hmc)%core_fields).
  destruct (core_lookup _ _ _ _ (eq_sym Hcore) Hm0) as (m & Hm & Hmm). pose proof Hmm as (_ & Hmz & _)%core_fields.
  assert (mas h0 a = c_master c0) as Hma by (unfold mas; by rewrite Hc0).
  assert (c_dtb_size m = siz h0 (mas h0 a)) as Hz by (rewrite Hma; unfold siz; by rewrite Hm0).
  assert (name h0 a = c_ids c) as Hname by (rewrite Hi; by apply name_lookup).
  rewrite (deref_Some _ _ _ Hc). cbn [cbind]. rewrite Hmc, (deref_Some _ _ _ Hm). cbn [cbind]. rewrite Hnc, Hnx.
  assert (all_there l) as Hall' by (intros b Hb'; apply Hall; by right).
  cbn [map] in Hfin |- *. cbn [news] in Hfin. rewrite Hma in Hfin. cbn [concat]. case_decide as E.
  - destruct (Hd _ E) as (m' & Hm' & Hoff). rewrite Hm in Hm'. injection Hm' as <-.
    pose proof (place_nonneg (siz h0) (c_master c0) final Hsz). replace (c_offset m =? 0) with false by lia. cbn [negb].
    destruct (IH fuel (Some a) h (write w (write w (write_all w o (map (le 4) (id_words (c_ids c)))) (le 4 (c_offset m))) (le 4 (c_dtb_size m))) done)
      as (h' & Hr & Hh'); try done; [lia|].
    exists h'. split; [|done]. rewrite Hr, (row_writes_step _ a c m); [done|done|by rewrite Hma|done].
  - pose proof (Hn _ _ Hm E) as Hoff. rewrite Hoff. cbn [Z.eqb negb].
    pose proof (total_nonneg (siz h0) (news (done ++ [c_master c0]) (map (mas h0) l)) Hsz).
    pose proof (total_nonneg (siz h0) done Hsz). pose proof (Hsz (c_master c0)).
    assert (base + total (siz h0) done + siz h0 (c_master c0) <= base + total (siz h0) final) as Hle.
    { rewrite Hfin, total_app. cbn [total]. lia. }
    assert (size_t w (base + total (siz h0) done + c_dtb_size m) = base + total (siz h0) (done ++ [c_master c0])) as ->.
    { rewrite Hz, Hma, total_app. unfold size_t. cbn [total]. rewrite Z.mod_small; lia. }
    rewrite u32_small by lia. set (h1 := <[c_master c0 := _]> h).
    replace (done ++ c_master c0 :: news (done ++ [c_master c0]) (map (mas h0) l))
      with ((done ++ [c_master c0]) ++ news (done ++ [c_master c0]) (map (mas h0) l)) in Hfin by (by rewrite <- app_assoc).
    destruct (IH fuel (Some a) h1 (write w (write w (write_all w o (map (le 4) (id_words (c_ids c)))) (le 4 (base + total (siz h0) done)))
      (le 4 (c_dtb_size m))) (done ++ [c_master c0])) as (h' & Hr & Hh1 & Hh2); try done; try lia.
    + unfold h1. by rewrite (map_set core _ _ m).
    + intros x. unfold h1. rewrite elem_of_app, list_elem_of_singleton, insert_at by inside. case_decide as Ex; [|intros [?|?]; [by apply Hd|done]].
      intros _. eexists. split; [done|]. cbn. rewrite Ex, Hfin, <- app_assoc. cbn [app]. by rewrite place_new.
    + intros x cx. unfold h1. rewrite elem_of_app, list_elem_of_singleton, insert_at by inside. case_decide as Ex; [|eauto].
      intros _ []. by right.
    + exists h'. split; [|split; [done|by rewrite Hh2; unfold h1; rewrite (map_set c_wrote _ _ m)]].
      rewrite Hr, (row_writes_step _ a c m); [done|done| |done]. rewrite Hma, Hfin, <- app_assoc. cbn [app]. by rewrite place_new.
Qed.

Lemma trees_run l fuel p h o done rc :
  dseg h0 p l None -> all_there l -> map core h = map core h0 -> (length l < fuel)%nat ->
  (forall m c, h !! m = Some c -> c_wrote c = bool_decide (m ∈ done)) -> 0 < pg ->
  (forall a, a ∈ l -> exists m, h0 !! mas h0 a = Some m /\ is_Some (c_dtb_file m)) ->
  exists h' o' r, trees w pg fuel (first_or l None) h o rc = Ret (h', o', r) /\ map core h' = map core h0 /\
    let ms := news done (map (mas h0) l) in
    if forallb tree_fits ms then r = rc /\ o' = write_all w o (concat (map tree_writes ms)) else r = RC_ERROR.
Proof.
  revert fuel p h o done. induction l as [|a l IH]; intros fuel p h o done Hs Hall Hcore Hf Hw Hpg Hfile.
  { destruct fuel; cbn in Hf; [lia|]. by exists h, o, rc. }
  destruct fuel as [|fuel]; cbn in Hf; [lia|]. cbn [trees first_or]. destruct Hs as [(c0 & Hc0 & _ & Hnx) Hs].
  destruct (Hall a) as (c0' & m0 & Hc0' & Hm0); [left|]. rewrite Hc0 in Hc0'. injection Hc0' as <-.
  destruct (core_lookup _ _ _ _ (eq_sym Hcore) Hc0) as (c & Hc & (Hi & _ & _ & Hnc & Hmc)%core_fields).
  destruct (core_lookup _ _ _ _ (eq_sym Hcore) Hm0) as (m & Hm & Hmm). pose proof Hmm as (_ & Hmz & Hmf & _)%core_fields.
  assert (mas h0 a = c_master c0) as Hma by (unfold mas; by rewrite Hc0).
  rewrite (deref_Some _ _ _ Hc). cbn [cbind]. rewrite Hmc, (deref_Some _ _ _ Hm). cbn [cbind]. rewrite Hnc, Hnx, (Hw _ _ Hm).
  assert (all_there l) as Hall' by (intros b Hb'; apply Hall; by right).
  assert (forall b, b ∈ l -> exists m, h0 !! mas h0 b = Some m /\ is_Some (c_dtb_file m)) as Hfile' by (intros b Hb'; apply Hfile; by right).
  cbn [map news]. rewrite Hma. case_decide as E; [rewrite bool_decide_true by done; by apply (IH fuel (Some a)); try lia|].
  rewrite bool_decide_false by done. destruct (Hfile a) as (m0' & Hm0' & [path Hp]); [left|]. rewrite Hma, Hm0 in Hm0'. injection Hm0' as <-.
  assert (tree_data (c_master c0) = contents w path) as Htd by (unfold tree_data; by rewrite Hm0, Hp).
  rewrite Hmf, Hp, Hmz. set (h1 := <[c_master c0 := _]> h). cbn [forallb]. unfold tree_fits at 1. rewrite Htd.
  assert (map core h1 = map core h0) as Hc1 by (unfold h1; by rewrite (map_set core _ _ m)).
  destruct (contents w path) as [d|] eqn:Ed; [|by eexists _, _, _]. fold (padded pg (zlen d)).
  assert (siz h0 (c_master c0) = c_dtb_size m0) as -> by (unfold siz; by rewrite Hm0).
  destruct (_ =? c_dtb_size m0); cbn [negb andb]; [|by eexists _, _, _].
  pose proof (Z.mod_pos_bound (zlen d) pg Hpg). unfold fill. replace (0 <? _) with true by lia.
  destruct (IH fuel (Some a) h1 (write w (write_all w o (blocks (length d) d)) (replicate (Z.to_nat (pg - zlen d mod pg)) 0)) (done ++ [c_master c0]))
    as (h' & o' & r & Hr & Hh' & Hres); try done; try lia.
  - intros x cx. unfold h1. rewrite insert_at by inside. case_decide as Ex.
    + intros [= <-]. rewrite bool_decide_true; [done|]. rewrite Ex, elem_of_app. right. left.
    + intros Hx. rewrite (Hw _ _ Hx). apply bool_decide_ext. rewrite elem_of_app, list_elem_of_singleton. tauto.
  - exists h', o', r. split; [done|]. split; [done|]. cbn zeta in Hres |- *. cbn [forallb andb]. destruct (forallb tree_fits _); [|done].
    destruct Hres as [-> ->]. split; [done|]. cbn [map concat].
    assert (tree_writes (c_master c0) = blocks (length d) d ++ [replicate (Z.to_nat (pg - zlen d mod pg)) 0]) as -> by (unfold tree_writes; by rewrite Htd).
    by rewrite !write_all_app.
Qed.
End Written.

(** * What a run writes *)

Lemma blocks_concat fuel d : (length d <= fuel)%nat -> concat (blocks fuel d) = d.
Proof.
  revert d. induction fuel as [|fuel IH]; intros [|x d] Hf; [done|cbn in Hf; lia|done|]. cbn [blocks concat].
  rewrite IH; [by rewrite take_drop|]. rewrite length_drop. cbn [length] in *. unfold COPY_BLK. lia.
Qed.
Lemma blocks_nonempty fuel d : Forall (fun b => b <> []) (blocks fuel d).
Proof. revert d. induction fuel as [|fuel IH]; intros [|x d]; cbn [blocks]; constructor; done. Qed.
Lemma concat_map_concat {A B} (f : A -> list (list B)) l : concat (concat (map f l)) = concat (map (fun a => concat (f a)) l).
Proof. induction l as [|a l IH]; cbn [map concat]; [done|]. by rewrite concat_app, IH. Qed.

(** The sum of the results of the writes, and the bytes they put in the file. *)
Fixpoint sent (w : host) (n : nat) (ds : list (list Z)) : Z :=
  match ds with [] => 0 | d :: ds => put w n d + sent w (S n) ds end.
Fixpoint got (w : host) (n : nat) (ds : list (list Z)) : list Z :=
  match ds with [] => [] | d :: ds => take (Z.to_nat (put w n d)) d ++ got w (S n) ds end.
Lemma writes_counted w ds o x : wrote o = size_t w x ->
  o_bytes (write_all w o ds) = o_bytes o ++ got w (o_calls o) ds /\
  wrote (write_all w o ds) = size_t w (x + sent w (o_calls o) ds).
Proof.
  revert o x. induction ds as [|d ds IH]; intros o x Hx; cbn [sent got].
  { rewrite app_nil_r, Z.add_0_r. done. }
  change (write_all w o (d :: ds)) with (write_all w (write w o d) ds).
  destruct (IH (write w o d) (x + put w (o_calls o) d)) as [-> ->].
  - cbn. rewrite Hx. unfold size_t. by rewrite Zplus_mod_idemp_l.
  - cbn. rewrite <- app_assoc. by rewrite Z.add_assoc.
Qed.
(** write(2) fails or writes some of the bytes; size_t has 32 bits or more. *)
Record honest (w : host) : Prop := {
  put_range : forall n d, -1 <= put w n d <= zlen d;
  wide : 4294967296 <= ulong_max w + 1
}.
Lemma sent_bounds w n ds : honest w ->
  - Z.of_nat (length ds) <= sent w n ds <= zlen (concat ds) /\ (sent w n ds = zlen (concat ds) -> got w n ds = concat ds).
Proof.
  intros H. revert n. induction ds as [|d ds IH]; intros n; cbn [sent got concat length]; [done|].
  rewrite zlen_app. destruct (IH (S n)) as [Hb He]. pose proof (put_range _ H n d). split; [lia|].
  intros Hs. rewrite He by lia. replace (put w n d) with (zlen d) by lia. unfold zlen. by rewrite Nat2Z.id, firstn_all.
Qed.
Lemma nonempty_length {A} (ds : list (list A)) : Forall (fun d => d <> []) ds -> Z.of_nat (length ds) <= zlen (concat ds).
Proof.
  induction 1 as [|d ds Hd _ IH]; cbn [length concat]; [done|]. rewrite zlen_app. destruct d; [done|].
  rewrite zlen_cons. pose proof (zlen_nonneg d). lia.
Qed.
(** The count of the bytes tells whether all writes were complete. *)
Lemma all_sent w ds : honest w -> Forall (fun d => d <> []) ds -> zlen (concat ds) < 2147483648 ->
  zlen (concat ds) = size_t w (sent w 0 ds) -> got w 0 ds = concat ds.
Proof.
  intros H Hne Hb Heq. destruct (sent_bounds w 0 ds H) as [Hs He]. apply He.
  pose proof (nonempty_length ds Hne). pose proof (wide _ H). unfold size_t in Heq. pose proof (zlen_nonneg (concat ds)).
  pose proof (Z.div_mod (sent w 0 ds) (ulong_max w + 1) ltac:(lia)) as Hd. rewrite <- Heq in Hd.
  set (q := sent w 0 ds / _) in Hd. assert (q = 0 \/ q <= -1 \/ 1 <= q) as [->|[Hq|Hq]] by lia; nia.
Qed.
Lemma sent_full w n ds : (forall n d, put w n d = zlen d) -> sent w n ds = zlen (concat ds).
Proof. intros H. revert n. induction ds as [|d ds IH]; intros n; cbn [sent concat]; [done|]. by rewrite zlen_app, H, IH. Qed.

(** Pieces of a concatenation. *)
Lemma concat_piece {A} (f : A -> list Z) n l k a :
  (forall x, length (f x) = n) -> l !! k = Some a -> take n (drop (n * k) (concat (map f l))) = f a.
Proof.
  intros Hn. revert k. induction l as [|x l IH]; intros [|k] Hk; [done..| |]; cbn [map concat].
  - injection Hk as ->. rewrite Nat.mul_0_r, drop_0, <- (Hn a). apply take_app_length.
  - rewrite Nat.mul_succ_r, Nat.add_comm, <- drop_drop.
    replace (drop n (f x ++ concat (map f l))) with (concat (map f l)); [by apply IH|].
    rewrite <- (Hn x). symmetry. apply drop_app_length.
Qed.
Lemma place_piece (f : nat -> list Z) size l m :
  (forall x, x ∈ l -> zlen (f x) = size x) -> (forall x, 0 <= size x) -> m ∈ l ->
  take (Z.to_nat (size m)) (drop (Z.to_nat (place_of size m l)) (concat (map f l))) = f m.
Proof.
  intros Hn Hs. induction l as [|x l IH]; intros Hm; [by apply elem_of_nil in Hm|]. cbn [map concat place_of].
  assert (forall y, y ∈ x :: l -> Z.to_nat (size y) = length (f y)) as Hl by (intros y Hy; rewrite <- Hn by done; unfold zlen; lia).
  case_decide as E.
  - subst. rewrite (Hl m) by left. rewrite drop_0. apply take_app_length.
  - apply elem_of_cons in Hm as [->|Hm]; [done|]. pose proof (place_nonneg size m l Hs). rewrite Z2Nat.inj_add by auto.
    rewrite (Hl x) by left. rewrite <- drop_drop, drop_app_length. apply IH; [|done]. intros y Hy. apply Hn. by right.
Qed.
Lemma news_total size seen l : (forall x, 0 <= size x) -> total size (news seen l) <= total size l.
Proof.
  intros H. revert seen. induction l as [|m l IH]; intros seen; cbn [news total]; [lia|]. pose proof (H m).
  case_decide; cbn [total]; [specialize (IH seen)|specialize (IH (seen ++ [m]))]; lia.
Qed.

(** * The run as a whole *)

Lemma page_in_range args o : parse_commandline args = Some o -> 0 < page o <= PAGE_SIZE_MAX.
Proof.
  unfold parse_commandline. assert (forall a p p', parse_options a p = Some p' -> 0 < page_size p <= PAGE_SIZE_MAX -> 0 < page_size p' <= PAGE_SIZE_MAX) as H.
  { intros a. induction a as [|x a IH]; intros p p'; cbn [parse_options]; [by intros [= <-]|].
    destruct x; try (intros E ?; eapply IH; [exact E|done]).
    - destruct (_ || _) eqn:Ep; [done|]. intros E _. eapply IH; [exact E|]. cbn. b2p. lia.
    - done. }
  destruct (parse_options args no_options) as [p|] eqn:E; [|done]. destruct (output_file p); [|done].
  intros [= <-]. cbn. by apply (H _ _ _ E).
Qed.

Lemma delete_run h l fuel p freed :
  dseg h p l None -> NoDup (freed ++ l) -> (length l < fuel)%nat -> delete_loop h fuel (first_or l None) freed = Ret (freed ++ l).
Proof.
  revert fuel p freed. induction l as [|a l IH]; intros [|fuel] p freed Hs Hd Hf; cbn [length] in Hf; try lia; cbn [delete_loop first_or].
  { by rewrite app_nil_r. }
  destruct Hs as [(c & Hc & _ & Hn) Hs]. rewrite bool_decide_false.
  - rewrite (deref_Some _ _ _ Hc). cbn [cbind]. rewrite Hn, (IH _ (Some a)), <- app_assoc; try done; [|lia]. by rewrite <- app_assoc.
  - apply NoDup_app in Hd as (_ & Hd & _). intros Ha. apply (Hd a Ha). left.
Qed.
Lemma dseg_core h h' l p n : map core h' = map core h -> dseg h p l n -> dseg h' p l n.
Proof.
  intros E. revert p. induction l as [|a l IH]; intros p; [done|]. intros [(c & Hc & Hp & Hn) Hs]. split; [|by apply IH].
  destruct (core_lookup _ _ _ _ (eq_sym E) Hc) as (c' & Hc' & Hcc). exists c'. split; [done|].
  assert (c_prev c' = c_prev c) as -> by (by injection Hcc). by apply core_fields in Hcc as (_ & _ & _ & -> & _).
Qed.
(** chip_deleteall frees every chip of the list once, also after the writing. *)
Lemma deleteall_run s h l : linked s l -> map core h = map core (mem s) ->
  chip_deleteall {| mem := h; chip_list := chip_list s |} = Ret l.
Proof.
  intros Hl E. pose proof (linked_length _ _ Hl) as Hlen. destruct Hl as (Hd & Hh & Hs). unfold chip_deleteall. cbn [mem chip_list].
  rewrite Hh. apply (delete_run _ _ _ None []); [by eapply dseg_core|done|].
  apply (f_equal length) in E. rewrite !length_map in E. lia.
Qed.

(** The rows are written in any case. *)
Lemma rows_end w h0 l fuel p h o expected :
  dseg h0 p l None -> all_there h0 l -> map core h = map core h0 -> (length l < fuel)%nat ->
  exists h' o' e, rows w fuel (first_or l None) h o expected = Ret (h', o', e) /\ map core h' = map core h0 /\
    map c_wrote h' = map c_wrote h.
Proof.
  revert fuel p h o expected. induction l as [|a l IH]; intros [|fuel] p h o expected Hs Hall Hcore Hf; cbn [length] in Hf; try lia; cbn [rows first_or].
  { by exists h, o, expected. }
  destruct Hs as [(c0 & Hc0 & _ & Hnx) Hs]. destruct (Hall a) as (c0' & m0 & Hc0' & Hm0); [left|].
  rewrite Hc0 in Hc0'. injection Hc0' as <-.
  destruct (core_lookup _ _ _ _ (eq_sym Hcore) Hc0) as (c & Hc & (_ & _ & _ & Hnc & Hmc)%core_fields).
  destruct (core_lookup _ _ _ _ (eq_sym Hcore) Hm0) as (m & Hm & _).
  rewrite (deref_Some _ _ _ Hc). cbn [cbind]. rewrite Hmc, (deref_Some _ _ _ Hm). cbn [cbind]. rewrite Hnc, Hnx.
  assert (all_there h0 l) as Hall' by (intros b Hb'; apply Hall; by right).
  destruct (c_offset m =? 0); cbn [negb].
  - set (h1 := <[c_master c0 := _]> h). assert (map core h1 = map core h0) as Hc1 by (unfold h1; by rewrite (map_set core _ _ m)).
    match goal with |- exists h' o' e, rows w fuel _ h1 ?o1 ?e1 = _ /\ _ =>
      destruct (IH fuel (Some a) h1 o1 e1) as (h' & o' & e & Hr & Hh1 & Hh2); try done; try lia end.
    exists h', o', e. split; [done|]. split; [done|]. rewrite Hh2. unfold h1. by rewrite (map_set c_wrote _ _ m).
  - eapply IH; try done. lia.
Qed.

Lemma good_there w o sc l t : good w o sc l t -> all_there (mem (sc_chips sc)) l /\
  forall a, a ∈ l -> exists m, mem (sc_chips sc) !! mas (mem (sc_chips sc)) a = Some m /\ is_Some (c_dtb_file m).
Proof.
  intros Hg. assert (forall a, a ∈ l -> exists r, row_at w o (mem (sc_chips sc)) a r) as H.
  { intros a [k Hk]%list_elem_of_lookup. destruct (Forall2_lookup_l _ _ _ _ _ (good_rows _ _ _ _ _ Hg) Hk) as (r & _ & Hr). eauto. }
  split; intros a Ha; destruct (H a Ha) as (r & c & m & size & Hc & _ & Hm & Hf & _); [by exists c, m|].
  exists m. unfold mas. rewrite Hc. eauto.
Qed.
Lemma clean_wrote h a c : clean h -> h !! a = Some c -> c_wrote c = false /\ c_offset c = 0 /\ 0 <= c_dtb_size c.
Proof. unfold clean. rewrite Forall_lookup. intros H Hc. by apply (H a). Qed.

(** The size of a tree in the file, and of a file with all its rows. *)
Definition dtb_size (w : host) (o : settings) (path : list Z) : Z := u32 (padded (page o) (default 0 (stat w path))).
Definition room (w : host) (o : settings) (t : list (ids * list Z)) : Z :=
  16 + 40 * zlen t + page o + foldr Z.add 0 (map (fun r => dtb_size w o (snd r)) t).

Lemma row_size w o h a r : row_at w o h a r -> siz h (mas h a) = dtb_size w o (snd r).
Proof.
  intros (c & m & size & Hc & _ & Hm & _ & Hs & Hz). unfold mas, siz, dtb_size. by rewrite Hc, Hm, Hs.
Qed.
Lemma rows_total w o h l t : Forall2 (row_at w o h) l t ->
  total (siz h) (map (mas h) l) = foldr Z.add 0 (map (fun r => dtb_size w o (snd r)) t).
Proof. induction 1 as [|a r l t Hr _ IH]; cbn [total map foldr]; [done|]. by rewrite IH, (row_size _ _ _ _ _ Hr). Qed.

Section Image.
Context (w : host) (o : settings) (sc : scan) (l : list nat) (t : list (ids * list Z)).
Context (Hg : good w o sc l t) (Hpage : 0 < page o <= PAGE_SIZE_MAX).
Definition chips_of (sc : scan) : list chipInfo_t := mem (sc_chips sc).
Definition masters : list nat := news [] (map (mas (chips_of sc)) l).
Definition table_end : Z := 12 + 40 * dtb_count sc + 4.
Definition base : Z := table_end + (page o - table_end mod page o).
Definition image_writes : list (list Z) :=
  [QCDT_MAGIC; le 4 QCDT_VERSION; le 4 (dtb_count sc)] ++ concat (map (row_writes (chips_of sc) base masters) l) ++
  [le 4 RC_SUCCESS] ++ [replicate (Z.to_nat (page o - table_end mod page o)) 0] ++
  concat (map (tree_writes w (page o) (chips_of sc)) masters).
Definition fits : bool := forallb (tree_fits w (page o) (chips_of sc)) masters.

Lemma padding_range : 0 < page o - table_end mod page o <= page o.
Proof. pose proof (Z.mod_pos_bound table_end (page o)). lia. Qed.
Lemma table_end_range : table_end = 16 + 40 * zlen t.
Proof.
  unfold table_end. rewrite (good_count _ _ _ _ _ Hg). unfold zlen. rewrite (Forall2_length _ _ _ (good_rows _ _ _ _ _ Hg)). lia.
Qed.
Lemma fill_write out : fill w (page o - table_end mod page o) out = write w out (replicate (Z.to_nat (page o - table_end mod page o)) 0).
Proof. unfold fill. pose proof padding_range. by replace (0 <? _) with true by lia. Qed.
Lemma size_nonneg m : 0 <= siz (chips_of sc) m.
Proof.
  unfold siz. destruct (chips_of sc !! m) as [c|] eqn:Hc; [|done]. by apply (clean_wrote _ _ _ (good_clean _ _ _ _ _ Hg) Hc).
Qed.
Lemma masters_total : base + total (siz (chips_of sc)) masters <= room w o t.
Proof.
  unfold room, base. pose proof padding_range. rewrite table_end_range in *.
  assert (total (siz (chips_of sc)) masters <= foldr Z.add 0 (map (fun r => dtb_size w o (snd r)) t)); [|lia].
  unfold masters. etransitivity; [apply news_total, size_nonneg|].
  rewrite (rows_total w o _ l t); [lia|apply (good_rows _ _ _ _ _ Hg)].
Qed.

(** What master_dtb does when the file is not too long for its offsets. *)
Lemma master_run : 4294967296 <= ulong_max w + 1 -> room w o t < 2147483648 ->
  exists h r, master_dtb w o sc = Ret (h, r) /\ map core h = map core (chips_of sc) /\ unlinked r = negb (status r =? 0) /\
    is_Some (written r) /\ (status r = 0 \/ status r = -1) /\
    (status r = 0 <-> fits = true /\ base + total (siz (chips_of sc)) masters = size_t w (sent w 0 image_writes)) /\
    (status r = 0 -> written r = Some (got w 0 image_writes)).
Proof.
  intros Hmax Hroom. destruct (good_there _ _ _ _ _ Hg) as [Hall Hfile]. fold (chips_of sc) in *.
  pose proof (good_linked _ _ _ _ _ Hg) as Hl. pose proof (linked_length _ _ Hl) as Hlen. destruct Hl as (Hd & Hh & Hs). fold (chips_of sc) in *.
  pose proof masters_total as Htot. pose proof size_nonneg as Hnn.
  assert (0 < base) as Hb by (unfold base; pose proof padding_range; pose proof table_end_range; pose proof (zlen_nonneg t); lia).
  unfold master_dtb. fold (chips_of sc) table_end. cbv zeta. fold base. rewrite Hh.
  set (out1 := write_all w _ [QCDT_MAGIC; _; _]).
  destruct (rows_run w (chips_of sc) base masters l (S (length (chips_of sc))) None (chips_of sc) out1 []) as (h1 & Hr & Hc1 & Hw1); try done; try lia.
  { by intros m ?%elem_of_nil. }
  { intros m c Hc _. by apply (clean_wrote _ _ _ (good_clean _ _ _ _ _ Hg) Hc). }
  cbn [total] in Hr. rewrite Z.add_0_r in Hr. rewrite Hr. cbn [cbind]. rewrite fill_write.
  set (out3 := write w _ (replicate _ _)).
  destruct (trees_run w (page o) (chips_of sc) l (S (length (chips_of sc))) None h1 out3 [] RC_SUCCESS) as (h2 & out4 & rc & Ht & Hc2 & Hrc); try done; try lia.
  { intros m c Hc. rewrite bool_decide_false by apply not_elem_of_nil. assert (map c_wrote h1 !! m = Some (c_wrote c)) as Hcw by (by rewrite list_lookup_fmap, Hc).
    rewrite Hw1, list_lookup_fmap in Hcw. destruct (chips_of sc !! m) as [c0|] eqn:Hc0; [|done]. injection Hcw as <-.
    by apply (clean_wrote _ _ _ (good_clean _ _ _ _ _ Hg) Hc0). }
  rewrite Ht. cbn [cbind]. eexists h2, _. split; [done|]. split; [done|]. cbn [status written unlinked]. split; [done|]. split; [by eexists|].
  cbv zeta in Hrc. fold masters fits in Hrc. destruct fits.
  - destruct Hrc as [-> ->]. assert (write_all w out3 (concat (map (tree_writes w (page o) (chips_of sc)) masters)) =
      write_all w {| o_bytes := []; o_calls := 0; wrote := 0 |} image_writes) as ->.
    { unfold image_writes. rewrite !write_all_app. done. }
    destruct (writes_counted w image_writes {| o_bytes := []; o_calls := 0; wrote := 0 |} 0) as [-> ->]; [done|].
    cbn [o_bytes o_calls app]. rewrite Z.add_0_l. destruct (_ =? _) eqn:E; cbn [negb]; (split; [tauto|]; split; [|done]); unfold RC_SUCCESS, RC_ERROR; split; try done; b2p; [done|].
    by intros [_ ?].
  - subst rc. destruct (negb _); (split; [by right|]; split; [|done]); split; try done; by intros [].
Qed.
End Image.

(** * The file *)

(** fread(3) yields less than two gigabytes: totBytesRead is an int. *)
Definition files_short (w : host) : Prop := forall p d, contents w p = Some d -> zlen d < 2147483648.
Definition tree_bytes (pg : Z) (d : list Z) : list Z := d ++ replicate (Z.to_nat (pg - zlen d mod pg)) 0.
Lemma tree_bytes_len pg d : 0 < pg -> zlen (tree_bytes pg d) = padded pg (zlen d).
Proof.
  intros H. unfold tree_bytes, padded. rewrite zlen_app, zlen_replicate. pose proof (Z.mod_pos_bound (zlen d) pg H). lia.
Qed.
Lemma padded_aligned pg n : 0 < pg -> padded pg n mod pg = 0.
Proof.
  intros H. unfold padded. replace (n + (pg - n mod pg)) with ((n / pg + 1) * pg); [by apply Z_mod_mult|].
  pose proof (Z.div_mod n pg ltac:(lia)). lia.
Qed.
Lemma tree_fits_spec w pg h m : files_short w -> 0 < pg <= PAGE_SIZE_MAX -> tree_fits w pg h m = true ->
  exists d, tree_data w h m = Some d /\ concat (tree_writes w pg h m) = tree_bytes pg d /\ siz h m = padded pg (zlen d).
Proof.
  intros Hs Hp. unfold tree_fits, tree_writes. destruct (tree_data w h m) as [d|] eqn:E; [|done]. intros Hf. exists d. split; [done|].
  assert (zlen d < 2147483648) as Hd.
  { unfold tree_data in E. destruct (h !! m) as [c|]; [|done]. destruct (c_dtb_file c); [|done]. by eapply Hs. }
  cbn [default from_option id]. rewrite concat_app, blocks_concat by lia. cbn [concat]. rewrite app_nil_r. split; [done|].
  b2p. rewrite <- Hf. apply u32_small. unfold padded. pose proof (Z.mod_pos_bound (zlen d) pg ltac:(lia)). pose proof (zlen_nonneg d).
  unfold PAGE_SIZE_MAX in Hp. lia.
Qed.
Lemma le_nonempty n x : le (S n) x <> [].
Proof. done. Qed.
Lemma row_len h b f a : length (concat (row_writes h b f a)) = 40%nat.
Proof. unfold row_writes. destruct (name h a) as [? ? ? ? [[[? ?] ?] ?]]. done. Qed.
Lemma concat_rows_length {A} (f : A -> list Z) n l : (forall a, length (f a) = n) -> length (concat (map f l)) = (n * length l)%nat.
Proof. intros H. induction l as [|a l IH]; cbn [map concat length]; [lia|]. rewrite length_app, IH, H. lia. Qed.
Lemma concat_total (f : nat -> list Z) size l : (forall m, m ∈ l -> zlen (f m) = size m) -> zlen (concat (map f l)) = total size l.
Proof.
  induction l as [|m l IH]; intros H; cbn [map concat total]; [done|]. rewrite zlen_app, H, IH; [done| |left].
  intros x Hx. apply H. by right.
Qed.

Section File.
Context (w : host) (o : settings) (sc : scan) (l : list nat) (t : list (ids * list Z)).
Context (Hg : good w o sc l t) (Hpage : 0 < page o <= PAGE_SIZE_MAX) (Hshort : files_short w) (Hfits : fits w o sc l = true).
Local Definition row_of (a : nat) : list Z := concat (row_writes (chips_of sc) (base o sc) (masters sc l) a).
Local Definition tree_in (m : nat) : list Z := concat (tree_writes w (page o) (chips_of sc) m).

Lemma fits_in m : m ∈ masters sc l -> tree_fits w (page o) (chips_of sc) m = true.
Proof. intros Hm. unfold fits in Hfits. rewrite forallb_forall in Hfits. by apply Hfits, list_elem_of_In. Qed.
Lemma tree_in_len m : m ∈ masters sc l -> zlen (tree_in m) = siz (chips_of sc) m.
Proof.
  intros Hm. destruct (tree_fits_spec w (page o) (chips_of sc) m Hshort Hpage (fits_in m Hm)) as (d & _ & Ht & Hs).
  unfold tree_in. rewrite Ht, Hs. apply tree_bytes_len. lia.
Qed.
(** The parts of the file. *)
Lemma image_parts : concat (image_writes w o sc l) =
  (QCDT_MAGIC ++ le 4 QCDT_VERSION ++ le 4 (zlen t)) ++ concat (map row_of l) ++
  (le 4 RC_SUCCESS ++ replicate (Z.to_nat (page o - table_end sc mod page o)) 0) ++ concat (map tree_in (masters sc l)).
Proof.
  unfold image_writes. rewrite !concat_app, !concat_map_concat. cbn [concat]. rewrite !app_nil_r.
  rewrite (good_count _ _ _ _ _ Hg). unfold zlen. rewrite (Forall2_length _ _ _ (good_rows _ _ _ _ _ Hg)). by rewrite <- !app_assoc.
Qed.
Lemma image_len : zlen (concat (image_writes w o sc l)) = base o sc + total (siz (chips_of sc)) (masters sc l).
Proof.
  rewrite image_parts, !zlen_app, zlen_replicate, !zlen_le. rewrite (concat_total tree_in (siz (chips_of sc))) by apply tree_in_len.
  assert (zlen (concat (map row_of l)) = 40 * zlen t) as ->.
  { unfold zlen. rewrite (concat_rows_length _ 40) by apply row_len. rewrite (Forall2_length _ _ _ (good_rows _ _ _ _ _ Hg)). lia. }
  pose proof (padding_range o sc Hpage). unfold base. rewrite (table_end_range _ _ _ _ _ Hg) in *. change (zlen QCDT_MAGIC) with 4. lia.
Qed.
Lemma image_nonempty : Forall (fun d => d <> []) (image_writes w o sc l).
Proof.
  unfold image_writes. rewrite !Forall_app. split_and!.
  - by repeat constructor.
  - apply Forall_concat, Forall_map, Forall_forall. intros a _. unfold row_writes. apply Forall_map, Forall_forall. by intros x _.
  - by repeat constructor.
  - constructor; [|done]. pose proof (padding_range o sc Hpage). intros E%(f_equal length). rewrite length_replicate in E. cbn in E. lia.
  - apply Forall_concat, Forall_map, Forall_forall. intros m _. unfold tree_writes. rewrite Forall_app. split; [apply blocks_nonempty|].
    constructor; [|done]. pose proof (Z.mod_pos_bound (zlen (default [] (tree_data w (chips_of sc) m))) (page o)).
    intros E%(f_equal length). rewrite length_replicate in E. cbn [length] in E. lia.
Qed.
End File.

(** Some bytes of a file. *)
Definition slice (off len : Z) (b : list Z) : list Z := take (Z.to_nat len) (drop (Z.to_nat off) b).
Definition row_bytes (i : ids) (off size : Z) : list Z := concat (map (le 4) (id_words i ++ [off; size])).
(** Entry [k] of the table of a combined file of [n] entries names [i] and leads to the
    bytes of the file at [path], filled to pages. *)
Definition entry_reads (w : host) (o : settings) (n : Z) (bytes : list Z) (k : nat) (r : ids * list Z) : Prop :=
  exists d off, contents w (snd r) = Some d /\
    slice (12 + 40 * Z.of_nat k) 40 bytes = row_bytes (fst r) off (padded (page o) (zlen d)) /\
    off mod page o = 0 /\ 16 + 40 * n <= off /\
    slice off (padded (page o) (zlen d)) bytes = tree_bytes (page o) d.

Lemma slice_app a b c off len : off = zlen a -> len = zlen b -> slice off len (a ++ b ++ c) = b.
Proof. intros -> ->. unfold slice, zlen. rewrite !Nat2Z.id, drop_app_length. apply take_app_length. Qed.
Lemma slice_app_r a b off len : zlen a <= off -> slice off len (a ++ b) = slice (off - zlen a) len b.
Proof.
  intros H. unfold slice, zlen in *. f_equal. rewrite drop_app_ge by lia. f_equal. lia.
Qed.
Lemma slice_app_l a b off len : 0 <= off -> 0 <= len -> off + len <= zlen a -> slice off len (a ++ b) = slice off len a.
Proof.
  intros H0 H1 H. unfold slice, zlen in *. rewrite drop_app_le by lia. rewrite take_app_le; [done|]. rewrite length_drop. lia.
Qed.
Lemma place_aligned pg size l m : 0 < pg -> (forall x, x ∈ l -> size x mod pg = 0) -> place_of size m l mod pg = 0.
Proof.
  intros Hp. induction l as [|x l IH]; intros H; cbn [place_of]; [done|]. case_decide; [done|].
  rewrite Z.add_mod, IH, (H x), Z.add_0_l by (first [lia|left|intros y Hy; apply H; by right]). by rewrite Z.mod_0_l by lia.
Qed.

Section Read.
Context (w : host) (o : settings) (sc : scan) (l : list nat) (t : list (ids * list Z)).
Context (Hg : good w o sc l t) (Hpage : 0 < page o <= PAGE_SIZE_MAX) (Hshort : files_short w) (Hfits : fits w o sc l = true).

Lemma base_aligned : base o sc mod page o = 0.
Proof. unfold base. apply padded_aligned. lia. Qed.
Lemma master_in k a : l !! k = Some a -> mas (chips_of sc) a ∈ masters sc l.
Proof.
  intros Hk. unfold masters. rewrite news_sub. split; [|apply not_elem_of_nil]. apply list_elem_of_fmap. exists a. split; [done|].
  by eapply list_elem_of_lookup_2.
Qed.
Lemma master_size m : m ∈ masters sc l -> siz (chips_of sc) m mod page o = 0.
Proof.
  intros Hm. destruct (tree_fits_spec _ _ _ _ Hshort Hpage (fits_in w o sc l Hfits _ Hm)) as (d & _ & _ & ->).
  apply padded_aligned. lia.
Qed.
Lemma image_entry k r : t !! k = Some r -> entry_reads w o (zlen t) (concat (image_writes w o sc l)) k r.
Proof.
  intros Hk. destruct (Forall2_lookup_r _ _ _ _ _ (good_rows _ _ _ _ _ Hg) Hk) as (a & Ha & Hr). fold (chips_of sc) in Hr.
  pose proof (master_in _ _ Ha) as Hm. pose proof (fits_in w o sc l Hfits _ Hm) as Hf.
  destruct (tree_fits_spec _ _ _ _ Hshort Hpage Hf) as (d & Hd & Htree & Hsiz). pose proof (row_name _ _ _ _ _ Hr) as Hname.
  assert (contents w (snd r) = Some d) as Hcont.
  { destruct Hr as (c & m & size & Hc & _ & Hmm & Hfile & _). unfold tree_data, mas in Hd. by rewrite Hc, Hmm, Hfile in Hd. }
  exists d, (base o sc + place_of (siz (chips_of sc)) (mas (chips_of sc) a) (masters sc l)). split; [done|].
  pose proof (place_nonneg (siz (chips_of sc)) (mas (chips_of sc) a) (masters sc l) (size_nonneg _ _ _ _ _ Hg)) as Hpl.
  pose proof (padding_range o sc Hpage) as Hpad. pose proof (table_end_range _ _ _ _ _ Hg) as Hend.
  pose proof (concat_rows_length (row_of o sc l) 40 l (row_len _ _ _)) as Hrows.
  pose proof (Forall2_length _ _ _ (good_rows _ _ _ _ _ Hg)) as Hlt. pose proof (lookup_lt_Some _ _ _ Ha) as Hkl.
  rewrite (image_parts w o sc l t Hg).
  assert (zlen (QCDT_MAGIC ++ le 4 QCDT_VERSION ++ le 4 (zlen t)) = 12) as Hhead by (by rewrite !zlen_app, !zlen_le).
  assert (zlen (concat (map (row_of o sc l) l)) = 40 * zlen l) as Hrows' by (unfold zlen; lia).
  split_and!.
  - rewrite slice_app_r, Hhead by lia. rewrite slice_app_l by (unfold zlen in *; lia).
    unfold slice. replace (Z.to_nat (12 + _ - 12)) with (40 * k)%nat by lia.
    change (Z.to_nat 40) with 40%nat. rewrite (concat_piece (row_of o sc l) 40 l k a (row_len _ _ _) Ha).
    unfold row_of, row_writes, row_bytes. by rewrite Hname, Hsiz.
  - rewrite Z.add_mod, base_aligned, place_aligned by (first [lia|intros x Hx; by apply master_size]). by apply Z.mod_0_l; lia.
  - unfold base. lia.
  - assert (zlen l = zlen t) as Hll by (unfold zlen; lia). pose proof (zlen_nonneg t).
    rewrite slice_app_r, Hhead, slice_app_r, Hrows', slice_app_r, zlen_app, zlen_le, zlen_replicate
      by (rewrite ?Hhead, ?Hrows', ?zlen_app, ?zlen_le, ?zlen_replicate; unfold base; lia).
    unfold slice. replace (Z.to_nat (base o sc + _ - _ - _ - _)) with (Z.to_nat (place_of (siz (chips_of sc)) (mas (chips_of sc) a) (masters sc l)))
      by (unfold base; f_equal; lia).
    rewrite <- Hsiz. rewrite (place_piece _ (siz (chips_of sc))); [exact Htree| |apply (size_nonneg _ _ _ _ _ Hg)|done].
    intros x Hx. by eapply tree_in_len.
Qed.
End Read.

(** * What the tool promises *)

Lemma in_order_ext {A} (k1 k2 : A -> ids) l : (forall a, k1 a = k2 a) -> in_order k1 l -> in_order k2 l.
Proof.
  intros H [Hn Hs]. split; [by rewrite <- (map_ext _ _ H)|]. clear Hn. induction Hs as [|a l _ IH Hf]; constructor; [done|].
  eapply Forall_impl; [done|]. cbn. intros b. by rewrite !H.
Qed.
(** The writing ends, also when the file is too long. *)
Lemma master_end w o sc l t : good w o sc l t -> 0 < page o ->
  exists h r, master_dtb w o sc = Ret (h, r) /\ map core h = map core (mem (sc_chips sc)) /\ is_Some (written r) /\
    (status r = 0 \/ status r = -1) /\ unlinked r = negb (status r =? 0).
Proof.
  intros Hg Hpage. destruct (good_there _ _ _ _ _ Hg) as [Hall Hfile]. pose proof (good_linked _ _ _ _ _ Hg) as Hl.
  pose proof (linked_length _ _ Hl) as Hlen. destruct Hl as (Hd & Hh & Hs). unfold master_dtb. cbv zeta. rewrite Hh.
  set (h0 := mem (sc_chips sc)) in *. match goal with |- context [rows w _ _ _ ?o1 ?e1] =>
    destruct (rows_end w h0 l (S (length h0)) None h0 o1 e1) as (h1 & o2 & e & -> & Hc1 & Hw1); try done; [lia|] end.
  cbn [cbind]. match goal with |- context [trees w _ _ _ _ ?o3 _] =>
    destruct (trees_run w (page o) h0 l (S (length h0)) None h1 o3 [] RC_SUCCESS) as (h2 & out4 & rc & -> & Hc2 & Hrc); try done; [lia| |] end.
  { intros m c Hc. rewrite bool_decide_false by apply not_elem_of_nil. assert (map c_wrote h1 !! m = Some (c_wrote c)) as Hcw by (by rewrite list_lookup_fmap, Hc).
    rewrite Hw1, list_lookup_fmap in Hcw. destruct (h0 !! m) as [c0|] eqn:Hc0; [|done]. injection Hcw as <-.
    by apply (clean_wrote _ _ _ (good_clean _ _ _ _ _ Hg) Hc0). }
  cbn [cbind]. eexists h2, _. split; [done|]. split; [done|]. cbn [status written unlinked]. split; [by eexists|]. split; [|done].
  destruct (negb _); [by right|]. cbv zeta in Hrc. destruct (forallb _ _); [left; apply Hrc|by right].
Qed.

(** C31: chip_add keeps the doubly linked list: on a list whose names are different and
    ascend, a chip with a new name is linked in so that they still do, forwards and
    backwards, and a chip with a name of the list leaves everything as it was and is
    reported; in both cases no chip changes but for its links. *)
Theorem chip_add_keeps_order s l c cc :
  linked s l -> in_order (name (mem s)) l -> c ∉ l -> mem s !! c = Some cc ->
  exists rc s' l', chip_add c s = Ret (rc, s') /\ linked s' l' /\ in_order (name (mem s')) l' /\ bare (mem s') = bare (mem s) /\
    (c_ids cc ∈ map (name (mem s)) l -> rc = RC_ERROR /\ s' = s /\ l' = l) /\
    (c_ids cc ∉ map (name (mem s)) l -> rc = RC_SUCCESS /\ Permutation (c :: l) l').
Proof.
  intros Hl Ho Hn Hc. pose proof (chip_add_enters _ _ _ _ Hl Hn Hc) as H. rewrite <- (name_lookup _ _ _ Hc).
  destruct (enter _ c l) as [l'|] eqn:E; cbn [added] in H.
  - destruct H as (s' & Hs & Hl' & Hb). destruct (enter_order _ _ _ _ Ho E) as [Ho' Hnew]. exists RC_SUCCESS, s', l'.
    split_and!; try done.
    + apply (in_order_ext (name (mem s))); [|done]. intros a. unfold name. by rewrite (name_bare _ _ a Hb).
    + intros _. split; [done|]. destruct (enter_split _ _ _ _ E) as (l1 & l2 & -> & ->). by rewrite Permutation_middle.
  - exists RC_ERROR, s, l. apply enter_None in E. by split_and!.
Qed.

(** What the examples run on. *)
Definition line_of (s : list Z) : list Z := s ++ [10].
Definition small_host (put : nat -> list Z -> Z) : host :=
  {| ulong_max := 2 ^ 64 - 1;
     popen c := Some (match strstr c (zs "b.dtb") with
                      | None => [line_of (zs "qcom,msm-id = <0xce 2 >;"); line_of (zs "qcom,board-id = <8 0 11 0 >;")]
                      | Some _ => [line_of (zs "qcom,msm-id = <5 1 2 >;")]
                      end);
     stat _ := Some 3; contents p := Some [1; 2; zlen p]; put := put |}.
Definition all_written (n : nat) (d : list Z) : Z := zlen d.
Definition one_fails (k n : nat) (d : list Z) : Z := if (n =? k)%nat then -1 else zlen d.
Definition small_args : list option_read := [Opt_o (zs "out"); Opt_s (zs "64"); Opt_arg (zs "d/")].
Definition small_entries : list (list Z * bool) := [(zs "a.dtb", true); (zs "x.c", true); (zs "xb.dtb", true)].
Definition small_dir (d : list Z) : option (list (list Z * bool)) := Some small_entries.
Definition small_settings : settings := {| dir := zs "d/"; dtc := []; page := 64 |}.
Definition two_chips : chips :=
  {| mem := [fresh 0 {| chipset := 5; platform := 0; subtype := 0; revNum := 1; pmic := (0, 0, 0, 0) |};
             fresh 0 {| chipset := 4; platform := 0; subtype := 0; revNum := 1; pmic := (0, 0, 0, 0) |}];
     chip_list := Some 0%nat |}.
Lemma chip_add_keeps_order_witness :
  exists rc s' l', chip_add 1 two_chips = Ret (rc, s') /\ linked s' l' /\ in_order (name (mem s')) l' /\
    bare (mem s') = bare (mem two_chips) /\
    (c_ids (fresh 0 {| chipset := 4; platform := 0; subtype := 0; revNum := 1; pmic := (0, 0, 0, 0) |}) ∈ map (name (mem two_chips)) [0%nat] ->
     rc = RC_ERROR /\ s' = two_chips /\ l' = [0%nat]) /\
    (c_ids (fresh 0 {| chipset := 4; platform := 0; subtype := 0; revNum := 1; pmic := (0, 0, 0, 0) |}) ∉ map (name (mem two_chips)) [0%nat] ->
     rc = RC_SUCCESS /\ Permutation [1%nat; 0%nat] l').
Proof.
  apply chip_add_keeps_order.
  - split; [apply NoDup_singleton|]. split; [done|]. split; [|done]. by eexists.
  - split; [apply NoDup_singleton|by repeat constructor].
  - by intros ?%list_elem_of_singleton.
  - done.
Defined.

(** ** What a table lists *)

(** A table [t] for the trees [ts], each the path of its file and its chips:
    - the names are different, and ascend by chipset, platform, subtype and revision;
    - a row comes from a tree at its path that names the chip, and that tree's first
      chip has a row of its own with this path;
    - of every tree, either the first chip is listed with its path, and all the other
      chips are listed, or the first chip is listed from a tree before it. In the
      second case none of its rows is there: its other chips are lost unless another
      tree brings them. *)
Record lists (ts : list (list Z * list ids)) (t : list (ids * list Z)) : Prop := {
  lists_order : in_order fst t;
  lists_from i path : (i, path) ∈ t -> exists i0 il, (path, i0 :: il) ∈ ts /\ i ∈ i0 :: il /\ (i0, path) ∈ t;
  lists_all ts1 path i il ts2 : ts = ts1 ++ (path, i :: il) :: ts2 ->
    ((i, path) ∈ t /\ forall j, j ∈ il -> j ∈ map fst t) \/
    (exists q jl, (q, jl) ∈ ts1 /\ i ∈ jl /\ (i, q) ∈ t)
}.
(** All rows there could be. *)
Definition chip_rows (ts : list (list Z * list ids)) : list (ids * list Z) :=
  concat (map (fun '(path, il) => map (fun i => (i, path)) il) ts).

(** An entered row is the new one or an old one. *)
Lemma enter_rows (r : ids * list Z) t x :
  x ∈ default t (enter fst r t) <-> x ∈ t \/ x = r /\ is_Some (enter fst r t).
Proof.
  destruct (enter fst r t) as [t'|] eqn:E; cbn [default from_option id].
  - destruct (enter_split _ _ _ _ E) as (l1 & l2 & -> & ->). rewrite !elem_of_app, elem_of_cons.
    split; [|naive_solver]. intros [|[->|]]; eauto.
  - split; [tauto|]. by intros [|[_ [? ?]]].
Qed.
Lemma enter_keeps (r : ids * list Z) t x : x ∈ t -> x ∈ default t (enter fst r t).
Proof. rewrite enter_rows. tauto. Qed.
Lemma enter_has (r : ids * list Z) t : fst r ∈ map fst (default t (enter fst r t)).
Proof.
  destruct (enter fst r t) as [t'|] eqn:E; cbn [default from_option id]; [|by apply enter_None in E].
  destruct (enter_split _ _ _ _ E) as (l1 & l2 & _ & ->). rewrite map_app. cbn [map]. apply elem_of_app. right. left.
Qed.
Lemma add_rows_keep path il t x : x ∈ t -> x ∈ fold_left (add_row path) il t.
Proof. revert t. induction il as [|i il IH]; intros t Hx; [done|]. cbn [fold_left]. by apply IH, enter_keeps. Qed.
Lemma add_rows_order path il t : in_order fst t -> in_order fst (fold_left (add_row path) il t).
Proof. revert t. induction il as [|i il IH]; intros t Ht; [done|]. cbn [fold_left]. by apply IH, enter_in_order. Qed.
Lemma add_rows_from path il t x : x ∈ fold_left (add_row path) il t -> x ∈ t \/ snd x = path /\ fst x ∈ il.
Proof.
  revert t. induction il as [|i il IH]; intros t; [by left|]. cbn [fold_left]. intros [Hx|[Hp Hi]]%IH; [|right; by split; [|right]].
  unfold add_row in Hx. rewrite enter_rows in Hx. destruct Hx as [Hx|[-> _]]; [by left|]. right. by split; [|left].
Qed.
Lemma add_rows_all path il t j : j ∈ il -> j ∈ map fst (fold_left (add_row path) il t).
Proof.
  revert t. induction il as [|i il IH]; intros t Hj; [by apply not_elem_of_nil in Hj|]. cbn [fold_left].
  apply elem_of_cons in Hj as [->|Hj]; [|by apply IH].
  pose proof (enter_has (i, path) t) as (x & E & Hx)%list_elem_of_fmap.
  apply list_elem_of_fmap. exists x. split; [exact E|]. by apply add_rows_keep.
Qed.
Lemma split_last {A} (ts ts1 ts2 : list A) x y : ts ++ [x] = ts1 ++ y :: ts2 ->
  (ts2 = [] /\ ts = ts1 /\ x = y) \/ (exists ts3, ts2 = ts3 ++ [x] /\ ts = ts1 ++ y :: ts3).
Proof.
  destruct ts2 as [|z ts3 _] using rev_ind; intros E.
  - left. by apply app_inj_tail in E as [-> ->].
  - right. exists ts3. rewrite app_comm_cons, app_assoc in E. by apply app_inj_tail in E as [-> ->].
Qed.
(** One more tree. *)
Lemma lists_tree ts t tree : lists ts t -> lists (ts ++ [tree]) (tree_rows t tree).
Proof.
  intros [Ho Hf Ha]. destruct tree as [path il].
  assert (forall x, x ∈ t -> x ∈ tree_rows t (path, il)) as Hkeep.
  { intros x Hx. cbn [tree_rows]. destruct il as [|i il]; [done|].
    destruct (enter fst (i, path) t) as [t'|] eqn:E; [|done]. apply add_rows_keep.
    pose proof (enter_keeps (i, path) t x Hx) as H. by rewrite E in H. }
  split.
  - cbn [tree_rows]. destruct il as [|i il]; [done|]. destruct (enter fst (i, path) t) as [t'|] eqn:E; [|done].
    apply add_rows_order, (enter_order _ _ _ _ Ho E).
  - intros i q. assert ((i, q) ∈ t -> exists i0 jl, (q, i0 :: jl) ∈ ts ++ [(path, il)] /\ i ∈ i0 :: jl /\ (i0, q) ∈ tree_rows t (path, il)) as Hold.
    { intros (i0 & jl & Hq & Hi & H0)%Hf. exists i0, jl. rewrite elem_of_app. eauto. }
    cbn [tree_rows] in *. destruct il as [|i0 il]; [exact Hold|]. destruct (enter fst (i0, path) t) as [t'|] eqn:E; [|exact Hold].
    assert (forall x, x ∈ t' <-> x ∈ t \/ x = (i0, path)) as Ht'.
    { intros x. destruct (enter_split _ _ _ _ E) as (l1 & l2 & -> & ->). rewrite !elem_of_app, elem_of_cons. tauto. }
    assert ((i0, path) ∈ fold_left (add_row path) il t') as H0 by (apply add_rows_keep, Ht'; tauto).
    intros Hx. destruct (add_rows_from _ _ _ _ Hx) as [[Hx'|[= -> ->]]%Ht'|[Hq Hi]].
    + by apply Hold.
    + exists i0, il. rewrite elem_of_app, list_elem_of_singleton. repeat split; [by right|left|done].
    + cbn in Hq, Hi. subst q. exists i0, il. rewrite elem_of_app, list_elem_of_singleton. repeat split; [by right|by right|done].
  - intros ts1 q i jl ts2 E. apply split_last in E as [(-> & -> & [= -> ->])|(ts3 & -> & ->)].
    + cbn [tree_rows]. destruct (enter fst (i, q) t) as [t'|] eqn:E.
      * left. split; [|intros j Hj; by apply add_rows_all]. apply add_rows_keep.
        destruct (enter_split _ _ _ _ E) as (l1 & l2 & _ & ->). rewrite elem_of_app. right. left.
      * right. apply enter_None in E. apply list_elem_of_fmap in E as ([i' p] & Ei & Hi). cbn in Ei. subst i'.
        destruct (Hf _ _ Hi) as (i0 & kl & Hp & Hk & _). exists p, (i0 :: kl). done.
    + destruct (Ha ts1 q i jl ts3 eq_refl) as [[Hi Hj]|(p & kl & Hp & Hk & Hi)].
      * left. split; [by apply Hkeep|]. intros j (x & Ex & Hx)%Hj%list_elem_of_fmap. apply list_elem_of_fmap. eauto.
      * right. exists p, kl. eauto.
Qed.
(** The scan's rows are such a table. *)
Lemma table_lists w o es : lists (omap (tree_of w o) es) (table w o es).
Proof.
  unfold table. generalize (omap (tree_of w o) es) as ts. intros ts.
  induction ts as [|tree ts IH] using rev_ind.
  - split; [by split; constructor|by intros i path ?%elem_of_nil|by intros [|] ?].
  - rewrite fold_left_app. by apply lists_tree.
Qed.

(** The rows are among all rows there could be, and take no more room. *)
Lemma sizes_submseteq w o t1 t2 : t1 ⊆+ t2 ->
  foldr Z.add 0 (map (fun r => dtb_size w o (snd r)) t1) <= foldr Z.add 0 (map (fun r : ids * list Z => dtb_size w o (snd r)) t2).
Proof.
  assert (forall r : ids * list Z, 0 <= dtb_size w o (snd r)) as Hn by (intros r; unfold dtb_size, u32; by apply Z.mod_pos_bound).
  induction 1 as [|x t1 t2 _ IH|x y t|x t1 t2 _ IH|t1 t2 t3 _ IH1 _ IH2]; cbn [map foldr]; try lia.
  specialize (Hn x). lia.
Qed.
Lemma room_submseteq w o t1 t2 : t1 ⊆+ t2 -> room w o t1 <= room w o t2.
Proof.
  intros H. unfold room. pose proof (sizes_submseteq w o _ _ H).
  assert (zlen t1 <= zlen t2) by (unfold zlen; apply submseteq_length in H; lia). lia.
Qed.
Lemma enter_submseteq (r : ids * list Z) t : default t (enter fst r t) ⊆+ t ++ [r].
Proof.
  destruct (enter fst r t) as [t'|] eqn:E; cbn [default from_option id]; [|by apply submseteq_inserts_r].
  destruct (enter_split _ _ _ _ E) as (l1 & l2 & -> & ->). apply Permutation_submseteq.
  rewrite <- app_assoc. apply Permutation_app_head. by rewrite Permutation_app_comm.
Qed.
Lemma add_rows_submseteq path il t : fold_left (add_row path) il t ⊆+ t ++ map (fun i => (i, path)) il.
Proof.
  revert t. induction il as [|i il IH]; intros t; cbn [fold_left map]; [by rewrite app_nil_r|].
  etransitivity; [apply IH|]. change ((i, path) :: map (fun i => (i, path)) il) with ([(i, path)] ++ map (fun i => (i, path)) il).
  rewrite app_assoc. apply submseteq_skips_r, enter_submseteq.
Qed.
Lemma tree_rows_submseteq t path il : tree_rows t (path, il) ⊆+ t ++ map (fun i => (i, path)) il.
Proof.
  cbn [tree_rows]. destruct il as [|i il]; [by rewrite app_nil_r|].
  pose proof (enter_submseteq (i, path) t) as H. destruct (enter fst (i, path) t) as [t'|]; [|by apply submseteq_inserts_r].
  etransitivity; [apply add_rows_submseteq|]. cbn [map]. change ((i, path) :: map (fun i => (i, path)) il) with ([(i, path)] ++ map (fun i => (i, path)) il).
  rewrite app_assoc. by apply submseteq_skips_r.
Qed.
Lemma table_room w o es : room w o (table w o es) <= room w o (chip_rows (omap (tree_of w o) es)).
Proof.
  apply room_submseteq. unfold table. generalize (omap (tree_of w o) es) as ts. intros ts.
  induction ts as [|[path il] ts IH] using rev_ind; [done|]. rewrite fold_left_app. cbn [fold_left].
  etransitivity; [apply tree_rows_submseteq|]. unfold chip_rows. rewrite map_app, concat_app. cbn [map concat].
  rewrite app_nil_r. by apply submseteq_skips_r.
Qed.

(** C30: when the tool reports success and wrote a file, the file has a table [t] of
    the directory's trees in which every row names a chip of a tree, no name stands
    twice and the names ascend by chipset, platform, subtype and revision (pmic0 to
    pmic3 make names different but do not order them); a tree whose first chip is
    listed from an earlier tree is left out with all its chips, of every other tree
    each chip is listed, from it or another one. Every entry of the table leads to its
    tree: at the offset of the entry, a multiple of the page size behind the table,
    there are the bytes of the file, filled with zeros to the size the entry gives.
    This holds whatever the writes returned, for files of together less than two
    gigabytes. *)
Theorem table_reads_back w es args o entries r bytes :
  parse_commandline args = Some o -> es (dir o) = Some entries -> honest w -> files_short w ->
  room w o (chip_rows (omap (tree_of w o) entries)) < 2147483648 ->
  dtbtool w es args = Ret r -> status r = 0 -> written r = Some bytes ->
  exists t, lists (omap (tree_of w o) entries) t /\ unlinked r = false /\
    slice 0 12 bytes = QCDT_MAGIC ++ le 4 QCDT_VERSION ++ le 4 (zlen t) /\
    forall k row, t !! k = Some row -> entry_reads w o (zlen t) bytes k row.
Proof.
  intros Hargs Hes Hw Hs Hroom. pose proof (table_room w o entries). unfold dtbtool. rewrite Hargs, Hes. pose proof (page_in_range _ _ Hargs) as Hpage.
  destruct (scan_dir_good w o entries no_chips [] [] (no_chips_good w o)) as (sc & l & -> & Hg). cbn [cbind].
  fold (table w o entries) in Hg. pose proof (table_lists w o entries) as Hlists. set (t := table w o entries) in *.
  destruct (dtb_count sc =? 0); [destruct (chip_deleteall _); by intros [= <-]|].
  destruct (master_run w o sc l t Hg Hpage (wide _ Hw) ltac:(lia)) as (h & r' & -> & Hc & Hu & _ & _ & Hst & Hwr). cbn [cbind].
  rewrite (deleteall_run _ h l (good_linked _ _ _ _ _ Hg) Hc). cbn [cbind]. intros [= <-] H0 Hb.
  rewrite (Hwr H0) in Hb. apply Some_inj in Hb. apply Hst in H0 as Hok. destruct Hok as [Hfits Hsum].
  rewrite <- (image_len w o sc l t Hg Hpage Hs Hfits) in Hsum.
  assert (bytes = concat (image_writes w o sc l)) as ->.
  { rewrite <- Hb. apply all_sent; [done|by apply image_nonempty|rewrite (image_len w o sc l t Hg Hpage Hs Hfits)|done].
    pose proof (masters_total w o sc l t Hg Hpage). lia. }
  exists t. split; [done|]. split; [by rewrite Hu, H0|]. split.
  - rewrite (image_parts w o sc l t Hg). apply (slice_app []); [done|]. by rewrite !zlen_app, !zlen_le.
  - intros k row Hk. by apply image_entry.
Qed.


Lemma all_fit w o sc l t : good w o sc l t ->
  (forall p n, stat w p = Some n -> exists d, contents w p = Some d /\ zlen d = n) -> fits w o sc l = true.
Proof.
  intros Hg Hstat. apply forallb_forall. intros m Hm%list_elem_of_In. unfold masters in Hm. apply news_sub in Hm as [Hm _].
  apply list_elem_of_fmap in Hm as (a & -> & [k Hk]%list_elem_of_lookup).
  destruct (Forall2_lookup_l _ _ _ _ _ (good_rows _ _ _ _ _ Hg) Hk) as (r & _ & (c & m & size & Hc & _ & Hm & Hf & Hs & Hz)).
  destruct (Hstat _ _ Hs) as (d & Hd & <-). fold (chips_of sc) in *.
  unfold tree_fits, tree_data, mas, siz. rewrite Hc, Hm, Hf, Hd, Hz. apply Z.eqb_refl.
Qed.

(** When every write is complete and the files have the sizes stat(2) gave, the tool
    succeeds, and writes a file when the directory has a tree with a chip. *)
Theorem dtbtool_succeeds w es args o entries :
  parse_commandline args = Some o -> es (dir o) = Some entries -> (forall n d, put w n d = zlen d) ->
  4294967296 <= ulong_max w + 1 -> (forall p n, stat w p = Some n -> exists d, contents w p = Some d /\ zlen d = n) ->
  files_short w -> room w o (table w o entries) < 2147483648 ->
  exists r, dtbtool w es args = Ret r /\ status r = 0 /\ unlinked r = false /\
    (table w o entries <> [] <-> is_Some (written r)).
Proof.
  intros Hargs Hes Hput Hmax Hstat Hs Hroom. unfold dtbtool. rewrite Hargs, Hes. pose proof (page_in_range _ _ Hargs) as Hpage.
  destruct (scan_dir_good w o entries no_chips [] [] (no_chips_good w o)) as (sc & l & -> & Hg). cbn [cbind].
  fold (table w o entries) in Hg. set (t := table w o entries) in *.
  pose proof (good_count _ _ _ _ _ Hg) as Hc. pose proof (Forall2_length _ _ _ (good_rows _ _ _ _ _ Hg)) as Hlen.
  destruct (dtb_count sc =? 0) eqn:Hn.
  - pose proof (good_linked _ _ _ _ _ Hg) as Hl. destruct (sc_chips sc) as [h p] eqn:Esc.
    pose proof (deleteall_run {| mem := h; chip_list := p |} h l Hl eq_refl) as Hdel. cbn [chip_list] in Hdel. rewrite Hdel. cbn [cbind].
    assert (t = []) as Ht by (apply length_zero_iff_nil; rewrite <- Hlen; b2p; unfold zlen in Hc; lia).
    eexists. split; [done|]. cbn [status written unlinked]. split; [by apply (good_rc _ _ _ _ _ Hg)|]. split; [done|].
    split; [done|by intros []].
  - destruct (master_run w o sc l t Hg Hpage Hmax Hroom) as (h & r & -> & Hcore & Hu & Hwr & _ & Hst & _). cbn [cbind].
    rewrite (deleteall_run _ h l (good_linked _ _ _ _ _ Hg) Hcore). cbn [cbind]. exists r. split; [done|].
    pose proof (all_fit w o sc l t Hg Hstat) as Hfits. pose proof (image_len w o sc l t Hg Hpage Hs Hfits) as Hil.
    pose proof (masters_total w o sc l t Hg Hpage). assert (status r = 0) as H0.
    { apply Hst. split; [done|]. rewrite (sent_full _ _ _ Hput), Hil. unfold size_t. rewrite Z.mod_small; [done|].
      pose proof (zlen_nonneg (concat (image_writes w o sc l))). lia. }
    split; [done|]. split; [by rewrite Hu, H0|]. split; [done|]. intros _ E. rewrite E in Hlen. b2p. unfold zlen in Hc. cbn in Hlen. lia.
Qed.


Definition small_file : list Z :=
  match dtbtool (small_host all_written) small_dir small_args with Ret r => default [] (written r) | _ => [] end.
Lemma small_honest k : honest (small_host (one_fails k)).
Proof.
  split; [|by vm_compute]. intros n d. cbn [put small_host]. unfold one_fails. pose proof (zlen_nonneg d). destruct (_ =? _)%nat; lia.
Qed.
Lemma small_short p : files_short (small_host p).
Proof. intros q d [= <-]. unfold zlen. cbn. lia. Qed.

Lemma table_reads_back_witness :
  exists t, lists (omap (tree_of (small_host (one_fails 1000)) small_settings) small_entries) t /\ false = false /\
    slice 0 12 small_file = QCDT_MAGIC ++ le 4 QCDT_VERSION ++ le 4 (zlen t) /\
    forall k row, t !! k = Some row ->
      entry_reads (small_host (one_fails 1000)) small_settings (zlen t) small_file k row.
Proof.
  apply (table_reads_back (small_host (one_fails 1000)) small_dir small_args small_settings small_entries
           {| status := 0; written := Some small_file; unlinked := false |} small_file).
  - by vm_compute.
  - done.
  - apply small_honest.
  - apply small_short.
  - by vm_compute.
  - by vm_compute.
  - done.
  - done.
Defined.

Lemma dtbtool_succeeds_witness :
  exists r, dtbtool (small_host all_written) small_dir small_args = Ret r /\ status r = 0 /\ unlinked r = false /\
    (table (small_host all_written) small_settings small_entries <> [] <-> is_Some (written r)).
Proof.
  apply (dtbtool_succeeds (small_host all_written) small_dir small_args small_settings small_entries).
  - by vm_compute.
  - done.
  - done.
  - by vm_compute.
  - intros p n [= <-]. by eexists.
  - apply small_short.
  - by vm_compute.
Defined.

(** A write that fails is noticed at the end only, and the file is removed. *)
Example failed_write_removed :
  match dtbtool (small_host (one_fails 20)) small_dir small_args with
  | Ret r => (status r, unlinked r) | _ => (0, false)
  end = (-1, true).
Proof. by vm_compute. Qed.

(** When the first chip of a tree is known already, its other chips are lost: with
    the same two files in the other order both are listed. *)
Definition hiding_host : host :=
  {| ulong_max := 2 ^ 64 - 1;
     popen c := Some (match strstr c (zs "b.dtb") with
                      | None => [line_of (zs "qcom,msm-id = <5 1 2 >;")]
                      | Some _ => [line_of (zs "qcom,msm-id = <5 1 2 6 1 2 >;")]
                      end);
     stat _ := Some 3; contents p := Some [1; 2; 3]; put := all_written |}.
Definition listed_chips (es : list (list Z * bool)) : option Z :=
  match dtbtool hiding_host (fun _ => Some es) small_args with
  | Ret r => written r ≫= (fun b => nth_error b 8) | _ => None
  end.
Lemma duplicate_hides_chips :
  map (fun r => chipset (fst r)) (chip_rows (omap (tree_of hiding_host small_settings) small_entries)) = [5; 5; 6] /\
  listed_chips small_entries = Some 1 /\ listed_chips (rev small_entries) = Some 2.
Proof. by vm_compute. Qed.
(** Chips that differ in pmic0 only stay in the order they came in. *)
Lemma pmic_does_not_order :
  let chip p := {| chipset := 5; platform := 0; subtype := 0; revNum := 1; pmic := (p, 0, 0, 0) |} in
  enter fst (chip 1, zs "b") [(chip 2, zs "a")] = Some [(chip 2, zs "a"); (chip 1, zs "b")].
Proof. by vm_compute. Qed.
(** A table that ends at a page is followed by a page of zeros all the same. *)
Lemma aligned_table_padded : padded 56 (12 + 40 * 1 + 4) = 112.
Proof. done. Qed.
